(* ===== verification/_CoqProject ===== *)
-Q . S2P
Prelude.v
F64.v
Solana.v
CalcCommon.v
PumpSwapCalc.v
Accounts.v
Spl.v
FastFn.v
PumpFunCalc.v
PumpFunUtils.v
BondingCurve.v
BonkCalc.v
RaydiumCalc.v
Price.v
Simd.v
RingBuffer.v
MemoryPool.v
MmapBuffer.v
GasFee.v
Effects.v
Text.v
FloatText.v
Queue.v
Concurrent.v
Borsh.v
PumpSwapUtils.v
PoolTypes.v
Params.v
TradeStore.v
Client.v
Trader.v
Grpc.v
Stream.v
Strategy.v
Wsol.v
IxCommon.v
PumpSwapIx.v
PumpFunIx.v
BonkIx.v
RaydiumIx.v
MeteoraIx.v
Factory.v
TxBuild.v
Channels.v
Confirm.v
Submit.v
ParamsRpc.v
Http.v
Quic.v
Sender.v
Collector.v
Keepalive.v
Pools.v
Log.v
Compiler.v
Bypass.v
Executor.v
Middlewares.v
Startup.v
Workers.v
KernelBypass.v
LowLatency.v
Dispatch.v
WorkerRace.v
Protocol.v
Realtime.v
Wallet.v
Sent.v
Bot.v
Demos.v
DemoTrades.v
Cli.v
CliSession.v
