(* ===== verification/Prelude.v ===== *)
(** * PumpSwap bot and sol-trade-sdk: verification library

    The repository is a Solana trading bot (src/src) and the trading library it
    drives (src/sol-trade-sdk, "sdk" below; "bot" stands for src/src and "sdk"
    for src/sol-trade-sdk/src in every source reference, "ex" for
    src/sol-trade-sdk/examples).  The bot's Cargo.toml
    names the published library of the same version; the copy in the repository
    is what is modelled.

    ** The program and how its parts meet

    The program reads its configuration, makes the trader and the store and
    subscribes (Bot).  A gRPC stream delivers the swaps of PumpSwap pools (Grpc);
    a task per event sends it to the task that receives (Stream), and each
    becomes a record of a token's price in Redis (TradeStore).  Once a second
    the strategy
    (Strategy) looks at every token with records: it buys a token whose recent
    prices rise by a threshold, and sells a held one whose price has moved
    enough.  To trade, the trader (Trader) finds the token's pool through the
    RPC node (PumpSwapUtils), remembers it, and hands the pool's parameters
    (Params) to the client (Client), which checks them and passes a swap to the
    executor (Executor).  The executor has the builder of the protocol (Factory;
    PumpSwapIx, PumpFunIx, BonkIx, RaydiumIx, MeteoraIx) make the instructions
    and submits them (Submit): one job per submission channel and gas fee
    strategy (GasFee), each building its transaction with compute budget, tip
    and nonce (TxBuild) and handing it to the client of its channel (Sender, over
    Http and Quic).  A collector gathers the results (Collector) and the
    signatures are polled until one is confirmed (Confirm).  The jobs run on
    threads or tasks that the first submission makes for the whole process
    (Workers), and the encodings use pools of buffers (Pools).  Start-up makes
    the rents, the channels and the client (Startup); the client also serves its
    own wallet (Wallet), and tasks of their own keep the channels' connections
    warm (Keepalive).  The library's example programs follow a stream or take a
    pool and trade once (Demos); one of them is a command line (Cli).

    ** Files

    - Prelude: outcomes of Rust code ([exec]: a value or a panic; [result]),
      machine integers with both build profiles ([Build]), hints and tactics.
    - F64: IEEE doubles as Rust uses them, on the Standard Library's executable
      specification.  Effects: asynchronous code as [M E A] over an environment
      [E]; the RPC node ([Rpc]), time-outs, text of numbers and keys; [Journal],
      an environment that remembers what was done in it.  Text: searching,
      trimming, splitting and parsing of strings; FloatText: doubles as text, read
      and written.  Queue: crossbeam's bounded queue as a
      class.  Concurrent: callers of one function as a transition system, what
      is kept in it, and how its runs end.
    - Solana, Accounts: keys, instructions, constant tables (sdk constants/,
      instruction/utils/).  The Solana SDK's address derivation and system
      instructions are the class [Sdk].
    - Spl, FastFn, Wsol: token instructions, token accounts, the process-wide
      caches (sdk common/spl_*.rs, seed.rs, fast_fn.rs,
      trading/common/wsol_manager.rs).  A [prog] asks the caches; [run] executes
      it on them, [eval] derives everything afresh.
    - CalcCommon, PumpSwapCalc, PumpFunCalc, BonkCalc, RaydiumCalc, Price,
      BondingCurve: sdk utils/calc/, utils/price/, common/bonding_curve.rs,
      common/global.rs.
    - GasFee: sdk common/gas_fee_strategy.rs; an operation is a list of atomic
      updates, so that interleavings can be stated.
    - Borsh, PoolTypes: decoding of account data, the account types of the
      pools (sdk instruction/utils/*_types.rs).
    - PumpFunUtils, PumpSwapUtils, Params, ParamsRpc: sdk instruction/utils/,
      trading/core/params.rs, common/nonce_cache.rs, common/address_lookup.rs.
    - IxCommon, PumpSwapIx, PumpFunIx, BonkIx, RaydiumIx, MeteoraIx, Factory:
      sdk instruction/, trading/factory.rs.  Client: sdk lib.rs.
    - TxBuild, Submit, Collector, Confirm, Executor, Sent: sdk trading/common/,
      trading/core/, trading/middleware/, swqos/common.rs.  Sent puts the whole
      path from a trade to the channels together; Middlewares: clients with
      middlewares that only look at the instructions.
    - Workers: the pools of threads and tasks of sdk
      trading/core/async_executor.rs.  Pools: sdk swqos/serialization.rs,
      trading/core/transaction_pool.rs.  Log: sdk common/sdk_log.rs.
    - Channels, Http, Quic, Sender, Keepalive: sdk constants/swqos.rs, swqos/.
    - Startup, Wallet: sdk lib.rs, common/types.rs, trading/common/utils.rs.
    - Simd, RingBuffer, MemoryPool, MmapBuffer, Bypass, Compiler: sdk
      perf/simd.rs, hardware_optimizations.rs, zero_copy_io.rs,
      syscall_bypass.rs, compiler_optimization.rs, common/clock.rs,
      common/fast_timing.rs.
    - KernelBypass, LowLatency, Dispatch, WorkerRace, Protocol, Realtime: the
      modules of sdk perf/ that perf/mod.rs does not declare (kernel_bypass.rs,
      ultra_low_latency.rs, protocol_optimization.rs, realtime_tuning.rs), as
      they would be compiled; nothing else uses them.
    - TradeStore, Trader, Grpc, Stream, Strategy, Bot: bot trading.rs (the
      store and the trader), config.rs, grpc_subscriber.rs, strategy.rs,
      main.rs.
    - Demos, DemoTrades: the example programs of the library (ex */src/main.rs)
      and what becomes of their trades.  Cli, CliSession: the one with a command
      line (ex cli_trading/src/main.rs), on a session of typed lines and printed
      text, and what its sessions do.

    Definitions keep the source's names; where two files of the source use one
    name, a prefix tells the protocol.  The comment above a definition names
    the lines it translates.

    ** What is shown

    - Strategy: what one look at a token does to the positions, on every
      outcome, by the price and the rise that the store answers at that look; over any number of rounds the positions agree with the remembered
      pools, which are never replaced; a purchase skipped for lack of balance
      opens a position all the same; an empty position ends the loop with an
      error; the units of the two prices compared differ.
    - Stream, Bot: every update of a trade that is received is in the store
      unless the store refused it, whatever the order of the tasks; a bot with
      Jito enabled never closes a position; a bot whose store does not open
      starts, runs without an error and never trades.
    - Trader: a purchase on every branch; the retry loop ends after the
      configured attempts with the pauses it documents; parameters rebuilt from
      a remembered pool lose the mayhem flag.
    - TradeStore: storing refines an abstract store without duplicates and with
      bounded lists; reading gives back what was stored; the latest price is
      that of the record stored last.
    - Builders: the instructions of a purchase and of a sale of PumpSwap and of
      Pump.fun, and the rejections; no instruction of any builder needs a
      signature other than the payer's; PumpSwapUtils: the places where a pool is
      looked for, in their order, and that a pool found trades the mint.
    - From a trade to the channels (TxBuild, Submit, Executor, Sent): the shape
      of a transaction; a purchase is sent at most once; whatever is handed to a
      channel was made by the builder and pays a tip to an account of that
      channel only; a confirmed trade is reported as a success; a failure before
      submission leaves no trace.
    - Collector: the collector returns the results of the tasks in the order in
      which they finished, whatever the interleaving of tasks and consumer; a
      wake-up can be lost, and a pool
      whose workers wait makes progress.  Workers: however many submissions
      race, one pool is made, and all use it.  Confirm: polling ends.
    - Sender, Quic, Startup: what an answer of each service is taken for; a
      closed connection is replaced whenever some address answers; every
      configured channel exists; a refresh that fails keeps the rents.
    - Keepalive: most clients' pings end when the client is made, since a clone
      is dropped; Stellium's never end.  Pools: pooled encoding is encoding.
      Log: what is shown of an error, and the lines of a trade's timing.
    - PoolTypes, ParamsRpc, Wallet: which account data a decoder accepts; zero
      keys shift a lookup table; an operation of the wallet sends at most once,
      and nothing, without an error, just when the account to be closed is not
      there.
    - Arithmetic: each quote is the best integer the curve allows, errors are
      characterised, round trips never profit the trader, and the overflow
      conditions under which this holds are explicit; a price that does not fit
      in 64 bits is cut ([PumpSwapCalc.cut_price_profits]).
    - FastFn: the caches are invisible.  GasFee: exclusivity is kept by
      sequential operations and lost by concurrent ones; the table after the
      global and the high-low operations.  Spl: seeded accounts are created at
      the address that is looked up.  PumpFunUtils: the creator vault is never
      that of the default creator.
    - Simd: simd.rs is exact, the copies of hardware_optimizations.rs reach up
      to 31 bytes further than asked.  RingBuffer: a queue under every
      interleaving of one producer and one consumer.  MemoryPool: no block is
      ever shared, whatever the threads do; data stays in its block.
      MmapBuffer: a queue where copies fill their size classes, and what is
      overwritten where they do not.  Bypass: how far the clocks are from the
      machine's, which blocks of the allocator overlap, which batches are lost.
    - LowLatency, Dispatch: statistics recorded by any number of threads are
      those of the list of latencies; events of a client stay in order, unless
      its first two race; workers take every event.  WorkerRace: several workers
      process each event once, in order only when there is one of them.
      KernelBypass: a packet that is sent is read back, and what is lost after a
      lap or with two senders.  Protocol: what inline and cached serialization write, and how
      far.  Realtime: which settings are applied, once or twice.
    - Middlewares: middlewares that hand on what they get change nothing of a
      trade.  Demos: callbacks that run at once start one task, and start it if
      there is an event for it.  DemoTrades: programs that look for their tokens
      in another account than the one they bought into, a sale at any price,
      wallets on one infrastructure.  CliSession: a command
      prints and reads no line, a session ends when it is told to and not
      otherwise, so never at the end of its input, which tokens it cannot sell, which purchases lack an
      account, and how the guard of the wrapping overflows.

    ** Bounds and fuel

    The retry loop has as fuel the number of attempts of the configuration,
    which is the bound of the source's loop; making the wrapped-SOL account at
    start-up has the three attempts of the source.  The monitoring loop never
    ends in the source but by an error; its model runs [n] rounds, for every
    [n].  Polling has sixteen turns: the clock advances by a second a turn at
    least and the source stops after fifteen ([Confirm.poll_returns]).  The
    loops of Simd have one turn per byte, which is enough ([simd_exact]).
    Replacing, trimming and splitting of strings have the length of the string
    as fuel, and each turn takes a character at least.  A session of the command
    line has any number of prompts, and each takes one line: one more than the
    lines before the one that ends it is enough ([CliSession.session_ends_when_told]).  The loops that run until a task
    is stopped (refreshing rents, pings, workers, the monitor of latencies) are
    steps, or run for any given number of turns; a compare-and-swap may fail any
    number of times, and each call can still return ([LowLatency.record_finishes]).
    Counters of 64 bits that must not wrap carry the length of the run that
    keeps them below.  Other recursions are structural.

    ** Assumptions

    Services and crates are classes, with laws where a law is needed: [Sdk]
    (seeded addresses), [TxSdk] (compiling and signing), [SdkSigners] (who
    signs the system instructions), [KeyText] (printing a key and parsing it
    back), [Redis] (the documented meaning of the commands used), [TradeJson]
    (the derived codec round-trips), [Borsh] (the format of the basic types),
    [SplAta], [TxErrorText], [Sha256], [HashOrder], [SignatureText], [Codec] and
    [Wire] (encodings, HTTP and gRPC), [QuicNet], [NodeTx], [Simulation],
    [Confirm] (the node and the clock), [Scheduler] (which jobs finish in
    time), [Machine] (cores), [Cpu], [Mmap], [Yellowstone] (the stream and its
    parser), [Host] (files, command line), [ArrayQueue], [Health], [Clocks],
    [Files], [Events] (the events of the unchecked serializer), [Topology] and
    [Kernel] (processors and system calls); for the examples [EnvVars]
    (environment variables), [DexStream] (the parser's queue), [UiBalances]
    (balances as the node shows them) and [SolText] (a number of SOL as text).
    The interfaces between components
    are classes too and are discharged here: [Trading] by the client, [Executor]
    by [Executor.executor], [Sending] by [Sender.channel_sending].  Every theorem
    with such an assumption is applied to a concrete instance in its witness.

    ** Not modelled

    Generated protocol buffers and the encodings of crates; how columns of log
    lines are padded; common/subscription_handle.rs, which ends a task of the
    runtime; prefetches, branch hints and core affinity, which have no result;
    the parsing of the command line, which is a crate's.  The examples are
    written for an earlier version of the library (names of fields, the result
    of a trade): they are taken as they would be on this one, and what they
    print is left out but where the printing is what a program does.  Atomic
    operations are sequentially consistent steps: the orderings the source asks
    for are not told apart.  Pointers are integers and memory is bytes: that an
    access is aligned (a debug build panics at one that is not) or inside an
    allocation is not checked by the model, but
    the theorems tell which addresses are touched.  The tests are not
    translated. *)

From Stdlib Require Export ZArith Lia.
From stdpp Require Export base gmap list strings.

Create HintDb rust.
Create Rewrite HintDb rust.

#[global] Open Scope Z_scope.

(** ** Outcomes of Rust code

    [exec A] is a computation that either delivers a value or panics (an
    [unwrap] on [None], a division by zero, an overflow in a build that checks
    for it).  [result E A] is Rust's [Result<A, E>]. *)

Inductive exec (A : Type) : Type :=
| Val (a : A)
| Panic.
Arguments Val {A} a.
Arguments Panic {A}.

Inductive result (E A : Type) : Type :=
| Ok (a : A)
| Err (e : E).
Arguments Ok {E A} a.
Arguments Err {E A} e.

Definition exec_bind {A B} (m : exec A) (k : A → exec B) : exec B :=
  match m with Val a => k a | Panic => Panic end.

(** The [?] operator: an [Err] returns early, a panic propagates. *)
Definition try_bind {E A B} (m : exec (result E A)) (k : A → exec (result E B)) :
  exec (result E B) :=
  match m with
  | Val (Ok a) => k a
  | Val (Err e) => Val (Err e)
  | Panic => Panic
  end.

Declare Scope rust_scope.
Delimit Scope rust_scope with rust.
#[global] Open Scope rust_scope.

Notation "'let*' x ':=' m 'in' k" := (exec_bind m (fun x => k))
  (at level 10, x binder, m at level 100, k at level 200,
   format "'[v' 'let*'  x  ':='  m  'in' '/' k ']'") : rust_scope.
Notation "'let?' x ':=' m 'in' k" := (try_bind m (fun x => k))
  (at level 10, x binder, m at level 100, k at level 200,
   format "'[v' 'let?'  x  ':='  m  'in' '/' k ']'") : rust_scope.

(** [Option::unwrap]. *)
Definition unwrap {A} (o : option A) : exec A :=
  match o with Some a => Val a | None => Panic end.

(** [Result::unwrap]. *)
Definition unwrap_res {E A} (r : result E A) : exec A :=
  match r with Ok a => Val a | Err _ => Panic end.

(** [Option::ok_or]. *)
Definition ok_or {E A} (o : option A) (e : E) : result E A :=
  match o with Some a => Ok a | None => Err e end.

Definition is_ok {E A} (r : result E A) : bool :=
  match r with Ok _ => true | Err _ => false end.

#[export] Instance exec_eq_dec {A} `{EqDecision A} : EqDecision (exec A).
Proof. solve_decision. Defined.
#[export] Instance result_eq_dec {E A} `{EqDecision E, EqDecision A} :
  EqDecision (result E A).
Proof. solve_decision. Defined.

Lemma Val_inj {A} (a b : A) : Val a = Val b → a = b.
Proof. congruence. Qed.
Lemma Ok_inj {E A} (a b : A) : Ok (E := E) a = Ok b → a = b.
Proof. congruence. Qed.

Lemma exec_bind_Val_inv {A B} (m : exec A) (k : A → exec B) b :
  exec_bind m k = Val b → ∃ a, m = Val a ∧ k a = Val b.
Proof. destruct m; simpl; [eauto | done]. Qed.

Lemma exec_bind_assoc {A B C} (m : exec A) (f : A → exec B) (g : B → exec C) :
  exec_bind (exec_bind m f) g = exec_bind m (λ a, exec_bind (f a) g).
Proof. by destruct m. Qed.

Lemma try_bind_Ok_inv {E A B} (m : exec (result E A)) (k : A → exec (result E B)) b :
  try_bind m k = Val (Ok b) → ∃ a, m = Val (Ok a) ∧ k a = Val (Ok b).
Proof. destruct m as [[a|e]|]; simpl; [eauto | done | done]. Qed.

Lemma try_bind_assoc {E A B C} (m : exec (result E A))
    (f : A → exec (result E B)) (g : B → exec (result E C)) :
  try_bind (try_bind m f) g = try_bind m (λ a, try_bind (f a) g).
Proof. by destruct m as [[?|?]|]. Qed.

Lemma unwrap_Val {A} (o : option A) a : unwrap o = Val a ↔ o = Some a.
Proof. destruct o; simpl; split; congruence. Qed.

(** ** Machine integers

    A [w]-bit unsigned integer is a [Z] in [0, 2^w).  Unchecked [+], [-], [*]
    panic on overflow when the build has overflow checks and wrap around when
    it has not: both profiles of the crate exist ([profile.dev] checks,
    [profile.release] does not), so the flag is a parameter of every
    definition that uses unchecked arithmetic. *)

Class Build := { overflow_checks : bool }.

(** [cargo build --release] and [cargo build]. *)
Definition release : Build := {| overflow_checks := false |}.
Definition debug : Build := {| overflow_checks := true |}.

Definition fits (w z : Z) : bool := (0 <=? z) && (z <? 2 ^ w).
Definition wrap (w z : Z) : Z := z mod 2 ^ w.

Definition u8_max : Z := 2 ^ 8 - 1.
Definition u32_max : Z := 2 ^ 32 - 1.
Definition u64_max : Z := 2 ^ 64 - 1.
Definition u128_max : Z := 2 ^ 128 - 1.

(** [AtomicU64::fetch_add] wraps in every build. *)
Abbreviation bump x n := (wrap 64 (x + n)).

Definition is_uint (w z : Z) : Prop := 0 ≤ z < 2 ^ w.
Abbreviation is_u8 := (is_uint 8).
Abbreviation is_u16 := (is_uint 16).
Abbreviation is_u32 := (is_uint 32).
Abbreviation is_u64 := (is_uint 64).
Abbreviation is_u128 := (is_uint 128).

Definition is_sint (w z : Z) : Prop := - 2 ^ (w - 1) ≤ z < 2 ^ (w - 1).
Abbreviation is_i64 := (is_sint 64).

(** [as u64] and the like: truncation to the low bits. *)
Definition as_u64 (z : Z) : Z := wrap 64 z.
Definition as_u32 (z : Z) : Z := wrap 32 z.

(** Two's complement reading of the low [w] bits. *)
Definition wrap_signed (w z : Z) : Z :=
  let m := z mod 2 ^ w in
  if m <? 2 ^ (w - 1) then m else m - 2 ^ w.

Section Arith.
Context `{Build}.

Definition ck (w z : Z) : exec Z :=
  if fits w z then Val z
  else if overflow_checks then Panic else Val (wrap w z).

Definition ck_signed (w z : Z) : exec Z :=
  if ((- 2 ^ (w - 1) <=? z) && (z <? 2 ^ (w - 1)))%bool then Val z
  else if overflow_checks then Panic else Val (wrap_signed w z).

Definition add (w a b : Z) : exec Z := ck w (a + b).
Definition sub (w a b : Z) : exec Z := ck w (a - b).
Definition mul (w a b : Z) : exec Z := ck w (a * b).
End Arith.

(** Division panics on a zero divisor in every build. *)
Definition div (a b : Z) : exec Z := if b =? 0 then Panic else Val (a / b).

(** So does the remainder. *)
Definition rem (a b : Z) : exec Z := if b =? 0 then Panic else Val (a mod b).

Definition checked_add (w a b : Z) : option Z :=
  if fits w (a + b) then Some (a + b) else None.
Definition checked_sub (w a b : Z) : option Z :=
  if fits w (a - b) then Some (a - b) else None.
Definition checked_mul (w a b : Z) : option Z :=
  if fits w (a * b) then Some (a * b) else None.
Definition checked_div (a b : Z) : option Z :=
  if b =? 0 then None else Some (a / b).

Definition saturating_add (w a b : Z) : Z := Z.min (a + b) (2 ^ w - 1).
Definition saturating_sub (a b : Z) : Z := Z.max 0 (a - b).
Definition saturating_mul (w a b : Z) : Z := Z.min (a * b) (2 ^ w - 1).

Lemma fits_iff w z : fits w z = true ↔ is_uint w z.
Proof. unfold fits, is_uint. rewrite andb_true_iff, Z.leb_le, Z.ltb_lt. lia. Qed.

Lemma fits_false w z : fits w z = false ↔ ¬ is_uint w z.
Proof. rewrite <- fits_iff. destruct (fits w z); split; congruence. Qed.

Lemma ck_ok `{Build} w z : is_uint w z → ck w z = Val z.
Proof. intros Hz. unfold ck. by rewrite (proj2 (fits_iff w z) Hz). Qed.

Lemma wrap_signed_small z : - 2 ^ 63 ≤ z < 2 ^ 63 → wrap_signed 64 z = z.
Proof.
  intros Hz. unfold wrap_signed. change (2 ^ (64 - 1)) with (2 ^ 63).
  destruct (Z.ltb_spec (z mod 2 ^ 64) (2 ^ 63)) as [Hl|Hl].
  - destruct (decide (0 ≤ z)); [by rewrite Z.mod_small by lia|].
    rewrite <- (Z.mod_unique z (2 ^ 64) (-1) (z + 2 ^ 64)) in Hl by lia. lia.
  - destruct (decide (0 ≤ z)); [rewrite Z.mod_small in Hl by lia; lia|].
    rewrite <- (Z.mod_unique z (2 ^ 64) (-1) (z + 2 ^ 64)) by lia. lia.
Qed.

Lemma ck_signed_ok `{Build} w z : is_sint w z → ck_signed w z = Val z.
Proof.
  intros [Hl Hu]. unfold ck_signed.
  by rewrite (proj2 (Z.leb_le _ _) Hl), (proj2 (Z.ltb_lt _ _) Hu).
Qed.

Lemma ck_Val_inv `{Build} w z v :
  0 ≤ w → ck w z = Val v → is_uint w v ∧ (v = z ∨ v = wrap w z).
Proof.
  intros Hw. unfold ck. destruct (fits w z) eqn:Hf.
  - intros [= <-]. apply fits_iff in Hf. auto.
  - destruct overflow_checks; intros [= <-].
    split; [apply Z.mod_pos_bound; lia | by right].
Qed.

Lemma add_ok `{Build} w a b : is_uint w (a + b) → add w a b = Val (a + b).
Proof. apply ck_ok. Qed.
Lemma sub_ok `{Build} w a b : is_uint w (a - b) → sub w a b = Val (a - b).
Proof. apply ck_ok. Qed.
Lemma mul_ok `{Build} w a b : is_uint w (a * b) → mul w a b = Val (a * b).
Proof. apply ck_ok. Qed.
Lemma div_ok a b : b ≠ 0 → div a b = Val (a / b).
Proof. intros Hb. unfold div. by rewrite (proj2 (Z.eqb_neq b 0) Hb). Qed.

Lemma rem_ok a b : b ≠ 0 → rem a b = Val (a mod b).
Proof. intros Hb. unfold rem. by rewrite (proj2 (Z.eqb_neq b 0) Hb). Qed.

Lemma checked_add_ok w a b : is_uint w (a + b) → checked_add w a b = Some (a + b).
Proof. intros Hz. unfold checked_add. by rewrite (proj2 (fits_iff _ _) Hz). Qed.
Lemma checked_sub_ok w a b : is_uint w (a - b) → checked_sub w a b = Some (a - b).
Proof. intros Hz. unfold checked_sub. by rewrite (proj2 (fits_iff _ _) Hz). Qed.
Lemma checked_mul_ok w a b : is_uint w (a * b) → checked_mul w a b = Some (a * b).
Proof. intros Hz. unfold checked_mul. by rewrite (proj2 (fits_iff _ _) Hz). Qed.
Lemma checked_div_ok a b : b ≠ 0 → checked_div a b = Some (a / b).
Proof. intros Hb. unfold checked_div. by rewrite (proj2 (Z.eqb_neq b 0) Hb). Qed.

(** Whatever the build, a result that is delivered is at most the exact one. *)
Lemma ck_le `{Build} w z v : 0 ≤ w → 0 ≤ z → ck w z = Val v → is_uint w v ∧ v ≤ z.
Proof.
  intros Hw Hz [Hv Heq]%ck_Val_inv; [|done]. split; [done|].
  destruct Heq as [->| ->]; [lia|]. apply Z.mod_le; lia.
Qed.

Lemma add_le `{Build} w a b v :
  0 ≤ w → 0 ≤ a → 0 ≤ b → add w a b = Val v → is_uint w v ∧ v ≤ a + b.
Proof. intros ? ? ?. apply ck_le; lia. Qed.

Lemma wrap_small w z : is_uint w z → wrap w z = z.
Proof. intros ?. by apply Z.mod_small. Qed.
Lemma wrap_range w z : 0 ≤ w → is_uint w (wrap w z).
Proof. intros ?. apply Z.mod_pos_bound. lia. Qed.
Lemma wrap_add a b : wrap 64 (wrap 64 a + b) = wrap 64 (a + b).
Proof. unfold wrap. by rewrite Zplus_mod_idemp_l. Qed.
Lemma as_u64_small z : is_u64 z → as_u64 z = z.
Proof. apply wrap_small. Qed.
Lemma as_u64_range z : is_u64 (as_u64 z).
Proof. by apply wrap_range. Qed.

(** Products of bounded numbers, the side conditions of most 128-bit
    intermediate results. *)
Lemma mul_bound a b m n : 0 ≤ a < m → 0 ≤ b < n → 0 ≤ a * b < m * n.
Proof. nia. Qed.

Lemma u64_mul_u64 a b : is_u64 a → is_u64 b → is_u128 (a * b).
Proof. intros Ha Hb. exact (mul_bound _ _ _ _ Ha Hb). Qed.

Lemma u64_is_u128 a : is_u64 a → is_u128 a.
Proof. unfold is_uint. lia. Qed.

(** A quotient below the multiplicand: [a * b / c <= a] when [b <= c]. *)
Lemma mul_div_le a b c : 0 ≤ a → 0 ≤ b ≤ c → 0 < c → 0 ≤ a * b / c ≤ a.
Proof.
  intros Ha Hb Hc. split; [apply Z.div_pos; nia|].
  apply Z.div_le_upper_bound; nia.
Qed.

(** The floor as the greatest quotient. *)
Lemma le_div_iff a b q : 0 < b → (q ≤ a / b ↔ q * b ≤ a).
Proof.
  intros Hb. pose proof (Z.div_mod a b ltac:(lia)).
  pose proof (Z.mod_pos_bound a b Hb). split; intros; nia.
Qed.

Lemma div_mul_floor n d : 0 < d → d * (n / d) ≤ n < d * (n / d) + d.
Proof.
  intros Hd. pose proof (Z.div_mod n d ltac:(lia)).
  pose proof (Z.mod_pos_bound n d Hd). lia.
Qed.

#[export] Hint Rewrite @ck_ok @add_ok @sub_ok @mul_ok div_ok checked_add_ok
  checked_sub_ok checked_mul_ok checked_div_ok as_u64_small : rust.

(** ** Tactics *)

(** Unfold machine-integer predicates and constants for [lia]. *)
Ltac uint_unfold :=
  unfold is_uint, is_sint, u64_max, u128_max, u32_max, u8_max in *.

(** Decide a closed proposition of integer comparisons and equations. *)
Ltac concrete :=
  vm_compute; repeat (split || intro);
  first [reflexivity | discriminate | congruence].

Ltac uint := uint_unfold; first [lia | nia].

(** Run the computation on the left of an equation one arithmetic operation
    forward, discharging the range condition. *)
Ltac exec_head m :=
  lazymatch m with
  | exec_bind ?m' _ => exec_head m'
  | try_bind ?m' _ => exec_head m'
  | unwrap ?o => exec_head o
  | _ => m
  end.

Ltac exec_step :=
  cbn [exec_bind try_bind unwrap unwrap_res];
  lazymatch goal with
  | |- ?l = _ =>
      let h := exec_head l in
      lazymatch h with
      | add ?w ?a ?b => rewrite (add_ok w a b) by uint
      | sub ?w ?a ?b => rewrite (sub_ok w a b) by uint
      | mul ?w ?a ?b => rewrite (mul_ok w a b) by uint
      | div ?a ?b => rewrite (div_ok a b) by uint
      | checked_add ?w ?a ?b => rewrite (checked_add_ok w a b) by uint
      | checked_sub ?w ?a ?b => rewrite (checked_sub_ok w a b) by uint
      | checked_mul ?w ?a ?b => rewrite (checked_mul_ok w a b) by uint
      | checked_div ?a ?b => rewrite (checked_div_ok a b) by uint
      end
  end;
  cbn [exec_bind try_bind unwrap unwrap_res].

(** Split the computation of a hypothesis [e = Val v] at its binds. *)
Ltac exec_inv :=
  repeat match goal with
  | H : exec_bind ?m _ = Val _ |- _ =>
      let a := fresh "v" in let E := fresh "E" in
      apply exec_bind_Val_inv in H as (a & E & H)
  | H : try_bind ?m _ = Val (Ok _) |- _ =>
      let a := fresh "v" in let E := fresh "E" in
      apply try_bind_Ok_inv in H as (a & E & H)
  | H : Val _ = Val _ |- _ => injection H as H
  | H : Ok _ = Ok _ |- _ => injection H as H
  | H : Some _ = Some _ |- _ => injection H as H
  | H : Val (Ok _) = Val (Err _) |- _ => discriminate H
  | H : Val (Err _) = Val (Ok _) |- _ => discriminate H
  | H : Panic = Val _ |- _ => discriminate H
  | H : Val _ = Panic |- _ => discriminate H
  end.

(** Case analysis on the conditions of the code under consideration. *)
Ltac cond :=
  match goal with
  | |- context [if ?b then _ else _] => destruct b eqn:?
  | H : context [if ?b then _ else _] |- _ => destruct b eqn:?
  end.

Ltac bool_hyps :=
  repeat match goal with
  | H : (_ && _)%bool = true |- _ => apply andb_true_iff in H as [? ?]
  | H : (_ || _)%bool = false |- _ => apply orb_false_iff in H as [? ?]
  | H : negb _ = true |- _ => apply negb_true_iff in H
  | H : negb _ = false |- _ => apply negb_false_iff in H
  | H : (_ =? _) = true |- _ => apply Z.eqb_eq in H
  | H : (_ =? _) = false |- _ => apply Z.eqb_neq in H
  | H : (_ <? _) = true |- _ => apply Z.ltb_lt in H
  | H : (_ <? _) = false |- _ => apply Z.ltb_ge in H
  | H : (_ <=? _) = true |- _ => apply Z.leb_le in H
  | H : (_ <=? _) = false |- _ => apply Z.leb_gt in H
  end.

#[export] Hint Resolve u64_mul_u64 u64_is_u128 as_u64_range : rust.

(** ** Bytes: little-endian encodings *)

(** [to_le_bytes] of an [n]-byte unsigned integer, bytes as [Z]. *)
Fixpoint le_bytes (n : nat) (z : Z) : list Z :=
  match n with
  | O => []
  | S n' => z mod 256 :: le_bytes n' (z / 256)
  end.

Definition u64_le_bytes (z : Z) : list Z := le_bytes 8 z.
Definition u16_le_bytes (z : Z) : list Z := le_bytes 2 z.

(** The number a little-endian byte string denotes. *)
Fixpoint le_value (bs : list Z) : Z :=
  match bs with [] => 0 | b :: bs' => b + 256 * le_value bs' end.

Definition is_byte (b : Z) : Prop := 0 ≤ b < 256.

Lemma le_bytes_length n z : length (le_bytes n z) = n.
Proof. revert z; induction n; intros; simpl; auto. Qed.

Lemma le_bytes_bytes n z : Forall is_byte (le_bytes n z).
Proof.
  revert z; induction n; intros; simpl; constructor; [|auto].
  apply Z.mod_pos_bound. lia.
Qed.

Lemma le_value_le_bytes n z :
  0 ≤ z < 256 ^ Z.of_nat n → le_value (le_bytes n z) = z.
Proof.
  revert z; induction n; intros z Hz; cbn [le_bytes le_value].
  - simpl in Hz. lia.
  - rewrite Nat2Z.inj_succ, Z.pow_succ_r in Hz by lia.
    rewrite IHn.
    + pose proof (Z.div_mod z 256 ltac:(lia)). lia.
    + split; [apply Z.div_pos; lia | apply Z.div_lt_upper_bound; lia].
Qed.

Lemma u64_le_roundtrip z : is_u64 z → le_value (u64_le_bytes z) = z.
Proof. intros Hz. apply le_value_le_bytes. uint. Qed.

Lemma u64_le_length z : length (u64_le_bytes z) = 8%nat.
Proof. apply le_bytes_length. Qed.

#[export] Hint Rewrite le_bytes_length u64_le_length : rust.

(** ** Lists *)

(** Stable insertion sort by a key, largest first: [sort_by] with a reversed
    comparison. *)
Section SortDesc.
Context {A : Type} (key : A → Z).

Fixpoint insert_desc (x : A) (l : list A) : list A :=
  match l with
  | [] => [x]
  | y :: l' => if key x <? key y then y :: insert_desc x l' else x :: l
  end.

Definition sort_desc (l : list A) : list A := foldr insert_desc [] l.

Definition desc (l : list A) : Prop :=
  ∀ i j a b, (i ≤ j)%nat → l !! i = Some a → l !! j = Some b → key b ≤ key a.

Lemma insert_desc_perm x l : insert_desc x l ≡ₚ x :: l.
Proof.
  induction l as [|y l IH]; simpl; [done|]. cond; [|done].
  rewrite IH. apply Permutation_swap.
Qed.

Lemma sort_desc_perm l : sort_desc l ≡ₚ l.
Proof.
  induction l as [|x l IH]; simpl; [done|]. by rewrite insert_desc_perm, IH.
Qed.

Lemma sort_desc_length l : length (sort_desc l) = length l.
Proof. apply Permutation_length, sort_desc_perm. Qed.

Lemma desc_cons x l : (∀ y, y ∈ l → key y ≤ key x) → desc l → desc (x :: l).
Proof.
  intros Hx Hl [|i] [|j] a b Hij Ha Hb; simplify_eq/=; try lia.
  - apply Hx. by eapply list_elem_of_lookup_2.
  - eapply (Hl i j); [lia|done..].
Qed.

Lemma desc_inv x l : desc (x :: l) → (∀ y, y ∈ l → key y ≤ key x) ∧ desc l.
Proof.
  intros Hd. split.
  - intros y [i Hi]%list_elem_of_lookup. by apply (Hd 0%nat (S i)); [lia|..].
  - intros i j a b Hij Ha Hb. by apply (Hd (S i) (S j)); [lia|..].
Qed.

Lemma insert_desc_desc x l : desc l → desc (insert_desc x l).
Proof.
  induction l as [|y l IH]; intros Hd; simpl.
  - by apply desc_cons; [intros ? ?%not_elem_of_nil|].
  - apply desc_inv in Hd as [Hy Hl]. cond; bool_hyps.
    + apply desc_cons; [|auto]. intros z Hz.
      rewrite insert_desc_perm in Hz. set_unfold. destruct Hz; [subst; lia|auto].
    + apply desc_cons; [|by apply desc_cons]. intros z Hz. set_unfold.
      destruct Hz as [->|Hz]; [lia|]. specialize (Hy _ Hz). lia.
Qed.

Lemma sort_desc_desc l : desc (sort_desc l).
Proof.
  induction l; simpl; [|by apply insert_desc_desc].
  intros i j a b _ Ha. by rewrite lookup_nil in Ha.
Qed.
End SortDesc.
