(* ===== verification/F64.v ===== *)
(** * IEEE 754 double precision, as Rust's [f64] uses it

    Doubles are the [spec_float]s of the Standard Library's executable
    specification of IEEE 754 (precision 53, exponents up to 1024), with
    round-to-nearest-even arithmetic.  On top of it this file defines the
    conversions of Rust's [as] (saturating towards integers, rounding towards
    floats), comparison operators (false on NaN), [min], [abs], [round] and
    [powi], and decimal literals. *)

From Stdlib Require Import ZArith Lia SpecFloat.
From S2P Require Import Prelude.

Abbreviation f64 := spec_float.

Definition prec : Z := 53.
Definition emax : Z := 1024.

Definition fadd (x y : f64) : f64 := SFadd prec emax x y.
Definition fsub (x y : f64) : f64 := SFsub prec emax x y.
Definition fmul (x y : f64) : f64 := SFmul prec emax x y.
Definition fdiv (x y : f64) : f64 := SFdiv prec emax x y.
Definition fneg (x : f64) : f64 := SFopp x.
Definition fabs (x : f64) : f64 := SFabs x.

Definition f_eqb (x y : f64) : bool := SFeqb x y.
Definition f_ltb (x y : f64) : bool := SFltb x y.
Definition f_leb (x y : f64) : bool := SFleb x y.
Definition f_gtb (x y : f64) : bool := SFltb y x.
Definition f_geb (x y : f64) : bool := SFleb y x.

Definition is_nan (x : f64) : bool :=
  match x with S754_nan => true | _ => false end.

(** [u64 as f64], [i32 as f64], [u128 as f64]: rounded to nearest even. *)
Definition f64_of_Z (z : Z) : f64 := binary_normalize prec emax z 0 false.

(** [m / 10^k], the literal with [k] decimals; the quotient of two exact
    doubles is the correctly rounded literal for [m < 2^53] and [k <= 22]. *)
Definition f64_lit (m : Z) (k : Z) : f64 := fdiv (f64_of_Z m) (f64_of_Z (10 ^ k)).

Definition f_zero : f64 := f64_of_Z 0.
Definition f_one : f64 := f64_of_Z 1.

(** The integer part, rounding towards zero; [None] on NaN and infinities. *)
Definition f_trunc (x : f64) : option Z :=
  match x with
  | S754_zero _ => Some 0
  | S754_finite s m e =>
      let a := if 0 <=? e then Zpos m * 2 ^ e else Zpos m / 2 ^ (- e) in
      Some (if s then - a else a)
  | _ => None
  end.

(** [f as u64] and [f as i32]: saturating, NaN to zero. *)
Definition f64_as (lo hi : Z) (x : f64) : Z :=
  match x with
  | S754_nan => 0
  | S754_infinity s => if s then lo else hi
  | _ => match f_trunc x with Some z => Z.max lo (Z.min hi z) | None => 0 end
  end.

Definition f64_as_u64 (x : f64) : Z := f64_as 0 u64_max x.
Definition f64_as_i32 (x : f64) : Z := f64_as (- 2 ^ 31) (2 ^ 31 - 1) x.

(** [f64::round]: half away from zero. *)
Definition f_round (x : f64) : f64 :=
  match x with
  | S754_finite s m e =>
      if 0 <=? e then x
      else
        let q := (Zpos m + 2 ^ (- e - 1)) / 2 ^ (- e) in
        binary_normalize prec emax (if s then - q else q) 0 s
  | _ => x
  end.

(** [f64::min]: the other operand when one is NaN. *)
Definition f_min (x y : f64) : f64 :=
  if is_nan x then y else if is_nan y then x else if f_ltb y x then y else x.

(** [f64::powi] as the compiler's runtime computes it, by repeated squaring.
    The fuel bounds the bits of the 32-bit exponent. *)
Fixpoint powi_loop (fuel : nat) (a r : f64) (b : Z) : f64 :=
  match fuel with
  | O => r
  | S fuel' =>
      let r := if Z.odd b then fmul r a else r in
      let b := Z.quot b 2 in
      if b =? 0 then r else powi_loop fuel' (fmul a a) r b
  end.

Definition f_powi (a : f64) (b : Z) : f64 :=
  let r := powi_loop 33 a f_one (Z.abs b) in
  if b <? 0 then fdiv f_one r else r.

Lemma f64_as_range lo hi x : lo ≤ 0 ≤ hi → lo ≤ f64_as lo hi x ≤ hi.
Proof. intros ?. unfold f64_as. destruct x as [|[]| |? ? ?]; simpl; lia. Qed.

Lemma f64_as_u64_range x : is_u64 (f64_as_u64 x).
Proof.
  pose proof (f64_as_range 0 u64_max x ltac:(unfold u64_max; lia)) as H.
  unfold f64_as_u64. uint.
Qed.

#[export] Hint Resolve f64_as_u64_range : rust.

Example f64_as_u64_tests :
  f64_as_u64 (fmul (f64_lit 1 2) (f64_of_Z 1000000000)) = 10000000 ∧
  f64_as_u64 (fneg f_one) = 0 ∧
  f64_as_u64 (fdiv f_zero f_zero) = 0 ∧
  f64_as_u64 (f64_of_Z (2 ^ 80)) = u64_max.
Proof. vm_compute. done. Qed.
