(* ===== verification/Solana.v ===== *)
(** * Solana data: keys, account metas, instructions, well-known accounts

    A [Pubkey] is the number its 32 bytes spell in big-endian order, so
    [Pubkey::default()] is 0.  Keys written in base 58 in the source are
    decoded here.  Address derivation (program-derived addresses, seeded
    addresses) and the system program's instructions come from the Solana SDK
    and are parameters, gathered in the class [Sdk]. *)

From Stdlib Require Import Ascii String.
From S2P Require Import Prelude.

Abbreviation Pubkey := Z (only parsing).
Abbreviation bytes := (list Z) (only parsing).

Definition is_pubkey (p : Pubkey) : Prop := 0 ≤ p < 2 ^ 256.

Definition pubkey_default : Pubkey := 0.

(** [Pubkey::to_bytes] and [as_ref]: 32 bytes, most significant first. *)
Definition to_bytes (p : Pubkey) : bytes := rev (le_bytes 32 p).

Lemma to_bytes_length p : length (to_bytes p) = 32%nat.
Proof. unfold to_bytes. by rewrite length_rev, le_bytes_length. Qed.

Lemma to_bytes_inj p q : is_pubkey p → is_pubkey q → to_bytes p = to_bytes q → p = q.
Proof.
  unfold to_bytes, is_pubkey. intros Hp Hq H.
  apply (f_equal (@rev Z)) in H. rewrite !rev_involutive in H.
  apply (f_equal le_value) in H.
  rewrite !le_value_le_bytes in H by (simpl; lia). done.
Qed.

(** Bytes of an ASCII string literal ([b"..."], [str::as_bytes]). *)
Definition ascii_bytes (s : string) : bytes :=
  map (λ c, Z.of_N (N_of_ascii c)) (list_ascii_of_string s).

(** ** Base 58 *)

Definition b58_alphabet : string :=
  "123456789ABCDEFGHJKLMNPQRSTUVWXYZabcdefghijkmnopqrstuvwxyz".

Fixpoint index_of (c : ascii) (s : string) : Z :=
  match s with
  | EmptyString => 0
  | String a s' => if Ascii.eqb a c then 0 else 1 + index_of c s'
  end.

Fixpoint b58_acc (acc : Z) (s : string) : Z :=
  match s with
  | EmptyString => acc
  | String c s' => b58_acc (58 * acc + index_of c b58_alphabet) s'
  end.

(** The [pubkey!] macro. *)
Definition pubkey (s : string) : Pubkey := b58_acc 0 s.

(** ** Instructions *)

Record AccountMeta := mk_meta {
  am_pubkey : Pubkey;
  is_signer : bool;
  is_writable : bool;
}.

(** [AccountMeta::new] and [AccountMeta::new_readonly]. *)
Definition meta_new (p : Pubkey) (signer : bool) : AccountMeta :=
  mk_meta p signer true.
Definition meta_readonly (p : Pubkey) (signer : bool) : AccountMeta :=
  mk_meta p signer false.

Record Instruction := mk_ix {
  program_id : Pubkey;
  accounts : list AccountMeta;
  data : bytes;
}.

#[export] Instance AccountMeta_eq_dec : EqDecision AccountMeta.
Proof. solve_decision. Defined.
#[export] Instance Instruction_eq_dec : EqDecision Instruction.
Proof. solve_decision. Defined.

(** ** The Solana SDK

    [try_find_program_address] is the SDK's search for a bump seed;
    [create_with_seed] hashes a base key, a seed and an owner; the system
    instructions are the SDK's encodings; [fnv_hash] is the 64-bit hash of the
    fnv crate. *)

Class Sdk := {
  try_find_program_address : list bytes → Pubkey → option (Pubkey * Z);
  create_with_seed : Pubkey → string → Pubkey → result string Pubkey;
  system_transfer : Pubkey → Pubkey → Z → Instruction;
  system_create_account_with_seed :
    Pubkey → Pubkey → Pubkey → string → Z → Z → Pubkey → Instruction;
  system_advance_nonce : Pubkey → Pubkey → Instruction;
  fnv_hash : bytes → Z;
}.

Section Pda.
Context `{Sdk}.

(** [Pubkey::find_program_address] panics when no bump is found. *)
Definition find_program_address (seeds : list bytes) (program : Pubkey) : exec Pubkey :=
  let* r := unwrap (try_find_program_address seeds program) in Val r.1.

(** [try_find_program_address(..).map(|p| p.0)]. *)
Definition try_pda (seeds : list bytes) (program : Pubkey) : option Pubkey :=
  fst <$> try_find_program_address seeds program.
End Pda.

(** ** Well-known accounts (sdk constants/accounts.rs) *)

(* sdk constants/accounts.rs:3-3 SYSTEM_PROGRAM *)
Definition SYSTEM_PROGRAM : Pubkey := pubkey "11111111111111111111111111111111".
(* sdk constants/accounts.rs:4-9 SYSTEM_PROGRAM_META *)
Definition SYSTEM_PROGRAM_META : AccountMeta := mk_meta SYSTEM_PROGRAM false false.
(* sdk constants/accounts.rs:11-11 TOKEN_PROGRAM *)
Definition TOKEN_PROGRAM : Pubkey :=
  Eval vm_compute in pubkey "TokenkegQfeZyiNwAJbNbGKPFXCWuBvf9Ss623VQ5DA".
(* sdk constants/accounts.rs:12-17 TOKEN_PROGRAM_META *)
Definition TOKEN_PROGRAM_META : AccountMeta := mk_meta TOKEN_PROGRAM false false.
(* sdk constants/accounts.rs:19-19 TOKEN_PROGRAM_2022 *)
Definition TOKEN_PROGRAM_2022 : Pubkey :=
  Eval vm_compute in pubkey "TokenzQdBNbLqP5VEhdkAS6EPFLC1PHnBqCXEpPxuEb".
(* sdk constants/accounts.rs:20-25 TOKEN_PROGRAM_2022_META *)
Definition TOKEN_PROGRAM_2022_META : AccountMeta := mk_meta TOKEN_PROGRAM_2022 false false.
(* sdk constants/accounts.rs:27-27 SOL_TOKEN_ACCOUNT *)
Definition SOL_TOKEN_ACCOUNT : Pubkey :=
  Eval vm_compute in pubkey "So11111111111111111111111111111111111111111".
(* sdk constants/accounts.rs:29-29 WSOL_TOKEN_ACCOUNT *)
Definition WSOL_TOKEN_ACCOUNT : Pubkey :=
  Eval vm_compute in pubkey "So11111111111111111111111111111111111111112".
(* sdk constants/accounts.rs:30-35 WSOL_TOKEN_ACCOUNT_META *)
Definition WSOL_TOKEN_ACCOUNT_META : AccountMeta := mk_meta WSOL_TOKEN_ACCOUNT false false.
(* sdk constants/accounts.rs:37-37 USD1_TOKEN_ACCOUNT *)
Definition USD1_TOKEN_ACCOUNT : Pubkey :=
  Eval vm_compute in pubkey "USD1ttGY1N17NEEHLmELoaybftRBUSErhqYiQzvEmuB".
(* sdk constants/accounts.rs:38-43 USD1_TOKEN_ACCOUNT_META *)
Definition USD1_TOKEN_ACCOUNT_META : AccountMeta := mk_meta USD1_TOKEN_ACCOUNT false false.
(* sdk constants/accounts.rs:46-46 USDC_TOKEN_ACCOUNT *)
Definition USDC_TOKEN_ACCOUNT : Pubkey :=
  Eval vm_compute in pubkey "EPjFWdd5AufqSSqeM2qN1xzybapC8G4wEGGkZwyTDt1v".
(* sdk constants/accounts.rs:47-52 USDC_TOKEN_ACCOUNT_META *)
Definition USDC_TOKEN_ACCOUNT_META : AccountMeta := mk_meta USDC_TOKEN_ACCOUNT false false.
(* sdk constants/accounts.rs:58-59 ASSOCIATED_TOKEN_PROGRAM_ID *)
Definition ASSOCIATED_TOKEN_PROGRAM_ID : Pubkey :=
  Eval vm_compute in pubkey "ATokenGPvbdGVxr1b2hvZbsiqW5xWH25efTNsLJA8knL".

(* sdk constants/trade.rs:2-2 DEFAULT_SLIPPAGE *)
Definition DEFAULT_SLIPPAGE : Z := 1000.
(* sdk constants/decimals.rs:1-1 SOL_DECIMALS *)
Definition SOL_DECIMALS : Z := 9.
(* sdk constants/decimals.rs:2-2 DEFAULT_TOKEN_DECIMALS *)
Definition DEFAULT_TOKEN_DECIMALS : Z := 6.

Example well_known_keys :
  SYSTEM_PROGRAM = pubkey_default ∧ to_bytes TOKEN_PROGRAM !! 0%nat = Some 6 ∧
  WSOL_TOKEN_ACCOUNT ≠ SOL_TOKEN_ACCOUNT.
Proof. vm_compute. done. Qed.
