(* ===== verification/CalcCommon.v ===== *)
(** * Fee and slippage arithmetic (sdk utils/calc/common.rs)

    Every trade goes through these four functions.  The fee functions work on
    [u128], the slippage functions on [u64]; all use unchecked arithmetic, so
    they are computations that panic or wrap on overflow depending on the
    build. *)

From S2P Require Import Prelude.

Section CalcCommon.
Context `{Build}.

(* sdk utils/calc/common.rs:26-29 ceil_div *)
Definition ceil_div (a b : Z) : exec Z :=
  let* s := add 128 a b in
  let* t := sub 128 s 1 in
  div t b.

(* sdk utils/calc/common.rs:12-15 compute_fee *)
Definition compute_fee (amount fee_basis_points : Z) : exec Z :=
  let* p := mul 128 amount fee_basis_points in
  ceil_div p 10000.

(* sdk utils/calc/common.rs:33-33 MAX_SLIPPAGE_BASIS_POINTS *)
Definition MAX_SLIPPAGE_BASIS_POINTS : Z := 9999.

(* sdk utils/calc/common.rs:51-59 calculate_with_slippage_buy *)
Definition calculate_with_slippage_buy (amount basis_points : Z) : exec Z :=
  let bps := if MAX_SLIPPAGE_BASIS_POINTS <? basis_points
             then MAX_SLIPPAGE_BASIS_POINTS else basis_points in
  let* p := mul 64 amount bps in
  let* q := div p 10000 in
  add 64 amount q.

(* sdk utils/calc/common.rs:73-80 calculate_with_slippage_sell *)
Definition calculate_with_slippage_sell (amount basis_points : Z) : exec Z :=
  let* d := div basis_points 10000 in
  if amount <=? d then Val 1
  else
    let* p := mul 64 amount basis_points in
    let* q := div p 10000 in
    sub 64 amount q.

(** ** Ceiling division *)

(** The mathematical ceiling of [a / b]. *)
Definition zceil (a b : Z) : Z := (a + b - 1) / b.

(** [zceil a b] is the least [q] with [a <= q * b]. *)
Lemma zceil_spec a b q : 0 < b → (zceil a b ≤ q ↔ a ≤ q * b).
Proof.
  intros Hb. unfold zceil. split; intros Hq.
  - pose proof (div_mul_floor (a + b - 1) b Hb). nia.
  - apply Z.lt_succ_r, Z.div_lt_upper_bound; [done|]. nia.
Qed.

Lemma zceil_ge a b : 0 < b → a ≤ zceil a b * b.
Proof. intros Hb. by apply zceil_spec. Qed.

Lemma zceil_lt a b : 0 < b → zceil a b * b < a + b.
Proof.
  intros Hb. unfold zceil. pose proof (div_mul_floor (a + b - 1) b Hb). nia.
Qed.

Lemma zceil_nonneg a b : 0 ≤ a → 0 < b → 0 ≤ zceil a b.
Proof. intros. apply Z.div_pos; lia. Qed.

Lemma zceil_mono a a' b : 0 < b → a ≤ a' → zceil a b ≤ zceil a' b.
Proof. intros Hb Ha. apply zceil_spec; [done|]. pose proof (zceil_ge a' b Hb). lia. Qed.

(** For an intermediate product of two [u64]s the [u128] arithmetic of the
    source is exact. *)
Lemma ceil_div_val a b :
  0 ≤ a ≤ u128_max - u64_max → 0 < b ≤ u64_max →
  ceil_div a b = Val (zceil a b).
Proof.
  intros Ha Hb. unfold ceil_div, zceil.
  do 2 exec_step. by rewrite div_ok by lia.
Qed.

Definition fee_of (amount bps : Z) : Z := zceil (amount * bps) 10000.

Lemma compute_fee_val amount bps :
  is_u64 amount → 0 ≤ bps ≤ 10000 → compute_fee amount bps = Val (fee_of amount bps).
Proof.
  intros Ha Hb. unfold compute_fee. exec_step.
  apply ceil_div_val; uint.
Qed.

Lemma fee_of_bounds amount bps :
  0 ≤ amount → 0 ≤ bps ≤ 10000 →
  0 ≤ fee_of amount bps ≤ amount ∧
  amount * bps ≤ 10000 * fee_of amount bps < amount * bps + 10000.
Proof.
  intros Ha Hb. unfold fee_of.
  pose proof (zceil_ge (amount * bps) 10000 ltac:(lia)).
  pose proof (zceil_lt (amount * bps) 10000 ltac:(lia)).
  pose proof (zceil_nonneg (amount * bps) 10000 ltac:(nia) ltac:(lia)).
  split; [|lia]. split; [done|]. apply zceil_spec; nia.
Qed.

Lemma fee_of_mono a a' bps : 0 ≤ bps → a ≤ a' → fee_of a bps ≤ fee_of a' bps.
Proof. intros. apply zceil_mono; nia. Qed.

(** ** Slippage *)

Definition clamp_bps (bps : Z) : Z := Z.min bps MAX_SLIPPAGE_BASIS_POINTS.

Lemma clamp_bps_code bps :
  (if MAX_SLIPPAGE_BASIS_POINTS <? bps then MAX_SLIPPAGE_BASIS_POINTS else bps)
  = clamp_bps bps.
Proof. unfold clamp_bps. cond; bool_hyps; lia. Qed.

Lemma slippage_buy_val amount bps :
  is_u64 amount → 0 ≤ bps →
  is_u64 (amount * clamp_bps bps) →
  is_u64 (amount + amount * clamp_bps bps / 10000) →
  calculate_with_slippage_buy amount bps = Val (amount + amount * clamp_bps bps / 10000).
Proof.
  intros Ha Hb Hm Hs. unfold calculate_with_slippage_buy. rewrite clamp_bps_code.
  do 2 exec_step. by apply add_ok.
Qed.

Lemma slippage_sell_val amount bps :
  is_u64 amount → 0 ≤ bps ≤ 10000 → bps / 10000 < amount →
  is_u64 (amount * bps) →
  calculate_with_slippage_sell amount bps = Val (amount - amount * bps / 10000).
Proof.
  intros Ha Hb Hg Hm. unfold calculate_with_slippage_sell.
  exec_step. rewrite (proj2 (Z.leb_gt _ _) Hg). do 2 exec_step.
  apply sub_ok. pose proof (mul_div_le amount bps 10000 ltac:(uint) ltac:(lia) ltac:(lia)).
  uint.
Qed.

Lemma slippage_sell_low amount bps :
  amount ≤ bps / 10000 → calculate_with_slippage_sell amount bps = Val 1.
Proof.
  intros Hle. unfold calculate_with_slippage_sell. exec_step.
  by rewrite (proj2 (Z.leb_le _ _) Hle).
Qed.

(** Buying never gives up tolerance: when the [u64] product
    [amount * bps] and the sum do not overflow, the amount the buyer allows
    is the amount plus the floor of the (clamped) percentage; it is at
    least the amount and, since the tolerance is clamped to 99.99%, less
    than twice a non-zero amount. *)
Theorem slippage_buy_bounds amount bps :
  is_u64 amount → is_u64 bps →
  is_u64 (2 * amount) → is_u64 (amount * clamp_bps bps) →
  ∃ r, calculate_with_slippage_buy amount bps = Val r
     ∧ amount ≤ r ∧ (0 < amount → r < 2 * amount)
     ∧ amount * (10000 + clamp_bps bps) - 10000 < 10000 * r
                                         ≤ amount * (10000 + clamp_bps bps).
Proof.
  intros Ha Hb H2 Hm.
  assert (Hc : 0 ≤ clamp_bps bps ≤ 9999)
    by (unfold clamp_bps, MAX_SLIPPAGE_BASIS_POINTS; uint).
  pose proof (div_mul_floor (amount * clamp_bps bps) 10000 ltac:(lia)).
  pose proof (mul_div_le amount (clamp_bps bps) 10000 ltac:(uint) ltac:(lia) ltac:(lia)).
  eexists. split; [apply slippage_buy_val; uint|].
  split; [lia|]. split; [|lia]. intros Hpos. nia.
Qed.

(** Selling: the minimum accepted is the amount less the floor of the
    percentage, hence between 0 and the amount, and it is positive for every
    tolerance below 100%; the zero amount is the exception, where the code
    asks for 1, more than there is. *)
Theorem slippage_sell_bounds amount bps :
  is_u64 amount → 0 ≤ bps ≤ 10000 → is_u64 (amount * bps) →
  ∃ r, calculate_with_slippage_sell amount bps = Val r
     ∧ (amount = 0 → r = 1)
     ∧ (0 < amount → 0 ≤ r ≤ amount)
     ∧ (0 < amount → bps < 10000 → 0 < r)
     ∧ (1 < amount → 10000 * r < amount * (10000 - bps) + 10000
                     ∧ amount * (10000 - bps) ≤ 10000 * r).
Proof.
  intros Ha Hb Hm. destruct (Z.leb_spec amount (bps / 10000)) as [Hle|Hgt].
  - assert (bps / 10000 ≤ 1) by (apply Z.div_le_upper_bound; lia).
    exists 1. rewrite slippage_sell_low by done. repeat split; lia.
  - assert (0 ≤ bps / 10000) by (apply Z.div_pos; lia).
    pose proof (div_mul_floor (amount * bps) 10000 ltac:(lia)).
    pose proof (mul_div_le amount bps 10000 ltac:(lia) ltac:(lia) ltac:(lia)).
    eexists. split; [by apply slippage_sell_val|].
    repeat split; intros; try lia. nia.
Qed.
End CalcCommon.

#[export] Hint Resolve zceil_nonneg : rust.


Lemma slippage_buy_bounds_witness :
  ∃ r, @calculate_with_slippage_buy debug 1000000000 500 = Val r
     ∧ 1000000000 ≤ r ∧ (0 < 1000000000 → r < 2 * 1000000000)
     ∧ 1000000000 * (10000 + clamp_bps 500) - 10000 < 10000 * r
                                         ≤ 1000000000 * (10000 + clamp_bps 500).
Proof. apply (@slippage_buy_bounds debug 1000000000 500); concrete. Defined.

Lemma slippage_sell_bounds_witness :
  ∃ r, @calculate_with_slippage_sell debug 5000 10000 = Val r
     ∧ (5000 = 0 → r = 1)
     ∧ (0 < 5000 → 0 ≤ r ≤ 5000)
     ∧ (0 < 5000 → 10000 < 10000 → 0 < r)
     ∧ (1 < 5000 → 10000 * r < 5000 * (10000 - 10000) + 10000
                   ∧ 5000 * (10000 - 10000) ≤ 10000 * r).
Proof. apply (@slippage_sell_bounds debug 5000 10000); concrete. Defined.
