(* ===== verification/PumpSwapCalc.v ===== *)
(** * PumpSwap pool arithmetic (sdk utils/calc/pumpswap.rs)

    The four quotes of a PumpSwap constant-product pool: buy or sell, given
    the base or the quote amount.  Intermediate products are [u128], results
    are cut to [u64] with [as u64], and the slippage limits come from
    [CalcCommon]. *)

From Stdlib Require Import String.
From S2P Require Import Prelude Solana CalcCommon.

(* sdk instruction/utils/pumpswap.rs:66-66 LP_FEE_BASIS_POINTS *)
Definition LP_FEE_BASIS_POINTS : Z := 25.
(* sdk instruction/utils/pumpswap.rs:67-67 PROTOCOL_FEE_BASIS_POINTS *)
Definition PROTOCOL_FEE_BASIS_POINTS : Z := 5.
(* sdk instruction/utils/pumpswap.rs:68-68 COIN_CREATOR_FEE_BASIS_POINTS *)
Definition COIN_CREATOR_FEE_BASIS_POINTS : Z := 5.

(* sdk utils/calc/pumpswap.rs:9-18 BuyBaseInputResult *)
Record BuyBaseInputResult := mk_BuyBaseInputResult {
  bbi_internal_quote_amount : Z;
  bbi_ui_quote : Z;
  bbi_max_quote : Z;
}.

(* sdk utils/calc/pumpswap.rs:20-29 BuyQuoteInputResult *)
Record BuyQuoteInputResult := mk_BuyQuoteInputResult {
  bqi_base : Z;
  bqi_internal_quote_without_fees : Z;
  bqi_max_quote : Z;
}.

(* sdk utils/calc/pumpswap.rs:31-40 SellBaseInputResult *)
Record SellBaseInputResult := mk_SellBaseInputResult {
  sbi_ui_quote : Z;
  sbi_min_quote : Z;
  sbi_internal_quote_amount_out : Z;
}.

(* sdk utils/calc/pumpswap.rs:42-51 SellQuoteInputResult *)
Record SellQuoteInputResult := mk_SellQuoteInputResult {
  sqi_internal_raw_quote : Z;
  sqi_base : Z;
  sqi_min_quote : Z;
}.

Definition zero_reserve_msg : string :=
  "Invalid input: 'baseReserve' or 'quoteReserve' cannot be zero.".

Section PumpSwapCalc.
Context `{Build}.

(* sdk utils/calc/pumpswap.rs:64-107 buy_base_input_internal *)
Definition buy_base_input_internal
    (base slippage_basis_points base_reserve quote_reserve : Z)
    (coin_creator : Pubkey) : exec (result string BuyBaseInputResult) :=
  if (base_reserve =? 0) || (quote_reserve =? 0) then Val (Err zero_reserve_msg)
  else if base_reserve <? base then
    Val (Err "Cannot buy more base tokens than the pool reserves."%string)
  else
    let* numerator := mul 128 quote_reserve base in
    let* denominator := sub 64 base_reserve base in
    if denominator =? 0 then
      Val (Err "Pool would be depleted; denominator is zero."%string)
    else
      let* c := ceil_div numerator denominator in
      let quote_amount_in := as_u64 c in
      let* f1 := compute_fee quote_amount_in LP_FEE_BASIS_POINTS in
      let lp_fee := as_u64 f1 in
      let* f2 := compute_fee quote_amount_in PROTOCOL_FEE_BASIS_POINTS in
      let protocol_fee := as_u64 f2 in
      let* coin_creator_fee :=
        (if coin_creator =? pubkey_default then Val 0
         else let* f3 := compute_fee quote_amount_in COIN_CREATOR_FEE_BASIS_POINTS in
              Val (as_u64 f3)) in
      let* t1 := add 64 quote_amount_in lp_fee in
      let* t2 := add 64 t1 protocol_fee in
      let* total_quote := add 64 t2 coin_creator_fee in
      let* max_quote := calculate_with_slippage_buy total_quote slippage_basis_points in
      Val (Ok (mk_BuyBaseInputResult quote_amount_in total_quote max_quote)).

(* sdk utils/calc/pumpswap.rs:120-158 buy_quote_input_internal *)
Definition buy_quote_input_internal
    (quote slippage_basis_points base_reserve quote_reserve : Z)
    (coin_creator : Pubkey) : exec (result string BuyQuoteInputResult) :=
  if (base_reserve =? 0) || (quote_reserve =? 0) then Val (Err zero_reserve_msg)
  else
    let* f1 := add 64 LP_FEE_BASIS_POINTS PROTOCOL_FEE_BASIS_POINTS in
    let* total_fee_bps := add 64 f1
      (if coin_creator =? pubkey_default then 0 else COIN_CREATOR_FEE_BASIS_POINTS) in
    let* denominator := add 64 10000 total_fee_bps in
    let* q := mul 128 quote 10000 in
    let* effective_quote := div q denominator in
    let* numerator := mul 128 base_reserve effective_quote in
    let* denominator_effective := add 128 quote_reserve effective_quote in
    if denominator_effective =? 0 then
      Val (Err "Pool would be depleted; denominator is zero."%string)
    else
      let* b := div numerator denominator_effective in
      let base_amount_out := as_u64 b in
      let* max_quote := calculate_with_slippage_buy quote slippage_basis_points in
      Val (Ok (mk_BuyQuoteInputResult base_amount_out (as_u64 effective_quote) max_quote)).

(* sdk utils/calc/pumpswap.rs:171-211 sell_base_input_internal *)
Definition sell_base_input_internal
    (base slippage_basis_points base_reserve quote_reserve : Z)
    (coin_creator : Pubkey) : exec (result string SellBaseInputResult) :=
  if (base_reserve =? 0) || (quote_reserve =? 0) then Val (Err zero_reserve_msg)
  else
    let* n := mul 128 quote_reserve base in
    let* d := add 128 base_reserve base in
    let* q := div n d in
    let quote_amount_out := as_u64 q in
    let* f1 := compute_fee quote_amount_out LP_FEE_BASIS_POINTS in
    let lp_fee := as_u64 f1 in
    let* f2 := compute_fee quote_amount_out PROTOCOL_FEE_BASIS_POINTS in
    let protocol_fee := as_u64 f2 in
    let* coin_creator_fee :=
      (if coin_creator =? pubkey_default then Val 0
       else let* f3 := compute_fee quote_amount_out COIN_CREATOR_FEE_BASIS_POINTS in
            Val (as_u64 f3)) in
    let* t1 := add 64 lp_fee protocol_fee in
    let* total_fees := add 64 t1 coin_creator_fee in
    if quote_amount_out <? total_fees then
      Val (Err "Fees exceed total output; final quote is negative."%string)
    else
      let* final_quote := sub 64 quote_amount_out total_fees in
      let* min_quote := calculate_with_slippage_sell final_quote slippage_basis_points in
      Val (Ok (mk_SellBaseInputResult final_quote min_quote quote_amount_out)).

(* sdk utils/calc/pumpswap.rs:213-213 MAX_FEE_BASIS_POINTS *)
Definition MAX_FEE_BASIS_POINTS : Z := 10000.

(* sdk utils/calc/pumpswap.rs:216-227 calculate_quote_amount_out *)
Definition calculate_quote_amount_out
    (user_quote_amount_out lp_fee_basis_points protocol_fee_basis_points
     coin_creator_fee_basis_points : Z) : exec Z :=
  let* t := add 64 lp_fee_basis_points protocol_fee_basis_points in
  let* total_fee_basis_points := add 64 t coin_creator_fee_basis_points in
  let* denominator := sub 64 MAX_FEE_BASIS_POINTS total_fee_basis_points in
  let* n := mul 128 user_quote_amount_out MAX_FEE_BASIS_POINTS in
  let* r := ceil_div n denominator in
  Val (as_u64 r).

(* sdk utils/calc/pumpswap.rs:240-275 sell_quote_input_internal *)
Definition sell_quote_input_internal
    (quote slippage_basis_points base_reserve quote_reserve : Z)
    (coin_creator : Pubkey) : exec (result string SellQuoteInputResult) :=
  if (base_reserve =? 0) || (quote_reserve =? 0) then Val (Err zero_reserve_msg)
  else if quote_reserve <? quote then
    Val (Err "Cannot receive more quote tokens than the pool quote reserves."%string)
  else
    let* raw_quote :=
      calculate_quote_amount_out quote LP_FEE_BASIS_POINTS PROTOCOL_FEE_BASIS_POINTS
        (if coin_creator =? pubkey_default then 0 else COIN_CREATOR_FEE_BASIS_POINTS) in
    if quote_reserve <=? raw_quote then
      Val (Err "Invalid input: Desired quote amount exceeds available reserve."%string)
    else
      let* n := mul 128 base_reserve raw_quote in
      let* d := sub 64 quote_reserve raw_quote in
      let* b := ceil_div n d in
      let base_amount_in := as_u64 b in
      let* min_quote := calculate_with_slippage_sell quote slippage_basis_points in
      Val (Ok (mk_SellQuoteInputResult raw_quote base_amount_in min_quote)).

(** ** The arithmetic the operations perform *)

Definition creator_bps (cc : Pubkey) : Z :=
  if cc =? pubkey_default then 0 else COIN_CREATOR_FEE_BASIS_POINTS.
Definition total_bps (cc : Pubkey) : Z := 30 + creator_bps cc.

(** The three fees on [q], each rounded up. *)
Definition fees (q : Z) (cc : Pubkey) : Z :=
  fee_of q 25 + fee_of q 5 + fee_of q (creator_bps cc).

Lemma creator_bps_cases cc : creator_bps cc = 0 ∨ creator_bps cc = 5.
Proof. unfold creator_bps. cond; auto. Qed.

Lemma fee_of_0 q : fee_of q 0 = 0.
Proof. unfold fee_of, zceil. by rewrite Z.mul_0_r. Qed.

(** Three roundings lose less than three units. *)
Lemma fees_bounds q cc :
  0 ≤ q → 0 ≤ fees q cc ∧
  q * total_bps cc ≤ 10000 * fees q cc ≤ q * total_bps cc + 3 * 9999.
Proof.
  intros Hq. unfold fees, total_bps.
  pose proof (creator_bps_cases cc).
  pose proof (fee_of_bounds q 25 Hq ltac:(lia)).
  pose proof (fee_of_bounds q 5 Hq ltac:(lia)).
  pose proof (fee_of_bounds q (creator_bps cc) Hq ltac:(lia)). lia.
Qed.

Lemma compute_fee_u64 q bps :
  is_u64 q → 0 ≤ bps ≤ 10000 →
  compute_fee q bps = Val (fee_of q bps) ∧ as_u64 (fee_of q bps) = fee_of q bps
  ∧ is_u64 (fee_of q bps).
Proof.
  intros Hq Hb. pose proof (fee_of_bounds q bps ltac:(uint) Hb).
  split; [by apply compute_fee_val|]. split; [apply as_u64_small|]; uint.
Qed.

Lemma creator_fee_code q cc :
  is_u64 q →
  (if cc =? pubkey_default then Val 0
   else let* f3 := compute_fee q COIN_CREATOR_FEE_BASIS_POINTS in Val (as_u64 f3))
  = Val (fee_of q (creator_bps cc)).
Proof.
  intros Hq. unfold creator_bps. cond; [by rewrite fee_of_0|].
  destruct (compute_fee_u64 q COIN_CREATOR_FEE_BASIS_POINTS Hq) as (-> & Hc & _);
    [by unfold COIN_CREATOR_FEE_BASIS_POINTS|]. simpl. by rewrite Hc.
Qed.

Lemma reserves_pos br qr :
  0 < br → 0 < qr → (br =? 0) || (qr =? 0) = false.
Proof. intros. apply orb_false_iff. split; apply Z.eqb_neq; lia. Qed.

(** Quote needed for [base]: the ceiling of the constant-product price. *)
Definition quote_in (base br qr : Z) : Z := zceil (qr * base) (br - base).
(** Quote paid out for [base]. *)
Definition quote_out (base br qr : Z) : Z := qr * base / (br + base).

Lemma quote_in_least base br qr q :
  0 ≤ base < br → (quote_in base br qr ≤ q ↔ qr * br ≤ (qr + q) * (br - base)).
Proof. intros Hb. unfold quote_in. rewrite zceil_spec by lia. lia. Qed.

Lemma quote_out_greatest base br qr q :
  0 ≤ base → 0 < br → (q ≤ quote_out base br qr ↔ qr * br ≤ (qr - q) * (br + base)).
Proof.
  intros Hb Hr. unfold quote_out. rewrite le_div_iff by lia. lia.
Qed.

(** The operations on in-range inputs past their guards, with the exact
    intermediate values. *)

Lemma mul_sub_ceil_range a b c :
  is_u64 a → is_u64 b → is_u64 c → b < c → is_u128 (a * b) ∧
  0 ≤ a * b ≤ u128_max - u64_max ∧ 0 < c - b ≤ u64_max.
Proof.
  intros Ha Hb Hc Hlt. pose proof (u64_mul_u64 a b Ha Hb).
  uint_unfold. split; [lia|]. nia.
Qed.

(** The rates are small, so that fees never overflow. *)
Lemma small_fees q cc :
  is_u64 q → 0 ≤ fee_of q 25 ∧ 0 ≤ fee_of q 5 ∧ 0 ≤ fee_of q (creator_bps cc)
  ∧ is_u64 (fee_of q 25 + fee_of q 5) ∧ is_u64 (fees q cc).
Proof.
  intros Hq. unfold fees.
  pose proof (fee_of_bounds q 25 ltac:(uint) ltac:(lia)).
  pose proof (fee_of_bounds q 5 ltac:(uint) ltac:(lia)).
  pose proof (fee_of_0 q).
  uint_unfold. destruct (creator_bps_cases cc) as [-> | ->]; lia.
Qed.

Lemma fee_total q cc t1 t2 t :
  is_u64 q → add 64 q (fee_of q 25) = Val t1 → add 64 t1 (fee_of q 5) = Val t2 →
  add 64 t2 (fee_of q (creator_bps cc)) = Val t →
  t ≤ q + fees q cc ∧ (is_u64 (q + fees q cc) → t = q + fees q cc).
Proof.
  intros Hq E1 E2 E3. unfold fees. pose proof (creator_bps_cases cc).
  pose proof (fee_of_bounds q 25 ltac:(uint) ltac:(lia)).
  pose proof (fee_of_bounds q 5 ltac:(uint) ltac:(lia)).
  pose proof (fee_of_bounds q (creator_bps cc) ltac:(uint) ltac:(lia)).
  pose proof E1 as [R1 L1]%add_le; [|uint..].
  pose proof E2 as [R2 L2]%add_le; [|uint..].
  pose proof E3 as [R3 L3]%add_le; [|uint..].
  split; [lia|]. intros Hs. rewrite add_ok in E1 by uint. exec_inv. subst t1.
  rewrite add_ok in E2 by uint. exec_inv. subst t2.
  rewrite add_ok in E3 by uint. exec_inv. lia.
Qed.

Lemma buy_base_guard base slip br qr cc :
  is_u64 base → is_u64 br → is_u64 qr → ¬ (0 < br ∧ 0 < qr ∧ base < br) →
  ∃ e, buy_base_input_internal base slip br qr cc = Val (Err e).
Proof.
  intros Hb Hbr Hqr Hn. unfold buy_base_input_internal.
  cond; [eauto|]. cond; [eauto|]. bool_hyps.
  assert (base = br) as -> by (uint_unfold; lia).
  rewrite mul_ok by auto with rust. cbn [exec_bind].
  rewrite sub_ok, Z.sub_diag by uint. simpl. eauto.
Qed.

Lemma buy_base_code base slip br qr cc :
  is_u64 base → is_u64 br → is_u64 qr → 0 < br → 0 < qr → base < br →
  buy_base_input_internal base slip br qr cc =
    let q := as_u64 (quote_in base br qr) in
    let* t1 := add 64 q (fee_of q 25) in
    let* t2 := add 64 t1 (fee_of q 5) in
    let* total := add 64 t2 (fee_of q (creator_bps cc)) in
    let* mx := calculate_with_slippage_buy total slip in
    Val (Ok (mk_BuyBaseInputResult q total mx)).
Proof.
  intros Hb Hbr Hqr H1 H2 Hlt. unfold buy_base_input_internal.
  rewrite reserves_pos by done. rewrite (proj2 (Z.ltb_ge br base)) by lia.
  destruct (mul_sub_ceil_range qr base br Hqr Hb Hbr Hlt) as (? & ? & ?).
  rewrite mul_ok by done. cbn [exec_bind]. exec_step.
  rewrite (proj2 (Z.eqb_neq (br - base) 0)) by lia.
  rewrite ceil_div_val by done. cbn [exec_bind].
  change (zceil (qr * base) (br - base)) with (quote_in base br qr).
  pose proof (as_u64_range (quote_in base br qr)) as Hq.
  destruct (compute_fee_u64 _ LP_FEE_BASIS_POINTS Hq) as (-> & E1 & _); [done|].
  destruct (compute_fee_u64 _ PROTOCOL_FEE_BASIS_POINTS Hq) as (-> & E2 & _); [done|].
  cbn [exec_bind]. rewrite E1, E2, creator_fee_code by done. done.
Qed.

Lemma buy_base_Ok_inv base slip br qr cc r :
  is_u64 base → is_u64 br → is_u64 qr →
  buy_base_input_internal base slip br qr cc = Val (Ok r) →
  0 < br ∧ 0 < qr ∧ base < br ∧
  let q := as_u64 (quote_in base br qr) in
  bbi_internal_quote_amount r = q ∧ bbi_ui_quote r ≤ q + fees q cc ∧
  (is_u64 (q + fees q cc) → bbi_ui_quote r = q + fees q cc) ∧
  calculate_with_slippage_buy (bbi_ui_quote r) slip = Val (bbi_max_quote r).
Proof.
  intros Hb Hbr Hqr Hr.
  assert (Hg : 0 < br ∧ 0 < qr ∧ base < br).
  { destruct (decide (0 < br ∧ 0 < qr ∧ base < br)) as [|Hn]; [done|].
    destruct (buy_base_guard base slip br qr cc) as [e He]; [done..|congruence]. }
  destruct Hg as (H1 & H2 & Hlt). split; [done|]. split; [done|]. split; [done|].
  rewrite buy_base_code in Hr by done. cbv zeta in Hr |- *.
  set (q := as_u64 (quote_in base br qr)) in *.
  pose proof (as_u64_range (quote_in base br qr)) as Hq. fold q in Hq.
  exec_inv. subst r. simpl. split; [done|].
  destruct (fee_total _ _ _ _ _ Hq E E0 E1). eauto.
Qed.

Lemma buy_quote_code quote slip br qr cc :
  is_u64 quote → is_u64 br → is_u64 qr → 0 < br → 0 < qr →
  buy_quote_input_internal quote slip br qr cc =
    let e := quote * 10000 / (10000 + total_bps cc) in
    let* mx := calculate_with_slippage_buy quote slip in
    Val (Ok (mk_BuyQuoteInputResult (br * e / (qr + e)) e mx)).
Proof.
  intros Hq Hbr Hqr H1 H2. unfold buy_quote_input_internal, total_bps.
  rewrite reserves_pos by done. fold (creator_bps cc).
  change LP_FEE_BASIS_POINTS with 25. change PROTOCOL_FEE_BASIS_POINTS with 5.
  pose proof (creator_bps_cases cc) as Hc.
  do 5 exec_step.
  replace (10000 + (25 + 5 + creator_bps cc)) with (10000 + (30 + creator_bps cc)) by lia.
  set (e := quote * 10000 / (10000 + (30 + creator_bps cc))).
  assert (He : 0 ≤ e ≤ quote)
    by (apply mul_div_le; uint_unfold; lia).
  rewrite mul_ok by (apply u64_mul_u64; uint). cbn [exec_bind].
  exec_step. rewrite (proj2 (Z.eqb_neq (qr + e) 0)) by lia. exec_step.
  assert (Hout : 0 ≤ br * e / (qr + e) ≤ br) by (apply mul_div_le; uint_unfold; lia).
  by rewrite !as_u64_small by (uint_unfold; lia).
Qed.

Lemma sell_base_code base slip br qr cc :
  is_u64 base → is_u64 br → is_u64 qr → 0 < br → 0 < qr →
  sell_base_input_internal base slip br qr cc =
    let q := quote_out base br qr in
    if q <? fees q cc then Val (Err "Fees exceed total output; final quote is negative."%string)
    else
      let* mn := calculate_with_slippage_sell (q - fees q cc) slip in
      Val (Ok (mk_SellBaseInputResult (q - fees q cc) mn q)).
Proof.
  intros Hb Hbr Hqr H1 H2. unfold sell_base_input_internal.
  rewrite reserves_pos by done.
  rewrite mul_ok by auto with rust. cbn [exec_bind]. do 2 exec_step.
  change (qr * base / (br + base)) with (quote_out base br qr).
  assert (Hq : 0 ≤ quote_out base br qr ≤ qr) by (apply mul_div_le; uint_unfold; lia).
  rewrite (as_u64_small (quote_out base br qr)) by (uint_unfold; lia).
  set (q := quote_out base br qr) in *. assert (Hq' : is_u64 q) by (uint_unfold; lia).
  destruct (compute_fee_u64 _ LP_FEE_BASIS_POINTS Hq') as (-> & E1 & _); [done|].
  destruct (compute_fee_u64 _ PROTOCOL_FEE_BASIS_POINTS Hq') as (-> & E2 & _); [done|].
  cbn [exec_bind]. rewrite E1, E2, creator_fee_code by done. cbn [exec_bind].
  change LP_FEE_BASIS_POINTS with 25. change PROTOCOL_FEE_BASIS_POINTS with 5.
  pose proof (small_fees q cc Hq') as Hf. unfold fees in Hf.
  do 2 exec_step. fold (fees q cc) in Hf |- *. cond; [done|]. bool_hyps. exec_step. done.
Qed.

(** Gross quote that leaves [quote] after fees. *)
Definition gross (quote : Z) (cc : Pubkey) : Z :=
  zceil (quote * 10000) (10000 - total_bps cc).

Lemma gross_code quote cc :
  is_u64 quote →
  calculate_quote_amount_out quote LP_FEE_BASIS_POINTS PROTOCOL_FEE_BASIS_POINTS
    (creator_bps cc) = Val (as_u64 (gross quote cc)).
Proof.
  intros Hq. unfold calculate_quote_amount_out, gross, total_bps, MAX_FEE_BASIS_POINTS.
  change LP_FEE_BASIS_POINTS with 25. change PROTOCOL_FEE_BASIS_POINTS with 5.
  pose proof (creator_bps_cases cc). do 4 exec_step.
  replace (10000 - (25 + 5 + creator_bps cc)) with (10000 - (30 + creator_bps cc)) by lia.
  by rewrite ceil_div_val by uint.
Qed.

Lemma sell_quote_code quote slip br qr cc :
  is_u64 quote → is_u64 br → is_u64 qr → 0 < br → 0 < qr → quote ≤ qr →
  sell_quote_input_internal quote slip br qr cc =
    let g := as_u64 (gross quote cc) in
    if qr <=? g then
      Val (Err "Invalid input: Desired quote amount exceeds available reserve."%string)
    else
      let* mn := calculate_with_slippage_sell quote slip in
      Val (Ok (mk_SellQuoteInputResult g (as_u64 (zceil (br * g) (qr - g))) mn)).
Proof.
  intros Hq Hbr Hqr H1 H2 Hle. unfold sell_quote_input_internal.
  rewrite reserves_pos by done. rewrite (proj2 (Z.ltb_ge qr quote)) by lia.
  fold (creator_bps cc). rewrite gross_code by done. cbn [exec_bind]. cbv zeta.
  pose proof (as_u64_range (gross quote cc)) as Hg. cond; [done|]. bool_hyps.
  destruct (mul_sub_ceil_range br _ qr Hbr Hg Hqr) as (? & ? & ?); [done|].
  rewrite mul_ok by done. cbn [exec_bind]. exec_step.
  by rewrite ceil_div_val by done.
Qed.

(** ** What the quotes promise *)

(** [buy_base_input_internal] charges, before fees, the least quote
    amount that keeps the constant product: paying [q] for [base] leaves a
    pool whose product is not below the old one exactly when [q] is at least
    the amount returned (provided the true price fits the [u64] the source
    cuts it to).  Fees are added on top. *)
Theorem buy_base_input_least base slip br qr cc r :
  is_u64 base → is_u64 br → is_u64 qr → is_u64 (quote_in base br qr) →
  buy_base_input_internal base slip br qr cc = Val (Ok r) →
  base < br
  ∧ (∀ q, bbi_internal_quote_amount r ≤ q ↔ qr * br ≤ (qr + q) * (br - base))
  ∧ (is_u64 (bbi_internal_quote_amount r + fees (bbi_internal_quote_amount r) cc) →
     bbi_ui_quote r = bbi_internal_quote_amount r + fees (bbi_internal_quote_amount r) cc).
Proof.
  intros Hb Hbr Hqr Hfit Hr.
  apply buy_base_Ok_inv in Hr as (H1 & H2 & Hlt & Hq & _ & Hui & _); [|done..].
  rewrite as_u64_small in Hq, Hui by done. rewrite Hq.
  split; [done|]. split; [|done]. intros q. apply quote_in_least. uint_unfold. lia.
Qed.

(** The error cases of [buy_base_input_internal], in every build:
    it returns an error exactly for an empty reserve or when the pool would
    be emptied or overdrawn. *)
Theorem buy_base_input_errors base slip br qr cc :
  is_u64 base → is_u64 br → is_u64 qr →
  ((∃ e, buy_base_input_internal base slip br qr cc = Val (Err e)) ↔
   br = 0 ∨ qr = 0 ∨ br ≤ base).
Proof.
  intros Hb Hbr Hqr. split.
  - intros [e He]. destruct (decide (0 < br ∧ 0 < qr ∧ base < br)) as [(?&?&?)|Hn].
    + rewrite buy_base_code in He by done. cbv zeta in He. exec_inv. done.
    + uint_unfold. lia.
  - intros Hc. apply buy_base_guard; [done..|]. lia.
Qed.

(** Buying with a quote amount is consistent with buying the base
    amount it returns: the price of that base amount, fees included, is at
    most the quote amount the user named plus 2, the slack of three fees
    each rounded up. *)
Theorem buy_quote_then_base quote slip br qr cc r1 r2 :
  is_u64 quote → is_u64 br → is_u64 qr →
  buy_quote_input_internal quote slip br qr cc = Val (Ok r1) →
  buy_base_input_internal (bqi_base r1) slip br qr cc = Val (Ok r2) →
  bbi_internal_quote_amount r2 ≤ bqi_internal_quote_without_fees r1
  ∧ bbi_ui_quote r2 ≤ quote + 2.
Proof.
  intros Hq Hbr Hqr Hr1 Hr2.
  assert (Hpos : 0 < br ∧ 0 < qr).
  { unfold buy_quote_input_internal in Hr1. cond; [done|]. bool_hyps. uint. }
  destruct Hpos as [Hp1 Hp2]. rewrite buy_quote_code in Hr1 by done. cbv zeta in Hr1.
  exec_inv. subst r1. simpl in *. clear E v.
  set (e := quote * 10000 / (10000 + total_bps cc)) in *.
  assert (He : 0 ≤ e ∧ e * (10000 + total_bps cc) ≤ quote * 10000).
  { unfold total_bps in *. pose proof (creator_bps_cases cc).
    split; [apply Z.div_pos; uint|]. apply le_div_iff; [lia|done]. }
  assert (Hbase : is_u64 (br * e / (qr + e))).
  { pose proof (mul_div_le br e (qr + e)). uint. }
  apply buy_base_Ok_inv in Hr2 as (_ & _ & Hlt & Hi & Hui & _); [|done..].
  assert (Hin : quote_in (br * e / (qr + e)) br qr ≤ e).
  { apply quote_in_least; [uint_unfold; lia|].
    pose proof (div_mul_floor (br * e) (qr + e) ltac:(lia)). nia. }
  pose proof (zceil_nonneg (qr * (br * e / (qr + e))) (br - br * e / (qr + e))
    ltac:(uint) ltac:(lia)) as H0. fold (quote_in (br * e / (qr + e)) br qr) in H0.
  assert (e ≤ quote) by (unfold total_bps in *; pose proof (creator_bps_cases cc); nia).
  rewrite as_u64_small in Hi, Hui by uint. rewrite Hi. split; [done|].
  destruct (fees_bounds (quote_in (br * e / (qr + e)) br qr) cc H0) as (_ & _ & Hf).
  unfold total_bps in *. destruct (creator_bps_cases cc) as [Hc|Hc]; rewrite Hc in *; nia.
Qed.

(** [sell_base_input_internal] pays, before fees, the greatest quote
    amount that keeps the constant product, never empties the pool, and
    deducts fees of which three roundings are the only excess over the
    nominal rate; it is an error exactly when the fees exceed that amount.
    With a tolerance up to 100% whose [u64] product does not overflow it
    always returns. *)
Theorem sell_base_input_spec base slip br qr cc :
  is_u64 base → is_u64 br → is_u64 qr → 0 < br → 0 < qr →
  0 ≤ slip ≤ 10000 → is_u64 (qr * slip) →
  let out := quote_out base br qr in
  (∀ q, q ≤ out ↔ qr * br ≤ (qr - q) * (br + base)) ∧ 0 ≤ out < qr ∧
  match sell_base_input_internal base slip br qr cc with
  | Val (Ok r) =>
      sbi_internal_quote_amount_out r = out
      ∧ sbi_ui_quote r = out - fees out cc
      ∧ 0 ≤ sbi_ui_quote r
      ∧ (0 < sbi_ui_quote r → sbi_min_quote r ≤ sbi_ui_quote r)
  | Val (Err _) => out < fees out cc
  | Panic => False
  end.
Proof.
  intros Hb Hbr Hqr H1 H2 Hs Hm out.
  assert (Hg : ∀ q, q ≤ out ↔ qr * br ≤ (qr - q) * (br + base))
    by (intros q; apply quote_out_greatest; uint).
  split; [done|].
  assert (Hout : 0 ≤ out < qr).
  { split; [apply Z.div_pos; uint|]. apply Z.div_lt_upper_bound; uint. }
  split; [done|]. rewrite sell_base_code by done. fold out. cbv zeta.
  cond; bool_hyps; [done|].
  destruct (fees_bounds out cc) as [Hf _]; [lia|].
  assert (Hm' : is_u64 ((out - fees out cc) * slip)) by uint.
  destruct (slippage_sell_bounds (out - fees out cc) slip)
    as (m & -> & _ & Hle & _); [uint_unfold; lia|done|done|].
  simpl. repeat split; lia.
Qed.

Lemma sell_quote_Ok_inv quote slip br qr cc r :
  is_u64 quote → is_u64 br → is_u64 qr →
  sell_quote_input_internal quote slip br qr cc = Val (Ok r) →
  0 < br ∧ 0 < qr ∧
  let g := as_u64 (gross quote cc) in
  g < qr ∧ sqi_internal_raw_quote r = g ∧ sqi_base r = as_u64 (zceil (br * g) (qr - g)).
Proof.
  intros Hq Hbr Hqr Hr.
  assert (Hg : 0 < br ∧ 0 < qr ∧ quote ≤ qr).
  { unfold sell_quote_input_internal in Hr. do 2 (cond; [done|]). bool_hyps. uint. }
  destruct Hg as (H1 & H2 & H3). split; [done|]. split; [done|].
  rewrite sell_quote_code in Hr by done. cbv zeta in *.
  cond; [done|]. bool_hyps. exec_inv. by subst r.
Qed.

Lemma sell_base_Ok_inv base slip br qr cc r :
  is_u64 base → is_u64 br → is_u64 qr → 0 < br → 0 < qr →
  sell_base_input_internal base slip br qr cc = Val (Ok r) →
  let out := quote_out base br qr in
  sbi_internal_quote_amount_out r = out ∧ sbi_ui_quote r = out - fees out cc.
Proof.
  intros Hb Hbr Hqr H1 H2 Hr. rewrite sell_base_code in Hr by done. cbv zeta in *.
  cond; [done|]. exec_inv. by subst r.
Qed.

(** The gross amount covers the net amount after the nominal fee rate. *)
Lemma gross_small quote cc :
  is_u64 quote → quote * 10000 ≤ gross quote cc * (10000 - total_bps cc).
Proof.
  intros Hq. unfold gross, total_bps. pose proof (creator_bps_cases cc).
  apply zceil_ge. lia.
Qed.

(** Selling for a quote amount is consistent with selling the base
    amount it returns: when neither the gross amount nor the base amount is
    cut by [as u64], the sale of that base amount pays, after fees, at least
    the quote asked for less 2. *)
Theorem sell_quote_then_base quote slip br qr cc r1 r2 :
  is_u64 quote → is_u64 br → is_u64 qr → is_u64 (gross quote cc) →
  is_u64 (zceil (br * gross quote cc) (qr - gross quote cc)) →
  sell_quote_input_internal quote slip br qr cc = Val (Ok r1) →
  sell_base_input_internal (sqi_base r1) slip br qr cc = Val (Ok r2) →
  sqi_internal_raw_quote r1 ≤ sbi_internal_quote_amount_out r2
  ∧ quote - 2 ≤ sbi_ui_quote r2.
Proof.
  intros Hq Hbr Hqr Hg Hbase Hr1 Hr2.
  apply sell_quote_Ok_inv in Hr1 as (H1 & H2 & Hlt & Hraw & Hb); [|done..].
  rewrite (as_u64_small (gross quote cc)) in Hlt, Hraw, Hb by done.
  rewrite as_u64_small in Hb by done. rewrite Hb in Hr2. rewrite Hraw.
  set (g := gross quote cc) in *. set (b := zceil (br * g) (qr - g)) in *.
  apply sell_base_Ok_inv in Hr2 as [Ho Hui]; [|done..]. rewrite Ho, Hui.
  assert (Hge : g ≤ quote_out b br qr).
  { apply quote_out_greatest; [uint|done|].
    pose proof (zceil_ge (br * g) (qr - g) ltac:(lia)). fold b in H0. nia. }
  split; [done|].
  pose proof (gross_small quote cc Hq) as Hgr. fold g in Hgr.
  destruct (fees_bounds (quote_out b br qr) cc) as (_ & _ & Hf); [uint|].
  unfold total_bps in *. destruct (creator_bps_cases cc) as [Hc|Hc]; rewrite Hc in *; nia.
Qed.

(** C28.  No profit from a round trip, for reserves, a base amount and a quote
    reserve after the purchase that are 64-bit numbers: base tokens bought at
    the quoted price and sold back to the pool the purchase leaves return at
    most what was paid for them before fees, provided the price fits in 64 bits
    - that is, provided the price is not cut.  A price that does not fit is cut
    to its low 64 bits by the code, and only then can more come back. *)
Theorem buy_then_sell_no_profit base s1 s2 br qr cc r1 r2 :
  is_u64 base → is_u64 br → is_u64 qr → 0 < base →
  buy_base_input_internal base s1 br qr cc = Val (Ok r1) →
  is_u64 (qr + bbi_internal_quote_amount r1) →
  sell_base_input_internal base s2 (br - base) (qr + bbi_internal_quote_amount r1) cc
    = Val (Ok r2) →
  bbi_internal_quote_amount r1 = quote_in base br qr mod 2 ^ 64 ∧
  (quote_in base br qr ≤ u64_max →
   bbi_internal_quote_amount r1 = quote_in base br qr
   ∧ sbi_internal_quote_amount_out r2 ≤ bbi_internal_quote_amount r1
   ∧ sbi_ui_quote r2 ≤ bbi_internal_quote_amount r1).
Proof.
  intros Hb Hbr Hqr Hpos Hr1 Hsum Hr2.
  apply buy_base_Ok_inv in Hr1 as (H1 & H2 & Hlt & Hq & _); [|done..].
  split; [by rewrite Hq|]. intros Hle64.
  assert (Hfit : is_u64 (quote_in base br qr)).
  { pose proof (zceil_nonneg (qr * base) (br - base) ltac:(uint) ltac:(lia)) as Hn.
    fold (quote_in base br qr) in Hn. uint. }
  rewrite as_u64_small in Hq by done. rewrite Hq in *. split; [done|].
  pose proof (proj1 (quote_in_least base br qr _ ltac:(lia)) (Z.le_refl _)) as Hprod.
  set (q := quote_in base br qr) in *.
  apply sell_base_Ok_inv in Hr2 as [Ho Hui]; [|uint_unfold; lia..]. rewrite Ho, Hui.
  set (out := quote_out base (br - base) (qr + q)).
  assert (Hout : 0 ≤ out) by (apply Z.div_pos; uint).
  assert (Hle : out ≤ q).
  { apply Z.lt_succ_r, Z.div_lt_upper_bound; [lia|].
    pose proof (zceil_lt (qr * base) (br - base) ltac:(lia)).
    pose proof (zceil_ge (qr * base) (br - base) ltac:(lia)).
    fold (quote_in base br qr) q in H0, H3. nia. }
  destruct (fees_bounds out cc Hout) as [? _]. lia.
Qed.
End PumpSwapCalc.

(** The cut price, in a release build: four of the five base tokens of a pool
    with 2^62 quote units cost nothing, and sold back they return most of the
    quote reserve. *)
Theorem cut_price_profits :
  match @buy_base_input_internal release 4 100 5 (2 ^ 62) 7 with
  | Val (Ok r1) =>
      bbi_internal_quote_amount r1 = 0 ∧ quote_in 4 5 (2 ^ 62) = 2 ^ 64 ∧
      match @sell_base_input_internal release 4 100 (5 - 4) (2 ^ 62 + 0) 7 with
      | Val (Ok r2) => sbi_internal_quote_amount_out r2 = 3689348814741910323
      | _ => False
      end
  | _ => False
  end.
Proof. vm_compute. auto. Qed.

(** ** Witnesses: a pool of 10^9 base and 3 * 10^10 quote units *)

Lemma buy_base_input_least_witness :
  1000000 < 1000000000 ∧
  (30030031 ≤ 30030030 ↔
   30000000000 * 1000000000 ≤ (30000000000 + 30030030) * (1000000000 - 1000000)).
Proof.
  destruct (@buy_base_input_least release 1000000 100 1000000000 30000000000 7
    (mk_BuyBaseInputResult 30030031 30135139 30436490)) as (H & Hq & _);
    [concrete..|]. split; [exact H|exact (Hq 30030030)].
Defined.

Lemma buy_base_input_errors_witness :
  (∃ e, @buy_base_input_internal release 1000000000 100 1000000000 30000000000 7 = Val (Err e))
  ↔ 1000000000 = 0 ∨ 30000000000 = 0 ∨ 1000000000 ≤ 1000000000.
Proof. apply (@buy_base_input_errors release); concrete. Defined.

Lemma buy_quote_then_base_witness :
  996512203 ≤ 996512207 ∧ 999999998 ≤ 1000000000 + 2.
Proof.
  destruct (@buy_quote_then_base release 1000000000 100 1000000000 30000000000 7
    (mk_BuyQuoteInputResult 32149172 996512207 1010000000)
    (mk_BuyBaseInputResult 996512203 999999998 1009999997)) as [H1 H2]; [concrete..|].
  split; [exact H1|exact H2].
Defined.

Lemma sell_base_input_spec_witness :
  let out := quote_out 1000000 1000000000 30000000000 in
  (∀ q, q ≤ out ↔ 30000000000 * 1000000000 ≤ (30000000000 - q) * (1000000000 + 1000000))
  ∧ 0 ≤ out < 30000000000 ∧
  match @sell_base_input_internal release 1000000 100 1000000000 30000000000 7 with
  | Val (Ok r) =>
      sbi_internal_quote_amount_out r = out
      ∧ sbi_ui_quote r = out - fees out 7
      ∧ 0 ≤ sbi_ui_quote r
      ∧ (0 < sbi_ui_quote r → sbi_min_quote r ≤ sbi_ui_quote r)
  | Val (Err _) => out < fees out 7
  | Panic => False
  end.
Proof.
  apply (@sell_base_input_spec release 1000000 100 1000000000 30000000000 7); concrete.
Defined.

Lemma sell_quote_then_base_witness : 1003513 ≤ 1003526 ∧ 1000000 - 2 ≤ 1000013.
Proof.
  apply (@sell_quote_then_base release 1000000 100 1000000000 30000000000 7
    (mk_SellQuoteInputResult 1003513 33452 990000)
    (mk_SellBaseInputResult 1000013 990013 1003526)); concrete.
Defined.

Lemma buy_then_sell_no_profit_witness :
  quote_in 1000000 1000000000 30000000000 = 30030031 ∧ 30030030 ≤ 30030031 ∧ 29924922 ≤ 30030031.
Proof.
  destruct (@buy_then_sell_no_profit release 1000000 100 100 1000000000 30000000000 7
    (mk_BuyBaseInputResult 30030031 30135139 30436490)
    (mk_SellBaseInputResult 29924922 29625673 30030030)) as [_ Hle]; [concrete..|].
  destruct Hle as (Hq & Ho & Hu); [concrete|]. split; [symmetry; exact Hq|].
  split; [exact Ho|exact Hu].
Defined.
