(* ===== verification/Accounts.v ===== *)
(** * Program accounts, seeds and discriminators

    The constant tables of sdk instruction/utils/pumpswap.rs and
    sdk instruction/utils/pumpfun.rs.  Names that occur in both files carry
    the protocol as a prefix ([PS_] for PumpSwap, [PF_] for Pump.fun). *)

From Stdlib Require Import String.
From S2P Require Import Prelude Solana.

(** ** PumpSwap *)

(* sdk instruction/utils/pumpswap.rs:29-29 USER_VOLUME_ACCUMULATOR_SEED *)
Definition USER_VOLUME_ACCUMULATOR_SEED : bytes := ascii_bytes "user_volume_accumulator".
(* sdk instruction/utils/pumpswap.rs:30-30 GLOBAL_VOLUME_ACCUMULATOR_SEED *)
Definition GLOBAL_VOLUME_ACCUMULATOR_SEED : bytes := ascii_bytes "global_volume_accumulator".
(* sdk instruction/utils/pumpswap.rs:31-31 FEE_CONFIG_SEED *)
Definition FEE_CONFIG_SEED : bytes := ascii_bytes "fee_config".
(* sdk instruction/utils/pumpswap.rs:34-34 POOL_V2_SEED *)
Definition POOL_V2_SEED : bytes := ascii_bytes "pool-v2".
(* sdk instruction/utils/pumpswap.rs:36-36 POOL_SEED *)
Definition PS_POOL_SEED : bytes := ascii_bytes "pool".
(* sdk instruction/utils/pumpswap.rs:38-38 POOL_AUTHORITY_SEED *)
Definition POOL_AUTHORITY_SEED : bytes := ascii_bytes "pool-authority".

(* sdk instruction/utils/pumpswap.rs:46-46 FEE_RECIPIENT *)
Definition PS_FEE_RECIPIENT : Pubkey :=
  Eval vm_compute in pubkey "62qc2CNXwrYqQScmEdiZFFAnJR262PxWEuNQtxfafNgV".
(* sdk instruction/utils/pumpswap.rs:49-49 GLOBAL_ACCOUNT *)
Definition PS_GLOBAL_ACCOUNT : Pubkey :=
  Eval vm_compute in pubkey "ADyA8hdefvWN2dbGGWFotbzWxrAvLW83WG6QCVXvJKqw".
(* sdk instruction/utils/pumpswap.rs:52-52 EVENT_AUTHORITY *)
Definition PS_EVENT_AUTHORITY : Pubkey :=
  Eval vm_compute in pubkey "GS4CU59F31iL7aR2Q8zVS8DRrcRnXX1yjQ66TqNVQnaR".
(* sdk instruction/utils/pumpswap.rs:55-56 ASSOCIATED_TOKEN_PROGRAM *)
Definition PS_ASSOCIATED_TOKEN_PROGRAM : Pubkey :=
  Eval vm_compute in pubkey "ATokenGPvbdGVxr1b2hvZbsiqW5xWH25efTNsLJA8knL".
(* sdk instruction/utils/pumpswap.rs:62-62 AMM_PROGRAM *)
Definition PS_AMM_PROGRAM : Pubkey :=
  Eval vm_compute in pubkey "pAMMBay6oceH9fJKBRHGP5D4bD4sWpmSwMn52FMfXEA".
(* sdk instruction/utils/pumpswap.rs:64-64 PUMP_PROGRAM_ID *)
Definition PUMP_PROGRAM_ID : Pubkey :=
  Eval vm_compute in pubkey "6EF8rrecthR5Dkzon8Nwu78hRvfCKubJ14M5uBEwF6P".
(* sdk instruction/utils/pumpswap.rs:70-70 FEE_PROGRAM *)
Definition PS_FEE_PROGRAM : Pubkey :=
  Eval vm_compute in pubkey "pfeeUxB6jkeY1Hxd7CsFCAjcbHA9rWtchMGdZ6VojVZ".
(* sdk instruction/utils/pumpswap.rs:72-73 GLOBAL_VOLUME_ACCUMULATOR *)
Definition PS_GLOBAL_VOLUME_ACCUMULATOR : Pubkey :=
  Eval vm_compute in pubkey "C2aFPdENg4A2HQsmrd5rTw5TaYBX5Ku887cWjbFKtZpw".
(* sdk instruction/utils/pumpswap.rs:75-75 FEE_CONFIG *)
Definition PS_FEE_CONFIG : Pubkey :=
  Eval vm_compute in pubkey "5PHirr8joyTMp9JMm6nW7hNDVyEYdkzDqazxPD7RaTjx".
(* sdk instruction/utils/pumpswap.rs:77-78 DEFAULT_COIN_CREATOR_VAULT_AUTHORITY *)
Definition DEFAULT_COIN_CREATOR_VAULT_AUTHORITY : Pubkey :=
  Eval vm_compute in pubkey "8N3GDaZ2iwN65oxVatKTLPNooAVUJTbfiVJ1ahyqwjSk".

(* sdk instruction/utils/pumpswap.rs:81-90 MAYHEM_FEE_RECIPIENTS *)
Definition PS_MAYHEM_FEE_RECIPIENTS : list Pubkey :=
  Eval vm_compute in map pubkey [
    "GesfTA3X2arioaHp8bbKdjG9vJtskViWACZoYvxp4twS";
    "4budycTjhs9fD6xw62VBducVTNgMgJJ5BgtKq7mAZwn6";
    "8SBKzEQU4nLSzcwF4a74F2iaUDQyTfjGndn6qUWBnrpR";
    "4UQeTP1T39KZ9Sfxzo3WR5skgsaP6NZa87BAkuazLEKH";
    "8sNeir4QsLsJdYpc9RZacohhK1Y5FLU3nC5LXgYB4aa6";
    "Fh9HmeLNUMVCvejxCtCL2DbYaRyBFVJ5xrWkLnMH6fdk";
    "463MEnMeGyJekNZFQSTUABBEbLnvMTALbT6ZmsxAbAdq";
    "6AUH3WEHucYZyC61hqpqYUWVto5qA5hjHuNQ32GNnNxA"]%string.
(* sdk instruction/utils/pumpswap.rs:92-92 MAYHEM_FEE_RECIPIENT *)
Definition PS_MAYHEM_FEE_RECIPIENT : Pubkey :=
  Eval vm_compute in default 0 (PS_MAYHEM_FEE_RECIPIENTS !! 0%nat).

(* sdk instruction/utils/pumpswap.rs:96-101 GLOBAL_ACCOUNT_META *)
Definition PS_GLOBAL_ACCOUNT_META : AccountMeta := mk_meta PS_GLOBAL_ACCOUNT false false.
(* sdk instruction/utils/pumpswap.rs:103-108 FEE_RECIPIENT_META *)
Definition PS_FEE_RECIPIENT_META : AccountMeta := mk_meta PS_FEE_RECIPIENT false false.
(* sdk instruction/utils/pumpswap.rs:117-122 ASSOCIATED_TOKEN_PROGRAM_META *)
Definition PS_ASSOCIATED_TOKEN_PROGRAM_META : AccountMeta :=
  mk_meta PS_ASSOCIATED_TOKEN_PROGRAM false false.
(* sdk instruction/utils/pumpswap.rs:124-129 EVENT_AUTHORITY_META *)
Definition PS_EVENT_AUTHORITY_META : AccountMeta := mk_meta PS_EVENT_AUTHORITY false false.
(* sdk instruction/utils/pumpswap.rs:131-136 AMM_PROGRAM_META *)
Definition PS_AMM_PROGRAM_META : AccountMeta := mk_meta PS_AMM_PROGRAM false false.
(* sdk instruction/utils/pumpswap.rs:138-143 GLOBAL_VOLUME_ACCUMULATOR_META *)
Definition PS_GLOBAL_VOLUME_ACCUMULATOR_META : AccountMeta :=
  mk_meta PS_GLOBAL_VOLUME_ACCUMULATOR false true.
(* sdk instruction/utils/pumpswap.rs:145-150 FEE_CONFIG_META *)
Definition PS_FEE_CONFIG_META : AccountMeta := mk_meta PS_FEE_CONFIG false false.
(* sdk instruction/utils/pumpswap.rs:152-157 FEE_PROGRAM_META *)
Definition PS_FEE_PROGRAM_META : AccountMeta := mk_meta PS_FEE_PROGRAM false false.

(* sdk instruction/utils/pumpswap.rs:160-160 BUY_DISCRIMINATOR *)
Definition PS_BUY_DISCRIMINATOR : bytes := [102; 6; 61; 18; 1; 218; 235; 234].
(* sdk instruction/utils/pumpswap.rs:161-161 BUY_EXACT_QUOTE_IN_DISCRIMINATOR *)
Definition PS_BUY_EXACT_QUOTE_IN_DISCRIMINATOR : bytes := [198; 46; 21; 82; 180; 217; 232; 112].
(* sdk instruction/utils/pumpswap.rs:162-162 SELL_DISCRIMINATOR *)
Definition PS_SELL_DISCRIMINATOR : bytes := [51; 230; 133; 164; 1; 127; 131; 173].

(** ** Pump.fun *)

(* sdk instruction/utils/pumpfun.rs:41-41 BONDING_CURVE_SEED *)
Definition BONDING_CURVE_SEED : bytes := ascii_bytes "bonding-curve".
(* sdk instruction/utils/pumpfun.rs:43-43 BONDING_CURVE_V2_SEED *)
Definition BONDING_CURVE_V2_SEED : bytes := ascii_bytes "bonding-curve-v2".
(* sdk instruction/utils/pumpfun.rs:46-46 CREATOR_VAULT_SEED *)
Definition CREATOR_VAULT_SEED : bytes := ascii_bytes "creator-vault".
(* sdk instruction/utils/pumpfun.rs:60-60 SHARING_CONFIG_SEED *)
Definition SHARING_CONFIG_SEED : bytes := ascii_bytes "sharing-config".

(* sdk instruction/utils/pumpfun.rs:89-89 FEE_RECIPIENT *)
Definition PF_FEE_RECIPIENT : Pubkey :=
  Eval vm_compute in pubkey "62qc2CNXwrYqQScmEdiZFFAnJR262PxWEuNQtxfafNgV".
(* sdk instruction/utils/pumpfun.rs:98-107 MAYHEM_FEE_RECIPIENTS *)
Definition PF_MAYHEM_FEE_RECIPIENTS : list Pubkey :=
  Eval vm_compute in map pubkey [
    "GesfTA3X2arioaHp8bbKdjG9vJtskViWACZoYvxp4twS";
    "4budycTjhs9fD6xw62VBducVTNgMgJJ5BgtKq7mAZwn6";
    "8SBKzEQU4nLSzcwF4a74F2iaUDQyTfjGndn6qUWBnrpR";
    "4UQeTP1T39KZ9Sfxzo3WR5skgsaP6NZa87BAkuazLEKH";
    "8sNeir4QsLsJdYpc9RZacohhK1Y5FLU3nC5LXgYB4aa6";
    "Fh9HmeLNUMVCvejxCtCL2DbYaRyBFVJ5xrWkLnMH6fdk";
    "463MEnMeGyJekNZFQSTUABBEbLnvMTALbT6ZmsxAbAdq";
    "6AUH3WEHucYZyC61hqpqYUWVto5qA5hjHuNQ32GNnNxA"]%string.
(* sdk instruction/utils/pumpfun.rs:117-117 GLOBAL_ACCOUNT *)
Definition PF_GLOBAL_ACCOUNT : Pubkey :=
  Eval vm_compute in pubkey "4wTV1YmiEkRvAtNtsSGPtUrqRYQMe5SKy2uB4Jjaxnjf".
(* sdk instruction/utils/pumpfun.rs:118-123 GLOBAL_ACCOUNT_META *)
Definition PF_GLOBAL_ACCOUNT_META : AccountMeta := mk_meta PF_GLOBAL_ACCOUNT false false.
(* sdk instruction/utils/pumpfun.rs:126-126 AUTHORITY *)
Definition PF_AUTHORITY : Pubkey :=
  Eval vm_compute in pubkey "FFWtrEQ4B4PKQoVuHYzZq8FabGkVatYzDpEVHsK5rrhF".
(* sdk instruction/utils/pumpfun.rs:129-129 WITHDRAW_AUTHORITY *)
Definition PF_WITHDRAW_AUTHORITY : Pubkey :=
  Eval vm_compute in pubkey "39azUYFWPz3VHgKCf3VChUwbpURdCHRxjWVowf5jUJjg".
(* sdk instruction/utils/pumpfun.rs:131-137 PUMPFUN_AMM_FEE_1 to PUMPFUN_AMM_FEE_7 *)
Definition PUMPFUN_AMM_FEES : list Pubkey :=
  Eval vm_compute in map pubkey [
    "7VtfL8fvgNfhz17qKRMjzQEXgbdpnHHHQRh54R9jP2RJ";
    "7hTckgnGnLQR6sdH7YkqFTAA7VwTfYFaZ6EhEsU3saCX";
    "9rPYyANsfQZw3DnDmKE3YCQF5E8oD89UXoHn9JFEhJUz";
    "AVmoTthdrX6tKt4nDjco2D775W2YK3sDhxPcMmzUAmTY";
    "CebN5WGQ4jvEPvsVU4EoHEpgzq1VV7AbicfhtW4xC9iM";
    "FWsW1xNtWscwNmKv6wVsU1iTzRN6wmmk3MjxRP5tT7hz";
    "G5UZAVbAf46s7cKWoyKu8kYTip9DGTpbLZ2qa9Aq69dP"]%string.

(* sdk instruction/utils/pumpfun.rs:146-146 PUMPFUN *)
Definition PUMPFUN : Pubkey :=
  Eval vm_compute in pubkey "6EF8rrecthR5Dkzon8Nwu78hRvfCKubJ14M5uBEwF6P".
(* sdk instruction/utils/pumpfun.rs:152-152 EVENT_AUTHORITY *)
Definition PF_EVENT_AUTHORITY : Pubkey :=
  Eval vm_compute in pubkey "Ce6TQqeHC9p8KetsN6JsjHK7UTZk7nasjjnr7XxXp9F1".
(* sdk instruction/utils/pumpfun.rs:160-160 FEE_PROGRAM *)
Definition PF_FEE_PROGRAM : Pubkey :=
  Eval vm_compute in pubkey "pfeeUxB6jkeY1Hxd7CsFCAjcbHA9rWtchMGdZ6VojVZ".
(* sdk instruction/utils/pumpfun.rs:162-163 GLOBAL_VOLUME_ACCUMULATOR *)
Definition PF_GLOBAL_VOLUME_ACCUMULATOR : Pubkey :=
  Eval vm_compute in pubkey "Hq2wp8uJ9jCPsYgNHex8RtqdvMPfVGoYwjvF1ATiwn2Y".
(* sdk instruction/utils/pumpfun.rs:165-165 FEE_CONFIG *)
Definition PF_FEE_CONFIG : Pubkey :=
  Eval vm_compute in pubkey "8Wf5TiAheLUqBrKXeYg2JtAFFMWtKdG2BSFgqUcPVwTt".
(* sdk instruction/utils/pumpfun.rs:168-173 PUMPFUN_META *)
Definition PUMPFUN_META : AccountMeta := mk_meta PUMPFUN false false.
(* sdk instruction/utils/pumpfun.rs:175-180 EVENT_AUTHORITY_META *)
Definition PF_EVENT_AUTHORITY_META : AccountMeta := mk_meta PF_EVENT_AUTHORITY false false.
(* sdk instruction/utils/pumpfun.rs:182-187 FEE_PROGRAM_META *)
Definition PF_FEE_PROGRAM_META : AccountMeta := mk_meta PF_FEE_PROGRAM false false.
(* sdk instruction/utils/pumpfun.rs:189-194 GLOBAL_VOLUME_ACCUMULATOR_META *)
Definition PF_GLOBAL_VOLUME_ACCUMULATOR_META : AccountMeta :=
  mk_meta PF_GLOBAL_VOLUME_ACCUMULATOR false true.
(* sdk instruction/utils/pumpfun.rs:196-201 FEE_CONFIG_META *)
Definition PF_FEE_CONFIG_META : AccountMeta := mk_meta PF_FEE_CONFIG false false.

(* sdk instruction/utils/pumpfun.rs:20-20 EXTEND_ACCOUNT_DISCRIMINATOR *)
Definition EXTEND_ACCOUNT_DISCRIMINATOR : bytes := [234; 102; 194; 203; 150; 72; 62; 229].
(* sdk instruction/utils/pumpfun.rs:205-205 BUY_DISCRIMINATOR *)
Definition PF_BUY_DISCRIMINATOR : bytes := [102; 6; 61; 18; 1; 218; 235; 234].
(* sdk instruction/utils/pumpfun.rs:206-206 BUY_EXACT_SOL_IN_DISCRIMINATOR *)
Definition PF_BUY_EXACT_SOL_IN_DISCRIMINATOR : bytes := [56; 252; 116; 8; 158; 223; 205; 95].
(* sdk instruction/utils/pumpfun.rs:207-207 SELL_DISCRIMINATOR *)
Definition PF_SELL_DISCRIMINATOR : bytes := [51; 230; 133; 164; 1; 127; 131; 173].

(** ** Bonk *)

(* sdk instruction/utils/bonk.rs:10-10 POOL_SEED *)
Definition BK_POOL_SEED : bytes := ascii_bytes "pool".
(* sdk instruction/utils/bonk.rs:11-11 POOL_VAULT_SEED *)
Definition BK_POOL_VAULT_SEED : bytes := ascii_bytes "pool_vault".
(* sdk instruction/utils/bonk.rs:18-18 AUTHORITY *)
Definition BK_AUTHORITY : Pubkey :=
  Eval vm_compute in pubkey "WLHv2UAZm6z4KyaaELi5pjdbJh6RESMva1Rnn8pJVVh".
(* sdk instruction/utils/bonk.rs:19-19 GLOBAL_CONFIG *)
Definition BK_GLOBAL_CONFIG : Pubkey :=
  Eval vm_compute in pubkey "6s1xP3hpbAfFoNtUNF8mfHsjr2Bd97JxFJRWLbL6aHuX".
(* sdk instruction/utils/bonk.rs:20-20 USD1_GLOBAL_CONFIG *)
Definition BK_USD1_GLOBAL_CONFIG : Pubkey :=
  Eval vm_compute in pubkey "EPiZbnrThjyLnoQ6QQzkxeFqyL5uyg9RzNHHAudUPxBz".
(* sdk instruction/utils/bonk.rs:21-21 EVENT_AUTHORITY *)
Definition BK_EVENT_AUTHORITY : Pubkey :=
  Eval vm_compute in pubkey "2DPAtwB8L12vrMRExbLuyGnC7n2J5LNoZQSejeQGpwkr".
(* sdk instruction/utils/bonk.rs:22-22 BONK *)
Definition BONK : Pubkey :=
  Eval vm_compute in pubkey "LanMV9sAd7wArD4vJFi2qDdfnVhFxYSUg6eADduJ3uj".

(** Every key of the tables is a 32-byte value. *)
Example accounts_are_keys :
  Forall is_pubkey (PS_MAYHEM_FEE_RECIPIENTS ++ PUMPFUN_AMM_FEES ++
    [PS_FEE_RECIPIENT; PS_GLOBAL_ACCOUNT; PS_EVENT_AUTHORITY; PS_AMM_PROGRAM; PUMPFUN;
     PS_FEE_CONFIG; PF_FEE_CONFIG; BONK; BK_AUTHORITY]) ∧
  PUMP_PROGRAM_ID = PUMPFUN ∧ PS_MAYHEM_FEE_RECIPIENTS = PF_MAYHEM_FEE_RECIPIENTS.
Proof. split; [|done]. repeat constructor; vm_compute; congruence. Qed.
