(* ===== verification/Spl.v ===== *)
(** * SPL token instructions and token account addresses

    The instruction encoders of sdk common/spl_token.rs and
    sdk common/spl_token_2022.rs, the associated token address of
    sdk common/spl_associated_token_account.rs, and the seeded token accounts
    of sdk common/seed.rs, whose seed is the low half of a hash of the mint
    written in hexadecimal.  The rent cells of seed.rs are a record [Rents];
    [u64::MAX] marks a cell that was never set. *)

From Stdlib Require Import Ascii String.
From S2P Require Import Prelude Solana.

(** ** Token program instructions *)

(* sdk common/spl_token.rs:10-31 close_account *)
Definition close_account (token_program_id account destination owner : Pubkey)
    (signers : list Pubkey) : result string Instruction :=
  Ok (mk_ix token_program_id
        ([meta_new account false; meta_new destination false;
          meta_readonly owner (match signers with [] => true | _ => false end)]
         ++ map (λ s, meta_readonly s true) signers)
        [9]).

(* sdk common/spl_token.rs:33-56 transfer *)
Definition transfer (token_program_id source destination owner : Pubkey) (amount : Z)
    (signers : list Pubkey) : result string Instruction :=
  Ok (mk_ix token_program_id
        ([meta_new source false; meta_new destination false;
          meta_readonly owner (match signers with [] => true | _ => false end)]
         ++ map (λ s, meta_readonly s true) signers)
        (3 :: u64_le_bytes amount)).

(* sdk common/spl_token.rs:58-73 initialize_account3 *)
Definition initialize_account3 (token_program_id account mint owner : Pubkey) :
    result string Instruction :=
  Ok (mk_ix token_program_id [meta_new account false; meta_readonly mint false]
        (18 :: to_bytes owner)).

(* sdk common/spl_token_2022.rs:10-25 initialize_account3 *)
Definition initialize_account3_2022 (token_program_id account mint owner : Pubkey) :
    result string Instruction :=
  Ok (mk_ix token_program_id [meta_new account false; meta_readonly mint false]
        (18 :: to_bytes owner)).

(** ** Seeds *)

Definition byte_ascii (b : Z) : ascii := ascii_of_N (Z.to_N b).

(** The [i]-th hexadecimal digit of a [u32], most significant first. *)
Definition nibble (v : Z) (i : Z) : Z := Z.land (Z.shiftr v (28 - i * 4)) 15.

Definition hex_digit (n : Z) : Z := if n <=? 9 then 48 + n else 97 + (n - 10).

(** The eight characters both functions of seed.rs write into [buf]. *)
Definition seed_of_hash (hash : Z) : string :=
  let v := as_u32 (Z.land hash 4294967295) in
  string_of_list_ascii (map (λ i, byte_ascii (hex_digit (nibble v i))) [0; 1; 2; 3; 4; 5; 6; 7]).

Record Rents := mk_rents {
  SPL_TOKEN_RENT : Z;
  SPL_TOKEN_2022_RENT : Z;
}.

(* sdk common/seed.rs:29-29 DEFAULT_TOKEN_ACCOUNT_RENT *)
Definition DEFAULT_TOKEN_ACCOUNT_RENT : Z := 2039280.

(* sdk common/seed.rs:14-15 SPL_TOKEN_RENT, SPL_TOKEN_2022_RENT *)
Definition initial_rents : Rents := mk_rents u64_max u64_max.

(* sdk common/seed.rs:32-35 set_default_rents *)
Definition set_default_rents (_ : Rents) : Rents :=
  mk_rents DEFAULT_TOKEN_ACCOUNT_RENT DEFAULT_TOKEN_ACCOUNT_RENT.

(** The RPC answers of the two [fetch_rent_for_token_account] calls are the
    arguments; the second call only happens after the first succeeded, and the
    first cell stays set when it fails. *)
(* sdk common/seed.rs:18-26 update_rents *)
Definition update_rents (r1 r2 : result string Z) (r : Rents) : result string () * Rents :=
  match r1 with
  | Err e => (Err e, r)
  | Ok rent =>
      let r := mk_rents rent (SPL_TOKEN_2022_RENT r) in
      match r2 with
      | Err e => (Err e, r)
      | Ok rent => (Ok (), mk_rents (SPL_TOKEN_RENT r) rent)
      end
  end.

Section Spl.
Context `{Sdk}.

(** ** Associated token addresses *)

(* sdk common/spl_associated_token_account.rs:16-26 get_associated_token_address_with_program_id *)
Definition get_associated_token_address_with_program_id
    (wallet_address token_mint_address token_program_id : Pubkey) : exec Pubkey :=
  find_program_address
    [to_bytes wallet_address; to_bytes token_program_id; to_bytes token_mint_address]
    ASSOCIATED_TOKEN_PROGRAM_ID.

(* sdk common/spl_associated_token_account.rs:36-45 get_associated_token_address *)
Definition get_associated_token_address (wallet_address token_mint_address : Pubkey) :
    exec Pubkey :=
  get_associated_token_address_with_program_id wallet_address token_mint_address TOKEN_PROGRAM.

(* sdk common/spl_associated_token_account.rs:47-71 create_associated_token_account_idempotent *)
Definition create_associated_token_account_idempotent
    (funding_address wallet_address token_mint_address token_program_id : Pubkey) :
    exec Instruction :=
  let* ata := get_associated_token_address_with_program_id wallet_address
                token_mint_address token_program_id in
  Val (mk_ix ASSOCIATED_TOKEN_PROGRAM_ID
         [meta_new funding_address true; meta_new ata false;
          meta_readonly wallet_address false; meta_readonly token_mint_address false;
          meta_readonly SYSTEM_PROGRAM false; meta_readonly token_program_id false]
         [1]).

(** ** Seeded token accounts *)

(* sdk common/seed.rs:53-107 create_associated_token_account_use_seed *)
Definition create_associated_token_account_use_seed (rents : Rents)
    (payer owner mint token_program : Pubkey) : result string (list Instruction) :=
  let is_2022_token := token_program =? TOKEN_PROGRAM_2022 in
  let rent := if is_2022_token then SPL_TOKEN_2022_RENT rents else SPL_TOKEN_RENT rents in
  if rent =? u64_max then Err "Rent not initialized"%string
  else
    let seed := seed_of_hash (fnv_hash (to_bytes mint)) in
    match create_with_seed payer seed token_program with
    | Err e => Err e
    | Ok ata_like =>
        let create_acc :=
          system_create_account_with_seed payer ata_like payer seed rent 165 token_program in
        match (if is_2022_token
               then initialize_account3_2022 token_program ata_like mint owner
               else initialize_account3 token_program ata_like mint owner) with
        | Err e => Err e
        | Ok init_acc => Ok [create_acc; init_acc]
        end
    end.

(* sdk common/seed.rs:109-131 get_associated_token_address_with_program_id_use_seed *)
Definition get_associated_token_address_with_program_id_use_seed
    (wallet_address token_mint_address token_program_id : Pubkey) : result string Pubkey :=
  create_with_seed wallet_address
    (seed_of_hash (fnv_hash (to_bytes token_mint_address))) token_program_id.
End Spl.

(** ** Hexadecimal seeds are faithful *)

Lemma nibble_range v i : 0 ≤ nibble v i < 16.
Proof.
  unfold nibble. change 15 with (Z.ones 4). rewrite Z.land_ones by lia.
  apply Z.mod_pos_bound. lia.
Qed.

Lemma hex_digit_inj a b : 0 ≤ a < 16 → 0 ≤ b < 16 → hex_digit a = hex_digit b → a = b.
Proof. unfold hex_digit. intros ? ?. repeat cond; bool_hyps; lia. Qed.

Lemma byte_ascii_inj a b : 0 ≤ a < 256 → 0 ≤ b < 256 → byte_ascii a = byte_ascii b → a = b.
Proof.
  unfold byte_ascii. intros Ha Hb He. apply (f_equal N_of_ascii) in He.
  rewrite !N_ascii_embedding in He by lia. lia.
Qed.

Lemma string_of_list_ascii_inj l l' :
  string_of_list_ascii l = string_of_list_ascii l' → l = l'.
Proof.
  intros He. apply (f_equal list_ascii_of_string) in He.
  by rewrite !list_ascii_of_string_of_list_ascii in He.
Qed.

(** The eight nibbles determine a 32-bit number. *)
Lemma nibbles_value v :
  is_u32 v →
  v = nibble v 0 * 2 ^ 28 + nibble v 1 * 2 ^ 24 + nibble v 2 * 2 ^ 20 + nibble v 3 * 2 ^ 16
      + nibble v 4 * 2 ^ 12 + nibble v 5 * 2 ^ 8 + nibble v 6 * 2 ^ 4 + nibble v 7.
Proof.
  intros Hv. unfold nibble. change 15 with (Z.ones 4). rewrite !Z.land_ones by lia.
  rewrite !Z.shiftr_div_pow2 by lia. uint_unfold.
  change (28 - 0 * 4) with 28. change (28 - 1 * 4) with 24. change (28 - 2 * 4) with 20.
  change (28 - 3 * 4) with 16. change (28 - 4 * 4) with 12. change (28 - 5 * 4) with 8.
  change (28 - 6 * 4) with 4. change (28 - 7 * 4) with 0. change (2 ^ 0) with 1.
  change (2 ^ 28) with 268435456. change (2 ^ 24) with 16777216.
  change (2 ^ 20) with 1048576. change (2 ^ 16) with 65536. change (2 ^ 12) with 4096.
  change (2 ^ 8) with 256. change (2 ^ 4) with 16. change (2 ^ 32) with 4294967296 in Hv.
  Z.to_euclidean_division_equations. lia.
Qed.

Lemma low_half_u32 h : as_u32 (Z.land h 4294967295) = h mod 2 ^ 32.
Proof.
  change 4294967295 with (Z.ones 32). rewrite Z.land_ones by lia.
  apply wrap_small. apply Z.mod_pos_bound. lia.
Qed.

Lemma seed_digits h :
  list_ascii_of_string (seed_of_hash h)
  = map (λ i, byte_ascii (hex_digit (nibble (h mod 2 ^ 32) i))) [0; 1; 2; 3; 4; 5; 6; 7].
Proof.
  unfold seed_of_hash. by rewrite list_ascii_of_string_of_list_ascii, low_half_u32.
Qed.

(** The seed of a token account is eight characters that determine, and
    are determined by, the low 32 bits of the mint's hash: two mints get the
    same seeded account (for the same wallet and program) only if those bits
    collide. *)
Theorem seed_of_hash_injective h1 h2 :
  length (list_ascii_of_string (seed_of_hash h1)) = 8%nat
  ∧ (seed_of_hash h1 = seed_of_hash h2 ↔ h1 mod 2 ^ 32 = h2 mod 2 ^ 32).
Proof.
  split; [by rewrite seed_digits|]. split; intros He.
  - apply (f_equal list_ascii_of_string) in He. rewrite !seed_digits in He.
    assert (Hn : ∀ a b i, byte_ascii (hex_digit (nibble a i)) = byte_ascii (hex_digit (nibble b i))
                          → nibble a i = nibble b i).
    { intros a b i Hb. pose proof (nibble_range a i). pose proof (nibble_range b i).
      apply hex_digit_inj; [done..|]. apply byte_ascii_inj; [..|done];
      unfold hex_digit; cond; bool_hyps; lia. }
    cbn [map] in He. injection He as E0 E1 E2 E3 E4 E5 E6 E7.
    rewrite (nibbles_value (h1 mod 2 ^ 32)), (nibbles_value (h2 mod 2 ^ 32))
      by (apply Z.mod_pos_bound; lia).
    apply Hn in E0, E1, E2, E3, E4, E5, E6, E7.
    by rewrite E0, E1, E2, E3, E4, E5, E6, E7.
  - unfold seed_of_hash. by rewrite !low_half_u32, He.
Qed.

(** C32.  Creation and lookup of a seeded token account agree: when the account
    is created for its own payer, both instructions act on the address that
    the lookup derives, the account is funded with the current rent of its
    program and has 165 bytes, and it is initialised for the mint and the
    owner.  With a rent that was never set the creation is an error. *)
Theorem seeded_account_agreement `{Sdk} rents owner mint program :
  let rent := if program =? TOKEN_PROGRAM_2022 then SPL_TOKEN_2022_RENT rents
              else SPL_TOKEN_RENT rents in
  match create_associated_token_account_use_seed rents owner owner mint program,
        get_associated_token_address_with_program_id_use_seed owner mint program with
  | Ok ixs, Ok ata =>
      rent ≠ u64_max ∧
      ixs = [system_create_account_with_seed owner ata owner
               (seed_of_hash (fnv_hash (to_bytes mint))) rent 165 program;
             mk_ix program [meta_new ata false; meta_readonly mint false] (18 :: to_bytes owner)]
  | Err e, Ok _ => rent = u64_max ∧ e = "Rent not initialized"%string
  | Err e, Err e' => rent = u64_max ∧ e = "Rent not initialized"%string ∨ e = e'
  | Ok _, Err _ => False
  end.
Proof.
  unfold create_associated_token_account_use_seed,
    get_associated_token_address_with_program_id_use_seed,
    initialize_account3_2022, initialize_account3. cbv zeta.
  destruct (program =? TOKEN_PROGRAM_2022), (create_with_seed _ _ _); cond; bool_hyps; auto.
Qed.
