(* ===== verification/FastFn.v ===== *)
(** * Cached address derivation (sdk common/fast_fn.rs)

    The process-wide caches of program-derived addresses, token account
    addresses and instructions, and the rent cells of sdk common/seed.rs, are
    one state [Chain].  Code that derives addresses through the caches is
    written as a [prog], a tree of cache requests ending in a value, an error
    or a panic.  A [prog] has two readings: [run] executes it on the caches as
    the source does, [eval] computes every address afresh.  The refinement
    theorem of this file says the caches are invisible: from any state whose
    entries are right, [run] returns what [eval] computes.  The builders of
    instructions are [prog]s, so their theorems are about [eval] and carry over
    to every state of the caches. *)

From Stdlib Require Import String.
From S2P Require Import Prelude Solana Accounts Spl.

(** ** Keys *)

(* sdk common/fast_fn.rs:27-39 InstructionCacheKey *)
Inductive InstructionCacheKey :=
| CreateAssociatedTokenAccount (payer owner mint token_program : Pubkey) (use_seed : bool)
| CloseWsolAccount (payer wsol_token_account : Pubkey).

(* sdk common/fast_fn.rs:152-162 PdaCacheKey *)
Inductive PdaCacheKey :=
| PumpFunUserVolume (user : Pubkey)
| PumpFunBondingCurve (mint : Pubkey)
| PumpFunBondingCurveV2 (mint : Pubkey)
| PumpFunCreatorVault (creator : Pubkey)
| BonkPool (base_mint quote_mint : Pubkey)
| BonkVault (pool_state mint : Pubkey)
| PumpSwapUserVolume (user : Pubkey)
| PumpSwapPoolV2 (mint : Pubkey).

(* sdk common/fast_fn.rs:192-198 AtaCacheKey *)
Record AtaCacheKey := mk_AtaCacheKey {
  wallet_address : Pubkey;
  token_mint_address : Pubkey;
  token_program_id : Pubkey;
  use_seed : bool;
}.

#[export] Instance InstructionCacheKey_eq_dec : EqDecision InstructionCacheKey.
Proof. solve_decision. Defined.
#[export] Instance PdaCacheKey_eq_dec : EqDecision PdaCacheKey.
Proof. solve_decision. Defined.
#[export] Instance AtaCacheKey_eq_dec : EqDecision AtaCacheKey.
Proof. solve_decision. Defined.

#[export] Instance InstructionCacheKey_countable : Countable InstructionCacheKey.
Proof.
  refine (inj_countable'
    (λ k, match k with
          | CreateAssociatedTokenAccount p o m t u => inl (p, o, m, t, u)
          | CloseWsolAccount p w => inr (p, w) end)
    (λ c, match c with
          | inl (p, o, m, t, u) => CreateAssociatedTokenAccount p o m t u
          | inr (p, w) => CloseWsolAccount p w end) _).
  by intros [].
Defined.

#[export] Instance PdaCacheKey_countable : Countable PdaCacheKey.
Proof.
  refine (inj_countable'
    (λ k, match k with
          | PumpFunUserVolume a => (0, a, 0) | PumpFunBondingCurve a => (1, a, 0)
          | PumpFunBondingCurveV2 a => (2, a, 0) | PumpFunCreatorVault a => (3, a, 0)
          | BonkPool a b => (4, a, b) | BonkVault a b => (5, a, b)
          | PumpSwapUserVolume a => (6, a, 0) | PumpSwapPoolV2 a => (7, a, 0) end)
    (λ c, match c with
          | (0, a, _) => PumpFunUserVolume a | (1, a, _) => PumpFunBondingCurve a
          | (2, a, _) => PumpFunBondingCurveV2 a | (3, a, _) => PumpFunCreatorVault a
          | (4, a, b) => BonkPool a b | (5, a, b) => BonkVault a b
          | (6, a, _) => PumpSwapUserVolume a | (_, a, _) => PumpSwapPoolV2 a end) _).
  by intros [].
Defined.

#[export] Instance AtaCacheKey_countable : Countable AtaCacheKey.
Proof.
  refine (inj_countable'
    (λ k, (wallet_address k, token_mint_address k, token_program_id k, use_seed k))
    (λ '(w, m, t, u), mk_AtaCacheKey w m t u) _).
  by intros [].
Defined.

(** ** The state *)

(* sdk common/fast_fn.rs:43-44 INSTRUCTION_CACHE, PDA_CACHE, ATA_CACHE *)
Record Chain := mk_Chain {
  pda_cache : gmap PdaCacheKey Pubkey;
  ata_cache : gmap AtaCacheKey Pubkey;
  ix_cache : gmap InstructionCacheKey (list Instruction);
  rents : Rents;
}.

Definition initial_chain : Chain := mk_Chain ∅ ∅ ∅ initial_rents.

Definition set_rents (r : Rents) (s : Chain) : Chain :=
  mk_Chain (pda_cache s) (ata_cache s) (ix_cache s) r.

Section FastFn.
Context `{Sdk}.

(** What the closures passed to [get_cached_pda] compute, per key
    (sdk instruction/utils/{pumpfun,pumpswap,bonk}.rs).  No code looks up
    [PumpSwapPoolV2]. *)
Definition pda_compute (key : PdaCacheKey) : option Pubkey :=
  match key with
  | PumpFunUserVolume user => try_pda [USER_VOLUME_ACCUMULATOR_SEED; to_bytes user] PUMPFUN
  | PumpFunBondingCurve mint => try_pda [BONDING_CURVE_SEED; to_bytes mint] PUMPFUN
  | PumpFunBondingCurveV2 mint => try_pda [BONDING_CURVE_V2_SEED; to_bytes mint] PUMPFUN
  | PumpFunCreatorVault creator => try_pda [CREATOR_VAULT_SEED; to_bytes creator] PUMPFUN
  | BonkPool base_mint quote_mint =>
      try_pda [BK_POOL_SEED; to_bytes base_mint; to_bytes quote_mint] BONK
  | BonkVault pool_state mint =>
      try_pda [BK_POOL_VAULT_SEED; to_bytes pool_state; to_bytes mint] BONK
  | PumpSwapUserVolume user =>
      try_pda [USER_VOLUME_ACCUMULATOR_SEED; to_bytes user] PS_AMM_PROGRAM
  | PumpSwapPoolV2 _ => None
  end.

(* sdk common/fast_fn.rs:169-187 get_cached_pda *)
Definition get_cached_pda (key : PdaCacheKey) (s : Chain) : option Pubkey * Chain :=
  match pda_cache s !! key with
  | Some pda => (Some pda, s)
  | None =>
      match pda_compute key with
      | Some pda =>
          (Some pda, mk_Chain (<[key := pda]> (pda_cache s)) (ata_cache s) (ix_cache s) (rents s))
      | None => (None, s)
      end
  end.

(** The condition under which both the address and the account use a seed. *)
Definition seed_allowed (use_seed : bool) (mint token_program : Pubkey) : bool :=
  use_seed && negb (mint =? WSOL_TOKEN_ACCOUNT) && negb (mint =? SOL_TOKEN_ACCOUNT)
  && ((token_program =? TOKEN_PROGRAM) || (token_program =? TOKEN_PROGRAM_2022)).

(* sdk common/fast_fn.rs:252-273 _get_associated_token_address_with_program_id_fast, slow path *)
Definition ata_compute (key : AtaCacheKey) : exec Pubkey :=
  let '(mk_AtaCacheKey wallet mint program use_seed) := key in
  if seed_allowed use_seed mint program then
    unwrap_res (get_associated_token_address_with_program_id_use_seed wallet mint program)
  else get_associated_token_address_with_program_id wallet mint program.

(* sdk common/fast_fn.rs:234-279 _get_associated_token_address_with_program_id_fast *)
Definition get_ata_fast (key : AtaCacheKey) (s : Chain) : exec (Pubkey * Chain) :=
  match ata_cache s !! key with
  | Some cached_ata => Val (cached_ata, s)
  | None =>
      let* ata := ata_compute key in
      Val (ata, mk_Chain (pda_cache s) (<[key := ata]> (ata_cache s)) (ix_cache s) (rents s))
  end.

(** The instruction built by the associated token program's path. *)
(* sdk common/fast_fn.rs:130-141 create_associated_token_account instruction *)
Definition create_ata_ix (payer ata owner mint token_program : Pubkey) : Instruction :=
  mk_ix ASSOCIATED_TOKEN_PROGRAM_ID
    [meta_new payer true; meta_new ata false; meta_readonly owner false;
     meta_readonly mint false; SYSTEM_PROGRAM_META; meta_readonly token_program false]
    [1].

(** The closures passed to [get_cached_instructions]. *)
(* sdk common/fast_fn.rs:111-143 _create_associated_token_account_idempotent_fast, closures *)
Definition ix_compute (key : InstructionCacheKey) (s : Chain) :
    exec (list Instruction * Chain) :=
  match key with
  | CreateAssociatedTokenAccount payer owner mint token_program use_seed =>
      if seed_allowed use_seed mint token_program then
        let* ixs := unwrap_res
          (create_associated_token_account_use_seed (rents s) payer owner mint token_program) in
        Val (ixs, s)
      else
        let* r := get_ata_fast (mk_AtaCacheKey owner mint token_program false) s in
        Val ([create_ata_ix payer r.1 owner mint token_program], r.2)
  | CloseWsolAccount payer wsol_token_account =>
      let* ix := unwrap_res (close_account TOKEN_PROGRAM wsol_token_account payer payer []) in
      Val ([ix], s)
  end.

(* sdk common/fast_fn.rs:48-70 get_cached_instructions *)
Definition get_cached_instructions (key : InstructionCacheKey) (s : Chain) :
    exec (list Instruction * Chain) :=
  match ix_cache s !! key with
  | Some ixs => Val (ixs, s)
  | None =>
      let* r := ix_compute key s in
      Val (r.1, mk_Chain (pda_cache r.2) (ata_cache r.2) (<[key := r.1]> (ix_cache r.2))
                  (rents r.2))
  end.
End FastFn.

(** ** Programs over the caches *)

Inductive prog (A : Type) : Type :=
| Ret (a : A)
| Fail (e : string)
| Crash
| GetPda (key : PdaCacheKey) (k : option Pubkey → prog A)
| GetAta (key : AtaCacheKey) (k : Pubkey → prog A)
| GetIx (key : InstructionCacheKey) (k : list Instruction → prog A)
| GetRents (k : Rents → prog A).
Arguments Ret {A} a.
Arguments Fail {A} e.
Arguments Crash {A}.
Arguments GetPda {A} key k.
Arguments GetAta {A} key k.
Arguments GetIx {A} key k.
Arguments GetRents {A} k.

Fixpoint pbind {A B} (m : prog A) (f : A → prog B) : prog B :=
  match m with
  | Ret a => f a
  | Fail e => Fail e
  | Crash => Crash
  | GetPda key k => GetPda key (λ x, pbind (k x) f)
  | GetAta key k => GetAta key (λ x, pbind (k x) f)
  | GetIx key k => GetIx key (λ x, pbind (k x) f)
  | GetRents k => GetRents (λ x, pbind (k x) f)
  end.

Notation "'let!' x ':=' m 'in' k" := (pbind m (fun x => k))
  (at level 10, x binder, m at level 100, k at level 200,
   format "'[v' 'let!'  x  ':='  m  'in' '/' k ']'") : rust_scope.

Definition of_exec {A} (m : exec A) : prog A :=
  match m with Val a => Ret a | Panic => Crash end.
Definition of_result {A} (r : result string A) : prog A :=
  match r with Ok a => Ret a | Err e => Fail e end.
Definition of_run {A} (m : exec (result string A)) : prog A :=
  match m with Val r => of_result r | Panic => Crash end.
Definition of_option {A} (o : option A) : prog A :=
  match o with Some a => Ret a | None => Crash end.

(* sdk common/fast_fn.rs:204-217 get_associated_token_address_with_program_id_fast_use_seed *)
Definition get_associated_token_address_with_program_id_fast_use_seed
    (wallet mint program : Pubkey) (use_seed : bool) : prog Pubkey :=
  GetAta (mk_AtaCacheKey wallet mint program use_seed) Ret.

(* sdk common/fast_fn.rs:220-232 get_associated_token_address_with_program_id_fast *)
Definition get_associated_token_address_with_program_id_fast
    (wallet mint program : Pubkey) : prog Pubkey :=
  GetAta (mk_AtaCacheKey wallet mint program false) Ret.

(* sdk common/fast_fn.rs:74-82 create_associated_token_account_idempotent_fast_use_seed *)
Definition create_associated_token_account_idempotent_fast_use_seed
    (payer owner mint token_program : Pubkey) (use_seed : bool) : prog (list Instruction) :=
  GetIx (CreateAssociatedTokenAccount payer owner mint token_program use_seed) Ret.

(* sdk common/fast_fn.rs:84-91 create_associated_token_account_idempotent_fast *)
Definition create_associated_token_account_idempotent_fast
    (payer owner mint token_program : Pubkey) : prog (list Instruction) :=
  GetIx (CreateAssociatedTokenAccount payer owner mint token_program false) Ret.

Definition get_pda (key : PdaCacheKey) : prog (option Pubkey) := GetPda key Ret.

(** [.unwrap()] on a cached address. *)
Definition get_pda_unwrap (key : PdaCacheKey) : prog Pubkey :=
  let! o := get_pda key in of_option o.

(* sdk common/fast_fn.rs:283-311 fast_init *)
Definition fast_init (payer : Pubkey) : prog () :=
  let! _ := get_pda (PumpFunUserVolume payer) in
  let! _ := get_pda (PumpSwapUserVolume payer) in
  let! wsol_token_account :=
    get_associated_token_address_with_program_id_fast payer WSOL_TOKEN_ACCOUNT TOKEN_PROGRAM in
  let! _ := GetIx (CloseWsolAccount payer wsol_token_account) Ret in
  Ret ().

Section Readings.
Context `{Sdk}.

(** Execution on the caches. *)
Fixpoint run {A} (p : prog A) (s : Chain) : exec (result string A * Chain) :=
  match p with
  | Ret a => Val (Ok a, s)
  | Fail e => Val (Err e, s)
  | Crash => Panic
  | GetPda key k => let '(o, s') := get_cached_pda key s in run (k o) s'
  | GetAta key k => let* r := get_ata_fast key s in run (k r.1) r.2
  | GetIx key k => let* r := get_cached_instructions key s in run (k r.1) r.2
  | GetRents k => run (k (rents s)) s
  end.

(** The instructions a key stands for, computed afresh. *)
Definition ix_spec (r : Rents) (key : InstructionCacheKey) : exec (list Instruction) :=
  match key with
  | CreateAssociatedTokenAccount payer owner mint token_program use_seed =>
      if seed_allowed use_seed mint token_program then
        unwrap_res (create_associated_token_account_use_seed r payer owner mint token_program)
      else
        let* ata := get_associated_token_address_with_program_id owner mint token_program in
        Val [create_ata_ix payer ata owner mint token_program]
  | CloseWsolAccount payer wsol_token_account =>
      let* ix := unwrap_res (close_account TOKEN_PROGRAM wsol_token_account payer payer []) in
      Val [ix]
  end.

(** Evaluation without caches, at given rents. *)
Fixpoint eval {A} (r : Rents) (p : prog A) : exec (result string A) :=
  match p with
  | Ret a => Val (Ok a)
  | Fail e => Val (Err e)
  | Crash => Panic
  | GetPda key k => eval r (k (pda_compute key))
  | GetAta key k => let* a := ata_compute key in eval r (k a)
  | GetIx key k => let* ixs := ix_spec r key in eval r (k ixs)
  | GetRents k => eval r (k r)
  end.

Lemma eval_bind {A B} r (m : prog A) (f : A → prog B) :
  eval r (pbind m f) = try_bind (eval r m) (λ a, eval r (f a)).
Proof.
  induction m as [a|e| |key k IH|key k IH|key k IH|k IH]; simpl; auto.
  - by destruct (ata_compute key); simpl.
  - by destruct (ix_spec r key); simpl.
Qed.

Lemma eval_of_exec {A} r (m : exec A) a : eval r (of_exec m) = Val (Ok a) ↔ m = Val a.
Proof. destruct m; simpl; naive_solver. Qed.

Lemma eval_of_exec_panic {A} r (m : exec A) : m = Panic → eval r (of_exec m) = Panic.
Proof. by intros ->. Qed.

(** A wrapped-SOL account is never seeded: both readings agree. *)
Lemma wsol_never_seeded wallet program use_seed :
  ata_compute (mk_AtaCacheKey wallet WSOL_TOKEN_ACCOUNT program use_seed)
  = ata_compute (mk_AtaCacheKey wallet WSOL_TOKEN_ACCOUNT program false).
Proof.
  unfold ata_compute, seed_allowed. rewrite Z.eqb_refl. by rewrite andb_false_r.
Qed.

(** ** Postconditions of programs *)

(** Every value the program returns satisfies [Q]. *)
Definition yields {A} (r : Rents) (p : prog A) (Q : A → Prop) : Prop :=
  ∀ a, eval r p = Val (Ok a) → Q a.

Lemma yields_ret {A} r (a : A) (Q : A → Prop) : Q a → yields r (Ret a) Q.
Proof. by intros Hq b [= <-]. Qed.
Lemma yields_fail {A} r msg (Q : A → Prop) : yields r (Fail msg) Q.
Proof. by intros a ?. Qed.
Lemma yields_crash {A} r (Q : A → Prop) : yields r Crash Q.
Proof. by intros a ?. Qed.

Lemma yields_bind {A B} r (m : prog A) (f : A → prog B) P Q :
  yields r m P → (∀ a, P a → yields r (f a) Q) → yields r (pbind m f) Q.
Proof.
  intros Hm Hf b Hb. rewrite eval_bind in Hb. apply try_bind_Ok_inv in Hb as (a & Ha & Hb).
  by eapply Hf, Hb; apply Hm.
Qed.

Lemma yields_any {A B} r (m : prog A) (f : A → prog B) Q :
  (∀ a, yields r (f a) Q) → yields r (pbind m f) Q.
Proof. intros Hf. by apply (yields_bind r m f (λ _, True)). Qed.

Lemma yields_weaken {A} r (p : prog A) (P Q : A → Prop) :
  yields r p P → (∀ a, P a → Q a) → yields r p Q.
Proof. intros Hp Hq a Ha. by apply Hq, Hp. Qed.

(** ** The caches are right *)

Record valid (s : Chain) : Prop := mk_valid {
  valid_pda key p : pda_cache s !! key = Some p → pda_compute key = Some p;
  valid_ata key a : ata_cache s !! key = Some a → ata_compute key = Val a;
  valid_ix key ixs : ix_cache s !! key = Some ixs → ix_spec (rents s) key = Val ixs;
}.

Lemma valid_initial : valid initial_chain.
Proof. split; intros ??; cbn [initial_chain pda_cache ata_cache ix_cache]; by rewrite lookup_empty. Qed.

Lemma get_cached_pda_valid key s :
  valid s → ∃ s', get_cached_pda key s = (pda_compute key, s') ∧ valid s' ∧ rents s' = rents s.
Proof.
  intros Hv. unfold get_cached_pda. destruct (pda_cache s !! key) as [p|] eqn:Hk.
  - exists s. by rewrite (valid_pda _ Hv _ _ Hk).
  - destruct (pda_compute key) as [p|] eqn:Hc; eexists; (split; [done|]); [|done].
    split; [|done]. destruct Hv. split; simpl; [|done..].
    intros key' p' Hl. destruct (decide (key' = key)) as [->|Hne].
    + rewrite lookup_insert_eq in Hl. congruence.
    + rewrite lookup_insert_ne in Hl by done. auto.
Qed.

Lemma get_ata_fast_valid key s :
  valid s →
  match ata_compute key with
  | Val a => ∃ s', get_ata_fast key s = Val (a, s') ∧ valid s' ∧ rents s' = rents s
  | Panic => get_ata_fast key s = Panic
  end.
Proof.
  intros Hv. unfold get_ata_fast. destruct (ata_cache s !! key) as [a|] eqn:Hk.
  - rewrite (valid_ata _ Hv _ _ Hk). eauto.
  - destruct (ata_compute key) as [a|] eqn:Hc; [|done]. eexists. split; [done|].
    split; [|done]. destruct Hv. split; simpl; [done| |done].
    intros key' a' Hl. destruct (decide (key' = key)) as [->|Hne].
    + rewrite lookup_insert_eq in Hl. congruence.
    + rewrite lookup_insert_ne in Hl by done. auto.
Qed.

Lemma ix_compute_valid key s :
  valid s →
  match ix_spec (rents s) key with
  | Val ixs => ∃ s', ix_compute key s = Val (ixs, s') ∧ valid s' ∧ rents s' = rents s
  | Panic => ix_compute key s = Panic
  end.
Proof.
  intros Hv. destruct key as [payer owner mint program u|payer w]; simpl.
  - destruct (seed_allowed u mint program).
    + destruct (create_associated_token_account_use_seed _ _ _ _ _); simpl; eauto.
    + pose proof (get_ata_fast_valid (mk_AtaCacheKey owner mint program false) s Hv) as Ha.
      simpl in Ha. unfold seed_allowed in Ha. simpl in Ha.
      destruct (get_associated_token_address_with_program_id owner mint program); simpl.
      * destruct Ha as (s' & -> & ? & ?). simpl. eauto.
      * by rewrite Ha.
  - eauto.
Qed.

Lemma get_cached_instructions_valid key s :
  valid s →
  match ix_spec (rents s) key with
  | Val ixs => ∃ s', get_cached_instructions key s = Val (ixs, s') ∧ valid s' ∧ rents s' = rents s
  | Panic => get_cached_instructions key s = Panic
  end.
Proof.
  intros Hv. unfold get_cached_instructions. destruct (ix_cache s !! key) as [ixs|] eqn:Hk.
  { rewrite (valid_ix _ Hv _ _ Hk). eauto. }
  pose proof (ix_compute_valid key s Hv) as Hc.
  destruct (ix_spec (rents s) key) as [ixs|] eqn:Hs; [|by rewrite Hc].
  destruct Hc as (s' & -> & [Hp Ha Hi] & Hr). simpl. eexists. split; [done|].
  split; [|done]. split; simpl; [done..|].
  intros key' ixs' Hl. destruct (decide (key' = key)) as [->|Hne].
  - rewrite lookup_insert_eq in Hl. rewrite Hr. congruence.
  - rewrite lookup_insert_ne in Hl by done. auto.
Qed.

Lemma run_eval {A} (p : prog A) s :
  valid s →
  match eval (rents s) p with
  | Val r => ∃ s', run p s = Val (r, s') ∧ valid s' ∧ rents s' = rents s
  | Panic => run p s = Panic
  end.
Proof.
  revert s. induction p as [a|e| |key k IH|key k IH|key k IH|k IH]; intros s Hv; simpl; eauto.
  - destruct (get_cached_pda_valid key s Hv) as (s' & -> & Hv' & Hr).
    rewrite <- Hr. by apply IH.
  - pose proof (get_ata_fast_valid key s Hv) as Ha. destruct (ata_compute key); simpl.
    + destruct Ha as (s' & -> & Hv' & Hr). simpl. rewrite <- Hr. by apply IH.
    + by rewrite Ha.
  - pose proof (get_cached_instructions_valid key s Hv) as Ha.
    destruct (ix_spec (rents s) key); simpl.
    + destruct Ha as (s' & -> & Hv' & Hr). simpl. rewrite <- Hr. by apply IH.
    + by rewrite Ha.
  - by apply IH.
Qed.

(** C19.  The caches are invisible: executed on any caches whose entries are
    right, a program returns exactly the value, the error or the panic it has
    when every address and instruction is derived afresh, and it leaves the
    caches right and the rents unchanged; two such caches never make a
    difference. *)
Theorem run_refines_eval {A} (p : prog A) s :
  valid s →
  match eval (rents s) p with
  | Val r => ∃ s', run p s = Val (r, s') ∧ valid s' ∧ rents s' = rents s
  | Panic => run p s = Panic
  end
  ∧ ∀ s2, valid s2 → rents s2 = rents s →
      match run p s, run p s2 with
      | Val (r, _), Val (r2, _) => r = r2
      | Panic, Panic => True
      | _, _ => False
      end.
Proof.
  intros Hv. pose proof (run_eval p s Hv) as H1. split; [done|]. intros s2 Hv2 Hr.
  pose proof (run_eval p s2 Hv2) as H2. rewrite Hr in H2.
  destruct (eval (rents s) p); [|by rewrite H1, H2].
  destruct H1 as (s1' & -> & _), H2 as (s2' & -> & _). done.
Qed.

Lemma run_Ok {A} (p : prog A) s a s' :
  valid s → run p s = Val (Ok a, s') → eval (rents s) p = Val (Ok a) ∧ valid s' ∧ rents s' = rents s.
Proof.
  intros Hv Hr. pose proof (run_eval p s Hv) as He. destruct (eval (rents s) p); [|congruence].
  destruct He as (s1 & Hs & ? & ?). rewrite Hs in Hr. by injection Hr as -> <-.
Qed.

(** The instruction cache pins the rent: once the creation of a token
    account has been requested, every later request for the same accounts
    returns the same instructions, whatever the rent cells have been updated
    to in between. *)
Theorem cached_instructions_pinned key s ixs s' new_rents :
  get_cached_instructions key s = Val (ixs, s') →
  get_cached_instructions key (set_rents new_rents s') = Val (ixs, set_rents new_rents s').
Proof.
  unfold get_cached_instructions. intros Hg.
  assert (Hl : ix_cache s' !! key = Some ixs).
  { destruct (ix_cache s !! key) as [i|] eqn:Hk.
    - by injection Hg as -> ->.
    - apply exec_bind_Val_inv in Hg as (r & _ & [= <- <-]). simpl.
      by rewrite lookup_insert_eq. }
  simpl. by rewrite Hl.
Qed.
End Readings.

(** Split a successful evaluation of a hypothesis at its binds. *)
Ltac prog_inv H :=
  repeat (rewrite eval_bind in H;
          let a := fresh "a" in let E := fresh "V" in
          apply try_bind_Ok_inv in H as (a & E & H)).

#[global] Arguments pda_compute {_} key : simpl never.
#[global] Arguments ata_compute {_} key : simpl never.
#[global] Arguments ix_spec {_} r key : simpl never.

(** ** A concrete SDK for evaluation

    Address derivation by arithmetic on the seeds, enough to run examples:
    the theorems never use it, the witnesses do. *)

Definition sum_bytes (l : list bytes) : Z :=
  foldr (λ bs acc, foldr (λ b a, 257 * a + b + 1) acc bs) 0 l.

Definition toy_sdk : Sdk := {|
  try_find_program_address := λ seeds program,
    Some ((sum_bytes seeds * 65537 + program) mod 2 ^ 256, 255);
  create_with_seed := λ base seed owner,
    Ok ((base * 31 + sum_bytes [ascii_bytes seed] * 7 + owner) mod 2 ^ 256);
  system_transfer := λ from to lamports,
    mk_ix SYSTEM_PROGRAM [meta_new from true; meta_new to false]
      ([2; 0; 0; 0] ++ u64_le_bytes lamports);
  system_create_account_with_seed := λ from to base seed lamports space owner,
    mk_ix SYSTEM_PROGRAM [meta_new from true; meta_new to false]
      ([3; 0; 0; 0] ++ to_bytes base ++ ascii_bytes seed ++ u64_le_bytes lamports
       ++ u64_le_bytes space ++ to_bytes owner);
  system_advance_nonce := λ nonce auth,
    mk_ix SYSTEM_PROGRAM [meta_new nonce false; meta_readonly auth true] [4; 0; 0; 0];
  fnv_hash := foldl (λ h b, (Z.lxor h b * 1099511628211) mod 2 ^ 64) 14695981039346656037;
|}.

Lemma run_refines_eval_witness :
  match @eval toy_sdk () (rents initial_chain) (fast_init 11) with
  | Val r => ∃ s', @run toy_sdk () (fast_init 11) initial_chain = Val (r, s')
             ∧ @valid toy_sdk s' ∧ rents s' = rents initial_chain
  | Panic => @run toy_sdk () (fast_init 11) initial_chain = Panic
  end.
Proof. apply (@run_refines_eval toy_sdk () (fast_init 11)), valid_initial. Defined.

Definition close_key : InstructionCacheKey := CloseWsolAccount 11 12.
Definition close_ixs : list Instruction :=
  [mk_ix TOKEN_PROGRAM [meta_new 12 false; meta_new 11 false; meta_readonly 11 true] [9]].
Definition close_chain : Chain := mk_Chain ∅ ∅ (<[close_key := close_ixs]> ∅) initial_rents.

Lemma cached_instructions_pinned_witness :
  @get_cached_instructions toy_sdk close_key initial_chain = Val (close_ixs, close_chain) ∧
  @get_cached_instructions toy_sdk close_key (set_rents (mk_rents 1000 1000) close_chain)
    = Val (close_ixs, set_rents (mk_rents 1000 1000) close_chain).
Proof.
  split; [reflexivity|].
  apply (@cached_instructions_pinned toy_sdk close_key initial_chain). reflexivity.
Defined.
