(* ===== verification/PumpFunCalc.v ===== *)
(** * Pump.fun bonding curve arithmetic (sdk utils/calc/pumpfun.rs)

    Tokens for SOL and SOL for tokens on the virtual reserves of a bonding
    curve, and the SOL-to-lamports conversion in floating point. *)

From S2P Require Import Prelude F64 Solana CalcCommon.

(** ** Constants of the program (sdk instruction/utils/pumpfun.rs) *)

(* sdk instruction/utils/pumpfun.rs:66-66 INITIAL_VIRTUAL_TOKEN_RESERVES *)
Definition INITIAL_VIRTUAL_TOKEN_RESERVES : Z := 1073000000000000.
(* sdk instruction/utils/pumpfun.rs:68-68 INITIAL_VIRTUAL_SOL_RESERVES *)
Definition INITIAL_VIRTUAL_SOL_RESERVES : Z := 30000000000.
(* sdk instruction/utils/pumpfun.rs:70-70 INITIAL_REAL_TOKEN_RESERVES *)
Definition INITIAL_REAL_TOKEN_RESERVES : Z := 793100000000000.
(* sdk instruction/utils/pumpfun.rs:72-72 TOKEN_TOTAL_SUPPLY *)
Definition TOKEN_TOTAL_SUPPLY : Z := 1000000000000000.
(* sdk instruction/utils/pumpfun.rs:74-74 FEE_BASIS_POINTS *)
Definition FEE_BASIS_POINTS : Z := 95.
(* sdk instruction/utils/pumpfun.rs:76-76 ENABLE_MIGRATE *)
Definition ENABLE_MIGRATE : bool := false.
(* sdk instruction/utils/pumpfun.rs:78-78 POOL_MIGRATION_FEE *)
Definition POOL_MIGRATION_FEE : Z := 15000001.
(* sdk instruction/utils/pumpfun.rs:80-80 CREATOR_FEE *)
Definition CREATOR_FEE : Z := 30.
(* sdk instruction/utils/pumpfun.rs:82-82 SCALE *)
Definition SCALE : Z := 1000000.
(* sdk instruction/utils/pumpfun.rs:84-84 LAMPORTS_PER_SOL *)
Definition LAMPORTS_PER_SOL : Z := 1000000000.
(* sdk instruction/utils/pumpfun.rs:86-86 COMPLETION_LAMPORTS *)
Definition COMPLETION_LAMPORTS : Z := 85 * LAMPORTS_PER_SOL.

(* sdk utils/calc/pumpfun.rs:5-7 sol_to_lamports *)
Definition sol_to_lamports (sol : f64) : Z :=
  f64_as_u64 (fmul sol (f64_of_Z 1000000000)).

(** The source parses a decimal string; the argument is the outcome of
    [parse::<f64>]. *)
(* sdk utils/calc/pumpfun.rs:15-18 sol_str_to_lamports *)
Definition sol_str_to_lamports (parsed : option f64) : option Z :=
  sol_to_lamports <$> parsed.

(** [sol_str_to_lamports("0.01").unwrap_or(0)]. *)
Definition small_buy_limit : Z := default 0 (sol_str_to_lamports (Some (f64_lit 1 2))).

Section PumpFunCalc.
Context `{Build}.

(* sdk utils/calc/pumpfun.rs:33-77 get_buy_token_amount_from_sol_amount *)
Definition get_buy_token_amount_from_sol_amount
    (virtual_token_reserves virtual_sol_reserves real_token_reserves : Z)
    (creator : Pubkey) (amount : Z) : exec Z :=
  if amount =? 0 then Val 0
  else if virtual_token_reserves =? 0 then Val 0
  else
    let* total_fee_basis_points := add 64 FEE_BASIS_POINTS
      (if negb (creator =? pubkey_default) then CREATOR_FEE else 0) in
    let* m := unwrap (checked_mul 128 amount 10000) in
    let* fd := add 128 total_fee_basis_points 10000 in
    let* input_amount := unwrap (checked_div m fd) in
    let* denominator := add 128 virtual_sol_reserves input_amount in
    let* n := unwrap (checked_mul 128 input_amount virtual_token_reserves) in
    let* tokens := unwrap (checked_div n denominator) in
    let tokens_received := Z.min tokens real_token_reserves in
    let tokens_received :=
      if tokens_received <=? 100 * 1000000 then
        if small_buy_limit <? amount then 25547619 * 1000000 else 255476 * 1000000
      else tokens_received in
    Val (as_u64 tokens_received).

(* sdk utils/calc/pumpfun.rs:91-122 get_sell_sol_amount_from_token_amount *)
Definition get_sell_sol_amount_from_token_amount
    (virtual_token_reserves virtual_sol_reserves : Z) (creator : Pubkey) (amount : Z) :
    exec Z :=
  if amount =? 0 then Val 0
  else if virtual_token_reserves =? 0 then Val 0
  else
    let numerator := default 0 (checked_mul 128 amount virtual_sol_reserves) in
    let denominator := default 1 (checked_add 128 virtual_token_reserves amount) in
    let sol_cost := default 0 (checked_div numerator denominator) in
    let* total_fee_basis_points := add 64 FEE_BASIS_POINTS
      (if negb (creator =? pubkey_default) then CREATOR_FEE else 0) in
    let* fee := compute_fee sol_cost total_fee_basis_points in
    Val (as_u64 (saturating_sub sol_cost fee)).

(** Fee rate of a buy or a sell: 0.95%, or 1.25% with a creator. *)
Definition pump_bps (creator : Pubkey) : Z :=
  FEE_BASIS_POINTS + (if negb (creator =? pubkey_default) then CREATOR_FEE else 0).

Lemma pump_bps_cases creator : pump_bps creator = 95 ∨ pump_bps creator = 125.
Proof. unfold pump_bps. cond; auto. Qed.

(** SOL that reaches the curve after the fee. *)
Definition net_in (amount : Z) (creator : Pubkey) : Z :=
  amount * 10000 / (pump_bps creator + 10000).

(** The constant-product amount the curve would give. *)
Definition curve_out (vt vs net : Z) : Z := net * vt / (vs + net).

Lemma net_in_bounds amount creator :
  0 ≤ amount → 0 ≤ net_in amount creator ≤ amount ∧
  net_in amount creator * (10000 + pump_bps creator) ≤ amount * 10000.
Proof.
  intros Ha. unfold net_in. pose proof (pump_bps_cases creator).
  pose proof (mul_div_le amount 10000 (pump_bps creator + 10000)).
  pose proof (div_mul_floor (amount * 10000) (pump_bps creator + 10000) ltac:(lia)).
  split; lia.
Qed.

Lemma buy_token_code vt vs real creator amount :
  is_u64 vt → is_u64 vs → is_u64 amount → 0 < amount → 0 < vt → 0 < vs →
  get_buy_token_amount_from_sol_amount vt vs real creator amount =
    let t := Z.min (curve_out vt vs (net_in amount creator)) real in
    Val (as_u64 (if t <=? 100 * 1000000 then
                   if small_buy_limit <? amount then 25547619 * 1000000 else 255476 * 1000000
                 else t)).
Proof.
  intros Hvt Hvs Ha H1 H2 H3. unfold get_buy_token_amount_from_sol_amount, net_in.
  rewrite (proj2 (Z.eqb_neq amount 0)), (proj2 (Z.eqb_neq vt 0)) by lia.
  pose proof (pump_bps_cases creator) as Hp. unfold pump_bps in Hp |- *.
  set (f := if negb (creator =? pubkey_default) then CREATOR_FEE else 0) in *.
  do 4 exec_step.
  pose proof (proj1 (net_in_bounds amount creator ltac:(lia))) as Hn.
  unfold net_in, pump_bps in Hn. fold f in Hn.
  set (n := amount * 10000 / (FEE_BASIS_POINTS + f + 10000)) in *.
  assert (Hmul : is_u128 (n * vt)) by (apply u64_mul_u64; uint).
  exec_step. rewrite checked_mul_ok by done. cbn [exec_bind unwrap].
  exec_step. done.
Qed.

Lemma sell_token_code vt vs creator amount :
  is_u64 vt → is_u64 vs → is_u64 amount → 0 < amount → 0 < vt →
  get_sell_sol_amount_from_token_amount vt vs creator amount =
    let cost := amount * vs / (vt + amount) in
    Val (cost - fee_of cost (pump_bps creator)).
Proof.
  intros Hvt Hvs Ha H1 H2. unfold get_sell_sol_amount_from_token_amount.
  rewrite (proj2 (Z.eqb_neq amount 0)), (proj2 (Z.eqb_neq vt 0)) by lia.
  rewrite checked_mul_ok by auto with rust. rewrite checked_add_ok by uint.
  cbn [from_option id]. rewrite checked_div_ok by lia. cbn [from_option id].
  pose proof (pump_bps_cases creator) as Hp. unfold pump_bps in Hp |- *.
  set (f := if negb (creator =? pubkey_default) then CREATOR_FEE else 0) in *.
  exec_step. set (cost := amount * vs / (vt + amount)).
  assert (Hc : 0 ≤ cost ≤ vs).
  { unfold cost. rewrite (Z.mul_comm amount vs). apply mul_div_le; uint_unfold; lia. }
  rewrite compute_fee_val by uint. cbn [exec_bind].
  pose proof (fee_of_bounds cost (FEE_BASIS_POINTS + f) ltac:(lia) ltac:(lia)).
  unfold saturating_sub. rewrite Z.max_r by lia. by rewrite as_u64_small by uint.
Qed.

(** A buy never promises more tokens than the fee-reduced payment buys on
    the constant-product curve, nor more than the curve really holds, except
    for the hard-coded amounts the code falls back to when that quantity is at
    most 100 whole tokens. *)
Theorem pumpfun_buy_amount_spec vt vs real creator amount :
  is_u64 vt → is_u64 vs → is_u64 real → is_u64 amount → 0 < amount → 0 < vt → 0 < vs →
  ∃ r net, get_buy_token_amount_from_sol_amount vt vs real creator amount = Val r
  ∧ net * (10000 + pump_bps creator) ≤ amount * 10000
      < (net + 1) * (10000 + pump_bps creator)
  ∧ (100000000 < Z.min (net * vt / (vs + net)) real →
     r ≤ real ∧ vs * vt ≤ (vs + net) * (vt - r) ∧
     (∀ r', r < r' ≤ real → (vs + net) * (vt - r') < vs * vt))
  ∧ (Z.min (net * vt / (vs + net)) real ≤ 100000000 →
     r = 25547619000000 ∧ 10000000 < amount ∨ r = 255476000000 ∧ amount ≤ 10000000).
Proof.
  intros Hvt Hvs Hreal Ha H1 H2 H3. pose proof (pump_bps_cases creator) as Hp.
  destruct (net_in_bounds amount creator) as [Hn Hf]; [lia|].
  pose proof (div_mul_floor (amount * 10000) (pump_bps creator + 10000) ltac:(lia)).
  eexists _, (net_in amount creator). split; [by apply buy_token_code|]. cbv zeta.
  split; [unfold net_in in *; lia|].
  fold (curve_out vt vs (net_in amount creator)).
  set (net := net_in amount creator) in *. change small_buy_limit with 10000000.
  assert (Hc : 0 ≤ curve_out vt vs net).
  { unfold curve_out. apply Z.div_pos; [uint|lia]. }
  split; intros Hcap.
  - rewrite (proj2 (Z.leb_gt _ _)) by lia. rewrite as_u64_small by uint.
    split; [lia|]. unfold curve_out in *. split.
    + pose proof (proj1 (le_div_iff (net * vt) (vs + net)
        (Z.min (net * vt / (vs + net)) real) ltac:(lia)) ltac:(lia)). nia.
    + intros r' [Hlt Hle]. destruct (Z.lt_ge_cases (net * vt) (r' * (vs + net))); [nia|].
      assert (r' ≤ net * vt / (vs + net)) by (apply le_div_iff; lia). lia.
  - rewrite (proj2 (Z.leb_le _ _)) by lia.
    destruct (Z.ltb_spec 10000000 amount); [left|right]; (split; [done|lia]).
Qed.

(** The fallback of a buy ignores what the curve holds: with a curve that
    is sold out, the code still promises 255,476 tokens for a lamport. *)
Theorem pumpfun_buy_fallback_exceeds_reserves :
  ∃ vt vs real creator amount r,
    is_u64 vt ∧ is_u64 vs ∧ is_u64 real ∧ is_u64 amount
    ∧ get_buy_token_amount_from_sol_amount vt vs real creator amount = Val r ∧ real < r.
Proof.
  exists 1073000000000000, 30000000000, 0, 0, 1, 255476000000.
  repeat split; concrete.
Qed.

(** A sale pays at most the constant-product value of the tokens, fees
    deducted and rounded against the seller, and never drains the reserves. *)
Theorem pumpfun_sell_amount_spec vt vs creator amount :
  is_u64 vt → is_u64 vs → is_u64 amount → 0 < amount → 0 < vt → 0 < vs →
  ∃ r gross, get_sell_sol_amount_from_token_amount vt vs creator amount = Val r
  ∧ 0 ≤ r ≤ gross ∧ gross < vs
  ∧ vs * vt ≤ (vs - gross) * (vt + amount)
  ∧ gross * (10000 - pump_bps creator) - 10000 < 10000 * r
      ≤ gross * (10000 - pump_bps creator).
Proof.
  intros Hvt Hvs Ha H1 H2 H3. eexists _, (amount * vs / (vt + amount)).
  split; [by apply sell_token_code|].
  pose proof (pump_bps_cases creator) as Hp.
  assert (Hg : 0 ≤ amount * vs / (vt + amount)) by (apply Z.div_pos; uint).
  assert (Hlt : amount * vs / (vt + amount) < vs) by (apply Z.div_lt_upper_bound; uint).
  pose proof (proj1 (le_div_iff (amount * vs) (vt + amount) _ ltac:(lia)) (Z.le_refl _)).
  set (g := amount * vs / (vt + amount)) in *.
  pose proof (fee_of_bounds g (pump_bps creator) Hg ltac:(lia)).
  repeat split; lia.
Qed.
End PumpFunCalc.

Lemma pumpfun_buy_amount_spec_witness :
  ∃ r net,
  @get_buy_token_amount_from_sol_amount release INITIAL_VIRTUAL_TOKEN_RESERVES
    INITIAL_VIRTUAL_SOL_RESERVES INITIAL_REAL_TOKEN_RESERVES 7 1000000000 = Val r
  ∧ net * (10000 + pump_bps 7) ≤ 1000000000 * 10000 < (net + 1) * (10000 + pump_bps 7)
  ∧ (100000000 < Z.min (net * INITIAL_VIRTUAL_TOKEN_RESERVES / (INITIAL_VIRTUAL_SOL_RESERVES + net))
                       INITIAL_REAL_TOKEN_RESERVES →
     r ≤ INITIAL_REAL_TOKEN_RESERVES
     ∧ INITIAL_VIRTUAL_SOL_RESERVES * INITIAL_VIRTUAL_TOKEN_RESERVES
       ≤ (INITIAL_VIRTUAL_SOL_RESERVES + net) * (INITIAL_VIRTUAL_TOKEN_RESERVES - r)
     ∧ (∀ r', r < r' ≤ INITIAL_REAL_TOKEN_RESERVES →
          (INITIAL_VIRTUAL_SOL_RESERVES + net) * (INITIAL_VIRTUAL_TOKEN_RESERVES - r')
          < INITIAL_VIRTUAL_SOL_RESERVES * INITIAL_VIRTUAL_TOKEN_RESERVES))
  ∧ (Z.min (net * INITIAL_VIRTUAL_TOKEN_RESERVES / (INITIAL_VIRTUAL_SOL_RESERVES + net))
           INITIAL_REAL_TOKEN_RESERVES ≤ 100000000 →
     r = 25547619000000 ∧ 10000000 < 1000000000 ∨ r = 255476000000 ∧ 1000000000 ≤ 10000000).
Proof. apply (@pumpfun_buy_amount_spec release); concrete. Defined.

Lemma pumpfun_sell_amount_spec_witness :
  ∃ r gross,
  @get_sell_sol_amount_from_token_amount release 1073000000000000 30000000000 7 1000000 = Val r
  ∧ 0 ≤ r ≤ gross ∧ gross < 30000000000
  ∧ 30000000000 * 1073000000000000 ≤ (30000000000 - gross) * (1073000000000000 + 1000000)
  ∧ gross * (10000 - pump_bps 7) - 10000 < 10000 * r ≤ gross * (10000 - pump_bps 7).
Proof. apply (@pumpfun_sell_amount_spec release); concrete. Defined.
