(* ===== verification/PumpFunUtils.v ===== *)
(** * Pump.fun addresses and fee recipients (sdk instruction/utils/pumpfun.rs)

    Derived addresses through the cache, the choice of the fee recipient, the
    creator vault that goes into account 10 of an instruction, and the curve
    price of a buy.  A random choice from a table takes the random index as an
    argument. *)

From Stdlib Require Import String.
From S2P Require Import Prelude Solana Accounts Spl FastFn.

(** [slice.choose(&mut rand::rng()).unwrap_or(..)] with the random number
    [rand]: an element of a non-empty table. *)
Definition choose (rand : nat) (l : list Pubkey) (dflt : Pubkey) : Pubkey :=
  default dflt (l !! (rand mod length l)%nat).

Lemma choose_elem rand l dflt : l ≠ [] → choose rand l dflt ∈ l.
Proof.
  intros Hl. unfold choose.
  destruct (lookup_lt_is_Some_2 l (rand mod length l)) as [x Hx].
  { apply Nat.mod_upper_bound. by destruct l. }
  rewrite Hx. simpl. by eapply list_elem_of_lookup_2.
Qed.

(* sdk instruction/utils/pumpfun.rs:22-36 extend_bonding_curve_account_instruction *)
Definition extend_bonding_curve_account_instruction (bonding_curve user : Pubkey) :
    Instruction :=
  mk_ix PUMPFUN
    [meta_new bonding_curve false; meta_new user true; SYSTEM_PROGRAM_META;
     PF_EVENT_AUTHORITY_META; PUMPFUN_META]
    EXTEND_ACCOUNT_DISCRIMINATOR.

(* sdk instruction/utils/pumpfun.rs:210-213 is_mayhem_fee_recipient *)
Definition is_mayhem_fee_recipient (p : Pubkey) : bool :=
  existsb (λ q, q =? p) PF_MAYHEM_FEE_RECIPIENTS.

(* sdk instruction/utils/pumpfun.rs:216-225 is_amm_fee_recipient *)
Definition is_amm_fee_recipient (p : Pubkey) : bool :=
  existsb (λ q, p =? q) PUMPFUN_AMM_FEES.

(* sdk instruction/utils/pumpfun.rs:229-235 get_mayhem_fee_recipient_meta_random *)
Definition get_mayhem_fee_recipient_meta_random (rand : nat) : AccountMeta :=
  mk_meta (choose rand PF_MAYHEM_FEE_RECIPIENTS (default 0 (PF_MAYHEM_FEE_RECIPIENTS !! 0%nat)))
    false true.

(* sdk instruction/utils/pumpfun.rs:239-259 get_standard_fee_recipient_meta_random *)
Definition get_standard_fee_recipient_meta_random (rand : nat) : AccountMeta :=
  mk_meta (choose rand (PF_FEE_RECIPIENT :: PUMPFUN_AMM_FEES) PF_FEE_RECIPIENT) false true.

(* sdk instruction/utils/pumpfun.rs:262-275 pump_fun_fee_recipient_meta *)
Definition pump_fun_fee_recipient_meta (rand : nat) (from_stream : Pubkey)
    (is_mayhem_mode : bool) : AccountMeta :=
  if negb (from_stream =? pubkey_default) then mk_meta from_stream false true
  else if is_mayhem_mode then get_mayhem_fee_recipient_meta_random rand
  else get_standard_fee_recipient_meta_random rand.

(* sdk instruction/utils/pumpfun.rs:283-294 get_bonding_curve_pda *)
Definition get_bonding_curve_pda (mint : Pubkey) : prog (option Pubkey) :=
  get_pda (PumpFunBondingCurve mint).

(* sdk instruction/utils/pumpfun.rs:297-308 get_bonding_curve_v2_pda *)
Definition get_bonding_curve_v2_pda (mint : Pubkey) : prog (option Pubkey) :=
  get_pda (PumpFunBondingCurveV2 mint).

(* sdk instruction/utils/pumpfun.rs:325-336 get_creator_vault_pda *)
Definition get_creator_vault_pda (creator : Pubkey) : prog (option Pubkey) :=
  get_pda (PumpFunCreatorVault creator).

(* sdk instruction/utils/pumpfun.rs:408-419 get_user_volume_accumulator_pda *)
Definition pf_get_user_volume_accumulator_pda (user : Pubkey) : prog (option Pubkey) :=
  get_pda (PumpFunUserVolume user).

(* sdk instruction/utils/pumpfun.rs:310-323 get_creator *)
Definition get_creator (creator_vault_pda : Pubkey) : prog Pubkey :=
  if creator_vault_pda =? pubkey_default then Ret pubkey_default
  else
    let! default_vault := get_creator_vault_pda pubkey_default in
    Ret (match default_vault with
         | Some d => if creator_vault_pda =? d then pubkey_default else creator_vault_pda
         | None => creator_vault_pda
         end).

(* sdk instruction/utils/pumpfun.rs:350-353 phantom_default_creator_vault *)
Definition phantom_default_creator_vault : Pubkey :=
  Eval vm_compute in pubkey "2DR3iqRPVThyRLVJnwjPW1qiGWrp8RUFfHVjMbZyhdNc".

(* sdk instruction/utils/pumpfun.rs:355-358 is_phantom_default_creator_vault *)
Definition is_phantom_default_creator_vault (pk : Pubkey) : bool :=
  pk =? phantom_default_creator_vault.

Section PumpFunUtils.
Context `{Sdk}.

(* sdk instruction/utils/pumpfun.rs:339-346 get_fee_sharing_config_pda *)
Definition get_fee_sharing_config_pda (mint : Pubkey) : option Pubkey :=
  try_pda [SHARING_CONFIG_SEED; to_bytes mint] PF_FEE_PROGRAM.

(* sdk instruction/utils/pumpfun.rs:369-406 resolve_creator_vault_for_ix *)
Definition resolve_creator_vault_for_ix (creator creator_vault_from_event mint : Pubkey) :
    prog (option Pubkey) :=
  let phantom := phantom_default_creator_vault in
  if creator =? pubkey_default then
    if creator_vault_from_event =? pubkey_default then Ret None
    else if creator_vault_from_event =? phantom then Ret None
    else Ret (Some creator_vault_from_event)
  else if creator_vault_from_event =? phantom then get_creator_vault_pda creator
  else
    let! o := get_creator_vault_pda creator in
    match o with
    | None => Ret None
    | Some v_derived =>
        if creator_vault_from_event =? pubkey_default then Ret (Some v_derived)
        else if creator_vault_from_event =? v_derived then Ret (Some creator_vault_from_event)
        else
          match get_fee_sharing_config_pda mint with
          | Some sharing =>
              let! s := get_creator_vault_pda sharing in
              match s with
              | None => Ret None
              | Some v_sharing =>
                  if creator_vault_from_event =? v_sharing
                  then Ret (Some creator_vault_from_event)
                  else Ret (Some v_derived)
              end
          | None => Ret (Some v_derived)
          end
    end.

(** What the resolution promises: which vaults may reach an instruction. *)
Definition vault_allowed (creator event mint v : Pubkey) : Prop :=
  creator = pubkey_default ∧ v = event ∧ v ≠ pubkey_default ∧ v ≠ phantom_default_creator_vault
  ∨ creator ≠ pubkey_default ∧ pda_compute (PumpFunCreatorVault creator) = Some v
  ∨ creator ≠ pubkey_default ∧ v = event ∧ v ≠ pubkey_default ∧
    ∃ sharing, get_fee_sharing_config_pda mint = Some sharing ∧
               pda_compute (PumpFunCreatorVault sharing) = Some v.

(** The vault resolved for an instruction is never made up: with an
    unknown creator it is the one the event carried, and only if that is
    neither empty nor the phantom vault of the default key; with a known
    creator it is the vault derived from that creator or, when the event
    named it, the one derived from the mint's fee sharing configuration.  It
    is absent exactly when nothing of the kind exists. *)
Theorem resolve_creator_vault_sound r creator event mint :
  match eval r (resolve_creator_vault_for_ix creator event mint) with
  | Val (Ok (Some v)) => vault_allowed creator event mint v
  | Val (Ok None) =>
      creator = pubkey_default ∧ (event = pubkey_default ∨ event = phantom_default_creator_vault)
      ∨ creator ≠ pubkey_default ∧
        (pda_compute (PumpFunCreatorVault creator) = None ∨
         ∃ sharing, get_fee_sharing_config_pda mint = Some sharing ∧
                    pda_compute (PumpFunCreatorVault sharing) = None)
  | _ => False
  end.
Proof.
  unfold resolve_creator_vault_for_ix, vault_allowed, get_creator_vault_pda, get_pda.
  set (derived := pda_compute (PumpFunCreatorVault creator)).
  cond; bool_hyps.
  { cond; bool_hyps; [simpl; auto|]. cond; bool_hyps; simpl; auto 6. }
  cond; bool_hyps.
  { simpl. fold derived. destruct derived; auto 6. }
  simpl. fold derived. destruct derived as [v|] eqn:Hd; simpl; [|auto].
  cond; bool_hyps; simpl; [auto 6|]. cond; bool_hyps; [simpl; subst; auto 6|].
  destruct (get_fee_sharing_config_pda mint) as [sh|] eqn:Hs; simpl; [|auto 6].
  destruct (pda_compute (PumpFunCreatorVault sh)) as [vs|] eqn:Hv; simpl.
  - cond; bool_hyps; simpl; [|auto 6]. subst. right. right. eauto 8.
  - eauto 8.
Qed.

(** The phantom vault never reaches an instruction, provided no key other
    than the default one derives it (collision resistance of address
    derivation). *)
Theorem resolve_never_phantom r creator event mint v :
  is_pubkey creator →
  (∀ c, is_pubkey c →
        pda_compute (PumpFunCreatorVault c) = Some phantom_default_creator_vault →
        c = pubkey_default) →
  (∀ sh, get_fee_sharing_config_pda mint = Some sh → is_pubkey sh ∧ sh ≠ pubkey_default) →
  eval r (resolve_creator_vault_for_ix creator event mint) = Val (Ok (Some v)) →
  v ≠ phantom_default_creator_vault.
Proof.
  intros Hk Hinj Hsh He ->.
  pose proof (resolve_creator_vault_sound r creator event mint) as Hs. rewrite He in Hs.
  destruct Hs as [(_ & _ & _ & Hn)|[(Hn & Hc)|(Hn & _ & _ & sh & Hg & Hc)]].
  - done.
  - by apply Hinj in Hc.
  - apply Hsh in Hg as [? ?]. by apply Hinj in Hc.
Qed.

End PumpFunUtils.

(** The fee recipient account is writable, never a signer, and it is the
    one the stream observed when there is one, otherwise a member of the table
    of the coin's mode. *)
Theorem fee_recipient_meta_spec rand from_stream mayhem :
  let m := pump_fun_fee_recipient_meta rand from_stream mayhem in
  is_signer m = false ∧ is_writable m = true ∧
  (from_stream ≠ pubkey_default → am_pubkey m = from_stream) ∧
  (from_stream = pubkey_default → mayhem = true → am_pubkey m ∈ PF_MAYHEM_FEE_RECIPIENTS) ∧
  (from_stream = pubkey_default → mayhem = false →
   am_pubkey m = PF_FEE_RECIPIENT ∨ is_amm_fee_recipient (am_pubkey m) = true).
Proof.
  unfold pump_fun_fee_recipient_meta.
  destruct (Z.eqb_spec from_stream pubkey_default) as [->|Hne]; simpl.
  - destruct mayhem; simpl; (split; [done|split; [done|split; [done|split; intros; try done]]]).
    + by apply choose_elem.
    + pose proof (choose_elem rand (PF_FEE_RECIPIENT :: PUMPFUN_AMM_FEES) PF_FEE_RECIPIENT
        ltac:(done)) as He.
      apply elem_of_cons in He as [He|He]; [by left|]. right.
      unfold is_amm_fee_recipient. apply existsb_exists. eexists.
      split; [by apply list_elem_of_In|]. apply Z.eqb_refl.
  - repeat split; intros; done.
Qed.

Lemma resolve_never_phantom_witness : 1 ≠ phantom_default_creator_vault.
Proof.
  refine (@resolve_never_phantom
    {| try_find_program_address := λ seeds program, Some (1, 255);
       create_with_seed := λ b s o, Ok b;
       system_transfer := λ _ _ _, mk_ix 0 [] [];
       system_create_account_with_seed := λ _ _ _ _ _ _ _, mk_ix 0 [] [];
       system_advance_nonce := λ _ _, mk_ix 0 [] [];
       fnv_hash := λ _, 0 |} initial_rents 3 99 5 1 _ _ _ _).
  - concrete.
  - intros c _ Hc. vm_compute in Hc. discriminate.
  - intros sh Hsh. vm_compute in Hsh. injection Hsh as <-. split; concrete.
  - reflexivity.
Defined.
