(* ===== verification/BondingCurve.v ===== *)
(** * Bonding curve and global accounts (sdk common/bonding_curve.rs, common/global.rs)

    The curve's state, its construction from a trade event, the purchase and
    sale prices, market caps, and the initial-state price of the global
    account. *)

From Stdlib Require Import String.
From S2P Require Import Prelude F64 Solana CalcCommon Accounts Spl FastFn PumpFunCalc PumpFunUtils.

(* sdk common/bonding_curve.rs:40-65 BondingCurveAccount *)
Record BondingCurveAccount := mk_BondingCurveAccount {
  bc_discriminator : Z;
  bc_account : Pubkey;
  virtual_token_reserves : Z;
  virtual_sol_reserves : Z;
  real_token_reserves : Z;
  real_sol_reserves : Z;
  token_total_supply : Z;
  complete : bool;
  bc_creator : Pubkey;
  bc_is_mayhem_mode : bool;
  bc_is_cashback_coin : bool;
}.

Section BondingCurve.
Context `{Build} `{Sdk}.

(** The account address of a constructor: the one given, else the derived
    address, whose absence panics. *)
Definition curve_account (bonding_curve mint : Pubkey) : prog Pubkey :=
  if negb (bonding_curve =? pubkey_default) then Ret bonding_curve
  else let! o := get_bonding_curve_pda mint in of_option o.

(* sdk common/bonding_curve.rs:70-97 from_dev_trade *)
Definition from_dev_trade (bonding_curve mint : Pubkey) (dev_token_amount dev_sol_amount : Z)
    (creator : Pubkey) (is_mayhem_mode is_cashback_coin : bool) : prog BondingCurveAccount :=
  let! account := curve_account bonding_curve mint in
  let! vt := of_exec (sub 64 INITIAL_VIRTUAL_TOKEN_RESERVES dev_token_amount) in
  let! vs := of_exec (add 64 INITIAL_VIRTUAL_SOL_RESERVES dev_sol_amount) in
  let! rt := of_exec (sub 64 INITIAL_REAL_TOKEN_RESERVES dev_token_amount) in
  Ret (mk_BondingCurveAccount 0 account vt vs rt dev_sol_amount TOKEN_TOTAL_SUPPLY false
         creator is_mayhem_mode is_cashback_coin).

(* sdk common/bonding_curve.rs:101-130 from_trade *)
Definition from_trade (bonding_curve mint creator : Pubkey)
    (virtual_token_reserves virtual_sol_reserves real_token_reserves real_sol_reserves : Z)
    (is_mayhem_mode is_cashback_coin : bool) : prog BondingCurveAccount :=
  let! account := curve_account bonding_curve mint in
  Ret (mk_BondingCurveAccount 0 account virtual_token_reserves virtual_sol_reserves
         real_token_reserves real_sol_reserves TOKEN_TOTAL_SUPPLY false creator
         is_mayhem_mode is_cashback_coin).

(* sdk common/bonding_curve.rs:132-134 get_creator_vault_pda *)
Definition bc_get_creator_vault_pda (c : BondingCurveAccount) : prog Pubkey :=
  let! o := get_creator_vault_pda (bc_creator c) in of_option o.

(* sdk common/bonding_curve.rs:144-168 get_buy_price *)
Definition get_buy_price (c : BondingCurveAccount) (amount : Z) : exec (result string Z) :=
  if complete c then Val (Err "Curve is complete"%string)
  else if amount =? 0 then Val (Ok 0)
  else
    let* n := mul 128 (virtual_sol_reserves c) (virtual_token_reserves c) in
    let* i := add 128 (virtual_sol_reserves c) amount in
    let* q := div n i in
    let* r := add 128 q 1 in
    let* s := sub 128 (virtual_token_reserves c) r in
    let s_u64 := as_u64 s in
    Val (Ok (if s_u64 <? real_token_reserves c then s_u64 else real_token_reserves c)).

(* sdk common/bonding_curve.rs:179-197 get_sell_price *)
Definition get_sell_price (c : BondingCurveAccount) (amount fee_basis_points : Z) :
    exec (result string Z) :=
  if complete c then Val (Err "Curve is complete"%string)
  else if amount =? 0 then Val (Ok 0)
  else
    let* p := mul 128 amount (virtual_sol_reserves c) in
    let* d := add 128 (virtual_token_reserves c) amount in
    let* n := div p d in
    let* m := mul 128 n fee_basis_points in
    let* a := div m 10000 in
    let* r := sub 128 n a in
    Val (Ok (as_u64 r)).

(* sdk common/bonding_curve.rs:200-207 get_market_cap_sol *)
Definition get_market_cap_sol (c : BondingCurveAccount) : exec Z :=
  if virtual_token_reserves c =? 0 then Val 0
  else
    let* m := mul 128 (token_total_supply c) (virtual_sol_reserves c) in
    let* q := div m (virtual_token_reserves c) in
    Val (as_u64 q).

(* sdk common/bonding_curve.rs:232-250 get_buy_out_price *)
Definition get_buy_out_price (c : BondingCurveAccount) (amount fee_basis_points : Z) : exec Z :=
  let sol_tokens := if amount <? real_sol_reserves c then real_sol_reserves c else amount in
  let* p := mul 128 sol_tokens (virtual_sol_reserves c) in
  let* d := sub 128 (virtual_token_reserves c) sol_tokens in
  let* q := div p d in
  let* total_sell_value := add 128 q 1 in
  let* m := mul 128 total_sell_value fee_basis_points in
  let* fee := div m 10000 in
  let* r := add 128 total_sell_value fee in
  Val (as_u64 r).

(* sdk common/bonding_curve.rs:213-225 get_final_market_cap_sol *)
Definition get_final_market_cap_sol (c : BondingCurveAccount) (fee_basis_points : Z) : exec Z :=
  let* total_sell_value := get_buy_out_price c (real_token_reserves c) fee_basis_points in
  let* total_virtual_value := add 128 (virtual_sol_reserves c) total_sell_value in
  let* total_virtual_tokens := sub 128 (virtual_token_reserves c) (real_token_reserves c) in
  if total_virtual_tokens =? 0 then Val 0
  else
    let* m := mul 128 (token_total_supply c) total_virtual_value in
    let* q := div m total_virtual_tokens in
    Val (as_u64 q).

(* sdk common/bonding_curve.rs:252-257 get_token_price *)
Definition get_token_price (c : BondingCurveAccount) : f64 :=
  let v_sol := fdiv (f64_of_Z (virtual_sol_reserves c)) (f64_of_Z 100000000) in
  let v_tokens := fdiv (f64_of_Z (virtual_token_reserves c)) (f64_of_Z 100000) in
  fdiv v_sol v_tokens.

(* sdk instruction/utils/pumpfun.rs:441-459 get_buy_price *)
Definition utils_get_buy_price
    (amount virtual_sol_reserves virtual_token_reserves real_token_reserves : Z) : exec Z :=
  if amount =? 0 then Val 0
  else
    let* n := mul 128 virtual_sol_reserves virtual_token_reserves in
    let* i := add 128 virtual_sol_reserves amount in
    let* q := div n i in
    let* r := add 128 q 1 in
    let* s := sub 128 virtual_token_reserves r in
    let s_u64 := as_u64 s in
    Val (Z.min s_u64 real_token_reserves).

(* sdk common/global.rs:39-70 GlobalAccount *)
Record GlobalAccount := mk_GlobalAccount {
  gl_discriminator : Z;
  gl_account : Pubkey;
  gl_initialized : bool;
  gl_authority : Pubkey;
  gl_fee_recipient : Pubkey;
  gl_initial_virtual_token_reserves : Z;
  gl_initial_virtual_sol_reserves : Z;
  gl_initial_real_token_reserves : Z;
  gl_token_total_supply : Z;
  gl_fee_basis_points : Z;
  gl_withdraw_authority : Pubkey;
  gl_enable_migrate : bool;
  gl_pool_migration_fee : Z;
  gl_creator_fee : Z;
  gl_fee_recipients : list Pubkey;
}.

(* sdk common/global.rs:74-100 new *)
Definition global_new : GlobalAccount :=
  mk_GlobalAccount 0 PF_GLOBAL_ACCOUNT true PF_AUTHORITY PF_FEE_RECIPIENT
    INITIAL_VIRTUAL_TOKEN_RESERVES INITIAL_VIRTUAL_SOL_RESERVES INITIAL_REAL_TOKEN_RESERVES
    TOKEN_TOTAL_SUPPLY FEE_BASIS_POINTS PF_WITHDRAW_AUTHORITY ENABLE_MIGRATE
    POOL_MIGRATION_FEE CREATOR_FEE PUMPFUN_AMM_FEES.

(* sdk common/global.rs:109-125 get_initial_buy_price *)
Definition get_initial_buy_price (g : GlobalAccount) (amount : Z) : exec Z :=
  if amount =? 0 then Val 0
  else
    let* n := mul 128 (gl_initial_virtual_sol_reserves g) (gl_initial_virtual_token_reserves g) in
    let* i := add 128 (gl_initial_virtual_sol_reserves g) amount in
    let* q := div n i in
    let* r := add 128 q 1 in
    let* s := sub 128 (gl_initial_virtual_token_reserves g) r in
    Val (if s <? gl_initial_real_token_reserves g then as_u64 s
         else gl_initial_real_token_reserves g).

(** ** Prices *)

(** A live curve: every quantity a [u64], positive virtual reserves. *)
Record live (c : BondingCurveAccount) : Prop := mk_live {
  live_open : complete c = false;
  live_vt : is_u64 (virtual_token_reserves c) ∧ 0 < virtual_token_reserves c;
  live_vs : is_u64 (virtual_sol_reserves c);
  live_rt : is_u64 (real_token_reserves c);
  live_rs : is_u64 (real_sol_reserves c);
  live_supply : is_u64 (token_total_supply c);
}.

(** Tokens the curve formula gives for [amount]. *)
Definition tokens_out (vs vt amount : Z) : Z := vt - (vs * vt / (vs + amount) + 1).

Lemma tokens_out_bounds vs vt amount :
  0 ≤ vs → 0 < vt → 0 < amount →
  0 ≤ tokens_out vs vt amount < vt ∧
  vs * vt < (vs + amount) * (vt - tokens_out vs vt amount) ≤ vs * vt + (vs + amount).
Proof.
  intros Hs Ht Ha. unfold tokens_out.
  pose proof (div_mul_floor (vs * vt) (vs + amount) ltac:(lia)).
  assert (0 ≤ vs * vt / (vs + amount) < vt)
    by (split; [apply Z.div_pos|apply Z.div_lt_upper_bound]; nia).
  split; lia.
Qed.

Lemma get_buy_price_code c amount :
  live c → is_u64 amount → 0 < amount →
  get_buy_price c amount =
    Val (Ok (Z.min (tokens_out (virtual_sol_reserves c) (virtual_token_reserves c) amount)
                   (real_token_reserves c))).
Proof.
  intros [Ho [Hvt Hpos] Hvs Hrt _ _] Ha H1. unfold get_buy_price. rewrite Ho.
  rewrite (proj2 (Z.eqb_neq amount 0)) by lia.
  pose proof (tokens_out_bounds (virtual_sol_reserves c) (virtual_token_reserves c) amount
    ltac:(uint) Hpos H1) as [Ht _]. unfold tokens_out in *.
  rewrite mul_ok by auto with rust. cbn [exec_bind]. do 2 exec_step.
  assert (0 ≤ virtual_sol_reserves c * virtual_token_reserves c / (virtual_sol_reserves c + amount))
    by (apply Z.div_pos; uint).
  do 2 exec_step. rewrite as_u64_small by uint.
  cond; bool_hyps; do 2 f_equal; lia.
Qed.

Lemma get_sell_price_code c amount fee :
  complete c = false → is_u64 (virtual_token_reserves c) → is_u64 (virtual_sol_reserves c) →
  is_u64 amount → 0 < amount → 0 ≤ fee ≤ 10000 →
  get_sell_price c amount fee =
    let n := amount * virtual_sol_reserves c / (virtual_token_reserves c + amount) in
    Val (Ok (n - n * fee / 10000)).
Proof.
  intros Ho Hvt Hvs Ha H1 Hf. unfold get_sell_price. rewrite Ho.
  rewrite (proj2 (Z.eqb_neq amount 0)) by lia.
  rewrite mul_ok by auto with rust. cbn [exec_bind]. do 2 exec_step.
  set (n := _ / _).
  assert (Hn : 0 ≤ n ≤ virtual_sol_reserves c).
  { unfold n. rewrite (Z.mul_comm amount). apply mul_div_le; uint_unfold; lia. }
  pose proof (mul_div_le n fee 10000 ltac:(lia) ltac:(lia) ltac:(lia)).
  do 3 exec_step. by rewrite as_u64_small by uint.
Qed.

(** The pool after a purchase that is not capped. *)
Definition after_buy (c : BondingCurveAccount) (amount tokens : Z) : BondingCurveAccount :=
  mk_BondingCurveAccount (bc_discriminator c) (bc_account c)
    (virtual_token_reserves c - tokens) (virtual_sol_reserves c + amount)
    (real_token_reserves c - tokens) (real_sol_reserves c + amount)
    (token_total_supply c) (complete c) (bc_creator c) (bc_is_mayhem_mode c)
    (bc_is_cashback_coin c).

(** [get_buy_price] on a live curve always answers, promises at most the
    tokens the curve really holds, and a purchase at that price never lowers
    the product of the virtual reserves. *)
Theorem get_buy_price_spec c amount :
  live c → is_u64 amount → 0 < amount →
  ∃ s, get_buy_price c amount = Val (Ok s)
  ∧ 0 ≤ s ≤ real_token_reserves c ∧ s < virtual_token_reserves c
  ∧ virtual_sol_reserves c * virtual_token_reserves c
    < (virtual_sol_reserves c + amount) * (virtual_token_reserves c - s)
  ∧ (s < real_token_reserves c →
     (virtual_sol_reserves c + amount) * (virtual_token_reserves c - (s + 1))
     ≤ virtual_sol_reserves c * virtual_token_reserves c).
Proof.
  intros Hl Ha H1. eexists. split; [by apply get_buy_price_code|].
  destruct Hl as [Ho [Hvt Hpos] Hvs Hrt _ _].
  pose proof (tokens_out_bounds (virtual_sol_reserves c) (virtual_token_reserves c) amount
    ltac:(uint) Hpos H1) as [Ht Hp].
  set (t := tokens_out _ _ _) in *. split; [uint_unfold; lia|]. split; [lia|].
  split; [|intros Hlt; rewrite Z.min_l by lia; lia].
  uint_unfold. destruct (Z.min_spec t (real_token_reserves c)) as [[? ->]|[? ->]]; nia.
Qed.

(** No free lunch on the curve: tokens bought for [amount] lamports and
    sold back to the curve the purchase leaves return strictly less than
    [amount], at any fee rate up to 100%. *)
Theorem curve_round_trip c amount fee s r :
  live c → is_u64 amount → 0 < amount → is_u64 (virtual_sol_reserves c + amount) →
  0 ≤ fee ≤ 10000 →
  get_buy_price c amount = Val (Ok s) →
  get_sell_price (after_buy c amount s) s fee = Val (Ok r) →
  r < amount.
Proof.
  intros Hl Ha H1 Hsum Hfee Hbuy Hsell.
  destruct (get_buy_price_spec c amount Hl Ha H1) as (s' & Hs & Hcap & Hlt & Hprod & _).
  rewrite Hs in Hbuy. injection Hbuy as ->.
  destruct Hl as [Ho [Hvt Hpos] Hvs Hrt _ _].
  destruct (Z.eqb_spec s 0) as [->|Hne].
  { unfold get_sell_price in Hsell. simpl in Hsell. rewrite Ho in Hsell. exec_inv. lia. }
  rewrite get_sell_price_code in Hsell by (simpl; uint || done).
  simpl in Hsell.
  replace (virtual_token_reserves c - s + s) with (virtual_token_reserves c) in Hsell by lia.
  set (n := s * (virtual_sol_reserves c + amount) / virtual_token_reserves c) in *.
  assert (Hn : 0 ≤ n < amount).
  { split; [apply Z.div_pos; uint|]. apply Z.div_lt_upper_bound; [lia|]. nia. }
  pose proof (mul_div_le n fee 10000 ltac:(lia) ltac:(lia) ltac:(lia)). exec_inv. lia.
Qed.

(** The three buy formulas of the code agree: the curve account's, the
    one of the Pump.fun utilities, and, on the initial reserves, the one of the
    global account. *)
Theorem buy_prices_agree c amount :
  live c → is_u64 amount →
  (∃ s, get_buy_price c amount = Val (Ok s) ∧
        utils_get_buy_price amount (virtual_sol_reserves c) (virtual_token_reserves c)
          (real_token_reserves c) = Val s) ∧
  (virtual_sol_reserves c = INITIAL_VIRTUAL_SOL_RESERVES →
   virtual_token_reserves c = INITIAL_VIRTUAL_TOKEN_RESERVES →
   real_token_reserves c = INITIAL_REAL_TOKEN_RESERVES →
   ∃ s, get_buy_price c amount = Val (Ok s) ∧ get_initial_buy_price global_new amount = Val s).
Proof.
  intros Hl Ha. destruct (Z.eqb_spec amount 0) as [->|Hne].
  { unfold get_buy_price, utils_get_buy_price, get_initial_buy_price.
    rewrite (live_open c Hl). simpl. split; eauto. }
  assert (H1 : 0 < amount) by uint.
  pose proof Hl as [Ho [Hvt Hpos] Hvs Hrt _ _].
  pose proof (tokens_out_bounds (virtual_sol_reserves c) (virtual_token_reserves c) amount
    ltac:(uint) Hpos H1) as [Ht _].
  rewrite get_buy_price_code by done.
  assert (Hq : 0 ≤ virtual_sol_reserves c * virtual_token_reserves c / (virtual_sol_reserves c + amount))
    by (apply Z.div_pos; uint).
  split; [|intros E1 E2 E3; rewrite E1, E2, E3 in *]; eexists; (split; [done|]).
  - unfold utils_get_buy_price, tokens_out in *.
    rewrite (proj2 (Z.eqb_neq amount 0)) by lia.
    rewrite mul_ok by auto with rust. cbn [exec_bind]. do 4 exec_step.
    by rewrite as_u64_small by uint.
  - unfold get_initial_buy_price, tokens_out in *. rewrite (proj2 (Z.eqb_neq amount 0)) by lia.
    change (gl_initial_virtual_sol_reserves global_new) with INITIAL_VIRTUAL_SOL_RESERVES.
    change (gl_initial_virtual_token_reserves global_new) with INITIAL_VIRTUAL_TOKEN_RESERVES.
    change (gl_initial_real_token_reserves global_new) with INITIAL_REAL_TOKEN_RESERVES.
    rewrite mul_ok by auto with rust. cbn [exec_bind]. do 4 exec_step.
    rewrite as_u64_small by uint. f_equal. cond; bool_hyps; lia.
Qed.
End BondingCurve.

(** ** Witnesses: a fresh curve and a purchase of 1 SOL *)

Definition fresh_curve : BondingCurveAccount :=
  mk_BondingCurveAccount 0 1 INITIAL_VIRTUAL_TOKEN_RESERVES INITIAL_VIRTUAL_SOL_RESERVES
    INITIAL_REAL_TOKEN_RESERVES 0 TOKEN_TOTAL_SUPPLY false 7 false false.

Lemma fresh_live : live fresh_curve.
Proof. split; concrete. Qed.

Lemma get_buy_price_spec_witness :
  ∃ s, @get_buy_price release fresh_curve 1000000000 = Val (Ok s)
  ∧ 0 ≤ s ≤ real_token_reserves fresh_curve ∧ s < virtual_token_reserves fresh_curve
  ∧ virtual_sol_reserves fresh_curve * virtual_token_reserves fresh_curve
    < (virtual_sol_reserves fresh_curve + 1000000000) * (virtual_token_reserves fresh_curve - s)
  ∧ (s < real_token_reserves fresh_curve →
     (virtual_sol_reserves fresh_curve + 1000000000)
       * (virtual_token_reserves fresh_curve - (s + 1))
     ≤ virtual_sol_reserves fresh_curve * virtual_token_reserves fresh_curve).
Proof.
  apply (@get_buy_price_spec release fresh_curve 1000000000); [apply fresh_live|concrete..].
Defined.

Lemma curve_round_trip_witness : 990000000 < 1000000000.
Proof.
  apply (@curve_round_trip release fresh_curve 1000000000 100 34612903225806 990000000);
    [apply fresh_live|concrete..].
Defined.

Lemma buy_prices_agree_witness :
  (∃ s, @get_buy_price release fresh_curve 1000000000 = Val (Ok s) ∧
        @utils_get_buy_price release 1000000000 (virtual_sol_reserves fresh_curve)
          (virtual_token_reserves fresh_curve) (real_token_reserves fresh_curve) = Val s) ∧
  (virtual_sol_reserves fresh_curve = INITIAL_VIRTUAL_SOL_RESERVES →
   virtual_token_reserves fresh_curve = INITIAL_VIRTUAL_TOKEN_RESERVES →
   real_token_reserves fresh_curve = INITIAL_REAL_TOKEN_RESERVES →
   ∃ s, @get_buy_price release fresh_curve 1000000000 = Val (Ok s) ∧
        @get_initial_buy_price release global_new 1000000000 = Val s).
Proof.
  apply (@buy_prices_agree release fresh_curve 1000000000); [apply fresh_live|concrete].
Defined.
