(* ===== verification/BonkCalc.v ===== *)
(** * Bonk launchpad arithmetic (sdk utils/calc/bonk.rs, sdk instruction/utils/bonk.rs)

    The constant-product curve over virtual and real reserves.  The source
    computes in [u128] and unwraps checked operations, so an impossible pool
    state panics rather than wraps. *)

From S2P Require Import Prelude.

(* sdk instruction/utils/bonk.rs:24-24 PLATFORM_FEE_RATE *)
Definition PLATFORM_FEE_RATE : Z := 100.
(* sdk instruction/utils/bonk.rs:25-25 PROTOCOL_FEE_RATE *)
Definition BK_PROTOCOL_FEE_RATE : Z := 25.
(* sdk instruction/utils/bonk.rs:26-26 SHARE_FEE_RATE *)
Definition SHARE_FEE_RATE : Z := 0.

Section BonkCalc.
Context `{Build}.

(** [amount * rate / 10000]. *)
Definition rate_fee (amount rate : Z) : exec Z :=
  let* m := mul 128 amount rate in div m 10000.

(** Three [checked_sub(..).unwrap()] in a row. *)
Definition sub_fees (amount protocol_fee platform_fee share_fee : Z) : exec Z :=
  let* a := unwrap (checked_sub 128 amount protocol_fee) in
  let* b := unwrap (checked_sub 128 a platform_fee) in
  unwrap (checked_sub 128 b share_fee).

(* sdk utils/calc/bonk.rs:20-56 get_buy_token_amount_from_sol_amount *)
Definition bonk_get_buy_token_amount_from_sol_amount
    (amount_in virtual_base virtual_quote real_base real_quote slippage_basis_points : Z) :
    exec Z :=
  let* protocol_fee := rate_fee amount_in BK_PROTOCOL_FEE_RATE in
  let* platform_fee := rate_fee amount_in PLATFORM_FEE_RATE in
  let* share_fee := rate_fee amount_in SHARE_FEE_RATE in
  let* amount_in_net := sub_fees amount_in protocol_fee platform_fee share_fee in
  let* input_reserve := unwrap (checked_add 128 virtual_quote real_quote) in
  let* output_reserve := unwrap (checked_sub 128 virtual_base real_base) in
  let* numerator := unwrap (checked_mul 128 amount_in_net output_reserve) in
  let* denominator := unwrap (checked_add 128 input_reserve amount_in_net) in
  let* amount_out := unwrap (checked_div numerator denominator) in
  let* m := mul 128 amount_out slippage_basis_points in
  let* q := div m 10000 in
  let* r := sub 128 amount_out q in
  Val (as_u64 r).

(* sdk utils/calc/bonk.rs:75-112 get_sell_sol_amount_from_token_amount *)
Definition bonk_get_sell_sol_amount_from_token_amount
    (amount_in virtual_base virtual_quote real_base real_quote slippage_basis_points : Z) :
    exec Z :=
  let* input_reserve := unwrap (checked_sub 128 virtual_base real_base) in
  let* output_reserve := unwrap (checked_add 128 virtual_quote real_quote) in
  let* numerator := unwrap (checked_mul 128 amount_in output_reserve) in
  let* denominator := unwrap (checked_add 128 input_reserve amount_in) in
  let* sol_amount_out := unwrap (checked_div numerator denominator) in
  let* protocol_fee := rate_fee sol_amount_out BK_PROTOCOL_FEE_RATE in
  let* platform_fee := rate_fee sol_amount_out PLATFORM_FEE_RATE in
  let* share_fee := rate_fee sol_amount_out SHARE_FEE_RATE in
  let* sol_amount_net := sub_fees sol_amount_out protocol_fee platform_fee share_fee in
  let* m := mul 128 sol_amount_net slippage_basis_points in
  let* q := div m 10000 in
  let* r := sub 128 sol_amount_net q in
  Val (as_u64 r).

(* sdk instruction/utils/bonk.rs:75-92 get_amount_in_net *)
Definition get_amount_in_net (amount_in protocol_fee_rate platform_fee_rate share_fee_rate : Z) :
    exec Z :=
  let* protocol_fee := rate_fee amount_in protocol_fee_rate in
  let* platform_fee := rate_fee amount_in platform_fee_rate in
  let* share_fee := rate_fee amount_in share_fee_rate in
  let* r := sub_fees amount_in protocol_fee platform_fee share_fee in
  Val (as_u64 r).

(* sdk instruction/utils/bonk.rs:94-124 get_amount_in *)
Definition get_amount_in
    (amount_out protocol_fee_rate platform_fee_rate share_fee_rate
     virtual_base virtual_quote real_base real_quote slippage_basis_points : Z) : exec Z :=
  let* m := mul 128 amount_out 10000 in
  let* d := sub 128 10000 slippage_basis_points in
  let* amount_out_with_slippage := div m d in
  let* input_reserve := unwrap (checked_add 128 virtual_quote real_quote) in
  let* output_reserve := unwrap (checked_sub 128 virtual_base real_base) in
  let* numerator := unwrap (checked_mul 128 amount_out_with_slippage input_reserve) in
  let* denominator := unwrap (checked_sub 128 output_reserve amount_out_with_slippage) in
  let* amount_in_net := unwrap (checked_div numerator denominator) in
  let* t := add 128 protocol_fee_rate platform_fee_rate in
  let* total_fee_rate := add 128 t share_fee_rate in
  let* m2 := mul 128 amount_in_net 10000 in
  let* d2 := sub 128 10000 total_fee_rate in
  let* amount_in := div m2 d2 in
  Val (as_u64 amount_in).

(* sdk instruction/utils/bonk.rs:126-156 get_amount_out *)
Definition get_amount_out
    (amount_in protocol_fee_rate platform_fee_rate share_fee_rate
     virtual_base virtual_quote real_base real_quote slippage_basis_points : Z) : exec Z :=
  let* protocol_fee := rate_fee amount_in protocol_fee_rate in
  let* platform_fee := rate_fee amount_in platform_fee_rate in
  let* share_fee := rate_fee amount_in share_fee_rate in
  let* amount_in_net := sub_fees amount_in protocol_fee platform_fee share_fee in
  let* input_reserve := unwrap (checked_add 128 virtual_quote real_quote) in
  let* output_reserve := unwrap (checked_sub 128 virtual_base real_base) in
  let* numerator := unwrap (checked_mul 128 amount_in_net output_reserve) in
  let* denominator := unwrap (checked_add 128 input_reserve amount_in_net) in
  let* amount_out := unwrap (checked_div numerator denominator) in
  let* m := mul 128 amount_out slippage_basis_points in
  let* q := div m 10000 in
  let* r := sub 128 amount_out q in
  Val (as_u64 r).

(** ** Facts *)

Lemma rate_fee_val a rate :
  is_u64 a → 0 ≤ rate ≤ 10000 → rate_fee a rate = Val (a * rate / 10000) ∧
  0 ≤ a * rate / 10000 ≤ a ∧ 10000 * (a * rate / 10000) ≤ a * rate < 10000 * (a * rate / 10000) + 10000.
Proof.
  intros Ha Hr. unfold rate_fee. split; [by do 2 exec_step|].
  pose proof (div_mul_floor (a * rate) 10000 ltac:(lia)).
  split; [apply mul_div_le; uint_unfold; lia|lia].
Qed.

(** Net amount after three floor fees whose rates add up to at most 100%. *)
Definition net_of (a p f s : Z) : Z :=
  a - a * p / 10000 - a * f / 10000 - a * s / 10000.

Lemma fees_net a p f s :
  is_u64 a → 0 ≤ p → 0 ≤ f → 0 ≤ s → p + f + s ≤ 10000 →
  rate_fee a p = Val (a * p / 10000) ∧ rate_fee a f = Val (a * f / 10000) ∧
  rate_fee a s = Val (a * s / 10000) ∧
  sub_fees a (a * p / 10000) (a * f / 10000) (a * s / 10000) = Val (net_of a p f s) ∧
  0 ≤ net_of a p f s ≤ a ∧
  a * (10000 - (p + f + s)) ≤ 10000 * net_of a p f s ≤ a * (10000 - (p + f + s)) + 29997.
Proof.
  intros Ha Hp Hf Hs Hsum. unfold net_of.
  destruct (rate_fee_val a p Ha ltac:(lia)) as (E1 & B1 & F1).
  destruct (rate_fee_val a f Ha ltac:(lia)) as (E2 & B2 & F2).
  destruct (rate_fee_val a s Ha ltac:(lia)) as (E3 & B3 & F3).
  assert (Hle : a * p / 10000 + a * f / 10000 + a * s / 10000 ≤ a) by (uint_unfold; nia).
  do 3 (split; [done|]). split; [|split; lia].
  unfold sub_fees. do 2 exec_step. by rewrite checked_sub_ok by uint.
Qed.

(** Gross output of the curve, and the output after slippage. *)
Definition bonk_out (net in_res out_res : Z) : Z := net * out_res / (in_res + net).
Definition less_slip (o slip : Z) : Z := o - o * slip / 10000.

Lemma bonk_out_bounds net i o :
  0 ≤ net → 0 < i → 0 ≤ o → 0 ≤ bonk_out net i o ≤ o ∧ i * o ≤ (i + net) * (o - bonk_out net i o).
Proof.
  intros Hn Hi Ho. unfold bonk_out.
  assert (0 ≤ net * o / (i + net) ≤ o).
  { rewrite (Z.mul_comm net o). apply mul_div_le; lia. }
  pose proof (div_mul_floor (net * o) (i + net) ltac:(lia)). split; lia.
Qed.

Lemma less_slip_val o slip :
  is_u64 o → 0 ≤ slip ≤ 10000 →
  (let* m := mul 128 o slip in let* q := div m 10000 in
   let* r := sub 128 o q in Val (as_u64 r)) = Val (less_slip o slip) ∧
  0 ≤ less_slip o slip ≤ o ∧
  o * (10000 - slip) ≤ 10000 * less_slip o slip < o * (10000 - slip) + 10000.
Proof.
  intros Ho Hs. unfold less_slip.
  pose proof (mul_div_le o slip 10000 ltac:(uint) ltac:(lia) ltac:(lia)).
  pose proof (div_mul_floor (o * slip) 10000 ltac:(lia)).
  split; [|split; lia]. do 3 exec_step. by rewrite as_u64_small by uint.
Qed.

(** Reserves as the program keeps them. *)
Record bonk_pool (vb vq rb rq : Z) : Prop := mk_bonk_pool {
  bp_vb : is_u64 vb; bp_vq : is_u64 vq; bp_rb : is_u64 rb; bp_rq : is_u64 rq;
  bp_le : rb ≤ vb; bp_pos : 0 < vq + rq;
}.

Lemma get_amount_out_code amount p f s vb vq rb rq slip :
  is_u64 amount → 0 ≤ p → 0 ≤ f → 0 ≤ s → p + f + s ≤ 10000 →
  bonk_pool vb vq rb rq → 0 ≤ slip ≤ 10000 →
  get_amount_out amount p f s vb vq rb rq slip =
    Val (less_slip (bonk_out (net_of amount p f s) (vq + rq) (vb - rb)) slip).
Proof.
  intros Ha Hp Hf Hs Hsum [] Hslip. unfold get_amount_out.
  destruct (fees_net amount p f s) as (E1 & E2 & E3 & E4 & B & _); [done..|].
  rewrite E1. cbn [exec_bind]. rewrite E2. cbn [exec_bind]. rewrite E3. cbn [exec_bind].
  rewrite E4. cbn [exec_bind].
  destruct (bonk_out_bounds (net_of amount p f s) (vq + rq) (vb - rb)) as [Ho _]; [lia..|].
  set (n := net_of amount p f s) in *.
  do 2 exec_step. rewrite checked_mul_ok by (apply u64_mul_u64; uint).
  do 2 exec_step. fold (bonk_out n (vq + rq) (vb - rb)).
  apply less_slip_val; [uint_unfold; lia|done].
Qed.

(** Buying on the Bonk curve: on a possible pool the computation never
    panics, the promised amount is at most the tokens left, and even the
    amount before slippage keeps the product of the reserves from falling;
    the fees it deducts are the nominal 1.25% up to three roundings in the
    buyer's favour. *)
Theorem bonk_buy_spec amount vb vq rb rq slip :
  is_u64 amount → bonk_pool vb vq rb rq → 0 ≤ slip ≤ 10000 →
  ∃ r net o,
    bonk_get_buy_token_amount_from_sol_amount amount vb vq rb rq slip = Val r
    ∧ amount * 9875 ≤ 10000 * net ≤ amount * 9875 + 29997
    ∧ (vq + rq) * (vb - rb) ≤ (vq + rq + net) * (vb - rb - o)
    ∧ 0 ≤ r ≤ o ∧ o ≤ vb - rb
    ∧ o * (10000 - slip) ≤ 10000 * r < o * (10000 - slip) + 10000.
Proof.
  intros Ha Hp Hs.
  destruct (fees_net amount 25 100 0) as (_ & _ & _ & _ & B & F); [done || lia..|].
  set (net := net_of amount 25 100 0) in *.
  destruct (bonk_out_bounds net (vq + rq) (vb - rb)) as [Ho Hk]; [destruct Hp; lia..|].
  destruct (less_slip_val (bonk_out net (vq + rq) (vb - rb)) slip) as (_ & Hl & Hr);
    [destruct Hp; uint_unfold; lia|done|].
  set (o := bonk_out net (vq + rq) (vb - rb)) in *.
  exists (less_slip o slip), net, o. split.
  - by apply (get_amount_out_code amount 25 100 0).
  - repeat split; lia.
Qed.

(** [get_amount_in] is not an upper bound of the price: its floor
    divisions can return an amount that buys less than what was asked for,
    even with no fees and no slippage. *)
Theorem get_amount_in_short :
  ∃ out vb vq rb rq i r,
    bonk_pool vb vq rb rq ∧
    get_amount_in out 0 0 0 vb vq rb rq 0 = Val i ∧
    get_amount_out i 0 0 0 vb vq rb rq 0 = Val r ∧ r < out.
Proof.
  exists 10, 1000, 1000, 0, 0, 10, 9. split; [split; concrete|].
  split; [concrete|]. split; concrete.
Qed.

(** Selling on the Bonk curve: the amount before fees keeps the product of
    the reserves from falling and never exceeds the SOL of the pool; fees and
    slippage only lower it. *)
Theorem bonk_sell_spec amount vb vq rb rq slip :
  is_u64 amount → bonk_pool vb vq rb rq → is_u64 (vq + rq) → 0 < vb - rb → 0 ≤ slip ≤ 10000 →
  ∃ r o,
    bonk_get_sell_sol_amount_from_token_amount amount vb vq rb rq slip = Val r
    ∧ (vb - rb) * (vq + rq) ≤ (vb - rb + amount) * (vq + rq - o)
    ∧ 0 ≤ r ≤ o ∧ o ≤ vq + rq
    ∧ 10000 * r * 10000 ≤ (o * 9875 + 29997) * (10000 - slip) + 100000000.
Proof.
  intros Ha Hp Hq Hpos Hs. pose proof Hp as [? ? ? ? ? ?].
  destruct (bonk_out_bounds amount (vb - rb) (vq + rq)) as [Ho Hk]; [uint_unfold; lia..|].
  assert (Hou : is_u64 (bonk_out amount (vb - rb) (vq + rq))) by (uint_unfold; lia).
  destruct (fees_net (bonk_out amount (vb - rb) (vq + rq)) 25 100 0)
    as (E1 & E2 & E3 & E4 & B & F); [done || lia..|].
  set (o := bonk_out amount (vb - rb) (vq + rq)) in *. set (n := net_of o 25 100 0) in *.
  destruct (less_slip_val n slip) as (El & Hl & Hr); [uint_unfold; lia|done|].
  exists (less_slip n slip), o. split.
  - unfold bonk_get_sell_sol_amount_from_token_amount, BK_PROTOCOL_FEE_RATE,
      PLATFORM_FEE_RATE, SHARE_FEE_RATE.
    do 2 exec_step. rewrite checked_mul_ok by (apply u64_mul_u64; uint). do 2 exec_step.
    fold (bonk_out amount (vb - rb) (vq + rq)). fold o.
    rewrite E1. cbn [exec_bind]. rewrite E2. cbn [exec_bind]. rewrite E3. cbn [exec_bind].
    rewrite E4. cbn [exec_bind]. exact El.
  - repeat split; nia.
Qed.
End BonkCalc.

Lemma bonk_buy_spec_witness :
  ∃ r net o,
    @bonk_get_buy_token_amount_from_sol_amount release 1000000000 1073025605596382 30000852951
      100000000000000 5000000000 100 = Val r
    ∧ 1000000000 * 9875 ≤ 10000 * net ≤ 1000000000 * 9875 + 29997
    ∧ (30000852951 + 5000000000) * (1073025605596382 - 100000000000000)
      ≤ (30000852951 + 5000000000 + net) * (1073025605596382 - 100000000000000 - o)
    ∧ 0 ≤ r ≤ o ∧ o ≤ 1073025605596382 - 100000000000000
    ∧ o * (10000 - 100) ≤ 10000 * r < o * (10000 - 100) + 10000.
Proof. apply (@bonk_buy_spec release); [concrete|split; concrete|concrete]. Defined.

Lemma bonk_sell_spec_witness :
  ∃ r o,
    @bonk_get_sell_sol_amount_from_token_amount release 1000000 1073025605596382 30000852951
      100000000000000 5000000000 100 = Val r
    ∧ (1073025605596382 - 100000000000000) * (30000852951 + 5000000000)
      ≤ (1073025605596382 - 100000000000000 + 1000000) * (30000852951 + 5000000000 - o)
    ∧ 0 ≤ r ≤ o ∧ o ≤ 30000852951 + 5000000000
    ∧ 10000 * r * 10000 ≤ (o * 9875 + 29997) * (10000 - 100) + 100000000.
Proof. apply (@bonk_sell_spec release); [concrete|split; concrete|concrete..]. Defined.
