(* ===== verification/RaydiumCalc.v ===== *)
(** * Raydium swap arithmetic (sdk utils/calc/raydium_amm_v4.rs, raydium_cpmm.rs)

    Both pools compute a swap in [u64] and [u128] integers and then the
    minimum accepted output in floating point.  Names of the AMM v4 pool carry
    the prefix [v4_], names of the constant-product pool the prefix [cp_]. *)

From Stdlib Require Import SpecFloat.
From S2P Require Import Prelude F64 CalcCommon.

(* sdk instruction/utils/raydium_amm_v4.rs:19-19 TRADE_FEE_NUMERATOR *)
Definition TRADE_FEE_NUMERATOR : Z := 25.
(* sdk instruction/utils/raydium_amm_v4.rs:20-20 TRADE_FEE_DENOMINATOR *)
Definition TRADE_FEE_DENOMINATOR : Z := 10000.
(* sdk instruction/utils/raydium_amm_v4.rs:21-21 SWAP_FEE_NUMERATOR *)
Definition SWAP_FEE_NUMERATOR : Z := 25.
(* sdk instruction/utils/raydium_amm_v4.rs:22-22 SWAP_FEE_DENOMINATOR *)
Definition SWAP_FEE_DENOMINATOR : Z := 10000.

(* sdk instruction/utils/raydium_cpmm.rs:21-21 FEE_RATE_DENOMINATOR_VALUE *)
Definition FEE_RATE_DENOMINATOR_VALUE : Z := 1000000.
(* sdk instruction/utils/raydium_cpmm.rs:22-22 TRADE_FEE_RATE *)
Definition TRADE_FEE_RATE : Z := 2500.
(* sdk instruction/utils/raydium_cpmm.rs:23-23 CREATOR_FEE_RATE *)
Definition CREATOR_FEE_RATE : Z := 0.
(* sdk instruction/utils/raydium_cpmm.rs:24-24 PROTOCOL_FEE_RATE *)
Definition CP_PROTOCOL_FEE_RATE : Z := 120000.
(* sdk instruction/utils/raydium_cpmm.rs:25-25 FUND_FEE_RATE *)
Definition FUND_FEE_RATE : Z := 40000.

(** The same five fields in both files. *)
(* sdk utils/calc/raydium_cpmm.rs:48-60 ComputeSwapParams *)
Record ComputeSwapParams := mk_ComputeSwapParams {
  all_trade : bool;
  amount_in : Z;
  amount_out : Z;
  min_amount_out : Z;
  fee : Z;
}.

(* sdk utils/calc/raydium_amm_v4.rs:47-61 SwapResult *)
Record V4SwapResult := mk_V4SwapResult {
  v4_new_input_vault_amount : Z;
  v4_new_output_vault_amount : Z;
  v4_input_amount : Z;
  v4_output_amount : Z;
  v4_trade_fee : Z;
  v4_swap_fee : Z;
}.

(* sdk utils/calc/raydium_cpmm.rs:63-81 SwapResult *)
Record CpSwapResult := mk_CpSwapResult {
  cp_new_input_vault_amount : Z;
  cp_new_output_vault_amount : Z;
  cp_input_amount : Z;
  cp_output_amount : Z;
  cp_trade_fee : Z;
  cp_protocol_fee : Z;
  cp_fund_fee : Z;
  cp_creator_fee : Z;
}.

Section RaydiumCalc.
Context `{Build}.

(* sdk utils/calc/raydium_amm_v4.rs:13-16 compute_trading_fee *)
Definition v4_compute_trading_fee (amount fee_rate fee_denominator : Z) : exec Z :=
  let* numerator := mul 128 amount fee_rate in
  let* a := add 128 numerator fee_denominator in
  let* b := sub 128 a 1 in
  let* q := div b fee_denominator in
  Val (as_u64 q).

(* sdk utils/calc/raydium_amm_v4.rs:26-29 compute_protocol_fund_fee *)
Definition v4_compute_protocol_fund_fee (amount fee_rate fee_denominator : Z) : exec Z :=
  let* numerator := mul 128 amount fee_rate in
  let* q := div numerator fee_denominator in
  Val (as_u64 q).

(* sdk utils/calc/raydium_amm_v4.rs:76-104 swap_base_input *)
Definition v4_swap_base_input
    (input_amount input_vault_amount output_vault_amount trade_fee_rate swap_fee_rate : Z) :
    exec V4SwapResult :=
  let* trade_fee := v4_compute_trading_fee input_amount trade_fee_rate TRADE_FEE_DENOMINATOR in
  let input_amount_less_fees := saturating_sub input_amount trade_fee in
  let* swap_fee := v4_compute_protocol_fund_fee trade_fee swap_fee_rate SWAP_FEE_DENOMINATOR in
  let* q := div (saturating_mul 128 output_vault_amount input_amount_less_fees)
                (saturating_add 128 input_vault_amount input_amount_less_fees) in
  let output_amount_swapped := as_u64 q in
  let output_amount := saturating_sub output_amount_swapped swap_fee in
  Val (mk_V4SwapResult
    (saturating_add 64 input_vault_amount input_amount_less_fees)
    (saturating_sub output_vault_amount output_amount_swapped)
    input_amount output_amount trade_fee swap_fee).

(** [(output as f64 * (1.0 - slippage as f64 / 10000.0)) as u64]. *)
Definition min_out (output_amount slippage_basis_points : Z) : Z :=
  f64_as_u64 (fmul (f64_of_Z output_amount)
    (fsub f_one (fdiv (f64_of_Z slippage_basis_points) (f64_of_Z 10000)))).

(* sdk utils/calc/raydium_amm_v4.rs:120-150 compute_swap_amount *)
Definition v4_compute_swap_amount (base_reserve quote_reserve : Z) (is_base_in : bool)
    (amount_in slippage_basis_points : Z) : exec ComputeSwapParams :=
  let '(input_reserve, output_reserve) :=
    if is_base_in then (base_reserve, quote_reserve) else (quote_reserve, base_reserve) in
  let* swap_result := v4_swap_base_input amount_in input_reserve output_reserve
                        TRADE_FEE_NUMERATOR SWAP_FEE_NUMERATOR in
  Val (mk_ComputeSwapParams (v4_input_amount swap_result =? amount_in) amount_in
    (v4_output_amount swap_result)
    (min_out (v4_output_amount swap_result) slippage_basis_points)
    (v4_trade_fee swap_result)).

(* sdk utils/calc/raydium_cpmm.rs:13-17 compute_trading_fee *)
Definition cp_compute_trading_fee (amount fee_rate : Z) : exec Z :=
  let* numerator := mul 128 amount fee_rate in
  let* a := add 128 numerator FEE_RATE_DENOMINATOR_VALUE in
  let* b := sub 128 a 1 in
  let* q := div b FEE_RATE_DENOMINATOR_VALUE in
  Val (as_u64 q).

(* sdk utils/calc/raydium_cpmm.rs:27-31 compute_protocol_fund_fee *)
Definition cp_compute_protocol_fund_fee (amount fee_rate : Z) : exec Z :=
  let* numerator := mul 128 amount fee_rate in
  let* q := div numerator FEE_RATE_DENOMINATOR_VALUE in
  Val (as_u64 q).

(* sdk utils/calc/raydium_cpmm.rs:41-45 compute_creator_fee_new *)
Definition cp_compute_creator_fee_new (amount fee_rate : Z) : exec Z :=
  let* numerator := mul 128 amount fee_rate in
  let* a := add 128 numerator FEE_RATE_DENOMINATOR_VALUE in
  let* b := sub 128 a 1 in
  let* q := div b FEE_RATE_DENOMINATOR_VALUE in
  Val (as_u64 q).

(* sdk utils/calc/raydium_cpmm.rs:99-146 swap_base_input *)
Definition cp_swap_base_input
    (input_amount input_vault_amount output_vault_amount trade_fee_rate creator_fee_rate
     protocol_fee_rate fund_fee_rate : Z) (is_creator_fee_on_input : bool) :
    exec CpSwapResult :=
  let* trade_fee := cp_compute_trading_fee input_amount trade_fee_rate in
  let* p :=
    (if is_creator_fee_on_input then
       let* creator_fee := cp_compute_creator_fee_new input_amount creator_fee_rate in
       Val (creator_fee, saturating_sub (saturating_sub input_amount trade_fee) creator_fee)
     else Val (0, saturating_sub input_amount trade_fee)) in
  let '(creator_fee, input_amount_less_fees) := p in
  let* protocol_fee := cp_compute_protocol_fund_fee trade_fee protocol_fee_rate in
  let* fund_fee := cp_compute_protocol_fund_fee trade_fee fund_fee_rate in
  let* q := div (saturating_mul 128 output_vault_amount input_amount_less_fees)
                (saturating_add 128 input_vault_amount input_amount_less_fees) in
  let output_amount_swapped := as_u64 q in
  let* p :=
    (if is_creator_fee_on_input then Val (creator_fee, output_amount_swapped)
     else
       let* creator_fee := cp_compute_creator_fee_new output_amount_swapped creator_fee_rate in
       Val (creator_fee, saturating_sub output_amount_swapped creator_fee)) in
  let '(creator_fee, output_amount) := p in
  Val (mk_CpSwapResult
    (saturating_add 64 input_vault_amount input_amount_less_fees)
    (saturating_sub output_vault_amount output_amount_swapped)
    input_amount output_amount trade_fee protocol_fee fund_fee creator_fee).

(* sdk utils/calc/raydium_cpmm.rs:162-196 compute_swap_amount *)
Definition cp_compute_swap_amount (base_reserve quote_reserve : Z) (is_base_in : bool)
    (amount_in slippage_basis_points : Z) : exec ComputeSwapParams :=
  let '(input_reserve, output_reserve) :=
    if is_base_in then (base_reserve, quote_reserve) else (quote_reserve, base_reserve) in
  let* swap_result := cp_swap_base_input amount_in input_reserve output_reserve
                        TRADE_FEE_RATE CREATOR_FEE_RATE CP_PROTOCOL_FEE_RATE FUND_FEE_RATE true in
  Val (mk_ComputeSwapParams (cp_input_amount swap_result =? amount_in) amount_in
    (cp_output_amount swap_result)
    (min_out (cp_output_amount swap_result) slippage_basis_points)
    (cp_trade_fee swap_result)).

(** ** Facts *)

Lemma sat_sub_le a b : 0 ≤ b ≤ a → saturating_sub a b = a - b.
Proof. unfold saturating_sub. lia. Qed.

Lemma sat_mul_u64 a b : is_u64 a → is_u64 b → saturating_mul 128 a b = a * b.
Proof. intros Ha Hb. pose proof (u64_mul_u64 a b Ha Hb). unfold saturating_mul. uint. Qed.

Lemma sat_add_u128 a b : is_u64 a → is_u64 b → saturating_add 128 a b = a + b.
Proof. intros. unfold saturating_add. uint. Qed.

(** Output of the constant product. *)
Definition swap_out (net i o : Z) : Z := o * net / (i + net).

Lemma swap_out_bounds net i o :
  0 ≤ net → 0 ≤ i → 0 < i + net → 0 ≤ o →
  0 ≤ swap_out net i o ≤ o ∧ i * o ≤ (i + net) * (o - swap_out net i o).
Proof.
  intros Hn Hi Hp Ho. unfold swap_out.
  pose proof (mul_div_le o net (i + net) ltac:(lia) ltac:(lia) ltac:(lia)).
  pose proof (div_mul_floor (o * net) (i + net) ltac:(lia)). split; lia.
Qed.

Lemma v4_fees a :
  is_u64 a →
  v4_compute_trading_fee a TRADE_FEE_NUMERATOR TRADE_FEE_DENOMINATOR = Val (zceil (a * 25) 10000) ∧
  0 ≤ zceil (a * 25) 10000 ≤ a ∧
  v4_compute_protocol_fund_fee (zceil (a * 25) 10000) SWAP_FEE_NUMERATOR SWAP_FEE_DENOMINATOR
    = Val (zceil (a * 25) 10000 * 25 / 10000) ∧
  0 ≤ zceil (a * 25) 10000 * 25 / 10000 ≤ zceil (a * 25) 10000.
Proof.
  intros Ha. set (t := zceil (a * 25) 10000).
  assert (Ht : 0 ≤ t ≤ a) by (split; [apply zceil_nonneg|apply zceil_spec]; uint).
  assert (Hs : 0 ≤ t * 25 / 10000 ≤ t) by (apply mul_div_le; lia).
  repeat split; try lia.
  - unfold v4_compute_trading_fee, TRADE_FEE_NUMERATOR, TRADE_FEE_DENOMINATOR.
    do 4 exec_step. fold (zceil (a * 25) 10000). fold t. by rewrite as_u64_small by uint.
  - unfold v4_compute_protocol_fund_fee, SWAP_FEE_NUMERATOR, SWAP_FEE_DENOMINATOR.
    do 2 exec_step. by rewrite as_u64_small by uint.
Qed.

(** An AMM v4 swap: unless both the input reserve and the net input are
    zero (where the division panics), the swap answers, takes the 0.25% fee
    rounded up from the input, and leaves vaults whose product has not fallen;
    the output never exceeds the output vault. *)
Theorem v4_swap_spec amount i o :
  is_u64 amount → is_u64 i → is_u64 o →
  let t := zceil (amount * 25) 10000 in
  if i + (amount - t) =? 0 then v4_swap_base_input amount i o TRADE_FEE_NUMERATOR SWAP_FEE_NUMERATOR = Panic
  else ∃ r, v4_swap_base_input amount i o TRADE_FEE_NUMERATOR SWAP_FEE_NUMERATOR = Val r
    ∧ v4_trade_fee r = t ∧ 0 ≤ t ≤ amount ∧ amount * 25 ≤ 10000 * t < amount * 25 + 10000
    ∧ 0 ≤ v4_output_amount r ≤ o - v4_new_output_vault_amount r ∧ 0 ≤ v4_new_output_vault_amount r
    ∧ (is_u64 (i + (amount - t)) →
       v4_new_input_vault_amount r = i + (amount - t) ∧
       i * o ≤ v4_new_input_vault_amount r * v4_new_output_vault_amount r).
Proof.
  intros Ha Hi Ho t. unfold v4_swap_base_input.
  destruct (v4_fees amount Ha) as (E1 & B1 & E2 & B2). fold t in E1, B1, E2, B2.
  rewrite E1. cbn [exec_bind]. rewrite sat_sub_le by lia.
  rewrite E2. cbn [exec_bind].
  rewrite sat_mul_u64, sat_add_u128 by uint.
  destruct (Z.eqb_spec (i + (amount - t)) 0) as [H0|H0].
  { unfold div. by rewrite (proj2 (Z.eqb_eq _ _) H0). }
  rewrite div_ok by done. cbn [exec_bind]. fold (swap_out (amount - t) i o).
  destruct (swap_out_bounds (amount - t) i o) as [Hs Hk]; [uint_unfold; lia..|].
  set (q := swap_out (amount - t) i o) in *. rewrite (as_u64_small q) by uint.
  eexists. split; [done|]. cbn.
  pose proof (zceil_ge (amount * 25) 10000 ltac:(lia)) as Hge.
  pose proof (zceil_lt (amount * 25) 10000 ltac:(lia)) as Hlt. fold t in Hge, Hlt.
  unfold saturating_sub, saturating_add. uint_unfold.
  repeat split; try lia; try nia.
Qed.

Lemma cp_fees a :
  is_u64 a →
  cp_compute_trading_fee a TRADE_FEE_RATE = Val (zceil (a * 2500) 1000000) ∧
  cp_compute_creator_fee_new a CREATOR_FEE_RATE = Val 0 ∧
  0 ≤ zceil (a * 2500) 1000000 ≤ a ∧
  (∀ rate, 0 ≤ rate ≤ 1000000 →
     cp_compute_protocol_fund_fee (zceil (a * 2500) 1000000) rate
       = Val (zceil (a * 2500) 1000000 * rate / 1000000) ∧
     0 ≤ zceil (a * 2500) 1000000 * rate / 1000000 ≤ zceil (a * 2500) 1000000).
Proof.
  intros Ha. set (t := zceil (a * 2500) 1000000).
  assert (Ht : 0 ≤ t ≤ a) by (split; [apply zceil_nonneg|apply zceil_spec]; uint).
  split; [|split; [|split; [done|]]].
  - unfold cp_compute_trading_fee, TRADE_FEE_RATE, FEE_RATE_DENOMINATOR_VALUE.
    do 4 exec_step. fold (zceil (a * 2500) 1000000). fold t. by rewrite as_u64_small by uint.
  - unfold cp_compute_creator_fee_new, CREATOR_FEE_RATE, FEE_RATE_DENOMINATOR_VALUE.
    do 4 exec_step. by rewrite Z.mul_0_r.
  - intros rate Hr. assert (Hs : 0 ≤ t * rate / 1000000 ≤ t) by (apply mul_div_le; lia).
    split; [|done]. unfold cp_compute_protocol_fund_fee, FEE_RATE_DENOMINATOR_VALUE.
    do 2 exec_step. by rewrite as_u64_small by uint.
Qed.

(** A CPMM swap at the rates of the pool: the 0.25% trade fee is rounded
    up and taken from the input, the protocol and fund fees are parts of it,
    nothing is taken from the output, and the product of the vaults does not
    fall.  It panics only when the input reserve and the net input are zero. *)
Theorem cp_swap_spec amount i o :
  is_u64 amount → is_u64 i → is_u64 o →
  let t := zceil (amount * 2500) 1000000 in
  let swap := cp_swap_base_input amount i o TRADE_FEE_RATE CREATOR_FEE_RATE
                CP_PROTOCOL_FEE_RATE FUND_FEE_RATE true in
  if i + (amount - t) =? 0 then swap = Panic
  else ∃ r, swap = Val r
    ∧ cp_trade_fee r = t ∧ 0 ≤ t ≤ amount
    ∧ 0 ≤ cp_protocol_fee r ∧ 0 ≤ cp_fund_fee r ∧ cp_protocol_fee r + cp_fund_fee r ≤ t
    ∧ cp_creator_fee r = 0
    ∧ cp_output_amount r + cp_new_output_vault_amount r = o ∧ 0 ≤ cp_output_amount r ≤ o
    ∧ (is_u64 (i + (amount - t)) →
       cp_new_input_vault_amount r = i + (amount - t) ∧
       i * o ≤ cp_new_input_vault_amount r * cp_new_output_vault_amount r).
Proof.
  intros Ha Hi Ho t. cbv zeta. unfold cp_swap_base_input.
  destruct (cp_fees amount Ha) as (E1 & E2 & B1 & E3). fold t in E1, B1, E3.
  destruct (E3 CP_PROTOCOL_FEE_RATE) as [P1 P2]; [by unfold CP_PROTOCOL_FEE_RATE|].
  destruct (E3 FUND_FEE_RATE) as [F1 F2]; [by unfold FUND_FEE_RATE|].
  rewrite E1. cbn [exec_bind]. rewrite E2. cbn [exec_bind].
  rewrite P1. cbn [exec_bind]. rewrite F1. cbn [exec_bind].
  rewrite (sat_sub_le amount t), sat_sub_le, Z.sub_0_r by lia.
  rewrite sat_mul_u64, sat_add_u128 by uint.
  destruct (Z.eqb_spec (i + (amount - t)) 0) as [H0|H0].
  { unfold div. by rewrite (proj2 (Z.eqb_eq _ _) H0). }
  rewrite div_ok by done. cbn [exec_bind]. fold (swap_out (amount - t) i o).
  destruct (swap_out_bounds (amount - t) i o) as [Hs Hk]; [uint_unfold; lia..|].
  set (q := swap_out (amount - t) i o) in *. rewrite (as_u64_small q) by uint.
  eexists. split; [done|]. cbn.
  pose proof (div_mul_floor (t * CP_PROTOCOL_FEE_RATE) 1000000 ltac:(lia)).
  pose proof (div_mul_floor (t * FUND_FEE_RATE) 1000000 ltac:(lia)).
  unfold CP_PROTOCOL_FEE_RATE, FUND_FEE_RATE in *.
  unfold saturating_sub, saturating_add. uint_unfold.
  repeat split; try lia; try nia.
Qed.
End RaydiumCalc.

(** The minimum output is computed in double precision, so beyond 2^53
    units it can exceed the output itself: with zero slippage the code can
    demand more than the pool pays. *)
Theorem min_out_exceeds_output `{Build} :
  ∃ base quote amount r,
    is_u64 base ∧ is_u64 quote ∧ is_u64 amount ∧
    v4_compute_swap_amount base quote true amount 0 = Val r ∧ amount_out r < min_amount_out r.
Proof.
  exists 6126933103096309, 172757217426062276, 2224231790572604,
    (mk_ComputeSwapParams true 2224231790572604 45927333044591310 45927333044591312
       5560579476432).
  split; [concrete|]. split; [concrete|]. split; [concrete|]. split; [|concrete].
  vm_compute. reflexivity.
Qed.

Lemma v4_swap_spec_witness :
  ∃ r, @v4_swap_base_input release 1000000 5000000000 7000000000 TRADE_FEE_NUMERATOR
         SWAP_FEE_NUMERATOR = Val r
    ∧ v4_trade_fee r = 2500 ∧ 0 ≤ 2500 ≤ 1000000
    ∧ 1000000 * 25 ≤ 10000 * 2500 < 1000000 * 25 + 10000
    ∧ 0 ≤ v4_output_amount r ≤ 7000000000 - v4_new_output_vault_amount r
    ∧ 0 ≤ v4_new_output_vault_amount r
    ∧ (is_u64 (5000000000 + (1000000 - 2500)) →
       v4_new_input_vault_amount r = 5000000000 + (1000000 - 2500) ∧
       5000000000 * 7000000000 ≤ v4_new_input_vault_amount r * v4_new_output_vault_amount r).
Proof. apply (@v4_swap_spec release 1000000 5000000000 7000000000); concrete. Defined.

Lemma cp_swap_spec_witness :
  ∃ r, @cp_swap_base_input release 1000000 5000000000 7000000000 TRADE_FEE_RATE CREATOR_FEE_RATE
         CP_PROTOCOL_FEE_RATE FUND_FEE_RATE true = Val r
    ∧ cp_trade_fee r = 2500 ∧ 0 ≤ 2500 ≤ 1000000
    ∧ 0 ≤ cp_protocol_fee r ∧ 0 ≤ cp_fund_fee r ∧ cp_protocol_fee r + cp_fund_fee r ≤ 2500
    ∧ cp_creator_fee r = 0
    ∧ cp_output_amount r + cp_new_output_vault_amount r = 7000000000
    ∧ 0 ≤ cp_output_amount r ≤ 7000000000
    ∧ (is_u64 (5000000000 + (1000000 - 2500)) →
       cp_new_input_vault_amount r = 5000000000 + (1000000 - 2500) ∧
       5000000000 * 7000000000 ≤ cp_new_input_vault_amount r * cp_new_output_vault_amount r).
Proof. apply (@cp_swap_spec release 1000000 5000000000 7000000000); concrete. Defined.
