(* ===== verification/Price.v ===== *)
(** * Prices in floating point (sdk utils/price/)

    Spot prices from reserves, as the source computes them in double
    precision.  Functions with the same name in several files carry the
    protocol as a prefix. *)

From Stdlib Require Import SpecFloat.
From S2P Require Import Prelude F64 Solana PumpFunCalc.

Definition f_ten : f64 := f64_of_Z 10.

(* sdk utils/price/common.rs:11-23 price_base_in_quote *)
Definition price_base_in_quote (base_reserve quote_reserve base_decimals quote_decimals : Z) : f64 :=
  let base := fdiv (f64_of_Z base_reserve) (f_powi f_ten base_decimals) in
  let quote := fdiv (f64_of_Z quote_reserve) (f_powi f_ten quote_decimals) in
  if f_eqb base f_zero then f_zero else fdiv quote base.

(* sdk utils/price/common.rs:35-47 price_quote_in_base *)
Definition price_quote_in_base (base_reserve quote_reserve base_decimals quote_decimals : Z) : f64 :=
  let base := fdiv (f64_of_Z base_reserve) (f_powi f_ten base_decimals) in
  let quote := fdiv (f64_of_Z quote_reserve) (f_powi f_ten quote_decimals) in
  if f_eqb quote f_zero then f_zero else fdiv base quote.

(* sdk utils/price/pumpswap.rs:11-23 price_base_in_quote *)
Definition pumpswap_price_base_in_quote := price_base_in_quote.
(* sdk utils/price/pumpswap.rs:35-47 price_quote_in_base *)
Definition pumpswap_price_quote_in_base := price_quote_in_base.
(* sdk utils/price/raydium_amm_v4.rs:11-23 price_base_in_quote *)
Definition raydium_amm_v4_price_base_in_quote := price_base_in_quote.
(* sdk utils/price/raydium_amm_v4.rs:35-47 price_quote_in_base *)
Definition raydium_amm_v4_price_quote_in_base := price_quote_in_base.
(* sdk utils/price/raydium_cpmm.rs:11-23 price_base_in_quote *)
Definition raydium_cpmm_price_base_in_quote := price_base_in_quote.
(* sdk utils/price/raydium_cpmm.rs:35-47 price_quote_in_base *)
Definition raydium_cpmm_price_quote_in_base := price_quote_in_base.

(* sdk utils/price/pumpfun.rs:11-18 price_token_in_sol *)
Definition price_token_in_sol (virtual_sol_reserves virtual_token_reserves : Z) : f64 :=
  let v_sol := fdiv (f64_of_Z virtual_sol_reserves) (f64_of_Z LAMPORTS_PER_SOL) in
  let v_tokens := fdiv (f64_of_Z virtual_token_reserves) (f64_of_Z SCALE) in
  if f_eqb v_tokens f_zero then f_zero else fdiv v_sol v_tokens.

(* sdk utils/price/bonk.rs:41-72 price_base_in_quote *)
Definition bonk_price_base_in_quote
    (virtual_base virtual_quote real_base real_quote base_decimals quote_decimals : Z) : f64 :=
  let decimal_diff := quote_decimals - base_decimals in
  let decimal_factor :=
    if 0 <=? decimal_diff then f_powi f_ten decimal_diff
    else fdiv f_one (f_powi f_ten (- decimal_diff)) in
  let quote_reserves := default 0 (checked_add 64 virtual_quote real_quote) in
  let base_reserves := default 0 (checked_sub 64 virtual_base real_base) in
  if base_reserves =? 0 then f_zero
  else if f_eqb decimal_factor f_zero then f_zero
  else fdiv (fdiv (f64_of_Z quote_reserves) (f64_of_Z base_reserves)) decimal_factor.

(* sdk utils/price/bonk.rs:13-27 price_token_in_wsol *)
Definition price_token_in_wsol (virtual_base virtual_quote real_base real_quote : Z) : f64 :=
  bonk_price_base_in_quote virtual_base virtual_quote real_base real_quote
    DEFAULT_TOKEN_DECIMALS SOL_DECIMALS.

(* sdk utils/price/raydium_clmm.rs:10-19 price_token0_in_token1 *)
Definition price_token0_in_token1 (sqrt_price_x64 decimals_token0 decimals_token1 : Z) : f64 :=
  let sqrt_price := fdiv (f64_of_Z sqrt_price_x64) (f64_of_Z (2 ^ 64)) in
  let price_raw := fmul sqrt_price sqrt_price in
  let scale := f_powi f_ten (decimals_token0 - decimals_token1) in
  fmul price_raw scale.

(* sdk utils/price/raydium_clmm.rs:30-36 price_token1_in_token0 *)
Definition price_token1_in_token0 (sqrt_price_x64 decimals_token0 decimals_token1 : Z) : f64 :=
  fdiv f_one (price_token0_in_token1 sqrt_price_x64 decimals_token0 decimals_token1).

Example prices :
  price_base_in_quote 1000000000 30000000000 6 9 = f64_lit 30 3 ∧
  price_base_in_quote 0 30000000000 6 9 = f_zero ∧
  bonk_price_base_in_quote 5 7 6 1 6 9 = f_zero.
Proof. vm_compute. done. Qed.
