(* ===== verification/Simd.v ===== *)
(** * Vectorised memory operations (sdk perf/simd.rs, perf/hardware_optimizations.rs)

    Memory is a function from addresses to bytes; a vector load or store of [n]
    bytes touches just the [n] bytes from its address on.  The routines of
    simd.rs do what their names say.  Those of hardware_optimizations.rs choose
    one load and store by the size class of the length: [width] is what they
    touch, which is more than the length unless it fills its class.

    Both are for x86-64; whether AVX-512 was enabled at compile time is a
    parameter ([Cpu]).  Addresses carry no alignment: the panic of a debug build
    at a misaligned access through a pointer is not modelled. *)

From Stdlib Require Import ZifyNat.
From S2P Require Import Prelude Solana.

#[local] Open Scope Z_scope.
#[local] Open Scope list_scope.

(** Arithmetic on block counts: [lia] with the equations of [/] and [mod]. *)
#[local] Ltac Zify.zify_post_hook ::= Z.to_euclidean_division_equations.

Definition Mem : Type := Z → Z.

(** [n] bytes from [p] on, and their replacement. *)
Definition load (m : Mem) (p : Z) (n : nat) : bytes := map (λ i, m (p + Z.of_nat i)) (seq 0 n).
Definition store (m : Mem) (p : Z) (l : bytes) : Mem := λ a,
  if (p <=? a) && (a <? p + Z.of_nat (length l)) then nth (Z.to_nat (a - p)) l 0 else m a.

(** One vector load and store. *)
Definition move (m : Mem) (dst src : Z) (n : nat) : Mem := store m dst (load m src n).

Lemma load_length m p n : length (load m p n) = n.
Proof. unfold load. by rewrite length_map, length_seq. Qed.

Lemma load_lookup m p n i : (i < n)%nat → load m p n !! i = Some (m (p + Z.of_nat i)).
Proof. intros Hi. unfold load. by rewrite list_lookup_fmap, lookup_seq_lt. Qed.

Lemma nth_load m p n i : (i < n)%nat → nth i (load m p n) 0 = m (p + Z.of_nat i).
Proof. intros Hi. apply nth_lookup_Some. by apply load_lookup. Qed.

Lemma move_at m dst src n a :
  move m dst src n a =
  if (dst <=? a) && (a <? dst + Z.of_nat n) then m (src + (a - dst)) else m a.
Proof.
  unfold move, store. rewrite load_length. destruct (_ && _) eqn:Hb; [|done]. bool_hyps.
  rewrite nth_load by lia. f_equal. lia.
Qed.

(** Regions a copy may use: the source and the destination are disjoint. *)
Definition apart (dst src : Z) (n : nat) : Prop :=
  dst + Z.of_nat n ≤ src ∨ src + Z.of_nat n ≤ dst.

(** ** simd.rs *)

(** A loop [while offset + n <= len { body; offset += n }]; [fuel] bounds the
    turns ([offset < len] is [offset + 1 <= len]).  A [return false] in the body
    is a state the later turns keep. *)
Fixpoint while_blocks {St} (fuel n : nat) (body : St → nat → St) (len : nat)
    (s : St) (offset : nat) : St * nat :=
  match fuel with
  | O => (s, offset)
  | S fuel' =>
      if Nat.leb (offset + n) len
      then while_blocks fuel' n body len (body s offset) (offset + n) else (s, offset)
  end.

(** 32 bytes a turn, then the bytes left one by one. *)
Definition in_blocks {St} (body : nat → St → nat → St) (len : nat) (s : St) : St :=
  let '(s1, offset) := while_blocks (S len) 32 (body 32%nat) len s 0 in
  fst (while_blocks (S len) 1 (body 1%nat) len s1 offset).

(* sdk perf/simd.rs:19-34 copy_avx2 *)
Definition copy_avx2 (m : Mem) (dst src : Z) (len : nat) : Mem :=
  in_blocks (λ n m offset, move m (dst + Z.of_nat offset) (src + Z.of_nat offset) n) len m.

(* sdk perf/simd.rs:46-71 compare_avx2 *)
Definition compare_avx2 (m : Mem) (a b : Z) (len : nat) : bool :=
  in_blocks (λ n ok offset,
    ok && bool_decide (load m (a + Z.of_nat offset) n = load m (b + Z.of_nat offset) n)) len true.

(* sdk perf/simd.rs:83-98 zero_avx2 *)
Definition zero_avx2 (m : Mem) (ptr : Z) (len : nat) : Mem :=
  in_blocks (λ n m offset, store m (ptr + Z.of_nat offset) (repeat 0 n)) len m.

(** Four lanes at a time, each wrapping; the tail wraps too. *)
(* sdk perf/simd.rs:115-136 add_u64_batch *)
Fixpoint add_u64_lanes (a b : list Z) : list Z :=
  match a, b with
  | a1 :: a2 :: a3 :: a4 :: a', b1 :: b2 :: b3 :: b4 :: b' =>
      [(a1 + b1) mod 2 ^ 64; (a2 + b2) mod 2 ^ 64; (a3 + b3) mod 2 ^ 64; (a4 + b4) mod 2 ^ 64]
      ++ add_u64_lanes a' b'
  | _, _ => zip_with (λ x y, (x + y) mod 2 ^ 64) a b
  end.
Definition add_u64_batch (a b result : list Z) : exec (list Z) :=
  if bool_decide (length a = length b) && bool_decide (length a = length result)
  then Val (add_u64_lanes a b) else Panic.

(* sdk perf/simd.rs:152-164 max_u64_batch *)
Definition max_u64_batch (data : list Z) : Z :=
  match data with [] => 0 | x :: l => foldl (λ m v, if m <? v then v else m) x l end.

(* sdk perf/simd.rs:168-180 min_u64_batch *)
Definition min_u64_batch (data : list Z) : Z :=
  match data with [] => 0 | x :: l => foldl (λ m v, if v <? m then v else m) x l end.

(* sdk perf/simd.rs:189-197 serialize_u64_batch *)
Definition serialize_u64_batch (data : list Z) : bytes := concat (map u64_le_bytes data).

(* sdk perf/simd.rs:201-221 deserialize_u64_batch *)
Definition deserialize_u64_batch (data : bytes) : list Z :=
  map (λ i, le_value (take 8 (drop (i * 8) data))) (seq 0 (length data / 8)).

(* sdk perf/simd.rs:251-260 fast_hash_u64 *)
Definition fast_hash_u64 (data : bytes) : Z :=
  foldl (λ hash byte, (Z.lxor hash byte * 0x100000001b3) mod 2 ^ 64) 0xcbf29ce484222325 data.

(* sdk perf/simd.rs:269-275 parallel_map *)
Definition parallel_map {T} (data : list T) (f : T → T) : list T := map f data.
(* sdk perf/simd.rs:279-285 parallel_filter *)
Definition parallel_filter {T} (data : list T) (predicate : T → bool) : list T :=
  filter (λ x, predicate x = true) data.

(** ** hardware_optimizations.rs: [SIMDMemoryOps] *)

(** Whether the build has AVX-512. *)
Class Cpu := { avx512f : bool }.

(* sdk perf/hardware_optimizations.rs:38-55 memcpy_small *)
Definition memcpy_small (m : Mem) (dst src : Z) (len : nat) : exec Mem :=
  if Nat.eqb len 1 then Val (move m dst src 1)
  else if Nat.eqb len 2 then Val (move m dst src 2)
  else if Nat.eqb len 3 then Val (move (move m dst src 2) (dst + 2) (src + 2) 1)
  else if Nat.eqb len 4 then Val (move m dst src 4)
  else if Nat.leb 5 len && Nat.leb len 8 then
    let m := move m dst src 8 in
    Val (if Nat.ltb 8 len then move m (dst + 8) (src + 8) (len - 8) else m)
  else Panic.

(* sdk perf/hardware_optimizations.rs:59-68 memcpy_sse *)
Definition memcpy_sse (m : Mem) (dst src : Z) (len : nat) : Mem :=
  if Nat.leb len 16 then move m dst src 16 else m.

(* sdk perf/hardware_optimizations.rs:78-87 memcpy_avx *)
Definition memcpy_avx (m : Mem) (dst src : Z) (len : nat) : Mem :=
  if Nat.leb len 32 then move m dst src 32 else m.

(* sdk perf/hardware_optimizations.rs:97-111 memcpy_avx2 *)
Definition memcpy_avx2 (m : Mem) (dst src : Z) (len : nat) : Mem :=
  let m := move m dst src 32 in
  if Nat.ltb 32 len then
    let remaining := (len - 32)%nat in
    if Nat.leb remaining 32 then move m (dst + 32) (src + 32) 32 else m
  else m.

(* sdk perf/hardware_optimizations.rs:121-156 memcpy_avx512_or_fallback *)
Definition memcpy_avx512_or_fallback `{Cpu} (m : Mem) (dst src : Z) (len : nat) : Mem :=
  if avx512f then
    let chunks := (len / 64)%nat in
    let m := foldl (λ m i, let offset := Z.of_nat (64 * i) in
                           move m (dst + offset) (src + offset) 64) m (seq 0 chunks) in
    let offset := Z.of_nat (64 * chunks) in
    let remaining := (len mod 64)%nat in
    if Nat.ltb 0 remaining then memcpy_avx2 m (dst + offset) (src + offset) remaining else m
  else
    let chunks := (len / 32)%nat in
    let m := foldl (λ m i, let offset := Z.of_nat (32 * i) in
                           memcpy_avx2 m (dst + offset) (src + offset) 32) m (seq 0 chunks) in
    let offset := Z.of_nat (32 * chunks) in
    let remaining := (len mod 32)%nat in
    if Nat.ltb 0 remaining then memcpy_avx m (dst + offset) (src + offset) remaining else m.

(* sdk perf/hardware_optimizations.rs:25-34 memcpy_simd_optimized *)
Definition memcpy_simd_optimized `{Cpu} (m : Mem) (dst src : Z) (len : nat) : exec Mem :=
  if Nat.eqb len 0 then Val m
  else if Nat.leb len 8 then memcpy_small m dst src len
  else if Nat.leb len 16 then Val (memcpy_sse m dst src len)
  else if Nat.leb len 32 then Val (memcpy_avx m dst src len)
  else if Nat.leb len 64 then Val (memcpy_avx2 m dst src len)
  else Val (memcpy_avx512_or_fallback m dst src len).

(** [_mm_movemask_epi8(_mm_cmpeq_epi8(a, b))]: a bit for each pair of equal bytes. *)
Fixpoint movemask_eq (a b : bytes) : Z :=
  match a, b with
  | x :: a', y :: b' => Z.b2z (x =? y) + 2 * movemask_eq a' b'
  | _, _ => 0
  end.

(* sdk perf/hardware_optimizations.rs:172-181 memcmp_small *)
Definition memcmp_small (m : Mem) (a b : Z) (len : nat) : exec bool :=
  let same p q n := bool_decide (load m p n = load m q n) in
  if Nat.eqb len 1 then Val (same a b 1%nat)
  else if Nat.eqb len 2 then Val (same a b 2%nat)
  else if Nat.eqb len 3 then Val (same a b 2%nat && same (a + 2) (b + 2) 1%nat)
  else if Nat.eqb len 4 then Val (same a b 4%nat)
  else if Nat.leb 5 len && Nat.leb len 8 then Val (same a b 8%nat)
  else Panic.

(* sdk perf/hardware_optimizations.rs:185-197 memcmp_sse *)
Definition memcmp_sse (m : Mem) (a b : Z) (len : nat) : bool :=
  let mask := movemask_eq (load m a 16) (load m b 16) in
  let valid_mask := if Nat.leb 16 len then 0xFFFF else 2 ^ Z.of_nat len - 1 in
  Z.land mask valid_mask =? valid_mask.

(* sdk perf/hardware_optimizations.rs:207-221 memcmp_avx2 *)
Definition memcmp_avx2 (m : Mem) (a b : Z) (len : nat) : bool :=
  let mask := movemask_eq (load m a 32) (load m b 32) in
  let valid_mask := if Nat.leb 32 len then 0xFFFFFFFF else 2 ^ Z.of_nat len - 1 in
  Z.land mask valid_mask =? valid_mask.

(* sdk perf/hardware_optimizations.rs:231-247 memcmp_large *)
Definition memcmp_large (m : Mem) (a b : Z) (len : nat) : bool :=
  let chunks := (len / 32)%nat in
  forallb (λ i, let offset := Z.of_nat (i * 32) in memcmp_avx2 m (a + offset) (b + offset) 32)
          (seq 0 chunks)
  && let remaining := (len mod 32)%nat in
     let offset := Z.of_nat (chunks * 32) in
     if Nat.ltb 0 remaining then memcmp_avx2 m (a + offset) (b + offset) remaining else true.

(* sdk perf/hardware_optimizations.rs:160-168 memcmp_simd_optimized *)
Definition memcmp_simd_optimized (m : Mem) (a b : Z) (len : nat) : exec bool :=
  if Nat.eqb len 0 then Val true
  else if Nat.leb len 8 then memcmp_small m a b len
  else if Nat.leb len 16 then Val (memcmp_sse m a b len)
  else if Nat.leb len 32 then Val (memcmp_avx2 m a b len)
  else Val (memcmp_large m a b len).

(* sdk perf/hardware_optimizations.rs:251-269 memzero_simd_optimized *)
Definition memzero_simd_optimized (m : Mem) (ptr : Z) (len : nat) : Mem :=
  let chunks := (len / 32)%nat in
  let m := foldl (λ m i, store m (ptr + Z.of_nat (32 * i)) (repeat 0 32)) m (seq 0 chunks) in
  let offset := Z.of_nat (32 * chunks) in
  foldl (λ m i, store m (ptr + offset + Z.of_nat i) [0]) m (seq 0 (len mod 32)).

(** ** What the loops keep *)

Lemma while_blocks_inv {St} (P : St → nat → Prop) n body len :
  (0 < n)%nat →
  (∀ s o, P s o → (o + n ≤ len)%nat → P (body s o) (o + n)%nat) →
  ∀ fuel s o, P s o → (o ≤ len)%nat → (len < fuel + o)%nat →
  let r := while_blocks fuel n body len s o in
  P r.1 r.2 ∧ (r.2 ≤ len < r.2 + n)%nat.
Proof.
  intros Hn Hb; induction fuel as [|fuel IH]; intros s o Hs Ho Hf; [lia|]. cbn [while_blocks].
  destruct (Nat.leb_spec (o + n) len).
  - apply IH; [by apply Hb|lia..].
  - simpl. auto with lia.
Qed.

Lemma in_blocks_inv {St} (P : St → nat → Prop) body len s :
  P s 0%nat →
  (∀ n s o, P s o → (o + n ≤ len)%nat → P (body n s o) (o + n)%nat) →
  P (in_blocks body len s) len.
Proof.
  intros Hs Hb. unfold in_blocks.
  pose proof (while_blocks_inv P 32 (body 32%nat) len ltac:(lia) (Hb 32%nat) (S len) s 0 Hs
    ltac:(lia) ltac:(lia)) as [H1 H2].
  destruct (while_blocks _ _ _ _ _ _) as [s1 o1]. simpl in H1, H2.
  pose proof (while_blocks_inv P 1 (body 1%nat) len ltac:(lia) (Hb 1%nat) (S len) s1 o1 H1
    ltac:(lia) ltac:(lia)) as [H3 H4].
  destruct (while_blocks _ _ _ _ _ _) as [s2 o2]. simpl in *. by replace len with o2 by lia.
Qed.

Lemma foldl_seq_inv {St} (P : St → nat → Prop) f k s :
  P s 0%nat → (∀ s i, P s i → (i < k)%nat → P (f s i) (S i)) →
  P (foldl f s (seq 0 k)) k.
Proof.
  intros Hs Hf. enough (∀ j, (j ≤ k)%nat → P (foldl f s (seq 0 j)) j) by auto.
  induction j as [|j IH]; intros Hj; [done|].
  rewrite seq_S, foldl_app. simpl. apply Hf; [apply IH|]; lia.
Qed.

(** ** Copying, zeroing and comparing in pieces *)

Lemma move_extend m m' dst src o n :
  apart dst src (o + n) → (∀ a, m' a = move m dst src o a) →
  ∀ a, move m' (dst + Z.of_nat o) (src + Z.of_nat o) n a = move m dst src (o + n) a.
Proof.
  intros Hd Hm a. unfold apart in Hd. rewrite !move_at, !Hm, !move_at.
  repeat match goal with |- context [if ?b then _ else _] => destruct b eqn:? end;
    bool_hyps; try (f_equal; lia); try lia;
    repeat match goal with
    | H : (_ && _)%bool = false |- _ => apply andb_false_iff in H as [H|H]
    end; bool_hyps; try lia; f_equal; lia.
Qed.

Lemma store_zeros_at m p n a :
  store m p (repeat 0 n) a = if (p <=? a) && (a <? p + Z.of_nat n) then 0 else m a.
Proof.
  unfold store. rewrite repeat_length. destruct (_ && _) eqn:Hb; [|done]. by rewrite nth_repeat.
Qed.

Lemma store_zeros_extend m m' p o n :
  (∀ a, m' a = store m p (repeat 0 o) a) →
  ∀ a, store m' (p + Z.of_nat o) (repeat 0 n) a = store m p (repeat 0 (o + n)) a.
Proof.
  intros Hm a. rewrite !store_zeros_at, Hm, store_zeros_at.
  repeat match goal with |- context [if ?b then _ else _] => destruct b eqn:? end;
    bool_hyps; try done;
    repeat match goal with
    | H : (_ && _)%bool = false |- _ => apply andb_false_iff in H as [H|H]
    end; bool_hyps; lia.
Qed.

Lemma load_app m p n k : load m p (n + k) = load m p n ++ load m (p + Z.of_nat n) k.
Proof.
  apply list_eq_same_length with (n + k)%nat;
    rewrite ?length_app, ?load_length; [lia..|].
  intros i x y Hi. rewrite load_lookup by lia. intros [= <-] Hy. revert Hy.
  destruct (decide (i < n)%nat).
  - rewrite lookup_app_l, load_lookup by (rewrite ?load_length; lia). congruence.
  - rewrite lookup_app_r, load_length, load_lookup by (rewrite ?load_length; lia).
    intros [= <-]. f_equal. lia.
Qed.

Lemma load_ext m m' p n :
  (∀ a, p ≤ a < p + Z.of_nat n → m a = m' a) → load m p n = load m' p n.
Proof.
  intros Hm. unfold load. apply list_fmap_ext. intros i j Hj.
  apply lookup_seq in Hj as [-> Hi]. apply Hm. lia.
Qed.

Lemma store_at m p l a :
  store m p l a = if (p <=? a) && (a <? p + Z.of_nat (length l)) then nth (Z.to_nat (a - p)) l 0 else m a.
Proof. done. Qed.

Lemma store_outside m p l a : a < p ∨ p + Z.of_nat (length l) ≤ a → store m p l a = m a.
Proof. intros Ha. rewrite store_at. destruct (_ && _) eqn:Hb; [|done]. bool_hyps. lia. Qed.

Lemma load_store_same m p l n : n = length l → load (store m p l) p n = l.
Proof.
  intros ->. apply list_eq_same_length with (length l); [by rewrite ?load_length..|].
  intros i x y Hi. rewrite load_lookup by done. intros [= <-] Hy. rewrite store_at.
  rewrite (proj2 (andb_true_iff _ _)) by (split; lia).
  replace (Z.to_nat (p + Z.of_nat i - p)) with i by lia. by apply nth_lookup_Some.
Qed.

Lemma load_store_other m p l p' n :
  p' + Z.of_nat n ≤ p ∨ p + Z.of_nat (length l) ≤ p' → load (store m p l) p' n = load m p' n.
Proof. intros Hp. apply load_ext. intros a Ha. apply store_outside. lia. Qed.

Lemma move_inside m dst src n a :
  dst ≤ a < dst + Z.of_nat n → move m dst src n a = m (src + (a - dst)).
Proof. intros Ha. rewrite move_at. by rewrite (proj2 (andb_true_iff _ _)) by (split; lia). Qed.

Lemma move_outside m dst src n a : a < dst ∨ dst + Z.of_nat n ≤ a → move m dst src n a = m a.
Proof. intros Ha. rewrite move_at. destruct (_ && _) eqn:Hb; [|done]. bool_hyps. lia. Qed.

(** Whether the [n] bytes at [p] and at [q] are the same. *)
Definition same_bytes (m : Mem) (p q : Z) (n : nat) : bool :=
  bool_decide (load m p n = load m q n).

Lemma same_bytes_app m p q n k :
  same_bytes m p q (n + k) =
  same_bytes m p q n && same_bytes m (p + Z.of_nat n) (q + Z.of_nat n) k.
Proof.
  unfold same_bytes. rewrite <- bool_decide_and. apply bool_decide_ext. rewrite !load_app.
  split; [|by intros [-> ->]]. intros Heq. by apply app_inj_1 in Heq; rewrite ?load_length.
Qed.

Lemma movemask_bit a b i :
  length a = length b →
  Z.testbit (movemask_eq a b) (Z.of_nat i) =
  bool_decide (i < length a)%nat && (nth i a 0 =? nth i b 0).
Proof.
  revert b i; induction a as [|x a IH]; intros [|y b] i Hl; try discriminate.
  - simpl. by rewrite Z.bits_0.
  - cbn [movemask_eq length]. rewrite Z.add_comm. destruct i as [|i].
    + rewrite Z.testbit_0_r || rewrite Z.add_b2z_double_bit0. done.
    + rewrite Nat2Z.inj_succ, Z.testbit_succ_r by lia. rewrite IH by (simpl in Hl; lia).
      simpl. f_equal. apply bool_decide_ext. lia.
Qed.

(** The masked comparison looks at just the first [len] of the [n] bytes loaded. *)
Lemma masked_eq m a b n len :
  (len ≤ n)%nat →
  (Z.land (movemask_eq (load m a n) (load m b n)) (2 ^ Z.of_nat len - 1) =? 2 ^ Z.of_nat len - 1)
  = same_bytes m a b len.
Proof.
  intros Hn. apply eq_true_iff_eq. unfold same_bytes.
  rewrite Z.eqb_eq, bool_decide_eq_true, Z.sub_1_r, <- Z.ones_equiv.
  assert (∀ i, (i < len)%nat →
    Z.testbit (movemask_eq (load m a n) (load m b n)) (Z.of_nat i)
    = (m (a + Z.of_nat i) =? m (b + Z.of_nat i))) as Hbit.
  { intros i Hi. rewrite movemask_bit by by rewrite !load_length.
    rewrite load_length, !nth_load, bool_decide_eq_true_2 by lia. done. }
  split.
  - intros Heq. apply list_eq_same_length with len; rewrite ?load_length; [done..|].
    intros i x y Hi. rewrite !load_lookup by done. intros [= <-] [= <-].
    apply Z.eqb_eq. rewrite <- Hbit by done.
    apply (f_equal (λ z, Z.testbit z (Z.of_nat i))) in Heq.
    rewrite Z.land_spec, Z.ones_spec_low, andb_true_r in Heq by lia. done.
  - intros Heq. apply Z.bits_inj'. intros i Hi. rewrite Z.land_spec.
    destruct (decide (i < Z.of_nat len)).
    + rewrite Z.ones_spec_low, andb_true_r by lia.
      rewrite <- (Z2Nat.id i), Hbit by lia. apply Z.eqb_eq.
      rewrite <- !(nth_load m _ len) by lia. by rewrite Heq.
    + by rewrite Z.ones_spec_high, andb_false_r by lia.
Qed.

(** ** simd.rs does what its names say *)

Lemma copy_avx2_exact m dst src len a :
  apart dst src len → copy_avx2 m dst src len a = move m dst src len a.
Proof.
  intros Hd. revert a. unfold copy_avx2.
  refine (in_blocks_inv (λ m' o, ∀ a, m' a = move m dst src o a) _ len m _ _).
  - intros a. rewrite move_at. destruct (_ && _) eqn:?; bool_hyps; [lia|done].
  - intros n m' o Hm Ho. apply move_extend; [|done]. unfold apart in *. lia.
Qed.

Lemma compare_avx2_exact m a b len : compare_avx2 m a b len = same_bytes m a b len.
Proof.
  unfold compare_avx2. refine (in_blocks_inv (λ ok o, ok = same_bytes m a b o) _ len true _ _).
  - done.
  - intros n ok o -> Ho. by rewrite same_bytes_app.
Qed.

Lemma zero_avx2_exact m p len a : zero_avx2 m p len a = store m p (repeat 0 len) a.
Proof.
  revert a. unfold zero_avx2.
  refine (in_blocks_inv (λ m' o, ∀ a, m' a = store m p (repeat 0 o) a) _ len m _ _).
  - intros a. rewrite store_zeros_at. destruct (_ && _) eqn:?; bool_hyps; [lia|done].
  - intros n m' o Hm _. by apply store_zeros_extend.
Qed.

Lemma memzero_exact m p len a :
  memzero_simd_optimized m p len a = store m p (repeat 0 len) a.
Proof.
  unfold memzero_simd_optimized. revert a.
  replace (repeat 0 len) with (repeat 0 (32 * (len / 32) + len mod 32))
    by (f_equal; symmetry; apply Nat.div_mod_eq).
  refine (foldl_seq_inv (λ m' i, ∀ a, m' a = store m p (repeat 0 (32 * (len / 32) + i)) a)
    _ (len mod 32) _ _ _).
  - rewrite Nat.add_0_r.
    refine (foldl_seq_inv (λ m' i, ∀ a, m' a = store m p (repeat 0 (32 * i)) a) _ _ m _ _).
    + intros a. rewrite store_zeros_at. destruct (_ && _) eqn:?; bool_hyps; [lia|done].
    + intros m' i Hm _. replace (32 * S i)%nat with (32 * i + 32)%nat by lia.
      by apply store_zeros_extend.
  - intros m' i Hm _ a.
    replace (p + _ + Z.of_nat i) with (p + Z.of_nat (32 * (len / 32) + i)) by lia.
    replace (_ + S i)%nat with (32 * (len / 32) + i + 1)%nat by lia.
    by apply (store_zeros_extend m m' p _ 1).
Qed.

(** [add_u64_batch] adds lane by lane, each sum modulo 2^64. *)
Lemma add_u64_batch_exact a b r :
  length a = length b → length a = length r →
  add_u64_batch a b r = Val (zip_with (λ x y, (x + y) mod 2 ^ 64) a b).
Proof.
  intros Hb Hr. unfold add_u64_batch. rewrite !bool_decide_eq_true_2 by done. simpl. f_equal.
  clear r Hr. remember (length a) as n eqn:Hn.
  revert a b Hb Hn. induction n as [n IH] using lt_wf_ind. intros a b Hb Hn.
  destruct a as [|? [|? [|? [|? a]]]], b as [|? [|? [|? [|? b]]]]; try done.
  simpl. do 4 f_equal. apply (IH (length a)); simpl in *; lia.
Qed.

Lemma deserialize_serialize data :
  Forall is_u64 data → deserialize_u64_batch (serialize_u64_batch data) = data.
Proof.
  unfold deserialize_u64_batch, serialize_u64_batch. intros Hd.
  assert (length (concat (map u64_le_bytes data)) = (length data * 8)%nat) as ->.
  { clear Hd. induction data; simpl; [done|]. lia. }
  rewrite Nat.div_mul by done. induction Hd as [|z data Hz Hd IH]; [done|].
  cbn [length seq map concat]. f_equal.
  - rewrite drop_0, take_app_length' by done. by apply u64_le_roundtrip.
  - rewrite <- seq_shift, map_map. etrans; [|apply IH]. apply map_ext. done.
Qed.

Lemma max_u64_batch_spec data :
  data ≠ [] → max_u64_batch data ∈ data ∧ Forall (λ x, x ≤ max_u64_batch data) data.
Proof.
  destruct data as [|x l]; [done|]. intros _. cbn [max_u64_batch].
  enough (∀ l m, let r := foldl (λ m v, if m <? v then v else m) m l in
            (r = m ∨ r ∈ l) ∧ m ≤ r ∧ Forall (λ x, x ≤ r) l) as Hall.
  { destruct (Hall l x) as ([->|?] & ? & ?); split; [left|by constructor|by right|by constructor]. }
  clear; induction l as [|y l IH]; intros m; cbn [foldl]; [auto with lia|].
  specialize (IH (if m <? y then y else m)). destruct (Z.ltb_spec m y);
    destruct IH as (H1 & H2 & H3); (split_and!; [|lia|constructor; [lia|done]]).
  - right. destruct H1 as [->|?]; [by left|by right].
  - destruct H1; [by left|right; by right].
Qed.

(** The vector routines of simd.rs are exact: for every length, [copy_avx2] writes just the [len]
    destination bytes, with those of a disjoint source, [compare_avx2] is equality of the [len]
    bytes, [zero_avx2] zeroes just the [len] bytes, [add_u64_batch] is the element-wise wrapping
    sum, and reading back a serialised batch of u64 gives the batch. *)
Theorem simd_exact m dst src len a b r data :
  apart dst src len → length a = length b → length a = length r → Forall is_u64 data →
  (∀ x, copy_avx2 m dst src len x =
        if (dst <=? x) && (x <? dst + Z.of_nat len) then m (src + (x - dst)) else m x) ∧
  compare_avx2 m dst src len = bool_decide (load m dst len = load m src len) ∧
  (∀ x, zero_avx2 m dst len x =
        if (dst <=? x) && (x <? dst + Z.of_nat len) then 0 else m x) ∧
  add_u64_batch a b r = Val (zip_with (λ x y, (x + y) mod 2 ^ 64) a b) ∧
  deserialize_u64_batch (serialize_u64_batch data) = data.
Proof.
  intros Hd Hb Hr Hu. split_and!.
  - intros x. by rewrite copy_avx2_exact, move_at.
  - apply compare_avx2_exact.
  - intros x. by rewrite zero_avx2_exact, store_zeros_at.
  - by apply add_u64_batch_exact.
  - by apply deserialize_serialize.
Qed.

(** 35 bytes: one vector and three single bytes. *)
Lemma simd_exact_witness :
  let m : Mem := λ a, a in
  copy_avx2 m 1000 100 35 1034 = 134 ∧ copy_avx2 m 1000 100 35 1035 = 1035 ∧
  compare_avx2 m 1000 100 35 = false ∧
  add_u64_batch [2 ^ 64 - 1] [3] [0] = Val [2].
Proof.
  intros m.
  destruct (simd_exact m 1000 100 35 [2 ^ 64 - 1] [3] [0] []) as (H1 & H2 & _ & H4 & _);
    [right; lia|done|done|constructor|].
  split_and!; [rewrite (H1 1034); reflexivity|rewrite (H1 1035); reflexivity| |exact H4].
  rewrite H2. vm_compute. reflexivity.
Defined.

(** ** How far the routines of hardware_optimizations.rs reach *)

(** The bytes [memcpy_simd_optimized] and [memcmp_simd_optimized] look at. *)
Definition copy_width (len : nat) : nat :=
  if Nat.leb len 4 then len else if Nat.leb len 8 then 8
  else if Nat.leb len 16 then 16 else 32 * ((len + 31) / 32).
Definition compare_width (len : nat) : nat :=
  if Nat.leb 5 len && Nat.leb len 8 then 8 else len.

(** The state after the first [o] bytes were copied. *)
Definition copied (m : Mem) (dst src : Z) (o : nat) (m' : Mem) : Prop :=
  ∀ a, m' a = move m dst src o a.

Lemma copied_0 m dst src : copied m dst src 0 m.
Proof. intros a. rewrite move_at. destruct (_ && _) eqn:?; bool_hyps; [lia|done]. Qed.

Lemma copied_once m dst src n : copied m dst src n (move m dst src n).
Proof. done. Qed.

Lemma copied_step m dst src o n w m' d s :
  apart dst src w → copied m dst src o m' → (o + n ≤ w)%nat →
  d = dst + Z.of_nat o → s = src + Z.of_nat o →
  copied m dst src (o + n) (move m' d s n).
Proof.
  intros Hd Hm Hw -> -> a. apply move_extend; [|done]. unfold apart in *. lia.
Qed.

Lemma copied_memcpy_avx2 m dst src o w m' d s len :
  apart dst src w → copied m dst src o m' →
  (0 < len ≤ 64)%nat → (o + (if Nat.leb len 32 then 32 else 64) ≤ w)%nat →
  d = dst + Z.of_nat o → s = src + Z.of_nat o →
  copied m dst src (o + (if Nat.leb len 32 then 32 else 64)) (memcpy_avx2 m' d s len).
Proof.
  intros Hd Hm Hl Hw -> ->. unfold memcpy_avx2.
  destruct (Nat.leb_spec len 32), (Nat.ltb_spec 32 len); try lia.
  - by apply (copied_step m dst src o 32 w).
  - rewrite (proj2 (Nat.leb_le (len - 32) 32)) by lia.
    replace (o + 64)%nat with ((o + 32) + 32)%nat by lia.
    apply (copied_step m dst src (o + 32) 32 w); [done| |lia..].
    apply (copied_step m dst src o 32 w); [done|done|lia|done..].
Qed.

Lemma copied_large `{Cpu} m dst src len :
  (64 < len)%nat → apart dst src (copy_width len) →
  copied m dst src (copy_width len) (memcpy_avx512_or_fallback m dst src len).
Proof.
  intros Hl. unfold copy_width. repeat (rewrite (proj2 (Nat.leb_gt _ _)) by lia).
  set (w := (32 * ((len + 31) / 32))%nat). intros Hd. unfold memcpy_avx512_or_fallback.
  destruct avx512f.
  - assert (copied m dst src (64 * (len / 64)) (foldl (λ m i, let offset := Z.of_nat (64 * i) in
        move m (dst + offset) (src + offset) 64) m (seq 0 (len / 64)))) as Hc.
    { refine (foldl_seq_inv (λ m' i, copied m dst src (64 * i) m') _ _ m (copied_0 _ _ _) _).
      intros m' i Hm Hi. replace (64 * S i)%nat with (64 * i + 64)%nat by lia.
      apply (copied_step m dst src _ 64 w); [done..| |done|done]. subst w. lia. }
    cbv zeta. destruct (Nat.ltb_spec 0 (len mod 64)).
    + replace w with (64 * (len / 64) + if Nat.leb (len mod 64) 32 then 32 else 64)%nat.
      * apply (copied_memcpy_avx2 _ _ _ _ w); [done|done|lia| |done|done].
        subst w. destruct (Nat.leb_spec (len mod 64) 32); lia.
      * subst w. destruct (Nat.leb_spec (len mod 64) 32); lia.
    + replace w with (64 * (len / 64))%nat by (subst w; lia). done.
  - assert (copied m dst src (32 * (len / 32)) (foldl (λ m i, let offset := Z.of_nat (32 * i) in
        memcpy_avx2 m (dst + offset) (src + offset) 32) m (seq 0 (len / 32)))) as Hc.
    { refine (foldl_seq_inv (λ m' i, copied m dst src (32 * i) m') _ _ m (copied_0 _ _ _) _).
      intros m' i Hm Hi. replace (32 * S i)%nat with (32 * i + 32)%nat by lia.
      apply (copied_memcpy_avx2 _ _ _ _ w _ _ _ 32); [done..|lia| |done|done].
      subst w. change (Nat.leb 32 32) with true. cbv iota. lia. }
    cbv zeta. destruct (Nat.ltb_spec 0 (len mod 32)).
    + unfold memcpy_avx. rewrite (proj2 (Nat.leb_le _ _)) by lia.
      replace w with (32 * (len / 32) + 32)%nat by (subst w; lia).
      apply (copied_step _ _ _ _ _ w); [done|done|subst w; lia|done|done].
    + replace w with (32 * (len / 32))%nat by (subst w; lia). done.
Qed.

Lemma memcpy_copies `{Cpu} m dst src len :
  apart dst src (copy_width len) →
  ∃ m', memcpy_simd_optimized m dst src len = Val m' ∧ copied m dst src (copy_width len) m'.
Proof.
  intros Hd. unfold memcpy_simd_optimized. destruct (Nat.eqb_spec len 0) as [->|].
  { eexists; split; [done|apply copied_0]. }
  destruct (Nat.leb_spec len 8).
  { destruct len as [|[|[|[|[|[|[|[|[|len]]]]]]]]]; try lia;
      (eexists; split; [reflexivity|]);
      try apply (copied_once m dst src).
    apply (copied_step m dst src 2 1 3); [exact Hd|apply copied_once|lia..]. }
  unfold memcpy_sse, memcpy_avx.
  destruct (Nat.leb_spec len 16); [|destruct (Nat.leb_spec len 32); [|destruct (Nat.leb_spec len 64)]];
    (eexists; split; [reflexivity|]).
  1-3: revert Hd; unfold copy_width; repeat (rewrite (proj2 (Nat.leb_gt _ _)) by lia).
  - rewrite (proj2 (Nat.leb_le len 16)) by lia. intros Hd.
    apply copied_once.
  - replace (32 * ((len + 31) / 32))%nat with 32%nat by lia. intros Hd.
    apply copied_once.
  - replace (32 * ((len + 31) / 32))%nat with 64%nat by lia. intros Hd.
    pose proof (copied_memcpy_avx2 m dst src 0 64 m dst src len Hd) as Hc.
    rewrite (proj2 (Nat.leb_gt _ _)) in Hc by lia. apply Hc; [apply copied_0|lia..].
  - by apply copied_large.
Qed.

Lemma memcmp_avx2_eq m a b len :
  (len ≤ 32)%nat → memcmp_avx2 m a b len = same_bytes m a b len.
Proof.
  intros Hl. rewrite <- (masked_eq m a b 32 len Hl). unfold memcmp_avx2.
  destruct (Nat.leb_spec 32 len); [|done]. by replace len with 32%nat by lia.
Qed.

Lemma memcmp_large_eq m a b len : memcmp_large m a b len = same_bytes m a b len.
Proof.
  unfold memcmp_large.
  assert (∀ k, forallb (λ i, let offset := Z.of_nat (i * 32) in
                 memcmp_avx2 m (a + offset) (b + offset) 32) (seq 0 k)
               = same_bytes m a b (32 * k)) as ->.
  { induction k as [|k IH]; [done|]. rewrite seq_S, forallb_app, IH.
    replace (32 * S k)%nat with (32 * k + 32)%nat by lia.
    rewrite same_bytes_app. f_equal. simpl forallb. rewrite andb_true_r, memcmp_avx2_eq by lia.
    f_equal; lia. }
  rewrite (Nat.mul_comm (len / 32) 32). cbv zeta. destruct (Nat.ltb_spec 0 (len mod 32)).
  - rewrite memcmp_avx2_eq, <- same_bytes_app by lia. f_equal. lia.
  - rewrite andb_true_r. f_equal. lia.
Qed.

Lemma memcmp_compares m a b len :
  memcmp_simd_optimized m a b len = Val (same_bytes m a b (compare_width len)).
Proof.
  unfold memcmp_simd_optimized. destruct (Nat.eqb_spec len 0) as [->|]; [done|].
  destruct (Nat.leb_spec len 8).
  { destruct len as [|[|[|[|[|[|[|[|[|len]]]]]]]]]; try lia; try reflexivity.
    change (compare_width 3) with (2 + 1)%nat. by rewrite same_bytes_app. }
  unfold compare_width. rewrite (proj2 (Nat.leb_gt len 8)), andb_false_r by lia.
  destruct (Nat.leb_spec len 16); [|destruct (Nat.leb_spec len 32)]; f_equal.
  - rewrite <- (masked_eq m a b 16 len) by lia. unfold memcmp_sse.
    destruct (Nat.leb_spec 16 len); [|done]. by replace len with 16%nat by lia.
  - apply memcmp_avx2_eq. lia.
  - apply memcmp_large_eq.
Qed.

Lemma copy_width_exact len :
  copy_width len = len ↔ (len ≤ 4)%nat ∨ len = 8%nat ∨ len = 16%nat ∨ (len mod 32 = 0)%nat.
Proof.
  unfold copy_width.
  destruct (Nat.leb_spec len 4), (Nat.leb_spec len 8), (Nat.leb_spec len 16); lia.
Qed.

Lemma copy_width_ge len : (len ≤ copy_width len < len + 32)%nat.
Proof.
  unfold copy_width.
  destruct (Nat.leb_spec len 4), (Nat.leb_spec len 8), (Nat.leb_spec len 16); lia.
Qed.

(** C31. The reach of the size-class routines, with or without AVX-512.  From a source apart from the
    destination, [memcpy_simd_optimized] never panics, copies the [len] bytes, and goes on to
    [copy_width len], at most 31 bytes further: it overwrites bytes past the destination's end
    except when [len] is at most 4, is 8 or 16, or is a multiple of 32.
    [memcmp_simd_optimized] compares [len] bytes, but 8 of them for lengths 5 to 8, so equal
    inputs of 5 bytes may compare unequal.  [memzero_simd_optimized] zeroes just [len] bytes. *)
Theorem simd_ops_reach `{Cpu} m dst src len :
  apart dst src (copy_width len) →
  (∃ m', memcpy_simd_optimized m dst src len = Val m' ∧
     ∀ x, m' x = if (dst <=? x) && (x <? dst + Z.of_nat (copy_width len))
                 then m (src + (x - dst)) else m x) ∧
  (len ≤ copy_width len < len + 32)%nat ∧
  (copy_width len = len ↔
     (len ≤ 4)%nat ∨ len = 8%nat ∨ len = 16%nat ∨ (len mod 32 = 0)%nat) ∧
  memcmp_simd_optimized m dst src len
  = Val (bool_decide (load m dst (compare_width len) = load m src (compare_width len))) ∧
  (∀ x, memzero_simd_optimized m dst len x =
        if (dst <=? x) && (x <? dst + Z.of_nat len) then 0 else m x).
Proof.
  intros Hd. split_and!.
  - destruct (memcpy_copies m dst src len Hd) as (m' & Hm & Hc).
    exists m'. split; [done|]. intros x. by rewrite Hc, move_at.
  - apply copy_width_ge.
  - apply copy_width_ge.
  - apply copy_width_exact.
  - apply memcmp_compares.
  - intros x. by rewrite memzero_exact, store_zeros_at.
Qed.

(** A copy of five bytes replaces the three after them, and two equal strings of five bytes that
    differ in the byte after them are found unequal. *)
Lemma simd_ops_reach_witness :
  let _ := {| avx512f := false |} in
  let m : Mem := λ a, if a <? 100 then 7 else if (a =? 105) || (a =? 205) then a else 1 in
  (∃ m', memcpy_simd_optimized m 0 100 5 = Val m' ∧ m' 4 = 1 ∧ m' 5 = 105 ∧ m' 8 = 7) ∧
  load m 200 5 = load m 100 5 ∧ memcmp_simd_optimized m 200 100 5 = Val false.
Proof.
  intros cpu m.
  destruct (simd_ops_reach m 0 100 5) as ((m' & H1 & H2) & _); [left; by vm_compute|].
  destruct (simd_ops_reach m 200 100 5) as (_ & _ & _ & H4 & _); [right; by vm_compute|].
  split_and!; [exists m'; split_and!; [exact H1|rewrite (H2 4); reflexivity|
    rewrite (H2 5); reflexivity|rewrite (H2 8); reflexivity]|reflexivity|].
  rewrite H4. vm_compute. reflexivity.
Defined.
