(* ===== verification/RingBuffer.v ===== *)
(** * The ring buffer (sdk perf/hardware_optimizations.rs)

    [CacheOptimizedRingBuffer]: a power-of-two array with two ever-growing
    counters.  [try_push] and [try_pop] are given as functions, for one thread,
    and as the atomic steps they consist of, for one producer and one consumer
    whose steps interleave freely ([step]).  A release store is seen by the
    acquire load that follows it; the steps are sequentially consistent. *)

From S2P Require Import Prelude Solana.

#[local] Open Scope Z_scope.
#[local] Open Scope list_scope.

Section ring.
Context `{Build} {T : Type} (default : T).

(* sdk perf/hardware_optimizations.rs:327-333 CacheOptimizedRingBuffer *)
Record Ring := mk_Ring {
  buffer : list T;
  producer_head : Z;
  consumer_tail : Z;
  capacity : Z;
  mask : Z;
}.

(** [usize::is_power_of_two]. *)
Definition is_power_of_two (c : Z) : bool := (0 <? c) && (Z.land c (c - 1) =? 0).

(* sdk perf/hardware_optimizations.rs:337-352 new *)
Definition ring_new (capacity : Z) : result string Ring :=
  if negb (is_power_of_two capacity) then Err "Capacity must be a power of 2"
  else Ok (mk_Ring (replicate (Z.to_nat capacity) default) 0 0 capacity (capacity - 1)).

(** The test for a full ring, with the counters as loaded. *)
Definition full (r : Ring) (head1 tail : Z) : bool :=
  Z.land head1 (mask r) =? Z.land tail (mask r).

(** Where a counter points. *)
Definition slot (r : Ring) (c : Z) : nat := Z.to_nat (Z.land c (mask r)).

Definition set_buffer (b : list T) (r : Ring) : Ring :=
  mk_Ring b (producer_head r) (consumer_tail r) (capacity r) (mask r).
Definition set_head (h : Z) (r : Ring) : Ring :=
  mk_Ring (buffer r) h (consumer_tail r) (capacity r) (mask r).
Definition set_tail (t : Z) (r : Ring) : Ring :=
  mk_Ring (buffer r) (producer_head r) t (capacity r) (mask r).

(* sdk perf/hardware_optimizations.rs:356-369 try_push *)
Definition try_push (item : T) (r : Ring) : exec (bool * Ring) :=
  let current_head := producer_head r in
  let current_tail := consumer_tail r in
  let* head1 := add 64 current_head 1 in
  if full r head1 current_tail then Val (false, r)
  else Val (true, set_head head1 (set_buffer (<[slot r current_head := item]> (buffer r)) r)).

(* sdk perf/hardware_optimizations.rs:373-386 try_pop *)
Definition try_pop (r : Ring) : exec (option T * Ring) :=
  let current_tail := consumer_tail r in
  let current_head := producer_head r in
  if current_tail =? current_head then Val (None, r)
  else
    let* item := unwrap (buffer r !! slot r current_tail) in
    let* tail1 := add 64 current_tail 1 in
    Val (Some item, set_tail tail1 r).

(* sdk perf/hardware_optimizations.rs:390-394 len *)
Definition ring_len (r : Ring) : exec Z :=
  let* n := add 64 (producer_head r) (capacity r) in
  let* d := sub 64 n (consumer_tail r) in
  Val (Z.land d (mask r)).

(* sdk perf/hardware_optimizations.rs:398-400 is_empty *)
Definition ring_is_empty (r : Ring) : bool := producer_head r =? consumer_tail r.

(** ** One producer and one consumer *)

(** Where a [try_push] is: before its first load, with the head loaded, after the test for room,
    after the write, or stopped by an overflow check. *)
Inductive producer : Type :=
| Idle
| HeadLoaded (item : T) (head : Z)
| Room (item : T) (head head1 : Z)
| Written (head1 : Z) (item : T)
| PushPanicked.

(** Where a [try_pop] is: the tail loaded, after the test for an element, after the read. *)
Inductive consumer : Type :=
| Waiting
| TailLoaded (tail : Z)
| Found (tail : Z)
| Taken (item : T) (tail : Z)
| PopPanicked.

(** [pushed] and [popped] record the items of the pushes and pops that went through. *)
Record Spsc := mk_Spsc {
  ring : Ring;
  prod : producer;
  cons_ : consumer;
  pushed : list T;
  popped : list T;
}.

(* sdk perf/hardware_optimizations.rs:356-369 try_push *)
Inductive push_step : Spsc → Spsc → Prop :=
| push_load_head r c item pu po :
    push_step (mk_Spsc r Idle c pu po) (mk_Spsc r (HeadLoaded item (producer_head r)) c pu po)
| push_overflow r c item h pu po :
    add 64 h 1 = Panic →
    push_step (mk_Spsc r (HeadLoaded item h) c pu po) (mk_Spsc r PushPanicked c pu po)
| push_full r c item h h1 pu po :
    add 64 h 1 = Val h1 → full r h1 (consumer_tail r) = true →
    push_step (mk_Spsc r (HeadLoaded item h) c pu po) (mk_Spsc r Idle c pu po)
| push_room r c item h h1 pu po :
    add 64 h 1 = Val h1 → full r h1 (consumer_tail r) = false →
    push_step (mk_Spsc r (HeadLoaded item h) c pu po) (mk_Spsc r (Room item h h1) c pu po)
| push_write r c item h h1 pu po :
    push_step (mk_Spsc r (Room item h h1) c pu po)
              (mk_Spsc (set_buffer (<[slot r h := item]> (buffer r)) r) (Written h1 item) c pu po)
| push_store r c item h1 pu po :
    push_step (mk_Spsc r (Written h1 item) c pu po)
              (mk_Spsc (set_head h1 r) Idle c (pu ++ [item]) po).

(* sdk perf/hardware_optimizations.rs:373-386 try_pop *)
Inductive pop_step : Spsc → Spsc → Prop :=
| pop_load_tail r p pu po :
    pop_step (mk_Spsc r p Waiting pu po) (mk_Spsc r p (TailLoaded (consumer_tail r)) pu po)
| pop_empty r p t pu po :
    t = producer_head r →
    pop_step (mk_Spsc r p (TailLoaded t) pu po) (mk_Spsc r p Waiting pu po)
| pop_found r p t pu po :
    t ≠ producer_head r →
    pop_step (mk_Spsc r p (TailLoaded t) pu po) (mk_Spsc r p (Found t) pu po)
| pop_read r p t item pu po :
    buffer r !! slot r t = Some item →
    pop_step (mk_Spsc r p (Found t) pu po) (mk_Spsc r p (Taken item t) pu po)
| pop_overflow r p t item pu po :
    add 64 t 1 = Panic →
    pop_step (mk_Spsc r p (Taken item t) pu po) (mk_Spsc r p PopPanicked pu po)
| pop_store r p t t1 item pu po :
    add 64 t 1 = Val t1 →
    pop_step (mk_Spsc r p (Taken item t) pu po)
             (mk_Spsc (set_tail t1 r) p Waiting pu (po ++ [item])).

Inductive step : Spsc → Spsc → Prop :=
| step_push s s' : push_step s s' → step s s'
| step_pop s s' : pop_step s s' → step s s'.

(** What an interleaving from a new ring leads to. *)
Definition reachable (c : Z) (s : Spsc) : Prop :=
  ∃ r, ring_new c = Ok r ∧ rtc step (mk_Spsc r Idle Waiting [] []) s.

(** ** Counters and slots *)

(** The slot of the [n]-th item. *)
Definition at_ (k n : Z) : nat := Z.to_nat (n mod 2 ^ k).

Lemma power_of_two c :
  is_u64 c → is_power_of_two c = true → ∃ k, 0 ≤ k < 64 ∧ c = 2 ^ k.
Proof.
  intros Hc Hp. unfold is_power_of_two in Hp. bool_hyps. exists (Z.log2 c).
  pose proof (Z.log2_spec c ltac:(lia)) as [Hl Hu]. pose proof (Z.log2_nonneg c).
  assert (Z.log2 c < 64) by (apply Z.log2_lt_pow2; unfold is_u64, is_uint in Hc; lia).
  split; [lia|]. apply Z.le_antisymm; [|lia]. apply Z.le_ngt. intros Hlt.
  assert (Z.log2 (c - 1) = Z.log2 c) as Hlog by (apply Z.log2_unique; lia).
  assert (Z.testbit (Z.land c (c - 1)) (Z.log2 c) = true) as Hbit.
  { rewrite Z.land_spec, Z.bit_log2 by lia. rewrite <- Hlog. apply Z.bit_log2. lia. }
  replace (Z.land c (c - 1)) with 0 in Hbit by congruence. by rewrite Z.bits_0 in Hbit.
Qed.

Lemma mod_mod_64 n k : 0 ≤ k < 64 → (n mod 2 ^ 64) mod 2 ^ k = n mod 2 ^ k.
Proof.
  intros Hk. replace (2 ^ 64) with (2 ^ k * 2 ^ (64 - k)) by (rewrite <- Z.pow_add_r by lia; f_equal; lia).
  rewrite Z.rem_mul_r by (try apply Z.pow_nonzero; try apply Z.pow_pos_nonneg; lia).
  rewrite Z.mul_comm, Z.mod_add by (apply Z.pow_nonzero; lia). apply Z.mod_mod, Z.pow_nonzero; lia.
Qed.

Lemma land_mask n k : 0 ≤ k < 64 → Z.land (n mod 2 ^ 64) (2 ^ k - 1) = n mod 2 ^ k.
Proof.
  intros Hk. rewrite Z.sub_1_r, <- Z.ones_equiv, Z.land_ones by lia. by apply mod_mod_64.
Qed.

(** Numbers less than [p] apart differ modulo [p]. *)
Lemma mod_apart p a b : 0 < p → a < b < a + p → a mod p ≠ b mod p.
Proof.
  intros Hp Hab Heq. pose proof (Z.div_mod a p ltac:(lia)). pose proof (Z.div_mod b p ltac:(lia)).
  assert (b - a = p * (b / p - a / p)) as Hd by lia.
  generalize dependent (b / p - a / p). intros q Hd.
  destruct (Z.le_gt_cases q 0); [|assert (1 ≤ q) by lia]; nia.
Qed.

Lemma at_apart k a b : 0 ≤ k → a < b < a + 2 ^ k → at_ k a ≠ at_ k b.
Proof.
  intros Hk Hab Heq. pose proof (Z.pow_pos_nonneg 2 k ltac:(lia) Hk).
  apply (mod_apart (2 ^ k) a b); [lia..|]. unfold at_ in Heq.
  pose proof (Z.mod_pos_bound a (2 ^ k) ltac:(lia)).
  pose proof (Z.mod_pos_bound b (2 ^ k) ltac:(lia)). lia.
Qed.

Lemma at_range k n : 0 ≤ k → (at_ k n < Z.to_nat (2 ^ k))%nat.
Proof.
  intros Hk. pose proof (Z.pow_pos_nonneg 2 k ltac:(lia) Hk).
  pose proof (Z.mod_pos_bound n (2 ^ k) ltac:(lia)). unfold at_. lia.
Qed.

Lemma ck_mod_64 z v : ck 64 z = Val v → v = z mod 2 ^ 64.
Proof.
  intros Hck. apply ck_Val_inv in Hck as [Hu [-> | ->]]; [|done|lia].
  symmetry. by apply Z.mod_small.
Qed.

Lemma add_mod_64 n h1 : add 64 (n mod 2 ^ 64) 1 = Val h1 → h1 = (n + 1) mod 2 ^ 64.
Proof. intros ->%ck_mod_64. by rewrite Z.add_mod_idemp_l. Qed.

(** ** The invariant *)

Definition count (l : list T) : Z := Z.of_nat (length l).

Definition producer_ok (k : Z) (s : Spsc) : Prop :=
  let N := count (pushed s) in
  let M := count (popped s) in
  match prod s with
  | Idle | PushPanicked => True
  | HeadLoaded _ h => h = N mod 2 ^ 64
  | Room _ h h1 => h = N mod 2 ^ 64 ∧ h1 = (N + 1) mod 2 ^ 64 ∧ N + 1 - M < 2 ^ k
  | Written h1 item =>
      h1 = (N + 1) mod 2 ^ 64 ∧ N + 1 - M < 2 ^ k ∧ buffer (ring s) !! at_ k N = Some item
  end.

Definition consumer_ok (s : Spsc) : Prop :=
  let N := count (pushed s) in
  let M := count (popped s) in
  match cons_ s with
  | Waiting | PopPanicked => True
  | TailLoaded t => t = M mod 2 ^ 64
  | Found t => t = M mod 2 ^ 64 ∧ M < N
  | Taken item t => t = M mod 2 ^ 64 ∧ M < N ∧ pushed s !! length (popped s) = Some item
  end.

Record inv (k : Z) (s : Spsc) : Prop := mk_inv {
  inv_length : length (buffer (ring s)) = Z.to_nat (2 ^ k);
  inv_mask : mask (ring s) = 2 ^ k - 1;
  inv_capacity : capacity (ring s) = 2 ^ k;
  inv_head : producer_head (ring s) = count (pushed s) mod 2 ^ 64;
  inv_tail : consumer_tail (ring s) = count (popped s) mod 2 ^ 64;
  inv_room : count (popped s) ≤ count (pushed s) < count (popped s) + 2 ^ k;
  inv_fifo : popped s = take (length (popped s)) (pushed s);
  inv_slots i : (length (popped s) ≤ i < length (pushed s))%nat →
                buffer (ring s) !! at_ k (Z.of_nat i) = pushed s !! i;
  inv_producer : producer_ok k s;
  inv_consumer : consumer_ok s;
}.

Lemma slot_at k r n :
  0 ≤ k < 64 → mask r = 2 ^ k - 1 → slot r (n mod 2 ^ 64) = at_ k n.
Proof. intros Hk Hm. unfold slot. by rewrite Hm, land_mask. Qed.

Lemma full_spec k r N M :
  0 ≤ k < 64 → mask r = 2 ^ k - 1 → M ≤ N < M + 2 ^ k →
  full r ((N + 1) mod 2 ^ 64) (M mod 2 ^ 64) = bool_decide (N + 1 = M + 2 ^ k).
Proof.
  intros Hk Hm HN. unfold full. rewrite Hm, !land_mask by done.
  apply eq_true_iff_eq. rewrite Z.eqb_eq, bool_decide_eq_true.
  pose proof (Z.pow_pos_nonneg 2 k ltac:(lia) ltac:(lia)).
  split.
  - intros Heq. destruct (decide (N + 1 = M + 2 ^ k)); [done|].
    destruct (mod_apart (2 ^ k) M (N + 1)); [lia..|done].
  - intros ->. rewrite <- (Z.mul_1_l (2 ^ k)) at 1. by rewrite Z.mod_add by lia.
Qed.

Lemma counters_differ k N M :
  0 ≤ k < 64 → M ≤ N < M + 2 ^ k → M mod 2 ^ 64 ≠ N mod 2 ^ 64 ↔ M < N.
Proof.
  intros Hk HN. pose proof (Z.pow_lt_mono_r 2 k 64 ltac:(lia) ltac:(lia) ltac:(lia)).
  split.
  - intros Hne. destruct (decide (M = N)) as [->|]; [done|lia].
  - intros Hlt. apply mod_apart; lia.
Qed.

Lemma count_app l x : count (l ++ [x]) = count l + 1.
Proof. unfold count. rewrite length_app. simpl. lia. Qed.
(** ** Every step keeps it *)

Lemma ring_inv_new k c r :
  0 ≤ k < 64 → c = 2 ^ k → ring_new c = Ok r → inv k (mk_Spsc r Idle Waiting [] []).
Proof.
  intros Hk -> Hr. unfold ring_new in Hr. destruct (negb _); [done|]. injection Hr as <-.
  pose proof (Z.pow_pos_nonneg 2 k ltac:(lia) ltac:(lia)).
  split; simpl; try done; try apply length_replicate; unfold count; simpl; lia.
Qed.

#[local] Ltac fields :=
  cbv [producer_ok consumer_ok] in *;
  cbn [ring prod cons_ pushed popped buffer producer_head consumer_tail capacity mask
       set_buffer set_head set_tail] in *.

Lemma inv_push k s s' : 0 ≤ k < 64 → inv k s → push_step s s' → inv k s'.
Proof.
  intros Hk Hi Hs. destruct Hi as [Hl Hm Hc Hh Ht Hr Hf Hsl Hp Hco].
  destruct Hs; fields; try (by split).
  - subst h. apply add_mod_64 in H0 as ->. rewrite Ht in H1.
    rewrite (full_spec k) in H1 by done. apply bool_decide_eq_false in H1.
    split; try done. fields. lia.
  - destruct Hp as (-> & -> & Hroom). rewrite (slot_at k) by done. split; try done; fields.
    + by rewrite length_insert.
    + intros i Hi. rewrite list_lookup_insert_ne; [by apply Hsl|].
      apply not_eq_sym, at_apart; [lia|]. unfold count in *. lia.
    + split_and!; [done..|]. apply list_lookup_insert_eq. rewrite Hl. apply at_range. lia.
  - destruct Hp as (-> & Hroom & Hit). split; try done; fields; rewrite ?count_app; try done.
    + lia.
    + rewrite take_app_le; [done|]. unfold count in *. lia.
    + intros i Hi. rewrite length_app in Hi. simpl in Hi.
      destruct (decide (i = length pu)) as [->|].
      * by rewrite list_lookup_middle.
      * rewrite lookup_app_l by lia. apply Hsl. lia.
    + destruct c; try done.
      * destruct Hco as [-> ?]. split; [done|lia].
      * destruct Hco as (-> & ? & Hx). split_and!; [done|lia|].
        rewrite lookup_app_l; [done|]. by eapply lookup_lt_Some.
Qed.

Lemma inv_pop k s s' : 0 ≤ k < 64 → inv k s → pop_step s s' → inv k s'.
Proof.
  intros Hk Hi Hs. destruct Hi as [Hl Hm Hc Hh Ht Hr Hf Hsl Hp Hco].
  destruct Hs; fields; try (by split).
  - subst t. rewrite Hh in H0. split; try done. fields. split; [done|].
    by apply (counters_differ k).
  - destruct Hco as (-> & Hlt). rewrite (slot_at k) in H0 by done. split; try done. fields.
    split_and!; [done..|]. rewrite <- H0. symmetry. apply Hsl. unfold count in *. lia.
  - destruct Hco as (-> & Hlt & Hx). apply add_mod_64 in H0 as ->.
    split; try done; fields; rewrite ?count_app; try done.
    + lia.
    + rewrite length_app. simpl. rewrite Nat.add_1_r, (take_S_r _ _ item) by done. by rewrite <- Hf.
    + intros i Hi. rewrite length_app in Hi. apply Hsl. simpl in Hi. lia.
    + destruct p; try done.
      * destruct Hp as (-> & -> & ?). split_and!; [done..|lia].
      * destruct Hp as (-> & ? & ?). split_and!; [done|lia|done].
Qed.

Lemma ring_inv_reachable c k s :
  0 ≤ k < 64 → c = 2 ^ k → reachable c s → inv k s.
Proof.
  intros Hk Hc (r & Hr & Hs). pose proof (ring_inv_new k c r Hk Hc Hr) as Hi. clear Hr.
  induction Hs as [|s s' s'' Hst _ IH]; [done|]. apply IH.
  destruct Hst; [by eapply inv_push|by eapply inv_pop].
Qed.

Lemma ring_new_ok c r : is_u64 c → ring_new c = Ok r → ∃ k, 0 ≤ k < 64 ∧ c = 2 ^ k.
Proof.
  intros Hc Hr. unfold ring_new in Hr.
  destruct (is_power_of_two c) eqn:Hp; [|done]. by apply power_of_two.
Qed.

(** The slot the consumer reads holds the next item. *)
Lemma slot_reads k s :
  0 ≤ k < 64 → inv k s → count (popped s) < count (pushed s) →
  buffer (ring s) !! slot (ring s) (consumer_tail (ring s)) = pushed s !! length (popped s).
Proof.
  intros Hk Hi Hlt. rewrite (inv_tail k s Hi), (slot_at k) by (done || apply (inv_mask k s Hi)).
  apply (inv_slots k s Hi). unfold count in Hlt. lia.
Qed.

(** C29. A ring shared by one producer and one consumer is a queue, whatever the interleaving of their
    loads, reads, writes and stores: what was popped is a prefix of what was pushed, in order,
    without loss or repetition; fewer items than the capacity wait in it; a consumer that found an
    element can read it and gets the next item of the queue; and the producer never writes the
    slot the consumer reads. *)
Theorem spsc_fifo c s :
  is_u64 c → reachable c s →
  popped s `prefix_of` pushed s ∧
  count (pushed s) < count (popped s) + c ∧
  (∀ t, cons_ s = Found t →
     ∃ item, buffer (ring s) !! slot (ring s) t = Some item ∧
             pushed s !! length (popped s) = Some item) ∧
  (∀ item h h1 t, prod s = Room item h h1 → cons_ s = Found t → slot (ring s) h ≠ slot (ring s) t).
Proof.
  intros Hc Hs. assert (∃ k, 0 ≤ k < 64 ∧ c = 2 ^ k) as (k & Hk & Hck).
  { destruct Hs as (r & Hr & _). by eapply ring_new_ok. }
  pose proof (ring_inv_reachable c k s Hk Hck Hs) as Hi. pose proof (inv_room k s Hi) as Hr.
  pose proof (inv_consumer k s Hi) as Hco. pose proof (inv_producer k s Hi) as Hp.
  unfold consumer_ok in Hco. unfold producer_ok in Hp. split_and!.
  - exists (drop (length (popped s)) (pushed s)).
    rewrite (inv_fifo k s Hi) at 1. symmetry. apply take_drop.
  - lia.
  - intros t Ht. rewrite Ht in Hco. destruct Hco as [-> Hlt].
    rewrite <- (inv_tail k s Hi), (slot_reads k) by done. unfold count in Hlt.
    destruct (lookup_lt_is_Some_2 (pushed s) (length (popped s))) as [item Hitem]; [lia|].
    by exists item.
  - intros item h h1 t Ht Hf. rewrite Ht in Hp. rewrite Hf in Hco.
    destruct Hp as (-> & _ & Hroom), Hco as [-> Hlt].
    rewrite !(slot_at k) by (done || apply (inv_mask k s Hi)).
    apply not_eq_sym, at_apart; lia.
Qed.

(** ** Called one at a time *)

(** The items waiting. *)
Definition queue (s : Spsc) : list T := drop (length (popped s)) (pushed s).

Lemma queue_count k s : inv k s → Z.of_nat (length (queue s)) = count (pushed s) - count (popped s).
Proof.
  intros Hi. pose proof (inv_room k s Hi). unfold queue, count in *. rewrite length_drop. lia.
Qed.

(** The functions run the steps of their thread without interruption. *)
Lemma try_push_run r c item pu po b r' :
  try_push item r = Val (b, r') →
  rtc step (mk_Spsc r Idle c pu po) (mk_Spsc r' Idle c (if b then pu ++ [item] else pu) po).
Proof.
  unfold try_push. destruct (add 64 (producer_head r) 1) as [h1|] eqn:Hadd; [|done].
  cbn [exec_bind]. intros Hp. eapply rtc_l; [apply step_push, (push_load_head r c item)|].
  destruct (full r h1 (consumer_tail r)) eqn:Hfull; injection Hp as <- <-.
  - apply rtc_once, step_push. by eapply push_full.
  - eapply rtc_l; [by eapply step_push, push_room|].
    eapply rtc_l; [by eapply step_push, push_write|].
    apply rtc_once, step_push.
    apply (push_store (set_buffer (<[slot r (producer_head r) := item]> (buffer r)) r)).
Qed.

Lemma try_pop_run r p pu po o r' :
  try_pop r = Val (o, r') →
  rtc step (mk_Spsc r p Waiting pu po) (mk_Spsc r' p Waiting pu (po ++ option_list o)).
Proof.
  unfold try_pop. intros Hp. eapply rtc_l; [apply step_pop, pop_load_tail|].
  destruct (Z.eqb_spec (consumer_tail r) (producer_head r)).
  - injection Hp as <- <-. simpl. rewrite app_nil_r. apply rtc_once, step_pop. by apply pop_empty.
  - destruct (buffer r !! slot r (consumer_tail r)) as [item|] eqn:Hb; [|done]. cbn in Hp.
    destruct (add 64 (consumer_tail r) 1) as [t1|] eqn:Hadd; [|done]. injection Hp as <- <-.
    eapply rtc_l; [by apply step_pop, pop_found|].
    eapply rtc_l; [by eapply step_pop, pop_read|].
    apply rtc_once, step_pop. by apply pop_store.
Qed.

Lemma reachable_more c s s' : reachable c s → rtc step s s' → reachable c s'.
Proof. intros (r & Hr & Hs) Hs'. exists r. split; [done|]. by etrans. Qed.

Lemma push_accepts k s item b r' :
  0 ≤ k < 64 → inv k s → try_push item (ring s) = Val (b, r') →
  b = bool_decide (Z.of_nat (length (queue s)) + 1 < 2 ^ k).
Proof.
  intros Hk Hi. rewrite (queue_count k) by done. unfold try_push. rewrite (inv_head k s Hi).
  destruct (add 64 (count (pushed s) mod 2 ^ 64) 1) as [h1|] eqn:Hadd; [|done].
  apply add_mod_64 in Hadd as ->. cbn [exec_bind]. pose proof (inv_room k s Hi).
  rewrite (inv_tail k s Hi), (full_spec k) by (done || apply (inv_mask k s Hi)).
  case_bool_decide; intros [= <- _]; symmetry; [apply bool_decide_eq_false|apply bool_decide_eq_true];
    lia.
Qed.

Lemma pop_takes k s o r' :
  0 ≤ k < 64 → inv k s → try_pop (ring s) = Val (o, r') → o = head (queue s).
Proof.
  intros Hk Hi. unfold try_pop.
  pose proof (inv_room k s Hi) as Hr. pose proof (counters_differ k _ _ Hk Hr) as Hd.
  assert (head (queue s) = pushed s !! length (popped s)) as ->.
  { unfold queue. by rewrite head_lookup, lookup_drop, Nat.add_0_r. }
  destruct (Z.eqb_spec (consumer_tail (ring s)) (producer_head (ring s))) as [Heq|Hne].
  - rewrite (inv_head k s Hi), (inv_tail k s Hi) in Heq. intros [= <- _]. symmetry. apply lookup_ge_None. unfold count in *.
    destruct (decide (Z.of_nat (length (popped s)) < Z.of_nat (length (pushed s)))); [|lia].
    by apply Hd in Heq.
  - rewrite (inv_head k s Hi), (inv_tail k s Hi) in Hne. apply Hd in Hne.
    rewrite (slot_reads k) by done. destruct (pushed s !! length (popped s)); [|done]. cbn.
    by destruct (add _ _ _); [intros [= <- _]|].
Qed.

Lemma len_counts k s n :
  0 ≤ k < 64 → inv k s → ring_len (ring s) = Val n → n = Z.of_nat (length (queue s)).
Proof.
  intros Hk Hi. rewrite (queue_count k) by done. unfold ring_len.
  destruct (add 64 _ _) as [a|] eqn:Ha; [|done]. cbn [exec_bind].
  destruct (sub 64 _ _) as [d|] eqn:Hd; [|done]. cbn [exec_bind]. intros [= <-].
  apply ck_mod_64 in Ha as ->. apply ck_mod_64 in Hd as ->.
  rewrite (inv_mask k s Hi), land_mask by done.
  rewrite (inv_head k s Hi), (inv_tail k s Hi), (inv_capacity k s Hi).
  pose proof (inv_room k s Hi). pose proof (Z.pow_pos_nonneg 2 k ltac:(lia) ltac:(lia)).
  rewrite Zminus_mod, !mod_mod_64, <- Zminus_mod by done.
  rewrite Zminus_mod, Zplus_mod, !mod_mod_64, Z_mod_same_full, Z.add_0_r by done.
  rewrite Z.mod_mod by lia. rewrite <- Zminus_mod. apply Z.mod_small. lia.
Qed.

Lemma add_wraps a b : overflow_checks = false → add 64 a b ≠ Panic.
Proof. intros Hb. unfold add, ck. rewrite Hb. by destruct (fits _ _). Qed.

Lemma empty_counts k s :
  0 ≤ k < 64 → inv k s → ring_is_empty (ring s) = bool_decide (queue s = []).
Proof.
  intros Hk Hi. pose proof (inv_room k s Hi) as Hr.
  pose proof (counters_differ k _ _ Hk Hr) as Hd. unfold ring_is_empty.
  rewrite (inv_head k s Hi), (inv_tail k s Hi). apply eq_true_iff_eq.
  rewrite Z.eqb_eq, bool_decide_eq_true. unfold queue, count in *. split.
  - intros Heq. apply drop_ge. apply Nat.nlt_ge. intros Hlt. apply (proj2 Hd); [lia|done].
  - intros Hq%(f_equal length). rewrite length_drop in Hq. simpl in Hq.
    by replace (length (pushed s)) with (length (popped s)) by lia.
Qed.

Lemma release_returns k s item :
  0 ≤ k < 64 → inv k s → overflow_checks = false →
  try_push item (ring s) ≠ Panic ∧ try_pop (ring s) ≠ Panic.
Proof.
  intros Hk Hi Hov. split.
  - unfold try_push. destruct (add 64 (producer_head (ring s)) 1) eqn:Ha; cbn.
    + by destruct (full _ _ _).
    + by apply add_wraps in Ha.
  - unfold try_pop. destruct (Z.eqb_spec (consumer_tail (ring s)) (producer_head (ring s)))
      as [|Hne]; [done|].
    pose proof Hne as Hlt. rewrite (inv_head k s Hi), (inv_tail k s Hi) in Hlt.
    apply (counters_differ k _ _ Hk (inv_room k s Hi)) in Hlt. rewrite (slot_reads k) by done.
    destruct (lookup_lt_is_Some_2 (pushed s) (length (popped s))) as [x ->];
      [unfold count in *; lia|]. cbn.
    destruct (add 64 _ 1) eqn:Ha; [done|by apply add_wraps in Ha].
Qed.

(** Called by one thread at a time the ring is a bounded queue, for ever: [try_push] appends the
    item unless [capacity - 1] items wait, when it returns false and changes nothing, [try_pop]
    removes and returns the oldest item, and returns [None] when none waits, [len] and [is_empty]
    count them, and neither panics where overflow is not checked, the counters' wrap-around included. *)
Theorem ring_is_queue c s item :
  is_u64 c → reachable c s → prod s = Idle → cons_ s = Waiting →
  (∀ b r', try_push item (ring s) = Val (b, r') →
     b = bool_decide (Z.of_nat (length (queue s)) + 1 < c) ∧
     ∃ s', reachable c s' ∧ ring s' = r' ∧
           queue s' = if b then queue s ++ [item] else queue s) ∧
  (∀ o r', try_pop (ring s) = Val (o, r') →
     o = head (queue s) ∧ ∃ s', reachable c s' ∧ ring s' = r' ∧ queue s' = tail (queue s)) ∧
  (∀ n, ring_len (ring s) = Val n → n = Z.of_nat (length (queue s))) ∧
  ring_is_empty (ring s) = bool_decide (queue s = []) ∧
  (overflow_checks = false → try_push item (ring s) ≠ Panic ∧ try_pop (ring s) ≠ Panic).
Proof.
  intros Hc Hs Hp Hw. assert (∃ k, 0 ≤ k < 64 ∧ c = 2 ^ k) as (k & Hk & Hck).
  { destruct Hs as (r & Hr & _). by eapply ring_new_ok. }
  pose proof (ring_inv_reachable c k s Hk Hck Hs) as Hi. pose proof (inv_room k s Hi) as Hr.
  destruct s as [r p w pu po]. cbn [prod cons_ ring] in *. subst p w.
  assert (Hlen : (length po ≤ length pu)%nat).
  { unfold count in Hr. cbn in Hr. lia. }
  split_and!.
  - intros b r' Hb. pose proof (push_accepts k _ _ _ _ Hk Hi Hb) as Hok. rewrite <- Hck in Hok.
    split; [done|]. eexists. split; [by eapply reachable_more, try_push_run|].
    split; [done|]. destruct b; [|done]. unfold queue. cbn [popped pushed].
    by rewrite drop_app_le.
  - intros o r' Ho. pose proof (pop_takes k _ _ _ Hk Hi Ho) as ->. split; [done|].
    eexists. split; [by eapply reachable_more, try_pop_run|]. split; [done|].
    unfold queue. cbn [popped pushed]. rewrite length_app.
    destruct (drop (length po) pu) as [|x q] eqn:Hq; cbn [head option_list length].
    + by rewrite Nat.add_0_r.
    + by rewrite <- drop_drop, Hq.
  - intros n. exact (len_counts k _ n Hk Hi).
  - exact (empty_counts k _ Hk Hi).
  - exact (release_returns k _ item Hk Hi).
Qed.
End ring.

(** ** A run *)

Section example.
#[local] Instance checked : Build := {| overflow_checks := true |}.

Definition ring4 : Ring (T := Z) := mk_Ring [0; 0; 0; 0] 0 0 4 3.

Lemma push7 : reachable 0 4
  (mk_Spsc (mk_Ring [7; 0; 0; 0] 1 0 4 3) Idle Waiting [7] []).
Proof.
  exists ring4. split; [reflexivity|]. apply (try_push_run ring4 Waiting 7 [] [] true). reflexivity.
Qed.

(** The consumer is about to read the first item, the producer to write the second. *)
Lemma both_inside : reachable 0 4
  (mk_Spsc (mk_Ring [7; 0; 0; 0] 1 0 4 3) (Room 8 1 2) (Found 0) [7] []).
Proof.
  eapply reachable_more; [apply push7|].
  eapply rtc_l; [apply step_push, (push_load_head _ _ 8)|].
  eapply rtc_l; [apply step_pop, pop_load_tail|].
  eapply rtc_l; [apply step_push; by eapply (push_room _ _ _ _ 2)|].
  eapply rtc_l; [by apply step_pop, pop_found|]. apply rtc_refl.
Qed.

Lemma spsc_fifo_witness :
  reachable 0 4 (mk_Spsc (mk_Ring [7; 0; 0; 0] 1 0 4 3) (Room 8 1 2) (Found 0) [7] []) ∧
  slot ring4 1 ≠ slot ring4 0.
Proof.
  split; [apply both_inside|].
  destruct (spsc_fifo 0 4 _ ltac:(concrete) both_inside) as (_ & _ & _ & Hw).
  apply (Hw 8 1 2 0); reflexivity.
Defined.

Lemma ring_is_queue_witness :
  let s := mk_Spsc (mk_Ring [7; 0; 0; 0] 1 0 4 3) Idle Waiting [7] [] in
  reachable 0 4 s ∧
  (∀ r', try_pop (ring s) = Val (Some 7, r') →
         ∃ s', reachable 0 4 s' ∧ ring s' = r' ∧ queue s' = []).
Proof.
  intros s. split; [apply push7|].
  destruct (ring_is_queue 0 4 s 8 ltac:(concrete) push7 eq_refl eq_refl) as (_ & Hpop & _).
  intros r' Hr. destruct (Hpop _ _ Hr) as [_ H]. exact H.
Defined.
End example.

(** ** The shared counter *)

(* sdk perf/hardware_optimizations.rs:280-283 CacheAlignedCounter *)
Record CacheAlignedCounter := mk_Counter { value : Z }.

(* sdk perf/hardware_optimizations.rs:287-292 new *)
Definition counter_new (initial : Z) : CacheAlignedCounter := mk_Counter initial.
(* sdk perf/hardware_optimizations.rs:295-297 increment *)
Definition increment (c : CacheAlignedCounter) : Z * CacheAlignedCounter :=
  (value c, mk_Counter (bump (value c) 1)).
(* sdk perf/hardware_optimizations.rs:300-302 load *)
Definition counter_load (c : CacheAlignedCounter) : Z := value c.
(* sdk perf/hardware_optimizations.rs:305-307 store *)
Definition counter_store (val : Z) (c : CacheAlignedCounter) : CacheAlignedCounter := mk_Counter val.

(** What [n] increments hand out, in the order in which they happen. *)
Fixpoint increments (n : nat) (c : CacheAlignedCounter) : list Z * CacheAlignedCounter :=
  match n with
  | O => ([], c)
  | S n => let '(x, c) := increment c in let '(l, c) := increments n c in (x :: l, c)
  end.

(** Fewer than 2^64 increments, in whatever order, hand out different numbers. *)
Theorem increments_distinct n c l c' : is_u64 (value c) → Z.of_nat n < 2 ^ 64 →
  increments n c = (l, c') → NoDup l ∧ length l = n.
Proof.
  intros Hc Hn Hi.
  assert (l = map (λ i, bump (value c) (Z.of_nat i)) (seq 0 n)) as ->.
  { clear Hn. revert c l c' Hc Hi. induction n as [|n IH]; intros c l c' Hc Hi; simpl in Hi; [by simplify_eq|].
    destruct (increments n _) as [l' c''] eqn:Hr. simplify_eq. cbn [seq map]. f_equal.
    - by rewrite Z.add_0_r, wrap_small.
    - rewrite (IH _ _ _ (wrap_range 64 (value c + 1) ltac:(lia) : is_u64 (value (mk_Counter _))) Hr).
      rewrite <- seq_shift, map_map.
      apply map_ext. intros i. simpl. rewrite wrap_add. f_equal. lia. }
  split; [|by rewrite length_map, length_seq].
  apply NoDup_fmap_2_strong; [|apply NoDup_seq]. intros i j Hi' Hj Heq.
  apply elem_of_seq in Hi', Hj. unfold wrap, is_uint in *.
  assert ((Z.of_nat i - Z.of_nat j) mod 2 ^ 64 = 0) as Hm.
  { replace (Z.of_nat i - Z.of_nat j) with ((value c + Z.of_nat i) - (value c + Z.of_nat j)) by lia.
    rewrite Zminus_mod, Heq, Z.sub_diag. done. }
  apply Z.mod_divide in Hm as [k Hk]; [|lia]. nia.
Qed.
