(* ===== verification/MemoryPool.v ===== *)
(** * The shared memory pool (sdk perf/zero_copy_io.rs)

    [SharedMemoryPool] hands out the blocks of a region; a bitmap word has a set
    bit for each free block of its 64.  [allocate_block] is given as a function,
    for a caller that nothing interferes with, and as the atomic steps it
    consists of, for any number of threads that allocate and free at the same
    time ([step]); a weak compare-and-exchange may fail without cause.  A block
    is a Rust value that freeing consumes, so a thread frees what it owns.

    The region itself is mapped by the memmap2 crate: [Mmap]. *)

From Stdlib Require Import ZifyNat.
From S2P Require Import Prelude Solana Simd.

#[local] Open Scope Z_scope.
#[local] Open Scope list_scope.

(** [MmapOptions::new().len(n).map_anon()]: the address of the region. *)
Class Mmap := { map_anon : Z → result string Z }.

(* sdk perf/zero_copy_io.rs:32-45 SharedMemoryPool *)
Record SharedMemoryPool := mk_Pool {
  memory_region : Z;
  free_blocks : list Z;
  block_size : Z;
  total_blocks : nat;
  allocator_head : Z;
  pool_id : Z;
}.

(* sdk perf/zero_copy_io.rs:179-188 ZeroCopyBlock *)
Record ZeroCopyBlock := mk_Block {
  b_ptr : Z;
  b_size : Z;
  b_pool_id : Z;
  block_index : nat;
}.

(** The bitmap word that has the blocks from [64 * i] on. *)
Definition initial_bits (bitmap_size total i : nat) : Z :=
  if Nat.eqb i (bitmap_size - 1) && negb (Nat.eqb (total mod 64) 0)
  then 2 ^ Z.of_nat (total mod 64) - 1 else u64_max.

(* sdk perf/zero_copy_io.rs:49-87 new *)
Definition pool_new `{Build, Mmap} (pool_id total_size block_size : Z) :
  exec (result string SharedMemoryPool) :=
  let* n := add 64 block_size 63 in
  let aligned_block_size := Z.land n (Z.lnot 63) in
  let* total_blocks := div total_size aligned_block_size in
  let* len := mul 64 total_blocks aligned_block_size in
  match map_anon len with
  | Err _ => Val (Err "Failed to create memory mapped region")
  | Ok region =>
      let total := Z.to_nat total_blocks in
      let bitmap_size := ((total + 63) / 64)%nat in
      Val (Ok (mk_Pool region (map (initial_bits bitmap_size total) (seq 0 bitmap_size))
                       aligned_block_size total 0 pool_id))
  end.

(** [u64::trailing_zeros]: the lowest set bit, 64 of zero. *)
Definition trailing_zeros (z : Z) : nat :=
  match find (λ i, Z.testbit z (Z.of_nat i)) (seq 0 64) with Some i => i | None => 64 end.

Definition mask_of (bit_pos : nat) : Z := 2 ^ Z.of_nat bit_pos.

Definition block_of (p : SharedMemoryPool) (i : nat) : ZeroCopyBlock :=
  mk_Block (memory_region p + Z.of_nat i * block_size p) (block_size p) (pool_id p) i.

Definition set_bits (l : list Z) (p : SharedMemoryPool) : SharedMemoryPool :=
  mk_Pool (memory_region p) l (block_size p) (total_blocks p) (allocator_head p) (pool_id p).
Definition set_allocator_head (h : Z) (p : SharedMemoryPool) : SharedMemoryPool :=
  mk_Pool (memory_region p) (free_blocks p) (block_size p) (total_blocks p) h (pool_id p).

(** The loop of [allocate_block] over the words from attempt [attempt] on, [n] of them left.  With
    no interference the exchange of a word succeeds at once. *)
(* sdk perf/zero_copy_io.rs:96-149 allocate_block *)
Fixpoint allocate_from (p : SharedMemoryPool) (start_index attempt n : nat) :
  option ZeroCopyBlock * SharedMemoryPool :=
  match n with
  | O => (None, p)
  | S n' =>
      let bitmap_index := ((start_index + attempt) mod length (free_blocks p))%nat in
      let current := nth bitmap_index (free_blocks p) 0 in
      if current =? 0 then allocate_from p start_index (S attempt) n'
      else
        let bit_pos := trailing_zeros current in
        let block_index := (bitmap_index * 64 + bit_pos)%nat in
        if Nat.leb (total_blocks p) block_index
        then allocate_from p start_index (S attempt) n'
        else
          let cleared := Z.land current (Z.lnot (mask_of bit_pos)) in
          (Some (block_of p block_index),
           set_allocator_head ((Z.of_nat block_index + 1) * 64)
             (set_bits (<[bitmap_index := cleared]> (free_blocks p)) p))
  end.

(* sdk perf/zero_copy_io.rs:91-149 allocate_block *)
Definition allocate_block (p : SharedMemoryPool) : option ZeroCopyBlock * SharedMemoryPool :=
  allocate_from p (Z.to_nat (allocator_head p / 64)) 0 (length (free_blocks p)).

(* sdk perf/zero_copy_io.rs:153-167 deallocate_block *)
Definition deallocate_block (p : SharedMemoryPool) (block : ZeroCopyBlock) : SharedMemoryPool :=
  if negb (b_pool_id block =? pool_id p) then p
  else
    let bitmap_index := (block_index block / 64)%nat in
    let bit_pos := (block_index block mod 64)%nat in
    if Nat.ltb bitmap_index (length (free_blocks p))
    then set_bits (<[bitmap_index :=
           Z.lor (nth bitmap_index (free_blocks p) 0) (mask_of bit_pos)]> (free_blocks p)) p
    else p.

(** [u64::count_ones]. *)
Definition count_ones (z : Z) : nat :=
  length (filter (λ i, Z.testbit z (Z.of_nat i) = true) (seq 0 64)).

(* sdk perf/zero_copy_io.rs:170-175 available_blocks *)
Definition available_blocks (p : SharedMemoryPool) : nat :=
  sum_list (map count_ones (free_blocks p)).

(** ** Threads *)

(** Where a thread is in [allocate_block]: outside, about to look at a word, with a word loaded,
    about to set back a bit past the end, or with a block taken and the hint not yet stored. *)
Inductive thread : Type :=
| Idle
| Scan (start_index attempt : nat)
| Exchange (start_index attempt : nat) (current : Z)
| SetBack (start_index attempt bit_pos : nat)
| Took (block_index : nat).

(** The pool and, for each thread, where it is and the blocks it owns. *)
Record Machine := mk_Machine { pool : SharedMemoryPool; threads : list (thread * list nat) }.

Definition word (p : SharedMemoryPool) (start_index attempt : nat) : nat :=
  (start_index + attempt) mod length (free_blocks p).

Definition with_word (p : SharedMemoryPool) (i : nat) (z : Z) : SharedMemoryPool :=
  set_bits (<[i := z]> (free_blocks p)) p.

(** One step of a thread that owns [own]. *)
(* sdk perf/zero_copy_io.rs:91-149 allocate_block *)
Inductive thread_step : SharedMemoryPool → thread * list nat →
    SharedMemoryPool → thread * list nat → Prop :=
| t_start p own :
    thread_step p (Idle, own) p (Scan (Z.to_nat (allocator_head p / 64)) 0, own)
| t_none p own s a :
    (length (free_blocks p) ≤ a)%nat → thread_step p (Scan s a, own) p (Idle, own)
| t_load p own s a current :
    (a < length (free_blocks p))%nat → free_blocks p !! word p s a = Some current →
    thread_step p (Scan s a, own) p (Exchange s a current, own)
| t_next p own s a :
    thread_step p (Exchange s a 0, own) p (Scan s (S a), own)
| t_lost p own s a current new_current :
    current ≠ 0 → free_blocks p !! word p s a = Some new_current →
    thread_step p (Exchange s a current, own) p (Exchange s a new_current, own)
| t_won p own s a current :
    current ≠ 0 → free_blocks p !! word p s a = Some current →
    let bit_pos := trailing_zeros current in
    let block_index := (word p s a * 64 + bit_pos)%nat in
    thread_step p (Exchange s a current, own)
      (with_word p (word p s a) (Z.land current (Z.lnot (mask_of bit_pos))))
      (if Nat.leb (total_blocks p) block_index then SetBack s a bit_pos else Took block_index, own)
| t_set_back p own s a bit_pos current :
    free_blocks p !! word p s a = Some current →
    thread_step p (SetBack s a bit_pos, own)
      (with_word p (word p s a) (Z.lor current (mask_of bit_pos))) (Scan s (S a), own)
| t_done p own b :
    thread_step p (Took b, own)
      (set_allocator_head ((Z.of_nat b + 1) * 64) p) (Idle, own ++ [b])
| t_free p own1 b own2 :
    thread_step p (Idle, own1 ++ b :: own2)
      (deallocate_block p (block_of p b)) (Idle, own1 ++ own2).

Inductive step : Machine → Machine → Prop :=
| step_thread p l i t p' t' :
    l !! i = Some t → thread_step p t p' t' →
    step (mk_Machine p l) (mk_Machine p' (<[i := t']> l)).

(** What [n] threads make of a new pool. *)
Definition reachable `{Build, Mmap} (id total_size size : Z) (n : nat) (s : Machine) : Prop :=
  ∃ p, pool_new id total_size size = Val (Ok p) ∧
       rtc step (mk_Machine p (replicate n (Idle, []))) s.

(** The blocks a thread has, and all of them. *)
Definition held (t : thread * list nat) : list nat :=
  match t.1 with Took b => b :: t.2 | _ => t.2 end.
Definition held_by_all (l : list (thread * list nat)) : list nat := concat (map held l).

(** ** Words and bits *)

(** Block [b] is marked free in the words [l]. *)
Definition marked (l : list Z) (b : nat) : bool :=
  Z.testbit (nth (b / 64) l 0) (Z.of_nat (b mod 64)).

#[local] Ltac Zify.zify_post_hook ::= Z.to_euclidean_division_equations.

Lemma u64_bits z : is_u64 z ↔ 0 ≤ z ∧ ∀ i, 64 ≤ i → Z.testbit z i = false.
Proof.
  split.
  - intros [H0 H1]. split; [done|]. by apply Z.bounded_iff_bits_nonneg.
  - intros [H0 H1]. split; [done|]. by apply Z.bounded_iff_bits_nonneg.
Qed.

Lemma testbit_mask n i : Z.testbit (mask_of n) (Z.of_nat i) = bool_decide (n = i).
Proof.
  unfold mask_of. rewrite Z.pow2_bits_eqb by lia. apply eq_true_iff_eq.
  rewrite Z.eqb_eq, bool_decide_eq_true. lia.
Qed.

Lemma clear_u64 z n : is_u64 z → is_u64 (Z.land z (Z.lnot (mask_of n))).
Proof.
  rewrite !u64_bits. intros [H0 H1]. split; [apply Z.land_nonneg; by left|].
  intros i Hi. by rewrite Z.land_spec, H1.
Qed.

Lemma set_u64 z n : (n < 64)%nat → is_u64 z → is_u64 (Z.lor z (mask_of n)).
Proof.
  rewrite !u64_bits. intros Hn [H0 H1].
  split; [apply Z.lor_nonneg; split; [done|apply Z.pow_nonneg; lia]|].
  intros i Hi. rewrite Z.lor_spec, H1 by done. replace i with (Z.of_nat (Z.to_nat i)) by lia.
  rewrite testbit_mask. apply bool_decide_eq_false. lia.
Qed.

Lemma marked_clear l w n b :
  (w < length l)%nat → (n < 64)%nat →
  marked (<[w := Z.land (nth w l 0) (Z.lnot (mask_of n))]> l) b =
  marked l b && negb (bool_decide (b = w * 64 + n)%nat).
Proof.
  intros Hw Hn. unfold marked. destruct (decide (b / 64 = w)%nat) as [<-|Hne].
  - rewrite (nth_lookup_Some _ _ _ _ (list_lookup_insert_eq _ _ _ Hw)).
    rewrite Z.land_spec, Z.lnot_spec, testbit_mask by lia. f_equal. f_equal.
    apply bool_decide_ext. lia.
  - rewrite !nth_lookup, list_lookup_insert_ne by done.
    rewrite bool_decide_eq_false_2 by lia. by rewrite andb_true_r.
Qed.

Lemma marked_set l w n b :
  (w < length l)%nat → (n < 64)%nat →
  marked (<[w := Z.lor (nth w l 0) (mask_of n)]> l) b =
  marked l b || bool_decide (b = w * 64 + n)%nat.
Proof.
  intros Hw Hn. unfold marked. destruct (decide (b / 64 = w)%nat) as [<-|Hne].
  - rewrite (nth_lookup_Some _ _ _ _ (list_lookup_insert_eq _ _ _ Hw)).
    rewrite Z.lor_spec, testbit_mask. f_equal. apply bool_decide_ext. lia.
  - rewrite !nth_lookup, list_lookup_insert_ne by done.
    rewrite bool_decide_eq_false_2 by lia. by rewrite orb_false_r.
Qed.

Lemma trailing_zeros_spec z :
  is_u64 z → z ≠ 0 →
  (trailing_zeros z < 64)%nat ∧ Z.testbit z (Z.of_nat (trailing_zeros z)) = true.
Proof.
  intros Hz Hn. unfold trailing_zeros. destruct (find _ _) as [i|] eqn:Hf.
  - apply find_some in Hf as [Hi Hb]. apply in_seq in Hi. split; [lia|done].
  - destruct Hn. apply Z.bits_inj_0. intros i. destruct (decide (0 ≤ i < 64)).
    + pose proof (find_none _ _ Hf (Z.to_nat i)) as Hb. cbv beta in Hb.
      rewrite Z2Nat.id in Hb by lia. apply Hb, in_seq. lia.
    + destruct (decide (i < 0)); [by apply Z.testbit_neg_r|]. apply u64_bits in Hz as [_ Hz].
      apply Hz. lia.
Qed.

(** ** Well-formed pools *)

Record pool_ok (p : SharedMemoryPool) : Prop := mk_pool_ok {
  ok_words : Forall is_u64 (free_blocks p);
  ok_length : length (free_blocks p) = ((total_blocks p + 63) / 64)%nat;
  ok_range b : marked (free_blocks p) b = true → (b < total_blocks p)%nat;
}.

(** A word of the pool, by its index. *)
Lemma word_u64 p w : pool_ok p → is_u64 (nth w (free_blocks p) 0).
Proof.
  intros Hp. destruct (decide (w < length (free_blocks p))%nat) as [Hw|Hw].
  - apply Forall_nth; [apply Hp|done].
  - rewrite nth_overflow by lia. uint.
Qed.

Lemma marked_below l b : marked l b = true → (b / 64 < length l)%nat.
Proof.
  intros Hm. apply Nat.nle_gt. intros Hle. unfold marked in Hm.
  by rewrite nth_overflow, Z.bits_0 in Hm.
Qed.

Lemma testbit_max i : Z.testbit u64_max (Z.of_nat i) = bool_decide (i < 64)%nat.
Proof.
  change u64_max with (Z.ones 64). rewrite Z.testbit_ones_nonneg by lia.
  apply eq_true_iff_eq. rewrite Z.ltb_lt, bool_decide_eq_true. lia.
Qed.

Lemma initial_marked total b :
  let n := ((total + 63) / 64)%nat in
  marked (map (initial_bits n total) (seq 0 n)) b = bool_decide (b < total)%nat.
Proof.
  intros n. unfold marked. destruct (decide (b / 64 < n)%nat) as [Hb|Hb].
  - erewrite nth_lookup_Some by (by rewrite list_lookup_fmap, lookup_seq_lt).
    cbn beta. rewrite Nat.add_0_l. unfold initial_bits.
    destruct (Nat.eqb_spec (b / 64) (n - 1)) as [He|He];
      destruct (Nat.eqb_spec (total mod 64) 0); cbn [andb negb].
    2: { rewrite Z.sub_1_r, <- Z.ones_equiv, Z.testbit_ones_nonneg by lia.
         apply eq_true_iff_eq. rewrite Z.ltb_lt, bool_decide_eq_true. subst n. lia. }
    all: rewrite testbit_max; apply bool_decide_ext; subst n; lia.
  - rewrite nth_overflow by (rewrite length_map, length_seq; lia). rewrite Z.bits_0.
    symmetry. apply bool_decide_eq_false. subst n. lia.
Qed.

Lemma pool_new_ok `{Build, Mmap} id total_size size p :
  pool_new id total_size size = Val (Ok p) →
  pool_ok p ∧ ∀ b, marked (free_blocks p) b = bool_decide (b < total_blocks p)%nat.
Proof.
  unfold pool_new. intros Hp.
  destruct (add 64 size 63) as [n|]; [cbn [exec_bind] in Hp|done].
  destruct (div _ _) as [t|]; [cbn [exec_bind] in Hp|done].
  destruct (mul 64 _ _) as [len|]; [cbn [exec_bind] in Hp|done].
  destruct (map_anon len); [|done]. injection Hp as <-. cbn [free_blocks total_blocks].
  split; [|apply initial_marked]. split; cbn [free_blocks total_blocks].
  - apply Forall_map, Forall_forall. intros i _. unfold initial_bits.
    destruct (_ && _); [|uint]. split; [|].
    + pose proof (Z.pow_pos_nonneg 2 (Z.of_nat (Z.to_nat t mod 64)) ltac:(lia) ltac:(lia)). lia.
    + assert (2 ^ Z.of_nat (Z.to_nat t mod 64) ≤ 2 ^ 64) by (apply Z.pow_le_mono_r; lia). lia.
  - by rewrite length_map, length_seq.
  - intros b Hm. pose proof (initial_marked (Z.to_nat t) b) as Hi. cbv zeta in Hi.
    apply (bool_decide_eq_true_1 (b < Z.to_nat t)%nat). by rewrite <- Hi.
Qed.

(** Clearing the lowest bit of a word that is not zero takes a free block. *)
Lemma clear_lowest p w :
  pool_ok p → (w < length (free_blocks p))%nat → nth w (free_blocks p) 0 ≠ 0 →
  let current := nth w (free_blocks p) 0 in
  let b := (w * 64 + trailing_zeros current)%nat in
  let p' := with_word p w (Z.land current (Z.lnot (mask_of (trailing_zeros current)))) in
  pool_ok p' ∧ (b < total_blocks p)%nat ∧ marked (free_blocks p) b = true ∧
  ∀ j, marked (free_blocks p') j = marked (free_blocks p) j && negb (bool_decide (j = b)).
Proof.
  intros Hp Hw Hz current b p'.
  destruct (trailing_zeros_spec current (word_u64 p w Hp) Hz) as [Ht Hb].
  assert (marked (free_blocks p) b = true) as Hm.
  { unfold marked. replace (b / 64)%nat with w by (subst b; lia).
    by replace (b mod 64)%nat with (trailing_zeros current) by (subst b; lia). }
  assert (∀ j, marked (free_blocks p') j = marked (free_blocks p) j && negb (bool_decide (j = b)))
    as Hall by (intros j; by apply marked_clear).
  split_and!; [|by apply Hp|done|done]. split; simpl.
  - apply Forall_insert; [apply Hp|]. by apply clear_u64, word_u64.
  - rewrite length_insert. apply Hp.
  - intros j. fold p'. change (<[w:=_]> _) with (free_blocks p'). rewrite Hall.
    intros [Hj _]%andb_true_iff. by apply Hp.
Qed.

(** Freeing a block of the pool marks it. *)
Lemma deallocate_ok p b :
  pool_ok p → (b < total_blocks p)%nat →
  pool_ok (deallocate_block p (block_of p b)) ∧
  ∀ j, marked (free_blocks (deallocate_block p (block_of p b))) j =
       marked (free_blocks p) j || bool_decide (j = b).
Proof.
  intros Hp Hb. unfold deallocate_block, block_of. cbn [b_pool_id block_index].
  rewrite Z.eqb_refl. cbn [negb].
  assert (b / 64 < length (free_blocks p))%nat as Hl.
  { rewrite (ok_length p Hp). lia. }
  rewrite (proj2 (Nat.ltb_lt _ _) Hl).
  match goal with |- pool_ok ?q ∧ _ => set (p' := q) end.
  assert (∀ j, marked (free_blocks p') j = marked (free_blocks p) j || bool_decide (j = b)) as Hall.
  { intros j. unfold p'. cbn [free_blocks set_bits]. rewrite marked_set by lia. f_equal.
    apply bool_decide_ext. lia. }
  split; [|done]. split.
  - apply Forall_insert; [apply Hp|]. apply set_u64; [lia|by apply word_u64].
  - simpl. rewrite length_insert. apply Hp.
  - intros j. rewrite Hall. intros [Hj|Hj]%orb_true_iff; [by apply Hp|].
    apply bool_decide_eq_true in Hj as ->. done.
Qed.

(** ** One caller *)

(** [p'] is [p] without the free block [b]. *)
Definition took (p : SharedMemoryPool) (b : nat) (p' : SharedMemoryPool) : Prop :=
  pool_ok p' ∧ (b < total_blocks p)%nat ∧ marked (free_blocks p) b = true ∧
  ∀ j, marked (free_blocks p') j = marked (free_blocks p) j && negb (bool_decide (j = b)).

Lemma allocate_from_spec p s a n r p' :
  pool_ok p → allocate_from p s a n = (r, p') →
  match r with
  | Some blk => ∃ b, blk = block_of p b ∧ took p b p'
  | None => p' = p ∧ ∀ i, (a ≤ i < a + n)%nat → nth (word p s i) (free_blocks p) 0 = 0
  end.
Proof.
  intros Hp. revert a; induction n as [|n IH]; intros a; cbn [allocate_from].
  { intros [= <- <-]. split; [done|]. intros; lia. }
  fold (word p s a). destruct (Z.eqb_spec (nth (word p s a) (free_blocks p) 0) 0) as [Hz|Hz].
  - intros Ha. specialize (IH _ Ha). destruct r; [done|]. destruct IH as [-> IH].
    split; [done|]. intros i Hi. destruct (decide (i = a)) as [->|]; [done|]. apply IH. lia.
  - assert (word p s a < length (free_blocks p))%nat as Hw.
    { apply Nat.nle_gt. intros Hle. by rewrite nth_overflow in Hz. }
    destruct (clear_lowest p _ Hp Hw Hz) as (Hok & Hb & Hm & Hall).
    rewrite (proj2 (Nat.leb_gt _ _) Hb). intros [= <- <-].
    eexists; split; [done|]. split_and!; [|done..].
    split; [apply Hok|apply Hok|]. intros b. apply (ok_range _ Hok).
Qed.

(** Every word is looked at. *)
Lemma word_covers p s w :
  (w < length (free_blocks p))%nat → ∃ i, (i < length (free_blocks p))%nat ∧ word p s i = w.
Proof.
  intros Hw. unfold word. set (n := length (free_blocks p)) in *.
  exists ((w + n - s mod n) mod n)%nat. split; [apply Nat.mod_upper_bound; lia|].
  rewrite Nat.Div0.add_mod_idemp_r.
  pose proof (Nat.mod_upper_bound s n ltac:(lia)). pose proof (Nat.div_mod_eq s n).
  replace (s + (w + n - s mod n))%nat with (w + (s / n + 1) * n)%nat by lia.
  rewrite Nat.Div0.mod_add. by apply Nat.mod_small.
Qed.

(** A pool that one caller uses at a time: a new pool has just its [total_blocks] blocks free;
    [allocate_block] returns a block that was free, which starts at a multiple of the block size,
    and makes just it not free; it returns [None] only when no block is free; freeing a block makes
    just it free again. *)
Theorem pool_hands_out_free `{Build, Mmap} id total_size size p0 p b :
  pool_new id total_size size = Val (Ok p0) → pool_ok p → (b < total_blocks p)%nat →
  (∀ j, marked (free_blocks p0) j = bool_decide (j < total_blocks p0)%nat) ∧
  (∀ blk p', allocate_block p = (Some blk, p') →
     ∃ i, blk = block_of p i ∧ took p i p') ∧
  (∀ p', allocate_block p = (None, p') → p' = p ∧ ∀ j, marked (free_blocks p) j = false) ∧
  pool_ok (deallocate_block p (block_of p b)) ∧
  (∀ j, marked (free_blocks (deallocate_block p (block_of p b))) j
        = marked (free_blocks p) j || bool_decide (j = b)).
Proof.
  intros Hn Hp Hb. destruct (pool_new_ok _ _ _ _ Hn) as [_ Hinit].
  destruct (deallocate_ok p b Hp Hb) as [Hd Hm].
  split_and!; [done| | |done|done]; unfold allocate_block.
  - intros blk p' Ha. by apply (allocate_from_spec _ _ _ _ _ _ Hp) in Ha.
  - intros p' Ha. apply (allocate_from_spec _ _ _ _ _ _ Hp) in Ha as [-> Hz]. split; [done|].
    intros j. destruct (marked (free_blocks p) j) eqn:Hj; [|done].
    destruct (word_covers p (Z.to_nat (allocator_head p / 64)) _ (marked_below _ _ Hj))
      as (i & Hi & Hw).
    specialize (Hz i ltac:(lia)). unfold marked in Hj. by rewrite <- Hw, Hz, Z.bits_0 in Hj.
Qed.

(** ** Many threads *)

(** The blocks [l] are held, each once; all others are marked free. *)
Record shared (p : SharedMemoryPool) (l : list nat) : Prop := mk_shared {
  sh_pool : pool_ok p;
  sh_once : NoDup l;
  sh_range : Forall (λ b, (b < total_blocks p)%nat) l;
  sh_free b : marked (free_blocks p) b = true ↔ (b < total_blocks p)%nat ∧ b ∉ l;
}.

#[export] Instance shared_proper p : Proper (Permutation ==> iff) (shared p).
Proof.
  intros l l' Hl. split; intros [H1 H2 H3 H4]; split; try done.
  - by rewrite <- Hl.
  - by rewrite <- Hl.
  - intros b. by rewrite <- Hl.
  - by rewrite Hl.
  - by rewrite Hl.
  - intros b. by rewrite Hl.
Qed.

Lemma shared_take p p' b l :
  shared p l → total_blocks p' = total_blocks p → took p b p' → shared p' (b :: l).
Proof.
  intros [H1 H2 H3 H4] Ht (Hok & Hb & Hm & Hall). split; [done| | |].
  - constructor; [by apply H4 in Hm as [_ ?]|done].
  - rewrite Ht. by constructor.
  - intros j. rewrite Hall, andb_true_iff, H4, negb_true_iff, bool_decide_eq_false, Ht. set_solver.
Qed.

Lemma shared_free p b l :
  shared p (b :: l) → shared (deallocate_block p (block_of p b)) l.
Proof.
  intros [H1 H2 H3 H4]. apply Forall_cons in H3 as [Hb H3]. apply NoDup_cons in H2 as [Hn H2].
  destruct (deallocate_ok p b H1 Hb) as [Hok Hall].
  assert (total_blocks (deallocate_block p (block_of p b)) = total_blocks p) as Ht.
  { unfold deallocate_block. destruct (negb _); [done|]. by destruct (Nat.ltb _ _). }
  split; [done|done|by rewrite Ht|].
  intros j. rewrite Hall, orb_true_iff, H4, bool_decide_eq_true, Ht. set_unfold.
  split; [|destruct (decide (j = b))]; naive_solver.
Qed.

Lemma shared_head p h l : shared (set_allocator_head h p) l ↔ shared p l.
Proof. split; intros [[A B C] D E F]; (split; [by split|exact D|exact E|exact F]). Qed.

Lemma held_insert l i t t' :
  l !! i = Some t → held t ++ held_by_all (<[i := t']> l) ≡ₚ held t' ++ held_by_all l.
Proof.
  unfold held_by_all. revert i; induction l as [|u l IH]; intros [|i] Hi; try done.
  - injection Hi as ->. simpl. solve_Permutation.
  - simpl. specialize (IH i Hi). rewrite !(Permutation_app_swap_app _ (held u)). by f_equiv.
Qed.

Definition inv (s : Machine) : Prop :=
  shared (pool s) (held_by_all (threads s)) ∧
  Forall (λ t, match t.1 with SetBack _ _ _ => False | _ => True end) (threads s).

Lemma inv_step s s' : inv s → step s s' → inv s'.
Proof.
  intros [Hs Hb] Hst. destruct Hst as [p l i t p' t' Hi Ht]. cbn [pool threads] in *.
  pose proof (held_insert l i t t' Hi) as Hp.
  pose proof (Forall_lookup_1 _ _ _ _ Hb Hi) as Hti.
  assert (Hsame : held t' ≡ₚ held t → held_by_all (<[i := t']> l) ≡ₚ held_by_all l).
  { intros He. rewrite He in Hp. by apply Permutation_app_inv_l in Hp. }
  destruct Ht; try (split; [rewrite Hsame by done; assumption|by apply Forall_insert]).
  - assert (nth (word p s a) (free_blocks p) 0 = current) as <- by by apply nth_lookup_Some.
    assert (word p s a < length (free_blocks p))%nat as Hw by by eapply lookup_lt_Some.
    destruct (clear_lowest p _ (sh_pool _ _ Hs) Hw H) as (Hok & Hbl & Hm & Hall).
    repeat match goal with x := _ |- _ => subst x end. rewrite (proj2 (Nat.leb_gt _ _) Hbl) in *.
    split; [|by apply Forall_insert].
    eapply shared_proper; [|eapply shared_take; [exact Hs| |done]; done].
    apply (Permutation_app_inv_l own). rewrite Hp. simpl. by rewrite Permutation_middle.
  - done.
  - split; [|by apply Forall_insert]. cbn [pool threads]. rewrite shared_head, Hsame; [done|].
    simpl. solve_Permutation.
  - split; [|by apply Forall_insert]. cbn [pool threads]. apply shared_free.
    eapply shared_proper; [|exact Hs]. apply (Permutation_app_inv_l (own1 ++ own2)).
    simpl in Hp. rewrite <- Hp. simpl. solve_Permutation.
Qed.

(** ** Counting *)

Definition marked_blocks (l : list Z) : list nat :=
  filter (λ b, marked l b = true) (seq 0 (64 * length l)).

Lemma marked_cons z l b : marked (z :: l) (64 + b) = marked l b.
Proof.
  unfold marked. replace ((64 + b) / 64)%nat with (S (b / 64)) by lia.
  by replace ((64 + b) mod 64)%nat with (b mod 64)%nat by lia.
Qed.

Lemma length_filter_map {A B} (f : A → B) (P : B → Prop) (Q : A → Prop)
    `{∀ x, Decision (P x), ∀ x, Decision (Q x)} l :
  (∀ x, x ∈ l → P (f x) ↔ Q x) → length (filter P (map f l)) = length (filter Q l).
Proof.
  induction l as [|x l IH]; intros Hpq; [done|]. simpl. rewrite !filter_cons.
  assert (length (filter P (map f l)) = length (filter Q l)) as Hl
    by (apply IH; intros; apply Hpq; by right).
  pose proof (Hpq x ltac:(by left)) as Hx.
  destruct (decide (P (f x))), (decide (Q x)); simpl; naive_solver.
Qed.

Lemma available_count p : available_blocks p = length (marked_blocks (free_blocks p)).
Proof.
  unfold available_blocks, marked_blocks. induction (free_blocks p) as [|z l IH]; [done|].
  cbn [length]. rewrite Nat.mul_succ_r, Nat.add_comm, seq_app, list.filter_app, length_app.
  change (sum_list (map count_ones (z :: l))) with (count_ones z + sum_list (map count_ones l))%nat.
  apply (f_equal2 Nat.add).
  - unfold count_ones.
    rewrite <- (map_id (seq 0 64)) at 1. apply length_filter_map. intros b Hb%elem_of_seq.
    unfold marked. replace (b / 64)%nat with 0%nat by lia.
    by replace (b mod 64)%nat with b by lia.
  - rewrite IH, Nat.add_0_l.
    replace (seq 64 (64 * length l)) with (map (Nat.add 64) (seq 0 (64 * length l))).
    + symmetry. apply length_filter_map. intros b _. by rewrite marked_cons.
    + exact (fmap_add_seq 64 0 (64 * length l)).
Qed.

Lemma shared_count p l :
  shared p l → (available_blocks p + length l = total_blocks p)%nat.
Proof.
  intros [H1 H2 H3 H4]. rewrite available_count, <- length_app, <- (length_seq (total_blocks p) 0).
  apply Permutation_length, NoDup_Permutation.
  - apply NoDup_app. split_and!; [apply NoDup_filter, NoDup_seq| |done].
    intros b [Hm _]%list_elem_of_filter. by apply H4 in Hm as [_ ?].
  - apply NoDup_seq.
  - intros b. rewrite elem_of_app, elem_of_seq. unfold marked_blocks.
    rewrite list_elem_of_filter, elem_of_seq, H4. rewrite Forall_forall in H3. split.
    + intros [[[? _] _]|?%H3]; lia.
    + intros [_ Hb]. destruct (decide (b ∈ l)); [by right|left].
      split; [done|]. split; [lia|].
      pose proof (ok_length p H1). lia.
Qed.

Lemma pool_step_const p t p' t' :
  thread_step p t p' t' →
  total_blocks p' = total_blocks p ∧ block_size p' = block_size p ∧
  memory_region p' = memory_region p.
Proof.
  intros Ht. destruct Ht; try done.
  unfold deallocate_block. destruct (negb _); [done|]. by destruct (Nat.ltb _ _).
Qed.

Lemma machine_inv `{Build, Mmap} id total_size size n s :
  reachable id total_size size n s → inv s.
Proof.
  intros (p & Hp & Hs). destruct (pool_new_ok _ _ _ _ Hp) as [Hok Hm].
  assert (inv (mk_Machine p (replicate n (Idle, [])))) as Hi.
  { assert (held_by_all (replicate n (Idle, [])) = []) as Hh.
    { clear. unfold held_by_all. by induction n. }
    split; [|apply Forall_replicate; exact I]. cbn [pool threads]. rewrite Hh.
    split; [done|constructor|constructor|]. intros b. rewrite Hm, bool_decide_eq_true. set_solver. }
  clear Hp Hok Hm. induction Hs; [done|]. eauto using inv_step.
Qed.

(** C30. However many threads allocate and free at once, whatever the order of their loads, exchanges
    and stores: no block is held twice, every block held is one of the pool's, the free blocks
    that [available_blocks] counts are just those that nobody holds, and no thread comes to the
    branch that gives back a block past the end. *)
Theorem no_block_shared `{Build, Mmap} id total_size size n s :
  reachable id total_size size n s →
  NoDup (held_by_all (threads s)) ∧
  (∀ b, b ∈ held_by_all (threads s) → (b < total_blocks (pool s))%nat) ∧
  (available_blocks (pool s) + length (held_by_all (threads s)) = total_blocks (pool s))%nat ∧
  (∀ b, marked (free_blocks (pool s)) b = true ↔
        (b < total_blocks (pool s))%nat ∧ b ∉ held_by_all (threads s)) ∧
  (∀ i st a bit own, threads s !! i ≠ Some (SetBack st a bit, own)).
Proof.
  intros Hs. apply machine_inv in Hs as [Hsh Hb]. split_and!.
  - apply Hsh.
  - apply Forall_forall, Hsh.
  - by apply shared_count.
  - apply Hsh.
  - intros i st a bit own Hi. exact (Forall_lookup_1 _ _ _ _ Hb Hi).
Qed.

(** ** Blocks *)

(* sdk perf/zero_copy_io.rs:217-230 write_bytes *)
Definition write_bytes `{Cpu} (m : Mem) (b : ZeroCopyBlock) (data : Z) (len : nat) :
  exec (result string Mem) :=
  if b_size b <? Z.of_nat len then Val (Err "Data too large for block")
  else let* m' := memcpy_simd_optimized m (b_ptr b) data len in Val (Ok m').

(* sdk perf/zero_copy_io.rs:234-240 read_bytes *)
Definition read_bytes (m : Mem) (b : ZeroCopyBlock) (len : nat) : result string bytes :=
  if b_size b <? Z.of_nat len then Err "Read length exceeds block size"
  else Ok (load m (b_ptr b) len).

Lemma copy_width_in_block len size :
  Z.of_nat len ≤ size → size mod 64 = 0 → Z.of_nat (copy_width len) ≤ size.
Proof.
  intros Hl Hs. pose proof (copy_width_ge len).
  pose proof (copy_width_exact len) as He. destruct (decide (copy_width len = len)); [lia|].
  unfold copy_width in *. destruct (Nat.leb_spec len 4); [lia|].
  destruct (Nat.leb_spec len 8), (Nat.leb_spec len 16); lia.
Qed.

Lemma pool_block_size `{Build, Mmap} id total_size size p :
  pool_new id total_size size = Val (Ok p) → block_size p mod 64 = 0.
Proof.
  unfold pool_new. intros Hp.
  destruct (add 64 size 63) as [n|]; [cbn [exec_bind] in Hp|done].
  destruct (div _ _) as [t|]; [cbn [exec_bind] in Hp|done].
  destruct (mul 64 _ _) as [len|]; [cbn [exec_bind] in Hp|done].
  destruct (map_anon len); [|done]. injection Hp as <-. cbn [block_size].
  change 64 with (2 ^ 6). rewrite <- Z.land_ones by lia. rewrite <- Z.land_assoc.
  apply Z.land_0_r.
Qed.

(** Written data stays in its block.  In a pool's block, [write_bytes] refuses data longer than the
    block; otherwise the block starts with the data, [read_bytes] gives it back, and although the
    copy may run past the data's length no byte outside the block changes. *)
Theorem block_holds_data `{Build, Mmap, Cpu} id total_size size p i m data len :
  pool_new id total_size size = Val (Ok p) →
  apart (b_ptr (block_of p i)) data (copy_width len) →
  let b := block_of p i in
  (b_size b < Z.of_nat len → write_bytes m b data len = Val (Err "Data too large for block")) ∧
  (Z.of_nat len ≤ b_size b →
   ∃ m', write_bytes m b data len = Val (Ok m') ∧
         read_bytes m' b len = Ok (load m data len) ∧
         ∀ x, ¬ b_ptr b ≤ x < b_ptr b + b_size b → m' x = m x).
Proof.
  intros Hp Hd b. change (block_of p i) with b in Hd.
  assert (b_size b mod 64 = 0) as Hs by exact (pool_block_size _ _ _ _ Hp).
  clearbody b. unfold write_bytes, read_bytes. split; intros Hl.
  { by rewrite (proj2 (Z.ltb_lt _ _) Hl). }
  rewrite (proj2 (Z.ltb_ge _ _) Hl). destruct (memcpy_copies m _ data len Hd) as (m' & Hm & Hc).
  exists m'. rewrite Hm. split_and!; [done| |].
  - f_equal. apply list_eq_same_length with len; rewrite ?load_length; [done..|].
    intros j x y Hj. rewrite !load_lookup by done. intros [= <-] [= <-].
    pose proof (copy_width_ge len). rewrite Hc, move_at.
    destruct (_ && _) eqn:Hb; [f_equal; lia|].
    apply andb_false_iff in Hb as [Hb|Hb]; bool_hyps; lia.
  - intros x Hx. rewrite Hc, move_at. destruct (_ && _) eqn:Hb; [|done]. bool_hyps.
    pose proof (copy_width_in_block len (b_size b) Hl Hs) as Hw.
    destruct Hx. lia.
Qed.

(** ** The manager's pools *)

(* sdk perf/zero_copy_io.rs:20-29 ZeroCopyMemoryManager *)
Record ZeroCopyMemoryManager := mk_Manager {
  shared_pools : list SharedMemoryPool;
  blocks_allocated : Z;
  blocks_freed : Z;
}.

(** The pools of [ZeroCopyMemoryManager::new]; the mapped buffers and the DMA channels, which
    allocation does not use, are left out. *)
(* sdk perf/zero_copy_io.rs:571-585 new *)
Definition manager_new `{Build, Mmap} : exec (result string ZeroCopyMemoryManager) :=
  let? p0 := pool_new 0 (1024 * 1024 * 1024) (64 * 1024) in
  let? p1 := pool_new 1 (4 * 1024 * 1024 * 1024) (1024 * 1024) in
  let? p2 := pool_new 2 (8 * 1024 * 1024 * 1024) (16 * 1024 * 1024) in
  Val (Ok (mk_Manager [p0; p1; p2] 0 0)).

(* sdk perf/zero_copy_io.rs:606-622 allocate *)
Definition allocate (mgr : ZeroCopyMemoryManager) (size : Z) :
  exec (option ZeroCopyBlock * ZeroCopyMemoryManager) :=
  let i := if size <=? 64 * 1024 then 0%nat else if size <=? 1024 * 1024 then 1%nat else 2%nat in
  let* p := unwrap (shared_pools mgr !! i) in
  let '(r, p') := allocate_block p in
  let pools := <[i := p']> (shared_pools mgr) in
  Val (r, mk_Manager pools
            (match r with Some _ => wrap 64 (blocks_allocated mgr + 1)
                        | None => blocks_allocated mgr end)
            (blocks_freed mgr)).

(* sdk perf/zero_copy_io.rs:626-632 deallocate *)
Definition deallocate (mgr : ZeroCopyMemoryManager) (block : ZeroCopyBlock) :
  ZeroCopyMemoryManager :=
  let i := Z.to_nat (b_pool_id block) in
  match shared_pools mgr !! i with
  | Some p => mk_Manager (<[i := deallocate_block p block]> (shared_pools mgr))
                (blocks_allocated mgr) (wrap 64 (blocks_freed mgr + 1))
  | None => mgr
  end.

(** The three pools, as [new] sets them up and every operation keeps them. *)
Definition manager_ok (mgr : ZeroCopyMemoryManager) : Prop :=
  map block_size (shared_pools mgr) = [64 * 1024; 1024 * 1024; 16 * 1024 * 1024] ∧
  map pool_id (shared_pools mgr) = [0; 1; 2] ∧ Forall pool_ok (shared_pools mgr).

Lemma pool_new_static `{Build, Mmap} id total_size size p :
  pool_new id total_size size = Val (Ok p) → is_u64 (size + 63) → size mod 64 = 0 →
  block_size p = size ∧ pool_id p = id.
Proof.
  unfold pool_new. intros Hp Hu Hs. rewrite add_ok in Hp by done. cbn [exec_bind] in Hp.
  assert (Z.land (size + 63) (Z.lnot 63) = size) as Ha.
  { change 63 with (Z.ones 6). rewrite <- Z.ldiff_land, Z.ldiff_ones_r, Z.shiftr_div_pow2,
      Z.shiftl_mul_pow2 by lia.
    change (Z.ones 6) with 63. change (2 ^ 6) with 64. lia. }
  rewrite Ha in Hp.
  destruct (div _ _) as [t|]; [cbn [exec_bind] in Hp|done].
  destruct (mul 64 _ _) as [len|]; [cbn [exec_bind] in Hp|done].
  destruct (map_anon len); [|done]. by injection Hp as <-.
Qed.

Lemma manager_new_ok `{Build, Mmap} mgr : manager_new = Val (Ok mgr) → manager_ok mgr.
Proof.
  unfold manager_new. intros Hm.
  apply try_bind_Ok_inv in Hm as (p0 & H0' & Hm). apply try_bind_Ok_inv in Hm as (p1 & H1' & Hm).
  apply try_bind_Ok_inv in Hm as (p2 & H2' & Hm). injection Hm as <-.
  destruct (pool_new_static _ _ _ _ H0') as [Hs0 Hi0]; [by concrete|done|].
  destruct (pool_new_static _ _ _ _ H1') as [Hs1 Hi1]; [by concrete|done|].
  destruct (pool_new_static _ _ _ _ H2') as [Hs2 Hi2]; [by concrete|done|].
  split_and!; simpl; [congruence|congruence|].
  repeat (apply Forall_cons; split; [eapply proj1, pool_new_ok; eassumption|]). constructor.
Qed.

Lemma allocate_static p s a n r p' :
  allocate_from p s a n = (r, p') →
  block_size p' = block_size p ∧ pool_id p' = pool_id p ∧
  match r with Some b => b_size b = block_size p ∧ b_pool_id b = pool_id p | None => True end.
Proof.
  revert a; induction n as [|n IH]; intros a; cbn [allocate_from]; [by intros [= <- <-]|].
  destruct (_ =? 0); [by apply IH|]. destruct (Nat.leb _ _); [by apply IH|]. by intros [= <- <-].
Qed.

(** A block fits what it was asked for, unless that is more than 16 MiB: then it is just 16 MiB. *)
Lemma allocate_fits mgr size r mgr' :
  manager_ok mgr → allocate mgr size = Val (r, mgr') →
  manager_ok mgr' ∧ ∀ blk, r = Some blk → Z.min size (16 * 1024 * 1024) ≤ b_size blk.
Proof.
  intros (Hs & Hi & Hp) Ha. unfold allocate in Ha.
  set (i := if size <=? 64 * 1024 then 0%nat else _) in Ha.
  destruct (shared_pools mgr !! i) as [p|] eqn:Hl; [cbn [exec_bind unwrap] in Ha|done].
  destruct (allocate_block p) as [r' p'] eqn:Hb. injection Ha as -> <-.
  pose proof (Forall_lookup_1 _ _ _ _ Hp Hl) as Hok. unfold allocate_block in Hb.
  destruct (allocate_static _ _ _ _ _ _ Hb) as (Hbs & Hbi & Hr).
  apply (allocate_from_spec _ _ _ _ _ _ Hok) in Hb.
  assert (block_size <$> (shared_pools mgr !! i)
          = [64 * 1024; 1024 * 1024; 16 * 1024 * 1024] !! i) as Hsz.
  { rewrite <- Hs. by rewrite list_lookup_fmap. }
  split.
  - split_and!; cbn [shared_pools].
    + rewrite <- Hs. rewrite (list_fmap_insert block_size _ _ _ : map _ _ = _), Hbs.
      apply list_insert_id. by rewrite list_lookup_fmap, Hl.
    + rewrite <- Hi. rewrite (list_fmap_insert pool_id _ _ _ : map _ _ = _), Hbi.
      apply list_insert_id. by rewrite list_lookup_fmap, Hl.
    + apply Forall_insert; [done|]. destruct r; [by destruct Hb as (? & _ & ? & _)|].
      by destruct Hb as [-> _].
  - intros blk ->. destruct Hr as [-> _]. rewrite Hl in Hsz. subst i. simpl in Hsz.
    destruct (Z.leb_spec size (64 * 1024)); [|destruct (Z.leb_spec size (1024 * 1024))];
      injection Hsz as ->; lia.
Qed.

(** ** A pool of three blocks *)

Section example.
#[local] Instance checked : Build := {| overflow_checks := true |}.
#[local] Instance region : Mmap := {| map_anon := λ _, Ok 4096 |}.
#[local] Instance cpu : Cpu := {| avx512f := true |}.

Definition pool3 : SharedMemoryPool := mk_Pool 4096 [7] 64 3 0 5.

Lemma pool3_new : pool_new 5 192 50 = Val (Ok pool3).
Proof. reflexivity. Qed.

(** The next step is one of thread [n]. *)
#[local] Ltac turn n := eapply rtc_l; [eapply step_thread with (i := n); [reflexivity|]|].

(** Two threads look at the same word; the second loses the exchange and takes the next block. *)
Lemma race : reachable 5 192 50 2
  (mk_Machine (mk_Pool 4096 [4] 64 3 0 5) [(Took 0, []); (Took 1, [])]).
Proof.
  exists pool3. split; [exact pool3_new|].
  turn 0%nat; [apply t_start|].
  turn 1%nat; [apply t_start|].
  turn 0%nat; [apply (t_load _ _ _ _ 7); [simpl; lia|done]|].
  turn 1%nat; [apply (t_load _ _ _ _ 7); [simpl; lia|done]|].
  turn 0%nat; [apply t_won; done|].
  turn 1%nat; [apply (t_lost _ _ _ _ _ 6); done|].
  turn 1%nat; [apply t_won; done|].
  apply rtc_refl.
Qed.

Lemma no_block_shared_witness :
  reachable 5 192 50 2 (mk_Machine (mk_Pool 4096 [4] 64 3 0 5) [(Took 0, []); (Took 1, [])]) ∧
  available_blocks (mk_Pool 4096 [4] 64 3 0 5) = 1%nat.
Proof.
  split; [exact race|]. destruct (no_block_shared 5 192 50 2 _ race) as (_ & _ & Hc & _).
  simpl pool in Hc. simpl length in Hc. simpl total_blocks in Hc. lia.
Defined.

Lemma pool_hands_out_free_witness :
  pool_new 5 192 50 = Val (Ok pool3) ∧
  (∃ i, fst (allocate_block pool3) = Some (block_of pool3 i) ∧ (i < 3)%nat).
Proof.
  destruct (pool_new_ok _ _ _ _ pool3_new) as [Hok _].
  destruct (pool_hands_out_free 5 192 50 pool3 pool3 2 pool3_new Hok ltac:(simpl; lia))
    as (_ & Ha & _).
  split; [exact pool3_new|].
  destruct (Ha (block_of pool3 0) (mk_Pool 4096 [6] 64 3 64 5) eq_refl) as (i & Hi & Ht).
  exists i. split; [rewrite <- Hi; reflexivity|apply Ht].
Defined.

Lemma block_holds_data_witness :
  let m : Mem := λ a, a in
  ∃ m', write_bytes m (block_of pool3 1) 0 5 = Val (Ok m') ∧
        read_bytes m' (block_of pool3 1) 5 = Ok [0; 1; 2; 3; 4].
Proof.
  intros m.
  destruct (block_holds_data 5 192 50 pool3 1 m 0 5 pool3_new) as [_ Hw];
    [right; by vm_compute|].
  destruct Hw as (m' & H1 & H2 & _); [by vm_compute|].
  exists m'. split; [exact H1|]. rewrite H2. reflexivity.
Defined.
End example.
