(* ===== verification/MmapBuffer.v ===== *)
(** * The mapped ring buffer (sdk perf/zero_copy_io.rs)

    [MemoryMappedBuffer] is a circular buffer of bytes in a mapped region.  Its
    copies are [memcpy_simd_optimized] (Simd), which may go past the length it is
    given: where every piece fills its size class ([exact]) the buffer is a
    queue; where one does not, the copy runs over unread bytes or past the
    region's end.

    The calls of one writer and one reader are given as functions, one call at
    a time. *)

From S2P Require Import Prelude Solana Simd.

#[local] Open Scope Z_scope.
#[local] Open Scope list_scope.

(** [mmap] is the region's address. *)
(* sdk perf/zero_copy_io.rs:247-258 MemoryMappedBuffer *)
Record MemoryMappedBuffer := mk_Buffer {
  mmap : Z;
  read_pos : Z;
  write_pos : Z;
  size : Z;
}.

Definition set_write_pos (w : Z) (b : MemoryMappedBuffer) : MemoryMappedBuffer :=
  mk_Buffer (mmap b) (read_pos b) w (size b).
Definition set_read_pos (r : Z) (b : MemoryMappedBuffer) : MemoryMappedBuffer :=
  mk_Buffer (mmap b) r (write_pos b) (size b).

(** [x % self.size]. *)
Definition rem_size (b : MemoryMappedBuffer) (x : Z) : exec Z :=
  if size b =? 0 then Panic else Val (x mod size b).

Section buffer.
Context `{Build, Cpu}.

(** The bytes that [write_data] may add. *)
Definition space (b : MemoryMappedBuffer) : exec Z :=
  if read_pos b <=? write_pos b then
    let* d := sub 64 (write_pos b) (read_pos b) in
    let* e := sub 64 (size b) d in sub 64 e 1
  else let* d := sub 64 (read_pos b) (write_pos b) in sub 64 d 1.

(* sdk perf/zero_copy_io.rs:281-334 write_data *)
Definition write_data (m : Mem) (b : MemoryMappedBuffer) (data : Z) (data_len : nat) :
  exec (result string (Z * MemoryMappedBuffer * Mem)) :=
  let current_write := write_pos b in
  let* available_space := space b in
  if available_space <? Z.of_nat data_len then Val (Err "Insufficient buffer space")
  else
    let write_ptr := mmap b + current_write in
    let* end_ := add 64 current_write (Z.of_nat data_len) in
    let* m' :=
      (if end_ <=? size b then memcpy_simd_optimized m write_ptr data data_len
       else
         let first_part := Z.to_nat (size b - current_write) in
         let second_part := (data_len - first_part)%nat in
         let* m1 := memcpy_simd_optimized m write_ptr data first_part in
         memcpy_simd_optimized m1 (mmap b) (data + Z.of_nat first_part) second_part) in
    let* new_write_pos := rem_size b end_ in
    Val (Ok (Z.of_nat data_len, set_write_pos new_write_pos b, m')).

(* sdk perf/zero_copy_io.rs:397-406 available_data *)
Definition available_data (b : MemoryMappedBuffer) : exec Z :=
  if read_pos b <=? write_pos b then sub 64 (write_pos b) (read_pos b)
  else let* d := sub 64 (read_pos b) (write_pos b) in sub 64 (size b) d.

(* sdk perf/zero_copy_io.rs:338-393 read_data *)
Definition read_data (m : Mem) (b : MemoryMappedBuffer) (buffer : Z) (buffer_len : nat) :
  exec (result string (Z * MemoryMappedBuffer * Mem)) :=
  let current_read := read_pos b in
  let* available := available_data b in
  if available =? 0 then Val (Ok (0, b, m))
  else
    let read_len := Nat.min buffer_len (Z.to_nat available) in
    let read_ptr := mmap b + current_read in
    let* end_ := add 64 current_read (Z.of_nat read_len) in
    let* m' :=
      (if end_ <=? size b then memcpy_simd_optimized m buffer read_ptr read_len
       else
         let first_part := Z.to_nat (size b - current_read) in
         let second_part := (read_len - first_part)%nat in
         let* m1 := memcpy_simd_optimized m buffer read_ptr first_part in
         memcpy_simd_optimized m1 (buffer + Z.of_nat first_part) (mmap b) second_part) in
    let* new_read_pos := rem_size b end_ in
    Val (Ok (Z.of_nat read_len, set_read_pos new_read_pos b, m')).

(* sdk perf/zero_copy_io.rs:410-412 available_space *)
Definition available_space (b : MemoryMappedBuffer) : exec Z :=
  let* d := available_data b in
  let* e := sub 64 (size b) d in sub 64 e 1.

(** ** The queue of unread bytes *)

(** Positions are inside the region, whose size is a [usize]. *)
Record buffer_ok (b : MemoryMappedBuffer) : Prop := mk_ok {
  ok_read : 0 ≤ read_pos b < size b;
  ok_write : 0 ≤ write_pos b < size b;
  ok_size : 2 * size b < 2 ^ 64;
}.

Definition unread (b : MemoryMappedBuffer) : Z :=
  if read_pos b <=? write_pos b then write_pos b - read_pos b
  else size b - (read_pos b - write_pos b).

(** The address of the byte [i] positions after [pos]. *)
Definition byte_at (b : MemoryMappedBuffer) (pos i : Z) : Z := mmap b + (pos + i) mod size b.

Definition contents (m : Mem) (b : MemoryMappedBuffer) : bytes :=
  map (λ i, m (byte_at b (read_pos b) (Z.of_nat i))) (seq 0 (Z.to_nat (unread b))).

(** The copies of [len] bytes from position [pos] fill their size class. *)
Definition exact (b : MemoryMappedBuffer) (pos : Z) (len : nat) : Prop :=
  if pos + Z.of_nat len <=? size b then copy_width len = len
  else
    let first_part := Z.to_nat (size b - pos) in
    copy_width first_part = first_part ∧ copy_width (len - first_part) = (len - first_part)%nat.

(** The region and [n] bytes at [p] do not meet. *)
Definition outside (b : MemoryMappedBuffer) (p : Z) (n : nat) : Prop :=
  p + Z.of_nat n ≤ mmap b ∨ mmap b + size b ≤ p.

Lemma mod_once x s : 0 ≤ x < 2 * s → x mod s = if x <? s then x else x - s.
Proof.
  intros Hx. destruct (Z.ltb_spec x s); [apply Z.mod_small; lia|].
  replace x with (x - s + 1 * s) at 1 by lia. rewrite Z.mod_add by lia. apply Z.mod_small. lia.
Qed.

Lemma unread_range b : buffer_ok b → 0 ≤ unread b < size b.
Proof. intros []. unfold unread. destruct (Z.leb_spec (read_pos b) (write_pos b)); lia. Qed.

Lemma available_data_ok b : buffer_ok b → available_data b = Val (unread b).
Proof.
  intros []. unfold available_data, unread. destruct (Z.leb_spec (read_pos b) (write_pos b)).
  - by rewrite sub_ok by uint.
  - rewrite sub_ok by uint. cbn [exec_bind]. by rewrite sub_ok by uint.
Qed.

Lemma space_ok b : buffer_ok b → space b = Val (size b - unread b - 1).
Proof.
  intros []. unfold space, unread. destruct (Z.leb_spec (read_pos b) (write_pos b)).
  - rewrite sub_ok by uint. cbn [exec_bind]. rewrite sub_ok by uint. cbn [exec_bind].
    by rewrite sub_ok by uint.
  - rewrite sub_ok by uint. cbn [exec_bind]. rewrite sub_ok by uint. f_equal. lia.
Qed.

(** ** Copies around the end *)

(** Copying [len] bytes from position [pos] on, into the region or out of it. *)
Definition copy_in (m : Mem) (b : MemoryMappedBuffer) (pos data : Z) (len : nat) : exec Mem :=
  if pos + Z.of_nat len <=? size b then memcpy_simd_optimized m (mmap b + pos) data len
  else
    let first_part := Z.to_nat (size b - pos) in
    let* m1 := memcpy_simd_optimized m (mmap b + pos) data first_part in
    memcpy_simd_optimized m1 (mmap b) (data + Z.of_nat first_part) (len - first_part).

Definition copy_out (m : Mem) (b : MemoryMappedBuffer) (pos dst : Z) (len : nat) : exec Mem :=
  if pos + Z.of_nat len <=? size b then memcpy_simd_optimized m dst (mmap b + pos) len
  else
    let first_part := Z.to_nat (size b - pos) in
    let* m1 := memcpy_simd_optimized m dst (mmap b + pos) first_part in
    memcpy_simd_optimized m1 (dst + Z.of_nat first_part) (mmap b) (len - first_part).

#[local] Ltac split_ifs :=
  repeat match goal with |- context [if ?c then _ else _] => destruct c eqn:? end; bool_hyps;
  repeat match goal with
  | H : (_ && _)%bool = false |- _ => apply andb_false_iff in H as [H|H]; bool_hyps
  end.

(** Exact copies into the region write just the [len] bytes from [pos] on. *)
Lemma copy_in_exact m b pos data len :
  buffer_ok b → 0 ≤ pos < size b → Z.of_nat len ≤ size b →
  exact b pos len → outside b data len →
  ∃ m', copy_in m b pos data len = Val m' ∧
    (∀ p, 0 ≤ p < size b →
       let j := if pos <=? p then p - pos else p - pos + size b in
       m' (mmap b + p) = if j <? Z.of_nat len then m (data + j) else m (mmap b + p)) ∧
    (∀ x, x < mmap b ∨ mmap b + size b ≤ x → m' x = m x).
Proof.
  intros Hb Hp Hl He Ho. unfold copy_in, exact, outside in *.
  destruct (Z.leb_spec (pos + Z.of_nat len) (size b)).
  - destruct (memcpy_copies m (mmap b + pos) data len) as (m' & Hm & Hc).
    { rewrite He. unfold apart. lia. }
    exists m'. rewrite He in Hc. split_and!; [done| |].
    + intros p Hpr. rewrite Hc, move_at. destruct (Z.leb_spec pos p); split_ifs; try lia; f_equal; lia.
    + intros x Hx. rewrite Hc, move_at. split_ifs; lia || done.
  - destruct He as [He1 He2]. set (k := Z.to_nat (size b - pos)) in *.
    destruct (memcpy_copies m (mmap b + pos) data k) as (m1 & Hm1 & Hc1).
    { rewrite He1. unfold apart. subst k. lia. }
    destruct (memcpy_copies m1 (mmap b) (data + Z.of_nat k) (len - k)) as (m' & Hm & Hc).
    { rewrite He2. unfold apart. subst k. lia. }
    exists m'. rewrite Hm1. cbn [exec_bind]. rewrite He1 in Hc1. rewrite He2 in Hc. split_and!; [done| |].
    + intros p Hpr. rewrite Hc, move_at, !Hc1, !move_at.
      destruct (Z.leb_spec pos p); split_ifs; subst k; try lia; f_equal; lia.
    + intros x Hx. rewrite Hc, move_at, !Hc1, !move_at. split_ifs; subst k; lia || done.
Qed.

(** Exact copies out of the region write just the [len] bytes at [dst]. *)
Lemma copy_out_exact m b pos dst len :
  buffer_ok b → 0 ≤ pos < size b → Z.of_nat len ≤ size b →
  exact b pos len → outside b dst len →
  ∃ m', copy_out m b pos dst len = Val m' ∧
    (∀ i, (i < len)%nat → m' (dst + Z.of_nat i) = m (byte_at b pos (Z.of_nat i))) ∧
    (∀ x, x < dst ∨ dst + Z.of_nat len ≤ x → m' x = m x).
Proof.
  intros Hb Hp Hl He Ho. unfold copy_out, exact, outside, byte_at in *.
  destruct (Z.leb_spec (pos + Z.of_nat len) (size b)).
  - destruct (memcpy_copies m dst (mmap b + pos) len) as (m' & Hm & Hc).
    { rewrite He. unfold apart. lia. }
    exists m'. rewrite He in Hc. split_and!; [done| |].
    + intros i Hi. rewrite mod_once by lia. rewrite Hc, move_at. split_ifs; try lia; f_equal; lia.
    + intros x Hx. rewrite Hc, move_at. split_ifs; lia || done.
  - destruct He as [He1 He2]. set (k := Z.to_nat (size b - pos)) in *.
    destruct (memcpy_copies m dst (mmap b + pos) k) as (m1 & Hm1 & Hc1).
    { rewrite He1. unfold apart. subst k. lia. }
    destruct (memcpy_copies m1 (dst + Z.of_nat k) (mmap b) (len - k)) as (m' & Hm & Hc).
    { rewrite He2. unfold apart. subst k. lia. }
    exists m'. rewrite Hm1. cbn [exec_bind]. rewrite He1 in Hc1. rewrite He2 in Hc. split_and!; [done| |].
    + intros i Hi. rewrite mod_once by lia. rewrite Hc, move_at, !Hc1, !move_at.
      split_ifs; subst k; try lia; f_equal; lia.
    + intros x Hx. rewrite Hc, move_at, !Hc1, !move_at. split_ifs; subst k; lia || done.
Qed.

(** ** What the calls do *)

Lemma write_data_run m b data len :
  buffer_ok b → Z.of_nat len ≤ size b - unread b - 1 →
  write_data m b data len =
  let* m' := copy_in m b (write_pos b) data len in
  Val (Ok (Z.of_nat len, set_write_pos ((write_pos b + Z.of_nat len) mod size b) b, m')).
Proof.
  intros Hb Hl. pose proof (unread_range b Hb). unfold write_data. rewrite space_ok by done.
  cbn [exec_bind]. rewrite (proj2 (Z.ltb_ge _ _) Hl). destruct Hb.
  rewrite add_ok by uint. cbn [exec_bind]. unfold rem_size.
  by rewrite (proj2 (Z.eqb_neq (size b) 0)) by lia.
Qed.

Lemma read_data_run m b dst len :
  buffer_ok b → unread b ≠ 0 →
  let n := Nat.min len (Z.to_nat (unread b)) in
  read_data m b dst len =
  let* m' := copy_out m b (read_pos b) dst n in
  Val (Ok (Z.of_nat n, set_read_pos ((read_pos b + Z.of_nat n) mod size b) b, m')).
Proof.
  intros Hb Hu n. pose proof (unread_range b Hb). unfold read_data.
  rewrite available_data_ok by done. cbn [exec_bind]. rewrite (proj2 (Z.eqb_neq _ _) Hu).
  fold n. destruct Hb. rewrite add_ok by (subst n; uint). cbn [exec_bind]. unfold rem_size.
  by rewrite (proj2 (Z.eqb_neq (size b) 0)) by lia.
Qed.

Lemma contents_length m b : length (contents m b) = Z.to_nat (unread b).
Proof. unfold contents. by rewrite length_map, length_seq. Qed.

Lemma contents_lookup m b i :
  (i < Z.to_nat (unread b))%nat →
  contents m b !! i = Some (m (byte_at b (read_pos b) (Z.of_nat i))).
Proof. intros Hi. unfold contents. by rewrite list_lookup_fmap, lookup_seq_lt. Qed.

Lemma unread_written b n :
  buffer_ok b → 0 ≤ n ≤ size b - unread b - 1 →
  let b' := set_write_pos ((write_pos b + n) mod size b) b in
  buffer_ok b' ∧ unread b' = unread b + n.
Proof.
  intros Hb Hn b'. pose proof (unread_range b Hb) as Hu. destruct Hb. subst b'.
  revert Hn Hu. unfold unread. cbn [read_pos write_pos size set_write_pos].
  destruct (Z.leb_spec (read_pos b) (write_pos b)); intros Hn Hu; rewrite mod_once by lia;
    destruct (Z.ltb_spec (write_pos b + n) (size b));
    (split; [split; cbn [read_pos write_pos size set_write_pos set_read_pos]; lia|split_ifs; lia]).
Qed.

Lemma unread_read b n :
  buffer_ok b → 0 ≤ n ≤ unread b →
  let b' := set_read_pos ((read_pos b + n) mod size b) b in
  buffer_ok b' ∧ unread b' = unread b - n.
Proof.
  intros Hb Hn b'. pose proof (unread_range b Hb) as Hu. destruct Hb. subst b'.
  revert Hn Hu. unfold unread. cbn [read_pos write_pos size set_read_pos].
  destruct (Z.leb_spec (read_pos b) (write_pos b)); intros Hn Hu; rewrite mod_once by lia;
    destruct (Z.ltb_spec (read_pos b + n) (size b));
    (split; [split; cbn [read_pos write_pos size set_write_pos set_read_pos]; lia|split_ifs; lia]).
Qed.

(** How far the [i]-th byte from the reading position on is after the writing position. *)
Lemma after_write b i :
  buffer_ok b → 0 ≤ i < size b →
  let q := (read_pos b + i) mod size b in
  0 ≤ q < size b ∧
  (if write_pos b <=? q then q - write_pos b else q - write_pos b + size b)
  = if i <? unread b then i - unread b + size b else i - unread b.
Proof.
  intros [] Hi. cbv zeta. rewrite mod_once by lia. unfold unread.
  destruct (Z.leb_spec (read_pos b) (write_pos b)), (Z.ltb_spec (read_pos b + i) (size b));
    (split; [lia|]); split_ifs; lia.
Qed.

Lemma write_appends m b data len :
  buffer_ok b → Z.of_nat len ≤ size b - unread b - 1 →
  exact b (write_pos b) len → outside b data len →
  ∃ b' m', write_data m b data len = Val (Ok (Z.of_nat len, b', m')) ∧ buffer_ok b' ∧
           contents m' b' = contents m b ++ load m data len.
Proof.
  intros Hb Hl He Ho. rewrite write_data_run by done. pose proof (unread_range b Hb) as Hu.
  destruct (copy_in_exact m b (write_pos b) data len Hb) as (m' & -> & Hm & _);
    [apply Hb|lia|done|done|].
  destruct (unread_written b (Z.of_nat len) Hb ltac:(lia)) as [Hb' Hu'].
  do 2 eexists. split; [reflexivity|]. split; [exact Hb'|].
  set (b' := set_write_pos _ b) in *.
  apply list_eq_same_length with (Z.to_nat (unread b'));
    rewrite ?length_app, ?contents_length, ?load_length; [lia|done|].
  intros i x y Hi. rewrite contents_lookup by done. intros [= <-].
  unfold byte_at. subst b'. cbn [mmap read_pos size set_write_pos] in *.
  destruct (after_write b (Z.of_nat i) Hb ltac:(lia)) as [Hq Hj].
  rewrite Hm, Hj by done. destruct (Z.ltb_spec (Z.of_nat i) (unread b)).
  - rewrite lookup_app_l, contents_lookup by (rewrite ?contents_length; lia). intros [= <-].
    by rewrite (proj2 (Z.ltb_ge _ _)) by lia.
  - rewrite lookup_app_r, contents_length, load_lookup by (rewrite ?contents_length; lia).
    intros [= <-]. rewrite (proj2 (Z.ltb_lt _ _)) by lia. f_equal. lia.
Qed.

Lemma read_takes m b dst len :
  buffer_ok b →
  let n := Nat.min len (Z.to_nat (unread b)) in
  exact b (read_pos b) n → outside b dst n →
  ∃ b' m', read_data m b dst len = Val (Ok (Z.of_nat n, b', m')) ∧ buffer_ok b' ∧
           load m' dst n = take n (contents m b) ∧ contents m' b' = drop n (contents m b).
Proof.
  intros Hb n He Ho. pose proof (unread_range b Hb) as Hu.
  destruct (decide (unread b = 0)) as [Hz|Hz].
  { unfold read_data. rewrite available_data_ok by done. cbn [exec_bind]. rewrite Hz. cbn.
    subst n. rewrite Hz, Nat.min_0_r. exists b, m. split_and!; done. }
  rewrite read_data_run by done. fold n.
  destruct (copy_out_exact m b (read_pos b) dst n Hb) as (m' & -> & Hm & Hout);
    [apply Hb|subst n; lia|done|done|].
  destruct (unread_read b (Z.of_nat n) Hb ltac:(subst n; lia)) as [Hb' Hu'].
  do 2 eexists. split; [reflexivity|]. split; [exact Hb'|].
  set (b' := set_read_pos _ b) in *. split.
  - apply list_eq_same_length with n;
      rewrite ?length_take, ?load_length, ?contents_length; [subst n; lia|done|].
    intros i x y Hi. rewrite load_lookup, lookup_take_lt, contents_lookup by (subst n; lia).
    rewrite Hm by done. congruence.
  - apply list_eq_same_length with (Z.to_nat (unread b'));
      rewrite ?length_drop, ?contents_length; [lia|done|].
    intros i x y Hi. rewrite lookup_drop, !contents_lookup by lia. intros [= <-] [= <-].
    unfold byte_at. subst b'. cbn [mmap read_pos size set_read_pos].
    rewrite Z.add_mod_idemp_l by lia.
    replace (read_pos b + Z.of_nat n + Z.of_nat i) with (read_pos b + Z.of_nat (n + i)) by lia.
    apply Hout. unfold outside in Ho.
    pose proof (Z.mod_pos_bound (read_pos b + Z.of_nat (n + i)) (size b) ltac:(lia)). lia.
Qed.

(** The mapped buffer is a bounded queue of bytes where the copies fill their size classes: a write
    of more than the free space is refused, a smaller one appends its bytes, and a read moves out
    the oldest bytes, as many as are there and asked for. *)
Theorem buffer_is_queue m b p len :
  buffer_ok b → let n := Nat.min len (Z.to_nat (unread b)) in
  outside b p len →
  (size b - unread b - 1 < Z.of_nat len →
   write_data m b p len = Val (Err "Insufficient buffer space")) ∧
  (Z.of_nat len ≤ size b - unread b - 1 → exact b (write_pos b) len →
   ∃ b' m', write_data m b p len = Val (Ok (Z.of_nat len, b', m')) ∧ buffer_ok b' ∧
            contents m' b' = contents m b ++ load m p len) ∧
  (exact b (read_pos b) n →
   ∃ b' m', read_data m b p len = Val (Ok (Z.of_nat n, b', m')) ∧ buffer_ok b' ∧
            load m' p n = take n (contents m b) ∧ contents m' b' = drop n (contents m b)).
Proof.
  intros Hb n Ho. split_and!.
  - intros Hl. unfold write_data. rewrite space_ok by done. cbn [exec_bind].
    by rewrite (proj2 (Z.ltb_lt _ _) Hl).
  - intros Hl He. by apply write_appends.
  - intros He. apply read_takes; [done|done|]. unfold outside in *. lia.
Qed.

(** A write that does not wrap copies [copy_width len] bytes.  When that reaches the reading
    position ahead, it replaces the oldest unread byte by a byte after the data; when it reaches
    the region's end, it writes past it. *)
Theorem write_overruns m b data len :
  buffer_ok b → 0 < Z.of_nat len ≤ size b - unread b - 1 →
  write_pos b + Z.of_nat len ≤ size b → apart (mmap b + write_pos b) data (copy_width len) →
  ∃ b' m', write_data m b data len = Val (Ok (Z.of_nat len, b', m')) ∧
    (write_pos b < read_pos b < write_pos b + Z.of_nat (copy_width len) →
     head (contents m' b') = Some (m (data + (read_pos b - write_pos b)))) ∧
    (size b < write_pos b + Z.of_nat (copy_width len) →
     m' (mmap b + size b) = m (data + (size b - write_pos b))).
Proof.
  intros Hb Hl Hw Hd. rewrite write_data_run by (done || lia). unfold copy_in.
  rewrite (proj2 (Z.leb_le _ _) Hw).
  destruct (memcpy_copies m _ data len Hd) as (m' & -> & Hc). cbn [exec_bind].
  destruct (unread_written b (Z.of_nat len) Hb ltac:(lia)) as [Hb' Hu'].
  do 2 eexists. split; [reflexivity|]. pose proof (unread_range b Hb) as Hu. split; intros Hov.
  - rewrite head_lookup, contents_lookup by lia. f_equal. unfold byte_at.
    cbn [mmap read_pos size set_write_pos]. rewrite Z.add_0_r, Z.mod_small by apply Hb.
    rewrite Hc, move_at. destruct (_ && _) eqn:Hc'; [f_equal; lia|].
    apply andb_false_iff in Hc' as [?|?]; bool_hyps; lia.
  - rewrite Hc, move_at. destruct Hb. destruct (_ && _) eqn:Hc'; [f_equal; lia|].
    apply andb_false_iff in Hc' as [?|?]; bool_hyps; lia.
Qed.
End buffer.

(** ** Transfers through channels *)

(** [DirectMemoryAccessManager]: the channels, whose queues are never used, the next channel, and
    the statistics. *)
(* sdk perf/zero_copy_io.rs:416-423 DirectMemoryAccessManager *)
Record DmaManager := mk_Dma {
  dma_channels : nat;
  channel_allocator : Z;
  dma_bytes_transferred : Z;
  dma_transfers_completed : Z;
}.

(* sdk perf/zero_copy_io.rs:427-441 new *)
Definition dma_new (num_channels : nat) : DmaManager := mk_Dma num_channels 0 0 0.

Section dma.
Context `{Cpu}.

(** A transfer of a channel is a copy. *)
(* sdk perf/zero_copy_io.rs:488-501 transfer *)
Definition channel_transfer (m : Mem) (src : Z) (src_len : nat) (dst : Z) : exec (Z * Mem) :=
  let* m' := memcpy_simd_optimized m dst src src_len in Val (Z.of_nat src_len, m').

(** The counters wrap in every build; the remainder by zero channels panics. *)
(* sdk perf/zero_copy_io.rs:445-463 dma_transfer *)
Definition dma_transfer (m : Mem) (d : DmaManager) (src : Z) (src_len : nat) (dst : Z)
    (dst_len : nat) : exec (result string (Z * DmaManager * Mem)) :=
  if negb (Nat.eqb src_len dst_len)
  then Val (Err "Source and destination sizes don't match")
  else if Nat.eqb (dma_channels d) 0 then Panic
  else
    let* _ := unwrap (seq 0 (dma_channels d)
                      !! Z.to_nat (channel_allocator d mod Z.of_nat (dma_channels d))) in
    let* r := channel_transfer m src src_len dst in
    let d := mk_Dma (dma_channels d) (wrap 64 (channel_allocator d + 1))
               (wrap 64 (dma_bytes_transferred d + r.1))
               (wrap 64 (dma_transfers_completed d + 1)) in
    Val (Ok (r.1, d, r.2)).

(** A transfer between slices of equal length succeeds and always finds its
    channel, but it moves as many bytes as the size class of the length has:
    when that is more than the length, it writes bytes after the source over
    what follows the destination. *)
Theorem dma_transfer_spec m d src len dst :
  (0 < dma_channels d)%nat → apart dst src (copy_width len) →
  ∃ d' m', dma_transfer m d src len dst len = Val (Ok (Z.of_nat len, d', m'))
    ∧ dma_channels d' = dma_channels d
    ∧ (∀ a, m' a = move m dst src (copy_width len) a)
    ∧ (∀ i, Z.of_nat len ≤ i < Z.of_nat (copy_width len) → m' (dst + i) = m (src + i)).
Proof.
  intros Hd Ha. unfold dma_transfer, channel_transfer. rewrite Nat.eqb_refl. cbn [negb].
  rewrite (proj2 (Nat.eqb_neq (dma_channels d) 0)) by lia.
  assert (Z.to_nat (channel_allocator d mod Z.of_nat (dma_channels d)) < dma_channels d)%nat as Hi
    by (pose proof (Z.mod_pos_bound (channel_allocator d) (Z.of_nat (dma_channels d))); lia).
  rewrite (proj2 (lookup_seq _ _ _ _) (conj eq_refl Hi)). cbn [unwrap exec_bind].
  destruct (memcpy_copies m dst src len Ha) as (m' & -> & Hc). cbn [exec_bind fst snd].
  do 2 eexists. split; [done|]. split; [done|]. split; [exact Hc|].
  intros i Hi'. rewrite Hc, move_at. destruct (_ && _) eqn:Hc'; [f_equal; lia|].
  apply andb_false_iff in Hc' as [?|?]; bool_hyps; lia.
Qed.
End dma.

(** ** Examples *)

Section example.
#[local] Instance checked : Build := {| overflow_checks := true |}.
#[local] Instance cpu : Cpu := {| avx512f := false |}.

(** Bytes that tell where they are. *)
Definition here : Mem := λ a, a.

Lemma buffer_is_queue_witness :
  ∃ b' m', write_data here (mk_Buffer 1000 0 0 64) 0 4 = Val (Ok (4, b', m')) ∧
           contents m' b' = [0; 1; 2; 3].
Proof.
  destruct (buffer_is_queue here (mk_Buffer 1000 0 0 64) 0 4) as (_ & Hw & _);
    [split; simpl; lia|left; simpl; lia|].
  destruct Hw as (b' & m' & H1 & _ & H2); [by vm_compute|reflexivity|].
  exists b', m'. split; [exact H1|]. rewrite H2. reflexivity.
Defined.

(** Five bytes fit before the oldest unread byte, which is at position 10; the copy moves eight. *)
Lemma write_overruns_witness :
  ∃ b' m', write_data here (mk_Buffer 1000 10 4 64) 0 5 = Val (Ok (5, b', m')) ∧
           head (contents here (mk_Buffer 1000 10 4 64)) = Some 1010 ∧
           head (contents m' b') = Some 6.
Proof.
  destruct (write_overruns here (mk_Buffer 1000 10 4 64) 0 5) as (b' & m' & H1 & H2 & _);
    [split; simpl; lia|split; by vm_compute|by vm_compute|right; by vm_compute|].
  exists b', m'. split_and!; [exact H1|reflexivity|]. rewrite H2; [reflexivity|].
  split; by vm_compute.
Defined.
End example.
