(* ===== verification/GasFee.v ===== *)
(** * Gas fee strategies (sdk common/gas_fee_strategy.rs, swqos/mod.rs)

    A table from (service, trade, strategy kind) to fee parameters, held in an
    atomic cell and changed by read-copy-update closures.  Each closure is an
    atomic function on the table; an operation is the list of the closures it
    performs, so its sequential meaning is their composition and a concurrent
    execution is an interleaving of such lists. *)

From Stdlib Require Import SpecFloat.
From S2P Require Import Prelude F64.

(* sdk swqos/mod.rs:89-95 TradeType *)
Inductive TradeType := TCreate | TCreateAndBuy | TBuy | TSell.

(* sdk swqos/mod.rs:109-126 SwqosType *)
Inductive SwqosType :=
| Jito | NextBlock | ZeroSlot | Temporal | Bloxroute | Node1 | FlashBlock | BlockRazor
| Astralane | Stellium | Lightspeed | Soyas | Speedlanding | Helius | SwDefault.

(* sdk common/gas_fee_strategy.rs:6-11 GasFeeStrategyType *)
Inductive GasFeeStrategyType := Normal | LowTipHighCuPrice | HighTipLowCuPrice.

#[export] Instance TradeType_eq_dec : EqDecision TradeType.
Proof. solve_decision. Defined.
#[export] Instance SwqosType_eq_dec : EqDecision SwqosType.
Proof. solve_decision. Defined.
#[export] Instance GasFeeStrategyType_eq_dec : EqDecision GasFeeStrategyType.
Proof. solve_decision. Defined.

(* sdk swqos/mod.rs:151-169 values *)
Definition swqos_values : list SwqosType :=
  [Jito; NextBlock; ZeroSlot; Temporal; Bloxroute; Node1; FlashBlock; BlockRazor;
   Astralane; Stellium; Lightspeed; Soyas; Speedlanding; Helius; SwDefault].

(* sdk common/gas_fee_strategy.rs:13-17 values *)
Definition strategy_values : list GasFeeStrategyType :=
  [Normal; LowTipHighCuPrice; HighTipLowCuPrice].

(** Position of a constructor, for the finite-map keys. *)
Definition swqos_index (s : SwqosType) : nat :=
  match s with
  | Jito => 0 | NextBlock => 1 | ZeroSlot => 2 | Temporal => 3 | Bloxroute => 4 | Node1 => 5
  | FlashBlock => 6 | BlockRazor => 7 | Astralane => 8 | Stellium => 9 | Lightspeed => 10
  | Soyas => 11 | Speedlanding => 12 | Helius => 13 | SwDefault => 14
  end.

#[export] Instance SwqosType_countable : Countable SwqosType.
Proof.
  refine (inj_countable' swqos_index (λ n, default SwDefault (swqos_values !! n)) _).
  by intros [].
Defined.
#[export] Instance TradeType_countable : Countable TradeType.
Proof.
  refine (inj_countable'
    (λ t, match t with TCreate => 0%nat | TCreateAndBuy => 1%nat | TBuy => 2%nat | TSell => 3%nat end)
    (λ n, match n with 0%nat => TCreate | 1%nat => TCreateAndBuy | 2%nat => TBuy | _ => TSell end) _).
  by intros [].
Defined.
#[export] Instance GasFeeStrategyType_countable : Countable GasFeeStrategyType.
Proof.
  refine (inj_countable'
    (λ t, match t with Normal => 0%nat | LowTipHighCuPrice => 1%nat | HighTipLowCuPrice => 2%nat end)
    (λ n, match n with 0%nat => Normal | 1%nat => LowTipHighCuPrice | _ => HighTipLowCuPrice end) _).
  by intros [].
Defined.

(* sdk common/gas_fee_strategy.rs:19-24 GasFeeStrategyValue *)
Record GasFeeStrategyValue := mk_gfs {
  cu_limit : Z;
  cu_price : Z;
  tip : f64;
}.

Abbreviation GasFeeStrategy := (gmap (SwqosType * TradeType * GasFeeStrategyType) GasFeeStrategyValue).

(* sdk common/gas_fee_strategy.rs:33-35 new *)
Definition gfs_new : GasFeeStrategy := ∅.

(** ** Atomic closures and operations *)

(** One [rcu] or [store] of the table. *)
Inductive rcu :=
| Del (s : SwqosType) (t : TradeType) (k : GasFeeStrategyType)
| DelAll (s : SwqosType) (t : TradeType)
| Insert (s : SwqosType) (t : TradeType) (k : GasFeeStrategyType) (v : GasFeeStrategyValue)
| UpdateTip (t : TradeType) (x : f64)
| UpdateCuPrice (t : TradeType) (x : Z)
| Clear.

(** Change every entry of one trade type. *)
Definition update_entries (t : TradeType) (f : GasFeeStrategyValue → GasFeeStrategyValue)
    (m : GasFeeStrategy) : GasFeeStrategy :=
  map_imap (λ key v, Some (if decide (key.1.2 = t) then f v else v)) m.

(* sdk common/gas_fee_strategy.rs:229-264 rcu closures of set, del_all, del *)
Definition apply_rcu (r : rcu) (m : GasFeeStrategy) : GasFeeStrategy :=
  match r with
  | Del s t k => delete (s, t, k) m
  | DelAll s t =>
      delete (s, t, HighTipLowCuPrice)
        (delete (s, t, LowTipHighCuPrice) (delete (s, t, Normal) m))
  | Insert s t k v => <[(s, t, k) := v]> m
  | UpdateTip t x => update_entries t (λ v, mk_gfs (cu_limit v) (cu_price v) x) m
  | UpdateCuPrice t x => update_entries t (λ v, mk_gfs (cu_limit v) x (tip v)) m
  | Clear => ∅
  end.

Definition run_rcus (l : list rcu) (m : GasFeeStrategy) : GasFeeStrategy :=
  foldl (λ m r, apply_rcu r m) m l.

(* sdk common/gas_fee_strategy.rs:253-264 del *)
Definition del (s : SwqosType) (t : TradeType) (k : GasFeeStrategyType) : list rcu := [Del s t k].

(* sdk common/gas_fee_strategy.rs:241-249 del_all *)
Definition del_all (s : SwqosType) (t : TradeType) : list rcu := [DelAll s t].

(* sdk common/gas_fee_strategy.rs:214-237 set *)
Definition gfs_set (s : SwqosType) (t : TradeType) (k : GasFeeStrategyType)
    (cu_limit cu_price : Z) (tip : f64) : list rcu :=
  (if decide (k = Normal) then del s t HighTipLowCuPrice ++ del s t LowTipHighCuPrice
   else del s t Normal)
  ++ [Insert s t k (mk_gfs cu_limit cu_price tip)].

(* sdk common/gas_fee_strategy.rs:39-85 set_global_fee_strategy *)
Definition set_global_fee_strategy (buy_cu_limit sell_cu_limit buy_cu_price sell_cu_price : Z)
    (buy_tip sell_tip : f64) : list rcu :=
  concat (map (λ s, if decide (s = SwDefault) then []
                    else gfs_set s TBuy Normal buy_cu_limit buy_cu_price buy_tip
                         ++ gfs_set s TSell Normal sell_cu_limit sell_cu_price sell_tip)
              swqos_values)
  ++ gfs_set SwDefault TBuy Normal buy_cu_limit buy_cu_price f_zero
  ++ gfs_set SwDefault TSell Normal sell_cu_limit sell_cu_price f_zero.

(** Body shared by the two high-low operations. *)
Definition high_low (s : SwqosType) (t : TradeType) (cu_limit low_cu_price high_cu_price : Z)
    (low_tip high_tip : f64) : list rcu :=
  del s t Normal
  ++ gfs_set s t LowTipHighCuPrice cu_limit high_cu_price low_tip
  ++ gfs_set s t HighTipLowCuPrice cu_limit low_cu_price high_tip.

(* sdk common/gas_fee_strategy.rs:89-118 set_high_low_fee_strategies *)
Definition set_high_low_fee_strategies (l : list SwqosType) (t : TradeType)
    (cu_limit low_cu_price high_cu_price : Z) (low_tip high_tip : f64) : list rcu :=
  concat (map (λ s, high_low s t cu_limit low_cu_price high_cu_price low_tip high_tip) l).

(* sdk common/gas_fee_strategy.rs:122-152 set_high_low_fee_strategy *)
Definition set_high_low_fee_strategy (s : SwqosType) (t : TradeType)
    (cu_limit low_cu_price high_cu_price : Z) (low_tip high_tip : f64) : list rcu :=
  if decide (s = SwDefault) then []
  else high_low s t cu_limit low_cu_price high_cu_price low_tip high_tip.

(* sdk common/gas_fee_strategy.rs:186-212 set_normal_fee_strategy *)
Definition set_normal_fee_strategy (s : SwqosType) (cu_limit cu_price : Z)
    (buy_tip sell_tip : f64) : list rcu :=
  del_all s TBuy ++ del_all s TSell
  ++ gfs_set s TBuy Normal cu_limit cu_price buy_tip
  ++ gfs_set s TSell Normal cu_limit cu_price sell_tip.

(* sdk common/gas_fee_strategy.rs:156-184 set_normal_fee_strategies *)
Definition set_normal_fee_strategies (l : list SwqosType) (cu_limit cu_price : Z)
    (buy_tip sell_tip : f64) : list rcu :=
  concat (map (λ s, set_normal_fee_strategy s cu_limit cu_price buy_tip sell_tip) l).

(* sdk common/gas_fee_strategy.rs:294-296 clear *)
Definition clear : list rcu := [Clear].
(* sdk common/gas_fee_strategy.rs:300-310 update_buy_tip *)
Definition update_buy_tip (x : f64) : list rcu := [UpdateTip TBuy x].
(* sdk common/gas_fee_strategy.rs:314-324 update_sell_tip *)
Definition update_sell_tip (x : f64) : list rcu := [UpdateTip TSell x].
(* sdk common/gas_fee_strategy.rs:328-338 update_buy_cu_price *)
Definition update_buy_cu_price (x : Z) : list rcu := [UpdateCuPrice TBuy x].
(* sdk common/gas_fee_strategy.rs:342-352 update_sell_cu_price *)
Definition update_sell_cu_price (x : Z) : list rcu := [UpdateCuPrice TSell x].

(** The order in which a hash set of services is iterated: any enumeration
    without repetition. *)
Class HashOrder := {
  hash_order : gset SwqosType → list SwqosType;
  hash_order_perm X : hash_order X ≡ₚ elements X;
}.

(* sdk common/gas_fee_strategy.rs:268-290 get_strategies *)
Definition get_strategies `{HashOrder} (m : GasFeeStrategy) (t : TradeType) :
    list (SwqosType * GasFeeStrategyType * GasFeeStrategyValue) :=
  let swqos_types : gset SwqosType :=
    list_to_set (map (λ e, e.1.1.1) (filter (λ e, e.1.1.2 = t) (map_to_list m))) in
  concat (map (λ s, omap (λ k, (λ v, (s, k, v)) <$> m !! (s, t, k)) strategy_values)
              (hash_order swqos_types)).

(** ** Invariant: a normal strategy excludes the high-low pair *)

Definition exclusive (m : GasFeeStrategy) : Prop :=
  ∀ s t k v v', m !! (s, t, Normal) = Some v → m !! (s, t, k) = Some v' → k = Normal.

(** The public operations, closed under composition. *)
Inductive operation : list rcu → Prop :=
| op_nil : operation []
| op_app l l' : operation l → operation l' → operation (l ++ l')
| op_set s t k a b c : operation (gfs_set s t k a b c)
| op_del s t k : operation (del s t k)
| op_del_all s t : operation (del_all s t)
| op_clear : operation clear
| op_tip t x : operation [UpdateTip t x]
| op_price t x : operation [UpdateCuPrice t x].

Lemma run_app l l' m : run_rcus (l ++ l') m = run_rcus l' (run_rcus l m).
Proof. apply foldl_app. Qed.

Lemma lookup_update t f m key :
  update_entries t f m !! key = (λ v, if decide (key.1.2 = t) then f v else v) <$> m !! key.
Proof.
  unfold update_entries. rewrite map_lookup_imap.
  by destruct (m !! key).
Qed.

Lemma exclusive_delete m key : exclusive m → exclusive (delete key m).
Proof.
  intros He s t k v v' H1 H2. apply lookup_delete_Some in H1 as [_ H1], H2 as [_ H2]. eauto.
Qed.

Lemma exclusive_update t f m : exclusive m → exclusive (update_entries t f m).
Proof.
  intros He s t' k v v'. rewrite !lookup_update, !fmap_Some.
  intros (w & Hw & _) (w' & Hw' & _). eauto.
Qed.

Lemma exclusive_set s t k a b c m : exclusive m → exclusive (run_rcus (gfs_set s t k a b c) m).
Proof.
  intros He s' t' k' v v'. unfold gfs_set, del. case_decide as Hk; simpl.
  - subst k. intros H1 H2. apply lookup_insert_Some in H1, H2.
    destruct H2 as [[[= -> -> ->] _]|[Hne H2]]; [done|].
    rewrite !lookup_delete_Some in H2. destruct H2 as (Hlo & Hhi & H2).
    destruct H1 as [[[= -> ->] _]|[_ H1]].
    + destruct k'; congruence.
    + rewrite !lookup_delete_Some in H1. destruct H1 as (_ & _ & H1). eauto.
  - intros H1 H2. apply lookup_insert_Some in H1, H2.
    destruct H1 as [[[= -> -> ->] _]|[_ H1]]; [done|].
    apply lookup_delete_Some in H1 as [Hn H1].
    destruct H2 as [[[= -> -> ->] _]|[_ H2]]; [by destruct Hn|].
    apply lookup_delete_Some in H2 as [_ H2]. eauto.
Qed.

(** C22.  Every operation, in any sequential composition, keeps the table
    exclusive: a service has a normal strategy for a trade, or the high-low
    pair, never both. *)
Theorem operations_keep_exclusive l m :
  operation l → exclusive m → exclusive (run_rcus l m).
Proof.
  intros Ho. revert m.
  induction Ho as [|l l' _ IH1 _ IH2|s t k a b c|s t k|s t| |t x|t x]; intros m He.
  - done.
  - rewrite run_app. auto.
  - by apply exclusive_set.
  - by apply exclusive_delete.
  - simpl. by do 3 apply exclusive_delete.
  - intros s t k v v' H1. unfold clear in H1. simpl in H1. by rewrite lookup_empty in H1.
  - by apply exclusive_update.
  - by apply exclusive_update.
Qed.

(** The compound operations are operations. *)
Lemma operation_concat {A} (f : A → list rcu) l :
  (∀ a, operation (f a)) → operation (concat (map f l)).
Proof. intros Hf. induction l; simpl; [constructor|by apply op_app]. Qed.

Lemma operation_global a b c d e f : operation (set_global_fee_strategy a b c d e f).
Proof.
  unfold set_global_fee_strategy. apply op_app; [|apply op_app; apply op_set].
  apply operation_concat. intros s. case_decide; [constructor|].
  apply op_app; apply op_set.
Qed.

Lemma operation_high_low s t a b c d e : operation (high_low s t a b c d e).
Proof. unfold high_low. repeat first [apply op_set | apply op_del | apply op_app]. Qed.

Lemma operation_normal s a b c d : operation (set_normal_fee_strategy s a b c d).
Proof.
  unfold set_normal_fee_strategy. repeat first [apply op_set | apply op_del_all | apply op_app].
Qed.

#[export] Hint Resolve operation_global operation_high_low operation_normal operation_concat
  op_app op_set : rust.

(** ** Sequential meaning *)

Lemma set_lookup s t k a b c m s' t' k' :
  run_rcus (gfs_set s t k a b c) m !! (s', t', k') =
    if decide ((s', t', k') = (s, t, k)) then Some (mk_gfs a b c)
    else if decide (s' = s ∧ t' = t ∧ (k = Normal ↔ k' ≠ Normal)) then None
    else m !! (s', t', k').
Proof.
  unfold gfs_set, del. case_decide as Hk; simpl.
  - subst k. case_decide as He; [inversion He; subst; by rewrite lookup_insert_eq|].
    rewrite lookup_insert_ne by congruence. case_decide as Hd.
    + destruct Hd as (-> & -> & [Hx _]). specialize (Hx eq_refl).
      destruct k'; [done|by rewrite lookup_delete_eq|].
      rewrite lookup_delete_ne by congruence. by rewrite lookup_delete_eq.
    + rewrite !lookup_delete_ne; [done|intros [= -> -> <-]; naive_solver..].
  - case_decide as He; [inversion He; subst; by rewrite lookup_insert_eq|].
    rewrite lookup_insert_ne by congruence. case_decide as Hd.
    + destruct Hd as (-> & -> & Hx). destruct (decide (k' = Normal)) as [->|Hk'];
        [by rewrite lookup_delete_eq|]. destruct Hx as [_ Hx]. naive_solver.
    + rewrite lookup_delete_ne; [done|]. intros [= -> -> <-]. naive_solver.
Qed.

(** Setting a strategy: the entry holds the given parameters, the entries
    of the same service and trade that exclude it are gone, every other entry
    is untouched. *)
Theorem set_spec s t k a b c m :
  let m' := run_rcus (gfs_set s t k a b c) m in
  m' !! (s, t, k) = Some (mk_gfs a b c)
  ∧ (k = Normal → m' !! (s, t, LowTipHighCuPrice) = None ∧ m' !! (s, t, HighTipLowCuPrice) = None)
  ∧ (k ≠ Normal → m' !! (s, t, Normal) = None)
  ∧ (k ≠ Normal → ∀ k', k' ≠ Normal → k' ≠ k → m' !! (s, t, k') = m !! (s, t, k'))
  ∧ (∀ s' t' k', (s', t') ≠ (s, t) → m' !! (s', t', k') = m !! (s', t', k')).
Proof.
  cbv zeta. split; [|split; [|split; [|split]]]; intros; rewrite ?set_lookup;
    repeat case_decide; naive_solver.
Qed.

(** A loop over services: the body for one service leaves the entries of the
    others alone and changes its own in a way that repetition does not change. *)
Lemma run_concat_lookup (f : SwqosType → list rcu) g l m s t k :
  (∀ s' m, s' ≠ s → run_rcus (f s') m !! (s, t, k) = m !! (s, t, k)) →
  (∀ m, run_rcus (f s) m !! (s, t, k) = g (m !! (s, t, k))) →
  (∀ x, g (g x) = g x) →
  run_rcus (concat (map f l)) m !! (s, t, k)
  = if decide (s ∈ l) then g (m !! (s, t, k)) else m !! (s, t, k).
Proof.
  intros Hne Heq Hg. revert m. induction l as [|a l IH]; intros m; [done|].
  cbn [map concat]. rewrite run_app, IH. destruct (decide (a = s)) as [->|Hn].
  - rewrite Heq, Hg. rewrite (decide_True (P := s ∈ s :: l)) by left. by case_decide.
  - rewrite Hne by done. destruct (decide (s ∈ l)).
    + by rewrite decide_True by (by right).
    + by rewrite decide_False by (rewrite elem_of_cons; naive_solver).
Qed.

Ltac table := rewrite ?run_app, ?set_lookup; repeat case_decide; naive_solver.

(** What setting the two normal strategies of a service leaves of an entry. *)
Definition normal_entry (buy sell : GasFeeStrategyValue) (t : TradeType) (k : GasFeeStrategyType)
    (old : option GasFeeStrategyValue) : option GasFeeStrategyValue :=
  match t, k with
  | TBuy, Normal => Some buy
  | TSell, Normal => Some sell
  | (TBuy | TSell), _ => None
  | _, _ => old
  end.

Lemma normal_pair_lookup s' a b c d e f m s t k :
  run_rcus (gfs_set s' TBuy Normal a b c ++ gfs_set s' TSell Normal d e f) m !! (s, t, k)
  = if decide (s' = s) then normal_entry (mk_gfs a b c) (mk_gfs d e f) t k (m !! (s, t, k))
    else m !! (s, t, k).
Proof.
  rewrite run_app, !set_lookup. destruct (decide (s' = s)) as [->|Hn].
  - destruct t, k; repeat case_decide; naive_solver.
  - repeat case_decide; naive_solver.
Qed.

Lemma normal_entry_idemp b v t k x :
  normal_entry b v t k (normal_entry b v t k x) = normal_entry b v t k x.
Proof. by destruct t, k. Qed.

(** The global setting gives every service a normal strategy for buying and
    for selling, with no tip for the default service, whatever the table held;
    no service keeps a high-low pair for these trades, and the strategies for
    other trades are untouched. *)
Theorem set_global_fee_strategy_spec bl sl bp sp bt st m s t k :
  let own x := if decide (s = SwDefault) then f_zero else x in
  run_rcus (set_global_fee_strategy bl sl bp sp bt st) m !! (s, t, k)
  = match t, k with
    | TBuy, Normal => Some (mk_gfs bl bp (own bt))
    | TSell, Normal => Some (mk_gfs sl sp (own st))
    | (TBuy | TSell), _ => None
    | _, _ => m !! (s, t, k)
    end.
Proof.
  cbv zeta. unfold set_global_fee_strategy. rewrite run_app, normal_pair_lookup.
  set (g := if decide (s = SwDefault) then id
            else normal_entry (mk_gfs bl bp bt) (mk_gfs sl sp st) t k).
  rewrite (run_concat_lookup _ g).
  - rewrite (decide_True (P := s ∈ swqos_values))
      by (apply list_elem_of_In; destruct s; simpl; tauto). unfold g.
    destruct (decide (SwDefault = s)) as [<-|Hn]; [by destruct t, k|].
    rewrite !decide_False by congruence. by destruct t, k.
  - intros s' m' Hn. case_decide; [done|]. by rewrite normal_pair_lookup, decide_False.
  - intros m'. unfold g. case_decide; [done|]. by rewrite normal_pair_lookup, decide_True.
  - intros x. unfold g. case_decide; [done|]. apply normal_entry_idemp.
Qed.

(** The entries of a high-low pair. *)
Definition pair_entry (low_tip high_tip : GasFeeStrategyValue) (k : GasFeeStrategyType) :
    option GasFeeStrategyValue :=
  match k with
  | Normal => None
  | LowTipHighCuPrice => Some low_tip
  | HighTipLowCuPrice => Some high_tip
  end.

Lemma high_low_lookup s' t' cu lo hi lt ht m s t k :
  run_rcus (high_low s' t' cu lo hi lt ht) m !! (s, t, k)
  = if decide (s' = s ∧ t = t') then pair_entry (mk_gfs cu hi lt) (mk_gfs cu lo ht) k
    else m !! (s, t, k).
Proof.
  unfold high_low. rewrite !run_app, !set_lookup. cbn [run_rcus foldl del apply_rcu].
  destruct (decide (s' = s ∧ t = t')) as [[-> ->]|Hd].
  - destruct k; repeat case_decide; naive_solver.
  - rewrite lookup_delete_ne by naive_solver. repeat case_decide; naive_solver.
Qed.

(** High-low strategies for several services: each listed service has
    exactly the pair for that trade, the low tip with the high compute-unit price
    and the high tip with the low price; all other entries are untouched.  The
    default service is not excepted here. *)
Theorem set_high_low_fee_strategies_spec l t' cu lo hi lt ht m s t k :
  run_rcus (set_high_low_fee_strategies l t' cu lo hi lt ht) m !! (s, t, k)
  = if decide (s ∈ l ∧ t = t') then
      match k with
      | Normal => None
      | LowTipHighCuPrice => Some (mk_gfs cu hi lt)
      | HighTipLowCuPrice => Some (mk_gfs cu lo ht)
      end
    else m !! (s, t, k).
Proof.
  unfold set_high_low_fee_strategies.
  rewrite (run_concat_lookup _
    (λ x, if decide (t = t') then pair_entry (mk_gfs cu hi lt) (mk_gfs cu lo ht) k else x)).
  - destruct (decide (s ∈ l)), (decide (t = t')), (decide (s ∈ l ∧ t = t'));
      try reflexivity; naive_solver.
  - intros s' m' Hn. rewrite high_low_lookup. by rewrite decide_False by naive_solver.
  - intros m'. rewrite high_low_lookup. repeat case_decide; naive_solver.
  - intros x. by case_decide.
Qed.

(** The loops of [get_strategies] over any list of services. *)
Lemma elem_of_strategies (m : GasFeeStrategy) t l s k v :
  (s, k, v) ∈ concat (map (λ s, omap (λ k, (λ v, (s, k, v)) <$> m !! (s, t, k)) strategy_values) l)
  ↔ s ∈ l ∧ m !! (s, t, k) = Some v.
Proof.
  rewrite list_elem_of_In, in_concat. split.
  - intros (r & Hr & Hin). apply in_map_iff in Hr as (s' & <- & Hs').
    apply list_elem_of_In, list_elem_of_omap in Hin as (k' & _ & Hk).
    apply fmap_Some in Hk as (v' & Hk & [= -> -> ->]). by rewrite list_elem_of_In.
  - intros [Hs Hk]. eexists. split; [apply in_map_iff; exists s; split; [done|]|].
    + by apply list_elem_of_In.
    + apply list_elem_of_In, list_elem_of_omap. exists k. rewrite Hk. split; [|done].
      apply list_elem_of_In. destruct k; simpl; tauto.
Qed.

Lemma NoDup_strategies (m : GasFeeStrategy) t l :
  NoDup l →
  NoDup (concat (map (λ s, omap (λ k, (λ v, (s, k, v)) <$> m !! (s, t, k)) strategy_values) l)).
Proof.
  induction 1 as [|s l Hs _ IH]; [constructor|]. cbn [map concat]. apply NoDup_app.
  split; [|split; [|done]].
  - simpl. destruct (m !! (s, t, Normal)), (m !! (s, t, LowTipHighCuPrice)),
      (m !! (s, t, HighTipLowCuPrice)); simpl;
      repeat (constructor; rewrite ?elem_of_cons, ?elem_of_nil; try naive_solver).
  - intros [[s' k] v] Hin [Hs' _]%elem_of_strategies. destruct Hs.
    apply list_elem_of_omap in Hin as (k' & _ & Hk).
    apply fmap_Some in Hk as (v' & _ & [= -> _ _]). done.
Qed.

(** Reading the strategies of a trade returns each entry the table has for
    it, and nothing else, once, whatever order the hash set is iterated in. *)
Theorem get_strategies_spec `{HashOrder} m t :
  NoDup (get_strategies m t)
  ∧ ∀ s k v, (s, k, v) ∈ get_strategies m t ↔ m !! (s, t, k) = Some v.
Proof.
  unfold get_strategies.
  set (X := list_to_set _ : gset SwqosType).
  assert (HX : ∀ s, s ∈ hash_order X ↔ ∃ k v, m !! (s, t, k) = Some v).
  { intros s. rewrite hash_order_perm, elem_of_elements. unfold X.
    rewrite elem_of_list_to_set, list_elem_of_fmap. split.
    - intros ([[[s' t'] k] v] & -> & Hin%list_elem_of_filter). simpl in Hin.
      destruct Hin as [-> Hin%elem_of_map_to_list]. eauto.
    - intros (k & v & Hk). exists (s, t, k, v). split; [done|].
      apply list_elem_of_filter. split; [done|]. by apply elem_of_map_to_list. }
  assert (Hnd : NoDup (hash_order X)) by (rewrite hash_order_perm; apply NoDup_elements).
  clearbody X. split; [by apply NoDup_strategies|].
  intros s k v. rewrite elem_of_strategies, HX. naive_solver.
Qed.

(** ** Concurrency

    Threads share the table: each operation is atomic only closure by closure. *)

Inductive interleave {A} : list A → list A → list A → Prop :=
| il_nil : interleave [] [] []
| il_left a l l' r : interleave l l' r → interleave (a :: l) l' (a :: r)
| il_right a l l' r : interleave l l' r → interleave l (a :: l') (a :: r).

(** Two concurrent settings for one service and trade, one normal and one
    high-low, can leave both kinds in the table: the deletion and the insertion
    of [set] are separate atomic steps. *)
Theorem concurrent_sets_break_exclusivity s t v w :
  ∃ l, interleave (gfs_set s t Normal (cu_limit v) (cu_price v) (tip v))
         (gfs_set s t LowTipHighCuPrice (cu_limit w) (cu_price w) (tip w)) l
  ∧ run_rcus l gfs_new !! (s, t, Normal) = Some v
  ∧ run_rcus l gfs_new !! (s, t, LowTipHighCuPrice) = Some w
  ∧ ¬ exclusive (run_rcus l gfs_new).
Proof.
  exists [Del s t HighTipLowCuPrice; Del s t LowTipHighCuPrice; Del s t Normal;
          Insert s t Normal v; Insert s t LowTipHighCuPrice w].
  assert (H1 : run_rcus [Del s t HighTipLowCuPrice; Del s t LowTipHighCuPrice; Del s t Normal;
    Insert s t Normal v; Insert s t LowTipHighCuPrice w] gfs_new !! (s, t, Normal) = Some v).
  { simpl. rewrite lookup_insert_ne by congruence. apply lookup_insert_eq. }
  assert (H2 : run_rcus [Del s t HighTipLowCuPrice; Del s t LowTipHighCuPrice; Del s t Normal;
    Insert s t Normal v; Insert s t LowTipHighCuPrice w] gfs_new !! (s, t, LowTipHighCuPrice)
    = Some w) by (simpl; apply lookup_insert_eq).
  split; [|split; [done|split; [done|]]].
  - destruct v, w. unfold gfs_set, del. simpl. repeat constructor.
  - intros He. by specialize (He s t _ _ _ H1 H2).
Qed.

(** ** Witnesses *)

Lemma operations_keep_exclusive_witness :
  operation (set_high_low_fee_strategies [Jito] TBuy 1 2 3 f_zero f_zero) ∧ exclusive gfs_new ∧
  exclusive (run_rcus (set_high_low_fee_strategies [Jito] TBuy 1 2 3 f_zero f_zero) gfs_new).
Proof.
  assert (Ho : operation (set_high_low_fee_strategies [Jito] TBuy 1 2 3 f_zero f_zero))
    by (apply operation_concat; intros; apply operation_high_low).
  assert (He : exclusive gfs_new) by (intros s t k v v' H; unfold gfs_new in H; by rewrite lookup_empty in H).
  split; [done|]. split; [done|]. exact (operations_keep_exclusive _ _ Ho He).
Defined.
