(* ===== verification/Effects.v ===== *)
(** * Effects of asynchronous code

    A function that talks to the outside world is a state transformer over an
    environment [E] that may panic or fail: [M E A].  The services it reaches
    are classes over [E]: the Solana RPC node and the clock here, the Redis
    server and the trading client where they are used.  An environment is any
    type with instances of these classes, so every theorem holds for every
    behaviour of the services that the laws of a class allow.

    The file also has the text of numbers and of keys. *)

From Stdlib Require Import Ascii String.
From stdpp Require Export pretty.
From S2P Require Import Prelude Solana.

#[local] Open Scope string_scope.
#[local] Open Scope Z_scope.

(** ** The monad *)

Definition M (E A : Type) : Type := E → exec (result string A * E).

Definition mret {E A} (a : A) : M E A := λ e, Val (Ok a, e).
Definition mfail {E A} (msg : string) : M E A := λ e, Val (Err msg, e).
Definition mpanic {E A} : M E A := λ _, Panic.

Definition mbind {E A B} (m : M E A) (k : A → M E B) : M E B := λ e,
  match m e with
  | Val (Ok a, e') => k a e'
  | Val (Err msg, e') => Val (Err msg, e')
  | Panic => Panic
  end.

Notation "'let%' x ':=' m 'in' k" := (mbind m (fun x => k))
  (at level 10, x binder, m at level 100, k at level 200,
   format "'[v' 'let%'  x  ':='  m  'in' '/' k ']'") : rust_scope.

(** [match m.await { Ok(..) => .., Err(..) => .. }]: the outcome as a value. *)
Definition attempt {E A} (m : M E A) : M E (result string A) := λ e,
  match m e with
  | Val (r, e') => Val (Ok r, e')
  | Panic => Panic
  end.

(** [.context(msg)]: an error shows the context. *)
Definition with_context {E A} (msg : string) (m : M E A) : M E A := λ e,
  match m e with
  | Val (Err _, e') => Val (Err msg, e')
  | x => x
  end.

Definition of_res {E A} (r : result string A) : M E A := λ e, Val (r, e).
Definition of_ex {E A} (x : exec A) : M E A := λ e, let* a := x in Val (Ok a, e).
Definition call {E A} (f : E → result string A * E) : M E A := λ e, Val (f e).
Definition effect {E} (f : E → E) : M E () := λ e, Val (Ok (), f e).
Definition ask {E A} (f : E → A * E) : M E A := λ e, let '(a, e') := f e in Val (Ok a, e').

(** Equality of computations, pointwise. *)
Definition meq {E A} (m n : M E A) : Prop := ∀ e, m e = n e.
Infix "≃" := meq (at level 70) : rust_scope.

#[export] Instance meq_equiv E A : Equivalence (@meq E A).
Proof.
  split; [intros m e; done|intros m n H e; by rewrite H|].
  intros m n p H1 H2 e. by rewrite H1.
Qed.

#[export] Instance mbind_proper E A B :
  Proper (meq ==> pointwise_relation A meq ==> meq) (@mbind E A B).
Proof.
  intros m m' Hm k k' Hk e. unfold mbind. rewrite Hm.
  destruct (m' e) as [[[a|s] e']|]; [apply Hk|done..].
Qed.

Lemma mbind_ret_l {E A B} (a : A) (k : A → M E B) : mbind (mret a) k ≃ k a.
Proof. done. Qed.
Lemma mbind_ret_r {E A} (m : M E A) : mbind m mret ≃ m.
Proof. intros e. unfold mbind. by destruct (m e) as [[[a|s] e']|]. Qed.
Lemma mbind_assoc {E A B C} (m : M E A) (f : A → M E B) (g : B → M E C) :
  mbind (mbind m f) g ≃ mbind m (λ a, mbind (f a) g).
Proof. intros e. unfold mbind. by destruct (m e) as [[[a|s] e']|]. Qed.

Lemma mbind_Ok_inv {E A B} (m : M E A) (k : A → M E B) e b e'' :
  mbind m k e = Val (Ok b, e'') → ∃ a e', m e = Val (Ok a, e') ∧ k a e' = Val (Ok b, e'').
Proof. unfold mbind. destruct (m e) as [[[a|s] e']|]; [eauto|done..]. Qed.

Lemma mbind_eq {E A B} (m : M E A) (k : A → M E B) e a e' :
  m e = Val (Ok a, e') → mbind m k e = k a e'.
Proof. unfold mbind. by intros ->. Qed.

Lemma with_context_Ok {E A} msg (m : M E A) e a e' :
  with_context msg m e = Val (Ok a, e') ↔ m e = Val (Ok a, e').
Proof. unfold with_context. destruct (m e) as [[[b|s] e1]|]; naive_solver. Qed.

Lemma attempt_inv {E A} (m : M E A) e r e' :
  attempt m e = Val (r, e') ↔ ∃ x, r = Ok x ∧ m e = Val (x, e').
Proof. unfold attempt. destruct (m e) as [[x e1]|]; naive_solver. Qed.

Lemma mret_inv {E A} (a : A) (e : E) b e' : mret a e = Val (Ok b, e') → a = b ∧ e = e'.
Proof. unfold mret. by intros [= -> ->]. Qed.

Lemma of_ex_inv {E A} (x : exec A) (e : E) a e' :
  of_ex x e = Val (Ok a, e') → x = Val a ∧ e = e'.
Proof. unfold of_ex. destruct x; [|done]. by intros [= -> ->]. Qed.

Lemma of_res_inv {E A} (r : result string A) (e : E) a e' :
  of_res r e = Val (Ok a, e') → r = Ok a ∧ e = e'.
Proof. unfold of_res. by intros [= -> ->]. Qed.

(** Split a successful computation of a hypothesis at its binds. *)
Ltac m_inv :=
  repeat match goal with
  | H : mbind ?m _ ?e = Val (Ok _, _) |- _ =>
      let a := fresh "a" in let e' := fresh "e" in let H1 := fresh "R" in
      apply mbind_Ok_inv in H as (a & e' & H1 & H)
  | H : with_context _ _ _ = Val (Ok _, _) |- _ => apply with_context_Ok in H
  | H : attempt _ _ = Val (Ok _, _) |- _ =>
      let r := fresh "r" in let Hr := fresh in
      apply attempt_inv in H as (r & Hr & H); injection Hr as <-
  | H : of_ex _ _ = Val (Ok _, _) |- _ => apply of_ex_inv in H as [H <-]
  | H : of_res _ _ = Val (Ok _, _) |- _ => apply of_res_inv in H as [H <-]
  | H : mret _ _ = Val (Ok _, _) |- _ => apply mret_inv in H as [H <-]
  | H : mfail _ _ = Val (Ok _, _) |- _ => discriminate H
  | H : mpanic _ = Val _ |- _ => discriminate H
  end.

(** ** What computations do to the environment

    [keeps R m]: whatever [m] returns, the environment after it is related to
    the one before. *)

Definition keeps {E A} (R : relation E) (m : M E A) : Prop :=
  ∀ e r e', m e = Val (r, e') → R e e'.

Section Keeps.
Context {E : Type} (R : relation E) `{!PreOrder R}.

Lemma keeps_ret {A} (a : A) : keeps R (mret a).
Proof. by intros e r e' [= <- <-]. Qed.
Lemma keeps_fail {A} msg : keeps R (@mfail E A msg).
Proof. by intros e r e' [= <- <-]. Qed.
Lemma keeps_panic {A} : keeps R (@mpanic E A).
Proof. by intros e r e' ?. Qed.
Lemma keeps_of_res {A} (r : result string A) : keeps R (of_res r).
Proof. by intros e r' e' [= <- <-]. Qed.
Lemma keeps_of_ex {A} (x : exec A) : keeps R (of_ex x).
Proof. intros e r e'. unfold of_ex. destruct x; [|done]. by intros [= <- <-]. Qed.

Lemma keeps_bind {A B} (m : M E A) (k : A → M E B) :
  keeps R m → (∀ a, keeps R (k a)) → keeps R (mbind m k).
Proof.
  intros Hm Hk e r e''. unfold mbind. destruct (m e) as [[[a|s] e']|] eqn:He; [| |done].
  - intros Hk'. etrans; [by eapply Hm|by eapply Hk].
  - intros [= <- <-]. by eapply Hm.
Qed.

Lemma keeps_attempt {A} (m : M E A) : keeps R m → keeps R (attempt m).
Proof.
  intros Hm e r e'. unfold attempt. destruct (m e) as [[x e1]|] eqn:He; [|done].
  intros [= <- <-]. by eapply Hm.
Qed.

Lemma keeps_ask {A} (f : E → A * E) : (∀ e, R e (f e).2) → keeps R (ask f).
Proof.
  intros Hf e r e'. unfold ask. specialize (Hf e). destruct (f e). by intros [= <- <-].
Qed.

Lemma keeps_call {A} (f : E → result string A * E) : (∀ e, R e (f e).2) → keeps R (call f).
Proof.
  intros Hf e r e'. unfold call. specialize (Hf e). by intros [= Hfe]; rewrite Hfe in Hf.
Qed.
End Keeps.

(** Follow the structure of a computation. *)
Create HintDb keeps.
#[export] Hint Resolve keeps_ret keeps_fail keeps_panic keeps_of_res keeps_of_ex keeps_attempt
  keeps_ask keeps_call : keeps.
Ltac keeps_step :=
  match goal with
  | |- keeps _ (mbind _ _) => apply keeps_bind; [try typeclasses eauto| |intros ?]
  | |- keeps _ (match ?x with _ => _ end) => destruct x
  | |- keeps _ _ => progress (eauto with keeps)
  end.

(** ** The RPC node and the clock *)

Record Account := mk_Account {
  acc_data : bytes;
  acc_owner : Pubkey;
}.

(** [rpc_timeout ms] asks the environment whether a [tokio::time::timeout]
    around the next call elapses, and in which environment it then continues. *)
Class Rpc (E : Type) := {
  rpc_get_account : Pubkey → E → result string Account * E;
  rpc_get_multiple_accounts : list Pubkey → E → result string (list (option Account)) * E;
  rpc_get_token_account_balance : Pubkey → E → result string string * E;
  rpc_get_balance : Pubkey → E → result string Z * E;
  rpc_get_latest_blockhash : E → result string Z * E;
  rpc_get_program_accounts :
    Pubkey → Z → Z → Pubkey → E → result string (list (Pubkey * Account)) * E;
  rpc_timeout : Z → E → option E;
  sleep_ms : Z → E → E;
  now_micros : E → Z * E;
}.

(** An environment that also remembers what is sent through it: a list of
    entries that queries do not change. *)
Definition Journal (X E : Type) : Type := E * list X.

Definition unlogged {X E A : Type} (f : E → A * E) (w : Journal X E) : A * Journal X E :=
  let '(a, e) := f w.1 in (a, (e, w.2)).

Lemma unlogged_log {X E A : Type} (f : E → A * E) (w : Journal X E) : (unlogged f w).2.2 = w.2.
Proof. unfold unlogged. by destruct (f w.1). Qed.

#[export] Instance journal_rpc {X E : Type} `{Rpc E} : Rpc (Journal X E) := {|
  rpc_get_account := λ p, unlogged (rpc_get_account p);
  rpc_get_multiple_accounts := λ l, unlogged (rpc_get_multiple_accounts l);
  rpc_get_token_account_balance := λ p, unlogged (rpc_get_token_account_balance p);
  rpc_get_balance := λ p, unlogged (rpc_get_balance p);
  rpc_get_latest_blockhash := unlogged rpc_get_latest_blockhash;
  rpc_get_program_accounts := λ p o l k, unlogged (rpc_get_program_accounts p o l k);
  rpc_timeout := λ ms w, (λ e, (e, w.2)) <$> rpc_timeout ms w.1;
  sleep_ms := λ ms w, (sleep_ms ms w.1, w.2);
  now_micros := unlogged now_micros;
|}.

(** [tokio::time::timeout(ms, m).await]: [None] when it elapses. *)
Definition timeout `{Rpc E} {A} (ms : Z) (m : M E A) : M E (option (result string A)) := λ e,
  match rpc_timeout ms e with
  | Some e' => Val (Ok None, e')
  | None => (let% r := attempt m in mret (Some r)) e
  end.

(** ** Text *)

Class KeyText := {
  pubkey_to_string : Pubkey → string;
  pubkey_from_str : string → option Pubkey;
  pubkey_text_round_trip p : is_pubkey p → pubkey_from_str (pubkey_to_string p) = Some p;
}.

(** [Display] of an integer. *)
Definition show (z : Z) : string := pretty z.

Definition digit (c : ascii) : option Z :=
  let n := Z.of_N (N_of_ascii c) in
  if ((48 <=? n) && (n <=? 57))%bool then Some (n - 48) else None.

(** The digits of a string as a number. *)
Fixpoint digits (acc : Z) (s : string) : option Z :=
  match s with
  | EmptyString => Some acc
  | String c s' =>
      match digit c with
      | Some d => digits (10 * acc + d) s'
      | None => None
      end
  end.

Definition nonempty_digits (s : string) : option Z :=
  match s with EmptyString => None | _ => digits 0 s end.

(** The digits of an unsigned integer of 64 bits, with the error Rust reports. *)
Fixpoint digits_u64 (acc : Z) (s : string) : result string Z :=
  match s with
  | EmptyString => Ok acc
  | String c s' =>
      match digit c with
      | None => Err "invalid digit found in string"
      | Some d =>
          if fits 64 (10 * acc + d) then digits_u64 (10 * acc + d) s'
          else Err "number too large to fit in target type"
      end
  end.

(** [str::parse::<u64>]: an optional plus sign and digits, in range. *)
Definition parse_u64 (s : string) : result string Z :=
  match s with
  | EmptyString => Err "cannot parse integer from empty string"
  | String "+" EmptyString => Err "invalid digit found in string"
  | String "+" s' => digits_u64 0 s'
  | _ => digits_u64 0 s
  end.

(** [str::parse::<i64>]: an optional sign and digits, in range. *)
Definition parse_i64 (s : string) : option Z :=
  let '(sign, body) :=
    match s with
    | String "-" s' => (-1, s')
    | String "+" s' => (1, s')
    | _ => (1, s)
    end in
  match nonempty_digits body with
  | Some n =>
      if ((- 2 ^ 63 <=? sign * n) && (sign * n <? 2 ^ 63))%bool then Some (sign * n) else None
  | None => None
  end.

Lemma digits_u64_range s acc n : is_u64 acc → digits_u64 acc s = Ok n → is_u64 n.
Proof.
  revert acc. induction s as [|c s IH]; simpl; intros acc Ha; [by intros [= <-]|].
  destruct (digit c); [|done]. destruct (fits 64 _) eqn:Hf; [|done].
  apply IH. by apply fits_iff.
Qed.

Lemma parse_u64_range s n : parse_u64 s = Ok n → is_u64 n.
Proof.
  unfold parse_u64. intros H.
  repeat case_match; try discriminate H; (eapply digits_u64_range; [|exact H]); uint.
Qed.

Lemma parse_i64_range s n : parse_i64 s = Some n → is_i64 n.
Proof.
  unfold parse_i64.
  destruct (match s with String "-" s' => (-1, s') | String "+" s' => (1, s') | _ => (1, s) end)
    as [sign body].
  destruct (nonempty_digits body) as [m|]; [|done].
  destruct (andb _ _) eqn:Hf; [|done]. intros [= <-]. bool_hyps. uint.
Qed.

#[export] Hint Resolve parse_u64_range parse_i64_range : rust.

Example parse_tests :
  parse_u64 "+018446744073709551615" = Ok u64_max ∧
  parse_u64 "18446744073709551616" = Err "number too large to fit in target type"
  ∧ parse_u64 "" = Err "cannot parse integer from empty string"
  ∧ parse_u64 "-1" = Err "invalid digit found in string" ∧ parse_i64 "-17" = Some (-17)
  ∧ parse_i64 "1.5" = None ∧ show (-17) = "-17".
Proof. vm_compute. done. Qed.

(** ** A simulated node

    A node that answers from tables and never fails on its own: the
    environment of the examples. *)

Record Sim := mk_Sim {
  sim_account : Pubkey → option Account;
  sim_token_balance : Pubkey → option string;
  sim_lamports : Z;
  sim_clock : Z;
  sim_slept : list Z;
}.

#[export] Instance sim_rpc : Rpc Sim := {|
  rpc_get_account := λ p e, (ok_or (sim_account e p) "AccountNotFound", e);
  rpc_get_multiple_accounts := λ l e, (Ok (map (sim_account e) l), e);
  rpc_get_token_account_balance := λ p e,
    (ok_or (sim_token_balance e p) "could not find account", e);
  rpc_get_balance := λ _ e, (Ok (sim_lamports e), e);
  rpc_get_latest_blockhash := λ e, (Ok 17, e);
  rpc_get_program_accounts := λ _ _ _ _ e, (Ok [], e);
  rpc_timeout := λ _ _, None;
  sleep_ms := λ ms e,
    mk_Sim (sim_account e) (sim_token_balance e) (sim_lamports e) (sim_clock e + 1000 * ms)
      (sim_slept e ++ [ms]);
  now_micros := λ e, (sim_clock e, e);
|}.

Definition key_string (p : Pubkey) : string :=
  string_of_list_ascii (map (λ b, ascii_of_N (Z.to_N b)) (le_bytes 32 p)).

Definition string_key (s : string) : option Pubkey :=
  if Nat.eqb (String.length s) 32 then Some (le_value (ascii_bytes s)) else None.

Lemma ascii_bytes_of_bytes l :
  Forall is_byte l → ascii_bytes (string_of_list_ascii (map (λ b, ascii_of_N (Z.to_N b)) l)) = l.
Proof.
  unfold ascii_bytes. rewrite list_ascii_of_string_of_list_ascii, map_map.
  induction 1 as [|b l Hb _ IH]; simpl; [done|]. unfold is_byte in Hb.
  rewrite N_ascii_embedding by lia. rewrite IH, Z2N.id by lia. done.
Qed.

Lemma key_string_round_trip p : is_pubkey p → string_key (key_string p) = Some p.
Proof.
  unfold is_pubkey, string_key, key_string. intros Hp.
  rewrite ascii_bytes_of_bytes by apply le_bytes_bytes.
  rewrite le_value_le_bytes by (simpl; lia).
  by replace (String.length _) with 32%nat by (cbn; done).
Qed.

(** Keys written as their bytes. *)
Definition toy_text : KeyText := {|
  pubkey_to_string := key_string;
  pubkey_from_str := string_key;
  pubkey_text_round_trip := key_string_round_trip;
|}.
