(* ===== verification/Text.v ===== *)
(** * Text (Rust's [str])

    The methods of [str] the program uses, on strings as their UTF-8 bytes. *)

From Stdlib Require Import Ascii String.
From S2P Require Import Prelude Solana Effects.

#[local] Open Scope string_scope.
#[local] Open Scope Z_scope.
#[local] Open Scope list_scope.

(** Up to the first dot: [s.split('.').next()]. *)
Fixpoint before_dot (s : string) : string :=
  match s with
  | EmptyString => EmptyString
  | String c s' => if Ascii.eqb c "."%char then EmptyString else String c (before_dot s')
  end.

(** [str::parse::<u32>]. *)
Definition parse_u32 (s : string) : option Z :=
  match parse_u64 s with
  | Ok n => if n <? 2 ^ 32 then Some n else None
  | Err _ => None
  end.

(** [s.ends_with(c)] for a character of one byte. *)
Fixpoint ends_with (c : ascii) (s : string) : bool :=
  match s with
  | EmptyString => false
  | String d EmptyString => Ascii.eqb d c
  | String _ s' => ends_with c s'
  end.

(** [s.starts_with(c)] and [s.contains(c)]. *)
Definition starts_with (c : ascii) (s : string) : bool :=
  match s with EmptyString => false | String d _ => Ascii.eqb d c end.

Fixpoint contains (c : ascii) (s : string) : bool :=
  match s with EmptyString => false | String d s' => Ascii.eqb d c || contains c s' end.

(** [str::to_lowercase], of ASCII letters. *)
Definition lower_ascii (a : ascii) : ascii :=
  let n := nat_of_ascii a in
  if Nat.leb 65 n && Nat.leb n 90 then ascii_of_nat (n + 32) else a.
Definition to_lowercase (s : string) : string :=
  string_of_list_ascii (map lower_ascii (list_ascii_of_string s)).

(** [s.replace(from, to)], for a [from] that is not empty; [n] bounds the
    replacements. *)
Fixpoint replace_all (n : nat) (from to s : string) : string :=
  match n with
  | O => s
  | S n' =>
      match index 0 from s with
      | Some i =>
          substring 0 i s +:+ to +:+
          replace_all n' from to
            (substring (i + String.length from) (String.length s - (i + String.length from)) s)
      | None => s
      end
  end.

(** ** Trimming *)

Definition bytes_string (l : list Z) : string :=
  string_of_list_ascii (map (λ b, Ascii.ascii_of_N (Z.to_N b)) l).

(** The white space of Unicode, in UTF-8. *)
Definition white_space : list string :=
  map (λ b, bytes_string [b]) [9; 10; 11; 12; 13; 32]
  ++ map (λ b, bytes_string [194; b]) [133; 160]
  ++ [bytes_string [225; 154; 128]]
  ++ map (λ b, bytes_string [226; 128; b]) (seqZ 128 11 ++ [168; 169; 175])
  ++ [bytes_string [226; 129; 159]; bytes_string [227; 128; 128]].

Fixpoint strip (p s : string) : option string :=
  match p, s with
  | EmptyString, _ => Some s
  | String a p', String b s' => if Ascii.eqb a b then strip p' s' else None
  | String _ _, EmptyString => None
  end.

Definition first_some {A B} (f : A → option B) (l : list A) : option B := head (omap f l).

(** One space at a time; [n] bounds their number. *)
Fixpoint drop_spaces (n : nat) (spaces : list string) (s : string) : string :=
  match n with
  | O => s
  | S n' =>
      match first_some (λ w, strip w s) spaces with
      | Some s' => drop_spaces n' spaces s'
      | None => s
      end
  end.

Fixpoint string_rev (s : string) : string :=
  match s with EmptyString => EmptyString | String c s' => string_rev s' +:+ String c EmptyString end.

Definition trim_start (s : string) : string := drop_spaces (String.length s) white_space s.

(** From the end: the bytes of the text and of every space in reverse. *)
Definition trim_end (s : string) : string :=
  string_rev (drop_spaces (String.length s) (map string_rev white_space) (string_rev s)).

(** [s.trim()]. *)
Definition trim_str (s : string) : string := trim_end (trim_start s).

(** [s.split_whitespace()]: the words between the spaces, none of them empty.
    [word] is the word under way; [n] bounds the length of the rest. *)
Fixpoint words_from (n : nat) (word s : string) : list string :=
  let done := if String.eqb word "" then [] else [word] in
  match n with
  | O => done
  | S n' =>
      match s with
      | EmptyString => done
      | String c s' =>
          match first_some (λ w, strip w s) white_space with
          | Some rest => done ++ words_from n' "" rest
          | None => words_from n' (word +:+ String c EmptyString) s'
          end
      end
  end.

Definition split_whitespace (s : string) : list string := words_from (String.length s) "" s.

Example words_tests :
  split_whitespace ("  buy" ++ bytes_string [227; 128; 128] ++ "mint  1.5 ")%string
    = ["buy"; "mint"; "1.5"]
  ∧ split_whitespace "  " = [].
Proof. vm_compute. done. Qed.

(** What is left has no space in front of it. *)
Lemma strip_shorter p s t : strip p s = Some t → String.length s = (String.length p + String.length t)%nat.
Proof.
  revert s. induction p as [|a p IH]; intros [|b s]; simpl; try by intros [= <-].
  destruct (Ascii.eqb a b); [|done]. intros ->%IH. done.
Qed.

Lemma drop_spaces_done n spaces : ∀ s,
  Forall (λ w, w ≠ "") spaces → (String.length s ≤ n)%nat →
  first_some (λ w, strip w (drop_spaces n spaces s)) spaces = None.
Proof.
  induction n as [|n IH]; intros s Hw Hn; simpl.
  - destruct s; [|simpl in Hn; lia]. unfold first_some. induction Hw as [|w spaces Hne _ IHw]; [done|].
    simpl. destruct w; [done|]. exact IHw.
  - destruct (first_some (λ w, strip w s) spaces) as [t|] eqn:Hf; [|done].
    apply IH; [done|]. unfold first_some in Hf.
    destruct (omap (λ w, strip w s) spaces) as [|t' l] eqn:Ho; [done|].
    simpl in Hf. injection Hf as ->.
    assert (t ∈ omap (λ w, strip w s) spaces) as (w & Hin & Hs)%list_elem_of_omap
      by (rewrite Ho; left).
    apply strip_shorter in Hs. rewrite Forall_forall in Hw. specialize (Hw w Hin).
    destruct w; [done|]. simpl in Hs. lia.
Qed.
