(* ===== verification/FloatText.v ===== *)
(** * Doubles as text (Rust's [f64]: [FromStr], [Display] and [{:.n}])

    Reading rounds the decimal number that is written to the nearest double,
    and printing writes the shortest decimal number that is read back as the
    same double, without an exponent; with a number of decimals it writes the
    double's exact value, rounded. *)

From Stdlib Require Import Ascii String SpecFloat.
From S2P Require Import Prelude F64 Solana Effects Text.

#[local] Open Scope string_scope.
#[local] Open Scope Z_scope.
#[local] Open Scope list_scope.

(** ** Reading *)

(** [n * 10^k], rounded once. *)
Definition of_decimal (neg : bool) (n k : Z) : f64 :=
  match n with
  | Zpos m =>
      if 0 <=? k then binary_normalize prec emax ((if neg then -1 else 1) * (n * 10 ^ k)) 0 neg
      else
        match 10 ^ (- k) with
        | Zpos d => SFdiv prec emax (S754_finite neg m 0) (S754_finite false d 0)
        | _ => S754_nan
        end
  | _ => S754_zero neg
  end.

(** The digits in front: their value after [acc], their number, and the rest. *)
Fixpoint take_digits (acc : Z) (count : nat) (s : string) : Z * nat * string :=
  match s with
  | String c s' =>
      match digit c with
      | Some d => take_digits (10 * acc + d) (S count) s'
      | None => (acc, count, s)
      end
  | EmptyString => (acc, count, s)
  end.

Definition take_sign (s : string) : bool * string :=
  match s with
  | String "-" s' => (true, s')
  | String "+" s' => (false, s')
  | _ => (false, s)
  end.

(** What follows the digits: nothing, or an exponent with a digit at least. *)
Definition parse_exponent (s : string) : option Z :=
  match s with
  | EmptyString => Some 0
  | String c s' =>
      if Ascii.eqb (lower_ascii c) "e" then
        let '(neg, s1) := take_sign s' in
        match take_digits 0 0 s1 with
        | (_, O, _) => None
        | (e, _, EmptyString) => Some (if neg then - e else e)
        | _ => None
        end
      else None
  end.

(** Digits with at most one point among them. *)
Definition parse_number (neg : bool) (s : string) : option f64 :=
  let '(n, whole, s1) := take_digits 0 0 s in
  let '(n, decimals, s2) :=
    match s1 with
    | String "." s' => take_digits n 0 s'
    | _ => (n, O, s1)
    end in
  if Nat.eqb (whole + decimals) 0 then None
  else e ← parse_exponent s2; Some (of_decimal neg n (e - Z.of_nat decimals)).

(** [str::parse::<f64>]. *)
Definition parse_f64 (s : string) : option f64 :=
  let '(neg, body) := take_sign s in
  let name := to_lowercase body in
  if String.eqb name "inf" || String.eqb name "infinity" then Some (S754_infinity neg)
  else if String.eqb name "nan" then Some S754_nan
  else parse_number neg body.

(** ** Printing *)

(** The integer part of [m * 2^e * 10^k], and what is left of it: a fraction. *)
Definition scaled (m e k : Z) : Z * (Z * Z) :=
  let n := m * 2 ^ Z.max 0 e * 10 ^ Z.max 0 k in
  let d := 2 ^ Z.max 0 (- e) * 10 ^ Z.max 0 (- k) in
  (n / d, (n mod d, d)).

(** [m * 2^e < 10^p]. *)
Definition below_10 (m e p : Z) : bool := (scaled m e (- p)).1 =? 0.

(** The number of digits before the point, negative for zeros after it: the least
    [p] with the number below [10^p], from an estimate by its binary logarithm. *)
Definition exponent10 (m e : Z) : Z :=
  let p := (Z.log2 m + e) * 30103 / 100000 in
  if below_10 m e p then p else if below_10 m e (p + 1) then p + 1 else p + 2.

(** Without the zeros at the end, of which there are [n] at most. *)
Fixpoint strip_zeros (n : nat) (d k : Z) : Z * Z :=
  match n with
  | O => (d, k)
  | S n' => if (d mod 10 =? 0) && negb (d =? 0) then strip_zeros n' (d / 10) (k + 1) else (d, k)
  end.

Definition same_f64 (x y : f64) : bool :=
  match SFcompare x y with Some Eq => true | _ => false end.

Definition reads_as (m : positive) (e : Z) (c : Z * Z) : bool :=
  same_f64 (of_decimal false c.1 c.2) (S754_finite false m e).

(** The decimal numbers of [n] digits next to the double, below and above: the
    nearer one of those that are read back as it. *)
Definition with_digits (m : positive) (e : Z) (n : nat) : option (Z * Z) :=
  let k := exponent10 (Zpos m) e - Z.of_nat n in
  let '(d, (r, q)) := scaled (Zpos m) e (- k) in
  let down := strip_zeros n d k in
  let up := strip_zeros n (d + 1) k in
  if reads_as m e up && (negb (reads_as m e down) || (q <=? 2 * r)) then Some up
  else if reads_as m e down then Some down
  else None.

(** The fewest digits; seventeen are enough for every double. *)
Definition shortest (m : positive) (e : Z) : option (Z * Z) :=
  first_some (with_digits m e) (seq 1 17).

Fixpoint zeros (n : nat) : string :=
  match n with O => EmptyString | S n' => String "0" (zeros n') end.

(** [d] with its last [n] digits after the point. *)
Definition with_point (d : Z) (n : nat) : string :=
  let s := show d in
  let s := zeros (S n - String.length s) +:+ s in
  let whole := (String.length s - n)%nat in
  if Nat.eqb n 0 then s else substring 0 whole s +:+ "." +:+ substring whole n s.

Definition positional (d k : Z) : string :=
  if 0 <=? k then show (d * 10 ^ k) else with_point d (Z.to_nat (- k)).

Definition minus (s : bool) : string := if s then "-" else "".

(** [{}]. *)
Definition show_f64 (x : f64) : string :=
  match x with
  | S754_nan => "NaN"
  | S754_infinity s => minus s +:+ "inf"
  | S754_zero s => minus s +:+ "0"
  | S754_finite s m e =>
      minus s +:+ match shortest m e with Some (d, k) => positional d k | None => "" end
  end.

(** [{:.n}]: half to even. *)
Definition show_fixed (n : nat) (x : f64) : string :=
  match x with
  | S754_nan => "NaN"
  | S754_infinity s => minus s +:+ "inf"
  | S754_zero s => minus s +:+ with_point 0 n
  | S754_finite s m e =>
      let '(d, (r, q)) := scaled (Zpos m) e (Z.of_nat n) in
      let up := (q <? 2 * r) || ((2 * r =? q) && Z.odd d) in
      minus s +:+ with_point (if up then d + 1 else d) n
  end.

(** What is printed is read back as the same double. *)
Lemma shortest_reads m e c : shortest m e = Some c → reads_as m e c = true.
Proof.
  unfold shortest, first_some. destruct (omap _ _) as [|c' l] eqn:Ho; [done|]. intros [= ->].
  assert (c ∈ omap (with_digits m e) (seq 1 17)) as (n & _ & Hn)%list_elem_of_omap
    by (rewrite Ho; left).
  unfold with_digits in Hn. destruct (scaled _ _ _) as [d [r q]].
  destruct (reads_as m e (strip_zeros n (d + 1) _)) eqn:Hu,
    (reads_as m e (strip_zeros n d _)) eqn:Hd; cbn [andb negb orb] in Hn;
    repeat case_match; by try injection Hn as <-.
Qed.

Definition reprint (s : string) : option string := show_f64 <$> parse_f64 s.

Example text_of_doubles :
  map reprint ["0.1"; "+.5"; "5."; "1E+2"; "1e-5"; "-0"; "0.30000000000000004"; "inf"; "-NaN"]
  = map Some ["0.1"; "0.5"; "5"; "100"; "0.00001"; "-0"; "0.30000000000000004"; "inf"; "NaN"]
  ∧ map reprint ["."; "1e"; "1.5x"; ""; "--1"; "1 "] = repeat None 6
  ∧ reprint "9007199254740993" = Some "9007199254740992"
  ∧ reprint "1e23" = Some "100000000000000000000000"
  ∧ show_fixed 6 (f64_lit 129999996 7) = "13.000000" ∧ show_fixed 0 (f64_lit 25 1) = "2".
Proof. vm_compute. done. Qed.
