(* ===== verification/Queue.v ===== *)
(** * A bounded queue (crossbeam's [ArrayQueue], a dependency)

    The class states what its documentation promises: a bounded first-in
    first-out queue whose operations are atomic.  [ListQueue] is an instance. *)

From S2P Require Import Prelude.

#[local] Open Scope list_scope.

(** [push] gives nothing when the queue is full; a capacity of zero panics. *)
Class ArrayQueue (Q : Type → Type) := {
  queue_new {A} : nat → exec (Q A);
  queue_push {A} : A → Q A → option (Q A);
  queue_pop {A} : Q A → option (A * Q A);
  queue_elements {A} : Q A → list A;
  queue_capacity {A} : Q A → nat;
  queue_new_spec {A} n (q : Q A) : queue_new n = Val q →
    queue_elements q = [] ∧ queue_capacity q = n;
  queue_new_panics {A} n : queue_new (A := A) n = Panic ↔ n = 0%nat;
  queue_push_spec {A} (a : A) q :
    match queue_push a q with
    | Some q' => (length (queue_elements q) < queue_capacity q)%nat
        ∧ queue_elements q' = queue_elements q ++ [a] ∧ queue_capacity q' = queue_capacity q
    | None => (queue_capacity q ≤ length (queue_elements q))%nat
    end;
  queue_pop_spec {A} (q : Q A) :
    match queue_pop q with
    | Some (a, q') =>
        queue_elements q = a :: queue_elements q' ∧ queue_capacity q' = queue_capacity q
    | None => queue_elements q = []
    end;
}.

(** [let _ = queue.push(x)]: what does not fit is dropped. *)
Definition push_or_drop {Q} `{ArrayQueue Q} {A} (a : A) (q : Q A) : Q A :=
  default q (queue_push a q).

Definition queue_len {Q} `{ArrayQueue Q} {A} (q : Q A) : nat := length (queue_elements q).

(** The queue holds at most what it can. *)
Definition bounded {Q} `{ArrayQueue Q} {A} (q : Q A) : Prop :=
  (queue_len q ≤ queue_capacity q)%nat.

(** The queue after an element was taken. *)
Abbreviation taken pool := (from_option snd pool (queue_pop pool)).

Section Queue.
Context {Q : Type → Type} `{ArrayQueue Q} {A : Type}.
Implicit Types q : Q A.

Lemma push_or_drop_len (a : A) q :
  bounded q →
  queue_len (push_or_drop a q) = Nat.min (queue_capacity q) (S (queue_len q))
  ∧ queue_capacity (push_or_drop a q) = queue_capacity q.
Proof.
  unfold bounded, queue_len, push_or_drop. intros Hb. pose proof (queue_push_spec a q) as Hp.
  destruct (queue_push a q) as [q'|]; simpl.
  - destruct Hp as (Hl & -> & ->). rewrite length_app. simpl. split; [lia|done].
  - split; [lia|done].
Qed.

Lemma push_or_drop_bounded (a : A) q : bounded q → bounded (push_or_drop a q).
Proof. intros Hb. unfold bounded. destruct (push_or_drop_len a q Hb) as [-> ->]. lia. Qed.

Lemma pop_len q :
  queue_len (from_option snd q (queue_pop q)) = pred (queue_len q)
  ∧ queue_capacity (from_option snd q (queue_pop q)) = queue_capacity q.
Proof.
  unfold queue_len. pose proof (queue_pop_spec q) as Hp.
  destruct (queue_pop q) as [[a q']|]; simpl.
  - destruct Hp as [-> ->]. done.
  - by rewrite Hp.
Qed.

(** Taking a element and returning one. *)
Lemma take_return (b : A) (pool : Q A) :
  bounded pool → (0 < queue_capacity pool)%nat →
  let pool' := push_or_drop b (taken pool) in
  queue_len pool' = Nat.max 1 (queue_len pool) ∧ queue_capacity pool' = queue_capacity pool
  ∧ bounded pool'.
Proof.
  intros Hb Hc. destruct (pop_len pool) as [Hl Hcap].
  assert (bounded (taken pool)) as Hbt by (unfold bounded in *; rewrite Hl, Hcap; lia).
  destruct (push_or_drop_len b _ Hbt) as [Hl' Hc']. cbv zeta.
  split; [|split; [by rewrite Hc'|by apply push_or_drop_bounded]].
  rewrite Hl', Hl, Hcap. unfold bounded in Hb. lia.
Qed.

(** [for _ in 0..n { let _ = pool.push(a()) }]. *)
Fixpoint fill (n : nat) (a : A) (q : Q A) : Q A :=
  match n with O => q | S n' => fill n' a (push_or_drop a q) end.

Lemma fill_len (a : A) n : ∀ q,
  bounded q →
  queue_len (fill n a q) = Nat.min (queue_capacity q) (n + queue_len q)
  ∧ queue_capacity (fill n a q) = queue_capacity q.
Proof.
  induction n as [|n IH]; intros q Hb; simpl; [unfold bounded in Hb; split; [lia|done]|].
  destruct (push_or_drop_len a q Hb) as [Hl Hc].
  destruct (IH _ (push_or_drop_bounded a q Hb)) as [-> ->]. rewrite Hc, Hl. split; [lia|done].
Qed.
End Queue.

(** ** An instance *)

(** A list with its capacity. *)
Definition ListQueue (A : Type) : Type := list A * nat.

#[export] Instance list_queue : ArrayQueue ListQueue.
Proof.
  refine {|
    queue_new := λ A n, match n with O => Panic | _ => Val (@nil A, n) end;
    queue_push := λ A a q, if (length q.1 <? q.2)%nat then Some (q.1 ++ [a], q.2) else None;
    queue_pop := λ A q, match q.1 with [] => None | a :: l => Some (a, (l, q.2)) end;
    queue_elements := λ A, fst;
    queue_capacity := λ A, snd;
  |}.
  - by intros A [|n] q; [|intros [= <-]].
  - intros A n. split; [by destruct n|by intros ->].
  - intros A a [l n]. simpl. destruct (Nat.ltb_spec (length l) n); simpl; auto with lia.
  - by intros A [[|a l] n].
Defined.
