(* ===== verification/Concurrent.v ===== *)
(** * Concurrent callers

    Threads or tasks that run one function each on shared cells: a local step
    relation says what one of them does in one atomic operation, and the system
    takes such a step of any of them. *)

From stdpp Require Import relations.
From S2P Require Import Prelude.

#[local] Open Scope Z_scope.
#[local] Open Scope list_scope.

(** ** Concurrent callers of one function *)

(** [C] is what a caller asks for, [P] where it is in the function. *)
Section Callers.
Context {Sh C P : Type} (local : Sh → C → P → Sh → P → Prop).

Record System := mk_System { shared : Sh; callers : list (C * P) }.

Inductive system_step : System → System → Prop :=
| caller_moves sh l i c p sh' p' :
    l !! i = Some (c, p) → local sh c p sh' p' →
    system_step (mk_System sh l) (mk_System sh' (<[i := (c, p')]> l)).

(** Where a caller is after one has moved. *)
Lemma insert_callers (l : list (C * P)) i c p p' : l !! i = Some (c, p) →
  ∀ j d q, <[i := (c, p')]> l !! j = Some (d, q) →
  (j = i ∧ d = c ∧ q = p') ∨ (j ≠ i ∧ l !! j = Some (d, q)).
Proof.
  intros Hi j d q Hj. destruct (decide (j = i)) as [->|Hne].
  - rewrite list_lookup_insert_eq in Hj by (by eapply lookup_lt_Some). left. naive_solver.
  - rewrite list_lookup_insert_ne in Hj by done. by right.
Qed.

Lemma insert_requests (l : list (C * P)) i c p p' :
  l !! i = Some (c, p) → (<[i := (c, p')]> l).*1 = l.*1.
Proof. intros Hi. rewrite list_fmap_insert. apply list_insert_id. by rewrite list_lookup_fmap, Hi. Qed.

Lemma elem_of_requests (l : list (C * P)) i c p : l !! i = Some (c, p) → c ∈ l.*1.
Proof.
  intros Hi. apply list_elem_of_fmap. exists (c, p). split; [done|]. by eapply list_elem_of_lookup_2.
Qed.

Lemma configs_kept s s' : rtc system_step s s' → (callers s').*1 = (callers s).*1.
Proof.
  induction 1 as [|s1 s2 s3 Hs _ IH]; [done|]. rewrite IH. destruct Hs as [sh l i c p sh' p' Hi _].
  by eapply insert_requests.
Qed.

(** One caller alone, and the callers one after the other. *)
Definition solo (c : C) (x y : Sh * P) : Prop := local x.1 c x.2 y.1 y.2.

Lemma solo_runs sh l i c p x : l !! i = Some (c, p) → rtc (solo c) (sh, p) x →
  rtc system_step (mk_System sh l) (mk_System x.1 (<[i := (c, x.2)]> l)).
Proof.
  intros Hi Hr. remember (sh, p) as start eqn:Hstart. revert x Hr.
  apply rtc_ind_r; [subst; by rewrite list_insert_id|intros [sh1 p1] [sh2 p2] _ Hs IH].
  eapply rtc_r; [exact IH|]. simpl in *.
  rewrite <- (list_insert_insert_eq l i (c, p2) (c, p1)).
  apply (caller_moves _ _ _ c p1); [|done]. apply list_lookup_insert_eq. by eapply lookup_lt_Some.
Qed.

Lemma all_finish (stop : P) :
  (∀ sh c p, ∃ sh', rtc (solo c) (sh, p) (sh', stop)) →
  ∀ s, ∃ sh', rtc system_step s (mk_System sh' (map (λ x, (x.1, stop)) (callers s))).
Proof.
  intros Hsolo [sh l]. simpl.
  enough (∀ n, (n ≤ length l)%nat → ∃ sh', rtc system_step (mk_System sh l)
    (mk_System sh' (map (λ x, (x.1, stop)) (take n l) ++ drop n l))) as Hn.
  { destruct (Hn (length l)) as [sh' Hr]; [lia|]. exists sh'.
    by rewrite take_ge, drop_ge, app_nil_r in Hr by lia. }
  induction n as [|n IH]; intros Hl; [by exists sh|]. destruct IH as [sh1 Hr]; [lia|].
  destruct (lookup_lt_is_Some_2 l n) as [[c p] Hn]; [lia|].
  destruct (Hsolo sh1 c p) as [sh2 Hs]. exists sh2. etrans; [exact Hr|].
  apply (solo_runs _ (map (λ x, (x.1, stop)) (take n l) ++ drop n l) n) in Hs.
  - rewrite (take_S_r _ _ _ Hn), map_app, <- app_assoc. rewrite (drop_S _ _ _ Hn) in Hs at 2.
    assert (length (map (λ x, (x.1, stop)) (take n l)) = n) as Hlen
      by (rewrite length_map, length_take_le; lia).
    by rewrite insert_app_r_alt, Hlen, Nat.sub_diag in Hs by lia.
  - rewrite lookup_app_r; rewrite ?length_map, length_take_le; try lia.
    by rewrite Nat.sub_diag, lookup_drop, Nat.add_0_r.
Qed.

Context (rank : C → P → nat).
Hypothesis local_rank : ∀ sh c p sh' p', local sh c p sh' p' → (rank c p' < rank c p)%nat.

Definition total_rank (s : System) : nat := sum_list_with (λ x, rank x.1 x.2) (callers s).

Lemma sum_list_with_insert {A} (f : A → nat) l i x y :
  l !! i = Some x → (sum_list_with f (<[i := y]> l) + f x = sum_list_with f l + f y)%nat.
Proof.
  revert i. induction l as [|z l IH]; intros [|i] Hi; simplify_eq/=; [lia|].
  specialize (IH i Hi). lia.
Qed.

(** Every run ends. *)
Lemma runs_bounded n s s' : nsteps system_step n s s' → (n ≤ total_rank s)%nat.
Proof.
  induction 1 as [|n s1 s2 s3 Hs _ IH]; [lia|]. destruct Hs as [sh l i c p sh' p' Hi Hl].
  unfold total_rank in *. simpl in *. apply local_rank in Hl.
  pose proof (sum_list_with_insert (λ x, rank x.1 x.2) l i (c, p) (c, p') Hi). simpl in *. lia.
Qed.
End Callers.
Arguments mk_System {_ _ _} _ _.
Arguments shared {_ _ _} _.
Arguments callers {_ _ _} _.

(** One step of the caller [i], then the rest of the run. *)
Ltac caller i rule := eapply rtc_l; [eapply (caller_moves _ _ _ i); [reflexivity|eapply rule; simpl]|].
