(* ===== verification/Borsh.v ===== *)
(** * Decoding of account data

    The account types of the programs derive [BorshDeserialize]: a value is
    read from the front of the data, field after field in the order of the
    declaration, integers in little-endian order, keys and byte arrays as they
    are.  The reading of the basic types is the borsh crate's ([Borsh], with its
    documented format as laws); the readers of the records are put together from
    it with [let^], where the records are.

    A reader either [reads n] (it takes exactly [n] bytes and fails on fewer
    only) or at least takes [n] bytes when it succeeds ([takes n]); both follow
    the structure of a reader. *)

From Stdlib Require Import String.
From S2P Require Import Prelude Solana.

#[local] Open Scope Z_scope.
#[local] Open Scope list_scope.

Definition Reader (A : Type) : Type := bytes → option (A * bytes).

Definition rret {A} (a : A) : Reader A := λ l, Some (a, l).
Definition rbind {A B} (r : Reader A) (k : A → Reader B) : Reader B := λ l,
  match r l with Some (a, l') => k a l' | None => None end.

Notation "'let^' x ':=' r 'in' k" := (rbind r (fun x => k))
  (at level 10, x binder, r at level 100, k at level 200,
   format "'[v' 'let^'  x  ':='  r  'in' '/' k ']'") : rust_scope.

Class Borsh := {
  read_uint : nat → Reader Z;
  read_bool : Reader bool;
  read_array : nat → Reader bytes;
  read_uint_law n l :
    read_uint n l = if Nat.leb n (length l) then Some (le_value (take n l), drop n l) else None;
  read_bool_law l :
    read_bool l = match l with
                  | 0 :: l' => Some (false, l')
                  | 1 :: l' => Some (true, l')
                  | _ => None
                  end;
  read_array_law n l :
    read_array n l = if Nat.leb n (length l) then Some (take n l, drop n l) else None;
}.

(** [Pubkey::from([read_u8; 32])]. *)
Definition from_bytes (l : bytes) : Pubkey := le_value (rev l).

Lemma from_to_bytes p : is_pubkey p → from_bytes (to_bytes p) = p.
Proof.
  unfold from_bytes, to_bytes, is_pubkey. intros Hp. rewrite rev_involutive.
  apply le_value_le_bytes. simpl. lia.
Qed.

Section Readers.
Context `{Borsh}.

Definition read_u8 : Reader Z := read_uint 1.
Definition read_u16 : Reader Z := read_uint 2.
Definition read_u32 : Reader Z := read_uint 4.
Definition read_u64 : Reader Z := read_uint 8.
Definition read_u128 : Reader Z := read_uint 16.
Definition read_key : Reader Pubkey := let^ l := read_array 32 in rret (from_bytes l).

(** [[T; n]]. *)
Fixpoint read_many {A} (n : nat) (r : Reader A) : Reader (list A) :=
  match n with
  | O => rret []
  | S n' => let^ a := r in let^ l := read_many n' r in rret (a :: l)
  end.

(** [borsh::from_slice] leaves no byte; [try_from_slice_unchecked] may. *)
Definition from_slice {A} (r : Reader A) (l : bytes) : option A :=
  match r l with Some (a, []) => Some a | _ => None end.
Definition try_from_slice_unchecked {A} (r : Reader A) (l : bytes) : option A := fst <$> r l.

(** The decoders of the account types: data of at least [size] bytes, of which
    the first [size] are read. *)
Definition decode_prefix {A} (size : nat) (r : Reader A) (data : bytes) : option A :=
  if bool_decide (length data < size)%nat then None else from_slice r (take size data).

(** ** How much is read *)

Definition takes {A} (n : nat) (r : Reader A) : Prop :=
  ∀ l a l', r l = Some (a, l') → (n ≤ length l)%nat ∧ l' = drop n l.
Definition reads {A} (n : nat) (r : Reader A) : Prop :=
  takes n r ∧ ∀ l, (n ≤ length l)%nat → is_Some (r l).

Lemma reads_takes {A} n (r : Reader A) : reads n r → takes n r.
Proof. by intros []. Qed.

Lemma takes_eq {A} n m (r : Reader A) : takes n r → n = m → takes m r.
Proof. by intros ? <-. Qed.
Lemma reads_eq {A} n m (r : Reader A) : reads n r → n = m → reads m r.
Proof. by intros ? <-. Qed.

Lemma takes_ret {A} (a : A) : takes 0 (rret a).
Proof. intros l b l' [= _ <-]. split; [lia|done]. Qed.
Lemma reads_ret {A} (a : A) : reads 0 (rret a).
Proof. split; [apply takes_ret|]. intros l _. by eexists. Qed.

Lemma takes_bind {A B} n m (r : Reader A) (k : A → Reader B) :
  takes n r → (∀ a, takes m (k a)) → takes (n + m) (rbind r k).
Proof.
  intros Hr Hk l b l'. unfold rbind. destruct (r l) as [[a l1]|] eqn:Hl; [|done].
  apply Hr in Hl as [Hn ->]. intros [Hm ->]%Hk. rewrite length_drop in Hm.
  rewrite drop_drop. split; [lia|done].
Qed.

Lemma reads_bind {A B} n m (r : Reader A) (k : A → Reader B) :
  reads n r → (∀ a, reads m (k a)) → reads (n + m) (rbind r k).
Proof.
  intros [Hr Hs] Hk. split; [apply takes_bind; [done|intros a; apply Hk]|].
  intros l Hl. destruct (Hs l) as [[a l'] Ha]; [lia|]. unfold rbind. rewrite Ha.
  apply Hr in Ha as [_ ->]. apply Hk. rewrite length_drop. lia.
Qed.

Lemma reads_uint n : reads n (read_uint n).
Proof.
  split; intros l; [intros a l'|intros Hl]; rewrite read_uint_law;
    destruct (Nat.leb_spec n (length l)); try done; [|lia]. by intros [= _ <-].
Qed.
Lemma reads_array n : reads n (read_array n).
Proof.
  split; intros l; [intros a l'|intros Hl]; rewrite read_array_law;
    destruct (Nat.leb_spec n (length l)); try done; [|lia]. by intros [= _ <-].
Qed.
Lemma takes_bool : takes 1 read_bool.
Proof.
  intros l a l'. rewrite read_bool_law. destruct l as [|[|[]|] l]; try done;
    intros [= _ <-]; (split; [simpl; lia|done]).
Qed.
Lemma reads_key : reads 32 read_key.
Proof.
  eapply reads_eq; [apply reads_bind; [apply reads_array|intros; apply reads_ret]|done].
Qed.
Lemma reads_many {A} n m (r : Reader A) : reads m r → reads (n * m) (read_many n r).
Proof.
  intros Hr. induction n as [|n IH]; [apply reads_ret|].
  eapply reads_eq; [apply reads_bind; [done|intros a]|].
  - apply reads_bind; [done|intros l; apply reads_ret].
  - simpl. lia.
Qed.

(** A decoder whose reader reads just its size accepts any data that is long
    enough. *)
Lemma decode_reads {A} size (r : Reader A) data :
  reads size r → is_Some (decode_prefix size r data) ↔ (size ≤ length data)%nat.
Proof.
  intros [Ht Hs]. unfold decode_prefix, from_slice. case_bool_decide as Hl.
  - split; [by intros []|lia].
  - split; [lia|]. intros _.
    assert (Htake : length (take size data) = size) by (rewrite length_take; lia).
    destruct (Hs (take size data)) as [[a l] Ha]; [lia|]. rewrite Ha.
    apply Ht in Ha as [_ ->]. rewrite drop_ge by lia. by eexists.
Qed.

Lemma decode_Some {A} size (r : Reader A) data a :
  decode_prefix size r data = Some a → (size ≤ length data)%nat ∧ ∃ l, r (take size data) = Some (a, l).
Proof.
  unfold decode_prefix, from_slice. case_bool_decide as Hl; [done|].
  destruct (r _) as [[b [|]]|]; try done. intros [= ->]. split; [lia|]. by eexists.
Qed.
End Readers.

Lemma take_drop_take {A} n k m (l : list A) :
  (k + n ≤ m)%nat → take n (drop k (take m l)) = take n (drop k l).
Proof. intros Hm. by rewrite !take_drop_commute, take_take, Nat.min_l. Qed.

(** What a bind of known length has read. *)
Lemma rbind_inv `{Borsh} {A B} n (r : Reader A) (k : A → Reader B) l b l' :
  takes n r → rbind r k l = Some (b, l') → ∃ a, r l = Some (a, drop n l) ∧ k a (drop n l) = Some (b, l').
Proof.
  intros Hr. unfold rbind. destruct (r l) as [[a l1]|] eqn:Hl; [|done].
  pose proof (Hr _ _ _ Hl) as [_ ->]. eauto.
Qed.

Lemma read_key_inv `{Borsh} l k l' : read_key l = Some (k, l') → k = from_bytes (take 32 l).
Proof.
  unfold read_key, rbind. rewrite read_array_law. destruct (Nat.leb _ _); [|done]. by intros [= <- _].
Qed.

Create HintDb reads.
#[export] Hint Resolve reads_ret reads_uint reads_array reads_key reads_many takes_ret takes_bool
  reads_takes : reads.
#[export] Hint Unfold read_u8 read_u16 read_u32 read_u64 read_u128 : reads.

(** Follow the structure of a reader of the size [n] given in the goal. *)
Ltac reads_tac :=
  lazymatch goal with
  | |- reads _ _ => eapply reads_eq
  | |- takes _ _ => eapply takes_eq
  end;
  [repeat lazymatch goal with
   | |- reads _ (rbind _ _) => eapply reads_bind; [|intros ?]
   | |- takes _ (rbind _ _) => eapply takes_bind; [|intros ?]
   | |- reads _ _ => try progress autounfold with reads; solve [eauto with reads]
   | |- takes _ _ => try progress autounfold with reads; solve [eauto with reads]
   end
  |reflexivity].

(** Split the run [H] of a reader at its binds; the keys read are named by their
    place. *)
Ltac read_inv H :=
  repeat
    (let a := fresh "a" in let R := fresh "R" in
     eapply rbind_inv in H as (a & R & H);
     [|autounfold with reads; solve [eauto with reads]];
     first [apply read_key_inv in R; subst a | clear R]).
