(* ===== verification/PumpSwapUtils.v ===== *)
(** * PumpSwap pools: derived addresses, decoding, search
    (sdk instruction/utils/{pumpswap,pumpswap_types}.rs)

    Reading the basic types is the borsh crate's ([Borsh]); the RPC node and the
    clock are parameters too ([Rpc]).  Two queries issued together by
    [tokio::join!] are modelled in the order they are written. *)

From Stdlib Require Import String.
From S2P Require Import Prelude Solana Accounts Spl FastFn PumpFunUtils Effects Borsh.

#[local] Open Scope string_scope.
#[local] Open Scope Z_scope.
#[local] Open Scope list_scope.

(* sdk instruction/utils/pumpswap_types.rs:5-22 Pool *)
Record Pool := mk_Pool {
  pool_bump : Z;
  pool_index : Z;
  pool_creator : Pubkey;
  pool_base_mint : Pubkey;
  pool_quote_mint : Pubkey;
  pool_lp_mint : Pubkey;
  pool_base_account : Pubkey;
  pool_quote_account : Pubkey;
  pool_lp_supply : Z;
  pool_coin_creator : Pubkey;
  pool_mayhem : bool;
  pool_cashback : bool;
  pool_reserved : bytes;
}.

#[export] Instance Pool_eq_dec : EqDecision Pool.
Proof. solve_decision. Defined.

(* sdk instruction/utils/pumpswap_types.rs:25-25 POOL_SIZE *)
Definition POOL_SIZE : nat := 244.

(** The derived reader: the fields in order. *)
(* sdk instruction/utils/pumpswap_types.rs:5-22 Pool, BorshDeserialize *)
Definition read_pool `{Borsh} : Reader Pool :=
  let^ bump := read_u8 in
  let^ index := read_u16 in
  let^ creator := read_key in
  let^ base_mint := read_key in
  let^ quote_mint := read_key in
  let^ lp_mint := read_key in
  let^ base_account := read_key in
  let^ quote_account := read_key in
  let^ lp_supply := read_u64 in
  let^ coin_creator := read_key in
  let^ mayhem := read_bool in
  let^ cashback := read_bool in
  let^ reserved := read_array 7 in
  rret (mk_Pool bump index creator base_mint quote_mint lp_mint base_account quote_account
          lp_supply coin_creator mayhem cashback reserved).

(* sdk instruction/utils/pumpswap_types.rs:27-32 pool_decode *)
Definition pool_decode `{Borsh} (data : bytes) : option Pool :=
  decode_prefix POOL_SIZE read_pool data.

Lemma pool_takes `{Borsh} : takes POOL_SIZE read_pool.
Proof. unfold read_pool. reads_tac. Qed.

(** Where the two mints are. *)
Lemma pool_mints `{Borsh} l pool l' :
  read_pool l = Some (pool, l') →
  pool_base_mint pool = from_bytes (take 32 (drop 35 l))
  ∧ pool_quote_mint pool = from_bytes (take 32 (drop 67 l)).
Proof. unfold read_pool. intros Hr. read_inv Hr. injection Hr as <- _. rewrite ?drop_drop. done. Qed.

(** [&data[8..]]: panics on fewer than eight bytes. *)
Definition from_8 (data : bytes) : exec bytes :=
  if bool_decide (length data < 8)%nat then Panic else Val (drop 8 data).

(* sdk instruction/utils/pumpswap.rs:166-172 get_mayhem_fee_recipient_random *)
Definition ps_get_mayhem_fee_recipient_random (rand : nat) : Pubkey * AccountMeta :=
  let recipient := choose rand PS_MAYHEM_FEE_RECIPIENTS PS_MAYHEM_FEE_RECIPIENT in
  (recipient, mk_meta recipient false false).

Section Addresses.
Context `{Sdk}.

(* sdk instruction/utils/pumpswap.rs:176-182 get_pool_v2_pda *)
Definition get_pool_v2_pda (base_mint : Pubkey) : exec (option Pubkey) :=
  let* pda := find_program_address [POOL_V2_SEED; to_bytes base_mint] PS_AMM_PROGRAM in
  Val (Some pda).

(* sdk instruction/utils/pumpswap.rs:186-192 get_pump_pool_authority_pda *)
Definition get_pump_pool_authority_pda (mint : Pubkey) : exec Pubkey :=
  find_program_address [POOL_AUTHORITY_SEED; to_bytes mint] PUMP_PROGRAM_ID.

(* sdk instruction/utils/pumpswap.rs:197-211 get_canonical_pool_pda *)
Definition get_canonical_pool_pda (mint : Pubkey) : exec Pubkey :=
  let* authority := get_pump_pool_authority_pda mint in
  find_program_address
    [PS_POOL_SEED; u16_le_bytes 0; to_bytes authority; to_bytes mint; to_bytes WSOL_TOKEN_ACCOUNT]
    PS_AMM_PROGRAM.

(* sdk instruction/utils/pumpswap.rs:219-225 coin_creator_vault_authority *)
Definition coin_creator_vault_authority (coin_creator : Pubkey) : exec Pubkey :=
  find_program_address [ascii_bytes "creator_vault"; to_bytes coin_creator] PS_AMM_PROGRAM.

(* sdk instruction/utils/pumpswap.rs:227-235 coin_creator_vault_ata *)
Definition coin_creator_vault_ata (coin_creator quote_mint : Pubkey) : exec Pubkey :=
  let* creator_vault_authority := coin_creator_vault_authority coin_creator in
  get_associated_token_address_with_program_id creator_vault_authority quote_mint TOKEN_PROGRAM.

(* sdk instruction/utils/pumpswap.rs:283-288 get_global_volume_accumulator_pda *)
Definition get_global_volume_accumulator_pda : option Pubkey :=
  try_pda [GLOBAL_VOLUME_ACCUMULATOR_SEED] PS_AMM_PROGRAM.

(* sdk instruction/utils/pumpswap.rs:454-459 get_fee_config_pda *)
Definition get_fee_config_pda : option Pubkey :=
  try_pda [FEE_CONFIG_SEED; to_bytes PS_AMM_PROGRAM] PS_FEE_PROGRAM.
End Addresses.

(* sdk instruction/utils/pumpswap.rs:237-245 fee_recipient_ata *)
Definition fee_recipient_ata (fee_recipient quote_mint : Pubkey) : prog Pubkey :=
  get_associated_token_address_with_program_id_fast fee_recipient quote_mint TOKEN_PROGRAM.

(* sdk instruction/utils/pumpswap.rs:247-257 get_user_volume_accumulator_pda *)
Definition ps_get_user_volume_accumulator_pda (user : Pubkey) : prog (option Pubkey) :=
  get_pda (PumpSwapUserVolume user).

(* sdk instruction/utils/pumpswap.rs:260-267 get_user_volume_accumulator_wsol_ata *)
Definition get_user_volume_accumulator_wsol_ata (user : Pubkey) : prog (option Pubkey) :=
  let! accumulator := ps_get_user_volume_accumulator_pda user in
  match accumulator with
  | None => Ret None
  | Some accumulator =>
      let! ata := get_associated_token_address_with_program_id_fast accumulator
                    WSOL_TOKEN_ACCOUNT TOKEN_PROGRAM in
      Ret (Some ata)
  end.

(* sdk instruction/utils/pumpswap.rs:270-281 get_user_volume_accumulator_quote_ata *)
Definition get_user_volume_accumulator_quote_ata
    (user quote_mint quote_token_program : Pubkey) : prog (option Pubkey) :=
  let! accumulator := ps_get_user_volume_accumulator_pda user in
  match accumulator with
  | None => Ret None
  | Some accumulator =>
      let! ata := get_associated_token_address_with_program_id_fast accumulator
                    quote_mint quote_token_program in
      Ret (Some ata)
  end.

(** ** Looking pools up on chain *)

Section Search.
Context `{Sdk} `{KeyText} `{Borsh} {E : Type} `{Rpc E}.

(* sdk instruction/utils/pumpswap.rs:290-300 fetch_pool *)
Definition fetch_pool (pool_address : Pubkey) : M E Pool :=
  let% account := call (rpc_get_account pool_address) in
  if negb (acc_owner account =? PS_AMM_PROGRAM)
  then mfail "Account is not owned by PumpSwap program"
  else
    let% payload := of_ex (from_8 (acc_data account)) in
    of_res (ok_or (pool_decode payload) "Failed to decode pool").

(* sdk instruction/utils/pumpswap.rs:303-304 POOL_DATA_LEN_SPL, POOL_DATA_LEN_T22 *)
Definition POOL_DATA_LENS : Z * Z := (8 + 244, 643).

(* sdk instruction/utils/pumpswap.rs:307-339 get_program_accounts_both_sizes *)
Definition get_program_accounts_both_sizes (memcmp_offset : Z) (mint : Pubkey) :
    M E (list (Pubkey * Account)) :=
  let query size := attempt (call (rpc_get_program_accounts PS_AMM_PROGRAM size memcmp_offset mint)) in
  let unwrap_or_default (r : result string (list (Pubkey * Account))) :=
    match r with Ok l => l | Err _ => [] end in
  let% spl_result := query POOL_DATA_LENS.1 in
  let% t22_result := query POOL_DATA_LENS.2 in
  mret (unwrap_or_default spl_result ++ unwrap_or_default t22_result).

(* sdk instruction/utils/pumpswap.rs:341-352 decode_pool_accounts *)
Definition decode_pool_accounts (accounts : list (Pubkey * Account)) : list (Pubkey * Pool) :=
  omap (λ '(addr, acc),
          if bool_decide (8 < length (acc_data acc))%nat
          then (λ pool, (addr, pool)) <$> pool_decode (drop 8 (acc_data acc))
          else None) accounts.

(** The shared body of the two searches: the largest supply of pool shares
    first, the earlier of equals. *)
Definition best_pool (offset : Z) (mint : Pubkey) (none_decoded : string) : M E (Pubkey * Pool) :=
  let% accounts := get_program_accounts_both_sizes offset mint in
  if bool_decide (accounts = []) then mfail ("No pool found for mint " +:+ pubkey_to_string mint)
  else
    match sort_desc (λ p, pool_lp_supply p.2) (decode_pool_accounts accounts) with
    | [] => mfail (none_decoded +:+ pubkey_to_string mint)
    | p :: _ => mret p
    end.

(* sdk instruction/utils/pumpswap.rs:354-369 find_by_base_mint *)
Definition find_by_base_mint (base_mint : Pubkey) : M E (Pubkey * Pool) :=
  best_pool 43 base_mint "No valid pool decoded for mint ".

(* sdk instruction/utils/pumpswap.rs:371-386 find_by_quote_mint *)
Definition find_by_quote_mint (quote_mint : Pubkey) : M E (Pubkey * Pool) :=
  best_pool 75 quote_mint "No valid pool decoded for quote_mint ".

(** One derived address tried by [find_by_mint]: the pool if it trades this
    mint, else the line for the diagnosis. *)
(* sdk instruction/utils/pumpswap.rs:403-407 find_by_mint, one address *)
Definition try_address (tag : string) (address mint : Pubkey) : M E (result string Pool) :=
  let% r := attempt (fetch_pool address) in
  mret match r with
       | Ok pool =>
           if pool_base_mint pool =? mint then Ok pool
           else Err (tag +:+ " 账户存在但 base_mint 不匹配")
       | Err e => Err (tag +:+ " get_account/decode 失败: " +:+ e)
       end.

(** One search tried by [find_by_mint], within three seconds. *)
Definition try_search (tag : string) (search : M E (Pubkey * Pool)) :
    M E (result string (Pubkey * Pool)) :=
  let% r := timeout 3000 search in
  mret match r with
       | Some (Ok p) => Ok p
       | Some (Err e) => Err ("getProgramAccounts(" +:+ tag +:+ "): " +:+ e)
       | None => Err ("getProgramAccounts(" +:+ tag +:+ "): timed out (3s)")
       end.

(** [match r { Ok(..) => return Ok(..), Err(..) => diag.push(..) }]. *)
Definition or_else {A} (r : result string A) (diag : list string)
    (k : list string → M E A) : M E A :=
  match r with Ok a => mret a | Err d => k (diag ++ [d]) end.

(* sdk instruction/utils/pumpswap.rs:394-438 find_by_mint *)
Definition find_by_mint (mint : Pubkey) : M E (Pubkey * Pool) :=
  let% v2 := of_ex (get_pool_v2_pda mint) in
  let% r1 := match v2 with
             | Some address =>
                 let% r := try_address "PDA(v2)" address mint in
                 mret match r with
                      | Ok pool => Ok (address, pool)
                      | Err d => Err ["PDA(v2)=" +:+ pubkey_to_string address; d]
                      end
             | None => mret (Err [])
             end in
  match r1 with
  | Ok p => mret p
  | Err diag =>
      let% canonical_address := of_ex (get_canonical_pool_pda mint) in
      let diag := diag ++ ["canonical=" +:+ pubkey_to_string canonical_address] in
      let% r2 := try_address "canonical" canonical_address mint in
      or_else (match r2 with Ok pool => Ok (canonical_address, pool) | Err d => Err d end) diag
      (λ diag,
        let% r3 := try_search "base_mint" (find_by_base_mint mint) in
        or_else r3 diag (λ diag,
          let% r4 := try_search "quote_mint" (find_by_quote_mint mint) in
          or_else r4 diag (λ diag,
            mfail ("No pool found for mint " +:+ pubkey_to_string mint
                   +:+ ". diag: " +:+ String.concat "; " diag))))
  end.

(* sdk instruction/utils/pumpswap.rs:214-217 find_pool *)
Definition find_pool (mint : Pubkey) : M E Pubkey :=
  let% r := find_by_mint mint in mret r.1.

(** A token balance as the node writes it. *)
Definition token_balance (account : Pubkey) : M E string :=
  call (rpc_get_token_account_balance account).

(* sdk instruction/utils/pumpswap.rs:440-451 get_token_balances *)
Definition get_token_balances (pool : Pool) : M E (Z * Z) :=
  let% base_balance := token_balance (pool_base_account pool) in
  let% quote_balance := token_balance (pool_quote_account pool) in
  let% base_amount := of_res (parse_u64 base_balance) in
  let% quote_amount := of_res (parse_u64 quote_balance) in
  mret (base_amount, quote_amount).

(** ** What a search returns *)

(** Looking at this address, the node answers with an account of the AMM program
    that decodes to [pool], and the pool has the mint as its base. *)
Definition pool_at (address mint : Pubkey) (e : E) (pool : Pool) : Prop :=
  ∃ account, (rpc_get_account address e).1 = Ok account
    ∧ acc_owner account = PS_AMM_PROGRAM ∧ (8 ≤ length (acc_data account))%nat
    ∧ pool_decode (drop 8 (acc_data account)) = Some pool ∧ pool_base_mint pool = mint.

Definition no_pool_at (address mint : Pubkey) (e : E) : Prop := ∀ pool, ¬ pool_at address mint e pool.

(** The environment after the look at an address. *)
Definition looked (address : Pubkey) (e : E) : E := (rpc_get_account address e).2.

(** A search in time lists the pool, the largest of those listed. *)
Definition search_finds (offset : Z) (mint : Pubkey) (e : E) (address : Pubkey) (pool : Pool)
    (e' : E) : Prop :=
  rpc_timeout 3000 e = None ∧ ∃ accounts,
    get_program_accounts_both_sizes offset mint e = Val (Ok accounts, e')
    ∧ (address, pool) ∈ decode_pool_accounts accounts
    ∧ ∀ a q, (a, q) ∈ decode_pool_accounts accounts → pool_lp_supply q ≤ pool_lp_supply pool.

(** A search takes too long, or lists no pool. *)
Definition search_fails (offset : Z) (mint : Pubkey) (e e' : E) : Prop :=
  rpc_timeout 3000 e = Some e' ∨
  rpc_timeout 3000 e = None ∧ ∃ accounts,
    get_program_accounts_both_sizes offset mint e = Val (Ok accounts, e')
    ∧ decode_pool_accounts accounts = [].

Lemma fetch_pool_run address e r e' :
  fetch_pool address e = Val (r, e') →
  e' = looked address e ∧ ∀ pool, r = Ok pool ↔
    ∃ account, (rpc_get_account address e).1 = Ok account
    ∧ acc_owner account = PS_AMM_PROGRAM ∧ (8 ≤ length (acc_data account))%nat
    ∧ pool_decode (drop 8 (acc_data account)) = Some pool.
Proof.
  unfold fetch_pool, call, looked, mbind, mfail, of_ex, of_res.
  destruct (rpc_get_account address e) as [[account|x] e1]; cbn [fst snd];
    [|intros [= <- <-]; split; [done|]; naive_solver].
  destruct (Z.eqb_spec (acc_owner account) PS_AMM_PROGRAM); cbn [negb];
    [|intros [= <- <-]; split; [done|]; naive_solver].
  unfold from_8. case_bool_decide; cbn [exec_bind]; [done|]. intros [= <- <-]. split; [done|].
  intros pool. destruct (pool_decode _) as [q|] eqn:Hd; simpl; split.
  - intros [= ->]. exists account. split; [done|]. split; [done|]. split; [lia|done].
  - intros (? & [= <-] & _ & _ & Hq). rewrite Hd in Hq. by injection Hq as ->.
  - done.
  - intros (? & [= <-] & _ & _ & Hq). by rewrite Hd in Hq.
Qed.

Lemma try_address_run tag address mint e r e' :
  try_address tag address mint e = Val (r, e') →
  e' = looked address e ∧
  ((∃ pool, r = Ok (Ok pool) ∧ pool_at address mint e pool)
   ∨ (∃ d, r = Ok (Err d)) ∧ no_pool_at address mint e).
Proof.
  unfold try_address, mbind, attempt, mret, no_pool_at, pool_at.
  destruct (fetch_pool address e) as [[x e1]|] eqn:Hf; [|done].
  apply fetch_pool_run in Hf as [-> Hx]. intros [= <- <-]. split; [done|].
  destruct x as [pool|d].
  - destruct (proj1 (Hx pool) eq_refl) as (account & Ha & Ho & Hl & Hd).
    destruct (Z.eqb_spec (pool_base_mint pool) mint).
    + left. exists pool. split; [done|]. by exists account.
    + right. split; [by eexists|]. intros q (account' & Ha' & _ & _ & Hd' & Hq).
      rewrite Ha in Ha'. injection Ha' as <-. rewrite Hd in Hd'. by injection Hd' as ->.
  - right. split; [by eexists|]. intros q (account & Ha & Ho & Hl & Hd & _).
    by discriminate (proj2 (Hx q) (ex_intro _ account (conj Ha (conj Ho (conj Hl Hd))))).
Qed.

Lemma both_sizes_total offset mint e :
  ∃ accounts e', get_program_accounts_both_sizes offset mint e = Val (Ok accounts, e').
Proof.
  unfold get_program_accounts_both_sizes, mbind, attempt, call, mret.
  destruct (rpc_get_program_accounts _ _ _ _ e) as [r1 e1].
  destruct (rpc_get_program_accounts _ _ _ _ e1) as [r2 e2]. by eexists _, _.
Qed.

Lemma best_pool_run offset mint none_decoded e r e' :
  best_pool offset mint none_decoded e = Val (r, e') →
  ∃ accounts, get_program_accounts_both_sizes offset mint e = Val (Ok accounts, e') ∧
  match r with
  | Ok p => p ∈ decode_pool_accounts accounts
            ∧ ∀ a q, (a, q) ∈ decode_pool_accounts accounts →
                     pool_lp_supply q ≤ pool_lp_supply p.2
  | Err _ => decode_pool_accounts accounts = []
  end.
Proof.
  unfold best_pool, mbind.
  destruct (both_sizes_total offset mint e) as (accounts & e1 & ->).
  case_bool_decide as Hn; [intros [= <- <-]; exists accounts; by rewrite Hn|].
  set (key := λ p : Pubkey * Pool, pool_lp_supply p.2) in *.
  pose proof (sort_desc_perm key (decode_pool_accounts accounts)) as Hp.
  pose proof (sort_desc_desc key (decode_pool_accounts accounts)) as Hd.
  destruct (sort_desc key (decode_pool_accounts accounts)) as [|p l].
  - intros [= <- <-]. exists accounts. split; [done|]. by apply Permutation_nil.
  - intros [= <- <-]. exists accounts. split; [done|]. rewrite <- Hp.
    split; [by left|]. intros b q Hq. rewrite <- Hp in Hq.
    apply list_elem_of_lookup in Hq as [i Hi].
    apply (Hd 0%nat i p (b, q)); [lia|done..].
Qed.

Lemma try_search_run tag offset mint none_decoded e r e' :
  try_search tag (best_pool offset mint none_decoded) e = Val (r, e') →
  (∃ p, r = Ok (Ok p) ∧ search_finds offset mint e p.1 p.2 e')
  ∨ (∃ d, r = Ok (Err d)) ∧ search_fails offset mint e e'.
Proof.
  unfold try_search, timeout, mbind, mret, search_finds, search_fails, attempt.
  destruct (rpc_timeout 3000 e) as [e1|]; [intros [= <- <-]; by eauto|].
  destruct (best_pool offset mint none_decoded e) as [[x e1]|] eqn:Hb; [|done].
  apply best_pool_run in Hb as (accounts & Hg & Hx). intros [= <- <-]. destruct x as [[a q]|d].
  - left. by exists (a, q); eauto 6.
  - right. split; [by eexists|]. right. eauto.
Qed.

(** Neither of the two derived addresses holds a pool of the mint; [e'] is the
    environment after both have been looked at. *)
Definition derived_fail (mint v2 canonical : Pubkey) (e e' : E) : Prop :=
  no_pool_at v2 mint e ∧ get_canonical_pool_pda mint = Val canonical
  ∧ no_pool_at canonical mint (looked v2 e) ∧ e' = looked canonical (looked v2 e).

(** The outcomes of [find_by_mint], in the order in which they are tried. *)
Lemma find_by_mint_run mint e r e' :
  find_by_mint mint e = Val (r, e') →
  ∃ v2, get_pool_v2_pda mint = Val (Some v2) ∧
  ((∃ pool, r = Ok (v2, pool) ∧ pool_at v2 mint e pool ∧ e' = looked v2 e)
   ∨ (∃ canonical pool, r = Ok (canonical, pool) ∧ no_pool_at v2 mint e
        ∧ get_canonical_pool_pda mint = Val canonical
        ∧ pool_at canonical mint (looked v2 e) pool ∧ e' = looked canonical (looked v2 e))
   ∨ ∃ canonical e2, derived_fail mint v2 canonical e e2 ∧
       ((∃ p, r = Ok p ∧ search_finds 43 mint e2 p.1 p.2 e')
        ∨ ∃ e3, search_fails 43 mint e2 e3 ∧
           ((∃ p, r = Ok p ∧ search_finds 75 mint e3 p.1 p.2 e')
            ∨ (∃ d, r = Err d) ∧ search_fails 75 mint e3 e'))).
Proof.
  unfold find_by_mint, derived_fail. unfold mbind at 1, of_ex at 1.
  destruct (get_pool_v2_pda mint) as [o|] eqn:Hv; [|done].
  unfold get_pool_v2_pda in Hv. destruct (find_program_address _ _) as [v2|]; [|done].
  injection Hv as <-. cbn [exec_bind]. intros Hf. exists v2. split; [done|]. revert Hf.
  unfold mbind at 1 2.
  destruct (try_address "PDA(v2)" v2 mint e) as [[r1 e1]|] eqn:T1; [|done].
  apply try_address_run in T1 as [-> [(pool & -> & Hat)|[[d ->] Hno]]]; cbn [mret].
  { intros [= <- <-]. left. eauto. }
  unfold mbind at 1, of_ex at 1.
  destruct (get_canonical_pool_pda mint) as [canonical|]; [|done]. cbn [exec_bind].
  unfold mbind at 1.
  destruct (try_address "canonical" canonical mint (looked v2 e)) as [[r2 e2]|] eqn:T2; [|done].
  apply try_address_run in T2 as [-> [(pool & -> & Hat)|[[d2 ->] Hno2]]]; unfold or_else at 1.
  { intros [= <- <-]. right; left. by exists canonical, pool. }
  intros Hf. right; right. eexists canonical, _. split; [done|]. revert Hf.
  unfold mbind at 1. destruct (try_search "base_mint" _ _) as [[r3 e3]|] eqn:T3; [|done].
  apply try_search_run in T3 as [(p & -> & Hp)|[[d3 ->] Hp]]; unfold or_else at 1.
  { intros [= <- <-]. left. by exists p. }
  intros Hf. right. exists e3. split; [done|]. revert Hf.
  unfold mbind at 1. destruct (try_search "quote_mint" _ _) as [[r4 e4]|] eqn:T4; [|done].
  apply try_search_run in T4 as [(p & -> & Hp')|[[d4 ->] Hp']]; unfold or_else; intros [= <- <-].
  - left. by exists p.
  - right. split; [by eexists|done].
Qed.

(** The node applies the [Memcmp] filter of a query. *)
Definition memcmp_honoured : Prop := ∀ program size offset k e l e',
  rpc_get_program_accounts program size offset k e = (Ok l, e') →
  Forall (λ a, take 32 (drop (Z.to_nat offset) (acc_data a.2)) = to_bytes k) l.

Lemma both_sizes_honoured offset mint e accounts e' :
  memcmp_honoured → get_program_accounts_both_sizes offset mint e = Val (Ok accounts, e') →
  Forall (λ a, take 32 (drop (Z.to_nat offset) (acc_data a.2)) = to_bytes mint) accounts.
Proof.
  unfold get_program_accounts_both_sizes. intros Hh Hg. m_inv. subst accounts.
  apply Forall_app. unfold call in *. injection R as R. injection R0 as R0.
  split; [destruct a|destruct a0]; by eauto.
Qed.

(** The two offsets of the searches are those of the two mints. *)
Lemma listed_mint mint e address pool e' :
  is_pubkey mint → memcmp_honoured →
  (search_finds 43 mint e address pool e' → pool_base_mint pool = mint)
  ∧ (search_finds 75 mint e address pool e' → pool_quote_mint pool = mint).
Proof.
  intros Hm Hh.
  split; intros (_ & accounts & Hg & Hin & _); apply both_sizes_honoured in Hg; try done;
    apply list_elem_of_omap in Hin as ([a acc] & Hin & Hd);
    rewrite Forall_forall in Hg; specialize (Hg _ Hin); simpl in Hg;
    case_bool_decide; try done; apply fmap_Some in Hd as (q & Hd & [= <- <-]);
    apply decode_Some in Hd as (_ & l & Hd); apply pool_mints in Hd as [Hb Hq].
  all: rewrite ?Hb, ?Hq, <- (from_to_bytes mint), <- Hg by done; f_equal.
  all: rewrite take_drop_take, drop_drop by (unfold POOL_SIZE; lia); done.
Qed.

(** C23. The pool found for a mint is the first that is found in this order, each
    place being looked at only when those before it have failed: the account at
    the derived v2 address, if it is of the AMM program, decodes and has the
    mint as its base; the account at the canonical address, on the same terms;
    the largest pool that the node lists, within three seconds, with the mint as
    base; the largest listed, within three more, with the mint as quote.  Every
    pool found trades the mint, if the node applies the filter of a query, and
    there is an error only when all four have failed.  (The search panics, and
    returns nothing, at an account of the program of fewer than eight bytes.) *)
Theorem find_by_mint_sound mint e r e' :
  is_pubkey mint → memcmp_honoured →
  find_by_mint mint e = Val (r, e') →
  ∃ v2, get_pool_v2_pda mint = Val (Some v2) ∧
  match r with
  | Ok (address, pool) =>
      (address = v2 ∧ pool_at v2 mint e pool)
      ∨ ∃ canonical, get_canonical_pool_pda mint = Val canonical ∧ no_pool_at v2 mint e ∧
        ((address = canonical ∧ pool_at canonical mint (looked v2 e) pool)
         ∨ ∃ e2, derived_fail mint v2 canonical e e2 ∧
           ((search_finds 43 mint e2 address pool e' ∧ pool_base_mint pool = mint)
            ∨ ∃ e3, search_fails 43 mint e2 e3
                 ∧ search_finds 75 mint e3 address pool e' ∧ pool_quote_mint pool = mint))
  | Err _ =>
      ∃ canonical e2 e3, derived_fail mint v2 canonical e e2
        ∧ search_fails 43 mint e2 e3 ∧ search_fails 75 mint e3 e'
  end.
Proof.
  intros Hm Hh (v2 & Hv & Hf)%find_by_mint_run. exists v2. split; [done|].
  destruct Hf as [(pool & -> & Hat & _)|[(canonical & pool & -> & Hno & Hc & Hat & _)|Hf]];
    [by left|right; exists canonical; by auto|].
  destruct Hf as (canonical & e2 & Hd & Hf). pose proof Hd as (Hno & Hc & _).
  destruct Hf as [([a q] & -> & Hs)|(e3 & Hf & [([a q] & -> & Hs)|[[d ->] Hs]])].
  - right. exists canonical. split; [done|]. split; [done|]. right. exists e2. split; [done|]. left.
    split; [done|]. by eapply (proj1 (listed_mint _ _ _ _ _ Hm Hh)).
  - right. exists canonical. split; [done|]. split; [done|]. right. exists e2. split; [done|]. right.
    exists e3. split; [done|]. split; [done|]. by eapply (proj2 (listed_mint _ _ _ _ _ Hm Hh)).
  - by exists canonical, e2, e3.
Qed.
End Search.

(** ** Witness *)

Definition toy_borsh : Borsh.
Proof.
  refine {|
    read_uint := λ n l, if Nat.leb n (length l) then Some (le_value (take n l), drop n l) else None;
    read_bool := λ l, match l with 0 :: l' => Some (false, l') | 1 :: l' => Some (true, l') | _ => None end;
    read_array := λ n l, if Nat.leb n (length l) then Some (take n l, drop n l) else None;
  |}; done.
Defined.

Definition pool_bytes (creator base coin_creator mayhem : Z) : bytes :=
  repeat 0 8 ++ [255; 0; 0] ++ to_bytes creator ++ to_bytes base ++ to_bytes WSOL_TOKEN_ACCOUNT
  ++ to_bytes 3 ++ to_bytes 4 ++ to_bytes 5 ++ u64_le_bytes 1000 ++ to_bytes coin_creator
  ++ [mayhem; 0] ++ repeat 0 7.

Definition toy_v2 (mint : Pubkey) : Pubkey :=
  match @get_pool_v2_pda toy_sdk mint with Val (Some p) => p | _ => 0 end.

(** A node that knows the v2 pool of mint 77 and its reserves. *)
Definition toy_node : Sim :=
  mk_Sim
    (λ p, if p =? toy_v2 77 then Some (mk_Account (pool_bytes 9 77 10 1) PS_AMM_PROGRAM) else None)
    (λ p, if p =? 4 then Some "1000000000" else if p =? 5 then Some "30000000000" else None)
    50000000000 0 [].

Definition toy_pool : Pool :=
  mk_Pool 255 0 9 77 WSOL_TOKEN_ACCOUNT 3 4 5 1000 10 true false (repeat 0 7).

Definition toy_canonical (mint : Pubkey) : Pubkey :=
  match @get_canonical_pool_pda toy_sdk mint with Val p => p | _ => 0 end.

(** A node where the v2 address of mint 77 holds the pool of another mint and the canonical one
    its own. *)
Definition toy_canonical_node : Sim :=
  mk_Sim
    (λ p, if p =? toy_v2 77 then Some (mk_Account (pool_bytes 9 78 10 1) PS_AMM_PROGRAM)
          else if p =? toy_canonical 77 then Some (mk_Account (pool_bytes 9 77 10 1) PS_AMM_PROGRAM)
          else None)
    (λ _, None) 0 0 [].

Abbreviation toy_find mint node := (@find_by_mint toy_sdk toy_text toy_borsh Sim _ mint node).

Lemma toy_find_eq :
  toy_find 77 toy_canonical_node = Val (Ok (toy_canonical 77, toy_pool), toy_canonical_node).
Proof. vm_compute. reflexivity. Qed.

Lemma find_by_mint_sound_witness :
  toy_canonical 77 ≠ toy_v2 77
  ∧ @pool_at toy_borsh Sim _ (toy_canonical 77) 77 toy_canonical_node toy_pool
  ∧ @no_pool_at toy_borsh Sim _ (toy_v2 77) 77 toy_canonical_node.
Proof.
  assert (Hne : toy_canonical 77 ≠ toy_v2 77) by (vm_compute; discriminate).
  split; [exact Hne|].
  destruct (@find_by_mint_sound toy_sdk toy_text toy_borsh Sim _ 77 toy_canonical_node
    (Ok (toy_canonical 77, toy_pool)) toy_canonical_node) as (v2 & Hv & Hf).
  - by split.
  - by intros program size offset k e l e' [= <- _].
  - exact toy_find_eq.
  - assert (v2 = toy_v2 77) as ->.
    { unfold toy_v2. rewrite Hv. reflexivity. }
    destruct Hf as [[Ha _]|(canonical & _ & Hno & [[<- Hat]|(e2 & _ & Hs)])];
      [by destruct Hne|by split|].
    exfalso. destruct Hs as [[(_ & l & Hl & Hin & _) _]|(e3 & _ & (_ & l & Hl & Hin & _) & _)];
      injection Hl as <- _; by apply elem_of_nil in Hin.
Defined.
