(* ===== verification/PoolTypes.v ===== *)
(** * Account types of the pools (sdk instruction/utils/*_types.rs)

    The records of the pool accounts of Bonk, Raydium and Meteora, the reader
    each derives, its declared size and its decoder, and the reader of the
    Pump.fun bonding curve; the pool of PumpSwap is in PumpSwapUtils.  Every
    reader follows the declaration field by field. *)

From S2P Require Import Prelude Solana Effects Borsh BondingCurve.

#[local] Open Scope Z_scope.

(** ** Bonk *)

(* sdk instruction/utils/bonk_types.rs:75-81 VestingSchedule *)
Record VestingSchedule := mk_VestingSchedule {
  vs_total_locked_amount : Z;
  vs_cliff_period : Z;
  vs_unlock_period : Z;
  vs_start_time : Z;
  vs_allocated_share_amount : Z;
}.

(* sdk instruction/utils/bonk_types.rs:75-81 VestingSchedule, BorshDeserialize *)
Definition read_vesting_schedule `{Borsh} : Reader VestingSchedule :=
  let^ total_locked_amount := read_u64 in
  let^ cliff_period := read_u64 in
  let^ unlock_period := read_u64 in
  let^ start_time := read_u64 in
  let^ allocated_share_amount := read_u64 in
  rret (mk_VestingSchedule total_locked_amount cliff_period unlock_period start_time
          allocated_share_amount).

(* sdk instruction/utils/bonk_types.rs:83-109 PoolState *)
Record BonkPoolState := mk_BonkPoolState {
  bp_epoch : Z;
  bp_auth_bump : Z;
  bp_status : Z;
  bp_base_decimals : Z;
  bp_quote_decimals : Z;
  bp_migrate_type : Z;
  bp_supply : Z;
  bp_total_base_sell : Z;
  bp_virtual_base : Z;
  bp_virtual_quote : Z;
  bp_real_base : Z;
  bp_real_quote : Z;
  bp_total_quote_fund_raising : Z;
  bp_quote_protocol_fee : Z;
  bp_platform_fee : Z;
  bp_migrate_fee : Z;
  bp_vesting_schedule : VestingSchedule;
  bp_global_config : Pubkey;
  bp_platform_config : Pubkey;
  bp_base_mint : Pubkey;
  bp_quote_mint : Pubkey;
  bp_base_vault : Pubkey;
  bp_quote_vault : Pubkey;
  bp_creator : Pubkey;
  bp_padding : list Z;
}.

(* sdk instruction/utils/bonk_types.rs:83-109 PoolState, BorshDeserialize *)
Definition read_bonk_pool_state `{Borsh} : Reader BonkPoolState :=
  let^ epoch := read_u64 in
  let^ auth_bump := read_u8 in
  let^ status := read_u8 in
  let^ base_decimals := read_u8 in
  let^ quote_decimals := read_u8 in
  let^ migrate_type := read_u8 in
  let^ supply := read_u64 in
  let^ total_base_sell := read_u64 in
  let^ virtual_base := read_u64 in
  let^ virtual_quote := read_u64 in
  let^ real_base := read_u64 in
  let^ real_quote := read_u64 in
  let^ total_quote_fund_raising := read_u64 in
  let^ quote_protocol_fee := read_u64 in
  let^ platform_fee := read_u64 in
  let^ migrate_fee := read_u64 in
  let^ vesting_schedule := read_vesting_schedule in
  let^ global_config := read_key in
  let^ platform_config := read_key in
  let^ base_mint := read_key in
  let^ quote_mint := read_key in
  let^ base_vault := read_key in
  let^ quote_vault := read_key in
  let^ creator := read_key in
  let^ padding := read_many 8 read_u64 in
  rret (mk_BonkPoolState epoch auth_bump status base_decimals quote_decimals migrate_type supply
          total_base_sell virtual_base virtual_quote real_base real_quote
          total_quote_fund_raising quote_protocol_fee platform_fee migrate_fee vesting_schedule
          global_config platform_config base_mint quote_mint base_vault quote_vault creator
          padding).

(* sdk instruction/utils/bonk_types.rs:110-110 POOL_STATE_SIZE *)
Definition BONK_POOL_STATE_SIZE : nat := 8 + 1 * 5 + 8 * 10 + 32 * 7 + 8 * 8 + 8 * 5.

(* sdk instruction/utils/bonk_types.rs:111-116 pool_state_decode *)
Definition bonk_pool_state_decode `{Borsh} (data : bytes) : option BonkPoolState :=
  decode_prefix BONK_POOL_STATE_SIZE read_bonk_pool_state data.

(** ** Raydium CPMM *)

(* sdk instruction/utils/raydium_cpmm_types.rs:6-30 PoolState *)
Record CpmmPoolState := mk_CpmmPoolState {
  cps_amm_config : Pubkey;
  cps_pool_creator : Pubkey;
  cps_token0_vault : Pubkey;
  cps_token1_vault : Pubkey;
  cps_lp_mint : Pubkey;
  cps_token0_mint : Pubkey;
  cps_token1_mint : Pubkey;
  cps_token0_program : Pubkey;
  cps_token1_program : Pubkey;
  cps_observation_key : Pubkey;
  cps_auth_bump : Z;
  cps_status : Z;
  cps_lp_mint_decimals : Z;
  cps_mint0_decimals : Z;
  cps_mint1_decimals : Z;
  cps_lp_supply : Z;
  cps_protocol_fees_token0 : Z;
  cps_protocol_fees_token1 : Z;
  cps_fund_fees_token0 : Z;
  cps_fund_fees_token1 : Z;
  cps_open_time : Z;
  cps_recent_epoch : Z;
  cps_padding : list Z;
}.

(* sdk instruction/utils/raydium_cpmm_types.rs:6-30 PoolState, BorshDeserialize *)
Definition read_cpmm_pool_state `{Borsh} : Reader CpmmPoolState :=
  let^ amm_config := read_key in
  let^ pool_creator := read_key in
  let^ token0_vault := read_key in
  let^ token1_vault := read_key in
  let^ lp_mint := read_key in
  let^ token0_mint := read_key in
  let^ token1_mint := read_key in
  let^ token0_program := read_key in
  let^ token1_program := read_key in
  let^ observation_key := read_key in
  let^ auth_bump := read_u8 in
  let^ status := read_u8 in
  let^ lp_mint_decimals := read_u8 in
  let^ mint0_decimals := read_u8 in
  let^ mint1_decimals := read_u8 in
  let^ lp_supply := read_u64 in
  let^ protocol_fees_token0 := read_u64 in
  let^ protocol_fees_token1 := read_u64 in
  let^ fund_fees_token0 := read_u64 in
  let^ fund_fees_token1 := read_u64 in
  let^ open_time := read_u64 in
  let^ recent_epoch := read_u64 in
  let^ padding := read_many 31 read_u64 in
  rret (mk_CpmmPoolState amm_config pool_creator token0_vault token1_vault lp_mint token0_mint
          token1_mint token0_program token1_program observation_key auth_bump status
          lp_mint_decimals mint0_decimals mint1_decimals lp_supply protocol_fees_token0
          protocol_fees_token1 fund_fees_token0 fund_fees_token1 open_time recent_epoch padding).

(* sdk instruction/utils/raydium_cpmm_types.rs:32-32 POOL_STATE_SIZE *)
Definition CPMM_POOL_STATE_SIZE : nat := 629.

(* sdk instruction/utils/raydium_cpmm_types.rs:34-39 pool_state_decode *)
Definition cpmm_pool_state_decode `{Borsh} (data : bytes) : option CpmmPoolState :=
  decode_prefix CPMM_POOL_STATE_SIZE read_cpmm_pool_state data.

(** ** Raydium AMM V4 *)

(* sdk instruction/utils/raydium_amm_v4_types.rs:6-15 Fees *)
Record Fees := mk_Fees {
  fees_min_separate_numerator : Z;
  fees_min_separate_denominator : Z;
  fees_trade_fee_numerator : Z;
  fees_trade_fee_denominator : Z;
  fees_pnl_numerator : Z;
  fees_pnl_denominator : Z;
  fees_swap_fee_numerator : Z;
  fees_swap_fee_denominator : Z;
}.

(* sdk instruction/utils/raydium_amm_v4_types.rs:6-15 Fees, BorshDeserialize *)
Definition read_fees `{Borsh} : Reader Fees :=
  let^ min_separate_numerator := read_u64 in
  let^ min_separate_denominator := read_u64 in
  let^ trade_fee_numerator := read_u64 in
  let^ trade_fee_denominator := read_u64 in
  let^ pnl_numerator := read_u64 in
  let^ pnl_denominator := read_u64 in
  let^ swap_fee_numerator := read_u64 in
  let^ swap_fee_denominator := read_u64 in
  rret (mk_Fees min_separate_numerator min_separate_denominator trade_fee_numerator
          trade_fee_denominator pnl_numerator pnl_denominator swap_fee_numerator
          swap_fee_denominator).

(* sdk instruction/utils/raydium_amm_v4_types.rs:18-33 OutPutData *)
Record OutPutData := mk_OutPutData {
  od_need_take_pnl_coin : Z;
  od_need_take_pnl_pc : Z;
  od_total_pnl_pc : Z;
  od_total_pnl_coin : Z;
  od_pool_open_time : Z;
  od_punish_pc_amount : Z;
  od_punish_coin_amount : Z;
  od_orderbook_to_init_time : Z;
  od_swap_coin_in_amount : Z;
  od_swap_pc_out_amount : Z;
  od_swap_take_pc_fee : Z;
  od_swap_pc_in_amount : Z;
  od_swap_coin_out_amount : Z;
  od_swap_take_coin_fee : Z;
}.

(* sdk instruction/utils/raydium_amm_v4_types.rs:18-33 OutPutData, BorshDeserialize *)
Definition read_out_put_data `{Borsh} : Reader OutPutData :=
  let^ need_take_pnl_coin := read_u64 in
  let^ need_take_pnl_pc := read_u64 in
  let^ total_pnl_pc := read_u64 in
  let^ total_pnl_coin := read_u64 in
  let^ pool_open_time := read_u64 in
  let^ punish_pc_amount := read_u64 in
  let^ punish_coin_amount := read_u64 in
  let^ orderbook_to_init_time := read_u64 in
  let^ swap_coin_in_amount := read_u128 in
  let^ swap_pc_out_amount := read_u128 in
  let^ swap_take_pc_fee := read_u64 in
  let^ swap_pc_in_amount := read_u128 in
  let^ swap_coin_out_amount := read_u128 in
  let^ swap_take_coin_fee := read_u64 in
  rret (mk_OutPutData need_take_pnl_coin need_take_pnl_pc total_pnl_pc total_pnl_coin
          pool_open_time punish_pc_amount punish_coin_amount orderbook_to_init_time
          swap_coin_in_amount swap_pc_out_amount swap_take_pc_fee swap_pc_in_amount
          swap_coin_out_amount swap_take_coin_fee).

(* sdk instruction/utils/raydium_amm_v4_types.rs:36-70 AmmInfo *)
Record AmmInfo := mk_AmmInfo {
  amm_status : Z;
  amm_nonce : Z;
  amm_order_num : Z;
  amm_depth : Z;
  amm_coin_decimals : Z;
  amm_pc_decimals : Z;
  amm_state : Z;
  amm_reset_flag : Z;
  amm_min_size : Z;
  amm_vol_max_cut_ratio : Z;
  amm_amount_wave : Z;
  amm_coin_lot_size : Z;
  amm_pc_lot_size : Z;
  amm_min_price_multiplier : Z;
  amm_max_price_multiplier : Z;
  amm_sys_decimal_value : Z;
  amm_fees : Fees;
  amm_out_put : OutPutData;
  amm_token_coin : Pubkey;
  amm_token_pc : Pubkey;
  amm_coin_mint : Pubkey;
  amm_pc_mint : Pubkey;
  amm_lp_mint : Pubkey;
  amm_open_orders : Pubkey;
  amm_market : Pubkey;
  amm_serum_dex : Pubkey;
  amm_target_orders : Pubkey;
  amm_withdraw_queue : Pubkey;
  amm_token_temp_lp : Pubkey;
  amm_amm_owner : Pubkey;
  amm_lp_amount : Z;
  amm_client_order_id : Z;
  amm_padding : list Z;
}.

(* sdk instruction/utils/raydium_amm_v4_types.rs:36-70 AmmInfo, BorshDeserialize *)
Definition read_amm_info `{Borsh} : Reader AmmInfo :=
  let^ status := read_u64 in
  let^ nonce := read_u64 in
  let^ order_num := read_u64 in
  let^ depth := read_u64 in
  let^ coin_decimals := read_u64 in
  let^ pc_decimals := read_u64 in
  let^ state := read_u64 in
  let^ reset_flag := read_u64 in
  let^ min_size := read_u64 in
  let^ vol_max_cut_ratio := read_u64 in
  let^ amount_wave := read_u64 in
  let^ coin_lot_size := read_u64 in
  let^ pc_lot_size := read_u64 in
  let^ min_price_multiplier := read_u64 in
  let^ max_price_multiplier := read_u64 in
  let^ sys_decimal_value := read_u64 in
  let^ fees := read_fees in
  let^ out_put := read_out_put_data in
  let^ token_coin := read_key in
  let^ token_pc := read_key in
  let^ coin_mint := read_key in
  let^ pc_mint := read_key in
  let^ lp_mint := read_key in
  let^ open_orders := read_key in
  let^ market := read_key in
  let^ serum_dex := read_key in
  let^ target_orders := read_key in
  let^ withdraw_queue := read_key in
  let^ token_temp_lp := read_key in
  let^ amm_owner := read_key in
  let^ lp_amount := read_u64 in
  let^ client_order_id := read_u64 in
  let^ padding := read_many 2 read_u64 in
  rret (mk_AmmInfo status nonce order_num depth coin_decimals pc_decimals state reset_flag
          min_size vol_max_cut_ratio amount_wave coin_lot_size pc_lot_size min_price_multiplier
          max_price_multiplier sys_decimal_value fees out_put token_coin token_pc coin_mint
          pc_mint lp_mint open_orders market serum_dex target_orders withdraw_queue
          token_temp_lp amm_owner lp_amount client_order_id padding).

(* sdk instruction/utils/raydium_amm_v4_types.rs:72-72 AMM_INFO_SIZE *)
Definition AMM_INFO_SIZE : nat := 752.

(* sdk instruction/utils/raydium_amm_v4_types.rs:74-79 amm_info_decode *)
Definition amm_info_decode `{Borsh} (data : bytes) : option AmmInfo :=
  decode_prefix AMM_INFO_SIZE read_amm_info data.

(** ** Meteora DAMM v2 *)

(* sdk instruction/utils/meteora_damm_v2_types.rs:6-14 BaseFeeStruct *)
Record BaseFeeStruct := mk_BaseFeeStruct {
  bf_cliff_fee_numerator : Z;
  bf_fee_scheduler_mode : Z;
  bf_padding_0 : bytes;
  bf_number_of_period : Z;
  bf_period_frequency : Z;
  bf_reduction_factor : Z;
  bf_padding_1 : Z;
}.

(* sdk instruction/utils/meteora_damm_v2_types.rs:6-14 BaseFeeStruct, BorshDeserialize *)
Definition read_base_fee `{Borsh} : Reader BaseFeeStruct :=
  let^ cliff_fee_numerator := read_u64 in
  let^ fee_scheduler_mode := read_u8 in
  let^ padding_0 := read_array 5 in
  let^ number_of_period := read_u16 in
  let^ period_frequency := read_u64 in
  let^ reduction_factor := read_u64 in
  let^ padding_1 := read_u64 in
  rret (mk_BaseFeeStruct cliff_fee_numerator fee_scheduler_mode padding_0 number_of_period
          period_frequency reduction_factor padding_1).

(* sdk instruction/utils/meteora_damm_v2_types.rs:17-31 DynamicFeeStruct *)
Record DynamicFeeStruct := mk_DynamicFeeStruct {
  df_initialized : Z;
  df_padding : bytes;
  df_max_volatility_accumulator : Z;
  df_variable_fee_control : Z;
  df_bin_step : Z;
  df_filter_period : Z;
  df_decay_period : Z;
  df_reduction_factor : Z;
  df_last_update_timestamp : Z;
  df_bin_step_u128 : Z;
  df_sqrt_price_reference : Z;
  df_volatility_accumulator : Z;
  df_volatility_reference : Z;
}.

(* sdk instruction/utils/meteora_damm_v2_types.rs:17-31 DynamicFeeStruct, BorshDeserialize *)
Definition read_dynamic_fee `{Borsh} : Reader DynamicFeeStruct :=
  let^ initialized := read_u8 in
  let^ padding := read_array 7 in
  let^ max_volatility_accumulator := read_u32 in
  let^ variable_fee_control := read_u32 in
  let^ bin_step := read_u16 in
  let^ filter_period := read_u16 in
  let^ decay_period := read_u16 in
  let^ reduction_factor := read_u16 in
  let^ last_update_timestamp := read_u64 in
  let^ bin_step_u128 := read_u128 in
  let^ sqrt_price_reference := read_u128 in
  let^ volatility_accumulator := read_u128 in
  let^ volatility_reference := read_u128 in
  rret (mk_DynamicFeeStruct initialized padding max_volatility_accumulator variable_fee_control
          bin_step filter_period decay_period reduction_factor last_update_timestamp
          bin_step_u128 sqrt_price_reference volatility_accumulator volatility_reference).

(* sdk instruction/utils/meteora_damm_v2_types.rs:34-42 PoolFeesStruct *)
Record PoolFeesStruct := mk_PoolFeesStruct {
  pfs_base_fee : BaseFeeStruct;
  pfs_protocol_fee_percent : Z;
  pfs_partner_fee_percent : Z;
  pfs_referral_fee_percent : Z;
  pfs_padding_0 : bytes;
  pfs_dynamic_fee : DynamicFeeStruct;
  pfs_padding_1 : list Z;
}.

(* sdk instruction/utils/meteora_damm_v2_types.rs:34-42 PoolFeesStruct, BorshDeserialize *)
Definition read_pool_fees `{Borsh} : Reader PoolFeesStruct :=
  let^ base_fee := read_base_fee in
  let^ protocol_fee_percent := read_u8 in
  let^ partner_fee_percent := read_u8 in
  let^ referral_fee_percent := read_u8 in
  let^ padding_0 := read_array 5 in
  let^ dynamic_fee := read_dynamic_fee in
  let^ padding_1 := read_many 2 read_u64 in
  rret (mk_PoolFeesStruct base_fee protocol_fee_percent partner_fee_percent referral_fee_percent
          padding_0 dynamic_fee padding_1).

(* sdk instruction/utils/meteora_damm_v2_types.rs:45-54 PoolMetrics *)
Record PoolMetrics := mk_PoolMetrics {
  pm_total_lp_a_fee : Z;
  pm_total_lp_b_fee : Z;
  pm_total_protocol_a_fee : Z;
  pm_total_protocol_b_fee : Z;
  pm_total_partner_a_fee : Z;
  pm_total_partner_b_fee : Z;
  pm_total_position : Z;
  pm_padding : Z;
}.

(* sdk instruction/utils/meteora_damm_v2_types.rs:45-54 PoolMetrics, BorshDeserialize *)
Definition read_pool_metrics `{Borsh} : Reader PoolMetrics :=
  let^ total_lp_a_fee := read_u128 in
  let^ total_lp_b_fee := read_u128 in
  let^ total_protocol_a_fee := read_u64 in
  let^ total_protocol_b_fee := read_u64 in
  let^ total_partner_a_fee := read_u64 in
  let^ total_partner_b_fee := read_u64 in
  let^ total_position := read_u64 in
  let^ padding := read_u64 in
  rret (mk_PoolMetrics total_lp_a_fee total_lp_b_fee total_protocol_a_fee total_protocol_b_fee
          total_partner_a_fee total_partner_b_fee total_position padding).

(* sdk instruction/utils/meteora_damm_v2_types.rs:57-71 RewardInfo *)
Record RewardInfo := mk_RewardInfo {
  ri_initialized : Z;
  ri_reward_token_flag : Z;
  ri_padding_0 : bytes;
  ri_padding_1 : bytes;
  ri_mint : Pubkey;
  ri_vault : Pubkey;
  ri_funder : Pubkey;
  ri_reward_duration : Z;
  ri_reward_duration_end : Z;
  ri_reward_rate : Z;
  ri_reward_per_token_stored : bytes;
  ri_last_update_time : Z;
  ri_cumulative_seconds_with_empty_liquidity_reward : Z;
}.

(* sdk instruction/utils/meteora_damm_v2_types.rs:57-71 RewardInfo, BorshDeserialize *)
Definition read_reward_info `{Borsh} : Reader RewardInfo :=
  let^ initialized := read_u8 in
  let^ reward_token_flag := read_u8 in
  let^ padding_0 := read_array 6 in
  let^ padding_1 := read_array 8 in
  let^ mint := read_key in
  let^ vault := read_key in
  let^ funder := read_key in
  let^ reward_duration := read_u64 in
  let^ reward_duration_end := read_u64 in
  let^ reward_rate := read_u128 in
  let^ reward_per_token_stored := read_array 32 in
  let^ last_update_time := read_u64 in
  let^ cumulative_seconds_with_empty_liquidity_reward := read_u64 in
  rret (mk_RewardInfo initialized reward_token_flag padding_0 padding_1 mint vault funder
          reward_duration reward_duration_end reward_rate reward_per_token_stored
          last_update_time cumulative_seconds_with_empty_liquidity_reward).

(* sdk instruction/utils/meteora_damm_v2_types.rs:74-105 Pool *)
Record MeteoraPool := mk_MeteoraPool {
  mp_pool_fees : PoolFeesStruct;
  mp_token_a_mint : Pubkey;
  mp_token_b_mint : Pubkey;
  mp_token_a_vault : Pubkey;
  mp_token_b_vault : Pubkey;
  mp_whitelisted_vault : Pubkey;
  mp_partner : Pubkey;
  mp_liquidity : Z;
  mp_padding : Z;
  mp_protocol_a_fee : Z;
  mp_protocol_b_fee : Z;
  mp_partner_a_fee : Z;
  mp_partner_b_fee : Z;
  mp_sqrt_min_price : Z;
  mp_sqrt_max_price : Z;
  mp_sqrt_price : Z;
  mp_activation_point : Z;
  mp_activation_type : Z;
  mp_pool_status : Z;
  mp_token_a_flag : Z;
  mp_token_b_flag : Z;
  mp_collect_fee_mode : Z;
  mp_pool_type : Z;
  mp_padding_0 : bytes;
  mp_fee_a_per_liquidity : bytes;
  mp_fee_b_per_liquidity : bytes;
  mp_permanent_lock_liquidity : Z;
  mp_metrics : PoolMetrics;
  mp_padding_1 : list Z;
  mp_reward_infos : list RewardInfo;
}.

(* sdk instruction/utils/meteora_damm_v2_types.rs:74-105 Pool, BorshDeserialize *)
Definition read_meteora_pool `{Borsh} : Reader MeteoraPool :=
  let^ pool_fees := read_pool_fees in
  let^ token_a_mint := read_key in
  let^ token_b_mint := read_key in
  let^ token_a_vault := read_key in
  let^ token_b_vault := read_key in
  let^ whitelisted_vault := read_key in
  let^ partner := read_key in
  let^ liquidity := read_u128 in
  let^ padding := read_u128 in
  let^ protocol_a_fee := read_u64 in
  let^ protocol_b_fee := read_u64 in
  let^ partner_a_fee := read_u64 in
  let^ partner_b_fee := read_u64 in
  let^ sqrt_min_price := read_u128 in
  let^ sqrt_max_price := read_u128 in
  let^ sqrt_price := read_u128 in
  let^ activation_point := read_u64 in
  let^ activation_type := read_u8 in
  let^ pool_status := read_u8 in
  let^ token_a_flag := read_u8 in
  let^ token_b_flag := read_u8 in
  let^ collect_fee_mode := read_u8 in
  let^ pool_type := read_u8 in
  let^ padding_0 := read_array 2 in
  let^ fee_a_per_liquidity := read_array 32 in
  let^ fee_b_per_liquidity := read_array 32 in
  let^ permanent_lock_liquidity := read_u128 in
  let^ metrics := read_pool_metrics in
  let^ padding_1 := read_many 10 read_u64 in
  let^ reward_infos := read_many 2 read_reward_info in
  rret (mk_MeteoraPool pool_fees token_a_mint token_b_mint token_a_vault token_b_vault
          whitelisted_vault partner liquidity padding protocol_a_fee protocol_b_fee
          partner_a_fee partner_b_fee sqrt_min_price sqrt_max_price sqrt_price activation_point
          activation_type pool_status token_a_flag token_b_flag collect_fee_mode pool_type
          padding_0 fee_a_per_liquidity fee_b_per_liquidity permanent_lock_liquidity metrics
          padding_1 reward_infos).

(* sdk instruction/utils/meteora_damm_v2_types.rs:107-107 POOL_SIZE *)
Definition METEORA_POOL_SIZE : nat := 1104.

(* sdk instruction/utils/meteora_damm_v2_types.rs:109-114 pool_decode *)
Definition meteora_pool_decode `{Borsh} (data : bytes) : option MeteoraPool :=
  decode_prefix METEORA_POOL_SIZE read_meteora_pool data.

(** ** Pump.fun *)

(** The fields marked [#[borsh(skip)]] are not read and have their defaults. *)
(* sdk common/bonding_curve.rs:39-65 BondingCurveAccount, BorshDeserialize *)
Definition read_bonding_curve `{Borsh} : Reader BondingCurveAccount :=
  let^ virtual_token_reserves := read_u64 in
  let^ virtual_sol_reserves := read_u64 in
  let^ real_token_reserves := read_u64 in
  let^ real_sol_reserves := read_u64 in
  let^ token_total_supply := read_u64 in
  let^ complete := read_bool in
  let^ creator := read_key in
  let^ is_mayhem_mode := read_bool in
  let^ is_cashback_coin := read_bool in
  rret (mk_BondingCurveAccount 0 pubkey_default virtual_token_reserves virtual_sol_reserves
          real_token_reserves real_sol_reserves token_total_supply complete creator
          is_mayhem_mode is_cashback_coin).

(** ** The sizes *)

Section Sizes.
Context `{Borsh}.

Lemma reads_bonk : reads BONK_POOL_STATE_SIZE read_bonk_pool_state.
Proof.
  assert (reads 40 read_vesting_schedule) by (unfold read_vesting_schedule; reads_tac).
  unfold read_bonk_pool_state. reads_tac.
Qed.

Lemma reads_cpmm : reads CPMM_POOL_STATE_SIZE read_cpmm_pool_state.
Proof. unfold read_cpmm_pool_state. reads_tac. Qed.

Lemma reads_amm : reads AMM_INFO_SIZE read_amm_info.
Proof.
  assert (reads 64 read_fees) by (unfold read_fees; reads_tac).
  assert (reads 144 read_out_put_data) by (unfold read_out_put_data; reads_tac).
  unfold read_amm_info. reads_tac.
Qed.

Lemma reads_meteora : reads METEORA_POOL_SIZE read_meteora_pool.
Proof.
  assert (reads 40 read_base_fee) by (unfold read_base_fee; reads_tac).
  assert (reads 96 read_dynamic_fee) by (unfold read_dynamic_fee; reads_tac).
  assert (reads 160 read_pool_fees) by (unfold read_pool_fees; reads_tac).
  assert (reads 80 read_pool_metrics) by (unfold read_pool_metrics; reads_tac).
  assert (reads 192 read_reward_info) by (unfold read_reward_info; reads_tac).
  unfold read_meteora_pool. reads_tac.
Qed.

(** C35. The declared sizes are those of the layouts: a decoder accepts exactly the
    data that are long enough, so that it never fails on trailing bytes and
    never reads past the end. *)
Theorem decoders_accept data :
  (is_Some (bonk_pool_state_decode data) ↔ (421 ≤ length data)%nat)
  ∧ (is_Some (cpmm_pool_state_decode data) ↔ (629 ≤ length data)%nat)
  ∧ (is_Some (amm_info_decode data) ↔ (752 ≤ length data)%nat)
  ∧ (is_Some (meteora_pool_decode data) ↔ (1104 ≤ length data)%nat).
Proof.
  split; [exact (decode_reads _ _ data reads_bonk)|].
  split; [exact (decode_reads _ _ data reads_cpmm)|].
  split; [exact (decode_reads _ _ data reads_amm)|exact (decode_reads _ _ data reads_meteora)].
Qed.
End Sizes.
