(* ===== verification/Params.v ===== *)
(** * Protocol parameters (sdk trading/core/params.rs)

    What an instruction builder is told about a pool: built from a trade event
    without any query, or from pool data read from the node.  The enumeration
    [DexParamEnum] tags the parameters with their protocol. *)

From Stdlib Require Import String.
From S2P Require Import Prelude Solana Accounts Spl FastFn PumpFunUtils BondingCurve BonkCalc Effects PumpSwapUtils Borsh.

#[local] Open Scope Z_scope.

(** ** PumpFun *)

(* sdk trading/core/params.rs:125-137 PumpFunParams *)
Record PumpFunParams := mk_PumpFunParams {
  pf_bonding_curve : BondingCurveAccount;
  pf_associated_bonding_curve : Pubkey;
  pf_creator_vault : Pubkey;
  pf_token_program : Pubkey;
  pf_close_token_account_when_sell : option bool;
  pf_fee_recipient : Pubkey;
}.

(** [BondingCurveAccount::default()]. *)
Definition curve_default : BondingCurveAccount :=
  mk_BondingCurveAccount 0 pubkey_default 0 0 0 0 0 false pubkey_default false false.

(* sdk trading/core/params.rs:140-153 immediate_sell *)
Definition pf_immediate_sell (creator_vault token_program : Pubkey) (close : bool) : PumpFunParams :=
  mk_PumpFunParams curve_default pubkey_default creator_vault token_program (Some close)
    pubkey_default.

Section PumpFun.
Context `{Build} `{Sdk}.

(** [.or_else(|| get_creator_vault_pda(creator)).unwrap_or_default()] on the
    resolved vault. *)
(* sdk trading/core/params.rs:184-192 creator_vault_resolved *)
Definition vault_or_derived (creator creator_vault mint : Pubkey) : prog Pubkey :=
  let! o := resolve_creator_vault_for_ix creator creator_vault mint in
  match o with
  | Some v => Ret v
  | None => let! d := get_creator_vault_pda creator in Ret (default pubkey_default d)
  end.

(* sdk trading/core/params.rs:159-201 from_dev_trade *)
Definition pf_from_dev_trade (mint : Pubkey) (token_amount max_sol_cost : Z)
    (creator bonding_curve associated_bonding_curve creator_vault : Pubkey)
    (close_token_account_when_sell : option bool) (fee_recipient token_program : Pubkey)
    (is_cashback_coin : bool) (mayhem_mode : option bool) : prog PumpFunParams :=
  let is_mayhem_mode := default (is_mayhem_fee_recipient fee_recipient) mayhem_mode in
  let! account := from_dev_trade bonding_curve mint token_amount max_sol_cost creator
                    is_mayhem_mode is_cashback_coin in
  let! v := vault_or_derived (bc_creator account) creator_vault mint in
  Ret (mk_PumpFunParams account associated_bonding_curve v token_program
         close_token_account_when_sell fee_recipient).

(* sdk trading/core/params.rs:210-258 from_trade *)
Definition pf_from_trade (bonding_curve associated_bonding_curve mint creator creator_vault : Pubkey)
    (virtual_token_reserves virtual_sol_reserves real_token_reserves real_sol_reserves : Z)
    (close_token_account_when_sell : option bool) (fee_recipient token_program : Pubkey)
    (is_cashback_coin : bool) (mayhem_mode : option bool) : prog PumpFunParams :=
  let is_mayhem_mode :=
    match mayhem_mode with Some v => v | None => is_mayhem_fee_recipient fee_recipient end in
  let! account := from_trade bonding_curve mint creator virtual_token_reserves
                    virtual_sol_reserves real_token_reserves real_sol_reserves
                    is_mayhem_mode is_cashback_coin in
  let! v := vault_or_derived (bc_creator account) creator_vault mint in
  Ret (mk_PumpFunParams account associated_bonding_curve v token_program
         close_token_account_when_sell fee_recipient).

(* sdk trading/core/params.rs:298-302 with_creator_vault *)
Definition with_creator_vault (p : PumpFunParams) (creator_vault : Pubkey) : PumpFunParams :=
  mk_PumpFunParams (pf_bonding_curve p) (pf_associated_bonding_curve p) creator_vault
    (pf_token_program p) (pf_close_token_account_when_sell p) (pf_fee_recipient p).
End PumpFun.

(** ** PumpSwap *)

(* sdk trading/core/params.rs:313-343 PumpSwapParams *)
Record PumpSwapParams := mk_PumpSwapParams {
  ps_pool : Pubkey;
  ps_base_mint : Pubkey;
  ps_quote_mint : Pubkey;
  ps_pool_base_token_account : Pubkey;
  ps_pool_quote_token_account : Pubkey;
  ps_pool_base_token_reserves : Z;
  ps_pool_quote_token_reserves : Z;
  ps_coin_creator_vault_ata : Pubkey;
  ps_coin_creator_vault_authority : Pubkey;
  ps_base_token_program : Pubkey;
  ps_quote_token_program : Pubkey;
  ps_is_mayhem_mode : bool;
  ps_is_cashback_coin : bool;
}.

#[export] Instance PumpSwapParams_eq_dec : EqDecision PumpSwapParams.
Proof. solve_decision. Defined.

(* sdk trading/core/params.rs:346-377 new *)
Definition ps_new
    (pool base_mint quote_mint pool_base_token_account pool_quote_token_account : Pubkey)
    (pool_base_token_reserves pool_quote_token_reserves : Z)
    (coin_creator_vault_ata coin_creator_vault_authority base_token_program quote_token_program
     fee_recipient : Pubkey) (is_cashback_coin : bool) : PumpSwapParams :=
  let is_mayhem_mode := fee_recipient =? PS_MAYHEM_FEE_RECIPIENT in
  mk_PumpSwapParams pool base_mint quote_mint pool_base_token_account pool_quote_token_account
    pool_base_token_reserves pool_quote_token_reserves coin_creator_vault_ata
    coin_creator_vault_authority base_token_program quote_token_program is_mayhem_mode
    is_cashback_coin.

(* sdk trading/core/params.rs:388-418 from_trade *)
Definition ps_from_trade
    (pool base_mint quote_mint pool_base_token_account pool_quote_token_account : Pubkey)
    (pool_base_token_reserves pool_quote_token_reserves : Z)
    (coin_creator_vault_ata coin_creator_vault_authority base_token_program quote_token_program
     fee_recipient : Pubkey) (is_cashback_coin : bool) : PumpSwapParams :=
  ps_new pool base_mint quote_mint pool_base_token_account pool_quote_token_account
    pool_base_token_reserves pool_quote_token_reserves coin_creator_vault_ata
    coin_creator_vault_authority base_token_program quote_token_program fee_recipient
    is_cashback_coin.

Section PumpSwap.
Context `{Sdk} `{KeyText} `{Borsh} {E : Type} `{Rpc E}.

(** The program of a pool's token account, guessed from its address. *)
(* sdk trading/core/params.rs:486-496 base_token_program, quote_token_program *)
Definition token_program_of (account ata : Pubkey) : Pubkey :=
  if account =? ata then TOKEN_PROGRAM else TOKEN_PROGRAM_2022.

(* sdk trading/core/params.rs:450-499 from_pool_data *)
Definition from_pool_data (pool_address : Pubkey) (pool_data : Pool) : M E PumpSwapParams :=
  let% reserves := get_token_balances pool_data in
  let creator := pool_coin_creator pool_data in
  let% vault_ata := of_ex (coin_creator_vault_ata creator (pool_quote_mint pool_data)) in
  let% vault_authority := of_ex (coin_creator_vault_authority creator) in
  let% base_ata := of_ex (get_associated_token_address_with_program_id pool_address
                            (pool_base_mint pool_data) TOKEN_PROGRAM) in
  let% quote_ata := of_ex (get_associated_token_address_with_program_id pool_address
                             (pool_quote_mint pool_data) TOKEN_PROGRAM) in
  mret (mk_PumpSwapParams pool_address (pool_base_mint pool_data) (pool_quote_mint pool_data)
          (pool_base_account pool_data) (pool_quote_account pool_data)
          reserves.1 reserves.2 vault_ata vault_authority
          (token_program_of (pool_base_account pool_data) base_ata)
          (token_program_of (pool_quote_account pool_data) quote_ata)
          (pool_mayhem pool_data) (pool_cashback pool_data)).

(* sdk trading/core/params.rs:437-443 from_pool_address_by_rpc *)
Definition from_pool_address_by_rpc (pool_address : Pubkey) : M E PumpSwapParams :=
  let% pool_data := fetch_pool pool_address in
  from_pool_data pool_address pool_data.

(* sdk trading/core/params.rs:420-435 from_mint_by_rpc *)
Definition ps_from_mint_by_rpc (mint : Pubkey) : M E PumpSwapParams :=
  let% r := attempt (find_by_base_mint mint) in
  match r with
  | Ok (pool_address, _) => from_pool_address_by_rpc pool_address
  | Err _ =>
      let% r := attempt (find_by_quote_mint mint) in
      match r with
      | Ok (pool_address, _) => from_pool_address_by_rpc pool_address
      | Err _ => mfail "No pool found for mint"
      end
  end.
End PumpSwap.

(** ** Bonk *)

(* sdk trading/core/params.rs:504-519 BonkParams *)
Record BonkParams := mk_BonkParams {
  bk_virtual_base : Z;
  bk_virtual_quote : Z;
  bk_real_base : Z;
  bk_real_quote : Z;
  bk_pool_state : Pubkey;
  bk_base_vault : Pubkey;
  bk_quote_vault : Pubkey;
  bk_mint_token_program : Pubkey;
  bk_platform_config : Pubkey;
  bk_platform_associated_account : Pubkey;
  bk_creator_associated_account : Pubkey;
  bk_global_config : Pubkey;
}.

(* sdk trading/core/params.rs:522-537 immediate_sell *)
Definition bk_immediate_sell (mint_token_program platform_config platform_associated_account
    creator_associated_account global_config : Pubkey) : BonkParams :=
  mk_BonkParams 0 0 0 0 pubkey_default pubkey_default pubkey_default mint_token_program
    platform_config platform_associated_account creator_associated_account global_config.

(* sdk trading/core/params.rs:538-566 from_trade *)
Definition bk_from_trade (virtual_base virtual_quote real_base_after real_quote_after : Z)
    (pool_state base_vault quote_vault base_token_program platform_config
     platform_associated_account creator_associated_account global_config : Pubkey) : BonkParams :=
  mk_BonkParams virtual_base virtual_quote real_base_after real_quote_after pool_state
    base_vault quote_vault base_token_program platform_config platform_associated_account
    creator_associated_account global_config.

Definition DEFAULT_VIRTUAL_BASE : Z := 1073025605596382.
Definition DEFAULT_VIRTUAL_QUOTE : Z := 30000852951.

(* sdk trading/core/params.rs:568-634 from_dev_trade *)
Definition bk_from_dev_trade `{Build} (is_exact_in : bool) (amount_in amount_out : Z)
    (pool_state base_vault quote_vault base_token_program platform_config
     platform_associated_account creator_associated_account global_config : Pubkey) :
    exec BonkParams :=
  let* _amount_in :=
    if is_exact_in then Val amount_in
    else get_amount_in amount_out BK_PROTOCOL_FEE_RATE PLATFORM_FEE_RATE SHARE_FEE_RATE
           DEFAULT_VIRTUAL_BASE DEFAULT_VIRTUAL_QUOTE 0 0 0 in
  let* real_quote := get_amount_in_net amount_in BK_PROTOCOL_FEE_RATE PLATFORM_FEE_RATE
                       SHARE_FEE_RATE in
  let* _amount_out :=
    if is_exact_in then
      get_amount_out amount_in BK_PROTOCOL_FEE_RATE PLATFORM_FEE_RATE SHARE_FEE_RATE
        DEFAULT_VIRTUAL_BASE DEFAULT_VIRTUAL_QUOTE 0 0 0
    else Val amount_out in
  Val (mk_BonkParams DEFAULT_VIRTUAL_BASE DEFAULT_VIRTUAL_QUOTE _amount_out real_quote pool_state
         base_vault quote_vault base_token_program platform_config platform_associated_account
         creator_associated_account global_config).

(** ** Raydium and Meteora *)

(* sdk trading/core/params.rs:680-704 RaydiumCpmmParams *)
Record RaydiumCpmmParams := mk_RaydiumCpmmParams {
  cp_pool_state : Pubkey;
  cp_amm_config : Pubkey;
  cp_base_mint : Pubkey;
  cp_quote_mint : Pubkey;
  cp_base_reserve : Z;
  cp_quote_reserve : Z;
  cp_base_vault : Pubkey;
  cp_quote_vault : Pubkey;
  cp_base_token_program : Pubkey;
  cp_quote_token_program : Pubkey;
  cp_observation_state : Pubkey;
}.

(* sdk trading/core/params.rs:707-733 from_trade *)
Definition cp_from_trade (pool_state amm_config input_token_mint output_token_mint input_vault
    output_vault input_token_program output_token_program observation_state : Pubkey)
    (base_reserve quote_reserve : Z) : RaydiumCpmmParams :=
  mk_RaydiumCpmmParams pool_state amm_config input_token_mint output_token_mint base_reserve
    quote_reserve input_vault output_vault input_token_program output_token_program
    observation_state.

(* sdk trading/core/params.rs:768-796 RaydiumAmmV4Params *)
Record RaydiumAmmV4Params := mk_RaydiumAmmV4Params {
  v4_amm : Pubkey;
  v4_coin_mint : Pubkey;
  v4_pc_mint : Pubkey;
  v4_token_coin : Pubkey;
  v4_token_pc : Pubkey;
  v4_coin_reserve : Z;
  v4_pc_reserve : Z;
}.

(* sdk trading/core/params.rs:819-848 MeteoraDammV2Params *)
Record MeteoraDammV2Params := mk_MeteoraDammV2Params {
  md_pool : Pubkey;
  md_token_a_vault : Pubkey;
  md_token_b_vault : Pubkey;
  md_token_a_mint : Pubkey;
  md_token_b_mint : Pubkey;
  md_token_a_program : Pubkey;
  md_token_b_program : Pubkey;
}.

(* sdk trading/core/params.rs:26-33 DexParamEnum *)
Inductive DexParamEnum :=
| PPumpFun (p : PumpFunParams)
| PPumpSwap (p : PumpSwapParams)
| PBonk (p : BonkParams)
| PRaydiumCpmm (p : RaydiumCpmmParams)
| PRaydiumAmmV4 (p : RaydiumAmmV4Params)
| PMeteoraDammV2 (p : MeteoraDammV2Params).
