(* ===== verification/TradeStore.v ===== *)
(** * The trade store (bot trading.rs, RedisStore and TokenTradeRecord)

    Trades seen on chain are kept per mint in a Redis list, newest first, and
    their signatures in a Redis set.  The server is a class over the
    environment whose laws are the documented meaning of its commands on an
    abstract database; the JSON codec that serde derives is a class with its
    round trip as law. *)

From Stdlib Require Import String SpecFloat.
From S2P Require Import Prelude F64 Solana Effects.

#[local] Open Scope string_scope.
#[local] Open Scope Z_scope.
#[local] Open Scope list_scope.

(** ** Records *)

(* bot trading.rs:54-67 TokenTradeRecord *)
Record TokenTradeRecord := mk_Trade {
  tr_mint : string;
  tr_token_amount : Z;
  tr_sol_amount : Z;
  tr_price : f64;
  tr_blocktime_us : Z;
  tr_is_buy : bool;
  tr_signature : string;
}.

(* bot trading.rs:135-143 calculate_price_from_amounts *)
Definition calculate_price_from_amounts (sol_amount token_amount : Z) : f64 :=
  if 0 <? token_amount
  then fdiv (fdiv (f64_of_Z sol_amount) (f64_of_Z token_amount)) (f64_of_Z 1000)
  else f_zero.

(* bot trading.rs:99-133 from_transaction *)
Definition from_transaction (mint : string) (token_amount sol_amount : Z) (is_buy : bool)
    (signature : string) (blocktime_us : Z) : TokenTradeRecord :=
  let price :=
    if 0 <? token_amount
    then fdiv (fdiv (f64_of_Z sol_amount) (f64_of_Z token_amount)) (f64_of_Z 1000)
    else f_zero in
  mk_Trade mint token_amount sol_amount price blocktime_us is_buy signature.

(* bot trading.rs:145-148 effective_price *)
Definition effective_price (r : TokenTradeRecord) : f64 := tr_price r.

(** A [serde_json::Value]: a number with its reading as [i64], a string, or
    anything else. *)
Inductive JsonValue :=
| JNumber (as_i64 : option Z)
| JString (s : string)
| JOther.

Section Blocktime.
Context `{Build} {E : Type} `{Rpc E}.

Definition micros_of (num : Z) : exec Z :=
  if num <? 1000000000000 then ck_signed 64 (num * 1000000) else Val num.

(* bot trading.rs:69-96 deserialize_blocktime *)
Definition deserialize_blocktime (value : JsonValue) : M E Z :=
  match value with
  | JNumber (Some num) => of_ex (micros_of num)
  | JString ts_str =>
      match parse_i64 ts_str with
      | Some num => of_ex (micros_of num)
      | None => ask now_micros
      end
  | _ => ask now_micros
  end.
End Blocktime.

Definition with_blocktime (r : TokenTradeRecord) (t : Z) : TokenTradeRecord :=
  mk_Trade (tr_mint r) (tr_token_amount r) (tr_sol_amount r) (tr_price r) t (tr_is_buy r)
    (tr_signature r).

Definition with_price (r : TokenTradeRecord) (p : f64) : TokenTradeRecord :=
  mk_Trade (tr_mint r) (tr_token_amount r) (tr_sol_amount r) p (tr_blocktime_us r) (tr_is_buy r)
    (tr_signature r).

(** The derived codec.  Decoding gives the record and the raw value of its time
    field; [json_f64] is what becomes of a price that is written and read. *)
Class TradeJson := {
  trade_encode : TokenTradeRecord → result string string;
  trade_decode : string → result string (TokenTradeRecord * JsonValue);
  json_f64 : f64 → f64;
  trade_codec r s : trade_encode r = Ok s →
    trade_decode s = Ok (with_price r (json_f64 (tr_price r)), JNumber (Some (tr_blocktime_us r)));
}.

(** ** Redis *)

Inductive RedisCmd :=
| LPush (key value : string)
| LTrim (key : string) (start stop : Z)
| SAdd (key member : string).

Record Db := mk_Db {
  db_lists : gmap string (list string);
  db_sets : gmap string (gset string);
}.

Definition db_list (d : Db) (key : string) : list string := default [] (db_lists d !! key).
Definition db_set (d : Db) (key : string) : gset string := default ∅ (db_sets d !! key).

(** The range of a list between two indices, inclusive, negative ones counted
    from the end. *)
Definition redis_range {A} (l : list A) (start stop : Z) : list A :=
  let n := Z.of_nat (length l) in
  let start := Z.max 0 (if start <? 0 then n + start else start) in
  let stop := if stop <? 0 then n + stop else stop in
  take (Z.to_nat (stop - start + 1)) (drop (Z.to_nat start) l).

(** An empty list is no key. *)
Definition set_list (key : string) (l : list string) (d : Db) : Db :=
  mk_Db (match l with [] => delete key (db_lists d) | _ => <[key := l]> (db_lists d) end)
    (db_sets d).

Definition apply_cmd (d : Db) (c : RedisCmd) : Db :=
  match c with
  | LPush key v => set_list key (v :: db_list d key) d
  | LTrim key start stop => set_list key (redis_range (db_list d key) start stop) d
  | SAdd key m => mk_Db (db_lists d) (<[key := {[ m ]} ∪ db_set d key]> (db_sets d))
  end.

Definition apply_cmds (l : list RedisCmd) (d : Db) : Db := foldl apply_cmd d l.

(** The server: a call may fail, a transaction is applied wholly or not. *)
Class Redis (E : Type) := {
  redis_open : string → result string ();
  redis_connect : E → result string () * E;
  redis_sismember : string → string → E → result string bool * E;
  redis_atomic : list RedisCmd → E → result string () * E;
  redis_lrange : string → Z → Z → E → result string (list string) * E;
  redis_keys : string → E → result string (list string) * E;
  db : E → Db;
  redis_connect_db e r e' : redis_connect e = (r, e') → db e' = db e;
  redis_sismember_db k m e r e' : redis_sismember k m e = (r, e') →
    db e' = db e ∧ ∀ b, r = Ok b → b = bool_decide (m ∈ db_set (db e) k);
  redis_atomic_db l e r e' : redis_atomic l e = (r, e') →
    match r with
    | Ok _ => db e' = apply_cmds l (db e)
    | Err _ => db e' = db e ∨ db e' = apply_cmds l (db e)
    end;
  redis_lrange_db k a b e r e' : redis_lrange k a b e = (r, e') →
    db e' = db e ∧ ∀ l, r = Ok l → l = redis_range (db_list (db e) k) a b;
  redis_keys_db e r e' : redis_keys "trades:*" e = (r, e') →
    db e' = db e ∧ ∀ l, r = Ok l → ∀ k,
      k ∈ l ↔ (∃ s, k = "trades:" +:+ s) ∧ (k ∈ dom (db_lists (db e)) ∨ k ∈ dom (db_sets (db e)));
}.

(** ** The store *)

(* bot trading.rs:151-154 RedisStore *)
Record RedisStore := mk_RedisStore { max_trades_per_token : Z }.

(* bot trading.rs:166-168 signatures_key *)
Definition signatures_key (mint : string) : string := "sigs:" +:+ mint.
Definition trades_key (mint : string) : string := "trades:" +:+ mint.

(** [s.strip_prefix(p)]. *)
Fixpoint strip_prefix (p s : string) : option string :=
  match p, s with
  | EmptyString, _ => Some s
  | String a p', String b s' => if Ascii.eqb a b then strip_prefix p' s' else None
  | String _ _, EmptyString => None
  end.

Section Store.
Context `{Build} {E : Type} `{Rpc E} `{Redis E} `{TradeJson}.

(* bot trading.rs:157-164 new *)
Definition store_new (redis_url : string) (max_trades_per_token : Z) : result string RedisStore :=
  match redis_open redis_url with
  | Ok _ => Ok (mk_RedisStore max_trades_per_token)
  | Err _ => Err "Failed to create Redis client"
  end.

Definition connection : M E () :=
  with_context "Failed to get Redis connection" (call redis_connect).

(* bot trading.rs:170-179 is_signature_exists *)
Definition is_signature_exists (mint signature : string) : M E bool :=
  let% _ := connection in
  with_context "Failed to check signature existence"
    (call (redis_sismember (signatures_key mint) signature)).

(** [n as isize - 1]. *)
Definition isize_pred (n : Z) : exec Z := ck_signed 64 (wrap_signed 64 n - 1).

(* bot trading.rs:181-207 store_trade *)
Definition store_trade (st : RedisStore) (mint : string) (record : TokenTradeRecord) : M E () :=
  let% exists_ := is_signature_exists mint (tr_signature record) in
  if (exists_ : bool) then mret ()
  else
    let% serialized := with_context "Failed to serialize trade record"
                         (of_res (trade_encode record)) in
    let% _ := connection in
    let% last := of_ex (isize_pred (max_trades_per_token st)) in
    with_context "Failed to store trade record to Redis"
      (call (redis_atomic
        [LPush (trades_key mint) serialized; LTrim (trades_key mint) 0 last;
         SAdd (signatures_key mint) (tr_signature record)])).

(** [serde_json::from_str::<TokenTradeRecord>]. *)
Definition trade_from_str (s : string) : M E TokenTradeRecord :=
  let% r := of_res (trade_decode s) in
  let% t := deserialize_blocktime r.2 in
  mret (with_blocktime r.1 t).

Fixpoint parse_all (l : list string) : M E (list TokenTradeRecord) :=
  match l with
  | [] => mret []
  | s :: l' =>
      let% r := with_context "Failed to deserialize trade record" (trade_from_str s) in
      let% rs := parse_all l' in
      mret (r :: rs)
  end.

(* bot trading.rs:209-227 get_recent_trades *)
Definition get_recent_trades (mint : string) (limit : Z) : M E (list TokenTradeRecord) :=
  let% _ := connection in
  let% last := of_ex (isize_pred limit) in
  let% records := with_context "Failed to get trade records from Redis"
                    (call (redis_lrange (trades_key mint) 0 last)) in
  let% result := parse_all records in
  mret (sort_desc tr_blocktime_us result).

(* bot trading.rs:229-251 get_trades_in_window *)
Definition get_trades_in_window (st : RedisStore) (mint : string) (seconds : Z) :
    M E (list TokenTradeRecord) :=
  let% now_us := ask now_micros in
  let% span := of_ex (ck_signed 64 (wrap_signed 64 seconds * 1000000)) in
  let% cutoff_us := of_ex (ck_signed 64 (now_us - span)) in
  let% trades := get_recent_trades mint (max_trades_per_token st) in
  mret (base.filter (λ t, cutoff_us ≤ tr_blocktime_us t) trades).

(* bot trading.rs:253-261 get_latest_price_from_trades *)
Definition get_latest_price_from_trades (mint : string) : M E (option f64) :=
  let% trades := get_recent_trades mint 1 in
  mret (effective_price <$> head trades).

(** The change from the oldest to the newest trade, in percent. *)
(* bot trading.rs:272-284 calculate_price_change *)
Definition price_change (trades : list TokenTradeRecord) : option f64 :=
  if bool_decide (length trades < 2)%nat then None
  else
    match last trades, head trades with
    | Some oldest, Some newest =>
        let oldest_price := effective_price oldest in
        let newest_price := effective_price newest in
        if f_eqb oldest_price f_zero then None
        else Some (fmul (fdiv (fsub newest_price oldest_price) oldest_price) (f64_of_Z 100))
    | _, _ => None
    end.

(* bot trading.rs:263-285 calculate_price_change *)
Definition calculate_price_change (st : RedisStore) (mint : string) (seconds : Z) :
    M E (option f64) :=
  let% trades := get_trades_in_window st mint seconds in mret (price_change trades).

(* bot trading.rs:287-309 calculate_price_change_from_records *)
Definition calculate_price_change_from_records (mint : string) (record_count : Z) :
    M E (option f64) :=
  let% trades := get_recent_trades mint record_count in mret (price_change trades).

(* bot trading.rs:311-327 get_active_mints *)
Definition get_active_mints : M E (list string) :=
  let% _ := connection in
  let% keys := attempt (call (redis_keys "trades:*")) in
  let keys := match keys with Ok l => l | Err _ => [] end in
  mret (omap (strip_prefix "trades:") keys).

(** ** What the store holds *)

(** [max] entries, all of them when [max] is zero. *)
Definition trim {A} (max : Z) (l : list A) : list A :=
  if max =? 0 then l else take (Z.to_nat max) l.

(** The database holds the trades [l] of a mint, newest first, and has seen the
    signatures [seen]. *)
Definition holds (d : Db) (mint : string) (l : list TokenTradeRecord) (seen : gset string) : Prop :=
  Forall2 (λ r s, trade_encode r = Ok s) l (db_list d (trades_key mint))
  ∧ db_set d (signatures_key mint) = seen.

(** The store as a function on trades and signatures. *)
Definition spec_store (max : Z) (r : TokenTradeRecord)
    (v : list TokenTradeRecord * gset string) : list TokenTradeRecord * gset string :=
  let '(l, seen) := v in
  if decide (tr_signature r ∈ seen) then v
  else (trim max (r :: l), {[ tr_signature r ]} ∪ seen).

Definition same_mint (d d' : Db) (mint : string) : Prop :=
  db_list d' (trades_key mint) = db_list d (trades_key mint)
  ∧ db_set d' (signatures_key mint) = db_set d (signatures_key mint).

Lemma redis_range_trim {A} (l : list A) m : 0 ≤ m → redis_range l 0 (m - 1) = trim m l.
Proof.
  intros Hm. unfold redis_range, trim. cbv zeta. change (Z.max 0 _) with 0.
  change (Z.to_nat 0) with 0%nat. rewrite drop_0. destruct (Z.eqb_spec m 0) as [->|Hne].
  - change (0 - 1 <? 0) with true. cbv iota. apply take_ge. lia.
  - destruct (Z.ltb_spec (m - 1) 0); [lia|]. by replace (m - 1 - 0 + 1) with m by lia.
Qed.

Lemma db_list_set_list k l d k' :
  db_list (set_list k l d) k' = if decide (k' = k) then l else db_list d k'.
Proof.
  unfold db_list, set_list. destruct l as [|x l]; simpl; case_decide as Hk.
  - subst. by rewrite lookup_delete_eq.
  - by rewrite lookup_delete_ne.
  - subst. by rewrite lookup_insert_eq.
  - by rewrite lookup_insert_ne.
Qed.

Lemma db_set_set_list k l d k' : db_set (set_list k l d) k' = db_set d k'.
Proof. by destruct l. Qed.

Lemma db_list_sadd d k m k' : db_list (apply_cmd d (SAdd k m)) k' = db_list d k'.
Proof. done. Qed.

Lemma db_set_sadd d k m k' :
  db_set (apply_cmd d (SAdd k m)) k' = if decide (k' = k) then {[ m ]} ∪ db_set d k else db_set d k'.
Proof.
  unfold db_set at 1. simpl. case_decide as Hk.
  - subst. by rewrite lookup_insert_eq.
  - by rewrite lookup_insert_ne.
Qed.

Lemma string_append_inj p s t : p +:+ s = p +:+ t → s = t.
Proof. induction p; simpl; [done|]. intros [= ?]. auto. Qed.

Lemma isize_pred_ok n : 0 ≤ n < 2 ^ 63 → isize_pred n = Val (n - 1).
Proof.
  intros Hn. unfold isize_pred, wrap_signed. rewrite Z.mod_small by lia.
  destruct (Z.ltb_spec n (2 ^ (64 - 1))); [|lia]. apply ck_signed_ok. uint.
Qed.

(** The effect of the transaction of [store_trade]. *)
Lemma apply_store d mint v m r :
  0 ≤ m →
  let d' := apply_cmds [LPush (trades_key mint) v; LTrim (trades_key mint) 0 (m - 1);
                        SAdd (signatures_key mint) (tr_signature r)] d in
  db_list d' (trades_key mint) = trim m (v :: db_list d (trades_key mint))
  ∧ db_set d' (signatures_key mint) = {[ tr_signature r ]} ∪ db_set d (signatures_key mint)
  ∧ ∀ mint', mint' ≠ mint → same_mint d d' mint'.
Proof.
  intros Hm. cbn [apply_cmds foldl]. split; [|split].
  - rewrite db_list_sadd. cbn [apply_cmd]. rewrite !db_list_set_list, !decide_True by done.
    by apply redis_range_trim.
  - rewrite db_set_sadd, decide_True by done. cbn [apply_cmd]. by rewrite !db_set_set_list.
  - intros mint' Hne. split.
    + assert (trades_key mint' ≠ trades_key mint) by (intros ?%string_append_inj; done).
      rewrite db_list_sadd. cbn [apply_cmd]. by rewrite !db_list_set_list, !decide_False.
    + rewrite db_set_sadd, decide_False by (intros ?%string_append_inj; done).
      cbn [apply_cmd]. by rewrite !db_set_set_list.
Qed.

Lemma trim_Forall2 {A B} (P : A → B → Prop) m l k :
  Forall2 P l k → Forall2 P (trim m l) (trim m k).
Proof. intros Hf. unfold trim. cond; [done|]. by apply Forall2_take. Qed.

Lemma connection_inv e r e' : connection e = Val (r, e') → db e' = db e.
Proof.
  unfold connection, with_context, call. destruct (redis_connect e) as [[u|x] e1] eqn:Hc;
    intros [= <- <-]; by eapply redis_connect_db.
Qed.

Lemma is_signature_exists_inv mint signature e r e' :
  is_signature_exists mint signature e = Val (r, e') →
  db e' = db e ∧
  ∀ b, r = Ok b → b = bool_decide (signature ∈ db_set (db e) (signatures_key mint)).
Proof.
  unfold is_signature_exists, mbind. destruct (connection e) as [[[u|x] e1]|] eqn:Hc; [| |done].
  - apply connection_inv in Hc. unfold with_context, call.
    destruct (redis_sismember _ _ e1) as [[b|x] e2] eqn:Hs; intros [= <- <-];
      apply redis_sismember_db in Hs as [Hd Hb]; rewrite Hc in *; (split; [done|]);
      intros b' [= <-]. by apply Hb.
  - intros [= <- <-]. by apply connection_inv in Hc.
Qed.

(** One store, whatever becomes of the calls. *)
Lemma store_trade_run st mint r e res e' l seen :
  0 ≤ max_trades_per_token st < 2 ^ 63 →
  holds (db e) mint l seen →
  store_trade st mint r e = Val (res, e') →
  let new := spec_store (max_trades_per_token st) r (l, seen) in
  (holds (db e') mint new.1 new.2 ∨ res ≠ Ok () ∧ holds (db e') mint l seen)
  ∧ ∀ mint', mint' ≠ mint → same_mint (db e) (db e') mint'.
Proof.
  intros Hm [Hl Hseen] Hs. unfold store_trade, mbind in Hs.
  assert (Hsame : ∀ d mint', d = db e → same_mint (db e) d mint') by (by intros d ? ->).
  assert (Hkeep : ∀ x d new, d = db e →
    (holds d mint new.1 new.2 ∨ @Err string () x ≠ Ok () ∧ holds d mint l seen)
    ∧ ∀ mint', mint' ≠ mint → same_mint (db e) d mint')
    by (intros x d new ->; split; [by right|by intros; apply Hsame]).
  destruct (is_signature_exists _ _ e) as [[[b|x] e1]|] eqn:He; [| |done];
    apply is_signature_exists_inv in He as [Hd1 Hb]; [|injection Hs as <- <-; by apply (Hkeep _ _ (_, _))].
  specialize (Hb b eq_refl). rewrite Hseen in Hb. unfold spec_store.
  destruct b.
  { injection Hs as <- <-. symmetry in Hb. apply bool_decide_eq_true in Hb.
    rewrite decide_True by done. rewrite Hd1. split; [by left|by intros; apply Hsame]. }
  symmetry in Hb. apply bool_decide_eq_false in Hb. rewrite decide_False by done.
  destruct (trade_encode r) as [enc|x] eqn:Henc; cbn [with_context of_res] in Hs;
    [|injection Hs as <- <-; by apply (Hkeep _ _ (_, _))].
  destruct (connection e1) as [[[u|x] e2]|] eqn:Hc; [| |done];
    apply connection_inv in Hc; rewrite Hd1 in Hc;
    [|injection Hs as <- <-; by apply (Hkeep _ _ (_, _))].
  unfold of_ex in Hs. rewrite isize_pred_ok in Hs by done. cbn [exec_bind] in Hs.
  unfold with_context, call in Hs.
  destruct (redis_atomic _ e2) as [res2 e3] eqn:Ha. apply redis_atomic_db in Ha.
  destruct (apply_store (db e) mint enc (max_trades_per_token st) r ltac:(lia)) as (Hlist & Hset & Hother).
  assert (Hnew : db e3 = apply_cmds [LPush (trades_key mint) enc;
      LTrim (trades_key mint) 0 (max_trades_per_token st - 1);
      SAdd (signatures_key mint) (tr_signature r)] (db e) →
    holds (db e3) mint (trim (max_trades_per_token st) (r :: l)) ({[tr_signature r]} ∪ seen)
    ∧ ∀ mint', mint' ≠ mint → same_mint (db e) (db e3) mint').
  { intros ->. split; [|done]. split; [|by rewrite Hset, Hseen].
    rewrite Hlist. apply trim_Forall2. by constructor. }
  rewrite Hc in Ha.
  destruct res2 as [u2|x]; injection Hs as <- <-.
  - destruct (Hnew Ha). auto.
  - destruct Ha as [Ha|Ha]; [by apply (Hkeep _ _ (_, _))|]. destruct (Hnew Ha). auto.
Qed.

(** C18.  Storing a trade implements the store on trades and signatures: a
    signature already seen changes nothing, a new one is put in front and the
    list trimmed; a failed call leaves the old contents or, when only the
    reply was lost, the new ones; no other mint is touched. *)
Theorem store_trade_refines st mint r e res e' l seen :
  0 ≤ max_trades_per_token st < 2 ^ 63 →
  holds (db e) mint l seen →
  store_trade st mint r e = Val (res, e') →
  let new := spec_store (max_trades_per_token st) r (l, seen) in
  (holds (db e') mint new.1 new.2 ∨ res ≠ Ok () ∧ holds (db e') mint l seen)
  ∧ ∀ mint', mint' ≠ mint → same_mint (db e) (db e') mint'.
Proof. apply store_trade_run. Qed.

(** ** Invariant of the database *)

(** One trade per signature, every stored signature seen, a bounded list. *)
Definition tidy (max : Z) (l : list TokenTradeRecord) (seen : gset string) : Prop :=
  NoDup (map tr_signature l) ∧ (∀ r, r ∈ l → tr_signature r ∈ seen)
  ∧ (0 < max → Z.of_nat (length l) ≤ max).

Definition db_tidy (max : Z) (d : Db) : Prop :=
  ∀ mint, ∃ l seen, holds d mint l seen ∧ tidy max l seen.

(** A trade is stored, with whatever outcome, or something happens that leaves
    the database alone. *)
Inductive store_step (st : RedisStore) : E → E → Prop :=
| step_store mint r e res e' : store_trade st mint r e = Val (res, e') → store_step st e e'
| step_other e e' : db e' = db e → store_step st e e'.

Lemma elem_of_trim {A} (x : A) m l : x ∈ trim m l → x ∈ l.
Proof.
  unfold trim. cond; [done|]. intros Hx. by apply subseteq_take in Hx.
Qed.

Lemma spec_store_tidy m r l seen :
  0 ≤ m → tidy m l seen → tidy m (spec_store m r (l, seen)).1 (spec_store m r (l, seen)).2.
Proof.
  intros Hm (Hnd & Hsub & Hlen). unfold spec_store. case_decide as Hr; [done|]. simpl.
  split; [|split].
  - assert (Hn : NoDup (map tr_signature (r :: l))).
    { constructor; [|done]. intros Hin. apply list_elem_of_fmap in Hin as (q & Hq & Hin).
      rewrite Hq in Hr. auto. }
    unfold trim. cond; [done|]. rewrite <- firstn_map.
    eapply sublist_NoDup; [done|apply sublist_take].
  - intros q Hq%elem_of_trim. apply elem_of_cons in Hq as [->|Hq]; set_solver.
  - intros Hpos. unfold trim. destruct (Z.eqb_spec m 0); [lia|]. rewrite length_take. lia.
Qed.

Lemma tidy_same d d' mint m :
  same_mint d d' mint → (∃ l seen, holds d mint l seen ∧ tidy m l seen) →
  ∃ l seen, holds d' mint l seen ∧ tidy m l seen.
Proof.
  intros [Hl Hs] (l & seen & Hh & Ht). exists l, seen. unfold holds. by rewrite Hl, Hs.
Qed.

(** Starting from a tidy database (an empty one is), whatever trades are
    stored and however the server fails, the database stays tidy: at most one
    trade per signature and mint, each stored signature recorded as seen, and
    no list longer than the limit. *)
Theorem store_keeps_tidy st e e' :
  0 ≤ max_trades_per_token st < 2 ^ 63 →
  db_tidy (max_trades_per_token st) (db e) →
  rtc (store_step st) e e' →
  db_tidy (max_trades_per_token st) (db e').
Proof.
  intros Hm Ht Hr. induction Hr as [|e1 e2 e3 Hstep _ IH]; [done|]. apply IH. clear IH.
  destruct Hstep as [mint r e1 res e2 Hs|e1 e2 ->]; [|done].
  intros mint'. destruct (Ht mint) as (l & seen & Hh & Hl).
  destruct (store_trade_run st mint r e1 res e2 l seen Hm Hh Hs) as [Hn Ho].
  destruct (decide (mint' = mint)) as [->|Hne]; [|by eapply tidy_same; [apply Ho|apply Ht]].
  destruct Hn as [Hn|[_ Hn]]; do 2 eexists; (split; [exact Hn|]); [|done].
  by apply spec_store_tidy; [lia|].
Qed.

Lemma tidy_empty max : db_tidy max (mk_Db ∅ ∅).
Proof.
  intros mint. exists [], ∅. unfold holds, db_list, db_set. simpl. rewrite !lookup_empty.
  split; [done|]. split; [constructor|]. split; [|simpl; lia]. by intros r ?%elem_of_nil.
Qed.

(** ** Reading back *)

(** A trade as it is read: the price as the codec renders it, a time below
    10^12 taken for seconds. *)
Definition normal (r : TokenTradeRecord) : TokenTradeRecord :=
  with_blocktime (with_price r (json_f64 (tr_price r)))
    (if tr_blocktime_us r <? 1000000000000 then tr_blocktime_us r * 1000000 else tr_blocktime_us r).

(** Times whose reading does not overflow. *)
Definition readable (r : TokenTradeRecord) : Prop :=
  - 2 ^ 63 / 1000000 < tr_blocktime_us r < 2 ^ 63.

Lemma trade_from_str_ok r s e :
  readable r → trade_encode r = Ok s → trade_from_str s e = Val (Ok (normal r), e).
Proof.
  intros Hr Hs%trade_codec. unfold readable in Hr.
  change (- 2 ^ 63 / 1000000) with (-9223372036855) in Hr.
  unfold trade_from_str, of_res, mbind. rewrite Hs. cbn [snd fst deserialize_blocktime].
  unfold of_ex, micros_of, normal. destruct (tr_blocktime_us r <? _) eqn:Hb; bool_hyps;
    [rewrite ck_signed_ok by uint|]; done.
Qed.

Lemma parse_all_ok l strs e :
  Forall readable l → Forall2 (λ r s, trade_encode r = Ok s) l strs →
  parse_all strs e = Val (Ok (map normal l), e).
Proof.
  intros Hl Hf. revert Hl. induction Hf as [|r s l strs Hrs _ IH]; intros Hl; [done|].
  inversion Hl; subst. cbn [parse_all map]. unfold mbind at 1, with_context.
  rewrite (trade_from_str_ok r) by done. unfold mbind. by rewrite IH.
Qed.

(** Reading back the trades of a mint gives the newest [limit] of those
    stored (all of them for the limit 0), each as the codec renders it, sorted
    by time, latest first. *)
Theorem get_recent_trades_spec mint limit l seen e rs e' :
  0 ≤ limit < 2 ^ 63 → Forall readable l → holds (db e) mint l seen →
  get_recent_trades mint limit e = Val (Ok rs, e') →
  rs = sort_desc tr_blocktime_us (map normal (trim limit l)) ∧ db e' = db e.
Proof.
  intros Hlim Hr [Hl _] Hg. unfold get_recent_trades in Hg. m_inv.
  rewrite isize_pred_ok in R0 by done. injection R0 as <-. unfold call in R1.
  injection R1 as R1. apply connection_inv in R. apply redis_lrange_db in R1 as [Hd Hv].
  rewrite R in *. specialize (Hv _ eq_refl). rewrite redis_range_trim in Hv by lia. subst.
  rewrite (parse_all_ok (trim limit l)) in R2.
  - by injection R2 as <- <-.
  - apply Forall_forall. intros r ?%elem_of_trim. rewrite Forall_forall in Hr. auto.
  - by apply trim_Forall2.
Qed.

(** The latest price of a mint is the price of the trade stored last,
    whatever the block times say; there is none when no trade is stored. *)
Theorem latest_price_spec mint l seen e p e' :
  Forall readable l → holds (db e) mint l seen →
  get_latest_price_from_trades mint e = Val (Ok p, e') →
  p = (λ r, json_f64 (tr_price r)) <$> head l.
Proof.
  intros Hr Hh Hg. unfold get_latest_price_from_trades in Hg. m_inv.
  destruct (get_recent_trades_spec mint 1 l seen e a e0 ltac:(lia) Hr Hh R) as [-> _].
  subst p. by destruct l as [|r [|q l]].
Qed.

(** The active mints are those with a list of trades; when the listing of
    the keys fails, there are none and no error. *)
Theorem get_active_mints_spec e ms e' :
  get_active_mints e = Val (Ok ms, e') →
  db e' = db e ∧
  (ms = [] ∨
   ∀ mint, mint ∈ ms ↔
     trades_key mint ∈ dom (db_lists (db e)) ∨ trades_key mint ∈ dom (db_sets (db e))).
Proof.
  unfold get_active_mints. intros Hg. m_inv. apply connection_inv in R.
  unfold call in R0. injection R0 as R0. apply redis_keys_db in R0 as [Hd Hk].
  rewrite R in *. split; [done|]. destruct a0 as [ks|x]; [|by left]. right. intros mint.
  rewrite <- Hg, list_elem_of_omap. split.
  - intros (k & Hin & Hs). apply (Hk _ eq_refl) in Hin as [[s ->] Hdom].
    assert (Hstrip : strip_prefix "trades:" ("trades:" +:+ s) = Some s) by done.
    rewrite Hstrip in Hs. by injection Hs as ->.
  - intros Hdom. exists (trades_key mint). split; [|done]. apply (Hk _ eq_refl).
    split; [by exists mint|done].
Qed.

(** The price change read from records compares the first and the last of
    the recent trades by time: nothing with fewer than two trades or an oldest
    price of zero. *)
Theorem price_change_spec mint count l seen e c e' :
  0 ≤ count < 2 ^ 63 → Forall readable l → holds (db e) mint l seen →
  calculate_price_change_from_records mint count e = Val (Ok c, e') →
  match c with
  | None =>
      (length (trim count l) < 2)%nat
      ∨ ∃ r, r ∈ trim count l ∧ f_eqb (json_f64 (tr_price r)) f_zero = true
  | Some pct =>
      ∃ newest oldest, newest ∈ map normal (trim count l) ∧ oldest ∈ map normal (trim count l)
      ∧ (∀ r, r ∈ map normal (trim count l) →
           tr_blocktime_us oldest ≤ tr_blocktime_us r ≤ tr_blocktime_us newest)
      ∧ pct = fmul (fdiv (fsub (tr_price newest) (tr_price oldest)) (tr_price oldest)) (f64_of_Z 100)
  end.
Proof.
  intros Hc Hr Hh Hg. unfold calculate_price_change_from_records in Hg. m_inv.
  destruct (get_recent_trades_spec mint count l seen e a e0 Hc Hr Hh R) as [Ha _].
  pose proof (sort_desc_perm tr_blocktime_us (map normal (trim count l))) as Hp.
  pose proof (sort_desc_desc tr_blocktime_us (map normal (trim count l))) as Hd.
  rewrite <- Ha in Hp, Hd. clear Ha R. subst c. unfold price_change. case_bool_decide as Hlen.
  { left. by rewrite <- (length_map normal), <- Hp. }
  destruct a as [|newest a]; [simpl in Hlen; lia|]. cbn [head].
  rewrite last_lookup. set (n := pred (length (newest :: a))).
  destruct ((newest :: a) !! n) as [oldest|] eqn:Ho; [|by apply lookup_ge_None in Ho; simpl in *; lia].
  cond.
  - right. assert (Hin : oldest ∈ map normal (trim count l))
      by (rewrite <- Hp; by eapply list_elem_of_lookup_2).
    apply list_elem_of_fmap in Hin as (r & -> & Hin). exists r. split; [done|]. done.
  - exists newest, oldest. rewrite <- Hp. split; [by left|].
    split; [by eapply list_elem_of_lookup_2|]. split; [|done].
    intros r Hr'. rewrite <- Hp in Hr'. apply list_elem_of_lookup in Hr' as [i Hi].
    pose proof (lookup_lt_Some _ _ _ Hi). split.
    + by apply (Hd i n); [unfold n; simpl in *; lia|..].
    + by apply (Hd 0%nat i); [lia|..].
Qed.
End Store.

(** ** A simulated server *)

Definition toy_sim : Sim := mk_Sim (λ _, None) (λ _, None) 0 1700000000001000 [].


Definition Env : Type := Sim * Db.

Definition on_sim {A} (f : Sim → A * Sim) (e : Env) : A * Env :=
  let '(a, s) := f e.1 in (a, (s, e.2)).

#[export] Instance env_rpc : Rpc Env := {|
  rpc_get_account := λ p, on_sim (rpc_get_account p);
  rpc_get_multiple_accounts := λ l, on_sim (rpc_get_multiple_accounts l);
  rpc_get_token_account_balance := λ p, on_sim (rpc_get_token_account_balance p);
  rpc_get_balance := λ p, on_sim (rpc_get_balance p);
  rpc_get_latest_blockhash := on_sim rpc_get_latest_blockhash;
  rpc_get_program_accounts := λ a b c d, on_sim (rpc_get_program_accounts a b c d);
  rpc_timeout := λ _ _, None;
  sleep_ms := λ ms e, (sleep_ms ms e.1, e.2);
  now_micros := on_sim now_micros;
|}.

(** The keys of the database with the prefix of a list of trades. *)
Definition trade_keys (d : Db) : list string :=
  base.filter (λ k, is_Some (strip_prefix "trades:" k))
    (elements (dom (db_lists d) ∪ dom (db_sets d) : gset string)).

Lemma strip_prefix_Some p s t : strip_prefix p s = Some t ↔ s = p +:+ t.
Proof.
  revert s. induction p as [|a p IH]; intros s; simpl;
    [split; [by intros [= ->]|by intros ->]|].
  destruct s as [|b s]; [split; discriminate|]. destruct (Ascii.eqb_spec a b) as [->|Hne].
  - rewrite IH. split; [by intros ->|by intros [= ->]].
  - split; [done|]. intros [= -> _]. by destruct Hne.
Qed.

#[export] Instance env_redis : Redis Env.
Proof.
  refine {|
    redis_open := λ _, Ok ();
    redis_connect := λ e, (Ok (), e);
    redis_sismember := λ k m e, (Ok (bool_decide (m ∈ db_set e.2 k)), e);
    redis_atomic := λ l e, (Ok (), (e.1, apply_cmds l e.2));
    redis_lrange := λ k a b e, (Ok (redis_range (db_list e.2 k) a b), e);
    redis_keys := λ _ e, (Ok (trade_keys e.2), e);
    db := snd;
  |}.
  - by intros e r e' [= _ <-].
  - intros k m e r e' [= <- <-]. split; [done|]. by intros b [= <-].
  - by intros l e r e' [= <- <-].
  - intros k a b e r e' [= <- <-]. split; [done|]. by intros l [= <-].
  - intros e r e' [= <- <-]. split; [done|]. intros l [= <-] k. unfold trade_keys.
    rewrite list_elem_of_filter, elem_of_elements, elem_of_union. unfold is_Some.
    setoid_rewrite strip_prefix_Some. naive_solver.
Defined.

#[export] Instance f64_eq_dec : EqDecision f64.
Proof. solve_decision. Defined.
#[export] Instance TokenTradeRecord_eq_dec : EqDecision TokenTradeRecord.
Proof. solve_decision. Defined.

(** A codec that writes a trade as its time, one sample per time. *)
Definition sample (t : Z) : TokenTradeRecord :=
  mk_Trade "m" 1000 2000 (f64_of_Z (t mod 1000)) t true (show t).

Definition toy_encode (r : TokenTradeRecord) : result string string :=
  let t := tr_blocktime_us r in
  if decide (r = sample t) then
    if ((0 <=? t) && (t <? 2 ^ 63))%bool
    then Ok (string_of_list_ascii (map (λ b, Ascii.ascii_of_N (Z.to_N b)) (u64_le_bytes t)))
    else Err "time out of range"
  else Err "not a sample".

Definition toy_decode (s : string) : result string (TokenTradeRecord * JsonValue) :=
  let t := le_value (ascii_bytes s) in Ok (sample t, JNumber (Some t)).

Lemma toy_codec r s :
  toy_encode r = Ok s →
  toy_decode s = Ok (with_price r (tr_price r), JNumber (Some (tr_blocktime_us r))).
Proof.
  unfold toy_encode. destruct (decide _) as [Hr|]; [|done]. cond; [|done]. bool_hyps.
  intros <-%Ok_inj. unfold toy_decode. rewrite ascii_bytes_of_bytes by apply le_bytes_bytes.
  rewrite u64_le_roundtrip by uint. by rewrite Hr.
Qed.

Definition toy_json : TradeJson :=
  {| trade_encode := toy_encode; trade_decode := toy_decode; json_f64 := id;
     trade_codec := toy_codec |}.

Definition toy_env : Env := (toy_sim, mk_Db ∅ ∅).
Definition toy_store : RedisStore := mk_RedisStore 2.

(** Three trades stored one after the other, the second earlier in time. *)
Definition T1 : Z := 1700000000000100.
Definition T2 : Z := 1700000000000200.
Definition T3 : Z := 1700000000000150.

Definition put (t : Z) (e : Env) : Env :=
  match @store_trade release Env _ toy_json toy_store "m" (sample t) e with
  | Val (_, e') => e'
  | Panic => e
  end.

Definition full_env : Env := put T3 (put T2 (put T1 toy_env)).

Definition full_holds : @holds toy_json (db full_env) "m" [sample T3; sample T2]
  {[show T3; show T2; show T1]}.
Proof. split; [repeat constructor; vm_compute; reflexivity|vm_compute; reflexivity]. Defined.

Lemma sample_readable : Forall readable [sample T3; sample T2].
Proof. repeat constructor; concrete. Qed.

Lemma store_trade_refines_witness :
  @store_trade release Env _ toy_json toy_store "m" (sample T1) toy_env
    = Val (Ok (), put T1 toy_env) ∧
  (@holds toy_json (db (put T1 toy_env)) "m" [sample T1] ({[ show T1 ]} ∪ ∅)
   ∨ @Ok string () () ≠ Ok () ∧ @holds toy_json (db (put T1 toy_env)) "m" [] ∅).
Proof.
  assert (Hs : @store_trade release Env _ toy_json toy_store "m" (sample T1) toy_env
    = Val (Ok (), put T1 toy_env)) by (vm_compute; reflexivity).
  split; [exact Hs|].
  refine (proj1 (@store_trade_refines release Env _ toy_json toy_store "m" (sample T1) toy_env
    (Ok ()) (put T1 toy_env) [] ∅ _ _ Hs)); [concrete|].
  split; [constructor|reflexivity].
Defined.

Lemma store_keeps_tidy_witness :
  @db_tidy toy_json 2 (db toy_env) ∧ rtc (@store_step release Env _ toy_json toy_store) toy_env (put T1 toy_env) ∧
  @db_tidy toy_json 2 (db (put T1 toy_env)).
Proof.
  assert (Ht : @db_tidy toy_json 2 (db toy_env)) by apply tidy_empty.
  assert (Hr : rtc (@store_step release Env _ toy_json toy_store) toy_env (put T1 toy_env)).
  { apply rtc_once. eapply (@step_store _ _ _ _ _ "m" (sample T1) _ (Ok ())).
    vm_compute. reflexivity. }
  split; [exact Ht|]. split; [exact Hr|].
  refine (@store_keeps_tidy release Env _ toy_json toy_store toy_env (put T1 toy_env) _ Ht Hr).
  concrete.
Defined.

Lemma get_recent_trades_spec_witness :
  @get_recent_trades release Env _ _ toy_json "m" 5 full_env
    = Val (Ok [sample T2; sample T3], full_env) ∧
  [sample T2; sample T3] = sort_desc tr_blocktime_us
     (map (@normal toy_json) (trim 5 [sample T3; sample T2])) ∧ db full_env = db full_env.
Proof.
  assert (Hg : @get_recent_trades release Env _ _ toy_json "m" 5 full_env
    = Val (Ok [sample T2; sample T3], full_env)) by (vm_compute; reflexivity).
  split; [exact Hg|].
  refine (@get_recent_trades_spec release Env _ _ toy_json "m" 5 _ _ full_env _ full_env _
    sample_readable full_holds Hg). concrete.
Defined.

Lemma latest_price_spec_witness :
  @get_latest_price_from_trades release Env _ _ toy_json "m" full_env
    = Val (Ok (Some (f64_of_Z 150)), full_env) ∧
  Some (f64_of_Z 150) = (λ r, id (tr_price r)) <$> head [sample T3; sample T2].
Proof.
  assert (Hg : @get_latest_price_from_trades release Env _ _ toy_json "m" full_env
    = Val (Ok (Some (f64_of_Z 150)), full_env)) by (vm_compute; reflexivity).
  split; [exact Hg|].
  exact (@latest_price_spec release Env _ _ toy_json "m" _ _ full_env _ full_env
    sample_readable full_holds Hg).
Defined.

Lemma get_active_mints_spec_witness :
  @get_active_mints Env _ full_env = Val (Ok ["m"], full_env) ∧
  (db full_env = db full_env ∧
   (["m"] = [] ∨ ∀ mint, mint ∈ ["m"] ↔
     trades_key mint ∈ dom (db_lists (db full_env)) ∨ trades_key mint ∈ dom (db_sets (db full_env)))).
Proof.
  assert (Hg : @get_active_mints Env _ full_env = Val (Ok ["m"], full_env))
    by (vm_compute; reflexivity).
  split; [exact Hg|]. exact (@get_active_mints_spec Env _ full_env ["m"] full_env Hg).
Defined.

Lemma price_change_spec_witness :
  @calculate_price_change_from_records release Env _ _ toy_json "m" 5 full_env
    = Val (Ok (Some (fmul (fdiv (fsub (f64_of_Z 200) (f64_of_Z 150)) (f64_of_Z 150)) (f64_of_Z 100))), full_env) ∧
  ∃ newest oldest, newest ∈ map (@normal toy_json) (trim 5 [sample T3; sample T2])
    ∧ oldest ∈ map (@normal toy_json) (trim 5 [sample T3; sample T2])
    ∧ (∀ r, r ∈ map (@normal toy_json) (trim 5 [sample T3; sample T2]) →
         tr_blocktime_us oldest ≤ tr_blocktime_us r ≤ tr_blocktime_us newest)
    ∧ fmul (fdiv (fsub (f64_of_Z 200) (f64_of_Z 150)) (f64_of_Z 150)) (f64_of_Z 100)
      = fmul (fdiv (fsub (tr_price newest) (tr_price oldest)) (tr_price oldest)) (f64_of_Z 100).
Proof.
  assert (Hg : @calculate_price_change_from_records release Env _ _ toy_json "m" 5 full_env
    = Val (Ok (Some (fmul (fdiv (fsub (f64_of_Z 200) (f64_of_Z 150)) (f64_of_Z 150))
        (f64_of_Z 100))), full_env)) by (vm_compute; reflexivity).
  split; [exact Hg|].
  refine (@price_change_spec release Env _ _ toy_json "m" 5 _ _ full_env _ full_env _
    sample_readable full_holds Hg). concrete.
Defined.
