(* ===== verification/Client.v ===== *)
(** * The trading client (sdk lib.rs, trading/factory.rs, trading/core/params.rs)

    The parameters of a purchase and of a sale, their checks, and their
    translation into the parameters of a swap.  The executor that builds,
    signs and submits is the class [Executor]; what the client offers to the
    bot is the class [Trading], with [client_trading] as its instance. *)

From Stdlib Require Import String.
From S2P Require Import Prelude F64 Solana GasFee Effects PumpSwapUtils Borsh Params.

#[local] Open Scope string_scope.
#[local] Open Scope Z_scope.

(* sdk trading/factory.rs:13-20 DexType *)
Inductive DexType := DPumpFun | DPumpSwap | DBonk | DRaydiumCpmm | DRaydiumAmmV4 | DMeteoraDammV2.

(* sdk lib.rs:75-80 TradeTokenType *)
Inductive TradeTokenType := TSOL | TWSOL | TUSD1 | TUSDC.

#[export] Instance DexType_eq_dec : EqDecision DexType.
Proof. solve_decision. Defined.
#[export] Instance TradeTokenType_eq_dec : EqDecision TradeTokenType.
Proof. solve_decision. Defined.

Abbreviation Hash := Z (only parsing).

Record AddressLookupTableAccount := mk_Alt { alt_key : Pubkey; alt_addresses : list Pubkey }.

(* sdk common/nonce_cache.rs:8-13 DurableNonceInfo *)
Record DurableNonceInfo := mk_Nonce {
  nonce_account : option Pubkey;
  current_nonce : option Hash;
}.

(* sdk lib.rs:342-384 TradeBuyParams *)
Record TradeBuyParams := mk_Buy {
  b_dex_type : DexType;
  b_input_token_type : TradeTokenType;
  b_mint : Pubkey;
  b_input_token_amount : Z;
  b_slippage_basis_points : option Z;
  b_recent_blockhash : option Hash;
  b_extension_params : DexParamEnum;
  b_address_lookup_table_account : option AddressLookupTableAccount;
  b_wait_tx_confirmed : bool;
  b_create_input_token_ata : bool;
  b_close_input_token_ata : bool;
  b_create_mint_ata : bool;
  b_durable_nonce : option DurableNonceInfo;
  b_fixed_output_token_amount : option Z;
  b_gas_fee_strategy : GasFeeStrategy;
  b_simulate : bool;
  b_use_exact_sol_amount : option bool;
  b_grpc_recv_us : option Z;
}.

(* sdk lib.rs:391-430 TradeSellParams *)
Record TradeSellParams := mk_Sell {
  s_dex_type : DexType;
  s_output_token_type : TradeTokenType;
  s_mint : Pubkey;
  s_input_token_amount : Z;
  s_slippage_basis_points : option Z;
  s_recent_blockhash : option Hash;
  s_with_tip : bool;
  s_extension_params : DexParamEnum;
  s_address_lookup_table_account : option AddressLookupTableAccount;
  s_wait_tx_confirmed : bool;
  s_create_output_token_ata : bool;
  s_close_output_token_ata : bool;
  s_close_mint_token_ata : bool;
  s_durable_nonce : option DurableNonceInfo;
  s_fixed_output_token_amount : option Z;
  s_gas_fee_strategy : GasFeeStrategy;
  s_simulate : bool;
  s_grpc_recv_us : option Z;
}.

(** The handles of the infrastructure (RPC client, submission channels,
    middleware, threads) are not fields: the executor reaches them through the
    environment. *)
(* sdk trading/core/params.rs:52-98 SwapParams *)
Record SwapParams := mk_Swap {
  payer : Pubkey;
  trade_type : TradeType;
  input_mint : Pubkey;
  input_token_program : option Pubkey;
  output_mint : Pubkey;
  output_token_program : option Pubkey;
  input_amount : option Z;
  slippage_basis_points : option Z;
  address_lookup_table_account : option AddressLookupTableAccount;
  recent_blockhash : option Hash;
  wait_tx_confirmed : bool;
  protocol_params : DexParamEnum;
  open_seed_optimize : bool;
  durable_nonce : option DurableNonceInfo;
  with_tip : bool;
  create_input_mint_ata : bool;
  close_input_mint_ata : bool;
  create_output_mint_ata : bool;
  close_output_mint_ata : bool;
  fixed_output_amount : option Z;
  gas_fee_strategy : GasFeeStrategy;
  simulate : bool;
  log_enabled : bool;
  check_min_tip : bool;
  grpc_recv_us : option Z;
  use_exact_sol_amount : option bool;
}.

(* sdk swqos/common.rs:51-55 TradeError *)
Record TradeError := mk_TradeError {
  te_code : Z;
  te_message : string;
  te_instruction : option Z;
}.

(** An [anyhow::Error]: a [TradeError] inside, or a message. *)
Inductive AnyError :=
| Typed (e : TradeError)
| Message (s : string).

(* sdk swqos/common.rs:66-71 from *)
Definition trade_error_from (e : AnyError) : TradeError :=
  match e with
  | Typed te => te
  | Message s => mk_TradeError 500 s None
  end.

(** Success, signatures, last error, submission times per channel. *)
Abbreviation SwapResult X := (bool * list string * option X * list (SwqosType * Z))%type.

(** [TradeFactory::create_executor(dex).swap(params)]. *)
Class Executor (E : Type) := {
  swap : DexType → SwapParams → M E (SwapResult AnyError);
}.

(** What a client offers. *)
Class Trading (E : Type) := {
  trading_payer : Pubkey;
  trading_buy : TradeBuyParams → M E (SwapResult TradeError);
  trading_sell : TradeSellParams → M E (SwapResult TradeError);
}.

(* sdk lib.rs:290-313 TradingClient *)
Record TradingClient := mk_Client {
  tc_payer : Pubkey;
  tc_use_seed_optimize : bool;
  tc_log_enabled : bool;
  tc_check_min_tip : bool;
  tc_use_dedicated_sender_threads : bool;
  tc_sender_thread_cores : option (list Z);
  tc_max_sender_concurrency : Z;
  tc_effective_core_ids : list Z;
}.

(* sdk lib.rs:724-741 with_dedicated_sender_threads *)
Definition with_dedicated_sender_threads (c : TradingClient) (core_indices : option (list Z)) :
    TradingClient :=
  let '(dedicated, cores) :=
    match core_indices with
    | None => (false, None)
    | Some [] => (true, None)
    | Some v =>
        let cap := Z.min (Z.of_nat (length v)) (tc_max_sender_concurrency c) in
        (true, Some (if cap <? Z.of_nat (length v) then take (Z.to_nat cap) v else v))
    end in
  mk_Client (tc_payer c) (tc_use_seed_optimize c) (tc_log_enabled c) (tc_check_min_tip c) dedicated
    cores (tc_max_sender_concurrency c) (tc_effective_core_ids c).

(* sdk lib.rs:48-57 validate_protocol_params *)
Definition validate_protocol_params (dex_type : DexType) (params : DexParamEnum) : bool :=
  match dex_type, params with
  | DPumpFun, PPumpFun _ => true
  | DPumpSwap, PPumpSwap _ => true
  | DBonk, PBonk _ => true
  | DRaydiumCpmm, PRaydiumCpmm _ => true
  | DRaydiumAmmV4, PRaydiumAmmV4 _ => true
  | DMeteoraDammV2, PMeteoraDammV2 _ => true
  | _, _ => false
  end.

(** [{:?}] of a [DexType]. *)
Definition dex_name (d : DexType) : string :=
  match d with
  | DPumpFun => "PumpFun" | DPumpSwap => "PumpSwap" | DBonk => "Bonk"
  | DRaydiumCpmm => "RaydiumCpmm" | DRaydiumAmmV4 => "RaydiumAmmV4"
  | DMeteoraDammV2 => "MeteoraDammV2"
  end.

(* sdk lib.rs:826-834 input_token_mint *)
Definition token_mint (t : TradeTokenType) : Pubkey :=
  match t with
  | TSOL => SOL_TOKEN_ACCOUNT
  | TWSOL => WSOL_TOKEN_ACCOUNT
  | TUSDC => USDC_TOKEN_ACCOUNT
  | TUSD1 => USD1_TOKEN_ACCOUNT
  end.

(** The checks of a trade, in their order. *)
Definition check_trade (verb : string) (recent_blockhash : option Hash)
    (durable_nonce : option DurableNonceInfo) (token : TradeTokenType) (dex : DexType)
    (params : DexParamEnum) : result string () :=
  match recent_blockhash, durable_nonce with
  | None, None =>
      Err ("Must provide either recent_blockhash or durable_nonce for " +:+ verb +:+
           " (required for transaction validity)")
  | _, _ =>
      if bool_decide (token = TUSD1 ∧ dex ≠ DBonk)
      then Err " Current version only supports USD1 trading on Bonk protocols"
      else if negb (validate_protocol_params dex params)
      then Err ("Invalid protocol params for Trade (dex=" +:+ dex_name dex +:+ ")")
      else Ok ()
  end.

(* sdk lib.rs:835-870 buy_params *)
Definition swap_of_buy (c : TradingClient) (p : TradeBuyParams) : SwapParams :=
  mk_Swap (tc_payer c) TBuy (token_mint (b_input_token_type p)) None (b_mint p) None
    (Some (b_input_token_amount p)) (b_slippage_basis_points p)
    (b_address_lookup_table_account p) (b_recent_blockhash p) (b_wait_tx_confirmed p)
    (b_extension_params p) (tc_use_seed_optimize c) (b_durable_nonce p) true
    (b_create_input_token_ata p) (b_close_input_token_ata p) (b_create_mint_ata p) false
    (b_fixed_output_token_amount p) (b_gas_fee_strategy p) (b_simulate p) (tc_log_enabled c)
    (tc_check_min_tip c) (b_grpc_recv_us p) (b_use_exact_sol_amount p).

(* sdk lib.rs:943-977 sell_params *)
Definition swap_of_sell (c : TradingClient) (p : TradeSellParams) : SwapParams :=
  mk_Swap (tc_payer c) TSell (s_mint p) None (token_mint (s_output_token_type p)) None
    (Some (s_input_token_amount p)) (s_slippage_basis_points p)
    (s_address_lookup_table_account p) (s_recent_blockhash p) (s_wait_tx_confirmed p)
    (s_extension_params p) (tc_use_seed_optimize c) (s_durable_nonce p) (s_with_tip p)
    false (s_close_mint_token_ata p) (s_create_output_token_ata p) (s_close_output_token_ata p)
    (s_fixed_output_token_amount p) (s_gas_fee_strategy p) (s_simulate p) (tc_log_enabled c)
    (tc_check_min_tip c) (s_grpc_recv_us p) None.

Section Client.
Context `{Build} {E : Type} `{Executor E}.

Definition run_swap (dex : DexType) (p : SwapParams) : M E (SwapResult TradeError) :=
  let% r := swap dex p in
  let '(success, sigs, err, timings) := r in
  mret (success, sigs, trade_error_from <$> err, timings).

(* sdk lib.rs:797-876 buy *)
Definition client_buy (c : TradingClient) (p : TradeBuyParams) : M E (SwapResult TradeError) :=
  let% _ := of_res (check_trade "buy" (b_recent_blockhash p) (b_durable_nonce p)
                      (b_input_token_type p) (b_dex_type p) (b_extension_params p)) in
  run_swap (b_dex_type p) (swap_of_buy c p).

(* sdk lib.rs:904-983 sell *)
Definition client_sell (c : TradingClient) (p : TradeSellParams) : M E (SwapResult TradeError) :=
  let% _ := of_res (check_trade "sell" (s_recent_blockhash p) (s_durable_nonce p)
                      (s_output_token_type p) (s_dex_type p) (s_extension_params p)) in
  run_swap (s_dex_type p) (swap_of_sell c p).

Definition with_amount (p : TradeSellParams) (amount : Z) : TradeSellParams :=
  mk_Sell (s_dex_type p) (s_output_token_type p) (s_mint p) amount (s_slippage_basis_points p)
    (s_recent_blockhash p) (s_with_tip p) (s_extension_params p)
    (s_address_lookup_table_account p) (s_wait_tx_confirmed p) (s_create_output_token_ata p)
    (s_close_output_token_ata p) (s_close_mint_token_ata p) (s_durable_nonce p)
    (s_fixed_output_token_amount p) (s_gas_fee_strategy p) (s_simulate p) (s_grpc_recv_us p).

(* sdk lib.rs:1011-1023 sell_by_percent *)
Definition sell_by_percent (c : TradingClient) (p : TradeSellParams) (amount_token percent : Z) :
    M E (SwapResult TradeError) :=
  if (percent =? 0) || (100 <? percent) then mfail "Percentage must be between 1 and 100"
  else
    let% m := of_ex (mul 64 amount_token percent) in
    let% amount := of_ex (div m 100) in
    client_sell c (with_amount p amount).

#[export] Instance client_trading (c : TradingClient) : Trading E :=
  {| trading_payer := tc_payer c; trading_buy := client_buy c; trading_sell := client_sell c |}.
End Client.

(* sdk lib.rs:62-71 find_pool_by_mint *)
Definition find_pool_by_mint `{Sdk} `{KeyText} `{Borsh} {E : Type} `{Rpc E} (mint : Pubkey)
    (dex_type : DexType) : M E Pubkey :=
  match dex_type with
  | DPumpSwap => find_pool mint
  | _ => mfail ("find_pool_by_mint not implemented for " +:+ dex_name dex_type)
  end.
