(* ===== verification/Trader.v ===== *)
(** * The trader (bot trading.rs, TradeInfo and Trader; bot config.rs)

    The pool of a mint is found and remembered as a [TradeInfo]; a purchase and
    a sale rebuild the protocol parameters from it and go through the client
    interface [Trading].  Logging is not modelled. *)

From Stdlib Require Import String.
From S2P Require Import Prelude F64 Solana Accounts Spl FastFn GasFee Effects PumpSwapUtils Borsh Params Client.

#[local] Open Scope string_scope.
#[local] Open Scope Z_scope.

(** ** Configuration *)

(* bot config.rs:11-43 BotConfig *)
Record BotConfig := mk_BotConfig {
  grpc_url : string;
  rpc_url : string;
  grpc_token : option string;
  private_key : string;
  target_mint : string;
  buy_amount_sol : f64;
  hold_seconds : Z;
  cfg_slippage_bps : Z;
  cfg_max_retries : Z;
  cfg_retry_delay_ms : Z;
  jito_enabled : bool;
  jito_uuid : option string;
  jito_region : string;
  redis_url : string;
  cfg_max_trades_per_token : Z;
  buy_threshold_pct : f64;
  buy_time_window_sec : Z;
  buy_record_count : Z;
  sell_profit_pct : f64;
  sell_stop_loss_pct : f64;
}.

(* bot config.rs:45-47 default_max_retries *)
Definition default_max_retries : Z := 5.
(* bot config.rs:49-51 default_retry_delay_ms *)
Definition default_retry_delay_ms : Z := 1000.
(* bot config.rs:53-55 default_jito_enabled *)
Definition default_jito_enabled : bool := false.
(* bot config.rs:57-59 default_jito_region *)
Definition default_jito_region : string := "Frankfurt".
(* bot config.rs:61-63 default_redis_url *)
Definition default_redis_url : string := "redis://127.0.0.1/".
(* bot config.rs:65-67 default_max_trades_per_token *)
Definition default_max_trades_per_token : Z := 1000.
(* bot config.rs:69-71 default_buy_threshold_pct *)
Definition default_buy_threshold_pct : f64 := f64_of_Z 10.
(* bot config.rs:73-75 default_buy_time_window_sec *)
Definition default_buy_time_window_sec : Z := 5.
(* bot config.rs:77-79 default_buy_record_count *)
Definition default_buy_record_count : Z := 5.
(* bot config.rs:81-83 default_sell_profit_pct *)
Definition default_sell_profit_pct : f64 := f64_of_Z 10.
(* bot config.rs:85-87 default_sell_stop_loss_pct *)
Definition default_sell_stop_loss_pct : f64 := f64_of_Z 5.

(* bot config.rs:114-116 buy_amount_lamports *)
Definition buy_amount_lamports (c : BotConfig) : Z :=
  f64_as_u64 (fmul (buy_amount_sol c) (f64_of_Z 1000000000)).

(** ** What the trader knows of a pool *)

(* bot trading.rs:26-33 PUMP_PROGRAM_ID *)
Definition BOT_PUMP_PROGRAM_ID : Pubkey :=
  Eval vm_compute in pubkey "6EF8rrecthR5Dkzon8Nwu78hRvfCKubJ14M5uBEwF6P".
Definition PUMPSWAP_PROGRAM_ID : Pubkey :=
  Eval vm_compute in pubkey "pAMMBay6oceH9fJKBRHGP5D4bD4sWpmSwMn52FMfXEA".
Definition WSOL_MINT : Pubkey :=
  Eval vm_compute in pubkey "So11111111111111111111111111111111111111112".
(* bot trading.rs:31-31 MAYHEM_FEE_RECIPIENT_SWAP *)
Definition MAYHEM_FEE_RECIPIENT_SWAP : Pubkey :=
  Eval vm_compute in pubkey "8N3GDaZ2iwN65oxVatKTLPNooAVUJTbfiVJ1ahyqwjSk".

(* bot trading.rs:331-346 TradeInfo *)
Record TradeInfo := mk_TradeInfo {
  ti_pool : Pubkey;
  ti_base_mint : Pubkey;
  ti_quote_mint : Pubkey;
  ti_pool_base_token_account : Pubkey;
  ti_pool_quote_token_account : Pubkey;
  ti_pool_base_token_reserves : Z;
  ti_pool_quote_token_reserves : Z;
  ti_coin_creator_vault_ata : Pubkey;
  ti_coin_creator_vault_authority : Pubkey;
  ti_base_token_program : Pubkey;
  ti_quote_token_program : Pubkey;
  ti_fee_recipient : Pubkey;
  ti_is_cashback_coin : bool;
  ti_is_mayhem_mode : bool;
}.

(* bot trading.rs:349-372 from_pumpswap_params *)
Definition from_pumpswap_params (p : PumpSwapParams) : TradeInfo :=
  let fee_recipient :=
    if ps_is_mayhem_mode p then MAYHEM_FEE_RECIPIENT_SWAP else pubkey_default in
  mk_TradeInfo (ps_pool p) (ps_base_mint p) (ps_quote_mint p) (ps_pool_base_token_account p)
    (ps_pool_quote_token_account p) (ps_pool_base_token_reserves p)
    (ps_pool_quote_token_reserves p) (ps_coin_creator_vault_ata p)
    (ps_coin_creator_vault_authority p) (ps_base_token_program p) (ps_quote_token_program p)
    fee_recipient (ps_is_cashback_coin p) (ps_is_mayhem_mode p).

(* bot trading.rs:642-673 build_pumpswap_params_from_trade_info *)
Definition build_pumpswap_params_from_trade_info (t : TradeInfo) : PumpSwapParams :=
  ps_from_trade (ti_pool t) (ti_base_mint t) (ti_quote_mint t) (ti_pool_base_token_account t)
    (ti_pool_quote_token_account t) (ti_pool_base_token_reserves t)
    (ti_pool_quote_token_reserves t) (ti_coin_creator_vault_ata t)
    (ti_coin_creator_vault_authority t) (ti_base_token_program t) (ti_quote_token_program t)
    (ti_fee_recipient t) (ti_is_cashback_coin t).

Section BotAddresses.
Context `{Sdk}.

(* bot trading.rs:383-387 derive_pool_authority_address *)
Definition derive_pool_authority_address (mint : Pubkey) : exec Pubkey :=
  find_program_address [ascii_bytes "pool-authority"; to_bytes mint] BOT_PUMP_PROGRAM_ID.

(* bot trading.rs:389-405 derive_pumpswap_pool_address *)
Definition derive_pumpswap_pool_address (creator base_mint quote_mint : Pubkey) : exec Pubkey :=
  find_program_address
    [ascii_bytes "pool"; u16_le_bytes 0; to_bytes creator; to_bytes base_mint; to_bytes quote_mint]
    PUMPSWAP_PROGRAM_ID.

(* bot trading.rs:378-381 derive_canonical_pool_address *)
Definition derive_canonical_pool_address (mint : Pubkey) : exec Pubkey :=
  let* pool_authority := derive_pool_authority_address mint in
  derive_pumpswap_pool_address pool_authority mint WSOL_MINT.

(* bot trading.rs:477-481 derive_bonding_curve_address *)
Definition derive_bonding_curve_address (mint : Pubkey) : exec Pubkey :=
  find_program_address [ascii_bytes "bonding-curve"; to_bytes mint] BOT_PUMP_PROGRAM_ID.

(** Derives the addresses to log them; only a failed derivation shows. *)
(* bot trading.rs:507-546 diagnose_pool_address *)
Definition diagnose_pool_address (mint : Pubkey) : exec () :=
  let* _ := derive_bonding_curve_address mint in
  let* pool_authority := derive_pool_authority_address mint in
  let* _ := derive_pumpswap_pool_address pool_authority mint WSOL_MINT in
  Val ().
End BotAddresses.

(** ** The trader *)

(** [Trader] without its client, which the environment holds. *)
(* bot trading.rs:408-415 Trader *)
Record Trader := mk_Trader {
  slippage_bps : Z;
  max_retries : Z;
  retry_delay_ms : Z;
  buy_price : option f64;
  buy_sol_amount : Z;
}.

(* bot trading.rs:675-678 set_buy_price *)
Definition set_buy_price (t : Trader) (price : f64) (sol_amount : Z) : Trader :=
  mk_Trader (slippage_bps t) (max_retries t) (retry_delay_ms t) (Some price) sol_amount.

(* bot trading.rs:688-697 calculate_price_from_pool *)
Definition calculate_price_from_pool (t : TradeInfo) : f64 :=
  let base_reserves := f64_of_Z (ti_pool_base_token_reserves t) in
  let quote_reserves := f64_of_Z (ti_pool_quote_token_reserves t) in
  if f_eqb base_reserves f_zero then f_zero else fdiv quote_reserves base_reserves.

(* bot trading.rs:699-707 calculate_profit_loss_pct *)
Definition calculate_profit_loss_pct (t : Trader) (current_price : f64) : option f64 :=
  match buy_price t with
  | Some p =>
      if f_gtb p f_zero
      then Some (fmul (fdiv (fsub current_price p) p) (f64_of_Z 100))
      else None
  | None => None
  end.

(* bot trading.rs:709-724 should_sell *)
Definition should_sell (t : Trader) (current_price profit_threshold stop_loss_threshold : f64) : bool :=
  match calculate_profit_loss_pct t current_price with
  | Some pct =>
      if f_geb pct profit_threshold then true
      else if f_leb pct (fneg stop_loss_threshold) then true else false
  | None => false
  end.

(** The associated token account of the published crate
    spl_associated_token_account, a dependency of the bot. *)
Class SplAta := { spl_get_associated_token_address : Pubkey → Pubkey → Pubkey }.

Definition nl : string := String (Ascii.ascii_of_nat 10) EmptyString.

Section TraderOps.
Context `{Build} `{Sdk} `{KeyText} `{Borsh} {E : Type} `{Rpc E} `{Trading E} `{SplAta}.

(** One attempt of [fetch_trade_info_with_retry]. *)
(* bot trading.rs:566-619 fetch_trade_info_with_retry, one attempt *)
Definition fetch_once (mint : Pubkey) : M E (result string TradeInfo) :=
  let% r := attempt (find_by_mint mint) in
  match r with
  | Ok (pool_address, pool_data) =>
      let% p := attempt (from_pool_data pool_address pool_data) in
      mret match p with
           | Ok params => Ok (from_pumpswap_params params)
           | Err e => Err e
           end
  | Err e => mret (Err e)
  end.

(** The error after the last attempt. *)
(* bot trading.rs:628-639 fetch_trade_info_with_retry, error *)
Definition fetch_error (t : Trader) (mint : Pubkey) (last_error : string) : string :=
  "Failed to fetch pool data after " +:+ show (max_retries t) +:+ " attempts. Last error: "
  +:+ last_error +:+ ". " +:+ nl +:+ "Mint: " +:+ pubkey_to_string mint +:+ " " +:+ nl
  +:+ "Possible causes: " +:+ nl
  +:+ "1) The token hasn't fully migrated to PumpSwap yet (check if bonding curve account still exists) "
  +:+ nl +:+ "2) RPC node is not fully synced " +:+ nl
  +:+ "3) The pool doesn't exist on PumpSwap " +:+ nl
  +:+ "If the token is still in bonding curve stage, you may need to use PumpFun instead of PumpSwap.".

(** The loop over [attempt in 0..max_retries], [n] attempts left. *)
(* bot trading.rs:558-625 fetch_trade_info_with_retry, loop *)
Fixpoint fetch_loop (t : Trader) (mint : Pubkey) (n : nat) (attempt_ : Z) (last_error : string) :
    M E TradeInfo :=
  match n with
  | O =>
      mfail (fetch_error t mint last_error)
  | S n' =>
      let% r := fetch_once mint in
      match r with
      | Ok info => mret info
      | Err e =>
          let% _ :=
            if attempt_ <? max_retries t - 1 then
              let% delay := of_ex (mul 64 (retry_delay_ms t) (attempt_ + 1)) in
              effect (sleep_ms delay)
            else mret () in
          fetch_loop t mint n' (attempt_ + 1) e
      end
  end.

(* bot trading.rs:548-640 fetch_trade_info_with_retry *)
Definition fetch_trade_info_with_retry (t : Trader) (mint : Pubkey) : M E TradeInfo :=
  let% _ := of_ex (diagnose_pool_address mint) in
  fetch_loop t mint (Z.to_nat (max_retries t)) 0 "Unknown error".

Definition GAS_RESERVE_LAMPORTS : Z := 10000000.

(* bot trading.rs:769-774 gas_fee_strategy *)
Definition bot_gas_fee_strategy : GasFeeStrategy :=
  run_rcus (set_global_fee_strategy 150000 150000 500000 500000 (f64_lit 1 4) (f64_lit 1 4)) gfs_new.

(* bot trading.rs:917-924 get_latest_blockhash *)
Definition get_latest_blockhash : M E Hash :=
  with_context "Failed to get latest blockhash" (call rpc_get_latest_blockhash).

(* bot trading.rs:782-801 buy_params *)
Definition buy_params (t : Trader) (info : TradeInfo) (sol_amount : Z) (recent_blockhash : Hash) :
    TradeBuyParams :=
  mk_Buy DPumpSwap TWSOL (ti_base_mint info) sol_amount (Some (slippage_bps t))
    (Some recent_blockhash) (PPumpSwap (build_pumpswap_params_from_trade_info info)) None true
    true true true None None bot_gas_fee_strategy false (Some true) None.

(** [{:?}] of the last error is the concern of the message only. *)
Definition show_error (e : option TradeError) : string :=
  match e with Some te => te_message te | None => "None" end.

(** The trader is updated in place: the result carries the new one, also after
    an error. *)
(* bot trading.rs:726-823 buy *)
Definition trader_buy (t : Trader) (info : TradeInfo) (sol_amount : Z) :
    M E (result string () * Trader) :=
  let% r := attempt (with_context "Failed to get wallet balance" (call (rpc_get_balance trading_payer))) in
  match r with
  | Err e => mret (Err e, t)
  | Ok wallet_balance =>
      let required_balance := default u64_max (checked_add 64 sol_amount GAS_RESERVE_LAMPORTS) in
      if wallet_balance <? required_balance then mret (Ok (), t)
      else
        let current_price := calculate_price_from_pool info in
        let% h := attempt (with_context "Failed to get recent blockhash" get_latest_blockhash) in
        match h with
        | Err e => mret (Err e, t)
        | Ok recent_blockhash =>
            let% r := attempt (trading_buy (buy_params t info sol_amount recent_blockhash)) in
            mret match r with
                 | Ok (success, _, error, _) =>
                     if (success : bool) then (Ok (), set_buy_price t current_price sol_amount)
                     else (Err ("Buy failed: " +:+ show_error error), t)
                 | Err e => (Err ("Buy error: " +:+ e), t)
                 end
        end
  end.

(* bot trading.rs:893-915 get_token_balance *)
Definition get_token_balance (mint : Pubkey) : M E Z :=
  let token_account := spl_get_associated_token_address trading_payer mint in
  let% r := attempt (call (rpc_get_token_account_balance token_account)) in
  mret match r with
       | Ok amount => match parse_u64 amount with Ok n => n | Err _ => 0 end
       | Err _ => 0
       end.

(* bot trading.rs:852-871 sell_params *)
Definition sell_params (t : Trader) (info : TradeInfo) (token_balance : Z) (recent_blockhash : Hash) :
    TradeSellParams :=
  mk_Sell DPumpSwap TWSOL (ti_base_mint info) token_balance (Some (slippage_bps t))
    (Some recent_blockhash) false (PPumpSwap (build_pumpswap_params_from_trade_info info)) None
    true true true true None None bot_gas_fee_strategy false None.

(* bot trading.rs:825-891 sell *)
Definition trader_sell (t : Trader) (info : TradeInfo) : M E () :=
  let% token_balance := get_token_balance (ti_base_mint info) in
  if token_balance =? 0
  then mfail ("No token balance to sell for mint: " +:+ pubkey_to_string (ti_base_mint info))
  else
    let% recent_blockhash := with_context "Failed to get recent blockhash" get_latest_blockhash in
    let% r := attempt (trading_sell (sell_params t info token_balance recent_blockhash)) in
    match r with
    | Ok (success, _, error, _) =>
        if (success : bool) then mret () else mfail ("Sell failed: " +:+ show_error error)
    | Err e => mfail ("Sell error: " +:+ e)
    end.

(** ** What fetching does *)

(** [k] attempts have failed one after the other, with the pauses between
    them, the last of the [max] without one; [last] is the latest error. *)
Inductive failures (t : Trader) (mint : Pubkey) : Z → E → E → string → Prop :=
| no_failure e : failures t mint 0 e e "Unknown error"
| one_failure k e e1 e2 last err :
    failures t mint k e e1 last →
    fetch_once mint e1 = Val (Ok (Err err), e2) →
    failures t mint (k + 1) e
      (if k <? max_retries t - 1 then sleep_ms (retry_delay_ms t * (k + 1)) e2 else e2) err.

Lemma fetch_once_no_error mint e x e' : fetch_once mint e ≠ Val (Err x, e').
Proof.
  unfold fetch_once, mbind, attempt.
  destruct (find_by_mint mint e) as [[[[a p]|s] e1]|]; [|done..].
  by destruct (from_pool_data a p e1) as [[[q|s] e2]|].
Qed.

Lemma fetch_loop_spec t mint n k e0 e last r e' :
  is_u64 (retry_delay_ms t) → retry_delay_ms t * max_retries t < 2 ^ 64 →
  0 ≤ k → k + Z.of_nat n = max_retries t →
  failures t mint k e0 e last →
  fetch_loop t mint n k last e = Val (r, e') →
  match r with
  | Ok info =>
      ∃ j e1 l, 0 ≤ j < max_retries t ∧ failures t mint j e0 e1 l
                ∧ fetch_once mint e1 = Val (Ok (Ok info), e')
  | Err msg => ∃ l, failures t mint (max_retries t) e0 e' l ∧ msg = fetch_error t mint l
  end.
Proof.
  intros Hd Hov. revert k e last. induction n as [|n IH]; intros k e last Hk Hn Hf Hl.
  - replace k with (max_retries t) in Hf by lia. injection Hl as <- <-. eauto.
  - cbn [fetch_loop] in Hl. unfold mbind in Hl at 1.
    destruct (fetch_once mint e) as [[[[info|err]|x] e2]|] eqn:Ho; [| | |done].
    + injection Hl as <- <-. exists k, e, last. split; [lia|auto].
    + pose proof (one_failure _ _ _ _ _ _ _ _ Hf Ho) as Hf'.
      destruct (k <? max_retries t - 1) eqn:Hlast; bool_hyps.
      * unfold mbind, of_ex in Hl. rewrite mul_ok in Hl by uint. cbn in Hl.
        eapply IH; [| |exact Hf'|exact Hl]; lia.
      * cbn in Hl. eapply IH; [| |exact Hf'|exact Hl]; lia.
    + by apply fetch_once_no_error in Ho.
Qed.

(** Fetching the pool of a mint ends with the first attempt that succeeds,
    after the failures before it and their growing pauses, or, when all
    [max_retries] attempts have failed, with the last error. *)
Theorem fetch_trade_info_spec t mint e r e' :
  is_u64 (retry_delay_ms t) → is_uint 32 (max_retries t) →
  retry_delay_ms t * max_retries t < 2 ^ 64 →
  fetch_trade_info_with_retry t mint e = Val (r, e') →
  match r with
  | Ok info =>
      ∃ j e1 l, 0 ≤ j < max_retries t ∧ failures t mint j e e1 l
                ∧ fetch_once mint e1 = Val (Ok (Ok info), e')
  | Err msg => ∃ l, failures t mint (max_retries t) e e' l ∧ msg = fetch_error t mint l
  end.
Proof.
  intros Hd Hm Hov Hf. unfold fetch_trade_info_with_retry, of_ex, mbind in Hf.
  destruct (diagnose_pool_address mint) as [[]|]; [|done]. cbn [exec_bind] in Hf.
  eapply (fetch_loop_spec t mint (Z.to_nat (max_retries t)) 0); try done; [|constructor].
  rewrite Z2Nat.id; uint.
Qed.

(** C24.  A purchase that reports success has either been skipped for want of
    funds, nothing submitted and the trader unchanged, or been submitted with
    the parameters of the pool and confirmed, and its price recorded; the
    balance then covered the amount and the gas reserve. *)
Theorem trader_buy_spec t info amount e t' e' :
  is_u64 amount →
  trader_buy t info amount e = Val (Ok (Ok (), t'), e') →
  ∃ balance e1, rpc_get_balance trading_payer e = (Ok balance, e1) ∧
  (balance < Z.min u64_max (amount + GAS_RESERVE_LAMPORTS) ∧ t' = t ∧ e' = e1
   ∨ Z.min u64_max (amount + GAS_RESERVE_LAMPORTS) ≤ balance ∧
     ∃ hash e2 sigs err timings, rpc_get_latest_blockhash e1 = (Ok hash, e2) ∧
       trading_buy (buy_params t info amount hash) e2
         = Val (Ok (true, sigs, err, timings), e') ∧
       t' = set_buy_price t (calculate_price_from_pool info) amount).
Proof.
  intros Ha. unfold trader_buy. intros Hb. m_inv.
  destruct a as [balance|x]; [|by m_inv; injection Hb as ?].
  apply with_context_Ok in R. unfold call in R. injection R as R.
  exists balance, e0. split; [done|].
  assert (Hreq : default u64_max (checked_add 64 amount GAS_RESERVE_LAMPORTS)
                 = Z.min u64_max (amount + GAS_RESERVE_LAMPORTS)).
  { unfold checked_add, GAS_RESERVE_LAMPORTS. destruct (fits 64 _) eqn:Hfit; simpl.
    - apply fits_iff in Hfit. uint.
    - apply fits_false in Hfit. uint. }
  rewrite Hreq in Hb. destruct (balance <? _) eqn:Hlt; bool_hyps.
  { left. m_inv. by injection Hb as <-. }
  right. split; [done|]. m_inv. destruct a as [hash|x]; [|by m_inv; injection Hb as ?].
  apply with_context_Ok in R0. unfold get_latest_blockhash in R0.
  apply with_context_Ok in R0. unfold call in R0. injection R0 as R0. m_inv.
  destruct a as [[[[[] sigs] err] timings]|x]; injection Hb as Hb; try done. subst t'.
  exists hash, e1, sigs, err, timings. auto.
Qed.
End TraderOps.

(** ** Agreement with the SDK *)

(** C25.  Rebuilding the protocol parameters from what the trader remembers
    keeps every field but the mayhem flag, which is always lost: the bot's fee
    recipient for mayhem pools is not the one the SDK recognises. *)
Theorem rebuilt_params_lose_mayhem p :
  build_pumpswap_params_from_trade_info (from_pumpswap_params p)
  = mk_PumpSwapParams (ps_pool p) (ps_base_mint p) (ps_quote_mint p)
      (ps_pool_base_token_account p) (ps_pool_quote_token_account p)
      (ps_pool_base_token_reserves p) (ps_pool_quote_token_reserves p)
      (ps_coin_creator_vault_ata p) (ps_coin_creator_vault_authority p)
      (ps_base_token_program p) (ps_quote_token_program p) false (ps_is_cashback_coin p).
Proof.
  unfold build_pumpswap_params_from_trade_info, ps_from_trade, ps_new, from_pumpswap_params.
  simpl. by destruct (ps_is_mayhem_mode p).
Qed.

(** The bot derives the canonical pool of a mint as the SDK does. *)
Theorem canonical_pool_agrees `{Sdk} mint :
  derive_canonical_pool_address mint = get_canonical_pool_pda mint.
Proof. reflexivity. Qed.

(** ** Witnesses *)

(** A client whose trades are confirmed. *)
Definition toy_trading (E : Type) : Trading E :=
  {| trading_payer := 11;
     trading_buy := λ _, mret (true, ["sig"], None, []);
     trading_sell := λ _, mret (true, ["sig"], None, []) |}.

Definition toy_spl : SplAta := {| spl_get_associated_token_address := λ w m, w * 1000 + m |}.

Definition toy_trader : Trader := mk_Trader 100 3 1000 None 0.

Definition toy_info : TradeInfo := Eval vm_compute in
  match @fetch_trade_info_with_retry release toy_sdk toy_text toy_borsh Sim _ toy_trader 77 toy_node with
  | Val (Ok info, _) => info
  | _ => mk_TradeInfo 0 0 0 0 0 0 0 0 0 0 0 0 false false
  end.

Lemma fetch_trade_info_spec_witness :
  @fetch_trade_info_with_retry release toy_sdk toy_text toy_borsh Sim _ toy_trader 77 toy_node
    = Val (Ok toy_info, toy_node) ∧
  ∃ j e1 l, 0 ≤ j < 3 ∧ @failures toy_sdk toy_text toy_borsh Sim _ toy_trader 77 j toy_node e1 l
    ∧ @fetch_once toy_sdk toy_text toy_borsh Sim _ 77 e1 = Val (Ok (Ok toy_info), toy_node).
Proof.
  assert (Hf : @fetch_trade_info_with_retry release toy_sdk toy_text toy_borsh Sim _ toy_trader 77
    toy_node = Val (Ok toy_info, toy_node)) by (vm_compute; reflexivity).
  split; [exact Hf|].
  refine (@fetch_trade_info_spec release toy_sdk toy_text toy_borsh Sim _ toy_trader 77 toy_node
    (Ok toy_info) toy_node _ _ _ Hf); concrete.
Defined.

Definition bought : Trader := set_buy_price toy_trader (calculate_price_from_pool toy_info) 1000.

Lemma trader_buy_spec_witness :
  @trader_buy Sim _ (toy_trading Sim) toy_trader toy_info 1000 toy_node
    = Val (Ok (Ok (), bought), toy_node) ∧
  ∃ balance e1, rpc_get_balance 11 toy_node = (Ok balance, e1) ∧
  (balance < Z.min u64_max (1000 + GAS_RESERVE_LAMPORTS) ∧ bought = toy_trader ∧ toy_node = e1
   ∨ Z.min u64_max (1000 + GAS_RESERVE_LAMPORTS) ≤ balance ∧
     ∃ hash e2 sigs err timings, rpc_get_latest_blockhash e1 = (Ok hash, e2) ∧
       @trading_buy Sim (toy_trading Sim) (buy_params toy_trader toy_info 1000 hash) e2
         = Val (Ok (true, sigs, err, timings), toy_node) ∧
       bought = set_buy_price toy_trader (calculate_price_from_pool toy_info) 1000).
Proof.
  assert (Hb : @trader_buy Sim _ (toy_trading Sim) toy_trader toy_info 1000 toy_node
    = Val (Ok (Ok (), bought), toy_node)) by (vm_compute; reflexivity).
  split; [exact Hb|].
  refine (@trader_buy_spec Sim _ (toy_trading Sim) toy_trader toy_info 1000 toy_node bought
    toy_node _ Hb). concrete.
Defined.
