(* ===== verification/Grpc.v ===== *)
(** * Events from the stream (bot grpc_subscriber.rs)

    A purchase or sale event of a PumpSwap pool becomes an update for the
    store when one side of the pool is wrapped SOL.  The stream and its parser
    are a dependency: an event carries the fields the handler reads.  Sending
    on the channel is done by a task of its own per event, so the order of
    updates is any order of those tasks (Stream). *)

From Stdlib Require Import String.
From S2P Require Import Prelude Solana Effects TradeStore.

#[local] Open Scope Z_scope.

(* bot grpc_subscriber.rs:18-25 TransactionUpdate *)
Record TransactionUpdate := mk_Update {
  u_mint : string;
  u_token_amount : Z;
  u_sol_amount : Z;
  u_is_buy : bool;
  u_signature : string;
  u_blocktime_us : Z;
}.

(** A [PumpSwapBuyEvent] or [PumpSwapSellEvent], by the fields that are read. *)
Record PoolEvent := mk_Event {
  ev_base_mint : Pubkey;
  ev_quote_mint : Pubkey;
  ev_pool_base_token_reserves : Z;
  ev_pool_quote_token_reserves : Z;
  ev_timestamp : Z;
  ev_signature : string;
}.

Inductive StreamEvent :=
| BuyEvent (e : PoolEvent)
| SellEvent (e : PoolEvent)
| OtherEvent.

Section Grpc.
Context `{Build} `{KeyText}.

(** The body of both arms of the handler. *)
(* bot grpc_subscriber.rs:152-198 handle_event, PumpSwapBuyEvent *)
Definition update_of (is_buy : bool) (e : PoolEvent) : exec (option TransactionUpdate) :=
  let is_wsol_base := ev_base_mint e =? WSOL_TOKEN_ACCOUNT in
  let is_wsol_quote := ev_quote_mint e =? WSOL_TOKEN_ACCOUNT in
  if negb is_wsol_base && negb is_wsol_quote then Val None
  else
    let mint := if is_wsol_base then ev_quote_mint e else ev_base_mint e in
    let '(token_amount, sol_amount) :=
      if is_wsol_base
      then (ev_pool_quote_token_reserves e, ev_pool_base_token_reserves e)
      else (ev_pool_base_token_reserves e, ev_pool_quote_token_reserves e) in
    let* blocktime_us := ck_signed 64 (wrap_signed 64 (ev_timestamp e) * 1000000) in
    Val (Some (mk_Update (pubkey_to_string mint) token_amount sol_amount is_buy (ev_signature e)
                 blocktime_us)).

(* bot grpc_subscriber.rs:147-247 handle_event *)
Definition handle_event (event : StreamEvent) : exec (option TransactionUpdate) :=
  match event with
  | BuyEvent e => update_of true e
  | SellEvent e => update_of false e
  | OtherEvent => Val None
  end.
End Grpc.

(** The receiving end: one update is turned into a record and stored; a failure
    is only logged. *)
(* bot strategy.rs:118-149 start_grpc_subscription, receiving task *)
Definition on_update `{Build} {E : Type} `{Redis E} `{TradeJson}
    (redis_store : option RedisStore) (u : TransactionUpdate) : M E () :=
  match redis_store with
  | Some store =>
      let record := from_transaction (u_mint u) (u_token_amount u) (u_sol_amount u) (u_is_buy u)
                      (u_signature u) (u_blocktime_us u) in
      let% _ := attempt (store_trade store (u_mint u) record) in
      mret ()
  | None => mret ()
  end.
