(* ===== verification/Stream.v ===== *)
(** * The stream of events, from the subscription to the store
    (bot grpc_subscriber.rs, strategy.rs)

    Every event of the stream is handled by a task of its own, which leaves the
    sending of its update to a further task; one task receives the updates and
    stores them.  The states of this system are the events and updates under
    way; its steps are those of the tasks, in any order.  The runtime, the gRPC
    client and the parser of the stream are dependencies; the channel between
    the tasks is unbounded and first-in first-out. *)

From Stdlib Require Import String.
From S2P Require Import Prelude F64 Solana Effects TradeStore Grpc.

#[local] Open Scope string_scope.
#[local] Open Scope Z_scope.
#[local] Open Scope list_scope.

(** ** Subscribing *)

(** What [YellowstoneGrpc] is asked for. *)
Record Subscription := mk_Subscription {
  sub_url : string;
  sub_token : option string;
  sub_protocols : list string;
  sub_account_include : list string;
  sub_event_types : list string;
}.

(** The client library: creating a client, then subscribing. *)
Class Yellowstone (E : Type) := {
  yellowstone_new : string → option string → result string ();
  subscribe_events_immediate : Subscription → E → result string () * E;
  pumpswap_program : string;
  debug_of : string → string;
}.

Section Subscribe.
Context {E : Type} `{Yellowstone E}.

(** The debug line shows the first bytes of the token. *)
Definition subscription (grpc_url : string) (grpc_token : option string) : Subscription :=
  mk_Subscription grpc_url grpc_token ["PumpSwap"] [pumpswap_program]
    ["PumpSwapBuy"; "PumpSwapSell"].

(** Until the endless loop that keeps the subscription. *)
(* bot grpc_subscriber.rs:57-145 run_subscription *)
Definition run_subscription (grpc_url : string) (grpc_token : option string) : M E () :=
  match yellowstone_new grpc_url grpc_token with
  | Err e => mfail ("Failed to create YellowstoneGrpc client: " +:+ debug_of e)
  | Ok _ =>
      let% r := attempt (call (subscribe_events_immediate (subscription grpc_url grpc_token))) in
      match r with
      | Err e => mfail ("Failed to subscribe to gRPC events: " +:+ debug_of e)
      | Ok _ => mret ()
      end
  end.

(** The subscription runs in a task of its own: its error is only logged. *)
(* bot grpc_subscriber.rs:40-55 subscribe *)
Definition subscribe (grpc_url : string) (grpc_token : option string) : M E () :=
  let% _ := attempt (run_subscription grpc_url grpc_token) in mret ().
End Subscribe.

(** ** The tasks *)

Section Stream.
Context `{Build} `{KeyText} {E : Type} `{Rpc E} `{Redis E} `{TradeJson}.

(** [handlers] and [senders] are the tasks that have been spawned and not run, [channel] what
    waits in the channel, [received] what the receiving task has taken; [delivered] is the history
    of the events.  [receiving] is false once the receiving task has panicked. *)
Record Stream := mk_Stream {
  delivered : list StreamEvent;
  handlers : list StreamEvent;
  senders : list TransactionUpdate;
  channel : list TransactionUpdate;
  received : list TransactionUpdate;
  receiving : bool;
  world : E;
}.

(** The bodies of the tasks. *)
(* bot grpc_subscriber.rs:117-123 run_subscription, callback *)
Inductive deliver_step : Stream → Stream → Prop :=
| deliver s e :
    deliver_step s (mk_Stream (delivered s ++ [e]) (handlers s ++ [e]) (senders s) (channel s)
                      (received s) (receiving s) (world s)).

(* bot grpc_subscriber.rs:147-247 handle_event *)
Inductive handler_step : Stream → Stream → Prop :=
| handle_update s h1 e h2 u :
    handlers s = h1 ++ e :: h2 → handle_event e = Val (Some u) →
    handler_step s (mk_Stream (delivered s) (h1 ++ h2) (u :: senders s) (channel s) (received s)
                      (receiving s) (world s))
| handle_none s h1 e h2 :
    handlers s = h1 ++ e :: h2 → handle_event e = Val None ∨ handle_event e = Panic →
    handler_step s (mk_Stream (delivered s) (h1 ++ h2) (senders s) (channel s) (received s)
                      (receiving s) (world s)).

(* bot grpc_subscriber.rs:192-197 handle_event, sending task *)
Inductive sender_step : Stream → Stream → Prop :=
| send s t1 u t2 :
    senders s = t1 ++ u :: t2 →
    sender_step s (mk_Stream (delivered s) (handlers s) (t1 ++ t2)
                     (channel s ++ [u]) (received s) (receiving s) (world s)).

(** With the receiver gone its end of the channel is closed, and what was or is sent is lost: it
    stays in [channel]. *)
(* bot strategy.rs:118-149 start_grpc_subscription, receiving task *)
Inductive receiver_step (store : option RedisStore) : Stream → Stream → Prop :=
| receive s u rest w :
    receiving s = true → channel s = u :: rest →
    on_update store u (world s) = Val (Ok (), w) →
    receiver_step store s (mk_Stream (delivered s) (handlers s) (senders s) rest
                       (received s ++ [u]) true w)
| receive_panic s u rest :
    receiving s = true → channel s = u :: rest →
    on_update store u (world s) = Panic →
    receiver_step store s (mk_Stream (delivered s) (handlers s) (senders s) (channel s)
                       (received s) false (world s)).

(** The rest of the bot reads the store and never writes to it. *)
Inductive step (store : option RedisStore) : Stream → Stream → Prop :=
| step_deliver s s' : deliver_step s s' → step store s s'
| step_handler s s' : handler_step s s' → step store s s'
| step_sender s s' : sender_step s s' → step store s s'
| step_receiver s s' : receiver_step store s s' → step store s s'
| step_reader s w :
    db w = db (world s) →
    step store s (mk_Stream (delivered s) (handlers s) (senders s) (channel s) (received s)
                    (receiving s) w).

Definition started (w : E) : Stream := mk_Stream [] [] [] [] [] true w.

(** ** Nothing is lost or invented on the way *)

(** The update an event makes, if it makes one. *)
Definition update (e : StreamEvent) : option TransactionUpdate :=
  match handle_event e with Val o => o | Panic => None end.

(** Every purchase or sale of a pool with wrapped SOL makes an update, of the other token, when
    its time in microseconds fits in 64 bits. *)
Definition trades_make_updates : Prop := ∀ (is_buy : bool) e,
  0 ≤ ev_timestamp e → ev_timestamp e * 1000000 < 2 ^ 63 →
  let event := if is_buy then BuyEvent e else SellEvent e in
  (ev_base_mint e = WSOL_TOKEN_ACCOUNT →
   update event = Some (mk_Update (pubkey_to_string (ev_quote_mint e))
     (ev_pool_quote_token_reserves e) (ev_pool_base_token_reserves e) is_buy (ev_signature e)
     (ev_timestamp e * 1000000)))
  ∧ (ev_base_mint e ≠ WSOL_TOKEN_ACCOUNT → ev_quote_mint e = WSOL_TOKEN_ACCOUNT →
     update event = Some (mk_Update (pubkey_to_string (ev_base_mint e))
       (ev_pool_base_token_reserves e) (ev_pool_quote_token_reserves e) is_buy (ev_signature e)
       (ev_timestamp e * 1000000))).

Lemma updates_of_trades : trades_make_updates.
Proof.
  intros is_buy e Hn Hm event.
  assert (Hw : wrap_signed 64 (ev_timestamp e) = ev_timestamp e).
  { apply wrap_signed_small. lia. }
  assert (Hc : ck_signed 64 (ev_timestamp e * 1000000) = Val (ev_timestamp e * 1000000)).
  { apply ck_signed_ok. unfold is_sint. simpl. lia. }
  assert (Hu : update event = match update_of is_buy e with Val o => o | Panic => None end)
    by (unfold event; by destruct is_buy).
  rewrite Hu. unfold update_of. rewrite Hw, Hc. split.
  - intros Hb. rewrite (proj2 (Z.eqb_eq _ _) Hb). done.
  - intros Hb Hq. rewrite (proj2 (Z.eqb_neq _ _) Hb), (proj2 (Z.eqb_eq _ _) Hq). done.
Qed.

(** The updates of the events delivered are those under way and those received. *)
Definition conserved (s : Stream) : Prop :=
  omap update (delivered s) ≡ₚ
  omap update (handlers s) ++ senders s ++ channel s ++ received s.

#[local] Ltac fields :=
  cbn [delivered handlers senders channel received receiving world] in *.

Lemma omap_middle {A B} (f : A → option B) l1 x l2 :
  omap f (l1 ++ x :: l2) = omap f l1 ++ option_list (f x) ++ omap f l2.
Proof. rewrite omap_app. simpl. by destruct (f x). Qed.

Lemma conserved_step store s s' : conserved s → step store s s' → conserved s'.
Proof.
  unfold conserved. intros Hc Hs.
  destruct Hs as [? ? Hs|? ? Hs|? ? Hs|? ? Hs|s w]; [..|done].
  - destruct Hs. fields. rewrite !omap_app, Hc. solve_Permutation.
  - destruct Hs as [s h1 e h2 u Hh He|s h1 e h2 Hh He]; fields;
      rewrite Hc, Hh, omap_middle, omap_app; unfold update at 2.
    + rewrite He. simpl. solve_Permutation.
    + destruct He as [-> | ->]; simpl; solve_Permutation.
  - destruct Hs as [s t1 u t2 Ht]. fields. rewrite Hc, Ht. solve_Permutation.
  - destruct Hs as [s u rest w Hr Hch|s u rest Hr Hch]; fields; [|done].
    rewrite Hc, Hch. solve_Permutation.
Qed.

Lemma conserved_reachable store w s : rtc (step store) (started w) s → conserved s.
Proof.
  assert (conserved (started w)) as Hc by (unfold conserved; simpl; reflexivity). revert Hc.
  generalize (started w). intros s0 Hc Hs.
  induction Hs; eauto using conserved_step.
Qed.

(** ** What the store holds *)

Definition record_of (u : TransactionUpdate) : TokenTradeRecord :=
  from_transaction (u_mint u) (u_token_amount u) (u_sol_amount u) (u_is_buy u) (u_signature u)
    (u_blocktime_us u).

(** The trades of a mint and its signatures, after some updates. *)
Definition after (max : Z) (mint : string) (us : list TransactionUpdate)
    (v : list TokenTradeRecord * gset string) : list TokenTradeRecord * gset string :=
  foldl (λ v u, if decide (u_mint u = mint) then spec_store max (record_of u) v else v) v us.

Lemma after_snoc max mint us u v :
  after max mint (us ++ [u]) v =
  if decide (u_mint u = mint) then spec_store max (record_of u) (after max mint us v)
  else after max mint us v.
Proof. unfold after. by rewrite foldl_app. Qed.

(** *** The receipts

    They are read off the run: an update is received at the step that adds it to
    [received], in the environment that step starts from. *)
Inductive runs (store : option RedisStore) (w0 : E) : list (TransactionUpdate * E) → Stream → Prop :=
| runs_started : runs store w0 [] (started w0)
| runs_receive log s s' u :
    runs store w0 log s → step store s s' → received s' = received s ++ [u] →
    runs store w0 (log ++ [(u, world s)]) s'
| runs_other log s s' :
    runs store w0 log s → step store s s' → received s' = received s → runs store w0 log s'.

Lemma step_received store s s' :
  step store s s' →
  (received s' = received s ∧ db (world s') = db (world s))
  ∨ ∃ u, received s' = received s ++ [u] ∧ on_update store u (world s) = Val (Ok (), world s').
Proof.
  intros Hs. destruct Hs as [? ? Hs|? ? Hs|? ? Hs|? ? Hs|s w]; [destruct Hs..|]; fields; eauto.
Qed.

(** Every run has its receipts, and they are the updates received. *)
Lemma reachable_runs store w s : rtc (step store) (started w) s → ∃ log, runs store w log s.
Proof.
  intros Hr. refine (rtc_ind_r (λ s, ∃ log, runs store w log s) _ _ _ _ Hr).
  - exists []. constructor.
  - intros s1 s2 _ Hs [log Hl]. destruct (step_received _ _ _ Hs) as [[Hn _]|(u & Hu & _)].
    + exists log. by apply (runs_other _ _ _ s1).
    + exists (log ++ [(u, world s1)]). by apply runs_receive.
Qed.

Lemma runs_reachable store w log s :
  runs store w log s → rtc (step store) (started w) s ∧ map fst log = received s.
Proof.
  induction 1 as [|log s s' u _ [IHr IHl] Hs Hu|log s s' _ [IHr IHl] Hs Hu].
  - split; [apply rtc_refl|done].
  - split; [by eapply rtc_r|]. by rewrite map_app, IHl, Hu.
  - split; [by eapply rtc_r|]. by rewrite IHl, Hu.
Qed.

(** Storing the update, in the environment it was received in, reports success. *)
Definition accepted (st : RedisStore) (x : TransactionUpdate * E) : Prop :=
  ∃ w, store_trade st (u_mint x.1) (record_of x.1) x.2 = Val (Ok (), w).

#[export] Instance accepted_dec st x : Decision (accepted st x).
Proof.
  unfold accepted. destruct (store_trade _ _ _ _) as [[[[]|m] w]|].
  - left. by exists w.
  - right. by intros [? [=]].
  - right. by intros [? [=]].
Defined.

(** The store holds all the updates that were accepted, and of the others some, applied in the
    order they were received, on top of what it held. *)
Definition faithful (st : RedisStore) (v0 : string → list TokenTradeRecord * gset string)
    (log : list (TransactionUpdate * E)) (s : Stream) : Prop :=
  ∃ applied, filter (accepted st) log `sublist_of` applied ∧ applied `sublist_of` log ∧
    ∀ mint, let v := after (max_trades_per_token st) mint (map fst applied) (v0 mint) in
            holds (db (world s)) mint v.1 v.2.

Lemma faithful_receive st v0 log s s' u :
  0 ≤ max_trades_per_token st < 2 ^ 63 →
  on_update (Some st) u (world s) = Val (Ok (), world s') →
  faithful st v0 log s → faithful st v0 (log ++ [(u, world s)]) s'.
Proof.
  intros Hm Hu (applied & Hall & Hsub & Hh). unfold on_update, mbind, attempt in Hu. cbv zeta in Hh.
  change (from_transaction _ _ _ _ _ _) with (record_of u) in Hu.
  destruct (store_trade st (u_mint u) (record_of u) (world s)) as [[r w']|] eqn:Hst; [|done].
  injection Hu as ->. pose proof (Hh (u_mint u)) as Hu. pose proof Hst as Hacc.
  eapply store_trade_run in Hst as [Hnew Hother]; [|done|exact Hu].
  rewrite <- surjective_pairing in Hnew. unfold faithful. rewrite filter_app, filter_cons, filter_nil.
  destruct Hnew as [Hnew|[Hr Hold]].
  - exists (applied ++ [(u, world s)]). split; [|split; [by apply sublist_app|]].
    { apply sublist_app; [done|]. destruct (decide _); [done|apply sublist_nil_l]. }
    intros mint. cbv zeta. rewrite map_app. cbn [map fst].
    rewrite after_snoc. case_decide as Hd; [by subst|].
    destruct (Hother mint) as [Hl Hs]; [done|]. unfold holds. rewrite Hl, Hs. apply Hh.
  - exists applied. rewrite decide_False.
    2: { intros [w Hw]. cbn [fst snd] in Hw. rewrite Hacc in Hw. by injection Hw as ->. }
    rewrite app_nil_r. split; [done|]. split; [by apply sublist_inserts_r|]. intros mint.
    destruct (decide (mint = u_mint u)) as [->|Hd]; [done|].
    destruct (Hother mint Hd) as [Hl Hs]. cbv zeta. unfold holds. rewrite Hl, Hs. apply Hh.
Qed.

Lemma faithful_runs st v0 w log s :
  0 ≤ max_trades_per_token st < 2 ^ 63 →
  (∀ mint, holds (db w) mint (v0 mint).1 (v0 mint).2) →
  runs (Some st) w log s → faithful st v0 log s.
Proof.
  intros Hm Hh. induction 1 as [|log s s' u _ IH Hs Hu|log s s' _ IH Hs Hu].
  - exists []. by rewrite filter_nil.
  - destruct (step_received _ _ _ Hs) as [[Hn _]|(u' & Hu' & Hup)].
    + exfalso. rewrite Hn in Hu. apply (f_equal length) in Hu. rewrite length_app in Hu.
      simpl in Hu. lia.
    + rewrite Hu in Hu'. apply app_inj_tail in Hu' as [_ ->]. by apply faithful_receive.
  - destruct (step_received _ _ _ Hs) as [[_ Hd]|(u' & Hu' & _)].
    + destruct IH as (a & Ha1 & Ha2 & Hh'). exists a. by rewrite Hd.
    + exfalso. rewrite Hu' in Hu. apply (f_equal length) in Hu. rewrite length_app in Hu.
      simpl in Hu. lia.
Qed.

(** C33. Nothing is lost or invented between the events and the store: however
    the tasks interleave, [log] being the updates received with the environments
    they were received in, the updates of the events delivered are, up to order,
    those under way and those received; and the store holds for each mint
    what storing the updates [applied], one after the other in the order they
    were received, makes of what it held: every update that the store
    accepted, in the environment it was received in, is among them, so that only
    those refused with an error can be missing (some of these are there all the
    same, when it is the reply that was lost), and no other trade is.  An event
    makes an update when it is a purchase or a sale of a pool with wrapped SOL,
    if its time in microseconds fits in 64 bits. *)
Theorem stream_stores_events st v0 w log s :
  0 ≤ max_trades_per_token st < 2 ^ 63 →
  (∀ mint, holds (db w) mint (v0 mint).1 (v0 mint).2) →
  runs (Some st) w log s →
  trades_make_updates ∧ map fst log = received s
  ∧ omap update (delivered s) ≡ₚ
      omap update (handlers s) ++ senders s ++ channel s ++ received s
  ∧ ∃ applied, filter (accepted st) log `sublist_of` applied ∧ applied `sublist_of` log ∧
      ∀ mint, let v := after (max_trades_per_token st) mint (map fst applied) (v0 mint) in
              holds (db (world s)) mint v.1 v.2.
Proof.
  intros Hm Hh Hr. destruct (runs_reachable _ _ _ _ Hr) as [Hs Hl].
  split; [apply updates_of_trades|]. split; [done|].
  split; [by apply (conserved_reachable (Some st) w)|]. by apply (faithful_runs st v0 w log s).
Qed.

(** ** Any order *)

Lemma deliver_all store es : ∀ d h t c r w,
  rtc (step store) (mk_Stream d h t c r true w) (mk_Stream (d ++ es) (h ++ es) t c r true w).
Proof.
  induction es as [|e es IH]; intros; [by rewrite !app_nil_r|].
  eapply rtc_l; [apply step_deliver, (deliver _ e)|]. fields.
  rewrite (cons_middle e d es), (cons_middle e h es), !(assoc_L (++)). apply IH.
Qed.

Lemma handle_all store h : ∀ d t c r w, ∃ t',
  t' ≡ₚ omap update h ++ t ∧
  rtc (step store) (mk_Stream d h t c r true w) (mk_Stream d [] t' c r true w).
Proof.
  induction h as [|e h IH]; intros; [by exists t|].
  assert (∃ t1, t1 ≡ₚ option_list (update e) ++ t ∧
    handler_step (mk_Stream d (e :: h) t c r true w) (mk_Stream d h t1 c r true w))
    as (t1 & Ht1 & Hstep).
  { unfold update. destruct (handle_event e) as [[u|]|] eqn:He; eexists; (split; [|]).
    1: reflexivity. 2: reflexivity. 3: reflexivity.
    - by apply (handle_update (mk_Stream d (e :: h) t c r true w) [] e h u).
    - apply (handle_none (mk_Stream d (e :: h) t c r true w) [] e h); auto.
    - apply (handle_none (mk_Stream d (e :: h) t c r true w) [] e h); auto. }
  destruct (IH d t1 c r w) as (t' & Ht' & Hrun). exists t'. split.
  - rewrite Ht', Ht1. simpl. destruct (update e); simpl; solve_Permutation.
  - eapply rtc_l; [by apply step_handler|done].
Qed.

Lemma send_all store us : ∀ d h t c r w,
  t ≡ₚ us →
  rtc (step store) (mk_Stream d h t c r true w) (mk_Stream d h [] (c ++ us) r true w).
Proof.
  induction us as [|u us IH]; intros d h t c r w Ht.
  - apply Permutation_nil_r in Ht as ->. by rewrite app_nil_r.
  - assert (u ∈ t) as [t1 [t2 ->]]%list_elem_of_split by (rewrite Ht; left).
    rewrite <- Permutation_middle in Ht. apply Permutation.Permutation_cons_inv in Ht.
    eapply rtc_l; [by apply step_sender, (send _ t1 u t2)|]. fields.
    rewrite (cons_middle u c us), (assoc_L (++)). by apply IH.
Qed.

Lemma on_update_returns st u w :
  0 ≤ max_trades_per_token st < 2 ^ 63 → ∃ w', on_update (Some st) u w = Val (Ok (), w').
Proof.
  intros Hm. unfold on_update, attempt, mbind, store_trade, is_signature_exists, connection,
    with_context, call, of_ex, of_res, mret.
  rewrite isize_pred_ok by done. unfold mbind.
  repeat (case_match; simplify_eq/=; try by eexists).
Qed.

Lemma receive_all st : 0 ≤ max_trades_per_token st < 2 ^ 63 → ∀ c d h t r w, ∃ w',
  rtc (step (Some st)) (mk_Stream d h t c r true w) (mk_Stream d h t [] (r ++ c) true w').
Proof.
  intros Hm. induction c as [|u c IH]; intros d h t r w; [exists w; by rewrite app_nil_r|].
  destruct (on_update_returns st u w Hm) as [w1 Hw1].
  destruct (IH d h t (r ++ [u]) w1) as [w' Hrun]. exists w'.
  eapply rtc_l; [by apply step_receiver, (receive _ _ u c w1)|]. fields.
  by rewrite (cons_middle u r c), (assoc_L (++)).
Qed.

(** The order of the stream is not kept: whatever events are delivered, their
    updates can be received and stored in any order, so that the trade
    stored last, whose price the bot takes for the latest, can be any of
    them. *)
Theorem stream_any_order st w es us :
  0 ≤ max_trades_per_token st < 2 ^ 63 →
  us ≡ₚ omap update es →
  ∃ w', rtc (step (Some st)) (started w) (mk_Stream es [] [] [] us true w').
Proof.
  intros Hm Hus. destruct (handle_all (Some st) es es [] [] [] w) as (t & Ht & Hhandle).
  rewrite app_nil_r in Ht.
  destruct (receive_all st Hm us es [] [] [] w) as [w' Hreceive]. exists w'.
  unfold started. etrans; [apply (deliver_all _ es)|]. etrans; [apply Hhandle|].
  etrans; [|apply Hreceive]. apply (send_all _ us). by rewrite Ht, Hus.
Qed.
End Stream.

(** ** A stream of two purchases *)

(** The pool of wrapped SOL and the token 5, after the purchase at a second. *)
Definition toy_record (sec : Z) : TokenTradeRecord :=
  from_transaction (key_string 5) 1000 sec true (show sec) (sec * 1000000).

Definition toy_event (sec : Z) : StreamEvent :=
  BuyEvent (mk_Event WSOL_TOKEN_ACCOUNT 5 sec 1000 sec (show sec)).

Definition toy_update (sec : Z) : TransactionUpdate :=
  mk_Update (key_string 5) 1000 sec true (show sec) (sec * 1000000).

(** A codec that writes the records of this pool as their second. *)
Definition second_encode (r : TokenTradeRecord) : result string string :=
  let sec := tr_blocktime_us r / 1000000 in
  if decide (r = toy_record sec) then
    if ((0 <=? sec) && (sec <? 2 ^ 63))%bool
    then Ok (string_of_list_ascii (map (λ b, Ascii.ascii_of_N (Z.to_N b)) (u64_le_bytes sec)))
    else Err "time out of range"
  else Err "not of this pool".

Definition second_decode (s : string) : result string (TokenTradeRecord * JsonValue) :=
  let sec := le_value (ascii_bytes s) in Ok (toy_record sec, JNumber (Some (sec * 1000000))).

Lemma second_codec r s :
  second_encode r = Ok s →
  second_decode s = Ok (with_price r (tr_price r), JNumber (Some (tr_blocktime_us r))).
Proof.
  unfold second_encode. destruct (decide _) as [Hr|]; [|done]. cond; [|done]. bool_hyps.
  intros <-%Ok_inj. unfold second_decode. rewrite ascii_bytes_of_bytes by apply le_bytes_bytes.
  rewrite u64_le_roundtrip by uint. pose proof (f_equal tr_blocktime_us Hr) as Ht. simpl in Ht.
  rewrite <- Ht, <- Hr. by destruct r.
Qed.

Definition second_json : TradeJson :=
  {| trade_encode := second_encode; trade_decode := second_decode; json_f64 := id;
     trade_codec := second_codec |}.

(** The world after an update is received. *)
Definition got (sec : Z) (e : Env) : Env :=
  match @on_update release Env _ second_json (Some toy_store) (toy_update sec) e with
  | Val (_, e') => e'
  | Panic => e
  end.

Definition toy_step : Stream → Stream → Prop :=
  @step release toy_text Env env_redis second_json (Some toy_store).

Definition one_stored : Stream :=
  mk_Stream [toy_event 1700000000] [] [] [] [toy_update 1700000000] true
    (got 1700000000 toy_env).

#[local] Ltac run :=
  cbn [started delivered handlers senders channel received receiving world app].

Abbreviation toy_runs := (@runs release toy_text Env env_redis second_json (Some toy_store) toy_env).

Lemma one_stored_run : toy_runs [(toy_update 1700000000, toy_env)] one_stored.
Proof.
  set (s3 := mk_Stream (E := Env) [toy_event 1700000000] [] [] [toy_update 1700000000] [] true toy_env).
  assert (R : toy_runs [] s3).
  { set (s1 := mk_Stream (E := Env) [toy_event 1700000000] [toy_event 1700000000] [] [] [] true toy_env).
    set (s2 := mk_Stream (E := Env) [toy_event 1700000000] [] [toy_update 1700000000] [] [] true toy_env).
    apply (runs_other _ _ _ s2); [|apply step_sender, (send s2 [] (toy_update 1700000000) []); done|done].
    apply (runs_other _ _ _ s1); [| |done].
    - apply (runs_other _ _ _ (started toy_env)); [constructor| |done].
      apply step_deliver, (deliver (started toy_env) (toy_event 1700000000)).
    - apply step_handler, (@handle_update release toy_text Env s1 [] (toy_event 1700000000) []
        (toy_update 1700000000)); [done|vm_compute; reflexivity]. }
  apply (runs_receive _ _ [] s3 one_stored (toy_update 1700000000) R); [|reflexivity].
  apply step_receiver. unfold one_stored.
  refine (@receive release Env _ second_json _ s3 (toy_update 1700000000) []
    (got 1700000000 toy_env) _ _ _); [done..|]. vm_compute. reflexivity.
Qed.

Lemma accepted_toy : @accepted release Env _ second_json toy_store (toy_update 1700000000, toy_env).
Proof. exists (got 1700000000 toy_env). vm_compute. reflexivity. Qed.

Lemma toy_after :
  after 2 (key_string 5) [toy_update 1700000000] ([], ∅)
  = ([toy_record 1700000000], {[ show 1700000000 ]} ∪ ∅).
Proof.
  unfold after. cbn [foldl]. rewrite decide_True by done. unfold spec_store.
  rewrite decide_False by set_solver. reflexivity.
Qed.

(** The trade is in the store. *)
Lemma stream_stores_events_witness :
  @holds second_json (db (got 1700000000 toy_env)) (key_string 5) [toy_record 1700000000]
    ({[ show 1700000000 ]} ∪ ∅).
Proof.
  destruct (@stream_stores_events release toy_text Env env_redis second_json toy_store
    (λ _, ([], ∅)) toy_env [(toy_update 1700000000, toy_env)] one_stored) as (_ & _ & _ & applied & Ha & Hs & Hh).
  - concrete.
  - intros mint. split; [|reflexivity]. constructor.
  - exact one_stored_run.
  - rewrite filter_cons, decide_True, filter_nil in Ha by exact accepted_toy.
    assert (applied = [(toy_update 1700000000, toy_env)]) as ->.
    { apply (anti_symm sublist); [exact Hs|exact Ha]. }
    specialize (Hh (key_string 5)). cbv zeta in Hh.
    change (max_trades_per_token toy_store) with 2 in Hh. cbn [map fst] in Hh.
    rewrite toy_after in Hh. exact Hh.
Defined.

(** The update of the later event is received, and stored, first. *)
Lemma stream_any_order_witness :
  ∃ w', rtc toy_step (started toy_env)
    (mk_Stream [toy_event 1700000000; toy_event 1700000001] [] [] []
       [toy_update 1700000001; toy_update 1700000000] true w').
Proof.
  refine (@stream_any_order release toy_text Env env_redis second_json toy_store toy_env
    [toy_event 1700000000; toy_event 1700000001]
    [toy_update 1700000001; toy_update 1700000000] _ _); [concrete|].
  replace (omap _ _) with [toy_update 1700000000; toy_update 1700000001]
    by (vm_compute; reflexivity).
  apply Permutation_swap.
Defined.

(** Then the latest price is that of the earlier event. *)
Example late_event_sets_the_price :
  (@get_latest_price_from_trades release Env env_rpc env_redis second_json (key_string 5)
     (got 1700000000 (got 1700000001 toy_env)) : exec (result string (option f64) * Env))
  = Val (Ok (Some (tr_price (toy_record 1700000000))), got 1700000000 (got 1700000001 toy_env)).
Proof. vm_compute. reflexivity. Qed.
