(* ===== verification/Strategy.v ===== *)
(** * The strategy (bot strategy.rs)

    Once a second every mint with trades is looked at: a mint that is held is
    sold when its price has moved enough, one that is not is bought when its
    recent trades show a rise.  The state of the strategy - the trader, the
    positions, the remembered pools - is threaded with the environment.  The
    receiving task of the stream only writes to the store. *)

From Stdlib Require Import String.
From S2P Require Import Prelude F64 Solana Spl FastFn GasFee Effects PumpSwapUtils Borsh Params TradeStore Client Trader Grpc.

#[local] Open Scope string_scope.
#[local] Open Scope Z_scope.

(* bot strategy.rs:17-22 TokenPosition *)
Record TokenPosition := mk_Position {
  pos_mint : string;
  pos_buy_price : f64;
  pos_buy_sol_amount : Z;
  pos_trade_info : TradeInfo;
}.

(** [TradingStrategy] without its configuration and store, with the environment. *)
(* bot strategy.rs:24-30 TradingStrategy *)
Record World (E : Type) := mk_World {
  env : E;
  trader : Trader;
  positions : gmap string TokenPosition;
  trade_info_cache : gmap string TradeInfo;
}.
Arguments mk_World {E}.
Arguments env {E}.
Arguments trader {E}.
Arguments positions {E}.
Arguments trade_info_cache {E}.

(** Run a computation on the environment. *)
Definition lift {E A} (m : M E A) : M (World E) A := λ w,
  match m (env w) with
  | Val (r, e) => Val (r, mk_World e (trader w) (positions w) (trade_info_cache w))
  | Panic => Panic
  end.

Definition get {E A} (f : World E → A) : M (World E) A := λ w, Val (Ok (f w), w).
Definition put_trader {E} (t : Trader) : M (World E) () := λ w,
  Val (Ok (), mk_World (env w) t (positions w) (trade_info_cache w)).
Definition put_positions {E} (p : gmap string TokenPosition) : M (World E) () := λ w,
  Val (Ok (), mk_World (env w) (trader w) p (trade_info_cache w)).
Definition put_cache {E} (c : gmap string TradeInfo) : M (World E) () := λ w,
  Val (Ok (), mk_World (env w) (trader w) (positions w) c).

Section Strategy.
Context `{Build} `{Sdk} `{KeyText} `{Borsh} {E : Type} `{Rpc E} `{Redis E} `{TradeJson}
  `{Trading E} `{SplAta}.
Context (config : BotConfig) (redis_store : option RedisStore).

(* bot strategy.rs:181-192 get_active_mints *)
Definition strategy_active_mints : M (World E) (list string) :=
  match redis_store with
  | Some _ => lift get_active_mints
  | None => mret []
  end.

(* bot strategy.rs:194-197 is_holding *)
Definition is_holding (mint : string) : M (World E) bool :=
  get (λ w, bool_decide (is_Some (positions w !! mint))).

(* bot strategy.rs:221-230 get_latest_trade_price *)
Definition get_latest_trade_price (mint : string) : M (World E) (option f64) :=
  match redis_store with
  | Some _ => lift (get_latest_price_from_trades mint)
  | None => mret None
  end.

(* bot strategy.rs:232-260 check_price_increase *)
Definition check_price_increase (mint : string) : M (World E) bool :=
  match redis_store with
  | None => mret false
  | Some _ =>
      let% price_change :=
        lift (calculate_price_change_from_records mint (buy_record_count config)) in
      mret match price_change with
           | Some change_pct => f_geb change_pct (buy_threshold_pct config)
           | None => false
           end
  end.

(* bot strategy.rs:303-329 get_or_fetch_trade_info *)
Definition get_or_fetch_trade_info (mint : string) : M (World E) TradeInfo :=
  let% cached := get (λ w, trade_info_cache w !! mint) in
  match cached with
  | Some info => mret info
  | None =>
      match pubkey_from_str mint with
      | None => mfail ("Invalid mint address: " +:+ mint)
      | Some mint_pubkey =>
          let% t := get trader in
          let% info := with_context ("Failed to fetch TradeInfo for " +:+ mint)
                         (lift (fetch_trade_info_with_retry t mint_pubkey)) in
          let% cache := get trade_info_cache in
          let% _ := put_cache (<[mint := info]> cache) in
          mret info
      end
  end.

(* bot strategy.rs:331-365 execute_buy *)
Definition execute_buy (mint : string) : M (World E) () :=
  let% holding := is_holding mint in
  if (holding : bool) then mret ()
  else
    let% info := get_or_fetch_trade_info mint in
    let current_price := calculate_price_from_pool info in
    let% t := get trader in
    let% r := lift (trader_buy t info (buy_amount_lamports config)) in
    let% _ := put_trader r.2 in
    let% _ := of_res r.1 in
    let position := mk_Position mint current_price (buy_amount_lamports config) info in
    let% p := get positions in
    put_positions (<[mint := position]> p).

(* bot strategy.rs:367-383 execute_sell *)
Definition execute_sell (mint : string) (info : TradeInfo) : M (World E) () :=
  let% t := get trader in
  let% _ := lift (trader_sell t info) in
  let% p := get positions in
  put_positions (delete mint p).

(* bot strategy.rs:199-219 check_buy_condition *)
Definition check_buy_condition (mint : string) : M (World E) () :=
  let% holding := is_holding mint in
  if (holding : bool) then mret ()
  else
    let% current_price := get_latest_trade_price mint in
    match current_price with
    | Some _ =>
        let% should_buy := check_price_increase mint in
        if (should_buy : bool) then execute_buy mint else mret ()
    | None => mret ()
    end.

(** Profit or loss of a position, in percent; 0 without a buying price. *)
(* bot strategy.rs:275-279 profit_pct *)
Definition profit_pct (position : TokenPosition) (price : f64) : f64 :=
  if f_gtb (pos_buy_price position) f_zero
  then fmul (fdiv (fsub price (pos_buy_price position)) (pos_buy_price position)) (f64_of_Z 100)
  else f_zero.

(* bot strategy.rs:284-292 should_sell *)
Definition wants_to_sell (position : TokenPosition) (price : f64) : bool :=
  if f_geb (profit_pct position price) (sell_profit_pct config) then true
  else if f_leb (profit_pct position price) (fneg (sell_stop_loss_pct config)) then true
  else false.

(* bot strategy.rs:262-301 check_sell_condition *)
Definition check_sell_condition (mint : string) : M (World E) () :=
  let% p := get (λ w, positions w !! mint) in
  match p with
  | None => mret ()
  | Some position =>
      let% current_price := get_latest_trade_price mint in
      match current_price with
      | Some price =>
          if wants_to_sell position price
          then execute_sell mint (pos_trade_info position) else mret ()
      | None => mret ()
      end
  end.

(** One mint of one round. *)
(* bot strategy.rs:167-175 monitoring_loop, one mint *)
Definition check_mint (mint : string) : M (World E) () :=
  let% holding := is_holding mint in
  if (holding : bool) then check_sell_condition mint else check_buy_condition mint.

Fixpoint check_mints (l : list string) : M (World E) () :=
  match l with
  | [] => mret ()
  | mint :: l' => let% _ := check_mint mint in check_mints l'
  end.

(** One round of the loop: an error leaves it before the pause. *)
(* bot strategy.rs:163-178 monitoring_loop, one round *)
Definition round : M (World E) () :=
  let% active_mints := strategy_active_mints in
  let% _ := check_mints active_mints in
  lift (effect (sleep_ms 1000)).

(** The loop never ends but by an error: [n] rounds of it. *)
(* bot strategy.rs:158-179 monitoring_loop *)
Fixpoint monitoring_loop (n : nat) : M (World E) () :=
  match n with
  | O => mret ()
  | S n' => let% _ := round in monitoring_loop n'
  end.

(** ** What a check may change *)

Abbreviation W := (World E).

(** The computation leaves the positions and the remembered pools alone. *)
Definition frame (w w' : W) : Prop :=
  positions w' = positions w ∧ trade_info_cache w' = trade_info_cache w.

Lemma lift_trader {A} (m : M E A) w r w' : lift m w = Val (r, w') → trader w' = trader w.
Proof. unfold lift. destruct (m (env w)) as [[x e]|]; [|done]. by intros [= <- <-]. Qed.

Lemma lift_frame {A} (m : M E A) w r w' : lift m w = Val (r, w') → frame w w'.
Proof. unfold lift. destruct (m (env w)) as [[x e]|]; [|done]. by intros [= <- <-]. Qed.

Lemma lift_inv {A} (m : M E A) w r w' :
  lift m w = Val (r, w') → m (env w) = Val (r, env w') ∧ frame w w'.
Proof. unfold lift. destruct (m (env w)) as [[x e]|]; [|done]. by intros [= <- <-]. Qed.

Lemma latest_price_frame mint w r w' : get_latest_trade_price mint w = Val (r, w') → frame w w'.
Proof.
  unfold get_latest_trade_price. destruct redis_store; [apply lift_frame|by intros [= <- <-]].
Qed.

Lemma latest_price_trader mint w r w' :
  get_latest_trade_price mint w = Val (r, w') → trader w' = trader w.
Proof.
  unfold get_latest_trade_price. destruct redis_store; [apply lift_trader|by intros [= <- <-]].
Qed.

Lemma price_increase_trader mint w r w' :
  check_price_increase mint w = Val (r, w') → trader w' = trader w.
Proof.
  unfold check_price_increase, mbind. destruct redis_store; [|by intros [= <- <-]].
  destruct (lift _ w) as [[[c|x] w1]|] eqn:Hl; [| |done]; apply lift_trader in Hl;
    by intros [= <- <-].
Qed.

(** The store has a price for the mint, read first of all. *)
Definition price_of_store (mint : string) (w : W) (price : f64) (e : E) : Prop :=
  is_Some redis_store ∧ get_latest_price_from_trades mint (env w) = Val (Ok (Some price), e).

Lemma latest_price_inv mint w r w' :
  get_latest_trade_price mint w = Val (r, w') →
  frame w w' ∧ ∀ price e,
    (r = Ok (Some price) ∧ e = env w') ↔ price_of_store mint w price e.
Proof.
  intros Hl. split; [by eapply latest_price_frame|]. intros price e. revert Hl.
  unfold get_latest_trade_price, price_of_store. destruct redis_store as [s|].
  - intros [Hg _]%lift_inv. rewrite Hg. split.
    + intros [-> ->]. by split.
    + by intros [_ [= -> <-]].
  - intros [= <- <-]. split; [by intros [? _]|by intros [[? ?] _]].
Qed.

(** The trades of the store show a rise, looked at in the environment [e]. *)
Definition signal (mint : string) (e : E) : Prop :=
  ∃ c e', calculate_price_change_from_records mint (buy_record_count config) e
          = Val (Ok (Some c), e') ∧ f_geb c (buy_threshold_pct config) = true.

Lemma price_increase_frame mint w r w' :
  is_Some redis_store → check_price_increase mint w = Val (r, w') →
  frame w w' ∧ (r = Ok true ↔ signal mint (env w)).
Proof.
  intros [s Hs]. unfold check_price_increase, signal. rewrite Hs.
  unfold mbind. destruct (lift _ w) as [[[c|x] w1]|] eqn:Hl; [| |done]; intros [= <- <-];
    apply lift_inv in Hl as [Hc Hf]; (split; [done|]); rewrite Hc; split.
  - intros [= Hg]. destruct c as [c|]; [|done]. by exists c, (env w1).
  - intros (c' & e' & [= -> _] & Hg). by rewrite Hg.
  - done.
  - by intros (c' & e' & [=] & _).
Qed.

(** A purchase is due: the store has a price and its trades show a rise. *)
Definition purchase_due (mint : string) (w : W) : Prop :=
  ∃ price e, price_of_store mint w price e ∧ signal mint e.

(** The price has taken the profit of the position, in percent of its buying price, to the profit
    threshold or down to the stop loss; without a buying price there is neither profit nor loss. *)
Definition at_threshold (position : TokenPosition) (price : f64) : Prop :=
  ∃ profit,
    (f_gtb (pos_buy_price position) f_zero = true ∧
       profit = fmul (fdiv (fsub price (pos_buy_price position)) (pos_buy_price position))
                  (f64_of_Z 100)
     ∨ f_gtb (pos_buy_price position) f_zero = false ∧ profit = f_zero)
    ∧ (f_geb profit (sell_profit_pct config) = true
       ∨ f_leb profit (fneg (sell_stop_loss_pct config)) = true).

(** A sale is due: the price of the store is at a threshold. *)
Definition sale_due (mint : string) (position : TokenPosition) (w : W) : Prop :=
  ∃ price e, price_of_store mint w price e ∧ at_threshold position price.

Lemma wants_to_sell_iff position price :
  wants_to_sell position price = true ↔ at_threshold position price.
Proof.
  assert (Hp : ∀ profit,
    (f_gtb (pos_buy_price position) f_zero = true ∧
       profit = fmul (fdiv (fsub price (pos_buy_price position)) (pos_buy_price position))
                  (f64_of_Z 100)
     ∨ f_gtb (pos_buy_price position) f_zero = false ∧ profit = f_zero)
    ↔ profit = profit_pct position price).
  { intros profit. unfold profit_pct. destruct (f_gtb _ _); naive_solver. }
  unfold wants_to_sell, at_threshold. setoid_rewrite Hp. split.
  - destruct (f_geb _ _) eqn:Hg; [intros _; eexists; by auto|].
    destruct (f_leb _ _) eqn:Hl; [intros _; eexists; by auto|done].
  - intros (? & -> & [-> | ->]); [done|]. by destruct (f_geb _ _).
Qed.

(** Remembered pools stay as they are. *)
Definition keeps_cache (w w' : W) : Prop := trade_info_cache w ⊆ trade_info_cache w'.

Lemma fetch_frame mint w r w' :
  get_or_fetch_trade_info mint w = Val (r, w') →
  positions w' = positions w ∧ keeps_cache w w'
  ∧ (∀ info, r = Ok info → trade_info_cache w' !! mint = Some info) ∧ trader w' = trader w.
Proof.
  unfold get_or_fetch_trade_info, keeps_cache, mbind, get.
  destruct (trade_info_cache w !! mint) as [info|] eqn:Hc.
  { intros [= <- <-]. do 2 (split; [done|]). split; [by intros ? [= <-]|done]. }
  destruct (pubkey_from_str mint) as [k|]; [|by intros [= <- <-]].
  unfold with_context. destruct (lift _ w) as [[[info|x] w1]|] eqn:Hl; [| |done];
    apply lift_trader in Hl as Ht;
    apply lift_frame in Hl as [Hp Hcc]; intros [= <- <-]; simpl; rewrite ?Hp, ?Hcc.
  - split; [done|]. split; [by apply insert_subseteq|]. split; [|done].
    intros ? [= <-]. apply lookup_insert_eq.
  - split; [done|]. split; [done|]. by split.
Qed.

(** The trader's purchase, or sale, has succeeded; nothing happens to the environment after it. *)
Definition bought (info : TradeInfo) (w w' : W) : Prop :=
  ∃ e, trader_buy (trader w) info (buy_amount_lamports config) e
       = Val (Ok (Ok (), trader w'), env w').
Definition sold_from (e : E) (info : TradeInfo) (w w' : W) : Prop :=
  trader_sell (trader w) info e = Val (Ok (), env w').

(** What a purchase may do to the state. *)
Lemma execute_buy_frame mint w r w' :
  execute_buy mint w = Val (r, w') →
  keeps_cache w w' ∧
  (positions w' = positions w ∧ (positions w !! mint = None → r ≠ Ok ())
   ∨ positions w !! mint = None ∧ r = Ok () ∧ ∃ info,
     trade_info_cache w' !! mint = Some info ∧ bought info w w' ∧
     positions w' = <[mint := mk_Position mint (calculate_price_from_pool info)
                                (buy_amount_lamports config) info]> (positions w)).
Proof.
  unfold execute_buy, keeps_cache, is_holding, mbind, get at 1.
  case_bool_decide as Hh.
  { intros [= <- <-]. split; [done|]. left. split; [done|]. intros Hn.
    rewrite Hn in Hh. by destruct Hh. }
  destruct (get_or_fetch_trade_info mint w) as [[[info|x] w1]|] eqn:Hg; [| |done];
    apply fetch_frame in Hg as (Hp & Hk & Hi & Ht); [|intros [= <- <-]; by auto].
  specialize (Hi info eq_refl). unfold get at 1.
  destruct (lift _ w1) as [[[[r1 t1]|x] w2]|] eqn:Hl; [| |done];
    apply lift_inv in Hl as [Hb [Hp2 Hc2]].
  - unfold put_trader, of_res. simpl. destruct r1 as [[]|x]; intros [= <- <-]; simpl;
      rewrite ?Hp2, ?Hc2, ?Hp; (split; [done|]); [|by left].
    right. split; [by apply eq_None_not_Some|]. split; [done|]. exists info.
    split; [done|]. split; [|done]. exists (env w1). rewrite <- Ht. exact Hb.
  - intros [= <- <-]. rewrite Hp2, Hc2, Hp. split; [done|]. by left.
Qed.

Lemma execute_sell_frame mint info w r w' :
  execute_sell mint info w = Val (r, w') →
  trade_info_cache w' = trade_info_cache w ∧
  (positions w' = positions w ∧ r ≠ Ok ()
   ∨ r = Ok () ∧ sold_from (env w) info w w' ∧ positions w' = delete mint (positions w)).
Proof.
  unfold execute_sell, mbind, get, sold_from.
  destruct (lift _ w) as [[[[]|x] w1]|] eqn:Hl; [| |done]; apply lift_inv in Hl as [Hs [Hp Hc]];
    intros [= <- <-]; simpl; rewrite ?Hp, ?Hc; (split; [done|]); [by right|by left].
Qed.

Lemma check_buy_frame mint w r w' :
  check_buy_condition mint w = Val (r, w') →
  keeps_cache w w' ∧
  (positions w' = positions w
     ∧ (positions w !! mint = None → r = Ok () → ¬ purchase_due mint w)
   ∨ positions w !! mint = None ∧ r = Ok () ∧ purchase_due mint w ∧ ∃ info,
     trade_info_cache w' !! mint = Some info ∧ bought info w w' ∧
     positions w' = <[mint := mk_Position mint (calculate_price_from_pool info)
                                (buy_amount_lamports config) info]> (positions w)).
Proof.
  unfold check_buy_condition, is_holding, mbind, get, keeps_cache.
  case_bool_decide as Hh.
  { intros [= <- <-]. split; [done|]. left. split; [done|]. intros Hn.
    rewrite Hn in Hh. by destruct Hh. }
  destruct (get_latest_trade_price mint w) as [[rp w1]|] eqn:Hl;
    [|by destruct redis_store].
  apply latest_price_trader in Hl as Ht1. apply latest_price_inv in Hl as [[Hp1 Hc1] Hprice].
  destruct rp as [[price|]|x]; [|intros [= <- <-]; rewrite Hp1, Hc1..].
  2: { split; [done|]. left. split; [done|]. intros _ _ (? & ? & Hx & _).
       by apply Hprice in Hx as [[=] _]. }
  2: { split; [done|]. by left. }
  destruct (proj1 (Hprice price (env w1)) (conj eq_refl eq_refl)) as [Hr Hg].
  destruct (check_price_increase mint w1) as [[rs w2]|] eqn:Hs; [|done].
  apply price_increase_trader in Hs as Ht2.
  apply price_increase_frame in Hs as [[Hp2 Hc2] Hs]; [|done].
  assert (Hdue : purchase_due mint w ↔ rs = Ok true).
  { rewrite Hs. split.
    - by intros (? & ? & [[= <-] ->]%Hprice & Hsig).
    - intros Hsig. by exists price, (env w1). }
  destruct rs as [[|]|x]; [|intros [= <- <-]; rewrite Hp2, Hc2, Hp1, Hc1..].
  - intros [Hk He]%execute_buy_frame. unfold keeps_cache in Hk.
    rewrite Hp2, Hp1 in He. rewrite Hc2, Hc1 in Hk. split; [done|].
    destruct He as [[He Hne]|(Hn & Hr' & Hx)]; [left|right].
    + split; [done|]. intros Hn Hok. by destruct (Hne Hn).
    + rewrite Hdue. split; [done|]. split; [done|]. split; [done|]. unfold bought in *.
      by rewrite Ht2, Ht1 in Hx.
  - split; [done|]. left. split; [done|]. intros _ _ Hd. by apply Hdue in Hd.
  - split; [done|]. by left.
Qed.

Lemma check_sell_frame mint w r w' :
  check_sell_condition mint w = Val (r, w') →
  trade_info_cache w' = trade_info_cache w ∧
  (positions w' = positions w
     ∧ (∀ p, positions w !! mint = Some p → r = Ok () → ¬ sale_due mint p w)
   ∨ ∃ p price e, positions w !! mint = Some p ∧ r = Ok () ∧ price_of_store mint w price e
     ∧ at_threshold p price ∧ sold_from e (pos_trade_info p) w w'
     ∧ positions w' = delete mint (positions w)).
Proof.
  unfold check_sell_condition, mbind, get.
  destruct (positions w !! mint) as [p|] eqn:Hp; [|intros [= <- <-]; split; [done|]; by left].
  destruct (get_latest_trade_price mint w) as [[rp w1]|] eqn:Hl; [|done].
  apply latest_price_trader in Hl as Ht1. apply latest_price_inv in Hl as [[Hp1 Hc1] Hprice].
  destruct rp as [[price|]|x]; [|intros [= <- <-]; rewrite Hp1, Hc1..].
  2: { split; [done|]. left. split; [done|]. intros _ _ _ (? & ? & Hx & _).
       by apply Hprice in Hx as [[=] _]. }
  2: { split; [done|]. by left. }
  assert (Hdue : sale_due mint p w ↔ wants_to_sell p price = true).
  { rewrite wants_to_sell_iff. split.
    - by intros (? & ? & [[= <-] _]%Hprice & Hw).
    - intros Hw. exists price, (env w1). split; [|done]. by apply Hprice. }
  destruct (wants_to_sell p price) eqn:Hwants; [|intros [= <- <-]; rewrite Hp1, Hc1].
  - intros [Hc He]%execute_sell_frame. rewrite Hc1 in Hc. rewrite Hp1 in He. split; [done|].
    destruct He as [[He Hne]|(Hr & Hsold & He)]; [by left|]. right. exists p, price, (env w1).
    split; [done|]. split; [done|]. split; [by apply Hprice|].
    split; [by apply wants_to_sell_iff|]. unfold sold_from in *. by rewrite Ht1 in Hsold.
  - split; [done|]. left. split; [done|]. intros _ [= <-] _. by rewrite Hdue.
Qed.

(** C1.  Looking at a mint touches no other position.  Its own is opened only
    when none was open, the store has a price for it and the trades of the
    store, read next, show the configured rise, and when the trader's purchase of
    the configured amount, the last thing done, has returned success: with that
    amount, the pool remembered from then on and the price of that pool.  It is
    closed only when the price that the store answers at this very check has
    taken its profit or its loss to a threshold - never without a price - and
    the trader's sale, the next and last thing done, has returned success.  And
    a check that ends without an error has done so: a position still held was
    not due for sale, a mint still not held not for purchase.  When an error
    ends the check, the positions are as they were. *)
Theorem check_mint_positions mint w r w' :
  check_mint mint w = Val (r, w') →
  (∀ m, m ≠ mint → positions w' !! m = positions w !! m) ∧
  match positions w !! mint, positions w' !! mint with
  | None, Some p =>
      r = Ok () ∧ purchase_due mint w ∧ bought (pos_trade_info p) w w' ∧ pos_mint p = mint
      ∧ pos_buy_sol_amount p = buy_amount_lamports config
      ∧ pos_buy_price p = calculate_price_from_pool (pos_trade_info p)
      ∧ trade_info_cache w' !! mint = Some (pos_trade_info p)
  | Some p, None =>
      r = Ok () ∧ ∃ price e, price_of_store mint w price e ∧ at_threshold p price
      ∧ sold_from e (pos_trade_info p) w w'
  | Some p, Some p' => p' = p ∧ (r = Ok () → ¬ sale_due mint p w)
  | None, None => r = Ok () → ¬ purchase_due mint w
  end.
Proof.
  unfold check_mint, is_holding, mbind, get. case_bool_decide as Hh.
  - intros [_ Hp]%check_sell_frame. destruct Hh as [p Hm]. rewrite Hm.
    destruct Hp as [[-> Hno]|(p' & price & e & Hp' & Hr & Hw & Ht & Hs & ->)]; [rewrite Hm; auto|].
    rewrite lookup_delete_eq. split; [intros; by rewrite lookup_delete_ne|].
    rewrite Hm in Hp'. injection Hp' as <-. eauto 6.
  - apply eq_None_not_Some in Hh. rewrite Hh. intros [_ Hp]%check_buy_frame.
    destruct Hp as [[-> Hno]|(_ & Hr & Hs & info & Hc & Hb & ->)]; [rewrite Hh; auto|].
    rewrite lookup_insert_eq. split; [intros; by rewrite lookup_insert_ne|]. auto 8.
Qed.

(** ** Rounds *)

(** Every position is filed under its mint, with the pool remembered for it. *)
Definition consistent (w : W) : Prop :=
  ∀ mint p, positions w !! mint = Some p →
    pos_mint p = mint ∧ trade_info_cache w !! mint = Some (pos_trade_info p).

Lemma check_mint_inv mint w r w' :
  check_mint mint w = Val (r, w') → keeps_cache w w' ∧ (consistent w → consistent w').
Proof.
  unfold check_mint, is_holding, mbind, get, keeps_cache. case_bool_decide as Hh.
  - intros [Hc Hp]%check_sell_frame. rewrite Hc. split; [done|]. intros Hw m p.
    destruct Hp as [[-> _]|(? & ? & ? & _ & _ & _ & _ & _ & ->)]; rewrite Hc; [apply Hw|].
    intros [_ Hm]%lookup_delete_Some. by apply Hw.
  - intros [Hk Hp]%check_buy_frame. unfold keeps_cache in Hk. split; [done|]. intros Hw m p.
    destruct Hp as [[-> _]|(_ & _ & _ & info & Hc & _ & ->)].
    + intros [? Hm]%Hw. split; [done|]. by eapply lookup_weaken.
    + intros [[<- <-]|[_ Hm]]%lookup_insert_Some; [done|]. apply Hw in Hm as [? Hm].
      split; [done|]. by eapply lookup_weaken.
Qed.

Lemma check_mints_inv l w r w' :
  check_mints l w = Val (r, w') → keeps_cache w w' ∧ (consistent w → consistent w').
Proof.
  unfold keeps_cache.
  revert w. induction l as [|mint l IH]; intros w; [intros [= <- <-]; by split|].
  cbn [check_mints]. unfold mbind. destruct (check_mint mint w) as [[[u|x] w1]|] eqn:Hm; [| |done].
  - apply check_mint_inv in Hm as [Hk Hw]. intros [Hk' Hw']%IH. split; [|auto].
    unfold keeps_cache in Hk. by etrans.
  - intros [= <- <-]. by apply check_mint_inv in Hm.
Qed.

Lemma round_inv w r w' :
  round w = Val (r, w') → keeps_cache w w' ∧ (consistent w → consistent w').
Proof.
  unfold round, mbind. destruct (strategy_active_mints w) as [[r1 w1]|] eqn:Ha; [|done].
  assert (Hf : frame w w1).
  { unfold strategy_active_mints in Ha. destruct redis_store; [by eapply lift_frame|].
    by injection Ha as <- <-. }
  destruct Hf as [Hp Hc]. unfold keeps_cache, consistent.
  destruct r1 as [l|x]; [|intros [= <- <-]; by rewrite Hp, Hc].
  destruct (check_mints l w1) as [[[u|x] w2]|] eqn:Hm; [| |done];
    apply check_mints_inv in Hm as [Hk Hw]; unfold keeps_cache, consistent in Hk, Hw;
    rewrite Hp, Hc in *.
  - intros [_ [Hp2 Hc2]]%lift_inv. by rewrite Hp2, Hc2.
  - by intros [= <- <-].
Qed.

(** C2.  However many rounds are run and however they end, the positions stay
    consistent with the remembered pools, and a remembered pool is never
    replaced: its reserves are those of the first look at the mint. *)
Theorem monitoring_keeps_consistent n w r w' :
  consistent w → monitoring_loop n w = Val (r, w') →
  consistent w' ∧
  ∀ mint info, trade_info_cache w !! mint = Some info → trade_info_cache w' !! mint = Some info.
Proof.
  intros Hw Hl. assert (Hk : keeps_cache w w' ∧ consistent w').
  { revert w Hw Hl. induction n as [|n IH]; intros w Hw.
    { intros [= <- <-]. by unfold keeps_cache. }
    cbn [monitoring_loop]. unfold mbind. destruct (round w) as [[[u|x] w1]|] eqn:Hr; [| |done];
      apply round_inv in Hr as [Hk Hw1]; specialize (Hw1 Hw).
    - intros Hl. destruct (IH _ Hw1 Hl) as [Hk' ?]. split; [|done].
      unfold keeps_cache in *. by etrans.
    - by intros [= <- <-]. }
  destruct Hk as [Hk ?]. split; [done|]. intros mint info Hi. by eapply lookup_weaken.
Qed.

(** ** A purchase that was skipped *)

(** C26.  When the wallet cannot cover the amount and the gas reserve, a
    purchase submits nothing and reports success, and the strategy opens a
    position all the same. *)
Theorem skipped_purchase_opens_position mint info balance e1 w :
  positions w !! mint = None → trade_info_cache w !! mint = Some info →
  is_u64 (buy_amount_lamports config) →
  rpc_get_balance trading_payer (env w) = (Ok balance, e1) →
  balance < Z.min u64_max (buy_amount_lamports config + GAS_RESERVE_LAMPORTS) →
  execute_buy mint w
  = Val (Ok (), mk_World e1 (trader w)
      (<[mint := mk_Position mint (calculate_price_from_pool info)
                   (buy_amount_lamports config) info]> (positions w)) (trade_info_cache w)).
Proof.
  intros Hn Hc Ha Hb Hlt. unfold execute_buy, is_holding, mbind, get at 1.
  rewrite bool_decide_false by (by rewrite Hn; intros [? ?]).
  unfold get_or_fetch_trade_info, mbind, get. rewrite Hc. cbn [mret].
  unfold lift, trader_buy, mbind, attempt, with_context, call. rewrite Hb.
  assert (Hreq : balance < default u64_max
    (checked_add 64 (buy_amount_lamports config) GAS_RESERVE_LAMPORTS)).
  { unfold checked_add, GAS_RESERVE_LAMPORTS in *. destruct (fits 64 _) eqn:Hfit; simpl.
    - apply fits_iff in Hfit. uint.
    - apply fits_false in Hfit. uint. }
  rewrite (proj2 (Z.ltb_lt _ _) Hreq). done.
Qed.

(** A position without tokens can neither be closed nor kept: as soon as
    its price asks for a sale, the check fails, so that the whole loop ends,
    and the position remains. *)
Theorem empty_position_ends_loop mint position price e1 e2 w :
  redis_store ≠ None →
  positions w !! mint = Some position →
  get_latest_price_from_trades mint (env w) = Val (Ok (Some price), e1) →
  wants_to_sell position price = true →
  get_token_balance (ti_base_mint (pos_trade_info position)) e1 = Val (Ok 0, e2) →
  check_mint mint w
  = Val (Err ("No token balance to sell for mint: " +:+
              pubkey_to_string (ti_base_mint (pos_trade_info position))),
         mk_World e2 (trader w) (positions w) (trade_info_cache w)).
Proof.
  intros Hr Hp Hl Hw Ht. unfold check_mint, is_holding, mbind, get at 1.
  rewrite bool_decide_true by (rewrite Hp; eauto).
  unfold check_sell_condition, mbind, get. rewrite Hp.
  unfold get_latest_trade_price. destruct redis_store; [|done].
  unfold lift at 1. rewrite Hl, Hw. unfold execute_sell, mbind, get, lift. cbn [env].
  unfold trader_sell, mbind. by rewrite Ht.
Qed.
End Strategy.

(** ** Units of the prices *)

Definition info_with (base quote : Z) : TradeInfo :=
  mk_TradeInfo 0 0 0 0 0 base quote 0 0 0 0 0 false false.

(** Base units and lamports of a few pools. *)
Definition some_pools : list (Z * Z) :=
  [(206900000000000, 85000000000); (1000000000000000, 30000000000); (1, 1);
   (999999999999, 1000000000000000); (u64_max, u64_max)].

(** The price recorded at a purchase is quote units per base unit, a stored
    price SOL per token, a thousandth of it: with the default thresholds a
    position is sold at the very reserves it was bought at. *)
Theorem price_units_differ config mint t sig time :
  sell_profit_pct config = default_sell_profit_pct →
  sell_stop_loss_pct config = default_sell_stop_loss_pct →
  Forall (λ '(base, quote),
    wants_to_sell config
      (mk_Position mint (calculate_price_from_pool (info_with base quote)) 0 t)
      (tr_price (from_transaction mint base quote true sig time)) = true) some_pools.
Proof.
  intros Hp Hs. unfold some_pools.
  repeat (apply Forall_cons; split);
    [unfold wants_to_sell; rewrite Hp, Hs; vm_compute; reflexivity..|apply Forall_nil_2].
Qed.

(** ** Witnesses *)

Definition toy_config : BotConfig :=
  mk_BotConfig "" "" None "" "" (f64_lit 1 1) 0 100 3 1000 false None "Frankfurt" "" 2
    (f64_of_Z 10) 5 5 (f64_of_Z 10) (f64_of_Z 5).

(** A wallet with tokens of mint 77 and some lamports. *)
Definition rich_sim : Sim :=
  mk_Sim (λ _, None) (λ p, if p =? 11077 then Some "5000" else None) 0 0 [].

Definition toy_position : TokenPosition := mk_Position "m" (f64_of_Z 100) 100000000 toy_info.

Definition held (s : Sim) : World Env :=
  mk_World (s, full_env.2) toy_trader {[ "m" := toy_position ]} {[ "m" := toy_info ]}.

Definition sold (s : Sim) : World Env :=
  mk_World (s, full_env.2) toy_trader ∅ {[ "m" := toy_info ]}.

Abbreviation toy_check :=
  (@check_mint release toy_sdk toy_text toy_borsh Env _ _ toy_json (toy_trading Env) toy_spl
     toy_config (Some toy_store)).

Lemma toy_sale : toy_check "m" (held rich_sim) = Val (Ok (), sold rich_sim).
Proof. vm_compute. reflexivity. Qed.

Lemma check_mint_positions_witness :
  toy_check "m" (held rich_sim) = Val (Ok (), sold rich_sim) ∧
  (∀ m, m ≠ "m" → positions (sold rich_sim) !! m = positions (held rich_sim) !! m) ∧
  @Ok string () () = Ok ()
  ∧ ∃ price e, @price_of_store release Env _ _ toy_json (Some toy_store) "m" (held rich_sim) price e
    ∧ at_threshold toy_config toy_position price
    ∧ @sold_from toy_text Env _ (toy_trading Env) toy_spl e toy_info (held rich_sim) (sold rich_sim).
Proof.
  split; [exact toy_sale|].
  exact (@check_mint_positions release toy_sdk toy_text toy_borsh Env _ _ toy_json
    (toy_trading Env) toy_spl toy_config (Some toy_store) "m" (held rich_sim) (Ok ())
    (sold rich_sim) toy_sale).
Defined.

Lemma held_consistent : consistent (held rich_sim).
Proof.
  intros mint p Hp. simpl in Hp. apply lookup_singleton_Some in Hp as [<- <-].
  split; [done|]. apply lookup_singleton_eq.
Qed.

Abbreviation toy_loop :=
  (@monitoring_loop release toy_sdk toy_text toy_borsh Env _ _ toy_json (toy_trading Env) toy_spl
     toy_config (Some toy_store)).

(** One round sells the position and pauses for a second. *)
Definition after_round : World Env :=
  mk_World (sleep_ms 1000 rich_sim, full_env.2) toy_trader ∅ {[ "m" := toy_info ]}.

Lemma toy_round : toy_loop 1 (held rich_sim) = Val (Ok (), after_round).
Proof. vm_compute. reflexivity. Qed.

Lemma monitoring_keeps_consistent_witness :
  consistent (held rich_sim) ∧ toy_loop 1 (held rich_sim) = Val (Ok (), after_round) ∧
  (consistent after_round ∧
   ∀ mint info, trade_info_cache (held rich_sim) !! mint = Some info →
                trade_info_cache after_round !! mint = Some info).
Proof.
  split; [exact held_consistent|]. split; [exact toy_round|].
  exact (@monitoring_keeps_consistent release toy_sdk toy_text toy_borsh Env _ _ toy_json
    (toy_trading Env) toy_spl toy_config (Some toy_store) 1 (held rich_sim) (Ok ()) after_round
    held_consistent toy_round).
Defined.

Lemma skipped_purchase_opens_position_witness :
  @execute_buy release toy_sdk toy_text toy_borsh Env _ (toy_trading Env) toy_config "m"
    (sold rich_sim)
  = Val (Ok (), mk_World (rich_sim, full_env.2) toy_trader
      (<["m" := mk_Position "m" (calculate_price_from_pool toy_info)
                  (buy_amount_lamports toy_config) toy_info]> ∅) {[ "m" := toy_info ]}).
Proof.
  refine (@skipped_purchase_opens_position release toy_sdk toy_text toy_borsh Env _
    (toy_trading Env) toy_config "m" toy_info 0 (rich_sim, full_env.2) (sold rich_sim) _ _ _ _ _).
  - reflexivity.
  - apply lookup_singleton_eq.
  - concrete.
  - reflexivity.
  - concrete.
Defined.

Definition poor_sim : Sim := mk_Sim (λ _, None) (λ _, None) 0 0 [].

Lemma empty_position_ends_loop_witness :
  toy_check "m" (held poor_sim)
  = Val (Err ("No token balance to sell for mint: " +:+ key_string (ti_base_mint toy_info)),
         held poor_sim).
Proof.
  refine (@empty_position_ends_loop release toy_sdk toy_text toy_borsh Env _ _ toy_json
    (toy_trading Env) toy_spl toy_config (Some toy_store) "m" toy_position (f64_of_Z 150)
    (poor_sim, full_env.2) (poor_sim, full_env.2) (held poor_sim) _ _ _ _ _).
  - done.
  - apply lookup_singleton_eq.
  - vm_compute. reflexivity.
  - vm_compute. reflexivity.
  - vm_compute. reflexivity.
Defined.

Definition default_config : BotConfig :=
  mk_BotConfig "" "" None "" "" (f64_lit 1 1) 0 100 3 1000 false None "Frankfurt" "" 2
    default_buy_threshold_pct 5 5 default_sell_profit_pct default_sell_stop_loss_pct.

Lemma price_units_differ_witness :
  Forall (λ '(base, quote),
    wants_to_sell default_config
      (mk_Position "m" (calculate_price_from_pool (info_with base quote)) 0 toy_info)
      (tr_price (from_transaction "m" base quote true "s" 0)) = true) some_pools.
Proof. by apply (price_units_differ default_config "m" toy_info "s" 0). Defined.
