(* ===== verification/Wsol.v ===== *)
(** * Wrapped SOL (sdk trading/common/wsol_manager.rs)

    The instructions that wrap, unwrap and close, as programs over the caches. *)

From Stdlib Require Import String.
From S2P Require Import Prelude Solana Spl FastFn.

#[local] Open Scope Z_scope.

Definition sync_native (wsol_token_account : Pubkey) : Instruction :=
  mk_ix TOKEN_PROGRAM [meta_new wsol_token_account false] [17].

(** The wrapped-SOL account of a wallet. *)
Definition wsol_account (payer : Pubkey) : prog Pubkey :=
  get_associated_token_address_with_program_id_fast payer WSOL_TOKEN_ACCOUNT TOKEN_PROGRAM.

(* sdk trading/common/wsol_manager.rs:73-80 create_wsol_ata *)
Definition create_wsol_ata (payer : Pubkey) : prog (list Instruction) :=
  create_associated_token_account_idempotent_fast payer payer WSOL_TOKEN_ACCOUNT TOKEN_PROGRAM.

(* sdk trading/common/wsol_manager.rs:42-70 close_wsol *)
Definition close_wsol (payer : Pubkey) : prog (list Instruction) :=
  let! wsol_token_account := wsol_account payer in
  GetIx (CloseWsolAccount payer wsol_token_account) Ret.

Section Wsol.
Context `{Sdk}.

(* sdk trading/common/wsol_manager.rs:14-40 handle_wsol *)
Definition handle_wsol (payer : Pubkey) (amount_in : Z) : prog (list Instruction) :=
  let! wsol_token_account := wsol_account payer in
  let! create := create_associated_token_account_idempotent_fast payer payer
                   WSOL_TOKEN_ACCOUNT TOKEN_PROGRAM in
  Ret (create ++ [system_transfer payer wsol_token_account amount_in;
                  sync_native wsol_token_account]).

(* sdk trading/common/wsol_manager.rs:84-104 wrap_sol_only *)
Definition wrap_sol_only (payer : Pubkey) (amount_in : Z) : prog (list Instruction) :=
  let! wsol_token_account := wsol_account payer in
  Ret [system_transfer payer wsol_token_account amount_in; sync_native wsol_token_account].

(** Move wrapped SOL to the seeded account and close that one. *)
Definition transfer_and_close (payer seed_ata_address : Pubkey) (amount : Z) :
    prog (list Instruction) :=
  let! user_wsol_ata := wsol_account payer in
  let! transfer_instruction :=
    of_result (transfer TOKEN_PROGRAM user_wsol_ata seed_ata_address payer amount []) in
  let! close_instruction :=
    of_result (close_account TOKEN_PROGRAM seed_ata_address payer payer []) in
  Ret [transfer_instruction; close_instruction].

(* sdk trading/common/wsol_manager.rs:115-159 wrap_wsol_to_sol *)
Definition wrap_wsol_to_sol (payer : Pubkey) (amount : Z) : prog (list Instruction) :=
  GetRents (λ rents,
    let! create := of_result (create_associated_token_account_use_seed rents payer payer
                                WSOL_TOKEN_ACCOUNT TOKEN_PROGRAM) in
    let! seed_ata_address := of_result (get_associated_token_address_with_program_id_use_seed
                                          payer WSOL_TOKEN_ACCOUNT TOKEN_PROGRAM) in
    let! rest := transfer_and_close payer seed_ata_address amount in
    Ret (create ++ rest)).

(* sdk trading/common/wsol_manager.rs:163-200 wrap_wsol_to_sol_without_create *)
Definition wrap_wsol_to_sol_without_create (payer : Pubkey) (amount : Z) :
    prog (list Instruction) :=
  let! seed_ata_address := of_result (get_associated_token_address_with_program_id_use_seed
                                        payer WSOL_TOKEN_ACCOUNT TOKEN_PROGRAM) in
  transfer_and_close payer seed_ata_address amount.
End Wsol.
