(* ===== verification/IxCommon.v ===== *)
(** * What the instruction builders share

    Parts of a builder that every protocol has: the accounts of the user, the
    slippage, optional groups of instructions, and the choice between an address
    that is given and one that is derived. *)

From Stdlib Require Import String.
From S2P Require Import Prelude Solana Accounts Spl FastFn Client Wsol.

#[local] Open Scope string_scope.
#[local] Open Scope Z_scope.
#[local] Open Scope list_scope.

(** The user's token account of a mint. *)
Definition user_account (s : SwapParams) (mint program : Pubkey) : prog Pubkey :=
  get_associated_token_address_with_program_id_fast_use_seed (payer s) mint program
    (open_seed_optimize s).

(** [params.slippage_basis_points.unwrap_or(DEFAULT_SLIPPAGE)]. *)
Definition slippage_of (s : SwapParams) : Z := default DEFAULT_SLIPPAGE (slippage_basis_points s).

(** [params.input_amount.unwrap_or(0)]. *)
Definition amount_of (s : SwapParams) : Z := default 0 (input_amount s).

Definition when {A} (b : bool) (m : prog (list A)) : prog (list A) := if b then m else Ret [].

(** [if given == Pubkey::default() { derived.unwrap() } else { given }]. *)
Definition given_or (given : Pubkey) (derived : prog (option Pubkey)) : prog Pubkey :=
  if given =? pubkey_default then let! o := derived in of_option o else Ret given.

(** [derived.ok_or_else(..)?]. *)
Definition ok_or_fail {A} (derived : prog (option A)) (msg : string) : prog A :=
  let! o := derived in match o with Some a => Ret a | None => Fail msg end.

(** The creation of the user's account of a mint. *)
Definition create_user_account (s : SwapParams) (mint program : Pubkey) : prog (list Instruction) :=
  create_associated_token_account_idempotent_fast_use_seed (payer s) (payer s) mint program
    (open_seed_optimize s).

(** Closing an account of the payer to the payer. *)
Definition close_user_account (s : SwapParams) (program account : Pubkey) : prog (list Instruction) :=
  let! ix := of_result (close_account program account (payer s) (payer s) [payer s]) in
  Ret [ix].

(** ** Signatures

    What a builder needs signed: every signing account of its instructions is
    the payer. *)

Definition only (payer : Pubkey) (metas : list AccountMeta) : Prop :=
  Forall (λ m, is_signer m = true → am_pubkey m = payer) metas.

Definition signed (payer : Pubkey) (ixs : list Instruction) : Prop :=
  Forall (λ ix, only payer (accounts ix)) ixs.

(** The signers of the system instructions, as the Solana SDK documents them. *)
Class SdkSigners `{Sdk} := {
  transfer_signers from to lamports : signed from [system_transfer from to lamports];
  create_with_seed_signers from to seed lamports space owner :
    signed from [system_create_account_with_seed from to from seed lamports space owner];
}.

Lemma signed_nil payer : signed payer [].
Proof. constructor. Qed.
Lemma signed_app payer l k : signed payer l → signed payer k → signed payer (l ++ k).
Proof. apply Forall_app_2. Qed.
Lemma signed_cons payer ix l :
  signed payer [ix] → signed payer l → signed payer (ix :: l).
Proof. intros [Hi _]%Forall_cons Hl. by constructor. Qed.
Lemma signed_ix payer program metas data :
  only payer metas → signed payer [mk_ix program metas data].
Proof. by repeat constructor. Qed.

Create HintDb signed.
#[export] Hint Resolve signed_nil signed_app signed_cons transfer_signers create_with_seed_signers
  : signed.

Lemma only_nil payer : only payer [].
Proof. constructor. Qed.
Lemma only_app payer l k : only payer l → only payer k → only payer (l ++ k).
Proof. apply Forall_app_2. Qed.
Lemma only_cons payer m l :
  (is_signer m = true → am_pubkey m = payer) → only payer l → only payer (m :: l).
Proof. by constructor. Qed.

(** Account lists written out. *)
Ltac signed_metas :=
  repeat lazymatch goal with
  | |- only _ (_ ++ _) => apply only_app
  | |- only _ (_ :: _) => apply only_cons
  | |- only _ [] => apply only_nil
  | H : only _ ?l |- only _ ?l => exact H
  end; try done.

(** ** Evaluation *)

Section IxCommon.
Context `{Sdk}.

Lemma eval_when {A} r b (m : prog (list A)) l :
  eval r (when b m) = Val (Ok l) → (b = true ∧ eval r m = Val (Ok l)) ∨ (b = false ∧ l = []).
Proof. unfold when. destruct b; [by left|]. intros [= <-]. by right. Qed.

Lemma eval_ok_or_fail {A} r (d : prog (option A)) msg a :
  eval r (ok_or_fail d msg) = Val (Ok a) ↔ eval r d = Val (Ok (Some a)).
Proof.
  unfold ok_or_fail. rewrite eval_bind.
  destruct (eval r d) as [[[x|]|e]|]; simpl; naive_solver.
Qed.

Lemma eval_given_or r given d a :
  eval r (given_or given d) = Val (Ok a) →
  (given ≠ pubkey_default ∧ a = given) ∨ (given = pubkey_default ∧ eval r d = Val (Ok (Some a))).
Proof.
  unfold given_or. destruct (Z.eqb_spec given pubkey_default) as [->|Hn].
  - rewrite eval_bind. destruct (eval r d) as [[[x|]|e]|]; simpl; naive_solver.
  - intros [= <-]. by left.
Qed.

Lemma eval_user_account r s mint program a :
  eval r (user_account s mint program) = Val (Ok a) ↔
  ata_compute (mk_AtaCacheKey (payer s) mint program (open_seed_optimize s)) = Val a.
Proof.
  unfold user_account, get_associated_token_address_with_program_id_fast_use_seed. simpl.
  destruct (ata_compute _); simpl; naive_solver.
Qed.

Lemma eval_close_user_account r s program account l :
  eval r (close_user_account s program account) = Val (Ok l) →
  ∃ ix, close_account program account (payer s) (payer s) [payer s] = Ok ix ∧ l = [ix].
Proof.
  unfold close_user_account. destruct (close_account _ _ _ _ _) as [ix|e]; [|done].
  simpl. intros [= <-]. eauto.
Qed.

Lemma handle_wsol_shape r user amount ixs :
  eval r (handle_wsol user amount) = Val (Ok ixs) →
  ∃ wsol create, eval r (wsol_account user) = Val (Ok wsol)
    ∧ ixs = create ++ [system_transfer user wsol amount; sync_native wsol].
Proof.
  unfold handle_wsol. intros Hh. prog_inv Hh. injection Hh as <-. eauto.
Qed.

(** The instructions create the account [account] of the mint for the payer:
    with the associated token program, or with a seed where that is allowed. *)
Definition creates_account (r : Rents) (payer mint program : Pubkey) (use_seed : bool)
    (account : Pubkey) (ixs : list Instruction) : Prop :=
  ata_compute (mk_AtaCacheKey payer mint program use_seed) = Val account ∧
  if seed_allowed use_seed mint program
  then create_associated_token_account_use_seed r payer payer mint program = Ok ixs
  else ixs = [create_ata_ix payer account payer mint program].

Lemma eval_create_user_account r s mint program user ixs :
  eval r (user_account s mint program) = Val (Ok user) →
  eval r (create_user_account s mint program) = Val (Ok ixs) →
  creates_account r (payer s) mint program (open_seed_optimize s) user ixs.
Proof.
  intros Hu%eval_user_account. unfold create_user_account, creates_account,
    create_associated_token_account_idempotent_fast_use_seed. intros Hc. split; [done|].
  revert Hu Hc. unfold ata_compute. cbn [eval]. unfold ix_spec. destruct (seed_allowed _ _ _).
  - intros _. by destruct (create_associated_token_account_use_seed _ _ _ _ _) as [l|]; intros [= <-].
  - intros ->. by intros [= <-].
Qed.

(** The wrapped-SOL account of the payer is never seeded. *)
Lemma eval_create_wsol r payer ixs :
  eval r (create_wsol_ata payer) = Val (Ok ixs) →
  ∃ wsol, eval r (wsol_account payer) = Val (Ok wsol)
    ∧ ixs = [create_ata_ix payer wsol payer WSOL_TOKEN_ACCOUNT TOKEN_PROGRAM].
Proof.
  unfold create_wsol_ata, create_associated_token_account_idempotent_fast, wsol_account,
    get_associated_token_address_with_program_id_fast, ata_compute. cbn [eval].
  unfold ix_spec, ata_compute, seed_allowed. cbn [andb].
  destruct (get_associated_token_address_with_program_id _ _ _) as [a|]; [|done].
  intros [= <-]. by exists a.
Qed.

Lemma eval_close_wsol r payer ixs :
  eval r (close_wsol payer) = Val (Ok ixs) →
  ∃ wsol ix, eval r (wsol_account payer) = Val (Ok wsol)
    ∧ close_account TOKEN_PROGRAM wsol payer payer [] = Ok ix ∧ ixs = [ix].
Proof.
  unfold close_wsol. intros Hc. prog_inv Hc. exists a. cbn [eval] in Hc. unfold ix_spec in Hc.
  destruct (close_account _ _ _ _ _) as [ix|]; [|done]. injection Hc as <-. by exists ix.
Qed.

(** ** What the shared parts need signed *)

Context `{!SdkSigners}.

Lemma signed_close_account program account payer signers ix :
  Forall (λ p, p = payer) signers →
  close_account program account payer payer signers = Ok ix → signed payer [ix].
Proof.
  intros Hs [= <-]. apply signed_ix. signed_metas. unfold only. apply Forall_map.
  eapply Forall_impl; [exact Hs|]. by intros p -> _.
Qed.

Lemma signed_use_seed r payer mint program ixs :
  create_associated_token_account_use_seed r payer payer mint program = Ok ixs → signed payer ixs.
Proof.
  unfold create_associated_token_account_use_seed. destruct (_ =? u64_max); [done|].
  destruct (create_with_seed _ _ _) as [a|]; [|done].
  destruct (program =? TOKEN_PROGRAM_2022); intros [= <-];
    apply signed_cons; auto with signed; apply signed_ix; signed_metas.
Qed.

Lemma signed_create r payer mint program use_seed ixs :
  ix_spec r (CreateAssociatedTokenAccount payer payer mint program use_seed) = Val ixs →
  signed payer ixs.
Proof.
  unfold ix_spec. destruct (seed_allowed _ _ _).
  - destruct (create_associated_token_account_use_seed _ _ _ _ _) as [l|] eqn:Hl; [|done].
    intros [= <-]. by eapply signed_use_seed.
  - destruct (get_associated_token_address_with_program_id _ _ _) as [a|]; [|done].
    intros [= <-]. apply signed_ix. signed_metas.
Qed.

Lemma yields_signed_create r payer mint program use_seed :
  yields r (GetIx (CreateAssociatedTokenAccount payer payer mint program use_seed) Ret)
    (signed payer).
Proof.
  intros ixs. simpl. destruct (ix_spec r _) as [l|] eqn:Hs; [|done]. simpl. intros [= <-].
  by eapply signed_create.
Qed.

Lemma yields_signed_create_user r s mint program :
  yields r (create_user_account s mint program) (signed (payer s)).
Proof. apply yields_signed_create. Qed.

Lemma yields_signed_create_wsol r payer : yields r (create_wsol_ata payer) (signed payer).
Proof. apply yields_signed_create. Qed.

Lemma yields_signed_close_wsol r payer : yields r (close_wsol payer) (signed payer).
Proof.
  unfold close_wsol. apply yields_any. intros w ixs. cbn -[ix_spec].
  change (ix_spec r (CloseWsolAccount payer w))
    with (let* ix := unwrap_res (close_account TOKEN_PROGRAM w payer payer []) in Val [ix]).
  destruct (close_account TOKEN_PROGRAM w payer payer []) as [ix|e] eqn:Hc; [|done].
  intros [= <-]. by eapply signed_close_account; [|exact Hc].
Qed.

Lemma yields_signed_handle_wsol r payer amount : yields r (handle_wsol payer amount) (signed payer).
Proof.
  unfold handle_wsol. apply yields_any. intros w.
  eapply yields_bind; [apply yields_signed_create|]. intros create Hc. apply yields_ret.
  apply signed_app; [done|]. apply signed_cons; [apply transfer_signers|].
  apply signed_ix. signed_metas.
Qed.

Lemma yields_signed_close_user r s program account :
  yields r (close_user_account s program account) (signed (payer s)).
Proof.
  intros l (ix & Hc & ->)%eval_close_user_account. eapply signed_close_account; [|exact Hc].
  by constructor.
Qed.

Lemma yields_signed_when r b (m : prog (list Instruction)) payer :
  yields r m (signed payer) → yields r (when b m) (signed payer).
Proof. unfold when. destruct b; [done|]. intros _. apply yields_ret, signed_nil. Qed.
End IxCommon.

#[export] Hint Resolve yields_signed_create yields_signed_close_wsol yields_signed_handle_wsol
  yields_signed_close_user yields_signed_create_user yields_signed_create_wsol yields_signed_when : signed.

(** Walk a builder: the groups of instructions are remembered as signed, the
    other steps are skipped. *)
Ltac signed_builder :=
  repeat match goal with
  | |- yields _ (Fail _) _ => apply yields_fail
  | |- yields _ (pbind _ _) _ =>
      first [eapply yields_bind; [solve [eauto 3 with signed]|intros ? ?]
            |apply yields_any; intros ?]
  | |- yields _ (Ret _) _ => apply yields_ret
  | |- yields _ (match ?x with _ => _ end) _ => destruct x
  end.

(** The groups of instructions, and the instruction of the program between
    them. *)
Ltac close_signed :=
  repeat lazymatch goal with
  | |- signed _ (_ ++ _) => apply signed_app
  | |- signed _ [] => apply signed_nil
  | |- signed _ [_] => apply signed_ix
  | |- signed _ (_ :: _) => apply signed_cons
  | H : signed _ ?l |- signed _ ?l => exact H
  end.
