(* ===== verification/PumpSwapIx.v ===== *)
(** * The PumpSwap instruction builder (sdk instruction/pumpswap.rs)

    A purchase and a sale as lists of instructions: wrap SOL, create the token
    account, swap, close.  When the pool's quote side is wrapped SOL or USDC a
    purchase is the program's [buy]; when it is the base side, its [sell], and
    the other way round for a sale.  The random choice of a mayhem fee
    recipient takes the random index as an argument. *)

From Stdlib Require Import String.
From S2P Require Import Prelude Solana CalcCommon PumpSwapCalc Accounts Spl FastFn GasFee Effects PumpSwapUtils Params Client Wsol IxCommon.

#[local] Open Scope string_scope.
#[local] Open Scope Z_scope.
#[local] Open Scope list_scope.

(* sdk instruction/pumpswap.rs:58-68 build_buy_instructions, pool check *)
Definition pool_is_tradable (base_mint quote_mint : Pubkey) : bool :=
  let is_wsol :=
    ((base_mint =? WSOL_TOKEN_ACCOUNT) && negb (quote_mint =? USDC_TOKEN_ACCOUNT))
    || ((quote_mint =? WSOL_TOKEN_ACCOUNT) && negb (base_mint =? USDC_TOKEN_ACCOUNT)) in
  let is_usdc :=
    ((base_mint =? USDC_TOKEN_ACCOUNT) && negb (quote_mint =? WSOL_TOKEN_ACCOUNT))
    || ((quote_mint =? USDC_TOKEN_ACCOUNT) && negb (base_mint =? WSOL_TOKEN_ACCOUNT)) in
  is_wsol || is_usdc.

Definition quote_is_wsol_or_usdc (p : PumpSwapParams) : bool :=
  (ps_quote_mint p =? WSOL_TOKEN_ACCOUNT) || (ps_quote_mint p =? USDC_TOKEN_ACCOUNT).

(* sdk instruction/pumpswap.rs:75-78 build_buy_instructions, creator *)
Definition coin_creator (p : PumpSwapParams) : Pubkey :=
  if negb (ps_coin_creator_vault_authority p =? DEFAULT_COIN_CREATOR_VAULT_AUTHORITY)
  then ps_coin_creator_vault_authority p else pubkey_default.

(* sdk instruction/pumpswap.rs:124-134 build_buy_instructions, fee recipient *)
Definition fee_accounts (rand : nat) (p : PumpSwapParams) : prog (AccountMeta * Pubkey) :=
  let '(fee_recipient, fee_recipient_meta) :=
    if ps_is_mayhem_mode p then ps_get_mayhem_fee_recipient_random rand
    else (PS_FEE_RECIPIENT, PS_FEE_RECIPIENT_META) in
  let! ata := fee_recipient_ata fee_recipient
                (if ps_is_mayhem_mode p then WSOL_TOKEN_ACCOUNT else ps_quote_mint p) in
  Ret (fee_recipient_meta, ata).

(** The nineteen accounts both directions start with. *)
(* sdk instruction/pumpswap.rs:170-190 build_buy_instructions, accounts *)
Definition swap_accounts (s : SwapParams) (p : PumpSwapParams) (user_base user_quote : Pubkey)
    (fee : AccountMeta * Pubkey) : list AccountMeta :=
  [meta_new (ps_pool p) false; meta_new (payer s) true; PS_GLOBAL_ACCOUNT_META;
   meta_readonly (ps_base_mint p) false; meta_readonly (ps_quote_mint p) false;
   meta_new user_base false; meta_new user_quote false;
   meta_new (ps_pool_base_token_account p) false; meta_new (ps_pool_quote_token_account p) false;
   fee.1; meta_new fee.2 false;
   meta_readonly (ps_base_token_program p) false; meta_readonly (ps_quote_token_program p) false;
   SYSTEM_PROGRAM_META; PS_ASSOCIATED_TOKEN_PROGRAM_META; PS_EVENT_AUTHORITY_META;
   PS_AMM_PROGRAM_META; meta_new (ps_coin_creator_vault_ata p) false;
   meta_readonly (ps_coin_creator_vault_authority p) false].

(* sdk instruction/pumpswap.rs:191-196 build_buy_instructions, volume accumulators *)
Definition volume_accounts (user : Pubkey) (needed : bool) : prog (list AccountMeta) :=
  if needed then
    let! uva := ps_get_user_volume_accumulator_pda user in
    match uva with
    | Some uva => Ret [PS_GLOBAL_VOLUME_ACCUMULATOR_META; meta_new uva false]
    | None => Fail "user_volume_accumulator PDA derivation failed"
    end
  else Ret [].

(* sdk instruction/pumpswap.rs:200-204 build_buy_instructions, cashback *)
Definition buy_cashback (user : Pubkey) (p : PumpSwapParams) : prog (list AccountMeta) :=
  if ps_is_cashback_coin p then
    let! o := get_user_volume_accumulator_wsol_ata user in
    Ret (match o with Some wsol_ata => [meta_new wsol_ata false] | None => [] end)
  else Ret [].

(* sdk instruction/pumpswap.rs:393-405 build_sell_instructions, cashback *)
Definition sell_cashback (user : Pubkey) (p : PumpSwapParams) : prog (list AccountMeta) :=
  if ps_is_cashback_coin p then
    let! quote_ata := get_user_volume_accumulator_quote_ata user (ps_quote_mint p)
                        (ps_quote_token_program p) in
    let! accumulator := ps_get_user_volume_accumulator_pda user in
    Ret (match quote_ata, accumulator with
         | Some quote_ata, Some accumulator => [meta_new quote_ata false; meta_new accumulator false]
         | _, _ => []
         end)
  else Ret [].

Section PumpSwapIx.
Context `{Build} `{Sdk} `{KeyText}.

(* sdk instruction/pumpswap.rs:206-208 build_buy_instructions, pool_v2 *)
Definition pool_v2_account (base_mint : Pubkey) : prog AccountMeta :=
  let! o := of_exec (get_pool_v2_pda base_mint) in
  match o with
  | Some pool_v2 => Ret (meta_readonly pool_v2 false)
  | None => Fail ("pool_v2 PDA derivation failed for base_mint " +:+ pubkey_to_string base_mint)
  end.

(** Amounts of a purchase: tokens received and the limit on what is paid. *)
(* sdk instruction/pumpswap.rs:80-106 build_buy_instructions, amounts *)
Definition buy_amounts (s : SwapParams) (p : PumpSwapParams) : exec (Z * Z) :=
  let amount := default 0 (input_amount s) in
  let* r :=
    if quote_is_wsol_or_usdc p then
      let* r := buy_quote_input_internal amount (slippage_of s) (ps_pool_base_token_reserves p)
                  (ps_pool_quote_token_reserves p) (coin_creator p) in
      let* r := unwrap_res r in Val (bqi_base r, bqi_max_quote r)
    else
      let* r := sell_base_input_internal amount (slippage_of s) (ps_pool_base_token_reserves p)
                  (ps_pool_quote_token_reserves p) (coin_creator p) in
      let* r := unwrap_res r in Val (sbi_min_quote r, amount) in
  Val (default r.1 (fixed_output_amount s), r.2).

(* sdk instruction/pumpswap.rs:210-236 build_buy_instructions, data *)
Definition buy_data (s : SwapParams) (p : PumpSwapParams) (token_amount sol_amount : Z) : exec bytes :=
  let track_volume := if ps_is_cashback_coin p then [1; 1] else [1; 0] in
  if quote_is_wsol_or_usdc p then
    if default true (use_exact_sol_amount s) then
      let* min_base_amount_out := calculate_with_slippage_sell token_amount (slippage_of s) in
      Val (PS_BUY_EXACT_QUOTE_IN_DISCRIMINATOR ++ u64_le_bytes (default 0 (input_amount s))
           ++ u64_le_bytes min_base_amount_out ++ track_volume)
    else
      Val (PS_BUY_DISCRIMINATOR ++ u64_le_bytes token_amount ++ u64_le_bytes sol_amount
           ++ track_volume)
  else
    Val (PS_SELL_DISCRIMINATOR ++ u64_le_bytes sol_amount ++ u64_le_bytes token_amount).

(** What a purchase wraps. *)
(* sdk instruction/pumpswap.rs:145-151 build_buy_instructions, wrap_amount *)
Definition wrap_amount (s : SwapParams) (p : PumpSwapParams) (sol_amount : Z) : Z :=
  if quote_is_wsol_or_usdc p && default true (use_exact_sol_amount s)
  then default 0 (input_amount s) else sol_amount.

(* sdk instruction/pumpswap.rs:30-244 build_buy_instructions *)
Definition build_buy_instructions (rand : nat) (s : SwapParams) : prog (list Instruction) :=
  match protocol_params s with
  | PPumpSwap p =>
      if default 0 (input_amount s) =? 0 then Fail "Amount cannot be zero"
      else if negb (pool_is_tradable (ps_base_mint p) (ps_quote_mint p))
      then Fail "Pool must contain WSOL or USDC"
      else
        let q := quote_is_wsol_or_usdc p in
        let! amounts := of_exec (buy_amounts s p) in
        let '(token_amount, sol_amount) := amounts in
        let! user_base := user_account s (ps_base_mint p) (ps_base_token_program p) in
        let! user_quote := user_account s (ps_quote_mint p) (ps_quote_token_program p) in
        let! fee := fee_accounts rand p in
        let! wrap := when (create_input_mint_ata s)
                       (handle_wsol (payer s) (wrap_amount s p sol_amount)) in
        let! create := when (create_output_mint_ata s)
          (create_associated_token_account_idempotent_fast_use_seed (payer s) (payer s)
             (if q then ps_base_mint p else ps_quote_mint p)
             (if q then ps_base_token_program p else ps_quote_token_program p)
             (open_seed_optimize s)) in
        let! volume := volume_accounts (payer s) q in
        let! cashback := buy_cashback (payer s) p in
        let! pool_v2 := pool_v2_account (ps_base_mint p) in
        let accounts := swap_accounts s p user_base user_quote fee ++ volume
                        ++ [PS_FEE_CONFIG_META; PS_FEE_PROGRAM_META] ++ cashback ++ [pool_v2] in
        let! data := of_exec (buy_data s p token_amount sol_amount) in
        let! close := when (close_input_mint_ata s) (close_wsol (payer s)) in
        Ret (wrap ++ create ++ [mk_ix PS_AMM_PROGRAM accounts data] ++ close)
  | _ => Fail "Invalid protocol params for PumpSwap"
  end.

(** Amounts of a sale: what is given and the limit on what is received. *)
(* sdk instruction/pumpswap.rs:296-322 build_sell_instructions, amounts *)
Definition sell_amounts (s : SwapParams) (p : PumpSwapParams) (amount : Z) : exec (Z * Z) :=
  let* r :=
    if quote_is_wsol_or_usdc p then
      let* r := sell_base_input_internal amount (slippage_of s) (ps_pool_base_token_reserves p)
                  (ps_pool_quote_token_reserves p) (coin_creator p) in
      let* r := unwrap_res r in Val (amount, sbi_min_quote r)
    else
      let* r := buy_quote_input_internal amount (slippage_of s) (ps_pool_base_token_reserves p)
                  (ps_pool_quote_token_reserves p) (coin_creator p) in
      let* r := unwrap_res r in Val (bqi_max_quote r, bqi_base r) in
  Val (r.1, default r.2 (fixed_output_amount s)).

(* sdk instruction/pumpswap.rs:411-425 build_sell_instructions, data *)
Definition sell_data (p : PumpSwapParams) (token_amount sol_amount : Z) : bytes :=
  if quote_is_wsol_or_usdc p
  then PS_SELL_DISCRIMINATOR ++ u64_le_bytes token_amount ++ u64_le_bytes sol_amount
  else PS_BUY_DISCRIMINATOR ++ u64_le_bytes sol_amount ++ u64_le_bytes token_amount.

(* sdk instruction/pumpswap.rs:246-450 build_sell_instructions *)
Definition build_sell_instructions (rand : nat) (s : SwapParams) : prog (list Instruction) :=
  match protocol_params s with
  | PPumpSwap p =>
      if negb (pool_is_tradable (ps_base_mint p) (ps_quote_mint p))
      then Fail "Pool must contain WSOL or USDC"
      else
        match input_amount s with
        | None => Fail "Token amount is not set"
        | Some amount =>
            let q := quote_is_wsol_or_usdc p in
            let! amounts := of_exec (sell_amounts s p amount) in
            let '(token_amount, sol_amount) := amounts in
            let! fee := fee_accounts rand p in
            let! user_base := user_account s (ps_base_mint p) (ps_base_token_program p) in
            let! user_quote := user_account s (ps_quote_mint p) (ps_quote_token_program p) in
            let! create := when (create_output_mint_ata s) (create_wsol_ata (payer s)) in
            let! volume := volume_accounts (payer s) (negb q) in
            let! cashback := sell_cashback (payer s) p in
            let! pool_v2 := pool_v2_account (ps_base_mint p) in
            let accounts := swap_accounts s p user_base user_quote fee ++ volume
                            ++ [PS_FEE_CONFIG_META; PS_FEE_PROGRAM_META] ++ cashback ++ [pool_v2] in
            let! close := when (close_output_mint_ata s) (close_wsol (payer s)) in
            let! close_input := when (close_input_mint_ata s)
              (close_user_account s
                 (if q then ps_base_token_program p else ps_quote_token_program p)
                 (if q then user_base else user_quote)) in
            Ret (create ++ [mk_ix PS_AMM_PROGRAM accounts (sell_data p token_amount sol_amount)]
                 ++ close ++ close_input)
        end
  | _ => Fail "Invalid protocol params for PumpSwap"
  end.

(** ** What is built *)

Lemma user_account_wsol r s :
  eval r (user_account s WSOL_TOKEN_ACCOUNT TOKEN_PROGRAM) = eval r (wsol_account (payer s)).
Proof.
  unfold user_account, wsol_account. simpl. by rewrite wsol_never_seeded.
Qed.

Lemma buy_amounts_quoted s p amount t m :
  quote_is_wsol_or_usdc p = true → input_amount s = Some amount → fixed_output_amount s = None →
  buy_amounts s p = Val (t, m) →
  ∃ quote, buy_quote_input_internal amount (slippage_of s) (ps_pool_base_token_reserves p)
             (ps_pool_quote_token_reserves p) (coin_creator p) = Val (Ok quote)
    ∧ t = bqi_base quote ∧ m = bqi_max_quote quote.
Proof.
  unfold buy_amounts. intros -> -> ->. cbn [default].
  destruct (buy_quote_input_internal _ _ _ _ _) as [[quote|x]|]; simpl; [|done..].
  intros [= <- <-]. eauto.
Qed.

Lemma buy_data_exact s p amount t m d :
  quote_is_wsol_or_usdc p = true → input_amount s = Some amount →
  use_exact_sol_amount s = Some true → buy_data s p t m = Val d →
  ∃ min_out, calculate_with_slippage_sell t (slippage_of s) = Val min_out
    ∧ d = PS_BUY_EXACT_QUOTE_IN_DISCRIMINATOR ++ u64_le_bytes amount ++ u64_le_bytes min_out
          ++ (if ps_is_cashback_coin p then [1; 1] else [1; 0]).
Proof.
  unfold buy_data. intros -> -> ->. cbn [default].
  destruct (calculate_with_slippage_sell _ _) as [min_out|]; cbn [exec_bind]; [|done].
  intros Hd%Val_inj. by exists min_out.
Qed.

(** C5.  A purchase of a pool quoted in wrapped SOL, for an exact amount: what
    is wrapped is exactly what the program may spend, it is wrapped into the
    account the swap spends from, and the least number of tokens accepted is
    the quoted number less the slippage. *)
Theorem exact_buy_spec r rand s p amount ixs :
  protocol_params s = PPumpSwap p → input_amount s = Some amount →
  ps_quote_mint p = WSOL_TOKEN_ACCOUNT → ps_quote_token_program p = TOKEN_PROGRAM →
  use_exact_sol_amount s = Some true → fixed_output_amount s = None →
  create_input_mint_ata s = true →
  eval r (build_buy_instructions rand s) = Val (Ok ixs) →
  ∃ wsol user_base fee extra create create_token close quote min_out,
    eval r (wsol_account (payer s)) = Val (Ok wsol)
    ∧ buy_quote_input_internal amount (slippage_of s) (ps_pool_base_token_reserves p)
        (ps_pool_quote_token_reserves p) (coin_creator p) = Val (Ok quote)
    ∧ calculate_with_slippage_sell (bqi_base quote) (slippage_of s) = Val min_out
    ∧ ixs = create ++ [system_transfer (payer s) wsol amount; sync_native wsol] ++ create_token
            ++ [mk_ix PS_AMM_PROGRAM (swap_accounts s p user_base wsol fee ++ extra)
                  (PS_BUY_EXACT_QUOTE_IN_DISCRIMINATOR ++ u64_le_bytes amount
                   ++ u64_le_bytes min_out
                   ++ (if ps_is_cashback_coin p then [1; 1] else [1; 0]))]
            ++ close.
Proof.
  intros Hp Ha Hq Hprog Hex Hfix Hcreate. unfold build_buy_instructions. rewrite Hp, Ha.
  assert (Hqb : quote_is_wsol_or_usdc p = true)
    by (unfold quote_is_wsol_or_usdc; by rewrite Hq).
  cond; [done|]. cond; [done|]. rewrite Hqb, Hcreate. intros Hb. prog_inv Hb.
  destruct a as [token_amount sol_amount]. prog_inv Hb. injection Hb as <-.
  apply eval_of_exec in V, V8.
  apply (buy_amounts_quoted s p amount) in V as (quote & Hquote & -> & ->); [|done..].
  apply (buy_data_exact s p amount) in V8 as (min_out & Hmin & ->); [|done..].
  unfold when in V3. apply handle_wsol_shape in V3 as (wsol & create & Hw & ->).
  rewrite Hq, Hprog, user_account_wsol, Hw in V1. injection V1 as <-.
  unfold wrap_amount. rewrite Hqb, Hex, Ha. cbn [default andb].
  exists wsol, a, a1, (a4 ++ [PS_FEE_CONFIG_META; PS_FEE_PROGRAM_META] ++ a5 ++ [a6]), create,
    a3, a8, quote, min_out.
  split; [done|]. split; [done|]. split; [done|]. by rewrite <- !app_assoc.
Qed.

Lemma sell_amounts_quoted s p amount t m :
  quote_is_wsol_or_usdc p = true → sell_amounts s p amount = Val (t, m) →
  ∃ quote, sell_base_input_internal amount (slippage_of s) (ps_pool_base_token_reserves p)
             (ps_pool_quote_token_reserves p) (coin_creator p) = Val (Ok quote)
    ∧ t = amount ∧ m = default (sbi_min_quote quote) (fixed_output_amount s).
Proof.
  unfold sell_amounts. intros ->.
  destruct (sell_base_input_internal _ _ _ _ _) as [[quote|x]|]; simpl; [|done..].
  intros [= <- <-]. eauto.
Qed.

(** The accounts of a sale, in full. *)
Lemma sell_accounts_shape r rand s p amount ixs :
  protocol_params s = PPumpSwap p → input_amount s = Some amount →
  quote_is_wsol_or_usdc p = true →
  eval r (build_sell_instructions rand s) = Val (Ok ixs) →
  ∃ token_amount sol_amount fee user_base user_quote create cashback pool_v2 close close_input,
    sell_amounts s p amount = Val (token_amount, sol_amount)
    ∧ eval r (fee_accounts rand p) = Val (Ok fee)
    ∧ eval r (user_account s (ps_base_mint p) (ps_base_token_program p)) = Val (Ok user_base)
    ∧ eval r (user_account s (ps_quote_mint p) (ps_quote_token_program p)) = Val (Ok user_quote)
    ∧ eval r (sell_cashback (payer s) p) = Val (Ok cashback)
    ∧ eval r (pool_v2_account (ps_base_mint p)) = Val (Ok pool_v2)
    ∧ eval r (when (create_output_mint_ata s) (create_wsol_ata (payer s))) = Val (Ok create)
    ∧ eval r (when (close_output_mint_ata s) (close_wsol (payer s))) = Val (Ok close)
    ∧ eval r (when (close_input_mint_ata s)
                (close_user_account s (ps_base_token_program p) user_base)) = Val (Ok close_input)
    ∧ ixs = create
            ++ [mk_ix PS_AMM_PROGRAM
                 (swap_accounts s p user_base user_quote fee
                  ++ [PS_FEE_CONFIG_META; PS_FEE_PROGRAM_META] ++ cashback ++ [pool_v2])
                 (sell_data p token_amount sol_amount)]
            ++ close ++ close_input.
Proof.
  intros Hp Ha Hq. unfold build_sell_instructions. rewrite Hp, Ha. cond; [done|]. rewrite Hq.
  intros Hb. prog_inv Hb. destruct a as [token_amount sol_amount]. prog_inv Hb.
  apply Val_inj, Ok_inj in Hb. subst ixs. apply eval_of_exec in V.
  assert (a3 = []) as -> by (cbn [negb volume_accounts] in V4; by apply Val_inj, Ok_inj in V4).
  exists token_amount, sol_amount, a, a0, a1, a2, a4, a5, a6, a7. auto 12.
Qed.

(** C6.  A sale into a pool quoted in wrapped SOL or USDC, whatever accounts are
    to be created or closed.  It is: the creation of the payer's wrapped-SOL
    account when the output account is to be created, and else nothing; one
    instruction of the program, which gives exactly the amount asked for, from
    the payer's account of the token, and accepts no less than the fixed output
    when one is set and else the quoted proceeds less the slippage; the closing
    of the payer's wrapped-SOL account when the output account is to be closed;
    and, last, when the token account is to be closed, the closing of exactly
    the account the tokens were sold from, with its rent returned to the payer. *)
Theorem sell_spec r rand s p amount ixs :
  protocol_params s = PPumpSwap p → input_amount s = Some amount →
  quote_is_wsol_or_usdc p = true →
  eval r (build_sell_instructions rand s) = Val (Ok ixs) →
  ∃ user_base user_quote fee cashback pool_v2 quote create close close_input,
    eval r (user_account s (ps_base_mint p) (ps_base_token_program p)) = Val (Ok user_base)
    ∧ eval r (user_account s (ps_quote_mint p) (ps_quote_token_program p)) = Val (Ok user_quote)
    ∧ eval r (fee_accounts rand p) = Val (Ok fee)
    ∧ eval r (sell_cashback (payer s) p) = Val (Ok cashback)
    ∧ eval r (pool_v2_account (ps_base_mint p)) = Val (Ok pool_v2)
    ∧ sell_base_input_internal amount (slippage_of s) (ps_pool_base_token_reserves p)
        (ps_pool_quote_token_reserves p) (coin_creator p) = Val (Ok quote)
    ∧ (if create_output_mint_ata s
       then ∃ wsol, eval r (wsol_account (payer s)) = Val (Ok wsol)
            ∧ create = [create_ata_ix (payer s) wsol (payer s) WSOL_TOKEN_ACCOUNT TOKEN_PROGRAM]
       else create = [])
    ∧ (if close_output_mint_ata s
       then ∃ wsol, eval r (wsol_account (payer s)) = Val (Ok wsol)
            ∧ close = [mk_ix TOKEN_PROGRAM
                [meta_new wsol false; meta_new (payer s) false; meta_readonly (payer s) true] [9]]
       else close = [])
    ∧ (if close_input_mint_ata s
       then close_input = [mk_ix (ps_base_token_program p)
              [meta_new user_base false; meta_new (payer s) false; meta_readonly (payer s) false;
               meta_readonly (payer s) true] [9]]
       else close_input = [])
    ∧ ixs = create
            ++ [mk_ix PS_AMM_PROGRAM
                  (swap_accounts s p user_base user_quote fee
                   ++ [PS_FEE_CONFIG_META; PS_FEE_PROGRAM_META] ++ cashback ++ [pool_v2])
                  (PS_SELL_DISCRIMINATOR ++ u64_le_bytes amount
                   ++ u64_le_bytes (default (sbi_min_quote quote) (fixed_output_amount s)))]
            ++ close ++ close_input.
Proof.
  intros Hp Ha Hq Hb.
  destruct (sell_accounts_shape r rand s p amount ixs Hp Ha Hq Hb)
    as (t & m & fee & user_base & user_quote & create & cashback & pool_v2 & close & close_input
        & Hs & Hf & Hub & Huq & Hcb & Hv2 & Hcr & Hcl & Hci & ->).
  apply (sell_amounts_quoted s p amount) in Hs as (quote & Hquote & -> & ->); [|done].
  exists user_base, user_quote, fee, cashback, pool_v2, quote, create, close, close_input.
  do 6 (split; [done|]).
  apply eval_when in Hcr, Hcl, Hci. split.
  { destruct Hcr as [[-> Hcr]|[-> ->]]; [by apply eval_create_wsol in Hcr|done]. }
  split.
  { destruct Hcl as [[-> Hcl]|[-> ->]]; [|done].
    apply eval_close_wsol in Hcl as (wsol & ix & Hw & [= <-] & ->). by exists wsol. }
  split.
  { destruct Hci as [[-> Hci]|[-> ->]]; [|done].
    by apply eval_close_user_account in Hci as (ix & [= <-] & ->). }
  unfold sell_data. by rewrite Hq.
Qed.

(** A pool is tradable when one side, but not both, is WSOL or USDC, or both
    are the same one. *)
Lemma pool_is_tradable_spec base quote :
  let known m := (m =? WSOL_TOKEN_ACCOUNT) || (m =? USDC_TOKEN_ACCOUNT) in
  pool_is_tradable base quote = true
  ↔ (known base = true ∨ known quote = true)
    ∧ ¬ (known base = true ∧ known quote = true ∧ base ≠ quote).
Proof.
  intros known. unfold known, pool_is_tradable. clear known.
  assert (Hne : WSOL_TOKEN_ACCOUNT ≠ USDC_TOKEN_ACCOUNT) by (vm_compute; done).
  revert Hne. generalize WSOL_TOKEN_ACCOUNT USDC_TOKEN_ACCOUNT. intros w u Hne.
  destruct (Z.eqb_spec base w), (Z.eqb_spec base u), (Z.eqb_spec quote w), (Z.eqb_spec quote u);
    simpl; naive_solver.
Qed.

(** A purchase is refused with an error when the amount is missing or
    zero, and then when the pool has neither wrapped SOL nor USDC or pairs one
    with the other (the message then says the opposite); past these checks an
    error of the quote is not returned but panics. *)
Theorem buy_rejections r rand s p :
  protocol_params s = PPumpSwap p →
  let amount := default 0 (input_amount s) in
  let out := eval r (build_buy_instructions rand s) in
  (amount = 0 → out = Val (Err "Amount cannot be zero"))
  ∧ (amount ≠ 0 → pool_is_tradable (ps_base_mint p) (ps_quote_mint p) = false →
     out = Val (Err "Pool must contain WSOL or USDC"))
  ∧ (amount ≠ 0 → pool_is_tradable (ps_base_mint p) (ps_quote_mint p) = true →
     buy_amounts s p = Panic → out = Panic)
  ∧ (ps_base_mint p = WSOL_TOKEN_ACCOUNT → ps_quote_mint p = USDC_TOKEN_ACCOUNT →
     out = Val (Err "Amount cannot be zero") ∨ out = Val (Err "Pool must contain WSOL or USDC")).
Proof.
  intros Hp amount out. unfold out, build_buy_instructions. rewrite Hp. fold amount.
  split; [intros ->; done|].
  split; [intros Ha%Z.eqb_neq ->; by rewrite Ha|].
  split.
  - intros Ha%Z.eqb_neq -> Hx. rewrite Ha. cbn [negb]. rewrite Hx. done.
  - intros -> ->. destruct (amount =? 0); [by left|by right].
Qed.

(** A sale whose quote is an error does not return the error: the builder
    unwraps it and panics, whatever the caches and the other parameters.  So
    it does for a pool with an empty side and for a dust sale whose fees, each
    rounded up, exceed the proceeds. *)
Theorem sell_quote_error_panics r rand s p amount :
  protocol_params s = PPumpSwap p → input_amount s = Some amount →
  quote_is_wsol_or_usdc p = true → pool_is_tradable (ps_base_mint p) (ps_quote_mint p) = true →
  (∃ e, sell_base_input_internal amount (slippage_of s) (ps_pool_base_token_reserves p)
          (ps_pool_quote_token_reserves p) (coin_creator p) = Val (Err e)) →
  eval r (build_sell_instructions rand s) = Panic.
Proof.
  intros Hp Ha Hq Ht [e He]. unfold build_sell_instructions.
  rewrite Hp, Ht, Ha. cbn [negb]. unfold sell_amounts. rewrite Hq, He. done.
Qed.
End PumpSwapIx.

(* sdk instruction/pumpswap.rs:455-486 claim_cashback_pumpswap_instruction *)
Definition claim_cashback_pumpswap_instruction (user quote_mint quote_token_program : Pubkey) :
    prog (option Instruction) :=
  let! uva := ps_get_user_volume_accumulator_pda user in
  match uva with
  | None => Ret None
  | Some user_volume_accumulator =>
      let! wsol := get_user_volume_accumulator_wsol_ata user in
      match wsol with
      | None => Ret None
      | Some user_volume_accumulator_wsol_ata =>
          let! user_wsol_ata := get_associated_token_address_with_program_id_fast user quote_mint
                                  quote_token_program in
          Ret (Some (mk_ix PS_AMM_PROGRAM
            [meta_new user true; meta_new user_volume_accumulator false;
             meta_readonly quote_mint false; meta_readonly quote_token_program false;
             meta_new user_volume_accumulator_wsol_ata false; meta_new user_wsol_ata false;
             SYSTEM_PROGRAM_META; PS_EVENT_AUTHORITY_META; PS_AMM_PROGRAM_META]
            [37; 58; 35; 126; 190; 53; 228; 197]))
      end
  end.

(** ** Concrete transactions *)

Definition toy_pool_params (base_reserves quote_reserves : Z) : PumpSwapParams :=
  mk_PumpSwapParams 900 901 WSOL_TOKEN_ACCOUNT 902 903 base_reserves quote_reserves 904 905
    TOKEN_PROGRAM TOKEN_PROGRAM false true.

Definition toy_swap (p : PumpSwapParams) (amount : option Z) (wrap close : bool) : SwapParams :=
  mk_Swap 11 TBuy WSOL_TOKEN_ACCOUNT None 901 None amount (Some 100) None (Some 5) true (PPumpSwap p)
    false None true wrap close false false None gfs_new false false false None (Some true).

Definition toy_buy : SwapParams := toy_swap (toy_pool_params 1000000 30000) (Some 1000) true false.
Definition toy_sell : SwapParams := toy_swap (toy_pool_params 1000000 30000) (Some 1000) false true.
Definition toy_dust : SwapParams := toy_swap (toy_pool_params 1000000 30000) (Some 50) false true.

Definition built (m : exec (result string (list Instruction))) : list Instruction :=
  match m with Val (Ok ixs) => ixs | _ => [] end.

Lemma exact_buy_spec_witness :
  ∃ wsol user_base fee extra create create_token close quote min_out,
    @eval toy_sdk _ initial_rents (wsol_account 11) = Val (Ok wsol)
    ∧ @buy_quote_input_internal release 1000 100 1000000 30000 905 = Val (Ok quote)
    ∧ @calculate_with_slippage_sell release (bqi_base quote) 100 = Val min_out
    ∧ built (@eval toy_sdk _ initial_rents
               (@build_buy_instructions release toy_sdk toy_text 0%nat toy_buy))
      = create ++ [@system_transfer toy_sdk 11 wsol 1000; sync_native wsol] ++ create_token
        ++ [mk_ix PS_AMM_PROGRAM
              (swap_accounts toy_buy (toy_pool_params 1000000 30000) user_base wsol fee ++ extra)
              (PS_BUY_EXACT_QUOTE_IN_DISCRIMINATOR ++ u64_le_bytes 1000 ++ u64_le_bytes min_out
               ++ [1; 1])] ++ close.
Proof.
  refine (@exact_buy_spec release toy_sdk toy_text initial_rents 0%nat toy_buy
            (toy_pool_params 1000000 30000) 1000 _ _ _ _ _ _ _ _ _); vm_compute; reflexivity.
Defined.

(** A sale as the bot makes it: the output account is created and closed, the token account
    closed. *)
Definition toy_bot_sale : SwapParams :=
  mk_Swap 11 TSell 901 None WSOL_TOKEN_ACCOUNT None (Some 1000) (Some 100) None (Some 5) true
    (PPumpSwap (toy_pool_params 1000000 30000)) false None false false true true true None gfs_new
    false false false None (Some true).

Lemma sell_spec_witness :
  ∃ user_base wsol accounts quote,
    @eval toy_sdk _ initial_rents (user_account toy_bot_sale 901 TOKEN_PROGRAM) = Val (Ok user_base)
    ∧ @eval toy_sdk _ initial_rents (wsol_account 11) = Val (Ok wsol)
    ∧ @sell_base_input_internal release 1000 100 1000000 30000 905 = Val (Ok quote)
    ∧ accounts !! 5%nat = Some (meta_new user_base false)
    ∧ built (@eval toy_sdk _ initial_rents
               (@build_sell_instructions release toy_sdk toy_text 0%nat toy_bot_sale))
      = [create_ata_ix 11 wsol 11 WSOL_TOKEN_ACCOUNT TOKEN_PROGRAM;
         mk_ix PS_AMM_PROGRAM accounts
           (PS_SELL_DISCRIMINATOR ++ u64_le_bytes 1000 ++ u64_le_bytes (sbi_min_quote quote));
         mk_ix TOKEN_PROGRAM [meta_new wsol false; meta_new 11 false; meta_readonly 11 true] [9];
         mk_ix TOKEN_PROGRAM [meta_new user_base false; meta_new 11 false;
                              meta_readonly 11 false; meta_readonly 11 true] [9]].
Proof.
  destruct (@sell_spec release toy_sdk toy_text initial_rents 0%nat toy_bot_sale
              (toy_pool_params 1000000 30000) 1000
              (built (@eval toy_sdk _ initial_rents
                 (@build_sell_instructions release toy_sdk toy_text 0%nat toy_bot_sale)))
              eq_refl eq_refl) as
    (user_base & user_quote & fee & cashback & pool_v2 & quote & create & close & close_input
     & Hu & _ & _ & _ & _ & Hq & (wsol & Hw & Hcr) & (wsol' & Hw' & Hcl) & Hci & Hixs);
    [vm_compute; reflexivity..|].
  assert (wsol' = wsol) as -> by (rewrite Hw in Hw'; by injection Hw').
  exists user_base, wsol. eexists _, quote. split; [exact Hu|]. split; [exact Hw|].
  split; [exact Hq|]. split; [|rewrite Hixs, Hcr, Hcl, Hci; reflexivity]. reflexivity.
Defined.

Lemma buy_rejections_witness :
  let p := mk_PumpSwapParams 900 WSOL_TOKEN_ACCOUNT USDC_TOKEN_ACCOUNT 902 903 10 10 904 905
             TOKEN_PROGRAM TOKEN_PROGRAM false true in
  @eval toy_sdk _ initial_rents
    (@build_buy_instructions release toy_sdk toy_text 0%nat (toy_swap p (Some 7) true false))
  = Val (Err "Pool must contain WSOL or USDC").
Proof.
  intros p. destruct (@buy_rejections release toy_sdk toy_text initial_rents 0%nat
                        (toy_swap p (Some 7) true false) p eq_refl) as (_ & Hx & _).
  apply Hx; vm_compute; [discriminate|reflexivity].
Defined.

Lemma sell_quote_error_panics_witness :
  @eval toy_sdk _ initial_rents
    (@build_sell_instructions release toy_sdk toy_text 0%nat toy_dust) = Panic.
Proof.
  refine (@sell_quote_error_panics release toy_sdk toy_text initial_rents 0%nat toy_dust
            (toy_pool_params 1000000 30000) 50 _ _ _ _ _); [vm_compute; reflexivity..|].
  eexists. vm_compute. reflexivity.
Defined.
