(* ===== verification/PumpFunIx.v ===== *)
(** * The Pump.fun instruction builder (sdk instruction/pumpfun.rs)

    A purchase or a sale on the bonding curve of a mint: one instruction of the
    program, after the creation of the user's token account or before its
    closing.  The addresses of the curve are always derived from the mint; the
    account in [pf_bonding_curve] is never used.  The random choice of a fee
    recipient takes the random index as an argument. *)

From Stdlib Require Import String.
From S2P Require Import Prelude Solana CalcCommon PumpFunCalc Accounts Spl FastFn PumpFunUtils BondingCurve GasFee Effects Params Client IxCommon.

#[local] Open Scope string_scope.
#[local] Open Scope Z_scope.
#[local] Open Scope list_scope.

Section PumpFunIx.
Context `{Build} `{Sdk} `{KeyText}.

(* sdk instruction/pumpfun.rs:45-59 build_buy_instructions, creator_vault_pda *)
Definition creator_vault_of (p : PumpFunParams) (mint : Pubkey) : prog Pubkey :=
  let creator := bc_creator (pf_bonding_curve p) in
  ok_or_fail (resolve_creator_vault_for_ix creator (pf_creator_vault p) mint)
    ("creator_vault PDA derivation failed (creator=" +:+ pubkey_to_string creator +:+ ")").

(* sdk instruction/pumpfun.rs:64-73 build_buy_instructions, buy_token_amount *)
Definition buy_token_amount (s : SwapParams) (p : PumpFunParams) : exec Z :=
  let bonding_curve := pf_bonding_curve p in
  match fixed_output_amount s with
  | Some amount => Val amount
  | None =>
      get_buy_token_amount_from_sol_amount (virtual_token_reserves bonding_curve)
        (virtual_sol_reserves bonding_curve) (real_token_reserves bonding_curve)
        (bc_creator bonding_curve) (amount_of s)
  end.

(* sdk instruction/pumpfun.rs:82-84 build_buy_instructions, bonding_curve_addr *)
Definition curve_address (mint : Pubkey) : prog Pubkey :=
  ok_or_fail (get_bonding_curve_pda mint)
    ("bonding_curve PDA derivation failed for mint " +:+ pubkey_to_string mint).

(* sdk instruction/pumpfun.rs:89-93 build_buy_instructions, token_program_meta *)
Definition token_program_meta (p : PumpFunParams) : AccountMeta :=
  if pf_token_program p =? TOKEN_PROGRAM_2022 then TOKEN_PROGRAM_2022_META else TOKEN_PROGRAM_META.

(* sdk instruction/pumpfun.rs:110-111 build_buy_instructions, user_volume_accumulator *)
Definition user_volume (s : SwapParams) : prog Pubkey :=
  ok_or_fail (pf_get_user_volume_accumulator_pda (payer s))
    "user_volume_accumulator PDA derivation failed".

(* sdk instruction/pumpfun.rs:158-160 build_buy_instructions, bonding_curve_v2 *)
Definition curve_v2_address (mint : Pubkey) : prog Pubkey :=
  ok_or_fail (get_bonding_curve_v2_pda mint)
    ("bonding_curve_v2 PDA derivation failed for mint " +:+ pubkey_to_string mint).

(* sdk instruction/pumpfun.rs:134-152 build_buy_instructions, buy_data *)
Definition pf_buy_data (s : SwapParams) (p : PumpFunParams) (token_amount max_sol_cost : Z) :
    exec bytes :=
  let track_volume := if bc_is_cashback_coin (pf_bonding_curve p) then [1; 1] else [1; 0] in
  if default true (use_exact_sol_amount s) then
    let* min_tokens_out := calculate_with_slippage_sell token_amount (slippage_of s) in
    Val (PF_BUY_EXACT_SOL_IN_DISCRIMINATOR ++ u64_le_bytes (amount_of s)
         ++ u64_le_bytes min_tokens_out ++ track_volume)
  else
    Val (PF_BUY_DISCRIMINATOR ++ u64_le_bytes token_amount ++ u64_le_bytes max_sol_cost
         ++ track_volume).

(* sdk instruction/pumpfun.rs:161-179 build_buy_instructions, accounts *)
Definition pf_buy_accounts (s : SwapParams) (p : PumpFunParams) (fee_recipient_meta : AccountMeta)
    (bonding_curve associated_bonding_curve user_token_account creator_vault volume
     bonding_curve_v2 : Pubkey) : list AccountMeta :=
  [PF_GLOBAL_ACCOUNT_META; fee_recipient_meta; meta_readonly (output_mint s) false;
   meta_new bonding_curve false; meta_new associated_bonding_curve false;
   meta_new user_token_account false; meta_new (payer s) true; SYSTEM_PROGRAM_META;
   token_program_meta p; meta_new creator_vault false; PF_EVENT_AUTHORITY_META; PUMPFUN_META;
   PF_GLOBAL_VOLUME_ACCUMULATOR_META; meta_new volume false; PF_FEE_CONFIG_META;
   PF_FEE_PROGRAM_META; meta_readonly bonding_curve_v2 false].

(* sdk instruction/pumpfun.rs:31-184 build_buy_instructions *)
Definition pf_build_buy_instructions (rand : nat) (s : SwapParams) : prog (list Instruction) :=
  match protocol_params s with
  | PPumpFun p =>
      if amount_of s =? 0 then Fail "Amount cannot be zero"
      else
        let mint := output_mint s in
        let! creator_vault := creator_vault_of p mint in
        let! token_amount := of_exec (buy_token_amount s p) in
        let! max_sol_cost := of_exec (calculate_with_slippage_buy (amount_of s) (slippage_of s)) in
        let! bonding_curve := curve_address mint in
        let! associated_bonding_curve :=
          get_associated_token_address_with_program_id_fast bonding_curve mint (pf_token_program p) in
        let! user_token_account := user_account s mint (pf_token_program p) in
        let! volume := user_volume s in
        let! create := when (create_output_mint_ata s)
                         (create_user_account s mint (pf_token_program p)) in
        let! data := of_exec (pf_buy_data s p token_amount max_sol_cost) in
        let fee_recipient_meta :=
          pump_fun_fee_recipient_meta rand (pf_fee_recipient p)
            (bc_is_mayhem_mode (pf_bonding_curve p)) in
        let! bonding_curve_v2 := curve_v2_address mint in
        Ret (create ++ [mk_ix PUMPFUN
               (pf_buy_accounts s p fee_recipient_meta bonding_curve associated_bonding_curve
                  user_token_account creator_vault volume bonding_curve_v2) data])
  | _ => Fail "Invalid protocol params for PumpFun"
  end.

(* sdk instruction/pumpfun.rs:222-235 build_sell_instructions, min_sol_output *)
Definition min_sol_output (s : SwapParams) (p : PumpFunParams) (token_amount : Z) : exec Z :=
  let bonding_curve := pf_bonding_curve p in
  let* sol_amount :=
    get_sell_sol_amount_from_token_amount (virtual_token_reserves bonding_curve)
      (virtual_sol_reserves bonding_curve) (bc_creator bonding_curve) token_amount in
  match fixed_output_amount s with
  | Some fixed => Val fixed
  | None => calculate_with_slippage_sell sol_amount (slippage_of s)
  end.

(* sdk instruction/pumpfun.rs:278-293 build_sell_instructions, accounts *)
Definition pf_sell_accounts (s : SwapParams) (p : PumpFunParams) (fee_recipient_meta : AccountMeta)
    (bonding_curve associated_bonding_curve user_token_account creator_vault : Pubkey) :
    list AccountMeta :=
  [PF_GLOBAL_ACCOUNT_META; fee_recipient_meta; meta_readonly (input_mint s) false;
   meta_new bonding_curve false; meta_new associated_bonding_curve false;
   meta_new user_token_account false; meta_new (payer s) true; SYSTEM_PROGRAM_META;
   meta_new creator_vault false; token_program_meta p; PF_EVENT_AUTHORITY_META; PUMPFUN_META;
   PF_FEE_CONFIG_META; PF_FEE_PROGRAM_META].

(* sdk instruction/pumpfun.rs:295-301 build_sell_instructions, cashback *)
Definition pf_cashback (s : SwapParams) (p : PumpFunParams) : prog (list AccountMeta) :=
  if bc_is_cashback_coin (pf_bonding_curve p)
  then let! v := user_volume s in Ret [meta_new v false] else Ret [].

(* sdk instruction/pumpfun.rs:186-324 build_sell_instructions *)
Definition pf_build_sell_instructions (rand : nat) (s : SwapParams) : prog (list Instruction) :=
  match protocol_params s with
  | PPumpFun p =>
      match input_amount s with
      | None => Fail "Amount token is required"
      | Some token_amount =>
          if token_amount =? 0 then Fail "Amount cannot be zero"
          else
            let mint := input_mint s in
            let! creator_vault := creator_vault_of p mint in
            let! min_out := of_exec (min_sol_output s p token_amount) in
            let! bonding_curve := curve_address mint in
            let! associated_bonding_curve :=
              get_associated_token_address_with_program_id_fast bonding_curve mint
                (pf_token_program p) in
            let! user_token_account := user_account s mint (pf_token_program p) in
            let fee_recipient_meta :=
              pump_fun_fee_recipient_meta rand (pf_fee_recipient p)
                (bc_is_mayhem_mode (pf_bonding_curve p)) in
            let! cashback := pf_cashback s p in
            let! bonding_curve_v2 := curve_v2_address mint in
            let accounts := pf_sell_accounts s p fee_recipient_meta bonding_curve
                              associated_bonding_curve user_token_account creator_vault
                            ++ cashback ++ [meta_readonly bonding_curve_v2 false] in
            let! close :=
              when (default false (pf_close_token_account_when_sell p) || close_input_mint_ata s)
                (close_user_account s (pf_token_program p) user_token_account) in
            Ret (mk_ix PUMPFUN accounts
                   (PF_SELL_DISCRIMINATOR ++ u64_le_bytes token_amount ++ u64_le_bytes min_out)
                 :: close)
      end
  | _ => Fail "Invalid protocol params for PumpFun"
  end.

(* sdk instruction/pumpfun.rs:328-339 claim_cashback_pumpfun_instruction *)
Definition claim_cashback_pumpfun_instruction (payer : Pubkey) : prog (option Instruction) :=
  let! o := pf_get_user_volume_accumulator_pda payer in
  Ret (match o with
       | Some user_volume_accumulator =>
           Some (mk_ix PUMPFUN
                   [meta_new payer true; meta_new user_volume_accumulator false;
                    SYSTEM_PROGRAM_META; PF_EVENT_AUTHORITY_META; PUMPFUN_META]
                   [37; 58; 35; 126; 190; 53; 228; 197])
       | None => None
       end).

(** ** What is built *)

Lemma creator_vault_of_allowed r p mint v :
  eval r (creator_vault_of p mint) = Val (Ok v) →
  vault_allowed (bc_creator (pf_bonding_curve p)) (pf_creator_vault p) mint v.
Proof.
  unfold creator_vault_of. rewrite eval_ok_or_fail. intros He.
  pose proof (resolve_creator_vault_sound r (bc_creator (pf_bonding_curve p)) (pf_creator_vault p)
    mint) as Hs. by rewrite He in Hs.
Qed.

Lemma curve_address_derived r mint a :
  eval r (curve_address mint) = Val (Ok a) → pda_compute (PumpFunBondingCurve mint) = Some a.
Proof.
  unfold curve_address. rewrite eval_ok_or_fail. unfold get_bonding_curve_pda, get_pda. simpl.
  by intros [= ->].
Qed.

(** C20. A purchase of an exact amount of SOL, in full: when the token account is
    to be created, the instructions that create exactly the account the tokens
    go to, with the seed only where that is allowed, and nothing otherwise; then
    one instruction of the program and nothing more.  It spends the given amount
    and accepts no less than the curve's tokens after slippage; the curve is the
    one derived from the mint, whatever the parameters call it, the creator
    vault is one that may be used, and the payer is the one that signs. *)
Theorem pumpfun_exact_buy_spec r rand s p ixs :
  protocol_params s = PPumpFun p → default true (use_exact_sol_amount s) = true →
  eval r (pf_build_buy_instructions rand s) = Val (Ok ixs) →
  amount_of s ≠ 0 ∧
  ∃ create tokens min_out curve associated user vault volume curve_v2,
    ixs = create ++ [mk_ix PUMPFUN
            (pf_buy_accounts s p
               (pump_fun_fee_recipient_meta rand (pf_fee_recipient p)
                  (bc_is_mayhem_mode (pf_bonding_curve p)))
               curve associated user vault volume curve_v2)
            (PF_BUY_EXACT_SOL_IN_DISCRIMINATOR ++ u64_le_bytes (amount_of s)
             ++ u64_le_bytes min_out
             ++ (if bc_is_cashback_coin (pf_bonding_curve p) then [1; 1] else [1; 0]))]
    ∧ (create_output_mint_ata s = true →
       creates_account r (payer s) (output_mint s) (pf_token_program p) (open_seed_optimize s)
         user create)
    ∧ (create_output_mint_ata s = false → create = [])
    ∧ ata_compute (mk_AtaCacheKey (payer s) (output_mint s) (pf_token_program p)
                     (open_seed_optimize s)) = Val user
    ∧ buy_token_amount s p = Val tokens
    ∧ calculate_with_slippage_sell tokens (slippage_of s) = Val min_out
    ∧ pda_compute (PumpFunBondingCurve (output_mint s)) = Some curve
    ∧ ata_compute (mk_AtaCacheKey curve (output_mint s) (pf_token_program p) false)
      = Val associated
    ∧ vault_allowed (bc_creator (pf_bonding_curve p)) (pf_creator_vault p) (output_mint s) vault
    ∧ eval r (user_volume s) = Val (Ok volume)
    ∧ eval r (curve_v2_address (output_mint s)) = Val (Ok curve_v2).
Proof.
  intros Hp Hx He. unfold pf_build_buy_instructions in He. rewrite Hp in He.
  destruct (Z.eqb_spec (amount_of s) 0); [done|]. split; [done|]. cbv zeta in He. prog_inv He.
  apply creator_vault_of_allowed in V. apply eval_of_exec in V0.
  apply curve_address_derived in V2. apply eval_of_exec in V7. unfold pf_buy_data in V7.
  rewrite Hx in V7. apply exec_bind_Val_inv in V7 as (min_out & Hm & V7). apply Val_inj in V7.
  injection He as <-. subst a7. do 9 eexists. split; [done|].
  apply eval_when in V6.
  split; [intros Hc; destruct V6 as [[_ V6]|[Hn _]]; [|congruence];
          by apply eval_create_user_account|].
  split; [by intros Hc; destruct V6 as [[Hn _]|[_ ->]]; [congruence|]|].
  split; [by eapply eval_user_account|]. split; [done|]. split; [done|]. split; [done|].
  split; [|by auto]. revert V3. unfold get_associated_token_address_with_program_id_fast. cbn [eval].
  destruct (ata_compute _) as [x|]; [|done]. by intros [= ->].
Qed.

(** Where a purchase puts the tokens. *)
Lemma pumpfun_buy_account r rand s p ixs :
  protocol_params s = PPumpFun p → eval r (pf_build_buy_instructions rand s) = Val (Ok ixs) →
  ∃ create accounts data user, ixs = create ++ [mk_ix PUMPFUN accounts data]
    ∧ (create_output_mint_ata s = false → create = [])
    ∧ accounts !! 5%nat = Some (meta_new user false)
    ∧ ata_compute (mk_AtaCacheKey (payer s) (output_mint s) (pf_token_program p)
                     (open_seed_optimize s)) = Val user.
Proof.
  intros Hp He. unfold pf_build_buy_instructions in He. rewrite Hp in He.
  destruct (_ =? _); [done|]. cbv zeta in He. prog_inv He.
  injection He as <-. do 4 eexists. split; [done|].
  split; [by intros Hc; rewrite Hc in V6; injection V6 as <-|]. split; [done|].
  by eapply eval_user_account.
Qed.

(** A sale: the instruction names the amount and the least proceeds the
    curve allows after slippage, and when the token account is closed it is the
    account that was sold from. *)
Theorem pumpfun_sell_spec r rand s p amount ixs :
  protocol_params s = PPumpFun p → input_amount s = Some amount →
  eval r (pf_build_sell_instructions rand s) = Val (Ok ixs) →
  amount ≠ 0 ∧
  ∃ accounts close min_out user curve vault,
    ixs = mk_ix PUMPFUN accounts
            (PF_SELL_DISCRIMINATOR ++ u64_le_bytes amount ++ u64_le_bytes min_out) :: close
    ∧ min_sol_output s p amount = Val min_out
    ∧ ata_compute (mk_AtaCacheKey (payer s) (input_mint s) (pf_token_program p)
                     (open_seed_optimize s)) = Val user
    ∧ accounts !! 5%nat = Some (meta_new user false)
    ∧ pda_compute (PumpFunBondingCurve (input_mint s)) = Some curve
    ∧ accounts !! 3%nat = Some (meta_new curve false)
    ∧ vault_allowed (bc_creator (pf_bonding_curve p)) (pf_creator_vault p) (input_mint s) vault
    ∧ accounts !! 8%nat = Some (meta_new vault false)
    ∧ (if default false (pf_close_token_account_when_sell p) || close_input_mint_ata s
       then ∃ ix, close_account (pf_token_program p) user (payer s) (payer s) [payer s] = Ok ix
                  ∧ close = [ix]
       else close = []).
Proof.
  intros Hp Ha He. unfold pf_build_sell_instructions in He. rewrite Hp, Ha in He.
  destruct (Z.eqb_spec amount 0); [done|]. split; [done|]. cbv zeta in He. prog_inv He.
  apply creator_vault_of_allowed in V. apply eval_of_exec in V0.
  apply curve_address_derived in V1. apply eval_user_account in V3. injection He as <-.
  do 6 eexists. split; [done|]. do 7 (split; [done|]).
  apply eval_when in V6. destruct (_ || _).
  - destruct V6 as [[_ V6]|[? _]]; [|done]. by apply eval_close_user_account in V6.
  - by destruct V6 as [[? _]|[_ ->]].
Qed.
End PumpFunIx.

(** ** A concrete coin *)

Definition toy_curve : BondingCurveAccount :=
  mk_BondingCurveAccount 0 77 1073000000000000 30000000000 793100000000000 0 1000000000000000 false
    55 false false.

Definition toy_coin : PumpFunParams :=
  mk_PumpFunParams toy_curve 78 pubkey_default TOKEN_PROGRAM None 79.

Definition toy_coin_swap (kind : TradeType) (amount : Z) : SwapParams :=
  mk_Swap 11 kind 66 None 66 None (Some amount) (Some 100) None (Some 5) true (PPumpFun toy_coin)
    false None true false true false false None gfs_new false false false None (Some true).

Abbreviation toy_build_buy := (@pf_build_buy_instructions release toy_sdk toy_text).
Abbreviation toy_build_sell := (@pf_build_sell_instructions release toy_sdk toy_text).

Definition ixs_of (m : exec (result string (list Instruction))) : list Instruction :=
  match m with Val (Ok ixs) => ixs | _ => [] end.

Definition toy_coin_buy : SwapParams := toy_coin_swap TBuy 1000000000.
Definition toy_coin_sell : SwapParams := toy_coin_swap TSell 5000000000.
Definition toy_coin_buy_ixs : list Instruction :=
  ixs_of (@eval toy_sdk _ initial_rents (toy_build_buy 0%nat toy_coin_buy)).
Definition toy_coin_sell_ixs : list Instruction :=
  ixs_of (@eval toy_sdk _ initial_rents (toy_build_sell 0%nat toy_coin_sell)).

(** The purchase that creates the account of the coin first. *)
Definition toy_first_buy : SwapParams :=
  mk_Swap 11 TBuy 66 None 66 None (Some 1000000000) (Some 100) None (Some 5) true
    (PPumpFun toy_coin) false None true false false true false None gfs_new false false false None
    (Some true).
Definition toy_first_buy_ixs : list Instruction :=
  ixs_of (@eval toy_sdk _ initial_rents (toy_build_buy 0%nat toy_first_buy)).

Lemma pumpfun_exact_buy_spec_witness :
  ∃ user accounts min_out,
    @ata_compute toy_sdk (mk_AtaCacheKey 11 66 TOKEN_PROGRAM false) = Val user
    ∧ toy_first_buy_ixs
      = [create_ata_ix 11 user 11 66 TOKEN_PROGRAM;
         mk_ix PUMPFUN accounts
           (PF_BUY_EXACT_SOL_IN_DISCRIMINATOR ++ u64_le_bytes 1000000000 ++ u64_le_bytes min_out
            ++ [1; 0])]
    ∧ accounts !! 5%nat = Some (meta_new user false)
    ∧ accounts !! 6%nat = Some (meta_new 11 true).
Proof.
  destruct (@pumpfun_exact_buy_spec release toy_sdk toy_text initial_rents 0 toy_first_buy
              toy_coin toy_first_buy_ixs eq_refl eq_refl) as
    (_ & create & tokens & min_out & curve & associated & user & vault & volume & curve_v2
     & Hixs & Hc & _ & Hu & _).
  - vm_cast_no_check (eq_refl (@eval toy_sdk _ initial_rents (toy_build_buy 0%nat toy_first_buy))).
  - destruct (Hc eq_refl) as [_ Hcreate].
    assert (create = [create_ata_ix 11 user 11 66 TOKEN_PROGRAM]) as -> by exact Hcreate.
    exists user. eexists _, min_out. split; [exact Hu|]. split; [exact Hixs|].
    split; reflexivity.
Defined.

Lemma pumpfun_sell_spec_witness : 5000000000 ≠ 0.
Proof.
  refine (proj1 (@pumpfun_sell_spec release toy_sdk toy_text initial_rents 0 toy_coin_sell
                   toy_coin 5000000000 toy_coin_sell_ixs eq_refl eq_refl _)).
  vm_cast_no_check (eq_refl (@eval toy_sdk _ initial_rents (toy_build_sell 0%nat toy_coin_sell))).
Defined.

Example toy_coin_buy_shape :
  map (λ ix, (program_id ix =? PUMPFUN, length (accounts ix), length (data ix))) toy_coin_buy_ixs
  = [(true, 17%nat, 26%nat)].
Proof. vm_compute. reflexivity. Qed.
