(* ===== verification/BonkIx.v ===== *)
(** * The Bonk instruction builder (sdk instruction/bonk.rs)

    A purchase or a sale on a launchpad pool whose quote side is wrapped SOL
    or USD1.  Addresses that the parameters leave at the default key are
    derived, through the cache. *)

From Stdlib Require Import String.
From S2P Require Import Prelude Solana Accounts Spl FastFn BonkCalc GasFee Effects Params Client Wsol IxCommon.

#[local] Open Scope string_scope.
#[local] Open Scope Z_scope.
#[local] Open Scope list_scope.

(* sdk instruction/utils/bonk.rs:29-34 AUTHORITY_META *)
Definition BK_AUTHORITY_META : AccountMeta := mk_meta BK_AUTHORITY false false.
(* sdk instruction/utils/bonk.rs:35-40 GLOBAL_CONFIG_META *)
Definition BK_GLOBAL_CONFIG_META : AccountMeta := mk_meta BK_GLOBAL_CONFIG false false.
(* sdk instruction/utils/bonk.rs:42-47 USD1_GLOBAL_CONFIG_META *)
Definition BK_USD1_GLOBAL_CONFIG_META : AccountMeta := mk_meta BK_USD1_GLOBAL_CONFIG false false.
(* sdk instruction/utils/bonk.rs:49-54 EVENT_AUTHORITY_META *)
Definition BK_EVENT_AUTHORITY_META : AccountMeta := mk_meta BK_EVENT_AUTHORITY false false.
(* sdk instruction/utils/bonk.rs:55-56 BONK_META *)
Definition BONK_META : AccountMeta := mk_meta BONK false false.
(* sdk instruction/utils/bonk.rs:59-59 BUY_EXECT_IN_DISCRIMINATOR *)
Definition BUY_EXECT_IN_DISCRIMINATOR : bytes := [250; 234; 13; 123; 213; 156; 19; 236].
(* sdk instruction/utils/bonk.rs:60-60 SELL_EXECT_IN_DISCRIMINATOR *)
Definition SELL_EXECT_IN_DISCRIMINATOR : bytes := [149; 39; 222; 155; 211; 124; 152; 26].

(* sdk instruction/utils/bonk.rs:158-168 get_pool_pda *)
Definition bk_get_pool_pda (base_mint quote_mint : Pubkey) : prog (option Pubkey) :=
  get_pda (BonkPool base_mint quote_mint).

(* sdk instruction/utils/bonk.rs:170-180 get_vault_pda *)
Definition bk_get_vault_pda (pool_state mint : Pubkey) : prog (option Pubkey) :=
  get_pda (BonkVault pool_state mint).

(* sdk instruction/bonk.rs:40-40 build_buy_instructions, usd1_pool *)
Definition usd1_pool (p : BonkParams) : bool := bk_global_config p =? BK_USD1_GLOBAL_CONFIG.

(** The mint the pool is quoted in. *)
Definition quote_mint_of (p : BonkParams) : Pubkey :=
  if usd1_pool p then USD1_TOKEN_ACCOUNT else WSOL_TOKEN_ACCOUNT.

(** The pool and its vaults, given or derived. *)
(* sdk instruction/bonk.rs:42-50 build_buy_instructions, pool_state *)
Definition bk_pool (p : BonkParams) (mint : Pubkey) : prog Pubkey :=
  given_or (bk_pool_state p) (bk_get_pool_pda mint (quote_mint_of p)).

(* sdk instruction/bonk.rs:100-113 build_buy_instructions, vaults *)
Definition bk_vaults (p : BonkParams) (pool_state mint : Pubkey) : prog (Pubkey * Pubkey) :=
  let! base_vault := given_or (bk_base_vault p) (bk_get_vault_pda pool_state mint) in
  let! quote_vault :=
    given_or (bk_quote_vault p) (bk_get_vault_pda pool_state (quote_mint_of p)) in
  Ret (base_vault, quote_vault).

(* sdk instruction/bonk.rs:143-162 build_buy_instructions, accounts *)
Definition bk_accounts (s : SwapParams) (p : BonkParams) (mint pool_state user_base user_quote : Pubkey)
    (vaults : Pubkey * Pubkey) : list AccountMeta :=
  [meta_new (payer s) true; BK_AUTHORITY_META;
   if usd1_pool p then BK_USD1_GLOBAL_CONFIG_META else BK_GLOBAL_CONFIG_META;
   meta_readonly (bk_platform_config p) false; meta_new pool_state false;
   meta_new user_base false; meta_new user_quote false; meta_new vaults.1 false;
   meta_new vaults.2 false; meta_readonly mint false;
   if usd1_pool p then USD1_TOKEN_ACCOUNT_META else WSOL_TOKEN_ACCOUNT_META;
   meta_readonly (bk_mint_token_program p) false; TOKEN_PROGRAM_META; BK_EVENT_AUTHORITY_META;
   BONK_META; SYSTEM_PROGRAM_META; meta_new (bk_platform_associated_account p) false;
   meta_new (bk_creator_associated_account p) false].

(** The share fee rate of every trade is 0. *)
Definition bk_data (discriminator : bytes) (amount minimum_amount_out : Z) : bytes :=
  discriminator ++ u64_le_bytes amount ++ u64_le_bytes minimum_amount_out ++ u64_le_bytes 0.

Section BonkIx.
Context `{Build} `{Sdk}.

(* sdk instruction/bonk.rs:70-80 build_buy_instructions, minimum_amount_out *)
Definition bk_minimum
    (quote : Z → Z → Z → Z → Z → Z → exec Z) (s : SwapParams) (p : BonkParams) (amount : Z) :
    exec Z :=
  match fixed_output_amount s with
  | Some fixed_amount => Val fixed_amount
  | None => quote amount (bk_virtual_base p) (bk_virtual_quote p) (bk_real_base p)
              (bk_real_quote p) (slippage_of s)
  end.

(* sdk instruction/bonk.rs:27-171 build_buy_instructions *)
Definition bk_build_buy_instructions (rand : nat) (s : SwapParams) : prog (list Instruction) :=
  let amount_in := amount_of s in
  if amount_in =? 0 then Fail "Amount cannot be zero"
  else
    match protocol_params s with
    | PBonk p =>
        let mint := output_mint s in
        let! pool_state := bk_pool p mint in
        let! minimum_amount_out :=
          of_exec (bk_minimum bonk_get_buy_token_amount_from_sol_amount s p amount_in) in
        let! user_base := user_account s mint (bk_mint_token_program p) in
        let! user_quote := user_account s (quote_mint_of p) TOKEN_PROGRAM in
        let! vaults := bk_vaults p pool_state mint in
        let! wrap := when (create_input_mint_ata s && negb (usd1_pool p))
                       (handle_wsol (payer s) amount_in) in
        let! create := when (create_output_mint_ata s)
                         (create_user_account s mint (bk_mint_token_program p)) in
        let! close := when (close_input_mint_ata s) (close_wsol (payer s)) in
        Ret (wrap ++ create
             ++ [mk_ix BONK (bk_accounts s p mint pool_state user_base user_quote vaults)
                   (bk_data BUY_EXECT_IN_DISCRIMINATOR amount_in minimum_amount_out)] ++ close)
    | _ => Fail "Invalid protocol params for Bonk"
    end.

(* sdk instruction/bonk.rs:173-314 build_sell_instructions *)
Definition bk_build_sell_instructions (rand : nat) (s : SwapParams) : prog (list Instruction) :=
  let amount := amount_of s in
  if amount =? 0
  then Fail "Bonk sell requires input_amount (token amount to sell); fetch balance via RPC before calling build_sell"
  else
    match protocol_params s with
    | PBonk p =>
        let mint := input_mint s in
        let! pool_state := bk_pool p mint in
        let! minimum_amount_out :=
          of_exec (bk_minimum bonk_get_sell_sol_amount_from_token_amount s p amount) in
        let! user_base := user_account s mint (bk_mint_token_program p) in
        let! user_quote := user_account s (quote_mint_of p) TOKEN_PROGRAM in
        let! vaults := bk_vaults p pool_state mint in
        let! create := when (close_output_mint_ata s && negb (usd1_pool p))
                         (create_wsol_ata (payer s)) in
        let! close := when (close_output_mint_ata s) (close_wsol (payer s)) in
        let! close_base := when (close_input_mint_ata s)
                             (close_user_account s (bk_mint_token_program p) user_base) in
        Ret (create
             ++ [mk_ix BONK (bk_accounts s p mint pool_state user_base user_quote vaults)
                   (bk_data SELL_EXECT_IN_DISCRIMINATOR amount minimum_amount_out)]
             ++ close ++ close_base)
    | _ => Fail "Invalid protocol params for Bonk"
    end.
End BonkIx.
