(* ===== verification/RaydiumIx.v ===== *)
(** * The Raydium instruction builders (sdk instruction/raydium_cpmm.rs,
    raydium_amm_v4.rs, instruction/utils/)

    A swap with a given input on a pool that has wrapped SOL or USDC on one
    side.  Both builders look at the mints of the pool in two ways: the side
    that is paid is wrapped SOL whenever either side is, and the direction of
    the quote is read off the first (for a sale the second) mint alone. *)

From Stdlib Require Import String.
From S2P Require Import Prelude F64 Solana Accounts Spl FastFn RaydiumCalc GasFee Effects PumpSwapUtils Params Client Wsol IxCommon.

#[local] Open Scope string_scope.
#[local] Open Scope Z_scope.
#[local] Open Scope list_scope.

(** ** Constants *)

(* sdk instruction/utils/raydium_cpmm.rs:11-11 POOL_SEED *)
Definition CP_POOL_SEED : bytes := ascii_bytes "pool".
(* sdk instruction/utils/raydium_cpmm.rs:12-12 POOL_VAULT_SEED *)
Definition CP_POOL_VAULT_SEED : bytes := ascii_bytes "pool_vault".
(* sdk instruction/utils/raydium_cpmm.rs:13-13 OBSERVATION_STATE_SEED *)
Definition OBSERVATION_STATE_SEED : bytes := ascii_bytes "observation".
(* sdk instruction/utils/raydium_cpmm.rs:19-19 AUTHORITY *)
Definition CP_AUTHORITY : Pubkey :=
  Eval vm_compute in pubkey "GpMZbSM2GgvTKHJirzeGfMFoaZ8UR2X7F4v8vHTvxFbL".
(* sdk instruction/utils/raydium_cpmm.rs:20-20 RAYDIUM_CPMM *)
Definition RAYDIUM_CPMM : Pubkey :=
  Eval vm_compute in pubkey "CPMMoo8L3F4NbTegBCKVNunggL7H1ZpdTHKxQB5qKP1C".
(* sdk instruction/utils/raydium_cpmm.rs:27-32 AUTHORITY_META *)
Definition CP_AUTHORITY_META : AccountMeta := mk_meta CP_AUTHORITY false false.
(* sdk instruction/utils/raydium_cpmm.rs:35-35 SWAP_BASE_IN_DISCRIMINATOR *)
Definition CP_SWAP_BASE_IN_DISCRIMINATOR : bytes := [143; 190; 90; 218; 196; 30; 51; 222].
(* sdk instruction/utils/raydium_cpmm.rs:36-36 SWAP_BASE_OUT_DISCRIMINATOR *)
Definition CP_SWAP_BASE_OUT_DISCRIMINATOR : bytes := [55; 217; 98; 86; 163; 74; 180; 173].
(* sdk instruction/utils/raydium_amm_v4.rs:16-16 AUTHORITY *)
Definition V4_AUTHORITY : Pubkey :=
  Eval vm_compute in pubkey "5Q544fKrFoe6tsEbD7S8EmxGTJYAKtTVhAW5Q5pge4j1".
(* sdk instruction/utils/raydium_amm_v4.rs:17-17 RAYDIUM_AMM_V4 *)
Definition RAYDIUM_AMM_V4 : Pubkey :=
  Eval vm_compute in pubkey "675kPX9MHTjS2zt1qfr1NYHuzeLXfQM9H24wFSUt1Mp8".
(* sdk instruction/utils/raydium_amm_v4.rs:26-31 AUTHORITY_META *)
Definition V4_AUTHORITY_META : AccountMeta := mk_meta V4_AUTHORITY false false.
(* sdk instruction/utils/raydium_amm_v4.rs:34-34 SWAP_BASE_IN_DISCRIMINATOR *)
Definition V4_SWAP_BASE_IN_DISCRIMINATOR : bytes := [9].
(* sdk instruction/utils/raydium_amm_v4.rs:35-35 SWAP_BASE_OUT_DISCRIMINATOR *)
Definition V4_SWAP_BASE_OUT_DISCRIMINATOR : bytes := [11].

(** ** Which side is which *)

Definition is_mint (mint a b : Pubkey) : bool := (a =? mint) || (b =? mint).

(** The side the user pays in a purchase and receives in a sale, as the
    builders choose it. *)
Definition paid_mint (mint0 mint1 : Pubkey) : Pubkey :=
  if is_mint WSOL_TOKEN_ACCOUNT mint0 mint1 then WSOL_TOKEN_ACCOUNT else USDC_TOKEN_ACCOUNT.

Definition paid_mint_meta (mint0 mint1 : Pubkey) : AccountMeta :=
  if is_mint WSOL_TOKEN_ACCOUNT mint0 mint1 then WSOL_TOKEN_ACCOUNT_META
  else USDC_TOKEN_ACCOUNT_META.

(* sdk instruction/raydium_cpmm.rs:51-59 build_buy_instructions, pool check *)
Definition has_quote (mint0 mint1 : Pubkey) : bool :=
  is_mint WSOL_TOKEN_ACCOUNT mint0 mint1 || is_mint USDC_TOKEN_ACCOUNT mint0 mint1.

(* sdk instruction/raydium_cpmm.rs:64-65 build_buy_instructions, is_base_in *)
Definition is_quote_mint (mint : Pubkey) : bool :=
  (mint =? WSOL_TOKEN_ACCOUNT) || (mint =? USDC_TOKEN_ACCOUNT).

Section RaydiumIx.
Context `{Build} `{Sdk}.

(** ** CPMM *)

(* sdk instruction/utils/raydium_cpmm.rs:51-57 get_pool_pda *)
Definition cp_get_pool_pda (amm_config mint1 mint2 : Pubkey) : option Pubkey :=
  try_pda [CP_POOL_SEED; to_bytes amm_config; to_bytes mint1; to_bytes mint2] RAYDIUM_CPMM.

(* sdk instruction/utils/raydium_cpmm.rs:59-64 get_vault_pda *)
Definition cp_get_vault_pda (pool_state mint : Pubkey) : option Pubkey :=
  try_pda [CP_POOL_VAULT_SEED; to_bytes pool_state; to_bytes mint] RAYDIUM_CPMM.

(* sdk instruction/utils/raydium_cpmm.rs:66-71 get_observation_state_pda *)
Definition get_observation_state_pda (pool_state : Pubkey) : option Pubkey :=
  try_pda [OBSERVATION_STATE_SEED; to_bytes pool_state] RAYDIUM_CPMM.

(* sdk instruction/utils/raydium_cpmm.rs:131-145 get_vault_account *)
Definition get_vault_account (pool_state token_mint : Pubkey) (p : RaydiumCpmmParams) : exec Pubkey :=
  if (cp_base_mint p =? token_mint) && negb (cp_base_vault p =? pubkey_default)
  then Val (cp_base_vault p)
  else if (cp_quote_mint p =? token_mint) && negb (cp_quote_vault p =? pubkey_default)
  then Val (cp_quote_vault p)
  else unwrap (cp_get_vault_pda pool_state token_mint).

(* sdk instruction/raydium_cpmm.rs:40-49 build_buy_instructions, pool_state *)
Definition cp_pool (p : RaydiumCpmmParams) : prog Pubkey :=
  given_or (cp_pool_state p)
    (Ret (cp_get_pool_pda (cp_amm_config p) (cp_base_mint p) (cp_quote_mint p))).

(* sdk instruction/raydium_cpmm.rs:73-83 build_buy_instructions, minimum_amount_out *)
Definition cp_minimum (s : SwapParams) (p : RaydiumCpmmParams) (is_base_in : bool) (amount : Z) :
    exec Z :=
  let* result := cp_compute_swap_amount (cp_base_reserve p) (cp_quote_reserve p) is_base_in amount
                   (slippage_of s) in
  Val (default (min_amount_out result) (fixed_output_amount s)).

(* sdk instruction/raydium_cpmm.rs:114-118 build_buy_instructions, observation_state_account *)
Definition cp_observation (p : RaydiumCpmmParams) (pool_state : Pubkey) : prog Pubkey :=
  given_or (cp_observation_state p) (Ret (get_observation_state_pda pool_state)).

(** From the input to the output: accounts, vaults, programs and mints. *)
(* sdk instruction/raydium_cpmm.rs:143-161 build_buy_instructions, accounts *)
Definition cp_accounts (s : SwapParams) (p : RaydiumCpmmParams) (pool_state : Pubkey)
    (user vault : Pubkey * Pubkey) (program mint : AccountMeta * AccountMeta)
    (observation : Pubkey) : list AccountMeta :=
  [meta_new (payer s) true; CP_AUTHORITY_META; meta_new (cp_amm_config p) false;
   meta_new pool_state false; meta_new user.1 false; meta_new user.2 false;
   meta_new vault.1 false; meta_new vault.2 false; program.1; program.2; mint.1; mint.2;
   meta_new observation false].

Definition swap_data (discriminator : bytes) (amount minimum_amount_out : Z) : bytes :=
  discriminator ++ u64_le_bytes amount ++ u64_le_bytes minimum_amount_out.

(* sdk instruction/raydium_cpmm.rs:26-180 build_buy_instructions *)
Definition cp_build_buy_instructions (rand : nat) (s : SwapParams) : prog (list Instruction) :=
  let amount_in := amount_of s in
  if amount_in =? 0 then Fail "Amount cannot be zero"
  else
    match protocol_params s with
    | PRaydiumCpmm p =>
        let! pool_state := cp_pool p in
        if negb (has_quote (cp_base_mint p) (cp_quote_mint p))
        then Fail "Pool must contain WSOL or USDC"
        else
          let is_base_in := is_quote_mint (cp_base_mint p) in
          let mint_token_program :=
            if is_base_in then cp_quote_token_program p else cp_base_token_program p in
          let paid := paid_mint (cp_base_mint p) (cp_quote_mint p) in
          let! minimum_amount_out := of_exec (cp_minimum s p is_base_in amount_in) in
          let! input_token_account := user_account s paid TOKEN_PROGRAM in
          let! output_token_account := user_account s (output_mint s) mint_token_program in
          let! input_vault := of_exec (get_vault_account pool_state paid p) in
          let! output_vault := of_exec (get_vault_account pool_state (output_mint s) p) in
          let! observation := cp_observation p pool_state in
          let! wrap := when (create_input_mint_ata s) (handle_wsol (payer s) amount_in) in
          let! create := when (create_output_mint_ata s)
                           (create_user_account s (output_mint s) mint_token_program) in
          let! close := when (close_input_mint_ata s) (close_wsol (payer s)) in
          Ret (wrap ++ create
               ++ [mk_ix RAYDIUM_CPMM
                     (cp_accounts s p pool_state (input_token_account, output_token_account)
                        (input_vault, output_vault)
                        (TOKEN_PROGRAM_META, meta_readonly mint_token_program false)
                        (paid_mint_meta (cp_base_mint p) (cp_quote_mint p),
                         meta_readonly (output_mint s) false) observation)
                     (swap_data CP_SWAP_BASE_IN_DISCRIMINATOR amount_in minimum_amount_out)]
               ++ close)
    | _ => Fail "Invalid protocol params for RaydiumCpmm"
    end.

(** A sale quotes nothing when the output is fixed. *)
(* sdk instruction/raydium_cpmm.rs:228-240 build_sell_instructions, minimum_amount_out *)
Definition cp_sell_minimum (s : SwapParams) (p : RaydiumCpmmParams) (is_quote_out : bool)
    (amount : Z) : exec Z :=
  match fixed_output_amount s with
  | Some fixed => Val fixed
  | None =>
      let* r := cp_compute_swap_amount (cp_base_reserve p) (cp_quote_reserve p) is_quote_out amount
                  (slippage_of s) in
      Val (min_amount_out r)
  end.

(* sdk instruction/raydium_cpmm.rs:182-333 build_sell_instructions *)
Definition cp_build_sell_instructions (rand : nat) (s : SwapParams) : prog (list Instruction) :=
  match protocol_params s with
  | PRaydiumCpmm p =>
      let amount := amount_of s in
      if amount =? 0 then Fail "Token amount is not set"
      else
        let! pool_state := cp_pool p in
        if negb (has_quote (cp_base_mint p) (cp_quote_mint p))
        then Fail "Pool must contain WSOL or USDC"
        else
          let is_quote_out := is_quote_mint (cp_quote_mint p) in
          let mint_token_program :=
            if is_quote_out then cp_base_token_program p else cp_quote_token_program p in
          let paid := paid_mint (cp_base_mint p) (cp_quote_mint p) in
          let! minimum_amount_out := of_exec (cp_sell_minimum s p is_quote_out amount) in
          let! output_token_account := user_account s paid TOKEN_PROGRAM in
          let! input_token_account := user_account s (input_mint s) mint_token_program in
          let! output_vault := of_exec (get_vault_account pool_state paid p) in
          let! input_vault := of_exec (get_vault_account pool_state (input_mint s) p) in
          let! observation := cp_observation p pool_state in
          let! create := when (create_output_mint_ata s) (create_wsol_ata (payer s)) in
          let! close := when (close_output_mint_ata s) (close_wsol (payer s)) in
          let! close_input := when (close_input_mint_ata s)
                                (close_user_account s mint_token_program input_token_account) in
          Ret (create
               ++ [mk_ix RAYDIUM_CPMM
                     (cp_accounts s p pool_state (input_token_account, output_token_account)
                        (input_vault, output_vault)
                        (meta_readonly mint_token_program false, TOKEN_PROGRAM_META)
                        (meta_readonly (input_mint s) false,
                         paid_mint_meta (cp_base_mint p) (cp_quote_mint p)) observation)
                     (swap_data CP_SWAP_BASE_IN_DISCRIMINATOR amount minimum_amount_out)]
               ++ close ++ close_input)
  | _ => Fail "Invalid protocol params for RaydiumCpmm"
  end.

(** ** AMM v4 *)

(* sdk instruction/raydium_amm_v4.rs:50-60 build_buy_instructions, minimum_amount_out *)
Definition v4_minimum (s : SwapParams) (p : RaydiumAmmV4Params) (is_base_in : bool) (amount : Z) :
    exec Z :=
  let* swap_result := v4_compute_swap_amount (v4_coin_reserve p) (v4_pc_reserve p) is_base_in amount
                        (slippage_of s) in
  Val (default (min_amount_out swap_result) (fixed_output_amount s)).

(* sdk instruction/raydium_amm_v4.rs:104-122 build_buy_instructions, accounts *)
Definition v4_accounts (s : SwapParams) (p : RaydiumAmmV4Params) (source destination : Pubkey) :
    list AccountMeta :=
  let amm := meta_new (v4_amm p) false in
  [TOKEN_PROGRAM_META; amm; V4_AUTHORITY_META; amm; meta_new (v4_token_coin p) false;
   meta_new (v4_token_pc p) false; amm; amm; amm; amm; amm; amm; amm; amm;
   meta_new source false; meta_new destination false; meta_new (payer s) true].

(* sdk instruction/raydium_amm_v4.rs:21-141 build_buy_instructions *)
Definition v4_build_buy_instructions (rand : nat) (s : SwapParams) : prog (list Instruction) :=
  let amount_in := amount_of s in
  if amount_in =? 0 then Fail "Amount cannot be zero"
  else
    match protocol_params s with
    | PRaydiumAmmV4 p =>
        if negb (has_quote (v4_coin_mint p) (v4_pc_mint p))
        then Fail "Pool must contain WSOL or USDC"
        else
          let! minimum_amount_out :=
            of_exec (v4_minimum s p (is_quote_mint (v4_coin_mint p)) amount_in) in
          let! source := user_account s (paid_mint (v4_coin_mint p) (v4_pc_mint p)) TOKEN_PROGRAM in
          let! destination := user_account s (output_mint s) TOKEN_PROGRAM in
          let! wrap := when (create_input_mint_ata s) (handle_wsol (payer s) amount_in) in
          let! create := when (create_output_mint_ata s)
                           (create_user_account s (output_mint s) TOKEN_PROGRAM) in
          let! close := when (close_input_mint_ata s) (close_wsol (payer s)) in
          Ret (wrap ++ create
               ++ [mk_ix RAYDIUM_AMM_V4 (v4_accounts s p source destination)
                     (swap_data V4_SWAP_BASE_IN_DISCRIMINATOR amount_in minimum_amount_out)]
               ++ close)
    | _ => Fail "Invalid protocol params for RaydiumAmmV4"
    end.

(* sdk instruction/raydium_amm_v4.rs:143-258 build_sell_instructions *)
Definition v4_build_sell_instructions (rand : nat) (s : SwapParams) : prog (list Instruction) :=
  match protocol_params s with
  | PRaydiumAmmV4 p =>
      let amount := amount_of s in
      if amount =? 0 then Fail "Token amount is not set"
      else if negb (has_quote (v4_coin_mint p) (v4_pc_mint p))
      then Fail "Pool must contain WSOL or USDC"
      else
        let! minimum_amount_out := of_exec (v4_minimum s p (is_quote_mint (v4_pc_mint p)) amount) in
        let! source := user_account s (input_mint s) TOKEN_PROGRAM in
        let! destination :=
          user_account s (paid_mint (v4_coin_mint p) (v4_pc_mint p)) TOKEN_PROGRAM in
        let! create := when (create_output_mint_ata s) (create_wsol_ata (payer s)) in
        let! close := when (close_output_mint_ata s) (close_wsol (payer s)) in
        let! close_source := when (close_input_mint_ata s)
                               (close_user_account s TOKEN_PROGRAM source) in
        Ret (create
             ++ [mk_ix RAYDIUM_AMM_V4 (v4_accounts s p source destination)
                   (swap_data V4_SWAP_BASE_IN_DISCRIMINATOR amount minimum_amount_out)]
             ++ close ++ close_source)
  | _ => Fail "Invalid protocol params for RaydiumAmmV4"
  end.

(** ** What is built *)

(** An AMM v4 purchase, part by part: the swap takes the given amount from
    the user's account of the paid side, and accepts no less than the quote. *)
Lemma v4_buy_shape r rand s p ixs :
  protocol_params s = PRaydiumAmmV4 p →
  eval r (v4_build_buy_instructions rand s) = Val (Ok ixs) →
  ∃ wrap create close source destination minimum,
    ixs = wrap ++ create
          ++ [mk_ix RAYDIUM_AMM_V4 (v4_accounts s p source destination)
                (swap_data V4_SWAP_BASE_IN_DISCRIMINATOR (amount_of s) minimum)] ++ close
    ∧ v4_minimum s p (is_quote_mint (v4_coin_mint p)) (amount_of s) = Val minimum
    ∧ ata_compute (mk_AtaCacheKey (payer s) (paid_mint (v4_coin_mint p) (v4_pc_mint p))
                     TOKEN_PROGRAM (open_seed_optimize s)) = Val source
    ∧ eval r (when (create_input_mint_ata s) (handle_wsol (payer s) (amount_of s)))
      = Val (Ok wrap).
Proof.
  intros Hp He. unfold v4_build_buy_instructions in He. rewrite Hp in He. cbv zeta in He.
  destruct (amount_of s =? 0); [done|]. destruct (negb (has_quote _ _)); [done|]. prog_inv He.
  apply eval_of_exec in V. apply eval_user_account in V0. injection He as <-.
  do 6 eexists. split; [done|]. auto.
Qed.

(** A purchase on a pool quoted in USDC, with the input account to be created,
    also moves as many lamports as the USDC amount into the wrapped-SOL account
    of the payer: the builder wraps SOL whatever the pool is quoted in. *)
Theorem usdc_purchase_wraps_sol r rand s p ixs :
  protocol_params s = PRaydiumAmmV4 p →
  is_mint WSOL_TOKEN_ACCOUNT (v4_coin_mint p) (v4_pc_mint p) = false →
  create_input_mint_ata s = true →
  eval r (v4_build_buy_instructions rand s) = Val (Ok ixs) →
  ∃ wsol source destination minimum,
    system_transfer (payer s) wsol (amount_of s) ∈ ixs
    ∧ mk_ix RAYDIUM_AMM_V4 (v4_accounts s p source destination)
        (swap_data V4_SWAP_BASE_IN_DISCRIMINATOR (amount_of s) minimum) ∈ ixs
    ∧ ata_compute (mk_AtaCacheKey (payer s) USDC_TOKEN_ACCOUNT TOKEN_PROGRAM (open_seed_optimize s))
      = Val source.
Proof.
  intros Hp Hm Hc He.
  destruct (v4_buy_shape r rand s p ixs Hp He)
    as (wrap & create & close & source & destination & minimum & -> & _ & Hs & Hw).
  unfold paid_mint in Hs. rewrite Hm in Hs. rewrite Hc in Hw.
  apply handle_wsol_shape in Hw as (wsol & c & _ & ->).
  exists wsol, source, destination, minimum. split; [|split; [|done]]; set_solver.
Qed.

(** On a pool of USDC against wrapped SOL, in this order, a purchase pays
    wrapped SOL but is quoted as a payment of USDC: its least output is computed
    with the two reserves exchanged. *)
Theorem wsol_usdc_pool_misquoted r rand s p ixs :
  protocol_params s = PRaydiumAmmV4 p →
  v4_coin_mint p = USDC_TOKEN_ACCOUNT → v4_pc_mint p = WSOL_TOKEN_ACCOUNT →
  fixed_output_amount s = None →
  eval r (v4_build_buy_instructions rand s) = Val (Ok ixs) →
  ∃ source destination quote,
    ata_compute (mk_AtaCacheKey (payer s) WSOL_TOKEN_ACCOUNT TOKEN_PROGRAM (open_seed_optimize s))
      = Val source
    ∧ v4_compute_swap_amount (v4_coin_reserve p) (v4_pc_reserve p) true (amount_of s) (slippage_of s)
      = Val quote
    ∧ mk_ix RAYDIUM_AMM_V4 (v4_accounts s p source destination)
        (swap_data V4_SWAP_BASE_IN_DISCRIMINATOR (amount_of s) (min_amount_out quote)) ∈ ixs.
Proof.
  intros Hp Hc Hpc Hf He.
  destruct (v4_buy_shape r rand s p ixs Hp He)
    as (wrap & create & close & source & destination & minimum & -> & Hm & Hs & _).
  unfold v4_minimum in Hm. rewrite Hc, Hpc, Hf in *.
  apply exec_bind_Val_inv in Hm as (q & Hq & Hm). apply Val_inj in Hm. simpl in Hm. subst minimum.
  exists source, destination, q. split; [done|]. split; [done|]. set_solver.
Qed.
End RaydiumIx.

(** ** Concrete pools *)

Definition toy_amm (coin pc : Pubkey) : RaydiumAmmV4Params :=
  mk_RaydiumAmmV4Params 900 coin pc 901 902 1000000 30000.

Definition toy_amm_buy (coin pc output : Pubkey) : SwapParams :=
  mk_Swap 11 TBuy coin None output None (Some 1000) (Some 100) None (Some 5) true
    (PRaydiumAmmV4 (toy_amm coin pc)) false None true true false true false None gfs_new false false
    false None None.

Definition built_amm (s : SwapParams) : list Instruction :=
  match @eval toy_sdk _ initial_rents (@v4_build_buy_instructions release toy_sdk 0%nat s) with
  | Val (Ok ixs) => ixs
  | _ => []
  end.

Definition usdc_buy : SwapParams := toy_amm_buy USDC_TOKEN_ACCOUNT 903 903.
Definition wsol_usdc_buy : SwapParams := toy_amm_buy USDC_TOKEN_ACCOUNT WSOL_TOKEN_ACCOUNT
                                           USDC_TOKEN_ACCOUNT.

Lemma usdc_purchase_wraps_sol_witness :
  ∃ wsol source destination minimum,
    @system_transfer toy_sdk 11 wsol 1000 ∈ built_amm usdc_buy
    ∧ mk_ix RAYDIUM_AMM_V4 (v4_accounts usdc_buy (toy_amm USDC_TOKEN_ACCOUNT 903) source destination)
        (swap_data V4_SWAP_BASE_IN_DISCRIMINATOR 1000 minimum) ∈ built_amm usdc_buy
    ∧ @ata_compute toy_sdk (mk_AtaCacheKey 11 USDC_TOKEN_ACCOUNT TOKEN_PROGRAM false) = Val source.
Proof.
  refine (@usdc_purchase_wraps_sol release toy_sdk initial_rents 0 usdc_buy
            (toy_amm USDC_TOKEN_ACCOUNT 903) (built_amm usdc_buy) eq_refl eq_refl eq_refl _).
  vm_cast_no_check (eq_refl (@eval toy_sdk _ initial_rents
                               (@v4_build_buy_instructions release toy_sdk 0%nat usdc_buy))).
Defined.

Lemma wsol_usdc_pool_misquoted_witness :
  ∃ source destination quote,
    @ata_compute toy_sdk (mk_AtaCacheKey 11 WSOL_TOKEN_ACCOUNT TOKEN_PROGRAM false) = Val source
    ∧ @v4_compute_swap_amount release 1000000 30000 true 1000 100 = Val quote
    ∧ mk_ix RAYDIUM_AMM_V4
        (v4_accounts wsol_usdc_buy (toy_amm USDC_TOKEN_ACCOUNT WSOL_TOKEN_ACCOUNT) source destination)
        (swap_data V4_SWAP_BASE_IN_DISCRIMINATOR 1000 (min_amount_out quote))
      ∈ built_amm wsol_usdc_buy.
Proof.
  refine (@wsol_usdc_pool_misquoted release toy_sdk initial_rents 0 wsol_usdc_buy
            (toy_amm USDC_TOKEN_ACCOUNT WSOL_TOKEN_ACCOUNT) (built_amm wsol_usdc_buy)
            eq_refl eq_refl eq_refl eq_refl _).
  vm_cast_no_check (eq_refl (@eval toy_sdk _ initial_rents
                               (@v4_build_buy_instructions release toy_sdk 0%nat wsol_usdc_buy))).
Defined.
