(* ===== verification/MeteoraIx.v ===== *)
(** * The Meteora DAMM v2 instruction builder (sdk instruction/meteora_damm_v2.rs,
    instruction/utils/meteora_damm_v2.rs)

    A swap between the two tokens of a pool.  Nothing is quoted: the least
    output must be given. *)

From Stdlib Require Import String.
From S2P Require Import Prelude Solana Accounts Spl FastFn GasFee Effects Params Client Wsol IxCommon RaydiumIx.

#[local] Open Scope string_scope.
#[local] Open Scope Z_scope.
#[local] Open Scope list_scope.

(* sdk instruction/utils/meteora_damm_v2.rs:10-10 EVENT_AUTHORITY_SEED *)
Definition MD_EVENT_AUTHORITY_SEED : bytes := ascii_bytes "__event_authority".
(* sdk instruction/utils/meteora_damm_v2.rs:17-17 AUTHORITY *)
Definition MD_AUTHORITY : Pubkey :=
  Eval vm_compute in pubkey "HLnpSz9h2S4hiLQ43rnSD9XkcUThA7B8hQMKmDaiTLcC".
(* sdk instruction/utils/meteora_damm_v2.rs:18-18 METEORA_DAMM_V2 *)
Definition METEORA_DAMM_V2 : Pubkey :=
  Eval vm_compute in pubkey "cpamdpZCGKUy5JxQXB4dcpGPiikHawvSWAd6mEn1sGG".
(* sdk instruction/utils/meteora_damm_v2.rs:22-27 METEORA_DAMM_V2_META *)
Definition METEORA_DAMM_V2_META : AccountMeta := mk_meta METEORA_DAMM_V2 false false.
(* sdk instruction/utils/meteora_damm_v2.rs:29-34 AUTHORITY_META *)
Definition MD_AUTHORITY_META : AccountMeta := mk_meta MD_AUTHORITY false false.
(* sdk instruction/utils/meteora_damm_v2.rs:37-37 SWAP_DISCRIMINATOR *)
Definition MD_SWAP_DISCRIMINATOR : bytes := [248; 198; 158; 145; 225; 117; 135; 200].

Section MeteoraIx.
Context `{Sdk}.

(* sdk instruction/utils/meteora_damm_v2.rs:52-54 get_event_authority_pda *)
Definition get_event_authority_pda : exec Pubkey :=
  find_program_address [MD_EVENT_AUTHORITY_SEED] METEORA_DAMM_V2.

(** The token programs of the input and the output. *)
(* sdk instruction/meteora_damm_v2.rs:51-72 build_buy_instructions, token programs *)
Definition md_programs (p : MeteoraDammV2Params) (is_a_in : bool) : Pubkey * Pubkey :=
  if is_a_in then (md_token_a_program p, md_token_b_program p)
  else (md_token_b_program p, md_token_a_program p).

(* sdk instruction/meteora_damm_v2.rs:101-116 build_buy_instructions, accounts *)
Definition md_accounts (s : SwapParams) (p : MeteoraDammV2Params)
    (input_token_account output_token_account event_authority : Pubkey) : list AccountMeta :=
  [MD_AUTHORITY_META; meta_new (md_pool p) false; meta_new input_token_account false;
   meta_new output_token_account false; meta_new (md_token_a_vault p) false;
   meta_new (md_token_b_vault p) false; meta_readonly (md_token_a_mint p) false;
   meta_readonly (md_token_b_mint p) false; meta_new (payer s) true;
   meta_readonly (md_token_a_program p) false; meta_readonly (md_token_b_program p) false;
   METEORA_DAMM_V2_META; meta_readonly event_authority false; METEORA_DAMM_V2_META].

Definition fixed_output_missing : string :=
  "fixed_output_amount must be set for MeteoraDammV2 swap".

(* sdk instruction/meteora_damm_v2.rs:19-135 build_buy_instructions *)
Definition md_build_buy_instructions (rand : nat) (s : SwapParams) : prog (list Instruction) :=
  let amount_in := amount_of s in
  if amount_in =? 0 then Fail "Amount cannot be zero"
  else
    match protocol_params s with
    | PMeteoraDammV2 p =>
        if negb (has_quote (md_token_a_mint p) (md_token_b_mint p))
        then Fail "Pool must contain WSOL or USDC"
        else
          let '(in_program, out_program) := md_programs p (is_quote_mint (md_token_a_mint p)) in
          match fixed_output_amount s with
          | None => Fail fixed_output_missing
          | Some minimum_amount_out =>
              let! input_token_account := user_account s (input_mint s) in_program in
              let! output_token_account := user_account s (output_mint s) out_program in
              let! wrap := when (create_input_mint_ata s) (handle_wsol (payer s) amount_in) in
              let! create := when (create_output_mint_ata s)
                               (create_user_account s (output_mint s) out_program) in
              let! event_authority := of_exec get_event_authority_pda in
              let! close := when (close_input_mint_ata s) (close_wsol (payer s)) in
              Ret (wrap ++ create
                   ++ [mk_ix METEORA_DAMM_V2
                         (md_accounts s p input_token_account output_token_account event_authority)
                         (swap_data MD_SWAP_DISCRIMINATOR amount_in minimum_amount_out)]
                   ++ close)
          end
    | _ => Fail "Invalid protocol params for MeteoraDammV2"
    end.

(* sdk instruction/meteora_damm_v2.rs:137-248 build_sell_instructions *)
Definition md_build_sell_instructions (rand : nat) (s : SwapParams) : prog (list Instruction) :=
  match protocol_params s with
  | PMeteoraDammV2 p =>
      let amount := amount_of s in
      if amount =? 0 then Fail "Token amount is not set"
      else if negb (has_quote (md_token_b_mint p) (md_token_a_mint p))
      then Fail "Pool must contain WSOL or USDC"
      else
        let '(in_program, out_program) := md_programs p (is_quote_mint (md_token_b_mint p)) in
        match fixed_output_amount s with
        | None => Fail fixed_output_missing
        | Some minimum_amount_out =>
            let! input_token_account := user_account s (input_mint s) in_program in
            let! output_token_account := user_account s (output_mint s) out_program in
            let! create := when (create_output_mint_ata s) (create_wsol_ata (payer s)) in
            let! event_authority := of_exec get_event_authority_pda in
            let! close := when (close_output_mint_ata s) (close_wsol (payer s)) in
            let! close_input := when (close_input_mint_ata s)
                                  (close_user_account s in_program input_token_account) in
            Ret (create
                 ++ [mk_ix METEORA_DAMM_V2
                       (md_accounts s p input_token_account output_token_account event_authority)
                       (swap_data MD_SWAP_DISCRIMINATOR amount minimum_amount_out)]
                 ++ close ++ close_input)
        end
  | _ => Fail "Invalid protocol params for MeteoraDammV2"
  end.
End MeteoraIx.
