(* ===== verification/Factory.v ===== *)
(** * The builders of all protocols (sdk trading/factory.rs, trading/core/traits.rs)

    The interface of an instruction builder, the executor each protocol gets,
    and what all builders have in common. *)

From Stdlib Require Import String.
From S2P Require Import Prelude Solana Spl FastFn GasFee Effects PumpFunUtils PumpSwapUtils Params Client Wsol IxCommon PumpSwapIx PumpFunIx BonkIx RaydiumIx MeteoraIx.

#[local] Open Scope string_scope.
#[local] Open Scope Z_scope.
#[local] Open Scope list_scope.

(** The argument [nat] is the random number a builder may draw. *)
(* sdk trading/core/traits.rs:19-25 InstructionBuilder *)
Record InstructionBuilder := mk_builder {
  build_buy : nat → SwapParams → prog (list Instruction);
  build_sell : nat → SwapParams → prog (list Instruction);
}.

(* sdk trading/core/executor.rs:41-44 GenericTradeExecutor *)
Record GenericTradeExecutor := mk_exec {
  instruction_builder : InstructionBuilder;
  protocol_name : string;
}.

Section Factory.
Context `{Build} `{Sdk} `{KeyText}.

Definition PumpFunInstructionBuilder : InstructionBuilder :=
  mk_builder pf_build_buy_instructions pf_build_sell_instructions.
Definition PumpSwapInstructionBuilder : InstructionBuilder :=
  mk_builder build_buy_instructions build_sell_instructions.
Definition BonkInstructionBuilder : InstructionBuilder :=
  mk_builder bk_build_buy_instructions bk_build_sell_instructions.
Definition RaydiumCpmmInstructionBuilder : InstructionBuilder :=
  mk_builder cp_build_buy_instructions cp_build_sell_instructions.
Definition RaydiumAmmV4InstructionBuilder : InstructionBuilder :=
  mk_builder v4_build_buy_instructions v4_build_sell_instructions.
Definition MeteoraDammV2InstructionBuilder : InstructionBuilder :=
  mk_builder md_build_buy_instructions md_build_sell_instructions.

(* sdk trading/factory.rs:27-97 create_executor *)
Definition create_executor (dex : DexType) : GenericTradeExecutor :=
  match dex with
  | DPumpFun => mk_exec PumpFunInstructionBuilder "PumpFun"
  | DPumpSwap => mk_exec PumpSwapInstructionBuilder "PumpSwap"
  | DBonk => mk_exec BonkInstructionBuilder "Bonk"
  | DRaydiumCpmm => mk_exec RaydiumCpmmInstructionBuilder "RaydiumCpmm"
  | DRaydiumAmmV4 => mk_exec RaydiumAmmV4InstructionBuilder "RaydiumAmmV4"
  | DMeteoraDammV2 => mk_exec MeteoraDammV2InstructionBuilder "MeteoraDammV2"
  end.

(** The instructions of a trade, as the executor asks for them. *)
Definition build (dex : DexType) (is_buy : bool) (rand : nat) (s : SwapParams) :
    prog (list Instruction) :=
  let b := instruction_builder (create_executor dex) in
  if is_buy then build_buy b rand s else build_sell b rand s.

(** ** What they have in common *)

Ltac unfold_builder :=
  unfold build;
  cbn [create_executor instruction_builder build_buy build_sell PumpFunInstructionBuilder
       PumpSwapInstructionBuilder BonkInstructionBuilder RaydiumCpmmInstructionBuilder
       RaydiumAmmV4InstructionBuilder MeteoraDammV2InstructionBuilder];
  unfold pf_build_buy_instructions, pf_build_sell_instructions, build_buy_instructions,
    build_sell_instructions, bk_build_buy_instructions, bk_build_sell_instructions,
    cp_build_buy_instructions, cp_build_sell_instructions, v4_build_buy_instructions,
    v4_build_sell_instructions, md_build_buy_instructions, md_build_sell_instructions;
  cbv zeta.

(** A builder only builds for parameters of its own protocol. *)
Theorem built_for_own_protocol r dex is_buy rand s ixs :
  eval r (build dex is_buy rand s) = Val (Ok ixs) →
  validate_protocol_params dex (protocol_params s) = true.
Proof.
  destruct dex, is_buy; unfold_builder; destruct (protocol_params s); intros He;
    try reflexivity; exfalso;
    first [discriminate He | destruct (amount_of s =? 0); discriminate He].
Qed.

Section Signed.
Context `{!SdkSigners}.

Lemma fee_meta_unsigned rand stream mayhem :
  is_signer (pump_fun_fee_recipient_meta rand stream mayhem) = false.
Proof. by destruct (fee_recipient_meta_spec rand stream mayhem). Qed.

Lemma yields_only_cashback r s p : yields r (pf_cashback s p) (only (payer s)).
Proof. unfold pf_cashback. signed_builder; signed_metas. Qed.
Hint Resolve yields_only_cashback : signed.

Lemma pumpfun_signed r is_buy rand s :
  yields r (build DPumpFun is_buy rand s) (signed (payer s)).
Proof.
  destruct is_buy; unfold_builder; signed_builder; close_signed;
    unfold pf_buy_accounts, pf_sell_accounts, token_program_meta; signed_metas;
    rewrite ?fee_meta_unsigned; try done; by destruct (_ =? _).
Qed.

Lemma yields_only_volume r user b : yields r (volume_accounts user b) (only user).
Proof. unfold volume_accounts. signed_builder; signed_metas. Qed.
Lemma yields_only_buy_cashback r user p : yields r (buy_cashback user p) (only user).
Proof. unfold buy_cashback. signed_builder; signed_metas. case_match; signed_metas. Qed.
Lemma yields_only_sell_cashback r user p : yields r (sell_cashback user p) (only user).
Proof. unfold sell_cashback. signed_builder; signed_metas; repeat case_match; signed_metas. Qed.
Lemma yields_pool_v2 r mint : yields r (pool_v2_account mint) (λ m, is_signer m = false).
Proof. unfold pool_v2_account. by signed_builder. Qed.
Lemma yields_fee_accounts r rand p : yields r (fee_accounts rand p) (λ f, is_signer f.1 = false).
Proof.
  unfold fee_accounts, ps_get_mayhem_fee_recipient_random.
  destruct (ps_is_mayhem_mode p); cbv beta iota zeta; by signed_builder.
Qed.
Hint Resolve yields_only_volume yields_only_buy_cashback yields_only_sell_cashback yields_pool_v2
  yields_fee_accounts : signed.

Lemma pumpswap_signed r is_buy rand s :
  yields r (build DPumpSwap is_buy rand s) (signed (payer s)).
Proof.
  destruct is_buy; unfold_builder; signed_builder; close_signed;
    unfold swap_accounts; signed_metas; congruence.
Qed.

Lemma bonk_signed r is_buy rand s : yields r (build DBonk is_buy rand s) (signed (payer s)).
Proof.
  destruct is_buy; unfold_builder; signed_builder; close_signed;
    unfold bk_accounts; signed_metas; by destruct (usd1_pool _).
Qed.

Lemma raydium_signed r dex is_buy rand s :
  dex = DRaydiumCpmm ∨ dex = DRaydiumAmmV4 →
  yields r (build dex is_buy rand s) (signed (payer s)).
Proof.
  intros [-> | ->]; destruct is_buy; unfold_builder; signed_builder; close_signed;
    unfold cp_accounts, v4_accounts, paid_mint_meta; signed_metas; by destruct (is_mint _ _ _).
Qed.

Lemma meteora_signed r is_buy rand s :
  yields r (build DMeteoraDammV2 is_buy rand s) (signed (payer s)).
Proof.
  destruct is_buy; unfold_builder; signed_builder; close_signed;
    unfold md_accounts; signed_metas.
Qed.

(** C21. Whatever the protocol, the direction and the parameters: the only
    signature a trade needs is the payer's. *)
Theorem trades_need_only_the_payer r dex is_buy rand s ixs :
  eval r (build dex is_buy rand s) = Val (Ok ixs) → signed (payer s) ixs.
Proof.
  intros He. destruct dex.
  - by eapply pumpfun_signed.
  - by eapply pumpswap_signed.
  - by eapply bonk_signed.
  - by eapply raydium_signed; [left|].
  - by eapply raydium_signed; [right|].
  - by eapply meteora_signed.
Qed.
End Signed.
End Factory.

(** ** A concrete trade *)

Definition toy_signers : @SdkSigners toy_sdk.
Proof. split; intros; repeat constructor; by intros. Defined.

Lemma trades_need_only_the_payer_witness :
  signed 11 (built (@eval toy_sdk _ (set_default_rents initial_rents)
                      (@build release toy_sdk toy_text DPumpSwap true 0 toy_buy))).
Proof.
  apply (@trades_need_only_the_payer release toy_sdk toy_text toy_signers
           (set_default_rents initial_rents) DPumpSwap true 0 toy_buy).
  vm_cast_no_check (eq_refl (@eval toy_sdk _ (set_default_rents initial_rents)
                      (@build release toy_sdk toy_text DPumpSwap true 0 toy_buy))).
Defined.
