(* ===== verification/TxBuild.v ===== *)
(** * Transactions (sdk trading/common/transaction_builder.rs,
    compute_budget_manager.rs, nonce_manager.rs, trading/middleware/,
    trading/core/execution.rs, transaction_pool.rs)

    A transaction is the advance of a durable nonce, the tip, the compute
    budget and the instructions of the protocol, in this order, passed through
    the middlewares and compiled.  The process-wide cache of compute-budget
    instructions is the state of the computations.  Compiling and signing a
    message, and the compute-budget instructions, come from the Solana SDK: the
    class [TxSdk].  The pool of builders only recycles memory. *)

From Stdlib Require Import String.
From S2P Require Import Prelude F64 Solana FastFn Effects Client.

#[local] Open Scope string_scope.
#[local] Open Scope Z_scope.
#[local] Open Scope list_scope.

(** The 64 bytes of a signature. *)
Abbreviation Signature := string (only parsing).

(** [Signature::default()]. *)
Definition default_signature : Signature :=
  string_of_list_ascii (repeat Ascii.zero 64).

Class TxSdk := {
  TxMessage : Type;
  set_compute_unit_price : Z → Instruction;
  set_compute_unit_limit : Z → Instruction;
  v0_try_compile : Pubkey → list Instruction → AddressLookupTableAccount → Hash →
                   result string TxMessage;
  legacy_new_with_blockhash : Pubkey → list Instruction → Hash → TxMessage;
  try_sign : Pubkey → TxMessage → result string Signature;
}.

(** ** Middlewares *)

(** An implementation of the trait, supplied by the user of the library. *)
(* sdk trading/middleware/traits.rs:7-45 InstructionMiddleware *)
Record InstructionMiddleware := mk_middleware {
  mw_name : string;
  process_protocol_instructions : list Instruction → string → bool →
                                  result string (list Instruction);
  process_full_instructions : list Instruction → string → bool →
                              result string (list Instruction);
}.

Abbreviation MiddlewareManager := (list InstructionMiddleware).

(* sdk trading/middleware/traits.rs:67-70 add_middleware *)
Definition add_middleware (m : MiddlewareManager) (middleware : InstructionMiddleware) :
    MiddlewareManager := m ++ [middleware].

(* sdk trading/middleware/builtin.rs:9-53 LoggingMiddleware *)
Definition LoggingMiddleware : InstructionMiddleware :=
  mk_middleware "LoggingMiddleware" (λ ixs _ _, Ok ixs) (λ ixs _ _, Ok ixs).

(* sdk trading/middleware/traits.rs:109-111 with_common_middlewares *)
Definition with_common_middlewares : MiddlewareManager := add_middleware [] LoggingMiddleware.

(** The loop of both operations: it stops when no instruction is left. *)
(* sdk trading/middleware/traits.rs:78-85 apply_middlewares_process_full_instructions, loop *)
Fixpoint apply_middlewares
    (process : InstructionMiddleware → list Instruction → result string (list Instruction))
    (m : MiddlewareManager) (ixs : list Instruction) : result string (list Instruction) :=
  match m with
  | [] => Ok ixs
  | middleware :: m' =>
      match process middleware ixs with
      | Err e => Err e
      | Ok [] => Ok []
      | Ok ixs' => apply_middlewares process m' ixs'
      end
  end.

(* sdk trading/middleware/traits.rs:72-86 apply_middlewares_process_full_instructions *)
Definition apply_middlewares_process_full_instructions (m : MiddlewareManager)
    (full_instructions : list Instruction) (protocol_name : string) (is_buy : bool) :
    result string (list Instruction) :=
  apply_middlewares (λ w ixs, process_full_instructions w ixs protocol_name is_buy) m
    full_instructions.

(* sdk trading/middleware/traits.rs:89-106 apply_middlewares_process_protocol_instructions *)
Definition apply_middlewares_process_protocol_instructions (m : MiddlewareManager)
    (protocol_instructions : list Instruction) (protocol_name : string) (is_buy : bool) :
    result string (list Instruction) :=
  apply_middlewares (λ w ixs, process_protocol_instructions w ixs protocol_name is_buy) m
    protocol_instructions.

(** ** Preprocessing *)

(* sdk trading/core/execution.rs:82-94 preprocess *)
Definition preprocess (instructions : list Instruction) : result string () :=
  match instructions with [] => Err "Instructions empty" | _ => Ok () end.

(* sdk trading/core/execution.rs:10-10 BYTES_PER_ACCOUNT *)
Definition BYTES_PER_ACCOUNT : Z := 32.

(* sdk trading/core/execution.rs:97-113 calculate_size *)
Definition calculate_size (instructions : list Instruction) : Z :=
  foldl (λ total_size instr,
    total_size + Z.of_nat (length (data instr))
    + Z.of_nat (length (accounts instr)) * BYTES_PER_ACCOUNT) 0 instructions.

(* sdk trading/core/execution.rs:121-132 is_buy *)
Definition is_buy_mint (input_mint : Pubkey) : bool :=
  (input_mint =? SOL_TOKEN_ACCOUNT) || (input_mint =? WSOL_TOKEN_ACCOUNT)
  || (input_mint =? USD1_TOKEN_ACCOUNT) || (input_mint =? USDC_TOKEN_ACCOUNT).

(** ** Amounts, nonce, compute budget *)

(* sdk trading/common/transaction_builder.rs:21-27 sol_f64_to_lamports *)
Definition tip_lamports (sol : f64) : Z :=
  if f_leb sol f_zero then 0
  else
    let lamports := fmul sol (f64_of_Z 1000000000) in
    f64_as_u64 (f_round (f_min lamports (f64_of_Z u64_max))).

(** The cache of compute-budget instructions, by price and limit. *)
(** sdk trading/common/compute_budget_manager.rs, COMPUTE_BUDGET_CACHE. *)
Abbreviation BudgetCache := (gmap (Z * Z) (list Instruction)).

Section TxBuild.
Context `{Sdk} `{TxSdk}.

(* sdk trading/common/nonce_manager.rs:12-24 add_nonce_instruction *)
Definition add_nonce_instruction (instructions : list Instruction) (payer : Pubkey)
    (durable_nonce : option DurableNonceInfo) : exec (result string (list Instruction)) :=
  match durable_nonce with
  | Some n =>
      let* account := unwrap (nonce_account n) in
      Val (Ok (instructions ++ [system_advance_nonce account payer]))
  | None => Val (Ok instructions)
  end.

(* sdk trading/common/nonce_manager.rs:29-44 get_transaction_blockhash *)
Definition get_transaction_blockhash (recent_blockhash : option Hash)
    (durable_nonce : option DurableNonceInfo) : result string Hash :=
  match durable_nonce with
  | Some n => ok_or (current_nonce n) "durable_nonce.current_nonce is None"
  | None =>
      match recent_blockhash with
      | Some hash => Ok hash
      | None => Err "Must provide either recent_blockhash or durable_nonce for transaction"
      end
  end.

(** The instructions a key of the cache stands for. *)
(* sdk trading/common/compute_budget_manager.rs:34-40 extend_compute_budget_instructions, insts *)
Definition budget_instructions (unit_price unit_limit : Z) : list Instruction :=
  (if 0 <? unit_price then [set_compute_unit_price unit_price] else [])
  ++ (if 0 <? unit_limit then [set_compute_unit_limit unit_limit] else []).

(* sdk trading/common/compute_budget_manager.rs:22-44 extend_compute_budget_instructions *)
Definition extend_compute_budget_instructions (instructions : list Instruction)
    (unit_price unit_limit : Z) (cache : BudgetCache) : list Instruction * BudgetCache :=
  match cache !! (unit_price, unit_limit) with
  | Some cached => (instructions ++ cached, cache)
  | None =>
      let insts := budget_instructions unit_price unit_limit in
      (instructions ++ insts, <[(unit_price, unit_limit) := insts]> cache)
  end.

(* sdk trading/common/compute_budget_manager.rs:48-63 compute_budget_instructions *)
Definition compute_budget_instructions (unit_price unit_limit : Z) (cache : BudgetCache) :
    list Instruction * BudgetCache :=
  match cache !! (unit_price, unit_limit) with
  | Some cached => (cached, cache)
  | None =>
      let insts := budget_instructions unit_price unit_limit in
      (insts, <[(unit_price, unit_limit) := insts]> cache)
  end.

(** ** Compiling *)

(** [VersionedMessage]: which form was compiled, and the message. *)
Inductive VersionedMessage :=
| V0 (m : TxMessage)
| Legacy (m : TxMessage).

Definition message_of (v : VersionedMessage) : TxMessage :=
  match v with V0 m => m | Legacy m => m end.

Record VersionedTransaction := mk_Tx {
  signatures : list Signature;
  message : VersionedMessage;
}.

(** The builder is reset before use, so the instructions are those given. *)
(* sdk trading/core/transaction_pool.rs:79-104 build_zero_alloc *)
Definition build_zero_alloc (payer : Pubkey) (instructions : list Instruction)
    (address_lookup_table_account : option AddressLookupTableAccount) (recent_blockhash : Hash) :
    exec VersionedMessage :=
  match address_lookup_table_account with
  | Some alt =>
      let* m := unwrap_res (v0_try_compile payer instructions alt recent_blockhash) in Val (V0 m)
  | None => Val (Legacy (legacy_new_with_blockhash payer instructions recent_blockhash))
  end.

(* sdk trading/common/transaction_builder.rs:80-113 build_versioned_transaction *)
Definition build_versioned_transaction (payer : Pubkey) (instructions : list Instruction)
    (address_lookup_table_account : option AddressLookupTableAccount) (blockhash : Hash)
    (middleware_manager : option MiddlewareManager) (protocol_name : string) (is_buy : bool) :
    exec (result string VersionedTransaction) :=
  let? full_instructions :=
    match middleware_manager with
    | Some m => Val (apply_middlewares_process_full_instructions m instructions protocol_name is_buy)
    | None => Val (Ok instructions)
    end in
  let* versioned_msg :=
    build_zero_alloc payer full_instructions address_lookup_table_account blockhash in
  let* signature := unwrap_res (try_sign payer (message_of versioned_msg)) in
  Val (Ok (mk_Tx [signature] versioned_msg)).

(** Everything after the nonce. *)
(* sdk trading/common/transaction_builder.rs:53-77 build_transaction, after the nonce *)
Definition build_rest (payer : Pubkey) (unit_limit unit_price : Z)
    (business_instructions : list Instruction)
    (address_lookup_table_account : option AddressLookupTableAccount)
    (recent_blockhash : option Hash) (middleware_manager : option MiddlewareManager)
    (protocol_name : string) (is_buy with_tip : bool) (tip_account : Pubkey) (tip_amount : f64)
    (durable_nonce : option DurableNonceInfo) (instructions : list Instruction) :
    M BudgetCache VersionedTransaction := λ cache,
  let instructions :=
    if with_tip && f_gtb tip_amount f_zero
    then instructions ++ [system_transfer payer tip_account (tip_lamports tip_amount)]
    else instructions in
  let '(instructions, cache) :=
    extend_compute_budget_instructions instructions unit_price unit_limit cache in
  let instructions := instructions ++ business_instructions in
  match get_transaction_blockhash recent_blockhash durable_nonce with
  | Err e => Val (Err e, cache)
  | Ok blockhash =>
      let* r := build_versioned_transaction payer instructions address_lookup_table_account
                  blockhash middleware_manager protocol_name is_buy in
      Val (r, cache)
  end.

(* sdk trading/common/transaction_builder.rs:31-78 build_transaction *)
Definition build_transaction (payer : Pubkey) (unit_limit unit_price : Z)
    (business_instructions : list Instruction)
    (address_lookup_table_account : option AddressLookupTableAccount)
    (recent_blockhash : option Hash) (middleware_manager : option MiddlewareManager)
    (protocol_name : string) (is_buy with_tip : bool) (tip_account : Pubkey) (tip_amount : f64)
    (durable_nonce : option DurableNonceInfo) : M BudgetCache VersionedTransaction :=
  let% r := of_ex (add_nonce_instruction [] payer durable_nonce) in
  let% instructions := of_res r in
  build_rest payer unit_limit unit_price business_instructions address_lookup_table_account
    recent_blockhash middleware_manager protocol_name is_buy with_tip tip_account tip_amount
    durable_nonce instructions.

(** ** What is built *)

Definition valid_budget (cache : BudgetCache) : Prop :=
  ∀ price limit ixs, cache !! (price, limit) = Some ixs → ixs = budget_instructions price limit.

Lemma valid_budget_empty : valid_budget ∅.
Proof. intros price limit ixs. by rewrite lookup_empty. Qed.

Lemma extend_budget_valid ixs price limit cache :
  valid_budget cache →
  ∃ cache', extend_compute_budget_instructions ixs price limit cache
            = (ixs ++ budget_instructions price limit, cache') ∧ valid_budget cache'.
Proof.
  intros Hv. unfold extend_compute_budget_instructions.
  destruct (cache !! (price, limit)) as [cached|] eqn:Hc.
  - rewrite (Hv _ _ _ Hc). eauto.
  - eexists. split; [done|]. intros p l ixs' [[[= <- <-] <-]|[_ Hl]]%lookup_insert_Some; eauto.
Qed.

(** The tip of a transaction. *)
Definition tip_instructions (payer : Pubkey) (with_tip : bool) (tip_account : Pubkey)
    (tip_amount : f64) : list Instruction :=
  if with_tip && f_gtb tip_amount f_zero
  then [system_transfer payer tip_account (tip_lamports tip_amount)] else [].

(** The advance of the nonce; without a nonce account the source panics. *)
Definition nonce_instructions (payer : Pubkey) (nonce : option DurableNonceInfo) :
    exec (list Instruction) :=
  match nonce with
  | Some n => let* a := unwrap (nonce_account n) in Val [system_advance_nonce a payer]
  | None => Val []
  end.

(** The transaction, without the cache. *)
Definition transaction_spec (payer : Pubkey) (unit_limit unit_price : Z)
    (business_instructions : list Instruction) (alt : option AddressLookupTableAccount)
    (recent_blockhash : option Hash) (middlewares : option MiddlewareManager)
    (protocol_name : string) (is_buy with_tip : bool) (tip_account : Pubkey) (tip_amount : f64)
    (durable_nonce : option DurableNonceInfo) : exec (result string VersionedTransaction) :=
  let* nonce := nonce_instructions payer durable_nonce in
  let? blockhash := Val (get_transaction_blockhash recent_blockhash durable_nonce) in
  build_versioned_transaction payer
    (nonce ++ tip_instructions payer with_tip tip_account tip_amount
     ++ budget_instructions unit_price unit_limit ++ business_instructions)
    alt blockhash middlewares protocol_name is_buy.

Lemma tip_step ixs payer with_tip tip_account tip_amount :
  (if with_tip && f_gtb tip_amount f_zero
   then ixs ++ [system_transfer payer tip_account (tip_lamports tip_amount)] else ixs)
  = ixs ++ tip_instructions payer with_tip tip_account tip_amount.
Proof. unfold tip_instructions. destruct (_ && _); [done|]. by rewrite app_nil_r. Qed.

(** From any state of the compute-budget cache whose entries are right,
    building a transaction has the value, the error or the panic of the
    cache-free description - nonce advance first, then the tip, the compute
    budget and the protocol's instructions - and leaves the cache right. *)
Theorem build_transaction_refines payer limit price business alt recent mws name is_buy with_tip
    tip_account tip_amount nonce cache :
  valid_budget cache →
  match transaction_spec payer limit price business alt recent mws name is_buy with_tip
          tip_account tip_amount nonce with
  | Val r => ∃ cache', build_transaction payer limit price business alt recent mws name is_buy
                         with_tip tip_account tip_amount nonce cache = Val (r, cache')
                       ∧ valid_budget cache'
  | Panic => build_transaction payer limit price business alt recent mws name is_buy with_tip
               tip_account tip_amount nonce cache = Panic
  end.
Proof.
  intros Hv. unfold transaction_spec, build_transaction, mbind, of_ex, of_res, build_rest.
  assert (Hn : add_nonce_instruction [] payer nonce
               = let* l := nonce_instructions payer nonce in Val (Ok l)).
  { unfold add_nonce_instruction, nonce_instructions. destruct nonce as [n|]; [|done].
    by destruct (nonce_account n). }
  rewrite Hn. destruct (nonce_instructions payer nonce) as [l|]; [|done]. cbn [exec_bind].
  rewrite tip_step. edestruct extend_budget_valid as (c & -> & Hc); [exact Hv|].
  destruct (get_transaction_blockhash recent nonce) as [h|e]; cbn [try_bind]; [|by exists c].
  rewrite <- !app_assoc. destruct (build_versioned_transaction _ _ _ _ _ _ _); [|done].
  by eexists.
Qed.

(** What the middlewares make of the instructions. *)
Definition through_middlewares (mws : option MiddlewareManager) (name : string) (is_buy : bool)
    (ixs : list Instruction) : result string (list Instruction) :=
  match mws with
  | Some m => apply_middlewares_process_full_instructions m ixs name is_buy
  | None => Ok ixs
  end.

Lemma versioned_transaction_ok payer ixs alt hash mws name is_buy tx :
  build_versioned_transaction payer ixs alt hash mws name is_buy = Val (Ok tx) →
  ∃ full sig, through_middlewares mws name is_buy ixs = Ok full
    ∧ build_zero_alloc payer full alt hash = Val (message tx)
    ∧ try_sign payer (message_of (message tx)) = Ok sig ∧ signatures tx = [sig].
Proof.
  unfold build_versioned_transaction, through_middlewares. intros Hb.
  apply try_bind_Ok_inv in Hb as (full & Hf & Hb).
  apply exec_bind_Val_inv in Hb as (m & Hm & Hb).
  apply exec_bind_Val_inv in Hb as (sig & Hs & Hb). apply Val_inj, Ok_inj in Hb. subst tx.
  exists full, sig. split; [destruct mws; congruence|]. split; [done|].
  cbn [message signatures]. destruct (try_sign payer (message_of m)); [|done].
  apply Val_inj in Hs. by subst.
Qed.

Lemma build_transaction_ok payer limit price business alt recent mws name is_buy with_tip
    tip_account tip_amount nonce cache tx cache' :
  valid_budget cache →
  build_transaction payer limit price business alt recent mws name is_buy with_tip
    tip_account tip_amount nonce cache = Val (Ok tx, cache') →
  valid_budget cache' ∧
  ∃ nonce_ixs hash full sig, nonce_instructions payer nonce = Val nonce_ixs
    ∧ get_transaction_blockhash recent nonce = Ok hash
    ∧ through_middlewares mws name is_buy
        (nonce_ixs ++ tip_instructions payer with_tip tip_account tip_amount
         ++ budget_instructions price limit ++ business) = Ok full
    ∧ build_zero_alloc payer full alt hash = Val (message tx)
    ∧ try_sign payer (message_of (message tx)) = Ok sig ∧ signatures tx = [sig].
Proof.
  intros Hv Hb.
  pose proof (build_transaction_refines payer limit price business alt recent mws name is_buy
    with_tip tip_account tip_amount nonce cache Hv) as Hr.
  destruct (transaction_spec _ _ _ _ _ _ _ _ _ _ _ _ _) as [r|] eqn:Hs; [|congruence].
  destruct Hr as (c & Hr & Hc). rewrite Hb in Hr. injection Hr as <- <-. split; [done|].
  unfold transaction_spec in Hs. apply exec_bind_Val_inv in Hs as (nonce_ixs & Hn & Hs).
  apply try_bind_Ok_inv in Hs as (hash & Hh & Hs). apply Val_inj in Hh.
  apply versioned_transaction_ok in Hs as (full & sig & Hf & Hm & Hsig & Hss).
  exists nonce_ixs, hash, full, sig. auto 10.
Qed.

(** C17. A transaction with a durable nonce, without middlewares: its first
    instruction advances the nonce account, it is valid for the stored nonce
    also when a recent blockhash is given, and its only signature is the
    payer's of the compiled message. *)
Theorem nonce_transaction payer limit price business alt recent name is_buy with_tip
    tip_account tip_amount n cache tx cache' :
  valid_budget cache →
  build_transaction payer limit price business alt recent None name is_buy with_tip
    tip_account tip_amount (Some n) cache = Val (Ok tx, cache') →
  ∃ account hash sig, nonce_account n = Some account ∧ current_nonce n = Some hash
    ∧ build_zero_alloc payer
        (system_advance_nonce account payer
         :: tip_instructions payer with_tip tip_account tip_amount
         ++ budget_instructions price limit ++ business) alt hash = Val (message tx)
    ∧ try_sign payer (message_of (message tx)) = Ok sig ∧ signatures tx = [sig].
Proof.
  intros Hv [_ (ixs & hash & full & sig & Hn & Hh & Hf & Hm & Hs & Hss)]%build_transaction_ok;
    [|done].
  unfold nonce_instructions in Hn. apply exec_bind_Val_inv in Hn as (a & Ha & Hn).
  apply Val_inj in Hn. subst ixs. apply Ok_inj in Hf. subst full. apply unwrap_Val in Ha.
  simpl in Hh. destruct (current_nonce n) as [h|]; [|done]. apply Ok_inj in Hh. subst h.
  exists a, hash, sig. auto.
Qed.
End TxBuild.

(** ** A concrete SDK for evaluation *)

(** A message is what was compiled; a signature is the text of its parts. *)
Definition toy_tx_sdk : TxSdk := {|
  TxMessage := Pubkey * list Instruction * Hash;
  set_compute_unit_price := λ x, mk_ix 3 [] (3 :: u64_le_bytes x);
  set_compute_unit_limit := λ x, mk_ix 3 [] (2 :: u64_le_bytes x);
  v0_try_compile := λ p ixs _ h, Ok (p, ixs, h);
  legacy_new_with_blockhash := λ p ixs h, (p, ixs, h);
  try_sign := λ p m, Ok (show p +:+ "/" +:+ show (calculate_size m.1.2) +:+ "/" +:+ show m.2);
|}.

Definition toy_nonce : DurableNonceInfo := mk_Nonce (Some 88) (Some 99).

Lemma build_transaction_refines_witness :
  match @transaction_spec toy_sdk toy_tx_sdk 11 500 7 [] None (Some 5) None "PumpSwap" true true 40
          (f64_lit 1 3) (Some toy_nonce) with
  | Val r => ∃ cache', @build_transaction toy_sdk toy_tx_sdk 11 500 7 [] None (Some 5) None
                         "PumpSwap" true true 40 (f64_lit 1 3) (Some toy_nonce) ∅ = Val (r, cache')
                       ∧ @valid_budget toy_tx_sdk cache'
  | Panic => @build_transaction toy_sdk toy_tx_sdk 11 500 7 [] None (Some 5) None
               "PumpSwap" true true 40 (f64_lit 1 3) (Some toy_nonce) ∅ = Panic
  end.
Proof. apply (@build_transaction_refines toy_sdk toy_tx_sdk), (@valid_budget_empty toy_tx_sdk). Defined.

Lemma nonce_transaction_witness :
  ∃ account hash sig, nonce_account toy_nonce = Some account ∧ current_nonce toy_nonce = Some hash
    ∧ @build_zero_alloc toy_tx_sdk 11
        (@system_advance_nonce toy_sdk account 11
         :: @tip_instructions toy_sdk 11 true 40 (f64_lit 1 3)
         ++ @budget_instructions toy_tx_sdk 7 500 ++ []) None hash
      = Val (@Legacy toy_tx_sdk
          (11, [@system_advance_nonce toy_sdk 88 11; @system_transfer toy_sdk 11 40 1000000;
                mk_ix 3 [] (3 :: u64_le_bytes 7); mk_ix 3 [] (2 :: u64_le_bytes 500)], 99))
    ∧ @try_sign toy_tx_sdk 11
        (11, [@system_advance_nonce toy_sdk 88 11; @system_transfer toy_sdk 11 40 1000000;
              mk_ix 3 [] (3 :: u64_le_bytes 7); mk_ix 3 [] (2 :: u64_le_bytes 500)], 99) = Ok sig
    ∧ ["11/162/99"] = [sig].
Proof.
  refine (@nonce_transaction toy_sdk toy_tx_sdk 11 500 7 [] None (Some 5) "PumpSwap" true true 40
    (f64_lit 1 3) toy_nonce ∅ (@mk_Tx toy_tx_sdk ["11/162/99"] (@Legacy toy_tx_sdk _))
    (@extend_compute_budget_instructions toy_tx_sdk [] 7 500 ∅).2
    (@valid_budget_empty toy_tx_sdk) _).
  vm_cast_no_check (eq_refl (@build_transaction toy_sdk toy_tx_sdk 11 500 7 [] None (Some 5) None
    "PumpSwap" true true 40 (f64_lit 1 3) (Some toy_nonce) ∅)).
Defined.
