(* ===== verification/Channels.v ===== *)
(** * Submission channels: tables and configuration
    (sdk constants/swqos.rs, sdk swqos/mod.rs, the tip accounts of swqos/*.rs)

    The tip accounts, the endpoints by region and the minimum tips of the
    services a transaction can be submitted through, with the functions that
    select from them.  A random choice takes the random index as an argument;
    sending is I/O and a parameter of the files that submit. *)

From Stdlib Require Import String.
From S2P Require Import Prelude F64 Solana GasFee Effects.

#[local] Open Scope string_scope.
#[local] Open Scope Z_scope.
#[local] Open Scope list_scope.

(** ** Tables *)

(* sdk constants/swqos.rs:4-13 JITO_TIP_ACCOUNTS *)
Definition JITO_TIP_ACCOUNTS : list Pubkey := Eval vm_compute in map pubkey
  ["96gYZGLnJYVFmbjzopPSU6QiEV5fGqZNyN9nmNhvrZU5";
   "HFqU5x63VTqvQss8hp11i4wVV8bD44PvwucfZ2bU7gRe";
   "Cw8CFyM9FkoMi7K7Crf6HNQqf4uEMzpKw6QNghXLvLkY";
   "ADaUMid9yfUytqMBgopwjb2DTLSokTSzL1zt6iGPaS49";
   "DfXygSm4jCyNCybVYYK6DwvWqjKee8pbDmJGcLWNDXjh";
   "ADuUkR4vqLUMWXxW9gh6D6L8pMSawimctcNZ5pGwDcEt";
   "DttWaMuVvTiduZRnguLF7jNxTgiMBZ1hyAumKUiL2KRL";
   "3AVi9Tg9Uo68tJfuvoKvqKNWKkC5wPdSSdeBnizKZ6jT"].

(* sdk constants/swqos.rs:16-27 HELIUS_TIP_ACCOUNTS *)
Definition HELIUS_TIP_ACCOUNTS : list Pubkey := Eval vm_compute in map pubkey
  ["4ACfpUFoaSD9bfPdeu6DBt89gB6ENTeHBXCAi87NhDEE";
   "D2L6yPZ2FmmmTKPgzaMKdhu6EWZcTpLy1Vhx8uvZe7NZ";
   "9bnz4RShgq1hAnLnZbP8kbgBg1kEmcJBYQq3gQbmnSta";
   "5VY91ws6B2hMmBFRsXkoAAdsPHBJwRfBht4DXox3xkwn";
   "2nyhqdwKcJZR2vcqCyrYsaPVdAnFoJjiksCXJ7hfEYgD";
   "2q5pghRs6arqVjRvT5gfgWfWcHWmw1ZuCzphgd5KfWGJ";
   "wyvPkWjVZz1M8fHQnMMCDTQDbkManefNNhweYk5WkcF";
   "3KCKozbAaF75qEU33jtzozcJ29yJuaLJTy2jFdzUY8bT";
   "4vieeGHPYPG2MmyPRcYjdiDmmhN3ww7hsFNap8pVN3Ey";
   "4TQLFNWK8AovT1gFvda5jfw2oJeRMKEmw7aH6MGBJ3or"].

(* sdk constants/swqos.rs:29-38 NEXTBLOCK_TIP_ACCOUNTS *)
Definition NEXTBLOCK_TIP_ACCOUNTS : list Pubkey := Eval vm_compute in map pubkey
  ["NextbLoCkVtMGcV47JzewQdvBpLqT9TxQFozQkN98pE";
   "NexTbLoCkWykbLuB1NkjXgFWkX9oAtcoagQegygXXA2";
   "NeXTBLoCKs9F1y5PJS9CKrFNNLU1keHW71rfh7KgA1X";
   "NexTBLockJYZ7QD7p2byrUa6df8ndV2WSd8GkbWqfbb";
   "neXtBLock1LeC67jYd1QdAa32kbVeubsfPNTJC1V5At";
   "nEXTBLockYgngeRmRrjDV31mGSekVPqZoMGhQEZtPVG";
   "NEXTbLoCkB51HpLBLojQfpyVAMorm3zzKg7w9NFdqid";
   "nextBLoCkPMgmG8ZgJtABeScP35qLa2AMCNKntAP7Xc"].

(* sdk constants/swqos.rs:40-46 ZEROSLOT_TIP_ACCOUNTS *)
Definition ZEROSLOT_TIP_ACCOUNTS : list Pubkey := Eval vm_compute in map pubkey
  ["Eb2KpSC8uMt9GmzyAEm5Eb1AAAgTjRaXWFjKyFXHZxF3";
   "FCjUJZ1qozm1e8romw216qyfQMaaWKxWsuySnumVCCNe";
   "ENxTEjSQ1YabmUpXAdCgevnHQ9MHdLv8tzFiuiYJqa13";
   "6rYLG55Q9RpsPGvqdPNJs4z5WTxJVatMB8zV3WJhs5EK";
   "Cix2bHfqPcKcM233mzxbLk14kSggUUiz2A87fJtGivXr"].

(* sdk constants/swqos.rs:48-66 NOZOMI_TIP_ACCOUNTS *)
Definition NOZOMI_TIP_ACCOUNTS : list Pubkey := Eval vm_compute in map pubkey
  ["TEMPaMeCRFAS9EKF53Jd6KpHxgL47uWLcpFArU1Fanq";
   "noz3jAjPiHuBPqiSPkkugaJDkJscPuRhYnSpbi8UvC4";
   "noz3str9KXfpKknefHji8L1mPgimezaiUyCHYMDv1GE";
   "noz6uoYCDijhu1V7cutCpwxNiSovEwLdRHPwmgCGDNo";
   "noz9EPNcT7WH6Sou3sr3GGjHQYVkN3DNirpbvDkv9YJ";
   "nozc5yT15LazbLTFVZzoNZCwjh3yUtW86LoUyqsBu4L";
   "nozFrhfnNGoyqwVuwPAW4aaGqempx4PU6g6D9CJMv7Z";
   "nozievPk7HyK1Rqy1MPJwVQ7qQg2QoJGyP71oeDwbsu";
   "noznbgwYnBLDHu8wcQVCEw6kDrXkPdKkydGJGNXGvL7";
   "nozNVWs5N8mgzuD3qigrCG2UoKxZttxzZ85pvAQVrbP";
   "nozpEGbwx4BcGp6pvEdAh1JoC2CQGZdU6HbNP1v2p6P";
   "nozrhjhkCr3zXT3BiT4WCodYCUFeQvcdUkM7MqhKqge";
   "nozrwQtWhEdrA6W8dkbt9gnUaMs52PdAv5byipnadq3";
   "nozUacTVWub3cL4mJmGCYjKZTnE9RbdY5AP46iQgbPJ";
   "nozWCyTPppJjRuw2fpzDhhWbW355fzosWSzrrMYB1Qk";
   "nozWNju6dY353eMkMqURqwQEoM3SFgEKC6psLCSfUne";
   "nozxNBgWohjR75vdspfxR5H9ceC7XXH99xpxhVGt3Bb"].

(* sdk constants/swqos.rs:68-73 BLOX_TIP_ACCOUNTS *)
Definition BLOX_TIP_ACCOUNTS : list Pubkey := Eval vm_compute in map pubkey
  ["HWEoBxYs7ssKuudEjzjmpfJVX7Dvi7wescFsVx2L5yoY";
   "95cfoy472fcQHaw4tPGBTKpn6ZQnfEPfBgDQx6gcRmRg";
   "3UQUKjhMKaY2S6bjcQD6yHB7utcZt5bfarRCmctpRtUd";
   "FogxVNs6Mm2w9rnGL1vkARSwJxvLE8mujTv3LK8RnUhF"].

(* sdk constants/swqos.rs:75-82 NODE1_TIP_ACCOUNTS *)
Definition NODE1_TIP_ACCOUNTS : list Pubkey := Eval vm_compute in map pubkey
  ["node1PqAa3BWWzUnTHVbw8NJHC874zn9ngAkXjgWEej";
   "node1UzzTxAAeBTpfZkQPJXBAqixsbdth11ba1NXLBG";
   "node1Qm1bV4fwYnCurP8otJ9s5yrkPq7SPZ5uhj3Tsv";
   "node1PUber6SFmSQgvf2ECmXsHP5o3boRSGhvJyPMX1";
   "node1AyMbeqiVN6eoQzEAwCA6Pk826hrdqdAHR7cdJ3";
   "node1YtWCoTwwVYTFLfS19zquRQzYX332hs1HEuRBjC"].

(* sdk constants/swqos.rs:84-95 FLASHBLOCK_TIP_ACCOUNTS *)
Definition FLASHBLOCK_TIP_ACCOUNTS : list Pubkey := Eval vm_compute in map pubkey
  ["FLaShB3iXXTWE1vu9wQsChUKq3HFtpMAhb8kAh1pf1wi";
   "FLashhsorBmM9dLpuq6qATawcpqk1Y2aqaZfkd48iT3W";
   "FLaSHJNm5dWYzEgnHJWWJP5ccu128Mu61NJLxUf7mUXU";
   "FLaSHR4Vv7sttd6TyDF4yR1bJyAxRwWKbohDytEMu3wL";
   "FLASHRzANfcAKDuQ3RXv9hbkBy4WVEKDzoAgxJ56DiE4";
   "FLasHstqx11M8W56zrSEqkCyhMCCpr6ze6Mjdvqope5s";
   "FLAShWTjcweNT4NSotpjpxAkwxUr2we3eXQGhpTVzRwy";
   "FLasHXTqrbNvpWFB6grN47HGZfK6pze9HLNTgbukfPSk";
   "FLAshyAyBcKb39KPxSzXcepiS8iDYUhDGwJcJDPX4g2B";
   "FLAsHZTRcf3Dy1APaz6j74ebdMC6Xx4g6i9YxjyrDybR"].

(* sdk constants/swqos.rs:97-112 BLOCKRAZOR_TIP_ACCOUNTS *)
Definition BLOCKRAZOR_TIP_ACCOUNTS : list Pubkey := Eval vm_compute in map pubkey
  ["FjmZZrFvhnqqb9ThCuMVnENaM3JGVuGWNyCAxRJcFpg9";
   "6No2i3aawzHsjtThw81iq1EXPJN6rh8eSJCLaYZfKDTG";
   "A9cWowVAiHe9pJfKAj3TJiN9VpbzMUq6E4kEvf5mUT22";
   "Gywj98ophM7GmkDdaWs4isqZnDdFCW7B46TXmKfvyqSm";
   "68Pwb4jS7eZATjDfhmTXgRJjCiZmw1L7Huy4HNpnxJ3o";
   "4ABhJh5rZPjv63RBJBuyWzBK3g9gWMUQdTZP2kiW31V9";
   "B2M4NG5eyZp5SBQrSdtemzk5TqVuaWGQnowGaCBt8GyM";
   "5jA59cXMKQqZAVdtopv8q3yyw9SYfiE3vUCbt7p8MfVf";
   "5YktoWygr1Bp9wiS1xtMtUki1PeYuuzuCF98tqwYxf61";
   "295Avbam4qGShBYK7E9H5Ldew4B3WyJGmgmXfiWdeeyV";
   "EDi4rSy2LZgKJX74mbLTFk4mxoTgT6F7HxxzG2HBAFyK";
   "BnGKHAC386n4Qmv9xtpBVbRaUTKixjBe3oagkPFKtoy6";
   "Dd7K2Fp7AtoN8xCghKDRmyqr5U169t48Tw5fEd3wT9mq";
   "AP6qExwrbRgBAVaehg4b5xHENX815sMabtBzUzVB4v8S"].

(* sdk constants/swqos.rs:115-134 ASTRALANE_TIP_ACCOUNTS *)
Definition ASTRALANE_TIP_ACCOUNTS : list Pubkey := Eval vm_compute in map pubkey
  ["astrazznxsGUhWShqgNtAdfrzP2G83DzcWVJDxwV9bF";
   "astra4uejePWneqNaJKuFFA8oonqCE1sqF6b45kDMZm";
   "astra9xWY93QyfG6yM8zwsKsRodscjQ2uU2HKNL5prk";
   "astraRVUuTHjpwEVvNBeQEgwYx9w9CFyfxjYoobCZhL";
   "astraEJ2fEj8Xmy6KLG7B3VfbKfsHXhHrNdCQx7iGJK";
   "astraubkDw81n4LuutzSQ8uzHCv4BhPVhfvTcYv8SKC";
   "astraZW5GLFefxNPAatceHhYjfA1ciq9gvfEg2S47xk";
   "astrawVNP4xDBKT7rAdxrLYiTSTdqtUr63fSMduivXK";
   "AstrA1ejL4UeXC2SBP4cpeEmtcFPZVLxx3XGKXyCW6to";
   "AsTra79FET4aCKWspPqeSFvjJNyp96SvAnrmyAxqg5b7";
   "AstrABAu8CBTyuPXpV4eSCJ5fePEPnxN8NqBaPKQ9fHR";
   "AsTRADtvb6tTmrsqULQ9Wji9PigDMjhfEMza6zkynEvV";
   "AsTRAEoyMofR3vUPpf9k68Gsfb6ymTZttEtsAbv8Bk4d";
   "AStrAJv2RN2hKCHxwUMtqmSxgdcNZbihCwc1mCSnG83W";
   "Astran35aiQUF57XZsmkWMtNCtXGLzs8upfiqXxth2bz";
   "AStRAnpi6kFrKypragExgeRoJ1QnKH7pbSjLAKQVWUum";
   "ASTRaoF93eYt73TYvwtsv6fMWHWbGmMUZfVZPo3CRU9C"].

(* sdk constants/swqos.rs:136-142 STELLIUM_TIP_ACCOUNTS *)
Definition STELLIUM_TIP_ACCOUNTS : list Pubkey := Eval vm_compute in map pubkey
  ["ste11JV3MLMM7x7EJUM2sXcJC1H7F4jBLnP9a9PG8PH";
   "ste11MWPjXCRfQryCshzi86SGhuXjF4Lv6xMXD2AoSt";
   "ste11p5x8tJ53H1NbNQsRBg1YNRd4GcVpxtDw8PBpmb";
   "ste11p7e2KLYou5bwtt35H7BM6uMdo4pvioGjJXKFcN";
   "ste11TMV68LMi1BguM4RQujtbNCZvf1sjsASpqgAvSX"].

(* sdk constants/swqos.rs:145-148 LIGHTSPEED_TIP_ACCOUNTS *)
Definition LIGHTSPEED_TIP_ACCOUNTS : list Pubkey := Eval vm_compute in map pubkey
  ["53PhM3UTdMQWu5t81wcd35AHGc5xpmHoRjem7GQPvXjA";
   "9tYF5yPDC1NP8s6diiB3kAX6ZZnva9DM3iDwJkBRarBB"].

(* sdk constants/swqos.rs:150-161 SOYAS_TIP_ACCOUNTS *)
Definition SOYAS_TIP_ACCOUNTS : list Pubkey := Eval vm_compute in map pubkey
  ["soyas4s6L8KWZ8rsSk1mF3d1mQScoTGGAgjk98bF8nP";
   "soyascXFW5wEEYiwfEmHy2pNwomqzvggJosGVD6TJdY";
   "soyasDBdKjADwPz3xk82U3TNPRDKEWJj7wWLajNHZ1L";
   "soyasE2abjBAynmHbGWgEwk4ctBy7JMTUCNrMbjcnyH";
   "soyasi59njacMUPvo3TM5paHjeK8pYSdovXgFi32gRt";
   "soyasQYhJxv8uZgWDxhg72td6piAf7XTkoyWHtSATEz";
   "soyastP66xyYC8XADXZjdMM5BAVGD2YRvz8dwtLsqb8";
   "soyasvdgUJWYcUCzDxpmjUnNjH7KamXLXTzLwFvdVPE";
   "soyasvxAunisNxaoRxkKGjNir7KmbwYnr37JmefkX9G";
   "soyas5doVFUwH8s5zK8gEvCL5KR5ogDmf52LsrJEZ9h"].

(* sdk constants/swqos.rs:163-172 SPEEDLANDING_TIP_ACCOUNTS *)
Definition SPEEDLANDING_TIP_ACCOUNTS : list Pubkey := Eval vm_compute in map pubkey
  ["SpEEdz8S1KorkMZqjMUxfxrmWwofmp6ReNP2Nx6CUmq";
   "SpeeDy3GJM4wcrQmk1itRFWgidvxX4rwjTLMv78wwjE";
   "SPeEdva37vW8vRtqgYjprQs1g3965icfVN5Rt7SMAyh";
   "speEdrSEpox5GUfHWcBc7tQjRuSfUin2yvB7qoYvvJh";
   "SPeEDmkHkN3A2roSZf6aZyEMsmrGqTHKqwP51y2Y4rV";
   "SpeedLdTJXh2RKpXEaP8JCxkWoUVXhtdPQ1EnxBJMxc";
   "SpEediGKLbbXndSYTzwmz6Z3NDgHQLDcTDEvGFkSMH9";
   "speede8xCcUq2Tiv1efXeTuE3k9TDNq8TnGKaKSc6J4"].

(* sdk constants/swqos.rs:183-194 SWQOS_ENDPOINTS_JITO *)
Definition SWQOS_ENDPOINTS_JITO : list string :=
  ["https://ny.mainnet.block-engine.jito.wtf";
   "https://frankfurt.mainnet.block-engine.jito.wtf";
   "https://amsterdam.mainnet.block-engine.jito.wtf";
   "https://dublin.mainnet.block-engine.jito.wtf";
   "https://slc.mainnet.block-engine.jito.wtf";
   "https://tokyo.mainnet.block-engine.jito.wtf";
   "https://singapore.mainnet.block-engine.jito.wtf";
   "https://london.mainnet.block-engine.jito.wtf";
   "https://slc.mainnet.block-engine.jito.wtf";
   "https://mainnet.block-engine.jito.wtf"].

(* sdk constants/swqos.rs:197-208 SWQOS_ENDPOINTS_NEXTBLOCK *)
Definition SWQOS_ENDPOINTS_NEXTBLOCK : list string :=
  ["http://ny.nextblock.io";
   "http://fra.nextblock.io";
   "http://ams.nextblock.io";
   "http://dublin.nextblock.io";
   "http://slc.nextblock.io";
   "http://tokyo.nextblock.io";
   "http://sgp.nextblock.io";
   "http://london.nextblock.io";
   "http://slc.nextblock.io";
   "http://fra.nextblock.io"].

(* sdk constants/swqos.rs:210-221 SWQOS_ENDPOINTS_ZERO_SLOT *)
Definition SWQOS_ENDPOINTS_ZERO_SLOT : list string :=
  ["http://ny.0slot.trade";
   "http://de2.0slot.trade";
   "http://ams.0slot.trade";
   "http://ams.0slot.trade";
   "http://la.0slot.trade";
   "http://jp.0slot.trade";
   "http://jp.0slot.trade";
   "http://ams.0slot.trade";
   "http://la.0slot.trade";
   "http://de2.0slot.trade"].

(* sdk constants/swqos.rs:224-235 SWQOS_ENDPOINTS_TEMPORAL *)
Definition SWQOS_ENDPOINTS_TEMPORAL : list string :=
  ["http://ewr1.nozomi.temporal.xyz";
   "http://fra2.nozomi.temporal.xyz";
   "http://ams1.nozomi.temporal.xyz";
   "http://lon1.nozomi.temporal.xyz";
   "http://lax1.nozomi.temporal.xyz";
   "http://tyo1.nozomi.temporal.xyz";
   "http://sgp1.nozomi.temporal.xyz";
   "http://lon1.nozomi.temporal.xyz";
   "http://lax1.nozomi.temporal.xyz";
   "http://fra2.nozomi.temporal.xyz"].

(* sdk constants/swqos.rs:237-248 SWQOS_ENDPOINTS_BLOX *)
Definition SWQOS_ENDPOINTS_BLOX : list string :=
  ["https://ny.solana.dex.blxrbdn.com";
   "https://germany.solana.dex.blxrbdn.com";
   "https://amsterdam.solana.dex.blxrbdn.com";
   "https://uk.solana.dex.blxrbdn.com";
   "https://la.solana.dex.blxrbdn.com";
   "https://tokyo.solana.dex.blxrbdn.com";
   "https://tokyo.solana.dex.blxrbdn.com";
   "https://uk.solana.dex.blxrbdn.com";
   "https://la.solana.dex.blxrbdn.com";
   "https://global.solana.dex.blxrbdn.com"].

(* sdk constants/swqos.rs:250-261 SWQOS_ENDPOINTS_NODE1 *)
Definition SWQOS_ENDPOINTS_NODE1 : list string :=
  ["http://ny.node1.me";
   "http://fra.node1.me";
   "http://ams.node1.me";
   "http://lon.node1.me";
   "http://ny.node1.me";
   "http://tk.node1.me";
   "http://tk.node1.me";
   "http://lon.node1.me";
   "http://ny.node1.me";
   "http://fra.node1.me"].

(* sdk constants/swqos.rs:265-276 SWQOS_ENDPOINTS_NODE1_QUIC *)
Definition SWQOS_ENDPOINTS_NODE1_QUIC : list string :=
  ["ny.node1.me:16666";
   "fra.node1.me:16666";
   "ams.node1.me:16666";
   "lon.node1.me:16666";
   "ny.node1.me:16666";
   "tk.node1.me:16666";
   "tk.node1.me:16666";
   "lon.node1.me:16666";
   "ny.node1.me:16666";
   "fra.node1.me:16666"].

(* sdk constants/swqos.rs:279-290 SWQOS_ENDPOINTS_FLASHBLOCK *)
Definition SWQOS_ENDPOINTS_FLASHBLOCK : list string :=
  ["http://ny.flashblock.trade";
   "http://fra.flashblock.trade";
   "http://ams.flashblock.trade";
   "http://london.flashblock.trade";
   "http://slc.flashblock.trade";
   "http://tokyo.flashblock.trade";
   "http://singapore.flashblock.trade";
   "http://london.flashblock.trade";
   "http://slc.flashblock.trade";
   "http://fra.flashblock.trade"].

(* sdk constants/swqos.rs:294-305 SWQOS_ENDPOINTS_BLOCKRAZOR *)
Definition SWQOS_ENDPOINTS_BLOCKRAZOR : list string :=
  ["http://newyork.solana.blockrazor.xyz:443/v2/sendTransaction";
   "http://frankfurt.solana.blockrazor.xyz:443/v2/sendTransaction";
   "http://amsterdam.solana.blockrazor.xyz:443/v2/sendTransaction";
   "http://london.solana.blockrazor.xyz:443/v2/sendTransaction";
   "http://newyork.solana.blockrazor.xyz:443/v2/sendTransaction";
   "http://tokyo.solana.blockrazor.xyz:443/v2/sendTransaction";
   "http://tokyo.solana.blockrazor.xyz:443/v2/sendTransaction";
   "http://london.solana.blockrazor.xyz:443/v2/sendTransaction";
   "http://newyork.solana.blockrazor.xyz:443/v2/sendTransaction";
   "http://frankfurt.solana.blockrazor.xyz:443/v2/sendTransaction"].

(* sdk constants/swqos.rs:309-320 SWQOS_ENDPOINTS_BLOCKRAZOR_GRPC *)
Definition SWQOS_ENDPOINTS_BLOCKRAZOR_GRPC : list string :=
  ["http://newyork.solana-grpc.blockrazor.xyz:80";
   "http://frankfurt.solana-grpc.blockrazor.xyz:80";
   "http://amsterdam.solana-grpc.blockrazor.xyz:80";
   "http://london.solana-grpc.blockrazor.xyz:80";
   "http://newyork.solana-grpc.blockrazor.xyz:80";
   "http://tokyo.solana-grpc.blockrazor.xyz:80";
   "http://tokyo.solana-grpc.blockrazor.xyz:80";
   "http://london.solana-grpc.blockrazor.xyz:80";
   "http://newyork.solana-grpc.blockrazor.xyz:80";
   "http://frankfurt.solana-grpc.blockrazor.xyz:80"].

(* sdk constants/swqos.rs:328-339 SWQOS_ENDPOINTS_ASTRALANE_PLAIN *)
Definition SWQOS_ENDPOINTS_ASTRALANE_PLAIN : list string :=
  ["http://ny.gateway.astralane.io/iris";
   "http://fr.gateway.astralane.io/iris";
   "http://ams.gateway.astralane.io/iris";
   "http://ams.gateway.astralane.io/iris";
   "http://la.gateway.astralane.io/iris";
   "http://jp.gateway.astralane.io/iris";
   "http://sg.gateway.astralane.io/iris";
   "http://ams.gateway.astralane.io/iris";
   "http://la.gateway.astralane.io/iris";
   "https://edge.astralane.io/iris"].

(* sdk constants/swqos.rs:342-353 SWQOS_ENDPOINTS_ASTRALANE_BINARY *)
Definition SWQOS_ENDPOINTS_ASTRALANE_BINARY : list string :=
  ["http://ny.gateway.astralane.io/irisb";
   "http://fr.gateway.astralane.io/irisb";
   "http://ams.gateway.astralane.io/irisb";
   "http://ams.gateway.astralane.io/irisb";
   "http://la.gateway.astralane.io/irisb";
   "http://jp.gateway.astralane.io/irisb";
   "http://sg.gateway.astralane.io/irisb";
   "http://ams.gateway.astralane.io/irisb";
   "http://la.gateway.astralane.io/irisb";
   "https://edge.astralane.io/irisb"].

(* sdk constants/swqos.rs:357-368 SWQOS_ENDPOINTS_ASTRALANE_QUIC *)
Definition SWQOS_ENDPOINTS_ASTRALANE_QUIC : list string :=
  ["ny.gateway.astralane.io:7000";
   "fr.gateway.astralane.io:7000";
   "ams.gateway.astralane.io:7000";
   "ams.gateway.astralane.io:7000";
   "la.gateway.astralane.io:7000";
   "jp.gateway.astralane.io:7000";
   "sg.gateway.astralane.io:7000";
   "ams.gateway.astralane.io:7000";
   "la.gateway.astralane.io:7000";
   "lim.gateway.astralane.io:7000"].

(* sdk constants/swqos.rs:371-382 SWQOS_ENDPOINTS_ASTRALANE_QUIC_MEV *)
Definition SWQOS_ENDPOINTS_ASTRALANE_QUIC_MEV : list string :=
  ["ny.gateway.astralane.io:9000";
   "fr.gateway.astralane.io:9000";
   "ams.gateway.astralane.io:9000";
   "ams.gateway.astralane.io:9000";
   "la.gateway.astralane.io:9000";
   "jp.gateway.astralane.io:9000";
   "sg.gateway.astralane.io:9000";
   "ams.gateway.astralane.io:9000";
   "la.gateway.astralane.io:9000";
   "lim.gateway.astralane.io:9000"].

(* sdk constants/swqos.rs:384-395 SWQOS_ENDPOINTS_STELLIUM *)
Definition SWQOS_ENDPOINTS_STELLIUM : list string :=
  ["http://ewr1.flashrpc.com";
   "http://fra1.flashrpc.com";
   "http://ams1.flashrpc.com";
   "http://lhr1.flashrpc.com";
   "http://ewr1.flashrpc.com";
   "http://tyo1.flashrpc.com";
   "http://tyo1.flashrpc.com";
   "http://lhr1.flashrpc.com";
   "http://ewr1.flashrpc.com";
   "http://fra1.flashrpc.com"].

(* sdk constants/swqos.rs:397-408 SWQOS_ENDPOINTS_SOYAS *)
Definition SWQOS_ENDPOINTS_SOYAS : list string :=
  ["nyc.landing.soyas.xyz:9000";
   "fra.landing.soyas.xyz:9000";
   "ams.landing.soyas.xyz:9000";
   "lon.landing.soyas.xyz:9000";
   "nyc.landing.soyas.xyz:9000";
   "tyo.landing.soyas.xyz:9000";
   "tyo.landing.soyas.xyz:9000";
   "lon.landing.soyas.xyz:9000";
   "nyc.landing.soyas.xyz:9000";
   "fra.landing.soyas.xyz:9000"].

(* sdk constants/swqos.rs:410-421 SWQOS_ENDPOINTS_SPEEDLANDING *)
Definition SWQOS_ENDPOINTS_SPEEDLANDING : list string :=
  ["nyc.speedlanding.trade:17778";
   "fra.speedlanding.trade:17778";
   "ams.speedlanding.trade:17778";
   "ams.speedlanding.trade:17778";
   "nyc.speedlanding.trade:17778";
   "tyo.speedlanding.trade:17778";
   "sgp.speedlanding.trade:17778";
   "ams.speedlanding.trade:17778";
   "nyc.speedlanding.trade:17778";
   "fra.speedlanding.trade:17778"].

(* sdk constants/swqos.rs:424-435 SWQOS_ENDPOINTS_HELIUS *)
Definition SWQOS_ENDPOINTS_HELIUS : list string :=
  ["http://ewr-sender.helius-rpc.com/fast";
   "http://fra-sender.helius-rpc.com/fast";
   "http://ams-sender.helius-rpc.com/fast";
   "http://lon-sender.helius-rpc.com/fast";
   "http://slc-sender.helius-rpc.com/fast";
   "http://tyo-sender.helius-rpc.com/fast";
   "http://sg-sender.helius-rpc.com/fast";
   "http://lon-sender.helius-rpc.com/fast";
   "http://slc-sender.helius-rpc.com/fast";
   "https://sender.helius-rpc.com/fast"].

(* sdk constants/swqos.rs:437-437 SWQOS_MIN_TIP_DEFAULT *)
Definition SWQOS_MIN_TIP_DEFAULT : f64 := f64_lit 1 5.

(* sdk constants/swqos.rs:438-438 SWQOS_MIN_TIP_JITO *)
Definition SWQOS_MIN_TIP_JITO : f64 := f64_lit 1 5.

(* sdk constants/swqos.rs:439-439 SWQOS_MIN_TIP_NEXTBLOCK *)
Definition SWQOS_MIN_TIP_NEXTBLOCK : f64 := f64_lit 1 3.

(* sdk constants/swqos.rs:440-440 SWQOS_MIN_TIP_ZERO_SLOT *)
Definition SWQOS_MIN_TIP_ZERO_SLOT : f64 := f64_lit 1 4.

(* sdk constants/swqos.rs:441-441 SWQOS_MIN_TIP_TEMPORAL *)
Definition SWQOS_MIN_TIP_TEMPORAL : f64 := f64_lit 1 4.

(* sdk constants/swqos.rs:442-442 SWQOS_MIN_TIP_BLOXROUTE *)
Definition SWQOS_MIN_TIP_BLOXROUTE : f64 := f64_lit 1 4.

(* sdk constants/swqos.rs:443-443 SWQOS_MIN_TIP_NODE1 *)
Definition SWQOS_MIN_TIP_NODE1 : f64 := f64_lit 1 4.

(* sdk constants/swqos.rs:444-444 SWQOS_MIN_TIP_FLASHBLOCK *)
Definition SWQOS_MIN_TIP_FLASHBLOCK : f64 := f64_lit 1 4.

(* sdk constants/swqos.rs:445-445 SWQOS_MIN_TIP_BLOCKRAZOR *)
Definition SWQOS_MIN_TIP_BLOCKRAZOR : f64 := f64_lit 1 4.

(* sdk constants/swqos.rs:446-446 SWQOS_MIN_TIP_ASTRALANE *)
Definition SWQOS_MIN_TIP_ASTRALANE : f64 := f64_lit 1 5.

(* sdk constants/swqos.rs:447-447 SWQOS_MIN_TIP_STELLIUM *)
Definition SWQOS_MIN_TIP_STELLIUM : f64 := f64_lit 1 4.

(* sdk constants/swqos.rs:448-448 SWQOS_MIN_TIP_LIGHTSPEED *)
Definition SWQOS_MIN_TIP_LIGHTSPEED : f64 := f64_lit 1 4.

(* sdk constants/swqos.rs:449-449 SWQOS_MIN_TIP_SOYAS *)
Definition SWQOS_MIN_TIP_SOYAS : f64 := f64_lit 1 3.

(* sdk constants/swqos.rs:450-450 SWQOS_MIN_TIP_SPEEDLANDING *)
Definition SWQOS_MIN_TIP_SPEEDLANDING : f64 := f64_lit 1 3.

(* sdk constants/swqos.rs:452-452 SWQOS_MIN_TIP_HELIUS *)
Definition SWQOS_MIN_TIP_HELIUS : f64 := f64_lit 2 4.

(* sdk constants/swqos.rs:454-454 SWQOS_MIN_TIP_HELIUS_SWQOS_ONLY *)
Definition SWQOS_MIN_TIP_HELIUS_SWQOS_ONLY : f64 := f64_lit 5 6.

(** ** Regions, configurations, endpoints *)

(* sdk swqos/mod.rs:61-63 SWQOS_BLACKLIST *)
Definition SWQOS_BLACKLIST : list SwqosType := [NextBlock].

(* sdk swqos/mod.rs:69-74 SwqosTransport *)
Inductive SwqosTransport := Http | Grpc | Quic.

(* sdk swqos/mod.rs:79-87 AstralaneTransport *)
Inductive AstralaneTransport := Binary | Plain | AQuic.

(* sdk swqos/mod.rs:217-231 SwqosRegion *)
Inductive SwqosRegion :=
| NewYork | Frankfurt | Amsterdam | Dublin | SLC | Tokyo | Singapore | London | LosAngeles
| RegionDefault.

(** [region as usize]. *)
Definition region_index (r : SwqosRegion) : nat :=
  match r with
  | NewYork => 0 | Frankfurt => 1 | Amsterdam => 2 | Dublin => 3 | SLC => 4 | Tokyo => 5
  | Singapore => 6 | London => 7 | LosAngeles => 8 | RegionDefault => 9
  end.

#[export] Instance SwqosTransport_eq_dec : EqDecision SwqosTransport.
Proof. solve_decision. Defined.
#[export] Instance SwqosRegion_eq_dec : EqDecision SwqosRegion.
Proof. solve_decision. Defined.

(** The channels with a token, a region and an optional URL share a
    constructor, tagged with the service. *)
(* sdk swqos/mod.rs:234-268 SwqosConfig *)
Inductive SwqosConfig :=
| CDefault (url : string)
| CPlain (service : SwqosType) (token : string) (region : SwqosRegion) (url : option string)
| CNode1 (token : string) (region : SwqosRegion) (url : option string)
    (transport : option SwqosTransport)
| CBlockRazor (token : string) (region : SwqosRegion) (url : option string)
    (transport : option SwqosTransport)
| CAstralane (token : string) (region : SwqosRegion) (url : option string)
    (mode : option AstralaneTransport)
| CHelius (api_key : string) (region : SwqosRegion) (url : option string)
    (swqos_only : option bool).

(* sdk swqos/mod.rs:271-289 swqos_type *)
Definition swqos_type (c : SwqosConfig) : SwqosType :=
  match c with
  | CDefault _ => SwDefault
  | CPlain s _ _ _ => s
  | CNode1 _ _ _ _ => Node1
  | CBlockRazor _ _ _ _ => BlockRazor
  | CAstralane _ _ _ _ => Astralane
  | CHelius _ _ _ _ => Helius
  end.

(* sdk swqos/mod.rs:292-294 is_blacklisted *)
Definition is_blacklisted (c : SwqosConfig) : bool :=
  bool_decide (swqos_type c ∈ SWQOS_BLACKLIST).

(** Indexing an array panics out of range. *)
Definition at_region (table : list string) (r : SwqosRegion) : exec string :=
  unwrap (table !! region_index r).

(* sdk swqos/mod.rs:296-318 get_endpoint *)
Definition get_endpoint (t : SwqosType) (region : SwqosRegion) (url : option string) :
    exec string :=
  match url with
  | Some custom_url => Val custom_url
  | None =>
      match t with
      | Jito => at_region SWQOS_ENDPOINTS_JITO region
      | NextBlock => at_region SWQOS_ENDPOINTS_NEXTBLOCK region
      | ZeroSlot => at_region SWQOS_ENDPOINTS_ZERO_SLOT region
      | Temporal => at_region SWQOS_ENDPOINTS_TEMPORAL region
      | Bloxroute => at_region SWQOS_ENDPOINTS_BLOX region
      | Node1 => at_region SWQOS_ENDPOINTS_NODE1 region
      | FlashBlock => at_region SWQOS_ENDPOINTS_FLASHBLOCK region
      | BlockRazor => at_region SWQOS_ENDPOINTS_BLOCKRAZOR region
      | Astralane => at_region SWQOS_ENDPOINTS_ASTRALANE_BINARY region
      | Stellium => at_region SWQOS_ENDPOINTS_STELLIUM region
      | Lightspeed => Val ""
      | Soyas => at_region SWQOS_ENDPOINTS_SOYAS region
      | Speedlanding => at_region SWQOS_ENDPOINTS_SPEEDLANDING region
      | Helius => at_region SWQOS_ENDPOINTS_HELIUS region
      | SwDefault => Val ""
      end
  end.

(* sdk swqos/mod.rs:320-351 get_endpoint_with_transport *)
Definition get_endpoint_with_transport (t : SwqosType) (region : SwqosRegion)
    (url : option string) (transport : option SwqosTransport) : exec string :=
  match url with
  | Some custom_url => Val custom_url
  | None =>
      match t with
      | BlockRazor =>
          at_region (if decide (transport = Some Http) then SWQOS_ENDPOINTS_BLOCKRAZOR
                     else SWQOS_ENDPOINTS_BLOCKRAZOR_GRPC) region
      | Node1 =>
          at_region (if decide (transport = Some Quic) then SWQOS_ENDPOINTS_NODE1_QUIC
                     else SWQOS_ENDPOINTS_NODE1) region
      | _ => get_endpoint t region None
      end
  end.

(** The endpoint a client is created for. *)
(* sdk swqos/mod.rs:353-507 get_swqos_client *)
Definition client_endpoint (mev_protection : bool) (c : SwqosConfig) : exec string :=
  match c with
  | CDefault endpoint => Val endpoint
  | CPlain s _ region url => get_endpoint s region url
  | CNode1 _ region url transport =>
      if decide (transport = Some Quic)
      then match url with Some u => Val u | None => at_region SWQOS_ENDPOINTS_NODE1_QUIC region end
      else get_endpoint Node1 region url
  | CBlockRazor _ region url transport =>
      get_endpoint_with_transport BlockRazor region url transport
  | CAstralane _ region url mode =>
      match url with
      | Some u => Val u
      | None =>
          at_region (match default Binary mode with
                     | AQuic => if mev_protection then SWQOS_ENDPOINTS_ASTRALANE_QUIC_MEV
                                else SWQOS_ENDPOINTS_ASTRALANE_QUIC
                     | Plain => SWQOS_ENDPOINTS_ASTRALANE_PLAIN
                     | Binary => SWQOS_ENDPOINTS_ASTRALANE_BINARY
                     end) region
      end
  | CHelius _ region url _ => get_endpoint Helius region url
  end.

(** ** Clients *)

(** How a client reaches its service: over HTTP (the default channel: through a
    node), over gRPC or over QUIC. *)
Inductive Backend := BHttp | BGrpc | BQuic.
#[export] Instance Backend_eq_dec : EqDecision Backend.
Proof. solve_decision. Defined.

(** A client of a channel: its identity (the address of the shared object), its
    service, its token, the flag of Helius, where and how it sends, and whether
    it asks for protection. *)
Record SwqosClient := mk_channel {
  ch_ptr : Z;
  ch_type : SwqosType;
  ch_auth_token : string;
  ch_swqos_only : bool;
  ch_endpoint : string;
  ch_backend : Backend;
  ch_mev_protection : bool;
}.

(** Clients are told apart by their identity. *)
Definition distinct (clients : list SwqosClient) : Prop :=
  ∀ c c', c ∈ clients → c' ∈ clients → ch_ptr c = ch_ptr c' → c = c'.

(* sdk swqos/mod.rs:192-210 min_tip_sol *)
Definition default_min_tip (t : SwqosType) : f64 :=
  match t with
  | Jito => SWQOS_MIN_TIP_JITO
  | NextBlock => SWQOS_MIN_TIP_NEXTBLOCK
  | ZeroSlot => SWQOS_MIN_TIP_ZERO_SLOT
  | Temporal => SWQOS_MIN_TIP_TEMPORAL
  | Bloxroute => SWQOS_MIN_TIP_BLOXROUTE
  | Node1 => SWQOS_MIN_TIP_NODE1
  | FlashBlock => SWQOS_MIN_TIP_FLASHBLOCK
  | BlockRazor => SWQOS_MIN_TIP_BLOCKRAZOR
  | Astralane => SWQOS_MIN_TIP_ASTRALANE
  | Stellium => SWQOS_MIN_TIP_STELLIUM
  | Lightspeed => SWQOS_MIN_TIP_LIGHTSPEED
  | Soyas => SWQOS_MIN_TIP_SOYAS
  | Speedlanding => SWQOS_MIN_TIP_SPEEDLANDING
  | Helius => SWQOS_MIN_TIP_HELIUS
  | SwDefault => SWQOS_MIN_TIP_DEFAULT
  end.

(* sdk swqos/helius.rs:197-203 min_tip_sol *)
Definition min_tip_sol (c : SwqosClient) : f64 :=
  match ch_type c with
  | Helius => if ch_swqos_only c then SWQOS_MIN_TIP_HELIUS_SWQOS_ONLY else SWQOS_MIN_TIP_HELIUS
  | t => default_min_tip t
  end.

(** The tables the clients choose their tip account from. *)
Definition tip_table (t : SwqosType) : list Pubkey :=
  match t with
  | Jito => JITO_TIP_ACCOUNTS
  | NextBlock => NEXTBLOCK_TIP_ACCOUNTS
  | ZeroSlot => ZEROSLOT_TIP_ACCOUNTS
  | Temporal => NOZOMI_TIP_ACCOUNTS
  | Bloxroute => BLOX_TIP_ACCOUNTS
  | Node1 => NODE1_TIP_ACCOUNTS
  | FlashBlock => FLASHBLOCK_TIP_ACCOUNTS
  | BlockRazor => BLOCKRAZOR_TIP_ACCOUNTS
  | Astralane => ASTRALANE_TIP_ACCOUNTS
  | Stellium => STELLIUM_TIP_ACCOUNTS
  | Lightspeed => LIGHTSPEED_TIP_ACCOUNTS
  | Soyas => SOYAS_TIP_ACCOUNTS
  | Speedlanding => SPEEDLANDING_TIP_ACCOUNTS
  | Helius => HELIUS_TIP_ACCOUNTS
  | SwDefault => []
  end.

(** [table.choose(rng)]: none of an empty table, else any element. *)
Definition choose (index : nat) (table : list Pubkey) : option Pubkey :=
  match table with [] => None | _ => table !! (index mod length table)%nat end.

(** The hash of the sha2 crate, in hexadecimal. *)
Class Sha256 := { sha256_hex : string → string }.

(* sdk swqos/temporal.rs:22-27 SPECIAL_API_KEY_PREFIX, and the constants after it *)
Definition SPECIAL_API_KEY_PREFIX : string := "298b5025".
Definition SPECIAL_API_KEY_SUFFIX : string := "a055323".
Definition SPECIAL_API_KEY_HASH : string :=
  "e7be933c8058aebcb4d08a6120fb4dfd2ead568d42527a3fc2b60a703f25e48d".
Definition TEMPORAL_COMMUNITY_TIP_ADDRESS : string :=
  "mwGELGMgGGrNL1UibNCQeJHDE7qdPptWRYB6noUHmTj".

(** [str::ends_with]. *)
Definition ends_with (s suffix : string) : bool :=
  Nat.leb (String.length suffix) (String.length s)
  && String.eqb (substring (String.length s - String.length suffix) (String.length suffix) s) suffix.

Section Tip.
Context `{Sha256} `{KeyText}.

(* sdk swqos/temporal.rs:68-74 get_tip_account, special key *)
Definition community_key (api_key : string) : bool :=
  Nat.leb (String.length SPECIAL_API_KEY_PREFIX + String.length SPECIAL_API_KEY_SUFFIX)
    (String.length api_key)
  && String.prefix SPECIAL_API_KEY_PREFIX api_key
  && ends_with api_key SPECIAL_API_KEY_SUFFIX
  && String.eqb (sha256_hex api_key) SPECIAL_API_KEY_HASH.

(** Every client draws from its table, else takes its first element; the
    default client names no account, Temporal has a key of its own account. *)
(* sdk swqos/temporal.rs:66-85 get_tip_account *)
Definition get_tip_account (c : SwqosClient) (index : nat) : exec (result string string) :=
  match ch_type c with
  | SwDefault => Val (Ok "")
  | Jito =>
      Val (match choose index JITO_TIP_ACCOUNTS with
           | Some acc => Ok (pubkey_to_string acc)
           | None => Err "no valid tip accounts found"
           end)
  | t =>
      if bool_decide (t = Temporal) && community_key (ch_auth_token c)
      then Val (Ok TEMPORAL_COMMUNITY_TIP_ADDRESS)
      else
        let* acc := unwrap (match choose index (tip_table t) with
                            | Some acc => Some acc
                            | None => head (tip_table t)
                            end) in
        Val (Ok (pubkey_to_string acc))
  end.

(** ** The tables are complete *)

Lemma choose_from_table index table : table ≠ [] → ∃ p, choose index table = Some p ∧ p ∈ table.
Proof.
  intros Hne. unfold choose. destruct table as [|p l]; [done|].
  destruct (lookup_lt_is_Some_2 (p :: l) (index mod length (p :: l))%nat) as [q Hq].
  { apply Nat.mod_upper_bound. done. }
  exists q. split; [done|]. by eapply list_elem_of_lookup_2.
Qed.

Lemma tip_tables_nonempty t : t ≠ SwDefault → tip_table t ≠ [].
Proof. by destruct t. Qed.

Lemma tip_tables_keys t p : p ∈ tip_table t → is_pubkey p.
Proof.
  intros Hp. assert (Hb : forallb (λ q, (0 <=? q) && (q <? 2 ^ 256)) (tip_table t) = true)
    by (destruct t; vm_compute; done).
  rewrite forallb_forall in Hb. apply list_elem_of_In in Hp. specialize (Hb p Hp).
  unfold is_pubkey. bool_hyps. lia.
Qed.

(** Asking a channel for its tip account never fails and never panics:
    the default channel names none, every other channel names an account of
    its own table, readable as a key, or the community account of Temporal. *)
Theorem tip_account_total c index :
  ∃ s, get_tip_account c index = Val (Ok s)
    ∧ (ch_type c = SwDefault ∧ s = ""
       ∨ ch_type c = Temporal ∧ s = TEMPORAL_COMMUNITY_TIP_ADDRESS
       ∨ ∃ p, p ∈ tip_table (ch_type c) ∧ pubkey_from_str s = Some p).
Proof.
  unfold get_tip_account. destruct (decide (ch_type c = SwDefault)) as [Hd|Hd].
  { rewrite Hd. eauto. }
  destruct (choose_from_table index _ (tip_tables_nonempty _ Hd)) as (p & Hp & Hin).
  pose proof (pubkey_text_round_trip p (tip_tables_keys _ _ Hin)) as Hr.
  assert (Ht : ∀ t', tip_table t' = tip_table (ch_type c) →
    ∃ s, (let* acc := unwrap (match choose index (tip_table t') with
                              | Some acc => Some acc | None => head (tip_table t') end) in
          Val (Ok (E := string) (pubkey_to_string acc))) = Val (Ok s)
         ∧ ∃ p, p ∈ tip_table (ch_type c) ∧ pubkey_from_str s = Some p).
  { intros t' ->. rewrite Hp. eexists. split; [done|]. eauto. }
  destruct (ch_type c); try done; rewrite ?(bool_decide_false (_ = Temporal)) by done;
    cbn [andb]; try (edestruct Ht as (s & -> & q & Hq); [reflexivity|]; eauto 10).
  - cbn [tip_table] in Hp. rewrite Hp. eauto 10.
  - destruct (_ && _); eauto 10.
Qed.
End Tip.

(** Every configuration has an endpoint in every region: no index is out
    of range, a custom URL is taken as it is, and without one the endpoint is
    empty only for the default channel and for Lightspeed. *)
Theorem client_endpoint_total mev c :
  ∃ url, client_endpoint mev c = Val url ∧
  match c with
  | CDefault u | CPlain _ _ _ (Some u) | CNode1 _ _ (Some u) _ | CBlockRazor _ _ (Some u) _
  | CAstralane _ _ (Some u) _ | CHelius _ _ (Some u) _ => url = u
  | _ => url = "" ↔ swqos_type c = SwDefault ∨ swqos_type c = Lightspeed
  end.
Proof.
  destruct c as [u|s tok r [u|]|tok r [u|] tr|tok r [u|] tr|tok r [u|] m|tok r [u|] o];
    try (destruct tr as [[]|]); try (destruct m as [[]|]); try destruct mev;
    try (by eexists); destruct r; try destruct s; eexists;
    (split; [reflexivity|]); cbn; naive_solver.
Qed.

(** The tables of one provider agree row by row: the HTTP and QUIC hosts
    of Node1, the plain and binary paths of Astralane, and its QUIC hosts with
    and without protection differ in scheme, path and port only. *)
Theorem endpoint_tables_agree r :
  (∃ host, at_region SWQOS_ENDPOINTS_NODE1 r = Val ("http://" +:+ host)
           ∧ at_region SWQOS_ENDPOINTS_NODE1_QUIC r = Val (host +:+ ":16666"))
  ∧ (∃ origin, at_region SWQOS_ENDPOINTS_ASTRALANE_PLAIN r = Val (origin +:+ "/iris")
               ∧ at_region SWQOS_ENDPOINTS_ASTRALANE_BINARY r = Val (origin +:+ "/irisb"))
  ∧ (∃ host, at_region SWQOS_ENDPOINTS_ASTRALANE_QUIC r = Val (host +:+ ":7000")
             ∧ at_region SWQOS_ENDPOINTS_ASTRALANE_QUIC_MEV r = Val (host +:+ ":9000")).
Proof.
  pose (row := λ table : list string, default "" (table !! region_index r)).
  pose (cut := λ (n : nat) s, substring 0 (String.length s - n) s).
  split; [|split].
  - exists (cut 6%nat (row SWQOS_ENDPOINTS_NODE1_QUIC)). destruct r; split; reflexivity.
  - exists (cut 5%nat (row SWQOS_ENDPOINTS_ASTRALANE_PLAIN)). destruct r; split; reflexivity.
  - exists (cut 5%nat (row SWQOS_ENDPOINTS_ASTRALANE_QUIC)). destruct r; split; reflexivity.
Qed.
