(* ===== verification/Confirm.v ===== *)
(** * Confirmation of transactions (sdk swqos/common.rs)

    The signatures of one trade are polled together, once a second for at most
    fifteen seconds, until one of them is confirmed or has failed on chain.
    The node's answers are a class over the environment, with the monotonic
    clock of [Instant] and its laws; the texts of transaction errors come from
    the Solana SDK and are a class too. *)

From Stdlib Require Import Ascii String.
From S2P Require Import Prelude Solana Effects Client TxBuild.

#[local] Open Scope string_scope.
#[local] Open Scope Z_scope.
#[local] Open Scope list_scope.

(** ** What a node reports *)

(** The instruction errors told apart, and all others. *)
Inductive InstructionError :=
| Custom (code : Z)
| GenericError | InvalidArgument | InvalidInstructionData | InvalidAccountData
| AccountDataTooSmall | InsufficientFunds | IncorrectProgramId | MissingRequiredSignature
| AccountAlreadyInitialized | UninitializedAccount
| OtherInstructionError (tag : Z).

Inductive TransactionError :=
| TxInstructionError (index : Z) (e : InstructionError)
| OtherTransactionError (tag : Z).

Inductive ConfirmationStatus := Processed | Confirmed | Finalized.

#[export] Instance ConfirmationStatus_eq_dec : EqDecision ConfirmationStatus.
Proof. solve_decision. Defined.

Record SignatureStatus := mk_Status {
  ss_err : option TransactionError;
  ss_confirmation_status : option ConfirmationStatus;
}.

(** The metadata of a transaction.  An error comes in the node's own form, and
    reading it back as a [TransactionError] may fail. *)
Record TxMeta := mk_Meta {
  tm_err : option (result string TransactionError);
  tm_log_messages : option (list string);
}.

Class Confirm (E : Type) `{Rpc E} := {
  rpc_get_signature_statuses :
    list Signature → E → result string (list (option SignatureStatus)) * E;
  rpc_get_transaction : Signature → E → result string (option TxMeta) * E;
  instant_ms : E → Z;
  instant_sleep ms e : 0 ≤ ms → instant_ms e + ms ≤ instant_ms (sleep_ms ms e);
  instant_statuses l e : instant_ms e ≤ instant_ms (rpc_get_signature_statuses l e).2;
  instant_transaction s e : instant_ms e ≤ instant_ms (rpc_get_transaction s e).2;
}.

Class TxErrorText := {
  tx_error_to_string : TransactionError → string;
  debug_string : string → string;
}.

(** ** The message of a failed transaction *)

(** [s.trim_end_matches('.')]. *)
Fixpoint trim_end_dots (s : string) : string :=
  match s with
  | EmptyString => EmptyString
  | String c s' =>
      match trim_end_dots s' with
      | EmptyString => if Ascii.eqb c "."%char then EmptyString else String c EmptyString
      | s'' => String c s''
      end
  end.

(** What follows the first occurrence of a marker. *)
Definition after (marker log : string) : option string :=
  match index 0 marker log with
  | Some idx =>
      let start := (idx + String.length marker)%nat in
      Some (substring start (String.length log - start) log)
  | None => None
  end.

(* sdk swqos/common.rs:193-205 poll_any_transaction_confirmation, one log *)
Definition log_message (log : string) : option string :=
  match after "Error Message: " log with
  | Some msg => Some (trim_end_dots msg)
  | None =>
      match after "Program log: Error: " log with
      | Some msg => Some (trim_end_dots msg)
      | None => None
      end
  end.

(* sdk swqos/common.rs:188-207 poll_any_transaction_confirmation, error_msg *)
Definition error_message (logs : option (list string)) : string :=
  match logs with
  | None => ""
  | Some logs =>
      foldl (λ error_msg log,
        match log_message log with
        | Some msg => (if String.eqb error_msg "" then "" else error_msg +:+ "; ") +:+ msg
        | None => error_msg
        end) "" logs
  end.

(* sdk swqos/common.rs:219-232 poll_any_transaction_confirmation, code *)
Definition instruction_error_code (e : InstructionError) : Z :=
  match e with
  | Custom c => c
  | GenericError => 1
  | InvalidArgument => 2
  | InvalidInstructionData => 3
  | InvalidAccountData => 4
  | AccountDataTooSmall => 5
  | InsufficientFunds => 6
  | IncorrectProgramId => 7
  | MissingRequiredSignature => 8
  | AccountAlreadyInitialized => 9
  | UninitializedAccount => 10
  | OtherInstructionError _ => 999
  end.

(** ** Polling *)

Definition POLL_TIMEOUT_MS : Z := 15000.
Definition POLL_INTERVAL_MS : Z := 1000.

(** A status that counts as success. *)
Definition is_confirmed (s : SignatureStatus) : bool :=
  match ss_err s with
  | Some _ => false
  | None => bool_decide (ss_confirmation_status s = Some Confirmed
                         ∨ ss_confirmation_status s = Some Finalized)
  end.

(** The loop over the statuses: the confirmed signature, else the first one
    that has landed, which is remembered between polls.  A status without a
    signature is out of range. *)
(* sdk swqos/common.rs:131-144 poll_any_transaction_confirmation, statuses *)
Fixpoint scan_statuses (signatures : list Signature) (statuses : list (option SignatureStatus))
    (i : nat) (landed : option Signature) : exec (Signature + option Signature) :=
  match statuses with
  | [] => Val (inr landed)
  | maybe_status :: rest =>
      match maybe_status with
      | Some s =>
          if is_confirmed s then let* sig := unwrap (signatures !! i) in Val (inl sig)
          else
            match landed with
            | Some _ => scan_statuses signatures rest (S i) landed
            | None =>
                let* sig := unwrap (signatures !! i) in
                scan_statuses signatures rest (S i) (Some sig)
            end
      | None => scan_statuses signatures rest (S i) landed
      end
  end.

Section Confirm.
Context {E : Type} `{Confirm E} `{TxErrorText}.

(* sdk swqos/common.rs:209-242 poll_any_transaction_confirmation, error *)
Definition landed_error (meta : TxMeta) (ui_err : result string TransactionError) : AnyError :=
  match ui_err with
  | Err e => Message e
  | Ok tx_err =>
      let '(code, idx) :=
        match tx_err with
        | TxInstructionError i i_error => (instruction_error_code i_error, Some i)
        | OtherTransactionError _ => (0, None)
        end in
      Typed (mk_TradeError code
        (tx_error_to_string tx_err +:+ " " +:+ debug_string (error_message (tm_log_messages meta)))
        idx)
  end.

Definition timed_out (signatures : list Signature) : AnyError :=
  Message ("Transaction confirmation timed out after 15s ("
           +:+ show (Z.of_nat (length signatures)) +:+ " signatures polled)").

(** The result of one turn of the loop: it returns, or goes on after a pause
    with what has landed. *)
(* sdk swqos/common.rs:119-245 poll_any_transaction_confirmation, one turn *)
Definition poll_once (signatures : list Signature) (start poll_count : Z)
    (landed : option Signature) : M E (result AnyError Signature + option Signature) := λ e,
  if POLL_TIMEOUT_MS <=? instant_ms e - start then Val (Ok (inl (Err (timed_out signatures))), e)
  else
    let poll_count := poll_count + 1 in
    let '(statuses, e) := rpc_get_signature_statuses signatures e in
    match statuses with
    | Err msg => Val (Ok (inl (Err (Message msg))), e)
    | Ok statuses =>
        let* scanned := scan_statuses signatures statuses 0 landed in
        match scanned with
        | inl sig => Val (Ok (inl (Ok sig)), e)
        | inr None => Val (Ok (inr None), sleep_ms POLL_INTERVAL_MS e)
        | inr (Some landed) =>
            if poll_count <? 10 then Val (Ok (inr (Some landed)), sleep_ms POLL_INTERVAL_MS e)
            else
              let '(details, e) := rpc_get_transaction landed e in
              match details with
              | Ok (Some meta) =>
                  match tm_err meta with
                  | None => Val (Ok (inl (Ok landed)), e)
                  | Some ui_err => Val (Ok (inl (Err (landed_error meta ui_err))), e)
                  end
              | Err _ | Ok None =>
                  Val (Ok (inr (Some landed)), sleep_ms POLL_INTERVAL_MS e)
              end
        end
    end.

(** The loop, with fuel. *)
Fixpoint poll_loop (fuel : nat) (signatures : list Signature) (start poll_count : Z)
    (landed : option Signature) : M E (option (result AnyError Signature)) :=
  match fuel with
  | O => mret None
  | S fuel' =>
      let% r := poll_once signatures start poll_count landed in
      match r with
      | inl res => mret (Some res)
      | inr landed => poll_loop fuel' signatures start (poll_count + 1) landed
      end
  end.

(** Fifteen pauses of a second and the turn that sees the time-out. *)
Definition POLL_FUEL : nat := 16.

(* sdk swqos/common.rs:98-246 poll_any_transaction_confirmation *)
Definition poll_any_transaction_confirmation (signatures : list Signature)
    (wait_confirmation : bool) : M E (result AnyError Signature) :=
  match signatures with
  | [] => mret (Err (Message "No signatures to confirm"))
  | sig :: _ =>
      if negb wait_confirmation then mret (Ok sig)
      else
        let% start := ask (λ e, (instant_ms e, e)) in
        let% r := poll_loop POLL_FUEL signatures start 0 None in
        match r with Some res => mret res | None => mpanic end
  end.

(* sdk swqos/common.rs:87-93 poll_transaction_confirmation *)
Definition poll_transaction_confirmation (txt_sig : Signature) (wait_confirmation : bool) :
    M E (result AnyError Signature) :=
  poll_any_transaction_confirmation [txt_sig] wait_confirmation.

(** Errors of polling are values: none is lost on the way. *)
Lemma poll_loop_no_error fuel signatures start n landed e m e' :
  poll_loop fuel signatures start n landed e ≠ Val (Err m, e').
Proof.
  revert n landed e. induction fuel as [|fuel IH]; intros n landed e; [done|].
  cbn [poll_loop]. unfold mbind.
  destruct (poll_once signatures start n landed e) as [[[[r|l]|x] e1]|] eqn:Hp; try done.
  exfalso. revert Hp. unfold poll_once. case_match; [done|].
  destruct (rpc_get_signature_statuses signatures e) as [[st|s] e2]; [|done].
  destruct (scan_statuses signatures st 0 landed) as [[s|[s|]]|]; cbn [exec_bind]; try done.
  case_match; [done|]. destruct (rpc_get_transaction s e2) as [[[meta|]|s'] e3]; try done.
  by destruct (tm_err meta).
Qed.

Lemma poll_no_error signatures wait e m e' :
  poll_any_transaction_confirmation signatures wait e ≠ Val (Err m, e').
Proof.
  unfold poll_any_transaction_confirmation. destruct signatures as [|s l]; [done|].
  destruct wait; [|done]. cbn [negb]. unfold mbind, ask.
  destruct (poll_loop POLL_FUEL _ _ _ _ e) as [[[[r|]|x] e1]|] eqn:Hp; try done.
  by apply poll_loop_no_error in Hp.
Qed.

(** ** A confirmation is one the node gave *)

(** The node has reported the signature as confirmed, by its status or by its
    transaction. *)
Definition reported (signatures : list Signature) (sig : Signature) : Prop :=
  (∃ e1 statuses e2 i s, rpc_get_signature_statuses signatures e1 = (Ok statuses, e2)
     ∧ statuses !! i = Some (Some s) ∧ signatures !! i = Some sig ∧ is_confirmed s = true)
  ∨ (∃ e1 meta e2, rpc_get_transaction sig e1 = (Ok (Some meta), e2) ∧ tm_err meta = None).

Definition among (signatures : list Signature) (landed : option Signature) : Prop :=
  ∀ sig, landed = Some sig → sig ∈ signatures.

Lemma scan_sound signatures statuses i landed r :
  among signatures landed → scan_statuses signatures statuses i landed = Val r →
  match r with
  | inl sig => ∃ j s, statuses !! j = Some (Some s) ∧ signatures !! (i + j)%nat = Some sig
                      ∧ is_confirmed s = true
  | inr l => among signatures l
  end.
Proof.
  revert i landed. induction statuses as [|[s|] rest IH]; intros i landed Hl; simpl.
  - by intros <-%Val_inj.
  - destruct (is_confirmed s) eqn:Hs.
    + intros Hu. apply exec_bind_Val_inv in Hu as (sig & Hu & <-%Val_inj).
      apply unwrap_Val in Hu. exists 0%nat, s. by rewrite Nat.add_0_r.
    + assert (Hrest : ∀ l, among signatures l → scan_statuses signatures rest (S i) l = Val r →
        match r with
        | inl sig => ∃ j s0, (Some s :: rest) !! j = Some (Some s0)
                       ∧ signatures !! (i + j)%nat = Some sig ∧ is_confirmed s0 = true
        | inr l => among signatures l
        end).
      { intros l Hl' Hr. apply IH in Hr; [|done]. destruct r as [sig|l']; [|done].
        destruct Hr as (j & s0 & Hj & Hi & Hc). exists (S j), s0. by rewrite Nat.add_succ_r. }
      destruct landed as [x|]; [by apply Hrest|].
      intros Hu. apply exec_bind_Val_inv in Hu as (sig & Hu & Hr). apply unwrap_Val in Hu.
      apply Hrest in Hr; [done|]. intros ? [= <-]. by eapply list_elem_of_lookup_2.
  - intros Hr. apply IH in Hr; [|done]. destruct r as [sig|l']; [|done].
    destruct Hr as (j & s0 & Hj & Hi & Hc). exists (S j), s0. by rewrite Nat.add_succ_r.
Qed.

Lemma poll_once_sound signatures start n landed e r e' :
  among signatures landed → poll_once signatures start n landed e = Val (Ok r, e') →
  match r with
  | inl (Ok sig) => sig ∈ signatures ∧ reported signatures sig
  | inl (Err _) => True
  | inr l => among signatures l
  end.
Proof.
  intros Hl. unfold poll_once. case_match; [by intros [= <- <-]|].
  destruct (rpc_get_signature_statuses signatures e) as [st e1] eqn:Hst.
  destruct st as [statuses|msg]; [|by intros [= <- <-]].
  destruct (scan_statuses signatures statuses 0 landed) as [sc|] eqn:Hsc; [|done]. cbn [exec_bind].
  apply scan_sound in Hsc; [|done]. destruct sc as [sig|[l|]].
  - intros [= <- <-]. destruct Hsc as (j & s & Hj & Hi & Hc). split; [by eapply list_elem_of_lookup_2|].
    left. by exists e, statuses, e1, j, s.
  - case_match; [by intros [= <- <-]|].
    destruct (rpc_get_transaction l e1) as [det e2] eqn:Hd.
    destruct det as [[meta|]|msg]; [|by intros [= <- <-]..].
    destruct (tm_err meta) eqn:He; [by intros [= <- <-]|]. intros [= <- <-].
    split; [by apply Hsc|]. right. by exists e1, meta, e2.
  - by intros [= <- <-].
Qed.

Lemma poll_loop_sound fuel signatures start n landed e sig e' :
  among signatures landed →
  poll_loop fuel signatures start n landed e = Val (Ok (Some (Ok sig)), e') →
  sig ∈ signatures ∧ reported signatures sig.
Proof.
  revert n landed e. induction fuel as [|fuel IH]; intros n landed e Hl; [done|].
  cbn [poll_loop]. unfold mbind.
  destruct (poll_once signatures start n landed e) as [[[r|x] e1]|] eqn:Hp; [|done..].
  apply poll_once_sound in Hp; [|done]. destruct r as [[s|x]|l].
  - by intros [= <- <-].
  - done.
  - by apply IH.
Qed.

(** A signature returned as confirmed is one of those asked about, and the
    node has reported it without an error: confirmed or finalized by its
    status, or by its transaction on chain. *)
Theorem poll_sound signatures e sig e' :
  poll_any_transaction_confirmation signatures true e = Val (Ok (Ok sig), e') →
  sig ∈ signatures ∧ reported signatures sig.
Proof.
  unfold poll_any_transaction_confirmation. destruct signatures as [|s0 l]; [done|].
  cbn [negb]. unfold mbind, ask.
  destruct (poll_loop POLL_FUEL _ _ _ _ e) as [[[[r|]|x] e1]|] eqn:Hp; [|done..].
  intros [= -> <-]. eapply poll_loop_sound; [|exact Hp]. done.
Qed.

(** ** Polling ends *)

(** The node answers with at most one status per signature. *)
Definition statuses_fit : Prop :=
  ∀ l e statuses e', rpc_get_signature_statuses l e = (Ok statuses, e') →
    (length statuses ≤ length l)%nat.

Lemma scan_total signatures statuses i landed :
  (i + length statuses ≤ length signatures)%nat →
  ∃ r, scan_statuses signatures statuses i landed = Val r.
Proof.
  revert i landed. induction statuses as [|[s|] rest IH]; intros i landed; simpl; intros Hlen.
  - eauto.
  - destruct (lookup_lt_is_Some_2 signatures i ltac:(lia)) as [sig Hsig]. rewrite Hsig. simpl.
    destruct (is_confirmed s); [eauto|]. destruct landed; apply IH; lia.
  - apply IH. lia.
Qed.

(** One turn returns, or the clock has advanced by a second. *)
Lemma poll_once_progress signatures start n landed e :
  statuses_fit →
  ∃ r e', poll_once signatures start n landed e = Val (Ok r, e') ∧
  match r with
  | inl _ => True
  | inr _ => instant_ms e - start < 15000 ∧ instant_ms e + 1000 ≤ instant_ms e'
  end.
Proof.
  intros Hfit. unfold poll_once.
  destruct (Z.leb_spec POLL_TIMEOUT_MS (instant_ms e - start)) as [|Ht]; [by eexists _, _|].
  pose proof (instant_statuses signatures e) as Hm.
  destruct (rpc_get_signature_statuses signatures e) as [st e1] eqn:Hst. simpl in Hm.
  destruct st as [statuses|msg]; [|by eexists _, _].
  destruct (scan_total signatures statuses 0 landed) as [r Hr].
  { apply Hfit in Hst. simpl. lia. }
  rewrite Hr. cbn [exec_bind].
  pose proof (instant_sleep POLL_INTERVAL_MS e1 ltac:(done)) as Hs1.
  unfold POLL_TIMEOUT_MS, POLL_INTERVAL_MS in *.
  destruct r as [sig|[l|]]; [by eexists _, _| |eexists _, _; split; [done|]; simpl; lia].
  case_match; [eexists _, _; split; [done|]; simpl; lia|].
  pose proof (instant_transaction l e1) as Hm2.
  destruct (rpc_get_transaction l e1) as [det e2]. simpl in Hm2.
  pose proof (instant_sleep 1000 e2 ltac:(done)) as Hs2.
  destruct det as [[meta|]|msg]; [|eexists _, _; split; [done|]; simpl; lia..].
  destruct (tm_err meta); by eexists _, _.
Qed.

Lemma poll_loop_returns fuel signatures start n landed e :
  statuses_fit → 15000 ≤ instant_ms e - start + 1000 * (Z.of_nat fuel - 1) → (0 < fuel)%nat →
  ∃ r e', poll_loop fuel signatures start n landed e = Val (Ok (Some r), e').
Proof.
  intros Hfit. revert n landed e. induction fuel as [|fuel IH]; intros n landed e Ht Hf; [lia|].
  cbn [poll_loop]. unfold mbind.
  destruct (poll_once_progress signatures start n landed e Hfit) as (r & e1 & -> & Hr).
  destruct r as [res|l]; [by eexists _, _|]. apply IH; lia.
Qed.

(** C16. Polling ends: on a node that answers with at most one status per
    signature it returns a confirmation or an error, within sixteen turns of
    the loop, whatever the node says and however long its answers take. *)
Theorem poll_returns signatures wait e :
  statuses_fit →
  ∃ r e', poll_any_transaction_confirmation signatures wait e = Val (Ok r, e').
Proof.
  intros Hfit. unfold poll_any_transaction_confirmation.
  destruct signatures as [|s0 l]; [by eexists _, _|]. destruct wait; [|by eexists _, _].
  cbn [negb]. unfold mbind, ask.
  destruct (poll_loop_returns POLL_FUEL (s0 :: l) (instant_ms e) 0 None e Hfit) as (r & e' & Hp).
  { unfold POLL_FUEL. lia. }
  { unfold POLL_FUEL. lia. }
  rewrite Hp. by eexists _, _.
Qed.
End Confirm.

(** ** A simulated node

    Every signature is confirmed from the third second on. *)

Lemma sim_instant_sleep ms (e : Sim) :
  0 ≤ ms → sim_clock e / 1000 + ms ≤ sim_clock (sleep_ms ms e) / 1000.
Proof. intros _. simpl. rewrite Z.mul_comm, Z.div_add by lia. lia. Qed.

#[export] Instance sim_confirm : Confirm Sim := {|
  rpc_get_signature_statuses := λ l e,
    (Ok (map (λ _, if sim_clock e <? 3000000 then None
                   else Some (mk_Status None (Some Confirmed))) l), e);
  rpc_get_transaction := λ _ e, (Ok None, e);
  instant_ms := λ e, sim_clock e / 1000;
  instant_sleep := sim_instant_sleep;
  instant_statuses := λ _ _, Z.le_refl _;
  instant_transaction := λ _ _, Z.le_refl _;
|}.

Definition toy_error_text : TxErrorText := {|
  tx_error_to_string := λ _, "error";
  debug_string := λ s, s;
|}.

Definition sim_at (clock : Z) : Sim := mk_Sim (λ _, None) (λ _, None) 0 clock [].
Definition sim_later : Sim := mk_Sim (λ _, None) (λ _, None) 0 3000000 [1000; 1000; 1000].

Lemma poll_sound_witness :
  "b" ∈ ["b"; "a"] ∧ @reported Sim sim_rpc sim_confirm ["b"; "a"] "b".
Proof.
  apply (@poll_sound Sim sim_rpc sim_confirm toy_error_text ["b"; "a"] (sim_at 0) "b" sim_later).
  vm_compute. reflexivity.
Defined.

Lemma sim_statuses_fit : @statuses_fit Sim sim_rpc sim_confirm.
Proof. intros l e statuses e' [= <- <-]. by rewrite length_map. Qed.

Lemma poll_returns_witness :
  ∃ r e', @poll_any_transaction_confirmation Sim sim_rpc sim_confirm toy_error_text ["b"] true
            (sim_at 0) = Val (Ok r, e').
Proof.
  apply (@poll_returns Sim sim_rpc sim_confirm toy_error_text), sim_statuses_fit.
Defined.
