(* ===== verification/Submit.v ===== *)
(** * Parallel submission (sdk trading/core/async_executor.rs)

    A trade is one job per submission channel and gas-fee strategy; a pool of
    workers runs the jobs and a collector gathers their results.  The state is
    the process: the environment and the caches of the library.  Which jobs
    finish within the time limit, and in which order, is decided by the
    environment ([completion]); that the collector returns exactly the results
    of those jobs in that order, whatever the interleaving of its atomic
    operations, is shown in the file Collector.  The executor asks only for
    submission ([wait_transaction_confirmed] is false at its only call), so the
    other way of collecting is modelled in Collector alone.  Jobs that finish
    later are not followed; a worker that panics leaves no result. *)

From Stdlib Require Import String.
From S2P Require Import Prelude F64 Solana FastFn GasFee Effects Client TxBuild Channels.

#[local] Open Scope string_scope.
#[local] Open Scope Z_scope.
#[local] Open Scope list_scope.

(** ** The process *)

Record Process (E : Type) := mk_Proc {
  p_env : E;
  p_chain : Chain;
  p_budget : BudgetCache;
}.
Arguments mk_Proc {E} p_env p_chain p_budget.
Arguments p_env {E} p.
Arguments p_chain {E} p.
Arguments p_budget {E} p.

(** A computation of the environment, of the address caches, of the
    compute-budget cache, in the process. *)
Definition in_env {E A : Type} (m : M E A) : M (Process E) A := λ w,
  match m (p_env w) with
  | Val (r, e) => Val (r, mk_Proc e (p_chain w) (p_budget w))
  | Panic => Panic
  end.
Definition in_budget {E A : Type} (m : M BudgetCache A) : M (Process E) A := λ w,
  match m (p_budget w) with
  | Val (r, c) => Val (r, mk_Proc (p_env w) (p_chain w) c)
  | Panic => Panic
  end.
Definition in_chain `{Sdk} {E A : Type} (p : prog A) : M (Process E) A := λ w,
  match run p (p_chain w) with
  | Val (r, c) => Val (r, mk_Proc (p_env w) c (p_budget w))
  | Panic => Panic
  end.

(** ** The environment of submission *)

(** [completion n] is the order in which the jobs of a batch of [n] finish
    within the two seconds they are waited for. *)
Class Sending (E : Type) `{TxSdk} := {
  send_transaction : SwqosClient → TradeType → VersionedTransaction → bool → E →
                     exec (result AnyError () * E);
  completion : nat → E → list nat * E;
  random_index : E → nat * E;
  completion_once n e : NoDup (completion n e).1;
  completion_range n e i : i ∈ (completion n e).1 → (i < n)%nat;
}.

(** ** Jobs *)

(* sdk trading/core/async_executor.rs:47-60 SwqosSharedContext *)
Record SwqosSharedContext := mk_Shared {
  sh_payer : Pubkey;
  sh_instructions : list Instruction;
  sh_address_lookup_table_account : option AddressLookupTableAccount;
  sh_recent_blockhash : option Hash;
  sh_durable_nonce : option DurableNonceInfo;
  sh_middleware_manager : option MiddlewareManager;
  sh_protocol_name : string;
  sh_is_buy : bool;
  sh_wait_transaction_confirmed : bool;
  sh_with_tip : bool;
}.

(* sdk trading/core/async_executor.rs:63-73 SwqosJob *)
Record SwqosJob := mk_Job {
  job_tip : f64;
  job_unit_limit : Z;
  job_unit_price : Z;
  job_tip_account : Pubkey;
  job_swqos_client : SwqosClient;
}.

Definition job_swqos_type (j : SwqosJob) : SwqosType := ch_type (job_swqos_client j).

(* sdk trading/core/async_executor.rs:230-238 TaskResult *)
Record TaskResult := mk_Task {
  tr_success : bool;
  tr_signature : Signature;
  tr_error : option AnyError;
  tr_swqos_type : SwqosType;
  tr_landed_on_chain : bool;
  tr_submit_done_us : Z;
}.

(** [s.contains(needle)]. *)
Definition contains (needle s : string) : bool :=
  match index 0 needle s with Some _ => true | None => false end.

(** Of an error that is not a [TradeError] the source returns false on both
    branches of its test. *)
(* sdk trading/core/async_executor.rs:241-262 is_landed_error *)
Definition is_landed_error (error : AnyError) : bool :=
  match error with
  | Typed trade_error =>
      if (te_code trade_error =? 500) && contains "timed out" (te_message trade_error) then false
      else 0 <? te_code trade_error
  | Message msg =>
      if contains "timed out" msg || contains "timeout" msg then false else false
  end.

(** ** Collecting *)

Definition last_error (results : list TaskResult) : option AnyError :=
  foldl (λ acc r, match tr_error r with Some e => Some e | None => acc end) None results.

(* sdk trading/core/async_executor.rs:372-396 get_first *)
Definition get_first (results : list TaskResult) : option (SwapResult AnyError) :=
  match results with
  | [] => None
  | _ => Some (existsb tr_success results, map tr_signature results, last_error results,
               map (λ r, (tr_swqos_type r, tr_submit_done_us r)) results)
  end.

Section Submit.
Context `{Sdk} `{TxSdk} {E : Type} `{Rpc E} `{!Sending E} `{KeyText} `{Sha256} `{HashOrder}.

(* sdk trading/core/async_executor.rs:75-142 run_one_swqos_job *)
Definition run_one_swqos_job (s : SwqosSharedContext) (job : SwqosJob) (w : Process E) :
    option TaskResult * Process E :=
  let tip_amount := if sh_with_tip s then job_tip job else f_zero in
  match in_budget (build_transaction (sh_payer s) (job_unit_limit job) (job_unit_price job)
          (sh_instructions s) (sh_address_lookup_table_account s) (sh_recent_blockhash s)
          (sh_middleware_manager s) (sh_protocol_name s) (sh_is_buy s)
          (bool_decide (job_swqos_type job ≠ SwDefault)) (job_tip_account job) tip_amount
          (sh_durable_nonce s)) w with
  | Panic => (None, w)
  | Val (Err e, w) =>
      let '(now, env) := now_micros (p_env w) in
      (Some (mk_Task false default_signature (Some (Message e)) (job_swqos_type job) false now),
       mk_Proc env (p_chain w) (p_budget w))
  | Val (Ok transaction, w) =>
      match send_transaction (job_swqos_client job) (if sh_is_buy s then TBuy else TSell)
              transaction (sh_wait_transaction_confirmed s) (p_env w) with
      | Panic => (None, w)
      | Val (r, env) =>
          let '(success, err, landed) :=
            match r with
            | Ok () => (true, None, true)
            | Err e => (false, Some e, is_landed_error e)
            end in
          let '(now, env) := now_micros env in
          (Some (mk_Task success (default default_signature (head (signatures transaction))) err
                   (job_swqos_type job) landed now),
           mk_Proc env (p_chain w) (p_budget w))
      end
  end.

(** The jobs of a schedule, one after the other. *)
Fixpoint run_jobs (s : SwqosSharedContext) (jobs : list SwqosJob) (schedule : list nat)
    (w : Process E) : list TaskResult * Process E :=
  match schedule with
  | [] => ([], w)
  | i :: schedule' =>
      match jobs !! i with
      | None => run_jobs s jobs schedule' w
      | Some job =>
          let '(r, w) := run_one_swqos_job s job w in
          let '(rs, w) := run_jobs s jobs schedule' w in
          (match r with Some r => r :: rs | None => rs end, w)
      end
  end.

(** ** Choosing the jobs *)

Abbreviation Config := (SwqosType * GasFeeStrategyType * GasFeeStrategyValue)%type (only parsing).

(** One configuration for one client. *)
(* sdk trading/core/async_executor.rs:467-483 execute_parallel, one config *)
Definition keeps_config (with_tip check_min_tip : bool) (client : SwqosClient) (config : Config) :
    bool :=
  let check_tip := with_tip && bool_decide (ch_type client ≠ SwDefault) && check_min_tip in
  let min_tip := if check_tip then min_tip_sol client else f_zero in
  bool_decide (config.1.1 = ch_type client)
  && negb (check_tip && f_ltb (tip config.2) min_tip).

(* sdk trading/core/async_executor.rs:459-484 execute_parallel, task_configs *)
Definition task_configs (swqos_clients : list SwqosClient) (with_tip check_min_tip : bool)
    (gas_fee_configs : list Config) : list (SwqosClient * GasFeeStrategyValue) :=
  concat (map (λ client,
    if negb with_tip && bool_decide (ch_type client ≠ SwDefault) then []
    else map (λ config, (client, config.2))
           (filter (λ config, keeps_config with_tip check_min_tip client config)
              gas_fee_configs)) swqos_clients).

(** One tip account per client of a batch, remembered by its address. *)
(* sdk trading/core/async_executor.rs:525-558 execute_parallel, jobs *)
Fixpoint make_jobs (configs : list (SwqosClient * GasFeeStrategyValue))
    (tip_cache : gmap Z Pubkey) : M (Process E) (list SwqosJob) :=
  match configs with
  | [] => mret []
  | (client, v) :: rest =>
      let% tip_account :=
        match tip_cache !! ch_ptr client with
        | Some t => mret t
        | None =>
            let% i := in_env (ask random_index) in
            let% s := of_ex (get_tip_account client i) in
            let% s := of_res s in
            mret (default pubkey_default (pubkey_from_str s))
        end in
      let% jobs := make_jobs rest (<[ch_ptr client := tip_account]> tip_cache) in
      mret (mk_Job (tip v) (cu_limit v) (cu_price v) tip_account client :: jobs)
  end.

(** The checks before anything is submitted. *)
(* sdk trading/core/async_executor.rs:438-492 execute_parallel, checks *)
Definition checked_configs (swqos_clients : list SwqosClient) (is_buy with_tip : bool)
    (durable_nonce : option DurableNonceInfo) (gas_fee_strategy : GasFeeStrategy)
    (check_min_tip : bool) : result string (list (SwqosClient * GasFeeStrategyValue)) :=
  match swqos_clients with
  | [] => Err "swqos_clients is empty"
  | _ =>
      if negb with_tip && negb (existsb (λ c, bool_decide (ch_type c = SwDefault)) swqos_clients)
      then Err "No Rpc Default Swqos configured."
      else
        let configs := task_configs swqos_clients with_tip check_min_tip
                         (get_strategies gas_fee_strategy (if is_buy then TBuy else TSell)) in
        match configs with
        | [] => Err "No available gas fee strategy configs"
        | _ =>
            if is_buy && Nat.ltb 1 (length configs) && bool_decide (durable_nonce = None)
            then Err "Multiple swqos transactions require durable_nonce to be set."
            else Ok configs
        end
  end.

Definition no_result : SwapResult AnyError :=
  (false, [], Some (Message "No SWQOS result within 2s"), []).

(* sdk trading/core/async_executor.rs:420-582 execute_parallel *)
Definition execute_parallel (swqos_clients : list SwqosClient) (s : SwqosSharedContext)
    (gas_fee_strategy : GasFeeStrategy) (check_min_tip : bool) :
    M (Process E) (SwapResult AnyError) :=
  let% configs := of_res (checked_configs swqos_clients (sh_is_buy s) (sh_with_tip s)
                            (sh_durable_nonce s) gas_fee_strategy check_min_tip) in
  let% jobs := make_jobs configs ∅ in
  let% schedule := in_env (ask (completion (length jobs))) in
  let% results := ask (run_jobs s jobs schedule) in
  mret (default no_result (get_first results)).

(** ** Which jobs are run *)

(** A job is run for a client exactly when the strategy table has an entry
    for its service, the client may be used without a tip or a tip is paid, and
    the tip is not below the service's minimum where that is checked. *)
Theorem task_configs_spec clients with_tip check_min_tip configs client v :
  (client, v) ∈ task_configs clients with_tip check_min_tip configs
  ↔ client ∈ clients
    ∧ (∃ kind, (ch_type client, kind, v) ∈ configs)
    ∧ (with_tip = true ∨ ch_type client = SwDefault)
    ∧ (with_tip = true → check_min_tip = true → ch_type client ≠ SwDefault →
       f_ltb (tip v) (min_tip_sol client) = false).
Proof.
  unfold task_configs. rewrite list_elem_of_In, in_concat. setoid_rewrite in_map_iff.
  setoid_rewrite <- list_elem_of_In. split.
  - intros (l & (c & <- & Hc) & Hin). destruct (negb with_tip && _) eqn:Hd; [by inversion Hin|].
    apply list_elem_of_fmap in Hin as ([[s k] v'] & [= -> ->] & Hf).
    apply list_elem_of_filter in Hf as [Hk Hf]. unfold keeps_config in Hk. simpl in Hk.
    apply Is_true_true, andb_true_iff in Hk as [Hs Ht]. apply bool_decide_eq_true in Hs as ->.
    split; [done|]. split; [eauto|]. split.
    + destruct with_tip; [by left|right]. simpl in Hd. apply bool_decide_eq_false in Hd.
      destruct (decide (ch_type c = SwDefault)); [done|]. by destruct Hd.
    + intros -> -> Hne. rewrite bool_decide_true in Ht by done. simpl in Ht.
      by apply negb_true_iff in Ht.
  - intros (Hc & (kind & Hin) & Hd & Ht). eexists. split; [by exists client|].
    assert (Hn : negb with_tip && bool_decide (ch_type client ≠ SwDefault) = false).
    { destruct Hd as [->|Hd]; [done|]. rewrite bool_decide_false by naive_solver.
      by rewrite andb_false_r. }
    rewrite Hn. apply list_elem_of_fmap. exists (ch_type client, kind, v). split; [done|].
    apply list_elem_of_filter. split; [|done]. apply Is_true_true. unfold keeps_config. simpl.
    rewrite bool_decide_true by done. simpl.
    destruct with_tip, check_min_tip; simpl; try (by rewrite ?andb_false_r).
    rewrite andb_true_r. destruct (decide (ch_type client = SwDefault)) as [He|He].
    + by rewrite bool_decide_false by naive_solver.
    + rewrite bool_decide_true by done. simpl. by rewrite Ht.
Qed.

Lemma make_jobs_total configs cache w :
  ∃ jobs w', make_jobs configs cache w = Val (Ok jobs, w') ∧ length jobs = length configs
             ∧ p_chain w' = p_chain w ∧ p_budget w' = p_budget w.
Proof.
  revert cache w. induction configs as [|[client v] rest IH]; intros cache w; [by eexists _, _|].
  cbn [make_jobs]. unfold mbind at 1.
  destruct (cache !! ch_ptr client) as [t|].
  - cbn [mret]. destruct (IH (<[ch_ptr client := t]> cache) w) as (jobs & w' & Hj & Hl & Hc).
    rewrite (mbind_eq _ _ _ _ _ Hj). eexists _, _. split; [done|]. simpl. auto.
  - unfold mbind at 1, in_env, ask. destruct (random_index (p_env w)) as [i e].
    unfold mbind at 1. destruct (tip_account_total client i) as (s & Hs & _).
    unfold of_ex. rewrite Hs. cbn [exec_bind]. unfold mbind at 1, of_res. unfold mret at 1.
    destruct (IH (<[ch_ptr client := default pubkey_default (pubkey_from_str s)]> cache)
                (mk_Proc e (p_chain w) (p_budget w))) as (jobs & w' & Hj & Hl & Hc).
    rewrite (mbind_eq _ _ _ _ _ Hj). eexists _, _. split; [done|]. simpl. auto.
Qed.

(** The course of a submission that passes the checks. *)
Lemma execute_parallel_run clients s gfs check w configs :
  checked_configs clients (sh_is_buy s) (sh_with_tip s) (sh_durable_nonce s) gfs check = Ok configs →
  ∃ jobs w1 results w', length jobs = length configs
    ∧ run_jobs s jobs (completion (length jobs) (p_env w1)).1
        (mk_Proc (completion (length jobs) (p_env w1)).2 (p_chain w1) (p_budget w1))
      = (results, w')
    ∧ execute_parallel clients s gfs check w = Val (Ok (default no_result (get_first results)), w').
Proof.
  intros Hc. unfold execute_parallel, mbind at 1, of_res. rewrite Hc.
  destruct (make_jobs_total configs ∅ w) as (jobs & w1 & Hj & Hl & _).
  rewrite (mbind_eq _ _ _ _ _ Hj). unfold mbind, in_env, ask.
  destruct (completion (length jobs) (p_env w1)) as [schedule e] eqn:Hs.
  destruct (run_jobs s jobs schedule (mk_Proc e (p_chain w1) (p_budget w1))) as [results w'] eqn:Hr.
  exists jobs, w1, results, w'. rewrite Hs. auto.
Qed.

(** An error of a submission means that nothing was submitted: it comes
    from the checks, and the process is as it was. *)
Theorem submission_error_is_clean clients s gfs check w msg w' :
  execute_parallel clients s gfs check w = Val (Err msg, w') →
  w' = w ∧ checked_configs clients (sh_is_buy s) (sh_with_tip s) (sh_durable_nonce s) gfs check
           = Err msg.
Proof.
  destruct (checked_configs clients (sh_is_buy s) (sh_with_tip s) (sh_durable_nonce s) gfs check)
    as [configs|m] eqn:Hc.
  - destruct (execute_parallel_run clients s gfs check w configs Hc) as (? & ? & ? & ? & _ & _ & ->).
    done.
  - unfold execute_parallel, mbind at 1, of_res. rewrite Hc. by intros [= <- <-].
Qed.

(** ** What is collected *)

Lemma run_job_fails s job w r w' :
  run_one_swqos_job s job w = (Some r, w') → tr_success r = false → ∃ e, tr_error r = Some e.
Proof.
  unfold run_one_swqos_job. destruct (in_budget _ w) as [[[tx|e] w1]|]; [| |done].
  - destruct (send_transaction _ _ _ _ _) as [[[[]|e] env]|]; [destruct (now_micros env)..|done];
      intros [= <- <-]; [done|eauto].
  - destruct (now_micros (p_env w1)). intros [= <- <-]. eauto.
Qed.

Lemma run_jobs_results s jobs schedule w results w' :
  run_jobs s jobs schedule w = (results, w') →
  (length results ≤ length schedule)%nat
  ∧ Forall (λ r, tr_success r = false → ∃ e, tr_error r = Some e) results.
Proof.
  revert w results w'. induction schedule as [|i schedule IH]; intros w results w'; simpl;
    [intros [= <- <-]; by split|].
  destruct (jobs !! i) as [job|]; [|intros [Hl Hf]%IH; split; [lia|done]].
  destruct (run_one_swqos_job s job w) as [r w1] eqn:Hj.
  destruct (run_jobs s jobs schedule w1) as [rs w2] eqn:Hrs.
  apply IH in Hrs as [Hl Hf]. intros [= <- <-]. destruct r as [r|]; simpl; [|split; [lia|done]].
  split; [lia|]. constructor; [by eapply run_job_fails|done].
Qed.

Lemma last_error_some acc results :
  (∃ e, acc = Some e) ∨ Exists (λ r, ∃ e, tr_error r = Some e) results →
  ∃ e, foldl (λ acc r, match tr_error r with Some e => Some e | None => acc end) acc results
       = Some e.
Proof.
  revert acc. induction results as [|r rs IH]; intros acc; simpl.
  - intros [?|He]; [done|inversion He].
  - intros [[e ->]|He]; apply IH; [destruct (tr_error r); eauto|].
    inversion He as [? ? [e He']|]; subst; [rewrite He'; eauto|by right].
Qed.

(** What a submission returns: a signature and a time for each job that
    finished, never more than the jobs there were; success only with a
    signature; and whenever it reports failure it reports an error too. *)
Theorem submission_result clients s gfs check w ok sigs err timings w' :
  execute_parallel clients s gfs check w = Val (Ok (ok, sigs, err, timings), w') →
  length timings = length sigs
  ∧ (∃ configs, checked_configs clients (sh_is_buy s) (sh_with_tip s) (sh_durable_nonce s) gfs check
                = Ok configs ∧ (length sigs ≤ length configs)%nat)
  ∧ (ok = true → sigs ≠ []) ∧ (ok = false → ∃ e, err = Some e).
Proof.
  destruct (checked_configs clients (sh_is_buy s) (sh_with_tip s) (sh_durable_nonce s) gfs check)
    as [configs|m] eqn:Hc; last first.
  { unfold execute_parallel, mbind at 1, of_res. by rewrite Hc. }
  destruct (execute_parallel_run clients s gfs check w configs Hc)
    as (jobs & w1 & results & w2 & Hl & Hr & ->).
  apply run_jobs_results in Hr as [Hlen Hf].
  pose proof (completion_once (length jobs) (p_env w1)) as Hnd.
  pose proof (completion_range (length jobs) (p_env w1)) as Hrange.
  assert (Hsched : (length (completion (length jobs) (p_env w1)).1 ≤ length jobs)%nat).
  { transitivity (length (seq 0 (length jobs))); [|by rewrite length_seq].
    apply submseteq_length.
    apply NoDup_submseteq; [done|]. intros i Hi%Hrange. apply elem_of_seq. lia. }
  destruct results as [|r rs]; intros [= <- <- <- <- <-]; cbn [length map].
  - split; [done|]. split; [exists configs; split; [done|lia]|]. split; [done|eauto].
  - rewrite !length_map. split; [done|]. split; [exists configs; split; [done|simpl in *; lia]|].
    split; [done|]. intros Hok. apply orb_false_iff in Hok as [Hok _].
    apply Forall_cons in Hf as [Hf _]. destruct (Hf Hok) as [e He].
    unfold last_error. apply last_error_some. right. left. eauto.
Qed.

(** A purchase without a durable nonce is at most one transaction: when
    several channels or strategies apply it is refused before anything is
    sent, so no purchase can be executed twice. *)
Theorem purchase_sent_once clients s gfs check w r w' :
  sh_is_buy s = true → sh_durable_nonce s = None →
  execute_parallel clients s gfs check w = Val (r, w') →
  match r with
  | Ok (_, sigs, _, _) => (length sigs ≤ 1)%nat
  | Err _ => w' = w
  end.
Proof.
  intros Hb Hn He. destruct r as [[[[ok sigs] err] timings]|msg].
  - apply submission_result in He as (_ & (configs & Hc & Hl) & _).
    unfold checked_configs in Hc. rewrite Hb, Hn in Hc.
    destruct clients; [done|]. destruct (_ && _) in Hc; [done|].
    destruct (task_configs _ _ _ _) as [|x l] eqn:Ht; [done|].
    destruct l; [injection Hc as <-; done|]. done.
  - by apply submission_error_is_clean in He as [-> _].
Qed.
End Submit.

(** ** Concrete channels for evaluation *)

(** Everything sent is accepted, in the order of the batch. *)
Definition toy_sending : @Sending Sim toy_tx_sdk.
Proof.
  refine {| send_transaction := λ _ _ _ _ e, Val (Ok (), e);
            completion := λ n e, (seq 0 n, e);
            random_index := λ e, (0%nat, e) |}.
  - intros n e. apply NoDup_seq.
  - intros n e i Hi. apply elem_of_seq in Hi. lia.
Defined.

Definition toy_sha : Sha256 := {| sha256_hex := λ s, s |}.
Definition toy_hash_order : HashOrder :=
  {| hash_order := elements; hash_order_perm := λ X, reflexivity _ |}.

Definition rpc_channel : SwqosClient := mk_channel 1 SwDefault "" false "https://node" BHttp false.
Definition jito_channel : SwqosClient := mk_channel 2 Jito "uuid" false "https://jito" BHttp false.

Definition toy_strategy : GasFeeStrategy :=
  {[ (SwDefault, TBuy, Normal) := mk_gfs 500 7 f_zero ]}.

Definition toy_shared (is_buy with_tip : bool) : SwqosSharedContext :=
  mk_Shared 11 [mk_ix 9 [] [1]] None (Some 5) None None "PumpSwap" is_buy false with_tip.

Definition toy_process : Process Sim := mk_Proc (mk_Sim (λ _, None) (λ _, None) 0 42 []) initial_chain ∅.

Abbreviation toy_execute := (@execute_parallel toy_sdk toy_tx_sdk Sim sim_rpc toy_sending toy_text
                               toy_sha toy_hash_order).

Definition after_buy : Process Sim :=
  match toy_execute [rpc_channel] (toy_shared true true) toy_strategy false toy_process with
  | Val (_, w) => w
  | Panic => toy_process
  end.

Lemma submission_error_is_clean_witness :
  toy_process = toy_process ∧
  @checked_configs toy_hash_order [jito_channel] false false None toy_strategy false
  = Err "No Rpc Default Swqos configured.".
Proof.
  refine (@submission_error_is_clean toy_sdk toy_tx_sdk Sim sim_rpc toy_sending toy_text toy_sha
            toy_hash_order [jito_channel] (toy_shared false false) toy_strategy false toy_process
            "No Rpc Default Swqos configured." toy_process _).
  reflexivity.
Defined.

Lemma submission_result_witness :
  length [(SwDefault, 42)] = length ["11/19/5"]
  ∧ (∃ configs, @checked_configs toy_hash_order [rpc_channel] true true None toy_strategy false
                = Ok configs ∧ (length ["11/19/5"] ≤ length configs)%nat)
  ∧ (true = true → ["11/19/5"] ≠ []) ∧ (true = false → ∃ e : AnyError, None = Some e).
Proof.
  refine (@submission_result toy_sdk toy_tx_sdk Sim sim_rpc toy_sending toy_text toy_sha
            toy_hash_order [rpc_channel] (toy_shared true true) toy_strategy false toy_process
            true ["11/19/5"] None [(SwDefault, 42)] after_buy _).
  vm_cast_no_check (eq_refl (toy_execute [rpc_channel] (toy_shared true true) toy_strategy false
                               toy_process)).
Defined.

Lemma purchase_sent_once_witness : (length ["11/19/5"] ≤ 1)%nat.
Proof.
  refine (@purchase_sent_once toy_sdk toy_tx_sdk Sim sim_rpc toy_sending toy_text toy_sha
            toy_hash_order [rpc_channel] (toy_shared true true) toy_strategy false toy_process
            (Ok (true, ["11/19/5"], None, [(SwDefault, 42)])) after_buy eq_refl eq_refl _).
  vm_cast_no_check (eq_refl (toy_execute [rpc_channel] (toy_shared true true) toy_strategy false
                               toy_process)).
Defined.
