(* ===== verification/ParamsRpc.v ===== *)
(** * Parameters read from the node
    (sdk trading/core/params.rs, instruction/utils/*.rs, trading/common/utils.rs,
    common/nonce_cache.rs, common/address_lookup.rs)

    The constructors of the protocol parameters that query the node: the account
    of a pool is read, checked and decoded, and its reserves are the balances of
    two token accounts.  With them, the reading of durable nonces and of address
    lookup tables. *)

From Stdlib Require Import String.
From S2P Require Import Prelude F64 Solana Accounts Spl FastFn PumpFunUtils BondingCurve Price Effects Borsh PumpSwapUtils PoolTypes Params Client IxCommon PumpFunIx BonkIx RaydiumIx MeteoraIx TxBuild Submit.

#[local] Open Scope string_scope.
#[local] Open Scope Z_scope.
#[local] Open Scope list_scope.

(** ** Reading pools *)

Section Pools.
Context `{Sdk} `{KeyText} `{Borsh} {E : Type} `{Rpc E}.

(** [rpc.get_account_data]: the data of the account. *)
Definition account_data (p : Pubkey) : M E bytes :=
  let% account := call (rpc_get_account p) in mret (acc_data account).

(** An account that must belong to a program, after its discriminator. *)
Definition owned_payload (address program : Pubkey) (not_owned : string) : M E bytes :=
  let% account := call (rpc_get_account address) in
  if negb (acc_owner account =? program) then mfail not_owned
  else of_ex (from_8 (acc_data account)).

(* sdk instruction/utils/bonk.rs:62-73 fetch_pool_state *)
Definition bonk_fetch_pool_state (pool_address : Pubkey) : M E BonkPoolState :=
  let% payload := owned_payload pool_address BONK "Account is not owned by Bonk program" in
  of_res (ok_or (bonk_pool_state_decode payload) "Failed to decode pool state").

(* sdk instruction/utils/raydium_cpmm.rs:38-49 fetch_pool_state *)
Definition cpmm_fetch_pool_state (pool_address : Pubkey) : M E CpmmPoolState :=
  let% payload := owned_payload pool_address RAYDIUM_CPMM
                    "Account is not owned by Raydium Cpmm program" in
  of_res (ok_or (cpmm_pool_state_decode payload) "Failed to decode pool state").

(** Neither the owner nor a discriminator is looked at. *)
(* sdk instruction/utils/raydium_amm_v4.rs:37-42 fetch_amm_info *)
Definition fetch_amm_info (amm : Pubkey) : M E AmmInfo :=
  let% data := account_data amm in
  of_res (ok_or (amm_info_decode data) "Failed to decode amm info").

(* sdk instruction/utils/meteora_damm_v2.rs:39-49 fetch_pool *)
Definition meteora_fetch_pool (pool_address : Pubkey) : M E MeteoraPool :=
  let% payload := owned_payload pool_address METEORA_DAMM_V2
                    "Account is not owned by Meteora Damm V2 program" in
  of_res (ok_or (meteora_pool_decode payload) "Failed to decode pool").

(** ** Balances *)

(** [.parse::<u64>()] with its context. *)
Definition parse_balance (what balance : string) : M E Z :=
  of_res (match parse_u64 balance with
          | Ok n => Ok n
          | Err e => Err ("Failed to parse " +:+ what +:+ " balance: " +:+ e)
          end).

(** Both balances are fetched before the first is parsed. *)
(* sdk trading/common/utils.rs:18-35 get_multi_token_balances *)
Definition get_multi_token_balances (token0_vault token1_vault : Pubkey) : M E (Z * Z) :=
  let% token0_balance := token_balance token0_vault in
  let% token1_balance := token_balance token1_vault in
  let% token0_amount := parse_balance "token0" token0_balance in
  let% token1_amount := parse_balance "token1" token1_balance in
  mret (token0_amount, token1_amount).

(** The vaults are derived from the pool and its mints. *)
(* sdk instruction/utils/raydium_cpmm.rs:77-100 get_pool_token_balances *)
Definition get_pool_token_balances (pool_state token0_mint token1_mint : Pubkey) : M E (Z * Z) :=
  let% token0_vault := of_ex (unwrap (cp_get_vault_pda pool_state token0_mint)) in
  let% token0_balance := token_balance token0_vault in
  let% token1_vault := of_ex (unwrap (cp_get_vault_pda pool_state token1_mint)) in
  let% token1_balance := token_balance token1_vault in
  let% token0_amount := parse_balance "token0" token0_balance in
  let% token1_amount := parse_balance "token1" token1_balance in
  mret (token0_amount, token1_amount).

(* sdk instruction/utils/raydium_cpmm.rs:106-120 calculate_price *)
Definition cpmm_calculate_price (token0_amount token1_amount mint0_decimals mint1_decimals : Z) :
    result string f64 :=
  if token0_amount =? 0 then Err "Token0 balance is zero, cannot calculate price"
  else
    let token0_adjusted := fdiv (f64_of_Z token0_amount) (f_powi f_ten mint0_decimals) in
    let token1_adjusted := fdiv (f64_of_Z token1_amount) (f_powi f_ten mint1_decimals) in
    Ok (fdiv token1_adjusted token0_adjusted).

(** ** Parameters *)

(* sdk trading/core/params.rs:735-762 RaydiumCpmmParams::from_pool_address_by_rpc *)
Definition cp_from_pool_address_by_rpc (pool_address : Pubkey) : M E RaydiumCpmmParams :=
  let% pool := cpmm_fetch_pool_state pool_address in
  let% b := get_pool_token_balances pool_address (cps_token0_mint pool) (cps_token1_mint pool) in
  mret (mk_RaydiumCpmmParams pool_address (cps_amm_config pool) (cps_token0_mint pool)
          (cps_token1_mint pool) b.1 b.2 (cps_token0_vault pool) (cps_token1_vault pool)
          (cps_token0_program pool) (cps_token1_program pool) (cps_observation_key pool)).

(* sdk trading/core/params.rs:797-813 RaydiumAmmV4Params::from_amm_address_by_rpc *)
Definition v4_from_amm_address_by_rpc (amm : Pubkey) : M E RaydiumAmmV4Params :=
  let% info := fetch_amm_info amm in
  let% b := get_multi_token_balances (amm_token_coin info) (amm_token_pc info) in
  mret (mk_RaydiumAmmV4Params amm (amm_coin_mint info) (amm_pc_mint info) (amm_token_coin info)
          (amm_token_pc info) b.1 b.2).

(** [mint_accounts.get(i).and_then(|a| a.as_ref()).map(|a| a.owner)]. *)
Definition nth_owner (accounts : list (option Account)) (i : nat) (missing : string) :
    result string Pubkey :=
  ok_or (acc_owner <$> (accounts !! i ≫= id)) missing.

(* sdk trading/core/params.rs:850-878 MeteoraDammV2Params::from_pool_address_by_rpc *)
Definition md_from_pool_address_by_rpc (pool_address : Pubkey) : M E MeteoraDammV2Params :=
  let% pool := meteora_fetch_pool pool_address in
  let% accounts := call (rpc_get_multiple_accounts [mp_token_a_mint pool; mp_token_b_mint pool]) in
  let% token_a_program := of_res (nth_owner accounts 0 "Token A mint account not found") in
  let% token_b_program := of_res (nth_owner accounts 1 "Token B mint account not found") in
  mret (mk_MeteoraDammV2Params pool_address (mp_token_a_vault pool) (mp_token_b_vault pool)
          (mp_token_a_mint pool) (mp_token_b_mint pool) token_a_program token_b_program).

(** ** Durable nonces and lookup tables *)

(** Version, state and authority take forty bytes; the nonce is next. *)
(* sdk common/nonce_cache.rs:16-41 fetch_nonce_info *)
Definition fetch_nonce_info (nonce_account : Pubkey) : M E (option DurableNonceInfo) :=
  let% r := attempt (call (rpc_get_account nonce_account)) in
  mret match r with
       | Ok account =>
           if Nat.leb 80 (length (acc_data account)) then
             Some (mk_Nonce (Some nonce_account)
                     (Some (from_bytes (take 32 (drop 40 (acc_data account))))))
           else None
       | Err _ => None
       end.

(** The keys from an offset on: [while offset + 32 <= data.len()]; [n] turns
    are enough when [n] bytes are left. *)
Fixpoint table_keys (n : nat) (l : bytes) : list Pubkey :=
  match n with
  | O => []
  | S n' =>
      if Nat.leb 32 (length l) then from_bytes (take 32 l) :: table_keys n' (drop 32 l) else []
  end.

(** Keys of zero bytes are left out. *)
(* sdk common/address_lookup.rs:6-39 fetch_address_lookup_table_account *)
Definition fetch_address_lookup_table_account (lookup_table_address : Pubkey) :
    M E AddressLookupTableAccount :=
  let% account := call (rpc_get_account lookup_table_address) in
  let data := acc_data account in
  if Nat.ltb (length data) 56 then mfail "Address lookup table account data too short"
  else
    mret (mk_Alt lookup_table_address
            (filter (λ p, p ≠ 0) (table_keys (length data) (drop 56 data)))).
End Pools.

(** ** Parameters that use the caches *)

Section Cached.
Context `{Sdk} `{KeyText} `{Borsh} {E : Type} `{Rpc E}.

(** An account without data is no curve; one of fewer than eight bytes panics. *)
(* sdk instruction/utils/pumpfun.rs:422-439 fetch_bonding_curve_account *)
Definition fetch_bonding_curve_account (mint : Pubkey) :
    M (Process E) (BondingCurveAccount * Pubkey) :=
  let% pda := in_chain (get_bonding_curve_pda mint) in
  let% bonding_curve_pda := of_res (ok_or pda "Bonding curve not found") in
  let% account := in_env (call (rpc_get_account bonding_curve_pda)) in
  if bool_decide (acc_data account = []) then mfail "Bonding curve not found"
  else
    let% payload := of_ex (from_8 (acc_data account)) in
    match try_from_slice_unchecked read_bonding_curve payload with
    | Some bonding_curve => mret (bonding_curve, bonding_curve_pda)
    | None => mfail "Failed to deserialize bonding curve account: "
    end.

Definition with_account (c : BondingCurveAccount) (account : Pubkey) : BondingCurveAccount :=
  mk_BondingCurveAccount 0 account (virtual_token_reserves c) (virtual_sol_reserves c)
    (real_token_reserves c) (real_sol_reserves c) (token_total_supply c) (complete c)
    (bc_creator c) (bc_is_mayhem_mode c) (bc_is_cashback_coin c).

(* sdk trading/core/params.rs:260-295 PumpFunParams::from_mint_by_rpc *)
Definition pf_from_mint_by_rpc (mint : Pubkey) : M (Process E) PumpFunParams :=
  let% account := fetch_bonding_curve_account mint in
  let% mint_account := in_env (call (rpc_get_account mint)) in
  let bonding_curve := with_account account.1 account.2 in
  let% associated_bonding_curve :=
    of_ex (get_associated_token_address_with_program_id (bc_account bonding_curve) mint
             (acc_owner mint_account)) in
  let% creator_vault := in_chain (get_creator_vault_pda (bc_creator bonding_curve)) in
  let% vault := of_ex (unwrap creator_vault) in
  mret (mk_PumpFunParams bonding_curve associated_bonding_curve vault (acc_owner mint_account) None
          pubkey_default).

(** Both associated accounts are derived with wrapped SOL, also on a USD1
    pool. *)
(* sdk instruction/utils/bonk.rs:182-188 get_platform_associated_account *)
Definition get_platform_associated_account (platform_config : Pubkey) : option Pubkey :=
  try_pda [to_bytes platform_config; to_bytes WSOL_TOKEN_ACCOUNT] BONK.

(* sdk instruction/utils/bonk.rs:190-195 get_creator_associated_account *)
Definition get_creator_associated_account (creator : Pubkey) : option Pubkey :=
  try_pda [to_bytes creator; to_bytes WSOL_TOKEN_ACCOUNT] BONK.

(* sdk trading/core/params.rs:636-675 BonkParams::from_mint_by_rpc *)
Definition bk_from_mint_by_rpc (mint : Pubkey) (usd1_pool : bool) : M (Process E) BonkParams :=
  let% pda := in_chain (bk_get_pool_pda mint
                          (if usd1_pool then USD1_TOKEN_ACCOUNT else WSOL_TOKEN_ACCOUNT)) in
  let% pool_address := of_ex (unwrap pda) in
  let% pool := in_env (bonk_fetch_pool_state pool_address) in
  let% token_account := in_env (call (rpc_get_account (bp_base_mint pool))) in
  let% platform := of_ex (unwrap (get_platform_associated_account (bp_platform_config pool))) in
  let% creator := of_ex (unwrap (get_creator_associated_account (bp_creator pool))) in
  mret (mk_BonkParams (bp_virtual_base pool) (bp_virtual_quote pool) (bp_real_base pool)
          (bp_real_quote pool) pool_address (bp_base_vault pool) (bp_quote_vault pool)
          (acc_owner token_account) (bp_platform_config pool) platform creator
          (bp_global_config pool)).
End Cached.

(** ** Curves read from the node *)

Section Curves.
Context `{Sdk} `{KeyText} `{Borsh} {E : Type} `{Rpc E}.

Lemma in_chain_Ok {A} (m : prog A) (w w' : Process E) a :
  valid (p_chain w) → in_chain m w = Val (Ok a, w') →
  eval (rents (p_chain w)) m = Val (Ok a) ∧ valid (p_chain w') ∧ p_env w' = p_env w.
Proof.
  unfold in_chain. intros Hv. destruct (run m (p_chain w)) as [[r c]|] eqn:Hr; [|done].
  intros [= -> <-]. by apply run_Ok in Hr as (? & ? & _).
Qed.

Lemma in_env_chain {A} (m : M E A) (w w' : Process E) r :
  in_env m w = Val (r, w') → p_chain w' = p_chain w.
Proof. unfold in_env. destruct (m (p_env w)) as [[? ?]|]; [|done]. by intros [= _ <-]. Qed.

Lemma fetch_curve_spec mint (w w' : Process E) c pda :
  valid (p_chain w) → fetch_bonding_curve_account mint w = Val (Ok (c, pda), w') →
  pda_compute (PumpFunBondingCurve mint) = Some pda ∧ valid (p_chain w').
Proof.
  unfold fetch_bonding_curve_account. intros Hv Hf. m_inv.
  apply in_chain_Ok in R as (Hc & Hv' & _); [|done]. apply in_env_chain in R1.
  case_bool_decide; [done|]. m_inv. destruct (try_from_slice_unchecked _ _) as [c'|]; [|done].
  injection Hf as _ <- <-. injection Hc as Hc. rewrite R1. split; [|done].
  destruct a; [|done]. injection R0 as <-. done.
Qed.

(** A vault that is the creator's own is kept. *)
Lemma resolve_derived r creator mint v :
  creator ≠ pubkey_default → pda_compute (PumpFunCreatorVault creator) = Some v →
  eval r (resolve_creator_vault_for_ix creator v mint) = Val (Ok (Some v)).
Proof.
  intros Hc Hv. unfold resolve_creator_vault_for_ix, get_creator_vault_pda, get_pda.
  rewrite (proj2 (Z.eqb_neq _ _)) by done.
  destruct (v =? phantom_default_creator_vault); simpl; rewrite Hv; [done|]. simpl.
  rewrite Z.eqb_refl. by destruct (v =? pubkey_default).
Qed.

(** Parameters of a coin read from the node: the curve is at its derived
    address, and the vault is the one every instruction built from them will
    name; with an unknown creator, whose vault is the phantom one, nothing is
    built. *)
Theorem rpc_curve_consistent mint w p w' r :
  valid (p_chain w) → pf_from_mint_by_rpc mint w = Val (Ok p, w') →
  let creator := bc_creator (pf_bonding_curve p) in
  pda_compute (PumpFunBondingCurve mint) = Some (bc_account (pf_bonding_curve p))
  ∧ pda_compute (PumpFunCreatorVault creator) = Some (pf_creator_vault p)
  ∧ (creator ≠ pubkey_default →
     eval r (creator_vault_of p mint) = Val (Ok (pf_creator_vault p)))
  ∧ (creator = pubkey_default → pf_creator_vault p = phantom_default_creator_vault →
     ∃ e, eval r (creator_vault_of p mint) = Val (Err e)).
Proof.
  intros Hv Hp. unfold pf_from_mint_by_rpc in Hp. m_inv. destruct a as [c pda].
  apply fetch_curve_spec in R as [Hcurve Hv1]; [|done]. apply in_env_chain in R0.
  rewrite <- R0 in Hv1. apply in_chain_Ok in R2 as (Hvault & _); [|done].
  injection Hvault as Hvault. apply unwrap_Val in R3. subst a2 p.
  cbn [pf_bonding_curve bc_creator bc_account with_account fst snd pf_creator_vault] in *.
  split; [done|]. split; [done|]. unfold creator_vault_of. cbn [pf_bonding_curve bc_creator pf_creator_vault with_account].
  split.
  - intros Hc. apply eval_ok_or_fail. by apply resolve_derived.
  - intros -> ->. by eexists.
Qed.
End Curves.

(** ** Lookup tables *)

Section Tables.
Context `{Rpc}.

Lemma table_keys_spec n l i :
  (length l ≤ n)%nat →
  table_keys n l !! i =
  if Nat.leb (32 * (i + 1)) (length l) then Some (from_bytes (take 32 (drop (32 * i) l))) else None.
Proof.
  revert l i. induction n as [|n IH]; intros l i Hl; cbn [table_keys].
  { destruct (Nat.leb_spec (32 * (i + 1)) (length l)); [lia|done]. }
  destruct (Nat.leb_spec 32 (length l)) as [H32|H32].
  - destruct i as [|i].
    + cbn [lookup list_lookup]. rewrite Nat.mul_0_r, drop_0.
      destruct (Nat.leb_spec (32 * (0 + 1)) (length l)); [done|lia].
    + cbn [lookup list_lookup]. rewrite IH by (rewrite length_drop; lia).
      rewrite length_drop, drop_drop. replace (32 + 32 * i)%nat with (32 * S i)%nat by lia.
      destruct (Nat.leb_spec (32 * (i + 1)) (length l - 32)),
        (Nat.leb_spec (32 * (S i + 1)) (length l)); try done; lia.
  - destruct (Nat.leb_spec (32 * (i + 1)) (length l)); [lia|done].
Qed.

(** The keys of a table account, by their index in the table. *)
Definition table_entry (data : bytes) (i : nat) : option Pubkey :=
  if Nat.leb (56 + 32 * (i + 1)) (length data)
  then Some (from_bytes (take 32 (drop (56 + 32 * i) data))) else None.

Lemma filter_index {A} (P Q : A → Prop) `{∀ x, Decision (P x)} `{∀ x, Decision (Q x)} l i x :
  (∀ y, Q y ↔ ¬ P y) → l !! i = Some x → P x →
  filter P l !! (i - length (filter Q (take i l)))%nat = Some x.
Proof.
  intros HQ. revert i. induction l as [|y l IH]; intros i Hi Hx; [done|].
  destruct i as [|i]; [injection Hi as ->; by rewrite filter_cons_True|].
  cbn [take]. destruct (decide (P y)).
  - rewrite (filter_cons_True P), (filter_cons_False Q) by naive_solver. specialize (IH i Hi Hx).
    assert (length (filter Q (take i l)) ≤ i)%nat.
    { etrans; [apply length_filter|]. rewrite length_take. lia. }
    by rewrite Nat.sub_succ_l.
  - rewrite (filter_cons_False P), (filter_cons_True Q) by naive_solver. cbn [length].
    by apply IH.
Qed.

Lemma table_keys_entry data i :
  (56 ≤ length data)%nat → table_keys (length data) (drop 56 data) !! i = table_entry data i.
Proof.
  intros Hd. rewrite table_keys_spec, length_drop, drop_drop by (rewrite length_drop; lia).
  unfold table_entry.
  destruct (Nat.leb_spec (32 * (i + 1)) (length data - 56)),
    (Nat.leb_spec (56 + 32 * (i + 1)) (length data)); try done; lia.
Qed.

(** An instruction names an account of a lookup table by its index there.  The
    fetched table has an address at its own index less the number of zero keys,
    the address of the system program, that stand before it: it is moved as soon
    as the system program is listed. *)
Theorem lookup_table_shifted address e account table e' i p :
  rpc_get_account address e = (Ok account, e') →
  fetch_address_lookup_table_account address e = Val (Ok table, e') →
  table_entry (acc_data account) i = Some p → p ≠ SYSTEM_PROGRAM →
  let zeros := filter (λ q, q = SYSTEM_PROGRAM)
                 (take i (table_keys (length (acc_data account)) (drop 56 (acc_data account)))) in
  alt_addresses table !! (i - length zeros)%nat = Some p
  ∧ (SYSTEM_PROGRAM ∈ zeros → alt_addresses table !! i ≠ Some p ∨ ¬ NoDup (alt_addresses table)).
Proof.
  cbn zeta. unfold fetch_address_lookup_table_account. intros Hr Hf Hp Hz. m_inv.
  unfold call in R. rewrite Hr in R. injection R as <- <-. cbv zeta in Hf.
  destruct (Nat.ltb_spec (length (acc_data account)) 56); [done|]. injection Hf as <-.
  cbn [alt_addresses]. change SYSTEM_PROGRAM with 0 in *.
  set (keys := table_keys (length (acc_data account)) (drop 56 (acc_data account))).
  assert (Hi : keys !! i = Some p) by (unfold keys; by rewrite table_keys_entry).
  pose proof (filter_index (λ q : Z, q ≠ 0) (λ q : Z, q = 0%Z) keys i p) as Hx.
  assert (Hx' : filter (λ q : Z, q ≠ 0) keys !! (i - length (filter (λ q : Z, q = 0%Z) (take i keys)))%nat
                = Some p) by (apply Hx; [intros y; lia|done..]).
  split; [done|]. intros Hin. destruct (decide (NoDup (filter (λ q : Z, q ≠ 0) keys))) as [Hd|];
    [left|by right]. intros Hi'. pose proof (NoDup_lookup _ _ _ _ Hd Hx' Hi') as Heq.
  assert (0 < length (filter (λ q : Z, q = 0%Z) (take i keys)))%nat.
  { destruct (filter _ (take i keys)); [by inversion Hin|simpl; lia]. }
  assert (i < length keys)%nat by by eapply lookup_lt_Some.
  destruct i; [by inversion Hin|]. lia.
Qed.
End Tables.

(** ** A node with one table *)

Definition table_bytes : bytes :=
  repeat 0 56 ++ to_bytes SYSTEM_PROGRAM ++ to_bytes TOKEN_PROGRAM ++ to_bytes WSOL_TOKEN_ACCOUNT.

Definition table_node : Sim :=
  mk_Sim (λ p, if p =? 5 then Some (mk_Account table_bytes 6) else None) (λ _, None) 0 0 [].

Lemma lookup_table_shifted_witness :
  fetch_address_lookup_table_account 5 table_node
    = Val (Ok (mk_Alt 5 [TOKEN_PROGRAM; WSOL_TOKEN_ACCOUNT]), table_node)
  ∧ table_entry table_bytes 2 = Some WSOL_TOKEN_ACCOUNT
  ∧ [TOKEN_PROGRAM; WSOL_TOKEN_ACCOUNT] !! 1%nat = Some WSOL_TOKEN_ACCOUNT.
Proof.
  split; [vm_compute; reflexivity|]. split; [vm_compute; reflexivity|].
  destruct (lookup_table_shifted 5 table_node (mk_Account table_bytes 6)
              (mk_Alt 5 [TOKEN_PROGRAM; WSOL_TOKEN_ACCOUNT]) table_node 2 WSOL_TOKEN_ACCOUNT)
    as [H _]; [vm_compute; reflexivity..|done|]. exact H.
Defined.
