(* ===== verification/Http.v ===== *)
(** * The submission channels over HTTP and gRPC (sdk swqos/)

    A client of a channel encodes a transaction, posts it to its service,
    looks at the answer and polls for confirmation.  What the answer is taken
    for differs from service to service: [request] is what each client sends
    and [answered] what it makes of the answer.  The HTTP and gRPC libraries,
    the JSON parser and the encodings are classes; printing is not modelled.
    The clients over QUIC are in the file Quic; Sender puts them together. *)

From Stdlib Require Import Ascii String.
From S2P Require Import Prelude F64 Solana FastFn GasFee Effects Client TxBuild Channels Confirm Submit.

#[local] Open Scope string_scope.
#[local] Open Scope Z_scope.
#[local] Open Scope list_scope.

(** ** JSON *)

(** [serde_json::Value]; numbers are kept as their text. *)
Inductive Json :=
| JNull
| JBool (b : bool)
| JNumber (text : string)
| JString (s : string)
| JArray (l : list Json)
| JObject (fields : list (string * Json)).

(** [value.get(key)] and [value.as_str()]. *)
Definition json_get (key : string) (v : Json) : option Json :=
  match v with
  | JObject fields =>
      match list_find (λ f, f.1 = key) fields with Some (_, (_, v)) => Some v | None => None end
  | _ => None
  end.

Definition as_str (v : Json) : option string :=
  match v with JString s => Some s | _ => None end.

Definition has (key : string) (v : Json) : bool :=
  match json_get key v with Some _ => true | None => false end.

(** ** Requests and answers *)

Inductive Body := BText (s : string) | BBytes (l : list Z).

(** A POST request. *)
Record HttpRequest := mk_Request {
  rq_url : string;
  rq_query : list (string * string);
  rq_headers : list (string * string);
  rq_body : Body;
}.

(** An answer: its status and its text, whose transfer may fail. *)
Record HttpResponse := mk_Response {
  rs_status : Z;
  rs_text : result string string;
}.

(** [StatusCode::is_success]. *)
Definition is_success (status : Z) : bool := (200 <=? status) && (status <? 300).

Class Codec `{TxSdk} := {
  json_from_str : string → option Json;
  json_to_string : Json → string;
  bincode : VersionedTransaction → result string (list Z);
  base58_encode : list Z → string;
  base64_encode : list Z → string;
  status_text : Z → string;
  ascii_metadata : string → result string ();
}.

(** A message of BlockRazor's gRPC service. *)
(* sdk swqos/pb/serverpb.rs:3-13 SendRequest *)
Record SendRequest := mk_Send {
  sr_transaction : string;
  sr_mode : string;
  sr_safe_window : option Z;
  sr_revert_protection : bool;
}.

Class Wire (E : Type) `{TxSdk} := {
  http_send : HttpRequest → E → result string HttpResponse * E;
  grpc_uri : string → result string ();
  grpc_connect : string → E → result string () * E;
  grpc_send : Z → string → SendRequest → E → result string string * E;
  rpc_send_transaction : VersionedTransaction → E → result string Signature * E;
}.

(** ** Computations that fail with any error *)

Definition W (E A : Type) : Type := E → exec (result AnyError A * E).

Definition wret {E A} (a : A) : W E A := λ e, Val (Ok a, e).
Definition wfail {E A} (msg : string) : W E A := λ e, Val (Err (Message msg), e).
Definition wbind {E A B} (m : W E A) (k : A → W E B) : W E B := λ e,
  match m e with
  | Val (Ok a, e') => k a e'
  | Val (Err x, e') => Val (Err x, e')
  | Panic => Panic
  end.
Notation "'let@' x ':=' m 'in' k" := (wbind m (fun x => k))
  (at level 10, x binder, m at level 100, k at level 200,
   format "'[v' 'let@'  x  ':='  m  'in' '/' k ']'") : rust_scope.

Definition as_error {A} (r : result string A) : result AnyError A :=
  match r with Ok a => Ok a | Err s => Err (Message s) end.
Definition wcall {E A} (f : E → result string A * E) : W E A := λ e,
  let '(r, e') := f e in Val (as_error r, e').
Definition wres {E A} (r : result string A) : W E A := λ e, Val (as_error r, e).
Definition wex {E A} (x : exec A) : W E A := λ e, let* a := x in Val (Ok a, e).
(** Errors of [M] that are values already, and those that are not. *)
Definition wpoll {E A} (m : M E (result AnyError A)) : W E A := λ e,
  match m e with
  | Val (Ok r, e') => Val (r, e')
  | Val (Err s, e') => Val (Err (Message s), e')
  | Panic => Panic
  end.

(** Computations that never panic. *)
Definition total {E A} (m : W E A) : Prop := ∀ e, ∃ r e', m e = Val (r, e').

Lemma total_ret {E A} (a : A) : total (@wret E A a).
Proof. intros e. by eexists _, _. Qed.
Lemma total_fail {E A} msg : total (@wfail E A msg).
Proof. intros e. by eexists _, _. Qed.
Lemma total_res {E A} (r : result string A) : total (@wres E A r).
Proof. intros e. by eexists _, _. Qed.
Lemma total_call {E A} (f : E → result string A * E) : total (wcall f).
Proof. intros e. unfold wcall. destruct (f e). by eexists _, _. Qed.
Lemma total_bind {E A B} (m : W E A) (k : A → W E B) :
  total m → (∀ a, total (k a)) → total (wbind m k).
Proof.
  intros Hm Hk e. unfold wbind. destruct (Hm e) as (r & e' & ->).
  destruct r as [a|x]; [apply Hk|by eexists _, _].
Qed.
Create HintDb total.
#[export] Hint Resolve total_ret total_fail total_res total_call : total.

(** ** Encoding *)

Inductive UiTransactionEncoding := Base58 | Base64 | JsonParsed.

Section Channels.
Context {E : Type} `{Confirm E} `{TxErrorText} `{TxSdk} `{!Codec} `{!Wire E}.

(** The buffer pool only recycles memory. *)
(* sdk swqos/serialization.rs:149-162 serialize_transaction_sync *)
Definition serialize_transaction_sync (tx : VersionedTransaction)
    (encoding : UiTransactionEncoding) : W E (string * Signature) :=
  let@ signature := wex (unwrap (head (signatures tx))) in
  let@ serialized_tx := wres (bincode tx) in
  match encoding with
  | Base58 => wret (base58_encode serialized_tx, signature)
  | Base64 => wret (base64_encode serialized_tx, signature)
  | _ => wfail "Unsupported encoding"
  end.

(* sdk swqos/common.rs:310-315 serialize_transaction_and_encode *)
Definition serialize_transaction_and_encode (tx : VersionedTransaction)
    (encoding : UiTransactionEncoding) : W E (string * Signature) :=
  serialize_transaction_sync tx encoding.

(** ** What the clients share *)

(** [request.send().await?.text().await?]. *)
Definition post_text (rq : HttpRequest) : W E string :=
  let@ response := wcall (http_send rq) in wres (rs_text response).

(** The end of every client. *)
Definition confirm_sent (signature : Signature) (wait_confirmation : bool) : W E () :=
  let@ _ := wpoll (poll_transaction_confirmation signature wait_confirmation) in wret ().

Definition json_header : string * string := ("Content-Type", "application/json").

(** The JSON-RPC call [sendTransaction] with its options. *)
Definition rpc_call (id : Json) (content : string) (options : list (string * Json)) : string :=
  json_to_string (JObject [("jsonrpc", JString "2.0"); ("id", id);
    ("method", JString "sendTransaction"); ("params", JArray [JString content; JObject options])]).

Definition base64_option : string * Json := ("encoding", JString "base64").

(** ** Clients that take any answer for a submission *)

(* sdk swqos/jito.rs:66-131 send_transaction_impl *)
Definition jito_send (c : SwqosClient) (tx : VersionedTransaction) (wait_confirmation : bool) :
    W E () :=
  let@ cs := serialize_transaction_and_encode tx Base64 in
  let request_body := json_to_string (JObject [("id", JNumber "1"); ("jsonrpc", JString "2.0");
    ("method", JString "sendTransaction");
    ("params", JArray [JString cs.1; JObject [base64_option]])]) in
  let no_token := String.eqb (ch_auth_token c) "" in
  let endpoint :=
    if no_token then ch_endpoint c +:+ "/api/v1/transactions"
    else ch_endpoint c +:+ "/api/v1/transactions?uuid=" +:+ ch_auth_token c in
  let headers := (if no_token then [] else [("x-jito-auth", ch_auth_token c)]) ++ [json_header] in
  let@ _ := post_text (mk_Request endpoint [] headers (BText request_body)) in
  confirm_sent cs.2 wait_confirmation.

(* sdk swqos/nextblock.rs:72-131 send_transaction *)
Definition nextblock_send (c : SwqosClient) (tx : VersionedTransaction) (wait_confirmation : bool) :
    W E () :=
  let@ cs := serialize_transaction_and_encode tx Base64 in
  let request_body := json_to_string (JObject [("transaction", JObject [("content", JString cs.1)]);
    ("frontRunningProtection", JBool false)]) in
  let@ _ := post_text (mk_Request (ch_endpoint c) []
              [("Authorization", ch_auth_token c); json_header] (BText request_body)) in
  confirm_sent cs.2 wait_confirmation.

Definition quote (s : string) : string := String (ascii_of_nat 34) (s +:+ String (ascii_of_nat 34) "").

(* sdk swqos/bloxroute.rs:71-135 send_transaction *)
Definition bloxroute_send (c : SwqosClient) (tx : VersionedTransaction) (wait_confirmation : bool) :
    W E () :=
  let@ cs := serialize_transaction_and_encode tx Base64 in
  let body := "{" +:+ quote "transaction" +:+ ":{" +:+ quote "content" +:+ ":" +:+ quote cs.1
    +:+ "}," +:+ quote "frontRunningProtection" +:+ ":false," +:+ quote "useStakedRPCs"
    +:+ ":true}" in
  let@ _ := post_text (mk_Request (ch_endpoint c +:+ "/api/v2/submit") []
              [json_header; ("Authorization", ch_auth_token c)] (BText body)) in
  confirm_sent cs.2 wait_confirmation.

(* sdk swqos/flashblock.rs:66-129 send_transaction *)
Definition flashblock_send (c : SwqosClient) (tx : VersionedTransaction)
    (wait_confirmation : bool) : W E () :=
  let@ cs := serialize_transaction_and_encode tx Base64 in
  let request_body := json_to_string (JObject [("transactions", JArray [JString cs.1])]) in
  let@ _ := post_text (mk_Request (ch_endpoint c +:+ "/api/v2/submit-batch") []
              [("Authorization", ch_auth_token c); json_header; ("Connection", "keep-alive");
               ("Keep-Alive", "timeout=30, max=1000")] (BText request_body)) in
  confirm_sent cs.2 wait_confirmation.

(* sdk swqos/temporal.rs:174-239 send_transaction *)
Definition temporal_send (c : SwqosClient) (tx : VersionedTransaction) (wait_confirmation : bool) :
    W E () :=
  let@ cs := serialize_transaction_and_encode tx Base64 in
  let request_body := rpc_call (JNumber "1") cs.1 [base64_option] in
  let url := ch_endpoint c +:+ "/?c=" +:+ ch_auth_token c in
  let@ _ := post_text (mk_Request url [] [json_header] (BText request_body)) in
  confirm_sent cs.2 wait_confirmation.

(* sdk swqos/node1.rs:151-219 send_transaction *)
Definition node1_send (c : SwqosClient) (tx : VersionedTransaction) (wait_confirmation : bool) :
    W E () :=
  let@ cs := serialize_transaction_and_encode tx Base64 in
  let request_body := rpc_call (JNumber "1") cs.1 [base64_option; ("skipPreflight", JBool true)] in
  let@ _ := post_text (mk_Request (ch_endpoint c) []
              [json_header; ("api-key", ch_auth_token c)] (BText request_body)) in
  confirm_sent cs.2 wait_confirmation.

(* sdk swqos/stellium.rs:130-203 send_transaction *)
Definition stellium_send (c : SwqosClient) (tx : VersionedTransaction) (wait_confirmation : bool) :
    W E () :=
  let@ cs := serialize_transaction_and_encode tx Base64 in
  let request_body := rpc_call (JNumber "1") cs.1 [base64_option] in
  let url := ch_endpoint c +:+ "/" +:+ ch_auth_token c in
  let@ _ := post_text (mk_Request url []
              [json_header; ("Connection", "keep-alive"); ("Keep-Alive", "timeout=30, max=1000")]
              (BText request_body)) in
  confirm_sent cs.2 wait_confirmation.

(* sdk swqos/lightspeed.rs:68-135 send_transaction *)
Definition lightspeed_send (c : SwqosClient) (tx : VersionedTransaction)
    (wait_confirmation : bool) : W E () :=
  let@ cs := serialize_transaction_and_encode tx Base64 in
  let request_body := rpc_call (JNumber "1") cs.1
    [base64_option; ("skipPreflight", JBool true); ("preflightCommitment", JString "processed");
     ("maxRetries", JNumber "0")] in
  let@ _ := post_text (mk_Request (ch_endpoint c) [] [json_header] (BText request_body)) in
  confirm_sent cs.2 wait_confirmation.

(** ** Clients that look at the answer *)

(** [response_json][error].get(message).as_str(). *)
Definition error_message_of (json : Json) : option string :=
  match json_get "error" json with
  | Some error =>
      match json_get "message" error with Some message => as_str message | None => None end
  | None => None
  end.

(** The endpoint is the submit URL made at construction. *)
(* sdk swqos/helius.rs:71-158 send_transaction *)
Definition helius_send (c : SwqosClient) (tx : VersionedTransaction) (wait_confirmation : bool) :
    W E () :=
  let@ cs := serialize_transaction_and_encode tx Base64 in
  let request_body := rpc_call (JString "1") cs.1
    [base64_option; ("skipPreflight", JBool true); ("maxRetries", JNumber "0")] in
  let@ response := wcall (http_send (mk_Request (ch_endpoint c) [] [json_header]
                                       (BText request_body))) in
  let@ response_text := wres (rs_text response) in
  if negb (is_success (rs_status response)) then
    wfail ("Helius Sender failed: status=" +:+ status_text (rs_status response)
           +:+ " body=" +:+ response_text)
  else
    match json_from_str response_text with
    | Some json =>
        if has "error" json then
          wfail ("Helius Sender error: " +:+ default "unknown" (error_message_of json))
        else confirm_sent cs.2 wait_confirmation
    | None => confirm_sent cs.2 wait_confirmation
    end.

(** What 0slot makes of an answer with status 200. *)
(* sdk swqos/zeroslot.rs:176-198 send_transaction, 200 *)
Definition zeroslot_ok (response_text : string) : result string () :=
  match json_from_str response_text with
  | Some json =>
      if has "result" json then Ok ()
      else if has "error" json then
        Err ("0slot Binary-Tx error: " +:+ default "unknown error" (error_message_of json))
      else Err ("0slot Binary-Tx unexpected JSON: " +:+ response_text)
  | None => Err ("0slot Binary-Tx invalid JSON: " +:+ response_text)
  end.

(* sdk swqos/zeroslot.rs:175-215 send_transaction, answer *)
Definition zeroslot_answer (status : Z) (response_text : string) : result string () :=
  if status =? 200 then zeroslot_ok response_text
  else if status =? 403 then Err ("0slot API key error: " +:+ response_text)
  else if status =? 419 then Err "0slot rate limit exceeded"
  else if status =? 500 then Err "0slot transaction submission failed"
  else Err ("0slot Binary-Tx failed with status " +:+ status_text status +:+ ": " +:+ response_text).

(* sdk swqos/zeroslot.rs:140-235 send_transaction *)
Definition zeroslot_send (c : SwqosClient) (tx : VersionedTransaction) (wait_confirmation : bool) :
    W E () :=
  let@ tx_bytes := wres (bincode tx) in
  let url := ch_endpoint c +:+ "/txb?api-key=" +:+ ch_auth_token c in
  let@ response := wcall (http_send (mk_Request url [] [("User-Agent", "")] (BBytes tx_bytes))) in
  let@ response_text := wres (rs_text response) in
  let@ _ := wres (zeroslot_answer (rs_status response) response_text) in
  let@ signature := wex (unwrap (head (signatures tx))) in
  confirm_sent signature wait_confirmation.

(* sdk swqos/astralane.rs:169-242 send_transaction_impl, over HTTP *)
Definition astralane_http_send (c : SwqosClient) (tx : VersionedTransaction)
    (wait_confirmation : bool) : W E () :=
  let@ signature := wex (unwrap (head (signatures tx))) in
  let@ body_bytes := wres match bincode tx with
                          | Ok b => Ok b
                          | Err e => Err ("Astralane binary serialize failed: " +:+ e)
                          end in
  let query := [("api-key", ch_auth_token c); ("method", "sendTransaction")]
               ++ (if ch_mev_protection c then [("mev-protect", "true")] else []) in
  let@ response := wcall (http_send (mk_Request (ch_endpoint c) query
                            [("Content-Type", "application/octet-stream")] (BBytes body_bytes))) in
  if is_success (rs_status response) then confirm_sent signature wait_confirmation
  else wfail ("Astralane sendTransaction failed: " +:+ status_text (rs_status response)).

(* sdk swqos/blockrazor.rs:393-399 send_transaction_impl, mode *)
Definition razor_mode (c : SwqosClient) : string :=
  if ch_mev_protection c then "sandwichMitigation" else "fast".

(* sdk swqos/blockrazor.rs:54-81 send_transaction *)
Definition razor_grpc_call (c : SwqosClient) (rq : SendRequest) : W E string := λ e,
  match ascii_metadata (ch_auth_token c) with
  | Err m => Val (Err (Message ("Invalid API key format: " +:+ m)), e)
  | Ok () =>
      let '(r, e') := grpc_send (ch_ptr c) (ch_auth_token c) rq e in
      Val (match r with
           | Ok signature => Ok signature
           | Err m => Err (Message ("gRPC send transaction failed: " +:+ m))
           end, e')
  end.

(** [anyhow!(prefix, e)] for an error, of which the text is kept. *)
Definition wprefix {A} (prefix : string) (m : W E A) : W E A := λ e,
  match m e with
  | Val (Err (Message s), e') => Val (Err (Message (prefix +:+ s)), e')
  | Val (Err (Typed te), e') => Val (Err (Message (prefix +:+ te_message te)), e')
  | x => x
  end.

Lemma total_prefix {A} prefix (m : W E A) : total m → total (wprefix prefix m).
Proof.
  intros Hm e. unfold wprefix. destruct (Hm e) as (r & e' & ->).
  destruct r as [a|[te|s]]; by eexists _, _.
Qed.

(* sdk swqos/blockrazor.rs:374-492 send_transaction_impl, over gRPC *)
Definition blockrazor_grpc_send (c : SwqosClient) (tx : VersionedTransaction)
    (wait_confirmation : bool) : W E () :=
  let@ cs := serialize_transaction_and_encode tx Base64 in
  let@ sig := wprefix "BlockRazor gRPC sendTransaction failed: "
                (razor_grpc_call c (mk_Send cs.1 (razor_mode c) None false)) in
  if String.eqb sig "" then wfail "BlockRazor gRPC returned empty signature"
  else
    let@ signature := wex (unwrap (head (signatures tx))) in
    confirm_sent signature wait_confirmation.

(* sdk swqos/blockrazor.rs:422-491 send_transaction_impl, over HTTP *)
Definition blockrazor_http_send (c : SwqosClient) (tx : VersionedTransaction)
    (wait_confirmation : bool) : W E () :=
  let@ cs := serialize_transaction_and_encode tx Base64 in
  let query := [("auth", ch_auth_token c); ("mode", razor_mode c)] in
  let@ response := wcall (http_send (mk_Request (ch_endpoint c) query
                            [("Content-Type", "text/plain")] (BText cs.1))) in
  if is_success (rs_status response) then
    let@ signature := wex (unwrap (head (signatures tx))) in
    confirm_sent signature wait_confirmation
  else
    let body := match rs_text response with Ok s => s | Err _ => "" end in
    wfail ("BlockRazor HTTP sendTransaction failed: status "
           +:+ status_text (rs_status response) +:+ " body: " +:+ body).

(** The node's own submission; the signature polled is the one it answers. *)
(* sdk swqos/solana_rpc.rs:22-60 send_transaction *)
Definition default_send (tx : VersionedTransaction) (wait_confirmation : bool) : W E () :=
  let@ signature := wcall (rpc_send_transaction tx) in
  confirm_sent signature wait_confirmation.

End Channels.

#[export] Hint Resolve total_prefix : total.

(** ** The stand-alone submission to NextBlock *)

(** A client for signed transactions of the old format, used by no other part.
    Their encoding, the parsing of a signature, and the text of a JSON error
    are those of crates. *)
Section NextBlock.
Context {E : Type} `{TxSdk} `{!Codec} `{!Wire E} {Transaction : Type}.
Context (bincode_transaction : Transaction → result string (list Z)).
Context (signature_from_str : string → result string Signature) (json_error : string → string).

(** [r.map_err(|e| anyhow!("...: {}", e))]. *)
Definition explain {A} (msg : string) (r : result string A) : result string A :=
  match r with Ok a => Ok a | Err e => Err (msg +:+ e) end.

(** [value[key]], which is null where there is no such field. *)
Definition json_index (key : string) (v : Json) : Json := default JNull (json_get key v).

(* sdk swqos/common.rs:248-295 send_nb_transaction *)
Definition send_nb_transaction (endpoint auth_token : string) (transaction : Transaction) :
    W E Signature :=
  let@ serialized := wres (explain "Transaction serialization failed: " (bincode_transaction transaction)) in
  let request_data := JObject [("transaction", JObject [("content", JString (base64_encode serialized))]);
    ("frontRunningProtection", JBool true)] in
  let@ response := (λ e, let '(r, e) := http_send (mk_Request (endpoint +:+ "/api/v2/submit") []
                             [("Authorization", auth_token); json_header]
                             (BText (json_to_string request_data))) e in
                         Val (as_error (explain "Request failed: " r), e)) in
  let@ text := wres (explain "Response parsing failed: " (rs_text response)) in
  let@ resp := wres (ok_or (json_from_str text) ("Response parsing failed: " +:+ json_error text)) in
  match as_str (json_index "reason" resp) with
  | Some reason => wfail reason
  | None =>
      let@ signature := wres (ok_or (as_str (json_index "signature" resp))
                                    "Missing signature field in response") in
      wres (explain "Invalid signature: " (signature_from_str signature))
  end.

(** A success is an answer without a reason that carries a signature, whatever
    its status is; a reason is the error that is reported. *)
Theorem nb_transaction_outcome endpoint auth_token tx e r e' :
  send_nb_transaction endpoint auth_token tx e = Val (r, e') →
  (∀ signature, r = Ok signature → ∃ status text resp s,
     (∃ rq, http_send rq e = (Ok (mk_Response status (Ok text)), e'))
     ∧ json_from_str text = Some resp ∧ as_str (json_index "reason" resp) = None
     ∧ as_str (json_index "signature" resp) = Some s ∧ signature_from_str s = Ok signature)
  ∧ (∀ status text resp reason rq, http_send rq e = (Ok (mk_Response status (Ok text)), e') →
     (∃ l, bincode_transaction tx = Ok l ∧ rq = mk_Request (endpoint +:+ "/api/v2/submit") []
        [("Authorization", auth_token); json_header]
        (BText (json_to_string (JObject [("transaction", JObject [("content", JString (base64_encode l))]);
           ("frontRunningProtection", JBool true)])))) →
     json_from_str text = Some resp → as_str (json_index "reason" resp) = Some reason →
     r = Err (Message reason)).
Proof.
  unfold send_nb_transaction, wbind, wres, wfail.
  destruct (bincode_transaction tx) as [l|err]; simpl.
  - set (rq := mk_Request _ _ _ _).
    destruct (http_send rq e) as [[[status text]|err] e1] eqn:Hs; simpl; [|intros [= <- <-]; split; [done|]].
    + intros Hr. assert (e1 = e') as ->.
      { destruct text as [text|]; simpl in Hr; [|congruence].
        destruct (json_from_str text) as [resp|]; simpl in Hr; [|congruence].
        destruct (as_str (json_index "reason" resp)); [congruence|].
        destruct (as_str (json_index "signature" resp)); simpl in Hr; congruence. }
      split.
      * intros signature ->. destruct text as [text|]; simpl in Hr; [|done].
        destruct (json_from_str text) as [resp|] eqn:Hj; simpl in Hr; [|done].
        destruct (as_str (json_index "reason" resp)) eqn:Hre; [done|].
        destruct (as_str (json_index "signature" resp)) as [s|] eqn:Hsig; simpl in Hr; [|done].
        destruct (signature_from_str s) as [sg|] eqn:Hsg; simplify_eq/=.
        exists status, text, resp, s. split; [by exists rq|done].
      * intros status' text' resp reason rq' Hs' (l' & [= <-] & ->) Hj Hre. fold rq in Hs'.
        rewrite Hs in Hs'. simplify_eq/=. rewrite Hj in Hr. simpl in Hr. rewrite Hre in Hr. by simplify_eq.
    + intros status text resp reason rq' Hs' (l' & [= <-] & ->) _ _. fold rq in Hs'. congruence.
  - intros [= <- <-]. split; [done|]. by intros status text resp reason rq _ (l & ? & _).
Qed.
End NextBlock.
