(* ===== verification/Quic.v ===== *)
(** * The submission channels over QUIC (sdk swqos/node1_quic.rs, soyas.rs,
    speedlanding.rs, astralane_quic.rs)

    A client over QUIC keeps a connection and reconnects when it has been
    closed; a transaction is written to a stream of its own.  The QUIC and TLS
    libraries, name resolution and the cells that hold the connection of a
    client are the class [QuicNet]; how a client uses them is modelled.  Locks are
    not, but for the one that is tried (Soyas). *)

From Stdlib Require Import Ascii String.
From S2P Require Import Prelude F64 Solana FastFn GasFee Effects Client TxBuild Channels Confirm Submit Http.

#[local] Open Scope string_scope.
#[local] Open Scope Z_scope.
#[local] Open Scope list_scope.

(** ** Addresses, connections, streams *)

Inductive IpAddr := V4 (a b c d : Z) | V6 (bits : Z).
Record SocketAddr := mk_Addr { addr_ip : IpAddr; addr_port : Z }.

#[export] Instance IpAddr_eq_dec : EqDecision IpAddr.
Proof. solve_decision. Defined.
#[export] Instance SocketAddr_eq_dec : EqDecision SocketAddr.
Proof. solve_decision. Defined.

Definition is_ipv4 (a : SocketAddr) : bool :=
  match addr_ip a with V4 _ _ _ _ => true | V6 _ => false end.

Abbreviation Connecting := Z (only parsing).
Abbreviation Connection := Z (only parsing).
Abbreviation Stream := Z (only parsing).

Inductive ConnectionError := ApplicationClosed (code : Z) | OtherClose (reason : string).

(** Who a client says it is in the handshake. *)
Inductive TlsIdentity := NoClientAuth | CommonName (name : string) | DummyCertificate (key : Pubkey).

(** A cell is named by the client that owns it. *)
Class QuicNet (E : Type) := {
  to_socket_addrs : string → E → result string (list SocketAddr) * E;
  socket_addr_from_str : string → option SocketAddr;
  uuid_parse_str : string → result string (list Z);
  keypair_from_base58 : string → result string Pubkey;
  utf8_lossy : list Z → string;
  socket_addr_text : SocketAddr → string;
  tls_config : TlsIdentity → E → result string () * E;
  quic_endpoint : E → result string () * E;
  quic_connect : SocketAddr → string → E → result string Connecting * E;
  quic_handshake : Connecting → E → result string Connection * E;
  quic_close_reason : Connection → E → option ConnectionError;
  quic_open_bi : Connection → E → result string Stream * E;
  quic_open_uni : Connection → E → result string Stream * E;
  quic_write_all : Stream → list Z → E → result string () * E;
  quic_finish : Stream → E → result string () * E;
  quic_read_exact : Stream → Z → E → result string (list Z) * E;
  cell_connection : Z → E → Connection;
  cell_store : Z → Connection → E → E;
  cell_store_addr : Z → SocketAddr → E → E;
  cell_store_candidates : Z → list SocketAddr → E → E;
  cell_addr : Z → E → SocketAddr;
  cell_candidates : Z → E → list SocketAddr;
  cell_fetch_add : Z → E → Z * E;
  cell_try_lock : Z → E → result string () * E;
  quic_read_length s n e l e' :
    0 ≤ n → quic_read_exact s n e = (Ok l, e') → Z.of_nat (length l) = n;
}.

(** [rsplit_once(c)]: what comes before and after the last [c]. *)
Fixpoint rsplit_once (c : ascii) (s : string) : option (string * string) :=
  match s with
  | EmptyString => None
  | String a s' =>
      match rsplit_once c s' with
      | Some (l, r) => Some (String a l, r)
      | None => if Ascii.eqb a c then Some ("", s') else None
      end
  end.

(** [split(c).next()]. *)
Fixpoint before (c : ascii) (s : string) : string :=
  match s with
  | EmptyString => ""
  | String a s' => if Ascii.eqb a c then "" else String a (before c s')
  end.

(** [u16::from_str]: digits, with an optional sign, below 2^16. *)
Fixpoint digits (acc : Z) (s : string) : option Z :=
  match s with
  | EmptyString => Some acc
  | String a s' =>
      let d := Z.of_nat (nat_of_ascii a) - 48 in
      if (0 <=? d) && (d <=? 9) then
        let acc := 10 * acc + d in
        if acc <? 65536 then digits acc s' else None
      else None
  end.
Definition parse_u16 (s : string) : option Z :=
  match s with
  | EmptyString => None
  | String a s' =>
      if Ascii.eqb a "+"%char then match s' with EmptyString => None | _ => digits 0 s' end
      else digits 0 s
  end.

Section QuicClients.
Context {E : Type} `{Confirm E} `{TxErrorText} `{TxSdk} `{!Codec} `{!QuicNet E}.

(** [.context(msg)?]. *)
Definition wctx {A} (msg : string) (m : W E A) : W E A := λ e,
  match m e with
  | Val (Err _, e') => Val (Err (Message msg), e')
  | x => x
  end.

(** [timeout(ms, m).await.context(msg)??]. *)
Definition within {A} (ms : Z) (msg : string) (m : W E A) : W E A := λ e,
  match rpc_timeout ms e with
  | Some e' => Val (Err (Message msg), e')
  | None => m e
  end.

Definition wask {A} (f : E → A) : W E A := λ e, Val (Ok (f e), e).
Definition weffect (f : E → E) : W E () := λ e, Val (Ok (), f e).

Definition first_of {A} (msg : string) (l : list A) : W E A := wres (ok_or (head l) msg).

(** ** Node1 *)

Definition MAX_TX_SIZE : Z := 1232.

(* sdk swqos/node1_quic.rs:100-111 authenticate *)
Definition node1_authenticate (connection : Connection) (api_key_bytes : list Z) : W E () :=
  let@ s := wctx "open_bi for auth" (wcall (quic_open_bi connection)) in
  let@ _ := wctx "write auth bytes" (wcall (quic_write_all s api_key_bytes)) in
  let@ _ := wctx "finish auth stream" (wcall (quic_finish s)) in
  let@ reply := wctx "read auth reply" (wcall (quic_read_exact s 1)) in
  let@ code := wex (unwrap (head reply)) in
  if code =? 0 then wret ()
  else wfail ("Node1 QUIC auth rejected, reply=" +:+ show code).

(* sdk swqos/node1_quic.rs:44-81 connect *)
Definition node1_connect (server_addr api_key : string) : W E Connection :=
  let@ addrs := wctx "resolve Node1 QUIC server address" (wcall (to_socket_addrs server_addr)) in
  let@ socket_addr := first_of "no socket address for Node1 QUIC" addrs in
  let@ api_key_bytes := wctx "Node1 API key must be a valid UUID" (wres (uuid_parse_str api_key)) in
  let server_name := before ":" server_addr in
  let@ _ := wctx "build QUIC TLS config" (wcall (tls_config NoClientAuth)) in
  let@ _ := wctx "create QUIC endpoint" (wcall quic_endpoint) in
  let@ connecting := wctx "Node1 QUIC connect failed"
                       (wcall (quic_connect socket_addr server_name)) in
  let@ connection := within 5000 "Node1 QUIC connect timeout"
    (wctx "Node1 QUIC handshake failed" (wcall (quic_handshake connecting))) in
  let@ _ := within 5000 "Node1 QUIC auth timeout" (node1_authenticate connection api_key_bytes) in
  wret connection.

(** The key the client was made with. *)
Definition node1_key (c : SwqosClient) : list Z :=
  match uuid_parse_str (ch_auth_token c) with Ok l => l | Err _ => [] end.

(* sdk swqos/node1_quic.rs:113-142 ensure_connected *)
Definition node1_ensure_connected (c : SwqosClient) : W E Connection :=
  let@ current := wask (cell_connection (ch_ptr c)) in
  let@ reason := wask (quic_close_reason current) in
  match reason with
  | Some _ =>
      let@ addrs := wctx "resolve Node1 QUIC server address"
                      (wcall (to_socket_addrs (ch_endpoint c))) in
      let@ socket_addr := first_of "no socket address" addrs in
      let@ connecting := wctx "Node1 QUIC reconnect failed"
                           (wcall (quic_connect socket_addr (before ":" (ch_endpoint c)))) in
      let@ connection := within 5000 "Node1 QUIC reconnect timeout"
        (wctx "Node1 QUIC re-handshake failed" (wcall (quic_handshake connecting))) in
      let@ _ := within 5000 "Node1 QUIC re-auth timeout"
                  (node1_authenticate connection (node1_key c)) in
      let@ _ := weffect (cell_store (ch_ptr c) connection) in
      wret connection
  | None => wret current
  end.

(** [from_be_bytes]. *)
Definition be_value (l : list Z) : Z := foldl (λ acc b, 256 * acc + b) 0 l.

(* sdk swqos/node1_quic.rs:144-158 read_response *)
Definition read_response (recv : Stream) : W E (Z * string) :=
  let@ header := wprefix "read response header: " (wcall (quic_read_exact recv 6)) in
  let status := be_value (take 2 header) in
  let msg_len := be_value (take 4 (drop 2 header)) in
  let@ msg := if 0 <? msg_len
              then wprefix "read response body: " (wcall (quic_read_exact recv msg_len))
              else wret [] in
  wret (status, utf8_lossy msg).

(* sdk swqos/node1_quic.rs:161-175 send_transaction_bytes *)
Definition node1_send_bytes (c : SwqosClient) (tx_bytes : list Z) : W E (Z * string) :=
  if MAX_TX_SIZE <? Z.of_nat (length tx_bytes) then
    wfail ("Node1 QUIC: transaction too large (" +:+ show (Z.of_nat (length tx_bytes))
           +:+ " > " +:+ show MAX_TX_SIZE +:+ ")")
  else
    let@ conn := node1_ensure_connected c in
    let@ s := wctx "open_bi for tx" (wcall (quic_open_bi conn)) in
    let@ _ := wctx "write tx" (wcall (quic_write_all s tx_bytes)) in
    let@ _ := wctx "finish tx stream" (wcall (quic_finish s)) in
    read_response s.

(* sdk swqos/node1_quic.rs:180-227 send_transaction *)
Definition node1_quic_send (c : SwqosClient) (tx : VersionedTransaction)
    (wait_confirmation : bool) : W E () :=
  let signature := default default_signature (head (signatures tx)) in
  let@ tx_bytes := wctx "Node1 QUIC: bincode serialize" (wres (bincode tx)) in
  let@ answer := within 5000 "Node1 QUIC send timeout" (node1_send_bytes c tx_bytes) in
  if negb (answer.1 =? 200) then
    wfail ("Node1 QUIC submit failed: status=" +:+ show answer.1 +:+ " msg=" +:+ answer.2)
  else confirm_sent signature wait_confirmation.

(** ** Soyas *)

(* sdk swqos/soyas.rs:157-162 try_send_bytes *)
Definition try_send_bytes (connection : Connection) (payload : list Z) : W E () :=
  let@ stream := wcall (quic_open_uni connection) in
  let@ _ := wcall (quic_write_all stream payload) in
  wcall (quic_finish stream).

(* sdk swqos/soyas.rs:147-155 reconnect *)
Definition soyas_reconnect (c : SwqosClient) : W E () :=
  let@ _ := wcall (cell_try_lock (ch_ptr c)) in
  let@ addr := wask (cell_addr (ch_ptr c)) in
  let@ connecting := wcall (quic_connect addr "soyas-landing") in
  let@ connection := wcall (quic_handshake connecting) in
  weffect (cell_store (ch_ptr c) connection).

(** The outcome of a computation, as a value. *)
Definition wattempt {A} (m : W E A) : W E (result AnyError A) := λ e,
  match m e with
  | Val (r, e') => Val (Ok r, e')
  | Panic => Panic
  end.

(* sdk swqos/soyas.rs:167-209 send_transaction *)
Definition soyas_send (c : SwqosClient) (tx : VersionedTransaction) (wait_confirmation : bool) :
    W E () :=
  let@ signature := wex (unwrap (head (signatures tx))) in
  let@ serialized_tx := wres (bincode tx) in
  let@ connection := wask (cell_connection (ch_ptr c)) in
  let@ sent := wattempt (try_send_bytes connection serialized_tx) in
  let@ _ := match sent with
            | Ok _ => wret ()
            | Err _ =>
                let@ _ := soyas_reconnect c in
                let@ connection := wask (cell_connection (ch_ptr c)) in
                try_send_bytes connection serialized_tx
            end in
  confirm_sent signature wait_confirmation.

(** ** Speedlanding *)

(** The lock is taken twice; between the two the connection may have been
    replaced, which sequentially it is not. *)
(* sdk swqos/speedlanding.rs:105-133 ensure_connected *)
Definition speed_ensure_connected (c : SwqosClient) : W E Connection :=
  let@ current := wask (cell_connection (ch_ptr c)) in
  let@ reason := wask (quic_close_reason current) in
  match reason with
  | None => wret current
  | Some _ =>
      let@ addr := wask (cell_addr (ch_ptr c)) in
      let@ connecting := wcall (quic_connect addr "speed-landing") in
      let@ connection := within 5000 "Speedlanding QUIC reconnect timeout"
        (wctx ("Speedlanding QUIC re-handshake failed（对端 " +:+ socket_addr_text addr
               +:+ " SNI speed-landing）") (wcall (quic_handshake connecting))) in
      let@ _ := weffect (cell_store (ch_ptr c) connection) in
      wask (cell_connection (ch_ptr c))
  end.

(* sdk swqos/speedlanding.rs:145-218 send_transaction *)
Definition speed_send (c : SwqosClient) (tx : VersionedTransaction) (wait_confirmation : bool) :
    W E () :=
  let@ signature := wex (unwrap (head (signatures tx))) in
  let@ buf := wres (bincode tx) in
  let@ connection := speed_ensure_connected c in
  let send connection :=
    within 5000 "Speedlanding QUIC send timeout" (try_send_bytes connection buf) in
  let@ send_result := wattempt (send connection) in
  let@ _ := match send_result with
            | Ok _ => wret ()
            | Err _ => let@ connection := speed_ensure_connected c in send connection
            end in
  confirm_sent signature wait_confirmation.

(** ** Connecting Soyas and Speedlanding *)

(** [str::trim], of ASCII white space. *)
Definition is_space (a : ascii) : bool :=
  let n := nat_of_ascii a in Nat.eqb n 32 || (Nat.leb 9 n && Nat.leb n 13).
Fixpoint trim_start (s : string) : string :=
  match s with
  | String a s' => if is_space a then trim_start s' else s
  | EmptyString => ""
  end.
Fixpoint trim_end (s : string) : string :=
  match s with
  | EmptyString => ""
  | String a s' =>
      match trim_end s' with
      | EmptyString => if is_space a then "" else String a ""
      | s'' => String a s''
      end
  end.
Definition trim (s : string) : string := trim_end (trim_start s).

(* sdk swqos/soyas.rs:104-145 new *)
Definition soyas_connect `{KeyText} (endpoint_string api_key : string) :
    W E (SocketAddr * Connection) :=
  let@ key := wprefix "Soyas api_token 无法解析为 Solana keypair base58（QUIC mTLS 用）: "
                (wres (keypair_from_base58 (trim api_key))) in
  let@ _ := wcall (tls_config (CommonName (pubkey_to_string key))) in
  let@ _ := wcall quic_endpoint in
  let@ addrs := wcall (to_socket_addrs endpoint_string) in
  let@ addr := first_of "Address not resolved" addrs in
  let@ connecting := wcall (quic_connect addr "soyas-landing") in
  let@ connection := wcall (quic_handshake connecting) in
  wret (addr, connection).

(* sdk swqos/speedlanding.rs:48-100 new *)
Definition speed_connect `{KeyText} (endpoint_string api_key : string) :
    W E (SocketAddr * Connection) :=
  let@ key := wprefix ("Speedlanding api_token 无法解析为 Solana keypair base58（用于 mTLS）；"
                       +:+ "请确认粘贴的是机器人提供的密钥而非其它字符串: ")
                (wres (keypair_from_base58 (trim api_key))) in
  let@ _ := wcall (tls_config (DummyCertificate key)) in
  let@ _ := wcall quic_endpoint in
  let@ addrs := wcall (to_socket_addrs endpoint_string) in
  let@ addr := first_of "Address not resolved" addrs in
  let@ connecting := wcall (quic_connect addr "speed-landing") in
  let@ connection := within 5000 "Speedlanding QUIC connect timeout"
    (wctx ("Speedlanding QUIC handshake failed（请确认：1) 机器人登记的身份与钱包公钥 "
           +:+ pubkey_to_string key +:+ " 一致 2) 本机 UDP 可访问 " +:+ endpoint_string
           +:+ " 3) region 与 PoP 匹配）") (wcall (quic_handshake connecting))) in
  wret (addr, connection).

(** ** Astralane *)

(* sdk swqos/astralane_quic.rs:21-21 MAX_TRANSACTION_SIZE *)
Definition MAX_TRANSACTION_SIZE : Z := 1232.

(* sdk swqos/astralane_quic.rs:29-36 describe *)
Definition describe (code : Z) : string :=
  if code =? 0 then "OK"
  else if code =? 1 then "Unknown API key"
  else if code =? 2 then "Connection limit exceeded"
  else "Unknown error".

(* sdk swqos/astralane_quic.rs:52-84 astralane_quic_ip_candidates *)
Definition astralane_quic_ip_candidates (host : string) (port : Z) : list SocketAddr :=
  let at_port ip := mk_Addr ip port in
  if String.eqb host "fr.gateway.astralane.io" then
    map at_port [V4 185 191 117 97; V4 45 139 132 160]
  else if String.eqb host "ny.gateway.astralane.io" then map at_port [V4 64 130 45 19]
  else if String.eqb host "ams.gateway.astralane.io" then
    map at_port [V4 64 130 43 43; V4 84 32 186 73]
  else if String.eqb host "la.gateway.astralane.io" then map at_port [V4 74 118 142 151]
  else if String.eqb host "lim.gateway.astralane.io" then map at_port [V4 162 19 222 232]
  else if String.eqb host "sg.gateway.astralane.io" then map at_port [V4 67 209 54 176]
  else if String.eqb host "lit.gateway.astralane.io" then map at_port [V4 84 32 97 47]
  else [].

(* sdk swqos/astralane_quic.rs:87-91 parse_host_port *)
Definition parse_host_port (server_addr : string) : option (string * Z) :=
  match rsplit_once ":" server_addr with
  | Some (host, port_str) =>
      match parse_u16 port_str with Some port => Some (host, port) | None => None end
  | None => None
  end.

(** The resolved addresses, IPv4 first, in a stable order. *)
(* sdk swqos/astralane_quic.rs:114-114 resolve_server_candidates, addrs *)
Definition ipv4_first (addrs : list SocketAddr) : list SocketAddr :=
  filter is_ipv4 addrs ++ filter (λ a, negb (is_ipv4 a)) addrs.

(** [if !candidates.contains(&addr) { candidates.push(addr) }] for each. *)
(* sdk swqos/astralane_quic.rs:115-119 resolve_server_candidates, candidates *)
Fixpoint push_new (candidates addrs : list SocketAddr) : list SocketAddr :=
  match addrs with
  | [] => candidates
  | addr :: addrs' =>
      push_new (if bool_decide (addr ∈ candidates) then candidates else candidates ++ [addr]) addrs'
  end.

(* sdk swqos/astralane_quic.rs:95-121 resolve_server_candidates *)
Definition resolve_server_candidates (server_addr : string) : W E (list SocketAddr) :=
  match socket_addr_from_str server_addr with
  | Some addr => wret [addr]
  | None =>
      let candidates :=
        match parse_host_port server_addr with
        | Some (host, port) => astralane_quic_ip_candidates host port
        | None => []
        end in
      let@ addrs := wctx ("Cannot resolve address: " +:+ server_addr)
                      (wcall (to_socket_addrs server_addr)) in
      match addrs, candidates with
      | [], [] => wfail ("Cannot resolve address: " +:+ server_addr)
      | _, _ => wret (push_new candidates (ipv4_first addrs))
      end
  end.

(** One candidate: [endpoint.connect] and the handshake. *)
(* sdk swqos/astralane_quic.rs:192-193 reconnect_next_candidate, one candidate *)
Definition dial (addr : SocketAddr) : W E Connection :=
  let@ connecting := wcall (quic_connect addr "astralane") in
  wcall (quic_handshake connecting).

(** The candidates one after the other, until one answers. *)
(* sdk swqos/astralane_quic.rs:150-172 connect, candidates *)
Fixpoint dial_any (candidates : list SocketAddr) (last_err : AnyError) :
    W E (SocketAddr * Connection) :=
  match candidates with
  | [] => λ e, Val (Err last_err, e)
  | addr :: rest =>
      let@ r := wattempt (dial addr) in
      match r with
      | Ok conn => wret (addr, conn)
      | Err x => dial_any rest x
      end
  end.

(* sdk swqos/astralane_quic.rs:133-183 connect *)
Definition astralane_connect (server_addr api_key : string) :
    W E (list SocketAddr * Connection) :=
  let@ candidates := wctx "Invalid server address" (resolve_server_candidates server_addr) in
  let@ addr := wex (unwrap (head candidates)) in
  let@ _ := wcall (tls_config (CommonName api_key)) in
  let@ _ := wctx "Failed to create QUIC endpoint" (wcall quic_endpoint) in
  let@ r := dial_any candidates (Message "Failed to connect to Astralane QUIC server") in
  wret (candidates, r.2).

(** The candidates from [start] on, all around. *)
(* sdk swqos/astralane_quic.rs:187-190 reconnect_next_candidate, idx *)
Definition rotation (start total : nat) : list nat :=
  map (λ offset, (start + offset) mod total)%nat (seq 0 total).

(** An index without a candidate is out of range. *)
Fixpoint lookups {A} (l : list A) (idx : list nat) : exec (list A) :=
  match idx with
  | [] => Val []
  | i :: idx' => let* x := unwrap (l !! i) in let* xs := lookups l idx' in Val (x :: xs)
  end.

(* sdk swqos/astralane_quic.rs:185-207 reconnect_next_candidate *)
Definition reconnect_next_candidate (c : SwqosClient) : W E Connection :=
  let@ candidates := wask (cell_candidates (ch_ptr c)) in
  let total := Nat.max (length candidates) 1 in
  let@ n := (λ e, let '(n, e') := cell_fetch_add (ch_ptr c) e in Val (Ok n, e')) in
  let start := Z.to_nat (n mod Z.of_nat total) in
  let@ addrs := wex (lookups candidates (rotation start total)) in
  let@ r := dial_any addrs (Message "Failed to reconnect to Astralane QUIC server") in
  wret r.2.

(** Of a connection the server has closed with a code, the code is reported. *)
(* sdk swqos/astralane_quic.rs:220-239 send_transaction, connection *)
Definition astralane_connection (c : SwqosClient) : W E Connection :=
  let@ current := wask (cell_connection (ch_ptr c)) in
  let@ reason := wask (quic_close_reason current) in
  let reconnect :=
    let@ new_conn := reconnect_next_candidate c in
    let@ _ := weffect (cell_store (ch_ptr c) new_conn) in
    wret new_conn in
  match reason with
  | None => wret current
  | Some (ApplicationClosed code) =>
      if code =? 0 then reconnect
      else wfail ("Server closed connection: " +:+ describe code +:+ " (code " +:+ show code +:+ ")")
  | Some (OtherClose _) => reconnect
  end.

(* sdk swqos/astralane_quic.rs:211-253 send_transaction *)
Definition astralane_send_bytes (c : SwqosClient) (transaction_bytes : list Z) : W E () :=
  if MAX_TRANSACTION_SIZE <? Z.of_nat (length transaction_bytes) then
    wfail ("Transaction too large: " +:+ show (Z.of_nat (length transaction_bytes))
           +:+ " bytes (max " +:+ show MAX_TRANSACTION_SIZE +:+ ")")
  else
    let@ conn := astralane_connection c in
    let@ send_stream := wctx "Failed to open unidirectional stream" (wcall (quic_open_uni conn)) in
    let@ _ := wctx "Failed to write transaction data"
                (wcall (quic_write_all send_stream transaction_bytes)) in
    wctx "Failed to finish stream" (wcall (quic_finish send_stream)).

(* sdk swqos/astralane.rs:169-242 send_transaction_impl, over QUIC *)
Definition astralane_quic_send (c : SwqosClient) (tx : VersionedTransaction)
    (wait_confirmation : bool) : W E () :=
  let@ signature := wex (unwrap (head (signatures tx))) in
  let@ body_bytes := wprefix "Astralane binary serialize failed: " (wres (bincode tx)) in
  let@ _ := astralane_send_bytes c body_bytes in
  confirm_sent signature wait_confirmation.

(** ** Making a connection never panics *)

Lemma total_ctx {A} msg (m : W E A) : total m → total (wctx msg m).
Proof.
  intros Hm e. unfold wctx. destruct (Hm e) as (r & e' & ->). destruct r; by eexists _, _.
Qed.
Lemma total_within {A} ms msg (m : W E A) : total m → total (within ms msg m).
Proof. intros Hm e. unfold within. case_match; [by eexists _, _|apply Hm]. Qed.
Lemma total_first {A} msg (l : list A) : total (@first_of A msg l).
Proof. apply total_res. Qed.

#[local] Hint Resolve total_ctx total_within total_first : total.
Ltac total_steps :=
  repeat first [apply total_bind; [solve [eauto 6 with total]|intros ?] | solve [eauto 6 with total]].

Lemma soyas_connect_total `{KeyText} endpoint key : total (soyas_connect endpoint key).
Proof. unfold soyas_connect. total_steps. Qed.
Lemma speed_connect_total `{KeyText} endpoint key : total (speed_connect endpoint key).
Proof. unfold speed_connect. total_steps. Qed.

Lemma node1_authenticate_total conn key : total (node1_authenticate conn key).
Proof.
  unfold node1_authenticate. do 3 (apply total_bind; [eauto with total|intros ?]).
  intros e. unfold wbind at 1, wctx, wcall.
  destruct (quic_read_exact a 1 e) as [[l|m] e'] eqn:Hr; [|by eexists _, _]. cbn.
  apply quic_read_length in Hr; [|done]. destruct l as [|b l]; [done|].
  unfold wbind, wex. cbn. case_match; by eexists _, _.
Qed.

Lemma node1_connect_total addr key : total (node1_connect addr key).
Proof.
  unfold node1_connect. pose proof node1_authenticate_total. total_steps.
Qed.

(** ** A server that can be reached is found *)

Definition reachable (addr : SocketAddr) : Prop :=
  ∀ e, ∃ conn e', dial addr e = Val (Ok conn, e').

Lemma dial_returns addr e : ∃ r e', dial addr e = Val (r, e').
Proof.
  unfold dial, wbind, wcall. destruct (quic_connect addr "astralane" e) as [[c|m] e1]; [|by eexists _, _].
  cbn. destruct (quic_handshake c e1) as [r e2]. by eexists _, _.
Qed.

Lemma dial_any_returns candidates x e : ∃ r e', dial_any candidates x e = Val (r, e').
Proof.
  revert x e. induction candidates as [|a l IH]; intros x e; [by eexists _, _|].
  cbn [dial_any]. unfold wbind, wattempt.
  destruct (dial_returns a e) as (r & e1 & ->). destruct r; [by eexists _, _|apply IH].
Qed.

Lemma dial_any_finds candidates addr x e :
  addr ∈ candidates → reachable addr → ∃ r e', dial_any candidates x e = Val (Ok r, e').
Proof.
  intros Hin Hr. revert x e. induction candidates as [|a l IH]; [by inversion Hin|].
  intros x e. cbn [dial_any]. unfold wbind, wattempt.
  destruct (dial_returns a e) as (r & e1 & Hd). rewrite Hd. destruct r as [conn|y]; [by eexists _, _|].
  apply elem_of_cons in Hin as [->|Hin]; [|by apply IH].
  destruct (Hr e) as (conn & e2 & He). by rewrite He in Hd.
Qed.

(** A rotation visits every index. *)
Lemma rotation_all start total i : (i < total)%nat → i ∈ rotation start total.
Proof.
  intros Hi. apply list_elem_of_fmap.
  exists ((i + (total - start mod total)) mod total)%nat. split.
  - rewrite Nat.Div0.add_mod_idemp_r. rewrite <- Nat.Div0.add_mod_idemp_l.
    pose proof (Nat.mod_upper_bound start total ltac:(lia)).
    replace (start mod total + (i + (total - start mod total)))%nat with (i + 1 * total)%nat by lia.
    rewrite Nat.Div0.mod_add. by rewrite Nat.mod_small.
  - apply elem_of_seq. pose proof (Nat.mod_upper_bound (i + (total - start mod total)) total ltac:(lia)).
    lia.
Qed.

Lemma lookups_in {A} (l : list A) idx :
  Forall (λ i, (i < length l)%nat) idx →
  ∃ xs, lookups l idx = Val xs ∧ ∀ i x, i ∈ idx → l !! i = Some x → x ∈ xs.
Proof.
  induction 1 as [|i idx Hi _ (xs & IH & Hxs)]; [exists []; split; [done|]; by inversion 1|].
  cbn [lookups]. destruct (lookup_lt_is_Some_2 l i Hi) as [y Hy]. rewrite Hy, IH.
  exists (y :: xs). split; [done|]. intros j x Hj Hx. apply elem_of_cons in Hj as [->|Hj].
  - rewrite Hy in Hx. injection Hx as ->. by left.
  - right. by eapply Hxs.
Qed.

(** C14. Reconnecting finds a server when one of the candidates can be reached,
    wherever the rotation stands. *)
Theorem reconnect_finds c addr e :
  addr ∈ cell_candidates (ch_ptr c) e → reachable addr →
  ∃ conn e', reconnect_next_candidate c e = Val (Ok conn, e').
Proof.
  intros Hin Hr. unfold reconnect_next_candidate. unfold wbind at 1, wask. unfold wbind at 1.
  destruct (cell_fetch_add (ch_ptr c) e) as [n e1].
  set (l := cell_candidates (ch_ptr c) e) in *.
  pose proof (list_elem_of_lookup_1 _ _ Hin) as [i Hi].
  pose proof (lookup_lt_Some _ _ _ Hi) as Hlen. replace (Nat.max (length l) 1) with (length l) by lia.
  set (start := Z.to_nat _).
  destruct (lookups_in l (rotation start (length l))) as (xs & Hl & Hxs).
  { apply Forall_forall. intros j Hj. apply list_elem_of_fmap in Hj as (k & -> & _).
    apply Nat.mod_upper_bound. lia. }
  unfold wbind at 1, wex. rewrite Hl. cbn [exec_bind]. unfold wbind.
  destruct (dial_any_finds xs addr (Message "Failed to reconnect to Astralane QUIC server") e1)
    as (r & e2 & ->); [|done|by eexists _, _].
  eapply Hxs; [by apply rotation_all|done].
Qed.

(** ** The first connection never runs out of candidates *)

Lemma push_new_incl candidates addrs :
  ∃ l, push_new candidates addrs = candidates ++ l ∧ (∀ a, a ∈ addrs → a ∈ candidates ++ l).
Proof.
  revert candidates. induction addrs as [|a addrs IH]; intros candidates; cbn [push_new].
  { exists []. rewrite app_nil_r. split; [done|]. by inversion 1. }
  case_bool_decide as Ha.
  - destruct (IH candidates) as (l & -> & Hl). exists l. split; [done|]. intros b Hb.
    apply elem_of_cons in Hb as [->|Hb]; [|by apply Hl]. apply elem_of_app. by left.
  - destruct (IH (candidates ++ [a])) as (l & -> & Hl). exists (a :: l).
    rewrite <- app_assoc. split; [done|]. intros b Hb. apply elem_of_cons in Hb as [->|Hb].
    + set_solver.
    + apply Hl in Hb. by rewrite <- app_assoc in Hb.
Qed.

Lemma resolve_nonempty s e l e' : resolve_server_candidates s e = Val (Ok l, e') → l ≠ [].
Proof.
  unfold resolve_server_candidates. destruct (socket_addr_from_str s); [by intros [= <- _]|].
  set (cs := match parse_host_port s with Some _ => _ | None => _ end). clearbody cs.
  unfold wbind, wctx, wcall. destruct (to_socket_addrs s e) as [[addrs|m] e1]; [|done]. cbn.
  destruct (push_new_incl cs (ipv4_first addrs)) as (l' & Hp & Hl').
  destruct cs as [|c cs]; [|destruct addrs; intros [= <- _]; by rewrite ?Hp].
  destruct addrs as [|a addrs]; [done|]. intros [= <- _]. rewrite Hp.
  assert (Ha : a ∈ ipv4_first (a :: addrs)).
  { unfold ipv4_first. rewrite elem_of_app, !list_elem_of_filter.
    destruct (is_ipv4 a); [left|right]; split; (done || by left). }
  apply Hl' in Ha. simpl in Ha. by destruct l'; [inversion Ha|].
Qed.

(** Connecting to Astralane returns: a connection or an error, never a panic. *)
Theorem astralane_connect_total server_addr api_key : total (astralane_connect server_addr api_key).
Proof.
  intros e.
  unfold astralane_connect. unfold wbind at 1, wctx at 1.
  destruct (resolve_server_candidates server_addr e) as [[[l|x] e1]|] eqn:Hr; [|by eexists _, _|].
  - apply resolve_nonempty in Hr. destruct l as [|a l]; [done|]. unfold wbind, wex, wctx, wcall.
    cbn [head unwrap exec_bind]. destruct (tls_config (CommonName api_key) e1) as [[[]|m] e2];
      [|by eexists _, _]. cbn [as_error].
    destruct (quic_endpoint e2) as [[[]|m] e3]; [|by eexists _, _]. cbn [as_error].
    destruct (dial_any_returns (a :: l) (Message "Failed to connect to Astralane QUIC server") e3)
      as (r & e4 & ->). destruct r; by eexists _, _.
  - exfalso. revert Hr. unfold resolve_server_candidates. destruct (socket_addr_from_str _); [done|].
    unfold wbind, wctx, wcall. destruct (to_socket_addrs server_addr e) as [[addrs|m] e1]; [|done].
    cbn. destruct addrs, (match parse_host_port server_addr with Some _ => _ | None => _ end); done.
Qed.
End QuicClients.

(** ** A network in which every server can be reached *)

Definition toy_addr : SocketAddr := mk_Addr (V4 127 0 0 1) 7000.

Definition toy_quic : QuicNet Sim.
Proof.
  refine {|
  to_socket_addrs := λ _ e, (Ok [toy_addr], e);
  socket_addr_from_str := λ _, None;
  uuid_parse_str := λ _, Ok [];
  keypair_from_base58 := λ _, Ok 11;
  utf8_lossy := λ _, "";
  socket_addr_text := λ _, "127.0.0.1:7000";
  tls_config := λ _ e, (Ok (), e);
  quic_endpoint := λ e, (Ok (), e);
  quic_connect := λ _ _ e, (Ok 1, e);
  quic_handshake := λ _ e, (Ok 2, e);
  quic_close_reason := λ _ _, None;
  quic_open_bi := λ _ e, (Ok 3, e);
  quic_open_uni := λ _ e, (Ok 3, e);
  quic_write_all := λ _ _ e, (Ok (), e);
  quic_finish := λ _ e, (Ok (), e);
  quic_read_exact := λ _ n e, (Ok (repeat 0 (Z.to_nat n)), e);
  cell_connection := λ _ _, 2;
  cell_store := λ _ _ e, e;
  cell_store_addr := λ _ _ e, e;
  cell_store_candidates := λ _ _ e, e;
  cell_addr := λ _ _, toy_addr;
  cell_candidates := λ _ _, [mk_Addr (V4 127 0 0 2) 7000; toy_addr];
  cell_fetch_add := λ _ e, (5, e);
  cell_try_lock := λ _ e, (Ok (), e);
|}.
  intros s n e l e' Hn [= <- <-]. rewrite repeat_length. lia.
Defined.

Lemma reconnect_finds_witness :
  ∃ conn e', @reconnect_next_candidate Sim toy_quic jito_channel (sim_at 0) = Val (Ok conn, e').
Proof.
  apply (@reconnect_finds Sim toy_quic jito_channel toy_addr (sim_at 0)).
  - by right; left.
  - intros e. by eexists _, _.
Defined.
