(* ===== verification/Sender.v ===== *)
(** * Submission clients (sdk swqos/mod.rs, swqos/*.rs)

    [get_swqos_client] makes the client of a configured channel and
    [send_with] is what every client does with a transaction; with the
    scheduler's choices they are the interface [Sending] of the submission
    core.  The theorems say what each service's answer is taken for.  The
    background tasks that keep connections warm are not modelled. *)

From Stdlib Require Import Ascii String.
From S2P Require Import Prelude F64 Solana FastFn GasFee Effects Client TxBuild Channels Confirm Submit Http Quic.

#[local] Open Scope string_scope.
#[local] Open Scope Z_scope.
#[local] Open Scope list_scope.

(** ** URLs *)

(** [trim_end_matches('/')]. *)
Fixpoint trim_end_slashes (s : string) : string :=
  match s with
  | EmptyString => ""
  | String a s' =>
      match trim_end_slashes s' with
      | EmptyString => if Ascii.eqb a "/"%char then "" else String a ""
      | s'' => String a s''
      end
  end.

(* sdk swqos/nextblock.rs:61-66 new, endpoint *)
Definition nextblock_endpoint (endpoint : string) : string :=
  if ends_with endpoint "/api/v2/submit" then endpoint
  else trim_end_slashes endpoint +:+ "/api/v2/submit".

(* sdk swqos/helius.rs:53-69 build_submit_url *)
Definition build_submit_url (endpoint : string) (api_key : option string) (swqos_only : bool) :
    string :=
  let has_query := contains "?" endpoint in
  let '(url, has_query) :=
    match api_key with
    | Some key =>
        if negb (String.eqb key "")
        then (endpoint +:+ (if has_query then "&" else "?") +:+ "api-key=" +:+ key, true)
        else (endpoint, has_query)
    | None => (endpoint, has_query)
    end in
  if (swqos_only : bool) then url +:+ (if has_query then "&" else "?") +:+ "swqos_only=true" else url.

Section Sender.
Context {E : Type} `{Confirm E} `{TxErrorText} `{TxSdk} `{!Codec} `{!Wire E} `{!QuicNet E} `{KeyText}.

(** ** Making a client *)

(* sdk swqos/blockrazor.rs:154-190 new_grpc *)
Definition razor_grpc_connect (endpoint : string) : W E () :=
  let@ _ := wprefix "Invalid gRPC endpoint: " (wres (grpc_uri endpoint)) in
  wprefix "Failed to connect to gRPC endpoint: " (wcall (grpc_connect endpoint)).

(** The client of a configuration, under a fresh identity. *)
(* sdk swqos/mod.rs:353-507 get_swqos_client *)
Definition get_swqos_client (ptr : Z) (config : SwqosConfig) (mev_protection : bool) :
    W E SwqosClient :=
  let@ endpoint := wex (client_endpoint mev_protection config) in
  let client token endpoint backend :=
    mk_channel ptr (swqos_type config) token false endpoint backend mev_protection in
  match config with
  | CDefault url => wret (client "" url BHttp)
  | CPlain s token _ _ =>
      match swqos_type config with
      | Soyas =>
          let@ r := soyas_connect endpoint token in
          let@ _ := weffect (λ e, cell_store ptr r.2 (cell_store_addr ptr r.1 e)) in
          wret (client token endpoint BQuic)
      | Speedlanding =>
          let@ r := speed_connect endpoint token in
          let@ _ := weffect (λ e, cell_store ptr r.2 (cell_store_addr ptr r.1 e)) in
          wret (client token endpoint BQuic)
      | NextBlock => wret (client token (nextblock_endpoint endpoint) BHttp)
      | _ => wret (client token endpoint BHttp)
      end
  | CNode1 token _ _ transport =>
      if bool_decide (transport = Some Quic) then
        let@ conn := node1_connect endpoint token in
        let@ _ := weffect (cell_store ptr conn) in
        wret (client token endpoint BQuic)
      else wret (client token endpoint BHttp)
  | CBlockRazor token _ _ transport =>
      if bool_decide (transport = Some Http) then wret (client token endpoint BHttp)
      else
        let@ _ := razor_grpc_connect endpoint in
        wret (client token endpoint BGrpc)
  | CAstralane token _ _ mode =>
      match default Binary mode with
      | AQuic =>
          let@ r := astralane_connect endpoint token in
          let@ _ := weffect (λ e, cell_store ptr r.2 (cell_store_candidates ptr r.1 e)) in
          wret (client token endpoint BQuic)
      | _ => wret (client token endpoint BHttp)
      end
  | CHelius api_key _ _ swqos_only =>
      let swqos_only := default false swqos_only in
      let api_key_opt := if String.eqb api_key "" then None else Some api_key in
      wret (mk_channel ptr Helius api_key swqos_only
              (build_submit_url endpoint api_key_opt swqos_only) BHttp mev_protection)
  end.

(** Making a client never panics. *)
Lemma razor_grpc_connect_total endpoint : total (razor_grpc_connect endpoint).
Proof. apply total_bind; eauto with total. Qed.

Lemma total_effect (f : E → E) : total (weffect f).
Proof. intros e. by eexists _, _. Qed.

#[local] Hint Resolve soyas_connect_total speed_connect_total node1_connect_total
  astralane_connect_total razor_grpc_connect_total total_effect : total.

Lemma get_swqos_client_total ptr config mev : total (get_swqos_client ptr config mev).
Proof.
  destruct (client_endpoint_total mev config) as (url & Hurl & _).
  intros e. unfold get_swqos_client. unfold wbind at 1, wex. rewrite Hurl. cbn [exec_bind].
  destruct config as [u|s tok r o|tok r o tr|tok r o tr|tok r o m|tok r o sw]; cbn [swqos_type];
    [by eexists _, _|destruct s; try (by eexists _, _)
    |case_bool_decide; [|by eexists _, _]|case_bool_decide; [by eexists _, _|]
    |destruct (default Binary m); try (by eexists _, _)|by eexists _, _].
  all: apply total_bind; [eauto with total|intros x]; try apply total_bind; try intros y;
    eauto with total.
Qed.

(** ** Sending *)

(* sdk swqos/mod.rs:176-181 SwqosClientTrait::send_transaction *)
Definition send_with (c : SwqosClient) (tx : VersionedTransaction) (wait_confirmation : bool) :
    W E () :=
  match ch_type c with
  | Jito => jito_send c tx wait_confirmation
  | NextBlock => nextblock_send c tx wait_confirmation
  | ZeroSlot => zeroslot_send c tx wait_confirmation
  | Temporal => temporal_send c tx wait_confirmation
  | Bloxroute => bloxroute_send c tx wait_confirmation
  | Node1 =>
      match ch_backend c with
      | BQuic => node1_quic_send c tx wait_confirmation
      | _ => node1_send c tx wait_confirmation
      end
  | FlashBlock => flashblock_send c tx wait_confirmation
  | BlockRazor =>
      match ch_backend c with
      | BGrpc => blockrazor_grpc_send c tx wait_confirmation
      | _ => blockrazor_http_send c tx wait_confirmation
      end
  | Astralane =>
      match ch_backend c with
      | BQuic => astralane_quic_send c tx wait_confirmation
      | _ => astralane_http_send c tx wait_confirmation
      end
  | Stellium => stellium_send c tx wait_confirmation
  | Lightspeed => lightspeed_send c tx wait_confirmation
  | Soyas => soyas_send c tx wait_confirmation
  | Speedlanding => speed_send c tx wait_confirmation
  | Helius => helius_send c tx wait_confirmation
  | SwDefault => default_send tx wait_confirmation
  end.

(** ** Batches *)

(* sdk swqos/temporal.rs:241-251 send_transactions *)
Fixpoint send_each (c : SwqosClient) (txs : list VersionedTransaction) (wait_confirmation : bool) :
    W E () :=
  match txs with
  | [] => wret ()
  | tx :: txs' => let@ _ := send_with c tx wait_confirmation in send_each c txs' wait_confirmation
  end.

(** [to_base64_string] unwraps. *)
(* sdk swqos/common.rs:81-84 to_base64_string *)
Definition to_base64_string (tx : VersionedTransaction) : exec string :=
  let* tx_bytes := unwrap_res (bincode tx) in Val (base64_encode tx_bytes).

Fixpoint exec_map {A B} (f : A → exec B) (l : list A) : exec (list B) :=
  match l with
  | [] => Val []
  | x :: l' => let* y := f x in let* ys := exec_map f l' in Val (y :: ys)
  end.

(* sdk swqos/jito.rs:133-179 send_transactions_impl *)
Definition jito_send_bundle (c : SwqosClient) (txs : list VersionedTransaction) : W E () :=
  let@ txs_base64 := wex (exec_map to_base64_string txs) in
  let body := json_to_string (JObject [("jsonrpc", JString "2.0"); ("method", JString "sendBundle");
    ("params", JArray [JArray (map JString txs_base64); JObject [base64_option]]);
    ("id", JNumber "1")]) in
  let no_token := String.eqb (ch_auth_token c) "" in
  let endpoint :=
    if no_token then ch_endpoint c +:+ "/api/v1/bundles"
    else ch_endpoint c +:+ "/api/v1/bundles?uuid=" +:+ ch_auth_token c in
  let headers := (if no_token then [] else [("x-jito-auth", ch_auth_token c)]) ++ [json_header] in
  let@ _ := post_text (mk_Request endpoint [] headers (BText body)) in
  wret ().

(* sdk swqos/serialization.rs:187-203 serialize_transactions_batch_sync *)
Fixpoint serialize_transactions_batch_sync (txs : list VersionedTransaction)
    (encoding : UiTransactionEncoding) : result string (list string) :=
  match txs with
  | [] => Ok []
  | tx :: txs' =>
      match bincode tx with
      | Err e => Err e
      | Ok serialized_tx =>
          match encoding with
          | Base58 | Base64 =>
              let encoded := match encoding with
                             | Base58 => base58_encode serialized_tx
                             | _ => base64_encode serialized_tx
                             end in
              match serialize_transactions_batch_sync txs' encoding with
              | Ok results => Ok (encoded :: results)
              | Err e => Err e
              end
          | _ => Err "Unsupported encoding"
          end
      end
  end.

(* sdk swqos/bloxroute.rs:137-179 send_transactions *)
Definition bloxroute_send_batch (c : SwqosClient) (txs : list VersionedTransaction) : W E () :=
  let@ contents := wres (serialize_transactions_batch_sync txs Base64) in
  let entries := String.concat "," (map (λ c, "{" +:+ quote "transaction" +:+ ":{"
                   +:+ quote "content" +:+ ":" +:+ quote c +:+ "}}") contents) in
  let body := "{" +:+ quote "entries" +:+ ":[" +:+ entries +:+ "]}" in
  let@ _ := post_text (mk_Request (ch_endpoint c +:+ "/api/v2/submit-batch") []
              [json_header; ("Authorization", ch_auth_token c)] (BText body)) in
  wret ().

Definition send_transactions (c : SwqosClient) (txs : list VersionedTransaction)
    (wait_confirmation : bool) : W E () :=
  match ch_type c with
  | Jito => jito_send_bundle c txs
  | Bloxroute => bloxroute_send_batch c txs
  | _ => send_each c txs wait_confirmation
  end.

(** ** What an answer is taken for *)

(** The clients over HTTP. *)
Definition over_http (c : SwqosClient) : bool :=
  match ch_type c with
  | SwDefault | Soyas | Speedlanding => false
  | _ => bool_decide (ch_backend c = BHttp)
  end.

(** The services whose answers are read for the log alone. *)
Definition reads_no_answer (c : SwqosClient) : bool :=
  match ch_type c with
  | Jito | NextBlock | Temporal | Bloxroute | Node1 | FlashBlock | Stellium | Lightspeed => true
  | _ => false
  end.

Definition helius_answer (status : Z) (text : string) : result string () :=
  if negb (is_success status) then
    Err ("Helius Sender failed: status=" +:+ status_text status +:+ " body=" +:+ text)
  else
    match json_from_str text with
    | Some json =>
        if has "error" json
        then Err ("Helius Sender error: " +:+ default "unknown" (error_message_of json))
        else Ok ()
    | None => Ok ()
    end.

(** The outcome of a submission, from the answer alone. *)
Definition verdict (c : SwqosClient) (rs : HttpResponse) : result AnyError () :=
  match ch_type c, rs_text rs with
  | Astralane, _ =>
      if is_success (rs_status rs) then Ok ()
      else Err (Message ("Astralane sendTransaction failed: " +:+ status_text (rs_status rs)))
  | BlockRazor, text =>
      if is_success (rs_status rs) then Ok ()
      else Err (Message ("BlockRazor HTTP sendTransaction failed: status "
             +:+ status_text (rs_status rs) +:+ " body: "
             +:+ match text with Ok s => s | Err _ => "" end))
  | _, Err m => Err (Message m)
  | Helius, Ok text => as_error (helius_answer (rs_status rs) text)
  | ZeroSlot, Ok text => as_error (zeroslot_answer (rs_status rs) text)
  | _, Ok _ => Ok ()
  end.

Lemma encoded tx bytes sig rest k (e : E) :
  bincode tx = Ok bytes → signatures tx = sig :: rest →
  wbind (serialize_transaction_and_encode tx Base64) k e
  = (k (base64_encode bytes, sig) : W E ()) e.
Proof.
  intros Hb Hs. unfold serialize_transaction_and_encode, serialize_transaction_sync, wbind, wex, wres.
  rewrite Hs. cbn. by rewrite Hb.
Qed.

Lemma prefix_app s s' : String.prefix s (s +:+ s') = true.
Proof. induction s as [|a s IH]; [by destruct s'|]. simpl. by destruct (ascii_dec a a). Qed.
Lemma prefix_refl s : String.prefix s s = true.
Proof. induction s as [|a s IH]; [done|]. simpl. by destruct (ascii_dec a a). Qed.

(** [m] is one POST to the endpoint of [c], and its outcome is read off the
    answer by [v]. *)
Definition posts_once (c : SwqosClient) (m : W E ()) (v : HttpResponse → result AnyError ()) :=
  ∃ rq, String.prefix (ch_endpoint c) (rq_url rq) = true ∧
  ∀ e, m e = let '(r, e') := http_send rq e in
             Val (match r with Ok rs => v rs | Err m => Err (Message m) end, e').

Lemma posts_request c rq k v :
  String.prefix (ch_endpoint c) (rq_url rq) = true → (∀ rs e, k rs e = Val (v rs, e)) →
  posts_once c (wbind (wcall (http_send rq)) k) v.
Proof.
  intros Hp Hk. exists rq. split; [done|]. intros e. unfold wbind, wcall.
  destruct (http_send rq e) as [[rs|m] e']; [|done]. cbn. by rewrite Hk.
Qed.

Lemma posts_text c rq sig v :
  String.prefix (ch_endpoint c) (rq_url rq) = true →
  (∀ rs, v rs = match rs_text rs with Ok _ => Ok () | Err m => Err (Message m) end) →
  posts_once c (wbind (post_text rq) (λ _, confirm_sent sig false)) v.
Proof.
  intros Hp Hv. exists rq. split; [done|]. intros e. unfold post_text, wbind, wcall, wres.
  destruct (http_send rq e) as [[rs|m] e']; [|done]. cbn. rewrite Hv. by destruct (rs_text rs).
Qed.

Lemma posts_encoded c tx bytes sig rest k v :
  bincode tx = Ok bytes → signatures tx = sig :: rest →
  posts_once c (k (base64_encode bytes, sig)) v →
  posts_once c (wbind (serialize_transaction_and_encode tx Base64) k) v.
Proof.
  intros Hb Hs (rq & Hp & Hr). exists rq. split; [done|]. intros e.
  by rewrite (encoded _ _ _ _ _ _ Hb Hs), Hr.
Qed.

(** What a service must have answered for its submission to succeed: a success
    status, or, where the answer is not read, any text at all. *)
Lemma accepted_answer c rs :
  over_http c = true → verdict c rs = Ok () →
  if reads_no_answer c then ∃ text, rs_text rs = Ok text else is_success (rs_status rs) = true.
Proof.
  unfold over_http, verdict, reads_no_answer, helius_answer, zeroslot_answer, is_success.
  destruct (ch_type c); try done; intros _; destruct (rs_text rs) as [text|m]; try done;
    try (by intros _; eexists); repeat (case_match; try done); intros _; try done; lia.
Qed.

Lemma send_posts c tx bytes sig rest :
  over_http c = true → bincode tx = Ok bytes → signatures tx = sig :: rest →
  posts_once c (send_with c tx false) (verdict c).
Proof.
  intros Ho Hb Hs. unfold over_http in Ho. unfold send_with.
  destruct (ch_type c) eqn:Ht; try done; apply bool_decide_eq_true in Ho; rewrite ?Ho;
  try solve [eapply posts_encoded; [done..|]; apply posts_text;
    [cbn [rq_url fst]; try case_match; apply prefix_app || apply prefix_refl
    |intros rs; unfold verdict; rewrite Ht; by destruct (rs_text rs)]].
  - unfold zeroslot_send. rewrite Hb, Hs. apply posts_request; [apply prefix_app|].
    intros rs e. unfold verdict, wbind, wres. rewrite Ht. destruct (rs_text rs) as [text|]; [|done].
    cbn. by destruct (zeroslot_answer (rs_status rs) text) as [[]|].
  - eapply posts_encoded; [done..|]. apply posts_request; [apply prefix_refl|].
    intros rs e. unfold verdict. rewrite Ht, Hs. by destruct (is_success (rs_status rs)).
  - unfold astralane_http_send. rewrite Hb, Hs. apply posts_request; [apply prefix_refl|].
    intros rs e. unfold verdict. rewrite Ht. by destruct (is_success (rs_status rs)).
  - eapply posts_encoded; [done..|]. apply posts_request; [apply prefix_refl|].
    intros rs e. unfold verdict, helius_answer, wbind, wres. rewrite Ht.
    destruct (rs_text rs) as [text|]; [|done]. cbn.
    destruct (is_success (rs_status rs)); [|done]. cbn [negb].
    destruct (json_from_str text) as [json|]; [|done]. by destruct (has "error" json).
Qed.

(** C9. A submission without waiting is one POST to the client's endpoint; its
    outcome is read off the answer ([verdict]), and it succeeds on a success
    status only, or, for the services whose answer is not read, on any text. *)
Theorem submission_outcome c tx bytes sig rest :
  over_http c = true → bincode tx = Ok bytes → signatures tx = sig :: rest →
  posts_once c (send_with c tx false) (verdict c)
  ∧ ∀ rs, verdict c rs = Ok () →
      if reads_no_answer c then ∃ text, rs_text rs = Ok text else is_success (rs_status rs) = true.
Proof.
  intros Ho Hb Hs. split; [by eapply send_posts|]. intros rs. by apply accepted_answer.
Qed.
End Sender.

(** ** The interface of the submission core *)

(** What is left to the environment: which jobs finish in time and in which
    order, and random numbers. *)
Class Scheduler (E : Type) := {
  sched_completion : nat → E → list nat * E;
  sched_random_index : E → nat * E;
  sched_once n e : NoDup (sched_completion n e).1;
  sched_range n e i : i ∈ (sched_completion n e).1 → (i < n)%nat;
}.

#[export] Instance channel_sending {E : Type} `{Confirm E} `{TxErrorText} `{TxSdk} `{!Codec}
    `{!Wire E} `{!QuicNet E} `{!Scheduler E} : Sending E := {|
  send_transaction := λ c _ tx wait, send_with c tx wait;
  completion := sched_completion;
  random_index := sched_random_index;
  completion_once := sched_once;
  completion_range := sched_range;
|}.

(** ** Answers that are not read *)

Section Outcome.
Context `{Sdk} {E : Type} `{Confirm E} `{TxErrorText} `{TxSdk} `{!Codec} `{!Wire E} `{!QuicNet E}
  `{!Scheduler E} `{KeyText} `{Sha256} `{HashOrder}.

(** A job for a service whose answer is not read is reported as landed on
    chain, whatever the service answers: a rejected transaction counts as a
    success. *)
Theorem rejection_counts_as_landed s job w tx w1 bytes sig rest :
  let c := job_swqos_client job in
  over_http c = true → reads_no_answer c = true → sh_wait_transaction_confirmed s = false →
  in_budget (build_transaction (sh_payer s) (job_unit_limit job) (job_unit_price job)
    (sh_instructions s) (sh_address_lookup_table_account s) (sh_recent_blockhash s)
    (sh_middleware_manager s) (sh_protocol_name s) (sh_is_buy s)
    (bool_decide (job_swqos_type job ≠ SwDefault)) (job_tip_account job)
    (if sh_with_tip s then job_tip job else f_zero) (sh_durable_nonce s)) w = Val (Ok tx, w1) →
  bincode tx = Ok bytes → signatures tx = sig :: rest →
  (∀ rq, ∃ status text e, http_send rq (p_env w1) = (Ok (mk_Response status (Ok text)), e)) →
  ∃ r w', run_one_swqos_job s job w = (Some r, w')
    ∧ tr_success r = true ∧ tr_landed_on_chain r = true ∧ tr_error r = None ∧ tr_signature r = sig.
Proof.
  cbn zeta. intros Ho Hn Hw Hbuild Hb Hs Hanswer. unfold run_one_swqos_job. rewrite Hbuild, Hw.
  destruct (send_posts _ tx bytes sig rest Ho Hb Hs) as (rq & _ & Hsend).
  destruct (Hanswer rq) as (status & text & e & Hq).
  cbn [send_transaction channel_sending]. rewrite Hsend, Hq.
  replace (verdict (job_swqos_client job) _) with (@Ok AnyError () ()).
  - destruct (now_micros e) as [now e']. eexists _, _. split; [done|]. by rewrite Hs.
  - symmetry. revert Hn. unfold verdict, reads_no_answer. by destruct (ch_type _).
Qed.
End Outcome.

(** ** A service that rejects everything *)

Definition toy_codec : @Codec toy_tx_sdk := {|
  json_from_str := λ s, if String.eqb s "rejected"
                        then Some (JObject [("error", JObject [("message", JString "no")])])
                        else None;
  json_to_string := λ _, "json";
  bincode := λ tx, Ok (map (λ _, 0) (@signatures toy_tx_sdk tx));
  base58_encode := λ _, "base58";
  base64_encode := λ _, "base64";
  status_text := show;
  ascii_metadata := λ _, Ok ();
|}.

Definition rejecting : @Wire Sim toy_tx_sdk := {|
  http_send := λ _ e, (Ok (mk_Response 400 (Ok "rejected")), e);
  grpc_uri := λ _, Ok ();
  grpc_connect := λ _ e, (Ok (), e);
  grpc_send := λ _ _ _ e, (Err "rejected", e);
  rpc_send_transaction := λ _ e, (Err "rejected", e);
|}.

Definition toy_scheduler : Scheduler Sim.
Proof.
  refine {| sched_completion := λ n e, (seq 0 n, e); sched_random_index := λ e, (0%nat, e) |}.
  - intros n e. apply NoDup_seq.
  - intros n e i Hi. apply elem_of_seq in Hi. lia.
Defined.

Definition toy_job : SwqosJob := mk_Job (f64_of_Z 1) 500 7 11 jito_channel.

Definition toy_built : exec (result string (@VersionedTransaction toy_tx_sdk) * Process Sim) :=
  in_budget (@build_transaction toy_sdk toy_tx_sdk 11 500 7 [mk_ix 9 [] [1]] None (Some 5) None
    "PumpSwap" true true 11 (f64_of_Z 1) None) toy_process.

Definition built_tx : @VersionedTransaction toy_tx_sdk :=
  match toy_built with Val (Ok tx, _) => tx | _ => @mk_Tx toy_tx_sdk [] (@Legacy toy_tx_sdk (0, [], 0)) end.
Definition built_process : Process Sim :=
  match toy_built with Val (_, w) => w | Panic => toy_process end.

Lemma submission_outcome_witness :
  @posts_once Sim toy_tx_sdk rejecting jito_channel
    (@send_with Sim sim_rpc sim_confirm toy_error_text toy_tx_sdk toy_codec rejecting toy_quic
       jito_channel built_tx false)
    (@verdict toy_tx_sdk toy_codec jito_channel)
  ∧ ∃ text, rs_text (mk_Response 400 (Ok "rejected")) = Ok text.
Proof.
  destruct (@submission_outcome Sim sim_rpc sim_confirm toy_error_text toy_tx_sdk toy_codec rejecting
              toy_quic jito_channel built_tx [0] (default "" (head (signatures built_tx))) []
              eq_refl eq_refl) as [Hp Ha].
  - vm_compute. reflexivity.
  - split; [exact Hp|]. exact (Ha (mk_Response 400 (Ok "rejected")) eq_refl).
Defined.

Lemma rejection_counts_as_landed_witness :
  ∃ r w', @run_one_swqos_job toy_sdk toy_tx_sdk Sim sim_rpc
            (@channel_sending Sim sim_rpc sim_confirm toy_error_text toy_tx_sdk toy_codec rejecting
               toy_quic toy_scheduler) (toy_shared true true) toy_job toy_process = (Some r, w')
    ∧ tr_success r = true ∧ tr_landed_on_chain r = true ∧ tr_error r = None
    ∧ tr_signature r = default "" (head (signatures built_tx)).
Proof.
  refine (@rejection_counts_as_landed toy_sdk Sim sim_rpc sim_confirm toy_error_text toy_tx_sdk
            toy_codec rejecting toy_quic toy_scheduler (toy_shared true true) toy_job toy_process
            built_tx built_process [0] (default "" (head (signatures built_tx))) []
            eq_refl eq_refl eq_refl _ _ _ _).
  - vm_cast_no_check (eq_refl toy_built).
  - vm_compute. reflexivity.
  - vm_compute. reflexivity.
  - intros rq. by eexists _, _, _.
Defined.
