(* ===== verification/Collector.v ===== *)
(** * The collector and the worker pool under concurrency
    (sdk trading/core/async_executor.rs)

    Each task of a batch performs the three atomic operations of
    [ResultCollector::submit]; one consumer runs [wait_for_all_submitted] or
    [wait_for_success].  A state holds the shared cells, the phase of every
    task and of the consumer, and as a history the order of the pushes; the
    steps are the atomic operations, in every interleaving.  The pool of
    workers that run queued jobs and are woken by a notification is a second
    transition system. *)

From stdpp Require Import relations.
From S2P Require Import Prelude Solana GasFee Effects Client TxBuild Channels Submit.

#[local] Open Scope Z_scope.
#[local] Open Scope list_scope.

(** ** The collector *)

(** Where a task is in [submit]: its job is running, its result is queued, its
    flag is set, it is counted. *)
Inductive phase := Working | Pushed | Flagged | Counted.

(** Where the consumer is.  [wait_for_all_submitted]: it waits, then drains.
    [wait_for_success]: it is about to read the success flag, the flag of
    landed failures, or the count, or it drains after one of them.  [timed]
    tells whether the time limit ended the waiting. *)
Inductive consumer :=
| AllWait
| AllDrain (timed : bool) (acc : list TaskResult)
| AllReturn (timed : bool) (acc : list TaskResult)
| ReadSuccess
| DrainSuccess (acc : list TaskResult)
| ReadLanded
| DrainLanded (acc : list TaskResult)
| ReadCount
| DrainCount (acc : list TaskResult)
| Return (success : bool) (acc : list TaskResult)
| ReturnNone (timed : bool).

#[export] Instance phase_eq_dec : EqDecision phase.
Proof. solve_decision. Defined.

(* sdk trading/core/async_executor.rs:264-270 ResultCollector *)
Record Collector := mk_Coll {
  results : list TaskResult;
  success_flag : bool;
  landed_failed_flag : bool;
  completed_count : nat;
  tasks : list phase;
  waiting : consumer;
  pushes : list nat;
}.

(* sdk trading/core/async_executor.rs:273-281 new *)
Definition collector_new (total_tasks : nat) (start : consumer) : Collector :=
  mk_Coll [] false false 0 (repeat Working total_tasks) start [].

Section Collector.
(** The result each task submits; the number of tasks is the capacity of the
    queue. *)
Context (task_results : list TaskResult).
Abbreviation total := (length task_results).

Definition set_task (s : Collector) (i : nat) (p : phase) : list phase := <[i := p]> (tasks s).

(* sdk trading/core/async_executor.rs:283-298 submit *)
Inductive task_step : Collector → Collector → Prop :=
| step_push s i r :
    tasks s !! i = Some Working → task_results !! i = Some r →
    task_step s
      (mk_Coll (if (length (results s) <? total)%nat then results s ++ [r] else results s)
         (success_flag s) (landed_failed_flag s) (completed_count s) (set_task s i Pushed)
         (waiting s) (pushes s ++ [i]))
| step_flag s i r :
    tasks s !! i = Some Pushed → task_results !! i = Some r →
    task_step s
      (mk_Coll (results s) (tr_success r || success_flag s)
         ((negb (tr_success r) && tr_landed_on_chain r) || landed_failed_flag s)
         (completed_count s) (set_task s i Flagged) (waiting s) (pushes s))
| step_count s i :
    tasks s !! i = Some Flagged →
    task_step s
      (mk_Coll (results s) (success_flag s) (landed_failed_flag s) (S (completed_count s))
         (set_task s i Counted) (waiting s) (pushes s)).

Definition at_ (s : Collector) (c : consumer) : Collector :=
  mk_Coll (results s) (success_flag s) (landed_failed_flag s) (completed_count s) (tasks s) c
    (pushes s).

Definition popped (s : Collector) (rest : list TaskResult) (c : consumer) : Collector :=
  mk_Coll rest (success_flag s) (landed_failed_flag s) (completed_count s) (tasks s) c (pushes s).

(** The consumer; its pauses are steps of the tasks alone. *)
(* sdk trading/core/async_executor.rs:400-414 wait_for_all_submitted *)
Inductive all_step : Collector → Collector → Prop :=
| all_timeout s :
    waiting s = AllWait → all_step s (at_ s (AllDrain true []))
| all_complete s :
    waiting s = AllWait → (total ≤ completed_count s)%nat →
    all_step s (at_ s (AllDrain false []))
| all_pop s timed acc r rest :
    waiting s = AllDrain timed acc → results s = r :: rest →
    all_step s (popped s rest (AllDrain timed (acc ++ [r])))
| all_done s timed acc :
    waiting s = AllDrain timed acc → results s = [] →
    all_step s (at_ s (AllReturn timed acc)).

(* sdk trading/core/async_executor.rs:300-370 wait_for_success *)
Inductive success_step : Collector → Collector → Prop :=
| ws_no_success s :
    waiting s = ReadSuccess → success_flag s = false → success_step s (at_ s ReadLanded)
| ws_success s :
    waiting s = ReadSuccess → success_flag s = true → success_step s (at_ s (DrainSuccess []))
| ws_success_pop s acc r rest :
    waiting s = DrainSuccess acc → results s = r :: rest →
    success_step s (popped s rest (DrainSuccess (acc ++ [r])))
| ws_success_done s acc :
    waiting s = DrainSuccess acc → results s = [] →
    success_step s (at_ s (if existsb tr_success acc then Return true acc else ReadLanded))
| ws_no_landed s :
    waiting s = ReadLanded → landed_failed_flag s = false → success_step s (at_ s ReadCount)
| ws_landed s :
    waiting s = ReadLanded → landed_failed_flag s = true → success_step s (at_ s (DrainLanded []))
| ws_landed_pop s acc r rest :
    waiting s = DrainLanded acc → results s = r :: rest →
    success_step s (popped s rest (DrainLanded (acc ++ [r])))
| ws_landed_done s acc :
    waiting s = DrainLanded acc → results s = [] →
    success_step s (at_ s (match acc with [] => ReadCount | _ => Return false acc end))
| ws_incomplete s :
    waiting s = ReadCount → (completed_count s < total)%nat → success_step s (at_ s ReadSuccess)
| ws_timeout s :
    waiting s = ReadCount → (completed_count s < total)%nat →
    success_step s (at_ s (ReturnNone true))
| ws_complete s :
    waiting s = ReadCount → (total ≤ completed_count s)%nat →
    success_step s (at_ s (DrainCount []))
| ws_complete_pop s acc r rest :
    waiting s = DrainCount acc → results s = r :: rest →
    success_step s (popped s rest (DrainCount (acc ++ [r])))
| ws_complete_done s acc :
    waiting s = DrainCount acc → results s = [] →
    success_step s (at_ s (match acc with
                           | [] => ReturnNone false
                           | _ => Return (existsb tr_success acc) acc
                           end)).

Inductive step : Collector → Collector → Prop :=
| step_task s s' : task_step s s' → step s s'
| step_all s s' : all_step s s' → step s s'
| step_success s s' : success_step s s' → step s s'.

(** States reached from a new collector. *)
Definition reachable (start : consumer) (s : Collector) : Prop :=
  rtc step (collector_new total start) s.


(** ** The invariant *)

(** What the consumer has drained. *)
Definition drained (c : consumer) : list TaskResult :=
  match c with
  | AllDrain _ acc | AllReturn _ acc | DrainSuccess acc | DrainLanded acc | DrainCount acc
  | Return _ acc => acc
  | _ => []
  end.

(** A result is queued by the task it belongs to. *)
Definition queued_by (i : nat) (r : TaskResult) : Prop := task_results !! i = Some r.

(** Some task whose result was queued has the property. *)
Definition some_pushed (P : TaskResult → bool) (s : Collector) : Prop :=
  ∃ i r, i ∈ pushes s ∧ task_results !! i = Some r ∧ P r = true.

Definition counted (l : list phase) : nat := length (filter (λ p, p = Counted) l).

(** What holds where the consumer is. *)
Definition consumer_ok (s : Collector) : Prop :=
  match waiting s with
  | AllDrain timed _ => timed = false → (total ≤ completed_count s)%nat
  | AllReturn timed _ => timed = false → (total ≤ completed_count s)%nat ∧ results s = []
  | DrainSuccess _ => success_flag s = true
  | DrainLanded _ => landed_failed_flag s = true
  | DrainCount _ => (total ≤ completed_count s)%nat
  | Return ok acc => acc ≠ [] ∧ (ok = true → existsb tr_success acc = true)
  | ReturnNone false => total = 0%nat
  | _ => True
  end.

Record inv (s : Collector) : Prop := mk_inv {
  inv_tasks : length (tasks s) = total;
  inv_once : NoDup (pushes s);
  inv_pushed i : i ∈ pushes s ↔ ∃ p, tasks s !! i = Some p ∧ p ≠ Working;
  inv_results : Forall2 queued_by (pushes s) (drained (waiting s) ++ results s);
  inv_count : completed_count s = counted (tasks s);
  inv_success : success_flag s = true → some_pushed tr_success s;
  inv_landed : landed_failed_flag s = true →
               some_pushed (λ r, negb (tr_success r) && tr_landed_on_chain r) s;
  inv_consumer : consumer_ok s;
}.

Lemma inv_new start :
  drained start = [] → start = AllWait ∨ start = ReadSuccess → inv (collector_new total start).
Proof.
  intros Hd Hs. split; simpl; try done.
  - apply repeat_length.
  - constructor.
  - intros i. split; [by intros ?%elem_of_nil|]. intros (p & Hp & Hn).
    apply list_elem_of_lookup_2, list_elem_of_In, repeat_spec in Hp. done.
  - rewrite Hd. constructor.
  - unfold counted. by induction total.
  - unfold consumer_ok. simpl. by destruct Hs as [-> | ->].
Qed.

Lemma pushes_range s i : inv s → i ∈ pushes s → (i < total)%nat.
Proof.
  intros Hi (p & Hp & _)%(inv_pushed s Hi). rewrite <- (inv_tasks s Hi). by eapply lookup_lt_Some.
Qed.

(** The queue never overflows. *)
Lemma push_fits s i :
  inv s → tasks s !! i = Some Working → (length (results s) < total)%nat.
Proof.
  intros Hi Hw. pose proof (Forall2_length _ _ _ (inv_results s Hi)) as Hl.
  rewrite length_app in Hl.
  assert (Hn : i ∉ pushes s).
  { intros (p & Hp & Hne)%(inv_pushed s Hi). congruence. }
  assert (Hlt : (length (i :: pushes s) ≤ length (seq 0 total))%nat).
  { apply submseteq_length, NoDup_submseteq.
    - constructor; [done|apply (inv_once s Hi)].
    - intros j Hj. apply elem_of_seq. split; [lia|]. apply elem_of_cons in Hj as [->|Hj].
      + rewrite <- (inv_tasks s Hi). by eapply lookup_lt_Some.
      + by apply (pushes_range s). }
  rewrite length_seq in Hlt. simpl in Hlt. lia.
Qed.

Lemma counted_insert (l : list phase) i p q :
  l !! i = Some q → q ≠ Counted →
  counted (<[i := p]> l) = (counted l + if decide (p = Counted) then 1 else 0)%nat.
Proof.
  unfold counted. revert i. induction l as [|a l IH]; intros [|i] Hl Hq; [done..| |].
  - injection Hl as ->. simpl. rewrite !filter_cons. rewrite (decide_False (P := q = _)) by done.
    destruct (decide (p = Counted)); simpl; lia.
  - simpl in *. rewrite !filter_cons. destruct (decide (a = Counted)); simpl; rewrite (IH i); auto.
Qed.

(** A step of a task that is not its push leaves the pushes alone. *)
Lemma pushed_set (l : list phase) i p q (P : list nat) :
  l !! i = Some q → q ≠ Working → p ≠ Working →
  (∀ j, j ∈ P ↔ ∃ p', l !! j = Some p' ∧ p' ≠ Working) →
  ∀ j, j ∈ P ↔ ∃ p', <[i := p]> l !! j = Some p' ∧ p' ≠ Working.
Proof.
  intros Hl Hq Hp HP j. rewrite HP. destruct (decide (i = j)) as [<-|Hn].
  - rewrite list_lookup_insert_eq by (by eapply lookup_lt_Some). naive_solver.
  - by rewrite list_lookup_insert_ne.
Qed.

Lemma some_pushed_more P s s' :
  (∀ i, i ∈ pushes s → i ∈ pushes s') → some_pushed P s → some_pushed P s'.
Proof. intros Hs (i & r & Hi & Hr). exists i, r. auto. Qed.

(** When every task is counted, every task has pushed. *)
Lemma all_pushed s i : inv s → (total ≤ completed_count s)%nat → (i < total)%nat → i ∈ pushes s.
Proof.
  intros Hi Hc Hlt. apply (inv_pushed s Hi).
  rewrite (inv_count s Hi) in Hc. pose proof (inv_tasks s Hi) as Ht.
  destruct (lookup_lt_is_Some_2 (tasks s) i ltac:(lia)) as [p Hp]. exists p. split; [done|].
  intros ->. assert (Hlen : (counted (<[i := Counted]> (tasks s)) ≤ length (tasks s))%nat).
  { unfold counted. rewrite <- (length_insert (tasks s) i Counted). apply length_filter. }
  rewrite (counted_insert _ _ _ Working) in Hlen by done.
  rewrite decide_True in Hlen by done. lia.
Qed.

Lemma inv_task s s' : inv s → task_step s s' → inv s'.
Proof.
  intros Hi Hs. pose proof Hi as [Ht Ho Hp Hr Hc Hsu Hla Hco].
  destruct Hs as [s i r Hw Hq|s i r Hw Hq|s i Hw].
  - pose proof (push_fits s i Hi Hw) as Hfit. apply Nat.ltb_lt in Hfit. rewrite Hfit.
    assert (Hn : i ∉ pushes s) by (intros (p & Hp' & Hne)%Hp; congruence).
    split; unfold set_task; simpl; try done.
    + by rewrite length_insert.
    + apply NoDup_app. split; [done|]. split; [|apply NoDup_singleton].
      by intros j Hj ->%list_elem_of_singleton.
    + intros j. rewrite elem_of_app, list_elem_of_singleton, Hp.
      destruct (decide (i = j)) as [<-|Hne].
      * rewrite list_lookup_insert_eq by (by eapply lookup_lt_Some). naive_solver.
      * rewrite list_lookup_insert_ne by done. naive_solver.
    + rewrite app_assoc. apply Forall2_app; [done|]. by constructor.
    + rewrite (counted_insert _ _ _ Working), decide_False by done. lia.
    + intros Hx%Hsu. eapply some_pushed_more, Hx. intros j Hj. apply elem_of_app. by left.
    + intros Hx%Hla. eapply some_pushed_more, Hx. intros j Hj. apply elem_of_app. by left.
    + unfold consumer_ok in *. simpl. destruct (waiting s) as [| |timed acc| | | | | | | |]; try done.
      intros Htf. destruct (Hco Htf) as [Hall _]. destruct Hn. apply (all_pushed s i Hi Hall).
      rewrite <- Ht. by eapply lookup_lt_Some.
  - assert (Hpi : i ∈ pushes s) by (apply Hp; eauto).
    split; unfold set_task; simpl; try done.
    + by rewrite length_insert.
    + by apply (pushed_set _ _ _ Pushed).
    + rewrite (counted_insert _ _ _ Pushed), decide_False by done. lia.
    + intros [Hr'|Hr']%orb_true_iff; [by exists i, r|by apply Hsu].
    + intros [Hr'|Hr']%orb_true_iff; [by exists i, r|by apply Hla].
    + unfold consumer_ok in *. simpl. destruct (waiting s) eqn:Hwt; try done;
        rewrite ?Hco, ?orb_true_r; done.
  - split; unfold set_task; simpl; try done.
    + by rewrite length_insert.
    + by apply (pushed_set _ _ _ Flagged).
    + rewrite (counted_insert _ _ _ Flagged), decide_True by done. lia.
    + unfold consumer_ok in *. simpl. destruct (waiting s); try done; auto with lia.
      intros Htf. destruct (Hco Htf). auto with lia.
Qed.

(** A successful result that was queued and not drained yet is drained. *)
Lemma drained_success s acc :
  inv s → results s = [] → drained (waiting s) = acc → success_flag s = true →
  existsb tr_success acc = true.
Proof.
  intros Hi Hr <- Hf. destruct (inv_success s Hi Hf) as (i & r & Hin & Hl & Hs).
  pose proof (inv_results s Hi) as Hq. rewrite Hr, app_nil_r in Hq.
  apply list_elem_of_lookup in Hin as [k Hk].
  apply (Forall2_lookup_l _ _ _ _ _ Hq) in Hk as (r' & Hk & Hr').
  unfold queued_by in Hr'. rewrite Hl in Hr'. injection Hr' as <-.
  apply existsb_exists. exists r. split; [|done]. by eapply list_elem_of_In, list_elem_of_lookup_2.
Qed.

Lemma drained_nonempty s :
  inv s → results s = [] → drained (waiting s) = [] → pushes s = [].
Proof.
  intros Hi Hr Hd. pose proof (inv_results s Hi) as Hq. rewrite Hr, Hd in Hq. simpl in Hq.
  by apply Forall2_nil_inv_r in Hq.
Qed.

(** A consumer step that drains nothing. *)
Lemma inv_at s c :
  inv s → drained c = drained (waiting s) → consumer_ok (at_ s c) → inv (at_ s c).
Proof. intros [] Hd Hc. split; simpl; try done. by rewrite Hd. Qed.

Lemma inv_popped s r rest c acc :
  inv s → results s = r :: rest → drained (waiting s) = acc → drained c = acc ++ [r] →
  consumer_ok (popped s rest c) → inv (popped s rest c).
Proof.
  intros [Ht Ho Hp Hr Hc Hsu Hla Hco] Hres Hd Hd' Hok. split; simpl; try done.
  rewrite Hd', <- app_assoc. simpl. by rewrite <- Hres, <- Hd.
Qed.

Lemma inv_all s s' : inv s → all_step s s' → inv s'.
Proof.
  intros Hi Hs. pose proof (inv_consumer s Hi) as Hco. unfold consumer_ok in Hco.
  destruct Hs as [s Hw|s Hw Hc|s timed acc r rest Hw Hr|s timed acc Hw Hr]; rewrite Hw in Hco.
  - apply inv_at; [done|by rewrite Hw|]. done.
  - apply inv_at; [done|by rewrite Hw|]. by intros _.
  - eapply inv_popped; [done|done|by rewrite Hw|done|]. done.
  - apply inv_at; [done|by rewrite Hw|]. intros Ht. simpl. auto.
Qed.

Lemma inv_success_step s s' : inv s → success_step s s' → inv s'.
Proof.
  intros Hi Hs. pose proof (inv_consumer s Hi) as Hco. unfold consumer_ok in Hco.
  destruct Hs as [s Hw Hf|s Hw Hf|s acc r rest Hw Hr|s acc Hw Hr|s Hw Hf|s Hw Hf
    |s acc r rest Hw Hr|s acc Hw Hr|s Hw Hc|s Hw Hc|s Hw Hc|s acc r rest Hw Hr|s acc Hw Hr];
    rewrite Hw in Hco;
    try (by apply inv_at; [|rewrite Hw|]); try (by eapply inv_popped; [|done|by rewrite Hw|..]).
  - assert (He : existsb tr_success acc = true)
      by (by apply (drained_success s); rewrite ?Hw).
    rewrite He. apply inv_at; [done|by rewrite Hw|]. split; [|done]. by intros ->.
  - destruct acc as [|r acc]; [|by apply inv_at; [|rewrite Hw|]].
    destruct (inv_landed s Hi Hco) as (i & r & Hin & _).
    rewrite (drained_nonempty s) in Hin by (rewrite ?Hw; done). by apply elem_of_nil in Hin.
  - destruct acc as [|r acc]; [|by apply inv_at; [|rewrite Hw|]].
    apply inv_at; [done|by rewrite Hw|]. unfold consumer_ok. simpl.
    destruct (decide (total = 0%nat)) as [|Hne]; [done|].
    pose proof (all_pushed s 0 Hi Hco ltac:(lia)) as Hin.
    rewrite (drained_nonempty s) in Hin by (rewrite ?Hw; done). by apply elem_of_nil in Hin.
Qed.

Lemma inv_reachable start s :
  start = AllWait ∨ start = ReadSuccess → reachable start s → inv s.
Proof.
  intros Hst Hr. unfold reachable in Hr.
  assert (Hi : inv (collector_new total start)) by (apply inv_new; [by destruct Hst as [-> | ->]|done]).
  revert Hi. induction Hr as [s|s1 s2 s3 Hs _ IH]; [done|]. intros Hi. apply IH.
  destruct Hs as [? ? Hs|? ? Hs|? ? Hs];
    [by eapply inv_task|by eapply inv_all|by eapply inv_success_step].
Qed.

(** ** What the consumers return *)

(** The results of some of the tasks, in some order, each once. *)
Definition schedule_of (schedule : list nat) (acc : list TaskResult) : Prop :=
  NoDup schedule ∧ (∀ i, i ∈ schedule → (i < total)%nat)
  ∧ Forall2 queued_by schedule acc.

Lemma drained_schedule s :
  inv s → ∃ schedule rest, pushes s = schedule ++ rest ∧ schedule_of schedule (drained (waiting s)).
Proof.
  intros Hi. pose proof (inv_results s Hi) as Hq. pose proof (inv_once s Hi) as Ho.
  pose proof (pushes_range s) as Hp.
  apply Forall2_app_inv_r in Hq as (l1 & l2 & H1 & _ & Heq). exists l1, l2. split; [done|].
  rewrite Heq in Ho. apply NoDup_app in Ho as (Hn & _ & _).
  split; [done|]. split; [|done]. intros i Hin. apply (Hp i Hi). rewrite Heq, elem_of_app. by left.
Qed.

(** *** The order in which the tasks finish

    It is read off the run, from the phases alone: a task finishes at the step
    after which it no longer works. *)
Inductive finishes (start : consumer) : list nat → Collector → Prop :=
| finishes_new : finishes start [] (collector_new total start)
| finishes_task order s s' i :
    finishes start order s → step s s' →
    tasks s !! i = Some Working → tasks s' !! i ≠ Some Working →
    finishes start (order ++ [i]) s'
| finishes_none order s s' :
    finishes start order s → step s s' →
    (∀ i, tasks s !! i = Some Working → tasks s' !! i = Some Working) →
    finishes start order s'.

(** A step finishes one task, which is the next to be recorded, or none. *)
Lemma step_finishes s s' :
  step s s' →
  (∃ i, tasks s !! i = Some Working ∧ pushes s' = pushes s ++ [i]
        ∧ ∀ j, tasks s !! j = Some Working ∧ tasks s' !! j ≠ Some Working ↔ j = i)
  ∨ pushes s' = pushes s ∧ ∀ j, tasks s !! j = Some Working → tasks s' !! j = Some Working.
Proof.
  intros [? ? Hs|? ? Hs|? ? Hs]; [|destruct Hs; by right..].
  destruct Hs as [s1 i r Hw Hq|s1 i r Hw Hq|s1 i Hw]; unfold set_task; simpl; [left; exists i|right..].
  - split; [done|]. split; [done|]. intros j. destruct (decide (j = i)) as [->|Hne].
    + rewrite list_lookup_insert_eq by (by eapply lookup_lt_Some). naive_solver.
    + rewrite list_lookup_insert_ne by done. naive_solver.
  - split; [done|]. intros j Hj. rewrite list_lookup_insert_ne; [done|]. intros ->. congruence.
  - split; [done|]. intros j Hj. rewrite list_lookup_insert_ne; [done|]. intros ->. congruence.
Qed.

(** The record of the pushes is this order, and every run has one. *)
Lemma finishes_pushes start order s : finishes start order s → reachable start s ∧ pushes s = order.
Proof.
  induction 1 as [|order s s' i _ [IHr IHp] Hs Hw Hn|order s s' _ [IHr IHp] Hs Hn].
  - split; [apply rtc_refl|done].
  - split; [by eapply rtc_r|]. rewrite <- IHp.
    destruct (step_finishes _ _ Hs) as [(j & _ & -> & Hj)|[_ Hall]].
    + by rewrite (proj1 (Hj i) (conj Hw Hn)).
    + by destruct Hn; apply Hall.
  - split; [by eapply rtc_r|]. rewrite <- IHp.
    destruct (step_finishes _ _ Hs) as [(j & Hw & _ & Hj)|[? _]]; [|done].
    destruct (proj2 (Hj j) eq_refl) as [_ Hne]. by destruct Hne; apply Hn.
Qed.

Lemma reachable_finishes start s : reachable start s → ∃ order, finishes start order s.
Proof.
  intros Hr. refine (rtc_ind_r (λ s, ∃ order, finishes start order s) _ _ _ _ Hr).
  - exists []. constructor.
  - intros s1 s2 _ Hs [order Ho].
    destruct (step_finishes _ _ Hs) as [(i & Hw & _ & Hi)|[_ Hall]].
    + exists (order ++ [i]). apply (finishes_task _ _ s1); [done..|].
      by destruct (proj2 (Hi i) eq_refl).
    + exists order. by apply (finishes_none _ _ s1).
Qed.

(** C12.  In every interleaving of the tasks with the consumer that waits for
    all submissions, [order] being the order in which the tasks finished: what
    the consumer returns are the results of the tasks that finished first, each
    once and in the order they finished; unless the time limit ended the
    waiting, no task is left out and they are the results of all tasks. *)
Theorem all_submitted_spec order s timed acc :
  finishes AllWait order s → waiting s = AllReturn timed acc →
  NoDup order ∧ (∀ i, i ∈ order ↔ ∃ p, tasks s !! i = Some p ∧ p ≠ Working) ∧
  ∃ first later, order = first ++ later ∧ schedule_of first acc
    ∧ (timed = false → later = [] ∧ order ≡ₚ seq 0 total).
Proof.
  intros [Hr <-]%finishes_pushes Hw. apply inv_reachable in Hr as Hi; [|by left].
  split; [apply (inv_once s Hi)|]. split; [apply (inv_pushed s Hi)|].
  destruct (drained_schedule s Hi) as (l & rest & Heq & Hl). rewrite Hw in Hl. simpl in Hl.
  exists l, rest. split; [done|]. split; [done|]. intros Ht.
  pose proof (inv_consumer s Hi) as Hco. unfold consumer_ok in Hco. rewrite Hw in Hco.
  destruct (Hco Ht) as [Hc Hres]. destruct Hl as (_ & _ & Hq). split.
  - pose proof (Forall2_length _ _ _ (inv_results s Hi)) as Hlen.
    apply Forall2_length in Hq. rewrite Hw, Hres, app_nil_r, Heq, length_app in Hlen. simpl in Hlen.
    destruct rest; [done|simpl in Hlen; lia].
  - apply NoDup_Permutation; [apply (inv_once s Hi)|apply NoDup_seq|]. intros i.
    rewrite elem_of_seq. split.
    + intros Hin%(pushes_range s i Hi). lia.
    + intros Hlt. apply (all_pushed s i Hi Hc). lia.
Qed.

(** In every interleaving, what the consumer that waits for a success
    returns are results of finished tasks, at least one; a reported success is
    one; and without the time limit there is always something to return. *)
Theorem wait_for_success_spec s :
  reachable ReadSuccess s →
  match waiting s with
  | Return ok acc => acc ≠ [] ∧ (∃ schedule, schedule_of schedule acc)
                     ∧ (ok = true → ∃ r, r ∈ acc ∧ tr_success r = true)
  | ReturnNone timed => timed = true ∨ total = 0%nat
  | _ => True
  end.
Proof.
  intros Hr. apply inv_reachable in Hr as Hi; [|by right].
  pose proof (inv_consumer s Hi) as Hco. unfold consumer_ok in Hco.
  destruct (drained_schedule s Hi) as (l & rest & _ & Hl).
  destruct (waiting s) as [| | | | | | | | |ok acc|timed] eqn:Hw; try done.
  - destruct Hco as [Hne Hok]. split; [done|]. split; [eauto|]. intros [r [Hin Hs]]%Hok%existsb_exists.
    exists r. split; [|done]. by apply list_elem_of_In.
  - destruct timed; [by left|by right].
Qed.
End Collector.

(** The consumer that waits for a success can report failure although a
    submission has succeeded: when the success is stored after its flag was
    read and before a landed failure is seen, the drained results contain the
    success but failure is returned. *)
Theorem wait_for_success_race r0 r1 :
  tr_success r0 = true → tr_success r1 = false → tr_landed_on_chain r1 = true →
  ∃ s, reachable [r0; r1] ReadSuccess s ∧ waiting s = Return false [r1; r0].
Proof.
  intros H0 H1 H2. eexists. split.
  - unfold reachable, collector_new. cbn [repeat length].
    eapply rtc_l; [apply step_success, ws_no_success; reflexivity|].
    eapply rtc_l; [apply step_task, (step_push _ _ 1%nat r1); reflexivity|].
    eapply rtc_l; [apply step_task, (step_flag _ _ 1%nat r1); reflexivity|].
    eapply rtc_l; [apply step_task, (step_push _ _ 0%nat r0); reflexivity|].
    eapply rtc_l; [apply step_task, (step_flag _ _ 0%nat r0); reflexivity|].
    eapply rtc_l; [apply step_success, ws_landed; [reflexivity|cbn; by rewrite H1, H2, orb_true_r]|].
    eapply rtc_l; [apply step_success; eapply ws_landed_pop; reflexivity|].
    eapply rtc_l; [apply step_success; eapply ws_landed_pop; reflexivity|].
    eapply rtc_l; [apply step_success; eapply ws_landed_done; reflexivity|].
    apply rtc_refl.
  - reflexivity.
Qed.

(** ** The pool of workers *)

(** A worker is about to pop a job, has found the queue empty, waits for a
    notification - it does so from the creation of the [Notified] future on -
    or runs a job. *)
Inductive worker := Popping | FoundEmpty | Waiting | Running.

(** A call enqueues its jobs, notifies, and goes on to collect. *)
Inductive caller := Enqueueing (left_ : nat) | Notifying | Collecting.

(** The queue by its length. *)
Record Pool := mk_Pool {
  queue : nat;
  workers : list worker;
  call_phase : caller;
}.

(* sdk trading/core/async_executor.rs:43-43 SWQOS_QUEUE_CAP *)
Definition SWQOS_QUEUE_CAP : nat := 128.

(** [notify_waiters]: those that wait now are woken. *)
(* sdk trading/core/async_executor.rs:560-560 execute_parallel, notify_waiters *)
Definition notify_waiters (l : list worker) : list worker :=
  map (λ w, match w with Waiting => Popping | w => w end) l.

(* sdk trading/core/async_executor.rs:144-152 swqos_worker_loop *)
Inductive pool_step : Pool → Pool → Prop :=
| pool_push q ws n :
    pool_step (mk_Pool q ws (Enqueueing (S n)))
      (mk_Pool (if (q <? SWQOS_QUEUE_CAP)%nat then S q else q) ws (Enqueueing n))
| pool_pushed q ws :
    pool_step (mk_Pool q ws (Enqueueing 0)) (mk_Pool q ws Notifying)
| pool_notify q ws :
    pool_step (mk_Pool q ws Notifying) (mk_Pool q (notify_waiters ws) Collecting)
| worker_pop q ws c i :
    ws !! i = Some Popping →
    pool_step (mk_Pool (S q) ws c) (mk_Pool q (<[i := Running]> ws) c)
| worker_empty ws c i :
    ws !! i = Some Popping →
    pool_step (mk_Pool 0 ws c) (mk_Pool 0 (<[i := FoundEmpty]> ws) c)
| worker_wait q ws c i :
    ws !! i = Some FoundEmpty →
    pool_step (mk_Pool q ws c) (mk_Pool q (<[i := Waiting]> ws) c)
| worker_done q ws c i :
    ws !! i = Some Running →
    pool_step (mk_Pool q ws c) (mk_Pool q (<[i := Popping]> ws) c).

(** All workers move alike, one after the other. *)
Lemma workers_move q c (a b : worker) n m :
  (∀ ws i, ws !! i = Some a → pool_step (mk_Pool q ws c) (mk_Pool q (<[i := b]> ws) c)) →
  rtc pool_step (mk_Pool q (repeat b m ++ repeat a n) c) (mk_Pool q (repeat b (m + n)) c).
Proof.
  intros Hs. revert m. induction n as [|n IH]; intros m.
  - rewrite Nat.add_0_r, app_nil_r. apply rtc_refl.
  - eapply rtc_l.
    + apply (Hs _ m). rewrite lookup_app_r by (by rewrite repeat_length).
      by rewrite repeat_length, Nat.sub_diag.
    + replace (m + S n)%nat with (S m + n)%nat by lia.
      replace (<[m:=b]> (repeat b m ++ repeat a (S n))) with (repeat b (S m) ++ repeat a n);
        [apply IH|].
      rewrite insert_app_r_alt by (by rewrite repeat_length). rewrite repeat_length, Nat.sub_diag.
      cbn [repeat]. rewrite repeat_cons, <- app_assoc. done.
Qed.

(** C13.  A notification can be lost: however many workers there are, a call can
    enqueue its job and notify after every worker has found the queue empty
    and before any of them waits.  The job then stays in the queue with every
    worker waiting and nothing left to wake them, until some later call. *)
Theorem lost_wakeup n :
  ∃ s, rtc pool_step (mk_Pool 0 (repeat Popping n) (Enqueueing 1)) s
    ∧ queue s = 1%nat ∧ call_phase s = Collecting ∧ ∀ s', ¬ pool_step s s'.
Proof.
  exists (mk_Pool 1 (repeat Waiting n) Collecting). split; [|split; [done|split; [done|]]].
  - etrans; [apply (workers_move 0 (Enqueueing 1) Popping FoundEmpty n 0); intros ws i;
            apply worker_empty|].
    eapply rtc_l; [apply pool_push|]. eapply rtc_l; [apply pool_pushed|].
    eapply rtc_l; [apply pool_notify|]. simpl.
    replace (notify_waiters (repeat FoundEmpty n)) with (repeat FoundEmpty n)
      by (unfold notify_waiters; by rewrite map_repeat).
    apply (workers_move 1 Collecting FoundEmpty Waiting n 0). intros ws i. apply worker_wait.
  - intros s' Hs. inversion Hs; subst;
      match goal with H : repeat _ _ !! _ = Some _ |- _ =>
        apply list_elem_of_lookup_2, list_elem_of_In, repeat_spec in H; done end.
Qed.

(** With every worker waiting at the call, no job is left behind. *)
Definition pool_ok (s : Pool) : Prop :=
  match call_phase s with
  | Collecting => (0 < queue s)%nat → Forall (λ w, w = Popping ∨ w = Running) (workers s)
  | _ => Forall (λ w, w = Waiting) (workers s)
  end.

Lemma Forall_phase_insert {A} (P : A → Prop) l i a : Forall P l → P a → Forall P (<[i := a]> l).
Proof. intros Hl Ha. by apply Forall_insert. Qed.

Lemma pool_ok_step s s' : pool_ok s → pool_step s s' → pool_ok s'.
Proof.
  intros Hok Hs. destruct Hs as [q ws n|q ws|q ws|q ws c i Hi|ws c i Hi|q ws c i Hi|q ws c i Hi];
    unfold pool_ok in *; simpl in *; try done.
  - intros _. apply Forall_map. eapply Forall_impl; [exact Hok|]. intros w ->. by left.
  - destruct c; try (rewrite Forall_lookup in Hok; by specialize (Hok _ _ Hi)).
    intros Hq. apply Forall_phase_insert; [apply Hok; lia|by right].
  - destruct c; try (rewrite Forall_lookup in Hok; by specialize (Hok _ _ Hi)). lia.
  - destruct c; try (rewrite Forall_lookup in Hok; by specialize (Hok _ _ Hi)).
    intros Hq. specialize (Hok Hq). rewrite Forall_lookup in Hok. specialize (Hok _ _ Hi). naive_solver.
  - destruct c; try (rewrite Forall_lookup in Hok; by specialize (Hok _ _ Hi)).
    intros Hq. apply Forall_phase_insert; [by apply Hok|by left].
Qed.

Lemma workers_length s s' : pool_step s s' → length (workers s') = length (workers s).
Proof. intros []; simpl; rewrite ?length_insert; try done. apply length_map. Qed.

(** When every worker waits at the time of a call, every state reached
    from it with a job in the queue has a next step: no job is left behind. *)
Theorem waiting_pool_progress n k s :
  (0 < n)%nat → rtc pool_step (mk_Pool 0 (repeat Waiting n) (Enqueueing k)) s →
  (0 < queue s)%nat → ∃ s', pool_step s s'.
Proof.
  intros Hn Hr Hq.
  assert (Hok : pool_ok s ∧ length (workers s) = n).
  { assert (H0 : pool_ok (mk_Pool 0 (repeat Waiting n) (Enqueueing k))
                 ∧ length (workers (mk_Pool 0 (repeat Waiting n) (Enqueueing k))) = n).
    { split; [|apply repeat_length]. apply Forall_forall. intros w Hw.
      apply list_elem_of_In, repeat_spec in Hw. done. }
    clear Hq. revert H0 Hr. generalize (mk_Pool 0 (repeat Waiting n) (Enqueueing k)).
    intros s0 H0 Hr0. revert H0. induction Hr0 as [|s1 s2 s3 Hs _ IH]; [done|]. intros [Ho Hl]. apply IH.
    split; [by eapply pool_ok_step|]. by rewrite (workers_length _ _ Hs). }
  destruct Hok as [Hok Hlen]. destruct s as [q ws c]. simpl in *. destruct c as [[|j]| |].
  - eexists. apply pool_pushed.
  - eexists. apply pool_push.
  - eexists. apply pool_notify.
  - specialize (Hok Hq). destruct ws as [|w ws]; simpl in Hlen; [lia|]. destruct q; [lia|].
    apply Forall_cons in Hok as [[->| ->] _]; eexists.
    + by apply (worker_pop _ _ _ 0).
    + by apply (worker_done _ _ _ 0).
Qed.

(** ** Concrete runs *)

Definition sent_ok : TaskResult := mk_Task true "sig0" None SwDefault true 40.
Definition landed_badly : TaskResult :=
  mk_Task false "sig1" (Some (Typed (mk_TradeError 6004 "slippage" (Some 3)))) Jito true 41.

(** One task that is pushed, flagged, counted and collected. *)
Definition one_counted (c : consumer) (queued : list TaskResult) : Collector :=
  mk_Coll queued true false 1 [Counted] c [0%nat].

Lemma all_submitted_run : reachable [sent_ok] AllWait (one_counted (AllReturn false [sent_ok]) []).
Proof.
  unfold reachable, collector_new. cbn [repeat length].
  eapply rtc_l; [apply step_task, (step_push _ _ 0%nat sent_ok); reflexivity|].
  eapply rtc_l; [apply step_task, (step_flag _ _ 0%nat sent_ok); reflexivity|].
  eapply rtc_l; [apply step_task, (step_count _ _ 0%nat); reflexivity|].
  eapply rtc_l; [apply step_all, all_complete; [reflexivity|cbn; lia]|].
  eapply rtc_l; [apply step_all; eapply all_pop; reflexivity|].
  eapply rtc_l; [apply step_all; eapply all_done; reflexivity|].
  apply rtc_refl.
Qed.

Lemma success_run : reachable [sent_ok] ReadSuccess (one_counted (Return true [sent_ok]) []).
Proof.
  unfold reachable, collector_new. cbn [repeat length].
  eapply rtc_l; [apply step_task, (step_push _ _ 0%nat sent_ok); reflexivity|].
  eapply rtc_l; [apply step_task, (step_flag _ _ 0%nat sent_ok); reflexivity|].
  eapply rtc_l; [apply step_task, (step_count _ _ 0%nat); reflexivity|].
  eapply rtc_l; [apply step_success, ws_success; reflexivity|].
  eapply rtc_l; [apply step_success; eapply ws_success_pop; reflexivity|].
  eapply rtc_l; [apply step_success; eapply ws_success_done; reflexivity|].
  apply rtc_refl.
Qed.

(** Two tasks, of which the second finishes first. *)
Definition two_run (i j : phase) (c : consumer) (queued : list TaskResult) (n : nat)
    (success landed : bool) (order : list nat) : Collector :=
  mk_Coll queued success landed n [i; j] c order.

Abbreviation two_results := [sent_ok; landed_badly].

(** One more step, which finishes no task. *)
Lemma finishes_on order s s' :
  finishes two_results AllWait order s → step two_results s s' →
  (∀ i, (i < 2)%nat → tasks s !! i = Some Working → tasks s' !! i = Some Working) →
  length (tasks s) = 2%nat → finishes two_results AllWait order s'.
Proof.
  intros Hf Hs Hw Hl. apply (finishes_none _ _ _ _ _ Hf Hs). intros i Hi.
  apply Hw; [|done]. rewrite <- Hl. by eapply lookup_lt_Some.
Qed.

Ltac on H := apply (finishes_on _ _ _ H); [|intros [|[|k]] ? ?; [done..|lia]|done].

Lemma second_first :
  finishes two_results AllWait [1; 0]%nat
    (two_run Counted Counted (AllReturn false [landed_badly; sent_ok]) [] 2 true true [1; 0]%nat).
Proof.
  assert (F1 : finishes two_results AllWait [1]%nat
    (two_run Working Pushed AllWait [landed_badly] 0 false false [1]%nat)).
  { apply (finishes_task _ AllWait [] (collector_new 2 AllWait) _ 1%nat); [constructor| |done|done].
    apply step_task. exact (step_push two_results (collector_new 2 AllWait) 1%nat landed_badly eq_refl eq_refl). }
  assert (F2 : finishes two_results AllWait [1; 0]%nat
    (two_run Pushed Pushed AllWait [landed_badly; sent_ok] 0 false false [1; 0]%nat)).
  { apply (finishes_task _ AllWait [1]%nat _ _ 0%nat F1); [|done|done].
    apply step_task. exact (step_push two_results (two_run Working Pushed AllWait [landed_badly] 0 false false [1]%nat) 0%nat sent_ok eq_refl eq_refl). }
  assert (F3 : finishes two_results AllWait [1; 0]%nat
    (two_run Pushed Flagged AllWait [landed_badly; sent_ok] 0 false true [1; 0]%nat)).
  { on F2. apply step_task.
    exact (step_flag two_results (two_run Pushed Pushed AllWait [landed_badly; sent_ok] 0 false false [1; 0]%nat) 1%nat landed_badly eq_refl eq_refl). }
  assert (F4 : finishes two_results AllWait [1; 0]%nat
    (two_run Flagged Flagged AllWait [landed_badly; sent_ok] 0 true true [1; 0]%nat)).
  { on F3. apply step_task.
    exact (step_flag two_results (two_run Pushed Flagged AllWait [landed_badly; sent_ok] 0 false true [1; 0]%nat) 0%nat sent_ok eq_refl eq_refl). }
  assert (F5 : finishes two_results AllWait [1; 0]%nat
    (two_run Counted Flagged AllWait [landed_badly; sent_ok] 1 true true [1; 0]%nat)).
  { on F4. apply step_task.
    exact (step_count two_results (two_run Flagged Flagged AllWait [landed_badly; sent_ok] 0 true true [1; 0]%nat) 0%nat eq_refl). }
  assert (F6 : finishes two_results AllWait [1; 0]%nat
    (two_run Counted Counted AllWait [landed_badly; sent_ok] 2 true true [1; 0]%nat)).
  { on F5. apply step_task.
    exact (step_count two_results (two_run Counted Flagged AllWait [landed_badly; sent_ok] 1 true true [1; 0]%nat) 1%nat eq_refl). }
  assert (F7 : finishes two_results AllWait [1; 0]%nat
    (two_run Counted Counted (AllDrain false []) [landed_badly; sent_ok] 2 true true [1; 0]%nat)).
  { on F6. apply step_all.
    exact (all_complete two_results (two_run Counted Counted AllWait [landed_badly; sent_ok] 2 true true [1; 0]%nat) eq_refl (Nat.le_refl 2)). }
  assert (F8 : finishes two_results AllWait [1; 0]%nat
    (two_run Counted Counted (AllDrain false [landed_badly]) [sent_ok] 2 true true [1; 0]%nat)).
  { on F7. apply step_all.
    exact (all_pop two_results (two_run Counted Counted (AllDrain false []) [landed_badly; sent_ok] 2 true true [1; 0]%nat) false [] landed_badly [sent_ok] eq_refl eq_refl). }
  assert (F9 : finishes two_results AllWait [1; 0]%nat
    (two_run Counted Counted (AllDrain false [landed_badly; sent_ok]) [] 2 true true [1; 0]%nat)).
  { on F8. apply step_all.
    exact (all_pop two_results (two_run Counted Counted (AllDrain false [landed_badly]) [sent_ok] 2 true true [1; 0]%nat) false [landed_badly] sent_ok [] eq_refl eq_refl). }
  on F9. apply step_all.
    exact (all_done two_results (two_run Counted Counted (AllDrain false [landed_badly; sent_ok]) [] 2 true true [1; 0]%nat) false [landed_badly; sent_ok] eq_refl eq_refl).
Qed.

Lemma all_submitted_spec_witness :
  ∃ first later, [1; 0]%nat = first ++ later
    ∧ schedule_of [sent_ok; landed_badly] first [landed_badly; sent_ok]
    ∧ (false = false → later = [] ∧ [1; 0]%nat ≡ₚ seq 0 2).
Proof.
  apply (all_submitted_spec [sent_ok; landed_badly] [1; 0]%nat
    (two_run Counted Counted (AllReturn false [landed_badly; sent_ok]) [] 2 true true [1; 0]%nat)
    false [landed_badly; sent_ok]); [exact second_first|reflexivity].
Defined.

Lemma wait_for_success_spec_witness :
  [sent_ok] ≠ [] ∧ (∃ schedule, schedule_of [sent_ok] schedule [sent_ok])
  ∧ (true = true → ∃ r, r ∈ [sent_ok] ∧ tr_success r = true).
Proof. apply (wait_for_success_spec [sent_ok] _ success_run). Defined.

Lemma wait_for_success_race_witness :
  ∃ s, reachable [sent_ok; landed_badly] ReadSuccess s
       ∧ waiting s = Return false [landed_badly; sent_ok].
Proof. apply (wait_for_success_race sent_ok landed_badly); reflexivity. Defined.

Lemma waiting_pool_progress_witness :
  ∃ s', pool_step (mk_Pool 1 [Waiting; Waiting] (Enqueueing 0)) s'.
Proof.
  apply (waiting_pool_progress 2 1); [lia| |simpl; lia].
  eapply rtc_l; [apply pool_push|apply rtc_refl].
Defined.
