(* ===== verification/Keepalive.v ===== *)
(** * Keeping connections to the services alive
    (sdk swqos/zeroslot.rs, temporal.rs, node1.rs, blockrazor.rs,
    astralane.rs, stellium.rs)

    A client of these services spawns a task that pings its service every
    thirty seconds until the client is dropped.  Whether it does is a question
    about several tasks: the owner of the client, the task that starts the
    pings on a clone of the client, the pings, and the tasks that dropping a
    client spawns.  The states are those of the tasks and of what they share;
    a step is what one task does between two points at which it can be
    interrupted. *)

From Stdlib Require Import Ascii String.
From S2P Require Import Prelude F64 Solana Effects Text GasFee Channels Confirm TxBuild Http Sender.

#[local] Open Scope string_scope.
#[local] Open Scope Z_scope.
#[local] Open Scope list_scope.

(** ** The requests *)

(** A ping: whether it is a GET, and the request. *)
Record PingRequest := mk_Ping { ping_get : bool; ping_rq : HttpRequest }.

Definition health_body : string :=
  "{" +:+ quote "jsonrpc" +:+ ":" +:+ quote "2.0" +:+ "," +:+ quote "id" +:+ ":1," +:+
  quote "method" +:+ ":" +:+ quote "getHealth" +:+ "}".

(* sdk swqos/zeroslot.rs:123-138 send_ping_request *)
Definition zeroslot_ping (endpoint auth_token : string) : PingRequest :=
  mk_Ping false (mk_Request (endpoint +:+ "/?api-key=" +:+ auth_token) []
    [("Content-Type", "application/json")] (BText health_body)).

(* sdk swqos/node1.rs:128-149 send_ping_request *)
Definition node1_ping (endpoint : string) : PingRequest :=
  let ping_url := if ends_with "/" endpoint then endpoint +:+ "ping" else endpoint +:+ "/ping" in
  mk_Ping true (mk_Request ping_url [] [] (BBytes [])).

(* sdk swqos/temporal.rs:151-172 send_ping_request *)
Definition temporal_ping (endpoint : string) : PingRequest :=
  let ping_url := if ends_with "/" endpoint then endpoint +:+ "ping" else endpoint +:+ "/ping" in
  mk_Ping true (mk_Request ping_url [] [] (BBytes [])).

(* sdk swqos/stellium.rs:95-95 start_ping_task, url *)
Definition stellium_ping (endpoint auth_token : string) : PingRequest :=
  mk_Ping true (mk_Request (endpoint +:+ "/" +:+ auth_token) [] [] (BBytes [])).

(* sdk swqos/astralane.rs:157-175 send_ping_request *)
Definition astralane_ping (endpoint auth_token : string) : PingRequest :=
  mk_Ping false (mk_Request endpoint [("api-key", auth_token); ("method", "getHealth")] []
    (BBytes [])).

(* sdk swqos/blockrazor.rs:340-360 send_http_ping *)
Definition razor_ping (endpoint auth_token : string) : PingRequest :=
  let ping_url := replace_all (String.length endpoint) "/v2/sendTransaction" "/v2/health" endpoint in
  mk_Ping false (mk_Request ping_url [("auth", auth_token)] [("Content-Type", "text/plain")]
    (BBytes [])).

(** The pings of BlockRazor go to the health page of the server the
    transactions go to, in every region. *)
Theorem razor_ping_urls auth :
  map (λ endpoint, rq_url (ping_rq (razor_ping endpoint auth))) SWQOS_ENDPOINTS_BLOCKRAZOR
  = map (λ region, "http://" +:+ region +:+ ".solana.blockrazor.xyz:443/v2/health")
      ["newyork"; "frankfurt"; "amsterdam"; "london"; "newyork"; "tokyo"; "tokyo"; "london";
       "newyork"; "frankfurt"].
Proof. vm_compute. reflexivity. Qed.

(** ** Clients with a handle *)

(** Where the task of the pings is: before its first ping, waiting for the clock, about to look
    at the flag, about to ping. *)
Inductive ping_pc := PStart | PTick | PCheck | PSend.

(** The task that starts the pings: spawn, store the handle, drop the clone. *)
Inductive starter_pc := StSpawn | StStore | StDrop | StDone.

(** [ping] is the task of the pings while it runs, [handle] whether its handle is in the mutex,
    [stop] the shared flag, [owner] whether the owner still has the client, [droppers] the tasks
    that drops have spawned, [pings] how many requests have been sent. *)
(* sdk swqos/zeroslot.rs:19-26 ZeroSlotClient *)
Record Keep := mk_Keep {
  starter : starter_pc;
  ping : option ping_pc;
  handle : bool;
  stop : bool;
  owner : bool;
  droppers : nat;
  pings : nat;
}.

Section Handle.
(** Whether a ping is sent before the loop (not by Astralane's client). *)
Context (first_ping : bool).

(** [new]: the client, and its clone in a spawned task. *)
(* sdk swqos/zeroslot.rs:62-82 new *)
Definition keep_new : Keep := mk_Keep StSpawn None false false true 0 0.

(* sdk swqos/zeroslot.rs:85-120 start_ping_task *)
Inductive start_step : Keep → Keep → Prop :=
| start_spawn s :
    starter s = StSpawn →
    start_step s (mk_Keep StStore (Some PStart) (handle s) (stop s) (owner s) (droppers s) (pings s))
| start_store s :
    starter s = StStore →
    start_step s (mk_Keep StDrop (ping s) true (stop s) (owner s) (droppers s) (pings s)).

(** [drop], of the clone at the end of its task and of the client by its owner. *)
(* sdk swqos/zeroslot.rs:251-265 drop *)
Inductive drop_step : Keep → Keep → Prop :=
| drop_clone s :
    starter s = StDrop →
    drop_step s (mk_Keep StDone (ping s) (handle s) true (owner s) (S (droppers s)) (pings s))
| drop_client s :
    owner s = true →
    drop_step s (mk_Keep (starter s) (ping s) (handle s) true false (S (droppers s)) (pings s))
| drop_task s n :
    droppers s = S n →
    drop_step s (mk_Keep (starter s) (if handle s then None else ping s) false (stop s) (owner s)
                   n (pings s)).

(** The spawned task: a first ping, then the loop. *)
(* sdk swqos/zeroslot.rs:91-110 start_ping_task, spawned task *)
Inductive ping_step : Keep → Keep → Prop :=
| ping_first s :
    ping s = Some PStart →
    ping_step s (mk_Keep (starter s) (Some PTick) (handle s) (stop s) (owner s) (droppers s)
                   (if first_ping then S (pings s) else pings s))
| ping_tick s :
    ping s = Some PTick →
    ping_step s (mk_Keep (starter s) (Some PCheck) (handle s) (stop s) (owner s) (droppers s)
                   (pings s))
| ping_check s :
    ping s = Some PCheck →
    ping_step s (mk_Keep (starter s) (if stop s then None else Some PSend) (handle s) (stop s)
                   (owner s) (droppers s) (pings s))
| ping_send s :
    ping s = Some PSend →
    ping_step s (mk_Keep (starter s) (Some PTick) (handle s) (stop s) (owner s) (droppers s)
                   (S (pings s))).

Inductive keep_step (s s' : Keep) : Prop :=
| keep_start : start_step s s' → keep_step s s'
| keep_drop : drop_step s s' → keep_step s s'
| keep_ping : ping_step s s' → keep_step s s'.

(** The clone is gone and has raised the flag. *)
Definition stopped (s : Keep) : Prop := starter s = StDone ∧ stop s = true.

(** Pings the task can still send once the flag is up. *)
Definition due (s : Keep) : nat :=
  match ping s with Some PStart | Some PSend => 1 | _ => 0 end.

(** Steps the system can still make once the flag is up. *)
Definition rank (s : Keep) : nat :=
  (match ping s with Some PStart | Some PSend => 3 | Some PTick => 2 | Some PCheck => 1 | None => 0 end
   + droppers s + if owner s then 2 else 0)%nat.

Lemma flag_raised s s' : (starter s = StDone → stop s = true) → keep_step s s' →
  (starter s' = StDone → stop s' = true).
Proof. intros Hf [Hs|Hs|Hs]; destruct Hs; simpl; naive_solver. Qed.

Lemma done_stopped s : rtc keep_step keep_new s → starter s = StDone → stopped s.
Proof.
  intros Hr Hd. split; [done|]. revert Hd.
  assert (starter keep_new = StDone → stop keep_new = true) as H0 by done. revert H0.
  induction Hr as [|s1 s2 s3 Hs _ IH]; [done|]. intros Hf. apply IH. by eapply flag_raised.
Qed.

Lemma stopped_step s s' : stopped s → keep_step s s' →
  stopped s' ∧ (pings s' + due s' ≤ pings s + due s)%nat ∧ (rank s' < rank s)%nat.
Proof.
  intros [Hd Hf] [Hs|Hs|Hs];
    [destruct Hs as [s Hx|s Hx]|destruct Hs as [s Hx|s Hx|s n Hx]|destruct Hs as [s Hx|s Hx|s Hx|s Hx]];
    unfold stopped, due, rank; cbn [starter ping handle stop owner droppers pings];
    rewrite ?Hx, ?Hd, ?Hf in *; try discriminate; (split; [done|]).
  - destruct (owner s); lia.
  - destruct (handle s), (ping s) as [[]|]; lia.
  - destruct first_ping; lia.
  - lia.
  - lia.
  - lia.
Qed.

Lemma stopped_run s s' : stopped s → rtc keep_step s s' →
  stopped s' ∧ (pings s' + due s' ≤ pings s + due s)%nat.
Proof.
  intros Hs Hr. induction Hr as [|s1 s2 s3 Hstep _ IH]; [done|].
  destruct (stopped_step s1 s2 Hs Hstep) as (Hs2 & Hd & _). destruct (IH Hs2). split; [done|lia].
Qed.

(** C15. The clone's drop stops the pings of the client: from the moment the task
    that started them ends, at most one more ping is sent, however long the
    owner keeps the client; every run comes to an end, within a bound, and
    when nothing can happen any more the task of the pings has ended. *)
Theorem keepalive_stops_at_birth s :
  rtc keep_step keep_new s → starter s = StDone →
  (∀ s', rtc keep_step s s' → (pings s' ≤ S (pings s))%nat)
  ∧ (∀ n s', nsteps keep_step n s s' → (n ≤ rank s)%nat)
  ∧ (∀ s', rtc keep_step s s' → (∀ s'', ¬ keep_step s' s'') → ping s' = None).
Proof.
  intros Hr Hd. pose proof (done_stopped s Hr Hd) as Hs. split; [|split].
  - intros s' [_ Hp]%stopped_run; [|done].
    assert (due s ≤ 1)%nat by (unfold due; destruct (ping s) as [[]|]; lia). lia.
  - intros n s' Hn. clear Hr Hd. induction Hn as [|n s1 s2 s3 Hstep _ IH]; [lia|].
    destruct (stopped_step s1 s2 Hs Hstep) as (Hs2 & _ & Hlt). specialize (IH Hs2). lia.
  - intros s' _ Hn. destruct (ping s') as [[]|] eqn:Hp; [exfalso..|done];
      eapply Hn, keep_ping; by constructor.
Qed.
End Handle.

(** The other clients that keep a handle: the pings of Astralane's begin with
    the loop. *)
(* sdk swqos/temporal.rs:116-148 start_ping_task *)
Definition temporal_step : Keep → Keep → Prop := keep_step true.
(* sdk swqos/node1.rs:89-125 start_ping_task *)
Definition node1_step : Keep → Keep → Prop := keep_step true.
(* sdk swqos/blockrazor.rs:297-336 start_ping_task, HTTP *)
Definition blockrazor_http_step : Keep → Keep → Prop := keep_step true.
(* sdk swqos/astralane.rs:117-154 start_ping_task *)
Definition astralane_step : Keep → Keep → Prop := keep_step false.

(** ** Stellium: a flag that says the opposite *)

(** The shared flag [keep_alive_running] starts as true; no handle is kept. *)
(* sdk swqos/stellium.rs:21-27 StelliumClient *)
Record Stellium := mk_Stellium {
  st_starter : starter_pc;
  st_ping : option ping_pc;
  keep_alive_running : bool;
  st_owner : bool;
  st_pings : nat;
}.

(* sdk swqos/stellium.rs:63-84 new *)
Definition stellium_new : Stellium := mk_Stellium StSpawn None true true 0.

(** The loop calls the flag [stop_ping] and ends when it is true. *)
(* sdk swqos/stellium.rs:87-128 start_ping_task *)
Inductive stellium_task : Stellium → Stellium → Prop :=
| stellium_spawn s :
    st_starter s = StSpawn →
    stellium_task s (mk_Stellium StDrop (Some PStart) (keep_alive_running s) (st_owner s)
                       (st_pings s))
| stellium_first s :
    st_ping s = Some PStart →
    stellium_task s (mk_Stellium (st_starter s) (Some PTick) (keep_alive_running s) (st_owner s)
                       (S (st_pings s)))
| stellium_tick s :
    st_ping s = Some PTick →
    stellium_task s (mk_Stellium (st_starter s) (Some PCheck) (keep_alive_running s) (st_owner s)
                       (st_pings s))
| stellium_check s :
    st_ping s = Some PCheck →
    stellium_task s (mk_Stellium (st_starter s)
                       (if keep_alive_running s then None else Some PSend)
                       (keep_alive_running s) (st_owner s) (st_pings s))
| stellium_send s :
    st_ping s = Some PSend →
    stellium_task s (mk_Stellium (st_starter s) (Some PTick) (keep_alive_running s) (st_owner s)
                       (S (st_pings s))).

(* sdk swqos/stellium.rs:224-227 drop *)
Inductive stellium_drop : Stellium → Stellium → Prop :=
| stellium_drop_clone s :
    st_starter s = StDrop →
    stellium_drop s (mk_Stellium StDone (st_ping s) false (st_owner s) (st_pings s))
| stellium_drop_client s :
    st_owner s = true →
    stellium_drop s (mk_Stellium (st_starter s) (st_ping s) false false (st_pings s)).

(** [stop_ping_task], by the owner. *)
(* sdk swqos/stellium.rs:218-220 stop_ping_task *)
Inductive stellium_stop : Stellium → Stellium → Prop :=
| stellium_stop_ping s :
    st_owner s = true →
    stellium_stop s (mk_Stellium (st_starter s) (st_ping s) false (st_owner s) (st_pings s)).

Inductive stellium_step (s s' : Stellium) : Prop :=
| st_task : stellium_task s s' → stellium_step s s'
| st_drop : stellium_drop s s' → stellium_step s s'
| st_stop : stellium_stop s s' → stellium_step s s'.

(** The clone is gone, so the flag is down, and the task of the pings is still there. *)
Definition unstoppable (s : Stellium) : Prop :=
  st_starter s = StDone ∧ keep_alive_running s = false ∧ is_Some (st_ping s).

Lemma stellium_flag s s' : (st_starter s = StDone → keep_alive_running s = false) →
  stellium_step s s' → (st_starter s' = StDone → keep_alive_running s' = false).
Proof. intros Hf [Hs|Hs|Hs]; destruct Hs; simpl; naive_solver. Qed.

Lemma unstoppable_step s s' : unstoppable s → stellium_step s s' → unstoppable s'.
Proof.
  intros (Hd & Hf & Hp) [Hs|Hs|Hs]; destruct Hs; unfold unstoppable; simpl; rewrite ?Hf;
    first [congruence|repeat split; by eauto].
Qed.

Lemma unstoppable_run s s' : unstoppable s → rtc stellium_step s s' → unstoppable s'.
Proof. intros Hs Hr. induction Hr; eauto using unstoppable_step. Qed.

(** One more turn of the loop. *)
Lemma unstoppable_ping s : unstoppable s →
  ∃ s', rtc stellium_step s s' ∧ unstoppable s' ∧ st_pings s' = S (st_pings s)
        ∧ st_owner s' = st_owner s.
Proof.
  destruct s as [starter ping running owner pings]. intros (Hd & Hf & [pc Hp]). simpl in *. subst.
  assert (Hsend : ∃ s', rtc stellium_step (mk_Stellium StDone (Some PSend) false owner pings) s'
    ∧ unstoppable s' ∧ st_pings s' = S pings ∧ st_owner s' = owner).
  { exists (mk_Stellium StDone (Some PTick) false owner (S pings)). split; [|by repeat split].
    apply rtc_once, st_task. by apply (stellium_send (mk_Stellium StDone (Some PSend) false owner pings)). }
  assert (Hcheck : ∃ s', rtc stellium_step (mk_Stellium StDone (Some PCheck) false owner pings) s'
    ∧ unstoppable s' ∧ st_pings s' = S pings ∧ st_owner s' = owner).
  { destruct Hsend as (s' & Hr & ?). exists s'. split; [|done]. eapply rtc_l; [|exact Hr].
    apply st_task. by apply (stellium_check (mk_Stellium StDone (Some PCheck) false owner pings)). }
  destruct pc; [| |exact Hcheck|exact Hsend].
  - exists (mk_Stellium StDone (Some PTick) false owner (S pings)). split; [|by repeat split].
    apply rtc_once, st_task. by apply (stellium_first (mk_Stellium StDone (Some PStart) false owner pings)).
  - destruct Hcheck as (s' & Hr & ?). exists s'. split; [|done]. eapply rtc_l; [|exact Hr].
    apply st_task. by apply (stellium_tick (mk_Stellium StDone (Some PTick) false owner pings)).
Qed.

(** Stellium's pings cannot be stopped: the flag the loop reads as a request
    to stop means the opposite.  Once the task that started the pings has
    ended, a loop that is still there stays there for ever - whoever drops the
    client or asks to stop, from any later state it can send any number of
    further pings. *)
Theorem stellium_never_stops s :
  rtc stellium_step stellium_new s → st_starter s = StDone → is_Some (st_ping s) →
  ∀ s', rtc stellium_step s s' →
  is_Some (st_ping s') ∧
  ∀ n, ∃ s'', rtc stellium_step s' s'' ∧ st_pings s'' = (n + st_pings s')%nat
              ∧ st_owner s'' = st_owner s'.
Proof.
  intros Hr Hd Hp s' Hr'.
  assert (unstoppable s) as Hs.
  { split; [done|]. split; [|done]. revert Hd.
    assert (st_starter stellium_new = StDone → keep_alive_running stellium_new = false) as H0 by done.
    clear Hp Hr'. revert H0. induction Hr as [|s1 s2 s3 Hstep _ IH]; [done|]. intros Hf.
    apply IH. by eapply stellium_flag. }
  pose proof (unstoppable_run s s' Hs Hr') as Hs'. split; [apply Hs'|].
  intros n. induction n as [|n (s2 & Hr2 & Hn & Ho)]; [by exists s'|].
  destruct (unstoppable_ping s2 (unstoppable_run s' s2 Hs' Hr2)) as (s3 & Hr3 & _ & Hn3 & Ho3).
  exists s3. split; [by etrans|]. split; [lia|congruence].
Qed.

(** ** BlockRazor over gRPC: reconnecting *)

(** The health service of a gRPC channel: its status. *)
Class Health (E : Type) := { grpc_health : string → E → result string string * E }.

Section Backoff.
Context `{Build} {E : Type} `{Rpc E} `{!Health E} `{TxSdk} `{!Codec} `{!Wire E}.

(* sdk swqos/blockrazor.rs:41-52 get_health *)
Definition get_health (auth_token : string) : M E string :=
  match ascii_metadata auth_token with
  | Err e => mfail ("Invalid API key format: " +:+ e)
  | Ok _ =>
      let% r := attempt (call (grpc_health auth_token)) in
      match r with
      | Ok status => mret status
      | Err e => mfail ("gRPC health check failed: " +:+ e)
      end
  end.

(* sdk swqos/blockrazor.rs:363-372 reconnect_grpc *)
Definition reconnect_grpc (endpoint : string) : M E () :=
  match grpc_uri endpoint with
  | Err e => mfail ("Invalid gRPC endpoint: " +:+ e)
  | Ok _ =>
      let% r := attempt (call (grpc_connect endpoint)) in
      match r with
      | Ok _ => mret ()
      | Err e => mfail ("Failed to reconnect to gRPC endpoint: " +:+ e)
      end
  end.

(** One turn of the loop after the flag was read: the next delay, in seconds, and whether the
    client was replaced. *)
(* sdk swqos/blockrazor.rs:255-287 start_ping_task, health check *)
Definition grpc_turn (endpoint auth_token : string) (delay : Z) : M E (Z * bool) :=
  let% health := attempt (get_health auth_token) in
  match health with
  | Ok _ => mret (1, false)
  | Err _ =>
      let% _ := effect (sleep_ms (delay * 1000)) in
      let% d := of_ex (mul 64 delay 2) in
      let delay := Z.min d 60 in
      let% r := attempt (reconnect_grpc endpoint) in
      match r with
      | Ok _ => mret (1, true)
      | Err _ => mret (delay, false)
      end
  end.

(** [n] turns from the first delay of one second. *)
(* sdk swqos/blockrazor.rs:235-288 start_ping_task, gRPC loop *)
Fixpoint grpc_turns (n : nat) (endpoint auth_token : string) (delay : Z) : M E Z :=
  match n with
  | O => mret delay
  | S n' =>
      let% r := grpc_turn endpoint auth_token delay in
      grpc_turns n' endpoint auth_token r.1
  end.

(** The delays the loop can reach. *)
Definition backoff_delay (d : Z) : Prop := ∃ n, d = Z.min (2 ^ Z.of_nat n) 60.

Lemma backoff_range d : backoff_delay d → 1 ≤ d ≤ 60.
Proof. intros [n ->]. pose proof (Z.pow_pos_nonneg 2 (Z.of_nat n) ltac:(lia) ltac:(lia)). lia. Qed.

Lemma backoff_next d : backoff_delay d → backoff_delay (Z.min (d * 2) 60).
Proof.
  intros [n ->]. exists (S n). rewrite Nat2Z.inj_succ, Z.pow_succ_r by lia. lia.
Qed.

Lemma backoff_one : backoff_delay 1.
Proof. by exists 0%nat. Qed.

Lemma get_health_total auth e : ∃ r e', get_health auth e = Val (r, e').
Proof.
  unfold get_health, mbind, attempt, call, mfail, mret.
  destruct (ascii_metadata auth); [|by eexists _, _].
  destruct (grpc_health auth e) as [[s|m] e']; by eexists _, _.
Qed.

Lemma reconnect_total endpoint e : ∃ r e', reconnect_grpc endpoint e = Val (r, e').
Proof.
  unfold reconnect_grpc, mbind, attempt, call, mfail, mret.
  destruct (grpc_uri endpoint); [|by eexists _, _].
  destruct (grpc_connect endpoint e) as [[s|m] e']; by eexists _, _.
Qed.

Lemma grpc_turn_run endpoint auth d e : backoff_delay d →
  ∃ d' b e', grpc_turn endpoint auth d e = Val (Ok (d', b), e')
    ∧ (d' = 1 ∨ d' = Z.min (d * 2) 60 ∧ b = false).
Proof.
  intros Hd. pose proof (backoff_range d Hd). unfold grpc_turn, mbind, attempt.
  destruct (get_health_total auth e) as (r & e1 & ->).
  destruct r as [s|m]; [by eexists _, _, _; split; [|left]|].
  unfold effect, of_ex. rewrite mul_ok by uint. cbn [exec_bind].
  destruct (reconnect_total endpoint (sleep_ms (d * 1000) e1)) as (r & e2 & ->).
  destruct r as [u|m']; eexists _, _, _; (split; [done|]); auto.
Qed.

(** The loop never panics or ends by itself, and the time it waits before it
    reconnects doubles from one second to a minute: after any number of turns,
    whatever the service answers, the delay is a power of two below the limit
    or the limit. *)
Theorem backoff_bounded n endpoint auth e :
  ∃ d e', grpc_turns n endpoint auth 1 e = Val (Ok d, e') ∧ backoff_delay d ∧ 1 ≤ d ≤ 60.
Proof.
  assert (∀ d, backoff_delay d → ∃ d' e', grpc_turns n endpoint auth d e = Val (Ok d', e')
    ∧ backoff_delay d') as Hall.
  { revert e. induction n as [|n IH]; intros e d Hd; [by exists d, e|].
    cbn [grpc_turns]. unfold mbind.
    destruct (grpc_turn_run endpoint auth d e Hd) as (d1 & b & e1 & -> & Hd1).
    apply IH. destruct Hd1 as [-> |[-> _]]; [apply backoff_one|by apply backoff_next]. }
  destruct (Hall 1 backoff_one) as (d & e' & Hr & Hd). exists d, e'. auto using backoff_range.
Qed.
End Backoff.

(** ** A client that is kept and no longer pinged *)

Definition at_rest : Keep := mk_Keep StDone None false true true 0 1.

Lemma keepalive_stops_at_birth_witness :
  rtc (keep_step true) keep_new at_rest ∧ owner at_rest = true ∧
  ∀ s', rtc (keep_step true) at_rest s' → (pings s' ≤ 2)%nat.
Proof.
  assert (Hr : rtc (keep_step true) keep_new at_rest).
  { eapply rtc_l; [by apply keep_start, start_spawn|].
    eapply rtc_l; [by apply keep_start, start_store|].
    eapply rtc_l; [by apply keep_ping, ping_first|].
    eapply rtc_l; [by apply keep_drop, drop_clone|].
    apply rtc_once. apply keep_drop. by apply (drop_task (mk_Keep StDone (Some PTick) true true true 1 1)). }
  split; [exact Hr|]. split; [reflexivity|].
  exact (proj1 (keepalive_stops_at_birth true at_rest Hr eq_refl)).
Defined.

Definition pinging : Stellium := mk_Stellium StDone (Some PTick) false true 1.

Lemma stellium_never_stops_witness :
  rtc stellium_step stellium_new pinging ∧
  ∀ s', rtc stellium_step pinging s' → is_Some (st_ping s') ∧
  ∀ n, ∃ s'', rtc stellium_step s' s'' ∧ st_pings s'' = (n + st_pings s')%nat
              ∧ st_owner s'' = st_owner s'.
Proof.
  assert (Hr : rtc stellium_step stellium_new pinging).
  { eapply rtc_l; [by apply st_task, stellium_spawn|].
    eapply rtc_l; [by apply st_task, stellium_first|].
    apply rtc_once, st_drop.
    by apply (stellium_drop_clone (mk_Stellium StDrop (Some PTick) true true 1)). }
  split; [exact Hr|].
  exact (stellium_never_stops pinging Hr eq_refl (mk_is_Some _ _ eq_refl)).
Defined.
