(* ===== verification/Pools.v ===== *)
(** * Pools of reusable buffers and builders
    (sdk swqos/serialization.rs, trading/core/transaction_pool.rs)

    Serialised transactions and transaction builders are kept in queues and
    used again ([Queue]).  What is read from a recycled object is the question here,
    so a buffer is its contents, stale ones included; its reserved memory is
    not modelled. *)

From Stdlib Require Import String.
From S2P Require Import Prelude F64 Solana Effects Queue Client TxBuild Channels Confirm Submit Http Sender.

#[local] Open Scope string_scope.
#[local] Open Scope Z_scope.
#[local] Open Scope list_scope.

(** ** The compile-time tables (sdk perf/compiler_optimization.rs) *)

(* sdk perf/compiler_optimization.rs:446-453 const_hash *)
Definition const_hash (input : Z) : Z :=
  let hash := input in
  let hash := Z.lxor hash (wrap 64 (Z.shiftl hash 13)) in
  let hash := Z.lxor hash (Z.shiftr hash 7) in
  Z.lxor hash (wrap 64 (Z.shiftl hash 17)).

(* sdk perf/compiler_optimization.rs:401-406 CompileTimeOptimizedEventProcessor *)
Record EventProcessor := mk_Processor { hash_table : list Z; route_table : list Z }.

(* sdk perf/compiler_optimization.rs:418-429 precompute_hash_table *)
Definition precompute_hash_table : list Z := map const_hash (seqZ 0 256).
(* sdk perf/compiler_optimization.rs:432-443 precompute_route_table *)
Definition precompute_route_table : list Z := map (λ i, i mod 16) (seqZ 0 1024).

(* sdk perf/compiler_optimization.rs:410-415 new *)
Definition processor_new : EventProcessor := mk_Processor precompute_hash_table precompute_route_table.

(** Without a bound check: [None] outside the table would be undefined behaviour. *)
(* sdk perf/compiler_optimization.rs:457-460 route_event_zero_cost *)
Definition route_event_zero_cost (p : EventProcessor) (event_id : Z) : option Z :=
  route_table p !! Z.to_nat (Z.land event_id 1023).

(* sdk perf/compiler_optimization.rs:464-467 hash_lookup_optimized *)
Definition hash_lookup_optimized (p : EventProcessor) (key : Z) : exec Z :=
  unwrap (hash_table p !! Z.to_nat key).

(** Every byte finds its route and its hash, inside the tables; no two bytes have the same hash. *)
Theorem tables_cover_bytes :
  (∀ b, is_uint 8 b → route_event_zero_cost processor_new b = Some (b mod 16)
                      ∧ hash_lookup_optimized processor_new b = Val (const_hash b))
  ∧ NoDup (hash_table processor_new).
Proof.
  split; [|refine (bool_decide_unpack _ _); vm_compute; exact I].
  assert (Forall (λ b, route_event_zero_cost processor_new b = Some (b mod 16)
    ∧ hash_lookup_optimized processor_new b = Val (const_hash b)) (seqZ 0 256)) as Hall.
  { refine (bool_decide_unpack _ _); vm_compute; exact I. }
  intros b Hb. rewrite Forall_forall in Hall. apply Hall. apply elem_of_seqZ. uint.
Qed.

(** ** The serializer *)

(* sdk swqos/serialization.rs:17-17 SERIALIZER_POOL_SIZE *)
Definition SERIALIZER_POOL_SIZE : nat := Z.to_nat 10000.
(* sdk swqos/serialization.rs:21-21 SERIALIZER_PREWARM_BUFFERS *)
Definition SERIALIZER_PREWARM_BUFFERS : nat := 64.

Abbreviation Buffer := (list Z).

Section Serializer.
Context {Q : Type → Type} `{ArrayQueue Q} `{TxSdk} `{!Codec}.

(** [ZeroAllocSerializer]; [buffer_size] is only reserved memory. *)
Abbreviation Pool := (Q Buffer).

(* sdk swqos/serialization.rs:34-45 new_with_prewarm *)
Definition new_with_prewarm (pool_size prewarm_buffers : nat) : exec Pool :=
  let* pool := queue_new pool_size in
  let prewarm_count := Nat.min prewarm_buffers pool_size in
  Val (fill prewarm_count [] pool).

(* sdk swqos/serialization.rs:30-32 new *)
Definition serializer_new (pool_size : nat) : exec Pool :=
  new_with_prewarm pool_size SERIALIZER_PREWARM_BUFFERS.

Definition clear (buffer : Buffer) : Buffer := [].

(** A buffer that was taken is dropped when the transaction cannot be written. *)
(* sdk swqos/serialization.rs:47-62 serialize_zero_alloc *)
Definition serialize_zero_alloc (tx : VersionedTransaction) : M Pool Buffer := λ pool,
  let '(buffer, pool) := default ([], pool) (queue_pop pool) in
  match bincode tx with
  | Err e => Val (Err e, pool)
  | Ok serialized => let buffer := clear buffer in Val (Ok (buffer ++ serialized), pool)
  end.

(* sdk swqos/serialization.rs:64-67 return_buffer *)
Definition return_buffer (buffer : Buffer) : M Pool () := effect (push_or_drop buffer).

(* sdk swqos/serialization.rs:70-74 get_pool_stats *)
Definition get_pool_stats (pool : Pool) : nat * nat := (queue_len pool, queue_capacity pool).

(** [PooledTxBufGuard], dropped: an empty buffer is not returned. *)
(* sdk swqos/serialization.rs:125-129 drop *)
Definition drop_guard (buffer : Buffer) : M Pool () :=
  if bool_decide (buffer = []) then mret () else return_buffer buffer.

(* sdk swqos/serialization.rs:134-140 serialize_transaction_bincode_sync *)
Definition serialize_transaction_bincode_sync (tx : VersionedTransaction) :
    M Pool (Buffer * Signature) :=
  let% signature := of_ex (unwrap (head (signatures tx))) in
  let% serialized_tx := serialize_zero_alloc tx in
  mret (serialized_tx, signature).

(** The encodings of a buffer. *)
(* sdk swqos/serialization.rs:155-159 serialize_transaction_sync, encoding *)
Definition encode_buffer (b : Buffer) (encoding : UiTransactionEncoding) : result string string :=
  match encoding with
  | Base58 => Ok (base58_encode b)
  | Base64 => Ok (base64_encode b)
  | _ => Err "Unsupported encoding"
  end.

(* sdk swqos/serialization.rs:149-162 serialize_transaction_sync *)
Definition pooled_serialize_transaction (tx : VersionedTransaction)
    (encoding : UiTransactionEncoding) : M Pool (string * Signature) :=
  let% signature := of_ex (unwrap (head (signatures tx))) in
  let% serialized_tx := serialize_zero_alloc tx in
  let% serialized := of_res (encode_buffer serialized_tx encoding) in
  let% _ := return_buffer serialized_tx in
  mret (serialized, signature).

(* sdk swqos/serialization.rs:165-184 serialize_transaction *)
Definition pooled_serialize_transaction_async (tx : VersionedTransaction)
    (encoding : UiTransactionEncoding) : M Pool (string * Signature) :=
  pooled_serialize_transaction tx encoding.

(* sdk swqos/serialization.rs:187-203 serialize_transactions_batch_sync *)
Fixpoint pooled_serialize_batch (txs : list VersionedTransaction)
    (encoding : UiTransactionEncoding) : M Pool (list string) :=
  match txs with
  | [] => mret []
  | tx :: txs' =>
      let% serialized_tx := serialize_zero_alloc tx in
      let% encoded := of_res (encode_buffer serialized_tx encoding) in
      let% _ := return_buffer serialized_tx in
      let% results := pooled_serialize_batch txs' encoding in
      mret (encoded :: results)
  end.

(* sdk swqos/serialization.rs:206-226 serialize_transactions_batch *)
Definition pooled_serialize_batch_async (txs : list VersionedTransaction)
    (encoding : UiTransactionEncoding) : M Pool (list string) :=
  pooled_serialize_batch txs encoding.

(* sdk swqos/serialization.rs:90-100 encode *)
Definition base64_encoder_encode (data : list Z) : option string :=
  match data with
  | [] => Some (base64_encode data)
  | b :: _ => _ ← route_event_zero_cost processor_new b; Some (base64_encode data)
  end.

(* sdk swqos/serialization.rs:103-111 serialize_and_encode *)
Definition serialize_and_encode (tx : VersionedTransaction) : M Pool string :=
  let% serialized := serialize_zero_alloc tx in
  let encoded := base64_encode serialized in
  let% _ := return_buffer serialized in
  mret encoded.

(** Without the pool. *)
(* sdk swqos/common.rs:297-307 serialize_and_encode *)
Definition serialize_bytes_and_encode (transaction : list Z) (encoding : UiTransactionEncoding) :
    result string string := encode_buffer transaction encoding.

(* sdk swqos/common.rs:317-329 serialize_smart_transaction_and_encode *)
Definition serialize_smart_transaction_and_encode (tx : VersionedTransaction)
    (encoding : UiTransactionEncoding) : exec (result string (string * Signature)) :=
  let* signature := unwrap (head (signatures tx)) in
  let? serialized_tx := Val (bincode tx) in
  let? serialized := Val (encode_buffer serialized_tx encoding) in
  Val (Ok (serialized, signature)).

(** ** The pool is invisible *)

Lemma serialize_zero_alloc_eq tx (pool : Pool) :
  serialize_zero_alloc tx pool = Val (bincode tx, taken pool).
Proof.
  unfold serialize_zero_alloc. destruct (queue_pop pool) as [[b p]|]; simpl;
    by destruct (bincode tx).
Qed.

Lemma pooled_batch_run txs encoding : ∀ pool : Pool,
  bounded pool → (0 < queue_capacity pool)%nat →
  ∃ pool', pooled_serialize_batch txs encoding pool
           = Val (Sender.serialize_transactions_batch_sync txs encoding, pool')
    ∧ queue_capacity pool' = queue_capacity pool
    ∧ queue_len pool' =
        if is_ok (Sender.serialize_transactions_batch_sync txs encoding)
        then Nat.max (Nat.min 1 (length txs)) (queue_len pool)
        else pred (queue_len pool).
Proof.
  induction txs as [|tx txs IH]; intros pool Hb Hc; [by exists pool|].
  cbn [pooled_serialize_batch Sender.serialize_transactions_batch_sync length].
  unfold mbind at 1. rewrite serialize_zero_alloc_eq.
  destruct (pop_len pool) as [Hl Hcap].
  destruct (bincode tx) as [b|e]; [|by exists (taken pool)].
  destruct (take_return b pool Hb Hc) as (Hl1 & Hc1 & Hb1).
  destruct (IH (push_or_drop b (taken pool)) Hb1 ltac:(lia)) as (pool' & Hrun & Hc' & Hl').
  unfold mbind, of_res, return_buffer, effect, mret.
  destruct encoding; cbn [encode_buffer]; [rewrite Hrun..|by exists (taken pool)];
    (destruct (Sender.serialize_transactions_batch_sync txs _) as [rs|e]; exists pool';
     (split; [done|]); cbn [is_ok] in *; rewrite Hc', Hl', Hl1, Hc1; (split; [done|lia])).
Qed.

(** C36. Serialising a batch through the pool gives what serialising it with fresh
    memory gives, whatever stale buffers the pool holds: success, text and
    errors are those of the specification.  The pool never grows past its
    capacity and gets every buffer back when the batch succeeds; a batch that
    fails, on an encoding that is not supported or a transaction that cannot
    be written, loses exactly one. *)
Theorem pooled_batch_refines txs encoding (pool : Pool) :
  bounded pool → (0 < queue_capacity pool)%nat →
  ∃ pool', pooled_serialize_batch txs encoding pool
           = Val (Sender.serialize_transactions_batch_sync txs encoding, pool')
    ∧ bounded pool'
    ∧ queue_len pool' =
        if is_ok (Sender.serialize_transactions_batch_sync txs encoding)
        then Nat.max (Nat.min 1 (length txs)) (queue_len pool)
        else pred (queue_len pool).
Proof.
  intros Hb Hc. destruct (pooled_batch_run txs encoding pool Hb Hc) as (pool' & Hr & Hc' & Hl).
  exists pool'. split; [done|]. split; [|done]. unfold bounded in *. rewrite Hc', Hl.
  case_match; lia.
Qed.

(** One transaction: the channels' view of it is the pooled one. *)
Theorem pooled_transaction_refines {E} `{Confirm E} `{TxErrorText} `{!Wire E} tx encoding
    (pool : Pool) (e : E) :
  match pooled_serialize_transaction tx encoding pool with
  | Val (r, _) => Http.serialize_transaction_sync tx encoding e = Val (as_error r, e)
  | Panic => Http.serialize_transaction_sync tx encoding e = Panic
  end.
Proof.
  unfold pooled_serialize_transaction, Http.serialize_transaction_sync, mbind, wbind, of_ex, wex.
  destruct (unwrap (head (signatures tx))) as [sig|]; [|done]. cbn [exec_bind].
  rewrite serialize_zero_alloc_eq. unfold wres, of_res.
  destruct (bincode tx) as [b|m]; [|done]. by destruct encoding.
Qed.

(** With and without the pool, the same text and the same signature. *)
Theorem pooled_is_smart tx encoding (pool : Pool) :
  (let* r := pooled_serialize_transaction tx encoding pool in Val r.1)
  = serialize_smart_transaction_and_encode tx encoding.
Proof.
  unfold pooled_serialize_transaction, serialize_smart_transaction_and_encode, mbind, of_ex, of_res.
  destruct (unwrap (head (signatures tx))) as [sig|]; [|done]. cbn [exec_bind].
  rewrite serialize_zero_alloc_eq. destruct (bincode tx) as [b|m]; [|done]. cbn [try_bind].
  by destruct (encode_buffer b encoding).
Qed.

(** A new pool is prewarmed, within its capacity. *)
Theorem new_with_prewarm_spec pool_size prewarm :
  match new_with_prewarm pool_size prewarm with
  | Val pool => get_pool_stats pool = (Nat.min prewarm pool_size, pool_size) ∧ bounded pool
  | Panic => pool_size = 0%nat
  end.
Proof.
  unfold new_with_prewarm. destruct (queue_new pool_size) as [q|] eqn:Hq; simpl.
  - apply queue_new_spec in Hq as [He Hc].
    assert (queue_len q = 0%nat) as Hl by (unfold queue_len; by rewrite He).
    assert (bounded q) as Hb by (unfold bounded; lia).
    destruct (fill_len ([] : Buffer) (Nat.min prewarm pool_size) q Hb) as [Hfl Hfc].
    unfold get_pool_stats, bounded. rewrite Hfl, Hfc, Hl, Hc. split; [f_equal; lia|lia].
  - by apply queue_new_panics in Hq.
Qed.
End Serializer.

(** ** Threads on one serializer *)

Section Threads.
Context {Q : Type → Type} `{ArrayQueue Q} `{TxSdk} `{!Codec}.

(** The pool and the buffers handed out, each with the transaction it was made for. *)
Record Serializer := mk_Serializer {
  ser_pool : Q Buffer;
  ser_held : list (VersionedTransaction * Buffer);
}.

(** The queue's operations are atomic and a buffer is filled by its owner alone: taking and
    filling is one step, giving back or dropping another. *)
(* sdk swqos/serialization.rs:47-67 serialize_zero_alloc, return_buffer *)
Inductive serializer_step : Serializer → Serializer → Prop :=
| serialize_ok s tx b pool :
    serialize_zero_alloc tx (ser_pool s) = Val (Ok b, pool) →
    serializer_step s (mk_Serializer pool ((tx, b) :: ser_held s))
| serialize_err s tx e pool :
    serialize_zero_alloc tx (ser_pool s) = Val (Err e, pool) →
    serializer_step s (mk_Serializer pool (ser_held s))
| buffer_returned s h1 tx b h2 pool :
    ser_held s = h1 ++ (tx, b) :: h2 →
    return_buffer b (ser_pool s) = Val (Ok (), pool) →
    serializer_step s (mk_Serializer pool (h1 ++ h2))
| buffer_dropped s h1 tx b h2 :
    ser_held s = h1 ++ (tx, b) :: h2 →
    serializer_step s (mk_Serializer (ser_pool s) (h1 ++ h2)).

Definition serializer_ok (n : nat) (s : Serializer) : Prop :=
  queue_capacity (ser_pool s) = n ∧ bounded (ser_pool s)
  ∧ Forall (λ h, bincode h.1 = Ok h.2) (ser_held s).

Lemma serializer_step_ok n s s' : serializer_ok n s → serializer_step s s' → serializer_ok n s'.
Proof.
  intros (Hc & Hb & Hf) Hs. destruct (pop_len (ser_pool s)) as [Hl Hcap].
  assert (bounded (taken (ser_pool s))) as Ht by (unfold bounded in *; rewrite Hl, Hcap; lia).
  destruct Hs as [s tx b pool Hz|s tx e pool Hz|s h1 tx b h2 pool Hh Hr|s h1 tx b h2 Hh];
    [rewrite serialize_zero_alloc_eq in Hz; injection Hz as Hz <-..
    |injection Hr as <-; rewrite Hh in Hf|rewrite Hh in Hf]; unfold serializer_ok; cbn.
  - rewrite Hcap. auto.
  - rewrite Hcap. auto.
  - destruct (push_or_drop_len b _ Hb) as [_ ->]. apply Forall_app in Hf as [? [_ ?]%Forall_cons].
    split; [done|]. split; [by apply push_or_drop_bounded|by apply Forall_app].
  - apply Forall_app in Hf as [? [_ ?]%Forall_cons]. split; [done|]. split; [done|by apply Forall_app].
Qed.

(** However threads serialise, return and drop buffers on one pool, the pool
    keeps its capacity and never holds more, and every buffer a thread has
    been given contains its own transaction and nothing else. *)
Theorem serializer_threads_safe n prewarm pool s :
  new_with_prewarm n prewarm = Val pool →
  rtc serializer_step (mk_Serializer pool []) s →
  queue_capacity (ser_pool s) = n ∧ bounded (ser_pool s)
  ∧ ∀ tx b, (tx, b) ∈ ser_held s → bincode tx = Ok b.
Proof.
  intros Hn Hr. assert (serializer_ok n (mk_Serializer pool [])) as H0'.
  { pose proof (new_with_prewarm_spec n prewarm) as Hs. rewrite Hn in Hs.
    destruct Hs as [[= _ Hc] Hb]. by split. }
  assert (serializer_ok n s) as (Hc & Hb & Hf).
  { revert H0'. generalize dependent (mk_Serializer pool []). intros s0 Hs H0'.
    induction Hs; eauto using serializer_step_ok. }
  split; [done|]. split; [done|]. intros tx b Hin. rewrite Forall_forall in Hf.
  by apply (Hf (tx, b)).
Qed.
End Threads.

(** ** The builders of transactions *)

(* sdk trading/core/transaction_pool.rs:14-14 TX_BUILDER_POOL_CAP *)
Definition TX_BUILDER_POOL_CAP : nat := Z.to_nat 1000.
(* sdk trading/core/transaction_pool.rs:16-16 PARALLEL_SENDER_COUNT *)
Definition PARALLEL_SENDER_COUNT : nat := 18.
(* sdk trading/core/transaction_pool.rs:18-18 TX_BUILDER_POOL_PREFILL *)
Definition TX_BUILDER_POOL_PREFILL : nat := 64.

(** [v0::MessageAddressTableLookup]. *)
Record TableLookup := mk_Lookup {
  lookup_key : Pubkey;
  writable_indexes : list Z;
  readonly_indexes : list Z;
}.

(* sdk trading/core/transaction_pool.rs:31-36 PreallocatedTxBuilder *)
Record TxBuilder := mk_Builder {
  b_instructions : list Instruction;
  b_lookup_tables : list TableLookup;
}.

(* sdk trading/core/transaction_pool.rs:39-44 new *)
Definition builder_new : TxBuilder := mk_Builder [] [].
(* sdk trading/core/transaction_pool.rs:48-51 reset *)
Definition builder_reset (b : TxBuilder) : TxBuilder := mk_Builder [] [].

Section Builders.
Context {Q : Type → Type} `{ArrayQueue Q} `{TxSdk}.

(** The message, and the builder as it is left. *)
(* sdk trading/core/transaction_pool.rs:79-104 build_zero_alloc *)
Definition builder_build (b : TxBuilder) (payer : Pubkey) (instructions : list Instruction)
    (address_lookup_table_account : option AddressLookupTableAccount) (recent_blockhash : Hash) :
    exec (VersionedMessage * TxBuilder) :=
  let b := builder_reset b in
  let b := mk_Builder (b_instructions b ++ instructions) (b_lookup_tables b) in
  match address_lookup_table_account with
  | Some alt =>
      let* m := unwrap_res (v0_try_compile payer (b_instructions b) alt recent_blockhash) in
      Val (V0 m, b)
  | None => Val (Legacy (legacy_new_with_blockhash payer (b_instructions b) recent_blockhash), b)
  end.

(* sdk trading/core/transaction_pool.rs:108-115 TX_BUILDER_POOL *)
Definition tx_builder_pool : exec (Q TxBuilder) :=
  let* pool := queue_new TX_BUILDER_POOL_CAP in
  let prefill := Nat.max TX_BUILDER_POOL_PREFILL PARALLEL_SENDER_COUNT in
  Val (fill prefill builder_new pool).

(* sdk trading/core/transaction_pool.rs:119-121 acquire_builder *)
Definition acquire_builder : M (Q TxBuilder) TxBuilder := ask (λ pool,
  default (builder_new, pool) (queue_pop pool)).

(* sdk trading/core/transaction_pool.rs:125-128 release_builder *)
Definition release_builder (b : TxBuilder) : M (Q TxBuilder) () :=
  effect (push_or_drop (builder_reset b)).

(** [TxBuilderGuard]: what is done when it is dropped. *)
(* sdk trading/core/transaction_pool.rs:151-155 drop *)
Definition builder_guard_drop (guard : option TxBuilder) : M (Q TxBuilder) () :=
  match guard with Some b => release_builder b | None => mret () end.

(** The middlewares come before the builder; a message that does not compile
    or cannot be signed panics. *)
(* sdk trading/common/transaction_builder.rs:80-113 build_versioned_transaction *)
Definition pooled_build_versioned_transaction (payer : Pubkey) (instructions : list Instruction)
    (address_lookup_table_account : option AddressLookupTableAccount) (blockhash : Hash)
    (middleware_manager : option MiddlewareManager) (protocol_name : string) (is_buy : bool) :
    M (Q TxBuilder) VersionedTransaction :=
  let% full_instructions := of_res
    match middleware_manager with
    | Some m => apply_middlewares_process_full_instructions m instructions protocol_name is_buy
    | None => Ok instructions
    end in
  let% builder := acquire_builder in
  let% r := of_ex (builder_build builder payer full_instructions address_lookup_table_account
                     blockhash) in
  let '(versioned_msg, builder) := r in
  let% signature := of_ex (unwrap_res (try_sign payer (message_of versioned_msg))) in
  let tx := mk_Tx [signature] versioned_msg in
  let% _ := release_builder builder in
  mret tx.

Lemma builder_build_eq b payer ixs alt hash :
  builder_build b payer ixs alt hash
  = (let* m := build_zero_alloc payer ixs alt hash in Val (m, mk_Builder ixs [])).
Proof.
  unfold build_zero_alloc, builder_build. cbn [builder_reset b_instructions b_lookup_tables app].
  destruct alt as [a|]; [|done]. by destruct (unwrap_res (v0_try_compile payer ixs a hash)).
Qed.

Lemma acquire_builder_eq (pool : Q TxBuilder) :
  ∃ b, acquire_builder pool = Val (Ok b, taken pool).
Proof. unfold acquire_builder, ask. destruct (queue_pop pool) as [[b p]|]; simpl; eauto. Qed.

Lemma pooled_build_eq payer ixs alt hash mm name is_buy (pool : Q TxBuilder) :
  pooled_build_versioned_transaction payer ixs alt hash mm name is_buy pool
  = (let* r := TxBuild.build_versioned_transaction payer ixs alt hash mm name is_buy in
     Val (r, if is_ok r then push_or_drop builder_new (taken pool) else pool)).
Proof.
  unfold TxBuild.build_versioned_transaction, pooled_build_versioned_transaction.
  set (full := match mm with Some m => _ m ixs name is_buy | None => Ok ixs end).
  replace (match mm with
    | Some m => Val (apply_middlewares_process_full_instructions m ixs name is_buy)
    | None => Val (Ok ixs) end) with (Val full) by (by destruct mm).
  unfold mbind, of_res, of_ex. destruct full as [ixs'|e]; [|done]. cbn [try_bind].
  destruct (acquire_builder_eq pool) as [b ->]. rewrite builder_build_eq.
  destruct (build_zero_alloc payer ixs' alt hash) as [m|]; [|done]. cbn [exec_bind].
  by destruct (unwrap_res (try_sign payer (message_of m))).
Qed.

(** Building through the pool is building with a new builder, whatever an
    earlier transaction left in the one that is used: same transaction, same
    errors, same panics.  A transaction that is built gives its builder back
    empty; a middleware's refusal does not touch the pool. *)
Theorem pooled_build_refines payer ixs alt hash mm name is_buy (pool : Q TxBuilder) :
  bounded pool → (0 < queue_capacity pool)%nat →
  match pooled_build_versioned_transaction payer ixs alt hash mm name is_buy pool with
  | Val (r, pool') =>
      TxBuild.build_versioned_transaction payer ixs alt hash mm name is_buy = Val r
      ∧ bounded pool'
      ∧ queue_len pool' = (if is_ok r then Nat.max 1 (queue_len pool) else queue_len pool)
  | Panic => TxBuild.build_versioned_transaction payer ixs alt hash mm name is_buy = Panic
  end.
Proof.
  intros Hb Hc. rewrite pooled_build_eq.
  destruct (TxBuild.build_versioned_transaction _ _ _ _ _ _ _) as [r|]; [|done].
  cbn [exec_bind]. destruct (take_return builder_new pool Hb Hc) as (Hl & _ & Hb').
  split; [done|]. by destruct (is_ok r).
Qed.
End Builders.

(** ** A pool with stale buffers *)

Definition stale : ListQueue Buffer := ([[66; 66; 66]; [67]], 3%nat).

Definition toy_tx : @VersionedTransaction toy_tx_sdk :=
  @mk_Tx toy_tx_sdk ["one"; "two"] (@Legacy toy_tx_sdk (11, [], 5)).

Lemma pooled_batch_refines_witness :
  ∃ pool', @pooled_serialize_batch ListQueue list_queue toy_tx_sdk toy_codec [toy_tx; toy_tx]
             JsonParsed stale = Val (Err "Unsupported encoding", pool')
    ∧ bounded pool' ∧ queue_len pool' = 1%nat.
Proof.
  refine (@pooled_batch_refines ListQueue list_queue toy_tx_sdk toy_codec [toy_tx; toy_tx]
    JsonParsed stale _ _).
  - unfold bounded. cbn. lia.
  - cbn. lia.
Defined.
