(* ===== verification/Log.v ===== *)
(** * The log (sdk common/sdk_log.rs)

    The error of a submission is shortened for the log: the message of a JSON
    answer, or the contents of a quoted text.  The lines of a trade's timing
    are values: a line with its label and its numbers of milliseconds, as
    doubles; their printing with four decimals is the standard library's. *)

From Stdlib Require Import Ascii String.
From S2P Require Import Prelude F64 Solana Effects Text GasFee TxBuild Http.

#[local] Open Scope string_scope.
#[local] Open Scope Z_scope.

Definition dquote : ascii := "034"%char.
Definition escaped_dquote : string := String "\" (String dquote EmptyString).

Section Log.
Context `{TxSdk} `{!Codec}.

(** Between the quotes, when there is no brace. *)
(* sdk common/sdk_log.rs:27-33 extract_swqos_error_message, quoted *)
Definition unquoted (s : string) : option string :=
  if (starts_with dquote s && ends_with dquote s && (2 <=? String.length s)%nat)%bool then
    let inner := substring 1 (String.length s - 2) s in
    if contains "{" inner then None
    else Some (replace_all (String.length inner) escaped_dquote (String dquote EmptyString) inner)
  else None.

Definition is_object (v : Json) : bool := match v with JObject _ => true | _ => false end.

(** The field [error] when it is an object, or the value itself. *)
(* sdk common/sdk_log.rs:37-49 extract_swqos_error_message, JSON *)
Definition json_message (v : Json) : option string :=
  let obj :=
    match json_get "error" v with
    | Some e => if is_object e then Some e else if is_object v then Some v else None
    | None => if is_object v then Some v else None
    end in
  o ← obj;
  match json_get "message" o ≫= as_str with
  | Some m => Some m
  | None => json_get "data" o ≫= as_str
  end.

(* sdk common/sdk_log.rs:22-52 extract_swqos_error_message *)
Definition extract_swqos_error_message (s : string) : string :=
  let s := trim_str s in
  if String.eqb s "" then ""
  else
    match unquoted s with
    | Some m => m
    | None =>
        if starts_with "{" s
        then default s (v ← json_from_str s; json_message v)
        else s
    end.

(** What the log shows of an error: of a JSON answer the message of its error,
    or else its own message or data; of text in quotes what is between them;
    of anything else, JSON that cannot be read included, the trimmed text. *)
Theorem extract_message_spec s :
  let t := trim_str s in
  match json_from_str t with
  | Some v =>
      starts_with "{" t = true → extract_swqos_error_message s = default t (json_message v)
  | None => unquoted t = None → extract_swqos_error_message s = t
  end.
Proof.
  intros t. unfold extract_swqos_error_message. fold t.
  destruct (String.eqb_spec t "") as [Ht|Ht].
  { rewrite Ht. destruct (json_from_str ""); [done|by intros _]. }
  destruct (json_from_str t) as [v|] eqn:Hv.
  - intros Hb. assert (unquoted t = None) as ->.
    { unfold unquoted. destruct t as [|c t']; [done|]. simpl in Hb.
      apply Ascii.eqb_eq in Hb as ->. done. }
    by rewrite Hb.
  - intros ->. by destruct (starts_with "{" t).
Qed.

(** The message of a JSON-RPC error is taken whole. *)
Theorem rpc_error_message fields m e :
  json_get "error" (JObject fields) = Some e → is_object e = true →
  json_get "message" e = Some (JString m) → json_message (JObject fields) = Some m.
Proof. intros He Ho Hm. unfold json_message. rewrite He, Ho. cbn. by rewrite Hm. Qed.
End Log.

(** ** The switch and the labels *)

(* sdk common/sdk_log.rs:54-54 SDK_LOG_ENABLED *)
Definition SDK_LOG_ENABLED : bool := true.
(* sdk common/sdk_log.rs:57-57 SWQOS_LABEL_WIDTH *)
Definition SWQOS_LABEL_WIDTH : nat := 12.
(* sdk common/sdk_log.rs:61-63 sdk_log_enabled *)
Definition sdk_log_enabled {E} (switch : E → bool) : M E bool := ask (λ e, (switch e, e)).
(* sdk common/sdk_log.rs:66-68 set_sdk_log_enabled *)
Definition set_sdk_log_enabled {E} (store : bool → E → E) (enabled : bool) : M E () :=
  effect (store enabled).

(* sdk swqos/mod.rs:131-149 as_str *)
Definition swqos_as_str (s : SwqosType) : string :=
  match s with
  | Jito => "Jito" | NextBlock => "NextBlock" | ZeroSlot => "ZeroSlot" | Temporal => "Temporal"
  | Bloxroute => "Bloxroute" | Node1 => "Node1" | FlashBlock => "FlashBlock"
  | BlockRazor => "BlockRazor" | Astralane => "Astralane" | Stellium => "Stellium"
  | Lightspeed => "Lightspeed" | Soyas => "Soyas" | Speedlanding => "Speedlanding"
  | Helius => "Helius" | SwDefault => "Default"
  end.

(** Every channel has a label of its own that fits its column, and one channel
    fills it. *)
Theorem labels_fit :
  (∀ s t, swqos_as_str s = swqos_as_str t → s = t)
  ∧ (∀ s, (String.length (swqos_as_str s) ≤ SWQOS_LABEL_WIDTH)%nat)
  ∧ ∃ s, String.length (swqos_as_str s) = SWQOS_LABEL_WIDTH.
Proof.
  split; [by intros [] []|]. split; [intros []; vm_compute; lia|]. by exists Speedlanding.
Qed.

(** ** Durations *)

Inductive Elapsed := Micros (x : f64) | Millis (x : f64).

(** [Duration::as_secs_f64]. *)
Definition as_secs_f64 (secs nanos : Z) : f64 :=
  fadd (f64_of_Z secs) (fdiv (f64_of_Z nanos) (f64_of_Z (10 ^ 9))).

(* sdk common/sdk_log.rs:11-18 format_elapsed *)
Definition format_elapsed (secs nanos : Z) : Elapsed :=
  let secs := as_secs_f64 secs nanos in
  if f_ltb secs (f64_lit 1 3) then Micros (fmul secs (f64_of_Z 1000000))
  else Millis (fmul secs (f64_of_Z 1000)).

(** ** Lines of a submission *)

Inductive SubmissionLine :=
| Submitted (provider trade_type : string) (elapsed : Elapsed)
| SubmissionFailed (provider trade_type : string) (elapsed : Elapsed) (error : string).

(* sdk common/sdk_log.rs:72-84 log_swqos_submitted *)
Definition log_swqos_submitted (provider trade_type : string) (secs nanos : Z) : SubmissionLine :=
  Submitted provider trade_type (format_elapsed secs nanos).

(* sdk common/sdk_log.rs:153-168 log_swqos_submission_failed *)
Definition log_swqos_submission_failed `{TxSdk} `{!Codec} (provider trade_type : string)
    (secs nanos : Z) (err : string) : SubmissionLine :=
  SubmissionFailed provider trade_type (format_elapsed secs nanos) (extract_swqos_error_message err).

(** 999.999 microseconds are shown as such, a millisecond in milliseconds. *)
Theorem units_of_lines provider t :
  (∃ x, log_swqos_submitted provider t 0 999999 = Submitted provider t (Micros x))
  ∧ ∃ x, log_swqos_submitted provider t 0 1000000 = Submitted provider t (Millis x).
Proof.
  unfold log_swqos_submitted.
  split; eexists; apply f_equal; vm_compute; reflexivity.
Qed.

(** ** The timing of a trade *)

#[local] Open Scope list_scope.

Inductive TimingLine :=
| BuildInstructions (dir : string) (ms : f64)
| BeforeSubmit (dir : string) (ms : f64)
| SubmitDone (label dir : string) (submit : f64) (confirmed : option f64) (total : f64).

(** [(b - a) as f64 / 1000.0] of moments in microseconds. *)
Definition ms_of (us : Z) : f64 := fdiv (f64_of_Z us) (f64_of_Z 1000).

Section Timing.
Context `{Build}.

Definition interval (from to : Z) : exec Z := ck_signed 64 (to - from).

Definition at_moment (from : Z) (to : option Z) (line : f64 → TimingLine) : exec (list TimingLine) :=
  match to with
  | Some to => let* us := interval from to in Val [line (ms_of us)]
  | None => Val []
  end.

Fixpoint confirmed_lines (dir : string) (start confirm : Z) (total : f64)
    (timings : list (SwqosType * Z)) : exec (list TimingLine) :=
  match timings with
  | [] => Val []
  | (t, done) :: timings =>
      let* submit := interval start done in
      let* confirmed := interval done confirm in
      let* l := confirmed_lines dir start confirm total timings in
      Val (SubmitDone (swqos_as_str t) dir (ms_of (Z.max submit 0)) (Some (ms_of (Z.max confirmed 0))) total :: l)
  end.

Fixpoint submitted_lines (dir : string) (start : Z) (timings : list (SwqosType * Z)) :
    exec (list TimingLine) :=
  match timings with
  | [] => Val []
  | (t, done) :: timings =>
      let* submit := interval start done in
      let* l := submitted_lines dir start timings in
      let ms := ms_of (Z.max submit 0) in
      Val (SubmitDone (swqos_as_str t) dir ms None ms :: l)
  end.

(* sdk common/sdk_log.rs:89-148 print_sdk_timing_block *)
Definition print_sdk_timing_block (dir : string) (start build_end before_submit : option Z)
    (submit_timings : list (SwqosType * Z)) (confirm : option Z) : exec (list TimingLine) :=
  match start with
  | None => Val []
  | Some start =>
      let* l1 := at_moment start build_end (BuildInstructions dir) in
      let* l2 := at_moment start before_submit (BeforeSubmit dir) in
      let* l3 := match confirm with
                 | Some confirm =>
                     let* total := interval start confirm in
                     confirmed_lines dir start confirm (ms_of total) submit_timings
                 | None => submitted_lines dir start submit_timings
                 end in
      Val (l1 ++ l2 ++ l3)
  end.

(** A clock reading: microseconds since 1970. *)
Definition moment (us : Z) : Prop := 0 ≤ us < 2 ^ 62.

Lemma interval_ok a b : moment a → moment b → interval a b = Val (b - a).
Proof. intros Ha Hb. apply ck_signed_ok. unfold is_sint, moment in *. simpl. lia. Qed.

Lemma confirmed_lines_eq dir start confirm total l :
  moment start → moment confirm → Forall (λ x, moment x.2) l →
  confirmed_lines dir start confirm total l
  = Val (map (λ x, SubmitDone (swqos_as_str x.1) dir (ms_of (Z.max (x.2 - start) 0))
                     (Some (ms_of (Z.max (confirm - x.2) 0))) total) l).
Proof.
  intros Hs Hc. induction 1 as [|[t d] l Hd _ IH]; [done|]. simpl in *.
  by rewrite !interval_ok, IH by done.
Qed.

Lemma submitted_lines_eq dir start l :
  moment start → Forall (λ x, moment x.2) l →
  submitted_lines dir start l
  = Val (map (λ x, let ms := ms_of (Z.max (x.2 - start) 0) in
                   SubmitDone (swqos_as_str x.1) dir ms None ms) l).
Proof.
  intros Hs. induction 1 as [|[t d] l Hd _ IH]; [done|]. simpl in *. by rewrite interval_ok, IH by done.
Qed.

(** For readings of a clock no line overflows.  There is a line for the
    instructions and one for the submission if they were timed, and one per
    channel in the order of their completion; where a trade is confirmed after
    a channel's submission, the two parts of that line's microseconds add up to
    the total. *)
Theorem timing_block_spec dir start build_end before_submit l confirm :
  moment start → from_option moment True build_end → from_option moment True before_submit →
  Forall (λ x, moment x.2) l → from_option moment True confirm →
  ∃ lines, print_sdk_timing_block dir (Some start) build_end before_submit l confirm = Val lines
  ∧ length lines = ((if build_end is Some _ then 1 else 0) + (if before_submit is Some _ then 1 else 0)
                    + length l)%nat
  ∧ ∀ t d, (t, d) ∈ l →
    match confirm with
    | Some c => ∃ submit confirmed,
        SubmitDone (swqos_as_str t) dir (ms_of submit) (Some (ms_of confirmed)) (ms_of (c - start)) ∈ lines
        ∧ (start ≤ d ≤ c → submit + confirmed = c - start)
    | None => SubmitDone (swqos_as_str t) dir (ms_of (Z.max (d - start) 0)) None
                (ms_of (Z.max (d - start) 0)) ∈ lines
    end.
Proof.
  intros Hs Hb Hbs Hl Hc. unfold print_sdk_timing_block.
  assert (Hm : ∀ (o : option Z) line, from_option moment True o → ∃ ls, at_moment start o line = Val ls
    ∧ length ls = (if o is Some _ then 1 else 0)%nat).
  { intros [x|] line Hx; simpl in *; [rewrite interval_ok by done|]; by eexists. }
  destruct (Hm build_end (BuildInstructions dir) Hb) as (l1 & -> & Hl1).
  destruct (Hm before_submit (BeforeSubmit dir) Hbs) as (l2 & -> & Hl2). simpl.
  destruct confirm as [c|]; simpl in *.
  - rewrite interval_ok by done. simpl. rewrite confirmed_lines_eq by done. simpl.
    eexists. split; [done|]. split; [rewrite !length_app, length_map; lia|]. intros t d Hd.
    exists (Z.max (d - start) 0), (Z.max (c - d) 0). split; [|lia].
    rewrite !elem_of_app. right; right. apply list_elem_of_fmap. by exists (t, d).
  - rewrite submitted_lines_eq by done. simpl.
    eexists. split; [done|]. split; [rewrite !length_app, length_map; lia|]. intros t d Hd.
    rewrite !elem_of_app. right; right. apply list_elem_of_fmap. by exists (t, d).
Qed.
End Timing.

Lemma timing_block_spec_witness :
  ∃ lines, print_sdk_timing_block (H := debug) "Buy" (Some 1000) (Some 1500) None
      [(Jito, 3000); (Helius, 2500)] (Some 9000) = Val lines
  ∧ length lines = 3%nat.
Proof.
  destruct (timing_block_spec (H := debug) "Buy" 1000 (Some 1500) None
    [(Jito, 3000); (Helius, 2500)] (Some 9000)) as (lines & Hr & Hl & _);
    [split; lia|split; simpl; lia|exact I|repeat constructor; simpl; lia|split; simpl; lia|].
  exists lines. split; [exact Hr|exact Hl].
Defined.
