(* ===== verification/Compiler.v ===== *)
(** * Compiler settings and compile-time helpers
    (sdk perf/compiler_optimization.rs)

    The settings of an optimised build, generated as flags, variables and a
    profile, and the vectorised sum.  The tables of the event processor are
    in [Pools]. *)

From Stdlib Require Import Ascii String.
From S2P Require Import Prelude F64 Solana Effects.

#[local] Open Scope string_scope.
#[local] Open Scope Z_scope.
#[local] Open Scope list_scope.

(** ** Settings *)

(* sdk perf/compiler_optimization.rs:55-68 OptLevel *)
Inductive OptLevel := OptNone | OptLess | OptDefault | Aggressive | OptSize | OptSizeZ.
(* sdk perf/compiler_optimization.rs:72-81 CodeModel *)
Inductive CodeModel := CodeSmall | CodeKernel | CodeMedium | CodeLarge.

(* sdk perf/compiler_optimization.rs:32-51 OptimizationFlags *)
Record OptimizationFlags := mk_Flags {
  opt_level : OptLevel;
  enable_lto : bool;
  enable_pgo : bool;
  target_cpu : string;
  target_features : list string;
  code_model : CodeModel;
  debug_info : bool;
  incremental : bool;
  codegen_units : option Z;
}.

(* sdk perf/compiler_optimization.rs:85-102 CodegenConfig *)
Record CodegenConfig := mk_Codegen {
  panic_abort : bool;
  cg_overflow_checks : bool;
  fat_lto : bool;
  enable_simd : bool;
  enable_vectorization : bool;
  enable_loop_unrolling : bool;
  max_unroll_count : Z;
  enable_branch_prediction : bool;
}.

(* sdk perf/compiler_optimization.rs:106-115 InlineStrategy *)
Record InlineStrategy := mk_Inline {
  inline_threshold : Z;
  force_inline_hot_paths : bool;
  no_inline_cold_paths : bool;
  cross_crate_inline : bool;
}.

(** [CompilerOptimizer], without its counters. *)
(* sdk perf/compiler_optimization.rs:19-28 CompilerOptimizer *)
Record CompilerOptimizer := mk_Optimizer {
  optimization_flags : OptimizationFlags;
  codegen_config : CodegenConfig;
  inline_strategy : InlineStrategy;
}.

(** On x86-64. *)
(* sdk perf/compiler_optimization.rs:278-304 ultra_performance *)
Definition flags_ultra_performance : OptimizationFlags :=
  mk_Flags Aggressive true false "native"
    ["+sse4.2"; "+avx"; "+avx2"; "+fma"; "+bmi1"; "+bmi2"; "+lzcnt"; "+popcnt"]
    CodeSmall false false (Some 1).

(* sdk perf/compiler_optimization.rs:309-320 ultra_performance *)
Definition codegen_ultra_performance : CodegenConfig :=
  mk_Codegen true false true true true true 16 true.

(* sdk perf/compiler_optimization.rs:325-332 aggressive *)
Definition inline_aggressive : InlineStrategy := mk_Inline 1000 true true true.

(* sdk perf/compiler_optimization.rs:132-139 new *)
Definition optimizer_new : CompilerOptimizer :=
  mk_Optimizer flags_ultra_performance codegen_ultra_performance inline_aggressive.

(* sdk perf/compiler_optimization.rs:351-361 ProfileConfig *)
Record ProfileConfig := mk_Profile {
  pr_opt_level : Z;
  pr_lto : bool;
  pr_codegen_units : Z;
  pr_panic : string;
  pr_overflow_checks : bool;
  pr_debug : bool;
  pr_debug_assertions : bool;
  pr_rpath : bool;
  pr_strip : bool;
}.

(* sdk perf/compiler_optimization.rs:337-341 CompilerConfig *)
Record CompilerConfig := mk_CompilerConfig {
  rustflags : list string;
  env_vars : gmap string string;
  cargo_config : ProfileConfig;
}.

(** The debug form of a code model, in lower case. *)
Definition code_model_text (m : CodeModel) : string :=
  match m with
  | CodeSmall => "small" | CodeKernel => "kernel" | CodeMedium => "medium" | CodeLarge => "large"
  end.

(* sdk perf/compiler_optimization.rs:145-209 generate_ultra_performance_config, flags *)
Definition generate_rustflags (o : CompilerOptimizer) : list string :=
  let f := optimization_flags o in
  ["-C"; "opt-level=3"]
  ++ (if enable_lto f then ["-C"; "lto=fat"] else [])
  ++ (if negb (String.eqb (target_cpu f) "") then ["-C"; "target-cpu=" +:+ target_cpu f] else [])
  ++ (if negb (bool_decide (target_features f = []))
      then ["-C"; "target-feature=" +:+ String.concat "," (target_features f)] else [])
  ++ ["-C"; "code-model=" +:+ code_model_text (code_model f)]
  ++ (if panic_abort (codegen_config o) then ["-C"; "panic=abort"] else [])
  ++ (if negb (cg_overflow_checks (codegen_config o)) then ["-C"; "overflow-checks=no"] else [])
  ++ match codegen_units f with
     | Some units => ["-C"; "codegen-units=" +:+ show units]
     | None => []
     end
  ++ ["-C"; "inline-threshold=" +:+ show (inline_threshold (inline_strategy o))]
  ++ ["-C"; "embed-bitcode=no"; "-C"; "debuginfo=0"; "-C"; "rpath=no"; "-C";
      "force-frame-pointers=no"].

(* sdk perf/compiler_optimization.rs:222-242 generate_env_vars *)
Definition generate_env_vars (o : CompilerOptimizer) : gmap string string :=
  let f := optimization_flags o in
  <["CARGO_INCREMENTAL" := if incremental f then "1" else "0"]>
    (<["RUSTC_BOOTSTRAP" := "1"]>
      (<["CARGO_CFG_TARGET_FEATURE" := String.concat "," (target_features f)]> ∅)).

(* sdk perf/compiler_optimization.rs:245-259 generate_cargo_config *)
Definition generate_cargo_config (o : CompilerOptimizer) : ProfileConfig :=
  let f := optimization_flags o in
  mk_Profile 3 (enable_lto f) (default 1 (codegen_units f))
    (if panic_abort (codegen_config o) then "abort" else "unwind")
    (cg_overflow_checks (codegen_config o)) false false false true.

(* sdk perf/compiler_optimization.rs:142-219 generate_ultra_performance_config *)
Definition generate_ultra_performance_config (o : CompilerOptimizer) : CompilerConfig :=
  mk_CompilerConfig (generate_rustflags o) (generate_env_vars o) (generate_cargo_config o).

(** Flags come in pairs, each an option after "-C". *)
Fixpoint flag_pairs (l : list string) : option (list string) :=
  match l with
  | [] => Some []
  | [_] => None
  | c :: o :: l' => if String.eqb c "-C" then cons o <$> flag_pairs l' else None
  end.

Lemma flag_pairs_app l k a b :
  flag_pairs l = Some a → flag_pairs k = Some b → flag_pairs (l ++ k) = Some (a ++ b).
Proof.
  revert a. assert (∀ n l a, (length l ≤ n)%nat → flag_pairs l = Some a → flag_pairs k = Some b →
    flag_pairs (l ++ k) = Some (a ++ b)) as Hall; [|intros; by eapply Hall].
  clear l. induction n as [|n IH]; intros [|c [|o l]] a Hn Hl Hk; simpl in *; try lia; try done;
    try (by injection Hl as <-).
  destruct (String.eqb c "-C"); [|done]. destruct (flag_pairs l) as [a'|] eqn:Ha; [|done].
  injection Hl as <-. rewrite (IH l a') by (done || lia). done.
Qed.

(** Whatever the settings, the flags are well formed and ask for the highest
    optimisation level without debug information: the settings of the level,
    of debug information and of profile-guided optimisation are not used. *)
Theorem rustflags_well_formed o :
  ∃ opts, flag_pairs (rustflags (generate_ultra_performance_config o)) = Some opts
    ∧ head opts = Some "opt-level=3" ∧ "debuginfo=0" ∈ opts
    ∧ ∀ level debug pgo, let f := optimization_flags o in
        generate_ultra_performance_config
          (mk_Optimizer (mk_Flags level (enable_lto f) pgo (target_cpu f) (target_features f)
             (code_model f) debug (incremental f) (codegen_units f))
             (codegen_config o) (inline_strategy o))
        = generate_ultra_performance_config o.
Proof.
  assert (Hopt : ∀ (b : bool) t, ∃ p, flag_pairs (if b then ["-C"; t] else []) = Some p)
    by (intros []; by eexists).
  set (f := optimization_flags o).
  destruct (Hopt (enable_lto f) "lto=fat") as [p1 H1].
  destruct (Hopt (negb (String.eqb (target_cpu f) "")) ("target-cpu=" +:+ target_cpu f)) as [p2 H2].
  destruct (Hopt (negb (bool_decide (target_features f = [])))
    ("target-feature=" +:+ String.concat "," (target_features f))) as [p3 H3].
  destruct (Hopt (panic_abort (codegen_config o)) "panic=abort") as [p4 H4].
  destruct (Hopt (negb (cg_overflow_checks (codegen_config o))) "overflow-checks=no") as [p5 H5].
  assert (∃ p, flag_pairs match codegen_units f with
     | Some units => ["-C"; "codegen-units=" +:+ show units] | None => [] end = Some p) as [p6 H6]
    by (destruct (codegen_units f); by eexists).
  eexists. split; [|split; [|split; [|done]]].
  - cbn [rustflags generate_ultra_performance_config]. unfold generate_rustflags. fold f.
    repeat (eapply flag_pairs_app; [first [eassumption|reflexivity]|]). reflexivity.
  - done.
  - rewrite !elem_of_app. right. right. right. right. right. right. right. right. right. set_solver.
Qed.

(** ** The vectorised sum *)

Section Sum.
Context `{Build}.

(** [iter().sum()]. *)
Fixpoint checked_sum (acc : Z) (l : list Z) : exec Z :=
  match l with [] => Val acc | x :: l' => let* a := add 64 acc x in checked_sum a l' end.

(** Four lanes, each wrapping, over the whole groups of four. *)
Fixpoint lanes (n : nat) (v : Z * Z * Z * Z) (data : list Z) : Z * Z * Z * Z * list Z :=
  match n, data with
  | S n', a :: b :: c :: d :: rest =>
      let '(x, y, z, w) := v in
      lanes n' (wrap 64 (x + a), wrap 64 (y + b), wrap 64 (z + c), wrap 64 (w + d)) rest
  | _, _ => (v, data)
  end.

(* sdk perf/compiler_optimization.rs:477-502 vectorized_sum_compile_time *)
Definition vectorized_sum_compile_time (data : list Z) : exec Z :=
  if (length data <? 4)%nat then checked_sum 0 data
  else
    let '(x, y, z, w, rest) := lanes (length data / 4) (0, 0, 0, 0) data in
    let* partial_sum := checked_sum 0 [x; y; z; w] in
    let* remaining := checked_sum 0 rest in
    add 64 partial_sum remaining.

Definition exact_sum (l : list Z) : Z := foldr Z.add 0 l.

Lemma add_mod a b v : add 64 a b = Val v → v mod 2 ^ 64 = (a + b) mod 2 ^ 64.
Proof.
  unfold add, ck, wrap. destruct (fits 64 (a + b)); [by intros [= <-]|].
  destruct overflow_checks; [done|]. intros [= <-]. by rewrite Z.mod_mod.
Qed.

Lemma checked_sum_mod l : ∀ acc v,
  checked_sum acc l = Val v → v mod 2 ^ 64 = (acc + exact_sum l) mod 2 ^ 64.
Proof.
  induction l as [|x l IH]; intros acc v; simpl; [intros [= <-]; by rewrite Z.add_0_r|].
  intros (a & Ha & Hv)%exec_bind_Val_inv. apply IH in Hv. rewrite Hv.
  apply add_mod in Ha. rewrite <- Z.add_mod_idemp_l, Ha, Z.add_mod_idemp_l by lia. f_equal. lia.
Qed.

Lemma lanes_mod n : ∀ v data,
  let '(x, y, z, w, rest) := lanes n v data in
  (x + y + z + w + exact_sum rest) mod 2 ^ 64
  = (v.1.1.1 + v.1.1.2 + v.1.2 + v.2 + exact_sum data) mod 2 ^ 64.
Proof.
  induction n as [|n IH]; intros [[[x y] z] w] data; [done|].
  destruct data as [|a [|b [|c [|d rest]]]]; try done. cbn [lanes].
  specialize (IH (wrap 64 (x + a), wrap 64 (y + b), wrap 64 (z + c), wrap 64 (w + d)) rest).
  destruct (lanes n _ rest) as [[[[x' y'] z'] w'] rest']. rewrite IH. cbn [fst snd]. unfold wrap.
  pose proof (Z.div_mod (x + a) (2 ^ 64) ltac:(lia)). pose proof (Z.div_mod (y + b) (2 ^ 64) ltac:(lia)).
  pose proof (Z.div_mod (z + c) (2 ^ 64) ltac:(lia)). pose proof (Z.div_mod (w + d) (2 ^ 64) ltac:(lia)).
  simpl exact_sum.
  replace (x + y + z + w + (a + (b + (c + (d + exact_sum rest)))))
    with ((x + a) mod 2 ^ 64 + (y + b) mod 2 ^ 64 + (z + c) mod 2 ^ 64 + (w + d) mod 2 ^ 64
          + exact_sum rest
          + ((x + a) / 2 ^ 64 + (y + b) / 2 ^ 64 + (z + c) / 2 ^ 64 + (w + d) / 2 ^ 64) * 2 ^ 64) by lia.
  by rewrite Z.mod_add by lia.
Qed.

(** The vectorised sum, when it returns, is the sum modulo 2^64, in either
    build; where plain summation panics on overflow, the lanes may wrap. *)
Theorem vectorized_sum_mod data v :
  vectorized_sum_compile_time data = Val v → v mod 2 ^ 64 = exact_sum data mod 2 ^ 64.
Proof.
  unfold vectorized_sum_compile_time. case_match; [by apply checked_sum_mod|].
  pose proof (lanes_mod (length data / 4) (0, 0, 0, 0) data) as Hl.
  destruct (lanes _ _ data) as [[[[x y] z] w] rest]. cbn [fst snd] in Hl.
  intros (p & Hp & (r & Hr & Ha)%exec_bind_Val_inv)%exec_bind_Val_inv.
  apply checked_sum_mod in Hp, Hr. apply add_mod in Ha.
  change (0 + 0 + 0 + 0 + exact_sum data) with (exact_sum data) in Hl. rewrite <- Hl, Ha.
  rewrite Z.add_mod, Hp, Hr, <- Z.add_mod by lia. f_equal. simpl. lia.
Qed.
End Sum.

(** In a debug build: the lanes wrap where the plain sum panics. *)
Example sum_wraps_in_lanes :
  @vectorized_sum_compile_time debug [u64_max; 0; 0; 0; 1; 0; 0; 0] = Val 0
  ∧ @checked_sum debug 0 [u64_max; 0; 0; 0; 1; 0; 0; 0] = Panic.
Proof. split; vm_compute; reflexivity. Qed.
