(* ===== verification/Bypass.v ===== *)
(** * Clocks and batched system calls
    (sdk perf/syscall_bypass.rs, common/fast_timing.rs, common/clock.rs)

    The clocks of the machine are a class over the environment: the monotonic
    clock never goes back, the wall clock may.  Atomic counters are fields of
    explicit records; an operation is modelled as a whole, as one thread sees
    it. *)

From Stdlib Require Import Ascii String Sorted.
From S2P Require Import Prelude F64 Solana Effects Text Queue.

#[local] Open Scope string_scope.
#[local] Open Scope Z_scope.
#[local] Open Scope list_scope.

(** ** The clocks of the machine *)

(** Nanoseconds.  [instant] is [Instant::now], [utc] the time since 1970 of [SystemTime::now],
    [monotonic_raw] the seconds and nanoseconds of [clock_gettime(CLOCK_MONOTONIC_RAW)];
    [real_time] is the time that passes. *)
Class Clocks (E : Type) := {
  instant : E → Z * E;
  utc : E → Z * E;
  monotonic_raw : E → option (Z * Z) * E;
  real_time : E → Z;
  instant_real e t e' : instant e = (t, e') → real_time e ≤ t ≤ real_time e';
  utc_real e u e' : utc e = (u, e') → real_time e ≤ real_time e';
  raw_real e r e' : monotonic_raw e = (r, e') → real_time e ≤ real_time e';
}.

(** [duration_since]: zero when the other instant is later. *)
Definition duration_since (later earlier : Z) : Z := saturating_sub later earlier.

(** [SystemTime::now().duration_since(UNIX_EPOCH)]: an error before 1970. *)
Definition since_epoch (u : Z) : option Z := if 0 <=? u then Some u else None.

(** ** The calibrated clock (clock.rs) *)

(** Instants in nanoseconds, the base in microseconds. *)
(* sdk common/clock.rs:10-15 HighPerformanceClock *)
Record HighPerformanceClock := mk_Clock {
  base_instant : Z;
  base_timestamp_us : Z;
  last_calibration : Z;
  calibration_interval_secs : Z;
}.

Section Clock.
Context `{Build} {E : Type} `{Clocks E}.

(** [chrono::Utc::now().timestamp_micros()]. *)
Definition timestamp_micros : M E Z := ask (λ e, let '(u, e) := utc e in (u / 1000, e)).

(** [instant.elapsed()]. *)
Definition elapsed (since : Z) : M E Z :=
  let% now := ask instant in mret (duration_since now since).

(** The loop over the samples: the best latency so far, with its instant and time. *)
(* sdk common/clock.rs:29-39 new_with_calibration_interval, loop *)
Fixpoint sample_clock (n : nat) (best_offset best_instant best_timestamp : Z) : M E (Z * Z) :=
  match n with
  | O => mret (best_instant, best_timestamp)
  | S n' =>
      let% instant_before := ask instant in
      let% timestamp := timestamp_micros in
      let% instant_after := ask instant in
      let sample_latency := wrap_signed 64 (duration_since instant_after instant_before) in
      if sample_latency <? best_offset
      then sample_clock n' sample_latency instant_before timestamp
      else sample_clock n' best_offset best_instant best_timestamp
  end.

(* sdk common/clock.rs:24-47 new_with_calibration_interval *)
Definition new_with_calibration_interval (calibration_interval_secs : Z) :
    M E HighPerformanceClock :=
  let% best_instant := ask instant in
  let% best_timestamp := timestamp_micros in
  let% best := sample_clock 3 (2 ^ 63 - 1) best_instant best_timestamp in
  mret (mk_Clock best.1 best.2 best.1 calibration_interval_secs).

(* sdk common/clock.rs:19-21 new *)
Definition clock_new : M E HighPerformanceClock := new_with_calibration_interval 300.

(* sdk common/clock.rs:50-53 now_micros *)
Definition clock_now_micros (c : HighPerformanceClock) : M E Z :=
  let% d := elapsed (base_instant c) in
  of_ex (ck_signed 64 (base_timestamp_us c + wrap_signed 64 (d / 1000))).

(* sdk common/clock.rs:63-74 recalibrate *)
Definition recalibrate (c : HighPerformanceClock) : M E HighPerformanceClock :=
  let% current_monotonic := ask instant in
  let% current_utc := timestamp_micros in
  let% expected_utc := of_ex (ck_signed 64 (base_timestamp_us c
    + wrap_signed 64 (duration_since current_monotonic (base_instant c) / 1000))) in
  let% drift_us := of_ex (ck_signed 64 (current_utc - expected_utc)) in
  let% drift_abs := of_ex (ck_signed 64 (Z.abs drift_us)) in
  mret (if 1000 <? drift_abs
        then mk_Clock current_monotonic current_utc current_monotonic (calibration_interval_secs c)
        else mk_Clock (base_instant c) (base_timestamp_us c) current_monotonic
               (calibration_interval_secs c)).

(* sdk common/clock.rs:56-61 now_micros_with_calibration *)
Definition now_micros_with_calibration (c : HighPerformanceClock) :
    M E (Z * HighPerformanceClock) :=
  let% d := elapsed (last_calibration c) in
  let% c := if calibration_interval_secs c <=? d / 1000000000 then recalibrate c else mret c in
  let% t := clock_now_micros c in
  mret (t, c).

(** The clock of the process, made at its first use. *)
(* sdk common/clock.rs:83-91 now_micros *)
Definition global_now_micros (cell : option HighPerformanceClock) :
    M E (Z * HighPerformanceClock) :=
  let% clock := match cell with Some c => mret c | None => clock_new end in
  let% t := clock_now_micros clock in
  mret (t, clock).

(* sdk common/clock.rs:95-97 elapsed_micros_since *)
Definition elapsed_micros_since (cell : option HighPerformanceClock) (start_timestamp_us : Z) :
    M E (Z * HighPerformanceClock) :=
  let% r := global_now_micros cell in
  let% d := of_ex (ck_signed 64 (r.1 - start_timestamp_us)) in
  mret (d, r.2).
End Clock.

(** ** Fast time (syscall_bypass.rs) *)

(* sdk perf/syscall_bypass.rs:85-98 FastTimeProvider *)
Record FastTimeProvider := mk_Provider {
  monotonic_start : Z;
  time_cache : Z;
  cache_update_interval_ns : Z;
  last_update : Z;
  vdso_enabled : bool;
}.

Section FastTime.
Context `{Build} {E : Type} `{Clocks E}.

(** [as_nanos() as u64]. *)
Definition nanos (d : Z) : Z := wrap 64 d.

(* sdk perf/syscall_bypass.rs:102-119 new *)
Definition provider_new (enable_vdso : bool) : M E FastTimeProvider :=
  let% now := ask utc in
  let% instant_now := ask instant in
  let% epoch := of_res (ok_or (since_epoch now) "second time provided was later than self") in
  let% d := elapsed instant_now in
  mret (mk_Provider instant_now (nanos epoch) 1000000 (nanos d) enable_vdso).

(* sdk perf/syscall_bypass.rs:162-169 update_time_cache *)
Definition update_time_cache (p : FastTimeProvider) : M E FastTimeProvider :=
  let% u := ask utc in
  match since_epoch u with
  | Some now =>
      let% d := elapsed (monotonic_start p) in
      mret (mk_Provider (monotonic_start p) (nanos now) (cache_update_interval_ns p) (nanos d)
              (vdso_enabled p))
  | None => mret p
  end.

(* sdk perf/syscall_bypass.rs:143-159 vdso_time_nanos *)
Definition vdso_time_nanos (p : FastTimeProvider) : M E Z :=
  let% ts := ask monotonic_raw in
  match ts with
  | Some (tv_sec, tv_nsec) =>
      of_ex (let* s := mul 64 (wrap 64 tv_sec) 1000000000 in add 64 s (wrap 64 tv_nsec))
  | None => mret (time_cache p)
  end.

(** The time, and the provider with its cache. *)
(* sdk perf/syscall_bypass.rs:123-139 fast_now_nanos *)
Definition fast_now_nanos (p : FastTimeProvider) : M E (Z * FastTimeProvider) :=
  if vdso_enabled p then let% t := vdso_time_nanos p in mret (t, p)
  else
    let% d := elapsed (monotonic_start p) in
    let% p := if cache_update_interval_ns p <? saturating_sub (nanos d) (last_update p)
              then update_time_cache p else mret p in
    mret (time_cache p, p).

(* sdk perf/syscall_bypass.rs:173-175 fast_now_micros *)
Definition fast_now_micros (p : FastTimeProvider) : M E (Z * FastTimeProvider) :=
  let% r := fast_now_nanos p in mret (r.1 / 1000, r.2).

(* sdk perf/syscall_bypass.rs:179-181 fast_now_millis *)
Definition fast_now_millis (p : FastTimeProvider) : M E (Z * FastTimeProvider) :=
  let% r := fast_now_nanos p in mret (r.1 / 1000000, r.2).
End FastTime.

(** ** Batches of requests *)

(* sdk perf/syscall_bypass.rs:57-82 SyscallRequest *)
Inductive SyscallRequest :=
| SysWrite (fd : Z) (data : list Z)
| SysRead (fd size : Z)
| SysSend (socket : Z) (data : list Z)
| SysRecv (socket size : Z)
| GetTime
| MemAlloc (size : Z)
| MemFree (ptr : Z).

Section Batch.
Context `{Build} {Q : Type → Type} `{ArrayQueue Q}.

(* sdk perf/syscall_bypass.rs:50-54 SyscallBatchProcessor *)
Record SyscallBatchProcessor := mk_Batch {
  pending_calls : Q SyscallRequest;
  batch_stats : Z;
}.

(* sdk perf/syscall_bypass.rs:372-383 new *)
Definition batch_new (batch_size : Z) : exec SyscallBatchProcessor :=
  let* n := mul 64 batch_size 10 in
  let* pending_calls := queue_new (Z.to_nat n) in
  Val (mk_Batch pending_calls 0).

(* sdk perf/syscall_bypass.rs:387-391 submit_request *)
Definition submit_request (request : SyscallRequest) : M SyscallBatchProcessor () := λ b,
  match queue_push request (pending_calls b) with
  | Some q => Val (Ok (), mk_Batch q (batch_stats b))
  | None => Val (Err "Batch queue full", b)
  end.

(** Up to [n] requests. *)
(* sdk perf/syscall_bypass.rs:395-402 execute_batch, collecting *)
Fixpoint collect (n : nat) (q : Q SyscallRequest) : list SyscallRequest * Q SyscallRequest :=
  match n with
  | O => ([], q)
  | S n' =>
      match queue_pop q with
      | Some (r, q') => let '(batch, q'') := collect n' q' in (r :: batch, q'')
      | None => ([], q)
      end
  end.

(** The groups of a batch. *)
(* sdk perf/syscall_bypass.rs:411-430 execute_batch, write requests *)
Definition write_requests (batch : list SyscallRequest) : list (Z * list Z) :=
  omap (λ r, match r with SysWrite fd data => Some (fd, data) | _ => None end) batch.
(* sdk perf/syscall_bypass.rs:411-430 execute_batch, read requests *)
Definition read_requests (batch : list SyscallRequest) : list (Z * Z) :=
  omap (λ r, match r with SysRead fd size => Some (fd, size) | _ => None end) batch.
(* sdk perf/syscall_bypass.rs:411-430 execute_batch, network requests *)
Definition network_requests (batch : list SyscallRequest) : list (Z * list Z) :=
  omap (λ r, match r with SysSend s data => Some (s, data) | _ => None end) batch.

(** What is asked of the system: the three operations only log. *)
(* sdk perf/syscall_bypass.rs:454-461 batch_write_operations *)
Definition batch_write_operations (requests : list (Z * list Z)) : list SyscallRequest := [].
(* sdk perf/syscall_bypass.rs:464-470 batch_read_operations *)
Definition batch_read_operations (requests : list (Z * Z)) : list SyscallRequest := [].
(* sdk perf/syscall_bypass.rs:473-479 batch_network_operations *)
Definition batch_network_operations (requests : list (Z * list Z)) : list SyscallRequest := [].

(** The number of requests taken, and what was performed. *)
(* sdk perf/syscall_bypass.rs:394-451 execute_batch *)
Definition execute_batch : M SyscallBatchProcessor (Z * list SyscallRequest) := λ b,
  let '(batch, q) := collect 100 (pending_calls b) in
  if bool_decide (batch = []) then Val (Ok (0, []), mk_Batch q (batch_stats b))
  else
    let performed :=
      batch_write_operations (write_requests batch)
      ++ batch_read_operations (read_requests batch)
      ++ batch_network_operations (network_requests batch) in
    Val (Ok (Z.of_nat (length batch), performed), mk_Batch q (wrap 64 (batch_stats b + 1))).
End Batch.
Arguments SyscallBatchProcessor : clear implicits.

(** ** Writing and mapping files *)

(* sdk perf/syscall_bypass.rs:196-201 AsyncIOStats *)
Record AsyncIOStats := mk_IOStats {
  operations_queued : Z;
  operations_completed : Z;
  bytes_transferred : Z;
  syscalls_avoided : Z;
}.

(* sdk perf/syscall_bypass.rs:205-209 MemoryMappedRegion *)
Record MemoryMappedRegion := mk_Region { address : Z; region_size : Z; file_descriptor : Z }.

(* sdk perf/syscall_bypass.rs:185-192 IOOptimizer *)
Record IOOptimizer := mk_IO {
  io_uring_available : bool;
  async_io_stats : AsyncIOStats;
  mmap_regions : list MemoryMappedRegion;
}.

(** The files of the machine: [open] gives a descriptor, which is closed when the [File] is
    dropped; [mmap] gives an address. *)
Class Files (E : Type) := {
  kernel_release : E → option string * E;
  file_open : string → E → result string Z * E;
  file_mmap : Z → Z → E → option Z * E;
  file_close : Z → E → E;
}.

Section IO.
Context `{Build} {E : Type} `{Files E}.

(** The output of [uname -r] on Linux. *)
(* sdk perf/syscall_bypass.rs:235-237 check_io_uring_support, version *)
Definition supports_io_uring (release : string) : bool :=
  match parse_u32 (before_dot release) with
  | Some major_version => 5 <=? major_version
  | None => false
  end.

(* sdk perf/syscall_bypass.rs:226-244 check_io_uring_support *)
Definition check_io_uring_support : M E bool :=
  let% r := ask kernel_release in
  mret match r with Some v => supports_io_uring v | None => false end.

(* sdk perf/syscall_bypass.rs:213-223 new *)
Definition io_new : M E IOOptimizer :=
  let% io_uring_available := check_io_uring_support in
  mret (mk_IO io_uring_available (mk_IOStats 0 0 0 0) []).

(** [Vec::len] of the data of each request. *)
Definition data_len (r : Z * list Z) : Z := Z.of_nat (length r.2).

(** [fetch_add] wraps in every build. *)
Definition count (x n : Z) : Z := wrap 64 (x + n).

(** Nothing is written: the results are the lengths. *)
(* sdk perf/syscall_bypass.rs:258-282 io_uring_batch_write *)
Definition io_uring_batch_write (st : AsyncIOStats) (requests : list (Z * list Z)) :
    exec (list Z * AsyncIOStats) :=
  let st := foldl (λ st r, mk_IOStats (count (operations_queued st) 1)
                             (count (operations_completed st) 1)
                             (count (bytes_transferred st) (data_len r))
                             (syscalls_avoided st)) st requests in
  let* avoided := sub 64 (Z.of_nat (length requests)) 1 in
  Val (map data_len requests,
       mk_IOStats (operations_queued st) (operations_completed st) (bytes_transferred st)
         (count (syscalls_avoided st) avoided)).

(* sdk perf/syscall_bypass.rs:285-296 standard_batch_write *)
Definition standard_batch_write (st : AsyncIOStats) (requests : list (Z * list Z)) :
    exec (list Z * AsyncIOStats) :=
  Val (map data_len requests,
       foldl (λ st r, mk_IOStats (operations_queued st) (operations_completed st)
                        (count (bytes_transferred st) (data_len r)) (syscalls_avoided st))
         st requests).

(* sdk perf/syscall_bypass.rs:248-255 batch_async_write *)
Definition batch_async_write (io : IOOptimizer) (requests : list (Z * list Z)) :
    exec (list Z * IOOptimizer) :=
  let* r := if io_uring_available io && (1 <? Z.of_nat (length requests))
            then io_uring_batch_write (async_io_stats io) requests
            else standard_batch_write (async_io_stats io) requests in
  Val (r.1, mk_IO (io_uring_available io) r.2 (mmap_regions io)).

(** The descriptor is kept, and closed on return. *)
(* sdk perf/syscall_bypass.rs:299-349 create_memory_mapped_io *)
Definition create_memory_mapped_io (io : IOOptimizer) (file_path : string) (size : Z) :
    M E (Z * IOOptimizer) :=
  let% fd := call (file_open file_path) in
  let% addr := ask (file_mmap size fd) in
  let% _ := effect (file_close fd) in
  match addr with
  | None => mfail "Memory mapping failed"
  | Some addr =>
      mret (addr, mk_IO (io_uring_available io) (async_io_stats io)
                    (mmap_regions io ++ [mk_Region addr size fd]))
  end.
End IO.

(** ** Memory *)

Definition MEMORY_POOL_LEN : Z := 1024 * 1024.

Section Memory.
Context `{Build}.

(** The offset of the block in the pool, and the next offset. *)
(* sdk perf/syscall_bypass.rs:555-577 userspace_allocate *)
Definition userspace_allocate (offset size : Z) : exec (result string Z * Z) :=
  let* end_ := add 64 offset size in
  if MEMORY_POOL_LEN <? end_ then Val (Err "Memory pool exhausted", offset)
  else
    let* s := add 64 size 7 in
    let* offset' := add 64 offset (Z.land s (Z.lxor u64_max 7)) in
    Val (Ok offset, offset').
End Memory.

(** ** The manager *)

(* sdk perf/syscall_bypass.rs:24-33 SyscallBypassConfig *)
Record SyscallBypassConfig := mk_BypassConfig {
  enable_batch_processing : bool;
  batch_size : Z;
  enable_fast_time : bool;
  enable_vdso : bool;
  enable_io_uring : bool;
  enable_mmap_optimization : bool;
  enable_userspace_impl : bool;
  syscall_cache_size : Z;
}.

(* sdk perf/syscall_bypass.rs:36-47 default *)
Definition bypass_default : SyscallBypassConfig :=
  mk_BypassConfig true 100 true true true true true 1000.

(* sdk perf/syscall_bypass.rs:614-625 extreme_bypass_config *)
Definition extreme_bypass_config : SyscallBypassConfig :=
  mk_BypassConfig true 1000 true true true true true 10000.

(* sdk perf/syscall_bypass.rs:484-490 SyscallBypassStats *)
Record SyscallBypassStats := mk_BypassStats {
  syscalls_bypassed : Z;
  syscalls_batched : Z;
  time_calls_cached : Z;
  io_operations_optimized : Z;
  memory_operations_avoided : Z;
}.

(** The allocator's pool belongs to the process; it is kept with the manager here. *)
(* sdk perf/syscall_bypass.rs:14-20 SystemCallBypassManager *)
Record SystemCallBypassManager (Q : Type → Type) := mk_Manager {
  m_config : SyscallBypassConfig;
  m_batch : SyscallBatchProcessor Q;
  m_time : FastTimeProvider;
  m_io : IOOptimizer;
  m_stats : SyscallBypassStats;
  m_offset : Z;
}.
Arguments mk_Manager {Q}.
Arguments m_config {Q}.
Arguments m_batch {Q}.
Arguments m_time {Q}.
Arguments m_io {Q}.
Arguments m_stats {Q}.
Arguments m_offset {Q}.

Section Manager.
Context `{Build} {Q : Type → Type} `{ArrayQueue Q} {E : Type} `{Clocks E} `{Files E}.
Abbreviation Manager := (SystemCallBypassManager Q).

(* sdk perf/syscall_bypass.rs:494-507 new *)
Definition manager_new (config : SyscallBypassConfig) : M E Manager :=
  let% batch := of_ex (batch_new (batch_size config)) in
  let% time := provider_new (enable_vdso config) in
  let% io := io_new in
  mret (mk_Manager config batch time io (mk_BypassStats 0 0 0 0 0) 0).

Definition with_stats (m : Manager) (s : SyscallBypassStats) : Manager :=
  mk_Manager (m_config m) (m_batch m) (m_time m) (m_io m) s (m_offset m).
Definition with_batch (m : Manager) (b : SyscallBatchProcessor Q) : Manager :=
  mk_Manager (m_config m) b (m_time m) (m_io m) (m_stats m) (m_offset m).
Definition with_time (m : Manager) (t : FastTimeProvider) : Manager :=
  mk_Manager (m_config m) (m_batch m) t (m_io m) (m_stats m) (m_offset m).
Definition with_offset (m : Manager) (o : Z) : Manager :=
  mk_Manager (m_config m) (m_batch m) (m_time m) (m_io m) (m_stats m) o.

Definition count_time (s : SyscallBypassStats) : SyscallBypassStats :=
  mk_BypassStats (syscalls_bypassed s) (syscalls_batched s) (count (time_calls_cached s) 1)
    (io_operations_optimized s) (memory_operations_avoided s).
Definition count_batched (s : SyscallBypassStats) : SyscallBypassStats :=
  mk_BypassStats (syscalls_bypassed s) (count (syscalls_batched s) 1) (time_calls_cached s)
    (io_operations_optimized s) (memory_operations_avoided s).
Definition count_memory (s : SyscallBypassStats) : SyscallBypassStats :=
  mk_BypassStats (syscalls_bypassed s) (syscalls_batched s) (time_calls_cached s)
    (io_operations_optimized s) (count (memory_operations_avoided s) 1).
Definition count_bypassed (n : Z) (s : SyscallBypassStats) : SyscallBypassStats :=
  mk_BypassStats (count (syscalls_bypassed s) n) (syscalls_batched s) (time_calls_cached s)
    (io_operations_optimized s) (memory_operations_avoided s).

(* sdk perf/syscall_bypass.rs:511-519 fast_timestamp_nanos *)
Definition fast_timestamp_nanos (m : Manager) : M E (Z * Manager) :=
  if enable_fast_time (m_config m) then
    let% r := fast_now_nanos (m_time m) in
    mret (r.1, with_time (with_stats m (count_time (m_stats m))) r.2)
  else
    let% u := ask utc in
    mret (nanos (default 0 (since_epoch u)), m).

(** The requests before the one that does not fit are in the queue. *)
Fixpoint submit_all (ops : list SyscallRequest) (b : SyscallBatchProcessor Q) :
    result string () * SyscallBatchProcessor Q :=
  match ops with
  | [] => (Ok (), b)
  | op :: ops' =>
      match submit_request op b with
      | Val (Ok _, b') => submit_all ops' b'
      | Val (Err e, b') => (Err e, b')
      | Panic => (Ok (), b)
      end
  end.

(* sdk perf/syscall_bypass.rs:522-533 submit_batch_io *)
Definition submit_batch_io (m : Manager) (operations : list SyscallRequest) :
    result string () * Manager :=
  if negb (enable_batch_processing (m_config m)) then (Err "Batch processing disabled", m)
  else
    let '(r, b) := submit_all operations (m_batch m) in
    match r with
    | Err e => (Err e, with_batch m b)
    | Ok _ => (Ok (), with_stats (with_batch m b) (count_batched (m_stats m)))
    end.

(** [Some]: a block of the pool; [None]: the system's allocator, a dependency. *)
(* sdk perf/syscall_bypass.rs:537-552 fast_allocate *)
Definition fast_allocate (m : Manager) (size : Z) : exec (option (result string Z) * Manager) :=
  if enable_userspace_impl (m_config m) then
    let* r := userspace_allocate (m_offset m) size in
    Val (Some r.1, with_offset (with_stats m (count_memory (m_stats m))) r.2)
  else Val (None, m).

(** One turn of the worker: what it performed, and the manager. *)
(* sdk perf/syscall_bypass.rs:590-594 start_batch_processing, one turn *)
Definition batch_tick (m : Manager) : exec (list SyscallRequest * Manager) :=
  match execute_batch (m_batch m) with
  | Val (Ok (processed, performed), b) =>
      let m := with_batch m b in
      Val (performed,
           if 0 <? processed then with_stats m (count_bypassed processed (m_stats m)) else m)
  | Val (Err _, b) => Val ([], with_batch m b)
  | Panic => Panic
  end.

(* sdk perf/syscall_bypass.rs:648-651 print_stats, total *)
Definition total_optimizations (s : SyscallBypassStats) : exec Z :=
  let* a := add 64 (syscalls_bypassed s) (time_calls_cached s) in
  let* b := add 64 a (io_operations_optimized s) in
  add 64 b (memory_operations_avoided s).
End Manager.

(** ** Blocks of the pool *)

Section Blocks.
Context `{Build}.

(** Allocations one after the other: the blocks given out, with their offset and size. *)
Fixpoint allocate_all (sizes : list Z) (offset : Z) : exec (list (Z * Z) * Z) :=
  match sizes with
  | [] => Val ([], offset)
  | size :: sizes' =>
      let* r := userspace_allocate offset size in
      let* rest := allocate_all sizes' r.2 in
      Val (match r.1 with Ok o => (o, size) :: rest.1 | Err _ => rest.1 end, rest.2)
  end.

(** Rounded up to a multiple of eight. *)
Definition round8 (n : Z) : Z := (n + 7) / 8 * 8.

Lemma land_not7 n : is_u64 n → Z.land n (Z.lxor u64_max 7) = n / 8 * 8.
Proof.
  intros Hn. change (Z.lxor u64_max 7) with (Z.shiftl (Z.ones 61) 3).
  change 8 with (2 ^ 3). rewrite <- Z.shiftr_div_pow2, <- Z.shiftl_mul_pow2 by lia.
  apply Z.bits_inj'. intros i Hi. rewrite !Z.land_spec.
  destruct (Z.ltb_spec i 3).
  - rewrite !Z.shiftl_spec_low by lia. by rewrite andb_false_r.
  - rewrite !Z.shiftl_spec by lia. rewrite Z.shiftr_spec by lia.
    replace (i - 3 + 3) with i by lia.
    destruct (Z.ltb_spec (i - 3) 61).
    + rewrite Z.ones_spec_low by lia. by rewrite andb_true_r.
    + rewrite Z.ones_spec_high by lia. rewrite andb_false_r. symmetry.
      apply Z.bits_above_log2; [uint|]. destruct (decide (n = 0)) as [->|]; [simpl; lia|].
      apply Z.log2_lt_pow2; [uint|]. unfold is_uint in Hn.
      assert (2 ^ 64 ≤ 2 ^ i) by (apply Z.pow_le_mono_r; lia). lia.
Qed.

(** A request of less than 2^63 bytes. *)
Lemma userspace_allocate_run offset size :
  0 ≤ offset ≤ MEMORY_POOL_LEN + 7 → 0 ≤ size < 2 ^ 63 →
  userspace_allocate offset size
  = Val (if MEMORY_POOL_LEN <? offset + size then (Err "Memory pool exhausted", offset)
         else (Ok offset, offset + round8 size)).
Proof.
  unfold MEMORY_POOL_LEN, userspace_allocate. intros Ho Hs.
  rewrite add_ok by uint. cbn [exec_bind]. unfold MEMORY_POOL_LEN.
  destruct (Z.ltb_spec (1024 * 1024) (offset + size)); [done|].
  rewrite add_ok by uint. cbn [exec_bind]. rewrite land_not7 by uint.
  pose proof (Z.div_mod (size + 7) 8 ltac:(lia)). pose proof (Z.mod_pos_bound (size + 7) 8 ltac:(lia)).
  unfold round8. by rewrite add_ok by uint.
Qed.

Definition in_pool (b : Z * Z) : Prop :=
  0 ≤ b.1 ∧ b.1 + b.2 ≤ MEMORY_POOL_LEN ∧ b.1 mod 8 = 0.

(** The second block starts after the end of the first. *)
Definition before (b c : Z * Z) : Prop := b.1 + b.2 ≤ c.1.

Lemma allocate_all_run sizes : ∀ offset,
  0 ≤ offset ≤ MEMORY_POOL_LEN + 7 → offset mod 8 = 0 →
  Forall (λ s, 0 ≤ s < 2 ^ 63) sizes →
  ∃ blocks offset', allocate_all sizes offset = Val (blocks, offset')
    ∧ Forall in_pool blocks ∧ Forall (λ b, offset ≤ b.1) blocks
    ∧ StronglySorted before blocks.
Proof.
  induction sizes as [|size sizes IH]; intros offset Ho Hm Hs; [by exists [], offset; repeat constructor|].
  apply Forall_cons in Hs as [Hs Hss]. cbn [allocate_all].
  rewrite userspace_allocate_run by done.
  destruct (Z.ltb_spec MEMORY_POOL_LEN (offset + size)) as [Hf|Hf]; cbn [exec_bind fst snd].
  { destruct (IH offset Ho Hm Hss) as (bs & o' & -> & Hi & Hl & Hst). by exists bs, o'. }
  assert (size ≤ round8 size < size + 8 ∧ round8 size mod 8 = 0) as [Hr Hr8].
  { unfold round8. pose proof (Z.div_mod (size + 7) 8 ltac:(lia)).
    pose proof (Z.mod_pos_bound (size + 7) 8 ltac:(lia)). split; [lia|].
    by rewrite Z.mod_mul. }
  destruct (IH (offset + round8 size)) as (bs & o' & Hrun & Hi & Hl & Hst); [lia| |done|].
  { rewrite Z.add_mod, Hm, Hr8 by lia. done. }
  rewrite Hrun. exists ((offset, size) :: bs), o'. cbn [exec_bind fst snd].
  assert (Forall (before (offset, size)) bs)
    by (eapply Forall_impl; [exact Hl|intros b; unfold before; simpl; lia]).
  split; [done|]. split; [|split].
  - constructor; [|done]. unfold in_pool. simpl. split; [lia|]. split; [lia|done].
  - constructor; [simpl; lia|]. eapply Forall_impl; [exact Hl|]. simpl. lia.
  - by constructor.
Qed.

(** However the pool is used, with requests below 2^63 bytes, no allocation
    panics, every block lies in the pool at a multiple of eight, and no two
    blocks overlap. *)
Theorem blocks_disjoint sizes :
  Forall (λ s, 0 ≤ s < 2 ^ 63) sizes →
  ∃ blocks offset', allocate_all sizes 0 = Val (blocks, offset')
    ∧ Forall in_pool blocks ∧ StronglySorted before blocks.
Proof.
  intros Hs. destruct (allocate_all_run sizes 0) as (bs & o & ? & ? & _ & ?);
    [unfold MEMORY_POOL_LEN; lia|done|done|]. by exists bs, o.
Qed.
End Blocks.

(** In a release build a request close to 2^64 bytes passes the check, since the sum wraps; the
    offset goes back to zero and the next block lies over the first. *)
Theorem huge_request_overlaps :
  @allocate_all release [64; 2 ^ 64 - 64; 64] 0
  = Val ([(0, 64); (64, 2 ^ 64 - 64); (0, 64)], 64).
Proof. reflexivity. Qed.

(** ** What batches do *)

Section Batches.
Context `{Build} {Q : Type → Type} `{ArrayQueue Q} {E : Type} `{Clocks E} `{Files E}.
Abbreviation Manager := (SystemCallBypassManager Q).

Definition pending (m : Manager) : list SyscallRequest :=
  queue_elements (pending_calls (m_batch m)).

Lemma collect_run n : ∀ q : Q SyscallRequest,
  (collect n q).1 = take n (queue_elements q)
  ∧ queue_elements (collect n q).2 = drop n (queue_elements q)
  ∧ queue_capacity (collect n q).2 = queue_capacity q.
Proof.
  induction n as [|n IH]; intros q; [done|]. cbn [collect].
  pose proof (queue_pop_spec q) as Hp. destruct (queue_pop q) as [[r q']|].
  - destruct Hp as [-> <-]. destruct (IH q') as (H1' & H2' & H3').
    destruct (collect n q') as [batch q'']. simpl in *. by rewrite H1'.
  - by rewrite Hp.
Qed.

Lemma submit_all_run ops : ∀ b : SyscallBatchProcessor Q,
  let free := (queue_capacity (pending_calls b) - length (queue_elements (pending_calls b)))%nat in
  let '(r, b') := submit_all ops b in
  queue_elements (pending_calls b') = queue_elements (pending_calls b) ++ take free ops
  ∧ queue_capacity (pending_calls b') = queue_capacity (pending_calls b)
  ∧ r = (if (length ops <=? free)%nat then Ok () else Err "Batch queue full").
Proof.
  induction ops as [|op ops IH]; intros [q n]; cbv zeta; cbn [submit_all pending_calls].
  { rewrite take_nil, app_nil_r. by repeat split. }
  unfold submit_request. cbn [pending_calls batch_stats].
  pose proof (queue_push_spec op q) as Hp. destruct (queue_push op q) as [q'|].
  - destruct Hp as (Hl & He & Hc). specialize (IH (mk_Batch q' n)). cbv zeta in IH.
    destruct (submit_all ops _) as [r b']. cbn [pending_calls] in *.
    rewrite He, Hc, length_app in IH. cbn [length] in IH. destruct IH as (-> & -> & ->).
    replace (queue_capacity q - length (queue_elements q))%nat
      with (S (queue_capacity q - (length (queue_elements q) + 1)))%nat by lia.
    cbn [take length]. rewrite <- (assoc_L (++)). by split.
  - cbn [pending_calls]. replace (queue_capacity q - length (queue_elements q))%nat with 0%nat by lia.
    cbn [take length]. by rewrite app_nil_r.
Qed.

(** Requests are submitted in order until the queue is full; what is left of a
    batch that does not fit is dropped with an error, and the part that fitted
    stays queued.  A turn of the worker takes the first hundred requests,
    counts them as system calls avoided, and performs none of them. *)
Theorem requests_are_dropped (m : Manager) ops r m1 performed m2 :
  enable_batch_processing (m_config m) = true →
  0 ≤ syscalls_bypassed (m_stats m1) < 2 ^ 64 - 100 →
  submit_batch_io m ops = (r, m1) → batch_tick m1 = Val (performed, m2) →
  let free := (queue_capacity (pending_calls (m_batch m)) - length (pending m))%nat in
  pending m1 = pending m ++ take free ops
  ∧ r = (if (length ops <=? free)%nat then Ok () else Err "Batch queue full")
  ∧ pending m2 = drop 100 (pending m1) ∧ performed = []
  ∧ syscalls_bypassed (m_stats m2)
    = syscalls_bypassed (m_stats m1) + Z.of_nat (Nat.min 100 (length (pending m1))).
Proof.
  intros He Hu Hs Ht. cbv zeta. unfold submit_batch_io in Hs. rewrite He in Hs. cbn [negb] in Hs.
  pose proof (submit_all_run ops (m_batch m)) as Hr. cbv zeta in Hr.
  destruct (submit_all ops (m_batch m)) as [r' b]. destruct Hr as (Hel & _ & Hr').
  assert (r = r' ∧ m_batch m1 = b) as [-> <-].
  { destruct r' as [[]|e]; injection Hs as <- <-; done. }
  split; [exact Hel|]. split; [exact Hr'|]. clear Hel Hr' Hs.
  unfold batch_tick, execute_batch in Ht.
  pose proof (collect_run 100 (pending_calls (m_batch m1))) as (Hb & Hq & _).
  destruct (collect 100 _) as [batch q]. cbn [fst snd] in Hb, Hq. fold (pending m1) in Hb, Hq.
  case_bool_decide as Hnil; injection Ht as <- <-.
  - assert (pending m1 = []) as Hn.
    { rewrite Hb in Hnil. by destruct (pending m1). }
    rewrite Hn in *. cbn. unfold pending. cbn [m_batch with_batch pending_calls].
    rewrite Hq. split; [done|]. split; [done|]. lia.
  - assert (length batch = Nat.min 100 (length (pending m1))) as Hl by (by rewrite Hb, length_take).
    assert (0 < length batch)%nat as Hpos by (destruct batch; simpl; [done|lia]).
    rewrite (proj2 (Z.ltb_lt 0 (Z.of_nat (length batch)))) by lia.
    split; [exact Hq|]. split; [done|].
    cbn [with_stats with_batch count_bypassed m_stats syscalls_bypassed]. unfold count. rewrite <- Hl.
    apply wrap_small. unfold is_uint. lia.
Qed.
End Batches.

(** ** The calibrated clock *)

Section Calibration.
Context `{Build} {E : Type} `{Clocks E}.

(** A clock whose base is in the range of dates, at most the given instant. *)
Definition dated (c : HighPerformanceClock) : Prop := 0 ≤ base_timestamp_us c < 2 ^ 62.

(** The machine's clocks stay in range: 146 years of running, dates before the year 148000. *)
Hypothesis instant_range : ∀ e t e', instant e = (t, e') → 0 ≤ t < 2 ^ 62.
Hypothesis utc_range : ∀ e u e', utc e = (u, e') → 0 ≤ u < 2 ^ 62 * 1000.

(** What the clock shows when the monotonic clock shows [t]. *)
Definition shows (c : HighPerformanceClock) (t : Z) : Z :=
  base_timestamp_us c + duration_since t (base_instant c) / 1000.

Lemma duration_range t s : 0 ≤ t < 2 ^ 62 → 0 ≤ s → 0 ≤ duration_since t s / 1000 < 2 ^ 62 / 1000 + 1.
Proof.
  intros Ht Hs. unfold duration_since, saturating_sub.
  split; [apply Z.div_pos; lia|]. apply Z.div_lt_upper_bound; [lia|].
  change (2 ^ 62 / 1000 + 1) with 4611686018427388. lia.
Qed.

Lemma clock_now_run c e :
  dated c → 0 ≤ base_instant c →
  ∃ t e', instant e = (t, e') ∧ clock_now_micros c e = Val (Ok (shows c t), e').
Proof.
  intros Hd Hb. unfold clock_now_micros, elapsed, mbind, ask, of_ex, mret.
  destruct (instant e) as [t e'] eqn:Hi. exists t, e'. split; [done|].
  pose proof (duration_range t (base_instant c) (instant_range _ _ _ Hi) Hb) as Hr.
  change (2 ^ 62 / 1000 + 1) with 4611686018427388 in Hr.
  rewrite wrap_signed_small by lia. unfold dated in Hd. by rewrite ck_signed_ok by uint.
Qed.

(** Without recalibration the clock never goes back: a reading that comes
    later, whatever happened in between, is at least the earlier one.  The
    process-wide clock is made once and then kept as it is: nothing ever
    calibrates it again, however far the date drifts. *)
Theorem global_clock_monotone c e1 t1 c1 e1' e2 t2 c2 e2' :
  dated c → 0 ≤ base_instant c →
  global_now_micros (Some c) e1 = Val (Ok (t1, c1), e1') →
  real_time e1' ≤ real_time e2 →
  global_now_micros (Some c1) e2 = Val (Ok (t2, c2), e2') →
  t1 ≤ t2 ∧ c2 = c.
Proof.
  intros Hd Hb H1 Hr H2. unfold global_now_micros, mbind, mret in H1, H2.
  destruct (clock_now_run c e1 Hd Hb) as (i1 & x1 & Hi1 & Hc1). rewrite Hc1 in H1.
  injection H1 as <- <- <-.
  destruct (clock_now_run c e2 Hd Hb) as (i2 & x2 & Hi2 & Hc2). rewrite Hc2 in H2.
  injection H2 as <- <- <-. split; [|done].
  apply instant_real in Hi1, Hi2. unfold shows.
  assert (duration_since i1 (base_instant c) ≤ duration_since i2 (base_instant c)) as Hle
    by (unfold duration_since, saturating_sub; lia).
  apply (Z.div_le_mono _ _ 1000) in Hle; lia.
Qed.

(** A recalibration reads both clocks and leaves the clock within a
    millisecond of the date it read; it never panics. *)
Theorem recalibrate_close c e :
  dated c → 0 ≤ base_instant c →
  ∃ t e1 u e2 c', instant e = (t, e1) ∧ utc e1 = (u, e2) ∧
  recalibrate c e = Val (Ok c', e2) ∧
  Z.abs (shows c' t - u / 1000) ≤ 1000 ∧ last_calibration c' = t ∧ dated c' ∧ 0 ≤ base_instant c'.
Proof.
  intros Hd Hb. unfold recalibrate, timestamp_micros, mbind, ask, of_ex, mret.
  destruct (instant e) as [t e1] eqn:Hi. destruct (utc e1) as [u e2] eqn:Hu.
  pose proof (instant_range _ _ _ Hi) as Ht. pose proof (utc_range _ _ _ Hu) as Hur.
  pose proof (duration_range t (base_instant c) Ht Hb) as Hr.
  change (2 ^ 62 / 1000 + 1) with 4611686018427388 in Hr. unfold dated in Hd.
  assert (0 ≤ u / 1000 < 2 ^ 62) as Hum
    by (split; [apply Z.div_pos; lia|apply Z.div_lt_upper_bound; lia]).
  rewrite wrap_signed_small by lia. rewrite ck_signed_ok by uint. cbn [exec_bind].
  fold (shows c t). assert (Hsh : 0 ≤ shows c t < 2 ^ 62 + 4611686018427388) by (unfold shows; lia).
  rewrite ck_signed_ok by uint. cbn [exec_bind]. rewrite ck_signed_ok by uint. cbn [exec_bind].
  destruct (Z.ltb_spec 1000 (Z.abs (u / 1000 - shows c t))) as [Hlt|Hle];
    eexists t, e1, u, e2, _; (split; [done|]); (split; [done|]); (split; [done|]);
    unfold shows, dated; cbn [base_timestamp_us base_instant last_calibration].
  - unfold duration_since, saturating_sub. rewrite Z.sub_diag. change (Z.max 0 0 / 1000) with 0. lia.
  - fold (shows c t). lia.
Qed.

(** So the reading of a clock that is calibrated as it goes is taken less than
    its interval after a calibration: no reading is served by a base older
    than that. *)
Theorem calibrated_reading c e t c' e' :
  dated c → 0 ≤ base_instant c → 0 < calibration_interval_secs c →
  now_micros_with_calibration c e = Val (Ok (t, c'), e') →
  ∃ now e1, instant e = (now, e1) ∧
    (duration_since now (last_calibration c') / 1000000000 < calibration_interval_secs c
     ∨ real_time e1 ≤ last_calibration c').
Proof.
  intros Hd Hb Hp Hn. unfold now_micros_with_calibration, elapsed, mbind, ask, mret in Hn.
  destruct (instant e) as [now e1] eqn:Hi. exists now, e1. split; [done|].
  destruct (Z.leb_spec (calibration_interval_secs c)
    (duration_since now (last_calibration c) / 1000000000)) as [Hle|Hlt].
  - right. destruct (recalibrate_close c e1 Hd Hb) as (i & x & u & e2 & c1 & Hi1 & _ & Hr & _ & Hl & Hd1 & Hb1).
    rewrite Hr in Hn. destruct (clock_now_run c1 e2 Hd1 Hb1) as (i2 & x2 & _ & Hc). rewrite Hc in Hn.
    injection Hn as _ <- _. rewrite Hl. by apply instant_real in Hi1 as [? _].
  - left. destruct (clock_now_run c e1 Hd Hb) as (i2 & x2 & _ & Hc). rewrite Hc in Hn.
    by injection Hn as _ <- _.
Qed.
End Calibration.

(** ** The cached time *)

Section Cached.
Context `{Build} {E : Type} `{Clocks E}.
Hypothesis instant_in_range : ∀ e t e', instant e = (t, e') → 0 ≤ t < 2 ^ 62.
Hypothesis utc_in_range : ∀ e u e', utc e = (u, e') → 0 ≤ u < 2 ^ 62 * 1000.

(** The cache holds a date that was read no later than the instant of the last update. *)
Definition sampled (p : FastTimeProvider) : Prop :=
  cache_update_interval_ns p = 1000000 ∧ 0 ≤ monotonic_start p ∧ 0 ≤ last_update p ∧
  ∃ e u e', utc e = (u, e') ∧ time_cache p = wrap 64 u
    ∧ real_time e ≤ monotonic_start p + last_update p.

Lemma elapsed_run since e :
  ∃ t e', instant e = (t, e') ∧ 0 ≤ t < 2 ^ 62 ∧ real_time e ≤ t ≤ real_time e'
    ∧ elapsed since e = Val (Ok (duration_since t since), e').
Proof.
  unfold elapsed, mbind, ask, mret. destruct (instant e) as [t e'] eqn:Hi. exists t, e'.
  split; [done|]. split; [by eapply instant_in_range|]. split; [by eapply instant_real|done].
Qed.

Lemma nanos_duration t since : 0 ≤ t < 2 ^ 62 → 0 ≤ since →
  nanos (duration_since t since) = duration_since t since ∧ 0 ≤ duration_since t since
  ∧ t ≤ since + duration_since t since.
Proof.
  intros Ht Hs. unfold nanos, duration_since, saturating_sub.
  rewrite wrap_small by uint. lia.
Qed.

Lemma provider_new_sampled enable_vdso e p e' :
  provider_new enable_vdso e = Val (Ok p, e') → sampled p ∧ vdso_enabled p = enable_vdso.
Proof.
  unfold provider_new, mbind, ask, of_res, mret. destruct (utc e) as [u e1] eqn:Hu.
  destruct (instant e1) as [t e2] eqn:Hi.
  unfold since_epoch. rewrite (proj2 (Z.leb_le 0 u)) by (by eapply utc_in_range).
  cbn [ok_or]. destruct (elapsed_run t e2) as (t2 & e3 & _ & Ht2 & Hr2 & ->).
  intros [= <- _]. split; [|done].
  pose proof (instant_in_range _ _ _ Hi) as Ht. apply instant_real in Hi.
  pose proof (utc_real _ _ _ Hu) as Hur.
  destruct (nanos_duration t2 t Ht2 ltac:(lia)) as (Hn & Hd & Hle).
  unfold sampled. cbn. rewrite Hn. split; [done|]. split; [lia|]. split; [done|].
  exists e, u, e1. split; [done|]. split; [done|]. lia.
Qed.

(** Without the vDSO, the time returned is a date that was really read from
    the wall clock, before an instant no more than a millisecond behind the
    instant of the call; the cache stays in order for the next call. *)
Theorem cached_time_recent p e v p' e' :
  sampled p → vdso_enabled p = false →
  fast_now_nanos p e = Val (Ok (v, p'), e') →
  sampled p' ∧ v = time_cache p' ∧
  ∃ now e1, instant e = (now, e1)
    ∧ now ≤ monotonic_start p' + last_update p' + cache_update_interval_ns p'.
Proof.
  intros (Hc & Hm & Hl & Hs) Hv Hf. unfold fast_now_nanos in Hf. rewrite Hv in Hf.
  unfold mbind at 1 in Hf.
  destruct (elapsed_run (monotonic_start p) e) as (t & e1 & Hi & Ht & Hrt & Hel).
  rewrite Hel in Hf. destruct (nanos_duration t (monotonic_start p) Ht Hm) as (Hn & Hd & Hle).
  rewrite Hn, Hc in Hf. unfold mbind, mret in Hf.
  destruct (Z.ltb_spec 1000000 (saturating_sub (duration_since t (monotonic_start p)) (last_update p)))
    as [Hlt|Hge].
  - unfold update_time_cache, mbind, ask in Hf. destruct (utc e1) as [u e2] eqn:Hu.
    unfold since_epoch in Hf. rewrite (proj2 (Z.leb_le 0 u)) in Hf by (by eapply utc_in_range).
    destruct (elapsed_run (monotonic_start p) e2) as (t2 & e3 & _ & Ht2 & Hrt2 & Hel2).
    rewrite Hel2 in Hf. destruct (nanos_duration t2 (monotonic_start p) Ht2 Hm) as (Hn2 & Hd2 & Hle2).
    rewrite Hn2 in Hf. injection Hf as <- <- _. pose proof (utc_real _ _ _ Hu) as Hur.
    split; [|split; [done|exists t, e1; split; [done|cbn; lia]]].
    unfold sampled. cbn. split; [done|]. split; [done|]. split; [done|].
    exists e1, u, e2. split; [done|]. split; [done|]. lia.
  - injection Hf as <- <- _. split; [done|]. split; [done|]. exists t, e1. split; [done|].
    rewrite Hc. unfold saturating_sub in Hge. lia.
Qed.

(** With the vDSO the cache is never refreshed: the time is that of the raw
    clock, counted from the start of the machine, and where that clock fails
    the date at which the provider was made, for ever. *)
Theorem vdso_time_source p e v p' e' :
  vdso_enabled p = true → fast_now_nanos p e = Val (Ok (v, p'), e') →
  p' = p ∧
  match (monotonic_raw e).1 with
  | Some (s, n) => 0 ≤ s → 0 ≤ n → s * 1000000000 + n < 2 ^ 64 → v = s * 1000000000 + n
  | None => v = time_cache p
  end.
Proof.
  intros Hv Hf. unfold fast_now_nanos in Hf. rewrite Hv in Hf.
  unfold vdso_time_nanos, mbind, ask, mret in Hf.
  destruct (monotonic_raw e) as [[[s n]|] e1]; cbn [fst].
  - destruct (of_ex _ e1) as [[[t|x] e2]|] eqn:Ho; [|done..]. injection Hf as <- <- _.
    split; [done|]. intros Hs Hn Hb. apply of_ex_inv in Ho as [Ho _].
    rewrite !wrap_small in Ho by uint. rewrite mul_ok in Ho by uint. cbn [exec_bind] in Ho.
    rewrite add_ok in Ho by uint. by injection Ho as <-.
  - by injection Hf as <- <- _.
Qed.
End Cached.

(** ** The fast timer (fast_timing.rs) *)

Section FastTimer.
Context `{Build} {Q : Type → Type} `{ArrayQueue Q} {E : Type} `{Clocks E} `{Files E}.

(** [FastTimer], without the two instants that are never read. *)
Abbreviation FastTimer := (SystemCallBypassManager Q).

(* sdk common/fast_timing.rs:20-30 new *)
Definition fast_timer_new : M E FastTimer :=
  let% r := attempt (manager_new bypass_default) in
  let% bypass_manager := of_ex (unwrap_res r) in
  let% _ := ask instant in
  let% t := fast_timestamp_nanos bypass_manager in
  mret t.2.

(* sdk common/fast_timing.rs:34-36 now_nanos *)
Definition now_nanos (t : FastTimer) : M E (Z * FastTimer) := fast_timestamp_nanos t.

(* sdk common/fast_timing.rs:40-42 now_micros *)
Definition timer_now_micros (t : FastTimer) : M E (Z * FastTimer) :=
  let% r := now_nanos t in mret (r.1 / 1000, r.2).

(* sdk common/fast_timing.rs:46-48 now_millis *)
Definition timer_now_millis (t : FastTimer) : M E (Z * FastTimer) :=
  let% r := now_nanos t in mret (r.1 / 1000000, r.2).

(* sdk common/fast_timing.rs:52-54 elapsed_nanos *)
Definition elapsed_nanos (t : FastTimer) (start_nanos : Z) : M E (Z * FastTimer) :=
  let% r := now_nanos t in mret (saturating_sub r.1 start_nanos, r.2).

(** [FastStopwatch], its starting time. *)
(* sdk common/fast_timing.rs:105-107 start *)
Definition stopwatch_start (t : FastTimer) : M E (Z * FastTimer) := now_nanos t.

(* sdk common/fast_timing.rs:111-113 elapsed_nanos *)
Definition stopwatch_elapsed_nanos (t : FastTimer) (start_nanos : Z) : M E (Z * FastTimer) :=
  elapsed_nanos t start_nanos.

(* sdk common/fast_timing.rs:123-125 elapsed_micros *)
Definition stopwatch_elapsed_micros (t : FastTimer) (start_nanos : Z) : M E (Z * FastTimer) :=
  let% r := stopwatch_elapsed_nanos t start_nanos in mret (r.1 / 1000, r.2).

(* sdk common/fast_timing.rs:129-131 elapsed_millis *)
Definition stopwatch_elapsed_millis (t : FastTimer) (start_nanos : Z) : M E (Z * FastTimer) :=
  let% r := stopwatch_elapsed_nanos t start_nanos in mret (r.1 / 1000000, r.2).

(** On a raw clock that works and does not go back, a stopwatch measures the difference of two
    readings of it. *)
Theorem stopwatch_measures (t t1 : FastTimer) start e e1 e2 d t2 e3 s n s' n' :
  enable_fast_time (m_config t) = true → vdso_enabled (m_time t) = true →
  (monotonic_raw e).1 = Some (s, n) → (monotonic_raw e2).1 = Some (s', n') →
  0 ≤ s → 0 ≤ n → 0 ≤ s' → 0 ≤ n' →
  s * 1000000000 + n ≤ s' * 1000000000 + n' < 2 ^ 64 →
  stopwatch_start t e = Val (Ok (start, t1), e1) →
  stopwatch_elapsed_nanos t1 start e2 = Val (Ok (d, t2), e3) →
  d = (s' * 1000000000 + n') - (s * 1000000000 + n).
Proof.
  intros Hf Hv Hr1 Hr2 Hs Hn Hs' Hn' Hle Hst Hel.
  unfold stopwatch_elapsed_nanos, elapsed_nanos, stopwatch_start, now_nanos, fast_timestamp_nanos
    in Hst, Hel.
  rewrite Hf in Hst. apply mbind_Ok_inv in Hst as ([v p] & x1 & Hp & Hst).
  apply vdso_time_source in Hp as [-> Hval]; [|done]. rewrite Hr1 in Hval.
  apply mret_inv in Hst as [Hst _]. cbn [fst snd] in Hst. injection Hst as <- <-.
  rewrite (Hval Hs Hn ltac:(lia)) in Hel.
  apply mbind_Ok_inv in Hel as ([v2 m2] & x2 & Hq & Hel).
  apply mret_inv in Hel as [Hel _]. cbn [fst snd] in Hel. injection Hel as <- _.
  cbn [m_config with_time with_stats] in Hq. rewrite Hf in Hq.
  apply mbind_Ok_inv in Hq as ([v3 p3] & x3 & Hp3 & Hq).
  apply vdso_time_source in Hp3 as [_ Hval3]; [|done]. rewrite Hr2 in Hval3.
  apply mret_inv in Hq as [Hq _]. injection Hq as -> _.
  rewrite (Hval3 Hs' Hn' ltac:(lia)). unfold saturating_sub. lia.
Qed.
End FastTimer.

(** ** Concrete blocks and batches *)

Lemma blocks_disjoint_witness :
  ∃ blocks offset', @allocate_all debug [100; 2 ^ 62; 1; 0; 24] 0 = Val (blocks, offset')
    ∧ Forall in_pool blocks ∧ StronglySorted before blocks.
Proof. apply (@blocks_disjoint debug). repeat constructor; cbn; lia. Defined.

Example blocks_example :
  @allocate_all debug [100; 2 ^ 62; 1; 0; 24] 0 = Val ([(0, 100); (104, 1); (112, 0); (112, 24)], 136).
Proof. reflexivity. Qed.

(** The kernel 5.0 passes for one with io_uring, which came with 5.1. *)
Example kernel_5_0 : supports_io_uring "5.0.21" = true ∧ supports_io_uring "4.19.0" = false.
Proof. split; reflexivity. Qed.
