(* ===== verification/Executor.v ===== *)
(** * The trade executor (sdk trading/core/executor.rs)

    One trade: the protocol's builder makes the instructions, the middlewares
    see them, and they are simulated, or submitted through the channels and
    then, when the caller waits, confirmed.  [executor] is the instance of the
    interface [Executor] the client is written against, and [process_rpc] lets
    the client and the bot run on the same process.  Clocks read for the log
    are not modelled. *)

From Stdlib Require Import String.
From S2P Require Import Prelude F64 Solana FastFn GasFee Effects PumpSwapUtils Params Client Spl Trader PumpSwapIx Factory TxBuild Channels Confirm Submit.

#[local] Open Scope string_scope.
#[local] Open Scope Z_scope.
#[local] Open Scope list_scope.

(** ** The environment, seen from the process *)

Definition lift {E A : Type} (f : E → A * E) (w : Process E) : A * Process E :=
  let '(a, e) := f (p_env w) in (a, mk_Proc e (p_chain w) (p_budget w)).

#[export] Instance process_rpc {E : Type} `{Rpc E} : Rpc (Process E) := {|
  rpc_get_account := λ p, lift (rpc_get_account p);
  rpc_get_multiple_accounts := λ l, lift (rpc_get_multiple_accounts l);
  rpc_get_token_account_balance := λ p, lift (rpc_get_token_account_balance p);
  rpc_get_balance := λ p, lift (rpc_get_balance p);
  rpc_get_latest_blockhash := lift rpc_get_latest_blockhash;
  rpc_get_program_accounts := λ p o l k, lift (rpc_get_program_accounts p o l k);
  rpc_timeout := λ ms w,
    (λ e, mk_Proc e (p_chain w) (p_budget w)) <$> rpc_timeout ms (p_env w);
  sleep_ms := λ ms w, mk_Proc (sleep_ms ms (p_env w)) (p_chain w) (p_budget w);
  now_micros := lift now_micros;
|}.

(** The dry run of a transaction: an error of the transaction comes as text. *)
Class Simulation (E : Type) `{TxSdk} := {
  rpc_simulate_transaction : VersionedTransaction → E → result string (option string) * E;
}.

(** What the parameters of a swap carry of the infrastructure. *)
Record Infrastructure := mk_Infra {
  rpc : bool;
  swqos_clients : list SwqosClient;
  middleware_manager : option MiddlewareManager;
}.

(** [{}] of an error. *)
Definition error_text (e : AnyError) : string :=
  match e with Typed te => te_message te | Message s => s end.

Definition is_buy_trade (t : TradeType) : bool :=
  match t with TBuy | TCreateAndBuy => true | _ => false end.

Section Executor.
Context `{Build} `{Sdk} `{TxSdk} {E : Type} `{Rpc E} `{!Confirm E} `{!Sending E} `{!Simulation E}
  `{KeyText} `{Sha256} `{HashOrder} `{TxErrorText}.

(** ** Simulation *)

(* sdk trading/core/executor.rs:253-357 simulate_transaction *)
Definition simulate_transaction (inf : Infrastructure) (protocol_name : string)
    (instructions : list Instruction) (p : SwapParams) (is_buy with_tip : bool) :
    M (Process E) (SwapResult AnyError) :=
  if negb (rpc inf) then mfail "RPC client is required for simulation"
  else
    let gas_fee_configs :=
      get_strategies (gas_fee_strategy p) (if is_buy then TBuy else TSell) in
    let% config := of_res (ok_or
      (head (filter (λ c, bool_decide (c.1.1 = SwDefault)) gas_fee_configs))
      "No default gas fee strategy found") in
    let tip_amount := if (with_tip : bool) then tip config.2 else f_zero in
    let% transaction := in_budget (build_transaction (payer p) (cu_limit config.2)
      (cu_price config.2) instructions (address_lookup_table_account p) (recent_blockhash p)
      (middleware_manager inf) protocol_name is_buy false pubkey_default tip_amount
      (durable_nonce p)) in
    let% err := in_env (call (rpc_simulate_transaction transaction)) in
    let% signature := of_res (ok_or (head (signatures transaction))
                                "Transaction has no signatures") in
    mret match err with
         | Some err => (false, [signature], Some (Message err), [])
         | None => (true, [signature], None, [])
         end.

(** ** A swap *)

(* sdk trading/core/executor.rs:69-93 swap, instructions *)
Definition final_instructions (x : GenericTradeExecutor) (inf : Infrastructure) (p : SwapParams) :
    M (Process E) (list Instruction) :=
  let is_buy := is_buy_trade (trade_type p) in
  let% rand := in_env (ask random_index) in
  let% instructions := in_chain (if is_buy then build_buy (instruction_builder x) rand p
                                 else build_sell (instruction_builder x) rand p) in
  let% _ := of_res (preprocess instructions) in
  of_res match middleware_manager inf with
         | Some m => apply_middlewares_process_protocol_instructions m instructions
                       (protocol_name x) is_buy
         | None => Ok instructions
         end.

Definition shared_context (x : GenericTradeExecutor) (inf : Infrastructure) (p : SwapParams)
    (instructions : list Instruction) : SwqosSharedContext :=
  let is_buy := is_buy_trade (trade_type p) in
  mk_Shared (payer p) instructions (address_lookup_table_account p) (recent_blockhash p)
    (durable_nonce p) (middleware_manager inf) (protocol_name x) is_buy false
    (if is_buy then true else with_tip p).

(** Submission; a failure of the checks is a failed trade without signatures,
    and errors are kept as text only. *)
(* sdk trading/core/executor.rs:162-190 swap, execute_parallel *)
Definition submit (x : GenericTradeExecutor) (inf : Infrastructure) (p : SwapParams)
    (instructions : list Instruction) : M (Process E) (SwapResult AnyError) :=
  let% r := attempt (execute_parallel (swqos_clients inf) (shared_context x inf p instructions)
                       (gas_fee_strategy p) (check_min_tip p)) in
  mret match r with
       | Ok (success, sigs, last_error, timings) =>
           (success, sigs, (λ e, Message (error_text e)) <$> last_error, timings)
       | Err e => (false, [], Some (Message e), [])
       end.

(** What is reported after the submission: when the caller waits and something
    was submitted, what polling says replaces what submission said. *)
(* sdk trading/core/executor.rs:194-241 swap, confirmation *)
Definition confirm (inf : Infrastructure) (p : SwapParams) (submitted : SwapResult AnyError) :
    M (Process E) (SwapResult AnyError) :=
  let '(ok, signatures, err, submit_timings) := submitted in
  if wait_tx_confirmed p && rpc inf && negb (bool_decide (signatures = [])) then
    let% poll_res := in_env (poll_any_transaction_confirmation signatures true) in
    mret match poll_res with
         | Ok _ => (true, signatures, None, submit_timings)
         | Err e => (false, signatures, Some e, submit_timings)
         end
  else mret (ok, signatures, err, submit_timings).

(* sdk trading/core/executor.rs:57-244 swap *)
Definition generic_swap (x : GenericTradeExecutor) (inf : Infrastructure) (p : SwapParams) :
    M (Process E) (SwapResult AnyError) :=
  let is_buy := is_buy_trade (trade_type p) in
  let% instructions := final_instructions x inf p in
  if simulate p then
    simulate_transaction inf (protocol_name x) instructions p is_buy
      (if is_buy then true else with_tip p)
  else
    let% submitted := submit x inf p instructions in
    confirm inf p submitted.

#[export] Instance executor (inf : Infrastructure) : Executor (Process E) :=
  {| swap := λ dex p, generic_swap (create_executor dex) inf p |}.

(** ** What building leaves behind *)

Lemma keeps_in_chain {A} (R : relation (Process E)) (m : prog A) :
  (∀ w r c, run m (p_chain w) = Val (r, c) → R w (mk_Proc (p_env w) c (p_budget w))) →
  keeps R (in_chain m).
Proof.
  intros HR w r w'. unfold in_chain. destruct (run m (p_chain w)) as [[x c]|] eqn:Hr; [|done].
  intros [= <- <-]. by eapply HR.
Qed.

Lemma keeps_in_env {A} (R : relation (Process E)) (m : M E A) :
  (∀ w r e, m (p_env w) = Val (r, e) → R w (mk_Proc e (p_chain w) (p_budget w))) →
  keeps R (in_env m).
Proof.
  intros HR w r w'. unfold in_env. destruct (m (p_env w)) as [[x e]|] eqn:Hr; [|done].
  intros [= <- <-]. by eapply HR.
Qed.

(** A step that touches the address caches alone. *)
Definition caches_only (w w' : Process E) : Prop :=
  p_env w' = p_env w ∧ p_budget w' = p_budget w.

#[local] Instance caches_only_preorder : PreOrder caches_only.
Proof. split; [by intros w|]. intros w1 w2 w3 [? ?] [? ?]. split; congruence. Qed.

Lemma final_instructions_env x inf p w r w' :
  final_instructions x inf p w = Val (r, w') →
  p_env w' = (random_index (p_env w)).2 ∧ p_budget w' = p_budget w.
Proof.
  unfold final_instructions. unfold mbind at 1, in_env, ask.
  destruct (random_index (p_env w)) as [rand e]. intros Hf.
  change (caches_only (mk_Proc e (p_chain w) (p_budget w)) w').
  revert Hf. generalize (mk_Proc e (p_chain w) (p_budget w)).
  intros w1 Hf. refine (_ w1 r w' Hf). clear.
  apply keeps_bind; [apply _|apply keeps_in_chain; by intros ? ? ? _|].
  intros ixs. apply keeps_bind; [apply _|apply keeps_of_res, _|]. intros _.
  apply keeps_of_res, _.
Qed.

Lemma confirm_returns inf p s w r w' : confirm inf p s w = Val (r, w') → ∃ x, r = Ok x.
Proof.
  unfold confirm. destruct s as [[[ok sigs] err] timings]. case_match; [|intros [= <- <-]; eauto].
  unfold mbind, in_env. destruct (poll_any_transaction_confirmation sigs true (p_env w))
    as [[[[sig|e]|m] e']|] eqn:Hp; [| | |done].
  - intros [= <- <-]. eauto.
  - intros [= <- <-]. eauto.
  - by apply poll_no_error in Hp.
Qed.

Lemma submit_returns x inf p ixs w r w' : submit x inf p ixs w = Val (r, w') → ∃ s, r = Ok s.
Proof.
  unfold submit, mbind, attempt. destruct (execute_parallel _ _ _ _) as [[y w1]|]; [|done].
  intros [= <- <-]. eauto.
Qed.

(** A successful submission has signatures. *)
Lemma submit_success x inf p ixs w sigs err timings w' :
  submit x inf p ixs w = Val (Ok (true, sigs, err, timings), w') → sigs ≠ [].
Proof.
  unfold submit, mbind, attempt.
  destruct (execute_parallel _ _ _ _) as [[[[[[ok s] e] t]|m] w1]|] eqn:He; [| |done].
  - intros [= -> -> _ _ _]. by apply submission_result in He as (_ & _ & Hs & _); auto.
  - by intros [= ? ?].
Qed.

(** C8. A trade that returns an error has not been submitted: the error is that
    of building its instructions, and nothing but a random number has been
    asked of the environment.  Whatever goes wrong later is reported as a trade
    without success. *)
Theorem trade_error_is_clean x inf p w msg w' :
  simulate p = false → generic_swap x inf p w = Val (Err msg, w') →
  final_instructions x inf p w = Val (Err msg, w')
  ∧ p_env w' = (random_index (p_env w)).2 ∧ p_budget w' = p_budget w.
Proof.
  intros Hs. unfold generic_swap. rewrite Hs. unfold mbind at 1.
  destruct (final_instructions x inf p w) as [[[ixs|m] w1]|] eqn:Hf; [| |done].
  - unfold mbind. destruct (submit x inf p ixs w1) as [[[s|m] w2]|] eqn:Hsub; [| |done].
    + intros Hc. by apply confirm_returns in Hc as [? ?].
    + by apply submit_returns in Hsub as [? ?].
  - intros [= <- <-]. split; [done|]. by eapply final_instructions_env.
Qed.

(** C7. When the caller waits, success means that the node has reported one of
    the trade's signatures as confirmed without an error. *)
Theorem confirmed_trade_is_reported x inf p w sigs err timings w' :
  simulate p = false → wait_tx_confirmed p = true → rpc inf = true →
  generic_swap x inf p w = Val (Ok (true, sigs, err, timings), w') →
  err = None ∧ ∃ sig, sig ∈ sigs ∧ reported sigs sig.
Proof.
  intros Hs Hw Hr Hg. unfold generic_swap in Hg. rewrite Hs in Hg. m_inv.
  destruct a0 as [[[ok l] e2] t2]. unfold confirm in Hg. rewrite Hw, Hr in Hg. cbn [andb] in Hg.
  destruct (bool_decide (l = [])) eqn:Hl; cbn [negb] in Hg.
  - apply bool_decide_eq_true in Hl. m_inv. injection Hg as -> -> -> ->.
    by apply submit_success in R0.
  - m_inv. unfold in_env in R1.
    destruct (poll_any_transaction_confirmation l true (p_env e0)) as [[[r|m] e3]|] eqn:Hp; [|done..].
    injection R1 as -> <-. destruct a0 as [sig|e4]; [|done]. injection Hg as <- <- <-.
    apply poll_sound in Hp. split; [done|]. by exists sig.
Qed.

(** Waiting for the confirmation of what was submitted ends in failure when
    the first query of the statuses fails, whatever becomes of the trade. *)
Theorem failed_query_hides_submission inf p ok sigs err timings w msg e' :
  wait_tx_confirmed p = true → rpc inf = true → sigs ≠ [] →
  rpc_get_signature_statuses sigs (p_env w) = (Err msg, e') →
  confirm inf p (ok, sigs, err, timings) w
  = Val (Ok (false, sigs, Some (Message msg), timings), mk_Proc e' (p_chain w) (p_budget w)).
Proof.
  intros Hw Hr Hs Hq. unfold confirm. rewrite Hw, Hr, bool_decide_false by done. cbn [andb negb].
  destruct sigs as [|s l]; [done|]. unfold mbind at 1, in_env, poll_any_transaction_confirmation.
  cbn [negb]. unfold mbind at 1, ask. unfold mbind at 1. unfold POLL_FUEL.
  cbn [poll_loop]. unfold mbind at 1, poll_once.
  rewrite Z.sub_diag. cbn [Z.leb POLL_TIMEOUT_MS Z.compare]. by rewrite Hq.
Qed.

(** The dry run of a trade is the same with and without its tip: the tip is
    looked up and then left out of the transaction. *)
Theorem simulation_ignores_tip inf name ixs p is_buy :
  simulate_transaction inf name ixs p is_buy true ≃ simulate_transaction inf name ixs p is_buy false.
Proof.
  intros w. unfold simulate_transaction. destruct (rpc inf); [|done]. cbn [negb].
  unfold mbind at 1 5. unfold of_res. destruct (ok_or _ _) as [c|m]; [|done].
  done.
Qed.

(** ** Sales need a channel without a tip *)

(** A sale without a tip through channels that all want one is a failure,
    and nothing is submitted. *)
Theorem sale_needs_default_channel x inf p w ok sigs err timings w' :
  trade_type p = TSell → with_tip p = false → simulate p = false →
  Forall (λ c, ch_type c ≠ SwDefault) (swqos_clients inf) →
  generic_swap x inf p w = Val (Ok (ok, sigs, err, timings), w') →
  ok = false ∧ sigs = [] ∧ p_env w' = (random_index (p_env w)).2.
Proof.
  intros Ht Htip Hs Hc Hg. unfold generic_swap in Hg. rewrite Hs in Hg. m_inv.
  apply final_instructions_env in R as [He _]. rewrite <- He. clear He.
  assert (Hchk : ∃ m, checked_configs (swqos_clients inf) false false (durable_nonce p)
                   (gas_fee_strategy p) (check_min_tip p) = Err m).
  { unfold checked_configs. destruct (swqos_clients inf) as [|c l]; [by eexists|].
    replace (existsb _ (c :: l)) with false; [by eexists|]. symmetry. apply not_true_iff_false.
    rewrite existsb_exists. intros (c' & Hin & Hd). apply bool_decide_eq_true in Hd.
    rewrite <- list_elem_of_In in Hin. rewrite Forall_forall in Hc. by apply Hc in Hin. }
  destruct Hchk as [m Hm].
  unfold submit, mbind, attempt, execute_parallel, shared_context, of_res in R0. rewrite Ht, Htip in R0.
  cbn [is_buy_trade sh_is_buy sh_with_tip sh_durable_nonce] in R0.
  unfold mbind in R0. rewrite Hm in R0. injection R0 as <- <-.
  unfold confirm in Hg. rewrite bool_decide_true, andb_false_r in Hg by done.
  injection Hg as <- <- _ _ <-. done.
Qed.
End Executor.

(** ** Concrete trades *)

(** Every dry run succeeds. *)
Definition toy_simulation : @Simulation Sim toy_tx_sdk :=
  {| rpc_simulate_transaction := λ _ e, (Ok None, e) |}.

Definition with_fees (kind : TradeType) (g : GasFeeStrategy) (s : SwapParams) : SwapParams :=
  mk_Swap (payer s) kind (input_mint s) None (output_mint s) None (input_amount s)
    (slippage_basis_points s) None (recent_blockhash s) (wait_tx_confirmed s) (protocol_params s)
    false None false (create_input_mint_ata s) (close_input_mint_ata s) false false None g false
    false false None (use_exact_sol_amount s).

Abbreviation toy_generic_swap :=
  (@generic_swap toy_sdk toy_tx_sdk Sim sim_rpc sim_confirm toy_sending toy_simulation toy_text
     toy_sha toy_hash_order toy_error_text).

Definition toy_executor : GenericTradeExecutor :=
  @create_executor release toy_sdk toy_text DPumpSwap.

Definition rpc_only : Infrastructure := mk_Infra true [rpc_channel] None.
Definition jito_only : Infrastructure := mk_Infra true [jito_channel] None.

Definition toy_purchase : SwapParams := with_fees TBuy toy_strategy toy_buy.
Definition toy_sale : SwapParams := with_fees TSell bot_gas_fee_strategy toy_sell.

Definition outcome_env {A W} (dflt : W) (m : exec (result string A * W)) : W :=
  match m with Val (_, w) => w | Panic => dflt end.

Definition outcome {A W} (m : exec (result string A * W)) : option (result string A) :=
  match m with Val (r, _) => Some r | Panic => None end.

Lemma outcome_eq {A W} (dflt : W) (m : exec (result string A * W)) r :
  outcome m = Some r → m = Val (r, outcome_env dflt m).
Proof. destruct m as [[x w]|]; [|done]. by intros [= ->]. Qed.

Definition after_purchase : Process Sim :=
  outcome_env toy_process (toy_generic_swap toy_executor rpc_only toy_purchase toy_process).
Definition after_sale : Process Sim :=
  outcome_env toy_process (toy_generic_swap toy_executor jito_only toy_sale toy_process).

Example toy_purchase_confirmed :
  match toy_generic_swap toy_executor rpc_only toy_purchase toy_process with
  | Val (Ok (ok, sigs, _, _), w) => (ok, length sigs, sim_slept (p_env w)) = (true, 1%nat, [1000; 1000; 1000])
  | _ => False
  end.
Proof. vm_compute. reflexivity. Qed.

Definition toy_nothing : SwapParams :=
  with_fees TBuy toy_strategy (toy_swap (toy_pool_params 1000000 30000) (Some 0) true false).

Lemma trade_error_is_clean_witness :
  @final_instructions toy_sdk toy_tx_sdk Sim toy_sending toy_executor rpc_only toy_nothing
    toy_process = Val (Err "Amount cannot be zero", toy_process)
  ∧ p_env toy_process = (@random_index Sim toy_tx_sdk toy_sending (p_env toy_process)).2
  ∧ p_budget toy_process = p_budget toy_process.
Proof.
  apply (@trade_error_is_clean toy_sdk toy_tx_sdk Sim sim_rpc sim_confirm toy_sending toy_simulation
    toy_text toy_sha toy_hash_order toy_error_text toy_executor rpc_only toy_nothing);
    reflexivity.
Defined.

Lemma confirmed_trade_is_reported_witness :
  @None AnyError = None ∧ ∃ sig, sig ∈ ["11/1146/5"] ∧ @reported Sim sim_rpc sim_confirm ["11/1146/5"] sig.
Proof.
  refine (@confirmed_trade_is_reported toy_sdk toy_tx_sdk Sim sim_rpc sim_confirm toy_sending
    toy_simulation toy_text toy_sha toy_hash_order toy_error_text toy_executor rpc_only toy_purchase
    toy_process ["11/1146/5"] None [(SwDefault, 42)] after_purchase eq_refl eq_refl eq_refl _).
  apply outcome_eq. vm_compute. reflexivity.
Defined.

(** A node that answers no query of the statuses. *)
Definition silent_node : Confirm Sim := {|
  rpc_get_signature_statuses := λ _ e, (Err "503", e);
  rpc_get_transaction := λ _ e, (Ok None, e);
  instant_ms := λ e, sim_clock e / 1000;
  instant_sleep := sim_instant_sleep;
  instant_statuses := λ _ _, Z.le_refl _;
  instant_transaction := λ _ _, Z.le_refl _;
|}.

Lemma failed_query_hides_submission_witness :
  @confirm Sim sim_rpc silent_node toy_error_text rpc_only toy_purchase
    (true, ["s"], None, [(SwDefault, 42)]) toy_process
  = Val (Ok (false, ["s"], Some (Message "503"), [(SwDefault, 42)]), toy_process).
Proof.
  apply (@failed_query_hides_submission Sim sim_rpc silent_node toy_error_text rpc_only toy_purchase
    true ["s"] None [(SwDefault, 42)] toy_process "503" (p_env toy_process)); done.
Defined.

Lemma sale_needs_default_channel_witness :
  false = false ∧ @nil string = []
  ∧ p_env after_sale = (@random_index Sim toy_tx_sdk toy_sending (p_env toy_process)).2.
Proof.
  refine (@sale_needs_default_channel toy_sdk toy_tx_sdk Sim sim_rpc sim_confirm toy_sending
    toy_simulation toy_text toy_sha toy_hash_order toy_error_text toy_executor jito_only toy_sale
    toy_process false [] (Some (Message "No Rpc Default Swqos configured.")) [] after_sale
    eq_refl eq_refl eq_refl _ _).
  - by repeat constructor.
  - apply outcome_eq. vm_compute. reflexivity.
Defined.
