(* ===== verification/Middlewares.v ===== *)
(** * Middlewares that only look (sdk trading/middleware/, example middleware_system)

    The middleware of the library prints the instructions, and so does the one
    of the example; both hand them on as they are.  A client with any number of
    such middlewares trades as one without. *)

From Stdlib Require Import String.
From S2P Require Import Prelude F64 Solana FastFn GasFee Effects Params Client PumpSwapIx Factory TxBuild Channels Confirm Submit Executor.

#[local] Open Scope string_scope.
#[local] Open Scope Z_scope.
#[local] Open Scope list_scope.

(** A middleware that hands on what it is given. *)
Definition hands_on (w : InstructionMiddleware) : Prop := ∀ ixs name is_buy,
  process_protocol_instructions w ixs name is_buy = Ok ixs
  ∧ process_full_instructions w ixs name is_buy = Ok ixs.

Lemma logging_hands_on : hands_on LoggingMiddleware.
Proof. done. Qed.

Lemma apply_hands_on process m ixs :
  (∀ w ixs, w ∈ m → process w ixs = Ok ixs) → apply_middlewares process m ixs = Ok ixs.
Proof.
  revert ixs. induction m as [|w m IH]; intros ixs Hm; [done|]. cbn [apply_middlewares].
  rewrite Hm by by left. destruct ixs; [done|]. apply IH. intros w' ixs' Hw. apply Hm. by right.
Qed.

Definition only_look (m : MiddlewareManager) : Prop := Forall hands_on m.

Section Look.
Context `{Build} `{Sdk} `{TxSdk} {E : Type} `{Rpc E} `{!Confirm E} `{!Sending E} `{!Simulation E}
  `{KeyText} `{Sha256} `{HashOrder} `{TxErrorText}.
Context (m : MiddlewareManager) (Hm : only_look m).

Lemma full_unchanged ixs name is_buy :
  apply_middlewares_process_full_instructions m ixs name is_buy = Ok ixs.
Proof.
  apply apply_hands_on. intros w l Hw. unfold only_look in Hm. rewrite Forall_forall in Hm.
  by apply Hm.
Qed.

Lemma protocol_unchanged ixs name is_buy :
  apply_middlewares_process_protocol_instructions m ixs name is_buy = Ok ixs.
Proof.
  apply apply_hands_on. intros w l Hw. unfold only_look in Hm. rewrite Forall_forall in Hm.
  by apply Hm.
Qed.

Lemma build_unseen payer unit_limit unit_price ixs table hash name is_buy with_tip tip_account
    tip_amount nonce :
  build_transaction payer unit_limit unit_price ixs table hash (Some m) name is_buy with_tip tip_account
    tip_amount nonce
  ≃ build_transaction payer unit_limit unit_price ixs table hash None name is_buy with_tip tip_account
      tip_amount nonce.
Proof.
  intros cache. unfold build_transaction. apply mbind_proper; [done|]. intros r.
  apply mbind_proper; [done|]. intros l cache'. unfold build_rest.
  destruct (extend_compute_budget_instructions _ _ _ _) as [l' cache''].
  destruct (get_transaction_blockhash _ _) as [h|]; [|done].
  unfold build_versioned_transaction. by rewrite full_unchanged.
Qed.

Lemma in_budget_proper {A} (f g : M BudgetCache A) : f ≃ g → in_budget (E := E) f ≃ in_budget g.
Proof. intros Hfg w. unfold in_budget. by rewrite Hfg. Qed.

(** The parts of a trade with and without the middlewares. *)
Variables (has_rpc : bool) (clients : list SwqosClient).
Definition infra_with (middlewares : option MiddlewareManager) : Infrastructure :=
  mk_Infra has_rpc clients middlewares.
Abbreviation looking := (infra_with (Some m)).
Abbreviation plain := (infra_with None).

Lemma job_unseen x p ixs job w :
  run_one_swqos_job (shared_context x looking p ixs) job w
  = run_one_swqos_job (shared_context x plain p ixs) job w.
Proof.
  unfold run_one_swqos_job, shared_context.
  cbn [sh_payer sh_instructions sh_address_lookup_table_account sh_recent_blockhash
       sh_middleware_manager sh_protocol_name sh_is_buy sh_durable_nonce sh_with_tip
       sh_wait_transaction_confirmed middleware_manager].
  by rewrite (in_budget_proper _ _ (build_unseen _ _ _ _ _ _ _ _ _ _ _ _)).
Qed.

Lemma jobs_unseen x p ixs jobs schedule w :
  run_jobs (shared_context x looking p ixs) jobs schedule w
  = run_jobs (shared_context x plain p ixs) jobs schedule w.
Proof.
  revert w. induction schedule as [|i schedule IH]; intros w; [done|]. cbn [run_jobs].
  destruct (jobs !! i) as [job|]; [|apply IH]. rewrite job_unseen.
  destruct (run_one_swqos_job _ job w) as [r w1]. by rewrite IH.
Qed.

Lemma execute_unseen x p ixs :
  execute_parallel clients (shared_context x looking p ixs) (gas_fee_strategy p) (check_min_tip p)
  ≃ execute_parallel clients (shared_context x plain p ixs) (gas_fee_strategy p) (check_min_tip p).
Proof.
  unfold execute_parallel. apply mbind_proper; [done|]. intros configs.
  apply mbind_proper; [done|]. intros jobs. apply mbind_proper; [done|]. intros schedule.
  apply mbind_proper; [|done]. intros w. unfold ask. by rewrite jobs_unseen.
Qed.

Lemma attempt_proper {A} (f g : M (Process E) A) : f ≃ g → attempt f ≃ attempt g.
Proof. intros Hfg w. unfold attempt. by rewrite Hfg. Qed.

Lemma submit_unseen x p ixs : submit x looking p ixs ≃ submit x plain p ixs.
Proof. unfold submit. apply mbind_proper; [apply attempt_proper, execute_unseen|done]. Qed.

Lemma simulate_unseen name ixs p is_buy with_tip :
  simulate_transaction looking name ixs p is_buy with_tip
  ≃ simulate_transaction plain name ixs p is_buy with_tip.
Proof.
  unfold simulate_transaction, infra_with. cbn [rpc middleware_manager]. destruct (negb has_rpc); [done|].
  apply mbind_proper; [done|]. intros config.
  apply mbind_proper; [apply in_budget_proper, build_unseen|done].
Qed.

(** C37. A client whose middlewares hand on what they are given trades as one
    without: whatever the protocol, the parameters and the process, the same is
    sent, the same is asked of the node, and the same is returned. *)
Theorem middlewares_that_look_are_unseen x p :
  generic_swap x (infra_with (Some m)) p ≃ generic_swap x (infra_with None) p.
Proof.
  unfold generic_swap. apply mbind_proper.
  - unfold final_instructions, infra_with. cbn [middleware_manager]. apply mbind_proper; [done|]. intros rand.
    apply mbind_proper; [done|]. intros ixs. apply mbind_proper; [done|]. intros [].
    by rewrite protocol_unchanged.
  - intros ixs. destruct (simulate p); [apply simulate_unseen|].
    apply mbind_proper; [apply submit_unseen|done].
Qed.
End Look.

(** ** The library's own, twice *)

Definition toy_lookers : MiddlewareManager := add_middleware with_common_middlewares LoggingMiddleware.

Lemma middlewares_that_look_are_unseen_witness :
  toy_generic_swap toy_executor (mk_Infra true [rpc_channel] (Some toy_lookers)) toy_purchase toy_process
  = toy_generic_swap toy_executor rpc_only toy_purchase toy_process.
Proof.
  apply (@middlewares_that_look_are_unseen toy_sdk toy_tx_sdk Sim sim_rpc sim_confirm toy_sending
    toy_simulation toy_text toy_sha toy_hash_order toy_error_text toy_lookers).
  repeat constructor.
Defined.
