(* ===== verification/Startup.v ===== *)
(** * Start-up (sdk lib.rs, common/types.rs; bot trading.rs)

    The infrastructure (rents, submission channels, cores), the trading client
    with its wrapped-SOL account, and the trader of the bot.  Clients of
    channels are numbered in the order they are made.  What the node is asked
    for besides the interface [Rpc], and the cores of the machine, are classes.
    The process-wide instance of the client is in [Wallet], the pools of sending
    workers in [Workers]. *)

From Stdlib Require Import Ascii String.
From S2P Require Import Prelude F64 Solana Spl FastFn GasFee Effects Text Params Client Trader Wsol TxBuild Channels Confirm Submit Http Quic Sender Executor.

#[local] Open Scope string_scope.
#[local] Open Scope Z_scope.
#[local] Open Scope list_scope.

(** ** Configuration *)

(* sdk common/types.rs:8-18 InfrastructureConfig *)
Record InfrastructureConfig := mk_InfraConfig {
  ic_rpc_url : string;
  ic_swqos_configs : list SwqosConfig;
  ic_commitment : string;
  ic_swqos_cores_from_end : bool;
  ic_mev_protection : bool;
}.

(* sdk common/types.rs:21-33 InfrastructureConfig::new *)
Definition infra_config_new (rpc_url : string) (swqos_configs : list SwqosConfig)
    (commitment : string) : InfrastructureConfig :=
  mk_InfraConfig rpc_url swqos_configs commitment false false.

(* sdk common/types.rs:79-98 TradeConfig *)
Record TradeConfig := mk_TradeConfig {
  tg_rpc_url : string;
  tg_swqos_configs : list SwqosConfig;
  tg_commitment : string;
  tg_create_wsol_ata_on_startup : bool;
  tg_use_seed_optimize : bool;
  tg_log_enabled : bool;
  tg_check_min_tip : bool;
  tg_swqos_cores_from_end : bool;
  tg_mev_protection : bool;
}.

(** The builder has the fields of the configuration; each of its methods sets
    one, and [build] returns them. *)
(* sdk common/types.rs:155-167 TradeConfigBuilder::new *)
Definition trade_config_builder (rpc_url : string) (swqos_configs : list SwqosConfig)
    (commitment : string) : TradeConfig :=
  mk_TradeConfig rpc_url swqos_configs commitment true true true false false false.

(* sdk common/types.rs:170-173 create_wsol_ata_on_startup *)
Definition set_create_wsol_ata (v : bool) (b : TradeConfig) : TradeConfig :=
  mk_TradeConfig (tg_rpc_url b) (tg_swqos_configs b) (tg_commitment b) v (tg_use_seed_optimize b)
    (tg_log_enabled b) (tg_check_min_tip b) (tg_swqos_cores_from_end b) (tg_mev_protection b).

(* sdk common/types.rs:176-179 use_seed_optimize *)
Definition set_use_seed_optimize (v : bool) (b : TradeConfig) : TradeConfig :=
  mk_TradeConfig (tg_rpc_url b) (tg_swqos_configs b) (tg_commitment b)
    (tg_create_wsol_ata_on_startup b) v (tg_log_enabled b) (tg_check_min_tip b)
    (tg_swqos_cores_from_end b) (tg_mev_protection b).

(* sdk common/types.rs:182-185 log_enabled *)
Definition set_log_enabled (v : bool) (b : TradeConfig) : TradeConfig :=
  mk_TradeConfig (tg_rpc_url b) (tg_swqos_configs b) (tg_commitment b)
    (tg_create_wsol_ata_on_startup b) (tg_use_seed_optimize b) v (tg_check_min_tip b)
    (tg_swqos_cores_from_end b) (tg_mev_protection b).

(* sdk common/types.rs:189-192 check_min_tip *)
Definition set_check_min_tip (v : bool) (b : TradeConfig) : TradeConfig :=
  mk_TradeConfig (tg_rpc_url b) (tg_swqos_configs b) (tg_commitment b)
    (tg_create_wsol_ata_on_startup b) (tg_use_seed_optimize b) (tg_log_enabled b) v
    (tg_swqos_cores_from_end b) (tg_mev_protection b).

(* sdk common/types.rs:196-199 swqos_cores_from_end *)
Definition set_swqos_cores_from_end (v : bool) (b : TradeConfig) : TradeConfig :=
  mk_TradeConfig (tg_rpc_url b) (tg_swqos_configs b) (tg_commitment b)
    (tg_create_wsol_ata_on_startup b) (tg_use_seed_optimize b) (tg_log_enabled b)
    (tg_check_min_tip b) v (tg_mev_protection b).

(* sdk common/types.rs:206-209 mev_protection *)
Definition set_mev_protection (v : bool) (b : TradeConfig) : TradeConfig :=
  mk_TradeConfig (tg_rpc_url b) (tg_swqos_configs b) (tg_commitment b)
    (tg_create_wsol_ata_on_startup b) (tg_use_seed_optimize b) (tg_log_enabled b)
    (tg_check_min_tip b) (tg_swqos_cores_from_end b) v.

(* sdk common/types.rs:212-224 build *)
Definition build (b : TradeConfig) : TradeConfig :=
  mk_TradeConfig (tg_rpc_url b) (tg_swqos_configs b) (tg_commitment b)
    (tg_create_wsol_ata_on_startup b) (tg_use_seed_optimize b) (tg_log_enabled b)
    (tg_check_min_tip b) (tg_swqos_cores_from_end b) (tg_mev_protection b).

(* sdk common/types.rs:128-134 new *)
Definition trade_config_new (rpc_url : string) (swqos_configs : list SwqosConfig)
    (commitment : string) : TradeConfig :=
  build (trade_config_builder rpc_url swqos_configs commitment).

(* sdk common/types.rs:36-44 from_trade_config *)
Definition from_trade_config (config : TradeConfig) : InfrastructureConfig :=
  mk_InfraConfig (tg_rpc_url config) (tg_swqos_configs config) (tg_commitment config)
    (tg_swqos_cores_from_end config) (tg_mev_protection config).

(** ** The node and the machine *)

Class NodeTx (E : Type) `{TxSdk} := {
  rpc_get_minimum_balance : Z → E → result string Z * E;
  rpc_send_and_confirm : VersionedTransaction → E → result string Signature * E;
}.

(** The identifiers of the cores, if they can be determined. *)
Class Machine := { get_core_ids : option (list Z) }.

(** ** Cores *)

(** [min(swqos_count, 2/3 of the cores)], at least one. *)
(* sdk lib.rs:239-256 new, max_sender_concurrency *)
Definition sender_cores `{Machine} (swqos_count : nat) (from_end : bool) : nat * list Z :=
  let num_cores := match get_core_ids with Some c => length c | None => 0%nat end in
  let max_by_cores := Nat.max (num_cores * 2 / 3) 1 in
  let cap := Nat.max (Nat.min swqos_count max_by_cores) 1 in
  let ids :=
    match get_core_ids with
    | Some v =>
        let len := length v in
        if from_end && Nat.leb cap len then drop (len - cap) v else take cap v
    | None => []
    end in
  (cap, ids).

(* sdk lib.rs:273-283 recommended_sender_thread_core_indices *)
Definition recommended_sender_thread_core_indices `{Machine} (swqos_count : nat) :
    option (list nat) :=
  match get_core_ids with
  | None => None
  | Some all =>
      let num_cores := length all in
      if Nat.eqb num_cores 0 then None
      else
        let max_by_cores := Nat.max (num_cores * 2 / 3) 1 in
        let cap := Nat.min (Nat.max (Nat.min swqos_count max_by_cores) 1) num_cores in
        Some (seq (num_cores - cap) cap)
  end.

(* sdk lib.rs:86-97 TradingInfrastructure *)
Record TradingInfrastructure := mk_TI {
  ti_swqos_clients : list SwqosClient;
  ti_config : InfrastructureConfig;
  ti_max_sender_concurrency : nat;
  ti_effective_core_ids : list Z;
}.

Section Startup.
Context `{Sdk} {E : Type} `{Confirm E} `{TxErrorText} `{TxSdk} `{!Codec} `{!Wire E} `{!QuicNet E}
  `{!NodeTx E} `{KeyText} `{Machine}.

(** ** Rents *)

(* sdk common/seed.rs:46-51 fetch_rent_for_token_account *)
Definition fetch_rent_for_token_account : E → result string Z * E := rpc_get_minimum_balance 165.

Definition put_rents (f : Rents → result string () * Rents) : M (Process E) () := λ w,
  let '(r, rents') := f (rents (p_chain w)) in
  Val (r, mk_Proc (p_env w) (set_rents rents' (p_chain w)) (p_budget w)).

(** The second call is made when the first has succeeded. *)
(* sdk common/seed.rs:18-26 update_rents, both calls *)
Definition refresh_rents : M (Process E) () :=
  let% r1 := in_env (attempt (call fetch_rent_for_token_account)) in
  match r1 with
  | Err e => mfail e
  | Ok _ =>
      let% r2 := in_env (attempt (call fetch_rent_for_token_account)) in
      put_rents (update_rents r1 r2)
  end.

(** Whatever the node does, the cells are set. *)
(* sdk lib.rs:121-137 new, rents *)
Definition init_rents : M (Process E) () :=
  let% r := timeout 15000 refresh_rents in
  match r with
  | Some (Ok _) => mret ()
  | Some (Err _) | None => put_rents (λ r, (Ok (), set_default_rents r))
  end.

(** The background task, for [n] rounds of an hour: what a round returns is
    dropped. *)
(* sdk common/seed.rs:37-44 start_rent_updater *)
Fixpoint rent_updater (n : nat) : M (Process E) () :=
  match n with
  | O => mret ()
  | S n' =>
      let% _ := attempt refresh_rents in
      let% _ := in_env (effect (sleep_ms (60 * 60 * 1000))) in
      rent_updater n'
  end.

(** ** Channels *)

(** One configuration: its client, unless it is blacklisted, fails or takes
    more than fifteen seconds. *)
(* sdk lib.rs:143-190 new, one channel *)
Definition try_channel (ptr : Z) (config : SwqosConfig) (mev_protection : bool) :
    M E (option SwqosClient) := λ e,
  if is_blacklisted config then Val (Ok None, e)
  else
    match rpc_timeout 15000 e with
    | Some e' => Val (Ok None, e')
    | None =>
        match get_swqos_client ptr config mev_protection e with
        | Val (Ok c, e') => Val (Ok (Some c), e')
        | Val (Err _, e') => Val (Ok None, e')
        | Panic => Panic
        end
    end.

(* sdk lib.rs:141-192 new, all channels *)
Fixpoint try_channels (ptr : Z) (configs : list SwqosConfig) (mev_protection : bool) :
    M E (list SwqosClient) :=
  match configs with
  | [] => mret []
  | config :: configs' =>
      let% c := try_channel ptr config mev_protection in
      let% cs := try_channels (ptr + 1) configs' mev_protection in
      mret match c with Some c => c :: cs | None => cs end
  end.

(** When no channel could be made, the node itself is one. *)
(* sdk lib.rs:141-225 new, channels *)
Definition make_channels (config : InfrastructureConfig) : M E (list SwqosClient) :=
  let% cs := try_channels 0 (ic_swqos_configs config) (ic_mev_protection config) in
  match cs with
  | [] => λ e,
      match get_swqos_client (Z.of_nat (length (ic_swqos_configs config)))
              (CDefault (ic_rpc_url config)) (ic_mev_protection config) e with
      | Val (Ok c, e') => Val (Ok [c], e')
      | Val (Err _, e') => Val (Ok [], e')
      | Panic => Panic
      end
  | _ => mret cs
  end.

(* sdk lib.rs:106-265 new *)
Definition infrastructure_new (config : InfrastructureConfig) :
    M (Process E) TradingInfrastructure :=
  let% _ := init_rents in
  let% clients := in_env (make_channels config) in
  let '(cap, ids) := sender_cores (length clients) (ic_swqos_cores_from_end config) in
  mret (mk_TI clients config cap ids).

(** ** Transactions of the wallet *)

(** A transaction of the payer alone; signing panics on an error. *)
(* sdk lib.rs:526-531 try_create_wsol_ata_once, transaction *)
Definition sign_with_payer (payer : Pubkey) (ixs : list Instruction) (recent_blockhash : Hash) :
    exec VersionedTransaction :=
  let m := legacy_new_with_blockhash payer ixs recent_blockhash in
  let* signature := unwrap_res (try_sign payer m) in
  Val (mk_Tx [signature] (Legacy m)).

(** One attempt to create the wrapped-SOL account.  An account that exists
    after a failed transaction will do. *)
(* sdk lib.rs:517-550 try_create_wsol_ata_once *)
Definition try_create_wsol_ata_once (payer wsol_ata : Pubkey) (create_ata_ixs : list Instruction)
    (timeout_secs : Z) : M (Process E) () :=
  let% h := attempt (in_env (call rpc_get_latest_blockhash)) in
  match h with
  | Err e => mfail ("Failed to get blockhash: " +:+ e)
  | Ok recent_blockhash =>
      let% tx := of_ex (sign_with_payer payer create_ata_ixs recent_blockhash) in
      let% r := timeout (1000 * timeout_secs) (in_env (call (rpc_send_and_confirm tx))) in
      match r with
      | Some (Ok _) => mret ()
      | Some (Err e) =>
          let% a := attempt (in_env (call (rpc_get_account wsol_ata))) in
          match a with Ok _ => mret () | Err _ => mfail e end
      | None => mfail ("Transaction confirmation timeout (" +:+ show timeout_secs +:+ "s)")
      end
  end.

(* sdk lib.rs:554-554 MAX_RETRIES *)
Definition MAX_RETRIES : nat := 3.

(** The attempts that are left, with a pause before all but the first; when all
    have failed the program panics. *)
(* sdk lib.rs:581-625 ensure_wsol_ata, attempts *)
Fixpoint wsol_attempts (payer wsol_ata : Pubkey) (create_ata_ixs : list Instruction) (first : bool)
    (n : nat) : M (Process E) () :=
  match n with
  | O => let% _ := effect (sleep_ms 5000) in mpanic
  | S n' =>
      let% _ := if first then mret () else effect (sleep_ms 2000) in
      let% r := attempt (try_create_wsol_ata_once payer wsol_ata create_ata_ixs 10) in
      match r with
      | Ok _ => mret ()
      | Err _ => wsol_attempts payer wsol_ata create_ata_ixs false n'
      end
  end.

(* sdk lib.rs:553-626 ensure_wsol_ata *)
Definition ensure_wsol_ata (payer : Pubkey) : M (Process E) () :=
  let% wsol_ata := in_chain (get_associated_token_address_with_program_id_fast payer
                               WSOL_TOKEN_ACCOUNT TOKEN_PROGRAM) in
  let% a := attempt (in_env (call (rpc_get_account wsol_ata))) in
  match a with
  | Ok _ => mret ()
  | Err _ =>
      let% create_ata_ixs := in_chain (create_wsol_ata payer) in
      match create_ata_ixs with
      | [] => mret ()
      | _ => wsol_attempts payer wsol_ata create_ata_ixs true MAX_RETRIES
      end
  end.

(** ** The trading client *)

Definition client_of (payer : Pubkey) (ti : TradingInfrastructure)
    (use_seed_optimize log_enabled check_min_tip : bool) : TradingClient :=
  mk_Client payer use_seed_optimize log_enabled check_min_tip false None
    (Z.of_nat (ti_max_sender_concurrency ti)) (ti_effective_core_ids ti).

(** What a swap sees of the infrastructure. *)
Definition swap_infrastructure (ti : TradingInfrastructure) (m : option MiddlewareManager) :
    Infrastructure := mk_Infra true (ti_swqos_clients ti) m.

(* sdk lib.rs:446-468 from_infrastructure *)
Definition from_infrastructure (payer : Pubkey) (ti : TradingInfrastructure)
    (use_seed_optimize : bool) : M (Process E) TradingClient :=
  let% _ := in_chain (fast_init payer) in
  mret (client_of payer ti use_seed_optimize true false).

(* sdk lib.rs:659-659 MIN_SOL_FOR_WSOL_ATA_LAMPORTS *)
Definition MIN_SOL_FOR_WSOL_ATA_LAMPORTS : Z := 500000.

(** The balance, or nothing when it cannot be read in five seconds. *)
(* sdk lib.rs:660-667 new, balance *)
Definition balance_or_zero (payer : Pubkey) : M (Process E) Z :=
  let% r := timeout 5000 (in_env (call (rpc_get_balance payer))) in
  mret match r with Some (Ok balance) => balance | _ => 0 end.

(* sdk lib.rs:640-698 new *)
Definition client_new (payer : Pubkey) (trade_config : TradeConfig) :
    M (Process E) (TradingClient * TradingInfrastructure) :=
  let% ti := infrastructure_new (from_trade_config trade_config) in
  let% _ := in_chain (fast_init payer) in
  let% _ :=
    if tg_create_wsol_ata_on_startup trade_config then
      let% balance := balance_or_zero payer in
      if MIN_SOL_FOR_WSOL_ATA_LAMPORTS <=? balance then ensure_wsol_ata payer else mret ()
    else mret () in
  mret (client_of payer ti (tg_use_seed_optimize trade_config) (tg_log_enabled trade_config)
          (tg_check_min_tip trade_config), ti).

(** ** Rents are always set *)

Lemma timeout_run {A} ms (m : M (Process E) A) w r w' :
  timeout ms m w = Val (r, w') →
  (r = Ok None ∧ p_chain w' = p_chain w ∧ p_budget w' = p_budget w)
  ∨ ∃ x, r = Ok (Some x) ∧ m w = Val (x, w').
Proof.
  unfold timeout. cbn [rpc_timeout process_rpc].
  destruct (rpc_timeout ms (p_env w)) as [e|]; cbn [fmap option_fmap option_map].
  - intros [= <- <-]. by left.
  - unfold mbind, attempt, mret. destruct (m w) as [[x w1]|]; [|done]. intros [= <- <-]. right. eauto.
Qed.

(** The outcome of one refresh, on every branch. *)
Lemma refresh_rents_run w :
  ∃ r w', refresh_rents w = Val (r, w') ∧ p_budget w' = p_budget w
  ∧ ∃ e1 r1, (r1, e1) = rpc_get_minimum_balance 165 (p_env w)
  ∧ match r1 with
    | Err _ => rents (p_chain w') = rents (p_chain w)
    | Ok _ => rents (p_chain w') =
        (update_rents r1 (rpc_get_minimum_balance 165 e1).1 (rents (p_chain w))).2
    end.
Proof.
  unfold refresh_rents, mbind, attempt, in_env, call, fetch_rent_for_token_account, put_rents, mret,
    mfail.
  destruct (rpc_get_minimum_balance 165 (p_env w)) as [[r1|m1] e1].
  - cbn [p_env]. destruct (rpc_get_minimum_balance 165 e1) as [r2 e2] eqn:Hb2. cbn [p_chain].
    destruct (update_rents (Ok r1) r2 (rents (p_chain w))) as [r u] eqn:Hu.
    eexists _, _. split; [reflexivity|]. split; [done|]. eexists _, _. split; [reflexivity|].
    cbn [fst p_chain set_rents rents]. rewrite Hb2. cbn [fst]. by rewrite Hu.
  - eexists _, _. split; [reflexivity|]. split; [done|]. eexists _, _. split; [reflexivity|]. done.
Qed.

Lemma init_rents_returns w : ∃ w', init_rents w = Val (Ok (), w').
Proof.
  unfold init_rents. unfold mbind at 1.
  assert (Hr : ∃ r w', timeout 15000 refresh_rents w = Val (Ok r, w')).
  { unfold timeout. cbn [rpc_timeout process_rpc].
    destruct (rpc_timeout 15000 (p_env w)) as [e|]; cbn [fmap option_fmap option_map]; [by eexists _, _|].
    unfold refresh_rents, mbind, attempt, in_env, call, fetch_rent_for_token_account, put_rents, mret,
      mfail, update_rents.
    destruct (rpc_get_minimum_balance 165 (p_env w)) as [[r1|m1] e1]; [|by eexists _, _].
    cbn [p_env]. destruct (rpc_get_minimum_balance 165 e1) as [[r2|m2] e2]; by eexists _, _. }
  destruct Hr as (r & w1 & ->). destruct r as [[[]|m]|]; by eexists.
Qed.

(** After start-up both rent cells hold an answer of the node or the default,
    and start-up does not fail here: creating seeded accounts never finds an
    unset rent, if the node never answers with the mark of an unset cell. *)
Theorem rents_initialised w w' :
  (∀ n e r e', rpc_get_minimum_balance n e = (Ok r, e') → r ≠ u64_max) →
  init_rents w = Val (Ok (), w') →
  SPL_TOKEN_RENT (rents (p_chain w')) ≠ u64_max ∧ SPL_TOKEN_2022_RENT (rents (p_chain w')) ≠ u64_max.
Proof.
  intros Hnode Hi. unfold init_rents in Hi.
  apply mbind_Ok_inv in Hi as (r & w1 & Ht & Hi). apply timeout_run in Ht as [(Hn & _)|(x & Hx & Hr)].
  { injection Hn as ->. injection Hi as <-. done. }
  injection Hx as ->. destruct x as [[]|m]; [|injection Hi as <-; done].
  apply mret_inv in Hi as [_ <-]. revert Hr.
  unfold refresh_rents, mbind, attempt, in_env, call, fetch_rent_for_token_account, put_rents, mret,
    mfail, update_rents.
  destruct (rpc_get_minimum_balance 165 (p_env w)) as [[r1|m1] e1] eqn:Hb1; [|done].
  cbn [p_env]. destruct (rpc_get_minimum_balance 165 e1) as [[r2|m2] e2] eqn:Hb2; [|done].
  intros [= <-]. cbn. eauto.
Qed.

Definition rents_set (r : Rents) : Prop := SPL_TOKEN_RENT r ≠ u64_max ∧ SPL_TOKEN_2022_RENT r ≠ u64_max.

(** The background task never ends by itself, and with it running the rents
    stay set, whatever errors the node answers. *)
Theorem rent_updater_keeps n w :
  (∀ n e r e', rpc_get_minimum_balance n e = (Ok r, e') → r ≠ u64_max) →
  rents_set (rents (p_chain w)) →
  ∃ w', rent_updater n w = Val (Ok (), w') ∧ rents_set (rents (p_chain w')).
Proof.
  intros Hnode. revert w. induction n as [|n IH]; intros w Hw; [by exists w|].
  destruct (refresh_rents_run w) as (r & w1 & Hrun & _ & e1 & r1 & Hr1 & Hrents).
  assert (Hw1 : rents_set (rents (p_chain w1))).
  { destruct r1 as [v|m]; rewrite Hrents; [|done]. destruct Hw as [_ Hw2]. unfold update_rents.
    pose proof (Hnode 165 (p_env w) v e1 (eq_sym Hr1)) as Hv.
    destruct (rpc_get_minimum_balance 165 e1) as [[v2|m2] e2] eqn:Hb2; cbn; split; cbn; try done.
    exact (Hnode _ _ _ _ Hb2). }
  cbn [rent_updater]. unfold mbind at 1, attempt at 1. rewrite Hrun.
  unfold mbind, in_env, effect. cbn [p_env]. apply IH. done.
Qed.

(** ** There is always a channel *)

Lemma client_type ptr config mev e c e' :
  get_swqos_client ptr config mev e = Val (Ok c, e') →
  ch_type c = swqos_type config ∧ ch_ptr c = ptr.
Proof.
  unfold get_swqos_client. unfold wbind at 1, wex.
  destruct (client_endpoint mev config) as [url|]; [|done]. cbn [exec_bind].
  destruct config as [u|s tok r o|tok r o tr|tok r o tr|tok r o m|tok r o sw]; cbn [swqos_type].
  - by intros [= <- _].
  - destruct s; try (by intros [= <- _]); unfold wbind, weffect;
      repeat case_match; try done; by intros [= <- _].
  - case_bool_decide; [|by intros [= <- _]]. unfold wbind, weffect. repeat case_match; try done.
    by intros [= <- _].
  - case_bool_decide; [by intros [= <- _]|]. unfold wbind. repeat case_match; try done.
    by intros [= <- _].
  - destruct (default Binary m); try (by intros [= <- _]). unfold wbind, weffect.
    repeat case_match; try done. by intros [= <- _].
  - by intros [= <- _].
Qed.

(** A client stands for one of the configurations that are not blacklisted. *)
Definition configured (configs : list SwqosConfig) (c : SwqosClient) : Prop :=
  ∃ config, config ∈ configs ∧ is_blacklisted config = false ∧ ch_type c = swqos_type config.

Lemma try_channel_spec ptr config mev e :
  ∃ c e', try_channel ptr config mev e = Val (Ok c, e') ∧
  ∀ cl, c = Some cl →
    is_blacklisted config = false ∧ ch_type cl = swqos_type config ∧ ch_ptr cl = ptr.
Proof.
  unfold try_channel. destruct (is_blacklisted config); [by eexists _, _|].
  destruct (rpc_timeout 15000 e); [by eexists _, _|].
  destruct (get_swqos_client_total ptr config mev e) as (r & e' & Hg). rewrite Hg.
  destruct r as [c|x]; (eexists _, _; split; [done|]); [|done]. intros cl [= <-]. split; [done|].
  by eapply client_type.
Qed.

Lemma try_channels_spec ptr configs mev e :
  ∃ cs e', try_channels ptr configs mev e = Val (Ok cs, e')
    ∧ Forall (configured configs) cs ∧ (∀ c, c ∈ cs → ptr ≤ ch_ptr c) ∧ distinct cs.
Proof.
  revert ptr e. induction configs as [|config configs IH]; intros ptr e; cbn [try_channels].
  { exists [], e. split; [done|]. split; [constructor|]. split; [by intros c ?%elem_of_nil|].
    by intros c c' ?%elem_of_nil. }
  destruct (try_channel_spec ptr config mev e) as (c & e1 & Hc & Hspec).
  rewrite (mbind_eq _ _ _ _ _ Hc).
  destruct (IH (ptr + 1) e1) as (cs & e2 & Hcs & Hf & Hp & Hd). rewrite (mbind_eq _ _ _ _ _ Hcs).
  assert (Hf' : Forall (configured (config :: configs)) cs).
  { eapply Forall_impl; [exact Hf|]. intros cl (cfg & Hin & Hb). exists cfg. split; [by right|done]. }
  eexists _, _. split; [done|]. destruct c as [c|].
  - destruct (Hspec c eq_refl) as (Hb & Ht & Hptr). split.
    { constructor; [|done]. exists config. split; [by left|done]. }
    split; [intros cl [->|Hin%Hp]%elem_of_cons; lia|].
    intros c1 c2 [->|H1c]%elem_of_cons [->|H2c]%elem_of_cons Heq; [done| | |by apply Hd];
      [apply Hp in H2c|apply Hp in H1c]; lia.
  - split; [done|]. split; [intros cl Hin%Hp; lia|done].
Qed.

(** Making the channels always succeeds, and the infrastructure has a channel
    however many of them fail, time out or are blacklisted: each stands for a
    configuration that is not blacklisted, or there is one alone, the node; and
    no two share an identity. *)
Theorem channels_exist config e :
  ∃ cs e', make_channels config e = Val (Ok cs, e') ∧ cs ≠ [] ∧ distinct cs
    ∧ (Forall (configured (ic_swqos_configs config)) cs
       ∨ ∃ c, cs = [c] ∧ ch_type c = SwDefault ∧ ch_endpoint c = ic_rpc_url config).
Proof.
  unfold make_channels.
  destruct (try_channels_spec 0 (ic_swqos_configs config) (ic_mev_protection config) e)
    as (cs & e' & Hcs & Hf & _ & Hd). rewrite (mbind_eq _ _ _ _ _ Hcs).
  destruct cs as [|c l].
  - eexists _, _. split; [done|]. split; [done|]. split; [|right; by eexists].
    by intros c1 c2 [->|?%elem_of_nil]%elem_of_cons [->|?%elem_of_nil]%elem_of_cons.
  - eexists _, _. split; [done|]. split; [done|]. split; [done|by left].
Qed.

(** ** The client is made or the program panics *)

(** The computation never returns an error. *)
Definition infallible {F A} (m : M F A) : Prop := ∀ e r e', m e = Val (r, e') → ∃ a, r = Ok a.

Lemma infallible_bind {F A B} (m : M F A) (k : A → M F B) :
  infallible m → (∀ a, infallible (k a)) → infallible (mbind m k).
Proof.
  intros Hm Hk e r e'. unfold mbind. destruct (m e) as [[x e1]|] eqn:He; [|done].
  destruct (Hm _ _ _ He) as [a ->]. apply Hk.
Qed.
Lemma infallible_ret {F A} (a : A) : infallible (F := F) (mret a).
Proof. intros e r e' [= <- _]. by eexists. Qed.
Lemma infallible_effect {F} (f : F → F) : infallible (effect f).
Proof. intros e r e' [= <- _]. by eexists. Qed.
Lemma infallible_attempt {F A} (m : M F A) : infallible (attempt m).
Proof. intros e r e'. unfold attempt. destruct (m e) as [[x e1]|]; [|done]. intros [= <- _]. by eexists. Qed.
Lemma infallible_panic {F A} : infallible (F := F) (A := A) mpanic.
Proof. done. Qed.
Lemma infallible_timeout {A} ms (m : M (Process E) A) : infallible (timeout ms m).
Proof. intros w r w' [(-> & _)|(x & -> & _)]%timeout_run; by eexists. Qed.

Lemma infallible_ata wallet mint program :
  infallible (in_chain (E := E) (get_associated_token_address_with_program_id_fast wallet mint program)).
Proof.
  intros w r w'. unfold in_chain, get_associated_token_address_with_program_id_fast.
  cbn [run]. destruct (get_ata_fast _ _) as [x|]; [|done]. intros [= <- _]. by eexists.
Qed.

Lemma infallible_create_wsol payer : infallible (in_chain (E := E) (create_wsol_ata payer)).
Proof.
  intros w r w'. unfold in_chain, create_wsol_ata,
    create_associated_token_account_idempotent_fast. cbn [run].
  destruct (get_cached_instructions _ _) as [x|]; [|done]. intros [= <- _]. by eexists.
Qed.

Lemma infallible_fast_init payer : infallible (in_chain (E := E) (fast_init payer)).
Proof.
  intros w r w'. unfold in_chain, fast_init, get_pda,
    get_associated_token_address_with_program_id_fast. cbn [pbind run].
  destruct (get_cached_pda _ _) as [o1 s1]. destruct (get_cached_pda _ _) as [o2 s2].
  destruct (get_ata_fast _ _) as [x|]; [|done]. cbn [exec_bind].
  destruct (get_cached_instructions _ _) as [y|]; [|done]. intros [= <- _]. by eexists.
Qed.

Lemma infallible_wsol_attempts payer ata ixs n : ∀ first,
  infallible (wsol_attempts payer ata ixs first n).
Proof.
  induction n as [|n IH]; intros first; cbn [wsol_attempts].
  - apply infallible_bind; [apply infallible_effect|intros ?; apply infallible_panic].
  - apply infallible_bind; [destruct first; [apply infallible_ret|apply infallible_effect]|].
    intros _. apply infallible_bind; [apply infallible_attempt|].
    intros [?|?]; [apply infallible_ret|apply IH].
Qed.

(** The wrapped-SOL account is there in the end, or the program panics. *)
Lemma infallible_ensure_wsol payer : infallible (ensure_wsol_ata payer).
Proof.
  apply infallible_bind; [apply infallible_ata|]. intros ata.
  apply infallible_bind; [apply infallible_attempt|]. intros [?|?]; [apply infallible_ret|].
  apply infallible_bind; [apply infallible_create_wsol|].
  intros [|ix ixs]; [apply infallible_ret|apply infallible_wsol_attempts].
Qed.

Lemma infallible_balance payer : infallible (balance_or_zero payer).
Proof. apply infallible_bind; [apply infallible_timeout|]. intros ?. apply infallible_ret. Qed.

Lemma infrastructure_made config w : ∃ ti w', infrastructure_new config w = Val (Ok ti, w').
Proof.
  unfold infrastructure_new. destruct (init_rents_returns w) as [w1 Hi].
  rewrite (mbind_eq _ _ _ _ _ Hi).
  destruct (channels_exist config (p_env w1)) as (cs & e & Hc & _).
  assert (Hin : in_env (make_channels config) w1
                = Val (Ok cs, mk_Proc e (p_chain w1) (p_budget w1)))
    by (unfold in_env; by rewrite Hc).
  rewrite (mbind_eq _ _ _ _ _ Hin). destruct (sender_cores _ _). by eexists _, _.
Qed.

(** Once the infrastructure is there, the program panics while the caches are
    filled, or for want of a wrapped-SOL account that the wallet could pay. *)
Definition client_panics (payer : Pubkey) (tg : TradeConfig) (w : Process E) : Prop :=
  ∃ ti w1, infrastructure_new (from_trade_config tg) w = Val (Ok ti, w1) ∧
    (in_chain (fast_init payer) w1 = Panic
     ∨ ∃ w2 balance w3, in_chain (fast_init payer) w1 = Val (Ok (), w2)
       ∧ balance_or_zero payer w2 = Val (Ok balance, w3)
       ∧ MIN_SOL_FOR_WSOL_ATA_LAMPORTS ≤ balance ∧ ensure_wsol_ata payer w3 = Panic).

(** Making a client never returns an error. *)
Lemma client_new_outcome payer tg w :
  (∃ client ti w', client_new payer tg w = Val (Ok (client, ti), w')) ∨
  client_new payer tg w = Panic ∧ client_panics payer tg w.
Proof.
  unfold client_panics.
  unfold client_new. destruct (infrastructure_made (from_trade_config tg) w) as (ti & w1 & Hi).
  rewrite (mbind_eq _ _ _ _ _ Hi), Hi.
  destruct (in_chain (fast_init payer) w1) as [[r w2]|] eqn:Hf.
  2: { right. unfold mbind at 1. rewrite Hf. split; [done|]. exists ti, w1. auto. }
  destruct (infallible_fast_init _ _ _ _ Hf) as [[] ->]. rewrite (mbind_eq _ _ _ _ _ Hf).
  destruct (tg_create_wsol_ata_on_startup tg); [|left; by eexists _, _, _].
  destruct (balance_or_zero payer w2) as [[r w3]|] eqn:Hb.
  2: { exfalso. revert Hb. unfold balance_or_zero, timeout, mbind, attempt, in_env, call, mret.
       cbn [rpc_timeout process_rpc]. destruct (rpc_timeout 5000 (p_env w2)); [done|].
       cbn [fmap option_fmap option_map]. by destruct (rpc_get_balance _ _) as [? ?]. }
  destruct (infallible_balance _ _ _ _ Hb) as [balance ->].
  assert (Hk : (let% balance := balance_or_zero payer in
                if MIN_SOL_FOR_WSOL_ATA_LAMPORTS <=? balance then ensure_wsol_ata payer
                else mret ()) w2
               = (if MIN_SOL_FOR_WSOL_ATA_LAMPORTS <=? balance then ensure_wsol_ata payer
                  else mret ()) w3) by (unfold mbind; by rewrite Hb).
  destruct (Z.leb_spec MIN_SOL_FOR_WSOL_ATA_LAMPORTS balance).
  2: { left. cbn in Hk. unfold mbind at 1. rewrite Hk. by eexists _, _, _. }
  destruct (ensure_wsol_ata payer w3) as [[r w4]|] eqn:He; cbv iota in Hk; rewrite ?He in Hk.
  - destruct (infallible_ensure_wsol _ _ _ _ He) as [[] ->]. left.
    unfold mbind at 1. rewrite Hk. by eexists _, _, _.
  - right. unfold mbind at 1. rewrite Hk. split; [done|]. exists ti, w1. split; [done|].
    right. by exists w2, balance, w3.
Qed.
End Startup.

(** ** Cores *)

(** The cores recommended for dedicated sender threads are those the
    infrastructure pins its jobs to when it takes them from the end. *)
Theorem recommended_cores_agree `{Machine} n count l :
  get_core_ids = Some (map Z.of_nat (seq 0 n)) →
  recommended_sender_thread_core_indices count = Some l →
  sender_cores count true = (length l, map Z.of_nat l).
Proof.
  intros Hn. unfold recommended_sender_thread_core_indices, sender_cores. rewrite Hn.
  rewrite length_map, length_seq. destruct (Nat.eqb_spec n 0) as [|Hne]; [done|].
  set (m := Nat.max (n * 2 / 3) 1). set (cap := Nat.max (Nat.min count m) 1).
  assert (Hm : (m ≤ n)%nat).
  { unfold m. pose proof (Nat.Div0.div_le_mono (n * 2) (n * 3) 3 ltac:(lia)).
    rewrite Nat.div_mul in * by lia. lia. }
  assert (Hcap : (cap ≤ n)%nat) by (unfold cap; lia).
  rewrite Nat.min_l by done. intros [= <-]. rewrite length_seq.
  assert (Hle : Nat.leb cap n = true) by by apply Nat.leb_le. rewrite Hle. cbn [andb].
  f_equal. rewrite <- fmap_drop, drop_seq. f_equal. f_equal; lia.
Qed.

(** ** The trader of the bot *)

(* bot trading.rs:43-51 parse_jito_region *)
Definition parse_jito_region (region : string) : SwqosRegion :=
  let r := to_lowercase region in
  if String.eqb r "frankfurt" then Frankfurt
  else if String.eqb r "newyork" then NewYork
  else if String.eqb r "tokyo" then Tokyo
  else if String.eqb r "amsterdam" then Amsterdam
  else Frankfurt.

(* bot trading.rs:448-458 new_with_options, swqos_configs *)
Definition bot_swqos_configs (rpc_url : string) (jito_enabled : bool) (jito_uuid : option string)
    (jito_region : string) : list SwqosConfig :=
  if (jito_enabled : bool)
  then [CPlain Jito (default "" jito_uuid) (parse_jito_region jito_region) None]
  else [CDefault rpc_url].

(* bot trading.rs:460-463 new_with_options, trade_config *)
Definition bot_trade_config (rpc_url : string) (swqos_configs : list SwqosConfig) : TradeConfig :=
  set_use_seed_optimize false
    (set_create_wsol_ata true (trade_config_builder rpc_url swqos_configs "finalized")).

Section Bot.
Context `{Build} `{Sdk} {E : Type} `{Confirm E} `{TxErrorText} `{TxSdk} `{!Codec} `{!Wire E}
  `{!QuicNet E} `{!NodeTx E} `{!Simulation E} `{!Scheduler E} `{KeyText} `{Machine} `{Sha256}
  `{HashOrder} `{SplAta}.

(* bot trading.rs:436-475 new_with_options *)
Definition new_with_options (rpc_url : string) (keypair : Pubkey)
    (slippage_bps max_retries retry_delay_ms : Z) (jito_enabled : bool)
    (jito_uuid : option string) (jito_region : string) :
    M (Process E) (Trader * TradingClient * TradingInfrastructure) :=
  let configs := bot_swqos_configs rpc_url jito_enabled jito_uuid jito_region in
  let% r := client_new keypair (bot_trade_config rpc_url configs) in
  mret (mk_Trader slippage_bps max_retries retry_delay_ms None 0, r.1, r.2).

(* bot trading.rs:418-424 new *)
Definition bot_new (rpc_url : string) (keypair : Pubkey) (slippage_bps : Z) :
    M (Process E) (Trader * TradingClient * TradingInfrastructure) :=
  new_with_options rpc_url keypair slippage_bps 5 1000 false None "Frankfurt".

(* bot trading.rs:426-434 new_with_retry *)
Definition new_with_retry (rpc_url : string) (keypair : Pubkey)
    (slippage_bps max_retries retry_delay_ms : Z) :
    M (Process E) (Trader * TradingClient * TradingInfrastructure) :=
  new_with_options rpc_url keypair slippage_bps max_retries retry_delay_ms false None "Frankfurt".

(** Purchases and sales of the bot, through its client and the executor. *)
Definition bot_trading (client : TradingClient) (ti : TradingInfrastructure) :
    Trading (Process E) :=
  client_trading (H0 := executor (swap_infrastructure ti None)) client.
(* bot trading.rs:825-891 sell, through the client *)
Definition bot_sell (client : TradingClient) (ti : TradingInfrastructure) (t : Trader)
    (info : TradeInfo) : M (Process E) () :=
  trader_sell (H4 := bot_trading client ti) t info.

(** ** The channels of the bot *)

Lemma client_new_channels payer tg w client ti w' :
  client_new payer tg w = Val (Ok (client, ti), w') →
  ∃ e e', make_channels (from_trade_config tg) e = Val (Ok (ti_swqos_clients ti), e').
Proof.
  unfold client_new. intros Hc. apply mbind_Ok_inv in Hc as (ti' & w1 & Hi & Hc).
  assert (ti' = ti) as ->.
  { apply mbind_Ok_inv in Hc as ([] & w2 & _ & Hc). apply mbind_Ok_inv in Hc as ([] & w3 & _ & Hc).
    by apply mret_inv in Hc as [[= _ <-] _]. }
  unfold infrastructure_new in Hi. apply mbind_Ok_inv in Hi as ([] & w2 & _ & Hi).
  apply mbind_Ok_inv in Hi as (cs & w3 & Hch & Hi).
  destruct (sender_cores _ _) as [cap ids]. apply mret_inv in Hi as [<- _]. cbn.
  unfold in_env in Hch.
  destruct (make_channels (from_trade_config tg) (p_env w2)) as [[r e]|] eqn:Hm; [|done].
  injection Hch as -> _. by exists (p_env w2), e.
Qed.

(** With Jito enabled and a client made in time, Jito is the only channel. *)
Lemma jito_channels rpc_url uuid region e cs e' :
  (∀ ms e, rpc_timeout ms e = None) →
  make_channels (from_trade_config
    (bot_trade_config rpc_url (bot_swqos_configs rpc_url true uuid region))) e = Val (Ok cs, e') →
  Forall (λ c, ch_type c ≠ SwDefault) cs.
Proof.
  intros Ht Hm. cbn [bot_swqos_configs] in Hm. revert Hm. unfold make_channels.
  cbn [from_trade_config bot_trade_config set_use_seed_optimize set_create_wsol_ata
       trade_config_builder ic_swqos_configs ic_mev_protection tg_swqos_configs tg_mev_protection].
  unfold mbind at 1. cbn [try_channels]. unfold mbind at 1, try_channel. cbn [is_blacklisted].
  destruct (is_blacklisted _) eqn:Hb; [done|]. rewrite Ht.
  unfold get_swqos_client, wbind, wex. cbn [swqos_type client_endpoint get_endpoint].
  destruct (at_region SWQOS_ENDPOINTS_JITO (parse_jito_region region)) as [url|]; [|done].
  cbn. unfold mbind, mret. intros [= <- _]. by repeat constructor.
Qed.

(** A bot with Jito enabled never sells: its sales pay no tip, its only channel
    demands one, and every sale ends in an error.  (No time-out elapses while
    the channels are made; a channel that is not made in time is replaced by the
    node.) *)
Theorem jito_bot_never_sells rpc_url keypair slip retries delay uuid region w t client ti w1
    t' info w2 r w3 :
  (∀ ms e, rpc_timeout ms e = None) →
  new_with_options rpc_url keypair slip retries delay true uuid region w
    = Val (Ok (t, client, ti), w1) →
  bot_sell client ti t' info w2 = Val (r, w3) → ∃ msg, r = Err msg.
Proof.
  intros Ht Hn Hs. unfold new_with_options in Hn. apply mbind_Ok_inv in Hn as ([c1 ti1] & w4 & Hn & Hr).
  apply mret_inv in Hr as [[= _ -> ->] _].
  apply client_new_channels in Hn as (e & e' & Hch). apply jito_channels in Hch; [|done].
  revert Hs. unfold bot_sell, trader_sell. unfold mbind at 1.
  destruct (get_token_balance _ w2) as [[[bal|m] w5]|]; [|intros [= <- _]; eauto|done].
  destruct (bal =? 0); [intros [= <- _]; eauto|]. unfold mbind at 1.
  destruct (with_context _ _ w5) as [[[h|m] w6]|]; [|intros [= <- _]; eauto|done].
  unfold mbind at 1, attempt. cbn [trading_sell bot_trading client_trading].
  destruct (client_sell client _ w6) as [[[[[[ok sigs] err] ts]|m] w7]|] eqn:Hc;
    [|intros [= <- _]; eauto|done].
  assert (ok = false) as ->; [|intros [= <- _]; eauto].
  unfold client_sell in Hc. m_inv. unfold run_swap in Hc. m_inv. destruct a0 as [[[ok' s'] e0'] t0'].
  injection Hc as <- _ _ _. cbn [swap executor] in R0.
  eapply sale_needs_default_channel in R0 as [-> _]; done.
Qed.
End Bot.

(** ** A bot that starts and tries to sell *)

Definition toy_node_tx : @NodeTx Sim toy_tx_sdk := {|
  rpc_get_minimum_balance := λ _ e, (Ok 2039280, e);
  rpc_send_and_confirm := λ _ e, (Ok "signature", e);
|}.

Definition toy_machine : Machine := {| get_core_ids := Some [0; 1; 2; 3] |}.

(** A wallet with tokens. *)
Definition holder : Process Sim :=
  mk_Proc (mk_Sim (λ _, None) (λ _, Some "5000") 0 42 []) initial_chain ∅.

Definition toy_start : exec (result string (Trader * TradingClient * TradingInfrastructure)
                             * Process Sim) :=
  @new_with_options toy_sdk Sim sim_rpc toy_tx_sdk rejecting
    toy_quic toy_node_tx toy_text toy_machine "https://node" 11 100 3 1000 true (Some "uuid") "Tokyo"
    holder.

Definition started : Trader * TradingClient * TradingInfrastructure :=
  match toy_start with
  | Val (Ok r, _) => r
  | _ => (mk_Trader 0 0 0 None 0, mk_Client 0 false false false false None 0 [],
          mk_TI [] (infra_config_new "" [] "") 0 [])
  end.

Definition toy_bot_sell : exec (result string () * Process Sim) :=
  @bot_sell release toy_sdk Sim sim_rpc sim_confirm toy_error_text toy_tx_sdk toy_codec rejecting
    toy_quic toy_simulation toy_scheduler toy_text toy_sha toy_hash_order toy_spl started.1.2 started.2
    started.1.1 toy_info (outcome_env holder toy_start).

Lemma jito_bot_never_sells_witness :
  ∃ msg, @Err string () "Sell failed: No Rpc Default Swqos configured." = Err msg.
Proof.
  refine (@jito_bot_never_sells release toy_sdk Sim sim_rpc sim_confirm toy_error_text toy_tx_sdk
    toy_codec rejecting toy_quic toy_node_tx toy_simulation toy_scheduler toy_text toy_machine toy_sha
    toy_hash_order toy_spl "https://node" 11 100 3 1000 (Some "uuid") "Tokyo" holder started.1.1
    started.1.2 started.2 (outcome_env holder toy_start) started.1.1 toy_info
    (outcome_env holder toy_start) _ (outcome_env holder toy_bot_sell) (λ _ _, eq_refl) _ _).
  - apply (outcome_eq holder). vm_compute. reflexivity.
  - apply outcome_eq. vm_compute. reflexivity.
Defined.

Lemma rents_initialised_witness :
  SPL_TOKEN_RENT (mk_rents 2039280 2039280) ≠ u64_max
  ∧ SPL_TOKEN_2022_RENT (mk_rents 2039280 2039280) ≠ u64_max.
Proof.
  apply (@rents_initialised Sim sim_rpc toy_tx_sdk toy_node_tx holder
    (mk_Proc (p_env holder) (set_rents (mk_rents 2039280 2039280) initial_chain) ∅)).
  - by intros n e r e' [= <- _].
  - reflexivity.
Defined.

Lemma recommended_cores_agree_witness :
  @sender_cores toy_machine 3 true = (length [2%nat; 3%nat], map Z.of_nat [2%nat; 3%nat]).
Proof. apply (@recommended_cores_agree toy_machine 4); reflexivity. Defined.
