(* ===== verification/Workers.v ===== *)
(** * The pools of sending workers (sdk trading/core/async_executor.rs)

    Every submission asks for the process-wide pool: the dedicated threads,
    made under a lock that is taken only when two cells are not both set, or
    the tasks of the runtime, made by the first caller that raises a flag.
    Callers run concurrently; each step below is one atomic operation of one
    of them.  What the workers do with the jobs is in [Collector]. *)

From stdpp Require Import relations.
From S2P Require Import Prelude Concurrent Startup.

#[local] Open Scope Z_scope.
#[local] Open Scope list_scope.

(** ** The dedicated threads *)

(* sdk trading/core/async_executor.rs:42-42 SWQOS_POOL_WORKERS *)
Definition SWQOS_POOL_WORKERS : nat := 18.
(* sdk trading/core/async_executor.rs:44-44 SWQOS_DEDICATED_DEFAULT_THREADS *)
Definition SWQOS_DEDICATED_DEFAULT_THREADS : nat := 18.

(** What a submission asks for. *)
Record Request := mk_Request {
  sender_thread_cores : option (list nat);
  max_sender_concurrency : nat;
}.

(* sdk trading/core/async_executor.rs:175-179 ensure_dedicated_pool, n *)
Definition dedicated_threads (c : Request) : nat :=
  let n := match sender_thread_cores c with
           | Some v => Nat.min (length v) (max_sender_concurrency c)
           | None => Nat.min SWQOS_DEDICATED_DEFAULT_THREADS (max_sender_concurrency c)
           end in
  Nat.max (Nat.min n 32) 1.

(* sdk trading/core/async_executor.rs:182-194 ensure_dedicated_pool, core_ids *)
Definition dedicated_cores `{Machine} (c : Request) : list Z :=
  let n := dedicated_threads c in
  match get_core_ids with
  | Some all_ids =>
      match sender_thread_cores c with
      | Some indices => omap (λ i, all_ids !! i) (take n indices)
      | None => take n all_ids
      end
  | None => []
  end.

(** A thread: the queue it serves, the notifier it waits for, its core. *)
Abbreviation Thread := (nat * nat * option Z)%type.

(** The queue and the notifier with number [k] are those made at the [k]-th
    creation. *)
(* sdk trading/core/async_executor.rs:159-162 DEDICATED_QUEUE *)
Record Dedicated := mk_Dedicated {
  dedicated_queue : option nat;
  dedicated_notify : option nat;
  dedicated_init : option nat;
  dedicated_locked : bool;
  dedicated_made : nat;
  dedicated_workers : list Thread;
}.

Definition dedicated_start : Dedicated := mk_Dedicated None None None false 0 [].

(** Before the lock, under it, and the creation; [DDone] has returned a queue
    and a notifier. *)
Inductive dpc :=
| DFast
| DFastNotify (q : option nat)
| DLock
| DCheck
| DCheckNotify (q : option nat)
| DSpawn (k i : nat)
| DSetQueue (k : nat)
| DSetNotify (k : nat)
| DStore (k : nat)
| DDone (q n : nat).

#[export] Instance dpc_eq_dec : EqDecision dpc.
Proof. solve_decision. Defined.

Section Dedicated.
Context `{Machine}.

Definition worker_of (c : Request) (k i : nat) : Thread := (k, k, dedicated_cores c !! i).

(** All threads of the pool that [c] makes. *)
Definition pool_of (c : Request) (k : nat) : list Thread :=
  map (worker_of c k) (seq 0 (dedicated_threads c)).

Definition with_lock (sh : Dedicated) (b : bool) : Dedicated :=
  mk_Dedicated (dedicated_queue sh) (dedicated_notify sh) (dedicated_init sh) b
    (dedicated_made sh) (dedicated_workers sh).

(* sdk trading/core/async_executor.rs:164-216 ensure_dedicated_pool *)
Inductive ensure_dedicated_pool : Dedicated → Request → dpc → Dedicated → dpc → Prop :=
| d_fast sh c :
    ensure_dedicated_pool sh c DFast sh (DFastNotify (dedicated_queue sh))
| d_fast_hit sh c q n :
    dedicated_notify sh = Some n →
    ensure_dedicated_pool sh c (DFastNotify (Some q)) sh (DDone q n)
| d_fast_miss sh c q :
    q = None ∨ dedicated_notify sh = None →
    ensure_dedicated_pool sh c (DFastNotify q) sh DLock
| d_lock sh c :
    dedicated_locked sh = false →
    ensure_dedicated_pool sh c DLock (with_lock sh true) DCheck
| d_check sh c :
    ensure_dedicated_pool sh c DCheck sh (DCheckNotify (dedicated_queue sh))
| d_check_hit sh c q n :
    dedicated_notify sh = Some n →
    ensure_dedicated_pool sh c (DCheckNotify (Some q)) (with_lock sh false) (DDone q n)
| d_check_miss sh c q :
    q = None ∨ dedicated_notify sh = None →
    ensure_dedicated_pool sh c (DCheckNotify q)
      (mk_Dedicated (dedicated_queue sh) (dedicated_notify sh) (dedicated_init sh)
         (dedicated_locked sh) (S (dedicated_made sh)) (dedicated_workers sh))
      (DSpawn (dedicated_made sh) 0)
| d_spawn sh c k i :
    (i < dedicated_threads c)%nat →
    ensure_dedicated_pool sh c (DSpawn k i)
      (mk_Dedicated (dedicated_queue sh) (dedicated_notify sh) (dedicated_init sh)
         (dedicated_locked sh) (dedicated_made sh) (dedicated_workers sh ++ [worker_of c k i]))
      (DSpawn k (S i))
| d_spawned sh c k i :
    (dedicated_threads c ≤ i)%nat →
    ensure_dedicated_pool sh c (DSpawn k i) sh (DSetQueue k)
| d_set_queue sh c k :
    ensure_dedicated_pool sh c (DSetQueue k)
      (mk_Dedicated (Some (default k (dedicated_queue sh))) (dedicated_notify sh)
         (dedicated_init sh) (dedicated_locked sh) (dedicated_made sh) (dedicated_workers sh))
      (DSetNotify k)
| d_set_notify sh c k :
    ensure_dedicated_pool sh c (DSetNotify k)
      (mk_Dedicated (dedicated_queue sh) (Some (default k (dedicated_notify sh)))
         (dedicated_init sh) (dedicated_locked sh) (dedicated_made sh) (dedicated_workers sh))
      (DStore k)
| d_store sh c k :
    ensure_dedicated_pool sh c (DStore k)
      (mk_Dedicated (dedicated_queue sh) (dedicated_notify sh) (Some (dedicated_threads c)) false
         (dedicated_made sh) (dedicated_workers sh))
      (DDone k k).

Abbreviation dedicated_step := (system_step ensure_dedicated_pool).

(** Any number of submissions at once. *)
Definition dedicated_calls (requests : list Request) : System :=
  mk_System dedicated_start (map (λ c, (c, DFast)) requests).

(** *** One pool for all *)

Definition critical (p : dpc) : bool :=
  match p with
  | DCheck | DCheckNotify _ | DSpawn _ _ | DSetQueue _ | DSetNotify _ | DStore _ => true
  | _ => false
  end.

(** Between the decision to create a pool and the end of its creation. *)
Definition making (p : dpc) : bool :=
  match p with DSpawn _ _ | DSetQueue _ | DSetNotify _ | DStore _ => true | _ => false end.

Definition no_pool (sh : Dedicated) : Prop :=
  dedicated_queue sh = None ∧ dedicated_notify sh = None ∧ dedicated_made sh = 0%nat
  ∧ dedicated_workers sh = [].

(** The pool number 0, made for one of the requests. *)
Definition one_pool (requests : list Request) (sh : Dedicated) : Prop :=
  dedicated_queue sh = Some 0%nat ∧ dedicated_notify sh = Some 0%nat
  ∧ dedicated_made sh = 1%nat ∧ ∃ c, c ∈ requests ∧ dedicated_workers sh = pool_of c 0.

(** What a position of a caller says about the shared cells. *)
Definition dpc_ok (sh : Dedicated) (c : Request) (p : dpc) : Prop :=
  match p with
  | DFast | DLock | DCheck => True
  | DFastNotify q => q = None ∨ (q = Some 0%nat ∧ dedicated_queue sh = Some 0%nat)
  | DCheckNotify q => q = dedicated_queue sh
  | DSpawn k i =>
      k = 0%nat ∧ dedicated_queue sh = None ∧ dedicated_notify sh = None
      ∧ dedicated_made sh = 1%nat ∧ (i ≤ dedicated_threads c)%nat
      ∧ dedicated_workers sh = map (worker_of c 0) (seq 0 i)
  | DSetQueue k =>
      k = 0%nat ∧ dedicated_queue sh = None ∧ dedicated_notify sh = None
      ∧ dedicated_made sh = 1%nat ∧ dedicated_workers sh = pool_of c 0
  | DSetNotify k =>
      k = 0%nat ∧ dedicated_queue sh = Some 0%nat ∧ dedicated_notify sh = None
      ∧ dedicated_made sh = 1%nat ∧ dedicated_workers sh = pool_of c 0
  | DStore k =>
      k = 0%nat ∧ dedicated_queue sh = Some 0%nat ∧ dedicated_notify sh = Some 0%nat
      ∧ dedicated_made sh = 1%nat ∧ dedicated_workers sh = pool_of c 0
  | DDone q n =>
      q = 0%nat ∧ n = 0%nat ∧ dedicated_queue sh = Some 0%nat ∧ dedicated_notify sh = Some 0%nat
  end.

(** No cell holds another pool than the first. *)
Definition cells_ok (sh : Dedicated) : Prop :=
  (∀ k, dedicated_queue sh = Some k → k = 0%nat) ∧ (∀ k, dedicated_notify sh = Some k → k = 0%nat).

(** At most one caller is in the critical section, and exactly while the lock
    is taken; without a creation under way the cells are at rest. *)
Record dedicated_inv (s : System) : Prop := {
  inv_cells : cells_ok (shared s);
  inv_callers : ∀ i c p, callers s !! i = Some (c, p) → dpc_ok (shared s) c p;
  inv_mutex : ∀ i j c d p q, callers s !! i = Some (c, p) → callers s !! j = Some (d, q) →
    critical p = true → critical q = true → i = j;
  inv_lock : dedicated_locked (shared s) = true ↔
    ∃ i c p, callers s !! i = Some (c, p) ∧ critical p = true;
  inv_rest : (∀ i c p, callers s !! i = Some (c, p) → making p = false) →
    no_pool (shared s) ∨ one_pool (callers s).*1 (shared s);
}.

(** The pool that is there stays there. *)
Definition grows (sh sh' : Dedicated) : Prop :=
  (dedicated_queue sh = Some 0%nat → dedicated_queue sh' = Some 0%nat)
  ∧ (dedicated_notify sh = Some 0%nat → dedicated_notify sh' = Some 0%nat).

(** A caller outside the critical section does not notice what one inside does. *)
Lemma outside_ok sh sh' c p : critical p = false → dpc_ok sh c p → grows sh sh' → dpc_ok sh' c p.
Proof.
  intros Hc Hp [Hq Hn].
  destruct p; simpl in *; try done; [destruct Hp as [|[? ?]]; auto|].
  destruct Hp as (? & ? & ? & ?); auto.
Qed.

Lemma local_grows sh c p sh' p' : ensure_dedicated_pool sh c p sh' p' → grows sh sh'.
Proof. by intros []; split; simpl; try done; intros ->. Qed.

Lemma local_cells sh c p sh' p' :
  ensure_dedicated_pool sh c p sh' p' → dpc_ok sh c p → cells_ok sh → cells_ok sh'.
Proof.
  intros Hs Hp [Hq Hn]. destruct Hs as [| | | | | | | | |sh c k|sh c k|];
    unfold cells_ok; simpl in *; try done; split; try done; intros j [= <-].
  - by destruct Hp as (-> & -> & _).
  - by destruct Hp as (-> & _ & -> & _).
Qed.

(** What the caller knows after its step. *)
Lemma local_ok requests sh c p sh' p' :
  ensure_dedicated_pool sh c p sh' p' → dpc_ok sh c p → cells_ok sh →
  (critical p = true → making p = false → no_pool sh ∨ one_pool requests sh) →
  dpc_ok sh' c p'.
Proof.
  intros Hs Hok [Hcq Hcn] Hrest.
  destruct Hs as [sh c|sh c q n Hn|sh c q _|sh c _|sh c|sh c q n Hn|sh c q Hmiss|sh c k i Hi
                 |sh c k i Hi|sh c k|sh c k|sh c k];
    simpl in *; try done.
  - destruct (dedicated_queue sh) as [k|]; [|by left]. right. by rewrite (Hcq k eq_refl).
  - destruct Hok as [|[[= ->] Hq]]; [done|]. rewrite (Hcn n Hn) in Hn |- *. done.
  - specialize (Hcq q (eq_sym Hok)) as ->. rewrite (Hcn n Hn) in Hn |- *. done.
  - destruct (Hrest eq_refl eq_refl) as [(Hq & Hn & -> & Hw)|(Hq & Hn & _)].
    + repeat split; [done..|lia|done].
    + exfalso. destruct Hmiss; congruence.
  - destruct Hok as (-> & ? & ? & ? & _ & Hw). repeat split; try done.
    change (dedicated_workers sh ++ [worker_of c 0 i] = map (worker_of c 0) (seq 0 (S i))).
    by rewrite Hw, seq_S, map_app.
  - destruct Hok as (-> & ? & ? & ? & Hle & Hw). repeat split; try done.
    unfold pool_of. by replace (dedicated_threads c) with i by lia.
  - destruct Hok as (-> & -> & ? & ? & ?). by repeat split.
  - destruct Hok as (-> & ? & -> & ? & ?). by repeat split.
  - destruct Hok as (-> & ? & ? & ? & ?). by repeat split.
Qed.

(** The critical section is entered by taking the lock and left by releasing it. *)
Lemma local_lock sh c p sh' p' : ensure_dedicated_pool sh c p sh' p' →
  (critical p = critical p' ∧ dedicated_locked sh' = dedicated_locked sh)
  ∨ (critical p = false ∧ critical p' = true ∧ dedicated_locked sh = false ∧ dedicated_locked sh' = true)
  ∨ (critical p = true ∧ critical p' = false ∧ dedicated_locked sh' = false).
Proof. intros []; simpl; auto 10. Qed.

(** Where no creation is under way, it has ended or nothing has changed. *)
Lemma local_rest requests sh c p sh' p' : c ∈ requests →
  ensure_dedicated_pool sh c p sh' p' → dpc_ok sh c p → making p' = false →
  (making p = false → no_pool sh ∨ one_pool requests sh) →
  no_pool sh' ∨ one_pool requests sh'.
Proof.
  intros Hin Hs Hok Hm Hrest. destruct Hs; simpl in *; try done; try (by apply Hrest); [].
  right. destruct Hok as (_ & Hq & Hn & Hmade & Hw). repeat split; simpl; eauto.
Qed.

(** A step from outside the critical section changes nothing but the lock. *)
Lemma outside_step sh c p sh' p' d q : ensure_dedicated_pool sh c p sh' p' →
  critical p = false → dpc_ok sh d q → dpc_ok sh' d q.
Proof. intros [] Hc; simpl in *; done. Qed.

(** The cells seen by a caller that has the lock and is not yet creating. *)
Lemma rest_inside s i c p : dedicated_inv s → callers s !! i = Some (c, p) →
  critical p = true → making p = false →
  no_pool (shared s) ∨ one_pool (callers s).*1 (shared s).
Proof.
  intros Hi Hp Hc Hm. apply (inv_rest _ Hi). intros j d q Hq.
  destruct (making q) eqn:Hmq; [|done].
  assert (critical q = true) as Hcq by (by destruct q).
  rewrite (inv_mutex _ Hi _ _ _ _ _ _ Hp Hq Hc Hcq) in Hp. congruence.
Qed.

Lemma start_inv requests : dedicated_inv (dedicated_calls requests).
Proof.
  assert (Hl : ∀ i c p, map (λ c, (c, DFast)) requests !! i = Some (c, p) → p = DFast).
  { intros i c p Hi. apply list_lookup_fmap_Some in Hi as (d & [= _ ->] & _). done. }
  split; simpl.
  - by split.
  - intros i c p ->%Hl. done.
  - intros i j c d p q ->%Hl. done.
  - split; [done|]. intros (i & c & p & ->%Hl & ?). done.
  - intros _. left. by repeat split.
Qed.

Lemma step_inv s s' : dedicated_inv s → dedicated_step s s' → dedicated_inv s'.
Proof.
  intros Hinv Hs. destruct Hs as [sh l i c p sh' p' Hi Hs].
  pose proof (inv_callers _ Hinv i c p Hi) as Hok. pose proof (local_lock _ _ _ _ _ Hs) as Hlock.
  pose proof (insert_callers l i c p p' Hi) as Hlook.
  assert (Hself : <[i := (c, p')]> l !! i = Some (c, p'))
    by (apply list_lookup_insert_eq; by eapply lookup_lt_Some).
  pose proof (insert_requests l i c p p' Hi) as Hreq.
  split; simpl.
  - exact (local_cells _ _ _ _ _ Hs Hok (inv_cells _ Hinv)).
  - intros j d q [(-> & -> & ->)|[Hne Hj]]%Hlook.
    + eapply local_ok; [exact Hs|exact Hok|apply Hinv|]. intros Hc Hm.
      by apply (rest_inside (mk_System sh l) i c p).
    + pose proof (inv_callers _ Hinv j d q Hj) as Hq. destruct (critical p) eqn:Hc.
      * eapply outside_ok; [|exact Hq|by eapply local_grows].
        destruct (critical q) eqn:Hcq; [|done]. destruct Hne. by eapply (inv_mutex _ Hinv j i).
      * by eapply outside_step.
  - intros j k d d' q q' [(-> & -> & ->)|[Hj1 Hj]]%Hlook [(-> & -> & ->)|[Hk1 Hk]]%Hlook Hq Hq'; try done.
    + destruct Hlock as [[Hpc _]|[(Hpf & _ & Hun & _)|(_ & Hpf & _)]]; [| |congruence].
      * eapply (inv_mutex _ Hinv i k); eauto; congruence.
      * exfalso. assert (dedicated_locked sh = true); [|congruence]. apply (inv_lock _ Hinv). eauto.
    + destruct Hlock as [[Hpc _]|[(Hpf & _ & Hun & _)|(_ & Hpf & _)]]; [| |congruence].
      * eapply (inv_mutex _ Hinv j i); eauto; congruence.
      * exfalso. assert (dedicated_locked sh = true); [|congruence]. apply (inv_lock _ Hinv). eauto.
    + by eapply (inv_mutex _ Hinv j k).
  - pose proof (inv_lock _ Hinv) as Hl. simpl in Hl.
    destruct Hlock as [[Hpc ->]|[(_ & Hpt & _ & ->)|(Hpt & Hpf & ->)]].
    + rewrite Hl. split.
      * intros (j & d & q & Hj & Hq). destruct (decide (j = i)) as [->|Hne]; [|].
        -- exists i, c, p'. split; [done|]. rewrite <- Hpc. simplify_eq. done.
        -- exists j, d, q. by rewrite list_lookup_insert_ne.
      * intros (j & d & q & [(-> & -> & ->)|[Hne Hj]]%Hlook & Hq); [|by eauto 6].
        exists i, c, p. split; [done|]. congruence.
    + split; [|done]. intros _. eauto 6.
    + split; [done|]. intros (j & d & q & [(-> & -> & ->)|[Hne Hj]]%Hlook & Hq); [congruence|].
      destruct Hne. by eapply (inv_mutex _ Hinv j i).
  - intros Hm. rewrite Hreq. eapply local_rest; [by eapply elem_of_requests|exact Hs|exact Hok|by eapply Hm|].
    intros Hp. apply (inv_rest _ Hinv). simpl. intros j d q Hj.
    destruct (decide (j = i)) as [->|Hne]; [by simplify_eq|].
    apply (Hm j d q). by rewrite list_lookup_insert_ne.
Qed.

Lemma reachable_inv requests s :
  rtc dedicated_step (dedicated_calls requests) s → dedicated_inv s.
Proof.
  intros Hr. pose proof (start_inv requests) as Hi. induction Hr; eauto using step_inv.
Qed.

(** Steps a caller can still take. *)
Definition dedicated_rank (c : Request) (p : dpc) : nat :=
  let n := dedicated_threads c in
  match p with
  | DFast => n + 12 | DFastNotify _ => n + 11 | DLock => n + 10
  | DCheck => n + 9 | DCheckNotify _ => n + 8 | DSpawn _ i => n - i + 5
  | DSetQueue _ => 4 | DSetNotify _ => 3 | DStore _ => 2 | DDone _ _ => 0
  end.

Lemma local_rank_dedicated sh c p sh' p' :
  ensure_dedicated_pool sh c p sh' p' → (dedicated_rank c p' < dedicated_rank c p)%nat.
Proof. intros []; simpl; lia. Qed.

(** A caller inside the critical section, or before the lock, can go on. *)
Lemma local_progress sh c p : critical p = true ∨ (p ≠ DLock ∧ ∀ q n, p ≠ DDone q n) →
  ∃ sh' p', ensure_dedicated_pool sh c p sh' p'.
Proof.
  intros Hp. destruct p as [|q| | |q|k i|k|k|k|q n].
  - eexists _, _. apply d_fast.
  - destruct q as [q|]; [|eexists _, _; apply d_fast_miss; by left].
    destruct (dedicated_notify sh) eqn:Hn; eexists _, _;
      [by apply d_fast_hit|apply d_fast_miss; by right].
  - exfalso. by destruct Hp as [|[]].
  - eexists _, _. constructor.
  - destruct q as [q|]; [|eexists _, _; apply d_check_miss; by left].
    destruct (dedicated_notify sh) eqn:Hn; eexists _, _;
      [by apply d_check_hit|apply d_check_miss; by right].
  - destruct (decide (i < dedicated_threads c)%nat); eexists _, _;
      [by apply d_spawn|apply d_spawned; lia].
  - eexists _, _. constructor.
  - eexists _, _. constructor.
  - eexists _, _. constructor.
  - exfalso. destruct Hp as [|[_ Hp]]; [done|by eapply Hp].
Qed.

Lemma system_progress s : dedicated_inv s →
  (∃ i c p, callers s !! i = Some (c, p) ∧ ∀ q n, p ≠ DDone q n) → ∃ s', dedicated_step s s'.
Proof.
  intros Hinv (i & c & p & Hi & Hp). destruct s as [sh l]. simpl in *.
  assert (Hex : ∃ j d q, l !! j = Some (d, q) ∧ ∃ sh' q', ensure_dedicated_pool sh d q sh' q')
    ;[|destruct Hex as (j & d & q & Hj & sh' & q' & Hs); eexists; by eapply caller_moves].
  destruct (dedicated_locked sh) eqn:Hl.
  - apply (inv_lock _ Hinv) in Hl as (j & d & q & Hj & Hq). exists j, d, q. split; [done|].
    apply local_progress. by left.
  - exists i, c, p. split; [done|]. destruct (decide (p = DLock)) as [->|Hne];
      [eexists _, _; by apply d_lock|]. apply local_progress. by right.
Qed.

(** Once a caller has returned, the threads are all there. *)
Lemma done_workers s i c q n : dedicated_inv s → callers s !! i = Some (c, DDone q n) →
  one_pool (callers s).*1 (shared s).
Proof.
  intros Hinv Hi. pose proof (inv_callers _ Hinv i _ _ Hi) as (_ & _ & Hq & Hn).
  destruct (decide (Exists (λ x, making x.2 = true) (callers s))) as [Hex|Hno].
  - apply Exists_exists in Hex as ([d p] & Hj & Hm).
    apply list_elem_of_lookup in Hj as [j Hj]. pose proof (inv_callers _ Hinv j _ _ Hj) as Hp.
    destruct p as [| | | | | | | |k|]; simpl in *; try done; try (destruct Hp as (_ & ? & ? & _); congruence).
    destruct Hp as (_ & _ & _ & Hmade & Hw). repeat split; try done.
    exists d. split; [by eapply elem_of_requests|done].
  - destruct (inv_rest _ Hinv) as [(Hq' & _)|]; [|congruence|done].
    intros j d p Hj. destruct (making p) eqn:Hm; [|done]. exfalso. apply Hno, Exists_exists.
    exists (d, p). split; [by eapply list_elem_of_lookup_2|done].
Qed.

Lemma done_stays s s' i c q n : dedicated_inv s → callers s !! i = Some (c, DDone q n) →
  dedicated_step s s' →
  callers s' !! i = Some (c, DDone q n) ∧ dedicated_workers (shared s') = dedicated_workers (shared s).
Proof.
  intros Hinv Hi Hs. pose proof (inv_callers _ Hinv i _ _ Hi) as (_ & _ & Hq & Hn).
  destruct Hs as [sh l j d p sh' p' Hj Hs]. simpl in *. split.
  - rewrite list_lookup_insert_ne; [done|]. intros ->. simplify_eq. inversion Hs.
  - pose proof (inv_callers _ Hinv j _ _ Hj) as Hp. destruct Hs; simpl in *; try done.
    destruct Hp as (_ & ? & _). congruence.
Qed.

(** C27. However many submissions ask for the dedicated threads at once, and
    however their steps interleave, every caller gets the same queue and the
    same notifier; when the first one has them, the threads of one of the
    requests are all there, serving this queue, and none is ever added; a
    caller that has not returned can always be helped by some step, and every
    run ends within a bound. *)
Theorem dedicated_pool_once requests s :
  rtc dedicated_step (dedicated_calls requests) s →
  (∀ i c q n, callers s !! i = Some (c, DDone q n) →
     q = 0%nat ∧ n = 0%nat
     ∧ (∃ d, d ∈ requests ∧ dedicated_workers (shared s) = pool_of d 0)
     ∧ ∀ s', rtc dedicated_step s s' → dedicated_workers (shared s') = dedicated_workers (shared s))
  ∧ ((∃ i c p, callers s !! i = Some (c, p) ∧ ∀ q n, p ≠ DDone q n) → ∃ s', dedicated_step s s')
  ∧ (∀ k s', nsteps dedicated_step k s s' → (k ≤ total_rank dedicated_rank s)%nat).
Proof.
  intros Hr. pose proof (reachable_inv _ _ Hr) as Hinv. split; [|split].
  - intros i c q n Hi. pose proof (inv_callers _ Hinv i _ _ Hi) as (-> & -> & _).
    split; [done|split; [done|split]].
    + destruct (done_workers _ _ _ _ _ Hinv Hi) as (_ & _ & _ & d & Hd & Hw). exists d.
      split; [|done]. rewrite (configs_kept _ _ _ Hr) in Hd. simpl in Hd.
      by rewrite <- list_fmap_compose, list_fmap_id in Hd.
    + intros s' Hr'. clear Hr. revert Hinv Hi.
      induction Hr' as [|s1 s2 s3 Hs _ IH]; [done|]. intros Hinv Hi.
      destruct (done_stays _ _ _ _ _ _ Hinv Hi Hs) as [Hi' <-]. apply IH; [by eapply step_inv|done].
  - by apply system_progress.
  - intros k s'. apply runs_bounded. apply local_rank_dedicated.
Qed.

(** Between one and 32 threads, and no more than the request allows. *)
Theorem dedicated_threads_bounded c k :
  length (pool_of c k) = dedicated_threads c
  ∧ (1 ≤ dedicated_threads c ≤ 32)%nat
  ∧ (0 < max_sender_concurrency c → dedicated_threads c ≤ max_sender_concurrency c)%nat
  ∧ Forall (λ w, w.1 = (k, k)) (pool_of c k).
Proof.
  unfold pool_of, dedicated_threads. rewrite length_map, length_seq. split; [done|].
  split; [lia|]. split.
  - intros ?. destruct (sender_thread_cores c); lia.
  - apply Forall_forall. intros w (i & -> & _)%list_elem_of_fmap. done.
Qed.
End Dedicated.

(** ** The tasks of the runtime *)

(** [OnceCell::get_or_init] with a fresh value: the cell's value, and how many
    have been made. *)
Definition get_or_init (cell : option nat) (made : nat) : nat * nat :=
  match cell with Some k => (k, made) | None => (made, S made) end.

(* sdk trading/core/async_executor.rs:154-156 SWQOS_QUEUE *)
Record Tasks := mk_Tasks {
  swqos_queue : option nat;
  swqos_queues_made : nat;
  swqos_notify : option nat;
  swqos_notifies_made : nat;
  swqos_workers_started : bool;
  swqos_workers : list (nat * nat);
}.

Definition tasks_start : Tasks := mk_Tasks None 0 None 0 false [].

(* sdk trading/core/async_executor.rs:222-222 ensure_swqos_pool, n *)
Definition swqos_tasks (c : Request) : nat :=
  Nat.max (Nat.min SWQOS_POOL_WORKERS (max_sender_concurrency c)) 1.

(** The queue; the flag; the notifier and the tasks of the caller that raised
    it; the notifier that is returned. *)
Inductive spc :=
| SQueue
| SSwap (q : nat)
| SNotify (q : nat)
| SSpawn (q n i : nat)
| SLast (q : nat)
| SDone (q n : nat).

(* sdk trading/core/async_executor.rs:218-227 ensure_swqos_pool *)
Inductive ensure_swqos_pool : Tasks → Request → spc → Tasks → spc → Prop :=
| s_swap_first sh c q :
    swqos_workers_started sh = false →
    ensure_swqos_pool sh c (SSwap q)
      (mk_Tasks (swqos_queue sh) (swqos_queues_made sh) (swqos_notify sh)
         (swqos_notifies_made sh) true (swqos_workers sh))
      (SNotify q)
| s_swap_later sh c q :
    swqos_workers_started sh = true →
    ensure_swqos_pool sh c (SSwap q) sh (SLast q)
| s_notify sh c q :
    let n := get_or_init (swqos_notify sh) (swqos_notifies_made sh) in
    ensure_swqos_pool sh c (SNotify q)
      (mk_Tasks (swqos_queue sh) (swqos_queues_made sh) (Some n.1) n.2
         (swqos_workers_started sh) (swqos_workers sh))
      (SSpawn q n.1 0)
| s_spawn sh c q n i :
    (i < swqos_tasks c)%nat →
    ensure_swqos_pool sh c (SSpawn q n i)
      (mk_Tasks (swqos_queue sh) (swqos_queues_made sh) (swqos_notify sh)
         (swqos_notifies_made sh) (swqos_workers_started sh) (swqos_workers sh ++ [(q, n)]))
      (SSpawn q n (S i))
| s_spawned sh c q n i :
    (swqos_tasks c ≤ i)%nat →
    ensure_swqos_pool sh c (SSpawn q n i) sh (SLast q).

(* sdk trading/core/async_executor.rs:517-519 execute_parallel, the shared pool *)
Inductive swqos_pool : Tasks → Request → spc → Tasks → spc → Prop :=
| s_queue sh c :
    let q := get_or_init (swqos_queue sh) (swqos_queues_made sh) in
    swqos_pool sh c SQueue
      (mk_Tasks (Some q.1) q.2 (swqos_notify sh) (swqos_notifies_made sh)
         (swqos_workers_started sh) (swqos_workers sh))
      (SSwap q.1)
| s_ensure sh c p sh' p' :
    ensure_swqos_pool sh c p sh' p' → swqos_pool sh c p sh' p'
| s_last sh c q :
    let n := get_or_init (swqos_notify sh) (swqos_notifies_made sh) in
    swqos_pool sh c (SLast q)
      (mk_Tasks (swqos_queue sh) (swqos_queues_made sh) (Some n.1) n.2
         (swqos_workers_started sh) (swqos_workers sh))
      (SDone q n.1).

Abbreviation swqos_step := (system_step swqos_pool).

Definition swqos_calls (requests : list Request) : System :=
  mk_System tasks_start (map (λ c, (c, SQueue)) requests).

Section Tasks.

(** A cell is empty and nothing was made for it, or holds the first value. *)
Definition once (cell : option nat) (made : nat) : Prop :=
  (cell = None ∧ made = 0%nat) ∨ (cell = Some 0%nat ∧ made = 1%nat).

Definition opening (p : spc) : bool := match p with SNotify _ | SSpawn _ _ _ => true | _ => false end.

Definition spc_ok (sh : Tasks) (c : Request) (p : spc) : Prop :=
  match p with
  | SQueue => True
  | SSwap q => q = 0%nat
  | SNotify q => q = 0%nat ∧ swqos_workers_started sh = true ∧ swqos_workers sh = []
  | SSpawn q n i =>
      q = 0%nat ∧ n = 0%nat ∧ swqos_workers_started sh = true ∧ (i ≤ swqos_tasks c)%nat
      ∧ swqos_workers sh = repeat (0%nat, 0%nat) i
  | SLast q => q = 0%nat ∧ swqos_workers_started sh = true
  | SDone q n => q = 0%nat ∧ n = 0%nat ∧ swqos_workers_started sh = true
  end.

(** Not started, or started with the tasks of one request. *)
Definition tasks_rest (requests : list Request) (sh : Tasks) : Prop :=
  if swqos_workers_started sh
  then ∃ c, c ∈ requests ∧ swqos_workers sh = repeat (0%nat, 0%nat) (swqos_tasks c)
  else swqos_workers sh = [].

Record tasks_inv (s : System) : Prop := {
  ti_queue : once (swqos_queue (shared s)) (swqos_queues_made (shared s));
  ti_notify : once (swqos_notify (shared s)) (swqos_notifies_made (shared s));
  ti_callers : ∀ i c p, callers s !! i = Some (c, p) → spc_ok (shared s) c p;
  ti_mutex : ∀ i j c d p q, callers s !! i = Some (c, p) → callers s !! j = Some (d, q) →
    opening p = true → opening q = true → i = j;
  ti_rest : (∀ i c p, callers s !! i = Some (c, p) → opening p = false) →
    tasks_rest (callers s).*1 (shared s);
}.

Lemma once_get cell made : once cell made →
  (get_or_init cell made).1 = 0%nat ∧ once (Some (get_or_init cell made).1) (get_or_init cell made).2.
Proof. intros [[-> ->]|[-> ->]]; (split; [done|by right]). Qed.

Lemma local_once sh c p sh' p' : swqos_pool sh c p sh' p' →
  once (swqos_queue sh) (swqos_queues_made sh) → once (swqos_notify sh) (swqos_notifies_made sh) →
  once (swqos_queue sh') (swqos_queues_made sh') ∧ once (swqos_notify sh') (swqos_notifies_made sh').
Proof.
  intros Hs Hq Hn.
  destruct Hs as [sh c q|sh c p sh' p' []|sh c q n]; simpl; try done; split; try done;
    by apply once_get.
Qed.

(** What the caller knows after its step. *)
Lemma local_tasks_ok sh c p sh' p' : swqos_pool sh c p sh' p' →
  once (swqos_queue sh) (swqos_queues_made sh) → once (swqos_notify sh) (swqos_notifies_made sh) →
  (swqos_workers_started sh = false → swqos_workers sh = []) →
  spc_ok sh c p → spc_ok sh' c p'.
Proof.
  intros Hs Hq Hn Hw Hok.
  destruct Hs as [sh c q|sh c p sh' p' Hs|sh c q n]; [by apply once_get| |].
  - destruct Hs as [sh c q Hf|sh c q Hf|sh c q n|sh c q n i Hi|sh c q n i Hi]; simpl in *.
    + auto.
    + done.
    + destruct Hok as (-> & ? & ?). repeat split; try done; [by apply once_get|lia].
    + destruct Hok as (-> & -> & ? & ? & Hr). repeat split; try done.
      by rewrite Hr, <- repeat_cons.
    + by destruct Hok as (-> & -> & ? & _).
  - simpl in *. destruct Hok as [-> ?]. split; [done|]. split; [by apply once_get|done].
Qed.

(** What the other callers know is not changed by it. *)
Lemma others_tasks_ok sh c p sh' p' d q : swqos_pool sh c p sh' p' → spc_ok sh d q →
  (opening p = true → opening q = true → False) → spc_ok sh' d q.
Proof.
  intros Hs Hq Hex.
  destruct Hs as [sh c k|sh c p sh' p' Hs|sh c k n]; [by destruct q| |by destruct q].
  destruct Hs as [sh c k Hf|sh c k Hf|sh c k n|sh c k n i Hi|sh c k n i Hi]; simpl in *;
    try done; destruct q; simpl in *; try done; try (by destruct (Hex eq_refl eq_refl)); naive_solver.
Qed.

Lemma local_tasks_rest requests sh c p sh' p' : c ∈ requests → swqos_pool sh c p sh' p' →
  spc_ok sh c p → opening p' = false →
  (opening p = false → tasks_rest requests sh) → tasks_rest requests sh'.
Proof.
  intros Hin Hs Hok Hp' Hrest.
  destruct Hs as [sh c k|sh c p sh' p' Hs|sh c k n]; [by apply Hrest| |by apply Hrest].
  destruct Hs as [sh c k Hf|sh c k Hf|sh c k n|sh c k n i Hi|sh c k n i Hi]; simpl in *;
    try done; [by apply Hrest|].
  destruct Hok as (_ & _ & Hst & Hle & Hw). unfold tasks_rest. rewrite Hst. exists c.
  split; [done|]. by replace (swqos_tasks c) with i by lia.
Qed.

Lemma swqos_start_inv requests : tasks_inv (swqos_calls requests).
Proof.
  assert (Hl : ∀ i c p, map (λ c, (c, SQueue)) requests !! i = Some (c, p) → p = SQueue).
  { intros i c p Hi. apply list_lookup_fmap_Some in Hi as (d & [= _ ->] & _). done. }
  split; simpl; [by left..| | |done].
  - intros i c p ->%Hl. done.
  - intros i j c d p q ->%Hl. done.
Qed.

Lemma not_started_empty s : tasks_inv s → swqos_workers_started (shared s) = false →
  swqos_workers (shared s) = [].
Proof.
  intros Hinv Hf. pose proof (ti_rest _ Hinv) as Hr. unfold tasks_rest in Hr. rewrite Hf in Hr.
  apply Hr. intros i c p Hi. pose proof (ti_callers _ Hinv i c p Hi) as Hp.
  destruct p; simpl in *; try done; destruct Hp as (? & ? & ?); [congruence|naive_solver].
Qed.

Lemma swqos_step_inv s s' : tasks_inv s → swqos_step s s' → tasks_inv s'.
Proof.
  intros Hinv Hs. destruct Hs as [sh l i c p sh' p' Hi Hs].
  pose proof (ti_callers _ Hinv i c p Hi) as Hok.
  destruct (local_once _ _ _ _ _ Hs (ti_queue _ Hinv) (ti_notify _ Hinv)) as [Hq Hn].
  pose proof (insert_callers l i c p p' Hi) as Hlook.
  split; simpl; [done|done| | |].
  - intros j d q [(-> & -> & ->)|[Hne Hj]]%Hlook.
    + eapply local_tasks_ok; [exact Hs|apply Hinv..| |exact Hok]. by apply (not_started_empty (mk_System sh l)).
    + eapply others_tasks_ok; [exact Hs|by apply (ti_callers _ Hinv j)|].
      intros Hop Hoq. destruct Hne. by eapply (ti_mutex _ Hinv j i).
  - assert (Hback : opening p' = true → ∀ j d q, j ≠ i → l !! j = Some (d, q) → opening q = false).
    { intros Hp' j d q Hne Hj. destruct (opening q) eqn:Hoq; [|done]. exfalso.
      destruct (opening p) eqn:Hop; [destruct Hne; by eapply (ti_mutex _ Hinv j i)|].
      pose proof (ti_callers _ Hinv j d q Hj) as Hqk.
      assert (Hf : swqos_workers_started sh = false)
        by (destruct Hs as [|? ? ? ? ? []|]; simpl in *; done).
      destruct q; simpl in *; try done; destruct Hqk as (_ & Hst & Hqk); [congruence|].
      destruct Hqk as (Hst' & _). congruence. }
    intros j k d d' q q' [(-> & -> & ->)|[Hj1 Hj]]%Hlook [(-> & -> & ->)|[Hk1 Hk]]%Hlook Hoq Hoq'.
    + done.
    + by rewrite (Hback Hoq k d' q') in Hoq'.
    + by rewrite (Hback Hoq' j d q) in Hoq.
    + by eapply (ti_mutex _ Hinv j k).
  - intros Hm. rewrite (insert_requests l i c p p' Hi).
    eapply local_tasks_rest; [by eapply elem_of_requests|exact Hs|exact Hok| |].
    + apply (Hm i c p'). apply list_lookup_insert_eq. by eapply lookup_lt_Some.
    + intros Hp. apply (ti_rest _ Hinv). simpl. intros j d q Hj.
      destruct (decide (j = i)) as [->|Hne]; [by simplify_eq|].
      apply (Hm j d q). by rewrite list_lookup_insert_ne.
Qed.

Lemma swqos_reachable_inv requests s :
  rtc swqos_step (swqos_calls requests) s → tasks_inv s.
Proof.
  intros Hr. pose proof (swqos_start_inv requests) as Hi. induction Hr; eauto using swqos_step_inv.
Qed.

Definition swqos_rank (c : Request) (p : spc) : nat :=
  let n := swqos_tasks c in
  match p with
  | SQueue => n + 6 | SSwap _ => n + 5 | SNotify _ => n + 4 | SSpawn _ _ i => n - i + 2
  | SLast _ => 1 | SDone _ _ => 0
  end.

Lemma local_rank_swqos sh c p sh' p' :
  swqos_pool sh c p sh' p' → (swqos_rank c p' < swqos_rank c p)%nat.
Proof. intros [|? ? ? ? ? []|]; simpl; lia. Qed.

(** Submissions on the runtime share one queue and one notifier too, and the
    tasks are those of one request: between one and eighteen of them, started
    once, although a later caller may be given the queue before they are. *)
Theorem swqos_pool_once requests s :
  rtc swqos_step (swqos_calls requests) s →
  (∀ i c q n, callers s !! i = Some (c, SDone q n) → q = 0%nat ∧ n = 0%nat)
  ∧ (requests ≠ [] → (∀ i c p, callers s !! i = Some (c, p) → ∃ q n, p = SDone q n) →
     ∃ c, c ∈ requests ∧ swqos_workers (shared s) = repeat (0%nat, 0%nat) (swqos_tasks c)
          ∧ (1 ≤ swqos_tasks c ≤ 18)%nat)
  ∧ (∀ i c p, callers s !! i = Some (c, p) → (∀ q n, p ≠ SDone q n) →
     ∃ sh' p', swqos_pool (shared s) c p sh' p')
  ∧ (∀ k s', nsteps swqos_step k s s' → (k ≤ total_rank swqos_rank s)%nat).
Proof.
  intros Hr. pose proof (swqos_reachable_inv _ _ Hr) as Hinv.
  pose proof (configs_kept _ _ _ Hr) as Hreq. simpl in Hreq.
  rewrite <- list_fmap_compose, list_fmap_id in Hreq. split; [|split; [|split]].
  - intros i c q n Hi. by destruct (ti_callers _ Hinv i _ _ Hi) as (-> & -> & _).
  - intros Hne Hall. assert (Hrest : tasks_rest (callers s).*1 (shared s)).
    { apply (ti_rest _ Hinv). intros i c p Hi. by destruct (Hall i c p Hi) as (q & n & ->). }
    destruct requests as [|c0 requests]; [done|].
    destruct (callers s) as [|[c p] l] eqn:Hl; [done|].
    destruct (Hall 0%nat c p eq_refl) as (q & n & ->).
    assert (Hok : spc_ok (shared s) c (SDone q n)) by (apply (ti_callers _ Hinv 0); by rewrite Hl).
    destruct Hok as (_ & _ & Hst). unfold tasks_rest in Hrest. rewrite Hst, Hreq in Hrest.
    destruct Hrest as (d & Hd & Hw). exists d. split; [done|]. split; [done|].
    unfold swqos_tasks, SWQOS_POOL_WORKERS. lia.
  - intros i c p _ Hp. destruct p as [|q|q|q n j|q|q n].
    + eexists _, _. constructor.
    + destruct (swqos_workers_started (shared s)) eqn:Hst; eexists _, _; apply s_ensure;
        [by apply s_swap_later|by apply s_swap_first].
    + eexists _, _. apply s_ensure, s_notify.
    + destruct (decide (j < swqos_tasks c)%nat); eexists _, _; apply s_ensure;
        [by apply s_spawn|apply s_spawned; lia].
    + eexists _, _. apply s_last.
    + by destruct (Hp q n).
  - intros k s'. apply runs_bounded. apply local_rank_swqos.
Qed.
End Tasks.

(** ** Concrete runs *)

#[local] Instance two_cores : Machine := {| get_core_ids := Some [0; 1] |}.
Definition two_requests : list Request := [mk_Request (Some [1%nat]) 4; mk_Request None 8].

(** Both callers miss the fast path; the first makes the pool, the second finds it. *)
Definition both_returned : System :=
  mk_System (mk_Dedicated (Some 0%nat) (Some 0%nat) (Some 1%nat) false 1 [(0%nat, 0%nat, Some 1)])
    [(mk_Request (Some [1%nat]) 4, DDone 0 0); (mk_Request None 8, DDone 0 0)].

Lemma dedicated_run :
  rtc (system_step (@ensure_dedicated_pool two_cores)) (dedicated_calls two_requests) both_returned.
Proof.
  caller 0%nat d_fast. caller 1%nat d_fast.
  caller 0%nat d_fast_miss; [by left|]. caller 1%nat d_fast_miss; [by left|].
  caller 0%nat d_lock; [done|]. caller 0%nat d_check. caller 0%nat d_check_miss; [by left|].
  caller 0%nat d_spawn; [cbv; lia|]. caller 0%nat d_spawned; [cbv; lia|].
  caller 0%nat d_set_queue. caller 0%nat d_set_notify. caller 0%nat d_store.
  caller 1%nat d_lock; [done|]. caller 1%nat d_check. caller 1%nat d_check_hit; [done|].
  apply rtc_refl.
Qed.

Lemma dedicated_pool_once_witness :
  rtc (system_step (@ensure_dedicated_pool two_cores)) (dedicated_calls two_requests) both_returned
  ∧ ∃ d, d ∈ two_requests ∧ dedicated_workers (shared both_returned) = @pool_of two_cores d 0.
Proof.
  split; [exact dedicated_run|].
  exact (proj1 (proj2 (proj2 (proj1 (@dedicated_pool_once two_cores two_requests both_returned
    dedicated_run) 1%nat (mk_Request None 8) 0%nat 0%nat eq_refl)))).
Defined.
