(* ===== verification/KernelBypass.v ===== *)
(** * The user-space packet queues (sdk perf/kernel_bypass.rs)

    perf/mod.rs does not declare this module; it is modelled as it would be
    compiled.  A queue is a mapped region of entries, each a descriptor and
    room for 1500 bytes, between two counters that only grow.  The sending
    side is given as functions on the memory of [Simd], and its threads as
    interleaved steps.  No thread ever fills the receiving queue. *)

From stdpp Require Import relations.
From S2P Require Import Prelude F64 Concurrent Solana Simd.

#[local] Open Scope string_scope.
#[local] Open Scope Z_scope.
#[local] Open Scope list_scope.

(** ** Queues *)

(** [size_of::<PacketDescriptor>()] with [repr(C)]: the fields at 0, 8, 16, 20,
    22 and 24, and the padding field at 28. *)
(* sdk perf/kernel_bypass.rs:134-134 new, descriptor_size *)
Definition DESCRIPTOR_SIZE : Z := 32.

(* sdk perf/kernel_bypass.rs:114-129 PacketDescriptor *)
Record PacketDescriptor := mk_Packet {
  pd_length : Z;
  pd_timestamp_ns : Z;
  pd_dst_addr : Z;
  pd_dst_port : Z;
  pd_flags : Z;
  pd_data_offset : Z;
}.

(** [ring] is the address of the region. *)
(* sdk perf/kernel_bypass.rs:84-95 TxQueue *)
Record TxQueue := mk_TxQueue {
  ring : Z;
  capacity : Z;
  head : Z;
  tail : Z;
}.

(* sdk perf/kernel_bypass.rs:98-109 RxQueue *)
Definition RxQueue : Type := TxQueue.

(** An address is IPv4 with its 32 bits, or IPv6. *)
Inductive IpAddr := V4 (a : Z) | V6 (a : Z).

(** Field by field; the bytes between fields are left. *)
Definition write_descriptor (m : Mem) (p : Z) (d : PacketDescriptor) : Mem :=
  let m := store m p (le_bytes 4 (pd_length d)) in
  let m := store m (p + 8) (le_bytes 8 (pd_timestamp_ns d)) in
  let m := store m (p + 16) (le_bytes 4 (pd_dst_addr d)) in
  let m := store m (p + 20) (le_bytes 2 (pd_dst_port d)) in
  let m := store m (p + 22) (le_bytes 2 (pd_flags d)) in
  store m (p + 24) (le_bytes 4 (pd_data_offset d)).

Definition read_descriptor (m : Mem) (p : Z) : PacketDescriptor :=
  mk_Packet (le_value (load m p 4)) (le_value (load m (p + 8) 8)) (le_value (load m (p + 16) 4))
    (le_value (load m (p + 20) 2)) (le_value (load m (p + 22) 2)) (le_value (load m (p + 24) 4)).

Section Queues.
Context `{Build}.

(** [map_anon], a dependency: the address of a region, of pages of zeros. *)
(* sdk perf/kernel_bypass.rs:133-152 new *)
Definition queue_of (map_anon : Z → result string Z) (cap : Z) : exec (result string TxQueue) :=
  let* entry_size := add 64 DESCRIPTOR_SIZE 1500 in
  let* total_size := mul 64 cap entry_size in
  Val match map_anon total_size with
      | Ok ring => Ok (mk_TxQueue ring cap 0 0)
      | Err e => Err e
      end.

(* sdk perf/kernel_bypass.rs:250-267 new *)
Definition rx_queue_of : (Z → result string Z) → Z → exec (result string RxQueue) := queue_of.

(** Blocks of 32 bytes, then the rest; up to 32 bytes at once. *)
(* sdk perf/kernel_bypass.rs:204-237 fast_memcpy *)
Definition fast_memcpy (m : Mem) (dst src : Z) (len : nat) : Mem :=
  if Nat.leb len 32 then move m dst src len
  else
    let chunks := (len / 32)%nat in
    let m := foldl (λ m i, let offset := Z.of_nat (32 * i) in
                           move m (dst + offset) (src + offset) 32) m (seq 0 chunks) in
    let offset := Z.of_nat (32 * chunks) in
    let remaining := (len mod 32)%nat in
    if Nat.ltb 0 remaining then move m (dst + offset) (src + offset) remaining else m.

(* sdk perf/kernel_bypass.rs:161-161 send_packet_zero_copy, full *)
Definition tx_full (cap head tail : Z) : exec bool :=
  let* h := add 64 head 1 in
  let* r := rem h cap in
  Val (r =? tail).

(** The descriptor is written where the entry begins, aligned or not. *)
(* sdk perf/kernel_bypass.rs:156-200 send_packet_zero_copy *)
Definition send_packet_zero_copy (m : Mem) (q : TxQueue) (now : Z) (data : Z) (len : nat)
    (ip : IpAddr) (port : Z) : exec (result string () * TxQueue * Mem) :=
  let* full := tx_full (capacity q) (head q) (tail q) in
  if full : bool then Val (Err "TX queue is full", q, m)
  else
    let* entry_size := add 64 DESCRIPTOR_SIZE 1500 in
    let* i := rem (head q) (capacity q) in
    let* entry_offset := mul 64 i entry_size in
    let buffer_ptr := ring q + entry_offset in
    match ip with
    | V4 a =>
        let m := write_descriptor m buffer_ptr
                   (mk_Packet (as_u32 (Z.of_nat len)) now a port 0 DESCRIPTOR_SIZE) in
        let m := fast_memcpy m (buffer_ptr + DESCRIPTOR_SIZE) data len in
        let* h := add 64 (head q) 1 in
        Val (Ok (), mk_TxQueue (ring q) (capacity q) h (tail q), m)
    | V6 _ => Val (Err "Only IPv4 supported", q, m)
    end.

(* sdk perf/kernel_bypass.rs:241-245 pending_packets *)
Definition pending_packets (cap head tail : Z) : exec Z :=
  let* s := add 64 head cap in
  let* d := sub 64 s tail in
  rem d cap.

(* sdk perf/kernel_bypass.rs:271-314 receive_packet_zero_copy *)
Definition receive_packet_zero_copy (m : Mem) (q : RxQueue) (buffer : Z) (buffer_len : nat) :
    exec (result string (nat * (Z * Z)) * RxQueue * Mem) :=
  if tail q =? head q then Val (Err "RX queue is empty", q, m)
  else
    let* entry_size := add 64 DESCRIPTOR_SIZE 1500 in
    let* i := rem (tail q) (capacity q) in
    let* entry_offset := mul 64 i entry_size in
    let buffer_ptr := ring q + entry_offset in
    let descriptor := read_descriptor m buffer_ptr in
    let data_len := Z.to_nat (pd_length descriptor) in
    if Nat.ltb buffer_len data_len then Val (Err "Buffer too small", q, m)
    else
      let m := fast_memcpy m buffer (buffer_ptr + DESCRIPTOR_SIZE) data_len in
      let* t := add 64 (tail q) 1 in
      Val (Ok (data_len, (pd_dst_addr descriptor, pd_dst_port descriptor)),
           mk_TxQueue (ring q) (capacity q) (head q) t, m).

(* sdk perf/kernel_bypass.rs:351-355 available_packets *)
Definition available_packets : Z → Z → Z → exec Z := pending_packets.
End Queues.

(** ** The copy is exact *)

Theorem fast_memcpy_exact m dst src len :
  apart dst src len → copied m dst src len (fast_memcpy m dst src len).
Proof.
  intros Hd. unfold fast_memcpy. destruct (Nat.leb_spec len 32); [apply copied_once|].
  assert (Hlen : len = (32 * (len / 32) + len mod 32)%nat) by (apply Nat.div_mod; lia).
  assert (Hc : copied m dst src (32 * (len / 32)) (foldl (λ m i, let offset := Z.of_nat (32 * i) in
      move m (dst + offset) (src + offset) 32) m (seq 0 (len / 32)))).
  { refine (foldl_seq_inv (λ m' i, copied m dst src (32 * i) m') _ _ m (copied_0 _ _ _) _).
    intros m' i Hm Hi. replace (32 * S i)%nat with (32 * i + 32)%nat by lia.
    apply (copied_step m dst src _ 32 len); [done..| |done|done].
    assert (32 * S i ≤ 32 * (len / 32))%nat by (apply Nat.mul_le_mono_l; lia). lia. }
  cbv zeta. destruct (Nat.ltb_spec 0 (len mod 32)).
  - rewrite Hlen at 1. apply (copied_step m dst src _ _ len); [done|exact Hc|lia|done|done].
  - rewrite Hlen at 1. replace (32 * (len / 32) + len mod 32)%nat with (32 * (len / 32))%nat by lia.
    exact Hc.
Qed.

Lemma write_descriptor_outside m p d a :
  a < p ∨ p + DESCRIPTOR_SIZE ≤ a → write_descriptor m p d a = m a.
Proof.
  intros Ha. unfold write_descriptor, DESCRIPTOR_SIZE in *.
  rewrite !store_outside; rewrite ?le_bytes_length; lia || done.
Qed.

(** A descriptor of the widths of its fields. *)
Definition descriptor_ok (d : PacketDescriptor) : Prop :=
  is_u32 (pd_length d) ∧ is_u64 (pd_timestamp_ns d) ∧ is_u32 (pd_dst_addr d)
  ∧ is_u16 (pd_dst_port d) ∧ is_u16 (pd_flags d) ∧ is_u32 (pd_data_offset d).

Lemma descriptor_roundtrip m p d :
  descriptor_ok d → read_descriptor (write_descriptor m p d) p = d.
Proof.
  intros (H1 & H2 & H3 & H4 & H5 & H6). unfold read_descriptor, write_descriptor.
  repeat first [rewrite load_store_same by (by rewrite le_bytes_length)
               |rewrite load_store_other by (rewrite le_bytes_length; lia)].
  rewrite !le_value_le_bytes by (unfold is_uint in *; simpl; lia). by destruct d.
Qed.

(** ** Packets *)

(** The address of the entry a counter points to. *)
Definition entry (q : TxQueue) (k : Z) : Z := ring q + k mod capacity q * 1532.

(** Counters that do not wrap, and a region whose size is a [usize]. *)
Record queue_ok (q : TxQueue) : Prop := mk_qok {
  qok_capacity : 2 ≤ capacity q;
  qok_region : capacity q * 1532 < 2 ^ 64;
  qok_tail : 0 ≤ tail q ≤ head q;
  qok_head : head q + capacity q < 2 ^ 64 - 1;
}.

Section Packets.
Context `{Build}.

Lemma tx_full_eq cap h t : 0 < cap → is_u64 h → h + 1 < 2 ^ 64 →
  tx_full cap h t = Val ((h + 1) mod cap =? t).
Proof.
  intros Hc Hh Hh1. unfold tx_full, add, rem. rewrite ck_ok by (unfold is_uint in *; lia).
  cbn [exec_bind]. by rewrite (proj2 (Z.eqb_neq cap 0)) by lia.
Qed.

Lemma pending_eq cap h t : 0 < cap → 0 ≤ t ≤ h → h + cap < 2 ^ 64 →
  pending_packets cap h t = Val ((h - t) mod cap).
Proof.
  intros Hc Ht Hh. unfold pending_packets, add, sub, rem.
  rewrite ck_ok by (unfold is_uint; lia). cbn [exec_bind].
  rewrite ck_ok by (unfold is_uint; lia). cbn [exec_bind].
  rewrite (proj2 (Z.eqb_neq cap 0)) by lia. f_equal.
  replace (h + cap - t) with (h - t + 1 * cap) by lia. apply Z_mod_plus_full.
Qed.

Lemma entry_offset_eq q k : queue_ok q → 0 ≤ k →
  (let* i := rem k (capacity q) in mul 64 i 1532) = Val (k mod capacity q * 1532).
Proof.
  intros [Hc Hr _ _] Hk. unfold rem, mul.
  rewrite (proj2 (Z.eqb_neq (capacity q) 0)) by lia. cbn [exec_bind]. apply ck_ok.
  pose proof (Z.mod_pos_bound k (capacity q) ltac:(lia)). unfold is_uint. nia.
Qed.

(** The descriptor of a packet. *)
Definition descriptor_of (now : Z) (len : nat) (a port : Z) : PacketDescriptor :=
  mk_Packet (as_u32 (Z.of_nat len)) now a port 0 DESCRIPTOR_SIZE.

Lemma send_accepts m q now data len a port :
  queue_ok q → (head q + 1) mod capacity q ≠ tail q →
  send_packet_zero_copy m q now data len (V4 a) port
  = Val (Ok (), mk_TxQueue (ring q) (capacity q) (head q + 1) (tail q),
         fast_memcpy (write_descriptor m (entry q (head q)) (descriptor_of now len a port))
           (entry q (head q) + DESCRIPTOR_SIZE) data len).
Proof.
  intros Hq Hf. pose proof Hq as [Hc Hr Ht Hh]. unfold send_packet_zero_copy.
  rewrite tx_full_eq by (unfold is_uint; lia). cbn [exec_bind].
  rewrite (proj2 (Z.eqb_neq _ _) Hf). cbn [exec_bind]. unfold add at 1. rewrite ck_ok by done.
  cbn [exec_bind]. change (DESCRIPTOR_SIZE + 1500) with 1532.
  pose proof (entry_offset_eq q (head q) Hq ltac:(lia)) as He.
  destruct (rem (head q) (capacity q)) as [i|]; [|done]. cbn [exec_bind] in *.
  rewrite He. cbn [exec_bind]. unfold add. rewrite ck_ok by (unfold is_uint; lia). done.
Qed.

(** What a packet changes: its entry's descriptor, and as many bytes after it
    as the packet has, whether they are the entry's or not. *)
Lemma packet_at m p data len d a :
  apart (p + DESCRIPTOR_SIZE) data len →
  data + Z.of_nat len ≤ p ∨ p + DESCRIPTOR_SIZE ≤ data →
  p + DESCRIPTOR_SIZE ≤ a →
  fast_memcpy (write_descriptor m p d) (p + DESCRIPTOR_SIZE) data len a
  = if a <? p + DESCRIPTOR_SIZE + Z.of_nat len then m (data + (a - (p + DESCRIPTOR_SIZE))) else m a.
Proof.
  intros Hap Hd Ha. rewrite fast_memcpy_exact by done. destruct (Z.ltb_spec a (p + DESCRIPTOR_SIZE + Z.of_nat len)).
  - rewrite move_inside by lia. apply write_descriptor_outside. lia.
  - rewrite move_outside by lia. apply write_descriptor_outside. lia.
Qed.

(** A packet of more than 1500 bytes is accepted, and runs over the next entry. *)
Theorem oversized_packet_overruns m q now data len a port :
  queue_ok q → (head q + 1) mod capacity q ≠ tail q → (1500 < len)%nat →
  apart (entry q (head q)) data (len + 32) →
  ∃ q' m', send_packet_zero_copy m q now data len (V4 a) port = Val (Ok (), q', m')
    ∧ m' (entry q (head q) + 1532) = m (data + 1500).
Proof.
  intros Hq Hf Hl Hap. rewrite send_accepts by done. eexists _, _. split; [reflexivity|].
  unfold apart, DESCRIPTOR_SIZE in *.
  rewrite packet_at; unfold apart, DESCRIPTOR_SIZE in *; [|lia..].
  rewrite (proj2 (Z.ltb_lt _ _)) by lia. f_equal. lia.
Qed.

(** The receiving side reads what the sending side writes: a packet of at most
    1500 bytes put into an empty queue is taken out of it, with its address,
    and the queue is empty again. *)
Theorem packet_roundtrip m q now data len a port buffer buffer_len :
  queue_ok q → head q = tail q → head q + capacity q + 1 < 2 ^ 64 - 1 →
  (len ≤ 1500)%nat → (len ≤ buffer_len)%nat →
  is_u64 now → is_u32 a → is_u16 port →
  apart (entry q (head q)) data 1532 → apart buffer (entry q (head q)) 1532 →
  ∃ q' m' m'',
    send_packet_zero_copy m q now data len (V4 a) port = Val (Ok (), q', m')
    ∧ receive_packet_zero_copy m' q' buffer buffer_len
      = Val (Ok (len, (a, port)), mk_TxQueue (ring q) (capacity q) (head q + 1) (head q + 1), m'')
    ∧ load m'' buffer len = load m data len.
Proof.
  intros Hq Hempty Hh Hl Hb Hnow Ha Hport Hd Hbuf. pose proof Hq as [Hc Hr Ht _].
  assert (Hf : (head q + 1) mod capacity q ≠ tail q).
  { rewrite <- Hempty. intros Heq. destruct (Z.lt_ge_cases (head q + 1) (capacity q)).
    - rewrite Z.mod_small in Heq; lia.
    - pose proof (Z.mod_pos_bound (head q + 1) (capacity q) ltac:(lia)).
      destruct (Z.eq_dec (head q + 1) (capacity q)) as [He|];
        [rewrite He, Z_mod_same_full in Heq|]; lia. }
  rewrite send_accepts by done. set (p := entry q (head q)) in *.
  set (m1 := fast_memcpy _ _ _ _). eexists _, m1, _. split; [reflexivity|].
  assert (Hread : read_descriptor m1 p = descriptor_of now len a port).
  { rewrite <- (descriptor_roundtrip m p (descriptor_of now len a port)).
    - unfold read_descriptor, m1, DESCRIPTOR_SIZE.
      f_equal; f_equal; apply load_ext; intros x Hx; rewrite fast_memcpy_exact
        by (unfold apart, DESCRIPTOR_SIZE in *; lia); apply move_outside;
        unfold DESCRIPTOR_SIZE in *; lia.
    - unfold descriptor_ok, descriptor_of, as_u32, wrap, DESCRIPTOR_SIZE, is_uint in *. simpl.
      pose proof (Z.mod_pos_bound (Z.of_nat len) (2 ^ 32)). lia. }
  assert (Hlen : as_u32 (Z.of_nat len) = Z.of_nat len).
  { unfold as_u32, wrap. apply Z.mod_small. lia. }
  unfold receive_packet_zero_copy. cbn [tail head capacity ring].
  rewrite (proj2 (Z.eqb_neq _ _)) by lia. unfold add at 1. rewrite ck_ok by done. cbn [exec_bind].
  change (DESCRIPTOR_SIZE + 1500) with 1532. rewrite <- Hempty.
  pose proof (entry_offset_eq q (head q) Hq ltac:(lia)) as He.
  destruct (rem (head q) (capacity q)) as [i|]; [|done]. cbn [exec_bind] in *.
  rewrite He. cbn [exec_bind]. fold (entry q (head q)). fold p. rewrite Hread.
  unfold descriptor_of at 1. cbn [pd_length pd_dst_addr pd_dst_port]. rewrite Hlen, Nat2Z.id.
  rewrite (proj2 (Nat.ltb_ge _ _)) by done. unfold add. rewrite ck_ok by (unfold is_uint; lia).
  cbn [exec_bind]. split; [unfold descriptor_of; cbn [pd_length pd_dst_addr pd_dst_port];
    by rewrite Hlen, Nat2Z.id|].
  apply list_eq_same_length with len; [by rewrite ?load_length..|].
  intros i' x y Hi. rewrite !load_lookup by done. intros [= <-] [= <-].
  rewrite fast_memcpy_exact by (unfold apart, DESCRIPTOR_SIZE in *; lia).
  rewrite move_inside by (unfold DESCRIPTOR_SIZE; lia). unfold m1.
  rewrite packet_at; unfold apart, DESCRIPTOR_SIZE in *; [|lia..].
  rewrite (proj2 (Z.ltb_lt _ _)) by lia. f_equal. lia.
Qed.
End Packets.

(** ** Threads on the sending queue *)

(** The counters of the queue, the packets senders were told are queued, and
    those the sending thread has counted as sent. *)
Record Counters := mk_Counters {
  c_capacity : Z;
  c_head : Z;
  c_tail : Z;
  c_accepted : Z;
  c_sent : Z;
}.

Inductive role := Sender | TxThread.

(** A sender has read the head, and then found room; the sending thread has
    found packets pending, has counted them, and has read the tail. *)
Inductive qpc :=
| SIdle
| SLoaded (h : Z)
| SWrite (h : Z)
| TIdle
| TPending (p : Z)
| TCounted (p : Z)
| TStore (p t : Z).

Section Threads.
Context `{Build}.

(* sdk perf/kernel_bypass.rs:156-200 send_packet_zero_copy, counters *)
Inductive sender_step : Counters → role → qpc → Counters → qpc → Prop :=
| s_load c :
    sender_step c Sender SIdle c (SLoaded (c_head c))
| s_full c h :
    tx_full (c_capacity c) h (c_tail c) = Val true →
    sender_step c Sender (SLoaded h) c SIdle
| s_free c h :
    tx_full (c_capacity c) h (c_tail c) = Val false →
    sender_step c Sender (SLoaded h) c (SWrite h)
| s_store c h h' :
    add 64 h 1 = Val h' →
    sender_step c Sender (SWrite h)
      (mk_Counters (c_capacity c) h' (c_tail c) (c_accepted c + 1) (c_sent c)) SIdle.

(* sdk perf/kernel_bypass.rs:413-427 start_tx_thread, loop *)
Inductive tx_step : Counters → role → qpc → Counters → qpc → Prop :=
| t_none c :
    pending_packets (c_capacity c) (c_head c) (c_tail c) = Val 0 →
    tx_step c TxThread TIdle c TIdle
| t_some c p :
    pending_packets (c_capacity c) (c_head c) (c_tail c) = Val p → 0 < p →
    tx_step c TxThread TIdle c (TPending p)
| t_count c p :
    tx_step c TxThread (TPending p)
      (mk_Counters (c_capacity c) (c_head c) (c_tail c) (c_accepted c) (c_sent c + p)) (TCounted p)
| t_load c p :
    tx_step c TxThread (TCounted p) c (TStore p (c_tail c))
| t_store c p t t' :
    add 64 t p = Val t' →
    tx_step c TxThread (TStore p t)
      (mk_Counters (c_capacity c) (c_head c) t' (c_accepted c) (c_sent c)) TIdle.

Inductive queue_local (c : Counters) (r : role) (p : qpc) (c' : Counters) (p' : qpc) : Prop :=
| ql_sender : sender_step c r p c' p' → queue_local c r p c' p'
| ql_tx : tx_step c r p c' p' → queue_local c r p c' p'.

Abbreviation queue_step := (system_step queue_local).

Definition queue_threads (cap : Z) (l : list (role * qpc)) : System :=
  mk_System (mk_Counters cap 0 0 0 0) l.

Definition pair_start (cap : Z) : System := queue_threads cap [(Sender, SIdle); (TxThread, TIdle)].

(** What one sender and one sending thread keep. *)
Definition sender_ok (c : Counters) (p : qpc) : Prop :=
  match p with SIdle => True | SLoaded h | SWrite h => h = c_head c | _ => False end.
Definition tx_ok (c : Counters) (p : qpc) : Prop :=
  match p with
  | TIdle => c_sent c = c_tail c
  | TPending p => c_sent c = c_tail c ∧ 0 < p ∧ c_tail c + p ≤ c_head c
  | TCounted p => c_sent c = c_tail c + p ∧ 0 < p ∧ c_tail c + p ≤ c_head c
  | TStore p t => t = c_tail c ∧ c_sent c = c_tail c + p ∧ 0 < p ∧ c_tail c + p ≤ c_head c
  | _ => False
  end.

Definition pair_inv (cap : Z) (s : System) : Prop :=
  ∃ c p q, s = mk_System c [(Sender, p); (TxThread, q)] ∧ c_capacity c = cap
  ∧ sender_ok c p ∧ tx_ok c q ∧ 0 ≤ c_tail c ≤ c_head c ∧ c_accepted c = c_head c.

Lemma pair_bounded cap s : pair_inv cap s → c_sent (shared s) ≤ c_accepted (shared s).
Proof.
  intros (c & p & q & -> & _ & _ & Hq & Ht & Ha). cbn [shared]. destruct q; simpl in Hq; lia.
Qed.

Lemma pending_bound cap h t p : 0 < cap → 0 ≤ t ≤ h → h + cap < 2 ^ 64 →
  pending_packets cap h t = Val p → t + p ≤ h.
Proof.
  intros Hc Ht Hh. rewrite pending_eq by lia. intros [= <-].
  pose proof (Z.mod_le (h - t) cap ltac:(lia) ltac:(lia)). lia.
Qed.

Lemma pair_step cap s s' : 0 < cap → pair_inv cap s → c_head (shared s) + cap < 2 ^ 64 - 1 →
  queue_step s s' → pair_inv cap s'.
Proof.
  intros Hcap (c & p & q & -> & Hc & Hp & Hq & Ht & Ha) Hh Hs. cbn [shared] in Hh.
  inversion Hs as [sh l i r p0 sh' p' Hi Hl]; subst. destruct i as [|[|i]]; [| |done]; simplify_eq/=.
  - destruct Hl as [Hl|Hl]; [|inversion Hl; subst; done].
    inversion Hl as [| | |c0 h h' Hadd]; subst; simpl in *.
    + eexists _, _, _. split; [reflexivity|]. simpl. split_and!; done || lia.
    + eexists _, _, _. split; [reflexivity|]. simpl. split_and!; done || lia.
    + eexists _, _, _. split; [reflexivity|]. simpl. split_and!; done || lia.
    + unfold add in Hadd. rewrite ck_ok in Hadd by (unfold is_uint; lia). injection Hadd as <-.
      eexists _, _, _. split; [reflexivity|]. cbn [c_capacity c_head c_tail c_accepted c_sent sender_ok].
      split_and!; try done; try lia. destruct q; simpl in *; intuition lia.
  - destruct Hl as [Hl|Hl]; [inversion Hl; subst; done|].
    inversion Hl as [|c0 n Hn Hpos| | |c0 n t t' Hadd]; subst; simpl in *.
    + eexists _, _, _. split; [reflexivity|]. simpl. split_and!; done || lia.
    + apply pending_bound in Hn; [|lia..].
      eexists _, _, _. split; [reflexivity|]. simpl. split_and!; try done; lia.
    + eexists _, _, _. split; [reflexivity|]. simpl. split_and!; try done; try lia; by destruct p.
    + eexists _, _, _. split; [reflexivity|]. simpl. split_and!; try done; lia.
    + unfold add in Hadd. rewrite ck_ok in Hadd by (unfold is_uint; lia). injection Hadd as <-.
      eexists _, _, _. split; [reflexivity|]. simpl. split_and!; try done; try lia; by destruct p.
Qed.

Lemma pair_head cap s s' : 0 < cap → pair_inv cap s → c_head (shared s) + cap < 2 ^ 64 - 1 →
  queue_step s s' → c_head (shared s') ≤ c_head (shared s) + 1.
Proof.
  intros Hcap (c & p & q & -> & Hc & Hp & Hq & Ht & Ha) Hh Hs. cbn [shared] in *.
  inversion Hs as [sh l i r p0 sh' p' Hi Hl]; subst. destruct i as [|[|i]]; [| |done]; simplify_eq/=.
  - destruct Hl as [Hl|Hl]; [|inversion Hl; subst; done].
    inversion Hl as [| | |c0 h h' Hadd]; subst; simpl in *; try lia.
    unfold add in Hadd. rewrite ck_ok in Hadd by (unfold is_uint; lia). injection Hadd as <-. lia.
  - destruct Hl as [Hl|Hl]; [inversion Hl; subst; done|]. inversion Hl; subst; simpl in *; lia.
Qed.

Lemma pair_reach cap n s : 0 < cap → Z.of_nat n + cap < 2 ^ 64 - 1 →
  nsteps queue_step n (pair_start cap) s → pair_inv cap s ∧ c_head (shared s) ≤ Z.of_nat n.
Proof.
  intros Hcap. revert s. induction n as [|n IH]; intros s Hn Hr.
  - inversion Hr; subst. split; [|done]. eexists _, _, _. split; [reflexivity|]. simpl. split_and!; done || lia.
  - apply nsteps_inv_r in Hr as (s1 & Hr & Hs). destruct (IH s1 ltac:(lia) Hr) as [Hi Hh].
    split; [eapply pair_step; eauto; lia|]. pose proof (pair_head cap s1 s Hcap Hi ltac:(lia) Hs). lia.
Qed.

(** With one sender and one sending thread, no packet is counted as sent that
    was not queued, in any run too short to wrap the counters. *)
Theorem only_queued_sent cap n s : 0 < cap → Z.of_nat n + cap < 2 ^ 64 - 1 →
  nsteps queue_step n (pair_start cap) s →
  c_sent (shared s) ≤ c_accepted (shared s) ∧ c_tail (shared s) ≤ c_head (shared s).
Proof.
  intros Hcap Hn Hr. destruct (pair_reach cap n s Hcap Hn Hr) as [Hi _].
  split; [by eapply pair_bounded|]. destruct Hi as (c & p & q & -> & _ & _ & _ & Ht & _). simpl. lia.
Qed.

(** *** Runs *)

Definition pair_at (cap h t : Z) : System :=
  mk_System (mk_Counters cap h t h t) [(Sender, SIdle); (TxThread, TIdle)].

(** [k] packets are queued while the tail stays where it is. *)
Lemma sends_run cap h t k : 0 < cap → 0 ≤ h → h + Z.of_nat k < 2 ^ 64 - 1 →
  (∀ j, h < j ≤ h + Z.of_nat k → j mod cap ≠ t) →
  rtc queue_step (pair_at cap h t) (mk_System (mk_Counters cap (h + Z.of_nat k) t (h + Z.of_nat k) t)
                                      [(Sender, SIdle); (TxThread, TIdle)]).
Proof.
  intros Hcap. revert h. induction k as [|k IH]; intros h Hh Hk Hfree.
  - rewrite Z.add_0_r. apply rtc_refl.
  - caller 0%nat ql_sender; [apply s_load|].
    caller 0%nat ql_sender; [apply s_free; simpl; rewrite tx_full_eq by (unfold is_uint; lia);
                             f_equal; apply Z.eqb_neq, Hfree; lia|].
    caller 0%nat ql_sender; [eapply s_store; unfold add; apply ck_ok; unfold is_uint; lia|].
    simpl. replace (h + Z.of_nat (S k)) with (h + 1 + Z.of_nat k) by lia. apply IH; [lia..|].
    intros j Hj. apply Hfree. lia.
Qed.

(** The sending thread takes what is pending. *)
Lemma drain_run cap h t : 0 < cap → 0 ≤ t ≤ h → h + cap < 2 ^ 64 → 0 < (h - t) mod cap →
  rtc queue_step (pair_at cap h t)
    (mk_System (mk_Counters cap h (t + (h - t) mod cap) h (t + (h - t) mod cap))
       [(Sender, SIdle); (TxThread, TIdle)]).
Proof.
  intros Hcap Ht Hh Hp. pose proof (Z.mod_pos_bound (h - t) cap Hcap).
  pose proof (Z.mod_le (h - t) cap ltac:(lia) Hcap).
  caller 1%nat ql_tx; [apply t_some; simpl; [by apply pending_eq|done]|].
  caller 1%nat ql_tx; [apply t_count|]. caller 1%nat ql_tx; [apply t_load|].
  caller 1%nat ql_tx; [eapply t_store; unfold add; simpl; apply ck_ok; unfold is_uint; lia|].
  simpl. apply rtc_refl.
Qed.

(** The queue is only right on its first lap.  Once the tail has passed
    the capacity no sender is ever told that the queue is full, whatever is
    unsent; and a state is reached where a whole lap of packets was accepted
    and is never sent: the sending thread, which counts them modulo the
    capacity, sees none and can only wait. *)
Theorem lap_strands_packets cap : 2 ≤ cap → 3 * cap < 2 ^ 64 - 1 →
  (∀ h t, cap ≤ t → is_u64 h → h + 1 < 2 ^ 64 → tx_full cap h t = Val false)
  ∧ ∃ s, rtc queue_step (pair_start cap) s
    ∧ c_accepted (shared s) = 2 * cap ∧ c_sent (shared s) = cap
    ∧ ∀ c p, tx_step (shared s) TxThread TIdle c p → c = shared s ∧ p = TIdle.
Proof.
  intros Hcap Hb. split.
  - intros h t Ht Hh Hh1. rewrite tx_full_eq by (done || lia). f_equal. apply Z.eqb_neq.
    pose proof (Z.mod_pos_bound (h + 1) cap ltac:(lia)). lia.
  - exists (pair_at cap (2 * cap) cap). split_and!; [|done|done|].
    + (* a lap less one, sent; one more, sent; then a lap *)
      etrans; [apply (sends_run cap 0 0 (Z.to_nat (cap - 1))); [lia..|]|].
      { intros j Hj. rewrite Z.mod_small by lia. lia. }
      rewrite Z2Nat.id, Z.add_0_l by lia.
      etrans; [apply (drain_run cap (cap - 1) 0); rewrite ?Z.sub_0_r, ?Z.mod_small; lia|].
      rewrite Z.sub_0_r, Z.mod_small, Z.add_0_l by lia.
      etrans; [apply (sends_run cap (cap - 1) (cap - 1) 1); [lia..|]|].
      { intros j Hj. replace j with cap by lia. rewrite Z_mod_same_full. lia. }
      replace (cap - 1 + Z.of_nat 1) with cap by lia.
      assert (Hone : (cap - (cap - 1)) mod cap = 1) by (rewrite Z.mod_small; lia).
      etrans; [exact (drain_run cap cap (cap - 1) ltac:(lia) ltac:(lia) ltac:(lia) ltac:(lia))|].
      rewrite Hone. replace (cap - 1 + 1) with cap by lia.
      etrans; [apply (sends_run cap cap cap (Z.to_nat cap)); [lia..|]|].
      { intros j Hj. pose proof (Z.mod_pos_bound j cap ltac:(lia)). lia. }
      rewrite Z2Nat.id by lia. replace (cap + cap) with (2 * cap) by lia. apply rtc_refl.
    + intros c p Hs. inversion Hs as [|c0 n Hn Hpos| | |]; subst; [done|]. exfalso.
      cbn [shared c_capacity c_head c_tail pair_at] in Hn. rewrite pending_eq in Hn by lia.
      injection Hn as Hn. replace (2 * cap - cap) with (1 * cap) in Hn by lia.
      rewrite Z_mod_mult in Hn. lia.
Qed.

(** Two senders can both be told that their packet is queued while there is
    only one: the head is read and stored apart. *)
Theorem two_senders_lose cap : 2 ≤ cap < 2 ^ 62 →
  ∃ s, rtc queue_step (queue_threads cap [(Sender, SIdle); (Sender, SIdle)]) s
    ∧ c_accepted (shared s) = 2 ∧ c_head (shared s) = 1.
Proof.
  intros Hcap. exists (mk_System (mk_Counters cap 1 0 2 0) [(Sender, SIdle); (Sender, SIdle)]).
  split_and!; [|done|done].
  assert (Hf : tx_full cap 0 0 = Val false).
  { rewrite tx_full_eq by (unfold is_uint; lia). rewrite Z.mod_small by lia. done. }
  caller 0%nat ql_sender; [apply s_load|]. caller 1%nat ql_sender; [apply s_load|].
  caller 0%nat ql_sender; [by apply s_free|]. caller 1%nat ql_sender; [by apply s_free|].
  caller 0%nat ql_sender; [by apply (s_store _ 0 1)|].
  caller 1%nat ql_sender; [by apply (s_store _ 0 1)|]. apply rtc_refl.
Qed.

(** Two sending threads, which a second [start] makes, can count a packet
    twice and move the tail past the head. *)
Theorem two_threads_overtake cap : 2 ≤ cap < 2 ^ 62 →
  ∃ s, rtc queue_step (queue_threads cap [(Sender, SIdle); (TxThread, TIdle); (TxThread, TIdle)]) s
    ∧ c_sent (shared s) = 2 ∧ c_accepted (shared s) = 1 ∧ c_head (shared s) < c_tail (shared s).
Proof.
  intros Hcap. exists (mk_System (mk_Counters cap 1 2 1 2) [(Sender, SIdle); (TxThread, TIdle); (TxThread, TIdle)]).
  split_and!; [|done|done|done].
  assert (Hf : tx_full cap 0 0 = Val false).
  { rewrite tx_full_eq by (unfold is_uint; lia). rewrite Z.mod_small by lia. done. }
  assert (Hp : pending_packets cap 1 0 = Val 1).
  { rewrite pending_eq by lia. rewrite Z.mod_small by lia. done. }
  caller 0%nat ql_sender; [apply s_load|]. caller 0%nat ql_sender; [by apply s_free|].
  caller 0%nat ql_sender; [by apply (s_store _ 0 1)|].
  caller 1%nat ql_tx; [by apply (t_some _ 1)|]. caller 2%nat ql_tx; [by apply (t_some _ 1)|].
  caller 1%nat ql_tx; [apply t_count|]. caller 1%nat ql_tx; [apply t_load|].
  caller 1%nat ql_tx; [by apply (t_store _ 1 0 1)|].
  caller 2%nat ql_tx; [apply t_count|]. caller 2%nat ql_tx; [apply t_load|].
  caller 2%nat ql_tx; [by apply (t_store _ 1 1 2)|]. apply rtc_refl.
Qed.
End Threads.

(** ** The networking object *)

(* sdk perf/kernel_bypass.rs:57-66 AtomicNetworkStats *)
Record AtomicNetworkStats := mk_NetStats {
  ns_packets_sent : Z;
  ns_packets_received : Z;
  ns_bytes_sent : Z;
  ns_bytes_received : Z;
  ns_send_errors : Z;
  ns_receive_errors : Z;
  ns_total_send_latency_ns : Z;
  ns_total_receive_latency_ns : Z;
}.

(* sdk perf/kernel_bypass.rs:69-80 default *)
Definition net_stats_default : AtomicNetworkStats := mk_NetStats 0 0 0 0 0 0 0 0.

(* sdk perf/kernel_bypass.rs:41-54 KernelBypassUDP *)
Record KernelBypassUDP := mk_Udp {
  interface_name : string;
  tx_queue : TxQueue;
  rx_queue : RxQueue;
  net_stats : AtomicNetworkStats;
  running : bool;
  cpu_affinity : option nat;
}.

(* sdk perf/kernel_bypass.rs:29-38 NetworkStats *)
Record NetworkStats := mk_Net {
  packets_sent : Z;
  packets_received : Z;
  bytes_sent : Z;
  bytes_received : Z;
  send_errors : Z;
  receive_errors : Z;
  avg_send_latency_ns : f64;
  avg_receive_latency_ns : f64;
}.

(** [fetch_add] wraps in every build. *)
Abbreviation bump x n := (wrap 64 (x + n)).

Section Udp.
Context `{Build}.

(* sdk perf/kernel_bypass.rs:360-378 new *)
Definition udp_new (map_anon : Z → result string Z) (name : string) (cpu : option nat) :
    exec (result string KernelBypassUDP) :=
  let? tx := queue_of map_anon 1000000 in
  let? rx := rx_queue_of map_anon 1000000 in
  Val (Ok (mk_Udp name tx rx net_stats_default false cpu)).

(** Whether the threads run; what they do is one turn each below. *)
(* sdk perf/kernel_bypass.rs:381-397 start *)
Definition start (u : KernelBypassUDP) : KernelBypassUDP :=
  mk_Udp (interface_name u) (tx_queue u) (rx_queue u) (net_stats u) true (cpu_affinity u).
(* sdk perf/kernel_bypass.rs:516-526 stop *)
Definition stop (u : KernelBypassUDP) : KernelBypassUDP :=
  mk_Udp (interface_name u) (tx_queue u) (rx_queue u) (net_stats u) false (cpu_affinity u).

(** One turn of the sending thread. *)
(* sdk perf/kernel_bypass.rs:413-427 start_tx_thread, one turn *)
Definition tx_turn (u : KernelBypassUDP) : exec KernelBypassUDP :=
  let q := tx_queue u in
  let* pending := pending_packets (capacity q) (head q) (tail q) in
  if 0 <? pending then
    let s := net_stats u in
    let* t := add 64 (tail q) pending in
    Val (mk_Udp (interface_name u) (mk_TxQueue (ring q) (capacity q) (head q) t) (rx_queue u)
           (mk_NetStats (bump (ns_packets_sent s) pending) (ns_packets_received s)
              (ns_bytes_sent s) (ns_bytes_received s) (ns_send_errors s) (ns_receive_errors s)
              (ns_total_send_latency_ns s) (ns_total_receive_latency_ns s))
           (running u) (cpu_affinity u))
  else Val u.

(** A turn of the receiving thread only yields. *)
(* sdk perf/kernel_bypass.rs:449-453 start_rx_thread, one turn *)
Definition rx_turn (u : KernelBypassUDP) : KernelBypassUDP := u.

(** [now] is the time stamp, [latency] what the call took. *)
(* sdk perf/kernel_bypass.rs:530-544 send_raw_packet *)
Definition send_raw_packet (m : Mem) (u : KernelBypassUDP) (now latency data : Z) (len : nat)
    (ip : IpAddr) (port : Z) : exec (result string () * KernelBypassUDP * Mem) :=
  let* r := send_packet_zero_copy m (tx_queue u) now data len ip port in
  let '(result, q, m) := r in
  let s := net_stats u in
  let s := match result with
           | Ok _ => mk_NetStats (ns_packets_sent s) (ns_packets_received s)
                       (bump (ns_bytes_sent s) (Z.of_nat len)) (ns_bytes_received s)
                       (ns_send_errors s) (ns_receive_errors s)
                       (bump (ns_total_send_latency_ns s) latency) (ns_total_receive_latency_ns s)
           | Err _ => mk_NetStats (ns_packets_sent s) (ns_packets_received s) (ns_bytes_sent s)
                        (ns_bytes_received s) (bump (ns_send_errors s) 1) (ns_receive_errors s)
                        (ns_total_send_latency_ns s) (ns_total_receive_latency_ns s)
           end in
  Val (result, mk_Udp (interface_name u) q (rx_queue u) s (running u) (cpu_affinity u), m).

(* sdk perf/kernel_bypass.rs:546-564 receive_raw_packet *)
Definition receive_raw_packet (m : Mem) (u : KernelBypassUDP) (latency buffer : Z) (buffer_len : nat) :
    exec (result string (nat * (Z * Z)) * KernelBypassUDP * Mem) :=
  let* r := receive_packet_zero_copy m (rx_queue u) buffer buffer_len in
  let '(result, q, m) := r in
  let s := net_stats u in
  let s := match result with
           | Ok (len, _) => mk_NetStats (ns_packets_sent s) (bump (ns_packets_received s) 1)
                       (ns_bytes_sent s) (bump (ns_bytes_received s) (Z.of_nat len))
                       (ns_send_errors s) (ns_receive_errors s) (ns_total_send_latency_ns s)
                       (bump (ns_total_receive_latency_ns s) latency)
           | Err _ => mk_NetStats (ns_packets_sent s) (ns_packets_received s) (ns_bytes_sent s)
                        (ns_bytes_received s) (ns_send_errors s) (bump (ns_receive_errors s) 1)
                        (ns_total_send_latency_ns s) (ns_total_receive_latency_ns s)
           end in
  Val (result, mk_Udp (interface_name u) (tx_queue u) q s (running u) (cpu_affinity u), m).

Definition average (total count : Z) : f64 :=
  if 0 <? count then fdiv (f64_of_Z total) (f64_of_Z count) else f_zero.

(* sdk perf/kernel_bypass.rs:566-590 get_network_stats *)
Definition get_network_stats (u : KernelBypassUDP) : NetworkStats :=
  let s := net_stats u in
  mk_Net (ns_packets_sent s) (ns_packets_received s) (ns_bytes_sent s) (ns_bytes_received s)
    (ns_send_errors s) (ns_receive_errors s)
    (average (ns_total_send_latency_ns s) (ns_packets_sent s))
    (average (ns_total_receive_latency_ns s) (ns_packets_received s)).

(** What can be done with the object, with its memory. *)
Inductive udp_step : Mem * KernelBypassUDP → Mem * KernelBypassUDP → Prop :=
| udp_send m u now latency data len ip port r u' m' :
    send_raw_packet m u now latency data len ip port = Val (r, u', m') →
    udp_step (m, u) (m', u')
| udp_receive m u latency buffer buffer_len r u' m' :
    receive_raw_packet m u latency buffer buffer_len = Val (r, u', m') →
    udp_step (m, u) (m', u')
| udp_tx m u u' : tx_turn u = Val u' → udp_step (m, u) (m, u')
| udp_rx m u : udp_step (m, u) (m, rx_turn u)
| udp_start m u : udp_step (m, u) (m, start u)
| udp_stop m u : udp_step (m, u) (m, stop u).

(** Nothing is ever received: whatever was sent and however often the threads
    ran, the receiving queue is empty, and receiving is an error that is
    counted; the object returns no packet and writes no memory. *)
Theorem nothing_received map_anon name cpu u m m' u' latency buffer buffer_len :
  udp_new map_anon name cpu = Val (Ok u) → rtc udp_step (m, u) (m', u') →
  ∃ u'', receive_raw_packet m' u' latency buffer buffer_len
         = Val (Err "RX queue is empty", u'', m')
    ∧ ns_receive_errors (net_stats u'') = bump (ns_receive_errors (net_stats u')) 1
    ∧ packets_received (get_network_stats u'') = 0.
Proof.
  intros Hnew Hr.
  assert (Hinv : tail (rx_queue u') = head (rx_queue u') ∧ ns_packets_received (net_stats u') = 0).
  { assert (H0 : tail (rx_queue u) = head (rx_queue u) ∧ ns_packets_received (net_stats u) = 0).
    { unfold udp_new in Hnew. apply try_bind_Ok_inv in Hnew as (tx & _ & Hnew).
      apply try_bind_Ok_inv in Hnew as (rx & Hrx & [= <-]). unfold rx_queue_of, queue_of in Hrx.
      apply exec_bind_Val_inv in Hrx as (es & _ & Hrx).
      apply exec_bind_Val_inv in Hrx as (ts & _ & Hrx). by destruct (map_anon ts); simplify_eq/=. }
    clear Hnew. remember (m, u) as x eqn:Hx. remember (m', u') as y eqn:Hy. revert m u Hx H0.
    induction Hr as [x|x y z Hs _ IH]; intros m u -> [Ht Hp]; [by simplify_eq|].
    inversion Hs as [? ? ? ? ? ? ? ? r u1 m1 Hrun|? ? ? ? ? r u1 m1 Hrun|? ? u1 Hrun| | |]; subst;
      (eapply IH; [reflexivity..|]); try (by split).
    - unfold send_raw_packet in Hrun. apply exec_bind_Val_inv in Hrun as ([[r1 q1] m2] & _ & Hrun).
      destruct r1; by simplify_eq/=.
    - unfold receive_raw_packet, receive_packet_zero_copy in Hrun.
      rewrite (proj2 (Z.eqb_eq _ _) Ht) in Hrun. by simplify_eq/=.
    - unfold tx_turn in Hrun. destruct (pending_packets _ _ _) as [n|]; [|done]. cbn [exec_bind] in Hrun.
      destruct (0 <? n); [|by simplify_eq].
      apply exec_bind_Val_inv in Hrun as (t & _ & Hrun). by simplify_eq/=. }
  destruct Hinv as [Ht Hp]. unfold receive_raw_packet, receive_packet_zero_copy.
  rewrite (proj2 (Z.eqb_eq _ _) Ht). cbn [exec_bind]. eexists. split; [reflexivity|]. by split.
Qed.

(** A turn of the sending thread counts what it takes from the queue. *)
Theorem tx_turn_counts u u' : queue_ok (tx_queue u) → tx_turn u = Val u' →
  let sent := (head (tx_queue u) - tail (tx_queue u)) mod capacity (tx_queue u) in
  ns_packets_sent (net_stats u') = (if 0 <? sent then bump (ns_packets_sent (net_stats u)) sent
                                    else ns_packets_sent (net_stats u))
  ∧ tail (tx_queue u') = tail (tx_queue u) + sent ∧ queue_ok (tx_queue u').
Proof.
  intros [Hc Hr Ht Hh]. unfold tx_turn. rewrite pending_eq by lia. cbn [exec_bind].
  pose proof (Z.mod_pos_bound (head (tx_queue u) - tail (tx_queue u)) (capacity (tx_queue u)) ltac:(lia)).
  pose proof (Z.mod_le (head (tx_queue u) - tail (tx_queue u)) (capacity (tx_queue u)) ltac:(lia) ltac:(lia)).
  cbv zeta. destruct (Z.ltb_spec 0 ((head (tx_queue u) - tail (tx_queue u)) mod capacity (tx_queue u))).
  - unfold add. rewrite ck_ok by (unfold is_uint; lia). cbn [exec_bind]. intros [= <-]. simpl.
    split; [done|]. split; [done|]. by split; simpl; try done; lia.
  - intros [= <-]. split; [done|]. split; [lia|by split].
Qed.
End Udp.

(** ** Concrete packets *)

(** A region at 4096, a packet of 40 bytes at 100, a buffer at 200. *)
Definition toy_queue : TxQueue := mk_TxQueue 4096 4 5 5.
Definition toy_mem : Mem := λ a, if (100 <=? a) && (a <? 140) then a - 100 + 1 else 0.

Lemma packet_roundtrip_witness :
  ∃ q' m' m'',
    @send_packet_zero_copy debug toy_mem toy_queue 7 100 40 (V4 2130706433) 8080 = Val (Ok (), q', m')
    ∧ @receive_packet_zero_copy debug m' q' 200 64
      = Val (Ok (40%nat, (2130706433, 8080)), mk_TxQueue 4096 4 6 6, m'')
    ∧ load m'' 200 40 = load toy_mem 100 40.
Proof.
  refine (@packet_roundtrip debug toy_mem toy_queue 7 100 40 2130706433 8080 200 64
    _ eq_refl _ _ _ _ _ _ _ _);
    [split; cbn; lia|cbn; lia|lia|lia|unfold is_uint; lia..
    |right; vm_compute; discriminate|left; vm_compute; discriminate].
Defined.

Lemma lap_strands_packets_witness :
  (∀ h t, 4 ≤ t → is_u64 h → h + 1 < 2 ^ 64 → @tx_full release 4 h t = Val false)
  ∧ ∃ s, rtc (system_step (@queue_local release)) (pair_start 4) s
    ∧ c_accepted (shared s) = 8 ∧ c_sent (shared s) = 4
    ∧ ∀ c p, @tx_step release (shared s) TxThread TIdle c p → c = shared s ∧ p = TIdle.
Proof. apply (@lap_strands_packets release 4); lia. Defined.
