(* ===== verification/LowLatency.v ===== *)
(** * Event dispatch and latency statistics (sdk perf/ultra_low_latency.rs)

    perf/mod.rs does not declare this module; it is modelled as it would be
    compiled.  Statistics are recorded by any number of threads at once, each
    with its atomic operations and compare-and-swap loops as steps.  The
    dispatcher is given as functions, its race on the table of clients as
    steps.  Events, a type of another crate, are a parameter. *)

From stdpp Require Import relations.
From Stdlib Require Import Ascii String.
From S2P Require Import Prelude F64 Effects Queue Concurrent.

#[local] Open Scope string_scope.
#[local] Open Scope Z_scope.
#[local] Open Scope list_scope.

(** ** Statistics *)

(* sdk perf/ultra_low_latency.rs:116-135 UltraLowLatencyStats *)
Record Stats := mk_Stats {
  events_processed : Z;
  total_latency_ns : Z;
  min_latency_ns : Z;
  max_latency_ns : Z;
  sub_millisecond_events : Z;
  ultra_fast_events : Z;
  lightning_fast_events : Z;
  queue_overflows : Z;
  prefetch_hits : Z;
}.

(* sdk perf/ultra_low_latency.rs:138-150 new *)
Definition stats_new : Stats := mk_Stats 0 0 u64_max 0 0 0 0 0 0.

(** Where a call of [record_event_latency] is; in a loop, with the value it
    compares with. *)
Inductive rpc :=
| REvents | RTotal | RMin | RMinCas (cur : Z) | RMax | RMaxCas (cur : Z)
| RSub | RUltra | RLightning | RDone.

Definition set_min (v : Z) (s : Stats) : Stats :=
  mk_Stats (events_processed s) (total_latency_ns s) v (max_latency_ns s)
    (sub_millisecond_events s) (ultra_fast_events s) (lightning_fast_events s) (queue_overflows s)
    (prefetch_hits s).
Definition set_max (v : Z) (s : Stats) : Stats :=
  mk_Stats (events_processed s) (total_latency_ns s) (min_latency_ns s) v
    (sub_millisecond_events s) (ultra_fast_events s) (lightning_fast_events s) (queue_overflows s)
    (prefetch_hits s).
Definition add_event (s : Stats) : Stats :=
  mk_Stats (bump (events_processed s) 1) (total_latency_ns s) (min_latency_ns s) (max_latency_ns s)
    (sub_millisecond_events s) (ultra_fast_events s) (lightning_fast_events s) (queue_overflows s)
    (prefetch_hits s).
Definition add_total (x : Z) (s : Stats) : Stats :=
  mk_Stats (events_processed s) (bump (total_latency_ns s) x) (min_latency_ns s) (max_latency_ns s)
    (sub_millisecond_events s) (ultra_fast_events s) (lightning_fast_events s) (queue_overflows s)
    (prefetch_hits s).

(** [if latency_ns < bound { counter.fetch_add(1) }]. *)
Definition below (bound x : Z) : Z := if x <? bound then 1 else 0.
Definition add_sub (x : Z) (s : Stats) : Stats :=
  mk_Stats (events_processed s) (total_latency_ns s) (min_latency_ns s) (max_latency_ns s)
    (bump (sub_millisecond_events s) (below 1000000 x)) (ultra_fast_events s)
    (lightning_fast_events s) (queue_overflows s) (prefetch_hits s).
Definition add_ultra (x : Z) (s : Stats) : Stats :=
  mk_Stats (events_processed s) (total_latency_ns s) (min_latency_ns s) (max_latency_ns s)
    (sub_millisecond_events s) (bump (ultra_fast_events s) (below 100000 x))
    (lightning_fast_events s) (queue_overflows s) (prefetch_hits s).
Definition add_lightning (x : Z) (s : Stats) : Stats :=
  mk_Stats (events_processed s) (total_latency_ns s) (min_latency_ns s) (max_latency_ns s)
    (sub_millisecond_events s) (ultra_fast_events s)
    (bump (lightning_fast_events s) (below 10000 x)) (queue_overflows s) (prefetch_hits s).

(** [compare_exchange_weak] may fail although the values agree. *)
(* sdk perf/ultra_low_latency.rs:154-190 record_event_latency *)
Inductive record_step : Stats → Z → rpc → Stats → rpc → Prop :=
| rec_events s x : record_step s x REvents (add_event s) RTotal
| rec_total s x : record_step s x RTotal (add_total x s) RMin
| rec_min s x :
    record_step s x RMin s (if x <? min_latency_ns s then RMinCas (min_latency_ns s) else RMax)
| rec_min_swap s x cur :
    min_latency_ns s = cur → record_step s x (RMinCas cur) (set_min x s) RMax
| rec_min_fail s x cur :
    record_step s x (RMinCas cur) s (if x <? min_latency_ns s then RMinCas (min_latency_ns s) else RMax)
| rec_max s x :
    record_step s x RMax s (if max_latency_ns s <? x then RMaxCas (max_latency_ns s) else RSub)
| rec_max_swap s x cur :
    max_latency_ns s = cur → record_step s x (RMaxCas cur) (set_max x s) RSub
| rec_max_fail s x cur :
    record_step s x (RMaxCas cur) s (if max_latency_ns s <? x then RMaxCas (max_latency_ns s) else RSub)
| rec_sub s x : record_step s x RSub (add_sub x s) RUltra
| rec_ultra s x : record_step s x RUltra (add_ultra x s) RLightning
| rec_lightning s x : record_step s x RLightning (add_lightning x s) RDone.

Abbreviation stats_step := (system_step record_step).

(** One call for each latency, all at once. *)
Definition recordings (l : list Z) : System := mk_System stats_new (map (λ x, (x, REvents)) l).

(** What a caller has added to each counter. *)
Definition did_event (x : Z) (p : rpc) : Z := match p with REvents => 0 | _ => 1 end.
Definition did_total (x : Z) (p : rpc) : Z := match p with REvents | RTotal => 0 | _ => x end.
Definition did_sub (x : Z) (p : rpc) : Z :=
  match p with RUltra | RLightning | RDone => below 1000000 x | _ => 0 end.
Definition did_ultra (x : Z) (p : rpc) : Z :=
  match p with RLightning | RDone => below 100000 x | _ => 0 end.
Definition did_lightning (x : Z) (p : rpc) : Z :=
  match p with RDone => below 10000 x | _ => 0 end.
Definition past_min (p : rpc) : bool :=
  match p with REvents | RTotal | RMin | RMinCas _ => false | _ => true end.
Definition past_max (p : rpc) : bool :=
  match p with RSub | RUltra | RLightning | RDone => true | _ => false end.

(** The sum over all callers. *)
Definition over (f : Z → rpc → Z) (l : list (Z * rpc)) : Z :=
  foldr (λ c a, f c.1 c.2 + a) 0 l.

Lemma over_insert f l i x p p' : l !! i = Some (x, p) →
  over f (<[i := (x, p')]> l) = over f l - f x p + f x p'.
Proof.
  revert i. induction l as [|c l IH]; intros [|i] Hi; simplify_eq/=; [lia|].
  rewrite (IH i Hi). lia.
Qed.

Lemma over_le f g l : (∀ x p, f x p ≤ g x p) → over f l ≤ over g l.
Proof. intros Hf. induction l as [|[x p] l IH]; simpl; [lia|]. specialize (Hf x p). lia. Qed.

Lemma over_done f l :
  (∀ i x p, l !! i = Some (x, p) → p = RDone) → over f l = foldr (λ x a, f x RDone + a) 0 l.*1.
Proof.
  induction l as [|[x p] l IH]; intros Hl; [done|]. simpl.
  rewrite (Hl 0%nat x p eq_refl), IH; [done|]. intros i y q Hi. by apply (Hl (S i) y).
Qed.

(** The cells hold what the callers have added, and the extremes what those
    past the loops have compared with. *)
Record stats_inv (s : System) : Prop := {
  inv_events : events_processed (shared s) = wrap 64 (over did_event (callers s));
  inv_total : total_latency_ns (shared s) = wrap 64 (over did_total (callers s));
  inv_sub : sub_millisecond_events (shared s) = wrap 64 (over did_sub (callers s));
  inv_ultra : ultra_fast_events (shared s) = wrap 64 (over did_ultra (callers s));
  inv_lightning : lightning_fast_events (shared s) = wrap 64 (over did_lightning (callers s));
  inv_min : ∀ i x p, callers s !! i = Some (x, p) → past_min p = true → min_latency_ns (shared s) ≤ x;
  inv_max : ∀ i x p, callers s !! i = Some (x, p) → past_max p = true → x ≤ max_latency_ns (shared s);
  inv_min_cas : ∀ i x cur, callers s !! i = Some (x, RMinCas cur) → x < cur;
  inv_max_cas : ∀ i x cur, callers s !! i = Some (x, RMaxCas cur) → cur < x;
  inv_min_from : min_latency_ns (shared s) = u64_max ∨ min_latency_ns (shared s) ∈ (callers s).*1;
  inv_max_from : max_latency_ns (shared s) = 0 ∨ max_latency_ns (shared s) ∈ (callers s).*1;
}.

(** [cell] counts what the callers did. *)
Definition counts (cell : Stats → Z) (did : Z → rpc → Z) : Prop :=
  ∀ s x p s' p' n, record_step s x p s' p' → cell s = wrap 64 n →
  cell s' = wrap 64 (n - did x p + did x p').

Ltac counted :=
  intros s x p s' p' n Hs Hn; destruct Hs; simpl in *; try case_match; simpl;
  rewrite ?Hn, ?wrap_add; f_equal; lia.

Lemma counts_events : counts events_processed did_event.
Proof. counted. Qed.
Lemma counts_total : counts total_latency_ns did_total.
Proof. counted. Qed.
Lemma counts_sub : counts sub_millisecond_events did_sub.
Proof. counted. Qed.
Lemma counts_ultra : counts ultra_fast_events did_ultra.
Proof. counted. Qed.
Lemma counts_lightning : counts lightning_fast_events did_lightning.
Proof. counted. Qed.

Lemma counts_step cell did s s' :
  counts cell did → stats_step s s' →
  cell (shared s) = wrap 64 (over did (callers s)) →
  cell (shared s') = wrap 64 (over did (callers s')).
Proof.
  intros Hc Hs Hn. destruct Hs as [sh l i x p sh' p' Hi Hl]. simpl in *.
  rewrite (over_insert _ _ _ _ _ _ Hi). by apply (Hc _ _ _ _ _ _ Hl).
Qed.

(** The extremes only move towards their ends. *)
Lemma step_min s x p s' p' : record_step s x p s' p' →
  (∀ cur, p = RMinCas cur → x < cur) →
  min_latency_ns s' ≤ min_latency_ns s
  ∧ (past_min p' = true → past_min p = true ∨ min_latency_ns s' ≤ x)
  ∧ (∀ cur, p' = RMinCas cur → x < cur)
  ∧ (min_latency_ns s' = min_latency_ns s ∨ min_latency_ns s' = x).
Proof.
  intros Hs Hc. destruct Hs; simpl in *; try case_match eqn:Hlt; simpl in *;
    rewrite ?Z.ltb_lt, ?Z.ltb_ge in *; try (specialize (Hc _ eq_refl)); naive_solver lia.
Qed.

Lemma step_max s x p s' p' : record_step s x p s' p' →
  (∀ cur, p = RMaxCas cur → cur < x) →
  max_latency_ns s ≤ max_latency_ns s'
  ∧ (past_max p' = true → past_max p = true ∨ x ≤ max_latency_ns s')
  ∧ (∀ cur, p' = RMaxCas cur → cur < x)
  ∧ (max_latency_ns s' = max_latency_ns s ∨ max_latency_ns s' = x).
Proof.
  intros Hs Hc. destruct Hs; simpl in *; try case_match eqn:Hlt; simpl in *;
    rewrite ?Z.ltb_lt, ?Z.ltb_ge in *; try (specialize (Hc _ eq_refl)); naive_solver lia.
Qed.

Lemma stats_inv_start l : stats_inv (recordings l).
Proof.
  assert (Hz : ∀ f, (∀ x, f x REvents = 0) → wrap 64 (over f (callers (recordings l))) = 0).
  { intros f Hf. simpl. induction l as [|x l IH]; [done|]. simpl. by rewrite Hf, Z.add_0_l. }
  assert (Hp : ∀ i x p, callers (recordings l) !! i = Some (x, p) → p = REvents).
  { intros i x p. simpl. rewrite list_lookup_fmap. destruct (l !! i); naive_solver. }
  split; rewrite ?Hz; auto; try (intros i x p Hi; by rewrite (Hp _ _ _ Hi));
    intros i x cur Hi; by apply Hp in Hi.
Qed.

Lemma stats_inv_step s s' : stats_step s s' → stats_inv s → stats_inv s'.
Proof.
  intros Hs Hv. destruct Hv as [He Ht Hu Hq Hg Hmin Hmax Hmc Hxc Hmf Hxf].
  split; [eapply counts_step; eauto using counts_events, counts_total, counts_sub, counts_ultra,
            counts_lightning..|idtac|idtac|idtac|idtac|idtac|idtac].
  all: destruct Hs as [sh l i x p sh' p' Hi Hl]; simpl in *;
    destruct (step_min _ _ _ _ _ Hl) as (Hm1 & Hm2 & Hm3 & Hm4); [naive_solver|];
    destruct (step_max _ _ _ _ _ Hl) as (Hx1 & Hx2 & Hx3 & Hx4); [naive_solver|].
  5,6: rewrite (insert_requests _ _ _ _ _ Hi); apply elem_of_requests in Hi;
    try destruct Hm4 as [-> | ->]; try destruct Hx4 as [-> | ->]; auto.
  all: intros j y q Hj;
    destruct (insert_callers l i x p p' Hi _ _ _ Hj) as [(-> & -> & Hpq)|[_ Hj']];
    try (subst q); try (symmetry in Hpq; eauto; fail).
  - intros Hp. destruct (Hm2 Hp) as [Hp'|]; [|done]. specialize (Hmin _ _ _ Hi Hp'). lia.
  - intros Hp. specialize (Hmin _ _ _ Hj' Hp). lia.
  - intros Hp. destruct (Hx2 Hp) as [Hp'|]; [|done]. specialize (Hmax _ _ _ Hi Hp'). lia.
  - intros Hp. specialize (Hmax _ _ _ Hj' Hp). lia.
  - by apply (Hmc j).
  - by apply (Hxc j).
Qed.

Lemma stats_inv_runs l s : rtc stats_step (recordings l) s → stats_inv s.
Proof.
  intros Hr. pose proof (stats_inv_start l) as Hi. induction Hr; eauto using stats_inv_step.
Qed.

(** The latencies under a bound. *)
Definition under (bound : Z) (l : list Z) : list Z := filter (λ x, x < bound) l.

Lemma below_under b l : foldr (λ x a, below b x + a) 0 l = Z.of_nat (length (under b l)).
Proof.
  unfold under. induction l as [|x l IH]; [done|]. simpl. rewrite IH, filter_cons. unfold below.
  destruct (Z.ltb_spec x b); case_decide; simpl; lia.
Qed.

Lemma length_sum (l : list Z) : foldr (λ _ a, 1 + a) 0 l = Z.of_nat (length l).
Proof. induction l as [|x l IH]; [done|]. simpl. lia. Qed.

Lemma recordings_kept l s : rtc stats_step (recordings l) s → (callers s).*1 = l.
Proof.
  intros Hr. rewrite (configs_kept _ _ _ Hr). simpl. rewrite <- list_fmap_compose. apply list_fmap_id.
Qed.

(** A call that is left alone returns. *)
Abbreviation alone x := (solo record_step x).
Abbreviation returns x s p := (∃ s', rtc (alone x) (s, p) (s', RDone)).

Lemma alone_l x s p s' p' y :
  record_step s x p s' p' → rtc (alone x) (s', p') y → rtc (alone x) (s, p) y.
Proof. intros Hs Hr. by eapply rtc_l; [|exact Hr]. Qed.

Lemma returns_l x s p s' p' : record_step s x p s' p' → returns x s' p' → returns x s p.
Proof. intros Hs [s'' Hr]. exists s''. by eapply alone_l. Qed.

Lemma record_finishes s x p : returns x s p.
Proof.
  assert (Hlight : ∀ s, returns x s RLightning) by
    (intros s'; eapply returns_l; [apply rec_lightning|by eexists]).
  assert (Hultra : ∀ s, returns x s RUltra) by
    (intros s'; eapply returns_l; [apply rec_ultra|auto]).
  assert (Hsub : ∀ s, returns x s RSub) by (intros s'; eapply returns_l; [apply rec_sub|auto]).
  assert (Hmax : ∀ s, returns x s (if max_latency_ns s <? x then RMaxCas (max_latency_ns s) else RSub)).
  { intros s'. case_match; [|auto]. by eapply returns_l; [apply rec_max_swap|]. }
  assert (Hmax' : ∀ s, returns x s RMax) by (intros s'; eapply returns_l; [apply rec_max|auto]).
  assert (Hmin : ∀ s, returns x s (if x <? min_latency_ns s then RMinCas (min_latency_ns s) else RMax)).
  { intros s'. case_match; [|auto]. by eapply returns_l; [apply rec_min_swap|]. }
  assert (Htotal : ∀ s, returns x s RTotal).
  { intros s'. eapply returns_l; [apply rec_total|]. eapply returns_l; [apply rec_min|auto]. }
  destruct p; auto; [| | | |by eexists].
  - eapply returns_l; [apply rec_events|auto].
  - eapply returns_l; [apply rec_min|auto].
  - eapply returns_l; [apply rec_min_fail|auto].
  - eapply returns_l; [apply rec_max_fail|auto].
Qed.

(** Whatever the threads that record latencies do to each other, once all
    calls have returned the statistics are those of the list of latencies: its
    length and its sum modulo 2^64, the numbers of latencies under the three
    bounds, and its least and its greatest element; from every state a run
    ends there. *)
Theorem stats_accurate l : l ≠ [] → Forall is_u64 l →
  ∀ s, rtc stats_step (recordings l) s →
  (∃ s', rtc stats_step s s' ∧ Forall (λ c, c.2 = RDone) (callers s'))
  ∧ (Forall (λ c, c.2 = RDone) (callers s) →
     let st := shared s in
     events_processed st = wrap 64 (Z.of_nat (length l))
     ∧ total_latency_ns st = wrap 64 (foldr Z.add 0 l)
     ∧ sub_millisecond_events st = wrap 64 (Z.of_nat (length (under 1000000 l)))
     ∧ ultra_fast_events st = wrap 64 (Z.of_nat (length (under 100000 l)))
     ∧ lightning_fast_events st = wrap 64 (Z.of_nat (length (under 10000 l)))
     ∧ min_latency_ns st ∈ l ∧ max_latency_ns st ∈ l
     ∧ (∀ x, x ∈ l → min_latency_ns st ≤ x ≤ max_latency_ns st)).
Proof.
  intros Hne Hall s Hr. split.
  { destruct (all_finish record_step RDone record_finishes s) as [sh Hsh].
    eexists; split; [exact Hsh|]. apply Forall_map. by apply Forall_true. }
  intros Hd. rewrite Forall_lookup in Hd. pose proof (recordings_kept _ _ Hr) as Hl.
  destruct (stats_inv_runs _ _ Hr) as [He Ht Hs Hu Hg Hmin Hmax _ _ Hmf Hxf].
  assert (∀ i x p, callers s !! i = Some (x, p) → p = RDone) as Hdone.
  { intros i x p Hi. exact (Hd _ _ Hi). }
  rewrite over_done, Hl in He, Ht, Hs, Hu, Hg by done. rewrite Hl in Hmf, Hxf.
  assert (∀ x, x ∈ l → min_latency_ns (shared s) ≤ x ≤ max_latency_ns (shared s)) as Hb.
  { intros x Hx. rewrite <- Hl in Hx. apply list_elem_of_fmap in Hx as ([y p] & -> & Hx).
    apply list_elem_of_lookup in Hx as [i Hi]. rewrite (Hdone _ _ _ Hi) in Hi.
    split; [by apply (Hmin i y RDone)|by apply (Hmax i y RDone)]. }
  simpl in He, Ht, Hs, Hu, Hg. rewrite below_under in Hs, Hu, Hg. rewrite length_sum in He.
  assert (∃ x, x ∈ l ∧ is_u64 x) as (x & Hx & Hux).
  { destruct Hall as [|x l Hx _]; [done|]. exists x. split; [left|done]. }
  pose proof (Hb x Hx). unfold is_uint, u64_max in *. repeat split; try done; try (by apply Hb).
  - destruct Hmf as [Hm|]; [|done]. replace (min_latency_ns (shared s)) with x by lia. done.
  - destruct Hxf as [Hm|]; [|done]. replace (max_latency_ns (shared s)) with x by lia. done.
Qed.

Lemma stats_accurate_witness :
  ∃ s, rtc stats_step (recordings [5; 200000; 70]) s
  ∧ events_processed (shared s) = 3 ∧ total_latency_ns (shared s) = 200075
  ∧ ultra_fast_events (shared s) = 2
  ∧ min_latency_ns (shared s) = 5 ∧ max_latency_ns (shared s) = 200000.
Proof.
  assert (Hall : Forall is_u64 [5; 200000; 70]) by (repeat constructor; done).
  destruct (stats_accurate [5; 200000; 70] ltac:(done) Hall _ (rtc_refl _ _)) as [(s & Hr & Hd) _].
  exists s. destruct (stats_accurate [5; 200000; 70] ltac:(done) Hall s Hr) as [_ Hs].
  destruct (Hs Hd) as (He & Ht & _ & Hu & _ & Hmin & Hmax & Hb).
  pose proof (Hb 5 ltac:(left)). pose proof (Hb 200000 ltac:(right; left)).
  rewrite !elem_of_cons, elem_of_nil in Hmin, Hmax.
  split; [exact Hr|]. split; [exact He|]. split; [exact Ht|]. split; [exact Hu|]. lia.
Defined.

Lemma over_bounds f l :
  (∀ x p, 0 ≤ f x p ≤ 1) → 0 ≤ over f l ≤ Z.of_nat (length l).
Proof. intros Hf. induction l as [|[x p] l IH]; simpl; [lia|]. specialize (Hf x p). lia. Qed.

(** At any moment, a class holds no more events than a wider one. *)
Theorem classes_nested l s :
  rtc stats_step (recordings l) s → Z.of_nat (length l) < 2 ^ 64 →
  let st := shared s in
  lightning_fast_events st ≤ ultra_fast_events st ≤ sub_millisecond_events st
  ∧ sub_millisecond_events st ≤ events_processed st ≤ Z.of_nat (length l).
Proof.
  intros Hr Hl. destruct (stats_inv_runs _ _ Hr) as [He _ Hs Hu Hg _ _ _ _ _ _].
  pose proof (recordings_kept _ _ Hr) as Hc. rewrite <- Hc, length_fmap in Hl |- *.
  assert (Hb : ∀ b x, 0 ≤ below b x ≤ 1) by (intros b x; unfold below; destruct (x <? b); lia).
  assert (Hm : ∀ b b' x, b ≤ b' → below b x ≤ below b' x).
  { intros b b' x Hle. unfold below. destruct (Z.ltb_spec x b), (Z.ltb_spec x b'); lia. }
  assert (H1 : ∀ x p, 0 ≤ did_lightning x p ≤ 1) by (intros x []; simpl; auto; lia).
  assert (H2 : ∀ x p, 0 ≤ did_ultra x p ≤ 1) by (intros x []; simpl; auto; lia).
  assert (H3 : ∀ x p, 0 ≤ did_sub x p ≤ 1) by (intros x []; simpl; auto; lia).
  assert (H4 : ∀ x p, 0 ≤ did_event x p ≤ 1) by (intros x []; simpl; auto; lia).
  pose proof (over_bounds _ (callers s) H1). pose proof (over_bounds _ (callers s) H2).
  pose proof (over_bounds _ (callers s) H3). pose proof (over_bounds _ (callers s) H4).
  cbv zeta. rewrite He, Hs, Hu, Hg, !wrap_small by (unfold is_uint; lia).
  repeat split; try lia; apply over_le; intros x []; simpl; try (apply Hm; lia); try apply Hb; try lia.
Qed.

(** One call that nobody disturbs. *)
Definition record_event_latency (x : Z) (s : Stats) : Stats :=
  let s := add_total x (add_event s) in
  let s := if x <? min_latency_ns s then set_min x s else s in
  let s := if max_latency_ns s <? x then set_max x s else s in
  add_lightning x (add_ultra x (add_sub x s)).

Lemma record_event_latency_run x s :
  rtc (alone x) (s, REvents) (record_event_latency x s, RDone).
Proof.
  unfold record_event_latency. set (s1 := add_total x (add_event s)).
  set (s2 := if x <? min_latency_ns s1 then set_min x s1 else s1).
  set (s3 := if max_latency_ns s2 <? x then set_max x s2 else s2).
  eapply alone_l; [apply rec_events|]. eapply alone_l; [apply rec_total|]. fold s1.
  eapply alone_l; [apply rec_min|]. transitivity (s2, RMax).
  { subst s2. case_match; [|done]. eapply alone_l; [by apply rec_min_swap|done]. }
  eapply alone_l; [apply rec_max|]. transitivity (s3, RSub).
  { subst s3. case_match; [|done]. eapply alone_l; [by apply rec_max_swap|done]. }
  eapply alone_l; [apply rec_sub|]. eapply alone_l; [apply rec_ultra|].
  eapply alone_l; [apply rec_lightning|done].
Qed.

(* sdk perf/ultra_low_latency.rs:242-252 UltraLatencySummary *)
Record UltraLatencySummary := mk_Summary {
  summary_events : Z;
  avg_latency_ns : f64;
  summary_min : f64;
  summary_max : f64;
  avg_latency_us : f64;
  sub_millisecond_percentage : f64;
  ultra_fast_percentage : f64;
  lightning_fast_percentage : f64;
  target_achieved : bool;
}.

Definition percentage (part whole : Z) : f64 :=
  if 0 <? whole then fmul (fdiv (f64_of_Z part) (f64_of_Z whole)) (f64_of_Z 100) else f_zero.

(** Seven loads; those of different moments are a [Stats] put together of what
    they read. *)
(* sdk perf/ultra_low_latency.rs:193-237 get_summary *)
Definition get_summary (s : Stats) : UltraLatencySummary :=
  let avg := if 0 <? events_processed s
             then fdiv (f64_of_Z (total_latency_ns s)) (f64_of_Z (events_processed s))
             else f_zero in
  mk_Summary (events_processed s) avg
    (if min_latency_ns s =? u64_max then f_zero else f64_of_Z (min_latency_ns s))
    (f64_of_Z (max_latency_ns s))
    (fdiv avg (f64_of_Z 1000))
    (percentage (sub_millisecond_events s) (events_processed s))
    (percentage (ultra_fast_events s) (events_processed s))
    (percentage (lightning_fast_events s) (events_processed s))
    (f_ltb avg (f64_of_Z 1000000)).

(** Without an event the target of a millisecond counts as reached; an event
    of the greatest latency is shown as the least latency zero. *)
Theorem empty_summary_succeeds :
  target_achieved (get_summary stats_new) = true
  ∧ get_summary (record_event_latency u64_max stats_new)
    = mk_Summary 1 (f64_of_Z u64_max) f_zero (f64_of_Z u64_max)
        (fdiv (f64_of_Z u64_max) (f64_of_Z 1000)) f_zero f_zero f_zero false.
Proof. split; vm_compute; reflexivity. Qed.
