(* ===== verification/Dispatch.v ===== *)
(** * Event dispatch (sdk perf/ultra_low_latency.rs)

    The lock-free dispatcher, its workers and its serializer.  Events are a
    parameter, being the type of another crate; so are the moments the clock
    tells, as latencies.  [ArrayQueue] is the queue of crossbeam. *)

From stdpp Require Import relations.
From Stdlib Require Import Ascii String.
From S2P Require Import Prelude F64 Effects Queue Concurrent LowLatency.

#[local] Open Scope string_scope.
#[local] Open Scope Z_scope.
#[local] Open Scope list_scope.

(** ** CPU affinity *)

(* sdk perf/ultra_low_latency.rs:48-52 ThreadPriority *)
Inductive ThreadPriority := Normal | High | RealTime.

(* sdk perf/ultra_low_latency.rs:38-45 CpuAffinityConfig *)
Record CpuAffinityConfig := mk_Affinity {
  core_ids : list nat;
  numa_optimization : bool;
  priority : ThreadPriority;
}.

(** [sched core] puts the calling thread on a core (libc): it panics on a core
    its set has no place for, and tells whether the system accepted. *)
(* sdk perf/ultra_low_latency.rs:415-460 set_thread_affinity *)
Definition set_thread_affinity (sched : nat → exec bool) (worker_id : nat) (config : CpuAffinityConfig) :
    exec (result string ()) :=
  match core_ids config with
  | [] => Val (Ok ())
  | ids =>
      let* core_id := unwrap (ids !! (worker_id mod length ids)%nat) in
      let* done := sched core_id in
      Val (if done then Ok ()
           else Err ("Failed to set CPU affinity to core " +:+ show (Z.of_nat core_id))%string)
  end.

Section Dispatch.
Context {Q : Type → Type} `{ArrayQueue Q} {Event : Type}.

(** ** The prefetch optimizer *)

(* sdk perf/ultra_low_latency.rs:55-64 PrefetchOptimizer *)
Record PrefetchOptimizer := mk_Prefetch {
  prediction_cache : Q Event;
  hit_count : Z;
  miss_count : Z;
  learning_enabled : bool;
}.

(* sdk perf/ultra_low_latency.rs:67-74 new *)
Definition prefetch_new (cache_size : nat) : exec PrefetchOptimizer :=
  let* q := queue_new cache_size in Val (mk_Prefetch q 0 0 true).

(* sdk perf/ultra_low_latency.rs:78-88 prefetch_event_data *)
Definition prefetch_event_data (event : Event) (p : PrefetchOptimizer) : PrefetchOptimizer :=
  if learning_enabled p
  then mk_Prefetch (push_or_drop event (prediction_cache p)) (hit_count p) (miss_count p) true
  else p.

(* sdk perf/ultra_low_latency.rs:92-100 try_get_prefetched *)
Definition try_get_prefetched (p : PrefetchOptimizer) : option Event * PrefetchOptimizer :=
  match queue_pop (prediction_cache p) with
  | Some (event, q) =>
      (Some event, mk_Prefetch q (bump (hit_count p) 1) (miss_count p) (learning_enabled p))
  | None =>
      (None, mk_Prefetch (prediction_cache p) (hit_count p) (bump (miss_count p) 1)
               (learning_enabled p))
  end.

(* sdk perf/ultra_low_latency.rs:103-112 get_stats *)
Definition prefetch_stats `{Build} (p : PrefetchOptimizer) : exec (Z * Z * f64) :=
  let hits := hit_count p in
  let misses := miss_count p in
  let* sum := add 64 hits misses in
  let* rate := if 0 <? sum
               then let* sum := add 64 hits misses in Val (fdiv (f64_of_Z hits) (f64_of_Z sum))
               else Val f_zero in
  Val (hits, misses, rate).

(** ** The dispatcher *)

(* sdk perf/ultra_low_latency.rs:21-34 LockFreeEventDispatcher *)
Record Dispatcher := mk_Dispatcher {
  event_queues : list (Q Event);
  client_queue_mapping : gmap string nat;
  queue_selector : Z;
  stats : Stats;
  prefetch_optimizer : PrefetchOptimizer;
  cpu_affinity : option CpuAffinityConfig;
}.

Definition set_queues (l : list (Q Event)) (d : Dispatcher) : Dispatcher :=
  mk_Dispatcher l (client_queue_mapping d) (queue_selector d) (stats d) (prefetch_optimizer d)
    (cpu_affinity d).
Definition set_mapping (m : gmap string nat) (d : Dispatcher) : Dispatcher :=
  mk_Dispatcher (event_queues d) m (queue_selector d) (stats d) (prefetch_optimizer d)
    (cpu_affinity d).
Definition next_selector (d : Dispatcher) : Dispatcher :=
  mk_Dispatcher (event_queues d) (client_queue_mapping d) (bump (queue_selector d) 1) (stats d)
    (prefetch_optimizer d) (cpu_affinity d).
Definition set_stats (s : Stats) (d : Dispatcher) : Dispatcher :=
  mk_Dispatcher (event_queues d) (client_queue_mapping d) (queue_selector d) s
    (prefetch_optimizer d) (cpu_affinity d).
Definition prefetched (event : Event) (d : Dispatcher) : Dispatcher :=
  mk_Dispatcher (event_queues d) (client_queue_mapping d) (queue_selector d) (stats d)
    (prefetch_event_data event (prefetch_optimizer d)) (cpu_affinity d).

(** [for _ in 0..n { queues.push(ArrayQueue::new(capacity)) }]. *)
Fixpoint new_queues (n capacity : nat) : exec (list (Q Event)) :=
  match n with
  | O => Val []
  | S n => let* q := queue_new capacity in let* l := new_queues n capacity in Val (q :: l)
  end.

(* sdk perf/ultra_low_latency.rs:256-277 new *)
Definition dispatcher_new (num_queues queue_capacity : nat) (affinity : option CpuAffinityConfig) :
    exec Dispatcher :=
  let* queues := new_queues num_queues queue_capacity in
  let* prefetch := prefetch_new (Z.to_nat 1000) in
  Val (mk_Dispatcher queues ∅ 0 stats_new prefetch affinity).

Definition overflow (s : Stats) : Stats :=
  mk_Stats (events_processed s) (total_latency_ns s) (min_latency_ns s) (max_latency_ns s)
    (sub_millisecond_events s) (ultra_fast_events s) (lightning_fast_events s)
    (bump (queue_overflows s) 1) (prefetch_hits s).

Definition overflow_error (client : string) : string := "Queue overflow for client: " +:+ client.

(** The queue of a client, a new client's by turns. *)
(* sdk perf/ultra_low_latency.rs:284-292 dispatch_event_ultra_fast, queue_index *)
Definition client_queue (client : string) (d : Dispatcher) : exec (nat * Dispatcher) :=
  match client_queue_mapping d !! client with
  | Some index => Val (index, d)
  | None =>
      let* index := rem (queue_selector d) (Z.of_nat (length (event_queues d))) in
      let index := Z.to_nat index in
      Val (index, set_mapping (<[client := index]> (client_queue_mapping d)) (next_selector d))
  end.

(** [latency] is what the clock says when the event is in its queue. *)
(* sdk perf/ultra_low_latency.rs:281-312 dispatch_event_ultra_fast *)
Definition dispatch_event_ultra_fast (client : string) (event : Event) (latency : Z) :
    M Dispatcher () := λ d,
  let* '(index, d) := client_queue client d in
  let d := prefetched event d in
  let* queue := unwrap (event_queues d !! index) in
  match queue_push event queue with
  | Some queue =>
      Val (Ok (), set_stats (record_event_latency (as_u64 latency) (stats d))
                    (set_queues (<[index := queue]> (event_queues d)) d))
  | None => Val (Err (overflow_error client), set_stats (overflow (stats d)) d)
  end.

(* sdk perf/ultra_low_latency.rs:463-465 get_performance_stats *)
Definition get_performance_stats (d : Dispatcher) : UltraLatencySummary := get_summary (stats d).
(* sdk perf/ultra_low_latency.rs:468-470 get_prefetch_stats *)
Definition get_prefetch_stats `{Build} (d : Dispatcher) : exec (Z * Z * f64) :=
  prefetch_stats (prefetch_optimizer d).
(* sdk perf/ultra_low_latency.rs:473-477 get_queue_stats *)
Definition get_queue_stats (d : Dispatcher) : list (nat * nat) :=
  imap (λ i q, (i, queue_len q)) (event_queues d).

(** ** One event *)

(** There are queues, and every client has one of them. *)
Record dispatcher_ok (d : Dispatcher) : Prop := {
  ok_queues : event_queues d ≠ [];
  ok_mapping : map_Forall (λ _ index, (index < length (event_queues d))%nat) (client_queue_mapping d);
  ok_selector : 0 ≤ queue_selector d;
}.

Lemma client_queue_spec c d : dispatcher_ok d →
  ∃ index d', client_queue c d = Val (index, d')
  ∧ (index < length (event_queues d))%nat
  ∧ client_queue_mapping d' = <[c := index]> (client_queue_mapping d)
  ∧ (∀ i, client_queue_mapping d !! c = Some i → index = i ∧ queue_selector d' = queue_selector d)
  ∧ (client_queue_mapping d !! c = None →
     index = Z.to_nat (queue_selector d mod Z.of_nat (length (event_queues d)))
     ∧ queue_selector d' = bump (queue_selector d) 1)
  ∧ event_queues d' = event_queues d ∧ stats d' = stats d ∧ dispatcher_ok d'.
Proof.
  intros [Hq Hm Hs]. unfold client_queue. destruct (client_queue_mapping d !! c) as [i|] eqn:Hc.
  - exists i, d. rewrite insert_id by done. split_and!; try done; [by eapply Hm|naive_solver].
  - assert (length (event_queues d) ≠ 0%nat) as Hl by (destruct (event_queues d); done).
    rewrite rem_ok by lia. cbn [exec_bind]. eexists _, _. split; [done|].
    pose proof (Z.mod_pos_bound (queue_selector d) (Z.of_nat (length (event_queues d)))) as Hb.
    simpl. split_and!; try done; try lia. split; simpl; [done| |].
    + apply map_Forall_insert_2; [lia|done].
    + by apply wrap_range.
Qed.

(** An event that is accepted is the last of its client's queue. *)
Lemma dispatch_spec c e latency d : dispatcher_ok d →
  ∃ index queue r d', dispatch_event_ultra_fast c e latency d = Val (r, d')
  ∧ dispatcher_ok d' ∧ event_queues d !! index = Some queue
  ∧ client_queue_mapping d' = <[c := index]> (client_queue_mapping d)
  ∧ (∀ i, client_queue_mapping d !! c = Some i → index = i)
  ∧ match r with
    | Ok _ => ∃ queue', queue_elements queue' = queue_elements queue ++ [e]
        ∧ queue_capacity queue' = queue_capacity queue
        ∧ event_queues d' = <[index := queue']> (event_queues d)
        ∧ stats d' = record_event_latency (as_u64 latency) (stats d)
    | Err msg => msg = overflow_error c ∧ (queue_capacity queue ≤ queue_len queue)%nat
        ∧ event_queues d' = event_queues d ∧ stats d' = overflow (stats d)
    end.
Proof.
  intros Hok. destruct (client_queue_spec c d Hok) as (index & d1 & Hc & Hi & Hm & Hold & _ & Hq & Hst & Hok1).
  unfold dispatch_event_ultra_fast. rewrite Hc. cbn [exec_bind].
  destruct (lookup_lt_is_Some_2 _ _ Hi) as [queue Hqueue]. simpl. rewrite Hq, Hqueue. simpl.
  pose proof (queue_push_spec e queue) as Hp. destruct Hok1 as [Ho1 Ho2 Ho3].
  destruct (queue_push e queue) as [queue'|].
  - destruct Hp as (Hlen & Hel & Hcap). eexists index, queue, _, _. split; [done|].
    repeat split; simpl; try done.
    + intros Hn. apply (f_equal length) in Hn. rewrite length_insert in Hn. simpl in Hn. lia.
    + intros x y Hx. rewrite length_insert. rewrite <- Hq. by eapply Ho2.
    + intros i Hi'. by apply Hold.
    + exists queue'. by rewrite Hst.
  - eexists index, queue, _, _. split; [done|]. repeat split; simpl; try done.
    + intros i Hi'. by apply Hold.
    + by rewrite Hst.
Qed.

(** ** Many events, one after the other *)

(** The events accepted, with their clients. *)
Fixpoint dispatch_all (l : list (string * Event * Z)) (d : Dispatcher) :
    exec (list (string * Event) * Dispatcher) :=
  match l with
  | [] => Val ([], d)
  | (c, e, latency) :: l =>
      let* '(r, d) := dispatch_event_ultra_fast c e latency d in
      let* '(accepted, d) := dispatch_all l d in
      Val (if is_ok r then (c, e) :: accepted else accepted, d)
  end.

(** The events of [log] whose client has queue [i]. *)
Definition sent_to (m : gmap string nat) (i : nat) (log : list (string * Event)) : list Event :=
  (filter (λ x, m !! x.1 = Some i) log).*2.

(** Each queue holds, in order, what its clients have sent. *)
Definition holds (log : list (string * Event)) (d : Dispatcher) : Prop :=
  (∀ i q, event_queues d !! i = Some q → queue_elements q = sent_to (client_queue_mapping d) i log)
  ∧ Forall (λ x, is_Some (client_queue_mapping d !! x.1)) log.

Lemma sent_to_snoc m i log x :
  sent_to m i (log ++ [x]) = sent_to m i log ++ (if decide (m !! x.1 = Some i) then [x.2] else []).
Proof.
  unfold sent_to. rewrite filter_app, fmap_app. f_equal. rewrite filter_cons, filter_nil.
  by case_decide.
Qed.

(** A client's first queue changes nothing for what was sent before. *)
Lemma sent_to_insert m c index i log :
  (∀ j, m !! c = Some j → index = j) → Forall (λ x, is_Some (m !! x.1)) log →
  sent_to (<[c := index]> m) i log = sent_to m i log.
Proof.
  intros Hc Hl. unfold sent_to. f_equal. induction Hl as [|x log [j Hj] _ IH]; [done|].
  rewrite !filter_cons, IH. destruct (decide (x.1 = c)) as [<-|Hne].
  - rewrite lookup_insert_eq, Hj, (Hc _ Hj). done.
  - by rewrite lookup_insert_ne by done.
Qed.

Lemma known_insert (m : gmap string nat) c index log :
  Forall (λ x : string * Event, is_Some (m !! x.1)) log →
  Forall (λ x : string * Event, is_Some (<[c := index]> m !! x.1)) log.
Proof.
  intros Hl. eapply Forall_impl; [exact Hl|]. intros x [j Hj].
  destruct (decide (x.1 = c)) as [<-|]; [rewrite lookup_insert_eq|rewrite lookup_insert_ne by done];
    by eexists.
Qed.

Lemma dispatch_holds c e latency d log : dispatcher_ok d → holds log d →
  ∃ r d', dispatch_event_ultra_fast c e latency d = Val (r, d') ∧ dispatcher_ok d'
  ∧ holds (if is_ok r then log ++ [(c, e)] else log) d'.
Proof.
  intros Hok [Hh Hl].
  destruct (dispatch_spec c e latency d Hok) as (index & q & r & d' & Hd & Hok' & Hi & Hm & Hold & Hr).
  exists r, d'. split; [done|]. split; [done|]. unfold holds. rewrite Hm. destruct r as [[]|msg]; simpl.
  - destruct Hr as (q' & Hel & _ & Hq' & _). split.
    + intros i qi Hqi. rewrite Hq', list_lookup_insert in Hqi. rewrite sent_to_snoc. simpl.
      rewrite lookup_insert_eq, sent_to_insert by done.
      case_decide as Hii; case_decide as Hij; simplify_eq; try (destruct Hii as [-> ?]; congruence).
      * by rewrite Hel, (Hh _ _ Hi).
      * destruct Hii; split; [done|]. by eapply lookup_lt_Some.
      * rewrite app_nil_r. by apply Hh.
    + apply Forall_app. split; [by apply known_insert|]. constructor; [|constructor].
      simpl. rewrite lookup_insert_eq. by eexists.
  - destruct Hr as (_ & _ & -> & _). split; [|by apply known_insert].
    intros i qi Hqi. rewrite sent_to_insert by done. by apply Hh.
Qed.

Lemma dispatch_all_holds l : ∀ d log, dispatcher_ok d → holds log d →
  ∃ accepted d', dispatch_all l d = Val (accepted, d') ∧ dispatcher_ok d'
  ∧ holds (log ++ accepted) d' ∧ accepted `sublist_of` l.*1.
Proof.
  induction l as [|[[c e] latency] l IH]; intros d log Hok Hh; simpl.
  { exists [], d. rewrite app_nil_r. repeat split; try done; apply Hok || apply Hh. }
  destruct (dispatch_holds c e latency d log Hok Hh) as (r & d1 & Hd & Hok1 & Hh1).
  rewrite Hd. cbn [exec_bind].
  destruct (IH _ _ Hok1 Hh1) as (accepted & d2 & Hl & Hok2 & Hh2 & Hs). rewrite Hl. cbn [exec_bind].
  destruct r; simpl in *.
  - eexists _, _. rewrite <- app_assoc in Hh2. split_and!; try done. by apply sublist_skip.
  - eexists _, _. split_and!; try done. by apply sublist_cons.
Qed.

Lemma new_queues_empty n cap l : new_queues n cap = Val l →
  length l = n ∧ Forall (λ q, queue_elements q = [] ∧ queue_capacity q = cap) l.
Proof.
  revert l. induction n as [|n IH]; intros l; simpl; [by intros [= <-]|].
  destruct (queue_new cap) as [q|] eqn:Hq; [|done]. simpl.
  destruct (new_queues n cap) as [l'|]; [|done]. simpl. intros [= <-].
  destruct (IH _ eq_refl) as [<- Hl]. split; [done|]. constructor; [|done].
  by apply queue_new_spec.
Qed.

Lemma dispatcher_new_ok n cap aff d : (0 < n)%nat → dispatcher_new n cap aff = Val d →
  dispatcher_ok d ∧ holds [] d ∧ length (event_queues d) = n.
Proof.
  intros Hn. unfold dispatcher_new. destruct (new_queues n cap) as [l|] eqn:Hl; [|done]. simpl.
  destruct (prefetch_new _) as [p|]; [|done]. intros [= <-].
  apply new_queues_empty in Hl as [Hl Hq]. split; [|split; [|done]].
  - split; simpl; [by destruct l; [simpl in Hl; lia|]|by apply map_Forall_empty|done].
  - split; [|done]. intros i q Hi. simpl in *. by apply (Forall_lookup_1 _ _ _ _ Hq Hi).
Qed.

(** Events given to a new dispatcher by one thread: none is refused with a
    panic, the accepted ones are a part of those given, and each queue holds
    exactly the accepted events of the clients it serves, in the order they
    were given; every client has one queue. *)
Theorem dispatched_in_order n cap aff d l :
  (0 < n)%nat → dispatcher_new n cap aff = Val d →
  ∃ accepted d', dispatch_all l d = Val (accepted, d') ∧ accepted `sublist_of` l.*1
  ∧ ∀ i q, event_queues d' !! i = Some q →
    queue_elements q = sent_to (client_queue_mapping d') i accepted.
Proof.
  intros Hn Hd. destruct (dispatcher_new_ok _ _ _ _ Hn Hd) as (Hok & Hh & _).
  destruct (dispatch_all_holds l d [] Hok Hh) as (accepted & d' & Hl & _ & [Hh' _] & Hs).
  by exists accepted, d'.
Qed.

(** ** Clients and queues *)

(** How many clients have queue [i]. *)
Definition clients_of (i : nat) (m : gmap string nat) : nat := size (filter (λ x, x.2 = i) m).

(** The turns have reached the number of clients. *)
Definition by_turns (d : Dispatcher) : Prop :=
  let n := length (event_queues d) in
  let k := size (client_queue_mapping d) in
  queue_selector d = wrap 64 (Z.of_nat k)
  ∧ (Z.of_nat k < 2 ^ 64 → ∀ i, (i < n)%nat →
     clients_of i (client_queue_mapping d) = (k / n + if (i <? k mod n)%nat then 1 else 0)%nat).

Lemma next_turn n k i : (i < n)%nat →
  (S k / n + (if (i <? S k mod n)%nat then 1 else 0)
   = (if decide (k mod n = i) then 1 else 0) + (k / n + if (i <? k mod n)%nat then 1 else 0))%nat.
Proof.
  intros Hi. pose proof (Nat.div_mod k n ltac:(lia)) as Hk.
  pose proof (Nat.mod_upper_bound k n ltac:(lia)) as Hb.
  destruct (decide (S (k mod n) = n)) as [He|Hne].
  - assert (S k / n = S (k / n) ∧ S k mod n = 0)%nat as [-> ->].
    { destruct (Nat.div_mod_unique n (S (k / n)) (S k / n) 0 (S k mod n))%nat as [? ?];
        [lia|apply Nat.mod_upper_bound; lia| |lia].
      pose proof (Nat.div_mod (S k) n ltac:(lia)). nia. }
    destruct (Nat.ltb_spec i (k mod n)), (decide (k mod n = i)%nat); simpl; lia.
  - assert (S k / n = k / n ∧ S k mod n = S (k mod n))%nat as [-> ->].
    { destruct (Nat.div_mod_unique n (k / n) (S k / n) (S (k mod n)) (S k mod n))%nat as [? ?];
        [lia|apply Nat.mod_upper_bound; lia| |lia].
      pose proof (Nat.div_mod (S k) n ltac:(lia)). nia. }
    destruct (Nat.ltb_spec i (k mod n)), (Nat.ltb_spec i (S (k mod n))), (decide (k mod n = i)%nat);
      simpl; lia.
Qed.

Lemma by_turns_client c d index d' : dispatcher_ok d → by_turns d →
  client_queue c d = Val (index, d') → by_turns d'.
Proof.
  intros Hok [Hs Ht] Hc.
  destruct (client_queue_spec c d Hok) as (i & d1 & Hc' & Hi & Hm & Hold & Hnew & Hq & _ & _).
  rewrite Hc in Hc'. injection Hc' as <- <-. unfold by_turns. rewrite Hq, Hm.
  destruct (client_queue_mapping d !! c) as [j|] eqn:Hj.
  - destruct (Hold _ eq_refl) as [-> ->]. by rewrite insert_id.
  - destruct (Hnew eq_refl) as [Hindex ->]. rewrite map_size_insert_None by done.
    split; [rewrite Hs, wrap_add; f_equal; lia|]. intros Hk j Hjn.
    rewrite Hs, wrap_small, <- Nat2Z.inj_mod, Nat2Z.id in Hindex by (unfold is_uint; lia).
    rewrite next_turn, <- Ht by (done || lia). unfold clients_of. rewrite <- Hindex.
    case_decide as Hd.
    + rewrite map_filter_insert_True, map_size_insert_None by (done || (apply map_lookup_filter_None; by left)).
      done.
    + rewrite map_filter_insert_not' by (done || (intros ? ?; congruence)). done.
Qed.

Lemma dispatch_by_turns c e latency d r d' : dispatcher_ok d → by_turns d →
  dispatch_event_ultra_fast c e latency d = Val (r, d') → by_turns d'.
Proof.
  intros Hok Ht Hd. destruct (client_queue_spec c d Hok) as (i & d1 & Hc & _).
  pose proof (by_turns_client _ _ _ _ Hok Ht Hc) as Ht1.
  unfold dispatch_event_ultra_fast in Hd. rewrite Hc in Hd. simpl in Hd.
  destruct (event_queues d1 !! i) as [q|]; [|done]. simpl in Hd.
  destruct (queue_push e q) as [q'|]; injection Hd as _ <-; [|done].
  unfold by_turns in *. simpl. by rewrite length_insert.
Qed.

(** However many clients have sent events, no queue has two clients more than
    another. *)
Theorem clients_balanced n cap aff d l accepted d' :
  (0 < n)%nat → dispatcher_new n cap aff = Val d → dispatch_all l d = Val (accepted, d') →
  Z.of_nat (size (client_queue_mapping d')) < 2 ^ 64 →
  ∀ i j, (i < n)%nat → (j < n)%nat →
  (clients_of i (client_queue_mapping d') ≤ S (clients_of j (client_queue_mapping d')))%nat.
Proof.
  intros Hn Hd Hl Hsize i j Hi Hj. destruct (dispatcher_new_ok _ _ _ _ Hn Hd) as (Hok & Hh & Hlen).
  assert (by_turns d) as Ht.
  { revert Hd. unfold dispatcher_new. destruct (new_queues n cap); [|done]. simpl.
    destruct (prefetch_new _); [|done]. intros [= <-]. unfold by_turns. simpl.
    split; [done|]. intros _ k Hk. unfold clients_of.
    rewrite map_filter_empty, map_size_empty, Nat.Div0.div_0_l, Nat.Div0.mod_0_l. done. }
  assert (by_turns d' ∧ length (event_queues d') = n) as [[_ Ht'] Hlen'].
  { clear Hd Hh Hsize. revert d accepted Hok Hlen Ht Hl.
    induction l as [|[[c e] t] l IH]; simpl; intros d accepted Hok Hlen Ht Hl; [by simplify_eq|].
    destruct (dispatch_spec c e t d Hok) as (k & q & r & d1 & Hd1 & Hok1 & _ & _ & _ & Hr).
    pose proof (dispatch_by_turns _ _ _ _ _ _ Hok Ht Hd1) as Ht1. rewrite Hd1 in Hl. simpl in Hl.
    destruct (dispatch_all l d1) as [[acc d2]|] eqn:Hl1; [|done]. simplify_eq/=.
    apply (IH d1 acc); try done.
    destruct r; [destruct Hr as (? & _ & _ & -> & _); by rewrite length_insert|].
    by destruct Hr as (_ & _ & -> & _). }
  rewrite !Ht' by (done || lia). destruct (i <? _)%nat, (j <? _)%nat; lia.
Qed.

(** ** Events given by several threads *)

(** Where a call of [dispatch_event_ultra_fast] is. *)
Inductive dispatch_pc :=
| PGet | PSelect | PInsert (index : nat) | PPrefetch (index : nat) | PPush (index : nat)
| PRecord (p : rpc) | POverflow | PFailed.

Abbreviation Call := (string * Event * Z)%type.

Inductive dispatch_step : Dispatcher → Call → dispatch_pc → Dispatcher → dispatch_pc → Prop :=
| dispatch_get d c e t i :
    client_queue_mapping d !! c = Some i → dispatch_step d (c, e, t) PGet d (PPrefetch i)
| dispatch_miss d c e t :
    client_queue_mapping d !! c = None → dispatch_step d (c, e, t) PGet d PSelect
| dispatch_select d c e t i :
    rem (queue_selector d) (Z.of_nat (length (event_queues d))) = Val i →
    dispatch_step d (c, e, t) PSelect (next_selector d) (PInsert (Z.to_nat i))
| dispatch_insert d c e t i :
    dispatch_step d (c, e, t) (PInsert i) (set_mapping (<[c := i]> (client_queue_mapping d)) d)
      (PPrefetch i)
| dispatch_prefetch d c e t i :
    dispatch_step d (c, e, t) (PPrefetch i) (prefetched e d) (PPush i)
| dispatch_push d c e t i q q' :
    event_queues d !! i = Some q → queue_push e q = Some q' →
    dispatch_step d (c, e, t) (PPush i) (set_queues (<[i := q']> (event_queues d)) d)
      (PRecord REvents)
| dispatch_full d c e t i q :
    event_queues d !! i = Some q → queue_push e q = None →
    dispatch_step d (c, e, t) (PPush i) d POverflow
| dispatch_record d c e t p s p' :
    record_step (stats d) (as_u64 t) p s p' →
    dispatch_step d (c, e, t) (PRecord p) (set_stats s d) (PRecord p')
| dispatch_overflow d c e t :
    dispatch_step d (c, e, t) POverflow (set_stats (overflow (stats d)) d) PFailed.

Abbreviation dispatch_alone x := (solo dispatch_step x).

Lemma dispatch_alone_l x d p d' p' y :
  dispatch_step d x p d' p' → rtc (dispatch_alone x) (d', p') y → rtc (dispatch_alone x) (d, p) y.
Proof. intros Hs Hr. by eapply rtc_l; [|exact Hr]. Qed.

Lemma dispatch_records c e t d s p s' p' :
  rtc (alone (as_u64 t)) (s, p) (s', p') →
  rtc (dispatch_alone (c, e, t)) (set_stats s d, PRecord p) (set_stats s' d, PRecord p').
Proof.
  intros Hr. remember (s, p) as x eqn:Hx. remember (s', p') as y eqn:Hy. revert s p Hx.
  induction Hr as [|x [s1 p1] y Hs _ IH]; intros s p ->; [by simplify_eq|].
  eapply dispatch_alone_l; [|by apply IH]. by apply (dispatch_record (set_stats s d)).
Qed.

(** A call that nobody disturbs takes the steps to the same end. *)
Theorem dispatch_is_a_run c e t d r d' :
  dispatch_event_ultra_fast c e t d = Val (r, d') →
  rtc (dispatch_alone (c, e, t)) (d, PGet) (d', if is_ok r then PRecord RDone else PFailed).
Proof.
  unfold dispatch_event_ultra_fast. destruct (client_queue c d) as [[i d1]|] eqn:Hc; [|done].
  simpl. intros Hd. transitivity (d1, PPrefetch i).
  { revert Hc. unfold client_queue. destruct (client_queue_mapping d !! c) as [j|] eqn:Hj.
    - intros [= -> ->]. eapply dispatch_alone_l; [by apply dispatch_get|done].
    - destruct (rem _ _) as [k|] eqn:Hk; [|done]. intros [= <- <-].
      eapply dispatch_alone_l; [by apply dispatch_miss|].
      eapply dispatch_alone_l; [by apply dispatch_select|].
      eapply dispatch_alone_l; [apply dispatch_insert|done]. }
  eapply dispatch_alone_l; [apply dispatch_prefetch|].
  destruct (event_queues d1 !! i) as [q|] eqn:Hq; [|done]. simpl in Hd.
  destruct (queue_push e q) as [q'|] eqn:Hp; simplify_eq; simpl.
  - eapply dispatch_alone_l; [by eapply (dispatch_push (prefetched e d1))|].
    apply (dispatch_records c e t (set_queues (<[i:=q']> (event_queues d1)) (prefetched e d1))
             (stats d1) REvents), record_event_latency_run.
  - eapply dispatch_alone_l; [by eapply (dispatch_full (prefetched e d1))|].
    eapply dispatch_alone_l; [apply dispatch_overflow|done].
Qed.

Definition dispatching (d : Dispatcher) (l : list Call) : System :=
  mk_System d (map (λ x, (x, PGet)) l).

(** Two threads that give the first two events of one client at once can
    put them into two queues: each finds no queue and takes one by turns. *)
Theorem racing_dispatches_split cap aff d c e1 e2 t1 t2 :
  dispatcher_new 2 cap aff = Val d →
  ∃ s q0 q1, rtc (system_step dispatch_step) (dispatching d [(c, e1, t1); (c, e2, t2)]) s
  ∧ event_queues (shared s) = [q0; q1] ∧ queue_elements q0 = [e1] ∧ queue_elements q1 = [e2]
  ∧ size (client_queue_mapping (shared s)) = 1%nat.
Proof.
  unfold dispatcher_new. simpl. destruct (queue_new cap) as [q|] eqn:Hq; [|done]. simpl.
  destruct (prefetch_new _) as [p|]; [|done]. intros [= <-].
  assert (cap ≠ 0%nat) as Hcap by (intros ->; by rewrite (proj2 (queue_new_panics 0) eq_refl) in Hq).
  destruct (queue_new_spec _ _ Hq) as [Hel Hc].
  assert (∀ e, ∃ q', queue_push e q = Some q' ∧ queue_elements q' = [e]) as Hpush.
  { intros e. pose proof (queue_push_spec e q) as Hp. destruct (queue_push e q) as [q'|].
    - exists q'. destruct Hp as (_ & -> & _). by rewrite Hel.
    - rewrite Hel, Hc in Hp. simpl in Hp. lia. }
  destruct (Hpush e1) as (q1 & Hq1 & He1), (Hpush e2) as (q2 & Hq2 & He2).
  eexists _, q1, q2. split; [|split; [shelve|split; [exact He1|split; [exact He2|shelve]]]].
  unfold dispatching. simpl. caller 0%nat dispatch_miss; [by apply lookup_empty|].
  caller 1%nat dispatch_miss; [by apply lookup_empty|].
  caller 0%nat dispatch_select; [done|]. caller 1%nat dispatch_select; [done|].
  caller 0%nat dispatch_insert. caller 1%nat dispatch_insert.
  caller 0%nat dispatch_prefetch. caller 1%nat dispatch_prefetch.
  caller 0%nat dispatch_push; [done|exact Hq1|]. caller 1%nat dispatch_push; [done|exact Hq2|].
  apply rtc_refl.
  Unshelve. all: simpl; try done. rewrite insert_insert_eq. by rewrite map_size_insert_None.
Qed.

(** ** The workers *)

(** [latency] is the time the processing of an event takes; processing an
    event does nothing but log and yield. *)
Section Worker.
Context (latency : Event → Z).

Definition record_processed (s : Stats) (e : Event) : Stats :=
  record_event_latency (as_u64 (latency e)) s.

(** Up to [batch] events of one queue. *)
(* sdk perf/ultra_low_latency.rs:359-378 worker_main_loop, batch *)
Fixpoint process_batch (batch : nat) (q : Q Event) (s : Stats) : list Event * Q Event * Stats :=
  match batch with
  | O => ([], q, s)
  | S batch =>
      match queue_pop q with
      | Some (event, q) =>
          let '(l, q, s) := process_batch batch q (record_processed s event) in (event :: l, q, s)
      | None => ([], q, s)
      end
  end.

(* sdk perf/ultra_low_latency.rs:355-381 worker_main_loop, for *)
Fixpoint visit_queues (turns queue_index : nat) (queues : list (Q Event)) (s : Stats) :
    exec (list Event * nat * list (Q Event) * Stats) :=
  match turns with
  | O => Val ([], queue_index, queues, s)
  | S turns =>
      let n := length queues in
      let* q := unwrap (queues !! (queue_index mod n)%nat) in
      let '(l, q, s) := process_batch 100 q s in
      let* '(l', k, queues, s) :=
        visit_queues turns ((queue_index + 1) mod n) (<[(queue_index mod n)%nat := q]> queues) s in
      Val (l ++ l', k, queues, s)
  end.

(** One turn of the endless loop; without an event it then sleeps. *)
(* sdk perf/ultra_low_latency.rs:342-394 worker_main_loop *)
Definition worker_pass (queue_index : nat) (queues : list (Q Event)) (s : Stats) :
    exec (list Event * nat * list (Q Event) * Stats) :=
  visit_queues (length queues) queue_index queues s.

Lemma process_batch_spec batch : ∀ q s,
  ∃ q', process_batch batch q s
        = (take batch (queue_elements q), q',
           foldl record_processed s (take batch (queue_elements q)))
  ∧ queue_elements q' = drop batch (queue_elements q) ∧ queue_capacity q' = queue_capacity q.
Proof.
  induction batch as [|batch IH]; intros q s; simpl; [by exists q|].
  pose proof (queue_pop_spec q) as Hp. destruct (queue_pop q) as [[e q1]|].
  - destruct Hp as [-> <-]. destruct (IH q1 (record_processed s e)) as (q' & -> & Hd & Hc).
    by exists q'.
  - rewrite Hp. by exists q.
Qed.

(** The elements of the queue number [k + j], from [k] around. *)
Definition nth_queue (queues : list (Q Event)) (k j : nat) : list Event :=
  from_option queue_elements [] (queues !! ((k + j) mod length queues)%nat).

Lemma around k j n : (0 < n)%nat → (((k + 1) mod n + j) mod n = (k + S j) mod n)%nat.
Proof. intros Hn. rewrite Nat.Div0.add_mod_idemp_l. f_equal. lia. Qed.

Lemma around_other k j n : (0 < j < n)%nat → ((k + j) mod n ≠ k mod n)%nat.
Proof.
  intros Hj Heq. pose proof (Nat.div_mod (k + j) n ltac:(lia)) as Hs.
  pose proof (Nat.div_mod k n ltac:(lia)) as Hk. rewrite Heq in Hs.
  destruct (Nat.le_gt_cases ((k + j) / n) (k / n)); nia.
Qed.

Lemma visit_queues_spec turns : ∀ k queues s,
  (turns ≤ length queues)%nat →
  ∃ l queues', visit_queues turns k queues s
    = Val (l, if turns is O then k else ((k + turns) mod length queues)%nat, queues',
           foldl record_processed s l)
  ∧ length queues' = length queues
  ∧ l = concat (map (λ j, take 100 (nth_queue queues k j)) (seq 0 turns))
  ∧ ∀ j, (j < length queues)%nat →
    nth_queue queues' k j = drop (if (j <? turns)%nat then 100 else 0)%nat (nth_queue queues k j).
Proof.
  induction turns as [|turns IH]; intros k queues s Ht.
  { by exists [], queues. }
  remember (length queues) as n eqn:Hlen. assert (0 < n)%nat as Hn by lia.
  destruct (lookup_lt_is_Some_2 queues (k mod n)%nat) as [q Hq];
    [rewrite <- Hlen; apply Nat.mod_upper_bound; lia|].
  cbn [visit_queues]. rewrite <- Hlen, Hq. cbn [unwrap exec_bind].
  destruct (process_batch_spec 100 q s) as (q1 & -> & Hd & _).
  set (batch := take 100 (queue_elements q)).
  set (queues1 := <[(k mod n)%nat := q1]> queues).
  assert (length queues1 = n) as Hn1 by (by subst n queues1; rewrite length_insert).
  destruct (IH ((k + 1) mod n)%nat queues1 (foldl record_processed s batch)) as
    (l & queues2 & Hv & Hl2 & Hl & Hdrop); [rewrite Hn1; lia|].
  rewrite Hn1 in *. rewrite Hv. cbn [exec_bind].
  assert (∀ qs, length qs = n → ∀ j, nth_queue qs ((k + 1) mod n) j = nth_queue qs k (S j)) as Hnext.
  { intros qs Hqs j. unfold nth_queue. by rewrite Hqs, around. }
  assert (∀ j, (S j < n)%nat → nth_queue queues1 k (S j) = nth_queue queues k (S j)) as Hsame.
  { intros j Hj. unfold nth_queue. rewrite Hn1, <- Hlen. unfold queues1.
    rewrite list_lookup_insert_ne; [done|]. intros Heq. by apply (around_other k (S j) n); [lia|]. }
  assert (∀ qs, length qs = n → nth_queue qs k n = nth_queue qs k 0) as Hround.
  { intros qs Hqs. unfold nth_queue. rewrite Hqs, Nat.add_0_r.
    by rewrite <- Nat.Div0.add_mod_idemp_r, Nat.Div0.mod_same, Nat.add_0_r. }
  assert (nth_queue queues k 0 = queue_elements q) as H0.
  { unfold nth_queue. by rewrite <- Hlen, Nat.add_0_r, Hq. }
  assert (nth_queue queues1 k 0 = queue_elements q1) as Hq1.
  { unfold nth_queue. rewrite Hn1, Nat.add_0_r. unfold queues1. rewrite list_lookup_insert_eq; [done|].
    rewrite <- Hlen. apply Nat.mod_upper_bound. lia. }
  exists (batch ++ l), queues2. split_and!; [| |subst l|].
  - rewrite foldl_app. destruct turns; [done|]. by rewrite around by done.
  - done.
  - rewrite <- (cons_seq turns 0), <- fmap_S_seq. simpl. rewrite H0. f_equal. f_equal.
    rewrite map_map. apply map_ext_in. intros j Hj. apply in_seq in Hj.
    rewrite Hnext, Hsame by (done || lia). done.
  - intros [|j] Hj.
    + rewrite <- Hround by done. destruct n as [|m] eqn:Hnm; [lia|].
      rewrite <- (Hnext queues2) by done. rewrite Hdrop by lia. rewrite Hnext, Hround by done.
      destruct (Nat.ltb_spec m turns); [lia|]. by rewrite drop_0, Hq1, Hd, H0.
    + rewrite <- Hnext by done. rewrite Hdrop by lia. by rewrite Hnext, Hsame by (done || lia).
Qed.

Lemma nth_queue_all (queues : list (Q Event)) k i q : queues !! i = Some q →
  ∃ j, (j < length queues)%nat ∧ nth_queue queues k j = queue_elements q
  ∧ (∀ qs, length qs = length queues →
     nth_queue qs k j = from_option queue_elements [] (qs !! i)).
Proof.
  intros Hi. pose proof (lookup_lt_Some _ _ _ Hi) as Hl. set (n := length queues) in *.
  exists ((i + (n - k mod n)) mod n)%nat.
  assert ((k + (i + (n - k mod n)) mod n) mod n = i)%nat as Hk.
  { pose proof (Nat.mod_upper_bound k n ltac:(lia)) as Hm.
    rewrite Nat.Div0.add_mod_idemp_r, <- Nat.Div0.add_mod_idemp_l.
    replace (k mod n + (i + (n - k mod n)))%nat with (i + 1 * n)%nat by lia.
    rewrite Nat.Div0.mod_add. by apply Nat.mod_small. }
  split; [apply Nat.mod_upper_bound; lia|]. unfold nth_queue. fold n.
  split; [by rewrite Hk, Hi|]. intros qs Hqs. by rewrite Hqs, Hk.
Qed.

(** Many turns, when no event arrives. *)
Fixpoint worker_passes (m queue_index : nat) (queues : list (Q Event)) (s : Stats) :
    exec (list Event * nat * list (Q Event) * Stats) :=
  match m with
  | O => Val ([], queue_index, queues, s)
  | S m =>
      let* '(l, k, queues, s) := worker_pass queue_index queues s in
      let* '(l', k, queues, s) := worker_passes m k queues s in
      Val (l ++ l', k, queues, s)
  end.

(** A worker that works alone takes, in every turn, the first hundred
    events of each queue: after [m] turns exactly the events beyond the first
    [100 * m] of each queue are left, in their order, and the statistics are
    those of the events taken; it never panics, also without a queue. *)
Theorem workers_drain m : ∀ k queues s,
  ∃ l k' queues' , worker_passes m k queues s = Val (l, k', queues', foldl record_processed s l)
  ∧ length queues' = length queues
  ∧ ∀ i q, queues !! i = Some q →
    ∃ q', queues' !! i = Some q' ∧ queue_elements q' = drop (100 * m) (queue_elements q).
Proof.
  induction m as [|m IH]; intros k queues s; cbn [worker_passes].
  { exists [], k, queues. split_and!; try done. intros i q Hi. exists q. by rewrite Nat.mul_0_r. }
  unfold worker_pass.
  destruct (visit_queues_spec (length queues) k queues s) as (l & qs & Hv & Hl & _ & Hd); [done|].
  rewrite Hv. cbn [exec_bind].
  destruct (IH (if length queues is O then k else ((k + length queues) mod length queues)%nat) qs
    (foldl record_processed s l)) as (l' & k' & qs' & Hp & Hl' & Hd').
  rewrite Hp. cbn [exec_bind]. exists (l ++ l'), k', qs'. rewrite foldl_app.
  split_and!; [done|by rewrite Hl', Hl|]. intros i q Hi.
  destruct (nth_queue_all queues k i q Hi) as (j & Hj & Hq & Hall).
  destruct (lookup_lt_is_Some_2 qs i) as [q1 Hq1]; [rewrite Hl; by eapply lookup_lt_Some|].
  destruct (Hd' i q1 Hq1) as (q2 & Hq2 & He2). exists q2. split; [done|].
  specialize (Hd j Hj). rewrite (Hall qs Hl), Hq1, Hq in Hd. simpl in Hd.
  destruct (Nat.ltb_spec j (length queues)); [|lia].
  rewrite He2, Hd, drop_drop. f_equal. lia.
Qed.
End Worker.
End Dispatch.

(** ** Instances *)

(** A new dispatcher over [ListQueue]. *)
Definition toy_dispatcher (n cap : nat) : Dispatcher (Q := ListQueue) (Event := nat) :=
  mk_Dispatcher (replicate n ([], cap)) ∅ 0 stats_new (mk_Prefetch ([], Z.to_nat 1000) 0 0 true) None.

(** Two clients; the third event of the first finds its queue full. *)
Lemma dispatched_in_order_witness :
  let calls := [("a", 1%nat, 50); ("b", 2%nat, 70); ("a", 3%nat, 60); ("a", 4%nat, 90)] in
  dispatcher_new (Q := ListQueue) 2 2 None = Val (toy_dispatcher 2 2)
  ∧ ∃ d', dispatch_all calls (toy_dispatcher 2 2)
          = Val ([("a", 1%nat); ("b", 2%nat); ("a", 3%nat)], d')
    ∧ map queue_elements (event_queues d') = [[1; 3]; [2]]%nat
    ∧ (∀ i q, event_queues d' !! i = Some q →
         queue_elements q = sent_to (client_queue_mapping d') i
           [("a", 1%nat); ("b", 2%nat); ("a", 3%nat)]).
Proof.
  cbv zeta. split; [reflexivity|].
  destruct (dispatched_in_order 2 2 None (toy_dispatcher 2 2)
    [("a", 1%nat, 50); ("b", 2%nat, 70); ("a", 3%nat, 60); ("a", 4%nat, 90)]
    ltac:(lia) ltac:(reflexivity)) as (acc & d' & Hd & _ & Hq).
  assert (acc = [("a", 1%nat); ("b", 2%nat); ("a", 3%nat)]) as ->.
  { transitivity (match dispatch_all [("a", 1%nat, 50); ("b", 2%nat, 70); ("a", 3%nat, 60);
        ("a", 4%nat, 90)] (toy_dispatcher 2 2) with Val (l, _) => l | Panic => [] end);
      [by rewrite Hd|vm_compute; reflexivity]. }
  exists d'. split; [exact Hd|]. split; [|exact Hq].
  transitivity (match dispatch_all [("a", 1%nat, 50); ("b", 2%nat, 70); ("a", 3%nat, 60);
      ("a", 4%nat, 90)] (toy_dispatcher 2 2) with
    | Val (_, d) => map queue_elements (event_queues d) | Panic => [] end);
    [by rewrite Hd|vm_compute; reflexivity].
Defined.

Lemma racing_dispatches_split_witness :
  dispatcher_new (Q := ListQueue) 2 1 None = Val (toy_dispatcher 2 1)
  ∧ ∃ s, rtc (system_step dispatch_step)
      (dispatching (toy_dispatcher 2 1) [("a", 1%nat, 50); ("a", 2%nat, 60)]) s
    ∧ map queue_elements (event_queues (shared s)) = [[1]; [2]]%nat.
Proof.
  assert (dispatcher_new (Q := ListQueue) 2 1 None = Val (toy_dispatcher 2 1)) as Hd by reflexivity.
  split; [exact Hd|].
  destruct (racing_dispatches_split 1 None _ "a" 1%nat 2%nat 50 60 Hd) as (s & q0 & q1 & Hr & Hq & H0 & H1 & _).
  exists s. split; [exact Hr|]. rewrite Hq. cbn [map]. by rewrite H0, H1.
Defined.

Lemma clients_balanced_witness :
  ∃ acc d', dispatch_all [("a", 1%nat, 5); ("b", 2%nat, 5); ("c", 3%nat, 5)] (toy_dispatcher 2 2)
    = Val (acc, d')
  ∧ (clients_of 0 (client_queue_mapping d') ≤ S (clients_of 1 (client_queue_mapping d')))%nat.
Proof.
  eexists _, _. split; [vm_compute; reflexivity|].
  eapply (clients_balanced (Q := ListQueue) 2 2 None (toy_dispatcher 2 2)
    [("a", 1%nat, 5); ("b", 2%nat, 5); ("c", 3%nat, 5)]);
    [lia|reflexivity|vm_compute; reflexivity|vm_compute; reflexivity|lia|lia].
Defined.

(** ** The serializer *)

Section Serializer.
Context {Q : Type → Type} `{ArrayQueue Q} {V : Type}.

(** A [Vec<u8>]: its bytes and its capacity. *)
Record Vec := mk_Vec { bytes : list Z; vec_capacity : nat }.

(** The encoder of another crate, and how far a vector grows that has no room,
    at least to what it must hold. *)
Context (bincode_serialize : V → result string (list Z)) (grown : nat → nat → nat).
Hypothesis grown_enough : ∀ cap len, (len ≤ grown cap len)%nat.

Definition with_capacity (n : nat) : Vec := mk_Vec [] n.
Definition vec_clear (v : Vec) : Vec := mk_Vec [] (vec_capacity v).
Definition extend_from_slice (v : Vec) (l : list Z) : Vec :=
  let len := (length (bytes v) + length l)%nat in
  mk_Vec (bytes v ++ l) (if (len <=? vec_capacity v)%nat then vec_capacity v
                         else grown (vec_capacity v) len).

(* sdk perf/ultra_low_latency.rs:481-486 ZeroAllocSerializer *)
Record ZeroAllocSerializer := mk_Serializer {
  buffer_pool : Q Vec;
  size_hints : gmap string nat;
}.

(* sdk perf/ultra_low_latency.rs:489-501 new *)
Definition serializer_new (pool_size buffer_size : nat) : exec ZeroAllocSerializer :=
  let* pool := queue_new pool_size in
  Val (mk_Serializer (fill pool_size (with_capacity buffer_size) pool) ∅).

(* sdk perf/ultra_low_latency.rs:506-515 serialize_zero_alloc, buffer *)
Definition take_vec (event_type : string) (s : ZeroAllocSerializer) : Vec * ZeroAllocSerializer :=
  match queue_pop (buffer_pool s) with
  | Some (buffer, pool) => (buffer, mk_Serializer pool (size_hints s))
  | None => (with_capacity (default (Z.to_nat 1024) (size_hints s !! event_type)), s)
  end.

(* sdk perf/ultra_low_latency.rs:505-528 serialize_zero_alloc *)
Definition serialize_zero_alloc (value : V) (event_type : string) : M ZeroAllocSerializer Vec := λ s,
  let '(buffer, s) := take_vec event_type s in
  let buffer := vec_clear buffer in
  match bincode_serialize value with
  | Err e => Val (Err e, s)
  | Ok serialized =>
      let buffer := extend_from_slice buffer serialized in
      Val (Ok buffer, mk_Serializer (buffer_pool s) (<[event_type := length (bytes buffer)]> (size_hints s)))
  end.

Definition MIB : nat := Z.to_nat (1024 * 1024).

(* sdk perf/ultra_low_latency.rs:532-537 return_buffer *)
Definition return_buffer (buffer : Vec) (s : ZeroAllocSerializer) : ZeroAllocSerializer :=
  if (vec_capacity buffer <=? MIB)%nat
  then mk_Serializer (push_or_drop buffer (buffer_pool s)) (size_hints s) else s.

(* sdk perf/ultra_low_latency.rs:540-542 get_pool_stats *)
Definition get_pool_stats (s : ZeroAllocSerializer) : nat * nat :=
  (queue_len (buffer_pool s), queue_capacity (buffer_pool s)).

(** Whatever is in the pool, what is delivered is the encoding of the value;
    the hint is its length; a value that has none costs the pool a buffer. *)
Theorem recycled_serialization value event_type s :
  ∃ r s', serialize_zero_alloc value event_type s = Val (r, s')
  ∧ queue_len (buffer_pool s') = pred (queue_len (buffer_pool s))
  ∧ match bincode_serialize value with
    | Ok l => (∃ v, r = Ok v ∧ bytes v = l ∧ (length l ≤ vec_capacity v)%nat)
        ∧ size_hints s' = <[event_type := length l]> (size_hints s)
    | Err e => r = Err e ∧ size_hints s' = size_hints s
    end.
Proof.
  unfold serialize_zero_alloc. destruct (take_vec event_type s) as [v s1] eqn:Ht.
  assert (queue_len (buffer_pool s1) = pred (queue_len (buffer_pool s))
    ∧ size_hints s1 = size_hints s) as [Hl Hh].
  { unfold take_vec in Ht. destruct (pop_len (buffer_pool s)) as [Hl _].
    destruct (queue_pop (buffer_pool s)) as [[b q]|]; simplify_eq/=; done. }
  destruct (bincode_serialize value) as [l|e]; eexists _, _; (split; [done|]); simpl.
  - split; [done|]. split; [|by rewrite Hh]. eexists. split; [done|]. simpl. split; [done|].
    destruct (Nat.leb_spec (length l) (vec_capacity v)); [done|apply grown_enough].
  - by rewrite Hh.
Qed.

(** A buffer that has grown beyond a megabyte is not taken back. *)
Theorem large_buffers_dropped v s :
  bounded (buffer_pool s) →
  get_pool_stats (return_buffer v s)
  = (if (vec_capacity v <=? MIB)%nat
     then Nat.min (queue_capacity (buffer_pool s)) (S (queue_len (buffer_pool s)))
     else queue_len (buffer_pool s), queue_capacity (buffer_pool s)).
Proof.
  intros Hb. unfold get_pool_stats, return_buffer. destruct (_ <=? _)%nat; simpl; [|done].
  by destruct (push_or_drop_len v _ Hb) as [-> ->].
Qed.
End Serializer.

Lemma recycled_serialization_witness :
  let ser (n : nat) := if decide (n = 0%nat) then Err "empty" else Ok (repeat 7 n) in
  let s := mk_Serializer (Q := ListQueue) ([mk_Vec [1; 2] 2], 3%nat) ∅ in
  (∃ v s', serialize_zero_alloc ser (λ c l, Nat.max (2 * c) l)%nat 3%nat "x" s = Val (Ok v, s')
    ∧ bytes v = [7; 7; 7] ∧ vec_capacity v = 4%nat ∧ queue_len (buffer_pool s') = 0%nat)
  ∧ (∃ s', serialize_zero_alloc ser (λ c l, Nat.max (2 * c) l)%nat 0%nat "x" s = Val (Err "empty", s')
    ∧ queue_len (buffer_pool s') = 0%nat).
Proof.
  intros ser s. assert (Hg : ∀ cap len, (len ≤ Nat.max (2 * cap) len)%nat) by lia. split.
  - destruct (recycled_serialization ser (λ c l, Nat.max (2 * c) l)%nat Hg 3%nat "x" s)
      as (r & s' & Hs & Hl & (v & -> & Hv & _) & _).
    exists v, s'. split; [exact Hs|]. split; [exact Hv|]. split; [|exact Hl].
    vm_compute in Hs. by injection Hs as <- _.
  - destruct (recycled_serialization ser (λ c l, Nat.max (2 * c) l)%nat Hg 0%nat "x" s)
      as (r & s' & Hs & Hl & -> & _).
    by exists s'.
Defined.
