(* ===== verification/WorkerRace.v ===== *)
(** * Several workers over the queues of the dispatcher (sdk perf/ultra_low_latency.rs)

    Any number of workers poll the queues while dispatching goes on.  Every
    event that a queue has accepted is processed once; the events of a queue
    stay in order when one worker polls, and need not when two do. *)

From stdpp Require Import relations.
From S2P Require Import Prelude Queue Concurrent Dispatch.

#[local] Open Scope Z_scope.
#[local] Open Scope list_scope.

Section Race.
Context {Q : Type → Type} `{ArrayQueue Q} {Event : Type}.

(** The queues, and with the number of its queue each event that was accepted
    and each that was processed. *)
Record Board := mk_Board {
  board_queues : list (Q Event);
  accepted : list (nat * Event);
  processed : list (nat * Event);
}.

(** A worker with its number; one that dispatches events to given queues. *)
Inductive Role := Worker (worker_id : nat) | Feeder (events : list (nat * Event)).

(** A worker is about to look at a queue, with the turns that are left of the
    round and the events it has taken in this turn, or it holds an event. *)
Inductive worker_pc :=
| Visit (queue_index turns batch_count : nat) (processed_any : bool)
| Holds (from : nat) (event : Event) (queue_index turns batch_count : nat)
| Feeds (rest : list (nat * Event)).

(** Without an event in a round the worker sleeps before the next; the time is
    not modelled. *)
(* sdk perf/ultra_low_latency.rs:351-393 worker_main_loop, loop *)
Inductive work : Board → Role → worker_pc → Board → worker_pc → Prop :=
| work_pop b id k turns count any q event q' :
    (count < 100)%nat → board_queues b !! (k mod length (board_queues b))%nat = Some q →
    queue_pop q = Some (event, q') →
    work b (Worker id) (Visit k (S turns) count any)
      (mk_Board (<[(k mod length (board_queues b))%nat := q']> (board_queues b)) (accepted b)
         (processed b))
      (Holds (k mod length (board_queues b)) event k (S turns) count)
| work_process b id from event k turns count :
    work b (Worker id) (Holds from event k turns count)
      (mk_Board (board_queues b) (accepted b) (processed b ++ [(from, event)]))
      (Visit k turns (S count) true)
| work_next b id k turns count any q :
    board_queues b !! (k mod length (board_queues b))%nat = Some q →
    (100 ≤ count)%nat ∨ queue_pop q = None →
    work b (Worker id) (Visit k (S turns) count any) b
      (Visit ((k + 1) mod length (board_queues b)) turns 0 any)
| work_round b id k count any :
    work b (Worker id) (Visit k 0 count any) b (Visit k (length (board_queues b)) 0 false)
| feed_accepted b l i event rest q q' :
    board_queues b !! i = Some q → queue_push event q = Some q' →
    work b (Feeder l) (Feeds ((i, event) :: rest))
      (mk_Board (<[i := q']> (board_queues b)) (accepted b ++ [(i, event)]) (processed b)) (Feeds rest)
| feed_full b l i event rest q :
    board_queues b !! i = Some q → queue_push event q = None →
    work b (Feeder l) (Feeds ((i, event) :: rest)) b (Feeds rest).

Abbreviation Sys := (@System Board Role worker_pc).

Definition start_of (n : nat) (r : Role) : Role * worker_pc :=
  match r with
  | Worker id => (r, Visit id n 0 false)
  | Feeder events => (r, Feeds events)
  end.

Definition working (queues : list (Q Event)) (roles : list Role) : Sys :=
  mk_System (mk_Board queues [] []) (map (start_of (length queues)) roles).

(** ** What belongs to a queue *)

Definition of_queue (i : nat) (l : list (nat * Event)) : list Event :=
  omap (λ x, if decide (x.1 = i) then Some x.2 else None) l.

(** The events of queue [i] that are held. *)
Definition held (i : nat) (p : worker_pc) : list Event :=
  match p with
  | Holds from event _ _ _ => if decide (from = i) then [event] else []
  | _ => []
  end.

Definition all_held (i : nat) (l : list (Role * worker_pc)) : list Event :=
  concat (map (λ x, held i x.2) l).

Lemma of_queue_snoc i l j e :
  of_queue i (l ++ [(j, e)]) = of_queue i l ++ if decide (j = i) then [e] else [].
Proof. unfold of_queue. rewrite omap_app. simpl. by destruct (decide (j = i)). Qed.

Lemma held_moves i l j r p p' : l !! j = Some (r, p) →
  all_held i (<[j := (r, p')]> l) ++ held i p ≡ₚ all_held i l ++ held i p'.
Proof.
  unfold all_held. revert j. induction l as [|[r1 p1] l IH]; intros [|j] Hj; simplify_eq/=.
  - rewrite (Permutation_app_comm (held i p' ++ _)), <- app_assoc.
    apply Permutation_app_head, Permutation_app_comm.
  - by rewrite <- !app_assoc, (IH j Hj).
Qed.

(** What a step does to a queue: nothing, one event taken from its front and
    held, one held event processed, or one accepted at its end. *)
Lemma work_queue b r p b' p' i q : work b r p b' p' → board_queues b !! i = Some q →
  length (board_queues b') = length (board_queues b)
  ∧ ∃ q', board_queues b' !! i = Some q'
  ∧ ((queue_elements q' = queue_elements q ∧ of_queue i (accepted b') = of_queue i (accepted b)
      ∧ of_queue i (processed b') = of_queue i (processed b) ∧ held i p' = held i p)
   ∨ (∃ e, queue_elements q = e :: queue_elements q' ∧ of_queue i (accepted b') = of_queue i (accepted b)
      ∧ of_queue i (processed b') = of_queue i (processed b) ∧ held i p = [] ∧ held i p' = [e])
   ∨ (∃ e, queue_elements q' = queue_elements q ∧ of_queue i (accepted b') = of_queue i (accepted b)
      ∧ of_queue i (processed b') = of_queue i (processed b) ++ [e] ∧ held i p = [e] ∧ held i p' = [])
   ∨ (∃ e, queue_elements q' = queue_elements q ++ [e]
      ∧ of_queue i (accepted b') = of_queue i (accepted b) ++ [e]
      ∧ of_queue i (processed b') = of_queue i (processed b) ∧ held i p' = held i p)).
Proof.
  intros Hw Hi. destruct Hw as [b id k turns count any q0 event q0' _ H0 Hp|b id from event k turns count
    |b id k turns count any q0 _ _|b id k count any|b l j event rest q0 q0' H0 Hp|b l j event rest q0 _ _];
    cbn [board_queues accepted processed held].
  - split; [by rewrite length_insert|]. pose proof (queue_pop_spec q0) as Hs. rewrite Hp in Hs.
    destruct (decide (k mod length (board_queues b) = i)%nat) as [He|Hne].
    + subst i. rewrite H0 in Hi. injection Hi as <-. exists q0'.
      rewrite list_lookup_insert_eq by (by eapply lookup_lt_Some). split; [done|]. right; left.
      exists event. by destruct Hs.
    + exists q. rewrite list_lookup_insert_ne by done. split; [done|]. by left.
  - split; [done|]. exists q. split; [done|]. rewrite of_queue_snoc.
    destruct (decide (from = i)); [right; right; left; by exists event|left; by rewrite app_nil_r].
  - split; [done|]. exists q. split; [done|]. by left.
  - split; [done|]. exists q. split; [done|]. by left.
  - split; [by rewrite length_insert|]. pose proof (queue_push_spec event q0) as Hs. rewrite Hp in Hs.
    rewrite of_queue_snoc. destruct (decide (j = i)) as [->|Hne].
    + rewrite H0 in Hi. injection Hi as <-. exists q0'.
      rewrite list_lookup_insert_eq by (by eapply lookup_lt_Some). split; [done|].
      right; right; right. exists event. by destruct Hs as (_ & -> & _).
    + exists q. rewrite list_lookup_insert_ne by done. split; [done|]. left. by rewrite app_nil_r.
  - split; [done|]. exists q. split; [done|]. by left.
Qed.

(** ** Nothing lost, nothing twice *)

(** Of the events of every queue, those accepted are those processed, those
    held and those still queued. *)
Definition conserved (s : Sys) : Prop := ∀ i q, board_queues (shared s) !! i = Some q →
  of_queue i (accepted (shared s))
  ≡ₚ of_queue i (processed (shared s)) ++ all_held i (callers s) ++ queue_elements q.

Definition all_queues_empty (queues : list (Q Event)) : Prop :=
  Forall (λ q, queue_elements q = []) queues.

Lemma start_holds_nothing i n roles : all_held i (map (start_of n) roles) = [].
Proof. unfold all_held. induction roles as [|[] roles IH]; [done|exact IH..]. Qed.

Lemma working_conserved queues roles : all_queues_empty queues → conserved (working queues roles).
Proof.
  intros He i q Hi. unfold working in *. simpl in *. rewrite start_holds_nothing.
  unfold all_queues_empty in He. rewrite Forall_forall in He.
  by rewrite (He q) by (by eapply list_elem_of_lookup_2).
Qed.

Lemma queue_before b r p b' p' i q' : work b r p b' p' → board_queues b' !! i = Some q' →
  is_Some (board_queues b !! i).
Proof.
  intros Hw Hi. apply lookup_lt_is_Some. apply lookup_lt_Some in Hi.
  by destruct Hw; cbn [board_queues] in Hi; rewrite ?length_insert in Hi.
Qed.

Lemma work_step_conserved s s' : system_step work s s' → conserved s → conserved s'.
Proof.
  intros [b l j r p b' p' Hj Hw] Hc i q' Hi. cbn [shared callers] in *.
  destruct (queue_before _ _ _ _ _ _ _ Hw Hi) as [q Hq].
  destruct (work_queue _ _ _ _ _ i q Hw Hq) as (_ & q1 & Hq1 & Hcase).
  rewrite Hq1 in Hi. injection Hi as ->. specialize (Hc i q Hq). cbn [shared callers] in Hc.
  pose proof (held_moves i l j r p p' Hj) as Hh.
  destruct Hcase as [(-> & -> & -> & Hp)|[(e & Hel & -> & -> & Hp & Hp')
    |[(e & -> & -> & -> & Hp & Hp')|(e & -> & -> & -> & Hp)]]].
  - rewrite Hp in Hh. apply Permutation_app_inv_r in Hh. by rewrite Hh.
  - rewrite Hp, Hp', app_nil_r in Hh. rewrite Hh, <- (app_assoc (all_held i l)). simpl.
    by rewrite <- Hel.
  - rewrite Hp, Hp', app_nil_r in Hh. rewrite Hc, <- Hh, <- !app_assoc.
    apply Permutation_app_head. by rewrite Permutation_app_swap_app.
  - rewrite Hp in Hh. apply Permutation_app_inv_r in Hh. by rewrite Hh, Hc, <- !app_assoc.
Qed.

Lemma work_conserved queues roles s : all_queues_empty queues →
  rtc (system_step work) (working queues roles) s → conserved s.
Proof.
  intros He Hr. pose proof (working_conserved queues roles He) as Hc. revert Hc.
  induction Hr as [|s1 s2 s3 Hs _ IH]; [done|]. intros Hc. by eapply IH, work_step_conserved.
Qed.

(** ** One worker keeps the order *)

Definition feeding (x : Role * worker_pc) : Prop := ∃ l rest, x = (Feeder l, Feeds rest).

(** The worker comes first; the others dispatch. *)
Definition in_order (s : Sys) : Prop :=
  ∃ id p fl, callers s = (Worker id, p) :: fl ∧ Forall feeding fl
  ∧ ∀ i q, board_queues (shared s) !! i = Some q →
    of_queue i (accepted (shared s))
    = of_queue i (processed (shared s)) ++ held i p ++ queue_elements q.

Lemma feeding_step b l rest b' p' : work b (Feeder l) (Feeds rest) b' p' → ∃ rest', p' = Feeds rest'.
Proof. inversion 1; eauto. Qed.

Lemma step_in_order s s' : system_step work s s' → in_order s → in_order s'.
Proof.
  intros [b l j r p b' p' Hj Hw] (id & p0 & fl & Hl & Hf & Hc). cbn [shared callers] in *. subst l.
  destruct j as [|j]; simpl in Hj.
  - injection Hj as <- <-. exists id, p', fl. split; [done|]. split; [done|].
    intros i q' Hi. destruct (queue_before _ _ _ _ _ _ _ Hw Hi) as [q Hq]. cbn [shared] in *.
    destruct (work_queue _ _ _ _ _ i q Hw Hq) as (_ & q1 & Hq1 & Hcase).
    rewrite Hq1 in Hi. injection Hi as ->. specialize (Hc i q Hq).
    destruct Hcase as [(-> & -> & -> & ->)|[(e & Hel & -> & -> & Hp & ->)
      |[(e & -> & -> & -> & Hp & ->)|(e & -> & -> & -> & Hp)]]].
    + done.
    + rewrite Hp, Hel in Hc. exact Hc.
    + rewrite Hp in Hc. by rewrite Hc, <- !app_assoc.
    + rewrite Hp, Hc, <- !app_assoc. done.
  - pose proof (Forall_lookup_1 _ _ _ _ Hf Hj) as (evs & rest & [= -> ->]).
    destruct (feeding_step _ _ _ _ _ Hw) as [rest' ->]. exists id, p0, (<[j := (Feeder evs, Feeds rest')]> fl).
    split; [done|]. split; [apply Forall_insert; [done|by exists evs, rest']|].
    intros i q' Hi. destruct (queue_before _ _ _ _ _ _ _ Hw Hi) as [q Hq]. cbn [shared] in *.
    destruct (work_queue _ _ _ _ _ i q Hw Hq) as (_ & q1 & Hq1 & Hcase).
    rewrite Hq1 in Hi. injection Hi as ->. specialize (Hc i q Hq).
    destruct Hcase as [(-> & -> & -> & _)|[(e & _ & _ & _ & _ & [=])|[(e & _ & _ & _ & [=] & _)
      |(e & -> & -> & -> & _)]]]; [done|]. by rewrite Hc, <- !app_assoc.
Qed.

Lemma one_worker_in_order queues id feeders s : all_queues_empty queues →
  rtc (system_step work) (working queues (Worker id :: map Feeder feeders)) s → in_order s.
Proof.
  intros He Hr.
  assert (Hs : in_order (working queues (Worker id :: map Feeder feeders))).
  { exists id, (Visit id (length queues) 0 false), (map (start_of (length queues)) (map Feeder feeders)).
    split; [done|]. split.
    - rewrite map_map. apply Forall_fmap, Forall_forall. intros l _. by eexists _, _.
    - intros i q Hi. unfold working in *. simpl in *. unfold all_queues_empty in He.
      rewrite Forall_forall in He. by rewrite (He q) by (by eapply list_elem_of_lookup_2). }
  revert Hs. induction Hr as [|s1 s2 s3 Hstep _ IH]; [done|]. intros Hs. by eapply IH, step_in_order.
Qed.

(** ** A worker gets to every event *)

Definition matched (x : Role * worker_pc) : Prop :=
  match x with
  | (Worker _, Feeds _) | (Feeder _, Visit _ _ _ _) | (Feeder _, Holds _ _ _ _ _) => False
  | _ => True
  end.

Lemma step_matched s s' : system_step work s s' → Forall matched (callers s) → Forall matched (callers s').
Proof.
  intros [b l j r p b' p' Hj Hw] Hm. cbn [callers] in *. apply Forall_insert; [done|]. by destruct Hw.
Qed.

Lemma reachable_matched queues roles s :
  rtc (system_step work) (working queues roles) s → Forall matched (callers s).
Proof.
  intros Hr. assert (Hm : Forall matched (callers (working queues roles))).
  { simpl. apply Forall_fmap, Forall_forall. by intros [] _. }
  revert Hm. induction Hr as [|s1 s2 s3 Hs _ IH]; [done|]. intros Hm. by eapply IH, step_matched.
Qed.

(** Where a worker can take an event. *)
Definition can_take (b : Board) (p : worker_pc) : Prop :=
  ∃ k turns count any q, p = Visit k (S turns) count any ∧ (count < 100)%nat
  ∧ board_queues b !! (k mod length (board_queues b))%nat = Some q ∧ queue_elements q ≠ [].

Lemma pop_empty (q : Q Event) : queue_elements q = [] → queue_pop q = None.
Proof.
  intros He. pose proof (queue_pop_spec q) as Hs. destruct (queue_pop q) as [[e q']|]; [|done].
  destruct Hs as [Hs _]. congruence.
Qed.

Lemma worker_walks b id i q d : board_queues b !! i = Some q → queue_elements q ≠ [] →
  ∀ k turns count any, (count < 100)%nat → ((k + d) mod length (board_queues b) = i)%nat →
  ∃ p, rtc (solo work (Worker id)) (b, Visit k turns count any) (b, p) ∧ can_take b p.
Proof.
  intros Hi Hne. pose proof (lookup_lt_Some _ _ _ Hi) as Hlen.
  set (n := length (board_queues b)) in *.
  induction d as [|d IH]; intros k turns count any Hc Hd.
  - assert (Hgo : ∀ turns any count, (count < 100)%nat → can_take b (Visit k (S turns) count any)).
    { intros t a c' Hc'. exists k, t, c', a, q. split; [done|]. split; [done|].
      rewrite Nat.add_0_r in Hd. by fold n; rewrite Hd. }
    destruct turns as [|turns]; [|by eexists; split; [apply rtc_refl|apply Hgo]].
    exists (Visit k n 0 false). split; [apply rtc_once, work_round|].
    destruct n as [|n'] eqn:Hn; [lia|]. apply Hgo. lia.
  - assert (Hgo : ∀ turns count any, (count < 100)%nat →
      ∃ p, rtc (solo work (Worker id)) (b, Visit k (S turns) count any) (b, p) ∧ can_take b p).
    { intros t c' a Hc'. destruct (lookup_lt_is_Some_2 (board_queues b) (k mod n)%nat) as [q0 H0].
      { apply Nat.mod_upper_bound. lia. }
      destruct (queue_elements q0) as [|e l] eqn:He.
      - destruct (IH ((k + 1) mod n)%nat t 0%nat a) as (p & Hr & Hp); [lia| |].
        + rewrite Nat.Div0.add_mod_idemp_l. by replace (k + 1 + d)%nat with (k + S d)%nat by lia.
        + exists p. split; [|done]. eapply rtc_l; [|exact Hr].
          apply (work_next _ _ _ _ _ _ q0); [exact H0|]. right. by apply pop_empty.
      - eexists. split; [apply rtc_refl|]. exists k, t, c', a, q0. rewrite He. by fold n. }
    destruct turns as [|turns]; [|by apply Hgo].
    destruct (Hgo (pred n) 0%nat false) as (p & Hr & Hp); [lia|]. exists p. split; [|done].
    apply (rtc_l _ _ (b, Visit k n 0 false)); [apply work_round|].
    by replace n with (S (pred n)) at 1 by lia.
Qed.

Lemma worker_reaches b id i q k turns count any : board_queues b !! i = Some q →
  queue_elements q ≠ [] →
  ∃ p, rtc (solo work (Worker id)) (b, Visit k turns count any) (b, p) ∧ can_take b p.
Proof.
  intros Hi Hne. pose proof (lookup_lt_Some _ _ _ Hi) as Hlen.
  set (n := length (board_queues b)) in *.
  assert (Hd : ∀ k, ∃ d, ((k + d) mod n = i)%nat).
  { intros k0. exists (n - k0 mod n + i)%nat. pose proof (Nat.mod_upper_bound k0 n ltac:(lia)).
    rewrite <- Nat.Div0.add_mod_idemp_l.
    replace (k0 mod n + (n - k0 mod n + i))%nat with (i + 1 * n)%nat by lia.
    rewrite Nat.Div0.mod_add. by apply Nat.mod_small. }
  destruct (decide (count < 100)%nat) as [Hc|Hc].
  - destruct (Hd k) as [d Hk]. by eapply worker_walks.
  - destruct turns as [|turns].
    + destruct (Hd k) as [d Hk].
      destruct (worker_walks b id i q d Hi Hne k n 0%nat false) as (p & Hr & Hp); [lia|done|].
      exists p. split; [|done]. apply (rtc_l _ _ (b, Visit k n 0 false)); [apply work_round|exact Hr].
    + destruct (Hd ((k + 1) mod n)%nat) as [d Hk].
      destruct (lookup_lt_is_Some_2 (board_queues b) (k mod n)%nat) as [q0 H0].
      { apply Nat.mod_upper_bound. lia. }
      destruct (worker_walks b id i q d Hi Hne ((k + 1) mod n)%nat turns 0%nat any) as (p & Hr & Hp);
        [lia|done|].
      exists p. split; [|done]. eapply rtc_l; [|exact Hr].
      apply (work_next _ _ _ _ _ _ q0); [exact H0|]. left. lia.
Qed.

(** What is left to do. *)
Definition holding (x : Role * worker_pc) : nat :=
  match x.2 with Holds _ _ _ _ _ => 1 | _ => 0 end.
Definition queued (queues : list (Q Event)) : nat := sum_list_with (λ q, length (queue_elements q)) queues.
Definition todo (s : Sys) : nat :=
  2 * queued (board_queues (shared s)) + sum_list_with holding (callers s).

Lemma sum_zero {A} (f : A → nat) l : sum_list_with f l = 0%nat ∨ ∃ i x, l !! i = Some x ∧ f x ≠ 0%nat.
Proof.
  induction l as [|x l IH]; [by left|]. simpl. destruct (f x) as [|m] eqn:Hx.
  - destruct IH as [->|(i & y & Hi & Hy)]; [by left|]. right. by exists (S i), y.
  - right. exists O, x. split; [done|lia].
Qed.

(** One event less to do. *)
Lemma advance s j id p : Forall matched (callers s) → callers s !! j = Some (Worker id, p) →
  todo s ≠ 0%nat →
  ∃ s', rtc (system_step work) s s' ∧ (todo s' < todo s)%nat
  ∧ accepted (shared s') = accepted (shared s) ∧ ∃ p', callers s' !! j = Some (Worker id, p').
Proof.
  destruct s as [b l]. cbn [callers shared]. intros Hm Hj Ht. unfold todo in *. cbn [callers shared] in *.
  destruct (sum_zero holding l) as [Hz|(m & [r pm] & Hl & Hh)].
  - destruct (sum_zero (λ q, length (queue_elements q)) (board_queues b)) as [Hq|(i & q & Hi & Hne)].
    { unfold queued in Ht. lia. }
    assert (Hpj : ∃ k turns count any, p = Visit k turns count any).
    { pose proof (Forall_lookup_1 _ _ _ _ Hm Hj) as Hp. destruct p as [k t c a|from e k t c|rest]; [eauto| |done].
      pose proof (sum_list_with_insert holding l j _ (Worker id, Feeds []) Hj) as Hs.
      change (holding (Worker id, Holds from e k t c)) with 1%nat in Hs.
      change (holding (Worker id, Feeds [])) with 0%nat in Hs. lia. }
    destruct Hpj as (k & turns & count & any & ->).
    destruct (worker_reaches b id i q k turns count any Hi) as (p & Hr & (k' & t' & c' & a' & q' & -> & Hc & Hq' & Hne')).
    { intros He. by rewrite He in Hne. }
    pose proof (queue_pop_spec q') as Hs. destruct (queue_pop q') as [[e q2]|] eqn:Hpop; [|done].
    destruct Hs as [He _]. apply (solo_runs work b l j _ _ _ Hj) in Hr. cbn [fst snd] in Hr.
    eexists. split; [eapply rtc_r; [exact Hr|]|].
    { apply (caller_moves work _ _ j (Worker id) (Visit k' (S t') c' a')).
      - apply list_lookup_insert_eq. by eapply lookup_lt_Some.
      - by eapply (work_pop b id k' t' c' a' q' e q2). }
    cbn [callers shared board_queues accepted]. split; [|split; [done|]].
    + pose proof (sum_list_with_insert (λ q, length (queue_elements q)) (board_queues b) _ q' q2 Hq') as Hsum.
      cbv beta in Hsum. rewrite He in Hsum. simpl in Hsum. unfold queued.
      rewrite list_insert_insert_eq.
      pose proof (sum_list_with_insert holding l j _
        (Worker id, Holds (k' mod length (board_queues b)) e k' (S t') c') Hj) as Hs.
      unfold holding at 2 4 in Hs. cbn [snd] in Hs. lia.
    + eexists. rewrite list_insert_insert_eq. apply list_lookup_insert_eq. by eapply lookup_lt_Some.
  - assert (Hr : ∃ id' from e k t c, r = Worker id' ∧ pm = Holds from e k t c).
    { pose proof (Forall_lookup_1 _ _ _ _ Hm Hl) as Hp. destruct r, pm; naive_solver. }
    destruct Hr as (id' & from & e & k & t & c & -> & ->).
    eexists. split; [apply rtc_once; eapply (caller_moves work b l m _ _ _ _ Hl), work_process|].
    cbn [callers shared board_queues accepted]. split; [|split; [done|]].
    + pose proof (sum_list_with_insert holding l m _ (Worker id', Visit k t (S c) true) Hl) as Hs.
      unfold holding at 2 4 in Hs. cbn [snd] in Hs. lia.
    + destruct (decide (m = j)) as [->|Hne].
      * rewrite Hj in Hl. injection Hl as -> ->. eexists. apply list_lookup_insert_eq.
        by eapply lookup_lt_Some.
      * exists p. by rewrite list_lookup_insert_ne.
Qed.

Lemma matched_runs s s' : rtc (system_step work) s s' → Forall matched (callers s) →
  Forall matched (callers s').
Proof. induction 1 as [|s1 s2 s3 Hs _ IH]; [done|]. intros Hm. by eapply IH, step_matched. Qed.

Lemma catch_up m : ∀ s j id p, (todo s ≤ m)%nat → Forall matched (callers s) →
  callers s !! j = Some (Worker id, p) →
  ∃ s', rtc (system_step work) s s' ∧ accepted (shared s') = accepted (shared s) ∧ todo s' = 0%nat.
Proof.
  induction m as [|m IH]; intros s j id p Hm Hc Hj; [exists s; split; [done|split; [done|lia]]|].
  destruct (decide (todo s = 0%nat)) as [Hz|Hnz]; [by exists s|].
  destruct (advance s j id p Hc Hj Hnz) as (s1 & Hr & Hlt & Ha & p' & Hj').
  destruct (IH s1 j id p') as (s2 & Hr2 & Ha2 & Hz); [lia|by eapply matched_runs|done|].
  exists s2. split; [by etrans|]. split; [by rewrite Ha2|done].
Qed.
Lemma todo_none s : todo s = 0%nat →
  (∀ i q, board_queues (shared s) !! i = Some q → queue_elements q = [])
  ∧ ∀ i, all_held i (callers s) = [].
Proof.
  unfold todo, queued. intros Ht. split.
  - intros i q Hi. pose proof (sum_list_with_insert (λ q, length (queue_elements q)) _ i q q Hi) as Hs.
    rewrite list_insert_id in Hs by done.
    pose proof (sum_list_with_in q (λ q, length (queue_elements q)) (board_queues (shared s))
      (list_elem_of_lookup_2 _ _ _ Hi)) as Hle. cbv beta in Hle.
    destruct (queue_elements q); [done|simpl in Hle; lia].
  - intros i. unfold all_held. assert (Hh : sum_list_with holding (callers s) = 0%nat) by lia. clear Ht.
    induction (callers s) as [|[r p] l IH]; [done|]. simpl in Hh |- *.
    rewrite IH by lia. unfold holding in Hh. simpl in Hh. by destruct p; [..|lia|].
Qed.

(** C39. However many workers poll, and however their steps interleave with the
    dispatching, of the events of a queue those accepted are at every time
    those processed, those held by a worker and those queued: none is lost and
    none is processed twice.  With a worker the system can always get to where
    everything accepted has been processed.  One worker alone processes the
    events of a queue in the order in which they were accepted. *)
Theorem workers_process_once queues roles s :
  all_queues_empty queues → rtc (system_step work) (working queues roles) s →
  (∀ i q, board_queues (shared s) !! i = Some q →
     of_queue i (accepted (shared s))
     ≡ₚ of_queue i (processed (shared s)) ++ all_held i (callers s) ++ queue_elements q)
  ∧ ((∃ id, Worker id ∈ roles) →
     ∃ s', rtc (system_step work) s s' ∧ accepted (shared s') = accepted (shared s)
     ∧ ∀ i q, board_queues (shared s') !! i = Some q →
       of_queue i (accepted (shared s)) ≡ₚ of_queue i (processed (shared s')))
  ∧ ∀ id feeders, roles = Worker id :: map Feeder feeders →
    ∀ i q, board_queues (shared s) !! i = Some q →
      of_queue i (processed (shared s)) `prefix_of` of_queue i (accepted (shared s)).
Proof.
  intros He Hr. split; [exact (work_conserved _ _ _ He Hr)|]. split.
  - intros [id Hid]. pose proof (configs_kept work _ _ Hr) as Hroles.
    assert (Hin : Worker id ∈ (callers s).*1).
    { rewrite Hroles. simpl. rewrite map_map. apply list_elem_of_fmap. exists (Worker id). by split. }
    apply list_elem_of_fmap in Hin as ([r p] & Hrole & Hin). simpl in Hrole. subst r.
    apply list_elem_of_lookup_1 in Hin as [j Hj].
    destruct (catch_up (todo s) s j id p) as (s' & Hr' & Ha & Ht);
      [lia|by eapply reachable_matched|done|].
    exists s'. split; [done|]. split; [done|]. intros i q Hi. apply todo_none in Ht as [Hq Hh].
    assert (Hall : rtc (system_step work) (working queues roles) s') by by trans s.
    pose proof (work_conserved queues roles s' He Hall i q Hi) as Hc.
    by rewrite (Hq i q Hi), (Hh i), !app_nil_r, Ha in Hc.
  - intros id feeders -> i q Hi. destruct (one_worker_in_order _ _ _ _ He Hr) as (id' & p & fl & _ & _ & Hc).
    rewrite (Hc i q Hi). by eexists.
Qed.
End Race.

(** ** Two workers *)

(** The queue of two events of one client, and two workers. *)
Definition two_workers : @System (@Board ListQueue nat) (@Role nat) (@worker_pc nat) :=
  working [([], 2%nat)] [Worker 0; Worker 1; Feeder [(0%nat, 1%nat); (0%nat, 2%nat)]].

(** Both events have been processed, the second first. *)
Definition overtaken : @System (@Board ListQueue nat) (@Role nat) (@worker_pc nat) :=
  mk_System (mk_Board [([], 2%nat)] [(0%nat, 1%nat); (0%nat, 2%nat)] [(0%nat, 2%nat); (0%nat, 1%nat)])
    [(Worker 0, Visit 0 1 1 true); (Worker 1, Visit 1 1 1 true);
     (Feeder [(0%nat, 1%nat); (0%nat, 2%nat)], Feeds [])].

(** With two workers the order of a queue is lost: an event is processed
    before the one that its queue accepted first. *)
Theorem two_workers_overtake : rtc (system_step work) two_workers overtaken.
Proof.
  caller 2%nat @feed_accepted; [reflexivity|reflexivity|].
  caller 2%nat @feed_accepted; [reflexivity|reflexivity|].
  caller 0%nat @work_pop; [lia|reflexivity|reflexivity|].
  caller 1%nat @work_pop; [lia|reflexivity|reflexivity|].
  caller 1%nat @work_process.
  caller 0%nat @work_process.
  apply rtc_refl.
Qed.

Lemma workers_process_once_witness :
  of_queue 0 (accepted (shared overtaken))
  ≡ₚ of_queue 0 (processed (shared overtaken)) ++ all_held 0 (callers overtaken) ++ [].
Proof.
  refine (proj1 (workers_process_once [([], 2%nat)]
    [Worker 0; Worker 1; Feeder [(0%nat, 1%nat); (0%nat, 2%nat)]] overtaken _ two_workers_overtake)
    0%nat ([], 2%nat) eq_refl).
  by repeat constructor.
Defined.
