(* ===== verification/Protocol.v ===== *)
(** * Unchecked serialization (sdk perf/protocol_optimization.rs)

    perf/mod.rs does not declare this module; it is modelled as it would be
    compiled, on the byte memory of [Simd], whose accesses need no alignment.
    The events and their encodings are those of other crates: the class
    [Events] gives the parts of an event the code reads. *)

From Stdlib Require Import Ascii String.
From S2P Require Import Prelude F64 Effects Solana Simd.

#[local] Open Scope string_scope.
#[local] Open Scope Z_scope.
#[local] Open Scope list_scope.

(** ** Events *)

Inductive SerializationProtocol := Bincode | JSON | Auto.

(** An event, the addresses of its two vectors, and what the encoders of other
    crates make of it. *)
Class Events := {
  EventMessage : Type;
  EventType : Type;
  EventType_eq :: EqDecision EventType;
  BlockMeta : EventType;
  PumpFunBuy : EventType;
  BonkBuyExactIn : EventType;
  debug_type : EventType → string;
  event_id : EventMessage → string;
  event_type : EventMessage → EventType;
  data : EventMessage → bytes;
  serialization_format : EventMessage → SerializationProtocol;
  timestamp : EventMessage → Z;
  event_id_ptr : EventMessage → Z;
  data_ptr : EventMessage → Z;
  bincode_serialize : EventMessage → result string bytes;
  json_to_string : EventMessage → result string bytes;
}.

(** ** Configuration and state *)

(* sdk perf/protocol_optimization.rs:30-49 ProtocolOptimizationConfig *)
Record ProtocolOptimizationConfig := mk_Config {
  enable_quic_fast_path : bool;
  skip_integrity_checks : bool;
  skip_error_recovery : bool;
  enable_unchecked_buffers : bool;
  enable_inline_serialization : bool;
  enable_batch_processing : bool;
  max_batch_size : Z;
  enable_preallocation : bool;
  enable_raw_pointer_ops : bool;
}.

(* sdk perf/protocol_optimization.rs:52-64 default *)
Definition config_default : ProtocolOptimizationConfig :=
  mk_Config true true false true true true 1000 true true.

(* sdk perf/protocol_optimization.rs:433-445 extreme_optimization_config *)
Definition extreme_optimization_config : ProtocolOptimizationConfig :=
  mk_Config true true true true true true 10000 true true.

(* sdk perf/protocol_optimization.rs:68-81 ProtocolOptimizationStats *)
Record ProtocolOptimizationStats := mk_ProtocolStats {
  fast_path_hits : Z;
  slow_path_hits : Z;
  checks_skipped : Z;
  batch_operations : Z;
  unchecked_operations : Z;
  inline_operations : Z;
}.

(* sdk perf/protocol_optimization.rs:84-93 default *)
Definition protocol_stats_default : ProtocolOptimizationStats := mk_ProtocolStats 0 0 0 0 0 0.

Definition fast_hit (s : ProtocolOptimizationStats) : ProtocolOptimizationStats :=
  mk_ProtocolStats (bump (fast_path_hits s) 1) (slow_path_hits s) (checks_skipped s)
    (batch_operations s) (unchecked_operations s) (inline_operations s).
Definition slow_hit (s : ProtocolOptimizationStats) : ProtocolOptimizationStats :=
  mk_ProtocolStats (fast_path_hits s) (bump (slow_path_hits s) 1) (checks_skipped s)
    (batch_operations s) (unchecked_operations s) (inline_operations s).
Definition skipped (n : Z) (s : ProtocolOptimizationStats) : ProtocolOptimizationStats :=
  mk_ProtocolStats (fast_path_hits s) (slow_path_hits s) (bump (checks_skipped s) n)
    (batch_operations s) (unchecked_operations s) (inline_operations s).
Definition batch_op (s : ProtocolOptimizationStats) : ProtocolOptimizationStats :=
  mk_ProtocolStats (fast_path_hits s) (slow_path_hits s) (checks_skipped s)
    (bump (batch_operations s) 1) (unchecked_operations s) (inline_operations s).
Definition unchecked_op (s : ProtocolOptimizationStats) : ProtocolOptimizationStats :=
  mk_ProtocolStats (fast_path_hits s) (slow_path_hits s) (checks_skipped s)
    (batch_operations s) (bump (unchecked_operations s) 1) (inline_operations s).
Definition inline_op (s : ProtocolOptimizationStats) : ProtocolOptimizationStats :=
  mk_ProtocolStats (fast_path_hits s) (slow_path_hits s) (checks_skipped s)
    (batch_operations s) (unchecked_operations s) (bump (inline_operations s) 1).

(* sdk perf/protocol_optimization.rs:109-113 RouteInfo *)
Record RouteInfo := mk_Route { endpoint : string; connection_id : Z; last_used : Z }.

(* sdk perf/protocol_optimization.rs:97-106 FastPathCache *)
Record FastPathCache := mk_Cache {
  serialization_cache : gmap string bytes;
  hash_cache : gmap string Z;
  routing_cache : gmap string RouteInfo;
  enabled : bool;
}.

(* sdk perf/protocol_optimization.rs:19-26 ProtocolStackOptimizer *)
Record ProtocolStackOptimizer := mk_Optimizer {
  config : ProtocolOptimizationConfig;
  protocol_stats : ProtocolOptimizationStats;
  fast_path_cache : FastPathCache;
}.

Definition count (f : ProtocolOptimizationStats → ProtocolOptimizationStats)
    (o : ProtocolStackOptimizer) : ProtocolStackOptimizer :=
  mk_Optimizer (config o) (f (protocol_stats o)) (fast_path_cache o).
Definition set_cache (c : FastPathCache) (o : ProtocolStackOptimizer) : ProtocolStackOptimizer :=
  mk_Optimizer (config o) (protocol_stats o) c.
Definition remember (key : string) (l : bytes) (c : FastPathCache) : FastPathCache :=
  mk_Cache (<[key := l]> (serialization_cache c)) (hash_cache c) (routing_cache c) (enabled c).

(* sdk perf/protocol_optimization.rs:117-134 new *)
Definition optimizer_new (c : ProtocolOptimizationConfig) : result string ProtocolStackOptimizer :=
  Ok (mk_Optimizer c protocol_stats_default (mk_Cache ∅ ∅ ∅ true)).

(** ** Serialization *)

(** What the operations work on: the optimizer and the memory. *)
Abbreviation World := (ProtocolStackOptimizer * Mem)%type.

Section Protocol.
Context `{Cpu, Events}.
Implicit Types (event : EventMessage) (o : ProtocolStackOptimizer) (m : Mem).

Definition event_id_bytes event : bytes := ascii_bytes (event_id event).

(* sdk perf/protocol_optimization.rs:198-203 inline_serialize_unchecked, event_type_byte *)
Definition event_type_byte (t : EventType) : Z :=
  if decide (t = BlockMeta) then 0 else if decide (t = PumpFunBuy) then 1
  else if decide (t = BonkBuyExactIn) then 2 else 255.

(** The writes at [buffer], whose length the code does not look at. *)
(* sdk perf/protocol_optimization.rs:175-231 inline_serialize_unchecked *)
Definition inline_serialize_unchecked event (buffer : Z) : M World nat := λ '(o, m),
  let event_id_len := length (event_id_bytes event) in
  let m := store m buffer (le_bytes 4 (as_u32 (Z.of_nat event_id_len))) in
  let offset := 4%nat in
  let* m := memcpy_simd_optimized m (buffer + Z.of_nat offset) (event_id_ptr event) event_id_len in
  let offset := (offset + event_id_len)%nat in
  let m := store m (buffer + Z.of_nat offset) [event_type_byte (event_type event)] in
  let offset := (offset + 1)%nat in
  let data_len := length (data event) in
  let m := store m (buffer + Z.of_nat offset) (le_bytes 4 (as_u32 (Z.of_nat data_len))) in
  let offset := (offset + 4)%nat in
  let* '(m, offset) :=
    if (0 <? data_len)%nat
    then let* m := memcpy_simd_optimized m (buffer + Z.of_nat offset) (data_ptr event) data_len in
         Val (m, (offset + data_len)%nat)
    else Val (m, offset) in
  let m := store m (buffer + Z.of_nat offset) (le_bytes 8 (timestamp event)) in
  let offset := (offset + 8)%nat in
  let o := if skip_integrity_checks (config o) then count (skipped 5) o else o in
  Val (Ok offset, (o, m)).

(** [copy_nonoverlapping] of an encoding that fits. *)
Definition fill_buffer (l : bytes) (buffer : Z) (len : nat) (m : Mem) : result string nat * Mem :=
  if (length l <=? len)%nat then (Ok (length l), store m buffer l)
  else (Err "Buffer too small", m).

(* sdk perf/protocol_optimization.rs:256-273 fast_bincode_serialize *)
Definition fast_bincode_serialize event (buffer : Z) (len : nat) (m : Mem) : result string nat * Mem :=
  match bincode_serialize event with
  | Err e => (Err ("Bincode serialization failed: " +:+ e), m)
  | Ok serialized => fill_buffer serialized buffer len m
  end.

(* sdk perf/protocol_optimization.rs:277-294 fast_json_serialize *)
Definition fast_json_serialize event (buffer : Z) (len : nat) (m : Mem) : result string nat * Mem :=
  match json_to_string event with
  | Err e => (Err ("JSON serialization failed: " +:+ e), m)
  | Ok json_bytes => fill_buffer json_bytes buffer len m
  end.

(* sdk perf/protocol_optimization.rs:235-252 fast_serialize_event *)
Definition fast_serialize_event event (buffer : Z) (len : nat) (m : Mem) : result string nat * Mem :=
  match serialization_format event with
  | Bincode => fast_bincode_serialize event buffer len m
  | JSON => fast_json_serialize event buffer len m
  | Auto => if (length (data event) <? 1024)%nat then fast_json_serialize event buffer len m
            else fast_bincode_serialize event buffer len m
  end.

(* sdk perf/protocol_optimization.rs:151-151 serialize_event_unchecked, cache_key *)
Definition cache_key event : string := (event_id event +:+ "_" +:+ debug_type (event_type event))%string.

(** Without an entry that fits. *)
Definition serialize_and_cache event (buffer : Z) (len : nat) : M World nat := λ '(o, m),
  let '(r, m) := fast_serialize_event event buffer len m in
  match r with
  | Err e => Val (Err e, (o, m))
  | Ok size =>
      Val (Ok size, (if (size <? 4096)%nat
                     then set_cache (remember (cache_key event) (load m buffer size) (fast_path_cache o)) o
                     else o, m))
  end.

(* sdk perf/protocol_optimization.rs:138-171 serialize_event_unchecked *)
Definition serialize_event_unchecked event (buffer : Z) (len : nat) : M World nat := λ '(o, m),
  let o := count unchecked_op o in
  if enable_inline_serialization (config o)
  then inline_serialize_unchecked event buffer (count inline_op o, m)
  else
    match serialization_cache (fast_path_cache o) !! cache_key event with
    | Some cached =>
        if (length cached <=? len)%nat
        then Val (Ok (length cached), (count fast_hit o, store m buffer cached))
        else serialize_and_cache event buffer len (o, m)
    | None => serialize_and_cache event buffer len (o, m)
    end.

(** [for (event, buffer) in ... { sizes.push(...?) }]. *)
Fixpoint serialize_each (l : list (EventMessage * (Z * nat))) : M World (list nat) :=
  match l with
  | [] => mret []
  | (event, (buffer, len)) :: l =>
      mbind (serialize_event_unchecked event buffer len) (λ size,
      mbind (serialize_each l) (λ sizes, mret (size :: sizes)))
  end.

(* sdk perf/protocol_optimization.rs:298-316 process_events_batch *)
Definition process_events_batch (events : list EventMessage) (output_buffers : list (Z * nat)) :
    M World (list nat) :=
  if bool_decide (length events = length output_buffers)
  then mbind (effect (λ '(o, m), (count batch_op o, m))) (λ _, serialize_each (zip events output_buffers))
  else mfail "Events and buffers length mismatch".

(** ** The other operations *)

(** Both sends only log. *)
(* sdk perf/protocol_optimization.rs:355-359 quic_standard_send *)
Definition quic_standard_send (data : bytes) (connection : Z) : M ProtocolStackOptimizer () := mret ().
(* sdk perf/protocol_optimization.rs:341-352 raw_quic_send_unchecked *)
Definition raw_quic_send_unchecked (data : bytes) (connection : Z) : M ProtocolStackOptimizer () := λ o,
  if enable_raw_pointer_ops (config o) then Val (Ok (), o) else quic_standard_send data connection o.
(* sdk perf/protocol_optimization.rs:320-337 quic_fast_path_send *)
Definition quic_fast_path_send (data : bytes) (connection : Z) : M ProtocolStackOptimizer () := λ o,
  if enable_quic_fast_path (config o)
  then
    let o := count fast_hit o in
    let o := if skip_integrity_checks (config o) then count (skipped 1) o else o in
    raw_quic_send_unchecked data connection o
  else quic_standard_send data connection (count slow_hit o).

(** Slices are an address and a length; a range beyond its slice panics. *)
(* sdk perf/protocol_optimization.rs:363-383 unchecked_buffer_write *)
Definition unchecked_buffer_write (src : Z) (src_len : nat) (dst : Z) (dst_len offset : nat) (w : World) :
    exec (nat * World) :=
  let '(o, m) := w in
  if enable_unchecked_buffers (config o)
  then
    let o := count unchecked_op o in
    let* m := memcpy_simd_optimized m (dst + Z.of_nat offset) src src_len in
    Val (src_len, (o, m))
  else
    let available := (dst_len - offset)%nat in
    let to_copy := Nat.min src_len available in
    if (offset + to_copy <=? dst_len)%nat
    then Val (to_copy, (o, move m (dst + Z.of_nat offset) src to_copy))
    else Panic.

Definition add_route (c : FastPathCache) (index : nat) (e : string) : FastPathCache :=
  mk_Cache (serialization_cache c) (hash_cache c)
    (<[e := mk_Route e (Z.of_nat index) 0]> (routing_cache c)) (enabled c).

Fixpoint add_routes (index : nat) (endpoints : list string) (c : FastPathCache) : FastPathCache :=
  match endpoints with [] => c | e :: l => add_routes (S index) l (add_route c index e) end.

(* sdk perf/protocol_optimization.rs:386-399 precalculate_routes *)
Definition precalculate_routes (endpoints : list string) : M ProtocolStackOptimizer () :=
  effect (λ o, set_cache (add_routes 0 endpoints (fast_path_cache o)) o).

(* sdk perf/protocol_optimization.rs:403-407 fast_route_lookup *)
Definition fast_route_lookup (o : ProtocolStackOptimizer) (e : string) : option Z :=
  connection_id <$> routing_cache (fast_path_cache o) !! e.

(* sdk perf/protocol_optimization.rs:410-419 get_stats *)
Definition get_stats (o : ProtocolStackOptimizer) : ProtocolOptimizationStats := protocol_stats o.

(* sdk perf/protocol_optimization.rs:422-430 cleanup_cache *)
Definition cleanup_cache : M ProtocolStackOptimizer () :=
  effect (λ o, set_cache (mk_Cache ∅ ∅ (routing_cache (fast_path_cache o)) (enabled (fast_path_cache o))) o).

(* sdk perf/protocol_optimization.rs:461-468 fast_path_hit_rate *)
Definition fast_path_hit_rate `{Build} (s : ProtocolOptimizationStats) : exec f64 :=
  let* total := add 64 (fast_path_hits s) (slow_path_hits s) in
  Val (if total =? 0 then f_zero else fdiv (f64_of_Z (fast_path_hits s)) (f64_of_Z total)).

(** ** Inline serialization *)

(** [m'] has [l] at [p] and is [m] outside the [n] bytes from [p]. *)
Definition wrote (m m' : Mem) (p : Z) (l : bytes) (n : nat) : Prop :=
  load m' p (length l) = l ∧ ∀ a, a < p ∨ p + Z.of_nat n ≤ a → m' a = m a.

Lemma wrote_store m p l : wrote m (store m p l) p l (length l).
Proof. split; [by apply load_store_same|]. intros a Ha. by apply store_outside. Qed.

Lemma wrote_app m m1 m2 p l1 l2 n1 n2 n :
  wrote m m1 p l1 n1 → wrote m1 m2 (p + Z.of_nat (length l1)) l2 n2 →
  (n1 ≤ n)%nat → (length l1 + n2 ≤ n)%nat → wrote m m2 p (l1 ++ l2) n.
Proof.
  intros [Hl1 Ho1] [Hl2 Ho2] Hn1 Hn2. split.
  - rewrite length_app, load_app, Hl2. f_equal. rewrite <- Hl1 at 2. apply load_ext.
    intros a Ha. apply Ho2. lia.
  - intros a Ha. rewrite Ho2 by lia. apply Ho1. lia.
Qed.

(** A copy from a region that what was written before has not touched. *)
Lemma wrote_memcpy m0 m dst src l base k :
  (∀ a, a < base ∨ base + Z.of_nat k ≤ a → m a = m0 a) →
  load m0 src (length l) = l →
  src + Z.of_nat (copy_width (length l)) ≤ base ∨ base + Z.of_nat k ≤ src →
  apart dst src (copy_width (length l)) →
  ∃ m', memcpy_simd_optimized m dst src (length l) = Val m' ∧ wrote m m' dst l (copy_width (length l)).
Proof.
  intros Hout Hl Hs Hd. destruct (memcpy_copies m dst src (length l) Hd) as (m' & Hm & Hc).
  exists m'. split; [done|]. pose proof (copy_width_ge (length l)) as Hw. split.
  - rewrite <- Hl at 2. apply list_eq_same_length with (length l); rewrite ?load_length; [done..|].
    intros i x y Hi. rewrite !load_lookup by done. intros [= <-] [= <-].
    rewrite Hc, move_inside by lia. rewrite <- Hout by lia. f_equal. lia.
  - intros a Ha. rewrite Hc. apply move_outside. lia.
Qed.

(** A copy that an empty vector does without. *)
Lemma wrote_optional m0 m dst src l base k (offset : nat) :
  (∀ a, a < base ∨ base + Z.of_nat k ≤ a → m a = m0 a) →
  load m0 src (length l) = l →
  src + Z.of_nat (copy_width (length l)) ≤ base ∨ base + Z.of_nat k ≤ src →
  apart dst src (copy_width (length l)) →
  ∃ m', (if (0 <? length l)%nat
         then let* m := memcpy_simd_optimized m dst src (length l) in Val (m, (offset + length l)%nat)
         else Val (m, offset)) = Val (m', (offset + length l)%nat)
  ∧ wrote m m' dst l (copy_width (length l)).
Proof.
  intros Hout Hl Hs Hd. destruct (Nat.ltb_spec 0 (length l)) as [Hlen|Hlen].
  - destruct (wrote_memcpy m0 m dst src l base k) as (m' & Hm & Hw); [done..|]. rewrite Hm. by exists m'.
  - destruct l; [|simpl in Hlen; lia]. exists m. by rewrite Nat.add_0_r.
Qed.

(** What is written, and how far the writes reach. *)
Definition inline_bytes event : bytes :=
  le_bytes 4 (as_u32 (Z.of_nat (length (event_id_bytes event)))) ++ event_id_bytes event
  ++ [event_type_byte (event_type event)]
  ++ le_bytes 4 (as_u32 (Z.of_nat (length (data event)))) ++ data event
  ++ le_bytes 8 (timestamp event).

Definition inline_reach event : nat :=
  let n := length (event_id_bytes event) in
  let d := length (data event) in
  Nat.max (4 + copy_width n) (Nat.max (n + 9 + copy_width d) (n + d + 17)).

(** The event's vectors hold its parts and are away from the buffer. *)
Definition away_from (m : Mem) event (buffer : Z) (reach : nat) : Prop :=
  let clear ptr n := ptr + Z.of_nat (copy_width n) ≤ buffer ∨ buffer + Z.of_nat reach ≤ ptr in
  load m (event_id_ptr event) (length (event_id_bytes event)) = event_id_bytes event
  ∧ load m (data_ptr event) (length (data event)) = data event
  ∧ clear (event_id_ptr event) (length (event_id_bytes event))
  ∧ clear (data_ptr event) (length (data event)).

Abbreviation event_away m event buffer := (away_from m event buffer (inline_reach event)).

Lemma inline_bytes_length event :
  length (inline_bytes event) = (length (event_id_bytes event) + length (data event) + 17)%nat.
Proof. unfold inline_bytes. rewrite !length_app, !le_bytes_length. simpl. lia. Qed.

Lemma inline_writes event buffer o m : event_away m event buffer →
  ∃ m', inline_serialize_unchecked event buffer (o, m)
    = Val (Ok (length (inline_bytes event)),
           (if skip_integrity_checks (config o) then count (skipped 5) o else o, m'))
  ∧ wrote m m' buffer (inline_bytes event) (inline_reach event).
Proof.
  intros (Hid & Hdata & Hcid & Hcdata). unfold inline_serialize_unchecked.
  rewrite inline_bytes_length. unfold inline_bytes.
  set (id := event_id_bytes event) in *. set (d := data event) in *.
  set (l1 := le_bytes 4 (as_u32 (Z.of_nat (length id)))).
  set (l4 := le_bytes 4 (as_u32 (Z.of_nat (length d)))).
  set (l6 := le_bytes 8 (timestamp event)). set (l3 := [event_type_byte (event_type event)]).
  assert (length l1 = 4 ∧ length l4 = 4 ∧ length l6 = 8 ∧ length l3 = 1)%nat as (Hl1 & Hl4 & Hl6 & Hl3)
    by (split_and!; [apply le_bytes_length..|done]).
  pose proof (copy_width_ge (length id)) as Hwid. pose proof (copy_width_ge (length d)) as Hwd.
  assert (Hr : (inline_reach event = Nat.max (4 + copy_width (length id))
    (Nat.max (length id + 9 + copy_width (length d)) (length id + length d + 17)))%nat) by done.
  set (R := inline_reach event) in *. clearbody R l1 l3 l4 l6.
  pose proof (wrote_store m buffer l1) as H1. rewrite Hl1 in H1.
  destruct (wrote_memcpy m (store m buffer l1) (buffer + 4) (event_id_ptr event) id buffer 4)
    as (m2 & Hm2 & Hs2); [apply H1|done|lia|unfold apart; lia|].
  change (Z.of_nat 4) with 4. rewrite Hm2. cbn [exec_bind].
  assert (H2 : wrote m m2 buffer (l1 ++ id) R).
  { eapply wrote_app; [exact H1|rewrite Hl1; exact Hs2|lia|lia]. }
  pose proof (wrote_store m2 (buffer + Z.of_nat (4 + length id)) l3) as Hs3.
  set (m3 := store m2 _ l3) in *.
  assert (H3 : wrote m m3 buffer ((l1 ++ id) ++ l3) R).
  { eapply wrote_app; [exact H2|rewrite length_app, Hl1; exact Hs3|lia|rewrite length_app; lia]. }
  pose proof (wrote_store m3 (buffer + Z.of_nat (4 + length id + 1)) l4) as Hs4.
  set (m4 := store m3 _ l4) in *.
  assert (H4 : wrote m m4 buffer (((l1 ++ id) ++ l3) ++ l4) R).
  { eapply (wrote_app _ _ _ _ _ _ _ (length l4)); [exact H3| |lia|rewrite !length_app; lia].
    rewrite !length_app, Hl1, Hl3. exact Hs4. }
  destruct (wrote_optional m m4 (buffer + Z.of_nat (4 + length id + 1 + 4)) (data_ptr event) d buffer R
    (4 + length id + 1 + 4)) as (m5 & Hm5 & Hs5); [apply H4|done|lia|unfold apart; lia|].
  assert (H5 : wrote m m5 buffer ((((l1 ++ id) ++ l3) ++ l4) ++ d) R).
  { eapply (wrote_app _ _ _ _ _ _ _ (copy_width (length d))); [exact H4| |lia|rewrite !length_app; lia].
    rewrite !length_app, Hl1, Hl3, Hl4. exact Hs5. }
  rewrite Hm5. cbn [exec_bind].
  pose proof (wrote_store m5 (buffer + Z.of_nat (4 + length id + 1 + 4 + length d)) l6) as Hs6.
  eexists. split; [do 3 f_equal; lia|].
  rewrite !app_assoc. eapply (wrote_app _ _ _ _ _ _ _ (length l6)); [exact H5| |lia|rewrite !length_app; lia].
  rewrite !length_app, Hl1, Hl3, Hl4. exact Hs6.
Qed.

(** Inline serialization delivers the length-prefixed parts of the event
    and the number of their bytes, changes nothing outside its reach of at most
    31 bytes beyond them, and does so whatever the length of the buffer is: the
    bytes beyond a short buffer are written too. *)
Theorem inline_serialization event buffer len o m :
  enable_inline_serialization (config o) = true → event_away m event buffer →
  ∃ o' m', serialize_event_unchecked event buffer len (o, m)
           = Val (Ok (length (inline_bytes event)), (o', m'))
  ∧ load m' buffer (length (inline_bytes event)) = inline_bytes event
  ∧ (∀ a, a < buffer ∨ buffer + Z.of_nat (inline_reach event) ≤ a → m' a = m a)
  ∧ (length (inline_bytes event) ≤ inline_reach event < length (inline_bytes event) + 32)%nat
  ∧ fast_path_cache o' = fast_path_cache o.
Proof.
  intros Hi Ha. unfold serialize_event_unchecked. cbn [count config]. rewrite Hi.
  destruct (inline_writes event buffer (count inline_op (count unchecked_op o)) m Ha)
    as (m' & Hr & Hload & Hout).
  eexists _, m'. split; [exact Hr|]. split; [done|]. split; [done|].
  split; [|by destruct (skip_integrity_checks _)]. rewrite inline_bytes_length. unfold inline_reach.
  pose proof (copy_width_ge (length (event_id_bytes event))).
  pose proof (copy_width_ge (length (data event))). lia.
Qed.

(** The bytes tell the parts, but for the types that have no byte of their own. *)
Theorem inline_bytes_inj e1 e2 :
  Z.of_nat (length (event_id_bytes e1)) < 2 ^ 32 → Z.of_nat (length (event_id_bytes e2)) < 2 ^ 32 →
  Z.of_nat (length (data e1)) < 2 ^ 32 → Z.of_nat (length (data e2)) < 2 ^ 32 →
  is_u64 (timestamp e1) → is_u64 (timestamp e2) → inline_bytes e1 = inline_bytes e2 →
  event_id_bytes e1 = event_id_bytes e2
  ∧ event_type_byte (event_type e1) = event_type_byte (event_type e2)
  ∧ data e1 = data e2 ∧ timestamp e1 = timestamp e2.
Proof.
  intros Hn1 Hn2 Hd1 Hd2 Ht1 Ht2. unfold inline_bytes.
  assert (∀ n1 n2 : nat, Z.of_nat n1 < 2 ^ 32 → Z.of_nat n2 < 2 ^ 32 →
    le_bytes 4 (as_u32 (Z.of_nat n1)) = le_bytes 4 (as_u32 (Z.of_nat n2)) → n1 = n2) as Hlen.
  { intros n1 n2 H1 H2 Heq. apply (f_equal le_value) in Heq. unfold as_u32 in Heq.
    rewrite !wrap_small, !le_value_le_bytes in Heq by (unfold is_uint; simpl; lia). lia. }
  intros Heq. apply app_inj_1 in Heq as [Hl Heq]; [|by rewrite !le_bytes_length].
  apply app_inj_1 in Heq as [Hid Heq]; [|by apply Hlen]. 
  apply app_inj_1 in Heq as [Hty Heq]; [injection Hty as Hty|done].
  apply app_inj_1 in Heq as [Hld Heq]; [|by rewrite !le_bytes_length].
  apply app_inj_1 in Heq as [Hd Hts]; [|by apply Hlen]. split_and!; [done..|].
  apply (f_equal le_value) in Hts.
  by rewrite !le_value_le_bytes in Hts by (unfold is_uint in *; simpl; lia).
Qed.

(** ** Serialization through the cache *)

(** What the encoder of its format makes of an event. *)
Definition encoded event : result string bytes :=
  let bincode := match bincode_serialize event with
                 | Ok l => Ok l | Err e => Err ("Bincode serialization failed: " +:+ e)%string end in
  let json := match json_to_string event with
              | Ok l => Ok l | Err e => Err ("JSON serialization failed: " +:+ e)%string end in
  match serialization_format event with
  | Bincode => bincode
  | JSON => json
  | Auto => if (length (data event) <? 1024)%nat then json else bincode
  end.

Lemma fast_serialize_event_eq event buffer len m :
  fast_serialize_event event buffer len m
  = match encoded event with Ok l => fill_buffer l buffer len m | Err e => (Err e, m) end.
Proof.
  unfold fast_serialize_event, encoded, fast_bincode_serialize, fast_json_serialize.
  destruct (serialization_format event); [| |destruct (_ <? _)%nat];
    destruct (bincode_serialize event), (json_to_string event); done.
Qed.

(** Every entry of the cache is the encoding of an event of its key. *)
Definition cache_ok o : Prop :=
  map_Forall (λ key l, ∃ event, cache_key event = key ∧ encoded event = Ok l)
    (serialization_cache (fast_path_cache o)).

(** Without inline serialization, a success leaves in the buffer the encoding
    of an event with the same identifier and type, and the cache stays one of
    encodings; a failure leaves the buffer. *)
Theorem cached_serialization event buffer len o m :
  enable_inline_serialization (config o) = false → cache_ok o →
  ∃ r o' m', serialize_event_unchecked event buffer len (o, m) = Val (r, (o', m'))
  ∧ cache_ok o' ∧ config o' = config o
  ∧ match r with
    | Ok size => ∃ e l, cache_key e = cache_key event ∧ encoded e = Ok l ∧ size = length l
                 ∧ (size ≤ len)%nat ∧ m' = store m buffer l
    | Err msg => m' = m ∧ match encoded event with
                          | Ok l => (len < length l)%nat ∧ msg = "Buffer too small"
                          | Err e => msg = e
                          end
    end.
Proof.
  intros Hi Hc. unfold serialize_event_unchecked. cbn [count config]. rewrite Hi.
  assert (Hmiss : ∃ r o' m', serialize_and_cache event buffer len (count unchecked_op o, m)
      = Val (r, (o', m')) ∧ cache_ok o' ∧ config o' = config o
    ∧ match r with
      | Ok size => ∃ e l, cache_key e = cache_key event ∧ encoded e = Ok l ∧ size = length l
                   ∧ (size ≤ len)%nat ∧ m' = store m buffer l
      | Err msg => m' = m ∧ match encoded event with
                            | Ok l => (len < length l)%nat ∧ msg = "Buffer too small"
                            | Err e => msg = e
                            end
      end).
  { unfold serialize_and_cache. rewrite fast_serialize_event_eq.
    destruct (encoded event) as [l|e] eqn:He; [|by eexists _, _, _].
    unfold fill_buffer. destruct (Nat.leb_spec (length l) len); [|by eexists _, _, _].
    eexists _, _, _. split; [done|]. split_and!; [|by case_match|by exists event, l].
    case_match; [|done]. apply map_Forall_insert_2; [|done].
    exists event. by rewrite load_store_same. }
  destruct (serialization_cache _ !! cache_key event) as [l|] eqn:Hl; [|done].
  destruct (Nat.leb_spec (length l) len); [|done].
  eexists _, _, _. split; [done|]. split_and!; [done..|].
  destruct (Hc _ _ Hl) as (e & Hk & He). by exists e, l.
Qed.

(** The key does not tell the data: an event with the identifier and the type
    of one serialized before is delivered as that one, until the cache is
    cleaned. *)
Theorem cache_ignores_data e1 e2 l1 l2 b1 b2 n1 n2 o m :
  enable_inline_serialization (config o) = false →
  serialization_cache (fast_path_cache o) !! cache_key e1 = None →
  cache_key e1 = cache_key e2 → encoded e1 = Ok l1 → encoded e2 = Ok l2 →
  (length l1 < 4096)%nat → (length l1 ≤ n1)%nat → (length l1 ≤ n2)%nat → (length l2 ≤ n2)%nat →
  ∃ o1 m1 o2, serialize_event_unchecked e1 b1 n1 (o, m) = Val (Ok (length l1), (o1, m1))
  ∧ serialize_event_unchecked e2 b2 n2 (o1, m1) = Val (Ok (length l1), (o2, store m1 b2 l1))
  ∧ ∃ o1' o2', cleanup_cache o1 = Val (Ok (), o1')
    ∧ serialize_event_unchecked e2 b2 n2 (o1', m1) = Val (Ok (length l2), (o2', store m1 b2 l2)).
Proof.
  intros Hi Hn Hk He1 He2 Hs H1 H2 H3.
  assert (Hf : ∀ e l b n m, encoded e = Ok l → (length l ≤ n)%nat →
    fast_serialize_event e b n m = (Ok (length l), store m b l)).
  { intros e l b n m' He Hl. rewrite fast_serialize_event_eq, He. unfold fill_buffer.
    by rewrite (proj2 (Nat.leb_le _ _) Hl). }
  unfold serialize_event_unchecked, serialize_and_cache. cbn [count config]. rewrite Hi.
  cbn [count fast_path_cache]. rewrite Hn, (Hf _ _ _ _ _ He1 H1), (proj2 (Nat.ltb_lt _ _) Hs).
  eexists _, _, _. split; [done|]. rewrite load_store_same by done. cbn [count config set_cache].
  rewrite Hi. cbn [fast_path_cache set_cache count remember serialization_cache].
  rewrite <- Hk, lookup_insert_eq, (proj2 (Nat.leb_le _ _) H2). split; [done|].
  eexists _, _. split; [reflexivity|]. cbn [count config set_cache]. rewrite Hi.
  cbn [fast_path_cache set_cache count serialization_cache].
  rewrite lookup_empty, (Hf _ _ _ _ _ He2 H3). done.
Qed.

(** ** Batches *)

Abbreviation Item := (EventMessage * (Z * nat))%type.

(** The buffers are apart, and every event is away from all of them. *)
Record batch_away (m : Mem) (l : list Item) : Prop := {
  sources_away : ∀ x y, x ∈ l → y ∈ l → away_from m x.1 y.2.1 (inline_reach y.1);
  buffers_apart : ForallOrdPairs (λ x y,
    x.2.1 + Z.of_nat (inline_reach x.1) ≤ y.2.1 ∨ y.2.1 + Z.of_nat (inline_reach y.1) ≤ x.2.1) l;
}.

(** What is outside of all buffers' reach. *)
Definition outside_all (l : list Item) (a : Z) : Prop :=
  Forall (λ x, a < x.2.1 ∨ x.2.1 + Z.of_nat (inline_reach x.1) ≤ a) l.

Lemma away_from_same m m' event buffer k :
  away_from m event buffer k →
  (∀ a, event_id_ptr event ≤ a < event_id_ptr event + Z.of_nat (length (event_id_bytes event))
        ∨ data_ptr event ≤ a < data_ptr event + Z.of_nat (length (data event)) → m' a = m a) →
  away_from m' event buffer k.
Proof.
  intros (Hid & Hd & Hcid & Hcd) Hm. split_and!; [| |done|done].
  - rewrite <- Hid at 2. apply load_ext. intros a Ha. apply Hm. by left.
  - rewrite <- Hd at 2. apply load_ext. intros a Ha. apply Hm. by right.
Qed.

Lemma serialize_each_inline (l : list Item) : ∀ o m,
  enable_inline_serialization (config o) = true → batch_away m l →
  ∃ o' m', serialize_each l (o, m) = Val (Ok (map (λ x, length (inline_bytes x.1)) l), (o', m'))
  ∧ Forall (λ x, load m' x.2.1 (length (inline_bytes x.1)) = inline_bytes x.1) l
  ∧ ∀ a, outside_all l a → m' a = m a.
Proof.
  induction l as [|[e [b n]] l IH]; intros o m Hi [Hs Hp]; [by eexists _, _|].
  cbn [serialize_each map].
  destruct (inline_writes e b (count inline_op (count unchecked_op o)) m) as (m1 & Hr & Hload & Hout);
    [apply (Hs (e, (b, n)) (e, (b, n))); left|].
  inversion_clear Hp as [|x l' Hx Hp']. cbn [fst snd] in *.
  assert (batch_away m1 l) as Hb.
  { split; [|done]. intros x y Hx' Hy'. apply (away_from_same m); [apply Hs; by right|].
    destruct (Hs x (e, (b, n)) ltac:(by right) ltac:(left)) as (_ & _ & Hcid & Hcd). cbn [fst snd] in *.
    pose proof (copy_width_ge (length (event_id_bytes x.1))).
    pose proof (copy_width_ge (length (data x.1))). intros a Ha. apply Hout. lia. }
  set (o1 := if skip_integrity_checks _ then _ else _) in Hr.
  destruct (IH o1 m1) as (o2 & m2 & Hl & Hloads & Hout2); [by subst o1; case_match|done|].
  exists o2, m2. split.
  { unfold mbind at 1. unfold serialize_event_unchecked. cbn [count config]. rewrite Hi, Hr.
    unfold mbind. by rewrite Hl. }
  split.
  - constructor; [|done]. cbn [fst snd]. rewrite <- Hload at 2. apply load_ext. intros a Ha.
    apply Hout2. eapply Forall_impl; [exact Hx|]. intros y Hy. cbn [fst snd] in Hy.
    assert (length (inline_bytes e) ≤ inline_reach e)%nat; [|lia].
    rewrite inline_bytes_length. unfold inline_reach. lia.
  - intros a Ha. inversion_clear Ha as [|? ? Ha1 Ha2]. rewrite Hout2 by done. by apply Hout.
Qed.

(** A batch with a buffer per event, each long and far enough from the
    others, ends with every buffer holding its event; the limit of the
    configuration plays no part; another number of buffers is refused. *)
Theorem batch_serialization events buffers o m :
  (length events ≠ length buffers →
   process_events_batch events buffers (o, m) = Val (Err "Events and buffers length mismatch", (o, m)))
  ∧ (length events = length buffers → enable_inline_serialization (config o) = true →
     batch_away m (zip events buffers) →
     ∃ o' m', process_events_batch events buffers (o, m)
              = Val (Ok (map (λ e, length (inline_bytes e)) events), (o', m'))
     ∧ Forall2 (λ e b, load m' b.1 (length (inline_bytes e)) = inline_bytes e) events buffers
     ∧ ∀ a, outside_all (zip events buffers) a → m' a = m a).
Proof.
  unfold process_events_batch. split; intros Hl; [by rewrite bool_decide_eq_false_2|].
  intros Hi Hb. rewrite bool_decide_eq_true_2 by done.
  destruct (serialize_each_inline _ (count batch_op o) m Hi Hb) as (o' & m' & Hr & Hf & Hout).
  exists o', m'. split; [|split; [|done]].
  - unfold mbind, effect. rewrite Hr. do 3 f_equal.
    rewrite <- (map_map fst (λ e, length (inline_bytes e))). f_equal. by rewrite fst_zip by lia.
  - apply Forall2_same_length_lookup_2; [done|]. intros i e b He Hbi.
    apply (Forall_lookup_1 _ _ i (e, b) Hf). apply lookup_zip_with_Some. by eexists _, _.
Qed.

(** ** Copies into slices, routes, sends *)

(** With checks a write is cut to its slice, and panics only when it starts
    beyond it; without, it goes on beyond the slice. *)
Theorem unchecked_buffer_writes src n dst len offset o m :
  apart (dst + Z.of_nat offset) src (copy_width n) →
  ∃ k m', (k ≤ n)%nat ∧ copied m (dst + Z.of_nat offset) src
      (if enable_unchecked_buffers (config o) then copy_width n else k) m'
  ∧ if enable_unchecked_buffers (config o)
    then unchecked_buffer_write src n dst len offset (o, m) = Val (n, (count unchecked_op o, m'))
    else k = Nat.min n (len - offset)
      ∧ unchecked_buffer_write src n dst len offset (o, m)
        = (if (offset <=? len)%nat then Val (k, (o, m')) else Panic).
Proof.
  intros Hd. unfold unchecked_buffer_write. destruct (enable_unchecked_buffers (config o)).
  - destruct (memcpy_copies m _ src n Hd) as (m' & Hm & Hc). exists n, m'. by rewrite Hm.
  - exists (Nat.min n (len - offset)), (move m (dst + Z.of_nat offset) src (Nat.min n (len - offset))).
    split; [lia|]. split; [apply copied_once|]. split; [done|].
    destruct (Nat.leb_spec offset len), (Nat.leb_spec (offset + Nat.min n (len - offset)) len); lia || done.
Qed.

Lemma add_routes_other l : ∀ i c e, e ∉ l →
  routing_cache (add_routes i l c) !! e = routing_cache c !! e.
Proof.
  induction l as [|x l IH]; intros i c e Hn; [done|]. apply not_elem_of_cons in Hn as [Hx Hl].
  simpl. rewrite IH by done. simpl. by rewrite lookup_insert_ne.
Qed.

(** A route's number is the position of its last mention; other routes stay. *)
Theorem routes_found endpoints o :
  ∃ o', precalculate_routes endpoints o = Val (Ok (), o')
  ∧ (∀ e, e ∉ endpoints → fast_route_lookup o' e = fast_route_lookup o e)
  ∧ ∀ i e, endpoints !! i = Some e → e ∉ drop (S i) endpoints →
    fast_route_lookup o' e = Some (Z.of_nat i).
Proof.
  eexists. split; [reflexivity|]. unfold fast_route_lookup. cbn [set_cache fast_path_cache]. split.
  - intros e Hn. by rewrite add_routes_other.
  - intros i e. assert (∀ l k c, l !! i = Some e → e ∉ drop (S i) l →
      routing_cache (add_routes k l c) !! e = Some (mk_Route e (Z.of_nat (k + i)) 0)) as Hk.
    { clear. induction i as [|i IH]; intros [|x l] k c Hi Hn; simplify_eq/=.
      - rewrite add_routes_other by done. simpl. by rewrite lookup_insert_eq, Nat.add_0_r.
      - rewrite IH by done. do 3 f_equal. lia. }
    intros Hi Hn. by rewrite (Hk endpoints 0%nat).
Qed.

(** Sending counts, and sends nothing anywhere: every call succeeds, whatever
    the data and the connection are, and nothing but the counters has changed. *)
Theorem quic_send_is_noop o :
  ∃ f, ∀ d c, quic_fast_path_send d c o = Val (Ok (), count f o).
Proof.
  unfold quic_fast_path_send. cbn [count config].
  destruct (enable_quic_fast_path (config o)); [|by exists slow_hit].
  assert (∀ d c o, raw_quic_send_unchecked d c o = Val (Ok (), o)) as Hraw.
  { intros d c o'. unfold raw_quic_send_unchecked, quic_standard_send. by case_match. }
  destruct (skip_integrity_checks (config o)); [exists (λ s, skipped 1 (fast_hit s))|exists fast_hit];
    intros d c; by rewrite Hraw.
Qed.
End Protocol.

(** ** An instance *)

(** An event with the addresses of its parts; the encoders give its data. *)
Record ToyEvent := mk_ToyEvent {
  toy_id : string; toy_type : nat; toy_data : bytes; toy_time : Z; toy_id_ptr : Z; toy_data_ptr : Z;
}.

#[local] Instance toy_events : Events := {|
  EventMessage := ToyEvent; EventType := nat;
  BlockMeta := 0%nat; PumpFunBuy := 1%nat; BonkBuyExactIn := 2%nat;
  debug_type := λ t, pretty t;
  event_id := toy_id; event_type := toy_type; data := toy_data;
  serialization_format := λ _, Bincode; timestamp := toy_time;
  event_id_ptr := toy_id_ptr; data_ptr := toy_data_ptr;
  bincode_serialize := λ e, Ok (toy_data e); json_to_string := λ e, Ok (toy_data e);
|}.
#[local] Instance toy_cpu : Cpu := {| avx512f := false |}.

Definition toy_optimizer (inline : bool) : ProtocolStackOptimizer :=
  mk_Optimizer (mk_Config true true false true inline true 1000 true true) protocol_stats_default
    (mk_Cache ∅ ∅ ∅ true).

Definition toy_event : EventMessage := mk_ToyEvent "ab" 1 [9; 8; 7] 5 1000 2000.

(** "ab" at 1000 and the data at 2000. *)
Definition toy_memory : Mem := store (store (λ _, 0) 1000 [97; 98]) 2000 [9; 8; 7].

(** Into a buffer of ten bytes; the last of the twenty-two bytes is at 121. *)
Lemma inline_serialization_witness :
  ∃ o' m', serialize_event_unchecked toy_event 100 10 (toy_optimizer true, toy_memory)
    = Val (Ok 22%nat, (o', m'))
  ∧ load m' 100 22 = [2; 0; 0; 0; 97; 98; 1; 3; 0; 0; 0; 9; 8; 7; 5; 0; 0; 0; 0; 0; 0; 0].
Proof.
  destruct (inline_serialization toy_event 100 10 (toy_optimizer true) toy_memory) as
    (o' & m' & Hs & Hl & _); [reflexivity| |].
  { split; [vm_compute; reflexivity|]. split; [vm_compute; reflexivity|].
    split; right; vm_compute; discriminate. }
  exists o', m'. split; [exact Hs|exact Hl].
Defined.

Lemma batch_serialization_witness :
  ∃ o' m', process_events_batch [toy_event; toy_event] [(100, 64%nat); (300, 64%nat)]
      (toy_optimizer true, toy_memory) = Val (Ok [22; 22]%nat, (o', m'))
  ∧ load m' 300 22 = inline_bytes toy_event
  ∧ process_events_batch [toy_event] [] (toy_optimizer true, toy_memory)
    = Val (Err "Events and buffers length mismatch", (toy_optimizer true, toy_memory)).
Proof.
  destruct (batch_serialization [toy_event; toy_event] [(100, 64%nat); (300, 64%nat)]
    (toy_optimizer true) toy_memory) as [_ Hb].
  destruct Hb as (o' & m' & Hr & Hf & _); [reflexivity|reflexivity| |].
  { split.
    - intros x y Hx Hy. simpl in Hx, Hy. rewrite !elem_of_cons, elem_of_nil in Hx, Hy.
      destruct Hx as [-> |[-> |[]]], Hy as [-> |[-> |[]]]; (split; [vm_compute; reflexivity|]);
        (split; [vm_compute; reflexivity|]); split; right; vm_compute; discriminate.
    - constructor; [constructor; [left; vm_compute; discriminate|constructor]|repeat constructor]. }
  exists o', m'. split; [exact Hr|]. split; [by inversion Hf as [|? ? ? ? _ Hf']; inversion Hf'|].
  by apply batch_serialization.
Defined.

Lemma cached_serialization_witness :
  ∃ r o' m', serialize_event_unchecked toy_event 100 2 (toy_optimizer false, toy_memory)
    = Val (r, (o', m')) ∧ r = Err "Buffer too small" ∧ m' = toy_memory.
Proof.
  destruct (cached_serialization toy_event 100 2 (toy_optimizer false) toy_memory) as
    (r & o' & m' & Hs & _ & _ & Hr); [reflexivity|by apply map_Forall_empty|].
  exists r, o', m'. split; [exact Hs|]. destruct r as [size|msg].
  - vm_compute in Hs. discriminate.
  - destruct Hr as [Hm [_ ->]]. by split.
Defined.

Lemma cache_ignores_data_witness :
  let other : EventMessage := mk_ToyEvent "ab" 1 [1; 2] 6 1000 2000 in
  ∃ o1 m1 o2, serialize_event_unchecked toy_event 100 8 (toy_optimizer false, toy_memory)
    = Val (Ok 3%nat, (o1, m1))
  ∧ serialize_event_unchecked other 300 8 (o1, m1)
    = Val (Ok 3%nat, (o2, store m1 300 [9; 8; 7])).
Proof.
  destruct (cache_ignores_data toy_event (mk_ToyEvent "ab" 1 [1; 2] 6 1000 2000) [9; 8; 7] [1; 2]
    100 300 8 8 (toy_optimizer false) toy_memory) as (o1 & m1 & o2 & H1 & H2 & _);
    [reflexivity|reflexivity|reflexivity|reflexivity|reflexivity|simpl; lia..|].
  exists o1, m1, o2. split; [exact H1|exact H2].
Defined.

Lemma inline_bytes_inj_witness :
  toy_data toy_event = toy_data toy_event ∧ inline_bytes toy_event = inline_bytes toy_event.
Proof.
  split; [|reflexivity].
  apply (inline_bytes_inj toy_event toy_event); reflexivity || (split; vm_compute; discriminate || reflexivity).
Defined.

Lemma routes_found_witness :
  ∃ o', precalculate_routes ["a"; "b"; "a"] (toy_optimizer true) = Val (Ok (), o')
  ∧ fast_route_lookup o' "a" = Some 2.
Proof.
  destruct (routes_found ["a"; "b"; "a"] (toy_optimizer true)) as (o' & Hr & _ & Hi).
  exists o'. split; [exact Hr|]. apply (Hi 2%nat); [reflexivity|]. simpl. apply not_elem_of_nil.
Defined.
