(* ===== verification/Realtime.v ===== *)
(** * Real-time tuning (sdk perf/realtime_tuning.rs)

    perf/mod.rs does not declare this module; it is modelled as it would be
    compiled for Linux.  The system calls go through a class that tells
    whether the kernel accepted them; the number of processors and the file
    about NUMA balancing are parameters too. *)

From stdpp Require Import relations.
From Stdlib Require Import Ascii String.
From S2P Require Import Prelude Effects Text Concurrent.

#[local] Open Scope string_scope.
#[local] Open Scope Z_scope.
#[local] Open Scope list_scope.

(** ** Configuration *)

(* sdk perf/realtime_tuning.rs:62-71 CpuGovernor *)
Inductive CpuGovernor := Performance | OnDemand | Userspace | Conservative.

(* sdk perf/realtime_tuning.rs:33-58 RealtimeConfig *)
Record RealtimeConfig := mk_Realtime {
  enable_realtime_scheduling : bool;
  realtime_priority : Z;
  enable_memory_locking : bool;
  memory_lock_limit : Z;
  enable_cpu_isolation : bool;
  isolated_cpu_cores : list nat;
  enable_interrupt_isolation : bool;
  interrupt_cpu_cores : list nat;
  enable_numa_optimization : bool;
  preferred_numa_nodes : list nat;
  enable_power_optimization : bool;
  cpu_frequency_governor : CpuGovernor;
}.

(* sdk perf/realtime_tuning.rs:74-89 default *)
Definition realtime_default : RealtimeConfig :=
  mk_Realtime true 80 true (2 * 1024 * 1024 * 1024) true [] true [] true [] true Performance.

(** The machine: its processors, and the NUMA file if it can be read. *)
Class Topology := { num_cpus : nat; numa_balancing : option string }.

(** [((n - 2)..n).collect()]. *)
Definition last_two (n : nat) : list nat := seq (n - 2) 2.

Section Config.
Context `{Topology}.

(* sdk perf/realtime_tuning.rs:533-554 ultra_low_latency_config *)
Definition ultra_low_latency_config : RealtimeConfig :=
  mk_Realtime true 99 true (8 * 1024 * 1024 * 1024) true
    (if (4 <? num_cpus)%nat then last_two num_cpus else []) true (seq 0 2) true [0%nat] true Performance.

Definition set_isolated (l : list nat) (c : RealtimeConfig) : RealtimeConfig :=
  mk_Realtime (enable_realtime_scheduling c) (realtime_priority c) (enable_memory_locking c)
    (memory_lock_limit c) (enable_cpu_isolation c) l (enable_interrupt_isolation c)
    (interrupt_cpu_cores c) (enable_numa_optimization c) (preferred_numa_nodes c)
    (enable_power_optimization c) (cpu_frequency_governor c).
Definition set_interrupt (l : list nat) (c : RealtimeConfig) : RealtimeConfig :=
  mk_Realtime (enable_realtime_scheduling c) (realtime_priority c) (enable_memory_locking c)
    (memory_lock_limit c) (enable_cpu_isolation c) (isolated_cpu_cores c)
    (enable_interrupt_isolation c) l (enable_numa_optimization c) (preferred_numa_nodes c)
    (enable_power_optimization c) (cpu_frequency_governor c).
Definition set_numa (l : list nat) (c : RealtimeConfig) : RealtimeConfig :=
  mk_Realtime (enable_realtime_scheduling c) (realtime_priority c) (enable_memory_locking c)
    (memory_lock_limit c) (enable_cpu_isolation c) (isolated_cpu_cores c)
    (enable_interrupt_isolation c) (interrupt_cpu_cores c) (enable_numa_optimization c) l
    (enable_power_optimization c) (cpu_frequency_governor c).

Definition is_empty {A} (l : list A) : bool := match l with [] => true | _ => false end.

(* sdk perf/realtime_tuning.rs:192-207 detect_numa_topology *)
Definition detect_numa_topology (c : RealtimeConfig) : RealtimeConfig :=
  match numa_balancing with
  | Some numa_info =>
      if String.eqb (trim_str numa_info) "1" && is_empty (preferred_numa_nodes c)
      then set_numa [0%nat] c else c
  | None => c
  end.

(* sdk perf/realtime_tuning.rs:167-188 auto_detect_system_config *)
Definition auto_detect_system_config (c : RealtimeConfig) : RealtimeConfig :=
  let c := if is_empty (isolated_cpu_cores c) && (4 <? num_cpus)%nat
           then set_isolated (last_two num_cpus) c else c in
  let c := if is_empty (interrupt_cpu_cores c) && (2 <? num_cpus)%nat
           then set_interrupt (seq 0 2) c else c in
  detect_numa_topology c.

(** What was configured stays; what was left open becomes the last two
    processors of a machine with more than four, and the first two of one with
    more than two, which are then different ones. *)
Theorem detected_cores c :
  let d := auto_detect_system_config c in
  isolated_cpu_cores d = (if is_empty (isolated_cpu_cores c) && (4 <? num_cpus)%nat
                          then [num_cpus - 2; num_cpus - 1]%nat else isolated_cpu_cores c)
  ∧ interrupt_cpu_cores d = (if is_empty (interrupt_cpu_cores c) && (2 <? num_cpus)%nat
                             then [0; 1]%nat else interrupt_cpu_cores c)
  ∧ (isolated_cpu_cores c = [] → interrupt_cpu_cores c = [] →
     ∀ core, core ∈ isolated_cpu_cores d → core ∈ interrupt_cpu_cores d → False)
  ∧ Forall (λ core, (core < num_cpus)%nat ∨ core ∈ isolated_cpu_cores c) (isolated_cpu_cores d).
Proof.
  assert (∀ c', isolated_cpu_cores (detect_numa_topology c') = isolated_cpu_cores c'
    ∧ interrupt_cpu_cores (detect_numa_topology c') = interrupt_cpu_cores c') as Hn.
  { intros c'. unfold detect_numa_topology. destruct numa_balancing; [|done]. by destruct (_ && _). }
  cbv zeta. unfold auto_detect_system_config.
  cbv zeta. rewrite (proj1 (Hn _)), (proj2 (Hn _)). clear Hn. unfold last_two.
  assert (∀ n : nat, (4 < n)%nat → seq (n - 2) 2 = [n - 2; n - 1]%nat) as Hlast
    by (intros n Hn; simpl; do 2 f_equal; lia).
  set (i := is_empty (isolated_cpu_cores c) && (4 <? num_cpus)%nat).
  set (k := is_empty (interrupt_cpu_cores c) && (2 <? num_cpus)%nat).
  assert (i = true → isolated_cpu_cores c = [] ∧ (4 < num_cpus)%nat) as Hi.
  { subst i. intros [He Hlt]%andb_true_iff. apply Nat.ltb_lt in Hlt.
    by destruct (isolated_cpu_cores c). }
  replace (is_empty (interrupt_cpu_cores (if i then _ else c)) && (2 <? num_cpus)%nat) with k
    by (by destruct i).
  destruct i eqn:Hie; [destruct (Hi eq_refl) as [Hc H4]; rewrite ?Hlast by done|];
    destruct k; simpl; split_and!; try done; rewrite ?Hlast by done; try done.
  all: try (intros Hc1 Hc2 core; rewrite ?Hc1, ?Hc2, ?elem_of_cons, ?elem_of_nil; lia).
  all: try (apply Forall_forall; intros core; auto; fail).
  all: rewrite !Forall_cons, Forall_nil; split_and!; try done; left; lia.
Qed.
End Config.

(** ** The optimizer *)

(* sdk perf/realtime_tuning.rs:93-106 OptimizationState *)
Record OptimizationState := mk_State {
  realtime_scheduling_enabled : bool;
  memory_locked : bool;
  cpu_affinity_set : bool;
  interrupt_isolation_enabled : bool;
  numa_optimization_enabled : bool;
  power_optimization_enabled : bool;
}.

(* sdk perf/realtime_tuning.rs:109-118 default *)
Definition state_default : OptimizationState := mk_State false false false false false false.

(* sdk perf/realtime_tuning.rs:122-135 RealtimeStats *)
Record RealtimeStats := mk_Rt {
  scheduling_latency_ns : Z;
  max_scheduling_latency_ns : Z;
  page_faults : Z;
  context_switches : Z;
  interrupts : Z;
  system_calls : Z;
}.

(* sdk perf/realtime_tuning.rs:138-147 default *)
Definition rt_stats_default : RealtimeStats := mk_Rt 0 0 0 0 0 0.

(* sdk perf/realtime_tuning.rs:20-29 RealtimeSystemOptimizer *)
Record RealtimeSystemOptimizer := mk_RtOptimizer {
  rt_config : RealtimeConfig;
  optimization_state : OptimizationState;
  rt_stats : RealtimeStats;
  initialized : bool;
}.

(* sdk perf/realtime_tuning.rs:152-164 new *)
Definition realtime_new `{Topology} (c : RealtimeConfig) : result string RealtimeSystemOptimizer :=
  Ok (mk_RtOptimizer (auto_detect_system_config c) state_default rt_stats_default false).

(** ** Applying the settings *)

(** What the code asks the kernel for: a first-in first-out or a round-robin
    schedule with a priority, the limit of locked memory, locking all of it,
    and the cores of the thread. *)
Inductive Syscall :=
| SetScheduler (fifo : bool) (priority : Z)
| SetMemlockLimit (bytes : Z)
| LockMemory
| SetAffinity (cores : list nat).

(** Whether the kernel accepts a call, and what becomes of it. *)
Class Kernel (OS : Type) := { perform : Syscall → OS → bool * OS }.

Section Apply.
Context {OS : Type} `{Kernel OS}.

(** [monitors] counts the tasks that watch the latency. *)
Record World := mk_World { optimizer : RealtimeSystemOptimizer; os : OS; monitors : nat }.

Definition set_state (s : OptimizationState) (o : RealtimeSystemOptimizer) : RealtimeSystemOptimizer :=
  mk_RtOptimizer (rt_config o) s (rt_stats o) (initialized o).
Definition set_flag (f : OptimizationState → OptimizationState) (w : World) : World :=
  mk_World (set_state (f (optimization_state (optimizer w))) (optimizer w)) (os w) (monitors w).

Definition scheduling_on (s : OptimizationState) : OptimizationState :=
  mk_State true (memory_locked s) (cpu_affinity_set s) (interrupt_isolation_enabled s)
    (numa_optimization_enabled s) (power_optimization_enabled s).
Definition memory_on (s : OptimizationState) : OptimizationState :=
  mk_State (realtime_scheduling_enabled s) true (cpu_affinity_set s) (interrupt_isolation_enabled s)
    (numa_optimization_enabled s) (power_optimization_enabled s).
Definition affinity_on (s : OptimizationState) : OptimizationState :=
  mk_State (realtime_scheduling_enabled s) (memory_locked s) true (interrupt_isolation_enabled s)
    (numa_optimization_enabled s) (power_optimization_enabled s).
Definition interrupt_on (s : OptimizationState) : OptimizationState :=
  mk_State (realtime_scheduling_enabled s) (memory_locked s) (cpu_affinity_set s) true
    (numa_optimization_enabled s) (power_optimization_enabled s).
Definition numa_on (s : OptimizationState) : OptimizationState :=
  mk_State (realtime_scheduling_enabled s) (memory_locked s) (cpu_affinity_set s)
    (interrupt_isolation_enabled s) true (power_optimization_enabled s).
Definition power_on (s : OptimizationState) : OptimizationState :=
  mk_State (realtime_scheduling_enabled s) (memory_locked s) (cpu_affinity_set s)
    (interrupt_isolation_enabled s) (numa_optimization_enabled s) true.

Definition syscall (c : Syscall) : M World bool :=
  ask (λ w, let '(ok, s) := perform c (os w) in (ok, mk_World (optimizer w) s (monitors w))).
Definition raise_flag (f : OptimizationState → OptimizationState) : M World () := effect (set_flag f).
Definition when (b : bool) (m : M World ()) : M World () := if b then m else mret ().

(* sdk perf/realtime_tuning.rs:258-300 apply_realtime_scheduling *)
Definition apply_realtime_scheduling (c : RealtimeConfig) : M World () :=
  let% ok := syscall (SetScheduler true (realtime_priority c)) in
  if ok : bool then raise_flag scheduling_on
  else
    let% ok := syscall (SetScheduler false (realtime_priority c)) in
    when ok (raise_flag scheduling_on).

(* sdk perf/realtime_tuning.rs:303-339 apply_memory_locking *)
Definition apply_memory_locking (c : RealtimeConfig) : M World () :=
  let% _ := syscall (SetMemlockLimit (memory_lock_limit c)) in
  let% ok := syscall LockMemory in
  when ok (raise_flag memory_on).

(* sdk perf/realtime_tuning.rs:342-389 apply_cpu_isolation *)
Definition apply_cpu_isolation (c : RealtimeConfig) : M World () :=
  if is_empty (isolated_cpu_cores c) then mret ()
  else
    let% ok := syscall (SetAffinity (filter (λ core, (core < 256)%nat) (isolated_cpu_cores c))) in
    when ok (raise_flag affinity_on).

(* sdk perf/realtime_tuning.rs:392-413 apply_interrupt_isolation *)
Definition apply_interrupt_isolation (c : RealtimeConfig) : M World () :=
  when (negb (is_empty (interrupt_cpu_cores c))) (raise_flag interrupt_on).

(* sdk perf/realtime_tuning.rs:416-433 apply_numa_optimization *)
Definition apply_numa_optimization (c : RealtimeConfig) : M World () :=
  when (negb (is_empty (preferred_numa_nodes c))) (raise_flag numa_on).

(* sdk perf/realtime_tuning.rs:436-456 apply_power_optimization *)
Definition apply_power_optimization (c : RealtimeConfig) : M World () := raise_flag power_on.

(* sdk perf/realtime_tuning.rs:218-246 apply_all_optimizations, settings *)
Definition apply_settings (c : RealtimeConfig) : M World () :=
  let% _ := when (enable_realtime_scheduling c) (apply_realtime_scheduling c) in
  let% _ := when (enable_memory_locking c) (apply_memory_locking c) in
  let% _ := when (enable_cpu_isolation c) (apply_cpu_isolation c) in
  let% _ := when (enable_interrupt_isolation c) (apply_interrupt_isolation c) in
  let% _ := when (enable_numa_optimization c) (apply_numa_optimization c) in
  when (enable_power_optimization c) (apply_power_optimization c).

(** The monitor is spawned, then [initialized] is stored. *)
Definition finish (w : World) : World :=
  mk_World (mk_RtOptimizer (rt_config (optimizer w)) (optimization_state (optimizer w))
    (rt_stats (optimizer w)) true) (os w) (S (monitors w)).

(* sdk perf/realtime_tuning.rs:210-255 apply_all_optimizations *)
Definition apply_all_optimizations : M World () := λ w,
  if initialized (optimizer w) then Val (Ok (), w)
  else mbind (apply_settings (rt_config (optimizer w))) (λ _, effect finish) w.

(* sdk perf/realtime_tuning.rs:521-530 get_optimization_status *)
Definition get_optimization_status (o : RealtimeSystemOptimizer) : OptimizationState :=
  optimization_state o.
(* sdk perf/realtime_tuning.rs:509-518 get_stats *)
Definition rt_get_stats (o : RealtimeSystemOptimizer) : RealtimeStats := rt_stats o.

(** ** What applying does *)

(** The flags that no call stands behind. *)
Definition hinted (s : OptimizationState) : bool * bool * bool :=
  (interrupt_isolation_enabled s, numa_optimization_enabled s, power_optimization_enabled s).

(** The kernel has accepted such a call. *)
Definition accepted (c : Syscall) : Prop := ∃ s, (perform c s).1 = true.

(** A flag that is up was up, or the kernel has accepted its call. *)
Definition earned (c : RealtimeConfig) (s s' : OptimizationState) : Prop :=
  (realtime_scheduling_enabled s' = true → realtime_scheduling_enabled s = true
     ∨ ∃ fifo, accepted (SetScheduler fifo (realtime_priority c)))
  ∧ (memory_locked s' = true → memory_locked s = true ∨ accepted LockMemory)
  ∧ (cpu_affinity_set s' = true → cpu_affinity_set s = true
     ∨ accepted (SetAffinity (filter (λ core, (core < 256)%nat) (isolated_cpu_cores c)))).

(** A part that succeeds, keeps configuration and statistics, and raises
    flags it has earned. *)
Definition part_ok (c : RealtimeConfig) (hint : bool * bool * bool → bool * bool * bool) (m : M World ()) : Prop :=
  ∀ w, ∃ w', m w = Val (Ok (), w')
  ∧ rt_config (optimizer w') = rt_config (optimizer w)
  ∧ rt_stats (optimizer w') = rt_stats (optimizer w)
  ∧ initialized (optimizer w') = initialized (optimizer w) ∧ monitors w' = monitors w
  ∧ earned c (optimization_state (optimizer w)) (optimization_state (optimizer w'))
  ∧ hinted (optimization_state (optimizer w')) = hint (hinted (optimization_state (optimizer w))).

Lemma earned_refl c s : earned c s s.
Proof. unfold earned. tauto. Qed.

Lemma part_skip c : part_ok c id (mret ()).
Proof. intros w. exists w. split_and!; done || apply earned_refl. Qed.

Lemma part_when c (b : bool) (m : M World ()) hint :
  part_ok c hint m → part_ok c (if b then hint else id) (when b m).
Proof. intros Hm. destruct b; [done|apply part_skip]. Qed.

Lemma part_then c (m n : M World ()) (h1 h2 : bool * bool * bool → bool * bool * bool) : part_ok c h1 m → part_ok c h2 n → part_ok c (h2 ∘ h1) (let% _ := m in n).
Proof.
  intros Hm Hn w. destruct (Hm w) as (w1 & H1 & Hc1 & Hs1 & Hi1 & Hm1 & He1 & Hh1).
  destruct (Hn w1) as (w2 & H2 & Hc2 & Hs2 & Hi2 & Hm2 & He2 & Hh2).
  exists w2. unfold mbind. rewrite H1. split_and!; try congruence.
  - unfold earned in *. tauto.
  - simpl. by rewrite Hh2, Hh1.
Qed.

(** A system call and, if the kernel accepts it, its flag. *)
Lemma part_syscall c call f (m : M World ()) :
  (∀ s, hinted (f s) = hinted s) →
  (accepted call → ∀ s, earned c s (f s)) →
  part_ok c id m →
  part_ok c id (let% ok := syscall call in if ok : bool then raise_flag f else m).
Proof.
  intros Hf He Hm w. unfold mbind, syscall, ask. destruct (perform call (os w)) as [[] s] eqn:Hp.
  - eexists. split; [reflexivity|]. simpl. split_and!; try done. apply He. exists (os w). by rewrite Hp.
  - apply (Hm (mk_World (optimizer w) s (monitors w))).
Qed.

Lemma scheduling_part c : part_ok c id (apply_realtime_scheduling c).
Proof.
  apply part_syscall; [done| |apply (part_syscall c _ scheduling_on); [done| |apply part_skip]];
    intros Ha s; unfold earned; simpl; split_and!; auto; intros _; right; by eexists.
Qed.

(** A call whose outcome is only logged. *)
Lemma part_logged c call hint (m : M World ()) :
  part_ok c hint m → part_ok c hint (let% _ := syscall call in m).
Proof.
  intros Hm w. unfold mbind, syscall, ask. destruct (perform call (os w)) as [ok s].
  apply (Hm (mk_World (optimizer w) s (monitors w))).
Qed.

Lemma memory_part c : part_ok c id (apply_memory_locking c).
Proof.
  apply part_logged, (part_syscall c LockMemory memory_on); [done| |apply part_skip].
  intros Ha s'. unfold earned. simpl. split_and!; auto.
Qed.

Lemma isolation_part c : part_ok c id (apply_cpu_isolation c).
Proof.
  unfold apply_cpu_isolation. destruct (is_empty _); [apply part_skip|].
  apply (part_syscall c _ affinity_on); [done| |apply part_skip].
  intros Ha s. unfold earned. simpl. split_and!; auto.
Qed.

Lemma raise_part c f hint :
  (∀ s, hinted (f s) = hint (hinted s)) → (∀ s, earned c s (f s)) → part_ok c hint (raise_flag f).
Proof. intros Hf He w. eexists. split; [reflexivity|]. split_and!; done || apply He || apply Hf. Qed.

Definition hint_interrupt (h : bool * bool * bool) : bool * bool * bool := (true, h.1.2, h.2).
Definition hint_numa (h : bool * bool * bool) : bool * bool * bool := (h.1.1, true, h.2).
Definition hint_power (h : bool * bool * bool) : bool * bool * bool := (h.1.1, h.1.2, true).

(** The settings together. *)
Lemma settings_apply w :
  let c := rt_config (optimizer w) in
  let s := optimization_state (optimizer w) in
  ∃ w', apply_settings c w = Val (Ok (), w') ∧ rt_config (optimizer w') = c
  ∧ monitors w' = monitors w
  ∧ earned c s (optimization_state (optimizer w'))
  ∧ hinted (optimization_state (optimizer w'))
    = (interrupt_isolation_enabled s
         || (enable_interrupt_isolation c && negb (is_empty (interrupt_cpu_cores c))),
       numa_optimization_enabled s
         || (enable_numa_optimization c && negb (is_empty (preferred_numa_nodes c))),
       power_optimization_enabled s || enable_power_optimization c).
Proof.
  intros c s.
  assert (∀ s, earned c s (interrupt_on s) ∧ earned c s (numa_on s) ∧ earned c s (power_on s)) as He
    by (intros s'; unfold earned; simpl; tauto).
  destruct (part_then c _ _ _ _ (part_when c (enable_realtime_scheduling c) _ _ (scheduling_part c))
    (part_then c _ _ _ _ (part_when c (enable_memory_locking c) _ _ (memory_part c))
    (part_then c _ _ _ _ (part_when c (enable_cpu_isolation c) _ _ (isolation_part c))
    (part_then c _ _ _ _ (part_when c (enable_interrupt_isolation c) _ _
       (part_when c (negb (is_empty (interrupt_cpu_cores c))) _ _
         (raise_part c interrupt_on hint_interrupt (λ _, eq_refl) (λ s, proj1 (He s)))))
    (part_then c _ _ _ _ (part_when c (enable_numa_optimization c) _ _
       (part_when c (negb (is_empty (preferred_numa_nodes c))) _ _
         (raise_part c numa_on hint_numa (λ _, eq_refl) (λ s, proj1 (proj2 (He s))))))
    (part_when c (enable_power_optimization c) _ _
       (raise_part c power_on hint_power (λ _, eq_refl) (λ s, proj2 (proj2 (He s))))))))) w)
    as (w1 & H1 & Hc & _ & _ & Hm & He1 & Hh).
  exists w1. split_and!; try done. rewrite Hh.
  unfold c, s, hinted, hint_interrupt, hint_numa, hint_power, id, compose.
  destruct (enable_realtime_scheduling _), (enable_memory_locking _), (enable_cpu_isolation _),
    (enable_interrupt_isolation _), (is_empty (interrupt_cpu_cores _)), (enable_numa_optimization _), (is_empty (preferred_numa_nodes _)),
    (enable_power_optimization _); simpl; by rewrite ?orb_true_r, ?orb_false_r.
Qed.

(** Applying always succeeds, starts one monitor and is done once: called
    again it changes nothing.  The flags of scheduling, memory and affinity are
    raised only when the kernel has accepted the call; those of interrupts,
    NUMA and power follow from the configuration alone, without any call. *)
Theorem applied_once (w : World) :
  initialized (optimizer w) = false →
  let c := rt_config (optimizer w) in
  let s := optimization_state (optimizer w) in
  ∃ w', apply_all_optimizations w = Val (Ok (), w')
  ∧ apply_all_optimizations w' = Val (Ok (), w')
  ∧ monitors w' = S (monitors w) ∧ rt_config (optimizer w') = c
  ∧ earned c s (optimization_state (optimizer w'))
  ∧ hinted (optimization_state (optimizer w'))
    = (interrupt_isolation_enabled s
         || (enable_interrupt_isolation c && negb (is_empty (interrupt_cpu_cores c))),
       numa_optimization_enabled s
         || (enable_numa_optimization c && negb (is_empty (preferred_numa_nodes c))),
       power_optimization_enabled s || enable_power_optimization c).
Proof.
  intros Hi c s. destruct (settings_apply w) as (w1 & H1 & Hc & Hm & He & Hh).
  exists (finish w1). unfold apply_all_optimizations at 1, mbind. rewrite Hi, H1.
  split_and!; try done. simpl. by rewrite Hm.
Qed.
End Apply.

(** ** Two calls at once *)

(** [initialized] is read first and stored last. *)
Inductive apply_pc := ACheck | ARun | ADone.

Inductive apply_step {OS} `{Kernel OS} : World → () → apply_pc → World → apply_pc → Prop :=
| apply_skips w : initialized (optimizer w) = true → apply_step w () ACheck w ADone
| apply_starts w : initialized (optimizer w) = false → apply_step w () ACheck w ARun
| apply_ends w w' :
    mbind (apply_settings (rt_config (optimizer w))) (λ _, effect finish) w = Val (Ok (), w') →
    apply_step w () ARun w' ADone.

(** Two calls made at once can both find the settings not applied: then both
    apply them and two monitors run. *)
Theorem applied_twice {OS} `{Kernel OS} (w : World (OS := OS)) :
  initialized (optimizer w) = false →
  ∃ w', rtc (system_step apply_step) (mk_System w [((), ACheck); ((), ACheck)])
          (mk_System w' [((), ADone); ((), ADone)])
  ∧ monitors w' = S (S (monitors w)).
Proof.
  intros Hi.
  assert (∀ v : World, ∃ v', mbind (apply_settings (rt_config (optimizer v))) (λ _, effect finish) v
    = Val (Ok (), v') ∧ monitors v' = S (monitors v)) as Hrun.
  { intros v. destruct (settings_apply v) as (v1 & Hv & _ & Hm & _). exists (finish v1).
    unfold mbind. rewrite Hv. split; [done|]. simpl. by rewrite Hm. }
  destruct (Hrun w) as (w1 & H1 & Hm1), (Hrun w1) as (w2 & H2 & Hm2).
  exists w2. split; [|by rewrite Hm2, Hm1].
  caller 0%nat apply_starts; [done|]. caller 1%nat apply_starts; [done|].
  caller 0%nat apply_ends; [exact H1|]. caller 1%nat apply_ends; [exact H2|]. apply rtc_refl.
Qed.

(** ** The monitor *)

(** One turn that has measured [latency]; the counter is the process's. *)
(* sdk perf/realtime_tuning.rs:469-503 start_realtime_monitoring, one turn *)
Definition monitor_turn (latency : Z) (s : RealtimeStats) (counter : Z) : RealtimeStats * Z * bool :=
  let latency := as_u64 latency in
  (mk_Rt latency
     (if max_scheduling_latency_ns s <? latency then latency else max_scheduling_latency_ns s)
     (page_faults s) (context_switches s) (interrupts s) (system_calls s),
   as_u32 (counter + 1), counter mod 12 =? 0).

(** The turns of the endless loop of one monitor, and the reports it makes. *)
(* sdk perf/realtime_tuning.rs:459-506 start_realtime_monitoring *)
Fixpoint monitor_turns (latencies : list Z) (s : RealtimeStats) (counter : Z) : RealtimeStats * Z * nat :=
  match latencies with
  | [] => (s, counter, 0%nat)
  | x :: l =>
      let '(s, counter, report) := monitor_turn x s counter in
      let '(s, counter, reports) := monitor_turns l s counter in
      (s, counter, ((if report : bool then 1 else 0) + reports)%nat)
  end.

Lemma foldr_max_swap l x m : foldr Z.max (Z.max m x) l = Z.max x (foldr Z.max m l).
Proof. induction l as [|y l IH]; simpl; lia. Qed.

Lemma monitor_turns_spec l : ∀ s c, Forall is_u64 l → 0 ≤ c → c + Z.of_nat (length l) < 2 ^ 32 →
  ∃ reports, monitor_turns l s c
    = (mk_Rt (default (scheduling_latency_ns s) (last l))
         (foldr Z.max (max_scheduling_latency_ns s) l)
         (page_faults s) (context_switches s) (interrupts s) (system_calls s),
       c + Z.of_nat (length l), reports)
  ∧ Z.of_nat reports = (c + Z.of_nat (length l) + 11) / 12 - (c + 11) / 12.
Proof.
  induction l as [|x l IH]; intros s c Hl Hc Hlen.
  { exists 0%nat. simpl. rewrite Z.add_0_r. split; [by destruct s|lia]. }
  inversion_clear Hl as [|? ? Hx Hl']. simpl length in *. unfold monitor_turns; fold monitor_turns.
  unfold monitor_turn. rewrite as_u64_small by done. unfold as_u32. rewrite wrap_small by (unfold is_uint; lia).
  destruct (IH (mk_Rt x (if max_scheduling_latency_ns s <? x then x else max_scheduling_latency_ns s)
    (page_faults s) (context_switches s) (interrupts s) (system_calls s)) (c + 1)) as (n & Hn & Hr);
    [done|lia|lia|]. rewrite Hn. eexists. split.
  - cbn [scheduling_latency_ns max_scheduling_latency_ns page_faults context_switches interrupts system_calls].
    replace (if _ <? x then x else _) with (Z.max (max_scheduling_latency_ns s) x)
      by (destruct (Z.ltb_spec (max_scheduling_latency_ns s) x); lia).
    rewrite foldr_max_swap. f_equal. f_equal; [|lia]. f_equal. rewrite last_cons. by destruct (last l).
  - destruct (Z.eqb_spec (c mod 12) 0) as [Hm|Hm]; cbv beta iota;
      Z.to_euclidean_division_equations; lia.
Qed.

(** The last latency and the greatest one are kept, a report is made every
    twelve turns, and nothing is ever counted under the four other names. *)
Theorem monitor_keeps_maximum l : Forall is_u64 l → Z.of_nat (length l) < 2 ^ 32 →
  let '(s, counter, reports) := monitor_turns l rt_stats_default 0 in
  counter = Z.of_nat (length l)
  ∧ scheduling_latency_ns s = default 0 (last l)
  ∧ max_scheduling_latency_ns s = foldr Z.max 0 l
  ∧ reports = ((length l + 11) / 12)%nat
  ∧ page_faults s = 0 ∧ context_switches s = 0 ∧ interrupts s = 0 ∧ system_calls s = 0.
Proof.
  intros Hl Hlen. destruct (monitor_turns_spec l rt_stats_default 0 Hl) as (n & -> & Hn); [lia|lia|].
  split_and!; try done. apply Nat2Z.inj. rewrite Hn, Nat2Z.inj_div, Nat2Z.inj_add.
  change (Z.of_nat 12) with 12. change (Z.of_nat 11) with 11. change ((0 + 11) / 12) with 0. by rewrite Z.sub_0_r.
Qed.

(** ** Instances *)

(** Eight processors, NUMA balancing on. *)
#[local] Instance toy_topology : Topology := {| num_cpus := 8; numa_balancing := Some "1
" |}.
(** A kernel that accepts no schedule but a round-robin one, and no locking. *)
#[local] Instance toy_kernel : Kernel nat := {|
  perform := λ c n, (match c with SetScheduler fifo _ => negb fifo | LockMemory => false | _ => true end, S n);
|}.

Definition toy_world (c : RealtimeConfig) : World (OS := nat) :=
  mk_World (mk_RtOptimizer c state_default rt_stats_default false) 0%nat 0.

Lemma applied_once_witness :
  ∃ w', apply_all_optimizations (toy_world (auto_detect_system_config realtime_default)) = Val (Ok (), w')
  ∧ monitors w' = 1%nat
  ∧ hinted (optimization_state (optimizer w')) = (true, true, true)
  ∧ memory_locked (optimization_state (optimizer w')) = false.
Proof.
  destruct (applied_once (toy_world (auto_detect_system_config realtime_default)))
    as (w' & Hr & _ & Hm & _ & (_ & He & _) & Hh); [reflexivity|].
  exists w'. split; [exact Hr|]. split; [exact Hm|]. split; [exact Hh|].
  destruct (memory_locked _); [|reflexivity]. by destruct (He eq_refl) as [?|[? ?]].
Defined.

Lemma applied_twice_witness :
  ∃ w', rtc (system_step apply_step) (mk_System (toy_world realtime_default) [((), ACheck); ((), ACheck)])
          (mk_System w' [((), ADone); ((), ADone)]) ∧ monitors w' = 2%nat.
Proof. apply (applied_twice (toy_world realtime_default)). reflexivity. Defined.

Lemma monitor_keeps_maximum_witness :
  Forall is_u64 [50; 900; 70] ∧ (monitor_turns [50; 900; 70] rt_stats_default 0).2 = 1%nat.
Proof.
  assert (Forall is_u64 [50; 900; 70]) as Hl by (repeat constructor; done). split; [exact Hl|].
  pose proof (monitor_keeps_maximum [50; 900; 70] Hl ltac:(reflexivity)) as Hm.
  destruct (monitor_turns _ _ _) as [[s c] n]. destruct Hm as (_ & _ & _ & Hn & _). exact Hn.
Defined.
