(* ===== verification/Wallet.v ===== *)
(** * Wallet operations (sdk lib.rs, trading/common/utils.rs)

    The operations of the client on its own wallet: wrapping and unwrapping SOL,
    closing accounts, claiming cashback, transfers and balances.  Each builds
    instructions and sends them in one transaction that the payer signs; with
    them, the global instance of the client. *)

From Stdlib Require Import String.
From S2P Require Import Prelude Solana Spl FastFn Effects Wsol Client IxCommon PumpFunIx PumpSwapIx TxBuild Factory Submit Sender ParamsRpc Executor Startup.

#[local] Open Scope string_scope.
#[local] Open Scope Z_scope.
#[local] Open Scope list_scope.

(** ** The global instance *)

(** [INSTANCE]: set by [TradingClient::new], never cleared. *)
(* sdk lib.rs:764-770 get_instance *)
Definition get_instance (instance : option TradingClient) : exec TradingClient := unwrap instance.

(** [Signature::to_string]. *)
Class SignatureText := { signature_to_string : Signature → string }.

Section Wallet.
Context `{Sdk} {E : Type} `{Rpc E} `{TxSdk} `{!NodeTx E} `{SignatureText}.

(** ** Sending *)

(** A fresh blockhash, then the instructions, signed and confirmed. *)
Definition send_signed (payer : Pubkey) (ixs : list Instruction) (recent_blockhash : Hash) :
    M (Process E) string :=
  let% tx := of_ex (sign_with_payer payer ixs recent_blockhash) in
  let% signature := in_env (call (rpc_send_and_confirm tx)) in
  mret (signature_to_string signature).

Definition latest_blockhash : M (Process E) Hash := in_env (call rpc_get_latest_blockhash).

(* sdk lib.rs:1045-1055 wrap_sol_to_wsol *)
Definition client_wrap_sol_to_wsol (c : TradingClient) (amount : Z) : M (Process E) string :=
  let% recent_blockhash := latest_blockhash in
  let% instructions := in_chain (handle_wsol (tc_payer c) amount) in
  send_signed (tc_payer c) instructions recent_blockhash.

(* sdk lib.rs:1073-1083 close_wsol *)
Definition client_close_wsol (c : TradingClient) : M (Process E) string :=
  let% recent_blockhash := latest_blockhash in
  let% instructions := in_chain (close_wsol (tc_payer c)) in
  send_signed (tc_payer c) instructions recent_blockhash.

(* sdk lib.rs:1102-1119 create_wsol_ata *)
Definition client_create_wsol_ata (c : TradingClient) : M (Process E) string :=
  let% recent_blockhash := latest_blockhash in
  let% instructions := in_chain (create_wsol_ata (tc_payer c)) in
  match instructions with
  | [] => mfail "wSOL ATA already exists or no instructions needed"
  | _ => send_signed (tc_payer c) instructions recent_blockhash
  end.

(* sdk lib.rs:1144-1174 wrap_wsol_to_sol *)
Definition client_wrap_wsol_to_sol (c : TradingClient) (amount : Z) : M (Process E) string :=
  let% seed_ata_address :=
    of_res (get_associated_token_address_with_program_id_use_seed (tc_payer c) WSOL_TOKEN_ACCOUNT
              TOKEN_PROGRAM) in
  let% account := attempt (in_env (call (rpc_get_account seed_ata_address))) in
  let% instructions :=
    match account with
    | Ok _ => in_chain (wrap_wsol_to_sol_without_create (tc_payer c) amount)
    | Err _ => in_chain (wrap_wsol_to_sol (tc_payer c) amount)
    end in
  let% recent_blockhash := latest_blockhash in
  send_signed (tc_payer c) instructions recent_blockhash.

(* sdk lib.rs:1184-1195 claim_cashback_pumpfun *)
Definition client_claim_cashback_pumpfun (c : TradingClient) : M (Process E) string :=
  let% o := in_chain (claim_cashback_pumpfun_instruction (tc_payer c)) in
  let% ix := of_res (ok_or o "Failed to build PumpFun claim_cashback instruction") in
  let% recent_blockhash := latest_blockhash in
  send_signed (tc_payer c) [ix] recent_blockhash.

(* sdk lib.rs:1205-1228 claim_cashback_pumpswap *)
Definition client_claim_cashback_pumpswap (c : TradingClient) : M (Process E) string :=
  let% instructions :=
    in_chain (create_associated_token_account_idempotent_fast_use_seed (tc_payer c) (tc_payer c)
                WSOL_TOKEN_ACCOUNT TOKEN_PROGRAM (tc_use_seed_optimize c)) in
  let% o := in_chain (claim_cashback_pumpswap_instruction (tc_payer c) WSOL_TOKEN_ACCOUNT
                        TOKEN_PROGRAM) in
  let% ix := of_res (ok_or o "Failed to build PumpSwap claim_cashback instruction") in
  let% recent_blockhash := latest_blockhash in
  send_signed (tc_payer c) (instructions ++ [ix]) recent_blockhash.

(** The account is created in the background: the task is returned with the
    client. *)
(* sdk lib.rs:479-514 from_infrastructure_with_wsol_setup *)
Definition from_infrastructure_with_wsol_setup (payer : Pubkey) (ti : TradingInfrastructure)
    (use_seed_optimize create_wsol_ata : bool) :
    M (Process E) (TradingClient * option (M (Process E) ())) :=
  let% _ := in_chain (fast_init payer) in
  mret (client_of payer ti use_seed_optimize true false,
        if create_wsol_ata then Some (ensure_wsol_ata payer) else None).

(** ** Balances and transfers *)

(* sdk trading/common/utils.rs:48-65 get_token_balance_with_options *)
Definition get_token_balance_with_options (payer mint token_program : Pubkey) (use_seed : bool) :
    M (Process E) Z :=
  let% ata := in_chain (get_associated_token_address_with_program_id_fast_use_seed payer mint
                          token_program use_seed) in
  let% balance := in_env (call (rpc_get_token_account_balance ata)) in
  of_res (match parse_u64 balance with
          | Ok n => Ok n
          | Err _ => Err "Failed to parse token balance"
          end).

(* sdk trading/common/utils.rs:38-44 get_token_balance *)
Definition get_token_balance (payer mint : Pubkey) : M (Process E) Z :=
  get_token_balance_with_options payer mint TOKEN_PROGRAM false.

(* sdk trading/common/utils.rs:68-74 get_sol_balance *)
Definition get_sol_balance (account : Pubkey) : M (Process E) Z :=
  in_env (call (rpc_get_balance account)).

(* sdk trading/common/utils.rs:76-105 transfer_sol *)
Definition transfer_sol (payer receive_wallet : Pubkey) (amount : Z) : M (Process E) () :=
  if amount =? 0 then mfail "transfer_sol: Amount cannot be zero"
  else
    let% balance := get_sol_balance payer in
    if balance <? amount then mfail "Insufficient balance"
    else
      let% recent_blockhash := latest_blockhash in
      let% _ := send_signed payer [system_transfer payer receive_wallet amount] recent_blockhash in
      mret ().

(** An account that does not exist is closed already. *)
(* sdk trading/common/utils.rs:121-161 close_token_account *)
Definition close_token_account (payer mint : Pubkey) : M (Process E) () :=
  let% ata := in_chain (get_associated_token_address_with_program_id_fast payer mint
                          TOKEN_PROGRAM) in
  let% account := attempt (in_env (call (rpc_get_account ata))) in
  match account with
  | Err _ => mret ()
  | Ok _ =>
      let% ix := of_res (close_account TOKEN_PROGRAM ata payer payer [payer]) in
      let% recent_blockhash := latest_blockhash in
      let% _ := send_signed payer [ix] recent_blockhash in
      mret ()
  end.

(** The same for the client's own key. *)
(* sdk utils/mod.rs:16-19 get_payer_sol_balance *)
Definition get_payer_sol_balance (c : TradingClient) : M (Process E) Z := get_sol_balance (tc_payer c).

(* sdk utils/mod.rs:31-38 get_payer_token_balance *)
Definition get_payer_token_balance (c : TradingClient) (mint : Pubkey) : M (Process E) Z :=
  get_token_balance (tc_payer c) mint.

(** The balance of the account the client trades through. *)
(* sdk utils/mod.rs:42-55 get_payer_token_balance_with_program *)
Definition get_payer_token_balance_with_program (c : TradingClient) (mint token_program : Pubkey) :
    M (Process E) Z :=
  get_token_balance_with_options (tc_payer c) mint token_program (tc_use_seed_optimize c).

(* sdk utils/mod.rs:84-91 close_token_account *)
Definition close_payer_token_account (c : TradingClient) (mint : Pubkey) : M (Process E) () :=
  close_token_account (tc_payer c) mint.
End Wallet.

(** ** What the wallet sends *)

Inductive WalletOp :=
| WrapSol (amount : Z)
| CloseWsol
| CreateWsolAta
| UnwrapWsol (amount : Z)
| ClaimPumpFun
| ClaimPumpSwap
| TransferSol (receive_wallet : Pubkey) (amount : Z)
| CloseTokenAccount (mint : Pubkey).

Section Ops.
Context `{Sdk} {E : Type} `{Rpc E} `{TxSdk} `{!NodeTx E} `{SignatureText}.

Definition ignore {A} (m : M (Process E) A) : M (Process E) () := let% _ := m in mret ().

Definition perform (op : WalletOp) (c : TradingClient) : M (Process E) () :=
  match op with
  | WrapSol amount => ignore (client_wrap_sol_to_wsol c amount)
  | CloseWsol => ignore (client_close_wsol c)
  | CreateWsolAta => ignore (client_create_wsol_ata c)
  | UnwrapWsol amount => ignore (client_wrap_wsol_to_sol c amount)
  | ClaimPumpFun => ignore (client_claim_cashback_pumpfun c)
  | ClaimPumpSwap => ignore (client_claim_cashback_pumpswap c)
  | TransferSol receive_wallet amount => transfer_sol (tc_payer c) receive_wallet amount
  | CloseTokenAccount mint => close_token_account (tc_payer c) mint
  end.
End Ops.

(** ** A node with a record of the transactions sent *)

#[export] Instance journal_node_tx {E : Type} `{TxSdk} `{!NodeTx E} :
  NodeTx (Journal VersionedTransaction E) := {|
  rpc_get_minimum_balance := λ n, unlogged (rpc_get_minimum_balance n);
  rpc_send_and_confirm := λ tx w,
    let '(r, e) := rpc_send_and_confirm tx w.1 in (r, (e, w.2 ++ [tx]));
|}.

Section Sends.
Context `{Sdk} `{!SdkSigners} {E : Type} `{Rpc E} `{TxSdk} `{!NodeTx E} `{SignatureText}.

Abbreviation P := (Process (Journal VersionedTransaction E)).

Definition posted (w : P) : list VersionedTransaction := (p_env w).2.

(** One transaction of the payer's instructions with the payer's signature. *)
Definition own_transaction (payer : Pubkey) (tx : VersionedTransaction) : Prop :=
  ∃ ixs recent_blockhash signature,
    signed payer ixs
    ∧ try_sign payer (legacy_new_with_blockhash payer ixs recent_blockhash) = Ok signature
    ∧ tx = mk_Tx [signature] (Legacy (legacy_new_with_blockhash payer ixs recent_blockhash)).

(** A step that sends nothing and whose results are all [Q]. *)
Definition silent {A} (Q : A → Prop) (m : M P A) : Prop := ∀ w r w',
  valid (p_chain w) → m w = Val (r, w') →
  valid (p_chain w') ∧ posted w' = posted w ∧ ∀ a, r = Ok a → Q a.

(** A computation that sends one transaction of the payer's, or nothing, which is an error. *)
Definition owns {A} (payer : Pubkey) (m : M P A) : Prop := ∀ w r w',
  valid (p_chain w) → m w = Val (r, w') →
  (∃ tx, own_transaction payer tx ∧ posted w' = posted w ++ [tx])
  ∨ posted w' = posted w ∧ ∃ msg, r = Err msg.

Lemma silent_chain {A} (p : prog A) Q : (∀ r, yields r p Q) → silent Q (in_chain p).
Proof.
  intros Hp w r w' Hv. unfold in_chain. pose proof (run_eval p (p_chain w) Hv) as Hr.
  specialize (Hp (rents (p_chain w))).
  destruct (eval (rents (p_chain w)) p) as [x|] eqn:He; [|by rewrite Hr].
  destruct Hr as (c & -> & Hv' & _). intros [= <- <-]. split; [done|]. split; [done|].
  intros a ->. by apply Hp.
Qed.

Lemma silent_query {A} (f : E → result string A * E) : silent (λ _, True) (in_env (call (unlogged f))).
Proof.
  intros w r w' Hv. unfold in_env, call. pose proof (unlogged_log f (p_env w)) as Hl.
  destruct (unlogged f (p_env w)) as [x e]. intros [= <- <-]. split; [done|]. by split; [exact Hl|].
Qed.

Lemma silent_attempt {A} (m : M P A) Q : silent Q m → silent (λ _, True) (attempt m).
Proof.
  intros Hm w r w' Hv Ha. unfold attempt in Ha. destruct (m w) as [[x w1]|] eqn:Hw; [|done].
  injection Ha as <- <-. by destruct (Hm _ _ _ Hv Hw) as (? & ? & _).
Qed.

Lemma silent_of_res {A} (r : result string A) : silent (λ a, r = Ok a) (of_res r).
Proof. intros w r' w' Hv [= <- <-]. split; [done|]. split; [done|]. by intros a Ha. Qed.

Lemma owns_bind {A B} payer Q (m : M P A) (k : A → M P B) :
  silent Q m → (∀ a, Q a → owns payer (k a)) → owns payer (mbind m k).
Proof.
  intros Hm Hk w r w' Hv. unfold mbind. destruct (m w) as [[[a|s] w1]|] eqn:Hw; [| |done].
  - destruct (Hm _ _ _ Hv Hw) as (Hv1 & <- & Ha). intros Hr. by eapply Hk; [apply Ha| |].
  - destruct (Hm _ _ _ Hv Hw) as (_ & Hp & _). intros [= <- <-]. right. split; [done|]. by exists s.
Qed.

Lemma owns_fail {A} payer msg : owns payer (@mfail P A msg).
Proof. intros w r w' Hv [= <- <-]. right. split; [done|]. by exists msg. Qed.

Lemma owns_send payer ixs h : signed payer ixs → owns payer (send_signed payer ixs h).
Proof.
  intros Hs w r w' Hv. unfold send_signed, mbind at 1, of_ex, sign_with_payer.
  destruct (try_sign _ _) as [sig|] eqn:Hsig; [|done]. cbn [unwrap_res exec_bind].
  unfold mbind, in_env, call. cbn [rpc_send_and_confirm journal_node_tx].
  destruct (rpc_send_and_confirm _ _) as [x e] eqn:Hx. intros Hr. left.
  exists (mk_Tx [sig] (Legacy (legacy_new_with_blockhash payer ixs h))).
  split; [by exists ixs, h, sig|]. by destruct x; injection Hr as <- <-.
Qed.

Lemma owns_ignore {A} payer (m : M P A) : owns payer m → owns payer (ignore m).
Proof.
  intros Hm w r w' Hv. unfold ignore, mbind, mret.
  destruct (m w) as [[[a|s] w1]|] eqn:Hw; [| |done]; intros [= <- <-];
    (destruct (Hm _ _ _ Hv Hw) as [?|[? [msg Hn]]]; [by left|right; split; [done|]]); [done|].
  by exists s.
Qed.

Create HintDb owns.
Hint Resolve owns_fail owns_send : owns.

Lemma yields_of_result {A} r (x : result string A) (Q : A → Prop) :
  (∀ a, x = Ok a → Q a) → yields r (of_result x) Q.
Proof. intros Hx. destruct x; [by apply yields_ret, Hx|apply yields_fail]. Qed.

Lemma yields_signed_transfer_close r payer seed_ata amount :
  yields r (transfer_and_close payer seed_ata amount) (signed payer).
Proof.
  unfold transfer_and_close. apply yields_any. intros user.
  eapply yields_bind; [apply yields_of_result; intros a Ha; exact Ha|]. intros t [= <-].
  eapply yields_bind; [apply yields_of_result; intros a Ha; exact Ha|]. intros c [= <-].
  apply yields_ret. close_signed; signed_metas.
Qed.

Lemma yields_signed_unwrap r payer amount : yields r (wrap_wsol_to_sol payer amount) (signed payer).
Proof.
  unfold wrap_wsol_to_sol. intros l. cbn [eval]. revert l.
  change (yields r (let! create := of_result (create_associated_token_account_use_seed r payer payer
      WSOL_TOKEN_ACCOUNT TOKEN_PROGRAM) in
    let! seed_ata_address := of_result (get_associated_token_address_with_program_id_use_seed
                                          payer WSOL_TOKEN_ACCOUNT TOKEN_PROGRAM) in
    let! rest := transfer_and_close payer seed_ata_address amount in
    Ret (create ++ rest)) (signed payer)).
  eapply yields_bind; [apply yields_of_result; intros a Ha; exact Ha|]. intros create Hc.
  apply yields_any. intros seed_ata.
  eapply yields_bind; [apply yields_signed_transfer_close|]. intros rest Hr.
  apply yields_ret, signed_app; [|done]. exact (signed_use_seed _ _ _ _ _ Hc).
Qed.

Lemma yields_signed_unwrap_existing r payer amount :
  yields r (wrap_wsol_to_sol_without_create payer amount) (signed payer).
Proof. apply yields_any. intros seed_ata. apply yields_signed_transfer_close. Qed.

Lemma yields_claim_pumpfun r payer :
  yields r (claim_cashback_pumpfun_instruction payer) (λ o, ∀ ix, o = Some ix → signed payer [ix]).
Proof.
  unfold claim_cashback_pumpfun_instruction. signed_builder. intros ix Hix.
  destruct a; [|done]. injection Hix as <-.
  apply signed_ix. signed_metas.
Qed.

Lemma yields_claim_pumpswap r payer quote_mint quote_token_program :
  yields r (claim_cashback_pumpswap_instruction payer quote_mint quote_token_program)
    (λ o, ∀ ix, o = Some ix → signed payer [ix]).
Proof.
  unfold claim_cashback_pumpswap_instruction. signed_builder; try done. intros ix [= <-].
  apply signed_ix. signed_metas.
Qed.

Lemma yields_true {A} r (p : prog A) : yields r p (λ _, True).
Proof. done. Qed.

Hint Resolve yields_signed_unwrap yields_signed_unwrap_existing yields_claim_pumpfun
  yields_claim_pumpswap : signed.

(** One step before the transaction is sent. *)
Ltac owns_step :=
  eapply owns_bind;
  [first [apply silent_query
         |eapply silent_attempt, silent_query
         |apply silent_of_res
         |apply silent_chain; intros ?; first [solve [eauto with signed] | apply yields_true]]
  |intros ? ?; cbv beta in *].

Lemma owns_unwrap c amount : owns (tc_payer c) (client_wrap_wsol_to_sol c amount).
Proof.
  unfold client_wrap_wsol_to_sol. owns_step. owns_step.
  eapply (owns_bind _ (signed (tc_payer c)));
    [destruct a0; apply silent_chain; intros r; eauto with signed|intros ixs Hs].
  owns_step. by apply owns_send.
Qed.

(** Closing an account that is there. *)
Lemma owns_close_there payer ata :
  owns payer (let% ix := of_res (close_account TOKEN_PROGRAM ata payer payer [payer]) in
              let% recent_blockhash := latest_blockhash in
              let% _ := send_signed payer [ix] recent_blockhash in mret ()).
Proof.
  do 2 owns_step. apply owns_ignore, owns_send. eapply signed_close_account; [|eassumption].
  by constructor.
Qed.

(** The account of the mint is not there, or the node cannot say. *)
Definition no_account (payer mint : Pubkey) (w : P) : Prop :=
  ∃ ata msg, ata_compute (mk_AtaCacheKey payer mint TOKEN_PROGRAM false) = Val ata
    ∧ (rpc_get_account ata (p_env w)).1 = Err msg.

(** The address comes from the cache or is derived: it is the same. *)
Lemma ata_read payer mint (w w1 : P) r :
  valid (p_chain w) →
  in_chain (get_associated_token_address_with_program_id_fast payer mint TOKEN_PROGRAM) w
    = Val (r, w1) →
  ∃ ata, r = Ok ata ∧ ata_compute (mk_AtaCacheKey payer mint TOKEN_PROGRAM false) = Val ata
    ∧ p_env w1 = p_env w ∧ valid (p_chain w1).
Proof.
  intros Hv. unfold in_chain.
  pose proof (run_eval (get_associated_token_address_with_program_id_fast payer mint TOKEN_PROGRAM)
    (p_chain w) Hv) as Hr.
  unfold get_associated_token_address_with_program_id_fast in *. cbn [eval] in Hr.
  destruct (ata_compute _) as [ata|]; cbn [exec_bind] in Hr; [|by rewrite Hr].
  destruct Hr as (c & -> & Hv' & _). intros [= <- <-]. by exists ata.
Qed.

Lemma close_token_run payer mint w r w' :
  valid (p_chain w) → close_token_account payer mint w = Val (r, w') →
  (no_account payer mint w ∧ posted w' = posted w ∧ r = Ok ())
  ∨ ¬ no_account payer mint w
    ∧ ((∃ tx, own_transaction payer tx ∧ posted w' = posted w ++ [tx])
       ∨ posted w' = posted w ∧ ∃ msg, r = Err msg).
Proof.
  intros Hv. unfold close_token_account. unfold mbind at 1.
  destruct (in_chain _ w) as [[r1 w1]|] eqn:Ha; [|done].
  apply ata_read in Ha as (ata & -> & Hata & He & Hv1); [|done].
  unfold mbind at 1, attempt, in_env, call. rewrite He.
  pose proof (unlogged_log (rpc_get_account (E := E) ata) (p_env w)) as Hlog.
  change (unlogged (rpc_get_account ata) (p_env w)) with (rpc_get_account ata (p_env w)) in Hlog.
  destruct (rpc_get_account ata (p_env w)) as [[account|msg] e1] eqn:Hg; cbn [snd fst] in Hlog.
  - intros Hr. right. split.
    { intros (ata' & msg & Hata' & Hm). rewrite Hata in Hata'. injection Hata' as <-.
      rewrite Hg in Hm. discriminate Hm. }
    apply owns_close_there in Hr; [|done]. unfold posted in *. cbn [p_env] in Hr.
    by rewrite Hlog in Hr.
  - intros [= <- <-]. left. split; [|by split].
    exists ata, msg. by rewrite Hg.
Qed.

(** There is nothing to do: the account to be closed is not there. *)
Definition nothing_to_do (op : WalletOp) (c : TradingClient) (w : P) : Prop :=
  match op with
  | CloseTokenAccount mint => no_account (tc_payer c) mint w
  | _ => False
  end.

(** The operations that always have something to do. *)
Lemma owns_perform op c :
  (∀ mint, op ≠ CloseTokenAccount mint) → owns (tc_payer c) (perform op c).
Proof.
  destruct op; cbn [perform]; intros Hn; try apply owns_ignore.
  - do 2 owns_step. by apply owns_send.
  - do 2 owns_step. by apply owns_send.
  - do 2 owns_step. destruct a0; eauto with owns.
  - apply owns_unwrap.
  - do 3 owns_step. apply owns_send. destruct a; [|done]. naive_solver.
  - do 4 owns_step. apply owns_send, signed_app; [done|]. destruct a0; [|done]. naive_solver.
  - unfold transfer_sol. case_match; [apply owns_fail|]. owns_step.
    case_match; [apply owns_fail|]. owns_step. apply owns_ignore, owns_send, transfer_signers.
  - by destruct (Hn mint).
Qed.

(** C34. Every operation of the wallet sends one transaction at most, made of
    instructions that need the payer's signature alone and signed by the payer.
    It succeeds without sending anything exactly where there is nothing to do:
    the token account that is to be closed is not found at the address
    derived for the payer and the mint (the node answers the look at it with an
    error).  Where there is something to do, nothing is sent only when the
    operation ends in an error. *)
Theorem wallet_sends_once op c w r w' :
  valid (p_chain w) → perform op c w = Val (r, w') →
  (nothing_to_do op c w ∧ posted w' = posted w ∧ r = Ok ())
  ∨ ¬ nothing_to_do op c w
    ∧ ((∃ tx, own_transaction (tc_payer c) tx ∧ posted w' = posted w ++ [tx])
       ∨ posted w' = posted w ∧ ∃ msg, r = Err msg).
Proof.
  intros Hv Hr.
  destruct op; [right; split; [by intros []|by eapply owns_perform; [|exact Hv|exact Hr]]..|].
  by apply close_token_run.
Qed.
End Sends.

(** ** A wallet *)

Definition toy_signature_text : SignatureText := {| signature_to_string := λ s, s |}.

Abbreviation PostedSim := (Journal (@VersionedTransaction toy_tx_sdk) Sim).

Definition wallet_start : Process PostedSim :=
  mk_Proc (p_env holder, []) (p_chain holder) (p_budget holder).

Definition toy_client : TradingClient := mk_Client 11 false true false false None 1 [].

Definition toy_wrap : exec (result string () * Process PostedSim) :=
  @perform toy_sdk PostedSim journal_rpc toy_tx_sdk
    (@journal_node_tx Sim toy_tx_sdk toy_node_tx) toy_signature_text (WrapSol 1000) toy_client
    wallet_start.

Example toy_wrap_sent : length (p_env (outcome_env wallet_start toy_wrap)).2 = 1%nat.
Proof. vm_compute. reflexivity. Qed.

(** Closing the account of a mint that the wallet does not have. *)
Definition toy_close : exec (result string () * Process PostedSim) :=
  @perform toy_sdk PostedSim journal_rpc toy_tx_sdk
    (@journal_node_tx Sim toy_tx_sdk toy_node_tx) toy_signature_text (CloseTokenAccount 66) toy_client
    wallet_start.

Lemma wallet_sends_once_witness :
  (∃ tx, @own_transaction toy_tx_sdk 11 tx
         ∧ @posted Sim toy_tx_sdk (outcome_env wallet_start toy_wrap) = [tx])
  ∧ @no_account toy_sdk Sim sim_rpc toy_tx_sdk 11 66 wallet_start
  ∧ @posted Sim toy_tx_sdk (outcome_env wallet_start toy_close) = [].
Proof.
  split.
  - destruct (@wallet_sends_once toy_sdk toy_signers Sim sim_rpc toy_tx_sdk toy_node_tx
      toy_signature_text (WrapSol 1000) toy_client wallet_start (Ok ())
      (outcome_env wallet_start toy_wrap)) as [[[] _]|[_ [Hs|[_ [msg Hm]]]]].
    + apply (@valid_initial toy_sdk).
    + apply outcome_eq. vm_compute. reflexivity.
    + exact Hs.
    + discriminate Hm.
  - destruct (@wallet_sends_once toy_sdk toy_signers Sim sim_rpc toy_tx_sdk toy_node_tx
      toy_signature_text (CloseTokenAccount 66) toy_client wallet_start (Ok ())
      (outcome_env wallet_start toy_close)) as [(Hn & Hp & _)|[_ [(tx & _ & Hs)|[_ [msg Hm]]]]].
    + apply (@valid_initial toy_sdk).
    + apply outcome_eq. vm_compute. reflexivity.
    + split; [exact Hn|exact Hp].
    + exfalso. apply (f_equal length) in Hs. vm_compute in Hs. discriminate Hs.
    + discriminate Hm.
Defined.
