(* ===== verification/Sent.v ===== *)
(** * What a trade sends

    The executor and the submission core run on any environment; here on one
    that also remembers which transactions were handed to which channel
    ([Logged E], over any environment [E]).  The theorems say what a trade
    sends: nothing when it is simulated; otherwise one transaction at most for
    every channel and strategy that applies, each made of the instructions of
    the builder and the parameters of its strategy, with its tip for an account
    of its own service.  A submission that panics leaves no trace. *)

From Stdlib Require Import String.
From S2P Require Import Prelude F64 Solana FastFn GasFee Effects PumpSwapUtils Params Client Factory TxBuild Channels Confirm Submit Executor.

#[local] Open Scope string_scope.
#[local] Open Scope Z_scope.
#[local] Open Scope list_scope.

(** ** An environment with a log *)

Section Logged.
Context `{TxSdk}.

Abbreviation Sent := (SwqosClient * VersionedTransaction)%type.
Abbreviation Logged E := (Journal Sent E).

#[export] Instance logged_confirm {E : Type} `{Confirm E} : Confirm (Logged E).
Proof.
  refine {| rpc_get_signature_statuses := λ l, unlogged (rpc_get_signature_statuses l);
            rpc_get_transaction := λ s, unlogged (rpc_get_transaction s);
            instant_ms := λ w, instant_ms w.1 |}.
  - intros ms w Hms. by apply instant_sleep.
  - intros l w. unfold unlogged. pose proof (instant_statuses l w.1).
    by destruct (rpc_get_signature_statuses l w.1).
  - intros s w. unfold unlogged. pose proof (instant_transaction s w.1).
    by destruct (rpc_get_transaction s w.1).
Defined.

#[export] Instance logged_sending {E : Type} `{!Sending E} : Sending (Logged E).
Proof.
  refine {| send_transaction := λ c t tx wait w,
              match send_transaction c t tx wait w.1 with
              | Val (r, e) => Val (r, (e, w.2 ++ [(c, tx)]))
              | Panic => Panic
              end;
            completion := λ n, unlogged (completion n);
            random_index := unlogged random_index |}.
  - intros n w. unfold unlogged. pose proof (completion_once n w.1). by destruct (completion n w.1).
  - intros n w i. unfold unlogged. pose proof (completion_range n w.1 i).
    by destruct (completion n w.1).
Defined.

#[export] Instance logged_simulation {E : Type} `{!Simulation E} : Simulation (Logged E) :=
  {| rpc_simulate_transaction := λ tx, unlogged (rpc_simulate_transaction tx) |}.

Definition log {E : Type} (w : Process (Logged E)) : list Sent := (p_env w).2.

Definition same_log {E : Type} (w w' : Process (Logged E)) : Prop := log w' = log w.
#[export] Instance same_log_preorder {E : Type} : PreOrder (@same_log E).
Proof. split; [by intros w|]. intros w1 w2 w3 H1 H2. unfold same_log in *. congruence. Qed.
End Logged.

Section Sent.
Context `{Sdk} `{TxSdk} {E : Type} `{Rpc E} `{!Confirm E} `{!Sending E} `{!Simulation E}
  `{KeyText} `{Sha256} `{HashOrder} `{TxErrorText}.

Abbreviation Sent := (SwqosClient * VersionedTransaction)%type.
Abbreviation Logged E := (Journal Sent E).

(** ** Jobs *)

(** The account a channel's tip may go to. *)
Definition tip_target (c : SwqosClient) (account : Pubkey) : Prop :=
  match ch_type c with
  | SwDefault => True
  | t => account ∈ tip_table t
         ∨ t = Temporal
           ∧ account = default pubkey_default (pubkey_from_str TEMPORAL_COMMUNITY_TIP_ADDRESS)
  end.

Definition job_for (config : SwqosClient * GasFeeStrategyValue) (j : SwqosJob) : Prop :=
  job_swqos_client j = config.1 ∧ job_tip j = tip config.2
  ∧ job_unit_limit j = cu_limit config.2 ∧ job_unit_price j = cu_price config.2
  ∧ tip_target config.1 (job_tip_account j).

(** The accounts remembered for a batch belong to their clients. *)
Definition right_cache (cache : gmap Z Pubkey) (clients : list SwqosClient) : Prop :=
  ∀ c account, c ∈ clients → cache !! ch_ptr c = Some account → tip_target c account.

Lemma make_jobs_for configs cache (w : Process (Logged E)) jobs w' :
  distinct (map fst configs) → right_cache cache (map fst configs) →
  make_jobs configs cache w = Val (Ok jobs, w') →
  Forall2 job_for configs jobs ∧ same_log w w' ∧ p_budget w' = p_budget w.
Proof.
  revert cache w jobs. induction configs as [|[c v] rest IH]; intros cache w jobs Hd Hr Hm.
  { injection Hm as <- <-. done. }
  cbn [make_jobs] in Hm. apply mbind_Ok_inv in Hm as (account & w1 & Ha & Hm).
  apply mbind_Ok_inv in Hm as (jobs' & w2 & Hm & Hj). apply mret_inv in Hj as [<- <-].
  assert (Haccount : tip_target c account ∧ same_log w w1 ∧ p_budget w1 = p_budget w).
  { destruct (cache !! ch_ptr c) as [t|] eqn:Hc.
    - apply mret_inv in Ha as [-> ->]. split; [|done]. eapply Hr; [by left|done].
    - apply mbind_Ok_inv in Ha as (i & w3 & Hi & Ha). apply mbind_Ok_inv in Ha as (s & w4 & Hs & Ha).
      apply mbind_Ok_inv in Ha as (s' & w5 & Hs' & Ha). apply mret_inv in Ha as [<- <-].
      apply of_ex_inv in Hs as [Hs <-]. apply of_res_inv in Hs' as [-> <-].
      destruct (tip_account_total c i) as (s2 & Hs2 & Hcase). rewrite Hs2 in Hs.
      injection Hs as ->. split.
      + unfold tip_target. destruct Hcase as [[-> _]|[[-> ->]|(p & Hp & ->)]]; [done|by right|].
        by destruct (ch_type c); try done; left.
      + unfold in_env, ask in Hi. pose proof (unlogged_log random_index (p_env w)) as Hl.
        cbn [random_index logged_sending] in Hi.
        destruct (unlogged random_index (p_env w)) as [n e]. injection Hi as _ <-. done. }
  destruct Haccount as (Ht & Hl1 & Hb1).
  apply IH in Hm as (Hf & Hl2 & Hb2).
  - split; [constructor; [by repeat split|done]|]. split; [by etrans|congruence].
  - intros c1 c2 Hc1 Hc2. apply Hd; by right.
  - intros c' a Hin Hlook. apply lookup_insert_Some in Hlook as [[Hp ->]|[_ Hlook]].
    + assert (c = c') as <- by (apply Hd; [by left|by right|done]). done.
    + eapply Hr; [by right|done].
Qed.

(** ** What the jobs send *)

(** The transaction of one channel and strategy, as the cache-free description
    of building has it. *)
Definition transaction_of (s : SwqosSharedContext) (c : SwqosClient) (v : GasFeeStrategyValue)
    (tip_account : Pubkey) : exec (result string VersionedTransaction) :=
  transaction_spec (sh_payer s) (cu_limit v) (cu_price v) (sh_instructions s)
    (sh_address_lookup_table_account s) (sh_recent_blockhash s) (sh_middleware_manager s)
    (sh_protocol_name s) (sh_is_buy s) (bool_decide (ch_type c ≠ SwDefault)) tip_account
    (if sh_with_tip s then tip v else f_zero) (sh_durable_nonce s).

(** [m] is what the [i]-th configuration sends. *)
Definition sent_as (s : SwqosSharedContext) (configs : list (SwqosClient * GasFeeStrategyValue))
    (i : nat) (m : Sent) : Prop :=
  ∃ v account, configs !! i = Some (m.1, v) ∧ tip_target m.1 account
    ∧ transaction_of s m.1 v account = Val (Ok m.2).

Lemma run_job_sends s config job (w : Process (Logged E)) r w' :
  valid_budget (p_budget w) → job_for config job → run_one_swqos_job s job w = (r, w') →
  valid_budget (p_budget w')
  ∧ (log w' = log w
     ∨ ∃ tx, log w' = log w ++ [(config.1, tx)]
             ∧ transaction_of s config.1 config.2 (job_tip_account job) = Val (Ok tx)).
Proof.
  destruct config as [c v]. intros Hv (Hc & Ht & Hl & Hp & _) Hrun. cbn [fst snd] in *.
  unfold run_one_swqos_job, in_budget in Hrun. unfold job_swqos_type in Hrun.
  rewrite Hc, Ht, Hl, Hp in Hrun.
  pose proof (build_transaction_refines (sh_payer s) (cu_limit v) (cu_price v) (sh_instructions s)
    (sh_address_lookup_table_account s) (sh_recent_blockhash s) (sh_middleware_manager s)
    (sh_protocol_name s) (sh_is_buy s) (bool_decide (ch_type c ≠ SwDefault)) (job_tip_account job)
    (if sh_with_tip s then tip v else f_zero) (sh_durable_nonce s) (p_budget w) Hv) as Hb.
  fold (transaction_of s c v (job_tip_account job)) in Hb.
  destruct (transaction_of s c v (job_tip_account job)) as [x|].
  - destruct Hb as (cache & Hb & Hv'). rewrite Hb in Hrun. destruct x as [tx|e].
    + cbn [send_transaction logged_sending p_env] in Hrun.
      destruct (send_transaction c _ tx _ _) as [[y e]|].
      * destruct (match y with Ok _ => _ | Err _ => _ end) as [[ok err] landed].
        cbn [now_micros journal_rpc] in Hrun. unfold unlogged in Hrun. cbn [fst snd] in Hrun.
        destruct (now_micros e) as [now e']. injection Hrun as _ <-. split; [done|]. right.
        by exists tx.
      * injection Hrun as _ <-. split; [done|]. by left.
    + cbn [now_micros journal_rpc p_env] in Hrun. unfold unlogged in Hrun.
      destruct (now_micros (p_env w).1) as [now e']. injection Hrun as _ <-. split; [done|]. by left.
  - rewrite Hb in Hrun. injection Hrun as _ <-. split; [done|]. by left.
Qed.

Lemma run_jobs_send s configs jobs schedule (w : Process (Logged E)) rs w' :
  valid_budget (p_budget w) → Forall2 job_for configs jobs → NoDup schedule →
  run_jobs s jobs schedule w = (rs, w') →
  valid_budget (p_budget w') ∧
  ∃ idx new, log w' = log w ++ new ∧ idx `sublist_of` schedule
    ∧ Forall2 (sent_as s configs) idx new.
Proof.
  intros Hv Hj. revert w rs Hv. induction schedule as [|i schedule IH]; intros w rs Hv Hnd Hrun.
  { injection Hrun as _ <-. split; [done|]. exists [], []. by rewrite app_nil_r. }
  apply NoDup_cons in Hnd as [_ Hnd]. cbn [run_jobs] in Hrun.
  destruct (jobs !! i) as [job|] eqn:Hi.
  - destruct (Forall2_lookup_r _ _ _ _ _ Hj Hi) as ([c v] & Hc & Hfor).
    destruct (run_one_swqos_job s job w) as [r w1] eqn:Hone.
    destruct (run_jobs s jobs schedule w1) as [rs' w2] eqn:Hrest. injection Hrun as _ <-.
    apply run_job_sends with (config := (c, v)) in Hone as [Hv1 Hone]; [|done..].
    destruct (IH _ _ Hv1 Hnd Hrest) as (Hv2 & idx & new & Hlog & Hsub & Hnew). split; [done|].
    destruct Hone as [Hsame|(tx & Hsent & Htx)].
    + exists idx, new. rewrite Hlog, Hsame. split; [done|]. split; [by apply sublist_cons|done].
    + exists (i :: idx), ((c, tx) :: new). rewrite Hlog, Hsent, <- app_assoc. split; [done|].
      split; [by apply sublist_skip|]. constructor; [|done]. exists v, (job_tip_account job).
      split; [done|]. split; [apply Hfor|done].
  - destruct (IH _ _ Hv Hnd Hrun) as (Hv2 & idx & new & Hlog & Hsub & Hnew). split; [done|].
    exists idx, new. split; [done|]. split; [by apply sublist_cons|done].
Qed.

Lemma task_configs_clients clients with_tip check configs c v :
  (c, v) ∈ task_configs clients with_tip check configs → c ∈ clients.
Proof.
  unfold task_configs. rewrite list_elem_of_In, in_concat. intros (l & Hl & Hin).
  apply list_elem_of_In, list_elem_of_fmap in Hl as (c' & -> & Hc).
  rewrite <- list_elem_of_In in Hin.
  destruct (negb with_tip && _); [by inversion Hin|].
  apply list_elem_of_fmap in Hin as (config & [= -> _] & _). done.
Qed.

Lemma checked_configs_clients clients is_buy with_tip nonce gfs check configs :
  distinct clients → checked_configs clients is_buy with_tip nonce gfs check = Ok configs →
  distinct (map fst configs).
Proof.
  intros Hd Hc.
  assert (Hin : ∀ c, c ∈ map fst configs → c ∈ clients).
  { intros c ((c' & v) & -> & Hcv)%list_elem_of_fmap. cbn [fst]. revert Hc. unfold checked_configs.
    destruct clients as [|c0 l]; [done|]. destruct (_ && _); [done|].
    destruct (task_configs _ _ _ _) as [|x tl] eqn:Ht; [done|].
    destruct (_ && _); [done|]. intros [= <-]. rewrite <- Ht in Hcv.
    by eapply task_configs_clients. }
  intros c1 c2 H1c H2c. apply Hd; auto.
Qed.

(** What a submission sends. *)
Definition sends (s : SwqosSharedContext) (configs : list (SwqosClient * GasFeeStrategyValue))
    (w w' : Process (Logged E)) : Prop :=
  ∃ idx new, log w' = log w ++ new ∧ NoDup idx ∧ Forall2 (sent_as s configs) idx new.

Lemma execute_sends clients s gfs check (w : Process (Logged E)) r w' :
  valid_budget (p_budget w) → distinct clients →
  execute_parallel clients s gfs check w = Val (r, w') →
  valid_budget (p_budget w') ∧
  (log w' = log w
   ∨ ∃ configs, checked_configs clients (sh_is_buy s) (sh_with_tip s) (sh_durable_nonce s) gfs check
                = Ok configs ∧ sends s configs w w').
Proof.
  intros Hv Hd. unfold execute_parallel. unfold mbind at 1, of_res.
  destruct (checked_configs clients _ _ _ gfs check) as [configs|m] eqn:Hc;
    [|intros [= <- <-]; split; [done|]; by left].
  unfold mbind at 1. destruct (make_jobs_total configs ∅ w) as (jobs & w1 & Hm & _).
  rewrite Hm. apply make_jobs_for in Hm as (Hjobs & Hlog & Hb);
    [|by eapply checked_configs_clients|by intros c a _; rewrite lookup_empty].
  unfold mbind at 1, in_env, ask. cbn [completion logged_sending]. unfold unlogged.
  pose proof (completion_once (length jobs) (p_env w1).1) as Hnd.
  destruct (completion (length jobs) (p_env w1).1) as [schedule e].
  unfold mbind, mret. destruct (run_jobs _ _ _ _) as [rs w2] eqn:Hrun. intros [= <- <-].
  apply run_jobs_send with (configs := configs) in Hrun as (Hv' & idx & new & Hl & Hsub & Hnew);
    [|cbn [p_budget]; by rewrite Hb|done..].
  split; [done|]. right. exists configs. split; [done|]. exists idx, new.
  split; [rewrite Hl; f_equal; exact Hlog|]. split; [|done].
  by eapply sublist_NoDup.
Qed.

(** Polling sends nothing. *)
Lemma poll_keeps_log signatures wait :
  keeps (λ e e' : Logged E, e'.2 = e.2) (poll_any_transaction_confirmation signatures wait).
Proof.
  assert (Hpre : PreOrder (λ e e' : Logged E, e'.2 = e.2)).
  { split; [by intros e|]. intros e1 e2 e3 ? ?. congruence. }
  assert (Honce : ∀ start n landed,
    keeps (λ e e' : Logged E, e'.2 = e.2) (poll_once signatures start n landed)).
  { intros start n landed e r e'. unfold poll_once. case_match; [by intros [= _ <-]|].
    cbn [rpc_get_signature_statuses logged_confirm]. unfold unlogged at 1.
    destruct (rpc_get_signature_statuses signatures e.1) as [[st|m] e1]; [|by intros [= _ <-]].
    destruct (scan_statuses signatures st 0 landed) as [[s|[s|]]|]; cbn [exec_bind];
      [by intros [= _ <-]| |by intros [= _ <-]|done].
    case_match; [by intros [= _ <-]|]. cbn [rpc_get_transaction logged_confirm]. unfold unlogged.
    cbn [fst snd]. destruct (rpc_get_transaction s e1) as [[[meta|]|m] e2]; try by intros [= _ <-].
    destruct (tm_err meta); by intros [= _ <-]. }
  assert (Hloop : ∀ fuel start n landed,
    keeps (λ e e' : Logged E, e'.2 = e.2) (poll_loop fuel signatures start n landed)).
  { induction fuel as [|fuel IH]; intros start n landed; cbn [poll_loop]; [apply keeps_ret, _|].
    apply keeps_bind; [done|apply Honce|]. intros [r|l]; [apply keeps_ret, _|apply IH]. }
  unfold poll_any_transaction_confirmation. destruct signatures as [|s l]; [apply keeps_ret, _|].
  destruct wait; [|apply keeps_ret, _]. cbn [negb].
  apply keeps_bind; [done|by apply keeps_ask|]. intros start.
  apply keeps_bind; [done|apply Hloop|]. intros [r|]; [apply keeps_ret, _|apply keeps_panic].
Qed.

Lemma confirm_keeps_log inf p sub (w : Process (Logged E)) r w' :
  confirm inf p sub w = Val (r, w') → same_log w w' ∧ p_budget w' = p_budget w.
Proof.
  unfold confirm. destruct sub as [[[ok sigs] err] ts]. case_match; [|by intros [= _ <-]].
  unfold mbind, in_env. destruct (poll_any_transaction_confirmation sigs true (p_env w))
    as [[[x|m] e]|] eqn:Hp; [| |done]; intros [= _ <-];
    (split; [by apply poll_keeps_log in Hp|done]).
Qed.

Lemma final_keeps_log x inf p (w : Process (Logged E)) r w' :
  final_instructions x inf p w = Val (r, w') → same_log w w' ∧ p_budget w' = p_budget w.
Proof.
  intros Hf. apply final_instructions_env in Hf as [He Hb]. split; [|done].
  unfold same_log, log. rewrite He. apply unlogged_log.
Qed.

(** The course of a trade. *)
Lemma swap_run x inf p (w : Process (Logged E)) r w' :
  simulate p = false → valid_budget (p_budget w) → distinct (swqos_clients inf) →
  generic_swap x inf p w = Val (r, w') →
  valid_budget (p_budget w') ∧
  (log w' = log w
   ∨ ∃ ixs w1 configs, final_instructions x inf p w = Val (Ok ixs, w1)
     ∧ checked_configs (swqos_clients inf) (is_buy_trade (trade_type p))
         (if is_buy_trade (trade_type p) then true else with_tip p) (durable_nonce p)
         (gas_fee_strategy p) (check_min_tip p) = Ok configs
     ∧ sends (shared_context x inf p ixs) configs w w').
Proof.
  intros Hs Hv Hd. unfold generic_swap. rewrite Hs. unfold mbind at 1.
  destruct (final_instructions x inf p w) as [[[ixs|m] w1]|] eqn:Hf; [| |done];
    apply final_keeps_log in Hf as Hf'; destruct Hf' as [Hl1 Hb1];
    [|intros [= _ <-]; split; [by rewrite Hb1|by left]].
  rewrite <- Hb1 in Hv. unfold mbind, submit, attempt, mbind.
  destruct (execute_parallel (swqos_clients inf) (shared_context x inf p ixs) (gas_fee_strategy p)
              (check_min_tip p) w1) as [[sub w2]|] eqn:He; [|done].
  apply execute_sends in He as (Hv2 & He); [|done..]. unfold mbind, mret.
  intros (Hl3 & Hb3)%confirm_keeps_log. split; [by rewrite Hb3|].
  unfold same_log in *. destruct He as [He|(configs & Hc & idx & new & Hn & Hnd & Hf2)].
  - left. by rewrite Hl3, He.
  - right. exists ixs, w1, configs. split; [done|]. split; [exact Hc|]. exists idx, new.
    split; [by rewrite Hl3, Hn, Hl1|done].
Qed.

(** Nothing is sent, and a right compute-budget cache stays right. *)
Definition quiet (w w' : Process (Logged E)) : Prop :=
  same_log w w' ∧ (valid_budget (p_budget w) → valid_budget (p_budget w')).
#[local] Instance quiet_preorder : PreOrder quiet.
Proof.
  split; [by intros w|]. intros w1 w2 w3 [H1l H1b] [H2l H2b]. split; [by etrans|auto].
Qed.

Lemma build_valid payer limit price business alt recent mws name is_buy with_tip tip_account
    tip_amount nonce cache r cache' :
  valid_budget cache →
  build_transaction payer limit price business alt recent mws name is_buy with_tip
    tip_account tip_amount nonce cache = Val (r, cache') → valid_budget cache'.
Proof.
  intros Hv Hb.
  pose proof (build_transaction_refines payer limit price business alt recent mws name is_buy
    with_tip tip_account tip_amount nonce cache Hv) as Hr.
  rewrite Hb in Hr. destruct (transaction_spec _ _ _ _ _ _ _ _ _ _ _ _ _) as [x|]; [|done].
  destruct Hr as (c & [= _ ->] & Hc). done.
Qed.

Lemma simulate_quiet inf name ixs p is_buy with_tip :
  keeps quiet (simulate_transaction (E := Logged E) inf name ixs p is_buy with_tip).
Proof.
  unfold simulate_transaction. destruct (rpc inf); [|apply keeps_fail, _]. cbn [negb].
  apply keeps_bind; [apply _|apply keeps_of_res, _|]. intros config.
  apply keeps_bind; [apply _| |].
  { intros w1 r w'. unfold in_budget.
    destruct (build_transaction _ _ _ _ _ _ _ _ _ _ _ _ _ _) as [[y c]|] eqn:Hb; [|done].
    intros [= _ <-]. split; [done|]. intros Hv. by eapply build_valid. }
  intros tx. apply keeps_bind; [apply _| |].
  { apply keeps_in_env. intros w1 r e. unfold call. cbn [rpc_simulate_transaction logged_simulation].
    pose proof (unlogged_log (rpc_simulate_transaction tx) (p_env w1)) as Hu.
    destruct (unlogged (rpc_simulate_transaction tx) (p_env w1)) as [a e']. by intros [= _ <-]. }
  intros err. apply keeps_bind; [apply _|apply keeps_of_res, _|]. intros sig. apply keeps_ret, _.
Qed.

(** A simulated trade sends nothing. *)
Lemma simulation_run x inf p (w : Process (Logged E)) r w' :
  simulate p = true → valid_budget (p_budget w) → generic_swap x inf p w = Val (r, w') →
  log w' = log w ∧ valid_budget (p_budget w').
Proof.
  intros Hs Hv. unfold generic_swap. rewrite Hs. unfold mbind at 1.
  destruct (final_instructions x inf p w) as [[[ixs|m] w1]|] eqn:Hf; [| |done];
    apply final_keeps_log in Hf as [Hl1 Hb1]; [|intros [= _ <-]; by rewrite Hb1].
  intros [Hl2 Hv2]%simulate_quiet. rewrite <- Hb1 in Hv. split; [by etrans|auto].
Qed.

Lemma sends_at_most s configs (w w' : Process (Logged E)) :
  sends s configs w w' → (length (log w') ≤ length (log w) + length configs)%nat.
Proof.
  intros (idx & new & -> & Hnd & Hf). rewrite length_app. apply Nat.add_le_mono_l.
  rewrite <- (Forall2_length _ _ _ Hf). transitivity (length (seq 0 (length configs)));
    [|by rewrite length_seq]. apply submseteq_length, NoDup_submseteq; [done|].
  intros i Hi. apply elem_of_seq. apply list_elem_of_lookup in Hi as [k Hk].
  destruct (Forall2_lookup_l _ _ _ _ _ Hf Hk) as (m & _ & v & a & Hc & _).
  apply lookup_lt_Some in Hc. lia.
Qed.

(** C4. A purchase without a durable nonce sends one transaction at most, whatever
    channels and strategies there are: it cannot be executed twice. *)
Theorem purchase_sends_once x inf p (w : Process (Logged E)) r w' :
  simulate p = false → is_buy_trade (trade_type p) = true → durable_nonce p = None →
  valid_budget (p_budget w) → distinct (swqos_clients inf) →
  generic_swap x inf p w = Val (r, w') → (length (log w') ≤ length (log w) + 1)%nat.
Proof.
  intros Hs Hb Hn Hv Hd Hg.
  apply swap_run in Hg as (_ & [->|(ixs & w1 & configs & _ & Hc & Hsend)]); [lia| |done..].
  apply sends_at_most in Hsend. rewrite Hb, Hn in Hc. revert Hc. unfold checked_configs.
  destruct (swqos_clients inf); [done|]. cbn [negb andb].
  destruct (task_configs _ _ _ _) as [|y [|z tl]]; [done| |done]. intros [= <-]. exact Hsend.
Qed.

(** ** Many trades *)

(** [m] is what some trade, not a dry run, asks a configured channel to send. *)
Definition genuine (inf : Infrastructure) (m : Sent) : Prop :=
  ∃ x p ixs v account (w w' : Process (Logged E)),
    simulate p = false ∧ final_instructions x inf p w = Val (Ok ixs, w')
    ∧ m.1 ∈ swqos_clients inf ∧ tip_target m.1 account
    ∧ transaction_of (shared_context x inf p ixs) m.1 v account = Val (Ok m.2).

Inductive trade_step (inf : Infrastructure) (w w' : Process (Logged E)) : Prop :=
| a_trade x p r : generic_swap x inf p w = Val (r, w') → trade_step inf w w'.

Lemma checked_client clients is_buy with_tip nonce gfs check configs i c v :
  checked_configs clients is_buy with_tip nonce gfs check = Ok configs →
  configs !! i = Some (c, v) → c ∈ clients.
Proof.
  intros Hc Hi. apply list_elem_of_lookup_2 in Hi. revert Hc. unfold checked_configs.
  destruct clients as [|c0 l]; [done|]. destruct (_ && _); [done|].
  destruct (task_configs _ _ _ _) as [|y tl] eqn:Ht; [done|].
  destruct (_ && _); [done|]. intros [= <-]. rewrite <- Ht in Hi. by eapply task_configs_clients.
Qed.

Lemma trade_keeps_genuine inf (w w' : Process (Logged E)) :
  distinct (swqos_clients inf) → trade_step inf w w' →
  valid_budget (p_budget w) ∧ Forall (genuine inf) (log w) →
  valid_budget (p_budget w') ∧ Forall (genuine inf) (log w').
Proof.
  intros Hd [x p r Hg] [Hv Hf]. destruct (simulate p) eqn:Hs.
  - apply simulation_run in Hg as [Hl Hb]; [|done..]. by rewrite Hl.
  - apply swap_run in Hg as [Hv' Hg]; [|done..]. split; [done|].
    destruct Hg as [->|(ixs & w1 & configs & Hfin & Hc & idx & new & -> & _ & Hnew)]; [done|].
    apply Forall_app. split; [done|]. apply Forall_forall. intros m (k & Hk)%list_elem_of_lookup.
    destruct (Forall2_lookup_r _ _ _ _ _ Hnew Hk) as (i & _ & v & account & Hi & Ht & Htx).
    exists x, p, ixs, v, account, w, w1. split_and!; try done. by eapply checked_client.
Qed.

(** C3. Whatever trades are made, one after the other, from a process with a right
    compute-budget cache, everything that has been sent is what some trade's
    builder and a strategy made, for a configured channel, with its tip for an
    account of that channel's service; and the cache stays right. *)
Theorem only_genuine_sent inf (w w' : Process (Logged E)) :
  distinct (swqos_clients inf) → valid_budget (p_budget w) → log w = [] →
  rtc (trade_step inf) w w' →
  Forall (genuine inf) (log w') ∧ valid_budget (p_budget w').
Proof.
  intros Hd Hv Hl Hr.
  assert (Hi : valid_budget (p_budget w) ∧ Forall (genuine inf) (log w)) by by rewrite Hl.
  clear Hv Hl. induction Hr as [|w w1 w2 Hstep _ IH]; [by destruct Hi|].
  apply IH. by eapply trade_keeps_genuine.
Qed.
End Sent.

(** ** A trade and what it sends *)

Abbreviation LoggedSim := (Journal (SwqosClient * @VersionedTransaction toy_tx_sdk) Sim).

Definition logged_process (w : Process Sim) : Process LoggedSim :=
  mk_Proc (p_env w, []) (p_chain w) (p_budget w).

Definition toy_logged_swap (p : SwapParams) :
    exec (result string (SwapResult AnyError) * Process LoggedSim) :=
  @generic_swap toy_sdk toy_tx_sdk LoggedSim journal_rpc logged_confirm
    (@logged_sending toy_tx_sdk Sim toy_sending) (@logged_simulation toy_tx_sdk Sim toy_simulation)
    toy_text toy_sha toy_hash_order toy_error_text toy_executor rpc_only p
    (logged_process toy_process).

Definition logged_start : Process LoggedSim := logged_process toy_process.
Definition logged_after : Process LoggedSim :=
  outcome_env logged_start (toy_logged_swap toy_purchase).

Example toy_purchase_sent : length (log logged_after) = 1%nat.
Proof. vm_compute. reflexivity. Qed.

Lemma rpc_only_distinct : distinct (swqos_clients rpc_only).
Proof. intros c c' [->|?%elem_of_nil]%elem_of_cons [->|?%elem_of_nil]%elem_of_cons; done. Qed.

Lemma only_genuine_sent_witness :
  Forall (@genuine toy_sdk toy_tx_sdk Sim toy_sending toy_text rpc_only) (log logged_after)
  ∧ @valid_budget toy_tx_sdk (p_budget logged_after).
Proof.
  apply (@only_genuine_sent toy_sdk toy_tx_sdk Sim sim_rpc sim_confirm toy_sending toy_simulation
    toy_text toy_sha toy_hash_order toy_error_text rpc_only logged_start logged_after).
  - apply rpc_only_distinct.
  - apply valid_budget_empty.
  - reflexivity.
  - apply rtc_once. econstructor. apply (outcome_eq logged_start (toy_logged_swap toy_purchase)
      (Ok (true, ["11/1146/5"], None, [(SwDefault, 42)]))). vm_compute. reflexivity.
Defined.

Lemma purchase_sends_once_witness : (length (log logged_after) ≤ length (log logged_start) + 1)%nat.
Proof.
  apply (@purchase_sends_once toy_sdk toy_tx_sdk Sim sim_rpc sim_confirm toy_sending toy_simulation
    toy_text toy_sha toy_hash_order toy_error_text toy_executor rpc_only toy_purchase logged_start
    (Ok (true, ["11/1146/5"], None, [(SwDefault, 42)])) logged_after eq_refl eq_refl eq_refl).
  - apply valid_budget_empty.
  - apply rpc_only_distinct.
  - apply outcome_eq. vm_compute. reflexivity.
Defined.
