(* ===== verification/Bot.v ===== *)
(** * The bot from start to trade (bot main.rs, config.rs, strategy.rs)

    Reading the configuration, making the strategy with its trader and store,
    subscribing to the stream and entering the monitoring loop, on the process
    that the client and the executor run on.  Reading a file, the JSON reader
    and the text of a key pair are dependencies; the tasks of the stream are
    in [Stream]. *)

From Stdlib Require Import String.
From S2P Require Import Prelude F64 Solana Spl FastFn GasFee Effects PumpSwapUtils Borsh Params TradeStore Client Trader Grpc TxBuild Channels Confirm Submit Http Quic Sender Executor Startup Strategy Stream.

#[local] Open Scope string_scope.
#[local] Open Scope Z_scope.
#[local] Open Scope list_scope.

(** ** The configuration *)

(** The object of the file: a field without a default must be there. *)
Record RawConfig := mk_RawConfig {
  raw_grpc_url : string;
  raw_rpc_url : string;
  raw_grpc_token : option string;
  raw_private_key : string;
  raw_target_mint : string;
  raw_buy_amount_sol : f64;
  raw_hold_seconds : Z;
  raw_slippage_bps : Z;
  raw_max_retries : option Z;
  raw_retry_delay_ms : option Z;
  raw_jito_enabled : option bool;
  raw_jito_uuid : option string;
  raw_jito_region : option string;
  raw_redis_url : option string;
  raw_max_trades_per_token : option Z;
  raw_buy_threshold_pct : option f64;
  raw_buy_time_window_sec : option Z;
  raw_buy_record_count : option Z;
  raw_sell_profit_pct : option f64;
  raw_sell_stop_loss_pct : option f64;
}.

(** The file system, [serde_json] on an object of these fields, and key pairs, known by their
    public key. *)
Class Host := {
  read_to_string : string → result string string;
  json_object : string → result string RawConfig;
  try_from_base58_string : string → result string Pubkey;
}.

(* bot config.rs:11-43 BotConfig, Deserialize *)
Definition with_defaults (r : RawConfig) : BotConfig :=
  mk_BotConfig (raw_grpc_url r) (raw_rpc_url r) (raw_grpc_token r) (raw_private_key r)
    (raw_target_mint r) (raw_buy_amount_sol r) (raw_hold_seconds r) (raw_slippage_bps r)
    (default default_max_retries (raw_max_retries r))
    (default default_retry_delay_ms (raw_retry_delay_ms r))
    (default default_jito_enabled (raw_jito_enabled r))
    (raw_jito_uuid r)
    (default default_jito_region (raw_jito_region r))
    (default default_redis_url (raw_redis_url r))
    (default default_max_trades_per_token (raw_max_trades_per_token r))
    (default default_buy_threshold_pct (raw_buy_threshold_pct r))
    (default default_buy_time_window_sec (raw_buy_time_window_sec r))
    (default default_buy_record_count (raw_buy_record_count r))
    (default default_sell_profit_pct (raw_sell_profit_pct r))
    (default default_sell_stop_loss_pct (raw_sell_stop_loss_pct r)).

Section Config.
Context `{Host} `{KeyText}.

(* bot config.rs:90-96 from_file *)
Definition from_file (path : string) : result string BotConfig :=
  match read_to_string path with
  | Err _ => Err ("Failed to read config file: " +:+ path)
  | Ok config_str =>
      match json_object config_str with
      | Err _ => Err "Failed to parse config JSON"
      | Ok r => Ok (with_defaults r)
      end
  end.

(* bot config.rs:98-101 get_keypair *)
Definition get_keypair (c : BotConfig) : result string Pubkey :=
  match try_from_base58_string (private_key c) with
  | Ok k => Ok k
  | Err e => Err ("Invalid private key: " +:+ e)
  end.

(* bot config.rs:103-107 get_pubkey *)
Definition get_pubkey (c : BotConfig) : result string Pubkey := get_keypair c.

(* bot config.rs:109-112 get_target_mint *)
Definition get_target_mint (parse_error : string) (c : BotConfig) : result string Pubkey :=
  match pubkey_from_str (target_mint c) with
  | Some k => Ok k
  | None => Err ("Invalid target mint address: " +:+ parse_error)
  end.
End Config.

(** ** The store, seen from the process *)

#[export] Instance process_redis {E : Type} `{Redis E} : Redis (Process E).
Proof.
  refine {|
    redis_open := redis_open;
    redis_connect := Executor.lift redis_connect;
    redis_sismember := λ k m, Executor.lift (redis_sismember k m);
    redis_atomic := λ l, Executor.lift (redis_atomic l);
    redis_lrange := λ k a b, Executor.lift (redis_lrange k a b);
    redis_keys := λ p, Executor.lift (redis_keys p);
    db := λ w, db (p_env w);
  |}; intros *; unfold Executor.lift; case_match eqn:Hc; intros [= <- <-]; simpl.
  - by eapply redis_connect_db.
  - by eapply redis_sismember_db.
  - by eapply redis_atomic_db.
  - by eapply redis_lrange_db.
  - by eapply redis_keys_db.
Defined.

(** ** Start *)

(** The strategy that was made: its configuration, the client of its trader with the channels,
    and its store.  The trader itself, the positions and the remembered pools are in
    [Strategy.World]. *)
(* bot strategy.rs:24-30 TradingStrategy *)
Record TradingStrategy := mk_Strategy {
  ts_config : BotConfig;
  ts_client : TradingClient;
  ts_infrastructure : TradingInfrastructure;
  ts_redis_store : option RedisStore;
}.

Section Bot.
Context `{Host} `{Build} `{Sdk} {E : Type} `{Confirm E} `{TxErrorText} `{TxSdk} `{!Codec}
  `{!Wire E} `{!QuicNet E} `{!NodeTx E} `{!Simulation E} `{!Scheduler E} `{KeyText} `{Machine}
  `{Sha256} `{HashOrder} `{SplAta} `{Borsh} `{Redis E} `{TradeJson} `{Yellowstone E}.

(** A store that cannot be opened is a warning. *)
(* bot strategy.rs:49-58 new, redis_store *)
Definition open_store (config : BotConfig) : option RedisStore :=
  match store_new (redis_url config) (cfg_max_trades_per_token config) with
  | Ok store => Some store
  | Err _ => None
  end.

(* bot strategy.rs:33-67 new *)
Definition strategy_new (config : BotConfig) : M (Process E) (TradingStrategy * Trader) :=
  let% keypair := of_res (get_keypair config) in
  let% r := with_context "Failed to create Trader instance"
              (new_with_options (rpc_url config) keypair (cfg_slippage_bps config)
                 (cfg_max_retries config) (cfg_retry_delay_ms config) (jito_enabled config)
                 (jito_uuid config) (jito_region config)) in
  let '(trader, client, ti) := r in
  mret (mk_Strategy config client ti (open_store config), trader).

(** The monitoring loop, over the client of the strategy. *)
Definition monitor (s : TradingStrategy) (n : nat) : M (World (Process E)) () :=
  let trading := bot_trading (ts_client s) (ts_infrastructure s) in
  monitoring_loop (ts_config s) (ts_redis_store s) n.

(** The receiving task that is spawned is in [Stream]. *)
(* bot strategy.rs:101-156 start_grpc_subscription *)
Definition start_grpc_subscription (s : TradingStrategy) : M (Process E) () :=
  with_context "Failed to start gRPC subscription"
    (in_env (subscribe (grpc_url (ts_config s)) (grpc_token (ts_config s)))).

(** [n] rounds of the loop. *)
(* bot strategy.rs:90-99 start_monitoring *)
Definition start_monitoring (s : TradingStrategy) (n : nat) : M (World (Process E)) () :=
  let% _ := Strategy.lift (start_grpc_subscription s) in monitor s n.

(* bot strategy.rs:69-88 run *)
Definition run (s : TradingStrategy) (n : nat) : M (World (Process E)) () := start_monitoring s n.

(** The whole program, with the path of its configuration; the strategy starts without positions
    and remembered pools. *)
(* bot main.rs:22-40 main *)
Definition main (path : string) (n : nat) (w : Process E) :
    exec (result string () * Process E) :=
  match from_file path with
  | Err e => Val (Err e, w)
  | Ok config =>
      match strategy_new config w with
      | Val (Ok (s, trader), w1) =>
          match run s n (mk_World w1 trader ∅ ∅) with
          | Val (r, w2) => Val (r, env w2)
          | Panic => Panic
          end
      | Val (Err e, w1) => Val (Err e, w1)
      | Panic => Panic
      end
  end.

(** ** A bot with Jito never closes a position *)

Lemma strategy_new_inv config w s t w1 :
  strategy_new config w = Val (Ok (s, t), w1) →
  ts_config s = config ∧ ts_redis_store s = open_store config ∧
  ∃ keypair w1',
  new_with_options (rpc_url config) keypair (cfg_slippage_bps config) (cfg_max_retries config)
    (cfg_retry_delay_ms config) (jito_enabled config) (jito_uuid config) (jito_region config) w
  = Val (Ok (t, ts_client s, ts_infrastructure s), w1').
Proof.
  unfold strategy_new. intros Hn. m_inv. destruct a0 as [[t1 client] ti].
  apply mret_inv in Hn as [[= <- <-] <-]. cbn. eauto 6.
Qed.

Section Unsellable.
Context (config : BotConfig) (store : option RedisStore) `{!Trading (Process E)}.
Hypothesis no_sale : ∀ t info w r w', trader_sell t info w = Val (r, w') → ∃ msg, r = Err msg.

Abbreviation World' := (World (Process E)).

Lemma sell_keeps_positions mint info (w w' : World') r :
  execute_sell mint info w = Val (r, w') → positions w' = positions w.
Proof.
  unfold execute_sell, mbind, get. destruct (Strategy.lift _ w) as [[[[]|m] w1]|] eqn:Hl; [| |done].
  - apply lift_inv in Hl as [Hl _]. by apply no_sale in Hl as [? [=]].
  - intros [= <- <-]. by apply lift_frame in Hl as [Hp _].
Qed.

Lemma check_grows mint (w w' : World') r :
  check_mint config store mint w = Val (r, w') → positions w ⊆ positions w'.
Proof.
  unfold check_mint, is_holding, mbind, get. case_bool_decide as Hh.
  - unfold check_sell_condition, mbind, get.
    destruct (positions w !! mint) as [p|] eqn:Hp; [|by intros [= <- <-]].
    destruct (get_latest_trade_price store mint w) as [[[[price|]|x] w1]|] eqn:Hl; [| | |done];
      apply latest_price_frame in Hl as [Hp1 _]; [|intros [= <- <-]; by rewrite Hp1..].
    destruct (wants_to_sell _ _ _); [|intros [= <- <-]; by rewrite Hp1].
    intros Hs%sell_keeps_positions. by rewrite Hs, Hp1.
  - intros [_ Hp]%check_buy_frame. destruct Hp as [[-> _]|(Hn & _ & _ & info & _ & _ & ->)]; [done|].
    by apply insert_subseteq.
Qed.

Lemma checks_grow l : ∀ (w w' : World') r,
  check_mints config store l w = Val (r, w') → positions w ⊆ positions w'.
Proof.
  induction l as [|mint l IH]; intros w w' r; [by intros [= <- <-]|].
  cbn [check_mints]. unfold mbind.
  destruct (check_mint config store mint w) as [[[u|x] w1]|] eqn:Hm; [| |done];
    apply check_grows in Hm; [intros ?%IH; by etrans|by intros [= <- <-]].
Qed.

Lemma loop_grows n : ∀ (w w' : World') r,
  monitoring_loop config store n w = Val (r, w') → positions w ⊆ positions w'.
Proof.
  induction n as [|n IH]; intros w w' r; [by intros [= <- <-]|].
  cbn [monitoring_loop]. unfold mbind at 1.
  destruct (round config store w) as [[r1 w1]|] eqn:Hr; [|done].
  assert (positions w ⊆ positions w1) as Hg.
  { revert Hr. unfold round, mbind.
    destruct (strategy_active_mints store w) as [[ra wa]|] eqn:Ha; [|done].
    assert (positions wa = positions w) as Hp.
    { unfold strategy_active_mints in Ha. destruct store; [by apply lift_frame in Ha as [? _]|].
      by injection Ha as _ <-. }
    destruct ra as [l|x]; [|intros [= _ <-]; by rewrite Hp].
    destruct (check_mints config store l wa) as [[[u|x] w2]|] eqn:Hm; [| |done];
      apply checks_grow in Hm; rewrite Hp in Hm; [|by intros [= _ <-]].
    intros [Hp2 _]%lift_frame. by rewrite Hp2. }
  destruct r1 as [u|x]; [intros ?%IH; by etrans|by intros [= _ <-]].
Qed.
End Unsellable.

(** C10. A bot started with Jito enabled never closes a position: whatever the
    trades and prices, every position that is open stays open as it is through
    any number of rounds.  (No time-out elapses while its channels are made.) *)
Theorem jito_bot_keeps_positions config w s t w1 n world r world' :
  (∀ ms e, rpc_timeout ms e = None) →
  jito_enabled config = true →
  strategy_new config w = Val (Ok (s, t), w1) →
  run s n world = Val (r, world') →
  ∀ mint p, positions world !! mint = Some p → positions world' !! mint = Some p.
Proof.
  intros Ht Hj Hs Hr mint p. apply strategy_new_inv in Hs as (_ & _ & keypair & w1' & Hn).
  rewrite Hj in Hn. unfold run, start_monitoring, mbind in Hr.
  destruct (Strategy.lift _ world) as [[[u|x] world1]|] eqn:Hl; [| |done];
    apply lift_frame in Hl as [<- _]; [|injection Hr as _ <-; done].
  intros Hp. unfold monitor in Hr. apply loop_grows in Hr; [by eapply lookup_weaken|].
  intros t' info w2 r2 w3 Hsell.
  by eapply jito_bot_never_sells; [| |exact Hsell].
Qed.

(** ** A bot without Redis does nothing *)

Lemma subscribe_returns url token (e : E) : ∃ e', subscribe url token e = Val (Ok (), e').
Proof.
  unfold subscribe, run_subscription, mbind, attempt, mfail, call, mret.
  destruct (yellowstone_new url token); [|by eexists].
  destruct (subscribe_events_immediate (subscription url token) e) as [[[]|m] e1]; by eexists.
Qed.

Lemma idle_loop config `{!Trading (Process E)} n : ∀ world : World (Process E),
  monitoring_loop config None n world
  = Val (Ok (), mk_World (Nat.iter n (sleep_ms 1000) (env world)) (trader world)
                  (positions world) (trade_info_cache world)).
Proof.
  induction n as [|n IH]; intros [e t p c]; [done|].
  cbn [monitoring_loop]. unfold mbind at 1, round, strategy_active_mints, mbind, mret, check_mints,
    mret, Strategy.lift, effect. cbn [env trader positions trade_info_cache].
  rewrite IH. cbn [env trader positions trade_info_cache]. by rewrite Nat.iter_succ_r.
Qed.

(** The rounds of a strategy without a store. *)
Lemma run_without_store s n (world : World (Process E)) :
  ts_redis_store s = None →
  ∃ e, start_grpc_subscription s (env world) = Val (Ok (), e) ∧
  run s n world
  = Val (Ok (), mk_World (Nat.iter n (sleep_ms 1000) e) (trader world) (positions world)
                  (trade_info_cache world)).
Proof.
  intros Hst.
  destruct (subscribe_returns (grpc_url (ts_config s)) (grpc_token (ts_config s))
    (p_env (env world))) as [e He].
  assert (start_grpc_subscription s (env world)
    = Val (Ok (), mk_Proc e (p_chain (env world)) (p_budget (env world)))) as Hg.
  { unfold start_grpc_subscription, with_context, in_env. by rewrite He. }
  eexists. split; [exact Hg|].
  unfold run, start_monitoring, mbind, Strategy.lift. rewrite Hg. unfold monitor. rewrite Hst.
  by rewrite idle_loop.
Qed.

(** The configuration that the client of the bot is made with. *)
Definition client_config (config : BotConfig) : TradeConfig :=
  bot_trade_config (rpc_url config)
    (bot_swqos_configs (rpc_url config) (jito_enabled config) (jito_uuid config)
       (jito_region config)).

(** Making the strategy never returns an error once the key is good. *)
Lemma strategy_new_outcome config keypair w :
  get_keypair config = Ok keypair →
  (∃ s t w1, strategy_new config w = Val (Ok (s, t), w1)) ∨
  strategy_new config w = Panic ∧ client_panics keypair (client_config config) w.
Proof.
  intros Hk. unfold strategy_new, new_with_options. rewrite Hk. fold (client_config config).
  unfold mbind, of_res, with_context.
  destruct (client_new_outcome keypair (client_config config) w)
    as [(client & ti & w' & Hc)|[Hc Hp]]; rewrite Hc; [left; by eexists _, _, _|by right].
Qed.

(** C11. A bot whose store cannot be opened, with a readable configuration and a
    good key, starts without an error and then only sleeps: whatever the stream
    brings, no round looks at any mint, nothing is bought and nothing sold.
    The whole program reports success after any number of rounds, the last
    state of the environment being that of the subscription after as many
    pauses.  The start fails only by the panic it has with any store, when the
    client of the trader cannot be made: the caches cannot be filled, or the
    wallet has the lamports for its wrapped-SOL account and does not get it. *)
Theorem no_redis_no_trades path config keypair err w :
  from_file path = Ok config →
  get_keypair config = Ok keypair →
  redis_open (redis_url config) = Err err →
  (∃ s t w1, strategy_new config w = Val (Ok (s, t), w1) ∧
    (∀ n, ∃ e, start_grpc_subscription s w1 = Val (Ok (), e)
       ∧ main path n w = Val (Ok (), Nat.iter n (sleep_ms 1000) e)) ∧
    ∀ n world, ∃ e, start_grpc_subscription s (env world) = Val (Ok (), e)
       ∧ run s n world = Val (Ok (), mk_World (Nat.iter n (sleep_ms 1000) e) (trader world)
                                       (positions world) (trade_info_cache world)))
  ∨ strategy_new config w = Panic ∧ (∀ n, main path n w = Panic)
    ∧ client_panics keypair (client_config config) w.
Proof.
  intros Hf Hk Hr.
  destruct (strategy_new_outcome config keypair w Hk) as [(s & t & w1 & Hs)|[Hs Hp]].
  - left. exists s, t, w1. split; [done|].
    assert (Hst : ts_redis_store s = None).
    { apply strategy_new_inv in Hs as (_ & -> & _). unfold open_store, store_new. by rewrite Hr. }
    split; [intros n|intros n world; by apply run_without_store].
    destruct (run_without_store s n (mk_World w1 t ∅ ∅) Hst) as (e & He & Hrun).
    exists e. split; [done|]. unfold main. by rewrite Hf, Hs, Hrun.
  - right. split; [done|]. split; [|done]. intros n. unfold main. by rewrite Hf, Hs.
Qed.
End Bot.

(** ** A bot with a store of two trades *)

(** A server that only reads. *)
Definition read_only (d : Db) : Redis Sim.
Proof.
  refine {|
    redis_open := λ url, if String.eqb url "" then Err "no url" else Ok ();
    redis_connect := λ e, (Ok (), e);
    redis_sismember := λ k m e, (Ok (bool_decide (m ∈ db_set d k)), e);
    redis_atomic := λ _ e, (Err "read only", e);
    redis_lrange := λ k a b e, (Ok (redis_range (db_list d k) a b), e);
    redis_keys := λ _ e, (Ok (trade_keys d), e);
    db := λ _, d;
  |}.
  - by intros e r e' [= _ <-].
  - intros k m e r e' [= <- <-]. split; [done|]. by intros b [= <-].
  - intros l e r e' [= <- <-]. by left.
  - intros k a b e r e' [= <- <-]. split; [done|]. by intros l [= <-].
  - intros e r e' [= <- <-]. split; [done|]. intros l [= <-] k.
    apply (proj2 (@redis_keys_db Env env_redis (toy_sim, d) (Ok (trade_keys d)) (toy_sim, d) eq_refl)).
    done.
Defined.

#[export] Instance sim_redis : Redis Sim := read_only (db full_env).

#[export] Instance sim_yellowstone : Yellowstone Sim := {|
  yellowstone_new := λ _ _, Ok ();
  subscribe_events_immediate := λ _ e, (Ok (), e);
  pumpswap_program := "pump";
  debug_of := id;
|}.

(** A configuration by the address of its store. *)
Definition toy_host : Host := {|
  read_to_string := Ok;
  json_object := λ redis,
    Ok (mk_RawConfig "https://grpc" "https://node" None "key" "mint" (f64_of_Z 1) 60 100 (Some 3)
          None (Some true) (Some "uuid") (Some "Tokyo") (Some redis) None None None None None None);
  try_from_base58_string := λ _, Ok 11;
|}.

Definition toy_config (redis : string) : BotConfig :=
  match @from_file toy_host redis with
  | Ok c => c
  | Err _ => mk_BotConfig "" "" None "" "" f_zero 0 0 0 0 false None "" "" 0 f_zero 0 0 f_zero f_zero
  end.

Abbreviation toy_strategy redis :=
  (@strategy_new toy_host toy_sdk Sim sim_rpc toy_tx_sdk rejecting toy_quic toy_node_tx toy_text
     toy_machine sim_redis (toy_config redis) holder).

Definition made (redis : string) : TradingStrategy * Trader :=
  match toy_strategy redis with
  | Val (Ok r, _) => r
  | _ => (mk_Strategy (toy_config redis) Startup.started.1.2 Startup.started.2 None, Startup.started.1.1)
  end.

Definition toy_world (redis : string) : World (Process Sim) :=
  mk_World (outcome_env holder (toy_strategy redis)) (made redis).2 {[ "m" := toy_position ]}
    {[ "m" := toy_info ]}.

Abbreviation toy_run redis :=
  (@run release toy_sdk Sim sim_rpc sim_confirm toy_error_text toy_tx_sdk toy_codec rejecting
     toy_quic toy_simulation toy_scheduler toy_text toy_sha toy_hash_order toy_spl toy_borsh sim_redis
     toy_json sim_yellowstone (made redis).1 2 (toy_world redis)).

(** The sale is attempted and fails. *)
Lemma toy_run_eq : toy_run "redis://"
  = Val (Err "Sell failed: No Rpc Default Swqos configured.",
         outcome_env (toy_world "redis://") (toy_run "redis://")).
Proof. apply outcome_eq. vm_compute. reflexivity. Qed.

Lemma toy_strategy_eq redis :
  String.eqb redis "" || String.eqb redis "redis://" = true →
  toy_strategy redis = Val (Ok (made redis), outcome_env holder (toy_strategy redis)).
Proof.
  intros [->%String.eqb_eq| ->%String.eqb_eq]%orb_prop;
    apply outcome_eq; vm_compute; reflexivity.
Qed.

Lemma made_eq redis : made redis = ((made redis).1, (made redis).2).
Proof. apply surjective_pairing. Qed.

Lemma jito_bot_keeps_positions_witness :
  positions (outcome_env (toy_world "redis://") (toy_run "redis://")) !! "m" = Some toy_position.
Proof.
  refine (@jito_bot_keeps_positions toy_host release toy_sdk Sim sim_rpc sim_confirm toy_error_text
    toy_tx_sdk toy_codec rejecting toy_quic toy_node_tx toy_simulation toy_scheduler toy_text
    toy_machine toy_sha toy_hash_order toy_spl toy_borsh sim_redis toy_json sim_yellowstone
    (toy_config "redis://") holder (made "redis://").1 (made "redis://").2
    (outcome_env holder (toy_strategy "redis://")) 2 (toy_world "redis://")
    (Err "Sell failed: No Rpc Default Swqos configured.")
    (outcome_env (toy_world "redis://") (toy_run "redis://"))
    (λ _ _, eq_refl) eq_refl _ _ "m" toy_position _).
  - rewrite <- made_eq. exact (toy_strategy_eq "redis://" eq_refl).
  - exact toy_run_eq.
  - reflexivity.
Defined.

(** The program itself, started with a configuration. *)
Abbreviation toy_main redis n :=
  (@main toy_host release toy_sdk Sim sim_rpc sim_confirm toy_error_text toy_tx_sdk toy_codec
     rejecting toy_quic toy_node_tx toy_simulation toy_scheduler toy_text toy_machine toy_sha
     toy_hash_order toy_spl toy_borsh sim_redis toy_json sim_yellowstone redis n holder).

Lemma no_redis_no_trades_witness :
  ∃ e, toy_main "" 2 = Val (Ok (), Nat.iter 2 (sleep_ms 1000) e).
Proof.
  destruct (@no_redis_no_trades toy_host release toy_sdk Sim sim_rpc sim_confirm toy_error_text
    toy_tx_sdk toy_codec rejecting toy_quic toy_node_tx toy_simulation toy_scheduler toy_text
    toy_machine toy_sha toy_hash_order toy_spl toy_borsh sim_redis toy_json sim_yellowstone
    "" (toy_config "") 11 "no url" holder) as [(s & t & w1 & _ & Hm & _)|(Hp & _)].
  - reflexivity.
  - reflexivity.
  - reflexivity.
  - destruct (Hm 2%nat) as (e & _ & He). exists e. exact He.
  - exfalso. pose proof (toy_strategy_eq "" eq_refl) as Hs. rewrite Hp in Hs. discriminate Hs.
Defined.
