(* ===== verification/Demos.v ===== *)
(** * The example programs (sdk/../examples)

    Programs that use the library: they follow the trades of others, snipe new
    coins, trade a given pool, or show one feature each.  They name a field of
    the trade parameters, the arity of some configurations and of the result of
    a trade as an earlier version of the library has them; here they are what
    they would be on the library of the repository.  What they print is left
    out, but for the programs that show nothing else. *)

From Stdlib Require Import String.
From stdpp Require Import relations.
From S2P Require Import Prelude F64 Solana Accounts Spl FastFn GasFee Effects Text Concurrent Borsh PumpSwapUtils PoolTypes Params ParamsRpc TradeStore Grpc Stream Client IxCommon BonkCalc PumpFunIx PumpSwapIx BonkIx TxBuild Channels Confirm Submit Http Quic Sender Executor Factory Startup Bot Wallet.

#[local] Open Scope string_scope.
#[local] Open Scope Z_scope.
#[local] Open Scope list_scope.

(** ** What they share *)

Definition demo_fees : GasFeeStrategy :=
  run_rcus (set_global_fee_strategy 150000 150000 500000 500000 (f64_lit 1 3) (f64_lit 1 3)) gfs_new.

(** Every purchase waits for its confirmation and creates the account of the
    coin. *)
Definition demo_buy (dex : DexType) (token : TradeTokenType) (mint : Pubkey) (amount slippage : Z)
    (recent_blockhash : Hash) (params : DexParamEnum) (create_input close_input : bool)
    (table : option AddressLookupTableAccount) (nonce : option DurableNonceInfo)
    (fixed_output : option Z) : TradeBuyParams :=
  mk_Buy dex token mint amount (Some slippage) (Some recent_blockhash) params table true create_input
    close_input true nonce fixed_output demo_fees false None None.

(** Every sale waits for its confirmation, pays no tip and keeps the account. *)
Definition demo_sell (dex : DexType) (token : TradeTokenType) (mint : Pubkey) (amount slippage : Z)
    (recent_blockhash : Hash) (params : DexParamEnum) (create_output close_output : bool)
    (fixed_output : option Z) : TradeSellParams :=
  mk_Sell dex token mint amount (Some slippage) (Some recent_blockhash) false params None true
    create_output close_output false None fixed_output demo_fees false None.

(** ** Following a stream *)

(** The four programs on the parser's queue: what is polled until an event is
    chosen.  The flag is raised by the event that is chosen, and the loop ends
    with it. *)
Section Watch.
Context {Ev T : Type} (select : Ev → option T).

(** Whether an event starts the task; [ALREADY_EXECUTED.swap(true)]. *)
Definition claim (already_executed : bool) (event : Ev) : option T * bool :=
  match select event with
  | Some e => if already_executed then (None, true) else (Some e, true)
  | None => (None, already_executed)
  end.

(** The polls of the queue, [None] when it is empty: the task that is started,
    and the pauses of five milliseconds before. *)
(* ex pumpfun_copy_trading/src/main.rs:71-105 main, loop *)
Fixpoint watch (already_executed : bool) (polls : list (option Ev)) : option T * nat :=
  match polls with
  | [] => (None, O)
  | None :: polls' => let '(run, pauses) := watch already_executed polls' in (run, S pauses)
  | Some event :: polls' =>
      match claim already_executed event with
      | (Some e, _) => (Some e, O)
      | (None, already_executed') => watch already_executed' polls'
      end
  end.

Lemma watch_first polls : (watch false polls).1 = head (omap select (omap id polls)).
Proof.
  induction polls as [|[event|] polls IH]; [done| |].
  - cbn [watch]. unfold claim. cbn [omap list_omap id]. destruct (select event); [done|]. exact IH.
  - cbn [watch]. destruct (watch false polls). exact IH.
Qed.
End Watch.

(** The five programs on a callback: any number of callbacks run at once. *)
Section Callbacks.
Context {Ev T : Type} (select : Ev → option T).

(** The flag, and the tasks that were started. *)
Record Claimed := mk_Claimed { already_executed : bool; tasks : list T }.

Inductive cpc :=
| Arrived
| Won (e : T)
| Handled.

(* ex bonk_copy_trading/src/main.rs:89-106 create_event_callback *)
Inductive callback : Claimed → Ev → cpc → Claimed → cpc → Prop :=
| cb_other sh event :
    select event = None → callback sh event Arrived sh Handled
| cb_lost sh event e :
    select event = Some e → already_executed sh = true →
    callback sh event Arrived (mk_Claimed true (tasks sh)) Handled
| cb_won sh event e :
    select event = Some e → already_executed sh = false →
    callback sh event Arrived (mk_Claimed true (tasks sh)) (Won e)
| cb_spawn sh event e :
    callback sh event (Won e) (mk_Claimed (already_executed sh) (tasks sh ++ [e])) Handled.

Abbreviation Sys := (@System Claimed Ev cpc).

Definition arriving (events : list Ev) : Sys :=
  mk_System (mk_Claimed false []) (map (λ e, (e, Arrived)) events).

Definition winner (p : cpc) : list T := match p with Won e => [e] | _ => [] end.

(** The task that was started or is about to be. *)
Definition claims (s : Sys) : list T :=
  tasks (shared s) ++ concat (map (λ x, winner x.2) (callers s)).

(** Before the first event of interest nothing is claimed, after it one task
    is, for one of the events. *)
Record claim_inv (s : Sys) : Prop := {
  inv_one : if already_executed (shared s) then ∃ e, claims s = [e] else claims s = [];
  inv_from : ∀ e, e ∈ claims s → ∃ event, event ∈ (callers s).*1 ∧ select event = Some e;
  inv_unclaimed : already_executed (shared s) = false →
    ∀ i event, callers s !! i = Some (event, Handled) → select event = None;
}.

Lemma winners_insert (l : list (Ev * cpc)) i (event : Ev) p p' : l !! i = Some (event, p) → winner p = [] →
  concat (map (λ x, winner x.2) (<[i := (event, p')]> l))
  ≡ₚ winner p' ++ concat (map (λ x, winner x.2) l).
Proof.
  revert i. induction l as [|[d q] l IH]; intros [|i] Hi Hp; simplify_eq/=; [by rewrite Hp|].
  rewrite (IH i Hi Hp). by rewrite !app_assoc, (Permutation_app_comm (winner q)).
Qed.

Lemma winners_leave (l : list (Ev * cpc)) i (event : Ev) e : l !! i = Some (event, Won e) →
  concat (map (λ x, winner x.2) l)
  ≡ₚ e :: concat (map (λ x, winner x.2) (<[i := (event, Handled)]> l)).
Proof.
  revert i. induction l as [|[d q] l IH]; intros [|i] Hi; simplify_eq/=; [done|].
  rewrite (IH i Hi). simpl. by rewrite <- Permutation_middle.
Qed.

(** A step claims nothing, or what its event selects. *)
Lemma step_claims s s' : system_step callback s s' →
  (claims s' ≡ₚ claims s ∧ already_executed (shared s') = already_executed (shared s))
  ∨ (already_executed (shared s) = false ∧ already_executed (shared s') = true
     ∧ ∃ event e, event ∈ (callers s).*1 ∧ select event = Some e ∧ claims s' ≡ₚ e :: claims s).
Proof.
  intros [sh l i event p sh' p' Hi Hl]. unfold claims; cbn [shared callers].
  destruct Hl as [sh event Hs|sh event e Hs Ha|sh event e Hs Ha|sh event e];
    cbn [tasks already_executed].
  - left. by rewrite (winners_insert l i event Arrived Handled Hi eq_refl).
  - left. by rewrite (winners_insert l i event Arrived Handled Hi eq_refl), Ha.
  - right. do 2 (split; [done|]). exists event, e.
    split; [by eapply elem_of_requests|]. split; [done|].
    rewrite (winners_insert l i event Arrived (Won e) Hi eq_refl). simpl.
    by rewrite <- Permutation_middle.
  - left. split; [|done]. rewrite (winners_leave l i event e Hi). by rewrite <- app_assoc.
Qed.

Lemma callback_step_inv s s' : system_step callback s s' → claim_inv s → claim_inv s'.
Proof.
  intros Hs [Hone Hfrom Hun]. pose proof (configs_kept callback s s' (rtc_once _ _ Hs)) as Hc.
  pose proof (step_claims s s' Hs) as Hstep. split.
  - destruct Hstep as [[Hp ->]|(Ha & -> & event & e & _ & _ & Hp)].
    + destruct (already_executed (shared s)).
      * destruct Hone as [e He]. rewrite He in Hp.
        symmetry in Hp. apply Permutation_singleton_l in Hp. by exists e.
      * rewrite Hone in Hp. by apply Permutation_nil_r in Hp.
    + rewrite Ha in Hone. rewrite Hone in Hp. exists e. symmetry in Hp.
      by apply Permutation_singleton_l in Hp.
  - intros e He. rewrite Hc.
    destruct Hstep as [[Hp _]|(_ & _ & event & e' & Hin & Hs' & Hp)]; rewrite Hp in He; [by apply Hfrom|].
    apply elem_of_cons in He as [->|He]; [eauto|by apply Hfrom].
  - intros Ha' j event Hj. destruct Hs as [sh l i c p sh' p' Hi Hl]. cbn [shared callers] in *.
    assert (Ha : already_executed sh = false) by (by destruct Hl).
    apply (insert_callers _ _ _ _ _ Hi) in Hj as [(-> & -> & <-)|[_ Hj]]; [|by eapply Hun].
    rewrite Ha in Hone. inversion Hl; subst; [done|congruence|].
    exfalso. apply app_eq_nil in Hone as [_ Hw].
    pose proof (winners_leave l i c e Hi) as Hl'. simpl in Hw. rewrite Hw in Hl'.
    by apply Permutation_nil_cons in Hl'.
Qed.

Lemma arriving_inv events : claim_inv (arriving events).
Proof.
  assert (Hc : claims (arriving events) = []).
  { unfold claims; simpl. induction events as [|e l IH]; [done|exact IH]. }
  split; simpl; [done| |].
  - intros e. rewrite Hc. by intros ?%elem_of_nil.
  - intros _ i event Hi. by apply list_lookup_fmap_Some in Hi as (? & [= ->] & _).
Qed.

Lemma callbacks_inv events s : rtc (system_step callback) (arriving events) s → claim_inv s.
Proof.
  intros Hr. pose proof (arriving_inv events) as Hi. revert Hi.
  induction Hr as [|s1 s2 s3 Hs _ IH]; [done|]. intros Hi. by eapply IH, callback_step_inv.
Qed.

Lemma finished_winners (l : list (Ev * cpc)) : (∀ i event p, l !! i = Some (event, p) → p = Handled) →
  concat (map (λ x, winner x.2) l) = [].
Proof.
  intros Hl. induction l as [|[d q] l IH]; [done|]. cbn [map concat].
  rewrite (Hl O d q eq_refl). simpl. apply IH. intros i event p Hi. by apply (Hl (S i) event p).
Qed.

Lemma callback_finishes sh event p : ∃ sh', rtc (solo callback event) (sh, p) (sh', Handled).
Proof.
  assert (Hw : ∀ sh e, ∃ sh', rtc (solo callback event) (sh, Won e) (sh', Handled)).
  { intros sh1 e. eexists. apply rtc_once. apply cb_spawn. }
  destruct p as [|e|]; [|apply Hw|by exists sh].
  destruct (select event) as [e|] eqn:Hs; [|exists sh; by apply rtc_once, cb_other].
  destruct (already_executed sh) eqn:Ha.
  - eexists. apply rtc_once. by apply (cb_lost _ _ e).
  - destruct (Hw (mk_Claimed true (tasks sh)) e) as [sh' Hr]. exists sh'.
    eapply rtc_l; [|exact Hr]. by apply cb_won.
Qed.

(** C40. One trade at most.  However many callbacks run at once and however their
    steps interleave, one task is started at most, for an event that is wanted;
    when all callbacks have returned it has been started if there was such an
    event, and from every state they can return. *)
Theorem callbacks_start_once events s :
  rtc (system_step callback) (arriving events) s →
  (length (tasks (shared s)) ≤ 1)%nat
  ∧ (∀ e, e ∈ tasks (shared s) → ∃ event, event ∈ events ∧ select event = Some e)
  ∧ ((∀ i event p, callers s !! i = Some (event, p) → p = Handled) →
     (∃ event, event ∈ events ∧ select event ≠ None) → ∃ e, tasks (shared s) = [e])
  ∧ ∃ sh', rtc (system_step callback) s (mk_System sh' (map (λ event, (event, Handled)) events)).
Proof.
  intros Hr. pose proof (callbacks_inv _ _ Hr) as [Hone Hfrom Hun].
  pose proof (configs_kept _ _ _ Hr) as Hc.
  assert (Hev : (callers s).*1 = events).
  { rewrite Hc. simpl. rewrite map_map. simpl. apply map_id. }
  unfold claims in Hone, Hfrom. rewrite Hev in Hfrom.
  split; [|split; [|split]].
  - destruct (already_executed (shared s)).
    + destruct Hone as [e He]. apply (f_equal length) in He. rewrite length_app in He. simpl in He. lia.
    + apply app_eq_nil in Hone as [-> _]. simpl. lia.
  - intros e He. apply Hfrom. apply elem_of_app. by left.
  - intros Hall (event & Hin & Hs). rewrite (finished_winners _ Hall), app_nil_r in Hone.
    destruct (already_executed (shared s)); [done|].
    rewrite <- Hev in Hin. apply list_elem_of_fmap in Hin as ([d q] & -> & Hin).
    apply list_elem_of_lookup_1 in Hin as [i Hi]. pose proof (Hall _ _ _ Hi) as ->.
    by apply Hun in Hi.
  - destruct (all_finish callback Handled callback_finishes s) as [sh' Hf]. exists sh'.
    rewrite <- Hev, map_map. exact Hf.
Qed.
End Callbacks.

(** ** The programs *)

(** [std::env::var]. *)
Class EnvVars := { env_var : string → option string }.

Definition mainnet : string := "https://api.mainnet-beta.solana.com".

(** *** Events *)

(** A trade on a bonding curve, by the fields that are read. *)
Record PumpFunTradeEvent := mk_PumpFunTrade {
  pe_mint : Pubkey;
  pe_bonding_curve : Pubkey;
  pe_associated_bonding_curve : Pubkey;
  pe_creator : Pubkey;
  pe_creator_vault : Pubkey;
  pe_virtual_token_reserves : Z;
  pe_virtual_sol_reserves : Z;
  pe_real_token_reserves : Z;
  pe_real_sol_reserves : Z;
  pe_fee_recipient : Pubkey;
  pe_token_program : Pubkey;
  pe_is_cashback_coin : bool;
  pe_mayhem_mode : bool;
  pe_sol_amount : Z;
  pe_token_amount : Z;
  pe_is_created_buy : bool;
}.

Inductive DexEvent :=
| PumpFunBuy (e : PumpFunTradeEvent)
| PumpFunSell (e : PumpFunTradeEvent)
| PumpFunBuyExactSolIn (e : PumpFunTradeEvent)
| PumpFunTrade (e : PumpFunTradeEvent)
| OtherDexEvent.

(** A purchase or a sale on a PumpSwap pool: both have the fields that are read. *)
Record PumpSwapEvent := mk_PumpSwapEvent {
  se_pool : Pubkey;
  se_base_mint : Pubkey;
  se_quote_mint : Pubkey;
  se_pool_base_token_account : Pubkey;
  se_pool_quote_token_account : Pubkey;
  se_pool_base_token_reserves : Z;
  se_pool_quote_token_reserves : Z;
  se_coin_creator_vault_ata : Pubkey;
  se_coin_creator_vault_authority : Pubkey;
  se_base_token_program : Pubkey;
  se_quote_token_program : Pubkey;
  se_protocol_fee_recipient : Pubkey;
}.

Record BonkTradeEvent := mk_BonkTrade {
  be_base_token_mint : Pubkey;
  be_quote_token_mint : Pubkey;
  be_virtual_base : Z;
  be_virtual_quote : Z;
  be_real_base_after : Z;
  be_real_quote_after : Z;
  be_exact_in : bool;
  be_amount_in : Z;
  be_amount_out : Z;
  be_pool_state : Pubkey;
  be_base_vault : Pubkey;
  be_quote_vault : Pubkey;
  be_base_token_program : Pubkey;
  be_platform_config : Pubkey;
  be_platform_associated_account : Pubkey;
  be_creator_associated_account : Pubkey;
  be_global_config : Pubkey;
  be_is_dev_create_token_trade : bool;
}.

Record AmmV4SwapEvent := mk_AmmV4Swap { ae_amm : Pubkey; ae_token_program : Pubkey }.

Record CpmmSwapEvent := mk_CpmmSwap {
  ce_pool_state : Pubkey;
  ce_input_token_mint : Pubkey;
  ce_output_token_mint : Pubkey;
}.

(** An event of another kind is [None]. *)
Inductive UnifiedEvent :=
| PumpSwapBuyEvent (e : PumpSwapEvent)
| PumpSwapSellEvent (e : PumpSwapEvent)
| BonkTrade (e : BonkTradeEvent)
| RaydiumAmmV4SwapEvent (e : AmmV4SwapEvent)
| RaydiumCpmmSwapEvent (e : CpmmSwapEvent)
| OtherUnified.

(** *** What each waits for *)

(* ex pumpfun_copy_trading/src/main.rs:73-91 main, run *)
Definition copy_select (event : DexEvent) : option PumpFunTradeEvent :=
  match event with
  | PumpFunBuy e | PumpFunSell e | PumpFunBuyExactSolIn e | PumpFunTrade e => Some e
  | OtherDexEvent => None
  end.

(** The first purchase of a coin by its creator. *)
(* ex pumpfun_sniper_trading/src/main.rs:72-81 main, run *)
Definition sniper_select (event : DexEvent) : option PumpFunTradeEvent :=
  match event with
  | PumpFunBuy e | PumpFunBuyExactSolIn e => if pe_is_created_buy e then Some e else None
  | _ => None
  end.

Definition quoted_in_sol_or_usdc (mint0 mint1 : Pubkey) : bool :=
  ((mint0 =? WSOL_TOKEN_ACCOUNT) || (mint1 =? WSOL_TOKEN_ACCOUNT))
  || ((mint0 =? USDC_TOKEN_ACCOUNT) || (mint1 =? USDC_TOKEN_ACCOUNT)).

(* ex pumpswap_trading/src/main.rs:87-126 create_event_callback *)
Definition pumpswap_select (event : UnifiedEvent) : option PumpSwapEvent :=
  match event with
  | PumpSwapBuyEvent e | PumpSwapSellEvent e =>
      if quoted_in_sol_or_usdc (se_base_mint e) (se_quote_mint e) then Some e else None
  | _ => None
  end.

Definition bonk_select (event : UnifiedEvent) : option BonkTradeEvent :=
  match event with BonkTrade e => Some e | _ => None end.

(* ex bonk_sniper_trading/src/main.rs:52-74 create_event_callback *)
Definition bonk_sniper_select (event : UnifiedEvent) : option BonkTradeEvent :=
  match event with
  | BonkTrade e => if be_is_dev_create_token_trade e then Some e else None
  | _ => None
  end.

(* ex raydium_amm_v4_trading/src/main.rs:85-102 create_event_callback *)
Definition amm_v4_select (event : UnifiedEvent) : option AmmV4SwapEvent :=
  match event with RaydiumAmmV4SwapEvent e => Some e | _ => None end.

(* ex raydium_cpmm_trading/src/main.rs:78-100 create_event_callback *)
Definition cpmm_select (event : UnifiedEvent) : option CpmmSwapEvent :=
  match event with
  | RaydiumCpmmSwapEvent e =>
      if quoted_in_sol_or_usdc (ce_input_token_mint e) (ce_output_token_mint e) then Some e else None
  | _ => None
  end.

Section Programs.
Context `{Host} `{EnvVars} `{Build} `{Sdk} {E : Type} `{Confirm E} `{TxErrorText} `{TxSdk} `{!Codec}
  `{!Wire E} `{!QuicNet E} `{!NodeTx E} `{KeyText} `{Machine} `{Borsh} `{SignatureText}.

(** The executor that the client's infrastructure gives; [Executor.executor] in
    the programs. *)
Context (executor_of : TradingInfrastructure → Executor (Process E)).

Abbreviation P := (Process E).

(** A key pair that cannot be read is a panic, as the placeholder in the source
    is. *)
Definition client_for (keypair rpc_url : string) : M P (TradingClient * TradingInfrastructure) :=
  let% payer := of_ex (unwrap_res (try_from_base58_string keypair)) in
  client_new payer (build (trade_config_builder rpc_url [CDefault rpc_url] "confirmed")).

(** [client.buy(p).await?] and [client.sell(p).await?]: only an error is looked
    at, not whether the trade succeeded. *)
Definition place_buy (c : TradingClient * TradingInfrastructure) (p : TradeBuyParams) : M P () :=
  let% _ := @client_buy P (executor_of c.2) c.1 p in mret ().
Definition place_sell (c : TradingClient * TradingInfrastructure) (p : TradeSellParams) : M P () :=
  let% _ := @client_sell P (executor_of c.2) c.1 p in mret ().

(** The balance of an account; text that is no number is a panic. *)
Definition amount_held (account : Pubkey) : M P Z :=
  let% balance := in_env (call (rpc_get_token_account_balance account)) in
  of_ex (unwrap_res (parse_u64 balance)).

(** The account of the client's own trades. *)
Definition traded_account (c : TradingClient) (mint program : Pubkey) (use_seed : bool) : M P Pubkey :=
  in_chain (get_associated_token_address_with_program_id_fast_use_seed (tc_payer c) mint program
              use_seed).

(** *** Pump.fun *)

Definition event_params (close : option bool) (e : PumpFunTradeEvent) : M P DexParamEnum :=
  let% p := in_chain (pf_from_trade (pe_bonding_curve e) (pe_associated_bonding_curve e) (pe_mint e)
              (pe_creator e) (pe_creator_vault e) (pe_virtual_token_reserves e)
              (pe_virtual_sol_reserves e) (pe_real_token_reserves e) (pe_real_sol_reserves e)
              close (pe_fee_recipient e) (pe_token_program e) (pe_is_cashback_coin e)
              (Some (pe_mayhem_mode e))) in
  mret (PPumpFun p).

(* ex pumpfun_copy_trading/src/main.rs:111-126 create_solana_trade_client *)
Definition copy_client : M P (TradingClient * TradingInfrastructure) :=
  client_for "use_your_payer_keypair_here" (default mainnet (env_var "RPC_URL")).

(* ex pumpfun_copy_trading/src/main.rs:128-227 pumpfun_copy_trade *)
Definition pumpfun_copy_trade (e : PumpFunTradeEvent) : M P () :=
  let% c := copy_client in
  let% recent_blockhash := latest_blockhash in
  let% params := event_params None e in
  let% _ := place_buy c (demo_buy DPumpFun TSOL (pe_mint e) 100000 100 recent_blockhash params
                           false false None None None) in
  let% account := traded_account c.1 (pe_mint e) (pe_token_program e) (tc_use_seed_optimize c.1) in
  let% amount := amount_held account in
  let% params := event_params (Some true) e in
  place_sell c (demo_sell DPumpFun TSOL (pe_mint e) amount 100 recent_blockhash params false false None).

(** The task that is started: the exit code of the process. *)
(* ex pumpfun_copy_trading/src/main.rs:93-99 main, task *)
Definition copy_task (e : PumpFunTradeEvent) : M P Z :=
  let% r := attempt (pumpfun_copy_trade e) in
  mret match r with Ok _ => 0 | Err _ => 1 end.

(* ex pumpfun_sniper_trading/src/main.rs:101-116 create_solana_trade_client *)
Definition sniper_client : M P (TradingClient * TradingInfrastructure) :=
  client_for "use_your_payer_keypair_here" (default mainnet (env_var "RPC_URL")).

(** The least amount of SOL in the parameters is what the creator paid, and a
    tenth. *)
(* ex pumpfun_sniper_trading/src/main.rs:129-129 pumpfun_sniper_trade, max_sol_cost *)
Definition sniper_cost (e : PumpFunTradeEvent) : Z :=
  saturating_add 64 (pe_sol_amount e) (pe_sol_amount e / 10).

(** The balance is read from the associated account of the token program. *)
(* ex pumpfun_sniper_trading/src/main.rs:118-211 pumpfun_sniper_trade *)
Definition pumpfun_sniper_trade (e : PumpFunTradeEvent) : M P () :=
  let% c := sniper_client in
  let% recent_blockhash := latest_blockhash in
  let% p := in_chain (pf_from_dev_trade (pe_mint e) (pe_token_amount e) (sniper_cost e) (pe_creator e)
              (pe_bonding_curve e) (pe_associated_bonding_curve e) (pe_creator_vault e) None
              (pe_fee_recipient e) (pe_token_program e) (pe_is_cashback_coin e)
              (Some (pe_mayhem_mode e))) in
  let% _ := place_buy c (demo_buy DPumpFun TSOL (pe_mint e) 100000 300 recent_blockhash (PPumpFun p)
                           true true None None None) in
  let% account := of_ex (get_associated_token_address (tc_payer c.1) (pe_mint e)) in
  let% amount := amount_held account in
  let% params := event_params (Some true) e in
  place_sell c (demo_sell DPumpFun TSOL (pe_mint e) amount 300 recent_blockhash params true true None).

(* ex address_lookup/src/main.rs:106-123 create_solana_trade_client *)
Definition lookup_client : M P (TradingClient * TradingInfrastructure) :=
  client_for "use_your_payer_keypair_here" mainnet.

(** A table that cannot be fetched is left out; a key that cannot be read is a
    panic. *)
(* ex address_lookup/src/main.rs:126-184 pumpfun_copy_trade_with_grpc *)
Definition lookup_trade (lookup_table_key : string) (e : PumpFunTradeEvent) : M P () :=
  let% c := lookup_client in
  let% recent_blockhash := latest_blockhash in
  let% key := of_ex (unwrap (pubkey_from_str lookup_table_key)) in
  let% table := attempt (in_env (fetch_address_lookup_table_account key)) in
  let% params := event_params None e in
  place_buy c (demo_buy DPumpFun TSOL (pe_mint e) 100000 100 recent_blockhash params false false
                 (match table with Ok t => Some t | Err _ => None end) None None).

(* ex nonce_cache/src/main.rs:105-122 create_solana_trade_client *)
Definition nonce_client : M P (TradingClient * TradingInfrastructure) :=
  client_for "use_your_payer_keypair_here" mainnet.

(** The blockhash is given as well: without the nonce the trade goes on with it. *)
(* ex nonce_cache/src/main.rs:125-180 pumpfun_copy_trade_with_grpc *)
Definition nonce_trade (parse_error nonce_account : string) (e : PumpFunTradeEvent) : M P () :=
  let% c := nonce_client in
  let% recent_blockhash := latest_blockhash in
  let% key := of_res (ok_or (pubkey_from_str nonce_account) parse_error) in
  let% durable_nonce := in_env (fetch_nonce_info key) in
  let% params := event_params None e in
  place_buy c (demo_buy DPumpFun TSOL (pe_mint e) 100000 100 recent_blockhash params false false
                 None durable_nonce None).

(** *** PumpSwap *)

(* ex pumpswap_trading/src/main.rs:130-147 create_solana_trade_client *)
Definition pumpswap_client : M P (TradingClient * TradingInfrastructure) :=
  client_for "your_payer_keypair_here" mainnet.

Definition is_stable_or_sol (mint : Pubkey) : bool :=
  (mint =? USDC_TOKEN_ACCOUNT) || (mint =? WSOL_TOKEN_ACCOUNT).

(* ex pumpswap_trading/src/main.rs:207-289 pumpswap_trade_with_grpc *)
Definition pumpswap_trade_with_grpc (c : TradingClient * TradingInfrastructure) (mint : Pubkey)
    (p : PumpSwapParams) : M P () :=
  let% recent_blockhash := latest_blockhash in
  let is_sol := (ps_base_mint p =? WSOL_TOKEN_ACCOUNT) || (ps_quote_mint p =? WSOL_TOKEN_ACCOUNT) in
  let token := if is_sol then TSOL else TUSDC in
  let% _ := place_buy c (demo_buy DPumpSwap token mint 300000 500 recent_blockhash (PPumpSwap p)
                           is_sol is_sol None None None) in
  let program := if ps_base_mint p =? mint then ps_base_token_program p else ps_quote_token_program p in
  let% account := traded_account c.1 mint program (tc_use_seed_optimize c.1) in
  let% amount := amount_held account in
  place_sell c (demo_sell DPumpSwap token mint amount 500 recent_blockhash (PPumpSwap p) is_sol is_sol
                  None).

(** The same for a purchase and a sale; only whether the pool pays cashback is
    read from the node. *)
(* ex pumpswap_trading/src/main.rs:149-176 pumpswap_trade_with_grpc_buy_event *)
Definition pumpswap_trade (e : PumpSwapEvent) : M P () :=
  let% c := pumpswap_client in
  let% pool_data := in_env (fetch_pool (se_pool e)) in
  let p := ps_from_trade (se_pool e) (se_base_mint e) (se_quote_mint e)
             (se_pool_base_token_account e) (se_pool_quote_token_account e)
             (se_pool_base_token_reserves e) (se_pool_quote_token_reserves e)
             (se_coin_creator_vault_ata e) (se_coin_creator_vault_authority e)
             (se_base_token_program e) (se_quote_token_program e) (se_protocol_fee_recipient e)
             (pool_cashback pool_data) in
  let mint := if is_stable_or_sol (se_base_mint e) then se_quote_mint e else se_base_mint e in
  pumpswap_trade_with_grpc c mint p.

(* ex pumpswap_trading/src/main.rs:178-205 pumpswap_trade_with_grpc_sell_event *)
Definition pumpswap_sell_event_trade (e : PumpSwapEvent) : M P () := pumpswap_trade e.

(** A given pool, with an account of the given program. *)
Definition direct_trade (c : TradingClient * TradingInfrastructure) (token : TradeTokenType)
    (pool mint program : Pubkey) (use_seed : bool) (pause_ms : option Z) : M P () :=
  let% recent_blockhash := latest_blockhash in
  let% p := in_env (from_pool_address_by_rpc pool) in
  let% _ := place_buy c (demo_buy DPumpSwap token mint 100000 100 recent_blockhash (PPumpSwap p)
                           true true None None None) in
  let% _ := match pause_ms with Some ms => in_env (effect (sleep_ms ms)) | None => mret () end in
  let% account := traded_account c.1 mint program use_seed in
  let% amount := amount_held account in
  let% p := in_env (from_pool_address_by_rpc pool) in
  place_sell c (demo_sell DPumpSwap token mint amount 100 recent_blockhash (PPumpSwap p) true true None).

(* ex pumpswap_direct_trading/src/main.rs:101-118 create_solana_trade_client *)
Definition direct_client : M P (TradingClient * TradingInfrastructure) :=
  client_for "use_your_payer_keypair_here" mainnet.

(** The pool and the mint are those of the source, decoded. *)
(* ex pumpswap_direct_trading/src/main.rs:18-97 main *)
Definition pumpswap_direct (pool mint : Pubkey) : M P () :=
  let% c := direct_client in
  direct_trade c TSOL pool mint TOKEN_PROGRAM_2022 (tc_use_seed_optimize c.1) None.

(* ex seed_trading/src/main.rs:104-121 create_solana_trade_client *)
Definition seed_client : M P (TradingClient * TradingInfrastructure) :=
  client_for "use_your_payer_keypair_here" mainnet.

(* ex seed_trading/src/main.rs:18-100 main *)
Definition seed_trading (pool mint : Pubkey) : M P () :=
  let% c := seed_client in direct_trade c TWSOL pool mint TOKEN_PROGRAM true (Some 4000).

(** *** Bonk *)

(* ex bonk_copy_trading/src/main.rs:110-127 create_solana_trade_client *)
Definition bonk_client : M P (TradingClient * TradingInfrastructure) :=
  client_for "use_your_payer_keypair_here" mainnet.

(* ex bonk_copy_trading/src/main.rs:144-149 bonk_copy_trade_with_grpc, input_token_type *)
Definition bonk_token (e : BonkTradeEvent) : TradeTokenType :=
  if be_quote_token_mint e =? USD1_TOKEN_ACCOUNT then TUSD1 else TSOL.

Definition bonk_event_params (e : BonkTradeEvent) : BonkParams :=
  bk_from_trade (be_virtual_base e) (be_virtual_quote e) (be_real_base_after e)
    (be_real_quote_after e) (be_pool_state e) (be_base_vault e) (be_quote_vault e)
    (be_base_token_program e) (be_platform_config e) (be_platform_associated_account e)
    (be_creator_associated_account e) (be_global_config e).

(* ex bonk_copy_trading/src/main.rs:131-239 bonk_copy_trade_with_grpc *)
Definition bonk_copy_trade (e : BonkTradeEvent) : M P () :=
  let mint := be_base_token_mint e in
  let% c := bonk_client in
  let% recent_blockhash := latest_blockhash in
  let% _ := place_buy c (demo_buy DBonk (bonk_token e) mint 100000 100 recent_blockhash
                           (PBonk (bonk_event_params e)) true false None None None) in
  let% account := traded_account c.1 mint (be_base_token_program e) (tc_use_seed_optimize c.1) in
  let% amount := amount_held account in
  place_sell c (demo_sell DBonk (bonk_token e) mint amount 100 recent_blockhash
                  (PBonk (bonk_event_params e)) false false None).

(* ex bonk_sniper_trading/src/main.rs:78-95 create_solana_trade_client *)
Definition bonk_sniper_client : M P (TradingClient * TradingInfrastructure) :=
  client_for "use_your_payer_keypair_here" mainnet.

(** The sale is built from parameters without reserves. *)
(* ex bonk_sniper_trading/src/main.rs:177-183 bonk_sniper_trade_with_shreds, extension_params *)
Definition bonk_sniper_sale_params (e : BonkTradeEvent) : BonkParams :=
  bk_immediate_sell (be_base_token_program e) (be_platform_config e)
    (be_platform_associated_account e) (be_creator_associated_account e) (be_global_config e).

(* ex bonk_sniper_trading/src/main.rs:99-200 bonk_sniper_trade_with_shreds *)
Definition bonk_sniper_trade (e : BonkTradeEvent) : M P () :=
  let mint := be_base_token_mint e in
  let% c := bonk_sniper_client in
  let% recent_blockhash := latest_blockhash in
  let% p := of_ex (bk_from_dev_trade (be_exact_in e) (be_amount_in e) (be_amount_out e)
              (be_pool_state e) (be_base_vault e) (be_quote_vault e) (be_base_token_program e)
              (be_platform_config e) (be_platform_associated_account e)
              (be_creator_associated_account e) (be_global_config e)) in
  let% _ := place_buy c (demo_buy DBonk (bonk_token e) mint 100000 300 recent_blockhash (PBonk p)
                           true true None None None) in
  let% account := traded_account c.1 mint (be_base_token_program e) (tc_use_seed_optimize c.1) in
  let% amount := amount_held account in
  place_sell c (demo_sell DBonk (bonk_token e) mint amount 300 recent_blockhash
                  (PBonk (bonk_sniper_sale_params e)) true true None).

(** *** Raydium *)

(* ex raydium_amm_v4_trading/src/main.rs:106-123 create_solana_trade_client *)
Definition amm_v4_client : M P (TradingClient * TradingInfrastructure) :=
  client_for "your_payer_keypair_here" mainnet.

(* ex raydium_amm_v4_trading/src/main.rs:127-231 raydium_amm_v4_copy_trade_with_grpc *)
Definition amm_v4_trade (e : AmmV4SwapEvent) : M P () :=
  let% c := amm_v4_client in
  let% recent_blockhash := latest_blockhash in
  let% info := in_env (fetch_amm_info (ae_amm e)) in
  let% reserves := in_env (get_multi_token_balances (amm_token_coin info) (amm_token_pc info)) in
  let mint := if is_stable_or_sol (amm_pc_mint info) then amm_coin_mint info else amm_pc_mint info in
  let p := mk_RaydiumAmmV4Params (ae_amm e) (amm_coin_mint info) (amm_pc_mint info)
             (amm_token_coin info) (amm_token_pc info) reserves.1 reserves.2 in
  let is_wsol := (amm_pc_mint info =? WSOL_TOKEN_ACCOUNT) || (amm_coin_mint info =? WSOL_TOKEN_ACCOUNT) in
  let token := if is_wsol then TWSOL else TUSDC in
  let% _ := place_buy c (demo_buy DRaydiumAmmV4 token mint 100000 100 recent_blockhash
                           (PRaydiumAmmV4 p) is_wsol is_wsol None None None) in
  let% account := traded_account c.1 mint (ae_token_program e) (tc_use_seed_optimize c.1) in
  let% amount := amount_held account in
  let% p := in_env (v4_from_amm_address_by_rpc (ae_amm e)) in
  place_sell c (demo_sell DRaydiumAmmV4 token mint amount 100 recent_blockhash (PRaydiumAmmV4 p)
                  is_wsol is_wsol None).

(* ex raydium_cpmm_trading/src/main.rs:104-121 create_solana_trade_client *)
Definition cpmm_client : M P (TradingClient * TradingInfrastructure) :=
  client_for "your_payer_keypair_here" mainnet.

(** As the sniper's, the balance is that of the associated account. *)
(* ex raydium_cpmm_trading/src/main.rs:125-217 raydium_cpmm_copy_trade_with_grpc *)
Definition cpmm_trade (e : CpmmSwapEvent) : M P () :=
  let mint := if is_stable_or_sol (ce_input_token_mint e) then ce_output_token_mint e
              else ce_input_token_mint e in
  let% c := cpmm_client in
  let% recent_blockhash := latest_blockhash in
  let% p := in_env (cp_from_pool_address_by_rpc (ce_pool_state e)) in
  let is_wsol := (ce_input_token_mint e =? WSOL_TOKEN_ACCOUNT)
                 || (ce_output_token_mint e =? WSOL_TOKEN_ACCOUNT) in
  let token := if is_wsol then TSOL else TUSDC in
  let% _ := place_buy c (demo_buy DRaydiumCpmm token mint 100000 100 recent_blockhash
                           (PRaydiumCpmm p) is_wsol is_wsol None None None) in
  let% account := of_ex (get_associated_token_address (tc_payer c.1) mint) in
  let% amount := amount_held account in
  let% p := in_env (cp_from_pool_address_by_rpc (ce_pool_state e)) in
  place_sell c (demo_sell DRaydiumCpmm token mint amount 100 recent_blockhash (PRaydiumCpmm p)
                  is_wsol is_wsol None).

(** *** Meteora *)

(* ex meteora_damm_v2_direct_trading/src/main.rs:104-121 create_solana_trade_client *)
Definition meteora_client : M P (TradingClient * TradingInfrastructure) :=
  client_for "your_payer_keypair_here" mainnet.

(** The least number of tokens accepted is one, in both directions. *)
(* ex meteora_damm_v2_direct_trading/src/main.rs:18-100 main *)
Definition meteora_direct (pool mint : Pubkey) : M P () :=
  let% c := meteora_client in
  let% recent_blockhash := latest_blockhash in
  let% p := in_env (md_from_pool_address_by_rpc pool) in
  let% _ := place_buy c (demo_buy DMeteoraDammV2 TUSDC mint 100000 100 recent_blockhash
                           (PMeteoraDammV2 p) false false None None (Some 1)) in
  let% account := traded_account c.1 mint TOKEN_PROGRAM (tc_use_seed_optimize c.1) in
  let% amount := amount_held account in
  let% p := in_env (md_from_pool_address_by_rpc pool) in
  place_sell c (demo_sell DMeteoraDammV2 TUSDC mint amount 100 recent_blockhash (PMeteoraDammV2 p)
                  false false (Some 1)).

(** *** From the stream to the task *)

(** The parser's own client: a queue that is polled. *)
Record DexSubscription := mk_DexSubscription {
  ds_endpoint : string;
  ds_token : option string;
  ds_protocols : list string;
  ds_event_types : list string;
}.

Class DexStream := {
  dex_new : string → option string → result string ();
  subscribe_dex_events : DexSubscription → E → result string () * E;
}.

Context `{!DexStream} `{!Yellowstone E}.

Definition pumpfun_subscription (event_types : list string) : DexSubscription :=
  mk_DexSubscription
    (default "https://solana-yellowstone-grpc.publicnode.com:443" (env_var "GRPC_ENDPOINT"))
    (env_var "GRPC_AUTH_TOKEN") ["PumpFun"] event_types.

(** Subscribe, then poll: the exit code of the task that is started, or none as
    long as no event is chosen. *)
Definition follow {T} (event_types : list string) (select : DexEvent → option T)
    (task : T → M P Z) (polls : list (option DexEvent)) : M P (option Z) :=
  let s := pumpfun_subscription event_types in
  let% _ := of_res (dex_new (ds_endpoint s) (ds_token s)) in
  let% _ := in_env (call (subscribe_dex_events s)) in
  let '(run, pauses) := watch select false polls in
  let% _ := in_env (effect (Nat.iter pauses (sleep_ms 5))) in
  match run with
  | Some e => let% code := task e in mret (Some code)
  | None => mret None
  end.

(** The code of the process is 1 when the task has failed. *)
Definition exit_code {T} (trade : T → M P ()) (e : T) : M P Z :=
  let% r := attempt (trade e) in mret match r with Ok _ => 0 | Err _ => 1 end.

Definition all_trades : list string :=
  ["PumpFunBuy"; "PumpFunSell"; "PumpFunBuyExactSolIn"; "PumpFunTrade"].

(* ex pumpfun_copy_trading/src/main.rs:35-109 main *)
Definition copy_main : list (option DexEvent) → M P (option Z) :=
  follow all_trades copy_select copy_task.

(* ex pumpfun_sniper_trading/src/main.rs:35-99 main *)
Definition sniper_main : list (option DexEvent) → M P (option Z) :=
  follow ["PumpFunCreate"; "PumpFunBuy"; "PumpFunBuyExactSolIn"] sniper_select
    (exit_code pumpfun_sniper_trade).

(* ex address_lookup/src/main.rs:32-104 main *)
Definition lookup_main (lookup_table_key : string) : list (option DexEvent) → M P (option Z) :=
  follow all_trades copy_select (exit_code (lookup_trade lookup_table_key)).

(* ex nonce_cache/src/main.rs:31-103 main *)
Definition nonce_main (parse_error nonce_account : string) :
    list (option DexEvent) → M P (option Z) :=
  follow all_trades copy_select (exit_code (nonce_trade parse_error nonce_account)).

(** The programs on a callback subscribe and wait. *)
Definition listen (protocol program : string) (event_types : list string) : M P () :=
  let url := "https://solana-yellowstone-grpc.publicnode.com:443" in
  let% _ := of_res (yellowstone_new url None) in
  in_env (call (subscribe_events_immediate
                  (mk_Subscription url None [protocol] [program] event_types))).

(* ex pumpswap_trading/src/main.rs:38-84 main *)
Definition pumpswap_main : M P () :=
  listen "PumpSwap" pumpswap_program ["PumpSwapBuy"; "PumpSwapSell"].

(* ex bonk_copy_trading/src/main.rs:35-86 main *)
Definition bonk_main (bonk_program : string) : M P () :=
  listen "Bonk" bonk_program
    ["BonkBuyExactIn"; "BonkSellExactIn"; "BonkBuyExactOut"; "BonkSellExactOut"].

(* ex raydium_amm_v4_trading/src/main.rs:36-82 main *)
Definition amm_v4_main (amm_v4_program : string) : M P () :=
  listen "RaydiumAmmV4" amm_v4_program ["RaydiumAmmV4SwapBaseIn"; "RaydiumAmmV4SwapBaseOut"].

(* ex raydium_cpmm_trading/src/main.rs:29-75 main *)
Definition cpmm_main (cpmm_program : string) : M P () :=
  listen "RaydiumCpmm" cpmm_program ["RaydiumCpmmSwapBaseInput"; "RaydiumCpmmSwapBaseOutput"].

(** *** Wrapped SOL *)

(** The lines that are printed stand for the outcome. *)
(* ex wsol_wrapper/src/main.rs:81-98 create_solana_trade_client *)
Definition wrapper_client : M P (TradingClient * TradingInfrastructure) :=
  client_for "use_your_payer_keypair_here" mainnet.

(** Wrap, unwrap half, close: when wrapping fails nothing else is tried, and the
    program succeeds whatever fails.  The three outcomes, as far as they got. *)
(* ex wsol_wrapper/src/main.rs:7-78 main *)
Definition wsol_wrapper : M P (list bool) :=
  let% c := wrapper_client in
  let wrap_amount := 1000000 in
  let% r := attempt (client_wrap_sol_to_wsol c.1 wrap_amount) in
  match r with
  | Err _ => mret [false]
  | Ok _ =>
      let% _ := in_env (effect (sleep_ms 3000)) in
      let% r2 := attempt (client_wrap_wsol_to_sol c.1 (wrap_amount / 2)) in
      let% _ := in_env (effect (sleep_ms 3000)) in
      let% r3 := attempt (client_close_wsol c.1) in
      mret [true; is_ok r2; is_ok r3]
  end.

(** *** Clients *)

(* ex trading_client/src/main.rs:37-69 create_trading_client_simple *)
Definition simple_client : M P (TradingClient * TradingInfrastructure) :=
  let url := "https://mainnet.helius-rpc.com/?api-key=xxxxxx" in
  let% payer := of_ex (unwrap_res (try_from_base58_string "use_your_payer_keypair_here")) in
  let configs :=
    [CDefault url; CPlain Jito "your_uuid" Frankfurt None]
    ++ map (λ s, CPlain s "your_api_token" Frankfurt None) [Bloxroute; ZeroSlot; Temporal; FlashBlock]
    ++ [CNode1 "your_api_token" Frankfurt None None; CBlockRazor "your_api_token" Frankfurt None None;
        CAstralane "your_api_token" Frankfurt None (Some AQuic);
        CHelius "" RegionDefault None (Some true)] in
  client_new payer
    (build (set_use_seed_optimize true
             (set_create_wsol_ata true (trade_config_builder url configs "processed")))).

(* ex trading_client/src/main.rs:75-97 create_trading_client_from_infrastructure *)
Definition infrastructure_client : M P TradingClient :=
  let url := "https://mainnet.helius-rpc.com/?api-key=xxxxxx" in
  let% payer := of_ex (unwrap_res (try_from_base58_string "use_your_payer_keypair_here")) in
  let% ti := infrastructure_new (infra_config_new url
               [CDefault url; CPlain Jito "your_uuid" Frankfurt None] "processed") in
  from_infrastructure payer ti true.

(** A client for each key, on one infrastructure. *)
Fixpoint clients_for (ti : TradingInfrastructure) (keys : list string) : M P (list TradingClient) :=
  match keys with
  | [] => mret []
  | key :: keys' =>
      let% payer := of_ex (unwrap_res (try_from_base58_string key)) in
      let% c := from_infrastructure payer ti true in
      let% cs := clients_for ti keys' in
      mret (c :: cs)
  end.

(* ex shared_infrastructure/src/main.rs:26-73 main *)
Definition shared_infrastructure (wallet_keys : list string) :
    M P (TradingInfrastructure * list TradingClient) :=
  let url := "https://mainnet.helius-rpc.com/?api-key=xxxxxx" in
  let% ti := infrastructure_new (infra_config_new url
               [CDefault url; CPlain Jito "your_uuid" Frankfurt None;
                CPlain Bloxroute "your_api_token" Frankfurt None;
                CHelius "" RegionDefault None (Some true)] "processed") in
  let% clients := clients_for ti wallet_keys in
  mret (ti, clients).

(** *** Middlewares *)

(* ex middleware_system/src/main.rs:60-77 create_solana_trade_client *)
Definition middleware_client : M P (TradingClient * TradingInfrastructure) :=
  client_for "use_your_payer_keypair_here" mainnet.
End Programs.

(* ex middleware_system/src/main.rs:23-58 CustomMiddleware, InstructionMiddleware *)
Definition CustomMiddleware : InstructionMiddleware :=
  mk_middleware "CustomMiddleware" (λ ixs _ _, Ok ixs) (λ ixs _ _, Ok ixs).

(** One purchase, with the middleware in the client. *)
(* ex middleware_system/src/main.rs:79-120 test_middleware *)
Definition test_middleware `{Host} `{Build} `{Sdk} {E : Type} `{Confirm E} `{TxErrorText} `{TxSdk}
    `{!Codec} `{!Wire E} `{!QuicNet E} `{!NodeTx E} `{KeyText} `{Machine} `{Borsh} `{SignatureText}
    (executor_with : option MiddlewareManager → TradingInfrastructure → Executor (Process E))
    (pool mint : Pubkey) : M (Process E) () :=
  let% c := middleware_client in
  let manager := add_middleware [] CustomMiddleware in
  let% recent_blockhash := latest_blockhash in
  let% p := in_env (from_pool_address_by_rpc pool) in
  place_buy (executor_with (Some manager)) c
    (demo_buy DPumpSwap TWSOL mint 100000 100 recent_blockhash (PPumpSwap p) true true None None None).

(** *** Fees *)

(* ex gas_fee_strategy/src/main.rs:7-74 main *)
Definition fee_demo : list rcu :=
  set_global_fee_strategy 150000 150000 500000 500000 (f64_lit 1 3) (f64_lit 1 3)
  ++ clear
  ++ set_normal_fee_strategy SwDefault 150000 500000 f_zero f_zero
  ++ set_high_low_fee_strategy Jito TBuy 150000 100 (10 * 1000000) (f64_lit 1 3) (f64_lit 1 1)
  ++ set_normal_fee_strategy Jito 150000 500000 (f64_lit 1 4) (f64_lit 1 4)
  ++ del_all Jito TBuy.

(** ** One event of two *)

Definition toy_bonk_event : BonkTradeEvent :=
  mk_BonkTrade 66 WSOL_TOKEN_ACCOUNT 0 0 0 0 true 1000000 0 70 71 72 TOKEN_PROGRAM 73 74 75 76 true.

(** The first of two events is chosen and its task is started. *)
Definition toy_started : @System (@Claimed BonkTradeEvent) UnifiedEvent (@cpc BonkTradeEvent) :=
  mk_System (mk_Claimed true [toy_bonk_event])
    [(BonkTrade toy_bonk_event, Handled); (OtherUnified, Arrived)].

Lemma callbacks_start_once_witness : (length (tasks (shared toy_started)) ≤ 1)%nat.
Proof.
  refine (proj1 (callbacks_start_once bonk_select [BonkTrade toy_bonk_event; OtherUnified]
                   toy_started _)).
  eapply rtc_l; [eapply (caller_moves _ _ _ O _ Arrived); [done|by apply (cb_won _ _ _ toy_bonk_event)]|].
  eapply rtc_l; [by eapply (caller_moves _ _ _ O _ (Won toy_bonk_event)), cb_spawn|].
  apply rtc_refl.
Defined.
