(* ===== verification/DemoTrades.v ===== *)
(** * What becomes of the trades of the examples

    The client of every example trades through accounts derived with a seed, as
    the library's configuration has it by default.  Some of the programs look
    for what they bought in such an account, others in the associated account
    of the token program. *)

From Stdlib Require Import String.
From S2P Require Import Prelude F64 Solana Accounts Spl FastFn GasFee Effects Text Concurrent Borsh PumpSwapUtils PoolTypes Params ParamsRpc TradeStore Client IxCommon BonkCalc PumpFunIx BonkIx Factory TxBuild Channels Confirm Submit Http Quic Sender Executor Startup Bot Wallet Demos.

#[local] Open Scope string_scope.
#[local] Open Scope Z_scope.
#[local] Open Scope list_scope.

Section Trades.
Context `{Host} `{EnvVars} `{Build} `{Sdk} {E : Type} `{Confirm E} `{TxErrorText} `{TxSdk} `{!Codec}
  `{!Wire E} `{!QuicNet E} `{!NodeTx E} `{KeyText} `{Machine} `{Borsh} `{SignatureText}.
Context (executor_of : TradingInfrastructure → Executor (Process E)).

(** ** The clients *)

Lemma client_new_settings payer tg (w : Process E) c ti w' :
  client_new payer tg w = Val (Ok (c, ti), w') →
  tc_payer c = payer ∧ tc_use_seed_optimize c = tg_use_seed_optimize tg.
Proof. unfold client_new. intros Hc. m_inv. injection Hc as <- <-. done. Qed.

Lemma client_for_settings key url (w : Process E) c ti w' :
  client_for key url w = Val (Ok (c, ti), w') →
  try_from_base58_string key = Ok (tc_payer c) ∧ tc_use_seed_optimize c = true.
Proof.
  unfold client_for. intros Hc. m_inv. apply client_new_settings in Hc as [-> ->]. split; [|done].
  destruct (try_from_base58_string key); [|done]. by injection R as ->.
Qed.

Lemma amount_held_inv account (w : Process E) amount w' :
  amount_held account w = Val (Ok amount, w') →
  ∃ text, (rpc_get_token_account_balance account (p_env w)).1 = Ok text ∧ parse_u64 text = Ok amount.
Proof.
  unfold amount_held. intros Ha. m_inv. unfold in_env, call in R.
  destruct (rpc_get_token_account_balance account (p_env w)) as [[text|m] env]; [|done].
  injection R as <- <-. exists text. split; [done|].
  destruct (parse_u64 text); [|done]. by injection Ha as ->.
Qed.

(** ** The sniper *)

(** The purchase and the sale of the sniper, as the builder sees them. *)
Definition sniper_bought (c : TradingClient) (e : PumpFunTradeEvent) (hash : Hash)
    (p : PumpFunParams) : SwapParams :=
  swap_of_buy c (demo_buy DPumpFun TSOL (pe_mint e) 100000 300 hash (PPumpFun p) true true
                   None None None).

(** The sniper buys into the account derived with a seed.  What it then sells
    is what the node says of the associated account of the token program: when
    the node knows no such account the program ends in an error and keeps what
    it bought. *)
Theorem sniper_looks_elsewhere e (w : Process E) c ti w1 plain :
  sniper_client w = Val (Ok (c, ti), w1) →
  get_associated_token_address (tc_payer c) (pe_mint e) = Val plain →
  (∀ r rand hash p ixs,
     eval r (pf_build_buy_instructions rand (sniper_bought c e hash p)) = Val (Ok ixs) →
     ∃ create accounts data seeded, ixs = create ++ [mk_ix PUMPFUN accounts data]
       ∧ accounts !! 5%nat = Some (meta_new seeded false)
       ∧ ata_compute (mk_AtaCacheKey (tc_payer c) (pe_mint e) (pf_token_program p) true) = Val seeded)
  ∧ ∀ w', pumpfun_sniper_trade executor_of e w = Val (Ok (), w') →
      ∃ env text, (rpc_get_token_account_balance plain env).1 = Ok text ∧ is_ok (parse_u64 text) = true.
Proof.
  intros Hc Hp. split.
  - intros r rand hash p ixs He. pose proof (client_for_settings _ _ _ _ _ _ Hc) as [_ Hs].
    destruct (pumpfun_buy_account r rand (sniper_bought c e hash p) p ixs eq_refl He) as (create & accs & data & user & -> & _ & Ha & Hu).
    cbn [sniper_bought swap_of_buy payer output_mint open_seed_optimize] in Hu. rewrite Hs in Hu. eauto 10.
  - intros w' Ht. unfold pumpfun_sniper_trade in Ht. rewrite (mbind_eq _ _ _ _ _ Hc) in Ht. m_inv.
    cbn [fst] in *. rewrite Hp in R2. injection R2 as <-.
    apply amount_held_inv in R3 as (text & Hq & Hn). exists (p_env e2), text. by rewrite Hn.
Qed.

(** ** The Bonk sniper *)

Lemma sale_without_reserves amount slip : 0 < amount → is_u64 amount →
  bonk_get_sell_sol_amount_from_token_amount amount 0 0 0 0 slip = Val 0.
Proof.
  intros Ha Hu. unfold bonk_get_sell_sol_amount_from_token_amount.
  change (checked_sub 128 0 0) with (Some 0). change (checked_add 128 0 0) with (Some 0).
  cbn [unwrap exec_bind]. rewrite checked_mul_ok by (rewrite Z.mul_0_r; uint). cbn [unwrap exec_bind].
  rewrite checked_add_ok by uint. cbn [unwrap exec_bind].
  rewrite checked_div_ok by lia. cbn [unwrap exec_bind].
  rewrite Z.mul_0_r, Z.div_0_l by lia. destruct overflow_checks; reflexivity.
Qed.

(** The sale of the Bonk sniper takes whatever it gets.  The parameters of the
    sale carry no reserves, so whatever slippage the program asks for, the
    least amount of SOL in the instruction is 0. *)
Theorem bonk_sniper_sells_at_any_price c e token mint amount slippage hash create close r rand ixs :
  is_u64 amount →
  eval r (bk_build_sell_instructions rand
    (swap_of_sell c (demo_sell DBonk token mint amount slippage hash
                       (PBonk (bonk_sniper_sale_params e)) create close None))) = Val (Ok ixs) →
  ∃ before accounts after,
    ixs = before ++ [mk_ix BONK accounts (bk_data SELL_EXECT_IN_DISCRIMINATOR amount 0)] ++ after.
Proof.
  intros Hu He. unfold bk_build_sell_instructions in He.
  change (amount_of _) with amount in He. change (protocol_params _) with (PBonk (bonk_sniper_sale_params e)) in He.
  destruct (Z.eqb_spec amount 0) as [|Hne]; [done|]. cbv zeta in He. prog_inv He.
  apply eval_of_exec in V0. unfold bk_minimum in V0.
  change (fixed_output_amount _) with (@None Z) in V0.
  cbn [bonk_sniper_sale_params bk_immediate_sell bk_virtual_base bk_virtual_quote bk_real_base
       bk_real_quote] in V0.
  rewrite sale_without_reserves in V0 by (uint_unfold; lia). injection V0 as <-.
  injection He as <-. do 3 eexists. reflexivity.
Qed.

(** ** One infrastructure *)

(** The clients of the wallets differ in their keys alone: all trade with seeded
    accounts, and through the channels and on the cores of the one
    infrastructure. *)
Theorem wallets_share_infrastructure keys (w : Process E) ti clients w' :
  shared_infrastructure keys w = Val (Ok (ti, clients), w') →
  Forall2 (λ key c, try_from_base58_string key = Ok (tc_payer c)
                    ∧ c = client_of (tc_payer c) ti true true false) keys clients.
Proof.
  unfold shared_infrastructure. intros Hs. m_inv. injection Hs as <- <-.
  clear R. revert a0 e e0 R0.
  induction keys as [|key keys IH]; intros cs w1 w2 Hk; cbn [clients_for] in Hk.
  - m_inv. subst cs. constructor.
  - m_inv. subst cs. unfold from_infrastructure in R0. m_inv. subst a1.
    constructor; [|by eapply IH]. split; [|done].
    destruct (try_from_base58_string key) as [k|]; [|done]. by injection R as ->.
Qed.
End Trades.

(** ** Fees *)

(** What is left of the fees after the calls of the example: the strategy of
    Jito is gone for purchases and normal for sales. *)
Example fee_demo_table :
  let table := run_rcus fee_demo gfs_new in
  map (λ k : SwqosType * TradeType * GasFeeStrategyType, bool_decide (is_Some (table !! k)))
    [(SwDefault, TBuy, Normal); (SwDefault, TSell, Normal); (Jito, TBuy, Normal);
     (Jito, TBuy, LowTipHighCuPrice); (Jito, TBuy, HighTipLowCuPrice); (Jito, TSell, Normal);
     (Bloxroute, TBuy, Normal)]
  = [true; true; false; false; false; true; false]
  ∧ size table = 3%nat.
Proof. vm_compute. done. Qed.

(** ** Concrete runs *)

Definition toy_env_vars : EnvVars := {| env_var := λ _, None |}.

Definition toy_created : PumpFunTradeEvent :=
  mk_PumpFunTrade 66 78 80 77 79 1073000000000000 30000000000 793100000000000 0 81 TOKEN_PROGRAM false
    false 1000000000 35000000000000 true.

Abbreviation toy_sniper_client :=
  (@sniper_client toy_host toy_env_vars toy_sdk Sim sim_rpc toy_tx_sdk rejecting toy_quic toy_node_tx
     toy_text toy_machine).

Definition toy_sniper : TradingClient * TradingInfrastructure :=
  match toy_sniper_client holder with
  | Val (Ok r, _) => r
  | _ => (mk_Client 0 false false false false None 0 [], mk_TI [] (infra_config_new "" [] "") 0 [])
  end.

(** Every purchase and sale goes through. *)
Definition toy_trades : Executor (Process Sim) :=
  {| swap := λ _ _, mret (true, ["signature"], None, []) |}.

Definition toy_plain : Pubkey :=
  match @get_associated_token_address toy_sdk 11 66 with Val a => a | Panic => 0 end.

Definition toy_bonk_sale : SwapParams :=
  swap_of_sell toy_sniper.1 (demo_sell DBonk TSOL 66 5000 300 42
    (PBonk (bonk_sniper_sale_params toy_bonk_event)) true true None).
Definition toy_bonk_sale_ixs : list Instruction :=
  ixs_of (@eval toy_sdk _ initial_rents (@bk_build_sell_instructions release 0 toy_bonk_sale)).

Abbreviation toy_share :=
  (@shared_infrastructure toy_host toy_sdk Sim sim_rpc toy_tx_sdk rejecting toy_quic toy_node_tx
     toy_text toy_machine ["one"; "two"]).
Definition toy_shared_clients : TradingInfrastructure * list TradingClient :=
  match toy_share holder with Val (Ok r, _) => r | _ => (mk_TI [] (infra_config_new "" [] "") 0 [], []) end.

Abbreviation toy_snipe :=
  (@pumpfun_sniper_trade toy_host toy_env_vars release toy_sdk Sim sim_rpc toy_tx_sdk rejecting toy_quic
     toy_node_tx toy_text toy_machine (λ _, toy_trades) toy_created holder).

(** The program gets as far as its sale when the node knows the account. *)
Example toy_snipe_runs : toy_snipe = Val (Ok (), outcome_env holder toy_snipe).
Proof. apply outcome_eq. vm_compute. reflexivity. Qed.

Lemma sniper_looks_elsewhere_witness :
  ∃ env text, (@rpc_get_token_account_balance Sim sim_rpc toy_plain env).1 = Ok text
              ∧ is_ok (parse_u64 text) = true.
Proof.
  refine (proj2 (@sniper_looks_elsewhere toy_host toy_env_vars release toy_sdk Sim sim_rpc toy_tx_sdk
    rejecting toy_quic toy_node_tx toy_text toy_machine (λ _, toy_trades) toy_created holder
    toy_sniper.1 toy_sniper.2 (outcome_env holder (toy_sniper_client holder)) toy_plain _ _)
    (outcome_env holder toy_snipe) toy_snipe_runs).
  - apply (outcome_eq holder). vm_compute. reflexivity.
  - vm_compute. reflexivity.
Defined.

Lemma bonk_sniper_sells_at_any_price_witness :
  ∃ before accounts after,
    toy_bonk_sale_ixs
    = before ++ [mk_ix BONK accounts (bk_data SELL_EXECT_IN_DISCRIMINATOR 5000 0)] ++ after.
Proof.
  refine (@bonk_sniper_sells_at_any_price release toy_sdk toy_sniper.1 toy_bonk_event TSOL 66 5000 300
            42 true true initial_rents 0 toy_bonk_sale_ixs _ _).
  - by vm_compute.
  - vm_cast_no_check (eq_refl (@eval toy_sdk _ initial_rents (@bk_build_sell_instructions release 0
      toy_bonk_sale))).
Defined.

Lemma wallets_share_infrastructure_witness :
  Forall2 (λ key c, @try_from_base58_string toy_host key = Ok (tc_payer c)
             ∧ c = client_of (tc_payer c) toy_shared_clients.1 true true false)
    ["one"; "two"] toy_shared_clients.2.
Proof.
  apply (@wallets_share_infrastructure toy_host toy_sdk Sim sim_rpc toy_tx_sdk rejecting toy_quic
    toy_node_tx toy_text toy_machine ["one"; "two"] holder toy_shared_clients.1 toy_shared_clients.2
    (outcome_env holder (toy_share holder))).
  apply (outcome_eq holder). vm_compute. reflexivity.
Defined.
