(* ===== verification/Cli.v ===== *)
(** * The command line of the examples (sdk/../examples/cli_trading)

    A command is carried out and the program ends, or lines are read and carried
    out one after the other.  The session is the process of the library with the
    lines that are still to be read and the text that has been printed.  The
    command line is parsed by a library of its own; here the parsed command is
    the start.  As the other examples this one is taken as it would be on the
    library of the repository. *)

From Stdlib Require Import String.
From S2P Require Import Prelude F64 Solana Accounts Spl FastFn GasFee Effects Text FloatText Borsh PumpSwapUtils PoolTypes Params ParamsRpc Client Trader TxBuild Wsol IxCommon Channels Confirm Submit Http Quic Executor Startup Wallet Demos.

#[local] Open Scope string_scope.
#[local] Open Scope Z_scope.
#[local] Open Scope list_scope.

(** ** The session *)

(** After the last line, reading gives the empty text. *)
Record Session (E : Type) := mk_Session {
  s_process : Process E;
  s_input : list (result string string);
  s_output : list string;
}.
Arguments mk_Session {E} s_process s_input s_output.
Arguments s_process {E} s.
Arguments s_input {E} s.
Arguments s_output {E} s.

Section Terminal.
Context {E : Type}.

Definition on_process {A} (m : M (Process E) A) : M (Session E) A := λ s,
  match m (s_process s) with
  | Val (r, w) => Val (r, mk_Session w (s_input s) (s_output s))
  | Panic => Panic
  end.

Definition print (text : string) : M (Session E) () := λ s,
  Val (Ok (), mk_Session (s_process s) (s_input s) (s_output s ++ [text])).
Definition println (line : string) : M (Session E) () := print (line +:+ nl).

(** [io::stdin().read_line(&mut input)?]. *)
Definition read_line : M (Session E) string := λ s,
  match s_input s with
  | [] => Val (Ok "", s)
  | r :: rest => Val (r, mk_Session (s_process s) rest (s_output s))
  end.
End Terminal.

Definition print_each {E} (lines : list string) : M (Session E) () :=
  foldr (λ line m, let% _ := println line in m) (mret ()) lines.

(** [&s[n..]]. *)
Definition slice_from (n : nat) (s : string) : string := substring n (String.length s - n) s.

(** ** Commands *)

(* ex cli_trading/src/main.rs:52-103 Command *)
Inductive Command :=
| Buy (mint dex : string) (amount : f64) (slippage : option Z) (amm pool : option string)
| Sell (mint dex : string) (amount : option f64) (slippage : option Z) (amm pool : option string)
| WrapSol (amount : f64)
| CloseWsol
| Wallet
| Interactive.

(* ex cli_trading/src/main.rs:41-41 DEXS *)
Definition DEXS : list string := ["pumpfun"; "pumpswap"; "bonk"; "raydium_v4"; "raydium_cpmm"].

(* ex cli_trading/src/main.rs:39-39 RPC_URL *)
Definition RPC_URL : string := "https://api.mainnet-beta.solana.com".

Definition is_dex (dex : string) : bool := existsb (String.eqb dex) DEXS.

Definition invalid_dex (dex : string) : string :=
  "Invalid DEX: '" +:+ dex +:+ "'. Supported DEXs: " +:+ String.concat ", " DEXS.

(* ex cli_trading/src/main.rs:171-194 validate_dex_params *)
Definition validate_dex_params (dex : string) (amm pool : option string) : result string () :=
  if negb (is_dex dex) then Err (invalid_dex dex)
  else if String.eqb dex "raydium_v4" then
    match amm with
    | None => Err "AMM address is required for Raydium V4. Use --amm flag."
    | Some _ => Ok ()
    end
  else if String.eqb dex "raydium_cpmm" then
    match pool with
    | None => Err "Pool address is required for Raydium CPMM. Use --pool flag."
    | Some _ => Ok ()
    end
  else Ok ().

(* ex cli_trading/src/main.rs:305-326 show_help *)
Definition help_text : list string :=
  ["📚 Available Commands:";
   "  buy <mint> <dex> <sol_amount> [slippage]    - Buy tokens with SOL";
   "  sell <mint> <dex> [token_amount] [slippage] - Sell tokens (all if no amount)";
   "  raydium_v4_buy <mint> <amm> <sol_amount> [slippage] - Buy tokens with SOL from Raydium V4";
   "  raydium_v4_sell <mint> <amm> [token_amount] [slippage] - Sell tokens from Raydium V4";
   "  raydium_cpmm_buy <mint> <pool_address> <sol_amount> [slippage] - Buy tokens with SOL from Raydium CPMM";
   "  raydium_cpmm_sell <mint> <pool_address> [token_amount] [slippage] - Sell tokens from Raydium CPMM";
   "  wrap_sol <amount>                           - Wrap SOL to WSOL";
   "  close_wsol                                  - Close WSOL account";
   "  wallet                                      - Check wallet status";
   "  help                                        - Show this help";
   "  quit                                        - Exit interactive mode";
   "";
   "🏛️ Supported DEXs: " +:+ String.concat ", " DEXS;
   "";
   "📝 Examples:";
   "  buy xxxxxxx pumpfun 1.0";
   "  wrap_sol 2.5"].

(** ** What is known of the user's tokens *)

(** What the node says of a token account for display: the number of tokens, and
    the decimals of the mint. *)
Class UiBalances (E : Type) := {
  rpc_token_ui_balance : Pubkey → E → result string (option f64 * Z) * E;
}.

(** What [check_mint_ata] returns. *)
Record MintAta := mk_MintAta {
  create_mint_ata : bool;
  mint_use_seed : bool;
  owner_pubkey : Pubkey;
  amount_f64 : f64;
  mint_decimals : Z;
}.

(** A number of SOL as text, in lamports; the text of an error of a key. *)
Class SolText := {
  sol_str_to_lamports : string → option Z;
  parse_pubkey_error : string → string;
}.

Definition sol (lamports : Z) : f64 := fdiv (f64_of_Z lamports) (f64_of_Z 1000000000).

(** [{:?}] of the signatures. *)
Definition debug_signatures (signatures : list string) : string :=
  "[" +:+ String.concat ", " signatures +:+ "]".

Section Cli.
Context `{Build} `{Sdk} {E : Type} `{Confirm E} `{TxErrorText} `{TxSdk} `{!Codec} `{!Wire E}
  `{!QuicNet E} `{!NodeTx E} `{KeyText} `{Machine} `{Borsh} `{SignatureText} `{!UiBalances E}
  `{!SolText}.
Context (executor_of : TradingInfrastructure → Executor (Process E)).

(** The key that is made when the program starts, and one that is made when no
    client can be had. *)
Context (PAYER temp_keypair : Pubkey).

Abbreviation S := (Session E).
Abbreviation Client := (TradingClient * TradingInfrastructure)%type.

Definition query {A} (f : E → result string A * E) : M S A := on_process (in_env (call f)).

Definition parse_pubkey (s : string) : M S Pubkey :=
  of_res (ok_or (pubkey_from_str s) (parse_pubkey_error s)).

(* ex cli_trading/src/main.rs:1388-1406 initialize_real_client *)
Definition initialize_real_client : M S Client :=
  let% _ := println "🚀 Initializing SolanaTrade client..." in
  let% c := on_process (client_new PAYER
              (build (trade_config_builder RPC_URL [CDefault RPC_URL] "confirmed"))) in
  let% _ := println "✅ SolanaTrade client initialized successfully!" in
  mret c.

(* ex cli_trading/src/main.rs:468-518 check_mint_ata *)
Definition check_mint_ata (c : TradingClient) (mint : string) : M S MintAta :=
  let% mint_pubkey := of_ex (unwrap (pubkey_from_str mint)) in
  let% mint_info := attempt (query (rpc_get_account mint_pubkey)) in
  match mint_info with
  | Err _ => mfail "Mint account not found"
  | Ok mint_info =>
      let owner := acc_owner mint_info in
      let% mint_ata := on_process (traded_account c mint_pubkey owner false) in
      let% balance := attempt (query (rpc_token_ui_balance mint_ata)) in
      match balance with
      | Ok (ui_amount, decimals) =>
          let amount := fmul (default f_zero ui_amount) (f_powi (f64_of_Z 10) decimals) in
          mret (mk_MintAta false false owner amount decimals)
      | Err _ =>
          let% mint_ata := on_process (traded_account c mint_pubkey owner true) in
          let% balance := attempt (query (rpc_token_ui_balance mint_ata)) in
          mret match balance with
               | Ok _ => mk_MintAta false true owner f_zero 0
               | Err _ => mk_MintAta true false owner f_zero 0
               end
      end
  end.

(** ** Purchases *)

Definition cli_buy (dex : DexType) (token : TradeTokenType) (mint : Pubkey) (lamports : Z)
    (slippage : option Z) (recent_blockhash : Hash) (params : DexParamEnum)
    (create_input create_mint : bool) : TradeBuyParams :=
  mk_Buy dex token mint lamports slippage (Some recent_blockhash) params None true create_input false
    create_mint None None demo_fees false None None.

Definition cli_sell (dex : DexType) (token : TradeTokenType) (mint : Pubkey) (amount : Z)
    (slippage : option Z) (recent_blockhash : Hash) (params : DexParamEnum) : TradeSellParams :=
  mk_Sell dex token mint amount slippage (Some recent_blockhash) false params None true true false
    false None None demo_fees false None.

(** The lines before a trade; the slippage only when one is given. *)
Definition announce (lines : list string) (slippage : option Z) (unit : string) : M S () :=
  let% _ := print_each lines in
  match slippage with
  | Some bps => println ("   Slippage: " +:+ show bps +:+ unit)
  | None => mret ()
  end.

(** The number of SOL as lamports; what the text cannot express is a panic. *)
Definition lamports_of (sol_amount : f64) : M S Z :=
  of_ex (unwrap (sol_str_to_lamports (show_f64 sol_amount))).

Definition recent_hash : M S Hash := on_process latest_blockhash.

(** The outcome of a trade: what is printed when [buy] or [sell] returns, with
    the signatures, whatever the flag of success says. *)
Definition report (did failed_to dex_label : string) (r : result string (SwapResult TradeError)) :
    M S () :=
  match r with
  | Ok (_, signature, _, _) =>
      let% _ := println ("   ✅ Successfully " +:+ did +:+ " tokens from " +:+ dex_label +:+ "!") in
      println ("   ✅ Transaction Signature: " +:+ debug_signatures signature)
  | Err e => println ("   ❌ Failed to " +:+ failed_to +:+ " tokens from " +:+ dex_label +:+ ": " +:+ e)
  end.

Definition place_and_report_buy (c : Client) (dex_label : string) (p : TradeBuyParams) : M S () :=
  let% r := attempt (on_process (@client_buy (Process E) (executor_of c.2) c.1 p)) in
  report "bought" "buy" dex_label r.
Definition place_and_report_sell (c : Client) (dex_label : string) (p : TradeSellParams) : M S () :=
  let% r := attempt (on_process (@client_sell (Process E) (executor_of c.2) c.1 p)) in
  report "sold" "sell" dex_label r.

(* ex cli_trading/src/main.rs:598-652 handle_buy_pumpfun *)
Definition handle_buy_pumpfun (mint : string) (sol_amount : f64) (slippage : option Z) (a : MintAta) :
    M S () :=
  let% _ := announce ["🔥 BUY PUMPFUN COMMAND"; "   Token Mint: " +:+ mint;
                      "   SOL Amount: " +:+ show_f64 sol_amount +:+ " SOL"] slippage "" in
  let% client := initialize_real_client in
  let% mint_pubkey := parse_pubkey mint in
  let% param := on_process (pf_from_mint_by_rpc mint_pubkey) in
  let% recent_blockhash := recent_hash in
  let% sol_lamports := lamports_of sol_amount in
  place_and_report_buy client "PumpFun"
    (cli_buy DPumpFun TSOL mint_pubkey sol_lamports slippage recent_blockhash (PPumpFun param) false
       (create_mint_ata a)).

(* ex cli_trading/src/main.rs:654-707 handle_buy_pumpswap *)
Definition handle_buy_pumpswap (mint : string) (sol_amount : f64) (slippage : option Z) (a : MintAta) :
    M S () :=
  let% client := initialize_real_client in
  let% _ := announce ["🔥 BUY PUMPSWAP COMMAND"; "   Token Mint: " +:+ mint;
                      "   SOL Amount: " +:+ show_f64 sol_amount +:+ " SOL"] slippage "%" in
  let% mint_pubkey := parse_pubkey mint in
  let% param := on_process (in_env (ps_from_mint_by_rpc mint_pubkey)) in
  let% recent_blockhash := recent_hash in
  let% sol_lamports := lamports_of sol_amount in
  place_and_report_buy client "PumpSwap"
    (cli_buy DPumpSwap TWSOL mint_pubkey sol_lamports slippage recent_blockhash (PPumpSwap param) true
       (create_mint_ata a)).

(* ex cli_trading/src/main.rs:709-763 handle_buy_bonk *)
Definition handle_buy_bonk (mint : string) (sol_amount : f64) (slippage : option Z) (a : MintAta) :
    M S () :=
  let% client := initialize_real_client in
  let% _ := announce ["🔥 BUY BONK COMMAND"; "   Token Mint: " +:+ mint;
                      "   SOL Amount: " +:+ show_f64 sol_amount +:+ " SOL"] slippage "%" in
  let% mint_pubkey := parse_pubkey mint in
  let% param := on_process (bk_from_mint_by_rpc mint_pubkey false) in
  let% recent_blockhash := recent_hash in
  let% sol_lamports := lamports_of sol_amount in
  place_and_report_buy client "Bonk"
    (cli_buy DBonk TWSOL mint_pubkey sol_lamports slippage recent_blockhash (PBonk param) true
       (create_mint_ata a)).

(* ex cli_trading/src/main.rs:765-823 handle_buy_raydium_v4 *)
Definition handle_buy_raydium_v4 (mint amm : string) (sol_amount : f64) (slippage : option Z)
    (a : MintAta) : M S () :=
  let% client := initialize_real_client in
  let% _ := announce ["🔥 BUY RAYDIUM V4 COMMAND"; "   Token Mint: " +:+ mint; "   AMM: " +:+ amm;
                      "   SOL Amount: " +:+ show_f64 sol_amount +:+ " SOL"] slippage "%" in
  let% mint_pubkey := parse_pubkey mint in
  let% amm_pubkey := parse_pubkey amm in
  let% param := on_process (in_env (v4_from_amm_address_by_rpc amm_pubkey)) in
  let% recent_blockhash := recent_hash in
  let% sol_lamports := lamports_of sol_amount in
  place_and_report_buy client "Raydium V4"
    (cli_buy DRaydiumAmmV4 TWSOL mint_pubkey sol_lamports slippage recent_blockhash
       (PRaydiumAmmV4 param) true (create_mint_ata a)).

(* ex cli_trading/src/main.rs:825-884 handle_buy_raydium_cpmm *)
Definition handle_buy_raydium_cpmm (mint pool_address : string) (sol_amount : f64)
    (slippage : option Z) (a : MintAta) : M S () :=
  let% client := initialize_real_client in
  let% _ := announce ["🔥 BUY RAYDIUM CPMM COMMAND"; "   Pool Address: " +:+ pool_address;
                      "   Token Mint: " +:+ mint;
                      "   SOL Amount: " +:+ show_f64 sol_amount +:+ " SOL"] slippage "%" in
  let% mint_pubkey := parse_pubkey mint in
  let% pool_pubkey := parse_pubkey pool_address in
  let% param := on_process (in_env (cp_from_pool_address_by_rpc pool_pubkey)) in
  let% recent_blockhash := recent_hash in
  let% sol_lamports := lamports_of sol_amount in
  place_and_report_buy client "Raydium CPMM"
    (cli_buy DRaydiumCpmm TWSOL mint_pubkey sol_lamports slippage recent_blockhash
       (PRaydiumCpmm param) true (create_mint_ata a)).

(** A protocol that needs the address of a pool is not bought on: nothing is
    done. *)
(* ex cli_trading/src/main.rs:521-561 handle_buy *)
Definition handle_buy (mint dex : string) (sol_amount : f64) (slippage : option Z) : M S () :=
  if negb (is_dex dex) then println ("❌ " +:+ invalid_dex dex)
  else
    let% client := initialize_real_client in
    let% a := check_mint_ata client.1 mint in
    if String.eqb dex "pumpfun" then handle_buy_pumpfun mint sol_amount slippage a
    else if String.eqb dex "pumpswap" then handle_buy_pumpswap mint sol_amount slippage a
    else if String.eqb dex "bonk" then handle_buy_bonk mint sol_amount slippage a
    else mret ().

(* ex cli_trading/src/main.rs:562-574 handle_buy_rv4 *)
Definition handle_buy_rv4 (mint amm : string) (sol_amount : f64) (slippage : option Z) : M S () :=
  let% client := initialize_real_client in
  let% a := check_mint_ata client.1 mint in
  handle_buy_raydium_v4 mint amm sol_amount slippage a.

(* ex cli_trading/src/main.rs:576-596 handle_buy_rcpmm *)
Definition handle_buy_rcpmm (mint pool_address : string) (sol_amount : f64) (slippage : option Z) :
    M S () :=
  let% client := initialize_real_client in
  let% a := check_mint_ata client.1 mint in
  handle_buy_raydium_cpmm mint pool_address sol_amount slippage a.

(** ** Sales *)

(** The amount that is typed is taken as it is, in the smallest unit; without
    one everything in the plain account is sold. *)
Definition amount_to_sell (token_amount : option f64) (a : MintAta) : f64 :=
  default (amount_f64 a) token_amount.

(* ex cli_trading/src/main.rs:996-1055 handle_sell_pumpfun *)
Definition handle_sell_pumpfun (mint : string) (token_amount : option f64) (slippage : option Z)
    (a : MintAta) : M S () :=
  let amount := amount_to_sell token_amount a in
  let% _ := announce ["🔥 SELL PUMPFUN COMMAND"; "   Token Mint: " +:+ mint;
                      "   Token Amount: " +:+ show_f64 amount +:+ " "] slippage "%" in
  let% client := initialize_real_client in
  let% mint_pubkey := parse_pubkey mint in
  let% param := on_process (pf_from_mint_by_rpc mint_pubkey) in
  let% recent_blockhash := recent_hash in
  place_and_report_sell client "PumpFun"
    (cli_sell DPumpFun TSOL mint_pubkey (f64_as_u64 amount) slippage recent_blockhash
       (PPumpFun param)).

(* ex cli_trading/src/main.rs:1057-1113 handle_sell_pumpswap *)
Definition handle_sell_pumpswap (mint : string) (token_amount : option f64) (slippage : option Z)
    (a : MintAta) : M S () :=
  let amount := amount_to_sell token_amount a in
  let% _ := announce ["🔥 SELL PUMPSWAP COMMAND"; "   Token Mint: " +:+ mint;
                      "   Token Amount: " +:+ show_f64 amount] slippage "" in
  let% client := initialize_real_client in
  let% mint_pubkey := parse_pubkey mint in
  let% param := on_process (in_env (ps_from_mint_by_rpc mint_pubkey)) in
  let% recent_blockhash := recent_hash in
  place_and_report_sell client "PumpSwap"
    (cli_sell DPumpSwap TWSOL mint_pubkey (f64_as_u64 amount) slippage recent_blockhash
       (PPumpSwap param)).

(* ex cli_trading/src/main.rs:1115-1172 handle_sell_bonk *)
Definition handle_sell_bonk (mint : string) (token_amount : option f64) (slippage : option Z)
    (a : MintAta) : M S () :=
  let amount := amount_to_sell token_amount a in
  let% _ := announce ["🔥 SELL PUMPSWAP COMMAND"; "   Token Mint: " +:+ mint;
                      "   Token Amount: " +:+ show_f64 amount] slippage "" in
  let% client := initialize_real_client in
  let% mint_pubkey := parse_pubkey mint in
  let% param := on_process (bk_from_mint_by_rpc mint_pubkey false) in
  let% recent_blockhash := recent_hash in
  place_and_report_sell client "Bonk"
    (cli_sell DBonk TWSOL mint_pubkey (f64_as_u64 amount) slippage recent_blockhash (PBonk param)).

(* ex cli_trading/src/main.rs:1174-1234 handle_sell_raydium_v4 *)
Definition handle_sell_raydium_v4 (amm mint : string) (token_amount : option f64)
    (slippage : option Z) (a : MintAta) : M S () :=
  let amount := amount_to_sell token_amount a in
  let% _ := announce ["🔥 SELL RAYDIUM V4 COMMAND"; "   AMM: " +:+ amm; "   Token Mint: " +:+ mint;
                      "   Token Amount: " +:+ show_f64 amount] slippage "" in
  let% client := initialize_real_client in
  let% amm_pubkey := parse_pubkey amm in
  let% mint_pubkey := parse_pubkey mint in
  let% param := on_process (in_env (v4_from_amm_address_by_rpc amm_pubkey)) in
  let% recent_blockhash := recent_hash in
  place_and_report_sell client "Raydium V4"
    (cli_sell DRaydiumAmmV4 TWSOL mint_pubkey (f64_as_u64 amount) slippage recent_blockhash
       (PRaydiumAmmV4 param)).

(* ex cli_trading/src/main.rs:1236-1297 handle_sell_raydium_cpmm *)
Definition handle_sell_raydium_cpmm (mint pool_address : string) (token_amount : option f64)
    (slippage : option Z) (a : MintAta) : M S () :=
  let amount := amount_to_sell token_amount a in
  let% _ := announce ["🔥 SELL RAYDIUM CPMM COMMAND"; "   Pool Address: " +:+ pool_address;
                      "   Token Mint: " +:+ mint; "   Token Amount: " +:+ show_f64 amount]
              slippage "" in
  let% client := initialize_real_client in
  let% pool_pubkey := parse_pubkey pool_address in
  let% mint_pubkey := parse_pubkey mint in
  let% param := on_process (in_env (cp_from_pool_address_by_rpc pool_pubkey)) in
  let% recent_blockhash := recent_hash in
  place_and_report_sell client "Raydium CPMM"
    (cli_sell DRaydiumCpmm TWSOL mint_pubkey (f64_as_u64 amount) slippage recent_blockhash
       (PRaydiumCpmm param)).

(* ex cli_trading/src/main.rs:886-946 handle_sell *)
Definition handle_sell (mint dex : string) (token_amount : option f64) (slippage : option Z) :
    M S () :=
  if negb (is_dex dex) then println ("❌ " +:+ invalid_dex dex)
  else
    let% client := initialize_real_client in
    let% a := check_mint_ata client.1 mint in
    if String.eqb dex "pumpfun" then handle_sell_pumpfun mint token_amount slippage a
    else if String.eqb dex "pumpswap" then handle_sell_pumpswap mint token_amount slippage a
    else if String.eqb dex "bonk" then handle_sell_bonk mint token_amount slippage a
    else mret ().

(* ex cli_trading/src/main.rs:948-970 handle_sell_rv4 *)
Definition handle_sell_rv4 (mint amm : string) (token_amount : option f64) (slippage : option Z) :
    M S () :=
  let% client := initialize_real_client in
  let% a := check_mint_ata client.1 mint in
  handle_sell_raydium_v4 amm mint token_amount slippage a.

(* ex cli_trading/src/main.rs:972-994 handle_sell_rcpmm *)
Definition handle_sell_rcpmm (mint pool_address : string) (token_amount : option f64)
    (slippage : option Z) : M S () :=
  let% client := initialize_real_client in
  let% a := check_mint_ata client.1 mint in
  handle_sell_raydium_cpmm mint pool_address token_amount slippage a.

(** ** Wrapped SOL and the wallet *)

Definition wsol_account_of (c : TradingClient) : exec Pubkey :=
  get_associated_token_address (tc_payer c) WSOL_TOKEN_ACCOUNT.

(** The instructions that wrap: the account is created when it is missing. *)
(* ex cli_trading/src/main.rs:1428-1451 wrap_sol_real, instructions *)
Definition wrap_instructions (payer : Pubkey) (amount_lamports : Z) : exec (list Instruction) :=
  let* create := create_associated_token_account_idempotent payer payer WSOL_TOKEN_ACCOUNT
                   TOKEN_PROGRAM in
  let* wsol := get_associated_token_address payer WSOL_TOKEN_ACCOUNT in
  Val [create; system_transfer payer wsol amount_lamports; mk_ix TOKEN_PROGRAM [meta_new wsol false] [17]].

(** Send what the payer signs and print the signature. *)
Definition send_and_show (payer : Pubkey) (instructions : list Instruction) : M S () :=
  let% recent_blockhash := recent_hash in
  let% signature := on_process (send_signed payer instructions recent_blockhash) in
  println ("   📝 Transaction Signature: " +:+ signature).

(* ex cli_trading/src/main.rs:1408-1465 wrap_sol_real *)
Definition wrap_sol_real (c : TradingClient) (amount_lamports : Z) : M S () :=
  let% balance := on_process (get_payer_sol_balance c) in
  let% needed := of_ex (add 64 amount_lamports 1000000) in
  if balance <? needed then
    mfail ("Insufficient balance. Have " +:+ show_fixed 3 (sol balance) +:+ " SOL, need " +:+
           show_fixed 3 (sol needed) +:+ " SOL (including fees)")
  else
    let% instructions := of_ex (wrap_instructions (tc_payer c) amount_lamports) in
    send_and_show (tc_payer c) instructions.

(* ex cli_trading/src/main.rs:1467-1500 close_wsol_real *)
Definition close_wsol_real (c : TradingClient) : M S () :=
  let% wsol_account := of_ex (wsol_account_of c) in
  let% account_info := attempt (query (rpc_get_account wsol_account)) in
  match account_info with
  | Err _ => mfail "WSOL account not found"
  | Ok _ =>
      let% close_instruction :=
        of_res (close_account TOKEN_PROGRAM wsol_account (tc_payer c) (tc_payer c) []) in
      send_and_show (tc_payer c) [close_instruction]
  end.

(* ex cli_trading/src/main.rs:1502-1521 get_wallet_real *)
Definition get_wallet_real (c : TradingClient) : M S () :=
  let% sol_balance := on_process (get_payer_sol_balance c) in
  let% wsol := attempt (on_process (get_payer_token_balance c WSOL_TOKEN_ACCOUNT)) in
  let wsol_balance := match wsol with Ok n => n | Err _ => 0 end in
  print_each [nl +:+ "   📊 REAL WALLET OVERVIEW:"; "   ═══════════════════════════════════";
    "   💰 SOL Balance:    " +:+ show_fixed 6 (sol sol_balance) +:+ " SOL";
    "   🪙  WSOL Balance:   " +:+ show_fixed 6 (sol wsol_balance) +:+ " WSOL";
    "   🏛️  Wallet Address: " +:+ pubkey_to_string (tc_payer c);
    "   ⚡ Network:        Mainnet-beta"].

Definition no_network : M S () := println "   ⚠️ Cannot connect to Solana network".

(* ex cli_trading/src/main.rs:1299-1322 handle_wrap_sol *)
Definition handle_wrap_sol (amount : f64) : M S () :=
  let% _ := print_each ["📦 WRAP SOL COMMAND";
    "   Amount: " +:+ show_f64 amount +:+ " SOL → " +:+ show_f64 amount +:+ " WSOL"] in
  let% client := attempt initialize_real_client in
  match client with
  | Ok client =>
      let amount_lamports := f64_as_u64 (fmul amount (f64_of_Z 1000000000)) in
      let% r := attempt (wrap_sol_real client.1 amount_lamports) in
      match r with
      | Ok _ => println ("   ✅ Successfully wrapped " +:+ show_f64 amount +:+ " SOL to WSOL!")
      | Err e => println ("   ❌ Failed to wrap SOL: " +:+ e)
      end
  | Err _ => no_network
  end.

(* ex cli_trading/src/main.rs:1324-1367 handle_close_wsol *)
Definition handle_close_wsol : M S () :=
  let% _ := print_each ["🔄 CLOSE WSOL COMMAND"; "   Action: Closing WSOL account to recover SOL"] in
  let% client := attempt initialize_real_client in
  match client with
  | Ok client =>
      let% balance := attempt (on_process (get_payer_token_balance client.1 WSOL_TOKEN_ACCOUNT)) in
      match balance with
      | Ok wsol_balance =>
          if wsol_balance =? 0 then println "   ⚠️ No WSOL balance found to recover"
          else
            let% _ := println ("   💰 Found " +:+ show_fixed 6 (sol wsol_balance)
                               +:+ " WSOL to recover") in
            let% r := attempt (close_wsol_real client.1) in
            match r with
            | Ok _ => println ("   ✅ Successfully closed WSOL account and recovered " +:+
                               show_fixed 6 (sol wsol_balance) +:+ " SOL")
            | Err e => println ("   ❌ Failed to close WSOL account: " +:+ e)
            end
      | Err _ => println "   ⚠️ No WSOL account found"
      end
  | Err _ => no_network
  end.

(* ex cli_trading/src/main.rs:1369-1385 handle_wallet *)
Definition handle_wallet : M S () :=
  let% _ := println "👛 WALLET STATUS" in
  let% client := attempt initialize_real_client in
  match client with
  | Ok client =>
      let% r := attempt (get_wallet_real client.1) in
      match r with
      | Ok _ => mret ()
      | Err e => println ("   ❌ Failed to get wallet status: " +:+ e)
      end
  | Err _ => no_network
  end.

(** ** Lines that are typed *)

Definition show_help : M S () := print_each help_text.

(** [parts[3].parse::<u64>().ok()]: a slippage that is no number is ignored. *)
Definition slippage_word (parts : list string) : option Z :=
  match parts !! 3%nat with
  | Some w => match parse_u64 w with Ok n => Some n | Err _ => None end
  | None => None
  end.

(** A trade that is typed: two words, an amount that is needed or not, and a
    slippage. *)
Definition interactive_buy (usage args : string)
    (handle : string → string → f64 → option Z → M S ()) : M S () :=
  let parts := split_whitespace args in
  match parts with
  | mint :: where_ :: amount :: _ =>
      match parse_f64 amount with
      | Some sol_amount => handle mint where_ sol_amount (slippage_word parts)
      | None => println ("❌ Invalid SOL amount: " +:+ amount)
      end
  | _ => println ("❌ Usage: " +:+ usage)
  end.

Definition interactive_sell (usage args : string)
    (handle : string → string → option f64 → option Z → M S ()) : M S () :=
  let parts := split_whitespace args in
  match parts with
  | mint :: where_ :: amount :: _ =>
      match parse_f64 amount with
      | Some token_amount => handle mint where_ (Some token_amount) (slippage_word parts)
      | None => println ("❌ Invalid token amount: " +:+ amount)
      end
  | [mint; where_] => handle mint where_ None None
  | _ => println ("❌ Usage: " +:+ usage)
  end.

(* ex cli_trading/src/main.rs:328-347 handle_interactive_buy *)
Definition handle_interactive_buy (args : string) : M S () :=
  interactive_buy "buy <mint> <dex> <sol_amount> [slippage]" args handle_buy.
(* ex cli_trading/src/main.rs:349-372 handle_interactive_sell *)
Definition handle_interactive_sell (args : string) : M S () :=
  interactive_sell "sell <mint> <dex> [token_amount] [slippage]" args handle_sell.
(* ex cli_trading/src/main.rs:374-393 handle_interactive_raydium_v4_buy *)
Definition handle_interactive_raydium_v4_buy (args : string) : M S () :=
  interactive_buy "raydium_v4_buy <mint> <amm> <sol_amount> [slippage]" args handle_buy_rv4.
(* ex cli_trading/src/main.rs:395-418 handle_interactive_raydium_v4_sell *)
Definition handle_interactive_raydium_v4_sell (args : string) : M S () :=
  interactive_sell "raydium_v4_sell <mint> <amm> [token_amount] [slippage]" args handle_sell_rv4.
(* ex cli_trading/src/main.rs:420-439 handle_interactive_raydium_cpmm_buy *)
Definition handle_interactive_raydium_cpmm_buy (args : string) : M S () :=
  interactive_buy "raydium_cpmm_buy <mint> <pool_address> <sol_amount> [slippage]" args
    handle_buy_rcpmm.
(* ex cli_trading/src/main.rs:441-466 handle_interactive_raydium_cpmm_sell *)
Definition handle_interactive_raydium_cpmm_sell (args : string) : M S () :=
  interactive_sell "raydium_cpmm_sell <mint> <pool_address> [token_amount] [slippage]" args
    handle_sell_rcpmm.

(** A line that is no command of one word. *)
(* ex cli_trading/src/main.rs:270-298 run_interactive_mode, arguments *)
Definition handle_line_with_arguments (input : string) : M S () :=
  if String.prefix "raydium_cpmm_buy " input then handle_interactive_raydium_cpmm_buy (slice_from 16 input)
  else if String.prefix "raydium_cpmm_sell " input then
    handle_interactive_raydium_cpmm_sell (slice_from 17 input)
  else if String.prefix "raydium_v4_buy " input then handle_interactive_raydium_v4_buy (slice_from 14 input)
  else if String.prefix "raydium_v4_sell " input then
    handle_interactive_raydium_v4_sell (slice_from 15 input)
  else if String.prefix "buy " input then handle_interactive_buy (slice_from 4 input)
  else if String.prefix "sell " input then handle_interactive_sell (slice_from 5 input)
  else if String.prefix "wrap_sol " input || String.prefix "wrap-sol " input then
    match parse_f64 (slice_from 9 input) with
    | Some amount => handle_wrap_sol amount
    | None => println "❌ Invalid amount. Usage: wrap_sol <amount>"
    end
  else println ("❌ Unknown command: '" +:+ input +:+ "'. Type 'help' for available commands.").

Definition one_of (input : string) (words : list string) : bool := existsb (String.eqb input) words.

(** What a line that is not empty does: whether the session goes on. *)
(* ex cli_trading/src/main.rs:256-300 run_interactive_mode, match *)
Definition handle_line (input : string) : M S bool :=
  if one_of input ["quit"; "exit"; "q"] then let% _ := println "👋 Goodbye!" in mret false
  else
    let% _ :=
      if one_of input ["help"; "h"] then show_help
      else if one_of input ["wallet"; "status"] then handle_wallet
      else if one_of input ["close_wsol"; "close-wsol"] then handle_close_wsol
      else handle_line_with_arguments input in
    let% _ := println "" in
    mret true.

(** [turns] bounds the prompts: whether the session has ended before. *)
(* ex cli_trading/src/main.rs:244-301 run_interactive_mode, loop *)
Fixpoint prompts (turns : nat) : M S bool :=
  match turns with
  | O => mret false
  | Datatypes.S turns =>
      let% _ := print "sol-trade> " in
      let% line := read_line in
      let input := trim_str line in
      if String.eqb input "" then prompts turns
      else
        let% goes_on := handle_line input in
        if (goes_on : bool) then prompts turns else mret true
  end.

(* ex cli_trading/src/main.rs:196-234 show_startup_info *)
Definition show_startup_info : M S () :=
  let% _ := print_each [nl +:+ "📋 STARTUP INFORMATION"; "══════════════════════════════════════";
                        "🌐 RPC URL: " +:+ RPC_URL] in
  let% client := attempt initialize_real_client in
  let% _ := match client with
    | Ok client =>
        let% _ := println ("👛 Wallet Address: " +:+ pubkey_to_string (tc_payer client.1)) in
        let% balance := attempt (on_process (get_payer_sol_balance client.1)) in
        match balance with
        | Ok balance => println ("💰 SOL Balance: " +:+ show_fixed 6 (sol balance) +:+ " SOL")
        | Err _ => println "💰 SOL Balance: Unable to fetch (network issue)"
        end
    | Err _ =>
        let% _ := println ("👛 Wallet Address: " +:+ pubkey_to_string temp_keypair +:+
                           " (temporary - set SOLANA_RPC_URL for real wallet)") in
        println "💰 SOL Balance: Unable to fetch (no valid RPC connection)"
    end in
  let% _ := print_each ["⚡ Network: Mainnet-beta"; "══════════════════════════════════════"] in
  let% _ := show_help in
  println ("══════════════════════════════════════" +:+ nl).

(* ex cli_trading/src/main.rs:236-303 run_interactive_mode *)
Definition run_interactive_mode (turns : nat) : M S bool :=
  let% _ := println "🔄 Interactive Mode Started" in
  let% _ := show_startup_info in
  let% _ := println ("Type 'help' for available commands, 'quit' to exit" +:+ nl) in
  prompts turns.

Definition interactive (turns : nat) : M S bool :=
  let% _ := print_each ["🚀 SOL Trade CLI - Interactive Mode";
                        "═══════════════════════════════════" +:+ nl] in
  run_interactive_mode turns.

(** A command that is done at once has ended. *)
Definition at_once (m : M S ()) : M S bool := let% _ := m in mret true.

(* ex cli_trading/src/main.rs:125-169 handle_command *)
Definition handle_command (turns : nat) (command : Command) : M S bool :=
  match command with
  | Buy mint dex amount slippage amm pool =>
      let% _ := of_res (validate_dex_params dex amm pool) in
      at_once
        (if String.eqb dex "raydium_v4" then
           match amm with Some amm_addr => handle_buy_rv4 mint amm_addr amount slippage | None => mret () end
         else if String.eqb dex "raydium_cpmm" then
           match pool with
           | Some pool_addr => handle_buy_rcpmm mint pool_addr amount slippage
           | None => mret ()
           end
         else handle_buy mint dex amount slippage)
  | Sell mint dex amount slippage amm pool =>
      let% _ := of_res (validate_dex_params dex amm pool) in
      at_once
        (if String.eqb dex "raydium_v4" then
           match amm with Some amm_addr => handle_sell_rv4 mint amm_addr amount slippage | None => mret () end
         else if String.eqb dex "raydium_cpmm" then
           match pool with
           | Some pool_addr => handle_sell_rcpmm mint pool_addr amount slippage
           | None => mret ()
           end
         else handle_sell mint dex amount slippage)
  | WrapSol amount => at_once (handle_wrap_sol amount)
  | CloseWsol => at_once handle_close_wsol
  | Wallet => at_once handle_wallet
  | Interactive => interactive turns
  end.

(* ex cli_trading/src/main.rs:106-123 main *)
Definition cli_main (turns : nat) (command : option Command) : M S bool :=
  match command with
  | Some command => handle_command turns command
  | None => interactive turns
  end.
End Cli.
