(* ===== verification/CliSession.v ===== *)
(** * Sessions of the command line

    What a session reads and prints, when it ends, and what becomes of the
    trades that are typed. *)

From Stdlib Require Import String.
From S2P Require Import Prelude F64 Solana Accounts Spl FastFn GasFee Effects Text FloatText Borsh PumpSwapUtils PoolTypes Params ParamsRpc Client Trader TxBuild Wsol IxCommon PumpFunIx Factory PumpSwapIx Channels Confirm Submit Http Quic Sender Executor Startup Wallet Demos Cli.

#[local] Open Scope string_scope.
#[local] Open Scope Z_scope.
#[local] Open Scope list_scope.

(** ** Commands only print *)

(** What has been printed stays, and nothing is read. *)
Definition prints_only {E} (s s' : Session E) : Prop :=
  s_input s' = s_input s ∧ s_output s `prefix_of` s_output s'.

#[local] Instance prints_only_preorder {E} : PreOrder (@prints_only E).
Proof.
  split; [by intros s|]. intros s1 s2 s3 [Hi Ho] [Hi' Ho']. split; [congruence|by trans (s_output s2)].
Qed.

Lemma keeps_on_process {E A} (m : M (Process E) A) : keeps prints_only (on_process m).
Proof.
  intros s r s'. unfold on_process. destruct (m (s_process s)) as [[x w]|]; [|done].
  by intros [= <- <-].
Qed.

Lemma keeps_print {E} text : keeps prints_only (@print E text).
Proof. intros s r s' [= <- <-]. split; [done|]. by eexists. Qed.

Lemma keeps_println {E} text : keeps prints_only (@println E text).
Proof. apply keeps_print. Qed.

Lemma keeps_print_each {E} lines : keeps prints_only (@print_each E lines).
Proof.
  induction lines as [|line lines IH]; [apply keeps_ret, _|].
  apply keeps_bind; [apply _|apply keeps_println|by intros _].
Qed.

#[local] Hint Resolve keeps_on_process keeps_println keeps_print_each : keeps.
#[local] Hint Extern 1 (PreOrder _) => apply prints_only_preorder : keeps.

Section Session.
Context `{Build} `{Sdk} {E : Type} `{Confirm E} `{TxErrorText} `{TxSdk} `{!Codec} `{!Wire E}
  `{!QuicNet E} `{!NodeTx E} `{KeyText} `{Machine} `{Borsh} `{SignatureText} `{!UiBalances E}
  `{!SolText}.
Context (executor_of : TradingInfrastructure → Executor (Process E)).
Context (PAYER temp_keypair : Pubkey).

Abbreviation S := (Session E).
Abbreviation kept m := (keeps (@prints_only E) m).

Ltac prints := repeat (keeps_step; try apply _).

Lemma kept_client : kept (initialize_real_client PAYER).
Proof. unfold initialize_real_client. prints. Qed.
#[local] Hint Resolve kept_client : keeps.

Lemma kept_query {A} (f : E → result string A * E) : kept (query f).
Proof. apply keeps_on_process. Qed.
#[local] Hint Resolve @kept_query : keeps.

Lemma kept_check c mint : kept (check_mint_ata c mint).
Proof. unfold check_mint_ata. prints. Qed.
#[local] Hint Resolve kept_check : keeps.

Lemma kept_announce lines slippage unit : kept (announce lines slippage unit).
Proof. unfold announce. prints. Qed.
Lemma kept_report did failed label r : kept (report did failed label r).
Proof. unfold report. prints. Qed.
#[local] Hint Resolve kept_announce kept_report : keeps.

Lemma kept_place_buy c label p : kept (place_and_report_buy executor_of c label p).
Proof. unfold place_and_report_buy. prints. Qed.
Lemma kept_place_sell c label p : kept (place_and_report_sell executor_of c label p).
Proof. unfold place_and_report_sell. prints. Qed.
Lemma kept_parse s : kept (parse_pubkey s).
Proof. apply keeps_of_res, _. Qed.
Lemma kept_hash : kept recent_hash.
Proof. apply keeps_on_process. Qed.
Lemma kept_lamports x : kept (lamports_of x).
Proof. apply keeps_of_ex, _. Qed.
#[local] Hint Resolve kept_place_buy kept_place_sell kept_parse kept_hash kept_lamports : keeps.

Lemma kept_buy mint dex amount slippage : kept (handle_buy executor_of PAYER mint dex amount slippage).
Proof.
  unfold handle_buy. prints; unfold handle_buy_pumpfun, handle_buy_pumpswap, handle_buy_bonk; prints.
Qed.
Lemma kept_buy_rv4 mint amm amount slippage :
  kept (handle_buy_rv4 executor_of PAYER mint amm amount slippage).
Proof. unfold handle_buy_rv4, handle_buy_raydium_v4. prints. Qed.
Lemma kept_buy_rcpmm mint pool amount slippage :
  kept (handle_buy_rcpmm executor_of PAYER mint pool amount slippage).
Proof. unfold handle_buy_rcpmm, handle_buy_raydium_cpmm. prints. Qed.
Lemma kept_sell mint dex amount slippage :
  kept (handle_sell executor_of PAYER mint dex amount slippage).
Proof.
  unfold handle_sell. prints; unfold handle_sell_pumpfun, handle_sell_pumpswap, handle_sell_bonk; prints.
Qed.
Lemma kept_sell_rv4 mint amm amount slippage :
  kept (handle_sell_rv4 executor_of PAYER mint amm amount slippage).
Proof. unfold handle_sell_rv4, handle_sell_raydium_v4. prints. Qed.
Lemma kept_sell_rcpmm mint pool amount slippage :
  kept (handle_sell_rcpmm executor_of PAYER mint pool amount slippage).
Proof. unfold handle_sell_rcpmm, handle_sell_raydium_cpmm. prints. Qed.
#[local] Hint Resolve kept_buy kept_buy_rv4 kept_buy_rcpmm kept_sell kept_sell_rv4 kept_sell_rcpmm : keeps.

Lemma kept_send payer ixs : kept (send_and_show payer ixs).
Proof. unfold send_and_show. prints. Qed.
#[local] Hint Resolve kept_send : keeps.

Lemma kept_wrap_real c amount : kept (wrap_sol_real c amount).
Proof. unfold wrap_sol_real. prints. Qed.
Lemma kept_close_real c : kept (close_wsol_real c).
Proof. unfold close_wsol_real. prints. Qed.
Lemma kept_wallet_real c : kept (get_wallet_real c).
Proof. unfold get_wallet_real. prints. Qed.
#[local] Hint Resolve kept_wrap_real kept_close_real kept_wallet_real : keeps.

Lemma kept_wrap amount : kept (handle_wrap_sol PAYER amount).
Proof. unfold handle_wrap_sol, no_network. prints. Qed.
Lemma kept_close : kept (handle_close_wsol PAYER).
Proof. unfold handle_close_wsol, no_network. prints. Qed.
Lemma kept_wallet : kept (handle_wallet PAYER).
Proof. unfold handle_wallet, no_network. prints. Qed.
#[local] Hint Resolve kept_wrap kept_close kept_wallet : keeps.

Lemma kept_interactive_buy usage args handle :
  (∀ a b x y, kept (handle a b x y)) → kept (interactive_buy (E := E) usage args handle).
Proof. intros Hh. unfold interactive_buy. prints. Qed.
Lemma kept_interactive_sell usage args handle :
  (∀ a b x y, kept (handle a b x y)) → kept (interactive_sell (E := E) usage args handle).
Proof. intros Hh. unfold interactive_sell. prints. Qed.

Lemma kept_line_with_arguments input : kept (handle_line_with_arguments executor_of PAYER input).
Proof.
  unfold handle_line_with_arguments.
  repeat match goal with |- keeps _ (if ?b then _ else _) => destruct b end;
    first [apply kept_interactive_buy; intros; auto with keeps
          |apply kept_interactive_sell; intros; auto with keeps
          |prints].
Qed.
#[local] Hint Resolve kept_line_with_arguments : keeps.

(** Carrying out a line reads nothing. *)
Lemma kept_line input : kept (handle_line executor_of PAYER input).
Proof. unfold handle_line. prints; unfold show_help; prints. Qed.

(** ** When a session ends *)

Definition quits (line : string) : bool := one_of (trim_str line) ["quit"; "exit"; "q"].

Lemma handle_line_goes_on input s b s' : one_of input ["quit"; "exit"; "q"] = false →
  handle_line executor_of PAYER input s = Val (Ok b, s') → b = true.
Proof. intros Hq Hl. unfold handle_line in Hl. rewrite Hq in Hl. by m_inv. Qed.

Lemma handle_line_quits input s : one_of input ["quit"; "exit"; "q"] = true →
  ∃ s', handle_line executor_of PAYER input s = Val (Ok false, s').
Proof. intros Hq. unfold handle_line. rewrite Hq. by eexists. Qed.

(** The session once the prompt is printed and a line is read. *)
Definition prompted (s : S) (rest : list (result string string)) : S :=
  mk_Session (s_process s) rest (s_output s ++ ["sol-trade> "]).

(** The session that was told to end: nothing else has changed. *)
Definition goodbye (s : S) (rest : list (result string string)) : S :=
  mk_Session (s_process s) rest (s_output s ++ ["sol-trade> "; "👋 Goodbye!" +:+ nl]).

(** The session after that many more prompts with nothing to read. *)
Definition idle (n : nat) (s : S) : S :=
  mk_Session (s_process s) [] (s_output s ++ replicate n "sol-trade> ").

(** The first [n] lines are read and carried out: none of them is told to be the
    last, and each is blank or a command that succeeds. *)
Inductive carries : nat → S → S → Prop :=
| carries_none s : carries 0 s s
| carries_blank n s line rest s' :
    s_input s = Ok line :: rest → trim_str line = "" → carries n (prompted s rest) s' →
    carries (Datatypes.S n) s s'
| carries_line n s line rest s1 s' :
    s_input s = Ok line :: rest → quits line = false → trim_str line ≠ "" →
    handle_line executor_of PAYER (trim_str line) (prompted s rest) = Val (Ok true, s1) →
    carries n s1 s' → carries (Datatypes.S n) s s'.

Lemma blank_goes_on line : trim_str line = "" → quits line = false.
Proof. unfold quits. by intros ->. Qed.

(** These lines are read and no others. *)
Lemma carries_reads n s s' : carries n s s' →
  ∃ used, s_input s = map Ok used ++ s_input s' ∧ length used = n
    ∧ Forall (λ line, quits line = false) used.
Proof.
  induction 1 as [s|n s line rest s' Hi Ht _ (used & Hu & Hl & Hf)
                 |n s line rest s1 s' Hi Hq _ Hh _ (used & Hu & Hl & Hf)].
  - by exists [].
  - exists (line :: used). cbn [prompted s_input] in Hu. rewrite Hi, Hu. split; [done|].
    split; [simpl; lia|]. constructor; [by apply blank_goes_on|done].
  - exists (line :: used). apply kept_line in Hh as [Hin _]. cbn [prompted s_input] in Hin.
    rewrite Hi, <- Hin, Hu. split; [done|]. split; [simpl; lia|]. by constructor.
Qed.

Abbreviation session := (prompts executor_of PAYER).

(** The prompt and the reading of a line. *)
Lemma session_line turns s line rest : s_input s = Ok line :: rest →
  session (Datatypes.S turns) s
  = if String.eqb (trim_str line) "" then session turns (prompted s rest)
    else (let% goes_on := handle_line executor_of PAYER (trim_str line) in
          if (goes_on : bool) then session turns else mret true) (prompted s rest).
Proof.
  intros Hi. cbn [prompts]. unfold mbind at 1, print. unfold mbind at 1, read_line.
  cbn [s_process s_input s_output]. rewrite Hi. by destruct (String.eqb _ _).
Qed.

Lemma session_quits turns s line rest : s_input s = Ok line :: rest → quits line = true →
  session (Datatypes.S turns) s = Val (Ok true, goodbye s rest).
Proof.
  intros Hi Hq. rewrite (session_line _ _ _ _ Hi).
  destruct (String.eqb_spec (trim_str line) "") as [Hb|_].
  { apply blank_goes_on in Hb. congruence. }
  unfold mbind at 1, handle_line. unfold quits in Hq. rewrite Hq.
  unfold mbind, println, print, mret, prompted, goodbye. cbn [s_process s_input s_output].
  by rewrite <- app_assoc.
Qed.

Lemma session_idle turns : ∀ s, s_input s = [] → session turns s = Val (Ok false, idle turns s).
Proof.
  induction turns as [|turns IH]; intros s Hi.
  - unfold idle. cbn [prompts replicate]. rewrite app_nil_r, <- Hi. by destruct s.
  - cbn [prompts]. unfold mbind at 1, print. unfold mbind at 1, read_line.
    cbn [s_process s_input s_output]. rewrite Hi. change (trim_str "") with "". cbn [String.eqb].
    rewrite IH by done. unfold idle. cbn [s_process s_output replicate]. by rewrite <- app_assoc.
Qed.

Lemma session_carries n s s1 turns : carries n s s1 → session (n + turns) s = session turns s1.
Proof.
  induction 1 as [s|n s line rest s' Hi Ht _ IH|n s line rest s2 s' Hi Hq Ht Hh _ IH]; [done| |];
    cbn [Nat.add]; rewrite (session_line _ _ _ _ Hi).
  - by rewrite Ht.
  - destruct (String.eqb_spec (trim_str line) ""); [done|]. unfold mbind at 1. by rewrite Hh.
Qed.

(** What an outcome of at most [turns] prompts means: success, that a line told
    the session to end; none yet, that all the prompts were used, on lines that
    are carried out and then on nothing; an error or a panic, that a line could
    not be read or a command ended so. *)
Definition ends_as (turns : nat) (s : S) (o : exec (result string bool * S)) : Prop :=
  match o with
  | Val (Ok true, s') =>
      ∃ n s1 line rest, (n < turns)%nat ∧ carries n s s1 ∧ s_input s1 = Ok line :: rest
        ∧ quits line = true ∧ s' = goodbye s1 rest
  | Val (Ok false, s') =>
      carries turns s s' ∨ ∃ n s1, (n < turns)%nat ∧ carries n s s1 ∧ s_input s1 = []
                                   ∧ s' = idle (turns - n) s1
  | Val (Err e, s') =>
      ∃ n s1, (n < turns)%nat ∧ carries n s s1 ∧
        ((∃ rest, s_input s1 = Err e :: rest ∧ s' = prompted s1 rest)
         ∨ ∃ line rest, s_input s1 = Ok line :: rest ∧ quits line = false
             ∧ handle_line executor_of PAYER (trim_str line) (prompted s1 rest) = Val (Err e, s'))
  | Panic =>
      ∃ n s1 line rest, (n < turns)%nat ∧ carries n s s1 ∧ s_input s1 = Ok line :: rest
        ∧ quits line = false
        ∧ handle_line executor_of PAYER (trim_str line) (prompted s1 rest) = Panic
  end.

Lemma ends_as_next turns s s2 o :
  (∀ n s1, carries n s2 s1 → carries (Datatypes.S n) s s1) →
  ends_as turns s2 o → ends_as (Datatypes.S turns) s o.
Proof.
  intros Hc. destruct o as [[[[|]|e] s']|]; cbn [ends_as].
  - intros (n & s1 & l & r & Hn & Hx & Hy). exists (Datatypes.S n), s1, l, r.
    split; [lia|]. by split; [apply Hc|].
  - intros [Hx|(n & s1 & Hn & Hx & Hy & ->)]; [left; by apply Hc|right].
    exists (Datatypes.S n), s1. split; [lia|]. by split; [apply Hc|].
  - intros (n & s1 & Hn & Hx & Hy). exists (Datatypes.S n), s1.
    split; [lia|]. by split; [apply Hc|].
  - intros (n & s1 & l & r & Hn & Hx & Hy). exists (Datatypes.S n), s1, l, r.
    split; [lia|]. by split; [apply Hc|].
Qed.

Lemma session_outcome turns : ∀ s, ends_as turns s (session turns s).
Proof.
  induction turns as [|turns IH]; intros s; [left; constructor|].
  destruct (s_input s) as [|[line|e] rest] eqn:Hi.
  - rewrite session_idle by done. right. exists 0%nat, s.
    split; [lia|]. split; [constructor|]. by split.
  - destruct (quits line) eqn:Hq.
    { rewrite (session_quits _ _ _ _ Hi Hq). exists 0%nat, s, line, rest.
      split; [lia|]. split; [constructor|]. by repeat split. }
    rewrite (session_line _ _ _ _ Hi).
    destruct (String.eqb_spec (trim_str line) "") as [Ht|Ht].
    + eapply ends_as_next, IH. intros n s1 Hc. by apply (carries_blank _ _ line rest).
    + unfold mbind at 1.
      destruct (handle_line _ _ _ (prompted s rest)) as [[[b|e] s2]|] eqn:Hh.
      * apply handle_line_goes_on in Hh as Hb; [|exact Hq]. subst b.
        eapply ends_as_next, IH. intros n s1 Hc. by apply (carries_line _ _ line rest s2).
      * exists 0%nat, s. split; [lia|]. split; [constructor|]. right. by exists line, rest.
      * exists 0%nat, s, line, rest. split; [lia|]. split; [constructor|]. by repeat split.
  - cbn [prompts]. unfold mbind at 1, print. unfold mbind at 1, read_line.
    cbn [s_process s_input s_output]. rewrite Hi. exists 0%nat, s. split; [lia|].
    split; [constructor|]. left. by exists rest.
Qed.

(** C38. A session ends when it is told to, and not otherwise.  Once the lines
    before it are carried out - each of them blank or a command that succeeds -
    a line that says so ends the session: it returns success at the next prompt,
    and has done nothing since but print the prompt and the farewell.  When there
    is nothing more to read it prompts forever and does nothing else.  And
    however many prompts there are, an outcome means just this: success, that
    such a line was read; no end yet, that every prompt was used up on lines
    that are carried out or on nothing; an error, that a line could not be
    read or a command that is not such a line failed with it; a panic, that
    such a command panicked.  Each prompt takes one line: those carried out are
    the first of the input, as many as the prompts, and none of them says so. *)
Theorem session_ends_when_told s :
  (∀ n s1 turns line rest,
     carries n s s1 → s_input s1 = Ok line :: rest → quits line = true →
     prompts executor_of PAYER (n + Datatypes.S turns) s = Val (Ok true, goodbye s1 rest))
  ∧ (∀ n s1 turns, carries n s s1 → s_input s1 = [] →
     prompts executor_of PAYER (n + turns) s = Val (Ok false, idle turns s1))
  ∧ (∀ turns, ends_as turns s (prompts executor_of PAYER turns s))
  ∧ ∀ n s1, carries n s s1 → ∃ used, s_input s = map Ok used ++ s_input s1 ∧ length used = n
      ∧ Forall (λ line, quits line = false) used.
Proof.
  split; [|split; [|split]].
  - intros n s1 turns line rest Hc Hi Hq. rewrite (session_carries _ _ _ _ Hc).
    by apply (session_quits _ _ line).
  - intros n s1 turns Hc Hi. rewrite (session_carries _ _ _ _ Hc). by apply session_idle.
  - intros turns. apply session_outcome.
  - intros n s1. apply carries_reads.
Qed.

(** ** What is typed and what is traded *)

Lemma traded_account_run c mint program use_seed (w : Process E) r w' :
  valid (p_chain w) → traded_account c mint program use_seed w = Val (r, w') →
  valid (p_chain w') ∧ ∀ a, r = Ok a →
    ata_compute (mk_AtaCacheKey (tc_payer c) mint program use_seed) = Val a.
Proof.
  intros Hv. unfold traded_account, in_chain.
  pose proof (run_eval (get_associated_token_address_with_program_id_fast_use_seed (tc_payer c) mint
    program use_seed) (p_chain w) Hv) as Hr.
  destruct (eval _ _) as [x|] eqn:He; [|by rewrite Hr]. destruct Hr as (c' & -> & Hv' & _).
  intros [= <- <-]. split; [done|]. intros a ->.
  unfold get_associated_token_address_with_program_id_fast_use_seed in He. simpl in He.
  destruct (ata_compute _); [|done]. by injection He as ->.
Qed.

Lemma traded_account_on c mint program use_seed (s : S) account s' :
  valid (p_chain (s_process s)) →
  on_process (traded_account c mint program use_seed) s = Val (Ok account, s') →
  valid (p_chain (s_process s'))
  ∧ ata_compute (mk_AtaCacheKey (tc_payer c) mint program use_seed) = Val account.
Proof.
  intros Hv. unfold on_process. destruct (traded_account _ _ _ _ (s_process s)) as [[x w]|] eqn:Ht; [|done].
  intros [= -> <-]. apply traded_account_run in Ht as [Hv' Ha]; [|done]. split; [done|]. by apply Ha.
Qed.

Lemma query_inv {A} (f : E → result string A * E) (s : S) x s' :
  attempt (query f) s = Val (Ok x, s') →
  (f (p_env (s_process s))).1 = x ∧ p_chain (s_process s') = p_chain (s_process s).
Proof.
  unfold attempt, query, on_process, in_env, call. destruct (f (p_env (s_process s))) as [y e].
  by intros [= <- <-].
Qed.

(** The account the balance is read from: the plain one when the node knows it,
    and otherwise the one derived with a seed. *)
Lemma check_mint_ata_accounts c mint (s : S) a s' :
  valid (p_chain (s_process s)) → check_mint_ata c mint s = Val (Ok a, s') →
  ∃ key, pubkey_from_str mint = Some key
  ∧ if create_mint_ata a then mint_use_seed a = false ∧ amount_f64 a = f_zero
    else
      (∃ account env, ata_compute (mk_AtaCacheKey (tc_payer c) key (owner_pubkey a) (mint_use_seed a))
                       = Val account
         ∧ is_ok (rpc_token_ui_balance account env).1 = true)
      ∧ (mint_use_seed a = true → amount_f64 a = f_zero).
Proof.
  intros Hv Hc. unfold check_mint_ata in Hc. apply mbind_Ok_inv in Hc as (key & s0 & Hk & Hc).
  apply of_ex_inv in Hk as [Hk <-]. exists key. split; [destruct (pubkey_from_str mint); [|done]; by injection Hk as ->|].
  apply mbind_Ok_inv in Hc as (info & s1 & Hq & Hc). apply query_inv in Hq as [_ Hc1].
  destruct info as [info|]; [|done].
  apply mbind_Ok_inv in Hc as (plain & s2 & Ht & Hc).
  apply traded_account_on in Ht as [Hv2 Hp]; [|by rewrite Hc1].
  apply mbind_Ok_inv in Hc as (bal & s3 & Hq & Hc). apply query_inv in Hq as [Hb Hc3].
  destruct bal as [[ui decimals]|].
  - apply mret_inv in Hc as [<- _]. cbn. split; [|done]. exists plain, (p_env (s_process s2)).
    split; [done|]. by rewrite Hb.
  - apply mbind_Ok_inv in Hc as (seeded & s4 & Ht & Hc).
    apply traded_account_on in Ht as [Hv4 Hp']; [|by rewrite Hc3].
    apply mbind_Ok_inv in Hc as (bal & s5 & Hq & Hc). apply query_inv in Hq as [Hb' _].
    apply mret_inv in Hc as [<- _]. destruct bal; [|done]. cbn. split; [|done].
    exists seeded, (p_env (s_process s4)). split; [done|]. by rewrite Hb'.
Qed.

(** A purchase on Pump.fun by one whose tokens are in the plain account.  The
    check finds that account and asks for none to be created; the purchase is
    the program's instruction alone and puts the tokens into the account
    derived with a seed, which nothing creates. *)
Theorem cli_purchase_misses_account c mint (s : S) a s' :
  valid (p_chain (s_process s)) → tc_use_seed_optimize c = true →
  check_mint_ata c mint s = Val (Ok a, s') → create_mint_ata a = false → mint_use_seed a = false →
  ∃ key, pubkey_from_str mint = Some key
  ∧ (∃ plain env, ata_compute (mk_AtaCacheKey (tc_payer c) key (owner_pubkey a) false) = Val plain
       ∧ is_ok (rpc_token_ui_balance plain env).1 = true)
  ∧ ∀ r rand lamports slippage hash p ixs,
      eval r (pf_build_buy_instructions rand (swap_of_buy c
        (cli_buy DPumpFun TSOL key lamports slippage hash (PPumpFun p) false (create_mint_ata a))))
        = Val (Ok ixs) →
      ∃ accounts data seeded, ixs = [mk_ix PUMPFUN accounts data]
        ∧ accounts !! 5%nat = Some (meta_new seeded false)
        ∧ ata_compute (mk_AtaCacheKey (tc_payer c) key (pf_token_program p) true) = Val seeded.
Proof.
  intros Hv Hs Hc Hcr Hu. apply check_mint_ata_accounts in Hc as (key & Hk & Ha); [|done].
  rewrite Hcr, Hu in Ha. destruct Ha as [Hplain _]. exists key. split; [done|]. split; [exact Hplain|].
  intros r rand lamports slippage hash p ixs He.
  set (sw := swap_of_buy c _) in He.
  destruct (pumpfun_buy_account r rand sw p ixs eq_refl He) as (create & accs & data & user & -> & Hcreate & Hat5 & Hat).
  rewrite Hcreate by exact Hcr. subst sw. cbn [swap_of_buy payer output_mint open_seed_optimize] in Hat.
  rewrite Hs in Hat. by exists accs, data, user.
Qed.

(** Tokens in the account derived with a seed cannot be sold as a whole: the
    check counts none, so the sale is one of nothing, which every builder refuses
    but PumpSwap's. *)
Theorem cli_cannot_sell_seeded c mint (s : S) a s' :
  valid (p_chain (s_process s)) → check_mint_ata c mint s = Val (Ok a, s') → mint_use_seed a = true →
  f64_as_u64 (amount_to_sell None a) = 0
  ∧ ∀ r dex rand token key slippage hash params, dex ≠ DPumpSwap → ∃ msg,
    eval r (Factory.build dex false rand (swap_of_sell c
      (cli_sell dex token key (f64_as_u64 (amount_to_sell None a)) slippage hash params)))
    = Val (Err msg).
Proof.
  intros Hv Hc Hu.
  apply check_mint_ata_accounts in Hc as (k & _ & Ha); [|done].
  assert (Hz : amount_f64 a = f_zero) by (destruct (create_mint_ata a); [by destruct Ha|by apply Ha]).
  unfold amount_to_sell. cbn [default]. rewrite Hz. split; [reflexivity|].
  intros r dex rand token key slippage hash params Hd.
  destruct dex, params; first [by destruct Hd|eexists; reflexivity].
Qed.

(** The guard of [wrap_sol_real] on a release build: it lets through the
    largest amount there is, which any amount from 18.4 billion SOL on becomes,
    when the wallet has a thousandth of a SOL. *)
Theorem wrap_guard_wraps_around c balance (s s1 : S) :
  overflow_checks = false → is_u64 balance → 999999 ≤ balance →
  on_process (get_payer_sol_balance c) s = Val (Ok balance, s1) →
  wrap_sol_real c u64_max s
  = (let% instructions := of_ex (wrap_instructions (tc_payer c) u64_max) in
     send_and_show (tc_payer c) instructions) s1.
Proof.
  intros Ho Hu Hb Hq. unfold wrap_sol_real. rewrite (mbind_eq _ _ _ _ _ Hq).
  assert (Hadd : add 64 u64_max 1000000 = Val 999999) by (unfold add, ck; rewrite Ho; reflexivity).
  rewrite Hadd. unfold mbind at 1, of_ex at 1. cbn [exec_bind].
  destruct (Z.ltb_spec balance 999999); [lia|]. reflexivity.
Qed.
End Session.

(** All that is held, computed from what the node shows for display: a sale of
    everything leaves something. *)
Example sell_all_leaves_one :
  map (λ '(n, d), f64_as_u64 (fmul (f64_lit n d) (f_powi (f64_of_Z 10) d)))
    [(29, 2); (58, 2); (4503599627370497, 6)] = [28; 57; 4503599627370497].
Proof. vm_compute. reflexivity. Qed.

(** ** Concrete sessions *)

Definition toy_sol_text : SolText :=
  {| sol_str_to_lamports := λ _, Some 1000000000; parse_pubkey_error := λ _, "String is the wrong size" |}.

(** A node that knows one token account. *)
Definition toy_ui (known : Pubkey) : UiBalances Sim := {|
  rpc_token_ui_balance := λ p e,
    (if p =? known then Ok (Some (f64_of_Z 5), 6) else Err "could not find account", e);
|}.

Definition toy_trading : Executor (Process Sim) :=
  {| swap := λ _ _, mret (true, ["signature"], None, []) |}.

(** The token account of the client's key, as a program or with a seed. *)
Definition toy_account (use_seed : bool) : Pubkey :=
  match @ata_compute toy_sdk (mk_AtaCacheKey 11 66 TOKEN_PROGRAM use_seed) with
  | Val a => a
  | Panic => 0
  end.

Definition toy_session (lines : list string) : Session Sim :=
  mk_Session
    (mk_Proc (mk_Sim (λ p, if p =? 66 then Some (mk_Account [] TOKEN_PROGRAM) else None)
                (λ _, None) 5000000 42 []) initial_chain ∅)
    (map Ok lines) [].

Definition toy_seeded_client : TradingClient := mk_Client 11 true true false false None 1 [].

Abbreviation cli_session :=
  (@prompts release toy_sdk Sim sim_rpc toy_tx_sdk rejecting toy_quic toy_node_tx toy_text toy_machine
    toy_borsh toy_signature_text (toy_ui 0) toy_sol_text (λ _, toy_trading) 11).

Definition toy_lines : list string := ["help"; ""; "buy abc"; "quit"].

Abbreviation toy_handle :=
  (@handle_line release toy_sdk Sim sim_rpc toy_tx_sdk rejecting toy_quic toy_node_tx toy_text
    toy_machine toy_borsh toy_signature_text (toy_ui 0) toy_sol_text (λ _, toy_trading) 11).

Abbreviation toy_carries :=
  (@carries release toy_sdk Sim sim_rpc toy_tx_sdk rejecting toy_quic toy_node_tx toy_text
    toy_machine toy_borsh toy_signature_text (toy_ui 0) toy_sol_text (λ _, toy_trading) 11).

(** After the help, the blank line and the purchase that lacks its arguments. *)
Definition after_line (line : string) (s : Session Sim) : Session Sim :=
  outcome_env s (toy_handle line s).
Definition toy_helped : Session Sim :=
  after_line "help" (prompted (toy_session toy_lines) (map Ok ["" ; "buy abc"; "quit"])).
Definition toy_refused : Session Sim :=
  after_line "buy abc" (prompted (prompted toy_helped (map Ok ["buy abc"; "quit"])) [Ok "quit"]).

Lemma toy_lines_carried : toy_carries 3%nat (toy_session toy_lines) toy_refused.
Proof.
  apply (carries_line _ _ 2 _ "help" (map Ok ["" ; "buy abc"; "quit"]) toy_helped);
    [reflexivity|reflexivity|discriminate| |].
  { apply outcome_eq. vm_compute. reflexivity. }
  apply (carries_blank _ _ 1 _ "" (map Ok ["buy abc"; "quit"])); [vm_compute; reflexivity|reflexivity|].
  apply (carries_line _ _ 0 _ "buy abc" [Ok "quit"] toy_refused);
    [reflexivity|reflexivity|discriminate| |constructor].
  apply outcome_eq. vm_compute. reflexivity.
Qed.

Lemma session_ends_when_told_witness :
  cli_session 4%nat (toy_session toy_lines) = Val (Ok true, goodbye toy_refused []).
Proof.
  refine (proj1 (@session_ends_when_told release toy_sdk Sim sim_rpc toy_tx_sdk rejecting toy_quic
    toy_node_tx toy_text toy_machine toy_borsh toy_signature_text (toy_ui 0) toy_sol_text
    (λ _, toy_trading) 11 (toy_session toy_lines)) 3%nat toy_refused 0%nat "quit" []
    toy_lines_carried _ eq_refl).
  vm_compute. reflexivity.
Defined.

Abbreviation toy_check known :=
  (@check_mint_ata toy_sdk Sim sim_rpc toy_text (toy_ui known) toy_seeded_client (key_string 66)
     (toy_session [])).

Definition toy_found (use_seed : bool) : MintAta :=
  match toy_check (toy_account use_seed) with
  | Val (Ok a, _) => a
  | _ => mk_MintAta true false 0 f_zero 0
  end.

Lemma toy_check_runs use_seed :
  toy_check (toy_account use_seed)
  = Val (Ok (toy_found use_seed), outcome_env (toy_session []) (toy_check (toy_account use_seed))).
Proof. apply outcome_eq. destruct use_seed; vm_compute; reflexivity. Qed.

Lemma cli_purchase_misses_account_witness :
  ∃ key, @pubkey_from_str toy_text (key_string 66) = Some key
  ∧ (∃ plain env, @ata_compute toy_sdk (mk_AtaCacheKey 11 key (owner_pubkey (toy_found false)) false)
                  = Val plain
      ∧ is_ok (@rpc_token_ui_balance _ (toy_ui (toy_account false)) plain env).1 = true).
Proof.
  destruct (@cli_purchase_misses_account release toy_sdk Sim sim_rpc toy_text
    (toy_ui (toy_account false)) toy_seeded_client (key_string 66) (toy_session []) (toy_found false)
    (outcome_env (toy_session []) (toy_check (toy_account false)))
    (@valid_initial toy_sdk) eq_refl (toy_check_runs false) eq_refl eq_refl) as (key & Hk & Hp & _).
  exists key. by split.
Defined.

Lemma cli_cannot_sell_seeded_witness : f64_as_u64 (amount_to_sell None (toy_found true)) = 0.
Proof.
  exact (proj1 (@cli_cannot_sell_seeded release toy_sdk Sim sim_rpc toy_text
    (toy_ui (toy_account true)) toy_seeded_client (key_string 66) (toy_session []) (toy_found true)
    (outcome_env (toy_session []) (toy_check (toy_account true)))
    (@valid_initial toy_sdk) (toy_check_runs true) eq_refl)).
Defined.

Lemma wrap_guard_wraps_around_witness :
  @wrap_sol_real release toy_sdk Sim sim_rpc toy_tx_sdk toy_node_tx toy_signature_text
    toy_seeded_client u64_max (toy_session [])
  = (let% instructions := of_ex (@wrap_instructions toy_sdk 11 u64_max) in
     @send_and_show Sim sim_rpc toy_tx_sdk toy_node_tx toy_signature_text 11 instructions)
      (toy_session []).
Proof.
  apply (@wrap_guard_wraps_around release toy_sdk Sim sim_rpc toy_tx_sdk toy_node_tx
    toy_signature_text toy_seeded_client 5000000 (toy_session []) (toy_session [])).
  - reflexivity.
  - by vm_compute.
  - lia.
  - reflexivity.
Defined.
